(* ===== verification/_CoqProject ===== *)
-Q . S2P
Prelude.v
Vocabulary.v
ReasonCodes.v
ReasonReaders.v
StateMachines.v
Sha256.v
Uuid.v
Json.v
JsonRead.v
Disposition.v
Recovery.v
LifecycleTypes.v
LifecycleCore.v
LifecycleFacts.v
LifecycleTraces.v
Composite.v
Reconciler.v
StallWindow.v
Blockers.v
PersistedWaits.v
SparkAttempts.v
SparkOrder.v
SparkOrderFacts.v
ProgressStall.v
ProgressStallFacts.v
Swap.v
ResourceTypes.v
Demand.v
MemorySnapshot.v
Capacity.v
CapacityFacts.v
Settings.v
SettingsFacts.v
Preflight.v
Rows.v
OwnerLiveness.v
OwnerLivenessFacts.v
ProfileCapacity.v
MemoryLedger.v
MemoryLedgerFacts.v
DiskLedger.v
ProfileCapacityFacts.v
ClaimRestore.v
ClaimRestoreFacts.v
CapacityHistory.v
ModelCache.v
ModelCacheFacts.v
ModelCacheOwners.v
ArtifactGates.v
ArtifactGatesFacts.v
RangeTransfer.v
RangeTransferFacts.v
LoginLimiter.v
LoginLimiterFacts.v
BrowserAuth.v
BrowserAuthFacts.v
DueWaits.v
DueWaitsFacts.v
RunPorts.v
RunPortsFacts.v
EvidenceRepeats.v
EvidenceRepeatsFacts.v
LiteLlm.v
RouteBundle.v
RoutePublisher.v
RouteBundleFacts.v
RouteHistory.v
RouteSupervisor.v
RouteSupervisorFacts.v
RouteExamples.v
JobPayload.v
JobAdapter.v
JobQueue.v
JobQueueFacts.v
JobHistory.v
Tokens.v
TokenFacts.v
GatewayKeys.v
GatewayKeysFacts.v
GatewayRevoke.v
