(* ===== verification/Prelude.v ===== *)
(** * Vonk Forge controller: a verification library

    Vonk Forge runs AI workloads on a fleet of DGX Spark nodes.  A Python controller
    (src/control/src/vonk_control) keeps durable rows in a database, decides what to do
    next for each of them, and asks agents on the Sparks to do it; the words both sides
    exchange are in src/agent_protocol/src/vonk_agent_protocol.  This library models the
    controller's decision cores: the code that decides when an effect may run, when a wait
    is over, whether a workload fits a Spark, and who holds the memory, disk and ports of
    a Spark meanwhile.

    ** Parts and files

    The prelude (this file): results with the Python exceptions the code raises, instants
    in microseconds and aware or naive datetimes, Python string helpers, wire
    enumerations ([WireEnum]: a closed list of members with distinct words), the row
    tactics and the shared list lemmas.

    - [Vocabulary]: lifecycle_vocabulary.py and job_states.py.  Each enumeration is a
      module with the source's members; [adopt_state], [stored_words], [is_state] are the
      readers and the query words.
    - [StateMachines]: state_machines.py and machine_states.py, the stored vocabularies
      of installations, runs, routes and so on, with the tolerant reader.
    - [ReasonCodes], [ReasonReaders]: reason_codes/, every reason-code enumeration with its
      words, the union that waits and blockers store, the owner of a word, and the readers
      that adopt older spellings.
    - [Sha256], [Uuid], [Json]: the digests, the name-based identities of claims, and the
      canonical text that the jitter, the stall signature and the settings identity take.
    - [Disposition]: disposition.py, failure_classification.py, security_edges.py.  An
      exception is a record of what the classifier reads, with its cause chain.
    - [Recovery]: recovery_policy.py, the backoff with its jitter and [schedule].
    - [LifecycleTypes], [LifecycleCore]: lifecycle/types.py, adapter.py and core.py.  The
      row is [Lifecycle]; [transition] is the whole decision function with its handlers.
      [LifecycleFacts], [LifecycleTraces] hold its theorems.
    - [Composite]: lifecycle/composite.py.
    - [Reconciler]: lifecycle/reconciler.py.  The effects are state passing over an
      abstract world; the store and the executor are records of operations, and
      [RowStore] and [QuietExecutor] state what the theorems need of them.
    - [StallWindow]: stall_window.py, the verdict whether work is stalled.
    - [Blockers]: operation_blockers.py, what an operation waits for.
    - [PersistedWaits]: persisted_waits.py and wait_contract.py, the evidence and due
      columns of a waiting row with every writer and reader.
    - [SparkAttempts], [SparkOrder], [SparkOrderFacts]: agent_operation_states.py,
      agent_operation_facts.py, offline_stops.py and lifecycle/agent_operation.py, the kind
      adapter of orders to a Spark.  The rows of one order are a [Session]; [settle_order]
      decides an event with the lifecycle core and stores the result.
    - [ProgressStall], [ProgressStallFacts]: progress_stall.py, whether a
      load that keeps waiting moves, with the canonical JSON text of its place.
    - [Swap]: swap.py, how much of a Spark's swap a load may use.
    - [ResourceTypes], [Demand], [MemorySnapshot], [Capacity]: resource_planning/, from
      the memory demand of a recipe rank and the snapshot of a Spark to the capacity plan.
      [CapacityFacts] holds the theorems of the plan.
    - [Settings], [SettingsFacts], [Preflight]: the identity of effective settings, what a
      change of settings requires, and the preflight that joins demand and capacity.
    - [Rows]: the columns and parsed documents of the tables the claim code reads.
    - [OwnerLiveness], [OwnerLivenessFacts]: owner_liveness.py and reservation_owners.py,
      whether the owner of a claim may still run, and the sweep of ended owners.
    - [ProfileCapacity], [ProfileCapacityFacts]: profile_capacity.py,
      fleet_profile_capacity_repair.py, profile_port_promises.py and the claim handoff of
      run_admission.py: reserving, inheriting, repairing and releasing the claims of a load.
    - [MemoryLedger], [MemoryLedgerFacts], [DiskLedger]: memory_reservations.py,
      disk_reservations.py, covered_installation_claims.py and spark_disk.py: what the
      claims charge against an observation of a Spark.
    - [ClaimRestore], [ClaimRestoreFacts]: profile_claim_restore.py, giving the released
      claims back to a load that is live again.
    - [CapacityHistory]: histories of all these operations over one
      claim table, and a concrete load with its real claim ids.
    - [ModelCache], [ModelCacheFacts], [ModelCacheOwners]:
      lifecycle/model_cache.py with model_cache_states.py and the stored forms of
      model_cache_contract.py: the kind adapter of model downloads and removals.  The row is
      [ModelCacheOperation]; [settle_cache], [claim], [renew] are the owner's calls, and
      [adopt_row] moves a legacy row onto its columns.
    - [ArtifactGates], [ArtifactGatesFacts]: artifact_lifecycle.py, the gates that keep a
      removal and a new reference of the same artifact apart.  [Locks] says which advisory
      and row locks others hold; tables that differ in open gates alone are [≡].
    - [RangeTransfer], [RangeTransferFacts]: model_cache_ranges.py, the resumable download
      of one object in byte ranges.  A [Disk] holds the target, range and assembly files, a
      [Schedule] what every attempt of every range meets.
    - [LoginLimiter], [LoginLimiterFacts], [BrowserAuth], [BrowserAuthFacts]:
      browser_auth.py, passwords.py and the roles of auth.py: the limiter of failed logins
      with its two queues, and the sessions of the administrator.
    - [DueWaits], [DueWaitsFacts]: due_waits.py, the fair pass over due rows.  The tables
      and the handlers of their owners are the record [WaitTables] over an abstract world.
    - [RunPorts], [RunPortsFacts]: platform_ports.py and, of run_admission.py, the port
      demand of a rank, its allocation and blockers, and the verdict on a run plan.
    - [JobPayload], [JobAdapter], [JobQueue]: jobs.py, lifecycle/job.py, optimistic.py and
      the generic turn of worker.py: the durable queue of controller jobs, its documents,
      claims, leases and fences.  [JobQueueFacts] and [JobHistory] hold its
      histories, theorems and a concrete queue.
    - [JsonRead]: the reader of json.loads that the route documents and the evidence use.
    - [EvidenceRepeats], [EvidenceRepeatsFacts]: evidence_repeats.py and
      the note it keeps of repeated job evidence, with the retention of old results.
    - [LiteLlm]: of litellm.py, the configuration text that a proxy loads.
    - [RouteBundle], [RouteBundleFacts]: route_runtime.py and route_activation.py, the
      documents of a route bundle, the directory tree that holds them, staging, activation,
      the reader and the acknowledgement.  Every write of a call has a fate, so that a crash
      between two writes is a value.
    - [RoutePublisher]: recipe_routes/publisher.py, publishing a recipe's routes and the
      empty route set.  [RouteHistory] holds the histories of publications
      and their retries.
    - [RouteSupervisor], [RouteSupervisorFacts]: deploy/compose/litellm/config_supervisor.py,
      the process on the proxy's side, as a step machine.  [RouteExamples] is a concrete
      tree with its publications and polls.

    - [Tokens], [TokenFacts]: of auth.py, bearer tokens and query cursors, with Python's
      base64 and comparison of JSON values.
    - [GatewayKeys], [GatewayKeysFacts], [GatewayRevoke]: gateway_keys.py, the virtual keys
      of the inference gateway.  [Env] is what the service asks of the world (the foreign
      key API, the receipt files, locks, drawn values); [FileLaws] and [GatewayLaws] state
      what the theorems need of it, and [Shelf] is a gateway that satisfies them.

    The controller reads a row through the vocabularies, feeds events and ticks to
    [transition] through [settle] and [reconcile], which classify failures with
    [Disposition] and time the next step with [Recovery].  A load waits under
    [StallWindow] and [ProgressStall], and is admitted by [Capacity], whose snapshot of a
    Spark takes the totals of [MemoryLedger].  An admitted load holds claims
    ([ProfileCapacity]) that its runs take over; the sweep of [OwnerLiveness] frees the
    claims of ended owners, and [ClaimRestore] returns them when the load resumes.  An
    order to a Spark is one row of the lifecycle core, stored by [SparkOrder] with the wait
    columns of [PersistedWaits]; so is a model download or removal, stored by [ModelCache].
    [DueWaits] gives every row whose clock is due its turn.  A run that is ready is
    published by [RoutePublisher] as a bundle of files ([RouteBundle]) whose configuration is
    [LiteLlm]'s; [RouteSupervisor] polls the same tree, restarts the proxy on it and
    acknowledges, which is what the publisher waits for.

    ** What the theorems show

    - The lifecycle core is total, keeps the row invariant along every history, never
      repeats an irreversible effect without evidence of absence (an observation or a current
      report that it never ran; a stopped effect ran), ends every cancelled row
      within its stop budget and every lost row within its observation bound, ignores a
      superseded executor, never drops an unknown effect silently, acts on every due row,
      and never sleeps longer than the bounded backoff.
    - The reconciler is a history of the core over the event and what the adapter really
      answered to each command, stores exactly what it settled and overwrites nothing
      another writer changed, in bounded passes.
    - Spark orders: what the core settles is what every later read sees, up to the form the
      columns keep of it ([SparkOrderFacts.read_back]), an order whose
      effect is in doubt is never handed out again, a claim is granted exactly when due,
      and wire words are recorded and read back alike.
    - Waits: every history of writes leaves the two columns together and inside the
      contract, and a rescheduled wait keeps its first clock.
    - Claims: every history keeps the rules of the claim table (no negative amount, no port
      promised twice) and touches no claim of a run, installation or build; a repaired claim
      is the accepted promise; a handoff changes no memory total; a restore
      gives back what was released, with older released claims of the plan; GPU claims behind
      a first host claim are not compared with GPU memory; the sweep releases exactly the ended owners.
    - The job queue: along every history of any number of workers a job runs exactly while
      its current attempt does; a claim takes the oldest claimable job, from no live holder,
      and shuts every earlier fence out for good; a report inside the lease ends the job
      whatever others do; an ended job is final; a request key names one job and one
      content; no secret-looking name is stored but the limit of a valid route.  Coordinator
      rows, created running without an attempt, are not jobs of this queue.
    - The model cache: what the core settles is what every later read sees, in the form the
      row keeps ([ModelCacheFacts.cache_read_back]); a claim is
      granted exactly when due, uncancelled and inside the stall window; a cancel outlives
      every history; a failure spends what its kind says; the adoption of a legacy row
      changes nothing the core reads.
    - Deletion gates: a reservation of a live removal holds against every history of others
      but a newer request that supersedes it, clearing undoes reserving, and an open gate reads like a missing one.
    - Range transfers: the segments partition the object, any interruption leaves prefixes,
      completion means the whole object, and a served call completes from any such state by
      asking for the missing bytes only.
    - Logins: failures are bounded by the limits whatever the interleaving, a lockout holds
      and ends, a success strands the earlier failures of its subject; only the administrator logs in, a session resolves until it expires or is
      revoked, and never after.
    - Due waits: a pass ends within its limit and no row that stays due starves, whatever
      the other rows do.
    - Run ports: the port that is allocated is the one the blockers judge, and siblings of a
      load get distinct ports; an admission waits exactly on retryable blockers.
    - Ledgers: what the memory ledger commits is the worst phase over every set of promises
      already fulfilled; a later disk observation never charges more.
    - Failures: a verdict survives wrapping, a security code cannot be hidden, every
      failure that is not definite has a reason to wait, and retry times stay in bounds.
    - Stalls: only a full silent window ends work; a recurring symptom is not movement; the
      record never grows with history; a place's text determines the place.
    - Capacity: an allowed plan is safe on every pool and for swap, a refusal names a
      blocker, the demand is conservative, the limiting pool is taken, and the swap setting
      a wait names is the smallest that works and admits the load.  The preflight joins
      these from the evidence to the decision; a change of settings takes the strongest
      step any cause requires, and the settings digest hashes a text that determines them.
    - Repeated evidence: dropping retained results is invisible to every later reader, and
      the notes count what was reported.
    - Routes: a publication interrupted anywhere leaves the old bundle or the new one, whole;
      generations grow along every history; a retry of a publication that succeeded writes
      nothing; the supervisor accepts exactly the trees the Controller's reader verifies; an
      acknowledgement names the configuration the proxy serves, and a published bundle gets
      one; the waits for the lock and the acknowledgement end.
    - Tokens and cursors: an issued token is its actor until it expires, a cursor answers to
      the query it was made for only, and neither is ever taken for the other.
    - Gateway keys: a completed receipt is final along every history of calls, so a repeated
      create returns the key it returned, with no effect; a revocation that answers left no
      key of the name, or replays a completed receipt and changes nothing; a create removes the key named like its own rotation.
    - Vocabularies: readers and queries agree on which stored words mean what.

    ** Conventions and bounds

    A Python integer is a [Z]; a duration is a number of microseconds.  Text is a byte
    string (its own UTF-8).  An exception's cause chain is followed for 16 errors, as the
    source does.  A settle takes at most [MAX_STEPS_PER_ROW] decisions.  The search for a
    swap setting uses fuel that [swap_needed_bytes_smallest] shows sufficient.  The row
    store is a finite map.  [evaluate_memory_admission] belongs to the external contracts
    package and is a parameter with the interface [AdmissionContract].  SHA-256,
    SHA-1 and uuid5 are defined in full; that two claim ids differ is a named hypothesis
    where a theorem needs it, and the examples evaluate it.  Database sessions and the
    claim table are values passed through the operations; a query is a filter over a table
    in the order the source asks for, and a stored document is the record of the fields
    that are read, [None] when it cannot be parsed.  Instants are written in UTC.  Row locks
    are left out, except where the code skips a row it cannot lock; rows that other
    transactions change between two reads are two databases, and a commit the database
    refuses is an argument.  The text redaction of logging.py is an argument, and so are clock
    readings, drawn tokens and the argon2 hasher.  The fuel of a due-wait pass is
    [enough_fuel], which [pass_bounded] shows sufficient; the loop over attempts of a range
    is the source's three.  The JSON reader covers ASCII text without fractions and
    exponents; a text outside that is read by an argument.  The route tree is a finite
    map of files; temporary names, file modes and fsync are left out, and a fate says how
    much of a write survived.  The lock loop has fuel 601, which is its deadline over its
    pause, and the acknowledgement loop its timeout over its poll plus two.  The pattern of
    an endpoint alias and the reading of ISO times are parameters.  Calls of the gateway key
    service run one after another; what a second process may do between a read and the claim
    is shown by an example.  The text of a receipt file stands for its SHA-256 name.

    ** Not modelled

    The database engine and its sessions, the other kind adapters over ORM rows, the HTTP
    API and its document validation, logging, the user interface, the host agents (Rust),
    the command line of cluster profiles.  Of the modelled files: the lookup of the accepted
    runtime image (an argument), sibling_profile_runs, the admission lock keys, the agent
    ingress middleware of auth.py, plan_run of run_admission.py, and the transport side of the
    model cache (its executor is a record of effects).  The other lifecycle adapters (recipe_operation.py, run_switch.py, artifact_job.py and
    so on), agent job claims (agent_jobs), run and install admission as services, the fleet
    profile services and operation progress are left out because most of each is SQL over
    many joined tables and calls to packages outside the repository; the decisions they take
    go through the cores modelled here.  Of the route files: the served model information
    and the accepted run rows of publisher.py, and the timing of the proxy's own start and
    stop in the supervisor, which are arguments. *)
From stdpp Require Export base tactics list strings gmap pretty sorting.
From Stdlib Require Export ZArith Lia.

#[global] Open Scope Z_scope.

(** ** Errors

    Python code that may raise returns a [result]; the exceptions are the
    classes the modelled code raises itself. *)
Inductive exn :=
| ValueError (msg : string)
| TypeError (msg : string)
| KeyError (msg : string)
| RuntimeError (msg : string)
(** an outcome the lifecycle core observes again, with the typed reason it waits for *)
| UnknownOutcomeError (msg reason : string)
(** a constraint another writer took: the work is planned again *)
| ConstraintReplan (msg constraint_ : string)
(** a request outside its contract, with its typed reason ([categorized_errors.py]) *)
| InvalidValue (msg reason : string)
| InvalidType (msg reason : string)
| MissingRecord (key reason : string)
(** a constraint violation no record explains *)
| ConstraintDefect (constraint_ : string)
(** a writer whose lease or fence is not current *)
| StaleAttempt (msg : string)
(** an artifact reference that is busy or reserved, or could not be observed
    ([artifact_lifecycle.py]) *)
| ReferenceUnsettled (code msg : string)
| ReferenceUnverified (code msg : string).

Inductive result (A : Type) :=
| Ok (a : A)
| Raise (e : exn).
Arguments Ok {A} a.
Arguments Raise {A} e.

#[global] Instance result_ret : MRet result := fun A a => Ok a.
#[global] Instance result_bind : MBind result := fun A B f m =>
  match m with Ok a => f a | Raise e => Raise e end.
#[global] Instance exn_eq_dec : EqDecision exn.
Proof. solve_decision. Defined.

(** [is_ok r]: the call returned. *)
Definition is_ok {A} (r : result A) : Prop := exists a, r = Ok a.

(** Map a raising function over a list, left to right, stopping at the first error. *)
Fixpoint traverse {A B} (f : A -> result B) (l : list A) : result (list B) :=
  match l with
  | [] => Ok []
  | x :: xs => y ← f x; ys ← traverse f xs; Ok (y :: ys)
  end.

Lemma bind_Ok {A B} (m : result A) (f : A -> result B) b :
  (m ≫= f) = Ok b <-> exists a, m = Ok a /\ f a = Ok b.
Proof.
  destruct m as [a|e]; simpl; split; [eauto|naive_solver|done|naive_solver].
Qed.

Lemma bind_Ok_l {A B} (a : A) (f : A -> result B) : (Ok a ≫= f) = f a.
Proof. done. Qed.

Lemma is_ok_bind {A B} (m : result A) (f : A -> result B) :
  is_ok m -> (forall a, m = Ok a -> is_ok (f a)) -> is_ok (m ≫= f).
Proof. intros [a ->] Hf. exact (Hf a eq_refl). Qed.

Lemma is_ok_Ok {A} (a : A) : is_ok (Ok a).
Proof. by exists a. Qed.

Lemma traverse_Ok {A B} (f : A -> result B) l ys :
  traverse f l = Ok ys <-> Forall2 (fun x y => f x = Ok y) l ys.
Proof.
  revert ys; induction l as [|x l IH]; intros ys; simpl.
  - split; [by intros [= <-]|by inversion 1].
  - rewrite bind_Ok. split.
    + intros (y & Hy & (zs & Hzs & [= <-])%bind_Ok). constructor; naive_solver.
    + inversion 1; subst. eexists; split; [done|]. apply bind_Ok. naive_solver.
Qed.

Lemma traverse_is_ok {A B} (f : A -> result B) l :
  (forall x, x ∈ l -> is_ok (f x)) -> is_ok (traverse f l).
Proof.
  induction l as [|x l IH]; simpl; intros H; [apply is_ok_Ok|].
  apply is_ok_bind; [apply H; left|intros y _].
  apply is_ok_bind; [apply IH; intros z Hz; apply H; by right|intros ys _; apply is_ok_Ok].
Qed.

Lemma traverse_build {A B} (f : A -> result B) (P : A -> B -> Prop) l :
  (forall x, x ∈ l -> exists y, f x = Ok y /\ P x y) ->
  exists ys, traverse f l = Ok ys /\ Forall2 P l ys.
Proof.
  induction l as [|x l IH]; intros H; [by exists []|].
  destruct (H x) as (y & Hy & HP); [left|].
  destruct IH as (ys & Hys & HPs); [intros z Hz; apply H; by right|].
  exists (y :: ys). simpl. rewrite Hy. simpl. rewrite Hys. split; [done|by constructor].
Qed.

(** ** Optional values and Python truth

    [a or b] picks [b] when [a] is falsy.  For an optional string both [None]
    and the empty string are falsy; an optional enum member or instant is falsy
    only as [None]. *)
Definition or_else {A} (a b : option A) : option A :=
  match a with Some _ => a | None => b end.

Definition str_or (a b : option string) : option string :=
  match a with
  | Some s => if decide (s = EmptyString) then b else a
  | None => b
  end.

Definition truthy_str (a : option string) : bool :=
  match a with Some s => bool_decide (s <> EmptyString) | None => false end.

Definition b2z (b : bool) : Z := if b then 1 else 0.

(** [x in (a, b, ...)] on types with decidable equality. *)
Definition mem {A} `{EqDecision A} (x : A) (l : list A) : bool := bool_decide (x ∈ l).

Lemma mem_true {A} `{EqDecision A} (x : A) l : mem x l = true <-> x ∈ l.
Proof. apply bool_decide_eq_true. Qed.

Lemma mem_false {A} `{EqDecision A} (x : A) l : mem x l = false <-> x ∉ l.
Proof. apply bool_decide_eq_false. Qed.

(** [a is b] on enum members. *)
Definition same {A} `{EqDecision A} (a b : A) : bool := bool_decide (a = b).

Lemma same_true {A} `{EqDecision A} (a b : A) : same a b = true <-> a = b.
Proof. apply bool_decide_eq_true. Qed.

Lemma same_false {A} `{EqDecision A} (a b : A) : same a b = false <-> a <> b.
Proof. apply bool_decide_eq_false. Qed.

(** ** Time

    An aware [datetime] is its UTC instant in microseconds (Python compares
    aware datetimes by instant); a [timedelta] is microseconds.  A naive value
    has no instant until its reader gives it one. *)
Definition instant := Z.
Definition seconds (n : Z) : Z := n * 1000000.

Inductive datetime :=
| Aware (utc : instant)
| Naive (clock : Z).

#[global] Instance datetime_eq_dec : EqDecision datetime.
Proof. solve_decision. Defined.

(** [replace(tzinfo=UTC)] of a naive value, [astimezone(UTC)] of an aware one. *)
Definition to_utc (d : datetime) : instant :=
  match d with Aware t => t | Naive t => t end.

(** [max] and [min] of a non-empty Python sequence; [None] on an empty one. *)
Fixpoint max_list (l : list Z) : option Z :=
  match l with
  | [] => None
  | x :: xs => match max_list xs with Some m => Some (Z.max x m) | None => Some x end
  end.

Definition sum_list (l : list Z) : Z := fold_right Z.add 0 l.

Lemma max_list_spec l m :
  max_list l = Some m -> m ∈ l /\ forall x, x ∈ l -> x <= m.
Proof.
  revert m; induction l as [|x l IH]; simpl; intros m; [done|].
  destruct (max_list l) as [k|] eqn:E; intros [= <-].
  - destruct (IH k eq_refl) as [Hk Hle]. split.
    + destruct (Z.max_spec x k) as [[_ ->]|[_ ->]]; [by right|by left].
    + intros y [->|Hy]%elem_of_cons; [lia|]. specialize (Hle y Hy). lia.
  - destruct l as [|y l]; [|simpl in E; by destruct (max_list l)].
    split; [left|]. intros y [->|Hy]%elem_of_cons; [lia|by inversion Hy].
Qed.

Lemma max_list_None l : max_list l = None <-> l = [].
Proof. destruct l as [|x l]; simpl; [done|]. by destruct (max_list l). Qed.

(** Rows with distinct keys are named by them. *)
Lemma key_inj {A B} (g : A -> B) l x y : NoDup (g <$> l) -> x ∈ l -> y ∈ l -> g x = g y -> x = y.
Proof.
  intros Hn Hx Hy E. apply list_elem_of_lookup in Hx as [i Hi], Hy as [k Hk].
  assert (i = k) as <-; [|congruence].
  eapply NoDup_lookup; [exact Hn|rewrite list_lookup_fmap, Hi; done|].
  rewrite list_lookup_fmap, Hk. simpl. by rewrite E.
Qed.

Lemma sum_list_app l k : sum_list (l ++ k) = sum_list l + sum_list k.
Proof. induction l; simpl; lia. Qed.

Lemma sum_list_nonneg l : Forall (fun x => 0 <= x) l -> 0 <= sum_list l.
Proof. induction 1; simpl; lia. Qed.

(** ** Text

    Strings are ASCII text, so a character is a byte and Python's [str] methods
    act on ASCII only. *)
(** ASCII whitespace that [str.strip] removes. *)
Definition is_space (c : Ascii.ascii) : bool :=
  let n := Ascii.nat_of_ascii c in
  (Nat.leb 9 n && Nat.leb n 13) || (Nat.leb 28 n && Nat.leb n 32).

Definition lower_char (c : Ascii.ascii) : Ascii.ascii :=
  let n := Ascii.nat_of_ascii c in
  if Nat.leb 65 n && Nat.leb n 90 then Ascii.ascii_of_nat (n + 32) else c.

Fixpoint map_chars (f : Ascii.ascii -> Ascii.ascii) (s : string) : string :=
  match s with
  | EmptyString => EmptyString
  | String c r => String (f c) (map_chars f r)
  end.

Fixpoint strip_left (s : string) : string :=
  match s with
  | EmptyString => EmptyString
  | String c r => if is_space c then strip_left r else s
  end.

Definition strip (s : string) : string := String.rev (strip_left (String.rev (strip_left s))).

Definition lower : string -> string := map_chars lower_char.

(** [s[:n]] *)
Definition str_take (n : nat) (s : string) : string := String.substring 0 n s.

(** [value.endswith(suffix)] *)
Definition ends_with (suffix s : string) : bool :=
  String.prefix (String.rev suffix) (String.rev s).

(** [sep.join(parts)] *)
Fixpoint join (sep : string) (l : list string) : string :=
  match l with
  | [] => EmptyString
  | [x] => x
  | x :: rest => x +:+ sep +:+ join sep rest
  end.

Lemma substring_all s : String.substring 0 (String.length s) s = s.
Proof. induction s as [|c s IH]; [done|]. simpl. by rewrite IH. Qed.

(** Every character of a text passes a test. *)
Fixpoint all_chars (f : Ascii.ascii -> bool) (s : string) : bool :=
  match s with EmptyString => true | String c r => f c && all_chars f r end.

Lemma all_chars_app f a b : all_chars f (a +:+ b) = all_chars f a && all_chars f b.
Proof. induction a as [|c a IH]; simpl; [done|]. change (all_chars f (a +:+ b)) with (all_chars f (a +:+ b)).
  by rewrite <- andb_assoc, <- IH. Qed.

Lemma all_chars_impl (f g : Ascii.ascii -> bool) s :
  (forall c, f c = true -> g c = true) -> all_chars f s = true -> all_chars g s = true.
Proof.
  intros H. induction s as [|c s IH]; simpl; [done|]. intros [Hc Hs]%andb_prop. by rewrite H, IH.
Qed.

(** [sorted] on strings: code-point order. *)
Definition str_le (a b : string) : Prop := String.leb a b = true.
#[global] Instance str_le_dec a b : Decision (str_le a b) := decide (String.leb a b = true).
Definition sorted : list string -> list string := merge_sort str_le.

Lemma str_le_total : Total str_le.
Proof. intros a b. apply String.leb_total. Qed.

Lemma str_le_cons (x y : Ascii.ascii) (a b : string) :
  str_le (String x a) (String y b) <->
  (Ascii.N_of_ascii x < Ascii.N_of_ascii y)%N \/ x = y /\ str_le a b.
Proof.
  unfold str_le, String.leb. simpl. unfold Ascii.compare.
  destruct (N.compare_spec (Ascii.N_of_ascii x) (Ascii.N_of_ascii y)) as [H|H|H].
  - assert (x = y) as ->.
    { rewrite <- (Ascii.ascii_N_embedding x), <- (Ascii.ascii_N_embedding y). by rewrite H. }
    naive_solver lia.
  - naive_solver.
  - split; [done|]. intros [?|[-> _]]; lia.
Qed.

Lemma str_le_trans : Transitive str_le.
Proof.
  intros a. induction a as [|x a IH]; intros [|y b] [|z c]; try done.
  rewrite !str_le_cons. intros [?|[-> ?]] [?|[-> ?]]; [left; lia|by left|by left|].
  right. split; [done|]. eauto.
Qed.

Lemma str_app_assoc (a b c : string) : (a +:+ b) +:+ c = a +:+ b +:+ c.
Proof.
  induction a as [|x a IH]; [done|].
  change (String x ((a +:+ b) +:+ c) = String x (a +:+ b +:+ c)). by rewrite IH.
Qed.

(** ** Closed word sets

    A [WireEnum] is a closed set of members, each with one stored word, in
    definition order ([agent_protocol] [wire_model.WireEnum]). *)
Class WireEnum (E : Type) := {
  enum_eq :: EqDecision E;
  members : list E;
  value : E -> string;
  members_complete : forall e, e ∈ members;
  values_nodup : NoDup (value <$> members);
}.

(** [E(word)]: the member a word names ([ValueError] is [None] here). *)
Definition of_word {E} `{WireEnum E} (w : string) : option E :=
  find (fun m => String.eqb (value m) w) members.

Section wire_enum.
Context {E : Type} `{WireEnum E}.

Lemma find_Some_elem (P : E -> bool) l e :
  find P l = Some e -> e ∈ l /\ P e = true.
Proof.
  intros Hf%List.find_some. by rewrite list_elem_of_In.
Qed.

Lemma value_inj (a b : E) : value a = value b -> a = b.
Proof.
  intros Hv.
  destruct (proj1 (list_elem_of_lookup members a) (members_complete a)) as [i Hi].
  destruct (proj1 (list_elem_of_lookup members b) (members_complete b)) as [j Hj].
  assert (i = j) as ->.
  { eapply (NoDup_lookup (value <$> members)); [apply values_nodup|..].
    - rewrite list_lookup_fmap, Hi. done.
    - rewrite list_lookup_fmap, Hj. simpl. by rewrite Hv. }
  congruence.
Qed.

Lemma of_word_value (e : E) : of_word (value e) = Some e.
Proof.
  unfold of_word. destruct (find _ members) as [x|] eqn:Ef.
  - apply find_Some_elem in Ef as [_ ->%String.eqb_eq%value_inj]. done.
  - exfalso. pose proof (List.find_none _ _ Ef e) as Hn.
    rewrite <- list_elem_of_In in Hn. specialize (Hn (members_complete e)).
    simpl in Hn. by rewrite String.eqb_refl in Hn.
Qed.

Lemma of_word_Some (w : string) (e : E) : of_word w = Some e <-> value e = w.
Proof.
  split; [|intros <-; apply of_word_value].
  unfold of_word. by intros [_ ?%String.eqb_eq]%find_Some_elem.
Qed.

Lemma of_word_None (w : string) : of_word (E:=E) w = None <-> w ∉ value <$> members (E:=E).
Proof.
  split.
  - intros Hn (e & -> & _)%list_elem_of_fmap. by rewrite of_word_value in Hn.
  - intros Hn. destruct (of_word w) as [e|] eqn:Ee; [|done].
    exfalso. apply Hn. apply list_elem_of_fmap. exists e.
    split; [symmetry; by apply of_word_Some|apply members_complete].
Qed.
End wire_enum.

(** Build an enum instance by evaluation. *)
Ltac solve_wire_enum :=
  solve [ intros []; apply (bool_decide_unpack _); vm_compute; exact I
        | apply (bool_decide_unpack _); vm_compute; exact I ].

(** The same for a large enum, from the one fact that decoding a member's word finds
    it: linear in the members, where deciding equality by cases is quadratic. *)
Section decoded.
Context {E : Type} (ms : list E) (word : E -> string)
  (Hdecode : forall e, find (fun m => String.eqb (word m) (word e)) ms = Some e).

Lemma decoded_inj a b : word a = word b -> a = b.
Proof. intros H. pose proof (Hdecode a) as Ha. rewrite H, Hdecode in Ha. by injection Ha. Qed.

Definition decoded_eq : EqDecision E := fun a b =>
  match decide (word a = word b) with
  | left H => left (decoded_inj a b H)
  | right H => right (fun E => H (f_equal word E))
  end.

Definition decoded_enum (Hnd : bool_decide (NoDup (word <$> ms)) = true) : WireEnum E := {|
  enum_eq := decoded_eq;
  members := ms;
  value := word;
  members_complete e :=
    proj2 (list_elem_of_In ms e) (proj1 (List.find_some _ _ (Hdecode e)));
  values_nodup := bool_decide_eq_true_1 _ Hnd;
|}.
End decoded.

(** ** Filters and flat maps *)
Lemma filter_ext_elem {A} (f g : A -> bool) l :
  (forall x, x ∈ l -> f x = g x) -> List.filter f l = List.filter g l.
Proof. intros H. apply List.filter_ext_in. intros x Hx. apply H. by apply list_elem_of_In. Qed.

Lemma filter_filter {A} (f g : A -> bool) l :
  List.filter f (List.filter g l) = List.filter (fun x => g x && f x) l.
Proof. induction l as [|x l IH]; [done|]. simpl. destruct (g x); simpl; [destruct (f x)|]; by rewrite IH. Qed.

Lemma filter_comm {A} (f g : A -> bool) l : List.filter f (List.filter g l) = List.filter g (List.filter f l).
Proof. rewrite !filter_filter. apply filter_ext_elem. intros x _. apply andb_comm. Qed.

Lemma filter_true {A} (f : A -> bool) l : (forall x, x ∈ l -> f x = true) -> List.filter f l = l.
Proof. intros H. rewrite (filter_ext_elem f (fun _ => true)) by exact H. clear. induction l; simpl; congruence. Qed.

Lemma filter_false {A} (f : A -> bool) l : (forall x, x ∈ l -> f x = false) -> List.filter f l = [].
Proof. intros H. rewrite (filter_ext_elem f (fun _ => false)) by exact H. clear. induction l; simpl; congruence. Qed.

Lemma filter_flat_map {A B} (f : A -> list B) (g : B -> bool) l :
  List.filter g (flat_map f l) = flat_map (fun a => List.filter g (f a)) l.
Proof. induction l as [|a l IH]; [done|]. simpl. by rewrite List.filter_app, IH. Qed.

Lemma flat_map_filter {A B} (f : A -> list B) (g : A -> bool) l :
  flat_map f (List.filter g l) = flat_map (fun a => if g a then f a else []) l.
Proof. induction l as [|a l IH]; [done|]. simpl. destruct (g a); simpl; by rewrite IH. Qed.

Lemma flat_map_ext_elem {A B} (f g : A -> list B) l :
  (forall a, a ∈ l -> f a = g a) -> flat_map f l = flat_map g l.
Proof.
  intros H. induction l as [|a l IH]; [done|]. simpl. rewrite H by left. f_equal.
  apply IH. intros b Hb. apply H. by right.
Qed.

Lemma elem_of_flat_map {A B} (f : A -> list B) l b : b ∈ flat_map f l <-> exists a, a ∈ l /\ b ∈ f a.
Proof.
  rewrite list_elem_of_In, in_flat_map. setoid_rewrite list_elem_of_In. done.
Qed.

Lemma elem_of_filter_bool {A} (f : A -> bool) l x : x ∈ List.filter f l <-> x ∈ l /\ f x = true.
Proof. rewrite !list_elem_of_In. apply List.filter_In. Qed.

Lemma existsb_elem {A} (f : A -> bool) l : existsb f l = true <-> exists x, x ∈ l /\ f x = true.
Proof. rewrite existsb_exists. by setoid_rewrite list_elem_of_In. Qed.

Lemma existsb_none {A} (f : A -> bool) l : existsb f l = false <-> forall x, x ∈ l -> f x = false.
Proof.
  rewrite <- not_true_iff_false, existsb_elem. split.
  - intros H x Hx. apply not_true_iff_false. intros Hf. apply H. eauto.
  - intros H (x & Hx & Hf). by rewrite H in Hf.
Qed.

Lemma forallb_elem {A} (f : A -> bool) l : forallb f l = true <-> forall x, x ∈ l -> f x = true.
Proof. rewrite forallb_forall. setoid_rewrite list_elem_of_In. done. Qed.

(** ** Automation *)
Create HintDb vonk.
#[export] Hint Resolve is_ok_Ok : vonk.

(** Reduce the boolean tests of the code to propositions. *)
Ltac bools :=
  repeat match goal with
  | H : _ && _ = true |- _ => apply andb_true_iff in H; destruct H
  | H : _ || _ = false |- _ => apply orb_false_iff in H; destruct H
  | H : negb _ = true |- _ => apply negb_true_iff in H
  | H : negb _ = false |- _ => apply negb_false_iff in H
  | H : same _ _ = true |- _ => apply (proj1 (same_true _ _)) in H
  | H : same _ _ = false |- _ => apply (proj1 (same_false _ _)) in H
  | H : mem _ _ = true |- _ => apply (proj1 (mem_true _ _)) in H
  | H : mem _ _ = false |- _ => apply (proj1 (mem_false _ _)) in H
  | H : bool_decide _ = true |- _ => apply (proj1 (bool_decide_eq_true _)) in H
  | H : bool_decide _ = false |- _ => apply (proj1 (bool_decide_eq_false _)) in H
  | H : (_ <=? _) = true |- _ => apply Z.leb_le in H
  | H : (_ <=? _) = false |- _ => apply Z.leb_gt in H
  | H : (_ <? _) = true |- _ => apply Z.ltb_lt in H
  | H : (_ <? _) = false |- _ => apply Z.ltb_ge in H
  | H : (_ =? _) = true |- _ => apply Z.eqb_eq in H
  | H : (_ =? _) = false |- _ => apply Z.eqb_neq in H
  end.

(** Split every match or test the goal or a hypothesis is stuck on. *)
Ltac split_match :=
  match goal with
  | |- context [match ?x with _ => _ end] => destruct x eqn:?
  | H : context [match ?x with _ => _ end] |- _ => destruct x eqn:?
  end.

(** Expose the values of a run of bound calls that returned. *)
Ltac unbind :=
  repeat match goal with
  | H : (_ ≫= _) = Ok _ |- _ =>
      let x := fresh "v" in let Hx := fresh "Hv" in
      apply bind_Ok in H; destruct H as (x & Hx & H)
  | H : Ok _ = Ok _ |- _ => injection H as H
  | H : Raise _ = Ok _ |- _ => discriminate H
  end.
