(* ===== verification/Vocabulary.v ===== *)
(** * The lifecycle and outcome vocabulary

    [agent_protocol/src/vonk_agent_protocol/lifecycle_vocabulary.py]: the closed
    words of a stored lifecycle state, an agent result, an effect, an outcome,
    a wait reason and a refusal, and the readers every stored state goes
    through.  One module per enum, so a member reads as in the source
    ([LifecycleState.QUEUED]); each is a [WireEnum] instance, so its words are
    distinct and reading a member's own word gives it back. *)
From S2P Require Import Prelude.

(** The nine lifecycle states: the one vocabulary a stored ``state`` speaks. *)
Module LifecycleState.
Inductive LifecycleState :=
  QUEUED | RUNNING | OBSERVING | BACKOFF | SUCCEEDED | FAILED | CANCELLED | SUPERSEDED
  | NEEDS_OPERATOR.
Definition LifecycleState_value (e : LifecycleState) : string :=
  match e with
  | QUEUED => "queued"
  | RUNNING => "running"
  | OBSERVING => "observing"
  | BACKOFF => "backoff"
  | SUCCEEDED => "succeeded"
  | FAILED => "failed"
  | CANCELLED => "cancelled"
  | SUPERSEDED => "superseded"
  | NEEDS_OPERATOR => "needs-operator"
  end.
#[global] Instance LifecycleState_eq : EqDecision LifecycleState.
Proof. solve_decision. Defined.
#[global] Instance LifecycleState_enum : WireEnum LifecycleState.
Proof.
  refine {| members :=
    [QUEUED; RUNNING; OBSERVING; BACKOFF; SUCCEEDED; FAILED; CANCELLED; SUPERSEDED;
     NEEDS_OPERATOR];
    value := LifecycleState_value |}; solve_wire_enum.
Defined.
End LifecycleState.
Abbreviation LifecycleState := LifecycleState.LifecycleState.

(** The state words of an agent result on the wire. *)
Module AgentResultState.
Inductive AgentResultState :=
  SUCCEEDED | FAILED | CANCELLED | OBSERVING.
Definition AgentResultState_value (e : AgentResultState) : string :=
  match e with
  | SUCCEEDED => "succeeded"
  | FAILED => "failed"
  | CANCELLED => "cancelled"
  | OBSERVING => "observing"
  end.
#[global] Instance AgentResultState_eq : EqDecision AgentResultState.
Proof. solve_decision. Defined.
#[global] Instance AgentResultState_enum : WireEnum AgentResultState.
Proof.
  refine {| members :=
    [SUCCEEDED; FAILED; CANCELLED; OBSERVING];
    value := AgentResultState_value |}; solve_wire_enum.
Defined.
End AgentResultState.
Abbreviation AgentResultState := AgentResultState.AgentResultState.

(** What is known about the real-world effect of the work. *)
Module LifecycleEffect.
Inductive LifecycleEffect :=
  UNKNOWN | NONE | ISSUED | ESTABLISHED | STOPPED.
Definition LifecycleEffect_value (e : LifecycleEffect) : string :=
  match e with
  | UNKNOWN => "unknown"
  | NONE => "none"
  | ISSUED => "issued"
  | ESTABLISHED => "established"
  | STOPPED => "stopped"
  end.
#[global] Instance LifecycleEffect_eq : EqDecision LifecycleEffect.
Proof. solve_decision. Defined.
#[global] Instance LifecycleEffect_enum : WireEnum LifecycleEffect.
Proof.
  refine {| members :=
    [UNKNOWN; NONE; ISSUED; ESTABLISHED; STOPPED];
    value := LifecycleEffect_value |}; solve_wire_enum.
Defined.
End LifecycleEffect.
Abbreviation LifecycleEffect := LifecycleEffect.LifecycleEffect.

(** What an executor reported, as the lifecycle core sees it. *)
Module OutcomeKind.
Inductive OutcomeKind :=
  DONE | FAILED | CANCELLED | UNKNOWN.
Definition OutcomeKind_value (e : OutcomeKind) : string :=
  match e with
  | DONE => "done"
  | FAILED => "failed"
  | CANCELLED => "cancelled"
  | UNKNOWN => "unknown"
  end.
#[global] Instance OutcomeKind_eq : EqDecision OutcomeKind.
Proof. solve_decision. Defined.
#[global] Instance OutcomeKind_enum : WireEnum OutcomeKind.
Proof.
  refine {| members :=
    [DONE; FAILED; CANCELLED; UNKNOWN];
    value := OutcomeKind_value |}; solve_wire_enum.
Defined.
End OutcomeKind.
Abbreviation OutcomeKind := OutcomeKind.OutcomeKind.

(** Whether an idempotent stop confirmed that the effect is gone. *)
Module StopOutcome.
Inductive StopOutcome :=
  CONFIRMED | UNCONFIRMED.
Definition StopOutcome_value (e : StopOutcome) : string :=
  match e with
  | CONFIRMED => "confirmed"
  | UNCONFIRMED => "unconfirmed"
  end.
#[global] Instance StopOutcome_eq : EqDecision StopOutcome.
Proof. solve_decision. Defined.
#[global] Instance StopOutcome_enum : WireEnum StopOutcome.
Proof.
  refine {| members :=
    [CONFIRMED; UNCONFIRMED];
    value := StopOutcome_value |}; solve_wire_enum.
Defined.
End StopOutcome.
Abbreviation StopOutcome := StopOutcome.StopOutcome.

(** The operator actions a row can advertise and the core accepts. *)
Module OperatorActionName.
Inductive OperatorActionName :=
  RESUME | RETIRE | RETRY | STOP.
Definition OperatorActionName_value (e : OperatorActionName) : string :=
  match e with
  | RESUME => "resume"
  | RETIRE => "retire"
  | RETRY => "retry"
  | STOP => "stop"
  end.
#[global] Instance OperatorActionName_eq : EqDecision OperatorActionName.
Proof. solve_decision. Defined.
#[global] Instance OperatorActionName_enum : WireEnum OperatorActionName.
Proof.
  refine {| members :=
    [RESUME; RETIRE; RETRY; STOP];
    value := OperatorActionName_value |}; solve_wire_enum.
Defined.
End OperatorActionName.
Abbreviation OperatorActionName := OperatorActionName.OperatorActionName.

(** The persisted models whose ``state`` the lifecycle core owns. *)
Module LifecycleSubject.
Inductive LifecycleSubject :=
  JOB | JOB_ATTEMPT | AGENT_OPERATION | AGENT_OPERATION_ATTEMPT | MODEL_CACHE_OPERATION
  | ARTIFACT_JOB | FLEET_PROFILE_APPLICATION.
Definition LifecycleSubject_value (e : LifecycleSubject) : string :=
  match e with
  | JOB => "Job"
  | JOB_ATTEMPT => "JobAttempt"
  | AGENT_OPERATION => "AgentOperation"
  | AGENT_OPERATION_ATTEMPT => "AgentOperationAttempt"
  | MODEL_CACHE_OPERATION => "ModelCacheOperation"
  | ARTIFACT_JOB => "ArtifactJob"
  | FLEET_PROFILE_APPLICATION => "FleetProfileApplication"
  end.
#[global] Instance LifecycleSubject_eq : EqDecision LifecycleSubject.
Proof. solve_decision. Defined.
#[global] Instance LifecycleSubject_enum : WireEnum LifecycleSubject.
Proof.
  refine {| members :=
    [JOB; JOB_ATTEMPT; AGENT_OPERATION; AGENT_OPERATION_ATTEMPT; MODEL_CACHE_OPERATION;
     ARTIFACT_JOB; FLEET_PROFILE_APPLICATION];
    value := LifecycleSubject_value |}; solve_wire_enum.
Defined.
End LifecycleSubject.
Abbreviation LifecycleSubject := LifecycleSubject.LifecycleSubject.

(** The retired spelling of an agent result's state, adopted on read only. *)
Module StateAlias.
Inductive StateAlias :=
  WAITING_FOR_OPERATOR.
Definition StateAlias_value (e : StateAlias) : string :=
  match e with
  | WAITING_FOR_OPERATOR => "waiting-for-operator"
  end.
#[global] Instance StateAlias_eq : EqDecision StateAlias.
Proof. solve_decision. Defined.
#[global] Instance StateAlias_enum : WireEnum StateAlias.
Proof.
  refine {| members :=
    [WAITING_FOR_OPERATOR];
    value := StateAlias_value |}; solve_wire_enum.
Defined.
End StateAlias.
Abbreviation StateAlias := StateAlias.StateAlias.

(** Why an attempt is being observed rather than settled. *)
Module ObservationCause.
Inductive ObservationCause :=
  REPORTED_UNKNOWN | LEASE_LAPSED.
Definition ObservationCause_value (e : ObservationCause) : string :=
  match e with
  | REPORTED_UNKNOWN => "reported-unknown"
  | LEASE_LAPSED => "lease-lapsed"
  end.
#[global] Instance ObservationCause_eq : EqDecision ObservationCause.
Proof. solve_decision. Defined.
#[global] Instance ObservationCause_enum : WireEnum ObservationCause.
Proof.
  refine {| members :=
    [REPORTED_UNKNOWN; LEASE_LAPSED];
    value := ObservationCause_value |}; solve_wire_enum.
Defined.
End ObservationCause.
Abbreviation ObservationCause := ObservationCause.ObservationCause.

(** The categories of the blocker allowlist (fail-closed raises). *)
Module BlockerCategory.
Inductive BlockerCategory :=
  SECURITY_EDGE | INPUT_VALIDATION | ALREADY_RETRIED | BOOKKEEPING_DEBT.
Definition BlockerCategory_value (e : BlockerCategory) : string :=
  match e with
  | SECURITY_EDGE => "security-edge"
  | INPUT_VALIDATION => "input-validation"
  | ALREADY_RETRIED => "already-retried"
  | BOOKKEEPING_DEBT => "bookkeeping-debt"
  end.
#[global] Instance BlockerCategory_eq : EqDecision BlockerCategory.
Proof. solve_decision. Defined.
#[global] Instance BlockerCategory_enum : WireEnum BlockerCategory.
Proof.
  refine {| members :=
    [SECURITY_EDGE; INPUT_VALIDATION; ALREADY_RETRIED; BOOKKEEPING_DEBT];
    value := BlockerCategory_value |}; solve_wire_enum.
Defined.
End BlockerCategory.
Abbreviation BlockerCategory := BlockerCategory.BlockerCategory.

(** The only three things a lifecycle adapter may raise or report. *)
Module ErrorCategory.
Inductive ErrorCategory :=
  SECURITY_REFUSAL | INVALID_REQUEST | UNKNOWN.
Definition ErrorCategory_value (e : ErrorCategory) : string :=
  match e with
  | SECURITY_REFUSAL => "security-refusal"
  | INVALID_REQUEST => "invalid-request"
  | UNKNOWN => "unknown"
  end.
#[global] Instance ErrorCategory_eq : EqDecision ErrorCategory.
Proof. solve_decision. Defined.
#[global] Instance ErrorCategory_enum : WireEnum ErrorCategory.
Proof.
  refine {| members :=
    [SECURITY_REFUSAL; INVALID_REQUEST; UNKNOWN];
    value := ErrorCategory_value |}; solve_wire_enum.
Defined.
End ErrorCategory.
Abbreviation ErrorCategory := ErrorCategory.ErrorCategory.

(** Typed reasons for work awaiting execution or confirmation. *)
Module WaitReason.
Inductive WaitReason :=
  SPARK_BUSY | OPERATION_NOT_ENABLED | UPGRADE_AWAITING_IDENTITY | AGENT_RESTART_INTERRUPTED
  | STOP_UNCONFIRMED | CLEANUP_UNCONFIRMED | STOP_METADATA_UNCONFIRMED
  | RETAINED_IDENTITY_MISMATCH | MODEL_CUSTODY_UNCONFIRMED | RUNTIME_EFFECT_UNCONFIRMED
  | JOB_STOP_UNCONFIRMED | JOB_STATE_UNCERTAIN | LEASE_LAPSED | REPORT_UNCERTAIN
  | OBSERVATION_UNAVAILABLE | RECEIPT_MISSING | STALE_PLAN | SCOPE_CHANGED
  | LEGACY_UNCLASSIFIED.
Definition WaitReason_value (e : WaitReason) : string :=
  match e with
  | SPARK_BUSY => "queue.spark_busy"
  | OPERATION_NOT_ENABLED => "operation-not-enabled"
  | UPGRADE_AWAITING_IDENTITY => "agent-upgrade-awaiting-identity"
  | AGENT_RESTART_INTERRUPTED => "agent-restart-interrupted"
  | STOP_UNCONFIRMED => "stop-unconfirmed"
  | CLEANUP_UNCONFIRMED => "cleanup-unconfirmed"
  | STOP_METADATA_UNCONFIRMED => "stop-metadata-unconfirmed"
  | RETAINED_IDENTITY_MISMATCH => "retained-identity-mismatch"
  | MODEL_CUSTODY_UNCONFIRMED => "model-custody-unconfirmed"
  | RUNTIME_EFFECT_UNCONFIRMED => "runtime-effect-unconfirmed"
  | JOB_STOP_UNCONFIRMED => "job-stop-unconfirmed"
  | JOB_STATE_UNCERTAIN => "job-state-uncertain"
  | LEASE_LAPSED => "lease-lapsed"
  | REPORT_UNCERTAIN => "report-uncertain"
  | OBSERVATION_UNAVAILABLE => "observation-unavailable"
  | RECEIPT_MISSING => "receipt-missing"
  | STALE_PLAN => "stale-plan"
  | SCOPE_CHANGED => "scope-changed"
  | LEGACY_UNCLASSIFIED => "legacy-unclassified"
  end.
#[global] Instance WaitReason_eq : EqDecision WaitReason.
Proof. solve_decision. Defined.
#[global] Instance WaitReason_enum : WireEnum WaitReason.
Proof.
  refine {| members :=
    [SPARK_BUSY; OPERATION_NOT_ENABLED; UPGRADE_AWAITING_IDENTITY; AGENT_RESTART_INTERRUPTED;
     STOP_UNCONFIRMED; CLEANUP_UNCONFIRMED; STOP_METADATA_UNCONFIRMED;
     RETAINED_IDENTITY_MISMATCH; MODEL_CUSTODY_UNCONFIRMED; RUNTIME_EFFECT_UNCONFIRMED;
     JOB_STOP_UNCONFIRMED; JOB_STATE_UNCERTAIN; LEASE_LAPSED; REPORT_UNCERTAIN;
     OBSERVATION_UNAVAILABLE; RECEIPT_MISSING; STALE_PLAN; SCOPE_CHANGED;
     LEGACY_UNCLASSIFIED];
    value := WaitReason_value |}; solve_wire_enum.
Defined.
End WaitReason.
Abbreviation WaitReason := WaitReason.WaitReason.

(** What the owner must establish before resuming accepted work. *)
Module WaitResumeCondition.
Inductive WaitResumeCondition :=
  DEPENDENCY_CHANGED | EFFECT_OBSERVED | RETRY_DUE | OPERATOR_ACTION.
Definition WaitResumeCondition_value (e : WaitResumeCondition) : string :=
  match e with
  | DEPENDENCY_CHANGED => "dependency-changed"
  | EFFECT_OBSERVED => "effect-observed"
  | RETRY_DUE => "retry-due"
  | OPERATOR_ACTION => "operator-action"
  end.
#[global] Instance WaitResumeCondition_eq : EqDecision WaitResumeCondition.
Proof. solve_decision. Defined.
#[global] Instance WaitResumeCondition_enum : WireEnum WaitResumeCondition.
Proof.
  refine {| members :=
    [DEPENDENCY_CHANGED; EFFECT_OBSERVED; RETRY_DUE; OPERATOR_ACTION];
    value := WaitResumeCondition_value |}; solve_wire_enum.
Defined.
End WaitResumeCondition.
Abbreviation WaitResumeCondition := WaitResumeCondition.WaitResumeCondition.

Module ProgressAlarmCode.
Inductive ProgressAlarmCode :=
  STALLED.
Definition ProgressAlarmCode_value (e : ProgressAlarmCode) : string :=
  match e with
  | STALLED => "progress.stalled"
  end.
#[global] Instance ProgressAlarmCode_eq : EqDecision ProgressAlarmCode.
Proof. solve_decision. Defined.
#[global] Instance ProgressAlarmCode_enum : WireEnum ProgressAlarmCode.
Proof.
  refine {| members :=
    [STALLED];
    value := ProgressAlarmCode_value |}; solve_wire_enum.
Defined.
End ProgressAlarmCode.
Abbreviation ProgressAlarmCode := ProgressAlarmCode.ProgressAlarmCode.

(** Closed reason codes of a security refusal: a real security boundary. *)
Module SecurityRefusalReason.
Inductive SecurityRefusalReason :=
  HTTP_401 | HTTP_403 | AGENT_CERTIFICATE_ROTATION_CONFLICT
  | AGENT_ENROLLMENT_SUBMIT_REJECTED | AGENT_EXPIRED_RENEWAL_REFUSED
  | AGENT_EXPIRED_RENEWAL_GRACE_EXHAUSTED | AGENT_IDENTITY_MISMATCH | AGENT_TOMBSTONE_FENCED
  | CATALOG_AUTHENTICATION_REQUIRED | CONTROLLER_AUTHENTICATION_REQUIRED
  | CONTROLLER_FLEET_ENROLLMENT_DENIED | CONTROLLER_REQUEST_REJECTED | DIGEST_MISMATCH
  | DISTRIBUTION_REVOKED | FORBIDDEN | GRANT_INVALID | GRANT_NODE_MISMATCH
  | GRANT_UNAUTHORIZED | HELPER_AUTHORIZATION_INVALID | HELPER_GRANT_INVALID
  | HELPER_GRANT_NODE_MISMATCH | HELPER_GRANT_UNAUTHORIZED
  | HELPER_OPERATION_INVALID_ARTIFACT | HELPER_PEER_IDENTITY_INVALID
  | HELPER_REQUEST_INSTALLATION_IDENTITY_INVALID | HELPER_REQUEST_PLAN_BINDING_INVALID
  | HELPER_REQUEST_REPLAYED | HELPER_RUNTIME_IMAGE_IDENTITY_INVALID
  | HOST_HELPER_AUTHORITY_DENIED | LOCAL_IDENTITY_EXPIRED | LOCAL_IDENTITY_FAILED
  | MODEL_CACHE_CREDENTIALS_DENIED | MODEL_CACHE_CREDENTIALS_INVALID
  | MODEL_CACHE_SOURCE_ACCESS_DENIED | OPERATION_INVALID_ARTIFACT | PEER_IDENTITY_INVALID
  | PERMISSION_DENIED | RECIPE_UPDATE_AUTHORITY_DENIED | REQUEST_REPLAYED
  | RUN_SWITCH_ARTIFACT_DIGEST_VERIFICATION_FAILED
  | RUN_SWITCH_CLEANUP_NAS_EVICTION_FORBIDDEN
  | RUN_SWITCH_CLEANUP_RECLAIMED_DIGEST_NOT_PLANNED
  | RUN_SWITCH_RUNTIME_IMAGE_PREPARATION_DIGEST_MISMATCH
  | RUNTIME_IMAGE_AUTHORIZATION_INVALID | RUNTIME_IMAGE_AUTHORIZATION_REVOKED
  | RUNTIME_IMAGE_IDENTITY_INVALID | STALE_FENCE | TUF_METADATA_INVALID
  | TUF_SIGNATURE_INVALID | UNAUTHORIZED | UNSAFE_PATH.
Definition SecurityRefusalReason_value (e : SecurityRefusalReason) : string :=
  match e with
  | HTTP_401 => "401"
  | HTTP_403 => "403"
  | AGENT_CERTIFICATE_ROTATION_CONFLICT => "agent.certificate.rotation.conflict"
  | AGENT_ENROLLMENT_SUBMIT_REJECTED => "agent.enrollment.submit.rejected"
  | AGENT_EXPIRED_RENEWAL_REFUSED => "agent.expired_renewal_refused"
  | AGENT_EXPIRED_RENEWAL_GRACE_EXHAUSTED => "agent.expired_renewal_grace_exhausted"
  | AGENT_IDENTITY_MISMATCH => "agent.identity_mismatch"
  | AGENT_TOMBSTONE_FENCED => "agent.tombstone_fenced"
  | CATALOG_AUTHENTICATION_REQUIRED => "catalog.authentication_required"
  | CONTROLLER_AUTHENTICATION_REQUIRED => "controller.authentication_required"
  | CONTROLLER_FLEET_ENROLLMENT_DENIED => "controller.fleet.enrollment_denied"
  | CONTROLLER_REQUEST_REJECTED => "controller.request_rejected"
  | DIGEST_MISMATCH => "digest_verification_failed"
  | DISTRIBUTION_REVOKED => "distribution.revoked"
  | FORBIDDEN => "forbidden"
  | GRANT_INVALID => "grant_invalid"
  | GRANT_NODE_MISMATCH => "grant_node_mismatch"
  | GRANT_UNAUTHORIZED => "grant_unauthorized"
  | HELPER_AUTHORIZATION_INVALID => "helper.authorization_invalid"
  | HELPER_GRANT_INVALID => "helper_grant_invalid"
  | HELPER_GRANT_NODE_MISMATCH => "helper_grant_node_mismatch"
  | HELPER_GRANT_UNAUTHORIZED => "helper_grant_unauthorized"
  | HELPER_OPERATION_INVALID_ARTIFACT => "helper_operation_invalid_artifact"
  | HELPER_PEER_IDENTITY_INVALID => "helper_peer_identity_invalid"
  | HELPER_REQUEST_INSTALLATION_IDENTITY_INVALID => "helper_request_installation_identity_invalid"
  | HELPER_REQUEST_PLAN_BINDING_INVALID => "helper_request_plan_binding_invalid"
  | HELPER_REQUEST_REPLAYED => "helper_request_replayed"
  | HELPER_RUNTIME_IMAGE_IDENTITY_INVALID => "helper_runtime_image_identity_invalid"
  | HOST_HELPER_AUTHORITY_DENIED => "host_helper.authority_denied"
  | LOCAL_IDENTITY_EXPIRED => "local.identity_expired"
  | LOCAL_IDENTITY_FAILED => "local.identity_failed"
  | MODEL_CACHE_CREDENTIALS_DENIED => "model_cache.credentials_denied"
  | MODEL_CACHE_CREDENTIALS_INVALID => "model_cache.credentials_invalid"
  | MODEL_CACHE_SOURCE_ACCESS_DENIED => "model_cache.source_access_denied"
  | OPERATION_INVALID_ARTIFACT => "operation_invalid_artifact"
  | PEER_IDENTITY_INVALID => "peer_identity_invalid"
  | PERMISSION_DENIED => "permission_denied"
  | RECIPE_UPDATE_AUTHORITY_DENIED => "recipe_update.authority_denied"
  | REQUEST_REPLAYED => "request_replayed"
  | RUN_SWITCH_ARTIFACT_DIGEST_VERIFICATION_FAILED => "run-switch.artifact-digest-verification-failed"
  | RUN_SWITCH_CLEANUP_NAS_EVICTION_FORBIDDEN => "run-switch.cleanup-nas-eviction-forbidden"
  | RUN_SWITCH_CLEANUP_RECLAIMED_DIGEST_NOT_PLANNED => "run-switch.cleanup-reclaimed-digest-not-planned"
  | RUN_SWITCH_RUNTIME_IMAGE_PREPARATION_DIGEST_MISMATCH => "run-switch.runtime-image-preparation-digest-mismatch"
  | RUNTIME_IMAGE_AUTHORIZATION_INVALID => "runtime_image.authorization_invalid"
  | RUNTIME_IMAGE_AUTHORIZATION_REVOKED => "runtime_image.authorization_revoked"
  | RUNTIME_IMAGE_IDENTITY_INVALID => "runtime_image_identity_invalid"
  | STALE_FENCE => "stale_fence"
  | TUF_METADATA_INVALID => "tuf.metadata_invalid"
  | TUF_SIGNATURE_INVALID => "tuf.signature_invalid"
  | UNAUTHORIZED => "unauthorized"
  | UNSAFE_PATH => "unsafe_path"
  end.
#[global] Instance SecurityRefusalReason_eq : EqDecision SecurityRefusalReason.
Proof. solve_decision. Defined.
#[global] Instance SecurityRefusalReason_enum : WireEnum SecurityRefusalReason.
Proof.
  refine {| members :=
    [HTTP_401; HTTP_403; AGENT_CERTIFICATE_ROTATION_CONFLICT;
     AGENT_ENROLLMENT_SUBMIT_REJECTED; AGENT_EXPIRED_RENEWAL_REFUSED;
     AGENT_EXPIRED_RENEWAL_GRACE_EXHAUSTED; AGENT_IDENTITY_MISMATCH; AGENT_TOMBSTONE_FENCED;
     CATALOG_AUTHENTICATION_REQUIRED; CONTROLLER_AUTHENTICATION_REQUIRED;
     CONTROLLER_FLEET_ENROLLMENT_DENIED; CONTROLLER_REQUEST_REJECTED; DIGEST_MISMATCH;
     DISTRIBUTION_REVOKED; FORBIDDEN; GRANT_INVALID; GRANT_NODE_MISMATCH;
     GRANT_UNAUTHORIZED; HELPER_AUTHORIZATION_INVALID; HELPER_GRANT_INVALID;
     HELPER_GRANT_NODE_MISMATCH; HELPER_GRANT_UNAUTHORIZED;
     HELPER_OPERATION_INVALID_ARTIFACT; HELPER_PEER_IDENTITY_INVALID;
     HELPER_REQUEST_INSTALLATION_IDENTITY_INVALID; HELPER_REQUEST_PLAN_BINDING_INVALID;
     HELPER_REQUEST_REPLAYED; HELPER_RUNTIME_IMAGE_IDENTITY_INVALID;
     HOST_HELPER_AUTHORITY_DENIED; LOCAL_IDENTITY_EXPIRED; LOCAL_IDENTITY_FAILED;
     MODEL_CACHE_CREDENTIALS_DENIED; MODEL_CACHE_CREDENTIALS_INVALID;
     MODEL_CACHE_SOURCE_ACCESS_DENIED; OPERATION_INVALID_ARTIFACT; PEER_IDENTITY_INVALID;
     PERMISSION_DENIED; RECIPE_UPDATE_AUTHORITY_DENIED; REQUEST_REPLAYED;
     RUN_SWITCH_ARTIFACT_DIGEST_VERIFICATION_FAILED;
     RUN_SWITCH_CLEANUP_NAS_EVICTION_FORBIDDEN;
     RUN_SWITCH_CLEANUP_RECLAIMED_DIGEST_NOT_PLANNED;
     RUN_SWITCH_RUNTIME_IMAGE_PREPARATION_DIGEST_MISMATCH;
     RUNTIME_IMAGE_AUTHORIZATION_INVALID; RUNTIME_IMAGE_AUTHORIZATION_REVOKED;
     RUNTIME_IMAGE_IDENTITY_INVALID; STALE_FENCE; TUF_METADATA_INVALID;
     TUF_SIGNATURE_INVALID; UNAUTHORIZED; UNSAFE_PATH];
    value := SecurityRefusalReason_value |}; solve_wire_enum.
Defined.
End SecurityRefusalReason.
Abbreviation SecurityRefusalReason := SecurityRefusalReason.SecurityRefusalReason.

(** Closed codes of a definite failed outcome reported by the agent. *)
Module FailureCode.
Inductive FailureCode :=
  HOOK_VM_BUSY | HOOK_VM_PROCESS_KILLED | HOOK_VM_TIMEOUT | WORKLOAD_HOST_MEMORY_EXHAUSTED
  | OPERATION_FAILED | OPERATION_CANCELLED | AGENT_UPGRADE_FAILED
  | ARTIFACT_DISTRIBUTION_FAILED | RECIPE_BUILD_FAILED | RECIPE_BUILD_PLATFORM_BLOCKED
  | RECIPE_JOB_RUN_FAILED | RECIPE_INSTALL_FAILED | RECIPE_START_FAILED | RECIPE_STOP_FAILED
  | RECIPE_UNINSTALL_FAILED | MODEL_STORE_LAYOUT | RUNTIME_OBSERVATION_UNAVAILABLE
  | INSTALLATION_RECONCILIATION_BUSY | RECIPE_RECONCILIATION_DEPENDENCY_UNAVAILABLE
  | RETAINED_CONTAINER_FOREIGN.
Definition FailureCode_value (e : FailureCode) : string :=
  match e with
  | HOOK_VM_BUSY => "hook.vm_busy"
  | HOOK_VM_PROCESS_KILLED => "hook.vm_process_killed"
  | HOOK_VM_TIMEOUT => "hook.vm_timeout"
  | WORKLOAD_HOST_MEMORY_EXHAUSTED => "workload.host_memory_exhausted"
  | OPERATION_FAILED => "operation_failed"
  | OPERATION_CANCELLED => "operation_cancelled"
  | AGENT_UPGRADE_FAILED => "agent_upgrade_failed"
  | ARTIFACT_DISTRIBUTION_FAILED => "artifact_distribution_failed"
  | RECIPE_BUILD_FAILED => "recipe_build_failed"
  | RECIPE_BUILD_PLATFORM_BLOCKED => "recipe_build_platform_blocked"
  | RECIPE_JOB_RUN_FAILED => "recipe_job_run_failed"
  | RECIPE_INSTALL_FAILED => "recipe_install_failed"
  | RECIPE_START_FAILED => "recipe_start_failed"
  | RECIPE_STOP_FAILED => "recipe_stop_failed"
  | RECIPE_UNINSTALL_FAILED => "recipe_uninstall_failed"
  | MODEL_STORE_LAYOUT => "model_store_layout"
  | RUNTIME_OBSERVATION_UNAVAILABLE => "runtime_observation_unavailable"
  | INSTALLATION_RECONCILIATION_BUSY => "installation_reconciliation_busy"
  | RECIPE_RECONCILIATION_DEPENDENCY_UNAVAILABLE => "recipe_reconciliation_dependency_unavailable"
  | RETAINED_CONTAINER_FOREIGN => "retained_container_foreign"
  end.
#[global] Instance FailureCode_eq : EqDecision FailureCode.
Proof. solve_decision. Defined.
#[global] Instance FailureCode_enum : WireEnum FailureCode.
Proof.
  refine {| members :=
    [HOOK_VM_BUSY; HOOK_VM_PROCESS_KILLED; HOOK_VM_TIMEOUT; WORKLOAD_HOST_MEMORY_EXHAUSTED;
     OPERATION_FAILED; OPERATION_CANCELLED; AGENT_UPGRADE_FAILED;
     ARTIFACT_DISTRIBUTION_FAILED; RECIPE_BUILD_FAILED; RECIPE_BUILD_PLATFORM_BLOCKED;
     RECIPE_JOB_RUN_FAILED; RECIPE_INSTALL_FAILED; RECIPE_START_FAILED; RECIPE_STOP_FAILED;
     RECIPE_UNINSTALL_FAILED; MODEL_STORE_LAYOUT; RUNTIME_OBSERVATION_UNAVAILABLE;
     INSTALLATION_RECONCILIATION_BUSY; RECIPE_RECONCILIATION_DEPENDENCY_UNAVAILABLE;
     RETAINED_CONTAINER_FOREIGN];
    value := FailureCode_value |}; solve_wire_enum.
Defined.
End FailureCode.
Abbreviation FailureCode := FailureCode.FailureCode.

(** The typed codes a run admission names for a refusal, blocker or wait. *)
Module RunAdmissionCode.
Inductive RunAdmissionCode :=
  PLAN_INVALID | PLAN_STALE | DEPENDENCIES_STALE | CAPACITY_BUSY | TARGET_MEMBERSHIP_CHANGED
  | MAPPING_NOT_READY | INVENTORY_MISSING | STALE_INVENTORY | INSUFFICIENT_MEMORY
  | INSUFFICIENT_SWAP | PORT_OCCUPIED | RENDEZVOUS_PORT_OCCUPIED | UNRECONCILED_LOST_RANK
  | NOT_INSTALLED | FABRIC_ADDRESS_MISSING | FABRIC_ADDRESS_DUPLICATE.
Definition RunAdmissionCode_value (e : RunAdmissionCode) : string :=
  match e with
  | PLAN_INVALID => "run.plan_invalid"
  | PLAN_STALE => "run.plan_stale"
  | DEPENDENCIES_STALE => "run.dependencies_stale"
  | CAPACITY_BUSY => "run.capacity_busy"
  | TARGET_MEMBERSHIP_CHANGED => "run.target_membership_changed"
  | MAPPING_NOT_READY => "run.mapping_not_ready"
  | INVENTORY_MISSING => "run.inventory_missing"
  | STALE_INVENTORY => "run.stale_inventory"
  | INSUFFICIENT_MEMORY => "run.insufficient_memory"
  | INSUFFICIENT_SWAP => "run.insufficient_swap"
  | PORT_OCCUPIED => "run.port_occupied"
  | RENDEZVOUS_PORT_OCCUPIED => "run.rendezvous_port_occupied"
  | UNRECONCILED_LOST_RANK => "run.unreconciled_lost_rank"
  | NOT_INSTALLED => "run.not_installed"
  | FABRIC_ADDRESS_MISSING => "run.fabric_address_missing"
  | FABRIC_ADDRESS_DUPLICATE => "run.fabric_address_duplicate"
  end.
#[global] Instance RunAdmissionCode_eq : EqDecision RunAdmissionCode.
Proof. solve_decision. Defined.
#[global] Instance RunAdmissionCode_enum : WireEnum RunAdmissionCode.
Proof.
  refine {| members :=
    [PLAN_INVALID; PLAN_STALE; DEPENDENCIES_STALE; CAPACITY_BUSY; TARGET_MEMBERSHIP_CHANGED;
     MAPPING_NOT_READY; INVENTORY_MISSING; STALE_INVENTORY; INSUFFICIENT_MEMORY;
     INSUFFICIENT_SWAP; PORT_OCCUPIED; RENDEZVOUS_PORT_OCCUPIED; UNRECONCILED_LOST_RANK;
     NOT_INSTALLED; FABRIC_ADDRESS_MISSING; FABRIC_ADDRESS_DUPLICATE];
    value := RunAdmissionCode_value |}; solve_wire_enum.
Defined.
End RunAdmissionCode.
Abbreviation RunAdmissionCode := RunAdmissionCode.RunAdmissionCode.

(** The capacity-fit codes the resource planner gives a node that cannot fit. *)
Module ResourceBlockerCode.
Inductive ResourceBlockerCode :=
  CAPACITY_UNKNOWN | DEMAND_EXCEEDS_CAPACITY | INSUFFICIENT | INSUFFICIENT_CAPACITY
  | INSUFFICIENT_CAPACITY_AFTER_STOP | INSUFFICIENT_RESERVATION_BUDGET | INSUFFICIENT_SWAP
  | RESIDENT_USAGE_UNKNOWN.
Definition ResourceBlockerCode_value (e : ResourceBlockerCode) : string :=
  match e with
  | CAPACITY_UNKNOWN => "resource.capacity_unknown"
  | DEMAND_EXCEEDS_CAPACITY => "resource.demand_exceeds_capacity"
  | INSUFFICIENT => "resource.insufficient"
  | INSUFFICIENT_CAPACITY => "resource.insufficient_capacity"
  | INSUFFICIENT_CAPACITY_AFTER_STOP => "resource.insufficient_capacity_after_stop"
  | INSUFFICIENT_RESERVATION_BUDGET => "resource.insufficient_reservation_budget"
  | INSUFFICIENT_SWAP => "resource.insufficient_swap"
  | RESIDENT_USAGE_UNKNOWN => "resource.resident_usage_unknown"
  end.
#[global] Instance ResourceBlockerCode_eq : EqDecision ResourceBlockerCode.
Proof. solve_decision. Defined.
#[global] Instance ResourceBlockerCode_enum : WireEnum ResourceBlockerCode.
Proof.
  refine {| members :=
    [CAPACITY_UNKNOWN; DEMAND_EXCEEDS_CAPACITY; INSUFFICIENT; INSUFFICIENT_CAPACITY;
     INSUFFICIENT_CAPACITY_AFTER_STOP; INSUFFICIENT_RESERVATION_BUDGET; INSUFFICIENT_SWAP;
     RESIDENT_USAGE_UNKNOWN];
    value := ResourceBlockerCode_value |}; solve_wire_enum.
Defined.
End ResourceBlockerCode.
Abbreviation ResourceBlockerCode := ResourceBlockerCode.ResourceBlockerCode.

(** ** Readers of a stored state *)

(** The core states a row can be in once it ended. *)
Definition TERMINAL_LIFECYCLE_STATES : list LifecycleState :=
  [LifecycleState.SUCCEEDED; LifecycleState.FAILED; LifecycleState.CANCELLED;
   LifecycleState.SUPERSEDED].

(** [frozenset(LifecycleState) - TERMINAL_LIFECYCLE_STATES]. *)
Definition LIVE_LIFECYCLE_STATES : list LifecycleState :=
  filter (fun s => s ∉ TERMINAL_LIFECYCLE_STATES) (members (E:=LifecycleState)).

(** [AgentResultState(word)] with its [_missing_] hook: the retired operator-wait
    spelling is adopted as [OBSERVING], every other foreign word is refused. *)
Definition RETIRED_RESULT_STATE_SPELLINGS : list (string * AgentResultState) :=
  [(StateAlias.StateAlias_value StateAlias.WAITING_FOR_OPERATOR, AgentResultState.OBSERVING)].

Definition agent_result_state (w : string) : option AgentResultState :=
  match of_word w with
  | Some s => Some s
  | None => snd <$> find (fun kv => String.eqb (fst kv) w) RETIRED_RESULT_STATE_SPELLINGS
  end.

Definition adopt_state (subject : LifecycleSubject) (stored : string) : option LifecycleState :=
  of_word stored.

Definition stored_words (subject : LifecycleSubject) (states : list LifecycleState) : list string :=
  value <$> filter (fun s => s ∈ states) (members (E:=LifecycleState)).

Definition live_words (subject : LifecycleSubject) : list string :=
  stored_words subject LIVE_LIFECYCLE_STATES.

Definition is_state (subject : LifecycleSubject) (stored : option string)
    (states : list LifecycleState) : bool :=
  match stored with
  | None => false
  | Some w =>
      match adopt_state subject w with
      | Some s => mem s states
      | None => false
      end
  end.

Definition is_live (subject : LifecycleSubject) (stored : option string) : bool :=
  match stored with
  | None => false
  | Some w =>
      match adopt_state subject w with
      | Some s => mem s LIVE_LIFECYCLE_STATES
      | None => false
      end
  end.

Definition check_words (subject : LifecycleSubject) (states : list LifecycleState) : list string :=
  stored_words subject states.

Definition input_state (w : string) : option LifecycleState := of_word w.

(** [_BLOCKER_TO_ERROR] and [error_category_of]. *)
Definition blocker_to_error (c : BlockerCategory) : ErrorCategory :=
  match c with
  | BlockerCategory.SECURITY_EDGE => ErrorCategory.SECURITY_REFUSAL
  | BlockerCategory.INPUT_VALIDATION => ErrorCategory.INVALID_REQUEST
  | BlockerCategory.ALREADY_RETRIED => ErrorCategory.UNKNOWN
  | BlockerCategory.BOOKKEEPING_DEBT => ErrorCategory.UNKNOWN
  end.

Definition error_category_of (category : string) : result ErrorCategory :=
  match of_word category with
  | Some c => Ok (blocker_to_error c)
  | None => Raise (ValueError category)
  end.

Definition SECURITY_REFUSAL_SUFFIXES : list string :=
  [".authentication_required"; ".authorization_invalid"; ".authorization_revoked";
   ".authority_denied"; ".enrollment_denied"; ".identity_expired"; ".node_revoked";
   ".permission_denied"; ".signature_invalid"; ".tombstone_fenced"].

(** ** The states of a generic job ([control/src/vonk_control/job_states.py]) *)
Module JobStates.
Definition SUBJECT : LifecycleSubject := LifecycleSubject.JOB.
Definition ATTEMPT : LifecycleSubject := LifecycleSubject.JOB_ATTEMPT.

(** A job of any kind that has not ended. *)
Definition LIVE : list string := live_words SUBJECT.

Definition words (states : list LifecycleState) : list string := stored_words SUBJECT states.

Definition means (stored : option string) (states : list LifecycleState) : bool :=
  is_state SUBJECT stored states.

Definition core (stored : option string) : option LifecycleState :=
  match stored with None => None | Some w => adopt_state SUBJECT w end.

Definition any_of (stored : option string) (groups : list (list LifecycleState)) : bool :=
  existsb (fun g => means stored g) groups.

Definition attempt_words (states : list LifecycleState) : list string := stored_words ATTEMPT states.

Definition attempt_means (stored : option string) (states : list LifecycleState) : bool :=
  is_state ATTEMPT stored states.

(** The columns of an attempt these readers use. *)
Record JobAttempt := {
  attempt_state : option string;
  observation_cause : option string;
}.

(** [ObservationCause(recorded)] raises on a foreign word. *)
Definition attempt_cause (a : JobAttempt) : result (option ObservationCause) :=
  if attempt_means (attempt_state a) [LifecycleState.OBSERVING] then
    if truthy_str (observation_cause a) then
      match observation_cause a with
      | Some w =>
          match of_word w with
          | Some c => Ok (Some c)
          | None => Raise (ValueError w)
          end
      | None => Ok None
      end
    else Ok None
  else Ok None.

Definition attempt_lapsed (a : JobAttempt) : result bool :=
  c ← attempt_cause a; Ok (bool_decide (c = Some ObservationCause.LEASE_LAPSED)).

Definition lapse (a : JobAttempt) : JobAttempt :=
  {| attempt_state := Some (value LifecycleState.OBSERVING);
     observation_cause := Some (value ObservationCause.LEASE_LAPSED) |}.
End JobStates.

(** ** Theorems *)

(** A stored word selects a row under [stored_words] exactly when its reader
    [is_state] means one of the same states: queries and readers agree. *)
Theorem stored_words_is_state subject states w :
  w ∈ stored_words subject states <-> is_state subject (Some w) states = true.
Proof.
  unfold stored_words, is_state, adopt_state. split.
  - intros (s & -> & [Hs _]%list_elem_of_filter)%list_elem_of_fmap.
    rewrite of_word_value. by apply mem_true.
  - destruct (of_word w) as [s|] eqn:Ew; [|done]. intros Hs%mem_true.
    apply list_elem_of_fmap. exists s. split; [by apply eq_sym, of_word_Some|].
    apply list_elem_of_filter. split; [done|apply members_complete].
Qed.

(** Every state is live or terminal, never both. *)
Lemma live_iff_not_terminal s :
  s ∈ LIVE_LIFECYCLE_STATES <-> s ∉ TERMINAL_LIFECYCLE_STATES.
Proof.
  unfold LIVE_LIFECYCLE_STATES. rewrite list_elem_of_filter.
  pose proof (members_complete s). naive_solver.
Qed.

(** A query for live rows returns exactly the rows whose word reads as a state
    that is not terminal: an ended row and an unknown word are never selected. *)
Theorem live_words_spec subject w :
  w ∈ live_words subject <->
  exists s, adopt_state subject w = Some s /\ s ∉ TERMINAL_LIFECYCLE_STATES.
Proof.
  unfold live_words. rewrite stored_words_is_state. unfold is_state.
  destruct (adopt_state subject w) as [s|]; [|naive_solver].
  rewrite mem_true, live_iff_not_terminal. naive_solver.
Qed.

(** Reading back the word of a state gives the state, and a word is read only as
    the state that spells it. *)
Theorem adopt_state_roundtrip subject s w :
  adopt_state subject w = Some s <-> w = value s.
Proof. unfold adopt_state. rewrite of_word_Some. naive_solver. Qed.

(** Marking an attempt lapsed makes it read as observed because its lease lapsed. *)
Theorem lapse_attempt_lapsed a : JobStates.attempt_lapsed (JobStates.lapse a) = Ok true.
Proof. reflexivity. Qed.

(** The agent wire reads its own words back, adopts the one retired spelling and
    refuses every other word. *)
Theorem agent_result_state_spec w s :
  agent_result_state w = Some s <->
  w = value s \/ (w = "waiting-for-operator"%string /\ s = AgentResultState.OBSERVING).
Proof.
  unfold agent_result_state. destruct (of_word w) as [s'|] eqn:Ew.
  - apply of_word_Some in Ew as <-. split.
    + intros [= ->]. by left.
    + intros [Hv|[Hv _]]; [by apply value_inj in Hv as ->|]. by destruct s'.
  - apply of_word_None in Ew.
    assert (w <> value s) as Hns.
    { intros ->. apply Ew, list_elem_of_fmap. exists s. split; [done|apply members_complete]. }
    destruct (decide (w = "waiting-for-operator"%string)) as [->|Hne].
    + vm_compute. naive_solver.
    + cbn [RETIRED_RESULT_STATE_SPELLINGS find fst].
      rewrite (proj2 (String.eqb_neq _ _)) by (intros <-; by apply Hne). naive_solver.
Qed.
