(* ===== verification/ReasonCodes.v ===== *)
(** * Reason codes

    The reason-code vocabularies of [agent_protocol/.../reason_codes/], the union that
    persisted waits and blockers store ([OperationReason]), and the readers of
    [reason_codes/vocabulary.py] that adopt an older spelling. *)
From S2P Require Import Prelude Vocabulary.

(** Closed reason codes of an invalid request (submit-time input validation). *)
Module InvalidRequestReason.
Inductive InvalidRequestReason :=
    MALFORMED | OUT_OF_RANGE | LIMIT_EXCEEDED | UNKNOWN_FIELD | INCOMPLETE | IMMUTABLE
  | DUPLICATE | CONFLICT | NOT_FOUND | NOT_READY | SUPERSEDED | UNSUPPORTED.
Definition InvalidRequestReason_value (e : InvalidRequestReason) : string :=
  match e with
  | MALFORMED => "malformed"
  | OUT_OF_RANGE => "out-of-range"
  | LIMIT_EXCEEDED => "limit-exceeded"
  | UNKNOWN_FIELD => "unknown-field"
  | INCOMPLETE => "incomplete"
  | IMMUTABLE => "immutable"
  | DUPLICATE => "duplicate"
  | CONFLICT => "conflict"
  | NOT_FOUND => "not-found"
  | NOT_READY => "not-ready"
  | SUPERSEDED => "superseded"
  | UNSUPPORTED => "unsupported"
  end.
Definition InvalidRequestReason_members : list InvalidRequestReason :=
  [MALFORMED; OUT_OF_RANGE; LIMIT_EXCEEDED; UNKNOWN_FIELD; INCOMPLETE; IMMUTABLE; DUPLICATE;
   CONFLICT; NOT_FOUND; NOT_READY; SUPERSEDED; UNSUPPORTED].
Lemma InvalidRequestReason_decode e :
  find (fun m => String.eqb (InvalidRequestReason_value m) (InvalidRequestReason_value e)) InvalidRequestReason_members = Some e.
Proof. destruct e; reflexivity. Qed.
#[global] Instance InvalidRequestReason_enum : WireEnum InvalidRequestReason :=
  decoded_enum InvalidRequestReason_members InvalidRequestReason_value InvalidRequestReason_decode eq_refl.
End InvalidRequestReason.
Abbreviation InvalidRequestReason := InvalidRequestReason.InvalidRequestReason.

Module TransientReason.
Inductive TransientReason :=
    CA_UNAVAILABLE | CONTROLLER_STARTING | ADMISSION_BUSY | DEPENDENCY_UNAVAILABLE
  | RATE_LIMITED | LOCAL_STATE_UNAVAILABLE | STORAGE_UNAVAILABLE | CLOCK_SKEW.
Definition TransientReason_value (e : TransientReason) : string :=
  match e with
  | CA_UNAVAILABLE => "ca_unavailable"
  | CONTROLLER_STARTING => "controller_starting"
  | ADMISSION_BUSY => "admission_busy"
  | DEPENDENCY_UNAVAILABLE => "dependency_unavailable"
  | RATE_LIMITED => "rate_limited"
  | LOCAL_STATE_UNAVAILABLE => "local_state_unavailable"
  | STORAGE_UNAVAILABLE => "storage_unavailable"
  | CLOCK_SKEW => "clock_skew"
  end.
Definition TransientReason_members : list TransientReason :=
  [CA_UNAVAILABLE; CONTROLLER_STARTING; ADMISSION_BUSY; DEPENDENCY_UNAVAILABLE; RATE_LIMITED;
   LOCAL_STATE_UNAVAILABLE; STORAGE_UNAVAILABLE; CLOCK_SKEW].
Lemma TransientReason_decode e :
  find (fun m => String.eqb (TransientReason_value m) (TransientReason_value e)) TransientReason_members = Some e.
Proof. destruct e; reflexivity. Qed.
#[global] Instance TransientReason_enum : WireEnum TransientReason :=
  decoded_enum TransientReason_members TransientReason_value TransientReason_decode eq_refl.
End TransientReason.
Abbreviation TransientReason := TransientReason.TransientReason.

(** Visible model access dependencies, shared by wait and recovery. *)
Module ModelAccessReason.
Inductive ModelAccessReason :=
    ACCESS_REQUIRED | ACCESS_DENIED | CREDENTIALS_INVALID.
Definition ModelAccessReason_value (e : ModelAccessReason) : string :=
  match e with
  | ACCESS_REQUIRED => "access_required"
  | ACCESS_DENIED => "access_denied"
  | CREDENTIALS_INVALID => "credentials_invalid"
  end.
Definition ModelAccessReason_members : list ModelAccessReason :=
  [ACCESS_REQUIRED; ACCESS_DENIED; CREDENTIALS_INVALID].
Lemma ModelAccessReason_decode e :
  find (fun m => String.eqb (ModelAccessReason_value m) (ModelAccessReason_value e)) ModelAccessReason_members = Some e.
Proof. destruct e; reflexivity. Qed.
#[global] Instance ModelAccessReason_enum : WireEnum ModelAccessReason :=
  decoded_enum ModelAccessReason_members ModelAccessReason_value ModelAccessReason_decode eq_refl.
End ModelAccessReason.
Abbreviation ModelAccessReason := ModelAccessReason.ModelAccessReason.

(** Public cache failure semantics preserved in availability projections. *)
Module ModelCacheFailureCode.
Inductive ModelCacheFailureCode :=
    INTEGRITY_MISMATCH | CAPACITY | INTERRUPTED.
Definition ModelCacheFailureCode_value (e : ModelCacheFailureCode) : string :=
  match e with
  | INTEGRITY_MISMATCH => "integrity_mismatch"
  | CAPACITY => "capacity"
  | INTERRUPTED => "interrupted"
  end.
Definition ModelCacheFailureCode_members : list ModelCacheFailureCode :=
  [INTEGRITY_MISMATCH; CAPACITY; INTERRUPTED].
Lemma ModelCacheFailureCode_decode e :
  find (fun m => String.eqb (ModelCacheFailureCode_value m) (ModelCacheFailureCode_value e)) ModelCacheFailureCode_members = Some e.
Proof. destruct e; reflexivity. Qed.
#[global] Instance ModelCacheFailureCode_enum : WireEnum ModelCacheFailureCode :=
  decoded_enum ModelCacheFailureCode_members ModelCacheFailureCode_value ModelCacheFailureCode_decode eq_refl.
End ModelCacheFailureCode.
Abbreviation ModelCacheFailureCode := ModelCacheFailureCode.ModelCacheFailureCode.

(** The shared admission lock refused because capacity is held by another admission. *)
Module AdmissionCode.
Inductive AdmissionCode :=
    CAPACITY_BUSY.
Definition AdmissionCode_value (e : AdmissionCode) : string :=
  match e with
  | CAPACITY_BUSY => "admission.capacity_busy"
  end.
Definition AdmissionCode_members : list AdmissionCode :=
  [CAPACITY_BUSY].
Lemma AdmissionCode_decode e :
  find (fun m => String.eqb (AdmissionCode_value m) (AdmissionCode_value e)) AdmissionCode_members = Some e.
Proof. destruct e; reflexivity. Qed.
#[global] Instance AdmissionCode_enum : WireEnum AdmissionCode :=
  decoded_enum AdmissionCode_members AdmissionCode_value AdmissionCode_decode eq_refl.
End AdmissionCode.
Abbreviation AdmissionCode := AdmissionCode.AdmissionCode.

(** Optional agent evidence that was dropped so the mandatory report is kept. *)
Module AgentEvidenceCode.
Inductive AgentEvidenceCode :=
    CLAIM_HINT_DROPPED | FAILURE_DIAGNOSTIC_LINE_DROPPED | FAILURE_DIAGNOSTICS_DROPPED
  | FAILURE_HELPER_ERROR_CODE_DROPPED | FAILURE_HELPER_EXIT_CODE_DROPPED
  | FAILURE_PAGE_CACHE_DROPPED | FAILURE_STAGE_DROPPED | INVENTORY_FABRIC_DROPPED
  | INVENTORY_HOST_SETTINGS_DROPPED | INVENTORY_INSTALLATIONS_DROPPED | INVENTORY_RUNS_DROPPED
  | INVENTORY_INSTALLATION_BYTES_DROPPED | INVENTORY_UNUSED_MODEL_BYTES_DROPPED
  | INVENTORY_MODEL_OBJECTS_DROPPED | INVENTORY_NAS_ROUTE_DROPPED | INVENTORY_NETWORK_DROPPED
  | INVENTORY_NETWORK_INTERFACE_DROPPED | PROGRESS_DROPPED | RESULT_HOST_PATH_REDACTED
  | TELEMETRY_READING_DROPPED.
Definition AgentEvidenceCode_value (e : AgentEvidenceCode) : string :=
  match e with
  | CLAIM_HINT_DROPPED => "agent_evidence.claim_hint_dropped"
  | FAILURE_DIAGNOSTIC_LINE_DROPPED => "agent_evidence.failure_diagnostic_line_dropped"
  | FAILURE_DIAGNOSTICS_DROPPED => "agent_evidence.failure_diagnostics_dropped"
  | FAILURE_HELPER_ERROR_CODE_DROPPED => "agent_evidence.failure_helper_error_code_dropped"
  | FAILURE_HELPER_EXIT_CODE_DROPPED => "agent_evidence.failure_helper_exit_code_dropped"
  | FAILURE_PAGE_CACHE_DROPPED => "agent_evidence.failure_page_cache_dropped"
  | FAILURE_STAGE_DROPPED => "agent_evidence.failure_stage_dropped"
  | INVENTORY_FABRIC_DROPPED => "agent_evidence.inventory_fabric_dropped"
  | INVENTORY_HOST_SETTINGS_DROPPED => "agent_evidence.inventory_host_settings_dropped"
  | INVENTORY_INSTALLATIONS_DROPPED => "agent_evidence.inventory_installations_dropped"
  | INVENTORY_RUNS_DROPPED => "agent_evidence.inventory_runs_dropped"
  | INVENTORY_INSTALLATION_BYTES_DROPPED => "agent_evidence.inventory_installation_bytes_dropped"
  | INVENTORY_UNUSED_MODEL_BYTES_DROPPED => "agent_evidence.inventory_unused_model_bytes_dropped"
  | INVENTORY_MODEL_OBJECTS_DROPPED => "agent_evidence.inventory_model_objects_dropped"
  | INVENTORY_NAS_ROUTE_DROPPED => "agent_evidence.inventory_nas_route_dropped"
  | INVENTORY_NETWORK_DROPPED => "agent_evidence.inventory_network_dropped"
  | INVENTORY_NETWORK_INTERFACE_DROPPED => "agent_evidence.inventory_network_interface_dropped"
  | PROGRESS_DROPPED => "agent_evidence.progress_dropped"
  | RESULT_HOST_PATH_REDACTED => "agent_evidence.result_host_path_redacted"
  | TELEMETRY_READING_DROPPED => "agent_evidence.telemetry_reading_dropped"
  end.
Definition AgentEvidenceCode_members : list AgentEvidenceCode :=
  [CLAIM_HINT_DROPPED; FAILURE_DIAGNOSTIC_LINE_DROPPED; FAILURE_DIAGNOSTICS_DROPPED;
   FAILURE_HELPER_ERROR_CODE_DROPPED; FAILURE_HELPER_EXIT_CODE_DROPPED;
   FAILURE_PAGE_CACHE_DROPPED; FAILURE_STAGE_DROPPED; INVENTORY_FABRIC_DROPPED;
   INVENTORY_HOST_SETTINGS_DROPPED; INVENTORY_INSTALLATIONS_DROPPED; INVENTORY_RUNS_DROPPED;
   INVENTORY_INSTALLATION_BYTES_DROPPED; INVENTORY_UNUSED_MODEL_BYTES_DROPPED;
   INVENTORY_MODEL_OBJECTS_DROPPED; INVENTORY_NAS_ROUTE_DROPPED; INVENTORY_NETWORK_DROPPED;
   INVENTORY_NETWORK_INTERFACE_DROPPED; PROGRESS_DROPPED; RESULT_HOST_PATH_REDACTED;
   TELEMETRY_READING_DROPPED].
Lemma AgentEvidenceCode_decode e :
  find (fun m => String.eqb (AgentEvidenceCode_value m) (AgentEvidenceCode_value e)) AgentEvidenceCode_members = Some e.
Proof. destruct e; reflexivity. Qed.
#[global] Instance AgentEvidenceCode_enum : WireEnum AgentEvidenceCode :=
  decoded_enum AgentEvidenceCode_members AgentEvidenceCode_value AgentEvidenceCode_decode eq_refl.
End AgentEvidenceCode.
Abbreviation AgentEvidenceCode := AgentEvidenceCode.AgentEvidenceCode.

(** Why an artifact (model file, image archive, blob) cannot be removed, referenced or changed right now. *)
Module ArtifactLifecycleCode.
Inductive ArtifactLifecycleCode :=
    ASSET_AVAILABILITY_UNKNOWN | DELETION_BUSY | DELETION_FENCE_LOST | DELETION_IN_PROGRESS
  | REFERENCE_BUSY | REFERENCE_CHANGED | REFERENCE_IDENTITY_MISMATCH | REFERENCE_SCAN_FAILED
  | REFERENCE_SCAN_LIMITED | REFERENCE_TIMEOUT | REFERENCE_UNAVAILABLE | REMOVAL_OWNER_INVALID
  | REMOVAL_OWNER_UNRESOLVED.
Definition ArtifactLifecycleCode_value (e : ArtifactLifecycleCode) : string :=
  match e with
  | ASSET_AVAILABILITY_UNKNOWN => "artifact.asset_availability_unknown"
  | DELETION_BUSY => "artifact.deletion_busy"
  | DELETION_FENCE_LOST => "artifact.deletion_fence_lost"
  | DELETION_IN_PROGRESS => "artifact.deletion_in_progress"
  | REFERENCE_BUSY => "artifact.reference_busy"
  | REFERENCE_CHANGED => "artifact.reference_changed"
  | REFERENCE_IDENTITY_MISMATCH => "artifact.reference_identity_mismatch"
  | REFERENCE_SCAN_FAILED => "artifact.reference_scan_failed"
  | REFERENCE_SCAN_LIMITED => "artifact.reference_scan_limited"
  | REFERENCE_TIMEOUT => "artifact.reference_timeout"
  | REFERENCE_UNAVAILABLE => "artifact.reference_unavailable"
  | REMOVAL_OWNER_INVALID => "artifact.removal_owner_invalid"
  | REMOVAL_OWNER_UNRESOLVED => "artifact.removal_owner_unresolved"
  end.
Definition ArtifactLifecycleCode_members : list ArtifactLifecycleCode :=
  [ASSET_AVAILABILITY_UNKNOWN; DELETION_BUSY; DELETION_FENCE_LOST; DELETION_IN_PROGRESS;
   REFERENCE_BUSY; REFERENCE_CHANGED; REFERENCE_IDENTITY_MISMATCH; REFERENCE_SCAN_FAILED;
   REFERENCE_SCAN_LIMITED; REFERENCE_TIMEOUT; REFERENCE_UNAVAILABLE; REMOVAL_OWNER_INVALID;
   REMOVAL_OWNER_UNRESOLVED].
Lemma ArtifactLifecycleCode_decode e :
  find (fun m => String.eqb (ArtifactLifecycleCode_value m) (ArtifactLifecycleCode_value e)) ArtifactLifecycleCode_members = Some e.
Proof. destruct e; reflexivity. Qed.
#[global] Instance ArtifactLifecycleCode_enum : WireEnum ArtifactLifecycleCode :=
  decoded_enum ArtifactLifecycleCode_members ArtifactLifecycleCode_value ArtifactLifecycleCode_decode eq_refl.
End ArtifactLifecycleCode.
Abbreviation ArtifactLifecycleCode := ArtifactLifecycleCode.ArtifactLifecycleCode.

(** What keeps a cached artifact from being removed. *)
Module CacheReferenceReason.
Inductive CacheReferenceReason :=
    RECIPE_INSTALLATION | RUNNING_MODEL | SAVED_PROFILE.
Definition CacheReferenceReason_value (e : CacheReferenceReason) : string :=
  match e with
  | RECIPE_INSTALLATION => "recipe-installation"
  | RUNNING_MODEL => "running-model"
  | SAVED_PROFILE => "saved-profile"
  end.
Definition CacheReferenceReason_members : list CacheReferenceReason :=
  [RECIPE_INSTALLATION; RUNNING_MODEL; SAVED_PROFILE].
Lemma CacheReferenceReason_decode e :
  find (fun m => String.eqb (CacheReferenceReason_value m) (CacheReferenceReason_value e)) CacheReferenceReason_members = Some e.
Proof. destruct e; reflexivity. Qed.
#[global] Instance CacheReferenceReason_enum : WireEnum CacheReferenceReason :=
  decoded_enum CacheReferenceReason_members CacheReferenceReason_value CacheReferenceReason_decode eq_refl.
End CacheReferenceReason.
Abbreviation CacheReferenceReason := CacheReferenceReason.CacheReferenceReason.

(** Owned certificate issuance admission refusals. *)
Module CertificateCode.
Inductive CertificateCode :=
    RESPONSE_UNREPRESENTABLE | REQUEST_INVALID | AUTHENTICATION_REFUSED | BINDING_REFUSED
  | SOURCE_REVOKED | SOURCE_IDENTITY_REFUSED | ISSUANCE_IN_PROGRESS | ISSUANCE_UNAVAILABLE
  | REQUEST_BINDING_MISMATCH | SERIAL_ALREADY_RESERVED | SERIAL_ALREADY_ISSUED
  | ATTEMPT_SUPERSEDED | ISSUANCE_REVOKED | ROTATION_SOURCE_REVOKED.
Definition CertificateCode_value (e : CertificateCode) : string :=
  match e with
  | RESPONSE_UNREPRESENTABLE => "certificate.response_unrepresentable"
  | REQUEST_INVALID => "certificate.request_invalid"
  | AUTHENTICATION_REFUSED => "certificate.authentication_refused"
  | BINDING_REFUSED => "certificate.binding_refused"
  | SOURCE_REVOKED => "certificate.source_revoked"
  | SOURCE_IDENTITY_REFUSED => "certificate.source_identity_refused"
  | ISSUANCE_IN_PROGRESS => "certificate.issuance_in_progress"
  | ISSUANCE_UNAVAILABLE => "certificate.issuance_unavailable"
  | REQUEST_BINDING_MISMATCH => "certificate.request_binding_mismatch"
  | SERIAL_ALREADY_RESERVED => "certificate.serial_already_reserved"
  | SERIAL_ALREADY_ISSUED => "certificate.serial_already_issued"
  | ATTEMPT_SUPERSEDED => "certificate.attempt_superseded"
  | ISSUANCE_REVOKED => "certificate.issuance_revoked"
  | ROTATION_SOURCE_REVOKED => "certificate.rotation_source_revoked"
  end.
Definition CertificateCode_members : list CertificateCode :=
  [RESPONSE_UNREPRESENTABLE; REQUEST_INVALID; AUTHENTICATION_REFUSED; BINDING_REFUSED;
   SOURCE_REVOKED; SOURCE_IDENTITY_REFUSED; ISSUANCE_IN_PROGRESS; ISSUANCE_UNAVAILABLE;
   REQUEST_BINDING_MISMATCH; SERIAL_ALREADY_RESERVED; SERIAL_ALREADY_ISSUED;
   ATTEMPT_SUPERSEDED; ISSUANCE_REVOKED; ROTATION_SOURCE_REVOKED].
Lemma CertificateCode_decode e :
  find (fun m => String.eqb (CertificateCode_value m) (CertificateCode_value e)) CertificateCode_members = Some e.
Proof. destruct e; reflexivity. Qed.
#[global] Instance CertificateCode_enum : WireEnum CertificateCode :=
  decoded_enum CertificateCode_members CertificateCode_value CertificateCode_decode eq_refl.
End CertificateCode.
Abbreviation CertificateCode := CertificateCode.CertificateCode.

(** Refusals of the recipe catalog and the recipe library documents. *)
Module CatalogCode.
Inductive CatalogCode :=
    ACTOR | CANDIDATE_EXISTS | CONFLICT | DOCUMENT_EXISTS | DOCUMENT_INVALID | DOCUMENT_MISSING
  | HEAD_MISSING | IDENTITIES | IDENTITY_CHANGED | INSUFFICIENT_ROLE | INVALID_REQUEST
  | MODEL_ARTIFACT_MISSING | MODEL_REFERENCE_INVALID | MODEL_REFERENCE_MISSING | NOT_CANDIDATE
  | NOT_FOUND | RECIPE_INVALID | REFERENCE | REFERENCE_MISSING | REQUEST_FAILED
  | REVISION_MISSING | STALE_REVISION | UNAVAILABLE | DOCUMENT_INVALID_ | HASH_MISMATCH
  | MODEL_DOCUMENT_INVALID | PACKAGE_HANDLE_INVALID | RELEASE_INVALID | SOURCE_INVALID
  | SIGNATURE_INVALID.
Definition CatalogCode_value (e : CatalogCode) : string :=
  match e with
  | ACTOR => "catalog.actor"
  | CANDIDATE_EXISTS => "catalog.candidate_exists"
  | CONFLICT => "catalog.conflict"
  | DOCUMENT_EXISTS => "catalog.document_exists"
  | DOCUMENT_INVALID => "catalog.document_invalid"
  | DOCUMENT_MISSING => "catalog.document_missing"
  | HEAD_MISSING => "catalog.head_missing"
  | IDENTITIES => "catalog.identities"
  | IDENTITY_CHANGED => "catalog.identity_changed"
  | INSUFFICIENT_ROLE => "catalog.insufficient_role"
  | INVALID_REQUEST => "catalog.invalid_request"
  | MODEL_ARTIFACT_MISSING => "catalog.model_artifact_missing"
  | MODEL_REFERENCE_INVALID => "catalog.model_reference_invalid"
  | MODEL_REFERENCE_MISSING => "catalog.model_reference_missing"
  | NOT_CANDIDATE => "catalog.not_candidate"
  | NOT_FOUND => "catalog.not_found"
  | RECIPE_INVALID => "catalog.recipe_invalid"
  | REFERENCE => "catalog.reference"
  | REFERENCE_MISSING => "catalog.reference_missing"
  | REQUEST_FAILED => "catalog.request_failed"
  | REVISION_MISSING => "catalog.revision_missing"
  | STALE_REVISION => "catalog.stale_revision"
  | UNAVAILABLE => "catalog.unavailable"
  | DOCUMENT_INVALID_ => "recipe_library.document_invalid"
  | HASH_MISMATCH => "recipe_library.hash_mismatch"
  | MODEL_DOCUMENT_INVALID => "recipe_library.model_document_invalid"
  | PACKAGE_HANDLE_INVALID => "recipe_library.package_handle_invalid"
  | RELEASE_INVALID => "recipe_library.release_invalid"
  | SOURCE_INVALID => "recipe_library.source_invalid"
  | SIGNATURE_INVALID => "recipe_release.signature_invalid"
  end.
Definition CatalogCode_members : list CatalogCode :=
  [ACTOR; CANDIDATE_EXISTS; CONFLICT; DOCUMENT_EXISTS; DOCUMENT_INVALID; DOCUMENT_MISSING;
   HEAD_MISSING; IDENTITIES; IDENTITY_CHANGED; INSUFFICIENT_ROLE; INVALID_REQUEST;
   MODEL_ARTIFACT_MISSING; MODEL_REFERENCE_INVALID; MODEL_REFERENCE_MISSING; NOT_CANDIDATE;
   NOT_FOUND; RECIPE_INVALID; REFERENCE; REFERENCE_MISSING; REQUEST_FAILED; REVISION_MISSING;
   STALE_REVISION; UNAVAILABLE; DOCUMENT_INVALID_; HASH_MISMATCH; MODEL_DOCUMENT_INVALID;
   PACKAGE_HANDLE_INVALID; RELEASE_INVALID; SOURCE_INVALID; SIGNATURE_INVALID].
Lemma CatalogCode_decode e :
  find (fun m => String.eqb (CatalogCode_value m) (CatalogCode_value e)) CatalogCode_members = Some e.
Proof. destruct e; reflexivity. Qed.
#[global] Instance CatalogCode_enum : WireEnum CatalogCode :=
  decoded_enum CatalogCode_members CatalogCode_value CatalogCode_decode eq_refl.
End CatalogCode.
Abbreviation CatalogCode := CatalogCode.CatalogCode.

(** Catalog synchronisation refusals and per-item problems. *)
Module CatalogSyncCode.
Inductive CatalogSyncCode :=
    ACTOR_INVALID | COMMIT_INVALID | FAILED | IDENTITY_CHANGED | IN_PROGRESS
  | REFRESH_SCHEDULED | ITEM_FAILED | LEASE_EXPIRED | MODEL_FAILED | NOT_FOUND
  | PREBUILT_IMAGES_FAILED | PREVIEW_CHANGED | REPOSITORY_CHANGED | REQUEST_INVALID
  | REQUEST_REUSED | RESULT_UNREADABLE | REVISION_CHANGED | STATE_INVALID | TRIGGER_INVALID
  | RECIPE_TOPOLOGY_CHANGED.
Definition CatalogSyncCode_value (e : CatalogSyncCode) : string :=
  match e with
  | ACTOR_INVALID => "catalog.sync_actor_invalid"
  | COMMIT_INVALID => "catalog.sync_commit_invalid"
  | FAILED => "catalog.sync_failed"
  | IDENTITY_CHANGED => "catalog.sync_identity_changed"
  | IN_PROGRESS => "catalog.sync_in_progress"
  | REFRESH_SCHEDULED => "catalog.sync_refresh_scheduled"
  | ITEM_FAILED => "catalog.sync_item_failed"
  | LEASE_EXPIRED => "catalog.sync_lease_expired"
  | MODEL_FAILED => "catalog.sync_model_failed"
  | NOT_FOUND => "catalog.sync_not_found"
  | PREBUILT_IMAGES_FAILED => "catalog.sync_prebuilt_images_failed"
  | PREVIEW_CHANGED => "catalog.sync_preview_changed"
  | REPOSITORY_CHANGED => "catalog.sync_repository_changed"
  | REQUEST_INVALID => "catalog.sync_request_invalid"
  | REQUEST_REUSED => "catalog.sync_request_reused"
  | RESULT_UNREADABLE => "catalog.sync_result_unreadable"
  | REVISION_CHANGED => "catalog.sync_revision_changed"
  | STATE_INVALID => "catalog.sync_state_invalid"
  | TRIGGER_INVALID => "catalog.sync_trigger_invalid"
  | RECIPE_TOPOLOGY_CHANGED => "recipe.topology_changed"
  end.
Definition CatalogSyncCode_members : list CatalogSyncCode :=
  [ACTOR_INVALID; COMMIT_INVALID; FAILED; IDENTITY_CHANGED; IN_PROGRESS; REFRESH_SCHEDULED;
   ITEM_FAILED; LEASE_EXPIRED; MODEL_FAILED; NOT_FOUND; PREBUILT_IMAGES_FAILED;
   PREVIEW_CHANGED; REPOSITORY_CHANGED; REQUEST_INVALID; REQUEST_REUSED; RESULT_UNREADABLE;
   REVISION_CHANGED; STATE_INVALID; TRIGGER_INVALID; RECIPE_TOPOLOGY_CHANGED].
Lemma CatalogSyncCode_decode e :
  find (fun m => String.eqb (CatalogSyncCode_value m) (CatalogSyncCode_value e)) CatalogSyncCode_members = Some e.
Proof. destruct e; reflexivity. Qed.
#[global] Instance CatalogSyncCode_enum : WireEnum CatalogSyncCode :=
  decoded_enum CatalogSyncCode_members CatalogSyncCode_value CatalogSyncCode_decode eq_refl.
End CatalogSyncCode.
Abbreviation CatalogSyncCode := CatalogSyncCode.CatalogSyncCode.

(** Refusals of a cluster mapping (recipe-to-Spark assignment) request. *)
Module ClusterMappingCode.
Inductive ClusterMappingCode :=
    ACTOR | ENDPOINT_OWNER | NODE_COUNT | NODE_INCOMPATIBLE | NODE_UNKNOWN | NODES_INVALID
  | OPTION_INVALID | PARAMETER_TYPE | PARAMETER_UNKNOWN | PARAMETER_VALUE | PARAMETERS_INVALID
  | READY_IMMUTABLE | RECIPE_UNRESOLVED | STALE_PLAN | TOPOLOGY_INVALID.
Definition ClusterMappingCode_value (e : ClusterMappingCode) : string :=
  match e with
  | ACTOR => "mapping.actor"
  | ENDPOINT_OWNER => "mapping.endpoint_owner"
  | NODE_COUNT => "mapping.node_count"
  | NODE_INCOMPATIBLE => "mapping.node_incompatible"
  | NODE_UNKNOWN => "mapping.node_unknown"
  | NODES_INVALID => "mapping.nodes_invalid"
  | OPTION_INVALID => "mapping.option_invalid"
  | PARAMETER_TYPE => "mapping.parameter_type"
  | PARAMETER_UNKNOWN => "mapping.parameter_unknown"
  | PARAMETER_VALUE => "mapping.parameter_value"
  | PARAMETERS_INVALID => "mapping.parameters_invalid"
  | READY_IMMUTABLE => "mapping.ready_immutable"
  | RECIPE_UNRESOLVED => "mapping.recipe_unresolved"
  | STALE_PLAN => "mapping.stale_plan"
  | TOPOLOGY_INVALID => "mapping.topology_invalid"
  end.
Definition ClusterMappingCode_members : list ClusterMappingCode :=
  [ACTOR; ENDPOINT_OWNER; NODE_COUNT; NODE_INCOMPATIBLE; NODE_UNKNOWN; NODES_INVALID;
   OPTION_INVALID; PARAMETER_TYPE; PARAMETER_UNKNOWN; PARAMETER_VALUE; PARAMETERS_INVALID;
   READY_IMMUTABLE; RECIPE_UNRESOLVED; STALE_PLAN; TOPOLOGY_INVALID].
Lemma ClusterMappingCode_decode e :
  find (fun m => String.eqb (ClusterMappingCode_value m) (ClusterMappingCode_value e)) ClusterMappingCode_members = Some e.
Proof. destruct e; reflexivity. Qed.
#[global] Instance ClusterMappingCode_enum : WireEnum ClusterMappingCode :=
  decoded_enum ClusterMappingCode_members ClusterMappingCode_value ClusterMappingCode_decode eq_refl.
End ClusterMappingCode.
Abbreviation ClusterMappingCode := ClusterMappingCode.ClusterMappingCode.

(** Generic Controller request and fleet-operation problem codes. *)
Module ControllerErrorCode.
Inductive ControllerErrorCode :=
    CONFLICT | FLEET_REVOCATION_UNCERTAIN | FLEET_UPGRADE_CONFLICT | HTTP | INTERNAL_ERROR
  | INVALID_REQUEST | NOT_FOUND | RATE_LIMITED | REQUEST_TOO_LARGE | EDGE_BODY_LIMIT
  | SUPERSEDED_OPERATION_CANCELLED | TIMEOUT | UNAVAILABLE.
Definition ControllerErrorCode_value (e : ControllerErrorCode) : string :=
  match e with
  | CONFLICT => "controller.conflict"
  | FLEET_REVOCATION_UNCERTAIN => "controller.fleet.revocation_uncertain"
  | FLEET_UPGRADE_CONFLICT => "controller.fleet.upgrade_conflict"
  | HTTP => "controller.http_"
  | INTERNAL_ERROR => "controller.internal_error"
  | INVALID_REQUEST => "controller.invalid_request"
  | NOT_FOUND => "controller.not_found"
  | RATE_LIMITED => "controller.rate_limited"
  | REQUEST_TOO_LARGE => "controller.request_too_large"
  | EDGE_BODY_LIMIT => "edge.body_limit"
  | SUPERSEDED_OPERATION_CANCELLED => "superseded_operation_cancelled"
  | TIMEOUT => "controller.timeout"
  | UNAVAILABLE => "controller.unavailable"
  end.
Definition ControllerErrorCode_members : list ControllerErrorCode :=
  [CONFLICT; FLEET_REVOCATION_UNCERTAIN; FLEET_UPGRADE_CONFLICT; HTTP; INTERNAL_ERROR;
   INVALID_REQUEST; NOT_FOUND; RATE_LIMITED; REQUEST_TOO_LARGE; EDGE_BODY_LIMIT;
   SUPERSEDED_OPERATION_CANCELLED; TIMEOUT; UNAVAILABLE].
Lemma ControllerErrorCode_decode e :
  find (fun m => String.eqb (ControllerErrorCode_value m) (ControllerErrorCode_value e)) ControllerErrorCode_members = Some e.
Proof. destruct e; reflexivity. Qed.
#[global] Instance ControllerErrorCode_enum : WireEnum ControllerErrorCode :=
  decoded_enum ControllerErrorCode_members ControllerErrorCode_value ControllerErrorCode_decode eq_refl.
End ControllerErrorCode.
Abbreviation ControllerErrorCode := ControllerErrorCode.ControllerErrorCode.

(** Why a distribution assignment object cannot be served to a Spark. *)
Module DistributionCode.
Inductive DistributionCode :=
    ASSIGNMENT_CONFLICT | EXPIRED | MODEL_SET_IDENTITY_UNAVAILABLE | MODEL_SET_MISMATCH
  | OBJECT_INVALID | OBJECT_UNAVAILABLE | RUNTIME_IMAGE_MISMATCH | UNASSIGNED | WRONG_NODE.
Definition DistributionCode_value (e : DistributionCode) : string :=
  match e with
  | ASSIGNMENT_CONFLICT => "distribution.assignment_conflict"
  | EXPIRED => "distribution.expired"
  | MODEL_SET_IDENTITY_UNAVAILABLE => "distribution.model_set_identity_unavailable"
  | MODEL_SET_MISMATCH => "distribution.model_set_mismatch"
  | OBJECT_INVALID => "distribution.object_invalid"
  | OBJECT_UNAVAILABLE => "distribution.object_unavailable"
  | RUNTIME_IMAGE_MISMATCH => "distribution.runtime_image_mismatch"
  | UNASSIGNED => "distribution.unassigned"
  | WRONG_NODE => "distribution.wrong_node"
  end.
Definition DistributionCode_members : list DistributionCode :=
  [ASSIGNMENT_CONFLICT; EXPIRED; MODEL_SET_IDENTITY_UNAVAILABLE; MODEL_SET_MISMATCH;
   OBJECT_INVALID; OBJECT_UNAVAILABLE; RUNTIME_IMAGE_MISMATCH; UNASSIGNED; WRONG_NODE].
Lemma DistributionCode_decode e :
  find (fun m => String.eqb (DistributionCode_value m) (DistributionCode_value e)) DistributionCode_members = Some e.
Proof. destruct e; reflexivity. Qed.
#[global] Instance DistributionCode_enum : WireEnum DistributionCode :=
  decoded_enum DistributionCode_members DistributionCode_value DistributionCode_decode eq_refl.
End DistributionCode.
Abbreviation DistributionCode := DistributionCode.DistributionCode.

(** Every code the privileged helper, or the agent speaking about it, names as an error. *)
Module HelperErrorCode.
Inductive HelperErrorCode :=
    CALL_JOIN_FAILED | CONCURRENCY_LIMIT | GRANT_INVALID | GRANT_NODE_MISMATCH
  | GRANT_UNAUTHORIZED | GRANT_TIME_WINDOW | INSPECTION_OUTCOME_INVALID
  | INSTALLATION_RECONCILIATION_BUSY | INSTALLATION_RECONCILIATION_STORAGE_UNAVAILABLE
  | INSTALLATION_INTENT_OBSERVATION_REQUIRED | MESSAGE_FRAMING_INVALID
  | OPERATION_COMMAND_FAILED | OPERATION_FAILED | OPERATION_INVALID
  | OPERATION_INVALID_ARTIFACT | OPERATION_IO | OPERATION_STOP_UNCERTAIN
  | OPERATION_UNSAFE_PATH | OUTCOME_MALFORMED | PACKAGE_CUSTODY_FAILED | PACKAGE_INSTALL_FAILED
  | PACKAGE_METADATA_FAILED | PACKAGE_PREPARATION_UNAVAILABLE | PACKAGE_PREFLIGHT_FAILED
  | PACKAGE_VERIFICATION_FAILED | PEER_IDENTITY_INVALID | REJECTION_MALFORMED
  | REQUEST_ARGUMENTS_PRESENCE_INVALID | REQUEST_ARGUMENT_NUL_BYTE | REQUEST_ATTEMPT_INVALID
  | REQUEST_BYTES_INVALID | REQUEST_DOCUMENT_INVALID | REQUEST_ENCODING_INVALID
  | REQUEST_INSTALLATION_IDENTITY_INVALID | REQUEST_INVALID | REQUEST_LEDGER_FAILED
  | REQUEST_PLAN_BINDING_INVALID | REQUEST_PLAN_BYTES_INVALID | REQUEST_REPLAYED
  | REQUEST_SCHEMA_VERSION_INVALID | REQUEST_STORAGE_INVALID | RESPONSE_UNBOUND
  | RUNTIME_AUTHORITY_UNAVAILABLE | RUNTIME_ENDPOINT_FIREWALL_REJECTED
  | RUNTIME_FABRIC_FIREWALL_REJECTED | RUNTIME_FABRIC_UNAVAILABLE
  | RUNTIME_HELPER_CALL_JOIN_FAILED | RUNTIME_HELPER_INSPECTION_OUTCOME_INVALID
  | RUNTIME_HELPER_MESSAGE_FRAMING_INVALID | RUNTIME_HELPER_OUTCOME_MALFORMED
  | RUNTIME_HELPER_PROTOCOL_INVALID | RUNTIME_HELPER_REJECTION_MALFORMED
  | RUNTIME_HELPER_REQUEST_ARGUMENTS_PRESENCE_INVALID
  | RUNTIME_HELPER_REQUEST_ARGUMENT_NUL_BYTE | RUNTIME_HELPER_REQUEST_ATTEMPT_INVALID
  | RUNTIME_HELPER_REQUEST_BYTES_INVALID | RUNTIME_HELPER_REQUEST_DOCUMENT_INVALID
  | RUNTIME_HELPER_REQUEST_ENCODING_INVALID
  | RUNTIME_HELPER_REQUEST_INSTALLATION_IDENTITY_INVALID
  | RUNTIME_HELPER_REQUEST_PLAN_BINDING_INVALID | RUNTIME_HELPER_REQUEST_PLAN_BYTES_INVALID
  | RUNTIME_HELPER_REQUEST_SCHEMA_VERSION_INVALID | RUNTIME_HELPER_REQUEST_STORAGE_INVALID
  | RUNTIME_HELPER_RESPONSE_UNBOUND | RUNTIME_HELPER_STOP_UNCERTAIN
  | RUNTIME_HELPER_SYSTEM_CLOCK_INVALID | RUNTIME_HELPER_UNAVAILABLE
  | RUNTIME_IMAGE_IDENTITY_INVALID | RUNTIME_IMAGE_INSPECT_FAILED | RUNTIME_IMAGE_LOAD_FAILED
  | RUNTIME_IMAGE_RECEIPT_FAILED | RUNTIME_PROCESS_EXITED | RUNTIME_RUN_MISSING
  | SYSTEM_CLOCK_INVALID.
Definition HelperErrorCode_value (e : HelperErrorCode) : string :=
  match e with
  | CALL_JOIN_FAILED => "call_join_failed"
  | CONCURRENCY_LIMIT => "concurrency_limit"
  | GRANT_INVALID => "grant_invalid"
  | GRANT_NODE_MISMATCH => "grant_node_mismatch"
  | GRANT_UNAUTHORIZED => "grant_unauthorized"
  | GRANT_TIME_WINDOW => "grant_time_window"
  | INSPECTION_OUTCOME_INVALID => "inspection_outcome_invalid"
  | INSTALLATION_RECONCILIATION_BUSY => "installation_reconciliation_busy"
  | INSTALLATION_RECONCILIATION_STORAGE_UNAVAILABLE =>
      "installation_reconciliation_storage_unavailable"
  | INSTALLATION_INTENT_OBSERVATION_REQUIRED => "installation_intent_observation_required"
  | MESSAGE_FRAMING_INVALID => "message_framing_invalid"
  | OPERATION_COMMAND_FAILED => "operation_command_failed"
  | OPERATION_FAILED => "operation_failed"
  | OPERATION_INVALID => "operation_invalid"
  | OPERATION_INVALID_ARTIFACT => "operation_invalid_artifact"
  | OPERATION_IO => "operation_io"
  | OPERATION_STOP_UNCERTAIN => "operation_stop_uncertain"
  | OPERATION_UNSAFE_PATH => "operation_unsafe_path"
  | OUTCOME_MALFORMED => "outcome_malformed"
  | PACKAGE_CUSTODY_FAILED => "package_custody_failed"
  | PACKAGE_INSTALL_FAILED => "package_install_failed"
  | PACKAGE_METADATA_FAILED => "package_metadata_failed"
  | PACKAGE_PREPARATION_UNAVAILABLE => "package_preparation_unavailable"
  | PACKAGE_PREFLIGHT_FAILED => "package_preflight_failed"
  | PACKAGE_VERIFICATION_FAILED => "package_verification_failed"
  | PEER_IDENTITY_INVALID => "peer_identity_invalid"
  | REJECTION_MALFORMED => "rejection_malformed"
  | REQUEST_ARGUMENTS_PRESENCE_INVALID => "request_arguments_presence_invalid"
  | REQUEST_ARGUMENT_NUL_BYTE => "request_argument_nul_byte"
  | REQUEST_ATTEMPT_INVALID => "request_attempt_invalid"
  | REQUEST_BYTES_INVALID => "request_bytes_invalid"
  | REQUEST_DOCUMENT_INVALID => "request_document_invalid"
  | REQUEST_ENCODING_INVALID => "request_encoding_invalid"
  | REQUEST_INSTALLATION_IDENTITY_INVALID => "request_installation_identity_invalid"
  | REQUEST_INVALID => "request_invalid"
  | REQUEST_LEDGER_FAILED => "request_ledger_failed"
  | REQUEST_PLAN_BINDING_INVALID => "request_plan_binding_invalid"
  | REQUEST_PLAN_BYTES_INVALID => "request_plan_bytes_invalid"
  | REQUEST_REPLAYED => "request_replayed"
  | REQUEST_SCHEMA_VERSION_INVALID => "request_schema_version_invalid"
  | REQUEST_STORAGE_INVALID => "request_storage_invalid"
  | RESPONSE_UNBOUND => "response_unbound"
  | RUNTIME_AUTHORITY_UNAVAILABLE => "runtime_authority_unavailable"
  | RUNTIME_ENDPOINT_FIREWALL_REJECTED => "runtime_endpoint_firewall_rejected"
  | RUNTIME_FABRIC_FIREWALL_REJECTED => "runtime_fabric_firewall_rejected"
  | RUNTIME_FABRIC_UNAVAILABLE => "runtime_fabric_unavailable"
  | RUNTIME_HELPER_CALL_JOIN_FAILED => "runtime_helper_call_join_failed"
  | RUNTIME_HELPER_INSPECTION_OUTCOME_INVALID => "runtime_helper_inspection_outcome_invalid"
  | RUNTIME_HELPER_MESSAGE_FRAMING_INVALID => "runtime_helper_message_framing_invalid"
  | RUNTIME_HELPER_OUTCOME_MALFORMED => "runtime_helper_outcome_malformed"
  | RUNTIME_HELPER_PROTOCOL_INVALID => "runtime_helper_protocol_invalid"
  | RUNTIME_HELPER_REJECTION_MALFORMED => "runtime_helper_rejection_malformed"
  | RUNTIME_HELPER_REQUEST_ARGUMENTS_PRESENCE_INVALID =>
      "runtime_helper_request_arguments_presence_invalid"
  | RUNTIME_HELPER_REQUEST_ARGUMENT_NUL_BYTE => "runtime_helper_request_argument_nul_byte"
  | RUNTIME_HELPER_REQUEST_ATTEMPT_INVALID => "runtime_helper_request_attempt_invalid"
  | RUNTIME_HELPER_REQUEST_BYTES_INVALID => "runtime_helper_request_bytes_invalid"
  | RUNTIME_HELPER_REQUEST_DOCUMENT_INVALID => "runtime_helper_request_document_invalid"
  | RUNTIME_HELPER_REQUEST_ENCODING_INVALID => "runtime_helper_request_encoding_invalid"
  | RUNTIME_HELPER_REQUEST_INSTALLATION_IDENTITY_INVALID =>
      "runtime_helper_request_installation_identity_invalid"
  | RUNTIME_HELPER_REQUEST_PLAN_BINDING_INVALID => "runtime_helper_request_plan_binding_invalid"
  | RUNTIME_HELPER_REQUEST_PLAN_BYTES_INVALID => "runtime_helper_request_plan_bytes_invalid"
  | RUNTIME_HELPER_REQUEST_SCHEMA_VERSION_INVALID => "runtime_helper_request_schema_version_invalid"
  | RUNTIME_HELPER_REQUEST_STORAGE_INVALID => "runtime_helper_request_storage_invalid"
  | RUNTIME_HELPER_RESPONSE_UNBOUND => "runtime_helper_response_unbound"
  | RUNTIME_HELPER_STOP_UNCERTAIN => "runtime_helper_stop_uncertain"
  | RUNTIME_HELPER_SYSTEM_CLOCK_INVALID => "runtime_helper_system_clock_invalid"
  | RUNTIME_HELPER_UNAVAILABLE => "runtime_helper_unavailable"
  | RUNTIME_IMAGE_IDENTITY_INVALID => "runtime_image_identity_invalid"
  | RUNTIME_IMAGE_INSPECT_FAILED => "runtime_image_inspect_failed"
  | RUNTIME_IMAGE_LOAD_FAILED => "runtime_image_load_failed"
  | RUNTIME_IMAGE_RECEIPT_FAILED => "runtime_image_receipt_failed"
  | RUNTIME_PROCESS_EXITED => "runtime_process_exited"
  | RUNTIME_RUN_MISSING => "runtime_run_missing"
  | SYSTEM_CLOCK_INVALID => "system_clock_invalid"
  end.
Definition HelperErrorCode_members : list HelperErrorCode :=
  [CALL_JOIN_FAILED; CONCURRENCY_LIMIT; GRANT_INVALID; GRANT_NODE_MISMATCH; GRANT_UNAUTHORIZED;
   GRANT_TIME_WINDOW; INSPECTION_OUTCOME_INVALID; INSTALLATION_RECONCILIATION_BUSY;
   INSTALLATION_RECONCILIATION_STORAGE_UNAVAILABLE; INSTALLATION_INTENT_OBSERVATION_REQUIRED;
   MESSAGE_FRAMING_INVALID; OPERATION_COMMAND_FAILED; OPERATION_FAILED; OPERATION_INVALID;
   OPERATION_INVALID_ARTIFACT; OPERATION_IO; OPERATION_STOP_UNCERTAIN; OPERATION_UNSAFE_PATH;
   OUTCOME_MALFORMED; PACKAGE_CUSTODY_FAILED; PACKAGE_INSTALL_FAILED; PACKAGE_METADATA_FAILED;
   PACKAGE_PREPARATION_UNAVAILABLE; PACKAGE_PREFLIGHT_FAILED; PACKAGE_VERIFICATION_FAILED;
   PEER_IDENTITY_INVALID; REJECTION_MALFORMED; REQUEST_ARGUMENTS_PRESENCE_INVALID;
   REQUEST_ARGUMENT_NUL_BYTE; REQUEST_ATTEMPT_INVALID; REQUEST_BYTES_INVALID;
   REQUEST_DOCUMENT_INVALID; REQUEST_ENCODING_INVALID; REQUEST_INSTALLATION_IDENTITY_INVALID;
   REQUEST_INVALID; REQUEST_LEDGER_FAILED; REQUEST_PLAN_BINDING_INVALID;
   REQUEST_PLAN_BYTES_INVALID; REQUEST_REPLAYED; REQUEST_SCHEMA_VERSION_INVALID;
   REQUEST_STORAGE_INVALID; RESPONSE_UNBOUND; RUNTIME_AUTHORITY_UNAVAILABLE;
   RUNTIME_ENDPOINT_FIREWALL_REJECTED; RUNTIME_FABRIC_FIREWALL_REJECTED;
   RUNTIME_FABRIC_UNAVAILABLE; RUNTIME_HELPER_CALL_JOIN_FAILED;
   RUNTIME_HELPER_INSPECTION_OUTCOME_INVALID; RUNTIME_HELPER_MESSAGE_FRAMING_INVALID;
   RUNTIME_HELPER_OUTCOME_MALFORMED; RUNTIME_HELPER_PROTOCOL_INVALID;
   RUNTIME_HELPER_REJECTION_MALFORMED; RUNTIME_HELPER_REQUEST_ARGUMENTS_PRESENCE_INVALID;
   RUNTIME_HELPER_REQUEST_ARGUMENT_NUL_BYTE; RUNTIME_HELPER_REQUEST_ATTEMPT_INVALID;
   RUNTIME_HELPER_REQUEST_BYTES_INVALID; RUNTIME_HELPER_REQUEST_DOCUMENT_INVALID;
   RUNTIME_HELPER_REQUEST_ENCODING_INVALID;
   RUNTIME_HELPER_REQUEST_INSTALLATION_IDENTITY_INVALID;
   RUNTIME_HELPER_REQUEST_PLAN_BINDING_INVALID; RUNTIME_HELPER_REQUEST_PLAN_BYTES_INVALID;
   RUNTIME_HELPER_REQUEST_SCHEMA_VERSION_INVALID; RUNTIME_HELPER_REQUEST_STORAGE_INVALID;
   RUNTIME_HELPER_RESPONSE_UNBOUND; RUNTIME_HELPER_STOP_UNCERTAIN;
   RUNTIME_HELPER_SYSTEM_CLOCK_INVALID; RUNTIME_HELPER_UNAVAILABLE;
   RUNTIME_IMAGE_IDENTITY_INVALID; RUNTIME_IMAGE_INSPECT_FAILED; RUNTIME_IMAGE_LOAD_FAILED;
   RUNTIME_IMAGE_RECEIPT_FAILED; RUNTIME_PROCESS_EXITED; RUNTIME_RUN_MISSING;
   SYSTEM_CLOCK_INVALID].
Lemma HelperErrorCode_decode e :
  find (fun m => String.eqb (HelperErrorCode_value m) (HelperErrorCode_value e)) HelperErrorCode_members = Some e.
Proof. destruct e; reflexivity. Qed.
#[global] Instance HelperErrorCode_enum : WireEnum HelperErrorCode :=
  decoded_enum HelperErrorCode_members HelperErrorCode_value HelperErrorCode_decode eq_refl.
End HelperErrorCode.
Abbreviation HelperErrorCode := HelperErrorCode.HelperErrorCode.

(** Stable diagnostic codes returned by the privileged operation executor. *)
Module HelperOperationCode.
Inductive HelperOperationCode :=
    ARTIFACT_INVALID | COMMAND_FAILED | INSTALLATION_RECONCILIATION_BUSY
  | INSTALLATION_RECONCILIATION_STORAGE_UNAVAILABLE | INSTALLATION_INTENT_OBSERVATION_REQUIRED
  | IO_FAILED | OPERATION_INVALID | PACKAGE_INSTALL_FAILED | PACKAGE_METADATA_INVALID
  | PACKAGE_PREPARATION_UNAVAILABLE | PACKAGE_PREFLIGHT_FAILED
  | RUNTIME_ENDPOINT_FIREWALL_REJECTED | RUNTIME_FABRIC_FIREWALL_REJECTED
  | RUNTIME_FABRIC_UNAVAILABLE | RUNTIME_IMAGE_IDENTITY_INVALID | RUNTIME_IMAGE_INSPECT_FAILED
  | RUNTIME_IMAGE_LOAD_FAILED | RUNTIME_IMAGE_RECEIPT_FAILED
  | RUNTIME_INVOCATION_LIMIT_EXCEEDED | RUNTIME_INVOCATION_LIMITS_UNAVAILABLE
  | RUNTIME_INVOCATION_STRING_LIMIT_EXCEEDED | RUNTIME_PROCESS_EXITED | RUNTIME_RUN_MISSING
  | STOP_UNCERTAIN | UNSAFE_PATH.
Definition HelperOperationCode_value (e : HelperOperationCode) : string :=
  match e with
  | ARTIFACT_INVALID => "helper.artifact_invalid"
  | COMMAND_FAILED => "helper.command_failed"
  | INSTALLATION_RECONCILIATION_BUSY => "helper.installation_reconciliation_busy"
  | INSTALLATION_RECONCILIATION_STORAGE_UNAVAILABLE =>
      "helper.installation_reconciliation_storage_unavailable"
  | INSTALLATION_INTENT_OBSERVATION_REQUIRED => "helper.installation_intent_observation_required"
  | IO_FAILED => "helper.io_failed"
  | OPERATION_INVALID => "helper.operation_invalid"
  | PACKAGE_INSTALL_FAILED => "helper.package_install_failed"
  | PACKAGE_METADATA_INVALID => "helper.package_metadata_invalid"
  | PACKAGE_PREPARATION_UNAVAILABLE => "helper.package_preparation_unavailable"
  | PACKAGE_PREFLIGHT_FAILED => "helper.package_preflight_failed"
  | RUNTIME_ENDPOINT_FIREWALL_REJECTED => "helper.runtime_endpoint_firewall_rejected"
  | RUNTIME_FABRIC_FIREWALL_REJECTED => "helper.runtime_fabric_firewall_rejected"
  | RUNTIME_FABRIC_UNAVAILABLE => "helper.runtime_fabric_unavailable"
  | RUNTIME_IMAGE_IDENTITY_INVALID => "helper.runtime_image_identity_invalid"
  | RUNTIME_IMAGE_INSPECT_FAILED => "helper.runtime_image_inspect_failed"
  | RUNTIME_IMAGE_LOAD_FAILED => "helper.runtime_image_load_failed"
  | RUNTIME_IMAGE_RECEIPT_FAILED => "helper.runtime_image_receipt_failed"
  | RUNTIME_INVOCATION_LIMIT_EXCEEDED => "helper.runtime_invocation_limit_exceeded"
  | RUNTIME_INVOCATION_LIMITS_UNAVAILABLE => "helper.runtime_invocation_limits_unavailable"
  | RUNTIME_INVOCATION_STRING_LIMIT_EXCEEDED => "helper.runtime_invocation_string_limit_exceeded"
  | RUNTIME_PROCESS_EXITED => "helper.runtime_process_exited"
  | RUNTIME_RUN_MISSING => "helper.runtime_run_missing"
  | STOP_UNCERTAIN => "helper.stop_uncertain"
  | UNSAFE_PATH => "helper.unsafe_path"
  end.
Definition HelperOperationCode_members : list HelperOperationCode :=
  [ARTIFACT_INVALID; COMMAND_FAILED; INSTALLATION_RECONCILIATION_BUSY;
   INSTALLATION_RECONCILIATION_STORAGE_UNAVAILABLE; INSTALLATION_INTENT_OBSERVATION_REQUIRED;
   IO_FAILED; OPERATION_INVALID; PACKAGE_INSTALL_FAILED; PACKAGE_METADATA_INVALID;
   PACKAGE_PREPARATION_UNAVAILABLE; PACKAGE_PREFLIGHT_FAILED;
   RUNTIME_ENDPOINT_FIREWALL_REJECTED; RUNTIME_FABRIC_FIREWALL_REJECTED;
   RUNTIME_FABRIC_UNAVAILABLE; RUNTIME_IMAGE_IDENTITY_INVALID; RUNTIME_IMAGE_INSPECT_FAILED;
   RUNTIME_IMAGE_LOAD_FAILED; RUNTIME_IMAGE_RECEIPT_FAILED; RUNTIME_INVOCATION_LIMIT_EXCEEDED;
   RUNTIME_INVOCATION_LIMITS_UNAVAILABLE; RUNTIME_INVOCATION_STRING_LIMIT_EXCEEDED;
   RUNTIME_PROCESS_EXITED; RUNTIME_RUN_MISSING; STOP_UNCERTAIN; UNSAFE_PATH].
Lemma HelperOperationCode_decode e :
  find (fun m => String.eqb (HelperOperationCode_value m) (HelperOperationCode_value e)) HelperOperationCode_members = Some e.
Proof. destruct e; reflexivity. Qed.
#[global] Instance HelperOperationCode_enum : WireEnum HelperOperationCode :=
  decoded_enum HelperOperationCode_members HelperOperationCode_value HelperOperationCode_decode eq_refl.
End HelperOperationCode.
Abbreviation HelperOperationCode := HelperOperationCode.HelperOperationCode.

(** Refusals and damage found by the Controller OCI image store. *)
Module ImageStoreCode.
Inductive ImageStoreCode :=
    BUSY | COLLECTION_DEFERRED | COPY_FAILED | DAMAGED_RECEIPT_EVICTED | DIGEST_INVALID
  | IMPORT_INCOMPLETE | MANIFEST_CORRUPT | MANIFEST_INVALID | MANIFEST_UNREADABLE
  | MANIFEST_UNSUPPORTED | REFERENCE_SCAN_FAILED | REFERENCE_UNPINNED
  | REFERENCED_MANIFEST_DAMAGED.
Definition ImageStoreCode_value (e : ImageStoreCode) : string :=
  match e with
  | BUSY => "image_store.busy"
  | COLLECTION_DEFERRED => "image_store.collection_deferred"
  | COPY_FAILED => "image_store.copy_failed"
  | DAMAGED_RECEIPT_EVICTED => "image_store.damaged_receipt_evicted"
  | DIGEST_INVALID => "image_store.digest_invalid"
  | IMPORT_INCOMPLETE => "image_store.import_incomplete"
  | MANIFEST_CORRUPT => "image_store.manifest_corrupt"
  | MANIFEST_INVALID => "image_store.manifest_invalid"
  | MANIFEST_UNREADABLE => "image_store.manifest_unreadable"
  | MANIFEST_UNSUPPORTED => "image_store.manifest_unsupported"
  | REFERENCE_SCAN_FAILED => "image_store.reference_scan_failed"
  | REFERENCE_UNPINNED => "image_store.reference_unpinned"
  | REFERENCED_MANIFEST_DAMAGED => "image_store.referenced_manifest_damaged"
  end.
Definition ImageStoreCode_members : list ImageStoreCode :=
  [BUSY; COLLECTION_DEFERRED; COPY_FAILED; DAMAGED_RECEIPT_EVICTED; DIGEST_INVALID;
   IMPORT_INCOMPLETE; MANIFEST_CORRUPT; MANIFEST_INVALID; MANIFEST_UNREADABLE;
   MANIFEST_UNSUPPORTED; REFERENCE_SCAN_FAILED; REFERENCE_UNPINNED; REFERENCED_MANIFEST_DAMAGED].
Lemma ImageStoreCode_decode e :
  find (fun m => String.eqb (ImageStoreCode_value m) (ImageStoreCode_value e)) ImageStoreCode_members = Some e.
Proof. destruct e; reflexivity. Qed.
#[global] Instance ImageStoreCode_enum : WireEnum ImageStoreCode :=
  decoded_enum ImageStoreCode_members ImageStoreCode_value ImageStoreCode_decode eq_refl.
End ImageStoreCode.
Abbreviation ImageStoreCode := ImageStoreCode.ImageStoreCode.

(** Why an installation is not admitted (or is waiting) on a Spark. *)
Module InstallAdmissionCode.
Inductive InstallAdmissionCode :=
    AGENT_UPGRADE_REQUIRED | ARTIFACT_SIZE_UNDERDECLARED | ARTIFACT_STORE_READ_ONLY
  | CAPACITY_BUSY | COMPILED_PLAN_UNAVAILABLE | DEPENDENCIES_STALE | IMAGE_DISTRIBUTION_PENDING
  | IMAGE_SIZE_UNDERDECLARED | INSUFFICIENT_DISK | INVENTORY_MISSING
  | MODEL_IDENTITY_UNAVAILABLE | PLAN_INVALID | PLAN_STALE | STALE_INVENTORY.
Definition InstallAdmissionCode_value (e : InstallAdmissionCode) : string :=
  match e with
  | AGENT_UPGRADE_REQUIRED => "install.agent_upgrade_required"
  | ARTIFACT_SIZE_UNDERDECLARED => "install.artifact_size_underdeclared"
  | ARTIFACT_STORE_READ_ONLY => "install.artifact_store_read_only"
  | CAPACITY_BUSY => "install.capacity_busy"
  | COMPILED_PLAN_UNAVAILABLE => "install.compiled_plan_unavailable"
  | DEPENDENCIES_STALE => "install.dependencies_stale"
  | IMAGE_DISTRIBUTION_PENDING => "install.image_distribution_pending"
  | IMAGE_SIZE_UNDERDECLARED => "install.image_size_underdeclared"
  | INSUFFICIENT_DISK => "install.insufficient_disk"
  | INVENTORY_MISSING => "install.inventory_missing"
  | MODEL_IDENTITY_UNAVAILABLE => "install.model_identity_unavailable"
  | PLAN_INVALID => "install.plan_invalid"
  | PLAN_STALE => "install.plan_stale"
  | STALE_INVENTORY => "install.stale_inventory"
  end.
Definition InstallAdmissionCode_members : list InstallAdmissionCode :=
  [AGENT_UPGRADE_REQUIRED; ARTIFACT_SIZE_UNDERDECLARED; ARTIFACT_STORE_READ_ONLY;
   CAPACITY_BUSY; COMPILED_PLAN_UNAVAILABLE; DEPENDENCIES_STALE; IMAGE_DISTRIBUTION_PENDING;
   IMAGE_SIZE_UNDERDECLARED; INSUFFICIENT_DISK; INVENTORY_MISSING; MODEL_IDENTITY_UNAVAILABLE;
   PLAN_INVALID; PLAN_STALE; STALE_INVENTORY].
Lemma InstallAdmissionCode_decode e :
  find (fun m => String.eqb (InstallAdmissionCode_value m) (InstallAdmissionCode_value e)) InstallAdmissionCode_members = Some e.
Proof. destruct e; reflexivity. Qed.
#[global] Instance InstallAdmissionCode_enum : WireEnum InstallAdmissionCode :=
  decoded_enum InstallAdmissionCode_members InstallAdmissionCode_value InstallAdmissionCode_decode eq_refl.
End InstallAdmissionCode.
Abbreviation InstallAdmissionCode := InstallAdmissionCode.InstallAdmissionCode.

(** Why an installation is shown partial in the fleet projection. *)
Module InstallDegradedReason.
Inductive InstallDegradedReason :=
    EXTERNAL_MEMBER | MAPPING_INCOMPLETE | MISSING_RANKS | UNEXPECTED_RANKS
  | RANK_MEMBERSHIP_MISMATCH | INSTALLATION_NOT_INSTALLED | RANK_NOT_INSTALLED
  | RANK_INCOMPLETE_BYTES.
Definition InstallDegradedReason_value (e : InstallDegradedReason) : string :=
  match e with
  | EXTERNAL_MEMBER => "external-member"
  | MAPPING_INCOMPLETE => "mapping-incomplete"
  | MISSING_RANKS => "missing-ranks"
  | UNEXPECTED_RANKS => "unexpected-ranks"
  | RANK_MEMBERSHIP_MISMATCH => "rank-membership-mismatch"
  | INSTALLATION_NOT_INSTALLED => "installation-not-installed"
  | RANK_NOT_INSTALLED => "rank-not-installed"
  | RANK_INCOMPLETE_BYTES => "rank-incomplete-bytes"
  end.
Definition InstallDegradedReason_members : list InstallDegradedReason :=
  [EXTERNAL_MEMBER; MAPPING_INCOMPLETE; MISSING_RANKS; UNEXPECTED_RANKS;
   RANK_MEMBERSHIP_MISMATCH; INSTALLATION_NOT_INSTALLED; RANK_NOT_INSTALLED;
   RANK_INCOMPLETE_BYTES].
Lemma InstallDegradedReason_decode e :
  find (fun m => String.eqb (InstallDegradedReason_value m) (InstallDegradedReason_value e)) InstallDegradedReason_members = Some e.
Proof. destruct e; reflexivity. Qed.
#[global] Instance InstallDegradedReason_enum : WireEnum InstallDegradedReason :=
  decoded_enum InstallDegradedReason_members InstallDegradedReason_value InstallDegradedReason_decode eq_refl.
End InstallDegradedReason.
Abbreviation InstallDegradedReason := InstallDegradedReason.InstallDegradedReason.

(** Why a library entry is not assessed runnable on the current fleet. *)
Module LibraryAssessmentCode.
Inductive LibraryAssessmentCode :=
    ASSESSMENT_UNAVAILABLE | CACHE_MISSING | CAPACITY_UNAVAILABLE | INSUFFICIENT_NODES.
Definition LibraryAssessmentCode_value (e : LibraryAssessmentCode) : string :=
  match e with
  | ASSESSMENT_UNAVAILABLE => "library.assessment_unavailable"
  | CACHE_MISSING => "library.cache_missing"
  | CAPACITY_UNAVAILABLE => "library.capacity_unavailable"
  | INSUFFICIENT_NODES => "library.insufficient_nodes"
  end.
Definition LibraryAssessmentCode_members : list LibraryAssessmentCode :=
  [ASSESSMENT_UNAVAILABLE; CACHE_MISSING; CAPACITY_UNAVAILABLE; INSUFFICIENT_NODES].
Lemma LibraryAssessmentCode_decode e :
  find (fun m => String.eqb (LibraryAssessmentCode_value m) (LibraryAssessmentCode_value e)) LibraryAssessmentCode_members = Some e.
Proof. destruct e; reflexivity. Qed.
#[global] Instance LibraryAssessmentCode_enum : WireEnum LibraryAssessmentCode :=
  decoded_enum LibraryAssessmentCode_members LibraryAssessmentCode_value LibraryAssessmentCode_decode eq_refl.
End LibraryAssessmentCode.
Abbreviation LibraryAssessmentCode := LibraryAssessmentCode.LibraryAssessmentCode.

(** Reasons the library projection truncates what it lists. *)
Module LibraryProjectionCode.
Inductive LibraryProjectionCode :=
    EVIDENCE_TRUNCATED | REASONS_TRUNCATED.
Definition LibraryProjectionCode_value (e : LibraryProjectionCode) : string :=
  match e with
  | EVIDENCE_TRUNCATED => "projection.evidence_truncated"
  | REASONS_TRUNCATED => "projection.reasons_truncated"
  end.
Definition LibraryProjectionCode_members : list LibraryProjectionCode :=
  [EVIDENCE_TRUNCATED; REASONS_TRUNCATED].
Lemma LibraryProjectionCode_decode e :
  find (fun m => String.eqb (LibraryProjectionCode_value m) (LibraryProjectionCode_value e)) LibraryProjectionCode_members = Some e.
Proof. destruct e; reflexivity. Qed.
#[global] Instance LibraryProjectionCode_enum : WireEnum LibraryProjectionCode :=
  decoded_enum LibraryProjectionCode_members LibraryProjectionCode_value LibraryProjectionCode_decode eq_refl.
End LibraryProjectionCode.
Abbreviation LibraryProjectionCode := LibraryProjectionCode.LibraryProjectionCode.

(** Why a model download plan is blocked or waiting. *)
Module ModelCacheBlockerCode.
Inductive ModelCacheBlockerCode :=
    INSUFFICIENT_RESERVED_STORAGE | MODEL_NOT_CACHED | RECIPE_NOT_CACHED.
Definition ModelCacheBlockerCode_value (e : ModelCacheBlockerCode) : string :=
  match e with
  | INSUFFICIENT_RESERVED_STORAGE => "insufficient-reserved-storage"
  | MODEL_NOT_CACHED => "model-not-cached"
  | RECIPE_NOT_CACHED => "recipe-not-cached"
  end.
Definition ModelCacheBlockerCode_members : list ModelCacheBlockerCode :=
  [INSUFFICIENT_RESERVED_STORAGE; MODEL_NOT_CACHED; RECIPE_NOT_CACHED].
Lemma ModelCacheBlockerCode_decode e :
  find (fun m => String.eqb (ModelCacheBlockerCode_value m) (ModelCacheBlockerCode_value e)) ModelCacheBlockerCode_members = Some e.
Proof. destruct e; reflexivity. Qed.
#[global] Instance ModelCacheBlockerCode_enum : WireEnum ModelCacheBlockerCode :=
  decoded_enum ModelCacheBlockerCode_members ModelCacheBlockerCode_value ModelCacheBlockerCode_decode eq_refl.
End ModelCacheBlockerCode.
Abbreviation ModelCacheBlockerCode := ModelCacheBlockerCode.ModelCacheBlockerCode.

(** Model cache resolution, storage, removal and operation problems. *)
Module ModelCacheCode.
Inductive ModelCacheCode :=
    ACCESS_RECHECK_UNAVAILABLE | ARTIFACT_COUNT | ARTIFACT_DUPLICATE | ARTIFACT_INVALID
  | ARTIFACT_MISSING | ARTIFACT_UNVERIFIED | CANCELLATION_INVALID | CANCELLATION_KEY_REUSED
  | CAPACITY | COVERAGE_INCOMPLETE | CREDENTIALS_MISSING | CURSOR_INVALID | DEPENDENCY_COUNT
  | DIGEST_INVALID | DIGEST_MISMATCH | DIGEST_SIZE_CONFLICT | DOCUMENT_UNREADABLE
  | DOWNLOAD_BLOCKED | ENTRY_MISSING | FIXTURE_SOURCES_FORBIDDEN | IDENTITY_CONFLICT
  | IDENTITY_MISMATCH | INTERRUPTED | LOCK_UNAVAILABLE | MANIFEST_IDENTITY_MISMATCH
  | MANIFEST_INVALID | MANIFEST_TOO_LARGE | MODEL_CONTENT_DIGESTS_INVALID
  | MODEL_DEFINITION_INVALID | MODEL_DEFINITION_MISSING | MODEL_DEPENDENCY_CYCLE
  | MODEL_PIN_INVALID | MODEL_VARIANT_INVALID | NOT_CANCELLABLE | OBJECT_BUSY
  | OPERATION_FAILED | OPERATION_MISSING | OPERATION_NOT_RETRYABLE | OPERATION_UNREADABLE
  | PAYLOAD_INVALID | PIN_MISMATCH | PIN_REQUIRED | PLAN_INVALID | RANGE_INVALID | RATE_LIMITED
  | RECIPE_IDENTITY_AMBIGUOUS | RECIPE_IDENTITY_INVALID | RECIPE_IDENTITY_MISSING
  | RECIPE_INVALID | RECIPE_MODEL_MISSING | RECIPE_REVISION_INVALID | RECIPE_REVISION_MISSING
  | REDIRECT_FORBIDDEN | RELEASE_ASSET_IDENTITY_CONFLICT | RELEASE_METADATA_INVALID
  | REMOVAL_CHILD_FAILED | REMOVAL_CHILD_INVALID | REMOVAL_CHILD_MISMATCH
  | REMOVAL_CHILD_MISSING | REMOVAL_CHILD_PENDING | REMOVAL_INVALID | REMOVAL_PATH_UNSAFE
  | REMOVAL_PLAN_INVALID | REMOVAL_REFERENCED | REMOVAL_SCOPE_CHANGED | REMOVAL_SCOPE_INVALID
  | REMOVAL_SCOPE_UNAVAILABLE | REMOVAL_WAIT | REQUEST_KEY_INVALID | REQUEST_KEY_REUSED
  | REVIEW_INVALID | REVIEW_UNAVAILABLE | REVISION_INVALID | REVISION_MISSING
  | SCHEMA_UNSUPPORTED | SELECTOR_AMBIGUOUS | SELECTOR_INVALID | SELECTOR_MISSING | SOURCE_GONE
  | SOURCE_INVALID | SOURCE_SIZE_MISMATCH | SOURCE_TRUNCATED | SOURCE_UNAVAILABLE
  | SOURCE_UNSUPPORTED | SOURCE_UNTRUSTED | STALE_PLAN | UNAVAILABLE
  | UPSTREAM_CHECK_BUDGET_EXHAUSTED | UPSTREAM_CHECK_FAILED | UPSTREAM_REVISION_INVALID.
Definition ModelCacheCode_value (e : ModelCacheCode) : string :=
  match e with
  | ACCESS_RECHECK_UNAVAILABLE => "model_cache.access_recheck_unavailable"
  | ARTIFACT_COUNT => "model_cache.artifact_count"
  | ARTIFACT_DUPLICATE => "model_cache.artifact_duplicate"
  | ARTIFACT_INVALID => "model_cache.artifact_invalid"
  | ARTIFACT_MISSING => "model_cache.artifact_missing"
  | ARTIFACT_UNVERIFIED => "model_cache.artifact_unverified"
  | CANCELLATION_INVALID => "model_cache.cancellation_invalid"
  | CANCELLATION_KEY_REUSED => "model_cache.cancellation_key_reused"
  | CAPACITY => "model_cache.capacity"
  | COVERAGE_INCOMPLETE => "model_cache.coverage_incomplete"
  | CREDENTIALS_MISSING => "model_cache.credentials_missing"
  | CURSOR_INVALID => "model_cache.cursor_invalid"
  | DEPENDENCY_COUNT => "model_cache.dependency_count"
  | DIGEST_INVALID => "model_cache.digest_invalid"
  | DIGEST_MISMATCH => "model_cache.digest_mismatch"
  | DIGEST_SIZE_CONFLICT => "model_cache.digest_size_conflict"
  | DOCUMENT_UNREADABLE => "model_cache.document_unreadable"
  | DOWNLOAD_BLOCKED => "model_cache.download_blocked"
  | ENTRY_MISSING => "model_cache.entry_missing"
  | FIXTURE_SOURCES_FORBIDDEN => "model_cache.fixture_sources_forbidden"
  | IDENTITY_CONFLICT => "model_cache.identity_conflict"
  | IDENTITY_MISMATCH => "model_cache.identity_mismatch"
  | INTERRUPTED => "model_cache.interrupted"
  | LOCK_UNAVAILABLE => "model_cache.lock_unavailable"
  | MANIFEST_IDENTITY_MISMATCH => "model_cache.manifest_identity_mismatch"
  | MANIFEST_INVALID => "model_cache.manifest_invalid"
  | MANIFEST_TOO_LARGE => "model_cache.manifest_too_large"
  | MODEL_CONTENT_DIGESTS_INVALID => "model_cache.model_content_digests_invalid"
  | MODEL_DEFINITION_INVALID => "model_cache.model_definition_invalid"
  | MODEL_DEFINITION_MISSING => "model_cache.model_definition_missing"
  | MODEL_DEPENDENCY_CYCLE => "model_cache.model_dependency_cycle"
  | MODEL_PIN_INVALID => "model_cache.model_pin_invalid"
  | MODEL_VARIANT_INVALID => "model_cache.model_variant_invalid"
  | NOT_CANCELLABLE => "model_cache.not_cancellable"
  | OBJECT_BUSY => "model_cache.object_busy"
  | OPERATION_FAILED => "model_cache.operation_failed"
  | OPERATION_MISSING => "model_cache.operation_missing"
  | OPERATION_NOT_RETRYABLE => "model_cache.operation_not_retryable"
  | OPERATION_UNREADABLE => "model_cache.operation_unreadable"
  | PAYLOAD_INVALID => "model_cache.payload_invalid"
  | PIN_MISMATCH => "model_cache.pin_mismatch"
  | PIN_REQUIRED => "model_cache.pin_required"
  | PLAN_INVALID => "model_cache.plan_invalid"
  | RANGE_INVALID => "model_cache.range_invalid"
  | RATE_LIMITED => "model_cache.rate_limited"
  | RECIPE_IDENTITY_AMBIGUOUS => "model_cache.recipe_identity_ambiguous"
  | RECIPE_IDENTITY_INVALID => "model_cache.recipe_identity_invalid"
  | RECIPE_IDENTITY_MISSING => "model_cache.recipe_identity_missing"
  | RECIPE_INVALID => "model_cache.recipe_invalid"
  | RECIPE_MODEL_MISSING => "model_cache.recipe_model_missing"
  | RECIPE_REVISION_INVALID => "model_cache.recipe_revision_invalid"
  | RECIPE_REVISION_MISSING => "model_cache.recipe_revision_missing"
  | REDIRECT_FORBIDDEN => "model_cache.redirect_forbidden"
  | RELEASE_ASSET_IDENTITY_CONFLICT => "model_cache.release_asset_identity_conflict"
  | RELEASE_METADATA_INVALID => "model_cache.release_metadata_invalid"
  | REMOVAL_CHILD_FAILED => "model_cache.removal_child_failed"
  | REMOVAL_CHILD_INVALID => "model_cache.removal_child_invalid"
  | REMOVAL_CHILD_MISMATCH => "model_cache.removal_child_mismatch"
  | REMOVAL_CHILD_MISSING => "model_cache.removal_child_missing"
  | REMOVAL_CHILD_PENDING => "model_cache.removal_child_pending"
  | REMOVAL_INVALID => "model_cache.removal_invalid"
  | REMOVAL_PATH_UNSAFE => "model_cache.removal_path_unsafe"
  | REMOVAL_PLAN_INVALID => "model_cache.removal_plan_invalid"
  | REMOVAL_REFERENCED => "model_cache.removal_referenced"
  | REMOVAL_SCOPE_CHANGED => "model_cache.removal_scope_changed"
  | REMOVAL_SCOPE_INVALID => "model_cache.removal_scope_invalid"
  | REMOVAL_SCOPE_UNAVAILABLE => "model_cache.removal_scope_unavailable"
  | REMOVAL_WAIT => "model_cache.removal_wait"
  | REQUEST_KEY_INVALID => "model_cache.request_key_invalid"
  | REQUEST_KEY_REUSED => "model_cache.request_key_reused"
  | REVIEW_INVALID => "model_cache.review_invalid"
  | REVIEW_UNAVAILABLE => "model_cache.review_unavailable"
  | REVISION_INVALID => "model_cache.revision_invalid"
  | REVISION_MISSING => "model_cache.revision_missing"
  | SCHEMA_UNSUPPORTED => "model_cache.schema_unsupported"
  | SELECTOR_AMBIGUOUS => "model_cache.selector_ambiguous"
  | SELECTOR_INVALID => "model_cache.selector_invalid"
  | SELECTOR_MISSING => "model_cache.selector_missing"
  | SOURCE_GONE => "model_cache.source_gone"
  | SOURCE_INVALID => "model_cache.source_invalid"
  | SOURCE_SIZE_MISMATCH => "model_cache.source_size_mismatch"
  | SOURCE_TRUNCATED => "model_cache.source_truncated"
  | SOURCE_UNAVAILABLE => "model_cache.source_unavailable"
  | SOURCE_UNSUPPORTED => "model_cache.source_unsupported"
  | SOURCE_UNTRUSTED => "model_cache.source_untrusted"
  | STALE_PLAN => "model_cache.stale_plan"
  | UNAVAILABLE => "model_cache.unavailable"
  | UPSTREAM_CHECK_BUDGET_EXHAUSTED => "model_cache.upstream_check_budget_exhausted"
  | UPSTREAM_CHECK_FAILED => "model_cache.upstream_check_failed"
  | UPSTREAM_REVISION_INVALID => "model_cache.upstream_revision_invalid"
  end.
Definition ModelCacheCode_members : list ModelCacheCode :=
  [ACCESS_RECHECK_UNAVAILABLE; ARTIFACT_COUNT; ARTIFACT_DUPLICATE; ARTIFACT_INVALID;
   ARTIFACT_MISSING; ARTIFACT_UNVERIFIED; CANCELLATION_INVALID; CANCELLATION_KEY_REUSED;
   CAPACITY; COVERAGE_INCOMPLETE; CREDENTIALS_MISSING; CURSOR_INVALID; DEPENDENCY_COUNT;
   DIGEST_INVALID; DIGEST_MISMATCH; DIGEST_SIZE_CONFLICT; DOCUMENT_UNREADABLE;
   DOWNLOAD_BLOCKED; ENTRY_MISSING; FIXTURE_SOURCES_FORBIDDEN; IDENTITY_CONFLICT;
   IDENTITY_MISMATCH; INTERRUPTED; LOCK_UNAVAILABLE; MANIFEST_IDENTITY_MISMATCH;
   MANIFEST_INVALID; MANIFEST_TOO_LARGE; MODEL_CONTENT_DIGESTS_INVALID;
   MODEL_DEFINITION_INVALID; MODEL_DEFINITION_MISSING; MODEL_DEPENDENCY_CYCLE;
   MODEL_PIN_INVALID; MODEL_VARIANT_INVALID; NOT_CANCELLABLE; OBJECT_BUSY; OPERATION_FAILED;
   OPERATION_MISSING; OPERATION_NOT_RETRYABLE; OPERATION_UNREADABLE; PAYLOAD_INVALID;
   PIN_MISMATCH; PIN_REQUIRED; PLAN_INVALID; RANGE_INVALID; RATE_LIMITED;
   RECIPE_IDENTITY_AMBIGUOUS; RECIPE_IDENTITY_INVALID; RECIPE_IDENTITY_MISSING; RECIPE_INVALID;
   RECIPE_MODEL_MISSING; RECIPE_REVISION_INVALID; RECIPE_REVISION_MISSING; REDIRECT_FORBIDDEN;
   RELEASE_ASSET_IDENTITY_CONFLICT; RELEASE_METADATA_INVALID; REMOVAL_CHILD_FAILED;
   REMOVAL_CHILD_INVALID; REMOVAL_CHILD_MISMATCH; REMOVAL_CHILD_MISSING; REMOVAL_CHILD_PENDING;
   REMOVAL_INVALID; REMOVAL_PATH_UNSAFE; REMOVAL_PLAN_INVALID; REMOVAL_REFERENCED;
   REMOVAL_SCOPE_CHANGED; REMOVAL_SCOPE_INVALID; REMOVAL_SCOPE_UNAVAILABLE; REMOVAL_WAIT;
   REQUEST_KEY_INVALID; REQUEST_KEY_REUSED; REVIEW_INVALID; REVIEW_UNAVAILABLE;
   REVISION_INVALID; REVISION_MISSING; SCHEMA_UNSUPPORTED; SELECTOR_AMBIGUOUS;
   SELECTOR_INVALID; SELECTOR_MISSING; SOURCE_GONE; SOURCE_INVALID; SOURCE_SIZE_MISMATCH;
   SOURCE_TRUNCATED; SOURCE_UNAVAILABLE; SOURCE_UNSUPPORTED; SOURCE_UNTRUSTED; STALE_PLAN;
   UNAVAILABLE; UPSTREAM_CHECK_BUDGET_EXHAUSTED; UPSTREAM_CHECK_FAILED;
   UPSTREAM_REVISION_INVALID].
Lemma ModelCacheCode_decode e :
  find (fun m => String.eqb (ModelCacheCode_value m) (ModelCacheCode_value e)) ModelCacheCode_members = Some e.
Proof. destruct e; reflexivity. Qed.
#[global] Instance ModelCacheCode_enum : WireEnum ModelCacheCode :=
  decoded_enum ModelCacheCode_members ModelCacheCode_value ModelCacheCode_decode eq_refl.
End ModelCacheCode.
Abbreviation ModelCacheCode := ModelCacheCode.ModelCacheCode.

(** Why a node is shown offline in the fleet projection. *)
Module NodeOfflineReason.
Inductive NodeOfflineReason :=
    UNREGISTERED | AGENT_INACTIVE | AGENT_REVOKED | NEVER_SEEN | STALE | CERTIFICATE_MISSING
  | CERTIFICATE_NOT_YET_VALID | CERTIFICATE_EXPIRED | CERTIFICATE_REVOKED | CERTIFICATE_INACTIVE.
Definition NodeOfflineReason_value (e : NodeOfflineReason) : string :=
  match e with
  | UNREGISTERED => "unregistered"
  | AGENT_INACTIVE => "agent-inactive"
  | AGENT_REVOKED => "agent-revoked"
  | NEVER_SEEN => "never-seen"
  | STALE => "stale"
  | CERTIFICATE_MISSING => "certificate-missing"
  | CERTIFICATE_NOT_YET_VALID => "certificate-not-yet-valid"
  | CERTIFICATE_EXPIRED => "certificate-expired"
  | CERTIFICATE_REVOKED => "certificate-revoked"
  | CERTIFICATE_INACTIVE => "certificate-inactive"
  end.
Definition NodeOfflineReason_members : list NodeOfflineReason :=
  [UNREGISTERED; AGENT_INACTIVE; AGENT_REVOKED; NEVER_SEEN; STALE; CERTIFICATE_MISSING;
   CERTIFICATE_NOT_YET_VALID; CERTIFICATE_EXPIRED; CERTIFICATE_REVOKED; CERTIFICATE_INACTIVE].
Lemma NodeOfflineReason_decode e :
  find (fun m => String.eqb (NodeOfflineReason_value m) (NodeOfflineReason_value e)) NodeOfflineReason_members = Some e.
Proof. destruct e; reflexivity. Qed.
#[global] Instance NodeOfflineReason_enum : WireEnum NodeOfflineReason :=
  decoded_enum NodeOfflineReason_members NodeOfflineReason_value NodeOfflineReason_decode eq_refl.
End NodeOfflineReason.
Abbreviation NodeOfflineReason := NodeOfflineReason.NodeOfflineReason.

(** Error codes of a stored operation failure evidence record. *)
Module OperationFailureCode.
Inductive OperationFailureCode :=
    FLEET_PROFILE_APPLICATION_FAILED | ARTIFACT_PROCESS_FAILED | STORED_RESULT_UNREADABLE
  | OUTCOME_UNCERTAIN.
Definition OperationFailureCode_value (e : OperationFailureCode) : string :=
  match e with
  | FLEET_PROFILE_APPLICATION_FAILED => "fleet_profile_application_failed"
  | ARTIFACT_PROCESS_FAILED => "artifact_process_failed"
  | STORED_RESULT_UNREADABLE => "stored_operation_result_unreadable"
  | OUTCOME_UNCERTAIN => "operation_outcome_uncertain"
  end.
Definition OperationFailureCode_members : list OperationFailureCode :=
  [FLEET_PROFILE_APPLICATION_FAILED; ARTIFACT_PROCESS_FAILED; STORED_RESULT_UNREADABLE;
   OUTCOME_UNCERTAIN].
Lemma OperationFailureCode_decode e :
  find (fun m => String.eqb (OperationFailureCode_value m) (OperationFailureCode_value e)) OperationFailureCode_members = Some e.
Proof. destruct e; reflexivity. Qed.
#[global] Instance OperationFailureCode_enum : WireEnum OperationFailureCode :=
  decoded_enum OperationFailureCode_members OperationFailureCode_value OperationFailureCode_decode eq_refl.
End OperationFailureCode.
Abbreviation OperationFailureCode := OperationFailureCode.OperationFailureCode.

(** Why a prebuilt runtime image is, or is not, used. *)
Module PrebuiltImageCode.
Inductive PrebuiltImageCode :=
    BUILD_KEY_MISMATCH | NOT_PINNED | PULL_FAILED | EVIDENCE_INVALID | PULL_FAILED_RECENTLY
  | USED.
Definition PrebuiltImageCode_value (e : PrebuiltImageCode) : string :=
  match e with
  | BUILD_KEY_MISMATCH => "prebuilt.build_key_mismatch"
  | NOT_PINNED => "prebuilt.not_pinned"
  | PULL_FAILED => "prebuilt_image_pull_failed"
  | EVIDENCE_INVALID => "prebuilt_image_evidence_invalid"
  | PULL_FAILED_RECENTLY => "prebuilt.pull_failed_recently"
  | USED => "prebuilt.used"
  end.
Definition PrebuiltImageCode_members : list PrebuiltImageCode :=
  [BUILD_KEY_MISMATCH; NOT_PINNED; PULL_FAILED; EVIDENCE_INVALID; PULL_FAILED_RECENTLY; USED].
Lemma PrebuiltImageCode_decode e :
  find (fun m => String.eqb (PrebuiltImageCode_value m) (PrebuiltImageCode_value e)) PrebuiltImageCode_members = Some e.
Proof. destruct e; reflexivity. Qed.
#[global] Instance PrebuiltImageCode_enum : WireEnum PrebuiltImageCode :=
  decoded_enum PrebuiltImageCode_members PrebuiltImageCode_value PrebuiltImageCode_decode eq_refl.
End PrebuiltImageCode.
Abbreviation PrebuiltImageCode := PrebuiltImageCode.PrebuiltImageCode.

(** Reasons a fleet profile cannot be applied or is waiting. *)
Module ProfileReasonCode.
Inductive ProfileReasonCode :=
    ADMISSION_BUSY | ADMISSION_DEFECT | ADMISSION_EFFECT_BUSY | APPLICATION_INTENT_INVALID
  | CHOICES_UNREADABLE | CONTINUING_ASSIGNMENTS_PENDING | DEFINITION_UNAVAILABLE
  | CLEANUP_DELEGATED | DISTRIBUTED_CROSS_SCOPE | FAILURE_REPEATED
  | INCOMPLETE_MULTI_SPARK_MODEL | INTERRUPTION_EXPECTED | PENDING_CROSS_SCOPE
  | PREPARATION_NOT_STARTED | PREPARATION_SCOPE_MISMATCH | PREPARATION_UNAVAILABLE
  | RECIPE_UNAVAILABLE | RECOVERY_ASSIGNMENTS_CHANGED | RECOVERY_CACHE_PENDING
  | RECOVERY_SCOPE_CHANGED | RECOVERY_WAITING | REQUEST_INVALID | RESOURCE_RECHECK_UNAVAILABLE
  | RETRY_CONFLICT | RETRY_EXECUTOR_UNAVAILABLE | RETRY_INTENT_UNAVAILABLE
  | RETRY_REVIEW_UNAVAILABLE | REVIEW_STALE | RUNTIME_IMAGE_REBUILD_PENDING
  | SHARED_INSTALLATION_SCOPE | SPARK_REMOVED | SPARK_UNAVAILABLE | STALE_PLAN
  | SWITCH_AUTHORITY_UNAVAILABLE | SWITCH_SCOPE_UNRESOLVED | TOPOLOGY_INCOMPLETE
  | RECOVERY_ARTIFACT_CHANGED | RUNTIME_IMAGE_CHANGED | SELECTION_LOST
  | ASSET_RESERVATION_UNAVAILABLE.
Definition ProfileReasonCode_value (e : ProfileReasonCode) : string :=
  match e with
  | ADMISSION_BUSY => "profile.admission_busy"
  | ADMISSION_DEFECT => "profile.admission_defect"
  | ADMISSION_EFFECT_BUSY => "profile.admission_effect_busy"
  | APPLICATION_INTENT_INVALID => "profile.application_intent.invalid"
  | CHOICES_UNREADABLE => "profile.choices_unreadable"
  | CONTINUING_ASSIGNMENTS_PENDING => "profile.continuing_assignments_pending"
  | DEFINITION_UNAVAILABLE => "profile.definition_unavailable"
  | CLEANUP_DELEGATED => "profile.cleanup_delegated"
  | DISTRIBUTED_CROSS_SCOPE => "profile.distributed_cross_scope"
  | FAILURE_REPEATED => "profile.failure_repeated"
  | INCOMPLETE_MULTI_SPARK_MODEL => "profile.incomplete_multi_spark_model"
  | INTERRUPTION_EXPECTED => "profile.interruption_expected"
  | PENDING_CROSS_SCOPE => "profile.pending_cross_scope"
  | PREPARATION_NOT_STARTED => "profile.preparation_not_started"
  | PREPARATION_SCOPE_MISMATCH => "profile.preparation_scope_mismatch"
  | PREPARATION_UNAVAILABLE => "profile.preparation_unavailable"
  | RECIPE_UNAVAILABLE => "profile.recipe_unavailable"
  | RECOVERY_ASSIGNMENTS_CHANGED => "profile.recovery_assignments_changed"
  | RECOVERY_CACHE_PENDING => "profile.recovery_cache_pending"
  | RECOVERY_SCOPE_CHANGED => "profile.recovery_scope_changed"
  | RECOVERY_WAITING => "profile.recovery_waiting"
  | REQUEST_INVALID => "profile.request_invalid"
  | RESOURCE_RECHECK_UNAVAILABLE => "profile.resource_recheck_unavailable"
  | RETRY_CONFLICT => "profile.retry_conflict"
  | RETRY_EXECUTOR_UNAVAILABLE => "profile.retry_executor_unavailable"
  | RETRY_INTENT_UNAVAILABLE => "profile.retry_intent_unavailable"
  | RETRY_REVIEW_UNAVAILABLE => "profile.retry_review_unavailable"
  | REVIEW_STALE => "profile.review_stale"
  | RUNTIME_IMAGE_REBUILD_PENDING => "profile.runtime_image_rebuild_pending"
  | SHARED_INSTALLATION_SCOPE => "profile.shared_installation_scope"
  | SPARK_REMOVED => "profile.spark_removed"
  | SPARK_UNAVAILABLE => "profile.spark_unavailable"
  | STALE_PLAN => "profile.stale_plan"
  | SWITCH_AUTHORITY_UNAVAILABLE => "profile.switch_authority_unavailable"
  | SWITCH_SCOPE_UNRESOLVED => "profile.switch_scope_unresolved"
  | TOPOLOGY_INCOMPLETE => "profile.topology_incomplete"
  | RECOVERY_ARTIFACT_CHANGED => "profile.recovery_artifact_changed"
  | RUNTIME_IMAGE_CHANGED => "profile.runtime-image-changed"
  | SELECTION_LOST => "profile.selection_lost"
  | ASSET_RESERVATION_UNAVAILABLE => "profile.asset_reservation_unavailable"
  end.
Definition ProfileReasonCode_members : list ProfileReasonCode :=
  [ADMISSION_BUSY; ADMISSION_DEFECT; ADMISSION_EFFECT_BUSY; APPLICATION_INTENT_INVALID;
   CHOICES_UNREADABLE; CONTINUING_ASSIGNMENTS_PENDING; DEFINITION_UNAVAILABLE;
   CLEANUP_DELEGATED; DISTRIBUTED_CROSS_SCOPE; FAILURE_REPEATED; INCOMPLETE_MULTI_SPARK_MODEL;
   INTERRUPTION_EXPECTED; PENDING_CROSS_SCOPE; PREPARATION_NOT_STARTED;
   PREPARATION_SCOPE_MISMATCH; PREPARATION_UNAVAILABLE; RECIPE_UNAVAILABLE;
   RECOVERY_ASSIGNMENTS_CHANGED; RECOVERY_CACHE_PENDING; RECOVERY_SCOPE_CHANGED;
   RECOVERY_WAITING; REQUEST_INVALID; RESOURCE_RECHECK_UNAVAILABLE; RETRY_CONFLICT;
   RETRY_EXECUTOR_UNAVAILABLE; RETRY_INTENT_UNAVAILABLE; RETRY_REVIEW_UNAVAILABLE;
   REVIEW_STALE; RUNTIME_IMAGE_REBUILD_PENDING; SHARED_INSTALLATION_SCOPE; SPARK_REMOVED;
   SPARK_UNAVAILABLE; STALE_PLAN; SWITCH_AUTHORITY_UNAVAILABLE; SWITCH_SCOPE_UNRESOLVED;
   TOPOLOGY_INCOMPLETE; RECOVERY_ARTIFACT_CHANGED; RUNTIME_IMAGE_CHANGED; SELECTION_LOST;
   ASSET_RESERVATION_UNAVAILABLE].
Lemma ProfileReasonCode_decode e :
  find (fun m => String.eqb (ProfileReasonCode_value m) (ProfileReasonCode_value e)) ProfileReasonCode_members = Some e.
Proof. destruct e; reflexivity. Qed.
#[global] Instance ProfileReasonCode_enum : WireEnum ProfileReasonCode :=
  decoded_enum ProfileReasonCode_members ProfileReasonCode_value ProfileReasonCode_decode eq_refl.
End ProfileReasonCode.
Abbreviation ProfileReasonCode := ProfileReasonCode.ProfileReasonCode.

(** Warnings and attention items of the fleet and library projections. *)
Module ProjectionCode.
Inductive ProjectionCode :=
    CPU_LOW_CLOCK | EVIDENCE_REPEATING | FLEET_FRAME_BUDGET_EXCEEDED
  | FLEET_FRAME_ENCODING_UNAVAILABLE | FLEET_STORED_EVENT_PAYLOAD_UNAVAILABLE
  | OBSERVATION_TRANSFER_UNAVAILABLE | HOST_DESKTOP_RUNNING | HOST_DESKTOP_AT_BOOT
  | HOST_STORE_RETENTION | HOST_DISPLAY_MEMORY | HOST_GPU_CLOCK_UNCAPPED | HOST_SWAP_SHORT
  | MODEL_STORE_LAYOUT | INSTALL_PARTIAL | INVENTORY_MISSING | INVENTORY_STALE
  | NETWORK_NAS_ROUTE_WIFI_NO_WIRED_PORT | NETWORK_NAS_ROUTE_WIFI_WIRED_PORT_DOWN
  | NETWORK_NAS_ROUTE_WIFI_WIRED_PORT_UNUSED | NETWORK_NAS_TRANSFER_SLOW
  | NODE_GPU_REQUIRES_RESET | NODE_GPU_UNAVAILABLE | NODE_OFFLINE | PROFILE_RETRYING
  | RECIPE_UPDATE_AVAILABLE | RUN_DEGRADED | TELEMETRY_DELAYED | TELEMETRY_MISSING
  | TELEMETRY_STALE.
Definition ProjectionCode_value (e : ProjectionCode) : string :=
  match e with
  | CPU_LOW_CLOCK => "cpu.low-clock"
  | EVIDENCE_REPEATING => "evidence.repeating"
  | FLEET_FRAME_BUDGET_EXCEEDED => "fleet.frame_budget_exceeded"
  | FLEET_FRAME_ENCODING_UNAVAILABLE => "fleet.frame_encoding_unavailable"
  | FLEET_STORED_EVENT_PAYLOAD_UNAVAILABLE => "fleet.stored_event_payload_unavailable"
  | OBSERVATION_TRANSFER_UNAVAILABLE => "observation.transfer_unavailable"
  | HOST_DESKTOP_RUNNING => "host.desktop-running"
  | HOST_DESKTOP_AT_BOOT => "host.desktop-at-boot"
  | HOST_STORE_RETENTION => "host.store-retention"
  | HOST_DISPLAY_MEMORY => "host.display-memory"
  | HOST_GPU_CLOCK_UNCAPPED => "host.gpu-clock-uncapped"
  | HOST_SWAP_SHORT => "host.swap-short"
  | MODEL_STORE_LAYOUT => "model.store_layout"
  | INSTALL_PARTIAL => "install.partial"
  | INVENTORY_MISSING => "inventory.missing"
  | INVENTORY_STALE => "inventory.stale"
  | NETWORK_NAS_ROUTE_WIFI_NO_WIRED_PORT => "network.nas-route-wifi-no-wired-port"
  | NETWORK_NAS_ROUTE_WIFI_WIRED_PORT_DOWN => "network.nas-route-wifi-wired-port-down"
  | NETWORK_NAS_ROUTE_WIFI_WIRED_PORT_UNUSED => "network.nas-route-wifi-wired-port-unused"
  | NETWORK_NAS_TRANSFER_SLOW => "network.nas-transfer-slow"
  | NODE_GPU_REQUIRES_RESET => "node.gpu_requires_reset"
  | NODE_GPU_UNAVAILABLE => "node.gpu_unavailable"
  | NODE_OFFLINE => "node.offline"
  | PROFILE_RETRYING => "profile.retrying"
  | RECIPE_UPDATE_AVAILABLE => "recipe.update_available"
  | RUN_DEGRADED => "run.degraded"
  | TELEMETRY_DELAYED => "telemetry.delayed"
  | TELEMETRY_MISSING => "telemetry.missing"
  | TELEMETRY_STALE => "telemetry.stale"
  end.
Definition ProjectionCode_members : list ProjectionCode :=
  [CPU_LOW_CLOCK; EVIDENCE_REPEATING; FLEET_FRAME_BUDGET_EXCEEDED;
   FLEET_FRAME_ENCODING_UNAVAILABLE; FLEET_STORED_EVENT_PAYLOAD_UNAVAILABLE;
   OBSERVATION_TRANSFER_UNAVAILABLE; HOST_DESKTOP_RUNNING; HOST_DESKTOP_AT_BOOT;
   HOST_STORE_RETENTION; HOST_DISPLAY_MEMORY; HOST_GPU_CLOCK_UNCAPPED; HOST_SWAP_SHORT;
   MODEL_STORE_LAYOUT; INSTALL_PARTIAL; INVENTORY_MISSING; INVENTORY_STALE;
   NETWORK_NAS_ROUTE_WIFI_NO_WIRED_PORT; NETWORK_NAS_ROUTE_WIFI_WIRED_PORT_DOWN;
   NETWORK_NAS_ROUTE_WIFI_WIRED_PORT_UNUSED; NETWORK_NAS_TRANSFER_SLOW;
   NODE_GPU_REQUIRES_RESET; NODE_GPU_UNAVAILABLE; NODE_OFFLINE; PROFILE_RETRYING;
   RECIPE_UPDATE_AVAILABLE; RUN_DEGRADED; TELEMETRY_DELAYED; TELEMETRY_MISSING; TELEMETRY_STALE].
Lemma ProjectionCode_decode e :
  find (fun m => String.eqb (ProjectionCode_value m) (ProjectionCode_value e)) ProjectionCode_members = Some e.
Proof. destruct e; reflexivity. Qed.
#[global] Instance ProjectionCode_enum : WireEnum ProjectionCode :=
  decoded_enum ProjectionCode_members ProjectionCode_value ProjectionCode_decode eq_refl.
End ProjectionCode.
Abbreviation ProjectionCode := ProjectionCode.ProjectionCode.

(** Recipe image build planning and recording problems. *)
Module RecipeBuildCode.
Inductive RecipeBuildCode :=
    ADAPTER_UNAVAILABLE | CANCELLATION_PENDING | CAPABILITY_MISSING | CAPACITY_BUSY
  | CAPACITY_CONTRACT_INVALID | CONSUMER_BUSY | CONSUMER_INVALID | CONTRACT_INVALID
  | DEPENDENCIES_STALE | EVIDENCE_INVALID | IMAGE_SIZE_INVALID | INPUT_MISMATCH
  | INSUFFICIENT_DISK | INSUFFICIENT_MEMORY | INVENTORY_MISSING | INVENTORY_STALE
  | NETWORK_CAPABILITY_MISSING | NODE_INCOMPATIBLE | NODE_UNKNOWN | PLAN_INVALID
  | PRODUCER_INVALID | RECIPE_UNRESOLVED | RESOLUTION_STALE | RESOURCES_INVALID
  | RESULT_CONFLICT | RUNTIME_CHANGED | SECURITY_INVALID | SOURCE_INVALID | SOURCE_UNAVAILABLE
  | STATE | SHARED_CONSUMERS.
Definition RecipeBuildCode_value (e : RecipeBuildCode) : string :=
  match e with
  | ADAPTER_UNAVAILABLE => "build.adapter_unavailable"
  | CANCELLATION_PENDING => "build.cancellation_pending"
  | CAPABILITY_MISSING => "build.capability_missing"
  | CAPACITY_BUSY => "build.capacity_busy"
  | CAPACITY_CONTRACT_INVALID => "build.capacity_contract_invalid"
  | CONSUMER_BUSY => "build.consumer_busy"
  | CONSUMER_INVALID => "build.consumer_invalid"
  | CONTRACT_INVALID => "build.contract_invalid"
  | DEPENDENCIES_STALE => "build.dependencies_stale"
  | EVIDENCE_INVALID => "build.evidence_invalid"
  | IMAGE_SIZE_INVALID => "build.image_size_invalid"
  | INPUT_MISMATCH => "build.input_mismatch"
  | INSUFFICIENT_DISK => "build.insufficient_disk"
  | INSUFFICIENT_MEMORY => "build.insufficient_memory"
  | INVENTORY_MISSING => "build.inventory_missing"
  | INVENTORY_STALE => "build.inventory_stale"
  | NETWORK_CAPABILITY_MISSING => "build.network_capability_missing"
  | NODE_INCOMPATIBLE => "build.node_incompatible"
  | NODE_UNKNOWN => "build.node_unknown"
  | PLAN_INVALID => "build.plan_invalid"
  | PRODUCER_INVALID => "build.producer_invalid"
  | RECIPE_UNRESOLVED => "build.recipe_unresolved"
  | RESOLUTION_STALE => "build.resolution_stale"
  | RESOURCES_INVALID => "build.resources_invalid"
  | RESULT_CONFLICT => "build.result_conflict"
  | RUNTIME_CHANGED => "build.runtime_changed"
  | SECURITY_INVALID => "build.security_invalid"
  | SOURCE_INVALID => "build.source_invalid"
  | SOURCE_UNAVAILABLE => "build.source_unavailable"
  | STATE => "build.state"
  | SHARED_CONSUMERS => "build.shared_consumers"
  end.
Definition RecipeBuildCode_members : list RecipeBuildCode :=
  [ADAPTER_UNAVAILABLE; CANCELLATION_PENDING; CAPABILITY_MISSING; CAPACITY_BUSY;
   CAPACITY_CONTRACT_INVALID; CONSUMER_BUSY; CONSUMER_INVALID; CONTRACT_INVALID;
   DEPENDENCIES_STALE; EVIDENCE_INVALID; IMAGE_SIZE_INVALID; INPUT_MISMATCH; INSUFFICIENT_DISK;
   INSUFFICIENT_MEMORY; INVENTORY_MISSING; INVENTORY_STALE; NETWORK_CAPABILITY_MISSING;
   NODE_INCOMPATIBLE; NODE_UNKNOWN; PLAN_INVALID; PRODUCER_INVALID; RECIPE_UNRESOLVED;
   RESOLUTION_STALE; RESOURCES_INVALID; RESULT_CONFLICT; RUNTIME_CHANGED; SECURITY_INVALID;
   SOURCE_INVALID; SOURCE_UNAVAILABLE; STATE; SHARED_CONSUMERS].
Lemma RecipeBuildCode_decode e :
  find (fun m => String.eqb (RecipeBuildCode_value m) (RecipeBuildCode_value e)) RecipeBuildCode_members = Some e.
Proof. destruct e; reflexivity. Qed.
#[global] Instance RecipeBuildCode_enum : WireEnum RecipeBuildCode :=
  decoded_enum RecipeBuildCode_members RecipeBuildCode_value RecipeBuildCode_decode eq_refl.
End RecipeBuildCode.
Abbreviation RecipeBuildCode := RecipeBuildCode.RecipeBuildCode.

(** Runtime image availability, preparation and cache-removal problems. *)
Module RecipeImageCode.
Inductive RecipeImageCode :=
    ACTION_INVALID | BUILD_CANCELLED | BUILD_CAPACITY_WAIT | BUILD_FAILED | BUILD_INPUT_MISSING
  | BUILD_INVALID | BUILD_UNAVAILABLE | BUILD_WAIT | BUILDER_BUSY | BUILDER_OCCUPIED
  | CANCEL_BUSY | CANCEL_REQUEST_KEY_REUSED | CANCELLATION_INVALID | CLAIM_LOST | DATABASE_BUSY
  | IDENTITY_CONFLICT | IDENTITY_INVALID | INSUFFICIENT_DISK | INSUFFICIENT_MEMORY
  | METADATA_REFRESH_FAILED | METADATA_REFRESH_UNAVAILABLE | MODEL_CACHE_FAILED
  | MODEL_CACHE_INVALID | MODEL_CACHE_UNAVAILABLE | MODEL_CHILD_CANCELLED | MODEL_CHILD_MISSING
  | NO_BUILDER | NOT_CANCELLABLE | NOT_RETRYABLE | OPERATION_INVALID
  | REMOVAL_EVIDENCE_UNAVAILABLE | OPERATION_MISSING | PREPARATION_FAILED
  | PREPARATION_EXHAUSTED | PREPARING | RECIPE_INVALID | RECIPE_UNAVAILABLE
  | REMOVAL_CHOICE_INVALID | REMOVAL_FAILED | REMOVAL_REFERENCED | REMOVAL_SCOPE_LIMITED
  | REQUEST_KEY_REUSED | RUNTIME_INVALID | SELECTOR_AMBIGUOUS | SELECTOR_INVALID
  | SELECTOR_MISSING | SOURCE_POLICY_REFUSED | SUPERSEDED_BY_NEWER_REVISION | WAITING_FOR_MODEL
  | WAITING_FOR_WORKER.
Definition RecipeImageCode_value (e : RecipeImageCode) : string :=
  match e with
  | ACTION_INVALID => "recipe_image.action_invalid"
  | BUILD_CANCELLED => "recipe_image.build_cancelled"
  | BUILD_CAPACITY_WAIT => "recipe_image.build_capacity_wait"
  | BUILD_FAILED => "recipe_image.build_failed"
  | BUILD_INPUT_MISSING => "recipe_image.build_input_missing"
  | BUILD_INVALID => "recipe_image.build_invalid"
  | BUILD_UNAVAILABLE => "recipe_image.build_unavailable"
  | BUILD_WAIT => "recipe_image.build_wait"
  | BUILDER_BUSY => "recipe_image.builder_busy"
  | BUILDER_OCCUPIED => "recipe_image.builder_occupied"
  | CANCEL_BUSY => "recipe_image.cancel_busy"
  | CANCEL_REQUEST_KEY_REUSED => "recipe_image.cancel_request_key_reused"
  | CANCELLATION_INVALID => "recipe_image.cancellation_invalid"
  | CLAIM_LOST => "recipe_image.claim_lost"
  | DATABASE_BUSY => "recipe_image.database_busy"
  | IDENTITY_CONFLICT => "recipe_image.identity_conflict"
  | IDENTITY_INVALID => "recipe_image.identity_invalid"
  | INSUFFICIENT_DISK => "recipe_image.insufficient_disk"
  | INSUFFICIENT_MEMORY => "recipe_image.insufficient_memory"
  | METADATA_REFRESH_FAILED => "recipe_image.metadata_refresh_failed"
  | METADATA_REFRESH_UNAVAILABLE => "recipe_image.metadata_refresh_unavailable"
  | MODEL_CACHE_FAILED => "recipe_image.model_cache_failed"
  | MODEL_CACHE_INVALID => "recipe_image.model_cache_invalid"
  | MODEL_CACHE_UNAVAILABLE => "recipe_image.model_cache_unavailable"
  | MODEL_CHILD_CANCELLED => "recipe_image.model_child_cancelled"
  | MODEL_CHILD_MISSING => "recipe_image.model_child_missing"
  | NO_BUILDER => "recipe_image.no_builder"
  | NOT_CANCELLABLE => "recipe_image.not_cancellable"
  | NOT_RETRYABLE => "recipe_image.not_retryable"
  | OPERATION_INVALID => "recipe_image.operation_invalid"
  | REMOVAL_EVIDENCE_UNAVAILABLE => "recipe_image.removal_evidence_unavailable"
  | OPERATION_MISSING => "recipe_image.operation_missing"
  | PREPARATION_FAILED => "recipe_image.preparation_failed"
  | PREPARATION_EXHAUSTED => "recipe_image.preparation_exhausted"
  | PREPARING => "recipe_image.preparing"
  | RECIPE_INVALID => "recipe_image.recipe_invalid"
  | RECIPE_UNAVAILABLE => "recipe_image.recipe_unavailable"
  | REMOVAL_CHOICE_INVALID => "recipe_image.removal_choice_invalid"
  | REMOVAL_FAILED => "recipe_image.removal_failed"
  | REMOVAL_REFERENCED => "recipe_image.removal_referenced"
  | REMOVAL_SCOPE_LIMITED => "recipe_image.removal_scope_limited"
  | REQUEST_KEY_REUSED => "recipe_image.request_key_reused"
  | RUNTIME_INVALID => "recipe_image.runtime_invalid"
  | SELECTOR_AMBIGUOUS => "recipe_image.selector_ambiguous"
  | SELECTOR_INVALID => "recipe_image.selector_invalid"
  | SELECTOR_MISSING => "recipe_image.selector_missing"
  | SOURCE_POLICY_REFUSED => "recipe_image.source_policy_refused"
  | SUPERSEDED_BY_NEWER_REVISION => "recipe_image.superseded_by_newer_revision"
  | WAITING_FOR_MODEL => "recipe_image.waiting_for_model"
  | WAITING_FOR_WORKER => "recipe_image.waiting_for_worker"
  end.
Definition RecipeImageCode_members : list RecipeImageCode :=
  [ACTION_INVALID; BUILD_CANCELLED; BUILD_CAPACITY_WAIT; BUILD_FAILED; BUILD_INPUT_MISSING;
   BUILD_INVALID; BUILD_UNAVAILABLE; BUILD_WAIT; BUILDER_BUSY; BUILDER_OCCUPIED; CANCEL_BUSY;
   CANCEL_REQUEST_KEY_REUSED; CANCELLATION_INVALID; CLAIM_LOST; DATABASE_BUSY;
   IDENTITY_CONFLICT; IDENTITY_INVALID; INSUFFICIENT_DISK; INSUFFICIENT_MEMORY;
   METADATA_REFRESH_FAILED; METADATA_REFRESH_UNAVAILABLE; MODEL_CACHE_FAILED;
   MODEL_CACHE_INVALID; MODEL_CACHE_UNAVAILABLE; MODEL_CHILD_CANCELLED; MODEL_CHILD_MISSING;
   NO_BUILDER; NOT_CANCELLABLE; NOT_RETRYABLE; OPERATION_INVALID; REMOVAL_EVIDENCE_UNAVAILABLE;
   OPERATION_MISSING; PREPARATION_FAILED; PREPARATION_EXHAUSTED; PREPARING; RECIPE_INVALID;
   RECIPE_UNAVAILABLE; REMOVAL_CHOICE_INVALID; REMOVAL_FAILED; REMOVAL_REFERENCED;
   REMOVAL_SCOPE_LIMITED; REQUEST_KEY_REUSED; RUNTIME_INVALID; SELECTOR_AMBIGUOUS;
   SELECTOR_INVALID; SELECTOR_MISSING; SOURCE_POLICY_REFUSED; SUPERSEDED_BY_NEWER_REVISION;
   WAITING_FOR_MODEL; WAITING_FOR_WORKER].
Lemma RecipeImageCode_decode e :
  find (fun m => String.eqb (RecipeImageCode_value m) (RecipeImageCode_value e)) RecipeImageCode_members = Some e.
Proof. destruct e; reflexivity. Qed.
#[global] Instance RecipeImageCode_enum : WireEnum RecipeImageCode :=
  decoded_enum RecipeImageCode_members RecipeImageCode_value RecipeImageCode_decode eq_refl.
End RecipeImageCode.
Abbreviation RecipeImageCode := RecipeImageCode.RecipeImageCode.

(** Recipe operation conflicts. *)
Module RecipeOperationCode.
Inductive RecipeOperationCode :=
    RECIPE_OPERATION_CONFLICT | EVIDENCE_UNPROVEN.
Definition RecipeOperationCode_value (e : RecipeOperationCode) : string :=
  match e with
  | RECIPE_OPERATION_CONFLICT => "recipe.operation_conflict"
  | EVIDENCE_UNPROVEN => "recipe.evidence_unproven"
  end.
Definition RecipeOperationCode_members : list RecipeOperationCode :=
  [RECIPE_OPERATION_CONFLICT; EVIDENCE_UNPROVEN].
Lemma RecipeOperationCode_decode e :
  find (fun m => String.eqb (RecipeOperationCode_value m) (RecipeOperationCode_value e)) RecipeOperationCode_members = Some e.
Proof. destruct e; reflexivity. Qed.
#[global] Instance RecipeOperationCode_enum : WireEnum RecipeOperationCode :=
  decoded_enum RecipeOperationCode_members RecipeOperationCode_value RecipeOperationCode_decode eq_refl.
End RecipeOperationCode.
Abbreviation RecipeOperationCode := RecipeOperationCode.RecipeOperationCode.

(** Recipe package download and verification problems. *)
Module RecipePackageCode.
Inductive RecipePackageCode :=
    CACHE_UNAVAILABLE | DIGEST_MISMATCH | DOCUMENT_INCOMPATIBLE | EXTRACT_INVALID | NOT_FOUND
  | PACKAGE_INVALID | RELEASE_INCOMPLETE | RELEASE_INVALID | RESPONSE_INVALID
  | SCHEMA_INCOMPATIBLE | SNAPSHOT_CHANGED | UNAVAILABLE | URI_INVALID | URL_INSECURE
  | URL_INVALID.
Definition RecipePackageCode_value (e : RecipePackageCode) : string :=
  match e with
  | CACHE_UNAVAILABLE => "recipe_package.cache_unavailable"
  | DIGEST_MISMATCH => "recipe_package.digest_mismatch"
  | DOCUMENT_INCOMPATIBLE => "recipe_package.document_incompatible"
  | EXTRACT_INVALID => "recipe_package.extract_invalid"
  | NOT_FOUND => "recipe_package.not_found"
  | PACKAGE_INVALID => "recipe_package.package_invalid"
  | RELEASE_INCOMPLETE => "recipe_package.release_incomplete"
  | RELEASE_INVALID => "recipe_package.release_invalid"
  | RESPONSE_INVALID => "recipe_package.response_invalid"
  | SCHEMA_INCOMPATIBLE => "recipe_package.schema_incompatible"
  | SNAPSHOT_CHANGED => "recipe_package.snapshot_changed"
  | UNAVAILABLE => "recipe_package.unavailable"
  | URI_INVALID => "recipe_package.uri_invalid"
  | URL_INSECURE => "recipe_package.url_insecure"
  | URL_INVALID => "recipe_package.url_invalid"
  end.
Definition RecipePackageCode_members : list RecipePackageCode :=
  [CACHE_UNAVAILABLE; DIGEST_MISMATCH; DOCUMENT_INCOMPATIBLE; EXTRACT_INVALID; NOT_FOUND;
   PACKAGE_INVALID; RELEASE_INCOMPLETE; RELEASE_INVALID; RESPONSE_INVALID; SCHEMA_INCOMPATIBLE;
   SNAPSHOT_CHANGED; UNAVAILABLE; URI_INVALID; URL_INSECURE; URL_INVALID].
Lemma RecipePackageCode_decode e :
  find (fun m => String.eqb (RecipePackageCode_value m) (RecipePackageCode_value e)) RecipePackageCode_members = Some e.
Proof. destruct e; reflexivity. Qed.
#[global] Instance RecipePackageCode_enum : WireEnum RecipePackageCode :=
  decoded_enum RecipePackageCode_members RecipePackageCode_value RecipePackageCode_decode eq_refl.
End RecipePackageCode.
Abbreviation RecipePackageCode := RecipePackageCode.RecipePackageCode.

(** Recipe update batch problems. *)
Module RecipeUpdateCode.
Inductive RecipeUpdateCode :=
    CLAIM_LOST | OBSERVATION_INVALID | OPERATION_INVALID | REQUEST_KEY_REUSED | SCOPE_INVALID
  | CANCEL_EFFECT_UNKNOWN.
Definition RecipeUpdateCode_value (e : RecipeUpdateCode) : string :=
  match e with
  | CLAIM_LOST => "recipe_update.claim_lost"
  | OBSERVATION_INVALID => "recipe_update.observation_invalid"
  | OPERATION_INVALID => "recipe_update.operation_invalid"
  | REQUEST_KEY_REUSED => "recipe_update.request_key_reused"
  | SCOPE_INVALID => "recipe_update.scope_invalid"
  | CANCEL_EFFECT_UNKNOWN => "recipe-update.cancel-effect-unknown"
  end.
Definition RecipeUpdateCode_members : list RecipeUpdateCode :=
  [CLAIM_LOST; OBSERVATION_INVALID; OPERATION_INVALID; REQUEST_KEY_REUSED; SCOPE_INVALID;
   CANCEL_EFFECT_UNKNOWN].
Lemma RecipeUpdateCode_decode e :
  find (fun m => String.eqb (RecipeUpdateCode_value m) (RecipeUpdateCode_value e)) RecipeUpdateCode_members = Some e.
Proof. destruct e; reflexivity. Qed.
#[global] Instance RecipeUpdateCode_enum : WireEnum RecipeUpdateCode :=
  decoded_enum RecipeUpdateCode_members RecipeUpdateCode_value RecipeUpdateCode_decode eq_refl.
End RecipeUpdateCode.
Abbreviation RecipeUpdateCode := RecipeUpdateCode.RecipeUpdateCode.

(** Why an installation reconcile is blocked. *)
Module ReconcileCode.
Inductive ReconcileCode :=
    ACTIVE_EFFECT_UNKNOWN | AGENT_UNAVAILABLE | CAPACITY_BUSY | INSTALL_PROVENANCE_MISMATCH
  | INSTALL_PROVENANCE_UNAVAILABLE | INSTALLATION_EFFECT_UNKNOWN
  | INSTALLATION_IDENTITY_MISMATCH | INSTALLATION_IDENTITY_UNAVAILABLE | MEMBERSHIP_CHANGED
  | OPERATION_ACTIVE | RANK_MEMBERSHIP_CHANGED | RECIPE_REVISION_UNAVAILABLE
  | SPEC_IDENTITY_MISMATCH.
Definition ReconcileCode_value (e : ReconcileCode) : string :=
  match e with
  | ACTIVE_EFFECT_UNKNOWN => "reconcile.active_effect_unknown"
  | AGENT_UNAVAILABLE => "reconcile.agent_unavailable"
  | CAPACITY_BUSY => "reconcile.capacity_busy"
  | INSTALL_PROVENANCE_MISMATCH => "reconcile.install_provenance_mismatch"
  | INSTALL_PROVENANCE_UNAVAILABLE => "reconcile.install_provenance_unavailable"
  | INSTALLATION_EFFECT_UNKNOWN => "reconcile.installation_effect_unknown"
  | INSTALLATION_IDENTITY_MISMATCH => "reconcile.installation_identity_mismatch"
  | INSTALLATION_IDENTITY_UNAVAILABLE => "reconcile.installation_identity_unavailable"
  | MEMBERSHIP_CHANGED => "reconcile.membership_changed"
  | OPERATION_ACTIVE => "reconcile.operation_active"
  | RANK_MEMBERSHIP_CHANGED => "reconcile.rank_membership_changed"
  | RECIPE_REVISION_UNAVAILABLE => "reconcile.recipe_revision_unavailable"
  | SPEC_IDENTITY_MISMATCH => "reconcile.spec_identity_mismatch"
  end.
Definition ReconcileCode_members : list ReconcileCode :=
  [ACTIVE_EFFECT_UNKNOWN; AGENT_UNAVAILABLE; CAPACITY_BUSY; INSTALL_PROVENANCE_MISMATCH;
   INSTALL_PROVENANCE_UNAVAILABLE; INSTALLATION_EFFECT_UNKNOWN; INSTALLATION_IDENTITY_MISMATCH;
   INSTALLATION_IDENTITY_UNAVAILABLE; MEMBERSHIP_CHANGED; OPERATION_ACTIVE;
   RANK_MEMBERSHIP_CHANGED; RECIPE_REVISION_UNAVAILABLE; SPEC_IDENTITY_MISMATCH].
Lemma ReconcileCode_decode e :
  find (fun m => String.eqb (ReconcileCode_value m) (ReconcileCode_value e)) ReconcileCode_members = Some e.
Proof. destruct e; reflexivity. Qed.
#[global] Instance ReconcileCode_enum : WireEnum ReconcileCode :=
  decoded_enum ReconcileCode_members ReconcileCode_value ReconcileCode_decode eq_refl.
End ReconcileCode.
Abbreviation ReconcileCode := ReconcileCode.ReconcileCode.

(** Resource planning (memory, disk, parallelism) refusals and unknowns. *)
Module ResourcePlanningCode.
Inductive ResourcePlanningCode :=
    ENVELOPE_EXCEEDS_CAPACITY | ENVELOPE_UNVERIFIED | ESTIMATE_UNCERTAIN | EVIDENCE_INVALID
  | EVIDENCE_UNKNOWN | KNOBS_INVALID | PARALLELISM_DUPLICATE | PARALLELISM_INCONSISTENT
  | PARALLELISM_TYPE | PARALLELISM_UNKNOWN | SETTINGS_KIND_UNKNOWN | SETTINGS_TYPE
  | SETTINGS_UNKNOWN | STOP_RELEASE_UNKNOWN | CONTEXT_UNKNOWN | CONTEXT_EVIDENCE_INVALID
  | CONTEXT_UNSUPPORTED | CONTEXT_EVIDENCE_UNKNOWN | CONCURRENCY_UNKNOWN
  | CONCURRENCY_EVIDENCE_INVALID | CONCURRENCY_UNSUPPORTED | CONCURRENCY_EVIDENCE_UNKNOWN
  | BATCH_UNKNOWN | BATCH_EVIDENCE_INVALID | BATCH_UNSUPPORTED | BATCH_EVIDENCE_UNKNOWN.
Definition ResourcePlanningCode_value (e : ResourcePlanningCode) : string :=
  match e with
  | ENVELOPE_EXCEEDS_CAPACITY => "resource.envelope_exceeds_capacity"
  | ENVELOPE_UNVERIFIED => "resource.envelope_unverified"
  | ESTIMATE_UNCERTAIN => "resource.estimate_uncertain"
  | EVIDENCE_INVALID => "resource.evidence_invalid"
  | EVIDENCE_UNKNOWN => "resource.evidence_unknown"
  | KNOBS_INVALID => "resource.knobs_invalid"
  | PARALLELISM_DUPLICATE => "resource.parallelism_duplicate"
  | PARALLELISM_INCONSISTENT => "resource.parallelism_inconsistent"
  | PARALLELISM_TYPE => "resource.parallelism_type"
  | PARALLELISM_UNKNOWN => "resource.parallelism_unknown"
  | SETTINGS_KIND_UNKNOWN => "resource.settings_kind_unknown"
  | SETTINGS_TYPE => "resource.settings_type"
  | SETTINGS_UNKNOWN => "resource.settings_unknown"
  | STOP_RELEASE_UNKNOWN => "resource.stop_release_unknown"
  | CONTEXT_UNKNOWN => "resource.context_unknown"
  | CONTEXT_EVIDENCE_INVALID => "resource.context_evidence_invalid"
  | CONTEXT_UNSUPPORTED => "resource.context_unsupported"
  | CONTEXT_EVIDENCE_UNKNOWN => "resource.context_evidence_unknown"
  | CONCURRENCY_UNKNOWN => "resource.concurrency_unknown"
  | CONCURRENCY_EVIDENCE_INVALID => "resource.concurrency_evidence_invalid"
  | CONCURRENCY_UNSUPPORTED => "resource.concurrency_unsupported"
  | CONCURRENCY_EVIDENCE_UNKNOWN => "resource.concurrency_evidence_unknown"
  | BATCH_UNKNOWN => "resource.batch_unknown"
  | BATCH_EVIDENCE_INVALID => "resource.batch_evidence_invalid"
  | BATCH_UNSUPPORTED => "resource.batch_unsupported"
  | BATCH_EVIDENCE_UNKNOWN => "resource.batch_evidence_unknown"
  end.
Definition ResourcePlanningCode_members : list ResourcePlanningCode :=
  [ENVELOPE_EXCEEDS_CAPACITY; ENVELOPE_UNVERIFIED; ESTIMATE_UNCERTAIN; EVIDENCE_INVALID;
   EVIDENCE_UNKNOWN; KNOBS_INVALID; PARALLELISM_DUPLICATE; PARALLELISM_INCONSISTENT;
   PARALLELISM_TYPE; PARALLELISM_UNKNOWN; SETTINGS_KIND_UNKNOWN; SETTINGS_TYPE;
   SETTINGS_UNKNOWN; STOP_RELEASE_UNKNOWN; CONTEXT_UNKNOWN; CONTEXT_EVIDENCE_INVALID;
   CONTEXT_UNSUPPORTED; CONTEXT_EVIDENCE_UNKNOWN; CONCURRENCY_UNKNOWN;
   CONCURRENCY_EVIDENCE_INVALID; CONCURRENCY_UNSUPPORTED; CONCURRENCY_EVIDENCE_UNKNOWN;
   BATCH_UNKNOWN; BATCH_EVIDENCE_INVALID; BATCH_UNSUPPORTED; BATCH_EVIDENCE_UNKNOWN].
Lemma ResourcePlanningCode_decode e :
  find (fun m => String.eqb (ResourcePlanningCode_value m) (ResourcePlanningCode_value e)) ResourcePlanningCode_members = Some e.
Proof. destruct e; reflexivity. Qed.
#[global] Instance ResourcePlanningCode_enum : WireEnum ResourcePlanningCode :=
  decoded_enum ResourcePlanningCode_members ResourcePlanningCode_value ResourcePlanningCode_decode eq_refl.
End ResourcePlanningCode.
Abbreviation ResourcePlanningCode := ResourcePlanningCode.ResourcePlanningCode.

(** The effective settings whose capacity cost the resource planner derives. *)
Module ResourceTerm.
Inductive ResourceTerm :=
    CONTEXT | CONCURRENCY | BATCH.
Definition ResourceTerm_value (e : ResourceTerm) : string :=
  match e with
  | CONTEXT => "context"
  | CONCURRENCY => "concurrency"
  | BATCH => "batch"
  end.
Definition ResourceTerm_members : list ResourceTerm :=
  [CONTEXT; CONCURRENCY; BATCH].
Lemma ResourceTerm_decode e :
  find (fun m => String.eqb (ResourceTerm_value m) (ResourceTerm_value e)) ResourceTerm_members = Some e.
Proof. destruct e; reflexivity. Qed.
#[global] Instance ResourceTerm_enum : WireEnum ResourceTerm :=
  decoded_enum ResourceTerm_members ResourceTerm_value ResourceTerm_decode eq_refl.
End ResourceTerm.
Abbreviation ResourceTerm := ResourceTerm.ResourceTerm.

(** What is wrong with the evidence for one resource term. *)
Module ResourceTermProblem.
Inductive ResourceTermProblem :=
    UNKNOWN | EVIDENCE_INVALID | UNSUPPORTED | EVIDENCE_UNKNOWN.
Definition ResourceTermProblem_value (e : ResourceTermProblem) : string :=
  match e with
  | UNKNOWN => "unknown"
  | EVIDENCE_INVALID => "evidence_invalid"
  | UNSUPPORTED => "unsupported"
  | EVIDENCE_UNKNOWN => "evidence_unknown"
  end.
Definition ResourceTermProblem_members : list ResourceTermProblem :=
  [UNKNOWN; EVIDENCE_INVALID; UNSUPPORTED; EVIDENCE_UNKNOWN].
Lemma ResourceTermProblem_decode e :
  find (fun m => String.eqb (ResourceTermProblem_value m) (ResourceTermProblem_value e)) ResourceTermProblem_members = Some e.
Proof. destruct e; reflexivity. Qed.
#[global] Instance ResourceTermProblem_enum : WireEnum ResourceTermProblem :=
  decoded_enum ResourceTermProblem_members ResourceTermProblem_value ResourceTermProblem_decode eq_refl.
End ResourceTermProblem.
Abbreviation ResourceTermProblem := ResourceTermProblem.ResourceTermProblem.

(** Why a run is shown degraded in the fleet projection. *)
Module RunDegradedReason.
Inductive RunDegradedReason :=
    EXTERNAL_MEMBER | MAPPING_INCOMPLETE | MISSING_RANKS | UNEXPECTED_RANKS
  | RANK_MEMBERSHIP_MISMATCH | RUN_NOT_RUNNING | RANK_NOT_RUNNING | RANK_STALE
  | ROUTE_NOT_PUBLISHED.
Definition RunDegradedReason_value (e : RunDegradedReason) : string :=
  match e with
  | EXTERNAL_MEMBER => "external-member"
  | MAPPING_INCOMPLETE => "mapping-incomplete"
  | MISSING_RANKS => "missing-ranks"
  | UNEXPECTED_RANKS => "unexpected-ranks"
  | RANK_MEMBERSHIP_MISMATCH => "rank-membership-mismatch"
  | RUN_NOT_RUNNING => "run-not-running"
  | RANK_NOT_RUNNING => "rank-not-running"
  | RANK_STALE => "rank-stale"
  | ROUTE_NOT_PUBLISHED => "route-not-published"
  end.
Definition RunDegradedReason_members : list RunDegradedReason :=
  [EXTERNAL_MEMBER; MAPPING_INCOMPLETE; MISSING_RANKS; UNEXPECTED_RANKS;
   RANK_MEMBERSHIP_MISMATCH; RUN_NOT_RUNNING; RANK_NOT_RUNNING; RANK_STALE; ROUTE_NOT_PUBLISHED].
Lemma RunDegradedReason_decode e :
  find (fun m => String.eqb (RunDegradedReason_value m) (RunDegradedReason_value e)) RunDegradedReason_members = Some e.
Proof. destruct e; reflexivity. Qed.
#[global] Instance RunDegradedReason_enum : WireEnum RunDegradedReason :=
  decoded_enum RunDegradedReason_members RunDegradedReason_value RunDegradedReason_decode eq_refl.
End RunDegradedReason.
Abbreviation RunDegradedReason := RunDegradedReason.RunDegradedReason.

(** Run/Switch phase blockers, waits and failure codes. *)
Module RunSwitchCode.
Inductive RunSwitchCode :=
    GPU_CLOCK_INVALID | GPU_CLOCK_ABOVE_DEFAULT | ACTIVE_RUN_CONFLICT | ADVANCE_FAILED
  | AGENT_UPGRADE_REQUIRED | ARTIFACT_IDENTITY_UNKNOWN | ARTIFACT_INSPECTION_UNAVAILABLE
  | ARTIFACT_MANIFEST_UNKNOWN | ARTIFACT_PHASE_EXECUTOR_UNAVAILABLE
  | ARTIFACT_VERIFICATION_RESULT_INVALID | CLEANUP_RECLAIM_EVIDENCE_INVALID
  | CLEANUP_RECLAIMED_BYTES_EXCEED_PLAN | CLEANUP_REFERENCE_PROTECTION_EVIDENCE_INVALID
  | CLEANUP_REFERENCE_PROTECTION_OVERLAP | CLEANUP_SCOPE_INVALID
  | CONTAINER_BUILD_EVIDENCE_INVALID | CONTAINER_BUILD_EXECUTOR_UNAVAILABLE
  | CONTAINER_BUILD_IDENTITY_UNAVAILABLE | CONTAINER_BUILD_PARENT_CHANGED
  | CONTAINER_BUILD_PARENT_INVALID | CONTAINER_BUILD_PLAN_INVALID
  | CONTAINER_BUILD_RECEIPT_UNAVAILABLE | CONTAINER_BUILD_REQUIRED
  | CONTAINER_BUILD_STATE_INVALID | CONTAINER_BUILD_UNAVAILABLE | CROSS_GROUP_CONFLICT
  | DEPENDENCY_WINDOW_EXHAUSTED | DISK_ENVELOPE_INVALID | DISK_EVICTION_PLANNED
  | EFFECT_UNCERTAIN | FINAL_VERIFICATION | FINAL_VERIFICATION_CLOCK_INVALID
  | FINAL_VERIFICATION_FAILED | FINAL_VERIFICATION_TIMEOUT | FINAL_VERIFICATION_UNAVAILABLE
  | INSTALL_EXECUTOR_UNAVAILABLE | INSTALL_PREPARATION_UNAVAILABLE
  | INSTALLATION_HANDOFF_UNAVAILABLE | INSTALLATION_IDENTITY_CHANGED
  | INSTALLATION_IDENTITY_UNAVAILABLE | INSTALLATION_MEMBERSHIP_CHANGED
  | INSTALLATION_PREPARATION_UNAVAILABLE | INSTALLATION_VERIFICATION_FAILED
  | INSTALLATION_VERIFICATION_UNAVAILABLE | INSUFFICIENT_DISK | INSUFFICIENT_MEMORY
  | INTERFACE_INVALID | INVENTORY_STALE | INVENTORY_UNKNOWN | MAPPING_GROUP_MISMATCH
  | MAPPING_INVALID | MAPPING_MATERIALIZATION_UNAVAILABLE | MEMORY_ENVELOPE_INVALID
  | MODEL_DOWNLOAD_ARTIFACT_SET_MISMATCH | MODEL_DOWNLOAD_BYTE_EVIDENCE_MISMATCH
  | MODEL_DOWNLOAD_COVERAGE_INCOMPLETE | MODEL_RECIPE_MISMATCH | MODEL_REVISION_UNAVAILABLE
  | NAS_COVERAGE_UNKNOWN | NAS_DOWNLOAD_BLOCKED | NAS_DOWNLOAD_REQUIRED | OPTION_INVALID
  | PHASE_RETRY | PLAN_REFRESH_UNAVAILABLE | PLAN_TARGETS_CHANGED | POST_STOP_INVENTORY_PENDING
  | POST_STOP_MEMORY_POOL_CHANGED | PREFLIGHT_RECIPE_CHANGED | PREPARE_SUBPHASE_UNSUPPORTED
  | PROFILE_INCOMPLETE_MULTI_SPARK_MODEL | PROFILE_STOP_SCOPE_CHANGED | RECEIPT_INVALID
  | RECIPE_BUILD_COMPATIBILITY_UNKNOWN | RECIPE_BUILD_INCOMPATIBLE | RECIPE_BUILD_UNAVAILABLE
  | RECIPE_DEPENDENCIES_UNAVAILABLE | RECIPE_DIGEST_CHANGED | RECIPE_UNRESOLVED
  | RECONCILIATION_ASSESSMENT_UNAVAILABLE | RECONCILIATION_AUTHORITY_UNAVAILABLE
  | RECONCILIATION_PREREQUISITE | RECONCILIATION_RECEIPTS_RETAINED
  | RECONCILIATION_STATE_VERIFICATION_FAILED | RECONCILIATION_VERIFICATION_FAILED
  | REQUEST_KEY_REUSED_DIFFERENTLY | RESOURCE_CONTRACT_INVALID
  | RESOURCE_DEMAND_EXCEEDS_CAPACITY | RESOURCE_INSUFFICIENT | RESOURCE_INSUFFICIENT_CAPACITY
  | RESOURCE_INSUFFICIENT_CAPACITY_AFTER_STOP | RESOURCE_INSUFFICIENT_RESERVATION_BUDGET
  | RESOURCE_INSUFFICIENT_SWAP | RESOURCE_RESIDENT_USAGE_UNKNOWN | RUN_NOT_ACTIVE
  | RUN_ADMISSION_BLOCKED | RUN_ADMISSION_UNAVAILABLE | RUNTIME_BUILD_VERIFICATION_MISMATCH
  | RUNTIME_IMAGE_AUTHORIZATION_MISMATCH | RUNTIME_IMAGE_EXECUTOR_UNAVAILABLE
  | RUNTIME_IMAGE_OWNER_CHANGED | RUNTIME_IMAGE_PREPARATION_LAYOUT_MISMATCH
  | RUNTIME_IMAGE_PREPARATION_RECEIPT_INVALID | RUNTIME_IMAGE_PREPARING
  | RUNTIME_IMAGE_REFERENCE_IDENTITY_MISMATCH | RUNTIME_IMAGE_WAITING_WITHOUT_CHILD
  | SPARK_UNAVAILABLE | START_OBSERVATION | START_OBSERVATION_EXPIRED
  | START_INSTALLATION_UNAVAILABLE | STOP_PLAN_UNAVAILABLE
  | STOP_STILL_UNRESOLVED_AFTER_CANCELLATION | STOP_TARGET_DISAPPEARED
  | STOPPED_RUN_IDENTITY_CHANGED | STOPPED_RUN_MEMBERSHIP_CHANGED | TARGET_NOT_ACTIVE
  | TRANSFER_BYTE_EVIDENCE_INVALID | UNINSTALL_ASSESSMENT_UNAVAILABLE | UNINSTALL_BLOCKED
  | UNINSTALL_ISSUED_PREREQUISITE | UNINSTALL_TARGET_UNAVAILABLE | WAITING
  | REASON_UNCLASSIFIED | CANCEL_EFFECT_UNKNOWN | CONTAINER_BUILD_START_UNAVAILABLE
  | DISTRIBUTED_RECOVERY_ACTIVE | FINAL_OWNER_STATE_UNKNOWN | FINAL_VERIFICATION_EXPIRED
  | INSTALL_PLAN_UNAVAILABLE | INSTALL_PREFLIGHT_EXPIRED | INSTALL_PREPARATION_FAILED
  | INSTALL_START_FAILED | INSTALLATION_HANDOFF_INCONSISTENT | PLAN_BLOCKED
  | RECONCILIATION_START_FAILED | ROUTE_HEALTH_RECOVERY_ACTIVE | ROUTE_OWNER_FAILED
  | ROUTE_PUBLICATION_PENDING | ROUTE_WITHDRAWN_OWNER_UNKNOWN | RUN_OWNER_ACTIVE
  | RUN_OWNER_TERMINAL | STALE_PLAN | STOP_VERIFICATION_PENDING | SUPERSEDED
  | UNINSTALL_ABANDON_FAILED | UNINSTALL_START_FAILED | RECIPE_STOP_ISSUED_PENDING
  | RECIPE_INSTALL_ISSUED_PENDING | RECIPE_UNINSTALL_ISSUED_PENDING
  | RECIPE_RECONCILE_ISSUED_PENDING | ARTIFACT_JOB_CANCELLATION_ISSUED_PENDING
  | TRANSFER_EXECUTOR_UNAVAILABLE | TRANSFER_WAITING_WITHOUT_CHILD
  | TRANSFER_RETURNED_NO_EVIDENCE | VERIFY_EXECUTOR_UNAVAILABLE | VERIFY_WAITING_WITHOUT_CHILD
  | VERIFY_RETURNED_NO_EVIDENCE | CLEANUP_EXECUTOR_UNAVAILABLE | CLEANUP_WAITING_WITHOUT_CHILD
  | CLEANUP_RETURNED_NO_EVIDENCE | RESOURCE_CAPACITY_UNKNOWN
  | RESOURCE_ENVELOPE_EXCEEDS_CAPACITY | RESOURCE_ENVELOPE_UNVERIFIED
  | RESOURCE_ESTIMATE_UNCERTAIN | RESOURCE_EVIDENCE_INVALID | RESOURCE_EVIDENCE_UNKNOWN
  | RESOURCE_KNOBS_INVALID | RESOURCE_PARALLELISM_DUPLICATE | RESOURCE_PARALLELISM_INCONSISTENT
  | RESOURCE_PARALLELISM_TYPE | RESOURCE_PARALLELISM_UNKNOWN | RESOURCE_SETTINGS_KIND_UNKNOWN
  | RESOURCE_SETTINGS_TYPE | RESOURCE_SETTINGS_UNKNOWN | RESOURCE_STOP_RELEASE_UNKNOWN
  | RECONCILE_ACTIVE_EFFECT_UNKNOWN | RECONCILE_AGENT_UNAVAILABLE | RECONCILE_CAPACITY_BUSY
  | RECONCILE_INSTALL_PROVENANCE_MISMATCH | RECONCILE_INSTALL_PROVENANCE_UNAVAILABLE
  | RECONCILE_INSTALLATION_EFFECT_UNKNOWN | RECONCILE_INSTALLATION_IDENTITY_MISMATCH
  | RECONCILE_INSTALLATION_IDENTITY_UNAVAILABLE | RECONCILE_MEMBERSHIP_CHANGED
  | RECONCILE_OPERATION_ACTIVE | RECONCILE_RANK_MEMBERSHIP_CHANGED
  | RECONCILE_RECIPE_REVISION_UNAVAILABLE | RECONCILE_SPEC_IDENTITY_MISMATCH
  | STOP_CAPACITY_RELEASE_DEFERRED | STOP_RANK_MEMBERSHIP_CHANGED
  | STOP_RESERVATION_MEMBERSHIP_CHANGED | STOP_RUN_NOT_STOPPABLE | STOP_TARGET_SCOPE_CHANGED
  | UNINSTALL_ABANDON_NEVER_INSTALLED | UNINSTALL_ACTIVE_RUN | UNINSTALL_ACTIVE_RUNS_TRUNCATED
  | UNINSTALL_BYTES_UNKNOWN | UNINSTALL_INSTALLATION_NOT_UNINSTALLABLE
  | UNINSTALL_OPERATION_ACTIVE | UNINSTALL_RANK_MEMBERSHIP_CHANGED.
Definition RunSwitchCode_value (e : RunSwitchCode) : string :=
  match e with
  | GPU_CLOCK_INVALID => "gpu-clock.invalid"
  | GPU_CLOCK_ABOVE_DEFAULT => "gpu-clock.above-default"
  | ACTIVE_RUN_CONFLICT => "run-switch.active-run-conflict"
  | ADVANCE_FAILED => "run-switch.advance-failed"
  | AGENT_UPGRADE_REQUIRED => "run-switch.agent-upgrade-required"
  | ARTIFACT_IDENTITY_UNKNOWN => "run-switch.artifact-identity-unknown"
  | ARTIFACT_INSPECTION_UNAVAILABLE => "run-switch.artifact-inspection-unavailable"
  | ARTIFACT_MANIFEST_UNKNOWN => "run-switch.artifact-manifest-unknown"
  | ARTIFACT_PHASE_EXECUTOR_UNAVAILABLE => "run-switch.artifact-phase-executor-unavailable"
  | ARTIFACT_VERIFICATION_RESULT_INVALID => "run-switch.artifact-verification-result-invalid"
  | CLEANUP_RECLAIM_EVIDENCE_INVALID => "run-switch.cleanup-reclaim-evidence-invalid"
  | CLEANUP_RECLAIMED_BYTES_EXCEED_PLAN => "run-switch.cleanup-reclaimed-bytes-exceed-plan"
  | CLEANUP_REFERENCE_PROTECTION_EVIDENCE_INVALID =>
      "run-switch.cleanup-reference-protection-evidence-invalid"
  | CLEANUP_REFERENCE_PROTECTION_OVERLAP => "run-switch.cleanup-reference-protection-overlap"
  | CLEANUP_SCOPE_INVALID => "run-switch.cleanup-scope-invalid"
  | CONTAINER_BUILD_EVIDENCE_INVALID => "run-switch.container-build-evidence-invalid"
  | CONTAINER_BUILD_EXECUTOR_UNAVAILABLE => "run-switch.container-build-executor-unavailable"
  | CONTAINER_BUILD_IDENTITY_UNAVAILABLE => "run-switch.container-build-identity-unavailable"
  | CONTAINER_BUILD_PARENT_CHANGED => "run-switch.container-build-parent-changed"
  | CONTAINER_BUILD_PARENT_INVALID => "run-switch.container-build-parent-invalid"
  | CONTAINER_BUILD_PLAN_INVALID => "run-switch.container-build-plan-invalid"
  | CONTAINER_BUILD_RECEIPT_UNAVAILABLE => "run-switch.container-build-receipt-unavailable"
  | CONTAINER_BUILD_REQUIRED => "run-switch.container-build-required"
  | CONTAINER_BUILD_STATE_INVALID => "run-switch.container-build-state-invalid"
  | CONTAINER_BUILD_UNAVAILABLE => "run-switch.container-build-unavailable"
  | CROSS_GROUP_CONFLICT => "run-switch.cross-group_conflict"
  | DEPENDENCY_WINDOW_EXHAUSTED => "run-switch.dependency-window-exhausted"
  | DISK_ENVELOPE_INVALID => "run-switch.disk-envelope-invalid"
  | DISK_EVICTION_PLANNED => "run-switch.disk-eviction-planned"
  | EFFECT_UNCERTAIN => "run-switch.effect-uncertain"
  | FINAL_VERIFICATION => "run-switch.final-verification"
  | FINAL_VERIFICATION_CLOCK_INVALID => "run-switch.final-verification-clock-invalid"
  | FINAL_VERIFICATION_FAILED => "run-switch.final-verification-failed"
  | FINAL_VERIFICATION_TIMEOUT => "run-switch.final-verification-timeout"
  | FINAL_VERIFICATION_UNAVAILABLE => "run-switch.final-verification-unavailable"
  | INSTALL_EXECUTOR_UNAVAILABLE => "run-switch.install-executor-unavailable"
  | INSTALL_PREPARATION_UNAVAILABLE => "run-switch.install-preparation-unavailable"
  | INSTALLATION_HANDOFF_UNAVAILABLE => "run-switch.installation-handoff-unavailable"
  | INSTALLATION_IDENTITY_CHANGED => "run-switch.installation-identity-changed"
  | INSTALLATION_IDENTITY_UNAVAILABLE => "run-switch.installation-identity-unavailable"
  | INSTALLATION_MEMBERSHIP_CHANGED => "run-switch.installation-membership-changed"
  | INSTALLATION_PREPARATION_UNAVAILABLE => "run-switch.installation-preparation-unavailable"
  | INSTALLATION_VERIFICATION_FAILED => "run-switch.installation-verification-failed"
  | INSTALLATION_VERIFICATION_UNAVAILABLE => "run-switch.installation-verification-unavailable"
  | INSUFFICIENT_DISK => "run-switch.insufficient-disk"
  | INSUFFICIENT_MEMORY => "run-switch.insufficient-memory"
  | INTERFACE_INVALID => "run-switch.interface-invalid"
  | INVENTORY_STALE => "run-switch.inventory-stale"
  | INVENTORY_UNKNOWN => "run-switch.inventory-unknown"
  | MAPPING_GROUP_MISMATCH => "run-switch.mapping_group_mismatch"
  | MAPPING_INVALID => "run-switch.mapping_invalid"
  | MAPPING_MATERIALIZATION_UNAVAILABLE => "run-switch.mapping_materialization_unavailable"
  | MEMORY_ENVELOPE_INVALID => "run-switch.memory-envelope-invalid"
  | MODEL_DOWNLOAD_ARTIFACT_SET_MISMATCH => "run-switch.model-download-artifact-set-mismatch"
  | MODEL_DOWNLOAD_BYTE_EVIDENCE_MISMATCH => "run-switch.model-download-byte-evidence-mismatch"
  | MODEL_DOWNLOAD_COVERAGE_INCOMPLETE => "run-switch.model-download-coverage-incomplete"
  | MODEL_RECIPE_MISMATCH => "run-switch.model_recipe_mismatch"
  | MODEL_REVISION_UNAVAILABLE => "run-switch.model_revision_unavailable"
  | NAS_COVERAGE_UNKNOWN => "run-switch.nas-coverage-unknown"
  | NAS_DOWNLOAD_BLOCKED => "run-switch.nas-download-blocked"
  | NAS_DOWNLOAD_REQUIRED => "run-switch.nas-download-required"
  | OPTION_INVALID => "run-switch.option_invalid"
  | PHASE_RETRY => "run-switch.phase-retry"
  | PLAN_REFRESH_UNAVAILABLE => "run-switch.plan-refresh-unavailable"
  | PLAN_TARGETS_CHANGED => "run-switch.plan-targets-changed"
  | POST_STOP_INVENTORY_PENDING => "run-switch.post-stop-inventory-pending"
  | POST_STOP_MEMORY_POOL_CHANGED => "run-switch.post-stop-memory-pool-changed"
  | PREFLIGHT_RECIPE_CHANGED => "run-switch.preflight-recipe-changed"
  | PREPARE_SUBPHASE_UNSUPPORTED => "run-switch.prepare-subphase-unsupported"
  | PROFILE_INCOMPLETE_MULTI_SPARK_MODEL => "run-switch.profile.incomplete_multi_spark_model"
  | PROFILE_STOP_SCOPE_CHANGED => "run-switch.profile_stop_scope_changed"
  | RECEIPT_INVALID => "run-switch.receipt_invalid"
  | RECIPE_BUILD_COMPATIBILITY_UNKNOWN => "run-switch.recipe-build-compatibility-unknown"
  | RECIPE_BUILD_INCOMPATIBLE => "run-switch.recipe-build-incompatible"
  | RECIPE_BUILD_UNAVAILABLE => "run-switch.recipe-build-unavailable"
  | RECIPE_DEPENDENCIES_UNAVAILABLE => "run-switch.recipe_dependencies_unavailable"
  | RECIPE_DIGEST_CHANGED => "run-switch.recipe_digest_changed"
  | RECIPE_UNRESOLVED => "run-switch.recipe_unresolved"
  | RECONCILIATION_ASSESSMENT_UNAVAILABLE => "run-switch.reconciliation-assessment-unavailable"
  | RECONCILIATION_AUTHORITY_UNAVAILABLE => "run-switch.reconciliation-authority-unavailable"
  | RECONCILIATION_PREREQUISITE => "run-switch.reconciliation-prerequisite"
  | RECONCILIATION_RECEIPTS_RETAINED => "run-switch.reconciliation-receipts-retained"
  | RECONCILIATION_STATE_VERIFICATION_FAILED =>
      "run-switch.reconciliation-state-verification-failed"
  | RECONCILIATION_VERIFICATION_FAILED => "run-switch.reconciliation-verification-failed"
  | REQUEST_KEY_REUSED_DIFFERENTLY => "run-switch.request_key_reused_differently"
  | RESOURCE_CONTRACT_INVALID => "run-switch.resource-contract-invalid"
  | RESOURCE_DEMAND_EXCEEDS_CAPACITY => "run-switch.resource.demand_exceeds_capacity"
  | RESOURCE_INSUFFICIENT => "run-switch.resource.insufficient"
  | RESOURCE_INSUFFICIENT_CAPACITY => "run-switch.resource.insufficient_capacity"
  | RESOURCE_INSUFFICIENT_CAPACITY_AFTER_STOP =>
      "run-switch.resource.insufficient_capacity_after_stop"
  | RESOURCE_INSUFFICIENT_RESERVATION_BUDGET =>
      "run-switch.resource.insufficient_reservation_budget"
  | RESOURCE_INSUFFICIENT_SWAP => "run-switch.resource.insufficient_swap"
  | RESOURCE_RESIDENT_USAGE_UNKNOWN => "run-switch.resource.resident_usage_unknown"
  | RUN_NOT_ACTIVE => "run-switch.run-not-active"
  | RUN_ADMISSION_BLOCKED => "run-switch.run_admission_blocked"
  | RUN_ADMISSION_UNAVAILABLE => "run-switch.run_admission_unavailable"
  | RUNTIME_BUILD_VERIFICATION_MISMATCH => "run-switch.runtime-build-verification-mismatch"
  | RUNTIME_IMAGE_AUTHORIZATION_MISMATCH => "run-switch.runtime-image-authorization-mismatch"
  | RUNTIME_IMAGE_EXECUTOR_UNAVAILABLE => "run-switch.runtime-image-executor-unavailable"
  | RUNTIME_IMAGE_OWNER_CHANGED => "run-switch.runtime-image-owner-changed"
  | RUNTIME_IMAGE_PREPARATION_LAYOUT_MISMATCH =>
      "run-switch.runtime-image-preparation-layout-mismatch"
  | RUNTIME_IMAGE_PREPARATION_RECEIPT_INVALID =>
      "run-switch.runtime-image-preparation-receipt-invalid"
  | RUNTIME_IMAGE_PREPARING => "run-switch.runtime-image-preparing"
  | RUNTIME_IMAGE_REFERENCE_IDENTITY_MISMATCH =>
      "run-switch.runtime-image-reference-identity-mismatch"
  | RUNTIME_IMAGE_WAITING_WITHOUT_CHILD => "run-switch.runtime-image-waiting-without-child"
  | SPARK_UNAVAILABLE => "run-switch.spark-unavailable"
  | START_OBSERVATION => "run-switch.start-observation"
  | START_OBSERVATION_EXPIRED => "run-switch.start-observation-expired"
  | START_INSTALLATION_UNAVAILABLE => "run-switch.start_installation_unavailable"
  | STOP_PLAN_UNAVAILABLE => "run-switch.stop-plan-unavailable"
  | STOP_STILL_UNRESOLVED_AFTER_CANCELLATION =>
      "run-switch.stop-still-unresolved-after-cancellation"
  | STOP_TARGET_DISAPPEARED => "run-switch.stop-target-disappeared"
  | STOPPED_RUN_IDENTITY_CHANGED => "run-switch.stopped-run-identity-changed"
  | STOPPED_RUN_MEMBERSHIP_CHANGED => "run-switch.stopped-run-membership-changed"
  | TARGET_NOT_ACTIVE => "run-switch.target-not-active"
  | TRANSFER_BYTE_EVIDENCE_INVALID => "run-switch.transfer-byte-evidence-invalid"
  | UNINSTALL_ASSESSMENT_UNAVAILABLE => "run-switch.uninstall-assessment-unavailable"
  | UNINSTALL_BLOCKED => "run-switch.uninstall-blocked"
  | UNINSTALL_ISSUED_PREREQUISITE => "run-switch.uninstall-issued-prerequisite"
  | UNINSTALL_TARGET_UNAVAILABLE => "run-switch.uninstall_target_unavailable"
  | WAITING => "run-switch.waiting"
  | REASON_UNCLASSIFIED => "run-switch.reason-unclassified"
  | CANCEL_EFFECT_UNKNOWN => "run-switch.cancel-effect-unknown"
  | CONTAINER_BUILD_START_UNAVAILABLE => "run-switch.container-build-start-unavailable"
  | DISTRIBUTED_RECOVERY_ACTIVE => "run-switch.distributed-recovery-active"
  | FINAL_OWNER_STATE_UNKNOWN => "run-switch.final-owner-state-unknown"
  | FINAL_VERIFICATION_EXPIRED => "run-switch.final-verification-expired"
  | INSTALL_PLAN_UNAVAILABLE => "run-switch.install-plan-unavailable"
  | INSTALL_PREFLIGHT_EXPIRED => "run-switch.install-preflight-expired"
  | INSTALL_PREPARATION_FAILED => "run-switch.install-preparation-failed"
  | INSTALL_START_FAILED => "run-switch.install-start-failed"
  | INSTALLATION_HANDOFF_INCONSISTENT => "run-switch.installation-handoff-inconsistent"
  | PLAN_BLOCKED => "run-switch.plan_blocked"
  | RECONCILIATION_START_FAILED => "run-switch.reconciliation-start-failed"
  | ROUTE_HEALTH_RECOVERY_ACTIVE => "run-switch.route-health-recovery-active"
  | ROUTE_OWNER_FAILED => "run-switch.route-owner-failed"
  | ROUTE_PUBLICATION_PENDING => "run-switch.route-publication-pending"
  | ROUTE_WITHDRAWN_OWNER_UNKNOWN => "run-switch.route-withdrawn-owner-unknown"
  | RUN_OWNER_ACTIVE => "run-switch.run-owner-active"
  | RUN_OWNER_TERMINAL => "run-switch.run-owner-terminal"
  | STALE_PLAN => "run-switch.stale_plan"
  | STOP_VERIFICATION_PENDING => "run-switch.stop-verification-pending"
  | SUPERSEDED => "run-switch.superseded"
  | UNINSTALL_ABANDON_FAILED => "run-switch.uninstall-abandon-failed"
  | UNINSTALL_START_FAILED => "run-switch.uninstall-start-failed"
  | RECIPE_STOP_ISSUED_PENDING => "run-switch.recipe.stop-issued-pending"
  | RECIPE_INSTALL_ISSUED_PENDING => "run-switch.recipe.install-issued-pending"
  | RECIPE_UNINSTALL_ISSUED_PENDING => "run-switch.recipe.uninstall-issued-pending"
  | RECIPE_RECONCILE_ISSUED_PENDING => "run-switch.recipe.reconcile-issued-pending"
  | ARTIFACT_JOB_CANCELLATION_ISSUED_PENDING =>
      "run-switch.artifact-job-cancellation-issued-pending"
  | TRANSFER_EXECUTOR_UNAVAILABLE => "run-switch.transfer-executor-unavailable"
  | TRANSFER_WAITING_WITHOUT_CHILD => "run-switch.transfer-waiting-without-child"
  | TRANSFER_RETURNED_NO_EVIDENCE => "run-switch.transfer-returned-no-evidence"
  | VERIFY_EXECUTOR_UNAVAILABLE => "run-switch.verify-executor-unavailable"
  | VERIFY_WAITING_WITHOUT_CHILD => "run-switch.verify-waiting-without-child"
  | VERIFY_RETURNED_NO_EVIDENCE => "run-switch.verify-returned-no-evidence"
  | CLEANUP_EXECUTOR_UNAVAILABLE => "run-switch.cleanup-executor-unavailable"
  | CLEANUP_WAITING_WITHOUT_CHILD => "run-switch.cleanup-waiting-without-child"
  | CLEANUP_RETURNED_NO_EVIDENCE => "run-switch.cleanup-returned-no-evidence"
  | RESOURCE_CAPACITY_UNKNOWN => "run-switch.resource.capacity_unknown"
  | RESOURCE_ENVELOPE_EXCEEDS_CAPACITY => "run-switch.resource.envelope_exceeds_capacity"
  | RESOURCE_ENVELOPE_UNVERIFIED => "run-switch.resource.envelope_unverified"
  | RESOURCE_ESTIMATE_UNCERTAIN => "run-switch.resource.estimate_uncertain"
  | RESOURCE_EVIDENCE_INVALID => "run-switch.resource.evidence_invalid"
  | RESOURCE_EVIDENCE_UNKNOWN => "run-switch.resource.evidence_unknown"
  | RESOURCE_KNOBS_INVALID => "run-switch.resource.knobs_invalid"
  | RESOURCE_PARALLELISM_DUPLICATE => "run-switch.resource.parallelism_duplicate"
  | RESOURCE_PARALLELISM_INCONSISTENT => "run-switch.resource.parallelism_inconsistent"
  | RESOURCE_PARALLELISM_TYPE => "run-switch.resource.parallelism_type"
  | RESOURCE_PARALLELISM_UNKNOWN => "run-switch.resource.parallelism_unknown"
  | RESOURCE_SETTINGS_KIND_UNKNOWN => "run-switch.resource.settings_kind_unknown"
  | RESOURCE_SETTINGS_TYPE => "run-switch.resource.settings_type"
  | RESOURCE_SETTINGS_UNKNOWN => "run-switch.resource.settings_unknown"
  | RESOURCE_STOP_RELEASE_UNKNOWN => "run-switch.resource.stop_release_unknown"
  | RECONCILE_ACTIVE_EFFECT_UNKNOWN => "run-switch.reconcile.active_effect_unknown"
  | RECONCILE_AGENT_UNAVAILABLE => "run-switch.reconcile.agent_unavailable"
  | RECONCILE_CAPACITY_BUSY => "run-switch.reconcile.capacity_busy"
  | RECONCILE_INSTALL_PROVENANCE_MISMATCH => "run-switch.reconcile.install_provenance_mismatch"
  | RECONCILE_INSTALL_PROVENANCE_UNAVAILABLE =>
      "run-switch.reconcile.install_provenance_unavailable"
  | RECONCILE_INSTALLATION_EFFECT_UNKNOWN => "run-switch.reconcile.installation_effect_unknown"
  | RECONCILE_INSTALLATION_IDENTITY_MISMATCH =>
      "run-switch.reconcile.installation_identity_mismatch"
  | RECONCILE_INSTALLATION_IDENTITY_UNAVAILABLE =>
      "run-switch.reconcile.installation_identity_unavailable"
  | RECONCILE_MEMBERSHIP_CHANGED => "run-switch.reconcile.membership_changed"
  | RECONCILE_OPERATION_ACTIVE => "run-switch.reconcile.operation_active"
  | RECONCILE_RANK_MEMBERSHIP_CHANGED => "run-switch.reconcile.rank_membership_changed"
  | RECONCILE_RECIPE_REVISION_UNAVAILABLE => "run-switch.reconcile.recipe_revision_unavailable"
  | RECONCILE_SPEC_IDENTITY_MISMATCH => "run-switch.reconcile.spec_identity_mismatch"
  | STOP_CAPACITY_RELEASE_DEFERRED => "run-switch.stop.capacity_release_deferred"
  | STOP_RANK_MEMBERSHIP_CHANGED => "run-switch.stop.rank_membership_changed"
  | STOP_RESERVATION_MEMBERSHIP_CHANGED => "run-switch.stop.reservation_membership_changed"
  | STOP_RUN_NOT_STOPPABLE => "run-switch.stop.run_not_stoppable"
  | STOP_TARGET_SCOPE_CHANGED => "run-switch.stop.target_scope_changed"
  | UNINSTALL_ABANDON_NEVER_INSTALLED => "run-switch.uninstall.abandon-never-installed"
  | UNINSTALL_ACTIVE_RUN => "run-switch.uninstall.active_run"
  | UNINSTALL_ACTIVE_RUNS_TRUNCATED => "run-switch.uninstall.active_runs_truncated"
  | UNINSTALL_BYTES_UNKNOWN => "run-switch.uninstall.bytes_unknown"
  | UNINSTALL_INSTALLATION_NOT_UNINSTALLABLE =>
      "run-switch.uninstall.installation_not_uninstallable"
  | UNINSTALL_OPERATION_ACTIVE => "run-switch.uninstall.operation_active"
  | UNINSTALL_RANK_MEMBERSHIP_CHANGED => "run-switch.uninstall.rank_membership_changed"
  end.
Definition RunSwitchCode_members : list RunSwitchCode :=
  [GPU_CLOCK_INVALID; GPU_CLOCK_ABOVE_DEFAULT; ACTIVE_RUN_CONFLICT; ADVANCE_FAILED;
   AGENT_UPGRADE_REQUIRED; ARTIFACT_IDENTITY_UNKNOWN; ARTIFACT_INSPECTION_UNAVAILABLE;
   ARTIFACT_MANIFEST_UNKNOWN; ARTIFACT_PHASE_EXECUTOR_UNAVAILABLE;
   ARTIFACT_VERIFICATION_RESULT_INVALID; CLEANUP_RECLAIM_EVIDENCE_INVALID;
   CLEANUP_RECLAIMED_BYTES_EXCEED_PLAN; CLEANUP_REFERENCE_PROTECTION_EVIDENCE_INVALID;
   CLEANUP_REFERENCE_PROTECTION_OVERLAP; CLEANUP_SCOPE_INVALID;
   CONTAINER_BUILD_EVIDENCE_INVALID; CONTAINER_BUILD_EXECUTOR_UNAVAILABLE;
   CONTAINER_BUILD_IDENTITY_UNAVAILABLE; CONTAINER_BUILD_PARENT_CHANGED;
   CONTAINER_BUILD_PARENT_INVALID; CONTAINER_BUILD_PLAN_INVALID;
   CONTAINER_BUILD_RECEIPT_UNAVAILABLE; CONTAINER_BUILD_REQUIRED;
   CONTAINER_BUILD_STATE_INVALID; CONTAINER_BUILD_UNAVAILABLE; CROSS_GROUP_CONFLICT;
   DEPENDENCY_WINDOW_EXHAUSTED; DISK_ENVELOPE_INVALID; DISK_EVICTION_PLANNED; EFFECT_UNCERTAIN;
   FINAL_VERIFICATION; FINAL_VERIFICATION_CLOCK_INVALID; FINAL_VERIFICATION_FAILED;
   FINAL_VERIFICATION_TIMEOUT; FINAL_VERIFICATION_UNAVAILABLE; INSTALL_EXECUTOR_UNAVAILABLE;
   INSTALL_PREPARATION_UNAVAILABLE; INSTALLATION_HANDOFF_UNAVAILABLE;
   INSTALLATION_IDENTITY_CHANGED; INSTALLATION_IDENTITY_UNAVAILABLE;
   INSTALLATION_MEMBERSHIP_CHANGED; INSTALLATION_PREPARATION_UNAVAILABLE;
   INSTALLATION_VERIFICATION_FAILED; INSTALLATION_VERIFICATION_UNAVAILABLE; INSUFFICIENT_DISK;
   INSUFFICIENT_MEMORY; INTERFACE_INVALID; INVENTORY_STALE; INVENTORY_UNKNOWN;
   MAPPING_GROUP_MISMATCH; MAPPING_INVALID; MAPPING_MATERIALIZATION_UNAVAILABLE;
   MEMORY_ENVELOPE_INVALID; MODEL_DOWNLOAD_ARTIFACT_SET_MISMATCH;
   MODEL_DOWNLOAD_BYTE_EVIDENCE_MISMATCH; MODEL_DOWNLOAD_COVERAGE_INCOMPLETE;
   MODEL_RECIPE_MISMATCH; MODEL_REVISION_UNAVAILABLE; NAS_COVERAGE_UNKNOWN;
   NAS_DOWNLOAD_BLOCKED; NAS_DOWNLOAD_REQUIRED; OPTION_INVALID; PHASE_RETRY;
   PLAN_REFRESH_UNAVAILABLE; PLAN_TARGETS_CHANGED; POST_STOP_INVENTORY_PENDING;
   POST_STOP_MEMORY_POOL_CHANGED; PREFLIGHT_RECIPE_CHANGED; PREPARE_SUBPHASE_UNSUPPORTED;
   PROFILE_INCOMPLETE_MULTI_SPARK_MODEL; PROFILE_STOP_SCOPE_CHANGED; RECEIPT_INVALID;
   RECIPE_BUILD_COMPATIBILITY_UNKNOWN; RECIPE_BUILD_INCOMPATIBLE; RECIPE_BUILD_UNAVAILABLE;
   RECIPE_DEPENDENCIES_UNAVAILABLE; RECIPE_DIGEST_CHANGED; RECIPE_UNRESOLVED;
   RECONCILIATION_ASSESSMENT_UNAVAILABLE; RECONCILIATION_AUTHORITY_UNAVAILABLE;
   RECONCILIATION_PREREQUISITE; RECONCILIATION_RECEIPTS_RETAINED;
   RECONCILIATION_STATE_VERIFICATION_FAILED; RECONCILIATION_VERIFICATION_FAILED;
   REQUEST_KEY_REUSED_DIFFERENTLY; RESOURCE_CONTRACT_INVALID; RESOURCE_DEMAND_EXCEEDS_CAPACITY;
   RESOURCE_INSUFFICIENT; RESOURCE_INSUFFICIENT_CAPACITY;
   RESOURCE_INSUFFICIENT_CAPACITY_AFTER_STOP; RESOURCE_INSUFFICIENT_RESERVATION_BUDGET;
   RESOURCE_INSUFFICIENT_SWAP; RESOURCE_RESIDENT_USAGE_UNKNOWN; RUN_NOT_ACTIVE;
   RUN_ADMISSION_BLOCKED; RUN_ADMISSION_UNAVAILABLE; RUNTIME_BUILD_VERIFICATION_MISMATCH;
   RUNTIME_IMAGE_AUTHORIZATION_MISMATCH; RUNTIME_IMAGE_EXECUTOR_UNAVAILABLE;
   RUNTIME_IMAGE_OWNER_CHANGED; RUNTIME_IMAGE_PREPARATION_LAYOUT_MISMATCH;
   RUNTIME_IMAGE_PREPARATION_RECEIPT_INVALID; RUNTIME_IMAGE_PREPARING;
   RUNTIME_IMAGE_REFERENCE_IDENTITY_MISMATCH; RUNTIME_IMAGE_WAITING_WITHOUT_CHILD;
   SPARK_UNAVAILABLE; START_OBSERVATION; START_OBSERVATION_EXPIRED;
   START_INSTALLATION_UNAVAILABLE; STOP_PLAN_UNAVAILABLE;
   STOP_STILL_UNRESOLVED_AFTER_CANCELLATION; STOP_TARGET_DISAPPEARED;
   STOPPED_RUN_IDENTITY_CHANGED; STOPPED_RUN_MEMBERSHIP_CHANGED; TARGET_NOT_ACTIVE;
   TRANSFER_BYTE_EVIDENCE_INVALID; UNINSTALL_ASSESSMENT_UNAVAILABLE; UNINSTALL_BLOCKED;
   UNINSTALL_ISSUED_PREREQUISITE; UNINSTALL_TARGET_UNAVAILABLE; WAITING; REASON_UNCLASSIFIED;
   CANCEL_EFFECT_UNKNOWN; CONTAINER_BUILD_START_UNAVAILABLE; DISTRIBUTED_RECOVERY_ACTIVE;
   FINAL_OWNER_STATE_UNKNOWN; FINAL_VERIFICATION_EXPIRED; INSTALL_PLAN_UNAVAILABLE;
   INSTALL_PREFLIGHT_EXPIRED; INSTALL_PREPARATION_FAILED; INSTALL_START_FAILED;
   INSTALLATION_HANDOFF_INCONSISTENT; PLAN_BLOCKED; RECONCILIATION_START_FAILED;
   ROUTE_HEALTH_RECOVERY_ACTIVE; ROUTE_OWNER_FAILED; ROUTE_PUBLICATION_PENDING;
   ROUTE_WITHDRAWN_OWNER_UNKNOWN; RUN_OWNER_ACTIVE; RUN_OWNER_TERMINAL; STALE_PLAN;
   STOP_VERIFICATION_PENDING; SUPERSEDED; UNINSTALL_ABANDON_FAILED; UNINSTALL_START_FAILED;
   RECIPE_STOP_ISSUED_PENDING; RECIPE_INSTALL_ISSUED_PENDING; RECIPE_UNINSTALL_ISSUED_PENDING;
   RECIPE_RECONCILE_ISSUED_PENDING; ARTIFACT_JOB_CANCELLATION_ISSUED_PENDING;
   TRANSFER_EXECUTOR_UNAVAILABLE; TRANSFER_WAITING_WITHOUT_CHILD;
   TRANSFER_RETURNED_NO_EVIDENCE; VERIFY_EXECUTOR_UNAVAILABLE; VERIFY_WAITING_WITHOUT_CHILD;
   VERIFY_RETURNED_NO_EVIDENCE; CLEANUP_EXECUTOR_UNAVAILABLE; CLEANUP_WAITING_WITHOUT_CHILD;
   CLEANUP_RETURNED_NO_EVIDENCE; RESOURCE_CAPACITY_UNKNOWN; RESOURCE_ENVELOPE_EXCEEDS_CAPACITY;
   RESOURCE_ENVELOPE_UNVERIFIED; RESOURCE_ESTIMATE_UNCERTAIN; RESOURCE_EVIDENCE_INVALID;
   RESOURCE_EVIDENCE_UNKNOWN; RESOURCE_KNOBS_INVALID; RESOURCE_PARALLELISM_DUPLICATE;
   RESOURCE_PARALLELISM_INCONSISTENT; RESOURCE_PARALLELISM_TYPE; RESOURCE_PARALLELISM_UNKNOWN;
   RESOURCE_SETTINGS_KIND_UNKNOWN; RESOURCE_SETTINGS_TYPE; RESOURCE_SETTINGS_UNKNOWN;
   RESOURCE_STOP_RELEASE_UNKNOWN; RECONCILE_ACTIVE_EFFECT_UNKNOWN; RECONCILE_AGENT_UNAVAILABLE;
   RECONCILE_CAPACITY_BUSY; RECONCILE_INSTALL_PROVENANCE_MISMATCH;
   RECONCILE_INSTALL_PROVENANCE_UNAVAILABLE; RECONCILE_INSTALLATION_EFFECT_UNKNOWN;
   RECONCILE_INSTALLATION_IDENTITY_MISMATCH; RECONCILE_INSTALLATION_IDENTITY_UNAVAILABLE;
   RECONCILE_MEMBERSHIP_CHANGED; RECONCILE_OPERATION_ACTIVE; RECONCILE_RANK_MEMBERSHIP_CHANGED;
   RECONCILE_RECIPE_REVISION_UNAVAILABLE; RECONCILE_SPEC_IDENTITY_MISMATCH;
   STOP_CAPACITY_RELEASE_DEFERRED; STOP_RANK_MEMBERSHIP_CHANGED;
   STOP_RESERVATION_MEMBERSHIP_CHANGED; STOP_RUN_NOT_STOPPABLE; STOP_TARGET_SCOPE_CHANGED;
   UNINSTALL_ABANDON_NEVER_INSTALLED; UNINSTALL_ACTIVE_RUN; UNINSTALL_ACTIVE_RUNS_TRUNCATED;
   UNINSTALL_BYTES_UNKNOWN; UNINSTALL_INSTALLATION_NOT_UNINSTALLABLE;
   UNINSTALL_OPERATION_ACTIVE; UNINSTALL_RANK_MEMBERSHIP_CHANGED].
Lemma RunSwitchCode_decode e :
  find (fun m => String.eqb (RunSwitchCode_value m) (RunSwitchCode_value e)) RunSwitchCode_members = Some e.
Proof. destruct e; reflexivity. Qed.
#[global] Instance RunSwitchCode_enum : WireEnum RunSwitchCode :=
  decoded_enum RunSwitchCode_members RunSwitchCode_value RunSwitchCode_decode eq_refl.
End RunSwitchCode.
Abbreviation RunSwitchCode := RunSwitchCode.RunSwitchCode.

Module JournalRepairCode.
Inductive JournalRepairCode :=
    EXHAUSTED | EVIDENCE_UNAVAILABLE.
Definition JournalRepairCode_value (e : JournalRepairCode) : string :=
  match e with
  | EXHAUSTED => "run-switch.journal-repair-exhausted"
  | EVIDENCE_UNAVAILABLE => "run-switch.journal-repair-evidence-unavailable"
  end.
Definition JournalRepairCode_members : list JournalRepairCode :=
  [EXHAUSTED; EVIDENCE_UNAVAILABLE].
Lemma JournalRepairCode_decode e :
  find (fun m => String.eqb (JournalRepairCode_value m) (JournalRepairCode_value e)) JournalRepairCode_members = Some e.
Proof. destruct e; reflexivity. Qed.
#[global] Instance JournalRepairCode_enum : WireEnum JournalRepairCode :=
  decoded_enum JournalRepairCode_members JournalRepairCode_value JournalRepairCode_decode eq_refl.
End JournalRepairCode.
Abbreviation JournalRepairCode := JournalRepairCode.JournalRepairCode.

(** Runtime image preparation, receipt and registry problems. *)
Module RuntimeImageCode.
Inductive RuntimeImageCode :=
    DESTINATION_FORBIDDEN | DIGEST_MISMATCH | REDIRECT_FORBIDDEN | ARCHITECTURE_MISMATCH
  | ARCHITECTURE_MISSING | ARCHIVE_CONFLICT | ARCHIVE_INVALID | ARCHIVE_MISMATCH
  | ARCHIVE_SIZE_MISMATCH | ARCHIVE_UNAVAILABLE | BUILD_ARCHIVE_DIGEST | BUILD_DIGEST
  | BUILD_ID | BUILD_INCOMPLETE | CACHE_MISSING | CONFIG_MISSING | DIGEST_INVALID
  | DIGEST_MISMATCH_ | EVIDENCE_INVALID | IDENTITY_INVALID | IMAGE_UNPINNED | INSPECT_INVALID
  | INSUFFICIENT_DISK | INTERFACE_MISMATCH | INTERFACE_MISSING | LOCK_UNAVAILABLE
  | PUBLICATION_CONTENDED | RECEIPT_CONTRACT_NEWER | RECEIPT_IDENTITY_CONFLICT
  | RECEIPT_IDENTITY_INVALID | RECEIPT_INVALID | RECEIPT_PERSISTENCE_FAILED
  | RECEIPT_UNAVAILABLE | RECEIPT_WRITE_FAILED | RECIPE_INVALID | REFERENCE_INTENT_INVALID
  | REMOVAL_STORAGE_FAILED | RUNTIME_INVALID | SOURCE_MISMATCH | TRANSFER_CONTENDED.
Definition RuntimeImageCode_value (e : RuntimeImageCode) : string :=
  match e with
  | DESTINATION_FORBIDDEN => "registry.destination_forbidden"
  | DIGEST_MISMATCH => "registry.digest_mismatch"
  | REDIRECT_FORBIDDEN => "registry.redirect_forbidden"
  | ARCHITECTURE_MISMATCH => "runtime_image.architecture_mismatch"
  | ARCHITECTURE_MISSING => "runtime_image.architecture_missing"
  | ARCHIVE_CONFLICT => "runtime_image.archive_conflict"
  | ARCHIVE_INVALID => "runtime_image.archive_invalid"
  | ARCHIVE_MISMATCH => "runtime_image.archive_mismatch"
  | ARCHIVE_SIZE_MISMATCH => "runtime_image.archive_size_mismatch"
  | ARCHIVE_UNAVAILABLE => "runtime_image.archive_unavailable"
  | BUILD_ARCHIVE_DIGEST => "runtime_image.build_archive_digest"
  | BUILD_DIGEST => "runtime_image.build_digest"
  | BUILD_ID => "runtime_image.build_id"
  | BUILD_INCOMPLETE => "runtime_image.build_incomplete"
  | CACHE_MISSING => "runtime_image.cache_missing"
  | CONFIG_MISSING => "runtime_image.config_missing"
  | DIGEST_INVALID => "runtime_image.digest_invalid"
  | DIGEST_MISMATCH_ => "runtime_image.digest_mismatch"
  | EVIDENCE_INVALID => "runtime_image.evidence_invalid"
  | IDENTITY_INVALID => "runtime_image.identity_invalid"
  | IMAGE_UNPINNED => "runtime_image.image_unpinned"
  | INSPECT_INVALID => "runtime_image.inspect_invalid"
  | INSUFFICIENT_DISK => "runtime_image.insufficient_disk"
  | INTERFACE_MISMATCH => "runtime_image.interface_mismatch"
  | INTERFACE_MISSING => "runtime_image.interface_missing"
  | LOCK_UNAVAILABLE => "runtime_image.lock_unavailable"
  | PUBLICATION_CONTENDED => "runtime_image.publication_contended"
  | RECEIPT_CONTRACT_NEWER => "runtime_image.receipt_contract_newer"
  | RECEIPT_IDENTITY_CONFLICT => "runtime_image.receipt_identity_conflict"
  | RECEIPT_IDENTITY_INVALID => "runtime_image.receipt_identity_invalid"
  | RECEIPT_INVALID => "runtime_image.receipt_invalid"
  | RECEIPT_PERSISTENCE_FAILED => "runtime_image.receipt_persistence_failed"
  | RECEIPT_UNAVAILABLE => "runtime_image.receipt_unavailable"
  | RECEIPT_WRITE_FAILED => "runtime_image.receipt_write_failed"
  | RECIPE_INVALID => "runtime_image.recipe_invalid"
  | REFERENCE_INTENT_INVALID => "runtime_image.reference_intent_invalid"
  | REMOVAL_STORAGE_FAILED => "runtime_image.removal_storage_failed"
  | RUNTIME_INVALID => "runtime_image.runtime_invalid"
  | SOURCE_MISMATCH => "runtime_image.source_mismatch"
  | TRANSFER_CONTENDED => "runtime_image.transfer_contended"
  end.
Definition RuntimeImageCode_members : list RuntimeImageCode :=
  [DESTINATION_FORBIDDEN; DIGEST_MISMATCH; REDIRECT_FORBIDDEN; ARCHITECTURE_MISMATCH;
   ARCHITECTURE_MISSING; ARCHIVE_CONFLICT; ARCHIVE_INVALID; ARCHIVE_MISMATCH;
   ARCHIVE_SIZE_MISMATCH; ARCHIVE_UNAVAILABLE; BUILD_ARCHIVE_DIGEST; BUILD_DIGEST; BUILD_ID;
   BUILD_INCOMPLETE; CACHE_MISSING; CONFIG_MISSING; DIGEST_INVALID; DIGEST_MISMATCH_;
   EVIDENCE_INVALID; IDENTITY_INVALID; IMAGE_UNPINNED; INSPECT_INVALID; INSUFFICIENT_DISK;
   INTERFACE_MISMATCH; INTERFACE_MISSING; LOCK_UNAVAILABLE; PUBLICATION_CONTENDED;
   RECEIPT_CONTRACT_NEWER; RECEIPT_IDENTITY_CONFLICT; RECEIPT_IDENTITY_INVALID;
   RECEIPT_INVALID; RECEIPT_PERSISTENCE_FAILED; RECEIPT_UNAVAILABLE; RECEIPT_WRITE_FAILED;
   RECIPE_INVALID; REFERENCE_INTENT_INVALID; REMOVAL_STORAGE_FAILED; RUNTIME_INVALID;
   SOURCE_MISMATCH; TRANSFER_CONTENDED].
Lemma RuntimeImageCode_decode e :
  find (fun m => String.eqb (RuntimeImageCode_value m) (RuntimeImageCode_value e)) RuntimeImageCode_members = Some e.
Proof. destruct e; reflexivity. Qed.
#[global] Instance RuntimeImageCode_enum : WireEnum RuntimeImageCode :=
  decoded_enum RuntimeImageCode_members RuntimeImageCode_value RuntimeImageCode_decode eq_refl.
End RuntimeImageCode.
Abbreviation RuntimeImageCode := RuntimeImageCode.RuntimeImageCode.

(** Runtime preflight blockers. *)
Module RuntimePreflightCode.
Inductive RuntimePreflightCode :=
    CHILD_MISSING | EXECUTION_FAILED | HOST_CHANGED | NODE_REVOKED | OPERATION_MISSING
  | RECEIPT_INVALID | RECEIPT_MISSING | REQUIRED | REQUIREMENT_UNKNOWN | REQUIREMENTS_CHANGED
  | STALE | NODE_MISSING | CAPABILITY_FAILED.
Definition RuntimePreflightCode_value (e : RuntimePreflightCode) : string :=
  match e with
  | CHILD_MISSING => "runtime_preflight.child_missing"
  | EXECUTION_FAILED => "runtime_preflight.execution_failed"
  | HOST_CHANGED => "runtime_preflight.host_changed"
  | NODE_REVOKED => "runtime_preflight.node_revoked"
  | OPERATION_MISSING => "runtime_preflight.operation_missing"
  | RECEIPT_INVALID => "runtime_preflight.receipt_invalid"
  | RECEIPT_MISSING => "runtime_preflight.receipt_missing"
  | REQUIRED => "runtime_preflight.required"
  | REQUIREMENT_UNKNOWN => "runtime_preflight.requirement_unknown"
  | REQUIREMENTS_CHANGED => "runtime_preflight.requirements_changed"
  | STALE => "runtime_preflight.stale"
  | NODE_MISSING => "runtime_preflight.node_missing"
  | CAPABILITY_FAILED => "runtime_preflight.capability_failed"
  end.
Definition RuntimePreflightCode_members : list RuntimePreflightCode :=
  [CHILD_MISSING; EXECUTION_FAILED; HOST_CHANGED; NODE_REVOKED; OPERATION_MISSING;
   RECEIPT_INVALID; RECEIPT_MISSING; REQUIRED; REQUIREMENT_UNKNOWN; REQUIREMENTS_CHANGED;
   STALE; NODE_MISSING; CAPABILITY_FAILED].
Lemma RuntimePreflightCode_decode e :
  find (fun m => String.eqb (RuntimePreflightCode_value m) (RuntimePreflightCode_value e)) RuntimePreflightCode_members = Some e.
Proof. destruct e; reflexivity. Qed.
#[global] Instance RuntimePreflightCode_enum : WireEnum RuntimePreflightCode :=
  decoded_enum RuntimePreflightCode_members RuntimePreflightCode_value RuntimePreflightCode_decode eq_refl.
End RuntimePreflightCode.
Abbreviation RuntimePreflightCode := RuntimePreflightCode.RuntimePreflightCode.

(** Why one runtime preflight capability passed, failed or stayed unknown, as the agent reports it. *)
Module RuntimePreflightFindingCode.
Inductive RuntimePreflightFindingCode :=
    ARCHITECTURE_MISMATCH | AVAILABLE | BUILD_STEP_FAILED | CAPABILITIES_NOT_ZERO
  | CONTROLLER_UNREACHABLE | DEADLINE_EXCEEDED | DIAGNOSTIC_LIMIT_EXCEEDED
  | DIRECTORY_NOT_WRITABLE | DISK_RESERVE_INSUFFICIENT | FABRIC_REQUIREMENT_UNVERIFIED
  | HELPER_CALL_JOIN_FAILED | HELPER_CAPABILITIES_NOT_ZERO | HELPER_GRANT_INVALID
  | HELPER_GRANT_NODE_MISMATCH | HELPER_GRANT_UNAUTHORIZED | HELPER_GRANT_TIME_WINDOW
  | HELPER_GRANT_UNAVAILABLE | HELPER_IMAGE_IMPORT_FAILED | HELPER_INSPECTION_OUTCOME_INVALID
  | HELPER_INSTALLATION_RECONCILIATION_BUSY
  | HELPER_INSTALLATION_RECONCILIATION_STORAGE_UNAVAILABLE | HELPER_IO_FAILED
  | HELPER_MESSAGE_FRAMING_INVALID | HELPER_MOUNT_NAMESPACE_UNAVAILABLE
  | HELPER_NO_NEW_PRIVILEGES_UNAVAILABLE | HELPER_OPERATION_COMMAND_FAILED
  | HELPER_OPERATION_FAILED | HELPER_OPERATION_INVALID | HELPER_OPERATION_INVALID_ARTIFACT
  | HELPER_OPERATION_IO | HELPER_OPERATION_STOP_UNCERTAIN | HELPER_OPERATION_UNSAFE_PATH
  | HELPER_OUTCOME_MALFORMED | HELPER_PEER_IDENTITY_INVALID | HELPER_PROBE_CLEANUP_FAILED
  | HELPER_PROBE_INVALID_RESULT | HELPER_PROC_UNAVAILABLE | HELPER_PROTOCOL_INVALID
  | HELPER_REJECTION_MALFORMED | HELPER_REQUEST_ARGUMENTS_PRESENCE_INVALID
  | HELPER_REQUEST_ARGUMENT_NUL_BYTE | HELPER_REQUEST_ATTEMPT_INVALID
  | HELPER_REQUEST_BYTES_INVALID | HELPER_REQUEST_DOCUMENT_INVALID
  | HELPER_REQUEST_ENCODING_INVALID | HELPER_REQUEST_INSTALLATION_IDENTITY_INVALID
  | HELPER_REQUEST_INVALID | HELPER_REQUEST_LEDGER_FAILED | HELPER_REQUEST_PLAN_BINDING_INVALID
  | HELPER_REQUEST_PLAN_BYTES_INVALID | HELPER_REQUEST_REPLAYED
  | HELPER_REQUEST_SCHEMA_VERSION_INVALID | HELPER_REQUEST_STORAGE_INVALID
  | HELPER_RESPONSE_UNBOUND | HELPER_RUNTIME_ENDPOINT_FIREWALL_REJECTED
  | HELPER_RUNTIME_FABRIC_FIREWALL_REJECTED | HELPER_RUNTIME_FABRIC_UNAVAILABLE
  | HELPER_RUNTIME_IMAGE_IDENTITY_INVALID | HELPER_RUNTIME_IMAGE_INSPECT_FAILED
  | HELPER_RUNTIME_IMAGE_LOAD_FAILED | HELPER_RUNTIME_IMAGE_RECEIPT_FAILED
  | HELPER_RUNTIME_PROCESS_EXITED | HELPER_RUNTIME_RUN_MISSING | HELPER_SANDBOX_RUN_FAILED
  | HELPER_STOP_UNCERTAIN | HELPER_SYSTEM_CLOCK_INVALID
  | HELPER_TEMPORARY_DIRECTORY_UNAVAILABLE | MEMORY_LIMIT_EXCEEDED
  | MOUNT_NAMESPACE_UNAVAILABLE | NONZERO_WITHOUT_OUTPUT | NO_NEW_PRIVILEGES_UNAVAILABLE
  | OCI_RUNTIME_UNAVAILABLE | PATCH_REJECTED | PERMISSION_DENIED | PROC_MOUNT_DENIED
  | PROC_UNAVAILABLE | RUNROOT_EXCEEDS_50_BYTES | SIGNED_HELPER_PROBE_REQUIRED
  | STORAGE_DRIVER_FAILURE | SUBORDINATE_ID_MAPPING_UNAVAILABLE | SUBPROCESS_UNAVAILABLE
  | SYSTEMD_SCOPE_FAILURE | TEMPORARY_DIRECTORY_UNAVAILABLE | TEMPORARY_STORAGE_EXHAUSTED
  | UNCLASSIFIED | UNCLASSIFIED_PODMAN_BUILD_FAILURE | USER_NAMESPACE_DENIED
  | USER_SERVICE_MANAGER_UNAVAILABLE.
Definition RuntimePreflightFindingCode_value (e : RuntimePreflightFindingCode) : string :=
  match e with
  | ARCHITECTURE_MISMATCH => "preflight_finding.architecture_mismatch"
  | AVAILABLE => "preflight_finding.available"
  | BUILD_STEP_FAILED => "preflight_finding.build_step_failed"
  | CAPABILITIES_NOT_ZERO => "preflight_finding.capabilities_not_zero"
  | CONTROLLER_UNREACHABLE => "preflight_finding.controller_unreachable"
  | DEADLINE_EXCEEDED => "preflight_finding.deadline_exceeded"
  | DIAGNOSTIC_LIMIT_EXCEEDED => "preflight_finding.diagnostic_limit_exceeded"
  | DIRECTORY_NOT_WRITABLE => "preflight_finding.directory_not_writable"
  | DISK_RESERVE_INSUFFICIENT => "preflight_finding.disk_reserve_insufficient"
  | FABRIC_REQUIREMENT_UNVERIFIED => "preflight_finding.fabric_requirement_unverified"
  | HELPER_CALL_JOIN_FAILED => "preflight_finding.helper_call_join_failed"
  | HELPER_CAPABILITIES_NOT_ZERO => "preflight_finding.helper_capabilities_not_zero"
  | HELPER_GRANT_INVALID => "preflight_finding.helper_grant_invalid"
  | HELPER_GRANT_NODE_MISMATCH => "preflight_finding.helper_grant_node_mismatch"
  | HELPER_GRANT_UNAUTHORIZED => "preflight_finding.helper_grant_unauthorized"
  | HELPER_GRANT_TIME_WINDOW => "preflight_finding.helper_grant_time_window"
  | HELPER_GRANT_UNAVAILABLE => "preflight_finding.helper_grant_unavailable"
  | HELPER_IMAGE_IMPORT_FAILED => "preflight_finding.helper_image_import_failed"
  | HELPER_INSPECTION_OUTCOME_INVALID => "preflight_finding.helper_inspection_outcome_invalid"
  | HELPER_INSTALLATION_RECONCILIATION_BUSY =>
      "preflight_finding.helper_installation_reconciliation_busy"
  | HELPER_INSTALLATION_RECONCILIATION_STORAGE_UNAVAILABLE =>
      "preflight_finding.helper_installation_reconciliation_storage_unavailable"
  | HELPER_IO_FAILED => "preflight_finding.helper_io_failed"
  | HELPER_MESSAGE_FRAMING_INVALID => "preflight_finding.helper_message_framing_invalid"
  | HELPER_MOUNT_NAMESPACE_UNAVAILABLE => "preflight_finding.helper_mount_namespace_unavailable"
  | HELPER_NO_NEW_PRIVILEGES_UNAVAILABLE => "preflight_finding.helper_no_new_privileges_unavailable"
  | HELPER_OPERATION_COMMAND_FAILED => "preflight_finding.helper_operation_command_failed"
  | HELPER_OPERATION_FAILED => "preflight_finding.helper_operation_failed"
  | HELPER_OPERATION_INVALID => "preflight_finding.helper_operation_invalid"
  | HELPER_OPERATION_INVALID_ARTIFACT => "preflight_finding.helper_operation_invalid_artifact"
  | HELPER_OPERATION_IO => "preflight_finding.helper_operation_io"
  | HELPER_OPERATION_STOP_UNCERTAIN => "preflight_finding.helper_operation_stop_uncertain"
  | HELPER_OPERATION_UNSAFE_PATH => "preflight_finding.helper_operation_unsafe_path"
  | HELPER_OUTCOME_MALFORMED => "preflight_finding.helper_outcome_malformed"
  | HELPER_PEER_IDENTITY_INVALID => "preflight_finding.helper_peer_identity_invalid"
  | HELPER_PROBE_CLEANUP_FAILED => "preflight_finding.helper_probe_cleanup_failed"
  | HELPER_PROBE_INVALID_RESULT => "preflight_finding.helper_probe_invalid_result"
  | HELPER_PROC_UNAVAILABLE => "preflight_finding.helper_proc_unavailable"
  | HELPER_PROTOCOL_INVALID => "preflight_finding.helper_protocol_invalid"
  | HELPER_REJECTION_MALFORMED => "preflight_finding.helper_rejection_malformed"
  | HELPER_REQUEST_ARGUMENTS_PRESENCE_INVALID =>
      "preflight_finding.helper_request_arguments_presence_invalid"
  | HELPER_REQUEST_ARGUMENT_NUL_BYTE => "preflight_finding.helper_request_argument_nul_byte"
  | HELPER_REQUEST_ATTEMPT_INVALID => "preflight_finding.helper_request_attempt_invalid"
  | HELPER_REQUEST_BYTES_INVALID => "preflight_finding.helper_request_bytes_invalid"
  | HELPER_REQUEST_DOCUMENT_INVALID => "preflight_finding.helper_request_document_invalid"
  | HELPER_REQUEST_ENCODING_INVALID => "preflight_finding.helper_request_encoding_invalid"
  | HELPER_REQUEST_INSTALLATION_IDENTITY_INVALID =>
      "preflight_finding.helper_request_installation_identity_invalid"
  | HELPER_REQUEST_INVALID => "preflight_finding.helper_request_invalid"
  | HELPER_REQUEST_LEDGER_FAILED => "preflight_finding.helper_request_ledger_failed"
  | HELPER_REQUEST_PLAN_BINDING_INVALID => "preflight_finding.helper_request_plan_binding_invalid"
  | HELPER_REQUEST_PLAN_BYTES_INVALID => "preflight_finding.helper_request_plan_bytes_invalid"
  | HELPER_REQUEST_REPLAYED => "preflight_finding.helper_request_replayed"
  | HELPER_REQUEST_SCHEMA_VERSION_INVALID =>
      "preflight_finding.helper_request_schema_version_invalid"
  | HELPER_REQUEST_STORAGE_INVALID => "preflight_finding.helper_request_storage_invalid"
  | HELPER_RESPONSE_UNBOUND => "preflight_finding.helper_response_unbound"
  | HELPER_RUNTIME_ENDPOINT_FIREWALL_REJECTED =>
      "preflight_finding.helper_runtime_endpoint_firewall_rejected"
  | HELPER_RUNTIME_FABRIC_FIREWALL_REJECTED =>
      "preflight_finding.helper_runtime_fabric_firewall_rejected"
  | HELPER_RUNTIME_FABRIC_UNAVAILABLE => "preflight_finding.helper_runtime_fabric_unavailable"
  | HELPER_RUNTIME_IMAGE_IDENTITY_INVALID =>
      "preflight_finding.helper_runtime_image_identity_invalid"
  | HELPER_RUNTIME_IMAGE_INSPECT_FAILED => "preflight_finding.helper_runtime_image_inspect_failed"
  | HELPER_RUNTIME_IMAGE_LOAD_FAILED => "preflight_finding.helper_runtime_image_load_failed"
  | HELPER_RUNTIME_IMAGE_RECEIPT_FAILED => "preflight_finding.helper_runtime_image_receipt_failed"
  | HELPER_RUNTIME_PROCESS_EXITED => "preflight_finding.helper_runtime_process_exited"
  | HELPER_RUNTIME_RUN_MISSING => "preflight_finding.helper_runtime_run_missing"
  | HELPER_SANDBOX_RUN_FAILED => "preflight_finding.helper_sandbox_run_failed"
  | HELPER_STOP_UNCERTAIN => "preflight_finding.helper_stop_uncertain"
  | HELPER_SYSTEM_CLOCK_INVALID => "preflight_finding.helper_system_clock_invalid"
  | HELPER_TEMPORARY_DIRECTORY_UNAVAILABLE =>
      "preflight_finding.helper_temporary_directory_unavailable"
  | MEMORY_LIMIT_EXCEEDED => "preflight_finding.memory_limit_exceeded"
  | MOUNT_NAMESPACE_UNAVAILABLE => "preflight_finding.mount_namespace_unavailable"
  | NONZERO_WITHOUT_OUTPUT => "preflight_finding.nonzero_without_output"
  | NO_NEW_PRIVILEGES_UNAVAILABLE => "preflight_finding.no_new_privileges_unavailable"
  | OCI_RUNTIME_UNAVAILABLE => "preflight_finding.oci_runtime_unavailable"
  | PATCH_REJECTED => "preflight_finding.patch_rejected"
  | PERMISSION_DENIED => "preflight_finding.permission_denied"
  | PROC_MOUNT_DENIED => "preflight_finding.proc_mount_denied"
  | PROC_UNAVAILABLE => "preflight_finding.proc_unavailable"
  | RUNROOT_EXCEEDS_50_BYTES => "preflight_finding.runroot_exceeds_50_bytes"
  | SIGNED_HELPER_PROBE_REQUIRED => "preflight_finding.signed_helper_probe_required"
  | STORAGE_DRIVER_FAILURE => "preflight_finding.storage_driver_failure"
  | SUBORDINATE_ID_MAPPING_UNAVAILABLE => "preflight_finding.subordinate_id_mapping_unavailable"
  | SUBPROCESS_UNAVAILABLE => "preflight_finding.subprocess_unavailable"
  | SYSTEMD_SCOPE_FAILURE => "preflight_finding.systemd_scope_failure"
  | TEMPORARY_DIRECTORY_UNAVAILABLE => "preflight_finding.temporary_directory_unavailable"
  | TEMPORARY_STORAGE_EXHAUSTED => "preflight_finding.temporary_storage_exhausted"
  | UNCLASSIFIED => "preflight_finding.unclassified"
  | UNCLASSIFIED_PODMAN_BUILD_FAILURE => "preflight_finding.unclassified_podman_build_failure"
  | USER_NAMESPACE_DENIED => "preflight_finding.user_namespace_denied"
  | USER_SERVICE_MANAGER_UNAVAILABLE => "preflight_finding.user_service_manager_unavailable"
  end.
Definition RuntimePreflightFindingCode_members : list RuntimePreflightFindingCode :=
  [ARCHITECTURE_MISMATCH; AVAILABLE; BUILD_STEP_FAILED; CAPABILITIES_NOT_ZERO;
   CONTROLLER_UNREACHABLE; DEADLINE_EXCEEDED; DIAGNOSTIC_LIMIT_EXCEEDED;
   DIRECTORY_NOT_WRITABLE; DISK_RESERVE_INSUFFICIENT; FABRIC_REQUIREMENT_UNVERIFIED;
   HELPER_CALL_JOIN_FAILED; HELPER_CAPABILITIES_NOT_ZERO; HELPER_GRANT_INVALID;
   HELPER_GRANT_NODE_MISMATCH; HELPER_GRANT_UNAUTHORIZED; HELPER_GRANT_TIME_WINDOW;
   HELPER_GRANT_UNAVAILABLE; HELPER_IMAGE_IMPORT_FAILED; HELPER_INSPECTION_OUTCOME_INVALID;
   HELPER_INSTALLATION_RECONCILIATION_BUSY;
   HELPER_INSTALLATION_RECONCILIATION_STORAGE_UNAVAILABLE; HELPER_IO_FAILED;
   HELPER_MESSAGE_FRAMING_INVALID; HELPER_MOUNT_NAMESPACE_UNAVAILABLE;
   HELPER_NO_NEW_PRIVILEGES_UNAVAILABLE; HELPER_OPERATION_COMMAND_FAILED;
   HELPER_OPERATION_FAILED; HELPER_OPERATION_INVALID; HELPER_OPERATION_INVALID_ARTIFACT;
   HELPER_OPERATION_IO; HELPER_OPERATION_STOP_UNCERTAIN; HELPER_OPERATION_UNSAFE_PATH;
   HELPER_OUTCOME_MALFORMED; HELPER_PEER_IDENTITY_INVALID; HELPER_PROBE_CLEANUP_FAILED;
   HELPER_PROBE_INVALID_RESULT; HELPER_PROC_UNAVAILABLE; HELPER_PROTOCOL_INVALID;
   HELPER_REJECTION_MALFORMED; HELPER_REQUEST_ARGUMENTS_PRESENCE_INVALID;
   HELPER_REQUEST_ARGUMENT_NUL_BYTE; HELPER_REQUEST_ATTEMPT_INVALID;
   HELPER_REQUEST_BYTES_INVALID; HELPER_REQUEST_DOCUMENT_INVALID;
   HELPER_REQUEST_ENCODING_INVALID; HELPER_REQUEST_INSTALLATION_IDENTITY_INVALID;
   HELPER_REQUEST_INVALID; HELPER_REQUEST_LEDGER_FAILED; HELPER_REQUEST_PLAN_BINDING_INVALID;
   HELPER_REQUEST_PLAN_BYTES_INVALID; HELPER_REQUEST_REPLAYED;
   HELPER_REQUEST_SCHEMA_VERSION_INVALID; HELPER_REQUEST_STORAGE_INVALID;
   HELPER_RESPONSE_UNBOUND; HELPER_RUNTIME_ENDPOINT_FIREWALL_REJECTED;
   HELPER_RUNTIME_FABRIC_FIREWALL_REJECTED; HELPER_RUNTIME_FABRIC_UNAVAILABLE;
   HELPER_RUNTIME_IMAGE_IDENTITY_INVALID; HELPER_RUNTIME_IMAGE_INSPECT_FAILED;
   HELPER_RUNTIME_IMAGE_LOAD_FAILED; HELPER_RUNTIME_IMAGE_RECEIPT_FAILED;
   HELPER_RUNTIME_PROCESS_EXITED; HELPER_RUNTIME_RUN_MISSING; HELPER_SANDBOX_RUN_FAILED;
   HELPER_STOP_UNCERTAIN; HELPER_SYSTEM_CLOCK_INVALID; HELPER_TEMPORARY_DIRECTORY_UNAVAILABLE;
   MEMORY_LIMIT_EXCEEDED; MOUNT_NAMESPACE_UNAVAILABLE; NONZERO_WITHOUT_OUTPUT;
   NO_NEW_PRIVILEGES_UNAVAILABLE; OCI_RUNTIME_UNAVAILABLE; PATCH_REJECTED; PERMISSION_DENIED;
   PROC_MOUNT_DENIED; PROC_UNAVAILABLE; RUNROOT_EXCEEDS_50_BYTES; SIGNED_HELPER_PROBE_REQUIRED;
   STORAGE_DRIVER_FAILURE; SUBORDINATE_ID_MAPPING_UNAVAILABLE; SUBPROCESS_UNAVAILABLE;
   SYSTEMD_SCOPE_FAILURE; TEMPORARY_DIRECTORY_UNAVAILABLE; TEMPORARY_STORAGE_EXHAUSTED;
   UNCLASSIFIED; UNCLASSIFIED_PODMAN_BUILD_FAILURE; USER_NAMESPACE_DENIED;
   USER_SERVICE_MANAGER_UNAVAILABLE].
Lemma RuntimePreflightFindingCode_decode e :
  find (fun m => String.eqb (RuntimePreflightFindingCode_value m) (RuntimePreflightFindingCode_value e)) RuntimePreflightFindingCode_members = Some e.
Proof. destruct e; reflexivity. Qed.
#[global] Instance RuntimePreflightFindingCode_enum : WireEnum RuntimePreflightFindingCode :=
  decoded_enum RuntimePreflightFindingCode_members RuntimePreflightFindingCode_value RuntimePreflightFindingCode_decode eq_refl.
End RuntimePreflightFindingCode.
Abbreviation RuntimePreflightFindingCode := RuntimePreflightFindingCode.RuntimePreflightFindingCode.

(** Recipe source bundle validation problems. *)
Module SourceBundleCode.
Inductive SourceBundleCode :=
    ARCHIVE_TOO_LARGE | DIGEST_INVALID | DIGEST_MISMATCH | DUPLICATE_PATH | EMPTY
  | ENTRY_FORBIDDEN | EXPANDED_TOO_LARGE | FILE_INVALID | FILE_TOO_LARGE | INVALID_ARCHIVE
  | MANIFEST_INVALID | METADATA_MISMATCH | NOT_FOUND | PATH_FORBIDDEN | PATH_TOO_LONG
  | READ_FAILED | SIZE_MISMATCH | STORAGE_COLLISION | STORAGE_CONFLICT | STORAGE_UNAVAILABLE
  | TOO_MANY_FILES | DIGEST_MISMATCH_.
Definition SourceBundleCode_value (e : SourceBundleCode) : string :=
  match e with
  | ARCHIVE_TOO_LARGE => "bundle.archive_too_large"
  | DIGEST_INVALID => "bundle.digest_invalid"
  | DIGEST_MISMATCH => "bundle.digest_mismatch"
  | DUPLICATE_PATH => "bundle.duplicate_path"
  | EMPTY => "bundle.empty"
  | ENTRY_FORBIDDEN => "bundle.entry_forbidden"
  | EXPANDED_TOO_LARGE => "bundle.expanded_too_large"
  | FILE_INVALID => "bundle.file_invalid"
  | FILE_TOO_LARGE => "bundle.file_too_large"
  | INVALID_ARCHIVE => "bundle.invalid_archive"
  | MANIFEST_INVALID => "bundle.manifest_invalid"
  | METADATA_MISMATCH => "bundle.metadata_mismatch"
  | NOT_FOUND => "bundle.not_found"
  | PATH_FORBIDDEN => "bundle.path_forbidden"
  | PATH_TOO_LONG => "bundle.path_too_long"
  | READ_FAILED => "bundle.read_failed"
  | SIZE_MISMATCH => "bundle.size_mismatch"
  | STORAGE_COLLISION => "bundle.storage_collision"
  | STORAGE_CONFLICT => "bundle.storage_conflict"
  | STORAGE_UNAVAILABLE => "bundle.storage_unavailable"
  | TOO_MANY_FILES => "bundle.too_many_files"
  | DIGEST_MISMATCH_ => "source.digest_mismatch"
  end.
Definition SourceBundleCode_members : list SourceBundleCode :=
  [ARCHIVE_TOO_LARGE; DIGEST_INVALID; DIGEST_MISMATCH; DUPLICATE_PATH; EMPTY; ENTRY_FORBIDDEN;
   EXPANDED_TOO_LARGE; FILE_INVALID; FILE_TOO_LARGE; INVALID_ARCHIVE; MANIFEST_INVALID;
   METADATA_MISMATCH; NOT_FOUND; PATH_FORBIDDEN; PATH_TOO_LONG; READ_FAILED; SIZE_MISMATCH;
   STORAGE_COLLISION; STORAGE_CONFLICT; STORAGE_UNAVAILABLE; TOO_MANY_FILES; DIGEST_MISMATCH_].
Lemma SourceBundleCode_decode e :
  find (fun m => String.eqb (SourceBundleCode_value m) (SourceBundleCode_value e)) SourceBundleCode_members = Some e.
Proof. destruct e; reflexivity. Qed.
#[global] Instance SourceBundleCode_enum : WireEnum SourceBundleCode :=
  decoded_enum SourceBundleCode_members SourceBundleCode_value SourceBundleCode_decode eq_refl.
End SourceBundleCode.
Abbreviation SourceBundleCode := SourceBundleCode.SourceBundleCode.

(** Findings of the build source policy (Dockerfile and Compose rules). *)
Module SourcePolicyCode.
Inductive SourcePolicyCode :=
    CAPABILITIES | DEVICES | HOST_BIND | HOST_NAMESPACE | INVALID | PRIVILEGED
  | SERVICE_INVALID | TOO_LARGE | UNCONFINED | VOLUMES_INVALID | ADD_FORBIDDEN
  | BASE_PLACEHOLDER | BASE_UNPINNED | BUILD_PRIVILEGE | COPY_BASE_PLACEHOLDER
  | COPY_BASE_UNPINNED | COPY_INVALID | COPY_PATH | FROM_MISSING | HEREDOC_FORBIDDEN
  | INVALID_UTF8 | MISSING | NETWORK_HOST | ONBUILD_FORBIDDEN | ROOT_USER | SECRET_MOUNT.
Definition SourcePolicyCode_value (e : SourcePolicyCode) : string :=
  match e with
  | CAPABILITIES => "compose.capabilities"
  | DEVICES => "compose.devices"
  | HOST_BIND => "compose.host_bind"
  | HOST_NAMESPACE => "compose.host_namespace"
  | INVALID => "compose.invalid"
  | PRIVILEGED => "compose.privileged"
  | SERVICE_INVALID => "compose.service_invalid"
  | TOO_LARGE => "compose.too_large"
  | UNCONFINED => "compose.unconfined"
  | VOLUMES_INVALID => "compose.volumes_invalid"
  | ADD_FORBIDDEN => "dockerfile.add_forbidden"
  | BASE_PLACEHOLDER => "dockerfile.base_placeholder"
  | BASE_UNPINNED => "dockerfile.base_unpinned"
  | BUILD_PRIVILEGE => "dockerfile.build_privilege"
  | COPY_BASE_PLACEHOLDER => "dockerfile.copy_base_placeholder"
  | COPY_BASE_UNPINNED => "dockerfile.copy_base_unpinned"
  | COPY_INVALID => "dockerfile.copy_invalid"
  | COPY_PATH => "dockerfile.copy_path"
  | FROM_MISSING => "dockerfile.from_missing"
  | HEREDOC_FORBIDDEN => "dockerfile.heredoc_forbidden"
  | INVALID_UTF8 => "dockerfile.invalid_utf8"
  | MISSING => "dockerfile.missing"
  | NETWORK_HOST => "dockerfile.network_host"
  | ONBUILD_FORBIDDEN => "dockerfile.onbuild_forbidden"
  | ROOT_USER => "dockerfile.root_user"
  | SECRET_MOUNT => "dockerfile.secret_mount"
  end.
Definition SourcePolicyCode_members : list SourcePolicyCode :=
  [CAPABILITIES; DEVICES; HOST_BIND; HOST_NAMESPACE; INVALID; PRIVILEGED; SERVICE_INVALID;
   TOO_LARGE; UNCONFINED; VOLUMES_INVALID; ADD_FORBIDDEN; BASE_PLACEHOLDER; BASE_UNPINNED;
   BUILD_PRIVILEGE; COPY_BASE_PLACEHOLDER; COPY_BASE_UNPINNED; COPY_INVALID; COPY_PATH;
   FROM_MISSING; HEREDOC_FORBIDDEN; INVALID_UTF8; MISSING; NETWORK_HOST; ONBUILD_FORBIDDEN;
   ROOT_USER; SECRET_MOUNT].
Lemma SourcePolicyCode_decode e :
  find (fun m => String.eqb (SourcePolicyCode_value m) (SourcePolicyCode_value e)) SourcePolicyCode_members = Some e.
Proof. destruct e; reflexivity. Qed.
#[global] Instance SourcePolicyCode_enum : WireEnum SourcePolicyCode :=
  decoded_enum SourcePolicyCode_members SourcePolicyCode_value SourcePolicyCode_decode eq_refl.
End SourcePolicyCode.
Abbreviation SourcePolicyCode := SourcePolicyCode.SourcePolicyCode.

(** Why a stop plan is stale or cannot be taken. *)
Module StopPlanCode.
Inductive StopPlanCode :=
    CAPACITY_RELEASE_DEFERRED | RANK_MEMBERSHIP_CHANGED | RESERVATION_MEMBERSHIP_CHANGED
  | RUN_NOT_STOPPABLE | TARGET_SCOPE_CHANGED.
Definition StopPlanCode_value (e : StopPlanCode) : string :=
  match e with
  | CAPACITY_RELEASE_DEFERRED => "stop.capacity_release_deferred"
  | RANK_MEMBERSHIP_CHANGED => "stop.rank_membership_changed"
  | RESERVATION_MEMBERSHIP_CHANGED => "stop.reservation_membership_changed"
  | RUN_NOT_STOPPABLE => "stop.run_not_stoppable"
  | TARGET_SCOPE_CHANGED => "stop.target_scope_changed"
  end.
Definition StopPlanCode_members : list StopPlanCode :=
  [CAPACITY_RELEASE_DEFERRED; RANK_MEMBERSHIP_CHANGED; RESERVATION_MEMBERSHIP_CHANGED;
   RUN_NOT_STOPPABLE; TARGET_SCOPE_CHANGED].
Lemma StopPlanCode_decode e :
  find (fun m => String.eqb (StopPlanCode_value m) (StopPlanCode_value e)) StopPlanCode_members = Some e.
Proof. destruct e; reflexivity. Qed.
#[global] Instance StopPlanCode_enum : WireEnum StopPlanCode :=
  decoded_enum StopPlanCode_members StopPlanCode_value StopPlanCode_decode eq_refl.
End StopPlanCode.
Abbreviation StopPlanCode := StopPlanCode.StopPlanCode.

(** Storage demand outcomes of an admission. *)
Module StorageDemandCode.
Inductive StorageDemandCode :=
    EVICTING | INSUFFICIENT_AFTER_EVICTION | EVICTION_TIMED_OUT.
Definition StorageDemandCode_value (e : StorageDemandCode) : string :=
  match e with
  | EVICTING => "storage.evicting"
  | INSUFFICIENT_AFTER_EVICTION => "storage.insufficient_after_eviction"
  | EVICTION_TIMED_OUT => "storage.eviction_timed_out"
  end.
Definition StorageDemandCode_members : list StorageDemandCode :=
  [EVICTING; INSUFFICIENT_AFTER_EVICTION; EVICTION_TIMED_OUT].
Lemma StorageDemandCode_decode e :
  find (fun m => String.eqb (StorageDemandCode_value m) (StorageDemandCode_value e)) StorageDemandCode_members = Some e.
Proof. destruct e; reflexivity. Qed.
#[global] Instance StorageDemandCode_enum : WireEnum StorageDemandCode :=
  decoded_enum StorageDemandCode_members StorageDemandCode_value StorageDemandCode_decode eq_refl.
End StorageDemandCode.
Abbreviation StorageDemandCode := StorageDemandCode.StorageDemandCode.

(** Why a fleet profile application was superseded by newer intent. *)
Module SupersedeCode.
Inductive SupersedeCode :=
    SUPERSEDED_BY_INTENT | SUPERSEDED_BY_RETRY | EFFECTS_CHANGED_DURING_ADMISSION.
Definition SupersedeCode_value (e : SupersedeCode) : string :=
  match e with
  | SUPERSEDED_BY_INTENT => "superseded-by-intent"
  | SUPERSEDED_BY_RETRY => "superseded-by-retry"
  | EFFECTS_CHANGED_DURING_ADMISSION => "effects-changed-during-admission"
  end.
Definition SupersedeCode_members : list SupersedeCode :=
  [SUPERSEDED_BY_INTENT; SUPERSEDED_BY_RETRY; EFFECTS_CHANGED_DURING_ADMISSION].
Lemma SupersedeCode_decode e :
  find (fun m => String.eqb (SupersedeCode_value m) (SupersedeCode_value e)) SupersedeCode_members = Some e.
Proof. destruct e; reflexivity. Qed.
#[global] Instance SupersedeCode_enum : WireEnum SupersedeCode :=
  decoded_enum SupersedeCode_members SupersedeCode_value SupersedeCode_decode eq_refl.
End SupersedeCode.
Abbreviation SupersedeCode := SupersedeCode.SupersedeCode.

(** Topology planning refusals. *)
Module TopologyCode.
Inductive TopologyCode :=
    FABRIC_INSUFFICIENT | INVALID | PLACEMENT_INVALID | ROLE_MISMATCH
  | RUNTIME_CAPABILITY_MISSING.
Definition TopologyCode_value (e : TopologyCode) : string :=
  match e with
  | FABRIC_INSUFFICIENT => "topology.fabric_insufficient"
  | INVALID => "topology.invalid"
  | PLACEMENT_INVALID => "topology.placement_invalid"
  | ROLE_MISMATCH => "topology.role_mismatch"
  | RUNTIME_CAPABILITY_MISSING => "topology.runtime_capability_missing"
  end.
Definition TopologyCode_members : list TopologyCode :=
  [FABRIC_INSUFFICIENT; INVALID; PLACEMENT_INVALID; ROLE_MISMATCH; RUNTIME_CAPABILITY_MISSING].
Lemma TopologyCode_decode e :
  find (fun m => String.eqb (TopologyCode_value m) (TopologyCode_value e)) TopologyCode_members = Some e.
Proof. destruct e; reflexivity. Qed.
#[global] Instance TopologyCode_enum : WireEnum TopologyCode :=
  decoded_enum TopologyCode_members TopologyCode_value TopologyCode_decode eq_refl.
End TopologyCode.
Abbreviation TopologyCode := TopologyCode.TopologyCode.

(** Why an uninstall plan is blocked or incomplete. *)
Module UninstallPlanCode.
Inductive UninstallPlanCode :=
    ABANDON_NEVER_INSTALLED | ACTIVE_RUN | ACTIVE_RUNS_TRUNCATED | BYTES_UNKNOWN
  | INSTALLATION_NOT_UNINSTALLABLE | OPERATION_ACTIVE | RANK_MEMBERSHIP_CHANGED.
Definition UninstallPlanCode_value (e : UninstallPlanCode) : string :=
  match e with
  | ABANDON_NEVER_INSTALLED => "uninstall.abandon-never-installed"
  | ACTIVE_RUN => "uninstall.active_run"
  | ACTIVE_RUNS_TRUNCATED => "uninstall.active_runs_truncated"
  | BYTES_UNKNOWN => "uninstall.bytes_unknown"
  | INSTALLATION_NOT_UNINSTALLABLE => "uninstall.installation_not_uninstallable"
  | OPERATION_ACTIVE => "uninstall.operation_active"
  | RANK_MEMBERSHIP_CHANGED => "uninstall.rank_membership_changed"
  end.
Definition UninstallPlanCode_members : list UninstallPlanCode :=
  [ABANDON_NEVER_INSTALLED; ACTIVE_RUN; ACTIVE_RUNS_TRUNCATED; BYTES_UNKNOWN;
   INSTALLATION_NOT_UNINSTALLABLE; OPERATION_ACTIVE; RANK_MEMBERSHIP_CHANGED].
Lemma UninstallPlanCode_decode e :
  find (fun m => String.eqb (UninstallPlanCode_value m) (UninstallPlanCode_value e)) UninstallPlanCode_members = Some e.
Proof. destruct e; reflexivity. Qed.
#[global] Instance UninstallPlanCode_enum : WireEnum UninstallPlanCode :=
  decoded_enum UninstallPlanCode_members UninstallPlanCode_value UninstallPlanCode_decode eq_refl.
End UninstallPlanCode.
Abbreviation UninstallPlanCode := UninstallPlanCode.UninstallPlanCode.

(** ** The unions *)
Definition words (E : Type) `{WireEnum E} : list string := value <$> members (E := E).

(** Every domain enum, in the order the wire schema lists them, by name. *)
Definition REASON_CODE_ENUMS : list (string * list string) :=
  [("AdmissionCode", words AdmissionCode); ("AgentEvidenceCode", words AgentEvidenceCode);
   ("ArtifactLifecycleCode", words ArtifactLifecycleCode);
   ("CacheReferenceReason", words CacheReferenceReason);
   ("CertificateCode", words CertificateCode); ("CatalogCode", words CatalogCode);
   ("CatalogSyncCode", words CatalogSyncCode);
   ("ClusterMappingCode", words ClusterMappingCode);
   ("ControllerErrorCode", words ControllerErrorCode);
   ("DistributionCode", words DistributionCode); ("HelperErrorCode", words HelperErrorCode);
   ("HelperOperationCode", words HelperOperationCode);
   ("ImageStoreCode", words ImageStoreCode);
   ("InstallAdmissionCode", words InstallAdmissionCode);
   ("InstallDegradedReason", words InstallDegradedReason);
   ("LibraryAssessmentCode", words LibraryAssessmentCode);
   ("LibraryProjectionCode", words LibraryProjectionCode);
   ("ModelCacheBlockerCode", words ModelCacheBlockerCode);
   ("ModelCacheCode", words ModelCacheCode); ("ModelAccessReason", words ModelAccessReason);
   ("ModelCacheFailureCode", words ModelCacheFailureCode);
   ("NodeOfflineReason", words NodeOfflineReason);
   ("OperationFailureCode", words OperationFailureCode);
   ("PrebuiltImageCode", words PrebuiltImageCode);
   ("ProfileReasonCode", words ProfileReasonCode); ("ProjectionCode", words ProjectionCode);
   ("RecipeBuildCode", words RecipeBuildCode); ("RecipeImageCode", words RecipeImageCode);
   ("RecipeOperationCode", words RecipeOperationCode);
   ("RecipePackageCode", words RecipePackageCode);
   ("RecipeUpdateCode", words RecipeUpdateCode); ("ReconcileCode", words ReconcileCode);
   ("ResourcePlanningCode", words ResourcePlanningCode); ("ResourceTerm", words ResourceTerm);
   ("ResourceTermProblem", words ResourceTermProblem);
   ("RunDegradedReason", words RunDegradedReason); ("RunSwitchCode", words RunSwitchCode);
   ("JournalRepairCode", words JournalRepairCode);
   ("RuntimeImageCode", words RuntimeImageCode);
   ("RuntimePreflightCode", words RuntimePreflightCode);
   ("RuntimePreflightFindingCode", words RuntimePreflightFindingCode);
   ("SourceBundleCode", words SourceBundleCode); ("SourcePolicyCode", words SourcePolicyCode);
   ("StopPlanCode", words StopPlanCode); ("StorageDemandCode", words StorageDemandCode);
   ("SupersedeCode", words SupersedeCode); ("TopologyCode", words TopologyCode);
   ("UninstallPlanCode", words UninstallPlanCode)].

(** The controlled causes of waits and blockers: the words of the union's enums. *)
Definition OPERATION_REASON_ENUMS : list (list string) :=
  [words WaitReason; words FailureCode; words SecurityRefusalReason;
   words InvalidRequestReason; words ResourceBlockerCode; words RunAdmissionCode;
   words TransientReason; words ModelAccessReason; words ModelCacheFailureCode;
   words AdmissionCode; words AgentEvidenceCode; words ArtifactLifecycleCode;
   words CacheReferenceReason; words CertificateCode; words CatalogCode; words CatalogSyncCode;
   words ClusterMappingCode; words ControllerErrorCode; words DistributionCode;
   words HelperErrorCode; words HelperOperationCode; words ImageStoreCode;
   words InstallAdmissionCode; words InstallDegradedReason; words LibraryAssessmentCode;
   words LibraryProjectionCode; words ModelCacheBlockerCode; words ModelCacheCode;
   words NodeOfflineReason; words OperationFailureCode; words PrebuiltImageCode;
   words ProfileReasonCode; words ProjectionCode; words RecipeBuildCode; words RecipeImageCode;
   words RecipeOperationCode; words RecipePackageCode; words RecipeUpdateCode;
   words ReconcileCode; words ResourcePlanningCode; words ResourceTerm;
   words ResourceTermProblem; words RunDegradedReason; words RunSwitchCode;
   words JournalRepairCode; words RuntimeImageCode; words RuntimePreflightCode;
   words RuntimePreflightFindingCode; words SourceBundleCode; words SourcePolicyCode;
   words StopPlanCode; words StorageDemandCode; words SupersedeCode; words TopologyCode;
   words UninstallPlanCode].
Definition is_operation_reason (w : string) : bool :=
  existsb (fun ws => mem w ws) OPERATION_REASON_ENUMS.
