(* ===== verification/ReasonReaders.v ===== *)
(** * Reading reason codes

    [agent_protocol/.../reason_codes/vocabulary.py]: which domain owns a word, how an
    older spelling is adopted, and how Run/Switch wraps the code of another domain. *)
From S2P Require Import Prelude Vocabulary ReasonCodes.

(** [s.removeprefix(p)] *)
Definition removeprefix (p s : string) : string :=
  if String.prefix p s then String.substring (String.length p) (String.length s - String.length p) s
  else s.

(** ** Adoption *)
Definition RETIRED_CODE_SPELLINGS : list (string * RunSwitchCode) :=
  [("run-switch.installation_preparation_unavailable",
    RunSwitchCode.INSTALLATION_PREPARATION_UNAVAILABLE);
   ("run-switch.stop_plan_unavailable", RunSwitchCode.STOP_PLAN_UNAVAILABLE)].

Definition adopt_reason_code (stored : string) : string :=
  match find (fun p => String.eqb (fst p) stored) RETIRED_CODE_SPELLINGS with
  | Some (_, m) => value m
  | None => stored
  end.

(** [_index().get(word)]: the first domain that lists the word, by name. *)
Definition reason_code_of (word : string) : option (string * string) :=
  let w := adopt_reason_code word in
  match find (fun d => mem w (snd d)) REASON_CODE_ENUMS with
  | Some (domain, _) => Some (domain, w)
  | None => None
  end.

(** ** Preflight findings *)
Definition _FINDING_PREFIX : string := "preflight_finding.".

Definition KEBAB_FINDINGS : list string :=
  ["build-step-failed"; "capabilities-not-zero"; "memory-limit-exceeded";
   "mount-namespace-unavailable"; "no-new-privileges-unavailable"; "nonzero-without-output";
   "oci-runtime-unavailable"; "patch-rejected"; "permission-denied"; "proc-mount-denied";
   "proc-unavailable"; "storage-driver-failure"; "subordinate-id-mapping-unavailable";
   "systemd-scope-failure"; "temporary-directory-unavailable"; "temporary-storage-exhausted";
   "unclassified-podman-build-failure"; "user-namespace-denied";
   "user-service-manager-unavailable"].

(** [word.replace("-", "_")] *)
Definition underscores : string -> string :=
  map_chars (fun c => if Nat.eqb (Ascii.nat_of_ascii c) 45 then Ascii.ascii_of_nat 95 else c).

(** The two dicts of retired spellings; the second one wins. *)
Definition RETIRED_FINDING_CODE_SPELLINGS (word : string) : option RuntimePreflightFindingCode :=
  if mem word KEBAB_FINDINGS then of_word (_FINDING_PREFIX +:+ underscores word)
  else find (fun m => String.eqb (removeprefix _FINDING_PREFIX (value m)) word) (rev members).

Definition adopt_preflight_finding_code (stored : string) : RuntimePreflightFindingCode :=
  match of_word stored with
  | Some m => m
  | None => default RuntimePreflightFindingCode.UNCLASSIFIED (RETIRED_FINDING_CODE_SPELLINGS stored)
  end.

(** ** Run/Switch codes *)

(** A dict built from the members in order: a later member of the same inner code wins. *)
Definition _RUN_SWITCH_WRAPPED (inner : string) : option RunSwitchCode :=
  find (fun m => String.eqb (removeprefix "run-switch." (value m)) inner) (rev members).

Definition run_switch_code (inner : string) : RunSwitchCode :=
  default RunSwitchCode.REASON_UNCLASSIFIED (_RUN_SWITCH_WRAPPED inner).

(** ** Facts *)

(** Decide a fact about every member of an enum by evaluation. *)
Lemma for_all_members {E} `{WireEnum E} (f : E -> bool) :
  forallb f members = true -> forall e : E, f e = true.
Proof.
  intros Hf e. rewrite forallb_forall in Hf. apply Hf, list_elem_of_In, members_complete.
Qed.

(** Every finding code is its prefix and a bare word. *)
Lemma finding_bare (m : RuntimePreflightFindingCode) w :
  removeprefix _FINDING_PREFIX (value m) = w <-> _FINDING_PREFIX +:+ w = value m.
Proof.
  assert (forall m : RuntimePreflightFindingCode,
    String.eqb (value m) (_FINDING_PREFIX +:+ removeprefix _FINDING_PREFIX (value m)) = true) as Hp.
  { apply for_all_members. vm_compute. reflexivity. }
  pose proof (proj1 (String.eqb_eq _ _) (Hp m)) as Hm. split; [by intros <-|].
  intros H. rewrite Hm in H. by apply (inj (String.app _FINDING_PREFIX)) in H.
Qed.

(** A word spells a finding code in its current, bare or kebab spelling. *)
Definition spells (w : string) (m : RuntimePreflightFindingCode) : Prop :=
  w = value m \/ _FINDING_PREFIX +:+ w = value m \/
  w ∈ KEBAB_FINDINGS /\ _FINDING_PREFIX +:+ underscores w = value m.

(** No current word is also a bare or kebab spelling, and no kebab one a bare one. *)
Lemma current_not_bare (m m' : RuntimePreflightFindingCode) :
  _FINDING_PREFIX +:+ value m <> value m'.
Proof.
  intros H%finding_bare. revert m H.
  assert (forall m' : RuntimePreflightFindingCode,
    match of_word (E := RuntimePreflightFindingCode) (removeprefix _FINDING_PREFIX (value m')) with
    | Some _ => false | None => true end = true) as Hn.
  { apply for_all_members. vm_compute. reflexivity. }
  intros m H. specialize (Hn m'). by rewrite H, of_word_value in Hn.
Qed.

Lemma kebab_fresh w :
  w ∈ KEBAB_FINDINGS ->
  of_word (E := RuntimePreflightFindingCode) w = None /\
  of_word (E := RuntimePreflightFindingCode) (_FINDING_PREFIX +:+ w) = None /\
  exists m : RuntimePreflightFindingCode, of_word (_FINDING_PREFIX +:+ underscores w) = Some m.
Proof.
  intros Hw.
  assert (forallb (fun w =>
    match of_word (E := RuntimePreflightFindingCode) w,
          of_word (E := RuntimePreflightFindingCode) (_FINDING_PREFIX +:+ w),
          of_word (E := RuntimePreflightFindingCode) (_FINDING_PREFIX +:+ underscores w) with
    | None, None, Some _ => true | _, _, _ => false end) KEBAB_FINDINGS = true) as Hk
    by (vm_compute; reflexivity).
  rewrite forallb_forall in Hk. apply list_elem_of_In in Hw. specialize (Hk w Hw).
  repeat case_match; try done. eauto.
Qed.

Lemma spells_functional w m m' : spells w m -> spells w m' -> m = m'.
Proof.
  assert (forall m m', w = value m -> spells w m' -> m = m') as Hcur.
  { intros a b -> [H|[H|[H _]]]; [by apply value_inj|by apply current_not_bare in H|].
    apply kebab_fresh in H as [H _]. by rewrite of_word_value in H. }
  assert (forall m m', _FINDING_PREFIX +:+ w = value m -> spells w m' -> m = m') as Hbare.
  { intros a b Ha [H|[H|[H _]]]; [subst; by apply current_not_bare in Ha|apply value_inj; congruence|].
    apply kebab_fresh in H as (_ & H & _). by rewrite Ha, of_word_value in H. }
  intros [H|[H|[Hk H]]] H'; [by apply Hcur|by apply Hbare|].
  destruct H' as [H'|[H'|[_ H']]].
  - symmetry. apply Hcur; [done|]. by right; right.
  - symmetry. apply Hbare; [done|]. by right; right.
  - apply value_inj. congruence.
Qed.

Lemma adopt_finding_spells w :
  spells w (adopt_preflight_finding_code w) \/
  (adopt_preflight_finding_code w = RuntimePreflightFindingCode.UNCLASSIFIED /\
   forall m, ~ spells w m).
Proof.
  unfold adopt_preflight_finding_code, RETIRED_FINDING_CODE_SPELLINGS.
  destruct (of_word w) as [m|] eqn:Hw; [left; left; by apply of_word_Some in Hw|].
  unfold mem. case_bool_decide as Hk.
  - destruct (kebab_fresh w Hk) as (_ & _ & m & Hm). rewrite Hm. left. right. right.
    split; [done|]. simpl. by apply of_word_Some in Hm.
  - destruct (find _ _) as [m|] eqn:Hf; simpl.
    + left. right. left. apply List.find_some in Hf as [_ Hf].
      by apply String.eqb_eq, finding_bare in Hf.
    + right. split; [done|]. intros m [->|[H|[H _]]]; [by rewrite of_word_value in Hw| |done].
      pose proof (List.find_none _ _ Hf m) as Hn.
      rewrite <- in_rev, <- list_elem_of_In in Hn. specialize (Hn (members_complete m)).
      cbv beta in Hn. apply finding_bare in H. by rewrite H, String.eqb_refl in Hn.
Qed.

(** A finding code an agent sends is always read: in its current, bare or kebab
    spelling as the one member it means, and any other word as unclassified. *)
Theorem adopt_finding_spec w m :
  adopt_preflight_finding_code w = m <->
  spells w m \/ (m = RuntimePreflightFindingCode.UNCLASSIFIED /\ forall m', ~ spells w m').
Proof.
  destruct (adopt_finding_spells w) as [H|[H Hno]]; split.
  - intros <-. by left.
  - intros [H'|[_ Hno]]; [by apply (spells_functional w)|by apply Hno in H].
  - intros <-. by right.
  - intros [H'|[-> _]]; [by apply Hno in H'|done].
Qed.

(** ** What Run/Switch shows of another domain's code *)
Definition INNER_CODES : list string :=
  (words ResourcePlanningCode ++ words ReconcileCode ++ words StopPlanCode
   ++ words UninstallPlanCode)%list.

(** The codes of a problem with one effective setting ([resource_term_code]). *)
Definition TERM_CODES : list string :=
  t ← words ResourceTerm; p ← words ResourceTermProblem; ["resource." +:+ t +:+ "_" +:+ p].

(** Run/Switch wraps another domain's code as its own exactly when the code is not one
    of the twelve codes of an effective setting; each of those is shown unclassified.
    Its own codes unwrap to themselves. *)
Theorem run_switch_code_wraps :
  (forall w, w ∈ INNER_CODES ->
     if decide (w ∈ TERM_CODES) then run_switch_code w = RunSwitchCode.REASON_UNCLASSIFIED
     else value (run_switch_code w) = "run-switch." +:+ w) /\
  (forall m : RunSwitchCode, run_switch_code (removeprefix "run-switch." (value m)) = m).
Proof.
  split.
  - assert (forallb (fun w => if decide (w ∈ TERM_CODES)
      then bool_decide (run_switch_code w = RunSwitchCode.REASON_UNCLASSIFIED)
      else String.eqb (value (run_switch_code w)) ("run-switch." +:+ w)) INNER_CODES = true) as H
      by (vm_compute; reflexivity).
    rewrite forallb_forall in H. intros w Hw%list_elem_of_In%H.
    case_decide; [by apply bool_decide_eq_true in Hw|by apply String.eqb_eq].
  - intros m. apply value_inj, String.eqb_eq. revert m.
    apply (for_all_members (fun m : RunSwitchCode =>
      String.eqb (value (run_switch_code (removeprefix "run-switch." (value m)))) (value m))).
    vm_compute. reflexivity.
Qed.

(** ** Adoption of stored codes *)
Lemma find_first {A} (f : A -> bool) l x :
  find f l = Some x <->
  exists pre post, l = (pre ++ x :: post)%list /\ f x = true /\ forall e, e ∈ pre -> f e = false.
Proof.
  induction l as [|y l IH]; simpl.
  - split; [done|]. by intros ([|] & ? & ? & _).
  - destruct (f y) eqn:Hy.
    + split.
      * intros [= ->]. exists [], l. split; [done|]. split; [done|]. by intros e ?%elem_of_nil.
      * intros ([|z pre] & post & [= -> ->] & Hx & Hpre); [done|].
        rewrite (Hpre z) in Hy by left. done.
    + rewrite IH. split.
      * intros (pre & post & -> & Hx & Hpre). exists (y :: pre), post. split; [done|]. split; [done|].
        intros e [->|He]%elem_of_cons; auto.
      * intros ([|z pre] & post & [= -> ->] & Hx & Hpre); [congruence|].
        exists pre, post. split; [done|]. split; [done|]. intros e He. apply Hpre. by right.
Qed.

(** Adopting a stored code lands on its current spelling at once, and the owner of a
    word is the first domain that lists its current spelling. *)
Theorem reason_code_of_spec word d w :
  adopt_reason_code (adopt_reason_code word) = adopt_reason_code word /\
  (reason_code_of word = Some (d, w) <->
   w = adopt_reason_code word /\
   exists pre ws post, REASON_CODE_ENUMS = (pre ++ (d, ws) :: post)%list /\ w ∈ ws /\
     forall e, e ∈ pre -> w ∉ snd e).
Proof.
  split.
  { unfold adopt_reason_code.
    destruct (find (fun p => String.eqb (fst p) word) RETIRED_CODE_SPELLINGS) as [[k m]|] eqn:Hf.
    - apply List.find_some in Hf as [Hin _]. simpl in Hin.
      destruct Hin as [E|[E|[]]]; injection E as <- <-; reflexivity.
    - by rewrite Hf. }
  unfold reason_code_of. set (a := adopt_reason_code word). split.
  - destruct (find _ _) as [[d' ws]|] eqn:Hf; [|done]. intros [= -> <-].
    apply find_first in Hf as (pre & post & E & Hx & Hpre). split; [done|]. exists pre, ws, post.
    split; [done|]. split; [by apply mem_true in Hx|].
    intros e He. exact (proj1 (bool_decide_eq_false _) (Hpre e He)).
  - intros (-> & pre & ws & post & E & Hin & Hpre).
    assert (find (fun p => mem a (snd p)) REASON_CODE_ENUMS = Some (d, ws)) as ->; [|done].
    apply find_first. exists pre, post. split; [done|]. split; [by apply mem_true|].
    intros e He. by apply bool_decide_eq_false, Hpre.
Qed.
