(* ===== verification/StateMachines.v ===== *)
(** * The closed state vocabularies of stored records

    [agent_protocol/src/vonk_agent_protocol/state_machines.py] and its
    Controller reader [control/src/vonk_control/machine_states.py]: the eighteen
    machines of [MACHINES], the normalizing reader [adopt_machine_state], the
    pydantic adopter, and the words and CHECK expression of a column.

    A [Machine] is a [WireEnum] whose words stay distinct after normalization
    (case, surrounding space, [_] for [-]): the law the reader relies on to
    resolve an old spelling to at most one member.  Strings are ASCII text. *)
From S2P Require Import Prelude.

(** The condition of a recipe installation across its Sparks. *)
Module InstallationState.
Inductive InstallationState :=
  PLANNED | INSTALLING | INSTALLED | PARTIAL | FAILED | UNINSTALLED.
Definition InstallationState_value (e : InstallationState) : string :=
  match e with
  | PLANNED => "planned"
  | INSTALLING => "installing"
  | INSTALLED => "installed"
  | PARTIAL => "partial"
  | FAILED => "failed"
  | UNINSTALLED => "uninstalled"
  end.
#[global] Instance InstallationState_eq : EqDecision InstallationState.
Proof. solve_decision. Defined.
#[global] Instance InstallationState_enum : WireEnum InstallationState.
Proof.
  refine {| members :=
    [PLANNED; INSTALLING; INSTALLED; PARTIAL; FAILED; UNINSTALLED];
    value := InstallationState_value |}; solve_wire_enum.
Defined.
End InstallationState.
Abbreviation InstallationState := InstallationState.InstallationState.

(** The condition of one rank of an installation on its Spark. *)
Module InstallationNodeState.
Inductive InstallationNodeState :=
  PLANNED | INSTALLED | FAILED | UNINSTALLED.
Definition InstallationNodeState_value (e : InstallationNodeState) : string :=
  match e with
  | PLANNED => "planned"
  | INSTALLED => "installed"
  | FAILED => "failed"
  | UNINSTALLED => "uninstalled"
  end.
#[global] Instance InstallationNodeState_eq : EqDecision InstallationNodeState.
Proof. solve_decision. Defined.
#[global] Instance InstallationNodeState_enum : WireEnum InstallationNodeState.
Proof.
  refine {| members :=
    [PLANNED; INSTALLED; FAILED; UNINSTALLED];
    value := InstallationNodeState_value |}; solve_wire_enum.
Defined.
End InstallationNodeState.
Abbreviation InstallationNodeState := InstallationNodeState.InstallationNodeState.

(** Whether a node may still fetch the artifacts of a distribution assignment. *)
Module DistributionAssignmentState.
Inductive DistributionAssignmentState :=
  ACTIVE | REVOKED | EXPIRED.
Definition DistributionAssignmentState_value (e : DistributionAssignmentState) : string :=
  match e with
  | ACTIVE => "active"
  | REVOKED => "revoked"
  | EXPIRED => "expired"
  end.
#[global] Instance DistributionAssignmentState_eq : EqDecision DistributionAssignmentState.
Proof. solve_decision. Defined.
#[global] Instance DistributionAssignmentState_enum : WireEnum DistributionAssignmentState.
Proof.
  refine {| members :=
    [ACTIVE; REVOKED; EXPIRED];
    value := DistributionAssignmentState_value |}; solve_wire_enum.
Defined.
End DistributionAssignmentState.
Abbreviation DistributionAssignmentState := DistributionAssignmentState.DistributionAssignmentState.

(** The condition of a recipe run (and of each of its ranks). *)
Module RunState.
Inductive RunState :=
  PLANNED | STARTING | RUNNING | STOPPING | STOPPED | FAILED | LOST.
Definition RunState_value (e : RunState) : string :=
  match e with
  | PLANNED => "planned"
  | STARTING => "starting"
  | RUNNING => "running"
  | STOPPING => "stopping"
  | STOPPED => "stopped"
  | FAILED => "failed"
  | LOST => "lost"
  end.
#[global] Instance RunState_eq : EqDecision RunState.
Proof. solve_decision. Defined.
#[global] Instance RunState_enum : WireEnum RunState.
Proof.
  refine {| members :=
    [PLANNED; STARTING; RUNNING; STOPPING; STOPPED; FAILED; LOST];
    value := RunState_value |}; solve_wire_enum.
Defined.
End RunState.
Abbreviation RunState := RunState.RunState.

(** Whether a run's inference route is published to the gateway. *)
Module RouteState.
Inductive RouteState :=
  WITHDRAWN | PENDING | PUBLISHED | FAILED.
Definition RouteState_value (e : RouteState) : string :=
  match e with
  | WITHDRAWN => "withdrawn"
  | PENDING => "pending"
  | PUBLISHED => "published"
  | FAILED => "failed"
  end.
#[global] Instance RouteState_eq : EqDecision RouteState.
Proof. solve_decision. Defined.
#[global] Instance RouteState_enum : WireEnum RouteState.
Proof.
  refine {| members :=
    [WITHDRAWN; PENDING; PUBLISHED; FAILED];
    value := RouteState_value |}; solve_wire_enum.
Defined.
End RouteState.
Abbreviation RouteState := RouteState.RouteState.

(** The phases of one atomic route publication. *)
Module RoutePublicationState.
Inductive RoutePublicationState :=
  WITHDRAWAL_PENDING | ROUTES_WITHDRAWN | PUBLICATION_PENDING | COMPLETED | FAILED.
Definition RoutePublicationState_value (e : RoutePublicationState) : string :=
  match e with
  | WITHDRAWAL_PENDING => "withdrawal-pending"
  | ROUTES_WITHDRAWN => "routes-withdrawn"
  | PUBLICATION_PENDING => "publication-pending"
  | COMPLETED => "completed"
  | FAILED => "failed"
  end.
#[global] Instance RoutePublicationState_eq : EqDecision RoutePublicationState.
Proof. solve_decision. Defined.
#[global] Instance RoutePublicationState_enum : WireEnum RoutePublicationState.
Proof.
  refine {| members :=
    [WITHDRAWAL_PENDING; ROUTES_WITHDRAWN; PUBLICATION_PENDING; COMPLETED; FAILED];
    value := RoutePublicationState_value |}; solve_wire_enum.
Defined.
End RoutePublicationState.
Abbreviation RoutePublicationState := RoutePublicationState.RoutePublicationState.

(** The standing of a node's client certificate, as the fleet projection shows it. *)
Module CertificateState.
Inductive CertificateState :=
  VALID | MISSING | NOT_YET_VALID | EXPIRED | REVOKED | INACTIVE.
Definition CertificateState_value (e : CertificateState) : string :=
  match e with
  | VALID => "valid"
  | MISSING => "missing"
  | NOT_YET_VALID => "not-yet-valid"
  | EXPIRED => "expired"
  | REVOKED => "revoked"
  | INACTIVE => "inactive"
  end.
#[global] Instance CertificateState_eq : EqDecision CertificateState.
Proof. solve_decision. Defined.
#[global] Instance CertificateState_enum : WireEnum CertificateState.
Proof.
  refine {| members :=
    [VALID; MISSING; NOT_YET_VALID; EXPIRED; REVOKED; INACTIVE];
    value := CertificateState_value |}; solve_wire_enum.
Defined.
End CertificateState.
Abbreviation CertificateState := CertificateState.CertificateState.

(** The standing of an enrollment grant. *)
Module EnrollmentGrantState.
Inductive EnrollmentGrantState :=
  PENDING | EXPIRED | CONSUMED | REVOKED.
Definition EnrollmentGrantState_value (e : EnrollmentGrantState) : string :=
  match e with
  | PENDING => "pending"
  | EXPIRED => "expired"
  | CONSUMED => "consumed"
  | REVOKED => "revoked"
  end.
#[global] Instance EnrollmentGrantState_eq : EqDecision EnrollmentGrantState.
Proof. solve_decision. Defined.
#[global] Instance EnrollmentGrantState_enum : WireEnum EnrollmentGrantState.
Proof.
  refine {| members :=
    [PENDING; EXPIRED; CONSUMED; REVOKED];
    value := EnrollmentGrantState_value |}; solve_wire_enum.
Defined.
End EnrollmentGrantState.
Abbreviation EnrollmentGrantState := EnrollmentGrantState.EnrollmentGrantState.

(** The condition of one model file a node holds. *)
Module ModelFileState.
Inductive ModelFileState :=
  PARTIAL | VERIFIED | MISSING | CORRUPT.
Definition ModelFileState_value (e : ModelFileState) : string :=
  match e with
  | PARTIAL => "partial"
  | VERIFIED => "verified"
  | MISSING => "missing"
  | CORRUPT => "corrupt"
  end.
#[global] Instance ModelFileState_eq : EqDecision ModelFileState.
Proof. solve_decision. Defined.
#[global] Instance ModelFileState_enum : WireEnum ModelFileState.
Proof.
  refine {| members :=
    [PARTIAL; VERIFIED; MISSING; CORRUPT];
    value := ModelFileState_value |}; solve_wire_enum.
Defined.
End ModelFileState.
Abbreviation ModelFileState := ModelFileState.ModelFileState.

(** The outcome of a catalog synchronization, as the catalog shows it. *)
Module CatalogSyncState.
Inductive CatalogSyncState :=
  SYNCING | CURRENT | PARTIAL | FAILED.
Definition CatalogSyncState_value (e : CatalogSyncState) : string :=
  match e with
  | SYNCING => "syncing"
  | CURRENT => "current"
  | PARTIAL => "partial"
  | FAILED => "failed"
  end.
#[global] Instance CatalogSyncState_eq : EqDecision CatalogSyncState.
Proof. solve_decision. Defined.
#[global] Instance CatalogSyncState_enum : WireEnum CatalogSyncState.
Proof.
  refine {| members :=
    [SYNCING; CURRENT; PARTIAL; FAILED];
    value := CatalogSyncState_value |}; solve_wire_enum.
Defined.
End CatalogSyncState.
Abbreviation CatalogSyncState := CatalogSyncState.CatalogSyncState.

(** The standing of a resource reservation. *)
Module ReservationState.
Inductive ReservationState :=
  ACTIVE | PROMISED | RELEASED | EXPIRED.
Definition ReservationState_value (e : ReservationState) : string :=
  match e with
  | ACTIVE => "active"
  | PROMISED => "promised"
  | RELEASED => "released"
  | EXPIRED => "expired"
  end.
#[global] Instance ReservationState_eq : EqDecision ReservationState.
Proof. solve_decision. Defined.
#[global] Instance ReservationState_enum : WireEnum ReservationState.
Proof.
  refine {| members :=
    [ACTIVE; PROMISED; RELEASED; EXPIRED];
    value := ReservationState_value |}; solve_wire_enum.
Defined.
End ReservationState.
Abbreviation ReservationState := ReservationState.ReservationState.

(** What the inference gateway currently serves: published routes, or maintenance. *)
Module GatewayRouteState.
Inductive GatewayRouteState :=
  PUBLISHED | MAINTENANCE | UNAVAILABLE.
Definition GatewayRouteState_value (e : GatewayRouteState) : string :=
  match e with
  | PUBLISHED => "published"
  | MAINTENANCE => "maintenance"
  | UNAVAILABLE => "unavailable"
  end.
#[global] Instance GatewayRouteState_eq : EqDecision GatewayRouteState.
Proof. solve_decision. Defined.
#[global] Instance GatewayRouteState_enum : WireEnum GatewayRouteState.
Proof.
  refine {| members :=
    [PUBLISHED; MAINTENANCE; UNAVAILABLE];
    value := GatewayRouteState_value |}; solve_wire_enum.
Defined.
End GatewayRouteState.
Abbreviation GatewayRouteState := GatewayRouteState.GatewayRouteState.

(** What a fleet-profile assignment is asked to become on its Sparks. *)
Module DesiredAssignmentState.
Inductive DesiredAssignmentState :=
  INSTALLED | RUNNING.
Definition DesiredAssignmentState_value (e : DesiredAssignmentState) : string :=
  match e with
  | INSTALLED => "installed"
  | RUNNING => "running"
  end.
#[global] Instance DesiredAssignmentState_eq : EqDecision DesiredAssignmentState.
Proof. solve_decision. Defined.
#[global] Instance DesiredAssignmentState_enum : WireEnum DesiredAssignmentState.
Proof.
  refine {| members :=
    [INSTALLED; RUNNING];
    value := DesiredAssignmentState_value |}; solve_wire_enum.
Defined.
End DesiredAssignmentState.
Abbreviation DesiredAssignmentState := DesiredAssignmentState.DesiredAssignmentState.

(** Whether the endpoint of a fleet-profile assignment can be reached. *)
Module EndpointState.
Inductive EndpointState :=
  INSTALLED_ONLY | NOT_PUBLISHED_YET | PUBLISHED | EXPIRED | WITHDRAWN | UNAVAILABLE.
Definition EndpointState_value (e : EndpointState) : string :=
  match e with
  | INSTALLED_ONLY => "installed-only"
  | NOT_PUBLISHED_YET => "not-published-yet"
  | PUBLISHED => "published"
  | EXPIRED => "expired"
  | WITHDRAWN => "withdrawn"
  | UNAVAILABLE => "unavailable"
  end.
#[global] Instance EndpointState_eq : EqDecision EndpointState.
Proof. solve_decision. Defined.
#[global] Instance EndpointState_enum : WireEnum EndpointState.
Proof.
  refine {| members :=
    [INSTALLED_ONLY; NOT_PUBLISHED_YET; PUBLISHED; EXPIRED; WITHDRAWN; UNAVAILABLE];
    value := EndpointState_value |}; solve_wire_enum.
Defined.
End EndpointState.
Abbreviation EndpointState := EndpointState.EndpointState.

(** Where a fleet-profile assignment stands on the Sparks, as observed. *)
Module ObservedAssignmentState.
Inductive ObservedAssignmentState :=
  NOT_PLACED | PLACED | INSTALLING | INSTALLED | RUNNING | DEGRADED.
Definition ObservedAssignmentState_value (e : ObservedAssignmentState) : string :=
  match e with
  | NOT_PLACED => "not-placed"
  | PLACED => "placed"
  | INSTALLING => "installing"
  | INSTALLED => "installed"
  | RUNNING => "running"
  | DEGRADED => "degraded"
  end.
#[global] Instance ObservedAssignmentState_eq : EqDecision ObservedAssignmentState.
Proof. solve_decision. Defined.
#[global] Instance ObservedAssignmentState_enum : WireEnum ObservedAssignmentState.
Proof.
  refine {| members :=
    [NOT_PLACED; PLACED; INSTALLING; INSTALLED; RUNNING; DEGRADED];
    value := ObservedAssignmentState_value |}; solve_wire_enum.
Defined.
End ObservedAssignmentState.
Abbreviation ObservedAssignmentState := ObservedAssignmentState.ObservedAssignmentState.

(** What is known about a model asset on a Spark's disk. *)
Module AssetAvailability.
Inductive AssetAvailability :=
  VERIFIED | PARTIAL | MISSING | UNKNOWN.
Definition AssetAvailability_value (e : AssetAvailability) : string :=
  match e with
  | VERIFIED => "verified"
  | PARTIAL => "partial"
  | MISSING => "missing"
  | UNKNOWN => "unknown"
  end.
#[global] Instance AssetAvailability_eq : EqDecision AssetAvailability.
Proof. solve_decision. Defined.
#[global] Instance AssetAvailability_enum : WireEnum AssetAvailability.
Proof.
  refine {| members :=
    [VERIFIED; PARTIAL; MISSING; UNKNOWN];
    value := AssetAvailability_value |}; solve_wire_enum.
Defined.
End AssetAvailability.
Abbreviation AssetAvailability := AssetAvailability.AssetAvailability.

(** How much of a placement's installation is already on its Sparks. *)
Module PlacementInstallState.
Inductive PlacementInstallState :=
  COMPLETE | PARTIAL | NOT_PRESENT | UNKNOWN.
Definition PlacementInstallState_value (e : PlacementInstallState) : string :=
  match e with
  | COMPLETE => "complete"
  | PARTIAL => "partial"
  | NOT_PRESENT => "not_present"
  | UNKNOWN => "unknown"
  end.
#[global] Instance PlacementInstallState_eq : EqDecision PlacementInstallState.
Proof. solve_decision. Defined.
#[global] Instance PlacementInstallState_enum : WireEnum PlacementInstallState.
Proof.
  refine {| members :=
    [COMPLETE; PARTIAL; NOT_PRESENT; UNKNOWN];
    value := PlacementInstallState_value |}; solve_wire_enum.
Defined.
End PlacementInstallState.
Abbreviation PlacementInstallState := PlacementInstallState.PlacementInstallState.

(** Whether a placement's recipe is loaded on its Sparks. *)
Module PlacementLoadState.
Inductive PlacementLoadState :=
  LOADED | NOT_LOADED | UNKNOWN.
Definition PlacementLoadState_value (e : PlacementLoadState) : string :=
  match e with
  | LOADED => "loaded"
  | NOT_LOADED => "not_loaded"
  | UNKNOWN => "unknown"
  end.
#[global] Instance PlacementLoadState_eq : EqDecision PlacementLoadState.
Proof. solve_decision. Defined.
#[global] Instance PlacementLoadState_enum : WireEnum PlacementLoadState.
Proof.
  refine {| members :=
    [LOADED; NOT_LOADED; UNKNOWN];
    value := PlacementLoadState_value |}; solve_wire_enum.
Defined.
End PlacementLoadState.
Abbreviation PlacementLoadState := PlacementLoadState.PlacementLoadState.

(** ** Normalized spellings *)
Definition dash_char (c : Ascii.ascii) : Ascii.ascii :=
  if Ascii.eqb c (Ascii.ascii_of_nat 95) then Ascii.ascii_of_nat 45 else c.

(** [word.strip().lower().replace("_", "-")] *)
Definition normalized (word : string) : string := map_chars dash_char (lower (strip word)).

(** The law of a machine: normalization keeps its words apart. *)
Class Machine (E : Type) := {
  machine_enum :: WireEnum E;
  normalized_nodup : NoDup (normalized ∘ value <$> members (E:=E));
}.

(** [MACHINE_ALIASES.get(machine, {})]: no machine has renamed a word. *)
Definition MACHINE_ALIASES (E : Type) : list (string * E) := [].

Definition alias_get {E} (aliases : list (string * E)) (w : string) : option E :=
  snd <$> find (fun kv => String.eqb (fst kv) w) aliases.

(** What a reader is handed: a member, another string, or anything else. *)
Inductive stored (E : Type) :=
| Member (e : E)
| Word (w : string)
| NotAWord.
Arguments Member {E} e.
Arguments Word {E} w.
Arguments NotAWord {E}.

Definition adopt_machine_state {E} `{Machine E} (s : stored E) : option E :=
  match s with
  | Member e => Some e
  | NotAWord => None
  | Word w =>
      let spelled := normalized w in
      match find (fun m => String.eqb (normalized (value m)) spelled) members with
      | Some m => Some m
      | None =>
          let aliases := MACHINE_ALIASES E in
          or_else (alias_get aliases w) (alias_get aliases spelled)
      end
  end.

(** The [BeforeValidator]: the adopted member, or the value unchanged. *)
Definition machine_adopter {E} `{Machine E} (s : stored E) : stored E :=
  match adopt_machine_state s with Some e => Member e | None => s end.

Definition machine_words {E} `{Machine E} (wanted : option (list E)) : list string :=
  let ms := match wanted with None => members | Some l => l end in
  (value <$> filter (fun m => m ∈ ms) members)
  ++ (fst <$> filter (fun kv => snd kv ∈ ms) (MACHINE_ALIASES E)).

Definition quote : string := String (Ascii.ascii_of_nat 39) EmptyString.

Definition machine_check {E} `{Machine E} (column : string) (wanted : option (list E)) : string :=
  column +:+ " IN (" +:+
  String.concat "," ((fun w => quote +:+ w +:+ quote) <$> machine_words wanted) +:+ ")".

(** [machine_states.read_state]: a foreign word is refused. *)
Definition read_state {E} `{Machine E} (w : string) : result E :=
  match adopt_machine_state (Word w) with
  | Some e => Ok e
  | None => Raise (ValueError w)
  end.

(** An installation that holds (or is about to hold) files on a Spark. *)
Definition INSTALLATION_ACTIVE : list InstallationState :=
  [InstallationState.PLANNED; InstallationState.INSTALLING; InstallationState.INSTALLED;
   InstallationState.PARTIAL].

(** A run that owns capacity: it has not stopped, failed or been lost. *)
Definition RUN_LIVE : list RunState :=
  [RunState.PLANNED; RunState.STARTING; RunState.RUNNING; RunState.STOPPING].

(** Distribution assignments whose objects are still protected from collection. *)
Definition DISTRIBUTION_HELD : list DistributionAssignmentState :=
  [DistributionAssignmentState.ACTIVE; DistributionAssignmentState.EXPIRED].

(** ** Every machine of [MACHINES] keeps its words apart *)
Ltac solve_machine :=
  refine {| machine_enum := _ |}; apply (bool_decide_unpack _); vm_compute; exact I.
#[global] Instance InstallationState_machine : Machine InstallationState.
Proof. solve_machine. Defined.
#[global] Instance InstallationNodeState_machine : Machine InstallationNodeState.
Proof. solve_machine. Defined.
#[global] Instance DistributionAssignmentState_machine : Machine DistributionAssignmentState.
Proof. solve_machine. Defined.
#[global] Instance RunState_machine : Machine RunState.
Proof. solve_machine. Defined.
#[global] Instance RouteState_machine : Machine RouteState.
Proof. solve_machine. Defined.
#[global] Instance RoutePublicationState_machine : Machine RoutePublicationState.
Proof. solve_machine. Defined.
#[global] Instance CertificateState_machine : Machine CertificateState.
Proof. solve_machine. Defined.
#[global] Instance EnrollmentGrantState_machine : Machine EnrollmentGrantState.
Proof. solve_machine. Defined.
#[global] Instance ModelFileState_machine : Machine ModelFileState.
Proof. solve_machine. Defined.
#[global] Instance CatalogSyncState_machine : Machine CatalogSyncState.
Proof. solve_machine. Defined.
#[global] Instance ReservationState_machine : Machine ReservationState.
Proof. solve_machine. Defined.
#[global] Instance GatewayRouteState_machine : Machine GatewayRouteState.
Proof. solve_machine. Defined.
#[global] Instance DesiredAssignmentState_machine : Machine DesiredAssignmentState.
Proof. solve_machine. Defined.
#[global] Instance EndpointState_machine : Machine EndpointState.
Proof. solve_machine. Defined.
#[global] Instance ObservedAssignmentState_machine : Machine ObservedAssignmentState.
Proof. solve_machine. Defined.
#[global] Instance AssetAvailability_machine : Machine AssetAvailability.
Proof. solve_machine. Defined.
#[global] Instance PlacementInstallState_machine : Machine PlacementInstallState.
Proof. solve_machine. Defined.
#[global] Instance PlacementLoadState_machine : Machine PlacementLoadState.
Proof. solve_machine. Defined.

(** ** Theorems *)
Section machine.
Context {E : Type} `{Machine E}.

Lemma normalized_inj (a b : E) : normalized (value a) = normalized (value b) -> a = b.
Proof.
  intros Hv.
  destruct (proj1 (list_elem_of_lookup members a) (members_complete a)) as [i Hi].
  destruct (proj1 (list_elem_of_lookup members b) (members_complete b)) as [j Hj].
  assert (i = j) as ->.
  { eapply (NoDup_lookup (normalized ∘ value <$> members (E:=E))); [apply normalized_nodup|..].
    - rewrite list_lookup_fmap, Hi. done.
    - rewrite list_lookup_fmap, Hj. simpl. by rewrite Hv. }
  congruence.
Qed.

(** A stored word is adopted as a member exactly when both normalize to the same
    spelling: an old case, surrounding space or an underscore still reads as the
    one member it means, and nothing else is adopted. *)
Theorem adopt_machine_state_spec (w : string) (e : E) :
  adopt_machine_state (Word w) = Some e <-> normalized w = normalized (value e).
Proof.
  simpl. destruct (find _ members) as [m|] eqn:Ef.
  - apply find_Some_elem in Ef as [_ Hm%String.eqb_eq]. split.
    + by intros [= <-].
    + intros Hw. f_equal. apply normalized_inj. congruence.
  - split; [done|]. intros Hw. exfalso.
    pose proof (List.find_none _ _ Ef e (proj1 (list_elem_of_In _ _) (members_complete e))) as Hn.
    simpl in Hn. by rewrite Hw, String.eqb_refl in Hn.
Qed.

(** The CHECK constraint of a machine's column and its reader agree: every word a
    constraint admits is read as a wanted member, and it admits each of them. *)
Theorem machine_words_read (wanted : list E) w :
  w ∈ machine_words (Some wanted) <-> exists e, e ∈ wanted /\ w = value e.
Proof.
  unfold machine_words. simpl. rewrite app_nil_r. rewrite list_elem_of_fmap. split.
  - intros (e & -> & [He _]%list_elem_of_filter). eauto.
  - intros (e & He & ->). exists e. split; [done|].
    apply list_elem_of_filter. split; [done|apply members_complete].
Qed.

(** [read_state] returns on the word of every member, and raises exactly on the
    words no member's spelling explains. *)
Theorem read_state_value (e : E) : read_state (value e) = Ok e.
Proof.
  unfold read_state. by rewrite (proj2 (adopt_machine_state_spec _ _) eq_refl).
Qed.

Lemma machine_adopter_value (e : E) : machine_adopter (Word (value e)) = Member e.
Proof.
  unfold machine_adopter. by rewrite (proj2 (adopt_machine_state_spec _ _) eq_refl).
Qed.
End machine.

(** Old spellings that the reader adopts. *)
Example adopt_old_spelling :
  adopt_machine_state (E:=PlacementInstallState) (Word " Not-Present ") =
    Some PlacementInstallState.NOT_PRESENT /\
  adopt_machine_state (E:=CertificateState) (Word "NOT_YET_VALID") =
    Some CertificateState.NOT_YET_VALID /\
  adopt_machine_state (E:=RunState) (Word "pausing") = None.
Proof. repeat split. Qed.
