(* ===== verification/Sha256.v ===== *)
(** * SHA-256 as [hashlib.sha256] computes it

    The retry jitter ([recovery_policy.py]) and the stall signature
    ([progress_stall.py]) take the digest of a short text.  This file defines
    the digest on byte lists with 32-bit words as [Z] and the wrap-around
    written out, so that both definitions evaluate.  The test vectors are those
    of FIPS 180-4. *)
From S2P Require Import Prelude.

Module Sha256.
Definition mask32 : Z := 4294967295.
Definition w32 (x : Z) : Z := Z.land x mask32.
Definition add32 (x y : Z) : Z := w32 (x + y).
Definition rotr (n x : Z) : Z := w32 (Z.lor (Z.shiftr x n) (Z.shiftl x (32 - n))).
Definition not32 (x : Z) : Z := Z.lxor x mask32.

Definition ch (x y z : Z) : Z := Z.lxor (Z.land x y) (Z.land (not32 x) z).
Definition maj (x y z : Z) : Z := Z.lxor (Z.lxor (Z.land x y) (Z.land x z)) (Z.land y z).
Definition big0 (x : Z) : Z := Z.lxor (Z.lxor (rotr 2 x) (rotr 13 x)) (rotr 22 x).
Definition big1 (x : Z) : Z := Z.lxor (Z.lxor (rotr 6 x) (rotr 11 x)) (rotr 25 x).
Definition small0 (x : Z) : Z := Z.lxor (Z.lxor (rotr 7 x) (rotr 18 x)) (Z.shiftr x 3).
Definition small1 (x : Z) : Z := Z.lxor (Z.lxor (rotr 17 x) (rotr 19 x)) (Z.shiftr x 10).

(** The largest [m] below [hi] with [m ^ 3 <= n], by bisection. *)
Fixpoint cube_root (fuel : nat) (lo hi n : Z) : Z :=
  match fuel with
  | O => lo
  | S fuel' =>
      let m := (lo + hi) / 2 in
      if m ^ 3 <=? n then cube_root fuel' m hi n else cube_root fuel' lo m n
  end.

Definition is_prime (p : Z) : bool :=
  (2 <=? p) && forallb (fun d => negb (p mod d =? 0)) (Z.of_nat <$> seq 2 (Z.to_nat p - 2)).

(** The first sixty-four primes. *)
Definition primes : list Z := Eval vm_compute in List.filter is_prime (Z.of_nat <$> seq 2 310).

(** The constants of the rounds: the first 32 bits of the fractional parts of the
    cube roots of the primes (roots below [2 ^ 36], so 36 bisections are exact). *)
Definition round_constants : list Z := Eval vm_compute in
  (fun p => w32 (cube_root 36 0 (2 ^ 36) (p * 2 ^ 96))) <$> primes.

Record regs := Regs { ra : Z; rb : Z; rc : Z; rd : Z; re : Z; rf : Z; rg : Z; rh : Z }.

(** The initial hash value: the same bits of the square roots of the first eight. *)
Definition initial : regs := Eval vm_compute in
  let root i := w32 (Z.sqrt (nth i primes 0 * 2 ^ 64)) in
  Regs (root 0%nat) (root 1%nat) (root 2%nat) (root 3%nat)
       (root 4%nat) (root 5%nat) (root 6%nat) (root 7%nat).

Definition round (r : regs) (k w : Z) : regs :=
  let t1 := w32 (rh r + big1 (re r) + ch (re r) (rf r) (rg r) + k + w) in
  let t2 := add32 (big0 (ra r)) (maj (ra r) (rb r) (rc r)) in
  Regs (add32 t1 t2) (ra r) (rb r) (rc r) (add32 (rd r) t1) (re r) (rf r) (rg r).

(** The sixteen-word window of the message schedule: the head is the word of
    this round, the word sixteen rounds later is appended. *)
Definition slide (win : list Z) : list Z :=
  let at_ i := nth i win 0 in
  tl win ++ [w32 (small1 (at_ 14%nat) + at_ 9%nat + small0 (at_ 1%nat) + at_ 0%nat)].

Fixpoint rounds (ks : list Z) (win : list Z) (r : regs) : regs :=
  match ks with
  | [] => r
  | k :: ks' => rounds ks' (slide win) (round r k (hd 0 win))
  end.

Definition add_regs (x y : regs) : regs :=
  Regs (add32 (ra x) (ra y)) (add32 (rb x) (rb y)) (add32 (rc x) (rc y)) (add32 (rd x) (rd y))
       (add32 (re x) (re y)) (add32 (rf x) (rf y)) (add32 (rg x) (rg y)) (add32 (rh x) (rh y)).

Fixpoint be_bytes (n : nat) (x : Z) : list Z :=
  match n with
  | O => []
  | S n' => Z.land (Z.shiftr x (8 * Z.of_nat n')) 255 :: be_bytes n' x
  end.

Fixpoint be_int (bytes : list Z) (acc : Z) : Z :=
  match bytes with [] => acc | b :: bs => be_int bs (256 * acc + b) end.

Definition pad (msg : list Z) : list Z :=
  let len := length msg in
  let zeros := ((119 - len mod 64) mod 64)%nat in
  msg ++ [128] ++ replicate zeros 0 ++ be_bytes 8 (8 * Z.of_nat len).

Fixpoint words_of (n : nat) (bytes : list Z) : list Z :=
  match n with
  | O => []
  | S n' => be_int (take 4 bytes) 0 :: words_of n' (drop 4 bytes)
  end.

Fixpoint blocks (fuel : nat) (bytes : list Z) (r : regs) : regs :=
  match fuel with
  | O => r
  | S fuel' =>
      match bytes with
      | [] => r
      | _ => blocks fuel' (drop 64 bytes)
               (add_regs r (rounds round_constants (words_of 16 bytes) r))
      end
  end.

Definition digest (msg : list Z) : list Z :=
  let padded := pad msg in
  let r := blocks (length padded / 64) padded initial in
  flat_map (be_bytes 4) [ra r; rb r; rc r; rd r; re r; rf r; rg r; rh r].

(** [text.encode()]: the model's strings are their own UTF-8 bytes. *)
Fixpoint encode (s : string) : list Z :=
  match s with
  | EmptyString => []
  | String c r => Z.of_nat (Ascii.nat_of_ascii c) :: encode r
  end.

Definition hex_digit (n : Z) : Ascii.ascii :=
  Ascii.ascii_of_nat (Z.to_nat (if n <? 10 then 48 + n else 87 + n)).

Fixpoint hex (bytes : list Z) : string :=
  match bytes with
  | [] => EmptyString
  | b :: bs => String (hex_digit (Z.shiftr b 4)) (String (hex_digit (Z.land b 15)) (hex bs))
  end.

(** [hashlib.sha256(text.encode()).hexdigest()] *)
Definition hexdigest (text : string) : string := hex (digest (encode text)).

(** [int.from_bytes(hashlib.sha256(text.encode()).digest()[:8], "big")] *)
Definition first8 (text : string) : Z := be_int (take 8 (digest (encode text))) 0.

(** ** Facts *)
Lemma be_bytes_length n x : length (be_bytes n x) = n.
Proof. induction n; simpl; lia. Qed.

Lemma digest_length msg : length (digest msg) = 32%nat.
Proof. reflexivity. Qed.

Lemma be_bytes_byte n x : Forall (fun b => 0 <= b < 256) (be_bytes n x).
Proof.
  induction n as [|n IH]; simpl; constructor; [|done].
  change 255 with (Z.ones 8). rewrite Z.land_ones by lia. apply Z.mod_pos_bound. lia.
Qed.

Lemma be_int_nonneg bytes acc :
  0 <= acc -> Forall (fun b => 0 <= b < 256) bytes -> 0 <= be_int bytes acc.
Proof.
  intros Hacc H. revert acc Hacc. induction H; simpl; intros; [done|]. apply IHForall. lia.
Qed.

Lemma digest_bytes msg : Forall (fun b => 0 <= b < 256) (digest msg).
Proof.
  unfold digest. cbn [flat_map].
  repeat (apply Forall_app; split; [apply be_bytes_byte|]). constructor.
Qed.

Lemma first8_nonneg text : 0 <= first8 text.
Proof.
  apply be_int_nonneg; [lia|]. apply Forall_take, digest_bytes.
Qed.

Example sha256_empty :
  hexdigest "" = "e3b0c44298fc1c149afbf4c8996fb92427ae41e4649b934ca495991b7852b855"%string.
Proof. vm_compute. reflexivity. Qed.

Example sha256_abc :
  hexdigest "abc" = "ba7816bf8f01cfea414140de5dae2223b00361a396177a9cb410ff61f20015ad"%string.
Proof. vm_compute. reflexivity. Qed.

Example sha256_two_blocks :
  hexdigest "abcdbcdecdefdefgefghfghighijhijkijkljklmklmnlmnomnopnopq" =
    "248d6a61d20638b8e5c026930c3e6039a33ce45964ff2167f6ecedd419db06c1"%string.
Proof. vm_compute. reflexivity. Qed.
End Sha256.
