(* ===== verification/Uuid.v ===== *)
(** * Version 5 identifiers

    [uuid.UUID] and [uuid.uuid5] as the claim rows use them: the identifier of a claim is the
    SHA-1 of its owner's identifier and a text that names it.  The words and the padding are
    those of [Sha256]. *)
From S2P Require Import Prelude Sha256.

Module Sha1.
Import Sha256.

Definition rotl (n x : Z) : Z := rotr (32 - n) x.

Record regs5 := Regs5 { va : Z; vb : Z; vc : Z; vd : Z; ve : Z }.

Definition initial5 : regs5 := Regs5 1732584193 4023233417 2562383102 271733878 3285377520.

(** The function and the constant of a round. *)
Definition stage (t : nat) (x y z : Z) : Z * Z :=
  if (t <? 20)%nat then (ch x y z, 1518500249)
  else if (t <? 40)%nat then (Z.lxor (Z.lxor x y) z, 1859775393)
  else if (t <? 60)%nat then (maj x y z, 2400959708)
  else (Z.lxor (Z.lxor x y) z, 3395469782).

Definition round5 (t : nat) (r : regs5) (w : Z) : regs5 :=
  let '(f, k) := stage t (vb r) (vc r) (vd r) in
  Regs5 (w32 (rotl 5 (va r) + f + ve r + k + w)) (va r) (rotl 30 (vb r)) (vc r) (vd r).

Definition slide5 (win : list Z) : list Z :=
  let at_ i := nth i win 0 in
  tl win ++ [rotl 1 (Z.lxor (Z.lxor (at_ 13%nat) (at_ 8%nat)) (Z.lxor (at_ 2%nat) (at_ 0%nat)))].

Fixpoint rounds5 (left t : nat) (win : list Z) (r : regs5) : regs5 :=
  match left with
  | O => r
  | S left' => rounds5 left' (S t) (slide5 win) (round5 t r (hd 0 win))
  end.

Definition add5 (x y : regs5) : regs5 :=
  Regs5 (add32 (va x) (va y)) (add32 (vb x) (vb y)) (add32 (vc x) (vc y)) (add32 (vd x) (vd y))
        (add32 (ve x) (ve y)).

Fixpoint blocks5 (fuel : nat) (bytes : list Z) (r : regs5) : regs5 :=
  match fuel with
  | O => r
  | S fuel' =>
      match bytes with
      | [] => r
      | _ => blocks5 fuel' (drop 64 bytes) (add5 r (rounds5 80 0 (words_of 16 bytes) r))
      end
  end.

(** [hashlib.sha1(msg).digest()] *)
Definition sha1 (msg : list Z) : list Z :=
  let padded := pad msg in
  let r := blocks5 (length padded / 64) padded initial5 in
  flat_map (be_bytes 4) [va r; vb r; vc r; vd r; ve r].

Example sha1_abc : hex (sha1 (encode "abc")) = "a9993e364706816aba3e25717850c26c9cd0d89d"%string.
Proof. vm_compute. reflexivity. Qed.

Example sha1_two_blocks :
  hex (sha1 (encode "abcdbcdecdefdefgefghfghighijhijkijkljklmklmnlmnomnopnopq")) =
  "84983e441c3bd26ebaae4aa1f95129e5e54670f1"%string.
Proof. vm_compute. reflexivity. Qed.
End Sha1.

(** ** Identifiers *)
Definition hex_value (c : Ascii.ascii) : option Z :=
  let n := Z.of_nat (Ascii.nat_of_ascii c) in
  if (48 <=? n) && (n <=? 57) then Some (n - 48)
  else if (97 <=? n) && (n <=? 102) then Some (n - 87)
  else if (65 <=? n) && (n <=? 70) then Some (n - 55)
  else None.

(** The bytes of hexadecimal text; [None] on an odd number of digits or a foreign character. *)
Fixpoint hex_bytes (s : string) : option (list Z) :=
  match s with
  | EmptyString => Some []
  | String a (String b rest) =>
      x ← hex_value a; y ← hex_value b; l ← hex_bytes rest; Some (16 * x + y :: l)
  | _ => None
  end.

Fixpoint without_hyphens (s : string) : string :=
  match s with
  | EmptyString => EmptyString
  | String c rest =>
      if Nat.eqb (Ascii.nat_of_ascii c) 45 then without_hyphens rest else String c (without_hyphens rest)
  end.

(** [UUID(text)] of hyphenated hexadecimal text. *)
Definition UUID (text : string) : result (list Z) :=
  match hex_bytes (without_hyphens text) with
  | Some bytes =>
      if Nat.eqb (length bytes) 16 then Ok bytes
      else Raise (ValueError "badly formed hexadecimal UUID string")
  | None => Raise (ValueError "badly formed hexadecimal UUID string")
  end.

(** [str(uuid)] *)
Definition uuid_text (bytes : list Z) : string :=
  join "-" ((fun r => Sha256.hex (take (snd r) (drop (fst r) bytes))) <$>
              [(0, 4); (4, 2); (6, 2); (8, 2); (10, 6)]%nat).

(** [uuid5(namespace, name)]: the version and variant bits written over the digest. *)
Definition uuid5 (namespace : list Z) (name : string) : list Z :=
  let d := take 16 (Sha1.sha1 (namespace ++ Sha256.encode name)) in
  let at_ i := nth i d 0 in
  take 6 d ++ [Z.lor 80 (Z.land (at_ 6%nat) 15); at_ 7%nat; Z.lor 128 (Z.land (at_ 8%nat) 63)]
  ++ drop 9 d.

(** The name space and the result of Python's documentation example. *)
Example uuid5_python_org :
  (ns ← UUID "6ba7b810-9dad-11d1-80b4-00c04fd430c8"; Ok (uuid_text (uuid5 ns "python.org")))
  = Ok "886313e1-3b8a-5372-9b90-0c9aee199e5d"%string.
Proof. vm_compute. reflexivity. Qed.
