(* ===== verification/Json.v ===== *)
(** * JSON as [json.dumps] writes it

    The texts the controller hashes: the stall signature ([progress_stall.py]) and the
    settings identity ([resource_planning/identity.py]).  A character is a code point
    below 256; floats do not occur in the hashed documents. *)
From S2P Require Import Prelude Sha256.

(** ** Scalars *)

(** [json.dumps] of a string: quotes, backslashes and everything outside
    the printable ASCII range are escaped. *)
Definition ch (n : nat) : string := String (Ascii.ascii_of_nat n) EmptyString.
Definition quote_mark : string := ch 34.
Definition backslash : string := ch 92.

Definition hex4 (n : nat) : string :=
  "u00" +:+ String (Sha256.hex_digit (Z.of_nat (n / 16)))
              (String (Sha256.hex_digit (Z.of_nat (n mod 16))) EmptyString).

Definition json_char (c : Ascii.ascii) : string :=
  let n := Ascii.nat_of_ascii c in
  if decide (n = 34)%nat then backslash +:+ quote_mark
  else if decide (n = 92)%nat then backslash +:+ backslash
  else if decide (n = 8)%nat then backslash +:+ "b"
  else if decide (n = 9)%nat then backslash +:+ "t"
  else if decide (n = 10)%nat then backslash +:+ "n"
  else if decide (n = 12)%nat then backslash +:+ "f"
  else if decide (n = 13)%nat then backslash +:+ "r"
  else if Nat.leb 32 n && Nat.leb n 126 then String c EmptyString
  else backslash +:+ hex4 n.

Fixpoint json_chars (s : string) : string :=
  match s with
  | EmptyString => EmptyString
  | String c r => json_char c +:+ json_chars r
  end.
Definition json_string (s : string) : string := quote_mark +:+ json_chars s +:+ quote_mark.
Definition json_int (z : Z) : string := pretty z.
Definition json_bool (b : bool) : string := if b then "true" else "false".
Definition json_opt {A} (f : A -> string) (o : option A) : string :=
  match o with Some a => f a | None => "null" end.

(** ** Documents *)
Inductive json :=
| JNull
| JBool (b : bool)
| JInt (z : Z)
| JString (s : string)
| JArray (l : list json)
| JObject (l : list (string * json)).

(** [json.dumps(value, separators=(",", ":"))] *)
Fixpoint dumps (j : json) : string :=
  match j with
  | JNull => "null"
  | JBool b => json_bool b
  | JInt z => json_int z
  | JString s => json_string s
  | JArray l => "[" +:+ join "," (map dumps l) +:+ "]"
  | JObject l =>
      "{" +:+ join "," (map (fun p => json_string (fst p) +:+ ":" +:+ dumps (snd p)) l) +:+ "}"
  end.

(** ** Reading a JSON string back *)
Definition unescape (c : Ascii.ascii) : option Ascii.ascii :=
  match Ascii.nat_of_ascii c with
  | 34%nat => Some (Ascii.ascii_of_nat 34)
  | 92%nat => Some (Ascii.ascii_of_nat 92)
  | 98%nat => Some (Ascii.ascii_of_nat 8)
  | 116%nat => Some (Ascii.ascii_of_nat 9)
  | 110%nat => Some (Ascii.ascii_of_nat 10)
  | 102%nat => Some (Ascii.ascii_of_nat 12)
  | 114%nat => Some (Ascii.ascii_of_nat 13)
  | _ => None
  end.

Definition hex_val (c : Ascii.ascii) : nat :=
  let n := Ascii.nat_of_ascii c in if Nat.leb 97 n then n - 87 else n - 48.

(** One character of a JSON string's body, and what follows it. *)
Definition read_char (s : string) : option (Ascii.ascii * string) :=
  match s with
  | String b (String u (String z (String y (String h (String l rest))))) =>
      if (Nat.eqb (Ascii.nat_of_ascii b) 92 && Nat.eqb (Ascii.nat_of_ascii u) 117)%bool
      then Some (Ascii.ascii_of_nat (hex_val h * 16 + hex_val l), rest)
      else if Nat.eqb (Ascii.nat_of_ascii b) 92
      then match unescape u with
           | Some c => Some (c, String z (String y (String h (String l rest))))
           | None => None
           end
      else Some (b, String u (String z (String y (String h (String l rest)))))
  | String b rest =>
      if Nat.eqb (Ascii.nat_of_ascii b) 92
      then match rest with
           | String u rest' => match unescape u with Some c => Some (c, rest') | None => None end
           | EmptyString => None
           end
      else Some (b, rest)
  | EmptyString => None
  end.

Lemma read_json_char c t : read_char (json_char c +:+ t) = Some (c, t).
Proof.
  destruct c as [[] [] [] [] [] [] [] []];
    destruct t as [|? [|? [|? [|? [|? ?]]]]]; reflexivity.
Qed.

Lemma json_char_quote c t : forall s, json_char c +:+ t <> quote_mark +:+ s.
Proof. intros s. by destruct c as [[] [] [] [] [] [] [] []]. Qed.

Lemma json_char_inj c d s t : json_char c +:+ s = json_char d +:+ t -> c = d /\ s = t.
Proof.
  intros H. pose proof (read_json_char c s) as Hc. rewrite H, read_json_char in Hc.
  by simplify_eq.
Qed.

(** A JSON string ends at its own closing quote. *)
Lemma json_chars_delimited a : forall b s t,
  json_chars a +:+ quote_mark +:+ s = json_chars b +:+ quote_mark +:+ t -> a = b /\ s = t.
Proof.
  induction a as [|c a IH]; intros [|d b] s t; simpl json_chars; rewrite ?str_app_assoc.
  - intros H. by injection H.
  - intros H. symmetry in H. by apply json_char_quote in H.
  - intros H. by apply json_char_quote in H.
  - intros [-> [-> ->]%IH]%json_char_inj. done.
Qed.

Lemma json_string_delimited a b s t :
  json_string a +:+ s = json_string b +:+ t -> a = b /\ s = t.
Proof.
  unfold json_string. rewrite !str_app_assoc. intros H.
  apply json_chars_delimited. injection H as H. exact H.
Qed.

(** ** Numbers hold no comma *)
Fixpoint no_comma (s : string) : bool :=
  match s with
  | EmptyString => true
  | String c r => negb (Nat.eqb (Ascii.nat_of_ascii c) 44) && no_comma r
  end.

Lemma split_comma a b s t :
  no_comma a = true -> no_comma b = true ->
  a +:+ ", " +:+ s = b +:+ ", " +:+ t -> a = b /\ s = t.
Proof.
  revert b. induction a as [|c a IH]; intros [|d b] Ha Hb H; simpl in *.
  - by simplify_eq.
  - injection H as <- _. done.
  - injection H as -> _. done.
  - apply andb_true_iff in Ha as [_ Ha]. apply andb_true_iff in Hb as [_ Hb].
    injection H as -> H. by destruct (IH b Ha Hb H) as [-> ->].
Qed.

(** Digits and the sign. *)
Fixpoint numeric (s : string) : bool :=
  match s with
  | EmptyString => true
  | String c r =>
      let n := Ascii.nat_of_ascii c in
      (Nat.eqb n 45 || (Nat.leb 48 n && Nat.leb n 57)) && numeric r
  end.

Lemma numeric_no_comma s : numeric s = true -> no_comma s = true.
Proof.
  induction s as [|c s IH]; simpl; [done|]. intros [H1 H2]%andb_true_iff.
  rewrite IH by done. rewrite andb_true_r. apply negb_true_iff, Nat.eqb_neq. intros E.
  by rewrite E in H1.
Qed.

Lemma pretty_N_go_numeric x : forall s, numeric s = true -> numeric (pretty_N_go x s) = true.
Proof.
  induction (N.lt_wf_0 x) as [x _ IH]. intros s Hs.
  destruct (decide (0 < x)%N) as [Hx|Hx].
  - rewrite pretty_N_go_step by done. apply IH; [by apply N.div_lt|].
    cbn [numeric]. rewrite Hs, andb_true_r. unfold pretty_N_char. repeat case_match; done.
  - assert (x = 0%N) as -> by lia. by rewrite pretty_N_go_0.
Qed.

Lemma json_int_numeric z : numeric (json_int z) = true.
Proof.
  unfold json_int, pretty, pretty_Z. assert (forall n : N, numeric (pretty n) = true) as HN.
  { intros n. unfold pretty, pretty_N. case_decide; [done|]. by apply pretty_N_go_numeric. }
  destruct z; cbn [numeric]; try done; apply HN.
Qed.

Lemma json_opt_int_numeric o : no_comma (json_opt json_int o) = true.
Proof. destruct o; [apply numeric_no_comma, json_int_numeric|done]. Qed.

Lemma json_opt_int_inj a b : json_opt json_int a = json_opt json_int b -> a = b.
Proof.
  assert (forall z, json_int z <> "null") as Hnull.
  { intros z Hz. pose proof (json_int_numeric z) as Hn. by rewrite Hz in Hn. }
  destruct a as [x|], b as [y|]; simpl; intros H; try done.
  - f_equal. by apply (inj pretty).
  - by destruct (Hnull x).
  - by destruct (Hnull y).
Qed.

Lemma json_opt_string_delimited a b s t :
  json_opt json_string a +:+ s = json_opt json_string b +:+ t -> a = b /\ s = t.
Proof.
  destruct a as [x|], b as [y|]; simpl.
  - by intros [-> ->]%json_string_delimited.
  - done.
  - done.
  - intros H. by simplify_eq.
Qed.

(** ** A document's text determines the document *)
Lemma json_ind_nested (P : json -> Prop) :
  P JNull -> (forall b, P (JBool b)) -> (forall z, P (JInt z)) -> (forall s, P (JString s)) ->
  (forall l, Forall P l -> P (JArray l)) ->
  (forall l, Forall (fun p => P (snd p)) l -> P (JObject l)) -> forall j, P j.
Proof.
  intros Hn Hb Hi Hs Ha Ho. fix go 1. intros [|b|z|s|l|l]; [done|apply Hb|apply Hi|apply Hs|..].
  - apply Ha. induction l as [|x l IH]; constructor; [apply go|exact IH].
  - apply Ho. induction l as [|x l IH]; constructor; [apply go|exact IH].
Qed.

(** What may follow a value: nothing, or the comma or bracket that ends it. *)
Definition stops (s : string) : bool :=
  match s with
  | EmptyString => true
  | String c _ => let n := Ascii.nat_of_ascii c in
                  Nat.eqb n 44 || Nat.eqb n 93 || Nat.eqb n 125
  end.

(** The kind of value a text starts. *)
Definition starts (s : string) : nat :=
  match s with
  | EmptyString => 0
  | String c _ =>
      let n := Ascii.nat_of_ascii c in
      if Nat.eqb n 110 then 1
      else if Nat.eqb n 116 || Nat.eqb n 102 then 2
      else if Nat.eqb n 45 || (Nat.leb 48 n && Nat.leb n 57) then 3
      else if Nat.eqb n 34 then 4
      else if Nat.eqb n 91 then 5
      else if Nat.eqb n 123 then 6
      else 0
  end.
Definition kind_of (j : json) : nat :=
  match j with
  | JNull => 1 | JBool _ => 2 | JInt _ => 3 | JString _ => 4 | JArray _ => 5 | JObject _ => 6
  end.

Lemma pretty_N_go_cons x : forall s, (0 < x)%N \/ s <> EmptyString -> pretty_N_go x s <> EmptyString.
Proof.
  induction (N.lt_wf_0 x) as [x _ IH]. intros s Hs. destruct (decide (0 < x)%N) as [Hx|Hx].
  - rewrite pretty_N_go_step by done. apply IH; [by apply N.div_lt|by right].
  - assert (x = 0%N) as -> by lia. rewrite pretty_N_go_0. by destruct Hs.
Qed.

Lemma json_int_cons z : json_int z <> EmptyString.
Proof.
  assert (forall n : N, pretty n <> EmptyString) as HN.
  { intros n. unfold pretty, pretty_N. case_decide; [done|]. apply pretty_N_go_cons. lia. }
  unfold json_int, pretty, pretty_Z. destruct z as [|p|p]; [done|apply HN|done].
Qed.

Lemma dumps_starts j s : starts (dumps j +:+ s) = kind_of j.
Proof.
  destruct j as [|[]|z|x|l|l]; try done. simpl dumps.
  pose proof (json_int_numeric z) as Hn. destruct (json_int z) as [|c r] eqn:E;
    [by apply json_int_cons in E|].
  change (starts (String c (r +:+ s)) = 3%nat). cbn [starts numeric] in *.
  set (n := Ascii.nat_of_ascii c) in *. apply andb_true_iff in Hn as [Hc _].
  destruct (Nat.eqb_spec n 110) as [E1|]; [by rewrite E1 in Hc|].
  destruct (Nat.eqb_spec n 116) as [E1|]; [by rewrite E1 in Hc|].
  destruct (Nat.eqb_spec n 102) as [E1|]; [by rewrite E1 in Hc|]. cbn [orb]. by rewrite Hc.
Qed.

(** Digits end where a value stops. *)
Lemma numeric_not_stop c r : numeric (String c r) = true -> stops (String c r) = false.
Proof.
  cbn [numeric stops]. set (n := Ascii.nat_of_ascii c). intros [H _]%andb_true_iff.
  destruct (Nat.eqb_spec n 44) as [E|]; [by rewrite E in H|].
  destruct (Nat.eqb_spec n 93) as [E|]; [by rewrite E in H|].
  destruct (Nat.eqb_spec n 125) as [E|]; [by rewrite E in H|done].
Qed.

Lemma numeric_delimited a : forall b s t,
  numeric a = true -> numeric b = true -> stops s = true -> stops t = true ->
  a +:+ s = b +:+ t -> a = b /\ s = t.
Proof.
  induction a as [|c a IH]; intros [|d b] s t Ha Hb Hs Ht H.
  - done.
  - change (s = String d (b +:+ t)) in H. subst s. apply numeric_not_stop in Hb.
    simpl in Hb, Hs. congruence.
  - change (String c (a +:+ s) = t) in H. subst t. apply numeric_not_stop in Ha.
    simpl in Ha, Ht. congruence.
  - injection H as -> H. apply andb_true_iff in Ha as [_ Ha], Hb as [_ Hb].
    by destruct (IH b s t Ha Hb Hs Ht H) as [-> ->].
Qed.

(** A bracketed, comma-separated list of self-delimiting items. *)
Section items.
Context {A : Type} (f : A -> string) (close : string).

Definition delimited (x : A) : Prop := forall y s t,
  stops s = true -> stops t = true -> f x +:+ s = f y +:+ t -> x = y /\ s = t.

Context (Hclose : close = "]" \/ close = "}") (Hopen : forall x s t, f x +:+ s <> close +:+ t).

Lemma close_stops s : stops (close +:+ s) = true.
Proof. by destruct Hclose as [->| ->]. Qed.

Lemma close_comma s t : close +:+ s <> "," +:+ t.
Proof. by destruct Hclose as [->| ->]. Qed.

Lemma join_cons x l s :
  join "," (map f (x :: l)) +:+ s =
  f x +:+ match l with [] => s | _ => "," +:+ join "," (map f l) +:+ s end.
Proof. destruct l; [done|]. simpl. by rewrite !str_app_assoc. Qed.

Lemma items_delimited l : forall l' s t,
  Forall delimited l ->
  join "," (map f l) +:+ close +:+ s = join "," (map f l') +:+ close +:+ t -> l = l' /\ s = t.
Proof.
  induction l as [|x l IH]; intros [|y l'] s t Hall H.
  - split; [done|]. by apply (inj (String.app close)) in H.
  - rewrite join_cons in H. symmetry in H. by apply Hopen in H.
  - rewrite join_cons in H. by apply Hopen in H.
  - rewrite !join_cons in H. apply Forall_cons in Hall as [Hx Hall].
    apply Hx in H as [-> H];
      [|destruct l; [apply close_stops|done]|destruct l'; [apply close_stops|done]].
    destruct l as [|x1 l], l' as [|y1 l'].
    + split; [done|]. by apply (inj (String.app close)) in H.
    + by apply close_comma in H.
    + symmetry in H. by apply close_comma in H.
    + apply (inj (String.app ",")) in H. by destruct (IH _ _ _ Hall H) as [-> ->].
Qed.
End items.

Lemma dumps_delimited j : delimited dumps j.
Proof.
  induction j as [|b|z|x|l IH|l IH] using json_ind_nested; intros k s t Hs Ht H;
    pose proof (f_equal starts H) as Hk; rewrite !dumps_starts in Hk;
    destruct k as [|b'|z'|x'|l'|l']; try discriminate Hk; clear Hk; simpl dumps in H.
  - split; [done|]. by apply (inj (String.app "null")) in H.
  - destruct b, b'; simpl in H; by simplify_eq.
  - apply numeric_delimited in H as [H ->]; [|done || apply json_int_numeric..].
    by apply (inj pretty) in H as ->.
  - by apply json_string_delimited in H as [-> ->].
  - rewrite !str_app_assoc in H. apply (inj (String.app "[")) in H.
    apply (items_delimited dumps "]") in H as [-> ->]; [done|by left|..|exact IH].
    intros y u v E. apply (f_equal starts) in E. rewrite dumps_starts in E. by destruct y.
  - rewrite !str_app_assoc in H. apply (inj (String.app "{")) in H.
    apply (items_delimited (fun p => json_string (fst p) +:+ ":" +:+ dumps (snd p)) "}") in H
      as [-> ->]; [done|by right|done|].
    eapply Forall_impl; [exact IH|]. intros [k v] Hv [k' v'] u w Hu Hw E. simpl in *.
    rewrite !str_app_assoc in E. apply json_string_delimited in E as [-> E].
    apply (inj (String.app ":")) in E. by apply Hv in E as [-> ->].
Qed.

Lemma dumps_inj j k : dumps j = dumps k -> j = k.
Proof.
  intros H. apply (dumps_delimited j k EmptyString EmptyString); [done|done|by rewrite H].
Qed.
