(* ===== verification/JsonRead.v ===== *)
(** * JSON as [json.loads] reads it

    The reader of the texts that [Json.dumps] writes and of any other JSON text over
    characters below 256.  A text with a number that has a fraction or an exponent, with
    [NaN] or [Infinity], or with an escape of a character above 255 has no value here and
    reads as nothing, like a text that is not JSON.  A repeated key of an object keeps its
    last value, as in a Python dict.  [loads_dumps] is the round trip. *)
From S2P Require Import Prelude Json.

(** ** Characters *)
Definition code (c : Ascii.ascii) : nat := Ascii.nat_of_ascii c.
Definition is_ws (c : Ascii.ascii) : bool := mem (code c) [32; 9; 10; 13]%nat.
Fixpoint skip_ws (s : string) : string :=
  match s with
  | String c r => if is_ws c then skip_ws r else s
  | EmptyString => EmptyString
  end.

Definition is_digit (c : Ascii.ascii) : bool := Nat.leb 48 (code c) && Nat.leb (code c) 57.
Definition digit_value (c : Ascii.ascii) : Z := Z.of_nat (code c) - 48.
Fixpoint read_digits (acc : Z) (s : string) : Z * string :=
  match s with
  | String c r => if is_digit c then read_digits (acc * 10 + digit_value c) r else (acc, s)
  | EmptyString => (acc, EmptyString)
  end.

Definition hex_value (c : Ascii.ascii) : option nat :=
  let n := code c in
  if Nat.leb 48 n && Nat.leb n 57 then Some (n - 48)%nat
  else if Nat.leb 97 n && Nat.leb n 102 then Some (n - 87)%nat
  else if Nat.leb 65 n && Nat.leb n 70 then Some (n - 55)%nat
  else None.

Definition escaped (c : Ascii.ascii) : option Ascii.ascii :=
  if Nat.eqb (code c) 47 then Some c else unescape c.

(** ** Strings: what follows the opening quote *)
Definition push (c : Ascii.ascii) (r : option (string * string)) : option (string * string) :=
  match r with Some (s, rest) => Some (String c s, rest) | None => None end.

Fixpoint read_string (s : string) : option (string * string) :=
  match s with
  | EmptyString => None
  | String c r =>
      if Nat.eqb (code c) 34 then Some (EmptyString, r)
      else if Nat.eqb (code c) 92 then
        match r with
        | EmptyString => None
        | String e r' =>
            if Nat.eqb (code e) 117 then
              match r' with
              | String a (String b (String h (String l r''))) =>
                  match hex_value a, hex_value b, hex_value h, hex_value l with
                  | Some O, Some O, Some h, Some l => push (Ascii.ascii_of_nat (h * 16 + l)) (read_string r'')
                  | _, _, _, _ => None
                  end
              | _ => None
              end
            else
              match escaped e with
              | Some c => push c (read_string r')
              | None => None
              end
        end
      else if Nat.ltb (code c) 32 then None
      else push c (read_string r)
  end.

(** ** Numbers: an integer without a fraction or an exponent *)
Definition no_float (r : Z * string) : option (json * string) :=
  match snd r with
  | String c _ => if mem (code c) [46; 101; 69]%nat then None else Some (JInt (fst r), snd r)
  | EmptyString => Some (JInt (fst r), EmptyString)
  end.

Definition read_natural (s : string) : option (Z * string) :=
  match s with
  | String c r =>
      if Nat.eqb (code c) 48 then Some (0, r)
      else if is_digit c then Some (read_digits 0 s) else None
  | EmptyString => None
  end.

Definition read_number (s : string) : option (json * string) :=
  match s with
  | String c r =>
      if Nat.eqb (code c) 45
      then match read_natural r with Some (z, rest) => no_float (- z, rest) | None => None end
      else match read_natural s with Some p => no_float p | None => None end
  | EmptyString => None
  end.

(** ** Objects *)
Fixpoint dict_set (k : string) (v : json) (l : list (string * json)) : list (string * json) :=
  match l with
  | [] => [(k, v)]
  | (k', v') :: r => if bool_decide (k' = k) then (k', v) :: r else (k', v') :: dict_set k v r
  end.
Definition dict_of (l : list (string * json)) : list (string * json) :=
  fold_left (fun d p => dict_set (fst p) (snd p) d) l [].

(** ** Values *)
Fixpoint word (w s : string) : option string :=
  match w, s with
  | EmptyString, _ => Some s
  | String a w, String b s => if Ascii.eqb a b then word w s else None
  | _, EmptyString => None
  end.

Fixpoint read_value (fuel : nat) (s : string) : option (json * string) :=
  match fuel with
  | O => None
  | S f =>
      match s with
      | EmptyString => None
      | String c r =>
          if Nat.eqb (code c) 34 then
            match read_string r with Some (x, rest) => Some (JString x, rest) | None => None end
          else if Nat.eqb (code c) 91 then
            match skip_ws r with
            | String d r' =>
                if Nat.eqb (code d) 93 then Some (JArray [], r')
                else match read_items f (String d r') with Some (l, rest) => Some (JArray l, rest) | None => None end
            | EmptyString => None
            end
          else if Nat.eqb (code c) 123 then
            match skip_ws r with
            | String d r' =>
                if Nat.eqb (code d) 125 then Some (JObject [], r')
                else match read_members f (String d r') with
                     | Some (l, rest) => Some (JObject (dict_of l), rest)
                     | None => None
                     end
            | EmptyString => None
            end
          else
            match word "null" s, word "true" s, word "false" s with
            | Some rest, _, _ => Some (JNull, rest)
            | _, Some rest, _ => Some (JBool true, rest)
            | _, _, Some rest => Some (JBool false, rest)
            | _, _, _ => read_number s
            end
      end
  end
with read_items (fuel : nat) (s : string) : option (list json * string) :=
  match fuel with
  | O => None
  | S f =>
      match read_value f s with
      | None => None
      | Some (x, rest) =>
          match skip_ws rest with
          | String c r =>
              if Nat.eqb (code c) 93 then Some ([x], r)
              else if Nat.eqb (code c) 44 then
                match read_items f (skip_ws r) with Some (l, rest) => Some (x :: l, rest) | None => None end
              else None
          | EmptyString => None
          end
      end
  end
with read_members (fuel : nat) (s : string) : option (list (string * json) * string) :=
  match fuel with
  | O => None
  | S f =>
      match s with
      | String q r =>
          if negb (Nat.eqb (code q) 34) then None
          else
            match read_string r with
            | None => None
            | Some (k, rest) =>
                match skip_ws rest with
                | String colon r =>
                    if negb (Nat.eqb (code colon) 58) then None
                    else
                      match read_value f (skip_ws r) with
                      | None => None
                      | Some (v, rest) =>
                          match skip_ws rest with
                          | String c r =>
                              if Nat.eqb (code c) 125 then Some ([(k, v)], r)
                              else if Nat.eqb (code c) 44 then
                                match read_members f (skip_ws r) with
                                | Some (l, rest) => Some ((k, v) :: l, rest)
                                | None => None
                                end
                              else None
                          | EmptyString => None
                          end
                      end
                | EmptyString => None
                end
            end
      | EmptyString => None
      end
  end.

(** [json.loads] *)
Definition loads (s : string) : option json :=
  match read_value (S (String.length s)) (skip_ws s) with
  | Some (j, rest) => match skip_ws rest with EmptyString => Some j | _ => None end
  | None => None
  end.

(** ** The round trip: strings *)
Lemma read_string_char c s : read_string (json_char c +:+ s) = push c (read_string s).
Proof. destruct c as [[] [] [] [] [] [] [] []]; reflexivity. Qed.

Lemma read_json_string x s : read_string (json_chars x +:+ quote_mark +:+ s) = Some (x, s).
Proof.
  induction x as [|c x IH]; [done|]. cbn [json_chars]. rewrite str_app_assoc, read_string_char, IH. done.
Qed.

(** ** Numbers *)
Lemma read_digits_go x : forall s, read_digits 0 (pretty_N_go x s) = read_digits (Z.of_N x) s.
Proof.
  induction (N.lt_wf_0 x) as [x _ IH]. intros s. destruct (decide (0 < x)%N) as [Hx|Hx].
  - rewrite pretty_N_go_step by done. rewrite IH by (by apply N.div_lt). cbn [read_digits].
    assert (is_digit (pretty_N_char (x mod 10)) = true /\ digit_value (pretty_N_char (x mod 10)) = Z.of_N (x mod 10)) as [-> ->].
    { assert (x mod 10 < 10)%N as Hm by (by apply N.mod_lt). destruct (x mod 10)%N as [|p]; [done|].
      repeat (destruct p as [p|p|]; try done; try lia). }
    f_equal. rewrite (N.div_mod x 10) at 3 by done. lia.
  - assert (x = 0%N) as -> by lia. by rewrite pretty_N_go_0.
Qed.

Lemma pretty_N_char_spec x :
  (x < 10)%N -> is_digit (pretty_N_char x) = true /\ (x <> 0%N -> Nat.eqb (code (pretty_N_char x)) 48 = false).
Proof. intros Hm. destruct x as [|p]; [done|]. repeat (destruct p as [p|p|]; try done; try lia). Qed.

Lemma pretty_N_go_head x : forall s, (0 < x)%N ->
  exists c r, pretty_N_go x s = String c r /\ is_digit c = true /\ Nat.eqb (code c) 48 = false.
Proof.
  induction (N.lt_wf_0 x) as [x _ IH]. intros s Hx. rewrite pretty_N_go_step by done.
  destruct (decide (0 < x / 10)%N) as [Hd|Hd]; [apply IH; [by apply N.div_lt|done]|].
  assert (x / 10 = 0)%N as Hz by (by apply N.le_0_r, N.nlt_ge). rewrite Hz, pretty_N_go_0. eexists _, _. split; [done|].
  destruct (pretty_N_char_spec (x mod 10)) as [H1 H2]; [by apply N.mod_lt|]. split; [done|]. apply H2.
  pose proof (N.div_mod x 10) as E. rewrite Hz in E. lia.
Qed.

Lemma pretty_N_go_app x : forall s t, pretty_N_go x s +:+ t = pretty_N_go x (s +:+ t).
Proof.
  induction (N.lt_wf_0 x) as [x _ IH]. intros s t. destruct (decide (0 < x)%N) as [Hx|Hx].
  - rewrite !(pretty_N_go_step x) by done. rewrite IH by (by apply N.div_lt). done.
  - assert (x = 0%N) as -> by lia. by rewrite !pretty_N_go_0.
Qed.

(** What follows a value ends a number: a comma, a bracket, white space or nothing. *)
Definition ends_number (s : string) : bool :=
  match s with
  | EmptyString => true
  | String c _ => negb (is_digit c) && negb (mem (code c) [46; 101; 69]%nat)
  end.

Lemma read_digits_end z s : ends_number s = true -> read_digits z s = (z, s).
Proof. destruct s as [|c s]; [done|]. simpl. by destruct (is_digit c). Qed.

Lemma no_float_end z s : ends_number s = true -> no_float (z, s) = Some (JInt z, s).
Proof. destruct s as [|c s]; [done|]. unfold no_float. simpl. destruct (is_digit c); [done|]. by destruct (mem _ _). Qed.

Lemma read_natural_pretty (x : N) s : ends_number s = true -> read_natural (pretty x +:+ s) = Some (Z.of_N x, s).
Proof.
  intros Hs. unfold pretty, pretty_N. case_decide as Hx; [by subst|]. rewrite pretty_N_go_app.
  change (EmptyString +:+ s) with s. destruct (pretty_N_go_head x s) as (c & r & E & Hd & H0); [lia|].
  unfold read_natural. rewrite E, H0, Hd, <- E, read_digits_go, read_digits_end by done. done.
Qed.

Lemma read_number_int z s : ends_number s = true -> read_number (json_int z +:+ s) = Some (JInt z, s).
Proof.
  intros Hs. unfold json_int, pretty, pretty_Z.
  assert (forall p, read_number (pretty (N.pos p) +:+ s) = Some (JInt (Z.pos p), s)) as Hpos.
  { intros p. pose proof (read_natural_pretty (N.pos p) s Hs) as E. unfold read_number.
    destruct (pretty_N_go_head (N.pos p) s) as (c & r & Eh & Hd & H0); [lia|].
    assert (pretty (N.pos p) +:+ s = String c r) as Ep.
    { unfold pretty, pretty_N. case_decide; [done|]. by rewrite pretty_N_go_app, <- Eh. }
    rewrite Ep in *. destruct (Nat.eqb_spec (code c) 45) as [E45|]; [unfold is_digit in Hd; by rewrite E45 in Hd|].
    rewrite E. by apply no_float_end. }
  destruct z as [|p|p].
  - change (read_number (String (Ascii.ascii_of_nat 48) s) = Some (JInt 0, s)). cbn. by apply no_float_end.
  - apply Hpos.
  - change (read_number (String (Ascii.ascii_of_nat 45) (pretty (N.pos p) +:+ s)) = Some (JInt (Z.neg p), s)).
    unfold read_number. change (Nat.eqb (code (Ascii.ascii_of_nat 45)) 45) with true. cbv iota.
    rewrite read_natural_pretty by done. by apply no_float_end.
Qed.

(** ** Objects *)
Lemma dict_set_fresh k v l : k ∉ (fst <$> l) -> dict_set k v l = (l ++ [(k, v)])%list.
Proof.
  induction l as [|[k' v'] l IH]; [done|]. rewrite fmap_cons, not_elem_of_cons. intros [H1 H2]. simpl.
  rewrite bool_decide_false by (simpl in H1; congruence). by rewrite IH.
Qed.

Lemma dict_of_distinct l : NoDup (fst <$> l) -> dict_of l = l.
Proof.
  unfold dict_of. intros H. assert (forall acc, NoDup (fst <$> acc ++ l) ->
    fold_left (fun d p => dict_set (fst p) (snd p) d) l acc = (acc ++ l)%list) as Hgo; [|by apply Hgo].
  clear H. induction l as [|[k v] l IH]; intros acc H; [by rewrite app_nil_r|]. cbn [fold_left fst snd].
  rewrite fmap_app, fmap_cons in H. apply NoDup_app in H as (Ha & Hd & [Hk Hl]%NoDup_cons).
  assert (k ∉ (fst <$> acc)) as Hka by (intros Hin; apply (Hd k Hin); by left).
  rewrite dict_set_fresh by done. rewrite IH; [by rewrite <- app_assoc|].
  rewrite <- app_assoc, fmap_app, fmap_app, fmap_cons. apply NoDup_app. split_and!; [done|exact Hd|].
  simpl. by apply NoDup_cons.
Qed.

(** ** Documents *)
Fixpoint distinct_keys (j : json) : Prop :=
  match j with
  | JArray l => fold_right and True (map distinct_keys l)
  | JObject l => NoDup (fst <$> l) /\ fold_right and True (map (fun p => distinct_keys (snd p)) l)
  | _ => True
  end.

(** The first character of a document's text is no white space and starts no word. *)
Definition plain_start (s : string) : bool :=
  match s with String c _ => negb (is_ws c) | EmptyString => false end.

Lemma skip_plain s : plain_start s = true -> skip_ws s = s.
Proof. destruct s as [|c s]; [done|]. simpl. by destruct (is_ws c). Qed.

Lemma starts_plain s : starts s <> O -> plain_start s = true.
Proof.
  destruct s as [|c s]; [done|]. unfold starts, plain_start, is_ws, code. set (n := Ascii.nat_of_ascii c).
  intros H. apply negb_true_iff, mem_false. intros Hn. apply H. clear H.
  repeat (apply elem_of_cons in Hn as [->|Hn]; [done|]). by apply elem_of_nil in Hn.
Qed.

Lemma dumps_plain j s : skip_ws (dumps j +:+ s) = dumps j +:+ s.
Proof. apply skip_plain, starts_plain. rewrite dumps_starts. by destruct j. Qed.

(** A value followed by its end reads back. *)
Definition reads (f : nat) (j : json) : Prop :=
  forall s, ends_number s = true -> read_value f (dumps j +:+ s) = Some (j, s).

Lemma ends_close s : ends_number (String (Ascii.ascii_of_nat 93) s) = true /\ ends_number (String (Ascii.ascii_of_nat 125) s) = true
  /\ ends_number (String (Ascii.ascii_of_nat 44) s) = true.
Proof. done. Qed.

Lemma length_app (a b : string) : String.length (a +:+ b) = (String.length a + String.length b)%nat.
Proof. induction a as [|c a IH]; [done|]. simpl. by rewrite <- IH. Qed.

Lemma read_items_ok l : forall f s,
  l <> [] -> Forall (fun j => forall f, (String.length (dumps j) <= f)%nat -> reads f j) l ->
  (S (String.length (join "," (map dumps l))) <= f)%nat ->
  read_items f (join "," (map dumps l) +:+ "]" +:+ s) = Some (l, s).
Proof.
  induction l as [|x l IH]; intros f s Hne Hall Hf; [done|]. apply Forall_cons in Hall as [Hx Hl].
  destruct f as [|f]; [lia|]. cbn [read_items]. rewrite (join_cons dumps).
  destruct l as [|y l].
  - simpl in Hf. rewrite (Hx f) by (done || lia). done.
  - assert (String.length (join "," (map dumps (x :: y :: l))) =
      (String.length (dumps x) + S (String.length (join "," (map dumps (y :: l)))))%nat) as Hlen.
    { change (join "," (map dumps (x :: y :: l))) with (dumps x +:+ "," +:+ join "," (map dumps (y :: l))).
      rewrite !length_app. simpl. lia. }
    rewrite Hlen in Hf. rewrite (Hx f) by (done || lia).
    change ("," +:+ join "," (map dumps (y :: l)) +:+ "]" +:+ s)
      with (String (Ascii.ascii_of_nat 44) (join "," (map dumps (y :: l)) +:+ "]" +:+ s)).
    cbn [skip_ws]. change (is_ws (Ascii.ascii_of_nat 44)) with false. cbv iota.
    change (Nat.eqb (code (Ascii.ascii_of_nat 44)) 93) with false. change (Nat.eqb (code (Ascii.ascii_of_nat 44)) 44) with true. cbv iota.
    assert (skip_ws (join "," (map dumps (y :: l)) +:+ "]" +:+ s) = join "," (map dumps (y :: l)) +:+ "]" +:+ s) as ->.
    { rewrite (join_cons dumps). apply dumps_plain. }
    rewrite IH; [done|done|done|lia].
Qed.

Definition member_text (p : string * json) : string := json_string (fst p) +:+ ":" +:+ dumps (snd p).

Lemma read_members_ok l : forall f s,
  l <> [] -> Forall (fun p => forall f, (String.length (dumps (snd p)) <= f)%nat -> reads f (snd p)) l ->
  (S (String.length (join "," (map member_text l))) <= f)%nat ->
  read_members f (join "," (map member_text l) +:+ "}" +:+ s) = Some (l, s).
Proof.
  induction l as [|[k v] l IH]; intros f s Hne Hall Hf; [done|]. apply Forall_cons in Hall as [Hx Hl].
  destruct f as [|f]; [lia|]. rewrite (join_cons member_text). cbn [fst snd] in Hx.
  set (t := match l with [] => "}" +:+ s | _ => "," +:+ join "," (map member_text l) +:+ "}" +:+ s end).
  unfold member_text at 1. cbn [fst snd]. unfold json_string. rewrite !str_app_assoc.
  change (quote_mark +:+ json_chars k +:+ quote_mark +:+ ":" +:+ dumps v +:+ t)
    with (String (Ascii.ascii_of_nat 34) (json_chars k +:+ quote_mark +:+ String (Ascii.ascii_of_nat 58) (dumps v +:+ t))).
  cbn [read_members]. change (Nat.eqb (code (Ascii.ascii_of_nat 34)) 34) with true. cbn [negb]. cbv iota.
  rewrite read_json_string. cbn [skip_ws]. change (is_ws (Ascii.ascii_of_nat 58)) with false. cbv iota.
  change (Nat.eqb (code (Ascii.ascii_of_nat 58)) 58) with true. cbn [negb]. cbv iota. rewrite dumps_plain.
  assert (String.length (dumps v) <= String.length (member_text (k, v)))%nat as Hv.
  { unfold member_text. rewrite !length_app. simpl. lia. }
  destruct l as [|p l].
  - change (join "," (map member_text [(k, v)])) with (member_text (k, v)) in Hf. rewrite (Hx f) by (done || lia). done.
  - assert (String.length (join "," (map member_text ((k, v) :: p :: l))) =
      (String.length (member_text (k, v)) + S (String.length (join "," (map member_text (p :: l)))))%nat) as Hlen.
    { change (join "," (map member_text ((k, v) :: p :: l))) with (member_text (k, v) +:+ "," +:+ join "," (map member_text (p :: l))).
      rewrite !length_app. simpl. lia. }
    rewrite Hlen in Hf. rewrite (Hx f) by (done || lia). subst t.
    change ("," +:+ join "," (map member_text (p :: l)) +:+ "}" +:+ s)
      with (String (Ascii.ascii_of_nat 44) (join "," (map member_text (p :: l)) +:+ "}" +:+ s)).
    cbn [skip_ws]. change (is_ws (Ascii.ascii_of_nat 44)) with false. cbv iota.
    change (Nat.eqb (code (Ascii.ascii_of_nat 44)) 125) with false. change (Nat.eqb (code (Ascii.ascii_of_nat 44)) 44) with true. cbv iota.
    assert (skip_ws (join "," (map member_text (p :: l)) +:+ "}" +:+ s) = join "," (map member_text (p :: l)) +:+ "}" +:+ s) as ->.
    { rewrite (join_cons member_text). apply skip_plain. done. }
    rewrite IH; [done|done|done|lia].
Qed.

Lemma dumps_length j : (1 <= String.length (dumps j))%nat.
Proof.
  pose proof (dumps_starts j EmptyString) as H. destruct (dumps j); [by destruct j|]. simpl. lia.
Qed.

Lemma forall_distinct {A} (f : A -> json) (l : list A) :
  fold_right and True (map (fun a => distinct_keys (f a)) l) -> Forall (fun a => distinct_keys (f a)) l.
Proof. induction l as [|a l IH]; [done|]. simpl. intros [? ?]. constructor; auto. Qed.

Lemma no_word_int z s : exists c r, json_int z +:+ s = String c r /\
  (Nat.eqb (code c) 34 || Nat.eqb (code c) 91 || Nat.eqb (code c) 123 || Nat.eqb (code c) 110 || Nat.eqb (code c) 116 || Nat.eqb (code c) 102) = false.
Proof.
  pose proof (json_int_numeric z) as Hn. destruct (json_int z) as [|c r] eqn:E; [by apply json_int_cons in E|].
  exists c, (r +:+ s). split; [done|]. cbn [numeric] in Hn. apply andb_true_iff in Hn as [Hc _]. unfold code. set (n := Ascii.nat_of_ascii c) in *.
  clearbody n. repeat (apply orb_false_iff; split); apply Nat.eqb_neq; intros ->; discriminate.
Qed.

Lemma read_dumps j : distinct_keys j -> forall f, (String.length (dumps j) <= f)%nat -> reads f j.
Proof.
  induction j as [|b|z|x|l IH|l IH] using json_ind_nested; intros Hd f Hf s Hs;
    (destruct f as [|f]; [match goal with H : (String.length (dumps ?j) <= 0)%nat |- _ => pose proof (dumps_length j); lia end|]).
  - done.
  - by destruct b.
  - destruct (no_word_int z s) as (c & r & E & Hc). simpl dumps. pose proof (read_number_int z s Hs) as Hr. rewrite E in *.
    repeat (apply orb_false_iff in Hc as [Hc ?]). cbn [read_value]. rewrite Hc. repeat match goal with H : _ = false |- _ => rewrite H end.
    assert (forall a w, Nat.eqb (code c) (code a) = false -> word (String a w) (String c r) = None) as Hw.
    { intros a w Ha. cbn [word]. destruct (Ascii.eqb_spec a c) as [->|]; [by rewrite Nat.eqb_refl in Ha|done]. }
    rewrite !Hw by done. done.
  - simpl dumps. unfold json_string. rewrite !str_app_assoc.
    change (quote_mark +:+ json_chars x +:+ quote_mark +:+ s) with (String (Ascii.ascii_of_nat 34) (json_chars x +:+ quote_mark +:+ s)).
    cbn [read_value]. change (Nat.eqb (code (Ascii.ascii_of_nat 34)) 34) with true. cbv iota. by rewrite read_json_string.
  - simpl in Hd. apply (forall_distinct id) in Hd.
    assert (Forall (fun j => forall f, (String.length (dumps j) <= f)%nat -> reads f j) l) as Hall.
    { clear -IH Hd. induction l; constructor; inversion IH; inversion Hd; subst; auto. }
    simpl dumps. rewrite !str_app_assoc. change ("[" +:+ join "," (map dumps l) +:+ "]" +:+ s)
      with (String (Ascii.ascii_of_nat 91) (join "," (map dumps l) +:+ "]" +:+ s)).
    cbn [read_value]. change (Nat.eqb (code (Ascii.ascii_of_nat 91)) 34) with false. change (Nat.eqb (code (Ascii.ascii_of_nat 91)) 91) with true. cbv iota.
    destruct l as [|y l]; [done|].
    assert (starts (join "," (map dumps (y :: l)) +:+ "]" +:+ s) = kind_of y) as Hst by (rewrite (join_cons dumps); apply dumps_starts).
    simpl dumps in Hf. rewrite !length_app in Hf. simpl String.length in Hf at 1.
    pose proof (read_items_ok (y :: l) f s) as Hr.
    destruct (join "," (map dumps (y :: l)) +:+ "]" +:+ s) as [|c r] eqn:E; [by destruct y|].
    rewrite skip_plain by (apply starts_plain; rewrite Hst; by destruct y).
    assert (Nat.eqb (code c) 93 = false) as ->.
    { apply Nat.eqb_neq. intros Hc. unfold starts, code in *. rewrite Hc in Hst. simpl in Hst. by destruct y. }
    rewrite Hr; [done|done|done|]. simpl in Hf. simpl. lia.
  - destruct Hd as [Hkeys Hd]. apply (forall_distinct snd) in Hd.
    assert (Forall (fun p => forall f, (String.length (dumps (snd p)) <= f)%nat -> reads f (snd p)) l) as Hall.
    { clear -IH Hd. induction l; constructor; inversion IH; inversion Hd; subst; auto. }
    simpl dumps. rewrite !str_app_assoc. fold member_text.
    change ("{" +:+ join "," (map member_text l) +:+ "}" +:+ s) with (String (Ascii.ascii_of_nat 123) (join "," (map member_text l) +:+ "}" +:+ s)).
    cbn [read_value]. change (Nat.eqb (code (Ascii.ascii_of_nat 123)) 34) with false. change (Nat.eqb (code (Ascii.ascii_of_nat 123)) 91) with false.
    change (Nat.eqb (code (Ascii.ascii_of_nat 123)) 123) with true. cbv iota.
    destruct l as [|[k v] l]; [done|].
    assert (exists r, join "," (map member_text ((k, v) :: l)) +:+ "}" +:+ s = String (Ascii.ascii_of_nat 34) r) as [r E].
    { rewrite (join_cons member_text). by eexists. }
    change (S (String.length (join "," (map member_text ((k, v) :: l)) +:+ "}")) <= S f)%nat in Hf. rewrite length_app in Hf. simpl String.length in Hf at 2.
    pose proof (read_members_ok ((k, v) :: l) f s) as Hr. rewrite E in *.
    rewrite skip_plain by done. change (Nat.eqb (code (Ascii.ascii_of_nat 34)) 125) with false. cbv iota.
    rewrite Hr; [|done|done|lia]. by rewrite dict_of_distinct.
Qed.

(** The round trip: what [json.dumps] wrote is what [json.loads] reads. *)
Theorem loads_dumps j : distinct_keys j -> loads (dumps j) = Some j.
Proof.
  intros Hd. unfold loads. pose proof (dumps_plain j EmptyString) as Hp. assert (forall s, s +:+ EmptyString = s) as Hnil.
  { intros s. induction s as [|c s IH]; [done|]. exact (f_equal (String c) IH). }
  pose proof (read_dumps j Hd (S (String.length (dumps j))) ltac:(lia) EmptyString eq_refl) as H.
  rewrite Hnil in Hp, H. by rewrite Hp, H.
Qed.

(** So does one with white space around it, such as a trailing newline. *)
Lemma loads_dumps_newline j : distinct_keys j -> loads (dumps j +:+ ch 10) = Some j.
Proof.
  intros Hd. unfold loads. rewrite dumps_plain. rewrite (read_dumps j Hd); [done| |done]. rewrite length_app. lia.
Qed.

Example loads_example :
  loads " [1, -20 , true,[ ]] " = Some (JArray [JInt 1; JInt (-20); JBool true; JArray []]) /\
  loads "[1.5]" = None /\ loads "[01]" = None /\ loads "[1,]" = None.
Proof. done. Qed.

(** ** Bytes

    [json.loads] of bytes.  The reader of [JsonRead] covers ASCII text without floats; for any
    other bytes the answer of the library is an argument, and nothing below depends on it. *)
Inductive parsed := Value (j : json) | NotJson | Undecodable.
Definition ascii_char (c : Ascii.ascii) : bool :=
  let n := Ascii.nat_of_ascii c in Nat.leb 1 n && Nat.leb n 127.
Definition json_loads (other : string -> parsed) (content : string) : parsed :=
  match (if all_chars ascii_char content then loads content else None) with
  | Some j => Value j
  | None => other content
  end.


Lemma json_chars_ascii s : all_chars ascii_char (json_chars s) = true.
Proof.
  induction s as [|c s IH]; [done|]. cbn [json_chars]. rewrite all_chars_app, IH, andb_true_r.
  by destruct c as [[] [] [] [] [] [] [] []].
Qed.

Lemma json_string_ascii s : all_chars ascii_char (json_string s) = true.
Proof. unfold json_string. by rewrite !all_chars_app, json_chars_ascii. Qed.

Lemma numeric_ascii s : numeric s = true -> all_chars ascii_char s = true.
Proof.
  induction s as [|c s IH]; [done|]. cbn [numeric all_chars]. intros [Hc Hs]%andb_prop.
  rewrite IH by done. rewrite andb_true_r. revert Hc. by destruct c as [[] [] [] [] [] [] [] []].
Qed.

Lemma join_ascii l : Forall (fun s => all_chars ascii_char s = true) l -> all_chars ascii_char (join "," l) = true.
Proof.
  induction 1 as [|s l Hs Hl IH]; [done|]. destruct l as [|t l]; [done|].
  cbn [join]. rewrite !all_chars_app, Hs. simpl. exact IH.
Qed.

(** What [json.dumps] writes is ASCII. *)
Lemma dumps_ascii j : all_chars ascii_char (dumps j) = true.
Proof.
  induction j as [| | | |l IH|l IH] using json_ind_nested; try done.
  - by destruct b.
  - apply numeric_ascii, json_int_numeric.
  - apply json_string_ascii.
  - cbn [dumps]. rewrite !all_chars_app, join_ascii; [done|]. apply Forall_fmap. exact IH.
  - cbn [dumps]. rewrite !all_chars_app, join_ascii; [done|]. apply Forall_fmap.
    eapply Forall_impl; [exact IH|]. intros [k v] Hv. cbn [snd] in Hv. change (all_chars ascii_char (json_string k +:+ ":" +:+ dumps v) = true). by rewrite !all_chars_app, json_string_ascii, Hv.
Qed.

Lemma json_loads_dumps other j : distinct_keys j -> json_loads other (dumps j) = Value j.
Proof. intros H. unfold json_loads. rewrite dumps_ascii. by rewrite loads_dumps. Qed.
