(* ===== verification/Disposition.v ===== *)
(** * What a failure does to its work

    The shared disposition tables
    ([agent_protocol/src/vonk_agent_protocol/disposition.py]), the security
    edges ([control/src/vonk_control/security_edges.py]) and the Controller's
    one classifier ([control/src/vonk_control/failure_classification.py]).

    A Python exception is modelled by what the classifier reads of it: its
    class among those tested with [isinstance], its [disposition], [code] and
    [typed_reason] attributes, and the exception it was raised from. *)
From S2P Require Import Prelude Vocabulary.

(** What a failure does to the work it interrupted: the one verdict. *)
Module Disposition.
Inductive Disposition :=
  FAIL | WAIT | OBSERVE | SECURITY.
Definition Disposition_value (e : Disposition) : string :=
  match e with
  | FAIL => "fail"
  | WAIT => "wait"
  | OBSERVE => "observe"
  | SECURITY => "security"
  end.
#[global] Instance Disposition_eq : EqDecision Disposition.
Proof. solve_decision. Defined.
#[global] Instance Disposition_enum : WireEnum Disposition.
Proof.
  refine {| members :=
    [FAIL; WAIT; OBSERVE; SECURITY];
    value := Disposition_value |}; solve_wire_enum.
Defined.
End Disposition.
Abbreviation Disposition := Disposition.Disposition.

(** The failure kinds an agent types its results with. *)
Module AgentFailureKind.
Inductive AgentFailureKind :=
  TEMPORARY_DEPENDENCY | UNCERTAIN_EFFECT | INVALID_AUTHORITY | INVALID_CONTRACT
  | INTEGRITY_FAILURE | RESOURCE_PREREQUISITE.
Definition AgentFailureKind_value (e : AgentFailureKind) : string :=
  match e with
  | TEMPORARY_DEPENDENCY => "temporary-dependency"
  | UNCERTAIN_EFFECT => "uncertain-effect"
  | INVALID_AUTHORITY => "invalid-authority"
  | INVALID_CONTRACT => "invalid-contract"
  | INTEGRITY_FAILURE => "integrity-failure"
  | RESOURCE_PREREQUISITE => "resource-prerequisite"
  end.
#[global] Instance AgentFailureKind_eq : EqDecision AgentFailureKind.
Proof. solve_decision. Defined.
#[global] Instance AgentFailureKind_enum : WireEnum AgentFailureKind.
Proof.
  refine {| members :=
    [TEMPORARY_DEPENDENCY; UNCERTAIN_EFFECT; INVALID_AUTHORITY; INVALID_CONTRACT;
     INTEGRITY_FAILURE; RESOURCE_PREREQUISITE];
    value := AgentFailureKind_value |}; solve_wire_enum.
Defined.
End AgentFailureKind.
Abbreviation AgentFailureKind := AgentFailureKind.AgentFailureKind.

(** Where failing closed is right: the only causes a refusal may carry. *)
Module SecurityEdge.
Inductive SecurityEdge :=
  AUTHENTICATION | AUTHORISATION | IDENTITY | REVOCATION | SIGNED_METADATA | INGRESS_DIGEST
  | FENCE.
Definition SecurityEdge_value (e : SecurityEdge) : string :=
  match e with
  | AUTHENTICATION => "authentication"
  | AUTHORISATION => "authorisation"
  | IDENTITY => "identity"
  | REVOCATION => "revocation"
  | SIGNED_METADATA => "signed-metadata"
  | INGRESS_DIGEST => "ingress-digest"
  | FENCE => "fence"
  end.
#[global] Instance SecurityEdge_eq : EqDecision SecurityEdge.
Proof. solve_decision. Defined.
#[global] Instance SecurityEdge_enum : WireEnum SecurityEdge.
Proof.
  refine {| members :=
    [AUTHENTICATION; AUTHORISATION; IDENTITY; REVOCATION; SIGNED_METADATA; INGRESS_DIGEST;
     FENCE];
    value := SecurityEdge_value |}; solve_wire_enum.
Defined.
End SecurityEdge.
Abbreviation SecurityEdge := SecurityEdge.SecurityEdge.

(** ** The shared tables *)
Definition FAILURE_KIND_DISPOSITION (k : AgentFailureKind) : Disposition :=
  match k with
  | AgentFailureKind.TEMPORARY_DEPENDENCY => Disposition.WAIT
  | AgentFailureKind.RESOURCE_PREREQUISITE => Disposition.WAIT
  | AgentFailureKind.UNCERTAIN_EFFECT => Disposition.OBSERVE
  | AgentFailureKind.INVALID_AUTHORITY => Disposition.SECURITY
  | AgentFailureKind.INVALID_CONTRACT => Disposition.FAIL
  | AgentFailureKind.INTEGRITY_FAILURE => Disposition.FAIL
  end.

Definition WAIT_REASON_DISPOSITION (r : WaitReason) : Disposition :=
  match r with
  | WaitReason.SPARK_BUSY => Disposition.WAIT
  | WaitReason.OPERATION_NOT_ENABLED => Disposition.WAIT
  | WaitReason.UPGRADE_AWAITING_IDENTITY => Disposition.WAIT
  | WaitReason.AGENT_RESTART_INTERRUPTED => Disposition.OBSERVE
  | WaitReason.STOP_UNCONFIRMED => Disposition.OBSERVE
  | WaitReason.CLEANUP_UNCONFIRMED => Disposition.OBSERVE
  | WaitReason.STOP_METADATA_UNCONFIRMED => Disposition.OBSERVE
  | WaitReason.RETAINED_IDENTITY_MISMATCH => Disposition.OBSERVE
  | WaitReason.MODEL_CUSTODY_UNCONFIRMED => Disposition.OBSERVE
  | WaitReason.RUNTIME_EFFECT_UNCONFIRMED => Disposition.OBSERVE
  | WaitReason.JOB_STOP_UNCONFIRMED => Disposition.OBSERVE
  | WaitReason.JOB_STATE_UNCERTAIN => Disposition.OBSERVE
  | WaitReason.LEASE_LAPSED => Disposition.OBSERVE
  | WaitReason.REPORT_UNCERTAIN => Disposition.OBSERVE
  | WaitReason.OBSERVATION_UNAVAILABLE => Disposition.OBSERVE
  | WaitReason.RECEIPT_MISSING => Disposition.OBSERVE
  | WaitReason.STALE_PLAN => Disposition.OBSERVE
  | WaitReason.SCOPE_CHANGED => Disposition.OBSERVE
  | WaitReason.LEGACY_UNCLASSIFIED => Disposition.OBSERVE
  end.

(** HTTP statuses, first match wins: [(first, last, disposition)]. *)
Definition HTTP_STATUS_DISPOSITIONS : list (Z * Z * Disposition) :=
  [(401, 401, Disposition.SECURITY);
   (403, 403, Disposition.SECURITY);
   (429, 429, Disposition.WAIT);
   (400, 499, Disposition.FAIL);
   (500, 599, Disposition.WAIT)].

Definition http_status_disposition (status : Z) : Disposition :=
  match find (fun '(first, last, _) => (first <=? status) && (status <=? last))
             HTTP_STATUS_DISPOSITIONS with
  | Some (_, _, verdict) => verdict
  | None => Disposition.OBSERVE
  end.

(** Every closed security reason and the one edge it guards. *)
Definition SECURITY_REFUSAL_EDGES (r : SecurityRefusalReason) : SecurityEdge :=
  match r with
  | SecurityRefusalReason.HTTP_401 => SecurityEdge.AUTHENTICATION
  | SecurityRefusalReason.HTTP_403 => SecurityEdge.AUTHORISATION
  | SecurityRefusalReason.AGENT_CERTIFICATE_ROTATION_CONFLICT => SecurityEdge.IDENTITY
  | SecurityRefusalReason.AGENT_ENROLLMENT_SUBMIT_REJECTED => SecurityEdge.AUTHENTICATION
  | SecurityRefusalReason.AGENT_EXPIRED_RENEWAL_REFUSED => SecurityEdge.IDENTITY
  | SecurityRefusalReason.AGENT_EXPIRED_RENEWAL_GRACE_EXHAUSTED => SecurityEdge.IDENTITY
  | SecurityRefusalReason.AGENT_IDENTITY_MISMATCH => SecurityEdge.IDENTITY
  | SecurityRefusalReason.AGENT_TOMBSTONE_FENCED => SecurityEdge.FENCE
  | SecurityRefusalReason.CATALOG_AUTHENTICATION_REQUIRED => SecurityEdge.AUTHENTICATION
  | SecurityRefusalReason.CONTROLLER_AUTHENTICATION_REQUIRED => SecurityEdge.AUTHENTICATION
  | SecurityRefusalReason.CONTROLLER_FLEET_ENROLLMENT_DENIED => SecurityEdge.AUTHORISATION
  | SecurityRefusalReason.CONTROLLER_REQUEST_REJECTED => SecurityEdge.AUTHORISATION
  | SecurityRefusalReason.DIGEST_MISMATCH => SecurityEdge.INGRESS_DIGEST
  | SecurityRefusalReason.DISTRIBUTION_REVOKED => SecurityEdge.REVOCATION
  | SecurityRefusalReason.FORBIDDEN => SecurityEdge.AUTHORISATION
  | SecurityRefusalReason.GRANT_INVALID => SecurityEdge.SIGNED_METADATA
  | SecurityRefusalReason.GRANT_NODE_MISMATCH => SecurityEdge.AUTHORISATION
  | SecurityRefusalReason.GRANT_UNAUTHORIZED => SecurityEdge.AUTHORISATION
  | SecurityRefusalReason.HELPER_AUTHORIZATION_INVALID => SecurityEdge.AUTHORISATION
  | SecurityRefusalReason.HELPER_GRANT_INVALID => SecurityEdge.SIGNED_METADATA
  | SecurityRefusalReason.HELPER_GRANT_NODE_MISMATCH => SecurityEdge.AUTHORISATION
  | SecurityRefusalReason.HELPER_GRANT_UNAUTHORIZED => SecurityEdge.AUTHORISATION
  | SecurityRefusalReason.HELPER_OPERATION_INVALID_ARTIFACT => SecurityEdge.INGRESS_DIGEST
  | SecurityRefusalReason.HELPER_PEER_IDENTITY_INVALID => SecurityEdge.IDENTITY
  | SecurityRefusalReason.HELPER_REQUEST_INSTALLATION_IDENTITY_INVALID => SecurityEdge.SIGNED_METADATA
  | SecurityRefusalReason.HELPER_REQUEST_PLAN_BINDING_INVALID => SecurityEdge.SIGNED_METADATA
  | SecurityRefusalReason.HELPER_REQUEST_REPLAYED => SecurityEdge.FENCE
  | SecurityRefusalReason.HELPER_RUNTIME_IMAGE_IDENTITY_INVALID => SecurityEdge.INGRESS_DIGEST
  | SecurityRefusalReason.HOST_HELPER_AUTHORITY_DENIED => SecurityEdge.AUTHORISATION
  | SecurityRefusalReason.LOCAL_IDENTITY_EXPIRED => SecurityEdge.IDENTITY
  | SecurityRefusalReason.LOCAL_IDENTITY_FAILED => SecurityEdge.IDENTITY
  | SecurityRefusalReason.MODEL_CACHE_CREDENTIALS_DENIED => SecurityEdge.AUTHENTICATION
  | SecurityRefusalReason.MODEL_CACHE_CREDENTIALS_INVALID => SecurityEdge.AUTHENTICATION
  | SecurityRefusalReason.MODEL_CACHE_SOURCE_ACCESS_DENIED => SecurityEdge.AUTHORISATION
  | SecurityRefusalReason.OPERATION_INVALID_ARTIFACT => SecurityEdge.INGRESS_DIGEST
  | SecurityRefusalReason.PEER_IDENTITY_INVALID => SecurityEdge.IDENTITY
  | SecurityRefusalReason.PERMISSION_DENIED => SecurityEdge.AUTHORISATION
  | SecurityRefusalReason.RECIPE_UPDATE_AUTHORITY_DENIED => SecurityEdge.AUTHORISATION
  | SecurityRefusalReason.REQUEST_REPLAYED => SecurityEdge.FENCE
  | SecurityRefusalReason.RUN_SWITCH_ARTIFACT_DIGEST_VERIFICATION_FAILED => SecurityEdge.INGRESS_DIGEST
  | SecurityRefusalReason.RUN_SWITCH_CLEANUP_NAS_EVICTION_FORBIDDEN => SecurityEdge.AUTHORISATION
  | SecurityRefusalReason.RUN_SWITCH_CLEANUP_RECLAIMED_DIGEST_NOT_PLANNED => SecurityEdge.AUTHORISATION
  | SecurityRefusalReason.RUN_SWITCH_RUNTIME_IMAGE_PREPARATION_DIGEST_MISMATCH => SecurityEdge.INGRESS_DIGEST
  | SecurityRefusalReason.RUNTIME_IMAGE_AUTHORIZATION_INVALID => SecurityEdge.SIGNED_METADATA
  | SecurityRefusalReason.RUNTIME_IMAGE_AUTHORIZATION_REVOKED => SecurityEdge.REVOCATION
  | SecurityRefusalReason.RUNTIME_IMAGE_IDENTITY_INVALID => SecurityEdge.INGRESS_DIGEST
  | SecurityRefusalReason.STALE_FENCE => SecurityEdge.FENCE
  | SecurityRefusalReason.TUF_METADATA_INVALID => SecurityEdge.SIGNED_METADATA
  | SecurityRefusalReason.TUF_SIGNATURE_INVALID => SecurityEdge.SIGNED_METADATA
  | SecurityRefusalReason.UNAUTHORIZED => SecurityEdge.AUTHENTICATION
  | SecurityRefusalReason.UNSAFE_PATH => SecurityEdge.AUTHORISATION
  end.

(** ** The classifier *)

(** The classes the classifier tells apart with [isinstance]; [OtherError] is
    every class it does not name. *)
Inductive error_class :=
| SecurityRefusalError (typed_reason : option SecurityRefusalReason)
| UnknownOutcomeError
| HTTPStatusError (status_code : Z)
| TransportError (unsupported_protocol : bool)
| StaleDataError
| DBAPIError (operational connection_invalidated lock_contention : bool)
| DatabasePoolTimeout
| OtherSQLAlchemyError
| TransientIOError (* ConnectionError, TimeoutError, BlockingIOError *)
| OSError (errno : option Z)
| OtherError.

Inductive exception := Exception_ {
  cls : error_class;
  declared : option Disposition; (* the [disposition] attribute, when it is one *)
  code : option string; (* the [code] attribute, when it is a string *)
  typed_wait : option WaitReason; (* the [typed_reason] attribute, when a wait reason *)
  cause : option exception; (* [__cause__] *)
}.

Definition _SECURITY_CODES : list string := value <$> members (E:=SecurityRefusalReason).
Definition _REDOWNLOAD_SUFFIXES : list string := [".digest_mismatch"; ".archive_mismatch"]%string.

(** [code.strip().casefold()], the empty string for no code. *)
Definition _normalized (c : option string) : string :=
  match c with Some s => lower (strip s) | None => EmptyString end.

Definition is_security_failure (c : option string) : bool :=
  let v := _normalized c in
  bool_decide (v <> EmptyString)
  && (mem v _SECURITY_CODES || existsb (fun s => ends_with s v) SECURITY_REFUSAL_SUFFIXES).

Definition is_redownload (c : option string) : bool :=
  let v := _normalized c in
  existsb (fun s => ends_with s v) _REDOWNLOAD_SUFFIXES
  || mem v ["digest_mismatch"; "archive_mismatch"]%string.

Definition is_sqlalchemy (k : error_class) : bool :=
  match k with
  | StaleDataError | DBAPIError _ _ _ | DatabasePoolTimeout | OtherSQLAlchemyError => true
  | _ => false
  end.

Definition _is_transient_database_error (k : error_class) : bool :=
  match k with
  | DatabasePoolTimeout => true
  | DBAPIError operational invalidated _ => operational || invalidated
  | _ => false
  end.

Definition CONTROLLER_UNAVAILABLE : string := "controller.unavailable".

Definition _own_code (e : exception) : option string :=
  match cls e with
  | SecurityRefusalError (Some r) => Some (value r)
  | k =>
      if is_sqlalchemy k then
        if _is_transient_database_error k then Some CONTROLLER_UNAVAILABLE else None
      else if truthy_str (code e) then code e else None
  end.

(** The codes of an exception and the exceptions it was raised from, at most [n]. *)
Fixpoint cause_codes (n : nat) (e : option exception) : list (option string) :=
  match n, e with
  | S n', Some x => _own_code x :: cause_codes n' (cause x)
  | _, _ => []
  end.

Definition error_code (e : exception) : option string :=
  let codes := cause_codes 16 (Some e) in
  match find is_security_failure codes with
  | Some c => c
  | None => hd None codes
  end.

(** [errno] values of the Linux hosts the Controller runs on. *)
Definition _TRANSIENT_ERRNOS : list Z :=
  [11 (* EAGAIN *); 16 (* EBUSY *); 122 (* EDQUOT *); 113 (* EHOSTUNREACH *); 4 (* EINTR *);
   5 (* EIO *); 100 (* ENETDOWN *); 101 (* ENETUNREACH *); 12 (* ENOMEM *); 28 (* ENOSPC *);
   116 (* ESTALE *); 110 (* ETIMEDOUT *)].

Definition is_security_refusal (k : error_class) : bool :=
  match k with SecurityRefusalError _ => true | _ => false end.

(** This error's own verdict, or [None] when only its cause can tell. *)
Definition _own_disposition (e : exception) : option Disposition :=
  match declared e with
  | Some d => Some d
  | None =>
      if is_security_failure (_own_code e) || is_security_refusal (cls e)
      then Some Disposition.SECURITY
      else
        match cls e with
        | UnknownOutcomeError =>
            Some (match typed_wait e with
                  | None => Disposition.OBSERVE
                  | Some r => WAIT_REASON_DISPOSITION r
                  end)
        | HTTPStatusError status => Some (http_status_disposition status)
        | TransportError unsupported => if unsupported then None else Some Disposition.WAIT
        | StaleDataError => Some Disposition.WAIT
        | TransientIOError => Some Disposition.WAIT
        | OSError (Some n) => if mem n _TRANSIENT_ERRNOS then Some Disposition.WAIT else None
        | OSError None => Some Disposition.OBSERVE
        | k => if is_sqlalchemy k && _is_transient_database_error k
               then Some Disposition.WAIT else None
        end
  end.

(** The first verdict along the causes, at most [n] of them. *)
Fixpoint cause_disposition (n : nat) (e : option exception) : Disposition :=
  match n, e with
  | S n', Some x =>
      match _own_disposition x with
      | Some verdict => verdict
      | None => cause_disposition n' (cause x)
      end
  | _, _ => Disposition.FAIL
  end.

(** [BaseException | AgentFailureKind | Disposition] *)
Inductive failure_cause :=
| CauseError (e : exception)
| CauseKind (k : AgentFailureKind)
| CauseVerdict (d : Disposition).

Definition disposition (c : failure_cause) : Disposition :=
  match c with
  | CauseVerdict d => d
  | CauseKind k => FAILURE_KIND_DISPOSITION k
  | CauseError e => cause_disposition 16 (Some e)
  end.

Definition lock_contention (k : error_class) : bool :=
  match k with
  | StaleDataError => true
  | DBAPIError _ _ locked => locked
  | _ => false
  end.

Fixpoint cause_wait_reason (n : nat) (e : option exception) : WaitReason :=
  match n, e with
  | S n', Some x =>
      if lock_contention (cls x) then WaitReason.SCOPE_CHANGED
      else match typed_wait x with
           | Some r => r
           | None => cause_wait_reason n' (cause x)
           end
  | _, _ => WaitReason.OBSERVATION_UNAVAILABLE
  end.

Definition wait_reason (e : exception) : option WaitReason :=
  if mem (disposition (CauseError e)) [Disposition.WAIT; Disposition.OBSERVE]
  then Some (cause_wait_reason 16 (Some e)) else None.

Definition is_definite (c : failure_cause) : bool :=
  mem (disposition c) [Disposition.FAIL; Disposition.SECURITY].

(** ** Theorems *)

(** An HTTP status is a security refusal exactly at 401 and 403, a wait
    exactly at 429 and every 5xx, a definite failure at every other 4xx, and is
    observed otherwise: no status is both retried and failed. *)
Theorem http_status_disposition_spec status :
  http_status_disposition status =
    if (status =? 401) || (status =? 403) then Disposition.SECURITY
    else if (status =? 429) || ((500 <=? status) && (status <=? 599)) then Disposition.WAIT
    else if (400 <=? status) && (status <=? 499) then Disposition.FAIL
    else Disposition.OBSERVE.
Proof. unfold http_status_disposition. cbn. repeat case_match; simplify_eq; done || lia. Qed.

(** [wraps n e inner]: [e] re-raises [inner] through [n] wrappers that state no
    verdict of their own. *)
Inductive wraps : nat -> exception -> exception -> Prop :=
| wraps_here e : wraps 0 e e
| wraps_from n e x inner :
    _own_disposition e = None -> cause e = Some x -> wraps n x inner -> wraps (S n) e inner.

Lemma wraps_cause_disposition n e inner d k :
  wraps n e inner -> (n < k)%nat -> _own_disposition inner = Some d ->
  cause_disposition k (Some e) = d.
Proof.
  intros Hw. revert k. induction Hw as [e|n e x inner Hn Hc _ IH]; intros [|k] Hk Hd; try lia; simpl.
  - by rewrite Hd.
  - rewrite Hn, Hc. apply IH; [lia|done].
Qed.

(** Re-raising an error under wrappers that say nothing themselves keeps its
    verdict: a busy owner stays a wait and an authority failure stays terminal
    through any fifteen wrappers. *)
Theorem wrapped_disposition n e inner d :
  wraps n e inner -> (n < 16)%nat -> _own_disposition inner = Some d ->
  disposition (CauseError e) = d.
Proof. intros. by eapply wraps_cause_disposition. Qed.

(** A typed tombstone fence under two silent phase errors. *)
Definition fenced : exception :=
  Exception_ (SecurityRefusalError (Some SecurityRefusalReason.AGENT_TOMBSTONE_FENCED))
    None None None None.
Definition phase_error (e : exception) : exception :=
  Exception_ OtherError None (Some "run-switch.phase-failed"%string) None (Some e).

Lemma wrapped_disposition_witness :
  disposition (CauseError (phase_error (phase_error fenced))) = Disposition.SECURITY.
Proof.
  apply (wrapped_disposition 2 (phase_error (phase_error fenced)) fenced Disposition.SECURITY).
  - eapply wraps_from; [vm_compute; reflexivity|reflexivity|].
    eapply wraps_from; [vm_compute; reflexivity|reflexivity|]. constructor.
  - lia.
  - vm_compute. reflexivity.
Defined.

(** The code a failure reports is the security code of whichever error in its
    first sixteen causes carries one: a wrapper's own code cannot hide it. *)
Theorem error_code_keeps_security e n c :
  cause_codes 16 (Some e) !! n = Some c -> is_security_failure c = true ->
  is_security_failure (error_code e) = true.
Proof.
  intros Hc Hs. unfold error_code.
  destruct (find is_security_failure _) as [x|] eqn:Ef.
  - by apply List.find_some in Ef as [_ ?].
  - apply list_elem_of_lookup_2, list_elem_of_In in Hc.
    by rewrite (List.find_none _ _ Ef c Hc) in Hs.
Qed.

Lemma error_code_keeps_security_witness :
  is_security_failure (error_code (phase_error fenced)) = true.
Proof.
  apply (error_code_keeps_security (phase_error fenced) 1
           (Some "agent.tombstone_fenced"%string)); vm_compute; reflexivity.
Defined.

(** A typed reason to wait exists exactly for the failures that are not
    definite, so a row is either ended or knows what it waits for. *)
Theorem wait_reason_iff_not_definite e :
  wait_reason e = None <-> is_definite (CauseError e) = true.
Proof.
  unfold wait_reason, is_definite. destruct (disposition (CauseError e)); simpl;
    repeat case_match; vm_compute; naive_solver.
Qed.
