(* ===== verification/Recovery.v ===== *)
(** * The shared retry clock

    [control/src/vonk_control/recovery_policy.py]: the failure kind of an
    already validated observation, the bounded and jittered delay of the next
    attempt, and the one retry decision of an owner outside the lifecycle core.
    The jitter is the SHA-256 digest of the operation and its failure count, as
    in the source, so a restart recomputes the same time. *)
From S2P Require Import Prelude Sha256 Vocabulary Disposition.

Open Scope string_scope.
Open Scope Z_scope.

(** [kind_for_failure_fields] *)
Definition kind_for_failure_fields (failure_kind error_code : option string) (uncertain : bool)
  : AgentFailureKind :=
  match failure_kind with
  | Some raw =>
      match of_word raw with
      | Some k => k
      | None => AgentFailureKind.INVALID_CONTRACT
      end
  | None =>
      if bool_decide (error_code = Some (value FailureCode.RETAINED_CONTAINER_FOREIGN))
      then AgentFailureKind.RESOURCE_PREREQUISITE
      else if uncertain || bool_decide (error_code = Some "operation_outcome_uncertain")
      then AgentFailureKind.UNCERTAIN_EFFECT
      else if bool_decide (error_code = Some "agent_lease_expired")
      then AgentFailureKind.UNCERTAIN_EFFECT
      else AgentFailureKind.INVALID_CONTRACT
  end.

Record RecoveryPolicy := {
  max_failures : Z;
  base_delay_seconds : Z;
  max_delay_seconds : Z;
}.

Definition is_naive (d : datetime) : bool := match d with Naive _ => true | Aware _ => false end.

(** The delay before jitter: doubled per failure, capped. *)
Definition backoff_cap (p : RecoveryPolicy) (failed_attempts : Z) : Z :=
  Z.min (max_delay_seconds p) (base_delay_seconds p * 2 ^ Z.min (failed_attempts - 1) 30).

Definition backoff_lower (p : RecoveryPolicy) (n : Z) : Z := Z.max 1 (backoff_cap p n * 3 / 4).

Definition backoff_upper (p : RecoveryPolicy) (n : Z) : Z :=
  Z.max (backoff_lower p n) (Z.min (max_delay_seconds p) (backoff_cap p n * 5 / 4)).

(** [f"{operation_id}:{failed_attempts}"] *)
Definition jitter_text (operation_id : string) (failed_attempts : Z) : string :=
  operation_id +:+ ":" +:+ pretty failed_attempts.

Definition next_attempt (p : RecoveryPolicy) (operation_id : string) (failed_attempts : Z)
    (now : datetime) (retry_after : option datetime) (ongoing_intent : bool)
  : result (option instant) :=
  if bool_decide (operation_id = "") || (failed_attempts <? 1) then
    Raise (ValueError "operation ID and positive failure count are required")
  else if (max_failures p <? 1) || (base_delay_seconds p <? 1)
          || (max_delay_seconds p <? base_delay_seconds p) then
    Raise (ValueError "invalid recovery policy")
  else if negb ongoing_intent && (max_failures p <=? failed_attempts) then Ok None
  else if is_naive now || match retry_after with Some r => is_naive r | None => false end then
    Raise (ValueError "recovery times must be timezone aware")
  else
    let lower := backoff_lower p failed_attempts in
    let upper := backoff_upper p failed_attempts in
    let entropy := Sha256.first8 (jitter_text operation_id failed_attempts) in
    let scheduled := to_utc now + seconds (lower + entropy mod (upper - lower + 1)) in
    Ok (Some (match retry_after with
              | Some r => Z.max scheduled (to_utc r)
              | None => scheduled
              end)).

Definition exhausted (p : RecoveryPolicy) (failures : Z) : bool := max_failures p <=? failures.

(** The backoff step a wait is re-checked at. *)
Definition WAIT_STEP : Z := 2.

Definition RECOVERY : RecoveryPolicy :=
  {| max_failures := 5; base_delay_seconds := 2; max_delay_seconds := 60 |}.
Definition ROUTE_RECOVERY : RecoveryPolicy :=
  {| max_failures := 6; base_delay_seconds := 5; max_delay_seconds := 60 |}.
Definition DISTRIBUTED_RECOVERY : RecoveryPolicy :=
  {| max_failures := 5; base_delay_seconds := 5; max_delay_seconds := 300 |}.

Record Scheduled := {
  failures : Z;
  next_at : option instant;
}.

Definition schedule (p : RecoveryPolicy) (operation_id : string) (failures_ : Z)
    (verdict : Disposition) (now : datetime) (retry_after : option datetime) : result Scheduled :=
  if mem verdict [Disposition.FAIL; Disposition.SECURITY] then
    Ok {| failures := failures_; next_at := None |}
  else if same verdict Disposition.WAIT then
    at_ ← next_attempt p operation_id WAIT_STEP now retry_after true;
    Ok {| failures := failures_; next_at := at_ |}
  else
    let spent := failures_ + 1 in
    at_ ← next_attempt p operation_id spent now retry_after true;
    Ok {| failures := spent; next_at := at_ |}.

(** ** Facts *)
Definition valid_policy (p : RecoveryPolicy) : Prop :=
  1 <= max_failures p /\ 1 <= base_delay_seconds p /\ base_delay_seconds p <= max_delay_seconds p.

Lemma RECOVERY_valid : valid_policy RECOVERY.
Proof. unfold valid_policy; simpl; lia. Qed.

Lemma valid_policy_check p :
  (max_failures p <? 1) || (base_delay_seconds p <? 1)
    || (max_delay_seconds p <? base_delay_seconds p) = false <-> valid_policy p.
Proof. unfold valid_policy. lia. Qed.

Lemma backoff_cap_bounds p n :
  valid_policy p -> 1 <= n -> base_delay_seconds p <= backoff_cap p n <= max_delay_seconds p.
Proof.
  intros (_ & Hb & Hm) Hn. unfold backoff_cap.
  assert (1 <= 2 ^ Z.min (n - 1) 30) by (apply Z.pow_le_mono_r with (b := 0); lia).
  nia.
Qed.

Lemma backoff_bounds p n :
  valid_policy p -> 1 <= n ->
  1 <= backoff_lower p n <= backoff_upper p n /\ backoff_upper p n <= max_delay_seconds p.
Proof.
  intros Hp Hn. pose proof (backoff_cap_bounds p n Hp Hn). destruct Hp as (_ & Hb & Hm).
  unfold backoff_upper, backoff_lower.
  assert (backoff_cap p n * 3 / 4 <= backoff_cap p n) by (apply Z.div_le_upper_bound; lia).
  lia.
Qed.

Lemma backoff_cap_mono p n m :
  valid_policy p -> 1 <= n <= m -> backoff_cap p n <= backoff_cap p m.
Proof.
  intros (_ & Hb & Hm) Hnm. unfold backoff_cap.
  assert (2 ^ Z.min (n - 1) 30 <= 2 ^ Z.min (m - 1) 30) by (apply Z.pow_le_mono_r; lia).
  nia.
Qed.

Definition aware_opt (t : option instant) : option datetime := Aware <$> t.

(** Standing work with an identity always gets a next time, inside its backoff
    window unless the dependency asked for later. *)
Lemma next_attempt_ongoing p id n now after_ :
  valid_policy p -> id <> "" -> 1 <= n ->
  exists t,
    next_attempt p id n (Aware now) (aware_opt after_) true = Ok (Some t) /\
    now + seconds (backoff_lower p n) <= t /\
    t <= Z.max (now + seconds (backoff_upper p n)) (default now after_) /\
    default t after_ <= t.
Proof.
  intros Hp Hid Hn. unfold next_attempt.
  rewrite bool_decide_eq_false_2 by done.
  rewrite (proj2 (Z.ltb_ge n 1)) by lia. simpl orb.
  rewrite (proj2 (valid_policy_check p) Hp). cbn [negb andb is_naive orb].
  destruct (backoff_bounds p n Hp Hn) as [Hlu Hmax].
  set (e := Sha256.first8 _). set (k := e mod _).
  assert (0 <= k <= backoff_upper p n - backoff_lower p n) as Hk.
  { pose proof (Z.mod_pos_bound e (backoff_upper p n - backoff_lower p n + 1)). lia. }
  destruct after_ as [a|]; simpl; eexists; (split; [reflexivity|]); unfold seconds; lia.
Qed.

(** ** Theorems *)

(** Every retry time of a valid policy lies inside the bounded backoff window
    of its failure count: at least the jittered lower bound and one second from
    now, never before the dependency's [Retry-After], and never more than the
    policy's longest delay unless the dependency asked for later. *)
Theorem next_attempt_bounds p id n now after_ ongoing t :
  valid_policy p ->
  next_attempt p id n (Aware now) (aware_opt after_) ongoing = Ok (Some t) ->
  now + seconds 1 <= now + seconds (backoff_lower p n) <= t /\
  t <= Z.max (now + seconds (max_delay_seconds p)) (default now after_) /\
  default t after_ <= t.
Proof.
  intros Hp H.
  assert (id <> "" /\ 1 <= n) as [Hid Hn].
  { unfold next_attempt in H. case_match eqn:E; [done|].
    apply orb_false_iff in E as [? ?]. bools. auto. }
  destruct (next_attempt_ongoing p id n now after_ Hp Hid Hn) as (u & Hu & Hlo & Hhi & Haf).
  assert (u = t) as ->.
  { unfold next_attempt in H, Hu. repeat case_match; simplify_eq; done. }
  destruct (backoff_bounds p n Hp Hn) as [Hlu Hmax]. unfold seconds in *.
  repeat split; lia.
Qed.

Lemma next_attempt_bounds_witness :
  exists t, next_attempt RECOVERY "op-1" 3 (Aware 0) (Some (Aware 5000000)) true = Ok (Some t) /\
    seconds 1 <= t <= seconds 60 /\ 5000000 <= t.
Proof.
  eexists. split; [vm_compute; reflexivity|].
  pose proof (next_attempt_bounds RECOVERY "op-1" 3 0 (Some 5000000) true 8000000) as H.
  destruct H as (H1 & H2 & H3); [exact RECOVERY_valid|vm_compute; reflexivity|].
  simpl in *. unfold seconds in *. lia.
Defined.

(** An owner outside the lifecycle core gets no next time exactly for a
    deterministic or a security failure; a wait keeps its failure count, and only
    an observed unknown spends one. *)
Theorem schedule_spec p id count verdict now after_ :
  valid_policy p -> id <> "" -> 0 <= count ->
  exists s, schedule p id count verdict (Aware now) (aware_opt after_) = Ok s /\
    (next_at s = None <-> verdict = Disposition.FAIL \/ verdict = Disposition.SECURITY) /\
    failures s = count + b2z (same verdict Disposition.OBSERVE).
Proof.
  intros Hp Hid Hc.
  destruct (next_attempt_ongoing p id WAIT_STEP now after_ Hp Hid) as (tw & Hw & _);
    [unfold WAIT_STEP; lia|].
  destruct (next_attempt_ongoing p id (count + 1) now after_ Hp Hid) as (to & Ho & _); [lia|].
  destruct verdict; unfold schedule; cbn [mem same]; simpl; rewrite ?Hw, ?Ho; simpl;
    eexists; (split; [reflexivity|]); simpl; (split; [naive_solver|lia]).
Qed.

Lemma schedule_spec_witness :
  exists s, schedule ROUTE_RECOVERY "route" 2 Disposition.WAIT (Aware 0) None = Ok s /\
    failures s = 2 /\ next_at s <> None.
Proof.
  destruct (schedule_spec ROUTE_RECOVERY "route" 2 Disposition.WAIT 0 None) as (s & Hs & Hn & Hf).
  - unfold valid_policy; simpl; lia.
  - discriminate.
  - lia.
  - exists s. split; [exact Hs|]. split; [exact Hf|]. intros [?|?]%Hn; discriminate.
Defined.

(** Without standing intent the attempts end exactly at the policy's limit. *)
Theorem next_attempt_exhausted p id n now after_ :
  valid_policy p -> id <> "" -> 1 <= n ->
  next_attempt p id n (Aware now) (aware_opt after_) false = Ok None <->
  exhausted p n = true.
Proof.
  intros Hp Hid Hn. unfold next_attempt, exhausted.
  rewrite bool_decide_eq_false_2 by done.
  rewrite (proj2 (Z.ltb_ge n 1)) by lia. simpl orb.
  rewrite (proj2 (valid_policy_check p) Hp). cbn [negb andb].
  destruct (max_failures p <=? n); [done|].
  destruct after_; simpl; naive_solver.
Qed.

Lemma next_attempt_exhausted_witness :
  next_attempt RECOVERY "op-1" 8 (Aware 0) None false = Ok None.
Proof.
  apply (next_attempt_exhausted RECOVERY "op-1" 8 0 None);
    [exact RECOVERY_valid|discriminate|lia|reflexivity].
Defined.
