(* ===== verification/LifecycleTypes.v ===== *)
(** * Value types of the shared lifecycle core

    [control/src/vonk_control/lifecycle/types.py] and the read-only part of the
    adapter protocol [lifecycle/adapter.py]: the kind-independent row of one
    lifecycle subject, the events that happen to it, the commands a decision
    names, and what the pure core reads of a kind. *)
From S2P Require Import Prelude Vocabulary Disposition.

(** The core uses the shared vocabulary under its own short names. *)
Module State := Vocabulary.LifecycleState.
Module Effect := Vocabulary.LifecycleEffect.
Module Outcome := Vocabulary.OutcomeKind.
Module StopResult := Vocabulary.StopOutcome.
Module ActionName := Vocabulary.OperatorActionName.

Definition TERMINAL_STATES : list LifecycleState := TERMINAL_LIFECYCLE_STATES.

(** One lifecycle subject, independent of its kind. *)
Record Lifecycle := {
  id : string;
  kind : string;
  state : LifecycleState;
  attempt : Z;
  fence : option string;
  lease_deadline : option instant;
  next_action_at : option instant;
  recovery_deadline : option instant;
  retry_count : Z;
  observe_count : Z;
  intent_ordinal : option Z;
  cancel_requested_at : option instant;
  cancel_request_key : option string;
  effect : LifecycleEffect;
  reason : option string;
  owner_id : option string;
}.

#[global] Instance Lifecycle_eq : EqDecision Lifecycle.
Proof. solve_decision. Defined.

(** [replace(row, field=value)], one field at a time. *)
Class Setter {R T : Type} (getter : R -> T) := set_field : T -> R -> R.
Notation "r '<|' f ':=' v '|>'" := (set_field (getter := f) v r)
  (at level 12, left associativity, format "r  <| f  :=  v |>").

#[global] Instance set_state : Setter state := fun v r =>
  Build_Lifecycle (id r) (kind r) v (attempt r) (fence r) (lease_deadline r) (next_action_at r)
    (recovery_deadline r) (retry_count r) (observe_count r) (intent_ordinal r)
    (cancel_requested_at r) (cancel_request_key r) (effect r) (reason r) (owner_id r).
#[global] Instance set_attempt : Setter attempt := fun v r =>
  Build_Lifecycle (id r) (kind r) (state r) v (fence r) (lease_deadline r) (next_action_at r)
    (recovery_deadline r) (retry_count r) (observe_count r) (intent_ordinal r)
    (cancel_requested_at r) (cancel_request_key r) (effect r) (reason r) (owner_id r).
#[global] Instance set_fence : Setter fence := fun v r =>
  Build_Lifecycle (id r) (kind r) (state r) (attempt r) v (lease_deadline r) (next_action_at r)
    (recovery_deadline r) (retry_count r) (observe_count r) (intent_ordinal r)
    (cancel_requested_at r) (cancel_request_key r) (effect r) (reason r) (owner_id r).
#[global] Instance set_lease_deadline : Setter lease_deadline := fun v r =>
  Build_Lifecycle (id r) (kind r) (state r) (attempt r) (fence r) v (next_action_at r)
    (recovery_deadline r) (retry_count r) (observe_count r) (intent_ordinal r)
    (cancel_requested_at r) (cancel_request_key r) (effect r) (reason r) (owner_id r).
#[global] Instance set_next_action_at : Setter next_action_at := fun v r =>
  Build_Lifecycle (id r) (kind r) (state r) (attempt r) (fence r) (lease_deadline r) v
    (recovery_deadline r) (retry_count r) (observe_count r) (intent_ordinal r)
    (cancel_requested_at r) (cancel_request_key r) (effect r) (reason r) (owner_id r).
#[global] Instance set_retry_count : Setter retry_count := fun v r =>
  Build_Lifecycle (id r) (kind r) (state r) (attempt r) (fence r) (lease_deadline r)
    (next_action_at r) (recovery_deadline r) v (observe_count r) (intent_ordinal r)
    (cancel_requested_at r) (cancel_request_key r) (effect r) (reason r) (owner_id r).
#[global] Instance set_observe_count : Setter observe_count := fun v r =>
  Build_Lifecycle (id r) (kind r) (state r) (attempt r) (fence r) (lease_deadline r)
    (next_action_at r) (recovery_deadline r) (retry_count r) v (intent_ordinal r)
    (cancel_requested_at r) (cancel_request_key r) (effect r) (reason r) (owner_id r).
#[global] Instance set_cancel_requested_at : Setter cancel_requested_at := fun v r =>
  Build_Lifecycle (id r) (kind r) (state r) (attempt r) (fence r) (lease_deadline r)
    (next_action_at r) (recovery_deadline r) (retry_count r) (observe_count r) (intent_ordinal r)
    v (cancel_request_key r) (effect r) (reason r) (owner_id r).
#[global] Instance set_cancel_request_key : Setter cancel_request_key := fun v r =>
  Build_Lifecycle (id r) (kind r) (state r) (attempt r) (fence r) (lease_deadline r)
    (next_action_at r) (recovery_deadline r) (retry_count r) (observe_count r) (intent_ordinal r)
    (cancel_requested_at r) v (effect r) (reason r) (owner_id r).
#[global] Instance set_effect : Setter effect := fun v r =>
  Build_Lifecycle (id r) (kind r) (state r) (attempt r) (fence r) (lease_deadline r)
    (next_action_at r) (recovery_deadline r) (retry_count r) (observe_count r) (intent_ordinal r)
    (cancel_requested_at r) (cancel_request_key r) v (reason r) (owner_id r).
#[global] Instance set_reason : Setter reason := fun v r =>
  Build_Lifecycle (id r) (kind r) (state r) (attempt r) (fence r) (lease_deadline r)
    (next_action_at r) (recovery_deadline r) (retry_count r) (observe_count r) (intent_ordinal r)
    (cancel_requested_at r) (cancel_request_key r) (effect r) v (owner_id r).

Definition terminal (row : Lifecycle) : bool := mem (state row) TERMINAL_STATES.
Definition cancel_requested (row : Lifecycle) : bool :=
  bool_decide (cancel_requested_at row <> None).

(** A new subject: the dataclass defaults. *)
Definition new_row (id_ kind_ : string) : Lifecycle := {|
  id := id_; kind := kind_; state := State.QUEUED; attempt := 0; fence := None;
  lease_deadline := None; next_action_at := None; recovery_deadline := None;
  retry_count := 0; observe_count := 0; intent_ordinal := None;
  cancel_requested_at := None; cancel_request_key := None; effect := Effect.NONE;
  reason := None; owner_id := None |}.

(** ** Events *)

(** An executor's report. *)
Record report := {
  outcome : OutcomeKind;
  r_fence : option string;
  retryable : bool;
  r_effect : option LifecycleEffect;
  r_reason : option string;
  retry_after : option instant;
  consumes_retry : bool;
}.

Inductive Event :=
| Submitted
| Claimed (attempt_ : Z) (fence_ : string) (lease_ : instant)
| Heartbeat (fence_ : option string) (lease_ : instant)
| Reported (r : report)
| LeaseLapsed (reason_ : option string)
| CancelRequested (request_key reason_ : option string)
| Observed (effect_ : LifecycleEffect) (reason_ : option string)
| OperatorAction (name : string) (reason_ : option string)
| Tick.

(** [Reported.failed]: a failed report whose recovery follows from its cause.
    [detail] is [error_detail] of an exception (unused for a typed cause). *)
Definition failed (cause_ : failure_cause) (detail : string) (fence_ : option string)
    (effect_ : option LifecycleEffect) (reason_ : option string) (after_ : option instant) : report :=
  let verdict := disposition cause_ in
  {| outcome := Outcome.FAILED;
     r_fence := fence_;
     retryable := mem verdict [Disposition.WAIT; Disposition.OBSERVE];
     r_effect := effect_;
     r_reason := match reason_, cause_ with
                 | None, CauseError _ => Some detail
                 | _, _ => reason_
                 end;
     retry_after := after_;
     consumes_retry := negb (same verdict Disposition.WAIT) |}.

(** ** Commands and decisions *)
Inductive Command :=
| Execute
| Observe
| Stop
| RecordResidue (why : string).

#[global] Instance Command_eq : EqDecision Command.
Proof. solve_decision. Defined.

Record Decision := Decided {
  row : Lifecycle;
  commands : list Command;
}.

(** What the pure core reads of a kind.  [recovery_deadline] is optional on an
    adapter ([getattr(adapter, "recovery_deadline", None)]). *)
Record KindAdapter := {
  irreversible : Lifecycle -> bool;
  retry_not_before : Lifecycle -> instant -> option instant;
  deadline_reader : option (Lifecycle -> option instant);
  actions : Lifecycle -> list string;
}.

(** [adapter.recovery_deadline(row)] when the adapter has one. *)
Definition adapter_deadline (adapter : KindAdapter) (r : Lifecycle) : option instant :=
  match deadline_reader adapter with Some read => read r | None => None end.
