(* ===== verification/LifecycleCore.v ===== *)
(** * The one transition function of the shared lifecycle core

    [control/src/vonk_control/lifecycle/core.py], definition by definition.
    Every builder that computes a due time calls
    [RecoveryPolicy.next_attempt], which raises on an empty identity, so the
    functions return a [result]; [LifecycleFacts] proves the function total for
    a row with an identity. *)
From S2P Require Import Prelude Vocabulary Disposition Recovery LifecycleTypes.

(** Observations of an irreversible unknown effect at the backoff rate. *)
Definition OBSERVE_BUDGET : Z := 8.
(** Unknown observations past the deadline after which a lost row ends failed. *)
Definition LOST_OBSERVATION_BOUND : Z := 6.
(** Stops of a cancelled row before it is cancelled with a residue record. *)
Definition STOP_BUDGET : Z := 6.
Definition _RESUME_ACTIONS : list string := [value ActionName.RESUME; value ActionName.RETRY].

(** [a or word], where [word] is a non-empty member word. *)
Definition or_word (a : option string) (w : string) : string := default w (str_or a None).

(** ** Predicates *)

(** Rule 7: a report or heartbeat under another fence is dropped. *)
Definition _stale (r : Lifecycle) (event : Event) : bool :=
  let other f := match f, fence r with
                 | Some f', Some own => negb (bool_decide (f' = own))
                 | _, _ => false
                 end in
  match event with
  | Reported rep => other (r_fence rep)
  | Heartbeat f _ => other f
  | _ => false
  end.

Definition never_executed (r : Lifecycle) : bool :=
  (attempt r =? 0) || same (effect r) Effect.NONE.

(** Rule 1: repeating [execute] cannot repeat a visible effect. *)
Definition blind_retry_is_safe (r : Lifecycle) (adapter : KindAdapter)
    (effect_ : option LifecycleEffect) : bool :=
  let known := default (effect r) effect_ in
  (attempt r =? 0) || same known Effect.NONE || negb (irreversible adapter r).

(** ** Builders *)

Definition _due (r : Lifecycle) (count : Z) (now : instant) (adapter : option KindAdapter)
    (after_ : option instant) : result instant :=
  let not_before :=
    match adapter with None => None | Some a => retry_not_before a r now end in
  let not_before :=
    match after_ with
    | None => not_before
    | Some t => Some (match not_before with None => t | Some b => Z.max b t end)
    end in
  scheduled ← next_attempt RECOVERY (id r) (Z.max count 1) (Aware now) (aware_opt not_before) true;
  let scheduled := default now scheduled in
  let deadline :=
    or_else (recovery_deadline r)
      (match adapter with None => None | Some a => adapter_deadline a r end) in
  Ok (match deadline with None => scheduled | Some d => Z.min scheduled d end).

(** Rule 1: schedule the next attempt; never an operator wait. *)
Definition _retry (r : Lifecycle) (now : instant) (adapter : KindAdapter)
    (effect_ : LifecycleEffect) (reason_ : option string) (after_ : option instant)
    (consumes : bool) : result Decision :=
  let count := retry_count r + b2z consumes in
  due ← _due r (if consumes then count else WAIT_STEP) now (Some adapter) after_;
  Ok (Decided
        (r <| state := State.BACKOFF |> <| retry_count := count |> <| observe_count := 0 |>
           <| next_action_at := Some due |> <| lease_deadline := None |>
           <| effect := effect_ |> <| reason := str_or reason_ (reason r) |>)
        []).

(** Rule 2: inspect the effect before anything else. *)
Definition _observe (r : Lifecycle) (now : instant) (reason_ : option string) : result Decision :=
  let count := observe_count r + b2z (observe_count r <? OBSERVE_BUDGET) in
  due ← _due r count now None None;
  Ok (Decided
        (r <| state := State.OBSERVING |> <| observe_count := count |>
           <| next_action_at := Some due |> <| lease_deadline := None |>
           <| effect := if same (effect r) Effect.NONE then Effect.UNKNOWN else effect r |>
           <| reason := str_or reason_ (reason r) |>)
        [Observe]).

(** Rules 1 and 2 for an effect that may or may not have happened. *)
Definition _uncertain (r : Lifecycle) (adapter : KindAdapter) (now : instant)
    (effect_ : option LifecycleEffect) (reason_ : option string) (after_ : option instant)
    (consumes : bool) : result Decision :=
  if match recovery_deadline r with Some d => d <=? now | None => false end then
    _observe r now reason_
  else if blind_retry_is_safe r adapter effect_ then
    _retry r now adapter (default (effect r) effect_) reason_ after_ consumes
  else _observe r now reason_.

(** Rule 3: a spent budget stops spending; the unknown effect is kept. *)
Definition _lost (r : Lifecycle) (now : instant) (reason_ : option string)
    (commands_ : list Command) (observed : bool) : result Decision :=
  let looked := Z.max (observe_count r - OBSERVE_BUDGET) 0 + b2z observed in
  if LOST_OBSERVATION_BOUND <=? looked then
    let why := value WaitReason.RUNTIME_EFFECT_UNCONFIRMED in
    Ok (Decided
          (r <| state := State.FAILED |> <| observe_count := OBSERVE_BUDGET + looked |>
             <| effect := Effect.UNKNOWN |> <| next_action_at := None |>
             <| lease_deadline := None |> <| reason := Some why |>)
          [RecordResidue why])
  else
    due ← next_attempt RECOVERY (id r) OBSERVE_BUDGET (Aware now) None true;
    Ok (Decided
          (r <| state := State.OBSERVING |> <| observe_count := OBSERVE_BUDGET + looked |>
             <| next_action_at := Some (default now due) |> <| lease_deadline := None |>
             <| effect := Effect.UNKNOWN |> <| reason := str_or reason_ (reason r) |>)
          commands_).

Definition _unknown_after_observation (r : Lifecycle) (adapter : KindAdapter) (now : instant)
    (reason_ : option string) (commands_ : list Command) : result Decision :=
  if negb (irreversible adapter r) || blind_retry_is_safe r adapter None then
    _retry r now adapter (effect r) reason_ None true
  else if OBSERVE_BUDGET <=? observe_count r then _lost r now reason_ commands_ false
  else
    due ← _due r (observe_count r) now None None;
    Ok (Decided
          (r <| state := State.OBSERVING |> <| next_action_at := Some due |>
             <| reason := str_or reason_ (reason r) |>)
          []).

(** ** Cancel *)

(** Monotonic: set once, never cleared, the first request key is kept. *)
Definition _with_cancel_flag (r : Lifecycle) (now : instant) (key : option string) : Lifecycle :=
  if cancel_requested r then r
  else r <| cancel_requested_at := Some now |> <| cancel_request_key := key |>.

(** Rule 4.  [observed] is what a stop or an inspection just proved. *)
Definition _advance_cancel (r : Lifecycle) (now : instant) (observed : option LifecycleEffect)
    (reason_ : option string) (issue_stop : bool) : result Decision :=
  if match observed with
     | Some e => mem e [Effect.STOPPED; Effect.NONE]
     | None => never_executed r
     end then
    Ok (Decided
          (r <| state := State.CANCELLED |> <| effect := default Effect.NONE observed |>
             <| next_action_at := None |> <| lease_deadline := None |>
             <| reason := str_or reason_
                            (str_or (reason r) (Some (value FailureCode.OPERATION_CANCELLED))) |>)
          [])
  else if STOP_BUDGET <=? observe_count r then
    let why := value WaitReason.STOP_UNCONFIRMED in
    Ok (Decided
          (r <| state := State.CANCELLED |> <| effect := Effect.UNKNOWN |>
             <| next_action_at := None |> <| lease_deadline := None |> <| reason := Some why |>)
          [RecordResidue why])
  else
    let count := if issue_stop then observe_count r + 1 else observe_count r in
    due ← _due r count now None None;
    Ok (Decided
          (r <| state := State.OBSERVING |> <| observe_count := count |>
             <| next_action_at := Some due |> <| lease_deadline := None |>
             <| effect := default Effect.UNKNOWN observed |>
             <| reason := str_or reason_ (reason r) |>)
          (if issue_stop then [Stop] else [])).

Definition _cancel (r : Lifecycle) (key reason_ : option string) (now : instant)
  : result Decision :=
  if cancel_requested r && same (state r) State.OBSERVING then Ok (Decided r [])
  else _advance_cancel (_with_cancel_flag r now key) now None reason_ true.

(** ** Events *)

Definition _submitted (r : Lifecycle) : Decision :=
  if same (state r) State.QUEUED && (attempt r =? 0)
  then Decided (r <| effect := Effect.NONE |>) [] else Decided r [].

Definition _claimed (r : Lifecycle) (attempt_ : Z) (fence_ : string) (lease_ now : instant)
  : Decision :=
  let claimable :=
    same (state r) State.QUEUED
    || (same (state r) State.BACKOFF
        && match next_action_at r with None => true | Some t => t <=? now end) in
  if negb claimable || cancel_requested r || (attempt_ <=? attempt r) then Decided r []
  else Decided
         (r <| state := State.RUNNING |> <| attempt := attempt_ |> <| fence := Some fence_ |>
            <| lease_deadline := Some lease_ |> <| next_action_at := Some lease_ |>
            <| effect := Effect.ISSUED |> <| observe_count := 0 |>)
         [].

Definition _heartbeat (r : Lifecycle) (lease_ : instant) : Decision :=
  if negb (same (state r) State.RUNNING)
     || match lease_deadline r with Some l => lease_ <=? l | None => false end
  then Decided r []
  else Decided (r <| lease_deadline := Some lease_ |> <| next_action_at := Some lease_ |>) [].

Definition _end (r : Lifecycle) (state_ : LifecycleState) (effect_ : LifecycleEffect)
    (rep : report) : Decision :=
  Decided
    (r <| state := state_ |> <| effect := effect_ |> <| next_action_at := None |>
       <| lease_deadline := None |> <| reason := str_or (r_reason rep) (reason r) |>)
    [].

Definition _reported (r : Lifecycle) (rep : report) (adapter : KindAdapter) (now : instant)
  : result Decision :=
  if same (outcome rep) Outcome.DONE then
    Ok (_end r State.SUCCEEDED (default Effect.ESTABLISHED (r_effect rep)) rep)
  else if same (outcome rep) Outcome.CANCELLED then
    Ok (_end r State.CANCELLED (default Effect.STOPPED (r_effect rep)) rep)
  else if same (outcome rep) Outcome.FAILED && negb (retryable rep) then
    Ok (_end r State.FAILED (default (effect r) (r_effect rep)) rep)
  else if cancel_requested r then
    let known :=
      match r_effect rep with
      | Some e => if mem e [Effect.STOPPED; Effect.NONE] then Some e else None
      | None => None
      end in
    _advance_cancel r now known (r_reason rep) (negb (same (state r) State.OBSERVING))
  else
    _uncertain r adapter now (r_effect rep) (r_reason rep) (retry_after rep) (consumes_retry rep).

Definition _lapsed (r : Lifecycle) (adapter : KindAdapter) (now : instant)
    (reason_ : option string) : result Decision :=
  if negb (same (state r) State.RUNNING) then Ok (Decided r [])
  else if cancel_requested r then _advance_cancel r now None reason_ true
  else _uncertain r adapter now None (str_or reason_ (Some (value WaitReason.LEASE_LAPSED)))
         None true.

Definition _observed (r : Lifecycle) (effect_ : LifecycleEffect) (reason_ : option string)
    (adapter : KindAdapter) (now : instant) : result Decision :=
  if cancel_requested r then _advance_cancel r now (Some effect_) reason_ false
  else if negb (mem (state r) [State.OBSERVING; State.NEEDS_OPERATOR]) then Ok (Decided r [])
  else
    let deadline := or_else (recovery_deadline r) (adapter_deadline adapter r) in
    if match deadline with Some d => d <=? now | None => false end
       && negb (same effect_ Effect.ESTABLISHED) then
      if same effect_ Effect.UNKNOWN && negb (blind_retry_is_safe r adapter None)
      then _lost r now reason_ [] true
      else
        let why := str_or reason_
                     (str_or (reason r) (Some (value WaitReason.RUNTIME_EFFECT_UNCONFIRMED))) in
        Ok (Decided
              (r <| state := State.FAILED |> <| effect := effect_ |> <| next_action_at := None |>
                 <| lease_deadline := None |> <| reason := why |>)
              (if same effect_ Effect.UNKNOWN
               then [RecordResidue (default EmptyString why)] else []))
    else
      match effect_ with
      | Effect.ESTABLISHED =>
          Ok (Decided
                (r <| state := State.SUCCEEDED |> <| effect := Effect.ESTABLISHED |>
                   <| next_action_at := None |> <| reason := str_or reason_ (reason r) |>)
                [])
      | Effect.STOPPED =>
          if negb (blind_retry_is_safe r adapter None) then
            Ok (Decided
                  (r <| state := State.FAILED |> <| effect := Effect.STOPPED |>
                     <| next_action_at := None |> <| lease_deadline := None |>
                     <| reason := str_or reason_ (reason r) |>)
                  [])
          else _retry r now adapter Effect.NONE reason_ None true
      | Effect.NONE => _retry r now adapter Effect.NONE reason_ None true
      | _ => _unknown_after_observation r adapter now reason_ []
      end.

Definition _operator (r : Lifecycle) (name : string) (reason_ : option string)
    (adapter : KindAdapter) (now : instant) : result Decision :=
  if negb (mem name (actions adapter r)) then Ok (Decided r [])
  else if bool_decide (name = value ActionName.STOP) then
    if cancel_requested r then Ok (Decided r [])
    else _advance_cancel (_with_cancel_flag r now None) now None
           (str_or reason_ (Some (value ActionName.STOP))) true
  else if negb (mem (state r) [State.NEEDS_OPERATOR; State.OBSERVING]) then Ok (Decided r [])
  else if mem name _RESUME_ACTIONS then
    Ok (Decided
          (r <| state := State.QUEUED |> <| retry_count := 0 |> <| observe_count := 0 |>
             <| next_action_at := None |>
             <| reason := str_or reason_ (Some (value ActionName.RESUME)) |>)
          [])
  else if bool_decide (name = value ActionName.RETIRE) then
    Ok (Decided
          (r <| state := State.FAILED |> <| effect := Effect.UNKNOWN |>
             <| next_action_at := None |>
             <| reason := str_or reason_ (Some (value ActionName.RETIRE)) |>)
          [])
  else Ok (Decided r []).

(** ** Tick *)

(** Rules 1 to 3 for a parked row. *)
Definition _reevaluate_parked (r : Lifecycle) (adapter : KindAdapter) (now : instant)
  : result Decision :=
  if same (effect r) Effect.ESTABLISHED then
    _observed (r <| state := State.OBSERVING |>) Effect.ESTABLISHED None adapter now
  else if same (effect r) Effect.STOPPED && negb (irreversible adapter r) then
    _retry r now adapter Effect.NONE (reason r) None true
  else if blind_retry_is_safe r adapter None then
    _retry r now adapter (effect r) (reason r) None true
  else if OBSERVE_BUDGET <=? observe_count r then _lost r now (reason r) [Observe] false
  else _observe r now (reason r).

(** [row.next_action_at is not None and row.next_action_at > now] *)
Definition not_due (r : Lifecycle) (now : instant) : bool :=
  match next_action_at r with Some t => now <? t | None => false end.

Definition _tick (r : Lifecycle) (adapter : KindAdapter) (now : instant) : result Decision :=
  if cancel_requested r then
    if not_due r now then Ok (Decided r []) else _advance_cancel r now None None true
  else if not_due r now then Ok (Decided r [])
  else if match recovery_deadline r with Some d => d <=? now | None => false end
          && negb (same (state r) State.RUNNING) then
    _observe r now (reason r)
  else
    match state r with
    | State.QUEUED | State.BACKOFF =>
        Ok (Decided (r <| state := State.QUEUED |> <| next_action_at := None |>) [Execute])
    | State.RUNNING =>
        match lease_deadline r with
        | Some l => if now <? l then Ok (Decided (r <| next_action_at := Some l |>) [])
                    else _lapsed r adapter now None
        | None => _lapsed r adapter now None
        end
    | State.OBSERVING =>
        if OBSERVE_BUDGET <=? observe_count r then
          _unknown_after_observation r adapter now None [Observe]
        else
          let count := observe_count r + 1 in
          due ← _due r count now None None;
          Ok (Decided (r <| observe_count := count |> <| next_action_at := Some due |>) [Observe])
    | State.NEEDS_OPERATOR => _reevaluate_parked r adapter now
    | _ => Ok (Decided r [])
    end.

(** ** The transition function *)

Definition is_cancel (event : Event) : bool :=
  match event with CancelRequested _ _ => true | _ => false end.

(** The branch for a row whose adapter's absolute recovery deadline has passed. *)
Definition past_deadline (r : Lifecycle) (event : Event) (adapter : KindAdapter) (now : instant)
  : result Decision :=
  match event with
  | Observed effect_ reason_ =>
      if same effect_ Effect.UNKNOWN && negb (blind_retry_is_safe r adapter None)
      then _lost r now reason_ [] true
      else
        let established := same effect_ Effect.ESTABLISHED in
        let why := str_or reason_ (reason r) in
        Ok (Decided
              (r <| state := if established then State.SUCCEEDED else State.FAILED |>
                 <| effect := effect_ |> <| next_action_at := None |>
                 <| lease_deadline := None |> <| reason := why |>)
              (if same effect_ Effect.UNKNOWN
               then [RecordResidue (or_word why (value WaitReason.RUNTIME_EFFECT_UNCONFIRMED))]
               else []))
  | _ =>
      Ok (Decided
            (r <| state := State.OBSERVING |> <| next_action_at := Some now |>
               <| lease_deadline := None |>
               <| observe_count := observe_count r + b2z (observe_count r <? OBSERVE_BUDGET) |>
               <| effect := Effect.UNKNOWN |>)
            [Observe])
  end.

Definition dispatch (r : Lifecycle) (event : Event) (adapter : KindAdapter) (now : instant)
  : result Decision :=
  match event with
  | CancelRequested key reason_ => _cancel r key reason_ now
  | Submitted => Ok (_submitted r)
  | Claimed attempt_ fence_ lease_ => Ok (_claimed r attempt_ fence_ lease_ now)
  | Heartbeat _ lease_ => Ok (_heartbeat r lease_)
  | Reported rep => _reported r rep adapter now
  | LeaseLapsed reason_ => _lapsed r adapter now reason_
  | Observed effect_ reason_ => _observed r effect_ reason_ adapter now
  | OperatorAction name reason_ => _operator r name reason_ adapter now
  | Tick => _tick r adapter now
  end.

Definition deadline_passed (r : Lifecycle) (adapter : KindAdapter) (now : instant) : bool :=
  match adapter_deadline adapter r with Some d => d <=? now | None => false end.

Definition transition (r : Lifecycle) (event : Event) (adapter : KindAdapter) (now : instant)
  : result Decision :=
  if terminal r then Ok (Decided r [])
  else if _stale r event then Ok (Decided r [])
  else if deadline_passed r adapter now && negb (cancel_requested r) && negb (is_cancel event)
  then past_deadline r event adapter now
  else dispatch r event adapter now.
