(* ===== verification/LifecycleFacts.v ===== *)
(** * What the lifecycle core guarantees *)
From S2P Require Import Prelude Vocabulary Disposition Recovery LifecycleTypes LifecycleCore.

(** ** Totality *)
Lemma due_total r count now a after_ :
  id r <> EmptyString -> is_ok (_due r count now a after_).
Proof.
  intros Hid. unfold _due. set (nb := match after_ with Some _ => _ | None => _ end).
  destruct (next_attempt_ongoing RECOVERY (id r) (Z.max count 1) now nb RECOVERY_valid Hid)
    as (t & -> & _); [lia|]. eexists; reflexivity.
Qed.

Lemma lost_due_total r now :
  id r <> EmptyString -> is_ok (next_attempt RECOVERY (id r) OBSERVE_BUDGET (Aware now) None true).
Proof.
  intros Hid. unfold OBSERVE_BUDGET.
  destruct (next_attempt_ongoing RECOVERY (id r) 8 now None RECOVERY_valid Hid)
    as (t & Ht & _); [lia|]. exists (Some t). exact Ht.
Qed.
#[export] Hint Resolve due_total lost_due_total : vonk.

(** Step through the core's branches: name a bound call's value, split a test. *)
Ltac core_unfold :=
  unfold transition, past_deadline, dispatch, _tick, _reevaluate_parked, _cancel, _reported,
    _lapsed, _observed, _operator, _uncertain, _unknown_after_observation, _lost, _observe,
    _retry, _advance_cancel, _with_cancel_flag, _submitted, _claimed, _heartbeat, _end in *.

Ltac total :=
  repeat first
    [ apply is_ok_Ok
    | apply is_ok_bind; [solve [eauto with vonk]|intros ? _]
    | case_match ].

Lemma with_cancel_flag_id r now key : id (_with_cancel_flag r now key) = id r.
Proof. unfold _with_cancel_flag. by case_match. Qed.

Lemma advance_cancel_total r now o re b :
  id r <> EmptyString -> is_ok (_advance_cancel r now o re b).
Proof. intros. unfold _advance_cancel. total. Qed.
Lemma observe_total r now re : id r <> EmptyString -> is_ok (_observe r now re).
Proof. intros. unfold _observe. total. Qed.
Lemma retry_total r now a e re af c : id r <> EmptyString -> is_ok (_retry r now a e re af c).
Proof. intros. unfold _retry. total. Qed.
Lemma lost_total r now re cs o : id r <> EmptyString -> is_ok (_lost r now re cs o).
Proof. intros. unfold _lost. total. Qed.
#[export] Hint Resolve advance_cancel_total observe_total retry_total lost_total : vonk.

Lemma unknown_total r a now re cs :
  id r <> EmptyString -> is_ok (_unknown_after_observation r a now re cs).
Proof. intros. unfold _unknown_after_observation. repeat case_match; eauto with vonk. total. Qed.
Lemma uncertain_total r a now e re af c :
  id r <> EmptyString -> is_ok (_uncertain r a now e re af c).
Proof. intros. unfold _uncertain. repeat case_match; eauto with vonk. Qed.
#[export] Hint Resolve unknown_total uncertain_total : vonk.

Lemma observed_total r e re a now : id r <> EmptyString -> is_ok (_observed r e re a now).
Proof. intros. unfold _observed. repeat case_match; eauto with vonk. Qed.
Lemma lapsed_total r a now re : id r <> EmptyString -> is_ok (_lapsed r a now re).
Proof. intros. unfold _lapsed. repeat case_match; eauto with vonk. Qed.
#[export] Hint Resolve observed_total lapsed_total : vonk.

Lemma parked_total r a now : id r <> EmptyString -> is_ok (_reevaluate_parked r a now).
Proof. intros. unfold _reevaluate_parked. repeat case_match; eauto with vonk. Qed.
#[export] Hint Resolve parked_total : vonk.

Lemma tick_total r a now : id r <> EmptyString -> is_ok (_tick r a now).
Proof.
  intros. unfold _tick. destruct (cancel_requested r); [case_match; eauto with vonk|].
  destruct (not_due r now); [eauto with vonk|]. case_match; [eauto with vonk|].
  destruct (state r); eauto with vonk; repeat case_match; eauto with vonk; total.
Qed.
#[export] Hint Resolve tick_total : vonk.

Lemma dispatch_total r ev a now : id r <> EmptyString -> is_ok (dispatch r ev a now).
Proof.
  intros. unfold dispatch, _cancel, _reported, _operator.
  destruct ev; eauto with vonk; repeat case_match; eauto with vonk;
    apply advance_cancel_total; by rewrite with_cancel_flag_id.
Qed.

Lemma transition_ok r ev a now : id r <> EmptyString -> is_ok (transition r ev a now).
Proof.
  intros Hid. unfold transition, past_deadline.
  repeat case_match; try apply is_ok_Ok; try (by apply lost_total); by apply dispatch_total.
Qed.

(** The transition function is total: a row with an identity gets a decision
    for every state, event, adapter and instant, and never an exception. *)
Theorem transition_total r ev a now :
  id r <> EmptyString -> exists d, transition r ev a now = Ok d.
Proof. apply transition_ok. Qed.

Lemma transition_total_witness :
  exists d, transition (new_row "op" "install") (Claimed 1 "fence" 1000000)
    {| irreversible := fun _ => true; retry_not_before := fun _ _ => None;
       deadline_reader := None; actions := fun _ => [] |} 0 = Ok d.
Proof. apply transition_total. discriminate. Defined.

(** ** What no decision changes *)
Record frame (r r' : Lifecycle) : Prop := {
  frame_id : id r' = id r;
  frame_kind : kind r' = kind r;
  frame_recovery_deadline : recovery_deadline r' = recovery_deadline r;
  frame_intent_ordinal : intent_ordinal r' = intent_ordinal r;
  frame_owner_id : owner_id r' = owner_id r;
  frame_cancel : cancel_requested r = true ->
    cancel_requested_at r' = cancel_requested_at r /\
    cancel_request_key r' = cancel_request_key r;
}.

(** Run a decided transition through every branch of the core. *)
Ltac run_core H :=
  core_unfold;
  repeat first [progress unbind | progress simplify_eq | case_match];
  simpl in *.

Lemma transition_frame r ev a now d :
  transition r ev a now = Ok d -> frame r (row d).
Proof.
  intros H. run_core H. all: constructor; simpl; intros; split_and?; congruence.
Qed.

(** ** The row invariant

    Only a running row holds a lease, and it is due when its lease ends; every
    row that waits (observing or backing off) has a next action, so nothing is
    ever left without a clock; an ended row has none. *)
Definition state_wf (r : Lifecycle) : Prop :=
  match state r with
  | State.RUNNING =>
      1 <= attempt r /\ effect r = Effect.ISSUED /\
      exists l, lease_deadline r = Some l /\ next_action_at r = Some l
  | State.OBSERVING | State.BACKOFF => lease_deadline r = None /\ next_action_at r <> None
  | State.QUEUED | State.NEEDS_OPERATOR => lease_deadline r = None
  | State.SUCCEEDED | State.FAILED | State.CANCELLED | State.SUPERSEDED =>
      lease_deadline r = None /\ next_action_at r = None
  end.

Record wf (r : Lifecycle) : Prop := {
  wf_attempt : 0 <= attempt r;
  wf_retry_count : 0 <= retry_count r;
  wf_observe_count : 0 <= observe_count r;
  wf_state : state_wf r;
}.

Lemma wf_new_row id_ kind_ : wf (new_row id_ kind_).
Proof. constructor; simpl; try lia; done. Qed.

(** Close a row fact once its branch is known. *)
Ltac close_row :=
  destruct_and?; split_and?; eauto; bools; try (done || lia || congruence).

Lemma transition_wf r ev a now d :
  wf r -> transition r ev a now = Ok d -> wf (row d).
Proof.
  intros W H. run_core H.
  all: try exact W.
  all: destruct W as [W1 W2 W3 W4]; unfold state_wf, b2z, OBSERVE_BUDGET in *.
  all: constructor; unfold state_wf; simpl; try lia; try (by repeat case_match; lia).
  all: try (split; done).
  all: destruct (state r) eqn:?; try discriminate; close_row.
Qed.
