(* ===== verification/LifecycleTraces.v ===== *)
(** * The lifecycle core over whole histories

    A row is driven by a sequence of timed events ([run]); the rules of the
    lifecycle are stated over every such sequence: no effect is repeated blindly,
    a requested cancel ends, a lost row ends, an ended row stays ended, fences are
    never reused and no residue is dropped silently. *)
From S2P Require Import Prelude Vocabulary Disposition Recovery.
From S2P Require Import LifecycleTypes LifecycleCore LifecycleFacts.

(** ** Histories *)
Definition timed : Type := Event * instant.

(** Feed events to a row one by one; the decisions' commands in order. *)
Fixpoint run (a : KindAdapter) (r : Lifecycle) (evs : list timed)
  : result (Lifecycle * list Command) :=
  match evs with
  | [] => Ok (r, [])
  | (ev, now) :: rest =>
      d ← transition r ev a now;
      res ← run a (row d) rest;
      Ok (fst res, (commands d ++ snd res)%list)
  end.

Lemma run_total a r evs : id r <> EmptyString -> is_ok (run a r evs).
Proof.
  revert r; induction evs as [|[ev now] evs IH]; intros r Hid; simpl; [apply is_ok_Ok|].
  apply is_ok_bind; [by apply transition_ok|]. intros d Hd.
  apply is_ok_bind; [|intros; apply is_ok_Ok].
  apply IH. by rewrite (frame_id _ _ (transition_frame _ _ _ _ _ Hd)).
Qed.

(** An invariant of single decisions is an invariant of histories whose events
    are all allowed. *)
Lemma run_invariant (allowed : timed -> Prop) (P : Lifecycle -> Prop) a :
  (forall r ev now d, allowed (ev, now) -> P r -> transition r ev a now = Ok d -> P (row d)) ->
  forall evs r r' cs, Forall allowed evs -> P r -> run a r evs = Ok (r', cs) -> P r'.
Proof.
  intros Hstep. induction evs as [|[ev now] evs IH]; simpl; intros r r' cs Hall HP Hrun.
  - by simplify_eq.
  - apply Forall_cons_1 in Hall as [Hev Hall].
    apply bind_Ok in Hrun as (d & Hd & ([r1 cs1] & Hres & [= <- <-])%bind_Ok).
    simpl in *. eapply IH; [exact Hall|by eapply Hstep|exact Hres].
Qed.

(** An ended row ignores every later event. *)
Lemma transition_terminal r ev a now : terminal r = true -> transition r ev a now = Ok (Decided r []).
Proof. intros H. unfold transition. by rewrite H. Qed.

Lemma run_terminal_ok a r evs : terminal r = true -> run a r evs = Ok (r, []).
Proof.
  intros H. induction evs as [|[ev now] evs IH]; simpl; [done|].
  rewrite transition_terminal by done. simpl. by rewrite IH.
Qed.

Lemma run_terminal a r evs r' cs : terminal r = true -> run a r evs = Ok (r', cs) -> r' = r.
Proof. intros H. rewrite run_terminal_ok by done. congruence. Qed.

Lemma frame_cancel_requested r r' :
  frame r r' -> cancel_requested r = true -> cancel_requested r' = true.
Proof. intros F H. unfold cancel_requested. by rewrite (proj1 (frame_cancel _ _ F H)). Qed.

(** The read-only part of an adapter is a function of what no decision changes:
    a row's identity, its kind and its immutable deadline. *)
Class StableAdapter (a : KindAdapter) : Prop := {
  stable_irreversible r r' : frame r r' -> irreversible a r' = irreversible a r;
  stable_deadline r r' : frame r r' -> adapter_deadline a r' = adapter_deadline a r;
}.

(** The operator's own decision to replay a parked row. *)
Definition is_resume (ev : Event) : bool :=
  match ev with OperatorAction name _ => mem name _RESUME_ACTIONS | _ => false end.

(** ** Rule 1: no blind replay

    [absent] is the evidence a history carries that the issued effect never came
    into the world: nothing was ever issued, or since the last accepted claim an
    inspection of the observed row found the effect absent, or the executor that
    still holds the row's fence and attempt reported that it did nothing.  An
    effect that was seen to have ceased ([Effect.STOPPED]) ran, so it is no such
    evidence, and neither is a report or an observation the core sets aside: a
    late executor's, or an inspection of a row nobody asked to inspect. *)
Definition evidence (absent : bool) (r : Lifecycle) (ev : Event) (r' : Lifecycle) : bool :=
  match ev with
  | Claimed _ _ _ => absent && (attempt r' =? attempt r)
  | Observed e _ =>
      absent || (same e Effect.NONE && mem (state r) [State.OBSERVING; State.NEEDS_OPERATOR])
  | Reported rep =>
      absent || (bool_decide (r_effect rep = Some Effect.NONE) && negb (_stale r ev))
  | _ => absent
  end.

(** Rows reachable from a new one without an operator's replay decision. *)
Inductive reached (a : KindAdapter) (id_ kind_ : string) : bool -> Lifecycle -> Prop :=
| reached_new : reached a id_ kind_ true (new_row id_ kind_)
| reached_step absent r ev now d :
    reached a id_ kind_ absent r -> is_resume ev = false ->
    transition r ev a now = Ok d ->
    reached a id_ kind_ (evidence absent r ev (row d)) (row d).

Record replay_inv (a : KindAdapter) (absent : bool) (r : Lifecycle) : Prop := {
  replay_wf : wf r;
  replay_evidence : terminal r = false -> irreversible a r = true ->
    attempt r = 0 \/ effect r = Effect.NONE \/
    state r = State.QUEUED \/ state r = State.BACKOFF -> absent = true;
}.

(** With evidence, only an accepted claim loses it. *)
Lemma replay_known a r ev now d :
  0 <= attempt r -> transition r ev a now = Ok d ->
  evidence true r ev (row d) = true \/
  1 <= attempt (row d) /\ effect (row d) = Effect.ISSUED /\ state (row d) = State.RUNNING.
Proof.
  intros Hatt H. destruct ev; try (by left); simpl.
  run_core H; rewrite ?Z.eqb_refl; try (by left). all: right; simpl; split_and!; lia || done.
Qed.

(** Without evidence, no decision leaves an irreversible effect open to replay. *)
Lemma replay_unknown a r ev now d :
  irreversible a r = true -> attempt r <> 0 -> effect r <> Effect.NONE ->
  state r <> State.QUEUED -> state r <> State.BACKOFF ->
  is_resume ev = false -> transition r ev a now = Ok d -> terminal (row d) = false ->
  evidence false r ev (row d) = true \/
  attempt (row d) <> 0 /\ effect (row d) <> Effect.NONE /\
  state (row d) <> State.QUEUED /\ state (row d) <> State.BACKOFF.
Proof.
  intros Hirr Ha He Hq Hb Hno H Hlive.
  assert (forall e, blind_retry_is_safe r a e = same (default (effect r) e) Effect.NONE) as Hs.
  { intros e. unfold blind_retry_is_safe. rewrite Hirr. simpl.
    destruct (Z.eqb_spec (attempt r) 0); [done|]. simpl. by rewrite orb_false_r. }
  destruct (_stale r ev) eqn:Hst.
  { right. unfold transition in H. rewrite Hst in H. by case_match; simplify_eq/=. }
  apply same_false in He, Hq, Hb. apply Z.eqb_neq in Ha. unfold evidence. rewrite Hst.
  destruct ev as [| | |rep| | |e ?| |]; try destruct rep as [? ? ? [[]|] ? ? ?]; try destruct e;
    simpl; core_unfold; unfold never_executed in *.
  all: rewrite ?Hs, ?Ha, ?He, ?Hq, ?Hb in H.
  all: run_core H.
  all: rewrite ?Hs, ?Ha, ?He, ?Hq, ?Hb, ?Hirr in *; simpl in *.
  all: try discriminate; try (by left).
  all: try (left; bools; by rewrite (proj2 (mem_true _ _))).
  all: right; bools; split_and?; congruence.
Qed.

Lemma replay_step a `{!StableAdapter a} absent r ev now d :
  replay_inv a absent r -> is_resume ev = false -> transition r ev a now = Ok d ->
  replay_inv a (evidence absent r ev (row d)) (row d).
Proof.
  intros [W E] Hno H. constructor; [by eapply transition_wf|]. intros Hlive.
  rewrite (stable_irreversible _ _ (transition_frame _ _ _ _ _ H)). intros Hirr Hopen.
  destruct (terminal r) eqn:Ht.
  { rewrite transition_terminal in H by done. simplify_eq/=. congruence. }
  specialize (E eq_refl Hirr). destruct absent.
  - destruct (replay_known _ _ _ _ _ (wf_attempt _ W) H) as [?|(? & He & Hs)]; [done|].
    rewrite He, Hs in Hopen. destruct Hopen as [?|[?|[?|?]]]; [lia|done..].
  - destruct (replay_unknown a r ev now d) as [?|(?&?&?&?)]; try done;
      try (intros ?; by discriminate E; auto); naive_solver.
Qed.

Lemma reached_inv a `{!StableAdapter a} id_ kind_ absent r :
  reached a id_ kind_ absent r -> replay_inv a absent r.
Proof.
  induction 1; [|by eapply replay_step].
  constructor; [apply wf_new_row|done].
Qed.

(** Only a tick of a queued or backed-off row issues the effect. *)
Lemma execute_from r ev a now d :
  transition r ev a now = Ok d -> Execute ∈ commands d ->
  ev = Tick /\ (state r = State.QUEUED \/ state r = State.BACKOFF) /\
  cancel_requested r = false /\ not_due r now = false.
Proof.
  intros H He. run_core H; try (by inversion He).
  all: try (repeat (apply elem_of_cons in He as [He|He]; try done); by inversion He).
  all: bools; auto.
Qed.

(** C1.  Rule 1, no blind replay: along every history of a subject without an
    operator's replay decision, the core issues [Execute] for an irreversible
    kind only while the history carries evidence that the effect never ran:
    nothing was issued yet, or since the last accepted claim an inspection of the
    observed row found the effect absent, or a report that is not a stale one said
    that nothing was done.  An effect observed to have stopped ran, and a report
    under another fence is set aside: neither ever leads to a replay. *)
Theorem no_blind_replay a `{!StableAdapter a} id_ kind_ absent r ev now d :
  reached a id_ kind_ absent r -> transition r ev a now = Ok d -> Execute ∈ commands d ->
  irreversible a r = true -> absent = true.
Proof.
  intros Hr H He Hirr. apply execute_from in H as (_ & Hst & _); [|done].
  apply (reached_inv _ _ _ _ _ Hr); auto.
  unfold terminal. by destruct Hst as [->| ->].
Qed.

(** A kind whose effect can never be undone, with no deadline and every action. *)
Definition destructive : KindAdapter := {|
  irreversible := fun _ => true;
  retry_not_before := fun _ _ => None;
  deadline_reader := None;
  actions := fun _ => value <$> members (E := OperatorActionName) |}.

#[global] Instance destructive_stable : StableAdapter destructive.
Proof. by constructor. Qed.

(** One decided step of a concrete history. *)
Ltac replay_event H ev t :=
  let H' := fresh "R" in
  epose proof (reached_step _ _ _ _ _ ev t _ H ltac:(reflexivity)
                 ltac:(vm_compute; reflexivity)) as H'; vm_compute in H'; clear H; rename H' into H.

Lemma no_blind_replay_witness :
  exists absent r d, reached destructive "op" "install" absent r /\
    attempt r = 1 /\ transition r Tick destructive 90000000 = Ok d /\
    Execute ∈ commands d /\ absent = true.
Proof.
  pose proof (reached_new destructive "op" "install") as R.
  replay_event R (Claimed 1 "fence" 1000000) 0.
  replay_event R (LeaseLapsed None) 1000001.
  replay_event R (Observed Effect.NONE None) 2000000.
  do 3 eexists. split; [exact R|].
  split; [reflexivity|]. split; [vm_compute; reflexivity|]. split; [left|].
  eapply (no_blind_replay destructive "op" "install" _ _ Tick 90000000); [exact R|..].
  - vm_compute; reflexivity.
  - left.
  - reflexivity.
Defined.

(** ** Rule 4: a requested cancel ends *)

Definition is_tick (ev : Event) : bool := match ev with Tick => true | _ => false end.

(** The ticks of a history that found the row due, or already ended. *)
Fixpoint due_ticks (a : KindAdapter) (r : Lifecycle) (evs : list timed) : Z :=
  match evs with
  | [] => 0
  | (ev, now) :: rest =>
      b2z (is_tick ev && (terminal r || negb (not_due r now)))
      + match transition r ev a now with Ok d => due_ticks a (row d) rest | Raise _ => 0 end
  end.

Definition no_resume (evs : list timed) : bool := forallb (fun e => negb (is_resume (fst e))) evs.

(** A cancelled row spends one stop of its budget at each due tick, and no other
    event gives a stop back. *)
Lemma cancel_step r ev a now d :
  cancel_requested r = true -> is_resume ev = false -> transition r ev a now = Ok d ->
  terminal (row d) = false ->
  observe_count r <= observe_count (row d) /\
  (is_tick ev = true -> not_due r now = false ->
   observe_count r < STOP_BUDGET /\ observe_count (row d) = observe_count r + 1).
Proof.
  intros Hc Hno H Hlive. unfold transition in H. rewrite Hc in H.
  rewrite andb_false_r in H. simpl in H. core_unfold. rewrite ?Hc in H.
  run_core H; try discriminate.
  all: try (split; [lia|]; intros; split; lia).
  all: bools; try congruence.
  split; [lia|]. by destruct ev.
Qed.

Lemma cancel_spends a evs : forall r r' cs,
  cancel_requested r = true -> no_resume evs = true -> run a r evs = Ok (r', cs) ->
  terminal r' = false -> due_ticks a r evs <= Z.max 0 (STOP_BUDGET - observe_count r).
Proof.
  induction evs as [|[ev now] evs IH]; simpl; intros r r' cs Hc Hno Hrun Hlive; [lia|].
  apply andb_true_iff in Hno as [Hev Hno]. apply negb_true_iff in Hev.
  apply bind_Ok in Hrun as (d & Hd & ([r1 cs1] & Hres & [= <- <-])%bind_Ok). rewrite Hd.
  pose proof (frame_cancel_requested _ _ (transition_frame _ _ _ _ _ Hd) Hc) as Hc'.
  destruct (terminal (row d)) eqn:Ht.
  { simpl in Hlive. by rewrite (run_terminal _ _ _ _ _ Ht Hres), Ht in Hlive. }
  specialize (IH _ _ _ Hc' Hno Hres Hlive).
  destruct (cancel_step _ _ _ _ _ Hc Hev Hd Ht) as [Hmono Htick].
  destruct (terminal r) eqn:Ht0.
  { rewrite transition_terminal in Hd by done. simplify_eq/=. congruence. }
  destruct (is_tick ev), (not_due r now); simpl in *; lia.
Qed.

(** C23.  Rule 4: a requested cancel ends.  Whatever else happens to the row, short
    of an operator's replay, more than [STOP_BUDGET] due ticks leave it ended. *)
Theorem cancel_completes a r evs :
  id r <> EmptyString -> cancel_requested r = true -> 0 <= observe_count r ->
  no_resume evs = true -> STOP_BUDGET < due_ticks a r evs ->
  exists r' cs, run a r evs = Ok (r', cs) /\ terminal r' = true.
Proof.
  intros Hid Hc Hcount Hno Hdue. destruct (run_total a r evs Hid) as [[r' cs] Hrun].
  exists r', cs. split; [done|]. destruct (terminal r') eqn:Ht; [done|].
  pose proof (cancel_spends _ _ _ _ _ Hc Hno Hrun Ht). unfold STOP_BUDGET in *. lia.
Qed.

Lemma cancel_completes_witness :
  let r := new_row "op" "install" in
  let evs := [(Claimed 1 "fence" 1000000, 0); (CancelRequested (Some "key") None, 0)] in
  let ticks := [(Tick, 100000000); (Tick, 200000000); (Tick, 300000000); (Tick, 400000000);
                (Tick, 500000000); (Tick, 600000000); (Tick, 700000000)] in
  exists r1 cs1, run destructive r evs = Ok (r1, cs1) /\
  exists r' cs, run destructive r1 ticks = Ok (r', cs) /\ terminal r' = true.
Proof.
  do 2 eexists. split; [vm_compute; reflexivity|]. apply cancel_completes.
  - discriminate.
  - reflexivity.
  - vm_compute; discriminate.
  - reflexivity.
  - vm_compute; reflexivity.
Defined.

(** ** Rule 3: a lost row ends *)
Definition is_observed (ev : Event) : bool := match ev with Observed _ _ => true | _ => false end.

Definition observations (evs : list timed) : Z :=
  sum_list ((fun e => b2z (is_observed (fst e))) <$> evs).

Lemma observations_cons ev now evs :
  observations ((ev, now) :: evs) = b2z (is_observed ev) + observations evs.
Proof. done. Qed.

(** Unknown observations spent past the backoff budget. *)
Definition looked (r : Lifecycle) : Z := Z.max (observe_count r - OBSERVE_BUDGET) 0.

Lemma lost_step r ev a now d :
  cancel_requested r = false -> is_cancel ev = false -> deadline_passed r a now = true ->
  transition r ev a now = Ok d -> terminal (row d) = false ->
  cancel_requested (row d) = false /\
  looked (row d) = looked r + b2z (is_observed ev) /\
  (is_observed ev = true -> looked (row d) < LOST_OBSERVATION_BOUND).
Proof.
  intros Hc Hev Hd H Hlive. unfold transition in H. rewrite Hc, Hev, Hd in H. simpl in H.
  unfold looked, OBSERVE_BUDGET in *.
  run_core H; try discriminate. all: unfold OBSERVE_BUDGET in *.
  all: try congruence; try (destruct ev; discriminate).
  all: unfold b2z, LOST_OBSERVATION_BOUND in *; split_and!;
    [exact Hc|repeat case_match; first [done|lia|by destruct ev]|first [done|lia|by destruct ev]].
Qed.

Lemma lost_spends a `{!StableAdapter a} deadline evs : forall r r' cs,
  cancel_requested r = false -> adapter_deadline a r = Some deadline ->
  Forall (fun e => is_cancel (fst e) = false /\ deadline <= snd e) evs ->
  run a r evs = Ok (r', cs) -> terminal r' = false ->
  looked r' = looked r + observations evs /\
  (0 < observations evs -> looked r' < LOST_OBSERVATION_BOUND).
Proof.
  induction evs as [|[ev now] evs IH]; simpl; intros r r' cs Hc Hdl Hall Hrun Hlive.
  { simplify_eq. unfold observations. simpl. lia. }
  apply Forall_cons_1 in Hall as [[Hev Hnow] Hall].
  apply bind_Ok in Hrun as (d & Hd & ([r1 cs1] & Hres & [= <- <-])%bind_Ok). simpl in *.
  destruct (terminal (row d)) eqn:Ht.
  { by rewrite (run_terminal _ _ _ _ _ Ht Hres), Ht in Hlive. }
  pose proof (transition_frame _ _ _ _ _ Hd) as F.
  destruct (lost_step r ev a now d) as (Hc' & Hl & Hb); try done.
  { unfold deadline_passed. rewrite Hdl. lia. }
  rewrite <- (stable_deadline _ _ F) in Hdl.
  destruct (IH _ _ _ Hc' Hdl Hall Hres Hlive) as [IHl IHb].
  rewrite observations_cons. split; [lia|].
  destruct (is_observed ev); simpl in *; [|intros; apply IHb; lia].
  intros _. specialize (Hb eq_refl). destruct (Z.lt_ge_cases 0 (observations evs)); lia.
Qed.

(** Rule 3: past its absolute recovery deadline a row that nobody cancels is
    ended by its [LOST_OBSERVATION_BOUND]-th observation at the latest, whatever
    the observations say and whatever happens between them. *)
Theorem lost_row_ends a `{!StableAdapter a} r evs deadline :
  id r <> EmptyString -> cancel_requested r = false -> adapter_deadline a r = Some deadline ->
  Forall (fun e => is_cancel (fst e) = false /\ deadline <= snd e) evs ->
  LOST_OBSERVATION_BOUND <= observations evs ->
  exists r' cs, run a r evs = Ok (r', cs) /\ terminal r' = true.
Proof.
  intros Hid Hc Hdl Hall Hobs. destruct (run_total a r evs Hid) as [[r' cs] Hrun].
  exists r', cs. split; [done|]. destruct (terminal r') eqn:Ht; [done|].
  destruct (lost_spends a deadline evs r r' cs) as [Hl Hb]; try done.
  unfold looked, LOST_OBSERVATION_BOUND in *. lia.
Qed.

(** A destructive kind with an absolute deadline. *)
Definition deadlined : KindAdapter := {|
  irreversible := fun _ => true;
  retry_not_before := fun _ _ => None;
  deadline_reader := Some (fun _ => Some 5000000);
  actions := fun _ => [] |}.

#[global] Instance deadlined_stable : StableAdapter deadlined.
Proof. by constructor. Qed.

Lemma lost_row_ends_witness :
  exists r cs, run deadlined (new_row "op" "k")
    [(Claimed 1 "f" 1000000, 0); (LeaseLapsed None, 1000000)] = Ok (r, cs) /\
  exists r' cs', run deadlined r
    (replicate 5 (Observed Effect.UNKNOWN None, 6000000) ++
     [(Tick, 6000001); (Observed Effect.UNKNOWN None, 6000002)])%list = Ok (r', cs') /\
    terminal r' = true.
Proof.
  do 2 eexists. split; [vm_compute; reflexivity|].
  apply (lost_row_ends deadlined _ _ 5000000).
  - discriminate.
  - reflexivity.
  - reflexivity.
  - repeat (constructor; [split; [reflexivity|simpl; lia]|]). constructor.
  - vm_compute; discriminate.
Defined.

(** ** What a history keeps *)

(** [r'] comes after [r]: its identity, its first cancel request and its attempt
    count are kept, and its fence changes only with a new attempt. *)
Record follows (r r' : Lifecycle) : Prop := {
  follows_frame : frame r r';
  follows_attempt : attempt r <= attempt r';
  follows_fence : attempt r' = attempt r -> fence r' = fence r;
}.

#[global] Instance frame_preorder : PreOrder frame.
Proof.
  split; [by constructor|]. intros r1 r2 r3 F G.
  pose proof (frame_cancel_requested _ _ F) as Hc.
  destruct F as [? ? ? ? ? F], G as [? ? ? ? ? G]. constructor; try congruence.
  intros H. destruct (F H), (G (Hc H)). split; congruence.
Qed.

#[global] Instance follows_preorder : PreOrder follows.
Proof.
  split; [by constructor|]. intros r1 r2 r3 [F FA FF] [G GA GF].
  constructor; [by transitivity r2|lia|]. intros ?. rewrite GF, FF; lia || done.
Qed.

Lemma transition_follows r ev a now d : transition r ev a now = Ok d -> follows r (row d).
Proof.
  intros H. constructor; [by eapply transition_frame| |].
  all: run_core H; try done; lia.
Qed.

(** C34.  Every history keeps the row invariant, the row's identity and deadline,
    the first cancel request (a cancel is never taken back), and the fence
    discipline: the attempt number never goes down and two attempts never share
    a fence change, so a fence names one attempt. *)
Theorem history_keeps a r evs r' cs :
  wf r -> run a r evs = Ok (r', cs) -> wf r' /\ follows r r'.
Proof.
  intros W Hrun. split.
  - eapply (run_invariant (fun _ => True) wf); [|by apply Forall_true|exact W|exact Hrun].
    intros; by eapply transition_wf.
  - eapply (run_invariant (fun _ => True) (follows r)); [|by apply Forall_true|done|exact Hrun].
    intros r1 ev now d _ Hf Hd. transitivity r1; [done|]. by eapply transition_follows.
Qed.

Definition cancelled_history : list timed :=
  [(Claimed 1 "f" 1000000, 0); (Heartbeat (Some "f") 2000000, 500000);
   (CancelRequested (Some "stop") None, 600000)].

Lemma history_keeps_witness :
  exists r' cs, run destructive (new_row "op" "k") cancelled_history = Ok (r', cs) /\
    (wf r' /\ follows (new_row "op" "k") r') /\ cancel_request_key r' = Some "stop".
Proof.
  destruct (run destructive (new_row "op" "k") cancelled_history) as [[r' cs]|e] eqn:Hrun.
  - exists r', cs. split; [reflexivity|]. split.
    + apply (history_keeps destructive _ cancelled_history _ cs (wf_new_row _ _) Hrun).
    + vm_compute in Hrun. injection Hrun as <- _. reflexivity.
  - vm_compute in Hrun. discriminate.
Defined.

(** Rule 7: reports and heartbeats under a fence that is not the row's own,
    however many arrive and whenever, change nothing and issue nothing. *)
Theorem superseded_executor_ignored a r own evs :
  fence r = Some own ->
  Forall (fun e => match fst e with
                   | Reported rep => exists f, r_fence rep = Some f /\ f <> own
                   | Heartbeat f _ => exists f', f = Some f' /\ f' <> own
                   | _ => False
                   end) evs ->
  run a r evs = Ok (r, []).
Proof.
  intros Hf. induction 1 as [|[ev now] evs Hev _ IH]; simpl; [done|].
  assert (_stale r ev = true) as Hs.
  { destruct ev; simpl in Hev; try done; destruct Hev as (f' & Hf' & Hne);
      simpl; rewrite Hf', Hf; apply negb_true_iff, bool_decide_eq_false; done. }
  unfold transition. rewrite Hs. destruct (terminal r); simpl; by rewrite IH.
Qed.

Lemma superseded_executor_ignored_witness :
  exists r cs, run destructive (new_row "op" "k") [(Claimed 2 "new" 1000000, 0)] = Ok (r, cs) /\
    run destructive r
      [(Reported (failed (CauseVerdict Disposition.FAIL) EmptyString
                    (Some "old") None None None), 5);
       (Heartbeat (Some "old") 99000000, 6)] = Ok (r, []).
Proof.
  do 2 eexists. split; [vm_compute; reflexivity|].
  apply (superseded_executor_ignored destructive _ "new"); [reflexivity|].
  repeat constructor; simpl; exists "old"; split; done.
Defined.

(** ** Rules of a row

    What one decision does on every branch: what an unproven end leaves behind,
    what a failed report does under each disposition, how far away the next
    action of a row may be, and that a due row is never ignored. *)

(** ** Unproven ends *)

(** The ends the executor or the operator asserts; every other end is the core's. *)
Definition asserted (ev : Event) : bool :=
  match ev with Reported _ | OperatorAction _ _ => true | _ => false end.

(** The core never ends a row with an unknown effect silently: unless the
    executor's own report or an operator's action ended it, such an end records
    the residue it may have left. *)
Theorem unknown_end_records_residue r ev a now d :
  transition r ev a now = Ok d -> asserted ev = false ->
  terminal r = false -> terminal (row d) = true -> effect (row d) = Effect.UNKNOWN ->
  exists why, commands d = [RecordResidue why].
Proof.
  intros H Ha Hlive Hend Hunk. destruct ev; try discriminate Ha; run_core H.
  all: first [congruence|discriminate|by eexists|idtac].
  all: bools; subst; unfold terminal in *; simpl in *; first [congruence|set_solver].
Qed.

Lemma unknown_end_records_residue_witness :
  exists r cs, run destructive (new_row "op" "k")
    [(Claimed 1 "f" 1000000, 0); (CancelRequested None None, 0);
     (Tick, 100000000); (Tick, 200000000); (Tick, 300000000); (Tick, 400000000);
     (Tick, 500000000)] = Ok (r, cs) /\ terminal r = false /\
  exists d why, transition r Tick destructive 600000000 = Ok d /\
    commands d = [RecordResidue why].
Proof.
  do 2 eexists. split; [vm_compute; reflexivity|]. split; [reflexivity|].
  destruct (transition _ Tick destructive 600000000) as [d|e] eqn:Hd;
    [|vm_compute in Hd; discriminate].
  destruct (unknown_end_records_residue _ _ _ _ _ Hd) as [why Hw];
    [reflexivity|reflexivity| | |exists d, why; split; [reflexivity|exact Hw]].
  all: vm_compute in Hd; injection Hd as <-; reflexivity.
Defined.

(** ** Failed reports *)

Lemma uncertain_spec r a now e why after_ consumes d :
  _uncertain r a now e why after_ consumes = Ok d ->
  terminal (row d) = false /\
  retry_count r <= retry_count (row d) <= retry_count r + b2z consumes.
Proof.
  intros H. run_core H; (split; [done|]); simpl; unfold b2z; try case_match; lia.
Qed.

(** What a failed report does follows from the disposition of its cause
    alone.  A deterministic or a security failure ends the row failed and issues
    nothing; a wait or an observed unknown never ends a row that nobody
    cancelled, a wait spends no retry and an unknown spends at most one. *)
Theorem failed_report_follows_disposition r a now cause detail f e why after_ d :
  terminal r = false -> _stale r (Reported (failed cause detail f e why after_)) = false ->
  deadline_passed r a now && negb (cancel_requested r) = false ->
  transition r (Reported (failed cause detail f e why after_)) a now = Ok d ->
  if is_definite cause then state (row d) = State.FAILED /\ commands d = []
  else cancel_requested r = false ->
       terminal (row d) = false /\
       retry_count r <= retry_count (row d) <=
         retry_count r + b2z (same (disposition cause) Disposition.OBSERVE).
Proof.
  intros Ht Hs Hd H. unfold transition in H. rewrite Ht, Hs, Hd in H. simpl in H.
  unfold is_definite, failed, _reported in *.
  destruct (disposition cause) eqn:Hv; simpl in *; simplify_eq/=; try done.
  all: intros Hc; rewrite Hc in H; exact (uncertain_spec _ _ _ _ _ _ _ _ H).
Qed.

Lemma failed_report_follows_disposition_witness :
  exists r cs, run destructive (new_row "op" "k") [(Claimed 1 "f" 1000000, 0)] = Ok (r, cs) /\
  forall cause, is_definite cause = true ->
    exists d, transition r (Reported (failed cause EmptyString (Some "f") None None None))
                destructive 5 = Ok d /\ state (row d) = State.FAILED /\ commands d = [].
Proof.
  do 2 eexists. split; [vm_compute; reflexivity|]. intros cause Hdef.
  match goal with |- exists d, transition ?r ?ev ?a ?t = _ /\ _ =>
    destruct (transition_ok r ev a t) as [d Hd]; [discriminate|] end.
  exists d. split; [exact Hd|].
  pose proof (fun A B C => failed_report_follows_disposition _ _ _ _ _ _ _ _ _ _ A B C Hd) as H.
  rewrite Hdef in H. apply H; reflexivity.
Defined.

(** ** When a row acts next *)

(** The latest instant a fence, a [Retry-After] or the bounded backoff allows. *)
Definition latest_due (r : Lifecycle) (ev : Event) (a : KindAdapter) (now : instant) : instant :=
  Z.max (now + seconds (max_delay_seconds RECOVERY))
    (Z.max (default now (retry_not_before a r now))
       (default now (match ev with Reported rep => retry_after rep | _ => None end))).

(** The lease a claim or a heartbeat brings. *)
Definition lease_of (ev : Event) : option instant :=
  match ev with Claimed _ _ l | Heartbeat _ l => Some l | _ => None end.

Lemma due_bound r count now a after_ t :
  _due r count now a after_ = Ok t ->
  t <= Z.max (now + seconds (max_delay_seconds RECOVERY))
         (Z.max (default now (match a with Some k => retry_not_before k r now | None => None end))
            (default now after_)).
Proof.
  unfold _due. set (nb := match after_ with Some _ => _ | None => _ end).
  intros (s & Hs & H)%bind_Ok.
  destruct (decide (id r = EmptyString)) as [Hid|Hid].
  { unfold next_attempt in Hs. by rewrite Hid in Hs. }
  destruct (next_attempt_ongoing RECOVERY (id r) (Z.max count 1) now nb RECOVERY_valid Hid)
    as (u & Hu & _ & Hhi & _); [lia|].
  rewrite Hu in Hs. injection Hs as <-. simpl in H.
  destruct (backoff_bounds RECOVERY (Z.max count 1) RECOVERY_valid) as [_ Hmax]; [lia|].
  assert (t <= u).
  { injection H as <-. destruct (or_else _ _); lia. }
  assert (default now nb <=
          Z.max (default now (match a with Some k => retry_not_before k r now | None => None end))
            (default now after_) \/ default now nb <= now).
  { subst nb. destruct after_, a as [k|]; simpl; try destruct (retry_not_before k r now);
      simpl; lia. }
  unfold seconds in *. cbn [max_delay_seconds RECOVERY] in *. lia.
Qed.

Lemma lost_due_bound r now t :
  next_attempt RECOVERY (id r) OBSERVE_BUDGET (Aware now) None true = Ok t ->
  default now t <= now + seconds (max_delay_seconds RECOVERY).
Proof.
  intros Hs. destruct (decide (id r = EmptyString)) as [Hid|Hid].
  { unfold next_attempt in Hs. by rewrite Hid in Hs. }
  destruct (next_attempt_ongoing RECOVERY (id r) OBSERVE_BUDGET now None RECOVERY_valid Hid)
    as (u & Hu & _ & Hhi & _); [unfold OBSERVE_BUDGET; lia|].
  change (aware_opt None) with (@None datetime) in Hu. rewrite Hu in Hs. simplify_eq/=.
  destruct (backoff_bounds RECOVERY OBSERVE_BUDGET RECOVERY_valid) as [_ Hmax];
    [unfold OBSERVE_BUDGET; lia|]. unfold seconds in *. simpl in *. lia.
Qed.

(** A row never sleeps longer than the bounded backoff: the next action of a
    decided row is the one it already had, the end of its lease, or at most the
    longest backoff delay (one minute) away, unless the kind's safety fence or the
    dependency's [Retry-After] asks for later. *)
Theorem next_action_bounded r ev a now d t :
  transition r ev a now = Ok d -> next_action_at (row d) = Some t ->
  next_action_at r = Some t \/ lease_of ev = Some t \/ lease_deadline r = Some t \/
  t <= latest_due r ev a now.
Proof.
  intros H Ht. unfold latest_due. run_core H; try discriminate; simplify_eq/=; auto.
  all: try (apply due_bound in Hv). all: try (apply lost_due_bound in Hv).
  all: repeat right; unfold seconds in *; simpl in *; lia.
Qed.

Lemma next_action_bounded_witness :
  exists r cs, run destructive (new_row "op" "k") [(Claimed 1 "f" 1000000, 0)] = Ok (r, cs) /\
  exists d t, transition r (LeaseLapsed None) destructive 2000000 = Ok d /\
    next_action_at (row d) = Some t /\ t <= 62000000.
Proof.
  do 2 eexists. split; [vm_compute; reflexivity|].
  match goal with |- exists d t, transition ?r ?ev ?a ?now = _ /\ _ =>
    destruct (transition r ev a now) as [d|e] eqn:Hd; [|vm_compute in Hd; discriminate] end.
  destruct (next_action_at (row d)) as [t|] eqn:Ht;
    [|vm_compute in Hd; injection Hd as <-; discriminate].
  exists d, t. split; [reflexivity|]. split; [exact Ht|].
  destruct (next_action_bounded _ _ _ _ _ _ Hd Ht) as [H|[H|[H|H]]].
  - injection H as <-. lia.
  - discriminate.
  - injection H as <-. lia.
  - unfold latest_due, seconds in H. simpl in H. lia.
Defined.

(** No due row is ignored: a tick of a well-formed live row that is due issues
    a command, ends the row, or reschedules the row's next attempt. *)
Theorem due_tick_acts r a now d :
  wf r -> terminal r = false -> not_due r now = false -> transition r Tick a now = Ok d ->
  commands d <> [] \/ terminal (row d) = true \/
  state r <> State.BACKOFF /\ state (row d) = State.BACKOFF /\ next_action_at (row d) <> None.
Proof.
  intros [_ _ _ W] Hlive Hdue H.
  assert (state r = State.RUNNING ->
          match lease_deadline r with Some l => now <? l | None => false end = false) as Hlease.
  { intros Hs. unfold state_wf, not_due in *. rewrite Hs in W.
    destruct W as (_ & _ & l & -> & Hl). by rewrite Hl in Hdue. }
  core_unfold. rewrite Hlive, Hdue in H. clear W.
  run_core H; try (by left); try (by right; left).
  all: right; unfold terminal in Hlive; destruct (state r) eqn:Hs; try discriminate Hlive.
  all: try (right; split_and!; done); try specialize (Hlease eq_refl); unfold cancel_requested in *;
    simpl in *; congruence.
Qed.

Lemma due_tick_acts_witness :
  exists d, transition (new_row "op" "k") Tick destructive 7 = Ok d /\
    (commands d <> [] \/ terminal (row d) = true \/
     State.QUEUED <> State.BACKOFF /\ state (row d) = State.BACKOFF /\
     next_action_at (row d) <> None).
Proof.
  eexists. split; [reflexivity|].
  apply (due_tick_acts (new_row "op" "k") destructive 7); [apply wf_new_row|reflexivity..].
Defined.
