(* ===== verification/Composite.v ===== *)
(** * The state of a composite subject

    [control/src/vonk_control/lifecycle/composite.py]: a parent has no effect of
    its own and follows its children. *)
From S2P Require Import Prelude Vocabulary LifecycleTypes.

Definition _ACTIVITY : list LifecycleState :=
  [State.RUNNING; State.QUEUED; State.OBSERVING; State.BACKOFF].

Definition aggregate (children : list Lifecycle) : option LifecycleState :=
  match children with
  | [] => None
  | _ =>
      let states := state <$> children in
      if forallb (fun s => mem s TERMINAL_STATES) states then
        if mem State.FAILED states then Some State.FAILED
        else if mem State.CANCELLED states then Some State.CANCELLED
        else Some State.SUCCEEDED
      else
        let live := filter (fun s => s ∉ TERMINAL_STATES) states in
        match find (fun s => mem s live) _ACTIVITY with
        | Some s => Some s
        | None => Some State.NEEDS_OPERATOR
        end
  end.

(** ** Reference: the most pressing child, on one scale *)
Definition pressing (s : LifecycleState) : Z :=
  match s with
  | State.RUNNING => 7
  | State.QUEUED => 6
  | State.OBSERVING => 5
  | State.BACKOFF => 4
  | State.NEEDS_OPERATOR => 3
  | State.FAILED => 2
  | State.CANCELLED => 1
  | State.SUCCEEDED | State.SUPERSEDED => 0
  end.

(** A superseded child counts as a success. *)
Definition settled_as (s : LifecycleState) : LifecycleState :=
  match s with State.SUPERSEDED => State.SUCCEEDED | _ => s end.

(** [s] is the most pressing of [states]. *)
Definition most_pressing (states : list LifecycleState) (s : LifecycleState) : Prop :=
  settled_as s = s /\ (exists t, t ∈ states /\ pressing t = pressing s) /\
  forall t, t ∈ states -> pressing t <= pressing s.

Lemma most_pressing_unique states s s' :
  most_pressing states s -> most_pressing states s' -> s = s'.
Proof.
  intros (Hs & (t & Ht & Et) & Hmax) (Hs' & (t' & Ht' & Et') & Hmax').
  specialize (Hmax _ Ht'). specialize (Hmax' _ Ht).
  destruct s, s'; simpl in *; done || lia.
Qed.

(** A member that is there, with every more pressing state excluded. *)
Lemma most_pressing_found states s :
  settled_as s = s -> s ∈ states ->
  (forall t, pressing s < pressing t -> t ∉ states) -> most_pressing states s.
Proof.
  intros Hs Hin Hno. split; [done|]. split; [by exists s|].
  intros t Ht. destruct (Z.le_gt_cases (pressing t) (pressing s)) as [?|Hgt]; [done|].
  by destruct (Hno t Hgt).
Qed.

Section follow.
Context (states : list LifecycleState).

(** Every child has ended: the worst outcome wins. *)
Lemma ended_most_pressing s :
  (forall t, t ∈ states -> t ∈ TERMINAL_STATES) -> s ∈ states ->
  most_pressing states
    (if mem State.FAILED states then State.FAILED
     else if mem State.CANCELLED states then State.CANCELLED else State.SUCCEEDED).
Proof.
  intros Hterm Hs.
  assert (forall t, 2 < pressing t -> t ∉ states) as Hlive.
  { intros t Ht Hin%Hterm. apply mem_true in Hin. destruct t; simpl in *; done || lia. }
  destruct (mem State.FAILED states) eqn:Hf; bools; [by apply most_pressing_found|].
  destruct (mem State.CANCELLED states) eqn:Hc; bools.
  { apply most_pressing_found; [done..|].
    intros []; simpl in *; try lia; try done; intros _; apply Hlive; simpl; lia. }
  assert (forall t, t ∈ states -> pressing t = 0) as Hz.
  { intros t Ht. destruct (Z.le_gt_cases (pressing t) 2) as [Hle|Hgt]; [|by destruct (Hlive t)].
    destruct t; simpl in *; done || lia. }
  split; [done|]. split; [exists s; split; [done|]; by apply Hz|].
  intros t Ht. simpl. rewrite Hz by done. lia.
Qed.

(** Some child has not: the most active one is followed. *)
Lemma live_most_pressing s :
  s ∈ states -> s ∉ TERMINAL_STATES ->
  most_pressing states
    (match find (fun t => mem t (filter (fun t => t ∉ TERMINAL_STATES) states)) _ACTIVITY with
     | Some t => t
     | None => State.NEEDS_OPERATOR
     end).
Proof.
  intros Hs Hlive. set (live := filter _ states).
  assert (forall t, mem t live = false -> 3 <= pressing t -> t ∉ states) as Hno.
  { intros t Ht%mem_false Hp Hin. apply Ht, list_elem_of_filter. split; [|done].
    intros Hin'%mem_true. destruct t; simpl in *; done || lia. }
  assert (forall t, mem t live = true -> t ∈ states) as Hyes.
  { intros t [_ ?]%mem_true%list_elem_of_filter. done. }
  assert (s ∈ live) as Hin by (by apply list_elem_of_filter). apply mem_true in Hin.
  simpl find. repeat (case_match; [|]); simplify_eq.
  all: apply most_pressing_found; auto.
  all: try (intros []; simpl; try lia; intros _; apply Hno; simpl; done || lia).
  apply Hyes. apply mem_false in Hlive. destruct s; congruence || discriminate.
Qed.
End follow.

Lemma aggregate_cons c children :
  exists s, aggregate (c :: children) = Some s /\ most_pressing (state <$> c :: children) s.
Proof.
  unfold aggregate. set (states := state <$> c :: children).
  destruct (forallb _ states) eqn:Hall.
  - pose proof (ended_most_pressing states (state c)) as H.
    repeat case_match; eexists; (split; [done|]); apply H; try (by left).
    all: intros t Ht; apply mem_true; rewrite forallb_forall in Hall;
      apply Hall; by apply list_elem_of_In.
  - apply not_true_iff_false in Hall. rewrite forallb_forall in Hall.
    assert (exists s, s ∈ states /\ s ∉ TERMINAL_STATES) as (s & Hs & Hn).
    { destruct (decide (Exists (fun s => s ∉ TERMINAL_STATES) states)) as [He|Hn].
      - by apply Exists_exists in He.
      - exfalso. apply Hall. intros s Hs%list_elem_of_In. apply mem_true.
        destruct (decide (s ∈ TERMINAL_STATES)); [done|].
        destruct Hn. apply Exists_exists. by exists s. }
    pose proof (live_most_pressing states s Hs Hn) as H.
    destruct (find _ _); eexists; (split; [done|]); exact H.
Qed.

(** A composite follows its most pressing child: with children its state is the
    one member of the scale running, queued, observing, backoff, needs-operator,
    failed, cancelled, succeeded that some child has and no child exceeds (a
    superseded child counts as succeeded); without children it has none. *)
Theorem aggregate_follows children s :
  aggregate children = Some s <-> children <> [] /\ most_pressing (state <$> children) s.
Proof.
  destruct children as [|c children]; [naive_solver|].
  destruct (aggregate_cons c children) as (s' & -> & Hs'). split.
  - intros [= <-]. done.
  - intros [_ Hs]. f_equal. by eapply most_pressing_unique.
Qed.
