(* ===== verification/Reconciler.v ===== *)
(** * The generic reconcile loop

    [control/src/vonk_control/lifecycle/reconciler.py].  The world the adapters,
    the store and the residue writer act on is a state type [W]; a call takes the
    world and returns the next one with its value, or [Raise] for a Python
    exception.  The loop is proved to be a history of the lifecycle core, so every
    rule of [LifecycleTraces] holds of the rows it settles. *)
From S2P Require Import Prelude Vocabulary Disposition Recovery.
From S2P Require Import LifecycleTypes LifecycleCore LifecycleFacts LifecycleTraces.

Definition MAX_STEPS_PER_ROW : nat := 4.

Section reconciler.
Context {W : Type}.

(** A call into the world. *)
Definition call (A : Type) : Type := W -> W * result A.

(** The adapter protocol ([lifecycle/adapter.py]): what the core reads of the kind, which
    may depend on the world the adapter is bound to, and the effectful half. *)
Record Executor := {
  reads : W -> KindAdapter;
  observe : Lifecycle -> call (LifecycleEffect * option string);
  stop : Lifecycle -> call StopOutcome;
  execute : Lifecycle -> Z -> call unit;
}.

(** Where lifecycle rows live; one writer per row. *)
Record LifecycleStore := {
  due : instant -> Z -> W -> W * list Lifecycle;
  save : Lifecycle -> Lifecycle -> call bool;
  record_residue : Lifecycle -> string -> call unit;
}.

Record ReconcileReport := {
  examined : Z;
  rep_changed : Z;
  rep_commands : Z;
}.

Record Settled := {
  settled_row : Lifecycle;
  changed : Z;
  ran : Z;
  stale : bool;
}.

(** Run one command; an executor failure is an unknown, never a raise. *)
Definition _run (command : Command) (r : Lifecycle) (x : Executor)
    (residue : Lifecycle -> string -> call unit) (w : W) : W * option Event :=
  let unavailable :=
    Observed Effect.UNKNOWN (Some (value WaitReason.OBSERVATION_UNAVAILABLE)) in
  match command with
  | Observe =>
      match observe x r w with
      | (w', Ok (e, why)) => (w', Some (Observed e why))
      | (w', Raise _) => (w', Some unavailable)
      end
  | Stop =>
      match stop x r w with
      | (w', Ok answer) =>
          let confirmed := same answer StopResult.CONFIRMED in
          (w', Some (Observed (if confirmed then Effect.STOPPED else Effect.UNKNOWN) None))
      | (w', Raise _) => (w', Some unavailable)
      end
  | Execute => (fst (execute x r (attempt r + 1) w), None)
  | RecordResidue why => (fst (residue r why w), None)
  end.

(** The inner loop over a decision's commands: the last answer is pending. *)
Fixpoint run_commands (cs : list Command) (r : Lifecycle) (x : Executor)
    (residue : Lifecycle -> string -> call unit) (pending : option Event) (count : Z) (w : W)
  : W * option Event * Z :=
  match cs with
  | [] => (w, pending, count)
  | c :: rest =>
      let '(w', answer) := _run c r x residue w in
      run_commands rest r x residue (or_else answer pending) (count + 1) w'
  end.

(** [settle], its loop body unrolled over the remaining steps. *)
Fixpoint settle_loop (steps : nat) (r : Lifecycle) (pending : option Event) (x : Executor)
    (now : instant) (save_ : Lifecycle -> Lifecycle -> call bool)
    (residue : Lifecycle -> string -> call unit) (n_changed n_ran : Z) (w : W)
  : W * result Settled :=
  match steps, pending with
  | O, _ | _, None =>
      (w, Ok {| settled_row := r; changed := n_changed; ran := n_ran; stale := false |})
  | S steps', Some ev =>
      match transition r ev (reads x w) now with
      | Raise e => (w, Raise e)
      | Ok d =>
          let next n w' :=
            let '(w'', answer, n_ran') :=
              run_commands (commands d) (row d) x residue None n_ran w' in
            settle_loop steps' (row d) answer x now save_ residue n n_ran' w'' in
          if bool_decide (row d = r) then next n_changed w
          else
            match save_ r (row d) w with
            | (w', Raise e) => (w', Raise e)
            | (w', Ok false) =>
                (w', Ok {| settled_row := r; changed := n_changed; ran := n_ran; stale := true |})
            | (w', Ok true) => next (n_changed + 1) w'
            end
      end
  end.

Definition settle (r : Lifecycle) (ev : Event) (x : Executor) (now : instant)
    (save_ : Lifecycle -> Lifecycle -> call bool)
    (residue : Lifecycle -> string -> call unit) (max_steps : nat) : call Settled :=
  settle_loop max_steps r (Some ev) x now save_ residue 0 0.

(** The loop of [reconcile] over the due rows. *)
Fixpoint reconcile_rows (rows : list Lifecycle) (store : LifecycleStore)
    (adapters : gmap string Executor) (now : instant) (rep : ReconcileReport) (w : W)
  : W * result ReconcileReport :=
  match rows with
  | [] => (w, Ok rep)
  | r :: rest =>
      match adapters !! kind r with
      | None => reconcile_rows rest store adapters now rep w
      | Some x =>
          match settle r Tick x now (save store) (record_residue store) MAX_STEPS_PER_ROW w with
          | (w', Raise e) => (w', Raise e)
          | (w', Ok s) =>
              reconcile_rows rest store adapters now
                {| examined := examined rep + 1;
                   rep_changed := rep_changed rep + changed s;
                   rep_commands := rep_commands rep + ran s |} w'
          end
      end
  end.

Record Reconciler := {
  store_of : LifecycleStore;
  adapters_of : gmap string Executor;
  clock : W -> instant;
  enabled : bool;
}.

Definition reconcile (rc : Reconciler) (limit : Z) (w : W) : W * result ReconcileReport :=
  let empty := {| examined := 0; rep_changed := 0; rep_commands := 0 |} in
  if negb (enabled rc) then (w, Ok empty)
  else
    let now := clock rc w in
    let '(w', rows) := due (store_of rc) now limit w in
    reconcile_rows rows (store_of rc) (adapters_of rc) now empty w'.
End reconciler.
Arguments call : clear implicits.
Arguments Executor : clear implicits.
Arguments LifecycleStore : clear implicits.
Arguments Reconciler : clear implicits.

(** ** A decision names at most one command *)
Lemma decision_commands r ev a now d :
  transition r ev a now = Ok d -> (length (commands d) <= 1)%nat.
Proof. intros H. run_core H; simpl; lia. Qed.

Section facts.
Context {W : Type}.
Implicit Types (x : Executor W) (w : W).

(** Answers come back as observations only. *)
Lemma run_answer c r x residue w w' ev :
  _run c r x residue w = (w', Some ev) -> is_observed ev = true.
Proof. unfold _run. intros. repeat case_match; by simplify_eq. Qed.

Lemma run_commands_spec cs r x residue : forall pending n w w' answer n',
  run_commands cs r x residue pending n w = (w', answer, n') ->
  n' = n + Z.of_nat (length cs) /\
  (forall ev, answer = Some ev -> pending = Some ev \/ is_observed ev = true).
Proof.
  induction cs as [|c cs IH]; simpl; intros pending n w w' answer n' H.
  - simplify_eq. split; [lia|by left].
  - destruct (_run c r x residue w) as [w1 ans] eqn:Hr.
    destruct (IH _ _ _ _ _ _ H) as [-> Ha]. split; [lia|].
    intros ev Hev. destruct (Ha ev Hev) as [Ho|?]; [|by right].
    destruct ans as [e|]; simpl in Ho; [|by left]. simplify_eq. right. by eapply run_answer.
Qed.

(** A history whose every decision reads the adapter as the world then has it. *)
Fixpoint run_reads (r : Lifecycle) (evs : list (KindAdapter * Event)) (now : instant)
  : result (Lifecycle * list Command) :=
  match evs with
  | [] => Ok (r, [])
  | (a, ev) :: rest =>
      d ← transition r ev a now;
      res ← run_reads (row d) rest now;
      Ok (fst res, (commands d ++ snd res)%list)
  end.

(** An adapter whose reads do not depend on the world has the histories of the core. *)
Lemma run_reads_run a r evs now :
  Forall (fun e => fst e = a) evs -> run_reads r evs now = run a r ((fun e => (snd e, now)) <$> evs).
Proof.
  revert r; induction evs as [|[b ev] evs IH]; intros r H; [done|].
  apply Forall_cons_1 in H as [Hb H]; simpl in Hb; subst b. rewrite fmap_cons. cbn [run run_reads snd].
  destruct (transition r ev a now); cbn [mbind result_bind]; [by rewrite IH|done].
Qed.

(** ** What a settle does to the world

    [responds]: what comes back from one command is what the adapter answered in the world it
    was asked in, and nothing else: an inspection's own finding, a stop that was confirmed or
    was not, or, when either call failed, that the effect could not be observed.  Issuing the
    effect and recording a residue answer nothing. *)
Inductive responds x (residue : Lifecycle -> string -> call W unit)
  : Command -> Lifecycle -> W -> W -> option Event -> Prop :=
| responds_observed r w w' e why :
    observe x r w = (w', Ok (e, why)) -> responds x residue Observe r w w' (Some (Observed e why))
| responds_unseen r w w' err :
    observe x r w = (w', Raise err) ->
    responds x residue Observe r w w'
      (Some (Observed Effect.UNKNOWN (Some (value WaitReason.OBSERVATION_UNAVAILABLE))))
| responds_stopped r w w' :
    stop x r w = (w', Ok StopResult.CONFIRMED) ->
    responds x residue Stop r w w' (Some (Observed Effect.STOPPED None))
| responds_unconfirmed r w w' :
    stop x r w = (w', Ok StopResult.UNCONFIRMED) ->
    responds x residue Stop r w w' (Some (Observed Effect.UNKNOWN None))
| responds_unstoppable r w w' err :
    stop x r w = (w', Raise err) ->
    responds x residue Stop r w w'
      (Some (Observed Effect.UNKNOWN (Some (value WaitReason.OBSERVATION_UNAVAILABLE))))
| responds_issued r w : responds x residue Execute r w (fst (execute x r (attempt r + 1) w)) None
| responds_residue r why w : responds x residue (RecordResidue why) r w (fst (residue r why w)) None.

Lemma run_responds c r x residue w w' answer :
  _run c r x residue w = (w', answer) -> responds x residue c r w w' answer.
Proof.
  unfold _run. destruct c; intros H.
  - simplify_eq. constructor.
  - destruct (observe x r w) as [w1 [[e why]|err]] eqn:E; simplify_eq; by econstructor.
  - destruct (stop x r w) as [w1 [[]|err]] eqn:E; simplify_eq; by econstructor.
  - simplify_eq. constructor.
Qed.

(** The commands of a decision: none, or one with its answer. *)
Inductive answered x residue : list Command -> Lifecycle -> W -> W -> option Event -> Prop :=
| answered_none r w : answered x residue [] r w w None
| answered_one c r w w' answer : responds x residue c r w w' answer -> answered x residue [c] r w w' answer.

Lemma run_commands_answered cs r x residue n w w' answer n' :
  (length cs <= 1)%nat -> run_commands cs r x residue None n w = (w', answer, n') ->
  answered x residue cs r w w' answer.
Proof.
  destruct cs as [|c [|c' cs]]; simpl; intros Hl H; [simplify_eq; constructor| |lia].
  destruct (_run c r x residue w) as [w1 a] eqn:E. apply run_responds in E. simplify_eq.
  constructor. by destruct a.
Qed.

(** [settling steps w r p evs w' r' stale]: from the world [w] the pending event [p] takes the
    row [r] to [r'] and the world to [w'], through the events [evs], each decided on the
    adapter's reads of the world of that moment; a changed row is saved before its commands
    run, an answer is the next event, and a refused save ends it there. *)
Inductive settling x (now : instant) (save_ : Lifecycle -> Lifecycle -> call W bool) residue
  : nat -> W -> Lifecycle -> option Event -> list (KindAdapter * Event) -> W -> Lifecycle -> bool -> Prop :=
| settling_quiet steps w r : settling x now save_ residue steps w r None [] w r false
| settling_tired w r p : settling x now save_ residue 0 w r p [] w r false
| settling_stale steps w r ev d w' :
    transition r ev (reads x w) now = Ok d -> row d <> r -> save_ r (row d) w = (w', Ok false) ->
    settling x now save_ residue (S steps) w r (Some ev) [] w' r true
| settling_step steps w r ev d w1 w2 answer evs w' r' stale_ :
    transition r ev (reads x w) now = Ok d ->
    (row d = r /\ w1 = w \/ row d <> r /\ save_ r (row d) w = (w1, Ok true)) ->
    answered x residue (commands d) (row d) w1 w2 answer ->
    settling x now save_ residue steps w2 (row d) answer evs w' r' stale_ ->
    settling x now save_ residue (S steps) w r (Some ev) ((reads x w, ev) :: evs) w' r' stale_.

(** What the loop settles is a history of the core: [evs] are the events it fed
    to the row, each with the adapter's reads then, and [cs] the commands it ran. *)
Record settled_by x (r : Lifecycle) (p : option Event) (now : instant)
    (steps : nat) (s : Settled) (n_changed n_ran : Z) (evs : list (KindAdapter * Event)) : Prop := {
  by_run : exists cs, run_reads r evs now = Ok (settled_row s, cs) /\
             ran s = n_ran + Z.of_nat (length cs) /\ (length cs <= length evs)%nat;
  by_reads : Forall (fun e => exists w, fst e = reads x w) evs;
  by_steps : (length evs <= steps)%nat;
  by_changed : n_changed <= changed s <= n_changed + Z.of_nat (length evs);
  by_head : evs = [] \/ snd <$> head evs = p;
  by_answers : Forall (fun e => is_observed (snd e) = true) (tail evs);
  by_fed : stale s = false -> p <> None -> steps <> O -> evs <> [];
}.

Lemma settled_nil x r p now steps s n_changed n_ran :
  settled_row s = r -> changed s = n_changed -> ran s = n_ran ->
  stale s = true \/ p = None \/ steps = O ->
  settled_by x r p now steps s n_changed n_ran [].
Proof.
  intros <- <- <- Hwhy. constructor; simpl; try lia; try done.
  - exists []. split; [done|]. simpl; lia.
  - by left.
  - intros ? ? ?. destruct Hwhy as [?|[?|?]]; congruence.
Qed.

Lemma settled_cons x w r ev now steps s n_changed n_ran d p' n' evs :
  transition r ev (reads x w) now = Ok d -> (n_changed <= n' <= n_changed + 1) ->
  (forall e, p' = Some e -> is_observed e = true) ->
  settled_by x (row d) p' now steps s n' (n_ran + Z.of_nat (length (commands d))) evs ->
  settled_by x r (Some ev) now (S steps) s n_changed n_ran ((reads x w, ev) :: evs).
Proof.
  intros Hd Hn Hobs [(cs & Hrun & Hran & Hlen) Hr Hs Hc Hh Ha _].
  pose proof (decision_commands _ _ _ _ _ Hd) as H1.
  constructor; try (simpl; lia); [| |by right| |done].
  - exists (commands d ++ cs)%list. cbn [run_reads]. rewrite Hd. cbn [mbind result_bind].
    rewrite Hrun. rewrite length_app. split; [done|]. simpl. lia.
  - constructor; [by eexists|done].
  - destruct evs as [|e evs]; [done|]. constructor; [|done].
    apply Hobs. by destruct Hh.
Qed.

Lemma settle_loop_history x now save_ residue : forall steps r p n_changed n_ran w w' s,
  settle_loop steps r p x now save_ residue n_changed n_ran w = (w', Ok s) ->
  exists evs, settled_by x r p now steps s n_changed n_ran evs /\
    settling x now save_ residue steps w r p evs w' (settled_row s) (stale s).
Proof.
  induction steps as [|steps IH]; intros r p n_changed n_ran w w' s H; simpl in H.
  { simplify_eq. exists []. split; [apply settled_nil; auto|constructor]. }
  destruct p as [ev|]; [|simplify_eq; exists []; split; [apply settled_nil; auto|constructor]].
  destruct (transition r ev (reads x w) now) as [d|e] eqn:Hd; [|done].
  assert (forall n w1,
    n_changed <= n <= n_changed + 1 ->
    (row d = r /\ w1 = w \/ row d <> r /\ save_ r (row d) w = (w1, Ok true)) ->
    (let '(w'', answer, n_ran') := run_commands (commands d) (row d) x residue None n_ran w1 in
     settle_loop steps (row d) answer x now save_ residue n n_ran' w'') = (w', Ok s) ->
    exists evs, settled_by x r (Some ev) now (S steps) s n_changed n_ran evs /\
      settling x now save_ residue (S steps) w r (Some ev) evs w' (settled_row s) (stale s)) as Hnext.
  { intros n w1 Hn Hw Hl.
    destruct (run_commands (commands d) (row d) x residue None n_ran w1) as [[w2 answer] n_ran'] eqn:Hc.
    assert (answered x residue (commands d) (row d) w1 w2 answer) as Hans.
    { eapply run_commands_answered; [|exact Hc]. by eapply decision_commands. }
    apply run_commands_spec in Hc as [-> Hobs]. apply IH in Hl as (evs & Hevs & Hset).
    exists ((reads x w, ev) :: evs). split; [|by econstructor].
    eapply settled_cons; eauto. intros e He. by destruct (Hobs e He). }
  case_bool_decide as Hrow; [eapply Hnext; [|by left|exact H]; lia|].
  destruct (save_ r (row d) w) as [w1 [[]|e]] eqn:Hs; [eapply Hnext; [|by right|exact H]; lia| |done].
  simplify_eq. exists []. split; [apply settled_nil; auto|by econstructor].
Qed.

(** C35.  Settling is a history of the lifecycle core: the row it returns is the run of the core
    over the event followed by the answers to its own commands, in at most [max_steps]
    decisions at the settle's one instant.  Each decision is made on the adapter's reads of the
    world of that moment, a changed row is saved before its command runs, and each later event
    is what the adapter answered to the command of the decision before it, in the world that
    decision left: a confirmed stop as stopped, an unconfirmed one as unknown, a failed call as
    an effect that could not be observed.  A refused save ends it with the row it had.  The
    counts it reports are those of that history, and for an adapter whose reads never change it
    is the core's own history. *)
Theorem settle_is_history r ev x now save_ residue max_steps w w' s :
  settle r ev x now save_ residue max_steps w = (w', Ok s) ->
  exists evs, settled_by x r (Some ev) now max_steps s 0 0 evs /\
    settling x now save_ residue max_steps w r (Some ev) evs w' (settled_row s) (stale s) /\
    forall a, (forall w1, reads x w1 = a) ->
      exists cs, run a r ((fun e => (snd e, now)) <$> evs) = Ok (settled_row s, cs).
Proof.
  intros (evs & H & Hset)%settle_loop_history. exists evs. split; [done|]. split; [done|]. intros a Ha.
  destruct H as [(cs & Hrun & _) Hr _ _ _ _ _]. exists cs. rewrite <- (run_reads_run a); [done|].
  eapply Forall_impl; [exact Hr|]. intros [b e] [w1 ->]. apply Ha.
Qed.
End facts.

(** ** Persisting decisions

    What the loop needs of a store: [stored] is the table of lifecycle rows;
    [save] is a compare-and-swap on one row; nothing else writes it. *)
Class RowStore {W} (st : LifecycleStore W) := {
  stored : W -> gmap string Lifecycle;
  save_fresh before after w :
    stored w !! id before = Some before ->
    exists w', save st before after w = (w', Ok true) /\
               stored w' = <[id before := after]> (stored w);
  save_conflict before after w :
    stored w !! id before <> Some before ->
    exists w', save st before after w = (w', Ok false) /\ stored w' = stored w;
  residue_keeps r why w : stored (fst (record_residue st r why w)) = stored w;
}.

(** The executor does not write lifecycle rows while it runs a command. *)
Class QuietExecutor {W} (st : LifecycleStore W) `{!RowStore st} (x : Executor W) : Prop := {
  observe_keeps r w : stored (fst (observe x r w)) = stored w;
  stop_keeps r w : stored (fst (stop x r w)) = stored w;
  execute_keeps r n w : stored (fst (execute x r n w)) = stored w;
}.

Section persisting.
Context {W : Type} (st : LifecycleStore W) `{!RowStore st} (x : Executor W) `{!QuietExecutor st x}.

Lemma run_keeps c r w : stored (fst (_run c r x (record_residue st) w)) = stored w.
Proof.
  pose proof (observe_keeps r w). pose proof (stop_keeps r w).
  unfold _run. destruct c; simpl; [apply execute_keeps| | |apply residue_keeps].
  - by destruct (observe x r w) as [w' [[e why]|e]].
  - by destruct (stop x r w) as [w' [o|e]].
Qed.

Lemma run_commands_keeps cs r : forall p n w,
  stored (fst (fst (run_commands cs r x (record_residue st) p n w))) = stored w.
Proof.
  induction cs as [|c cs IH]; intros p n w; simpl; [done|].
  pose proof (run_keeps c r w) as Hk. destruct (_run _ _ _ _ _) as [w1 ans]; simpl in Hk.
  by rewrite IH.
Qed.

(** A pass over a row whose stored value is the one it was read as writes exactly
    the row it settles; otherwise it writes nothing. *)
Lemma settle_loop_stores now : forall steps r p n_changed n_ran w,
  id r <> EmptyString ->
  exists w' s, settle_loop steps r p x now (save st) (record_residue st) n_changed n_ran w
                 = (w', Ok s) /\
    if bool_decide (stored w !! id r = Some r)
    then stale s = false /\ stored w' = <[id r := settled_row s]> (stored w)
    else stored w' = stored w.
Proof.
  assert (forall r w, stored w !! id r = Some r -> <[id r := r]> (stored w) = stored w) as Hid.
  { intros. by apply insert_id. }
  induction steps as [|steps IH]; intros r p n_changed n_ran w Hne; simpl.
  { do 2 eexists. split; [done|]. case_bool_decide; simpl; [by rewrite Hid|done]. }
  destruct p as [ev|];
    [|do 2 eexists; split; [done|]; case_bool_decide; simpl; [by rewrite Hid|done]].
  destruct (transition_ok r ev (reads x w) now Hne) as [d Hd]. rewrite Hd.
  pose proof (frame_id _ _ (transition_frame _ _ _ _ _ Hd)) as Hsame.
  assert (id (row d) <> EmptyString) as Hne' by by rewrite Hsame.
  destruct (bool_decide_reflect (row d = r)) as [Hrow|Hrow].
  - pose proof (run_commands_keeps (commands d) (row d) None n_ran w) as Hk.
    destruct (run_commands _ _ _ _ _ _ _) as [[w1 ans] n1]. simpl in Hk.
    destruct (IH (row d) ans n_changed n1 w1 Hne') as (w' & s & Hl & Hres).
    exists w', s. split; [exact Hl|]. by rewrite Hk, Hrow in Hres.
  - destruct (bool_decide_reflect (stored w !! id r = Some r)) as [Hst|Hst].
    + destruct (save_fresh r (row d) w Hst) as (w1 & -> & Hw1).
      pose proof (run_commands_keeps (commands d) (row d) None n_ran w1) as Hk.
      destruct (run_commands _ _ _ _ _ _ _) as [[w2 ans] n2]. simpl in Hk.
      destruct (IH (row d) ans (n_changed + 1) n2 w2 Hne') as (w' & s & Hl & Hres).
      exists w', s. split; [exact Hl|]. rewrite Hk, Hw1, Hsame, lookup_insert_eq in Hres.
      rewrite bool_decide_eq_true_2 in Hres by done. destruct Hres as [? ->].
      split; [done|]. by rewrite insert_insert_eq.
    + destruct (save_conflict r (row d) w Hst) as (w1 & -> & Hw1).
      do 2 eexists. split; [done|]. exact Hw1.
Qed.

(** Settling a row with an identity always returns, whatever the executor answers
    or raises.  When the stored row is the one the pass read, the pass is not
    stale and the store holds exactly the settled row; when another writer changed
    it, the pass overwrites nothing. *)
Theorem settle_persists r ev now max_steps w :
  id r <> EmptyString ->
  exists w' s, settle r ev x now (save st) (record_residue st) max_steps w = (w', Ok s) /\
    if bool_decide (stored w !! id r = Some r)
    then stale s = false /\ stored w' = <[id r := settled_row s]> (stored w)
    else stored w' = stored w.
Proof. apply settle_loop_stores. Qed.
End persisting.

(** ** A concrete table *)
Record table := Table {
  rows : gmap string Lifecycle;
  residues : list (string * string);
}.

Definition table_store : LifecycleStore table := {|
  due now limit w := (w, take (Z.to_nat limit) (snd <$> map_to_list (rows w)));
  save before after w :=
    if bool_decide (rows w !! id before = Some before)
    then (Table (<[id before := after]> (rows w)) (residues w), Ok true)
    else (w, Ok false);
  record_residue r why w := (Table (rows w) ((id r, why) :: residues w), Ok tt) |}.

#[global] Program Instance table_rows : RowStore table_store := { stored := rows }.
Next Obligation. intros b a w H. simpl. rewrite bool_decide_eq_true_2 by done. by eexists. Qed.
Next Obligation. intros b a w H. simpl. rewrite bool_decide_eq_false_2 by done. by eexists. Qed.
Next Obligation. done. Qed.

(** An executor that cannot be reached. *)
Definition unreachable : Executor table := {|
  reads _ := destructive;
  observe _ w := (w, Raise (RuntimeError "unreachable"));
  stop _ w := (w, Raise (RuntimeError "unreachable"));
  execute _ _ w := (w, Raise (RuntimeError "unreachable")) |}.

#[global] Instance unreachable_quiet : QuietExecutor table_store unreachable.
Proof. by constructor. Qed.

(** One whose stop is confirmed. *)
Definition obedient : Executor table := {|
  reads _ := destructive;
  observe _ w := (w, Ok (Effect.UNKNOWN, None));
  stop _ w := (w, Ok StopResult.CONFIRMED);
  execute _ _ w := (w, Ok tt) |}.

Definition claimed_row : Lifecycle :=
  match transition (new_row "op" "k") (Claimed 1 "fence" 1000000) destructive 0 with
  | Ok d => row d
  | Raise _ => new_row "op" "k"
  end.

(** The cancel of a running row: the stop it causes is confirmed, and that answer ends it. *)
Lemma settle_is_history_witness :
  let w := Table {[ "op" := claimed_row ]} [] in
  let cancel := CancelRequested (Some "key") None in
  exists w' s evs,
    settle claimed_row cancel obedient 5 (save table_store) (record_residue table_store) 4 w = (w', Ok s) /\
    settling obedient 5 (save table_store) (record_residue table_store) 4 w claimed_row (Some cancel)
      evs w' (settled_row s) (stale s) /\
    snd <$> evs = [cancel; Observed Effect.STOPPED None] /\
    state (settled_row s) = State.CANCELLED /\ effect (settled_row s) = Effect.STOPPED.
Proof.
  intros w cancel.
  destruct (settle claimed_row cancel obedient 5 (save table_store) (record_residue table_store) 4 w)
    as [w' [s|e]] eqn:Hs; [|vm_compute in Hs; discriminate].
  destruct (settle_is_history _ _ _ _ _ _ _ _ _ _ Hs) as (evs & _ & H & _).
  exists w', s, evs. split; [reflexivity|]. split; [exact H|].
  assert (state (settled_row s) = State.CANCELLED /\ effect (settled_row s) = Effect.STOPPED) as Hend.
  { vm_compute in Hs. injection Hs as _ <-. split; reflexivity. }
  split; [|exact Hend]. clear Hs.
  inversion H as [| |? ? ? ? d ? Hd _ Hsave|? ? ? ? d w1 w2 answer evs1 ? ? ? Hd Hsave Ha Hrest]; subst.
  { exfalso. vm_compute in Hd. injection Hd as <-. vm_compute in Hsave. discriminate. }
  vm_compute in Hd. injection Hd as <-. simpl in Ha.
  inversion Ha as [|c ? ? ? ? Hr]; subst. inversion Hr; subst; try discriminate.
  inversion Hrest as [| |? ? ? ? d ? Hd2 _ Hsave2|? ? ? ? d w3 w4 answer2 evs2 ? ? ? Hd2 Hsave2 Ha2 Hrest2]; subst.
  - exfalso. vm_compute in Hd2. injection Hd2 as <-. destruct Hend as [Hend _].
    match goal with E : _ = settled_row s |- _ => rewrite <- E in Hend end. vm_compute in Hend. discriminate.
  - vm_compute in Hd2. injection Hd2 as <-. simpl in Ha2. inversion Ha2; subst.
    inversion Hrest2; subst. reflexivity.
Defined.

Lemma settle_persists_witness :
  let r := new_row "op" "k" in
  let w := Table {[ "op" := r ]} [] in
  exists w' s,
    settle r Tick unreachable 0 (save table_store) (record_residue table_store) 4 w = (w', Ok s) /\
    stale s = false /\ rows w' = <["op" := settled_row s]> (rows w).
Proof.
  intros r w.
  exact (settle_persists table_store unreachable r Tick 0 4 w ltac:(discriminate)).
Defined.

(** ** One pass *)
Lemma reconcile_rows_bounds {W} rows_ (store : LifecycleStore W) adapters now :
  forall rep w w' rep',
  reconcile_rows rows_ store adapters now rep w = (w', Ok rep') ->
  let n := examined rep' - examined rep in
  0 <= n <= Z.of_nat (length rows_) /\
  0 <= rep_changed rep' - rep_changed rep <= Z.of_nat MAX_STEPS_PER_ROW * n /\
  0 <= rep_commands rep' - rep_commands rep <= Z.of_nat MAX_STEPS_PER_ROW * n.
Proof.
  induction rows_ as [|r rows_ IH]; intros rep w w' rep' H; simpl in H.
  { simplify_eq. simpl. lia. }
  destruct (adapters !! kind r) as [x|]; [|apply IH in H; simpl in *; lia].
  destruct (settle r Tick x now _ _ _ w) as [w1 [s|e]] eqn:Hs; [|done].
  apply settle_loop_history in Hs as (evs & [(cs & _ & Hran & Hcs) _ Hlen Hch _ _ _] & _).
  apply IH in H. unfold MAX_STEPS_PER_ROW in *. simpl in *. lia.
Qed.

(** One pass is bounded: it examines at most the rows the store returned, and
    changes and commands at most [MAX_STEPS_PER_ROW] times per examined row.  A
    disabled loop touches nothing. *)
Theorem reconcile_bounded {W} (rc : Reconciler W) limit w w' rep :
  reconcile rc limit w = (w', Ok rep) ->
  (enabled rc = false -> w' = w /\ examined rep = 0) /\
  0 <= examined rep <= Z.of_nat (length (snd (due (store_of rc) (clock rc w) limit w))) /\
  0 <= rep_changed rep <= Z.of_nat MAX_STEPS_PER_ROW * examined rep /\
  0 <= rep_commands rep <= Z.of_nat MAX_STEPS_PER_ROW * examined rep.
Proof.
  unfold reconcile. destruct (enabled rc); simpl.
  - destruct (due _ _ _ _) as [w1 rows_] eqn:Hdue. intros H%reconcile_rows_bounds.
    simpl in *. split; [done|lia].
  - intros [= <- <-]. simpl. split; [done|]. lia.
Qed.

Lemma reconcile_bounded_witness :
  let rc := {| store_of := table_store; adapters_of := {[ "k" := unreachable ]};
               clock := fun _ => 0; enabled := true |} in
  let w := Table {[ "op" := new_row "op" "k" ]} [] in
  exists w' rep, reconcile rc 100 w = (w', Ok rep) /\ examined rep = 1 /\ rep_commands rep <= 4.
Proof.
  intros rc w. destruct (reconcile rc 100 w) as [w' [rep|e]] eqn:H;
    [|vm_compute in H; discriminate].
  pose proof (reconcile_bounded rc 100 w w' rep H) as (_ & _ & _ & Hc).
  assert (examined rep = 1) as He by (vm_compute in H; injection H as _ <-; reflexivity).
  exists w', rep. split; [reflexivity|]. split; [exact He|].
  rewrite He in Hc. unfold MAX_STEPS_PER_ROW in Hc. simpl in Hc. lia.
Defined.
