(* ===== verification/StallWindow.v ===== *)
(** * Stall windows

    [control/src/vonk_control/stall_window.py]: work that waits on a live owner is
    never stalled; otherwise only a full window without a progress signal is. *)
From S2P Require Import Prelude.

Module Verdict.
Inductive Verdict := PROGRESSING | WAITING | STALLED.
Definition Verdict_value (v : Verdict) : string :=
  match v with
  | PROGRESSING => "progressing"
  | WAITING => "waiting"
  | STALLED => "stalled"
  end.
#[global] Instance Verdict_eq : EqDecision Verdict.
Proof. solve_decision. Defined.
#[global] Instance Verdict_enum : WireEnum Verdict.
Proof. refine {| members := [PROGRESSING; WAITING; STALLED]; value := Verdict_value |};
  solve_wire_enum. Defined.
End Verdict.
Abbreviation Verdict := Verdict.Verdict.

(** An owner as the caller resolved it ([Wait], [Liveness]). *)
Record Wait := {
  live : bool;
  ended_at : option datetime;
}.

(** What the window reads of an operation's progress sample. *)
Record OperationProgress := {
  op_phase : string;
  completed_bytes : Z;
  completed_items : option Z;
  activity_sequence : option Z;
  checkpoint : option string;
}.

#[global] Instance OperationProgress_eq : EqDecision OperationProgress.
Proof. solve_decision. Defined.

Definition progress_advanced (previous : option OperationProgress) (current : OperationProgress)
  : bool :=
  match previous with
  | None => true
  | Some p =>
      if match checkpoint p, checkpoint current with
         | Some k, Some k' => negb (bool_decide (k = k'))
         | _, _ => false
         end then false
      else
        (completed_bytes p <? completed_bytes current)
        || (default 0 (completed_items p) <? default 0 (completed_items current))
        || (default 0 (activity_sequence p) <? default 0 (activity_sequence current))
        || negb (bool_decide (op_phase current = op_phase p))
  end.

(** The known instants of a list of optional times. *)
Definition known (items : list (option datetime)) : list instant :=
  to_utc <$> omap (fun t => t) items.

Definition latest_progress (stored : option datetime) (signals : list (option datetime))
    (now : datetime) : option instant :=
  match max_list (known (stored :: signals)) with
  | None => None
  | Some m => Some (Z.min m (to_utc now))
  end.

Definition stall_deadline (started_at : datetime) (progressed_at : option datetime) (window : Z)
  : instant :=
  let started := to_utc started_at in
  let anchor := match progressed_at with
                | None => started
                | Some p => Z.max started (to_utc p)
                end in
  anchor + window.

(** [waiting_on] is already the tuple of [_owners]. *)
Definition progress_deadline (started_at : datetime) (progressed_at : option datetime) (window : Z)
    (now : datetime) (waiting_on : list Wait) : instant :=
  if existsb live waiting_on then stall_deadline now None window
  else
    let anchor := latest_progress None (progressed_at :: (ended_at <$> waiting_on)) now in
    stall_deadline started_at (Aware <$> anchor) window.

Definition progress_verdict (started_at : datetime) (progressed_at : option datetime) (window : Z)
    (now : datetime) (waiting_on : list Wait) : Verdict :=
  if existsb live waiting_on then Verdict.WAITING
  else if progress_deadline started_at progressed_at window now waiting_on <=? to_utc now
       then Verdict.STALLED else Verdict.PROGRESSING.

(** ** Theorems *)
Definition signals (started_at : datetime) (progressed_at : option datetime) (owners : list Wait)
  : list instant :=
  to_utc started_at :: known (progressed_at :: (ended_at <$> owners)).

Lemma known_None items : known (None :: items) = known items.
Proof. done. Qed.

(** Only a stall ends work.  With a positive window the verdict is stalled
    exactly when no owner is live and every signal (the start, the latest
    progress, the end of every owner waited on) is at least a full window old:
    time spent waiting on a live owner is never charged. *)
Theorem stalled_iff_silent_window started progressed window now owners :
  0 < window ->
  progress_verdict started progressed window now owners = Verdict.STALLED <->
  (forall o, o ∈ owners -> live o = false) /\
  (forall t, t ∈ signals started progressed owners -> t + window <= to_utc now).
Proof.
  intros Hw. unfold progress_verdict, progress_deadline.
  destruct (existsb live owners) eqn:Hl.
  { split; [done|]. intros [Hno _]. apply existsb_exists in Hl as (o & Ho%list_elem_of_In & Hlive).
    rewrite Hno in Hlive; done. }
  assert (forall o, o ∈ owners -> live o = false) as Hno.
  { intros o Ho. destruct (live o) eqn:E; [|done].
    rewrite <- Hl. symmetry. apply existsb_exists. exists o. by rewrite <- list_elem_of_In. }
  unfold latest_progress, stall_deadline, signals. rewrite known_None.
  set (ks := known (progressed :: _)).
  destruct (max_list ks) as [m|] eqn:Hm; simpl.
  - apply max_list_spec in Hm as [Hin Hmax]. case_match eqn:E; bools; split; try done.
    + intros _. split; [done|]. intros t [->|Ht]%elem_of_cons; [lia|]. specialize (Hmax t Ht). lia.
    + intros [_ Hall]. exfalso. pose proof (Hall _ ltac:(left)). 
      pose proof (Hall m ltac:(by right)). lia.
  - apply max_list_None in Hm. rewrite Hm. case_match eqn:E; bools; split; try done.
    + intros _. split; [done|]. by intros t [->|?%elem_of_nil]%elem_of_cons.
    + intros [_ Hall]. pose proof (Hall _ ltac:(left)). lia.
Qed.

Lemma stalled_iff_silent_window_witness :
  progress_verdict (Aware 0) (Some (Naive 5)) 10 (Aware 20)
    [{| live := false; ended_at := Some (Aware 10) |}] = Verdict.STALLED.
Proof.
  apply stalled_iff_silent_window; [lia|]. split.
  - intros o [->|[]%elem_of_nil]%elem_of_cons. reflexivity.
  - intros t Ht. unfold signals in Ht. simpl in Ht.
    repeat (apply elem_of_cons in Ht as [->|Ht]; [simpl; lia|]). by apply elem_of_nil in Ht.
Defined.

(** A progress signal is never recorded later than now, and is at least every
    signal that is not from the future. *)
Theorem latest_progress_spec stored sigs now t :
  latest_progress stored sigs now = Some t ->
  t <= to_utc now /\
  forall s, Some s ∈ stored :: sigs -> to_utc s <= to_utc now -> to_utc s <= t.
Proof.
  unfold latest_progress. destruct (max_list _) as [m|] eqn:Hm; [|done]. intros [= <-].
  apply max_list_spec in Hm as [_ Hmax]. split; [lia|]. intros s Hs Hle.
  assert (to_utc s <= m); [|lia]. apply Hmax. apply list_elem_of_fmap. exists s. split; [done|].
  apply list_elem_of_omap. by exists (Some s).
Qed.

Lemma latest_progress_spec_witness :
  exists t, latest_progress (Some (Aware 3)) [None; Some (Aware 7); Some (Aware 90)] (Aware 10) = Some t /\
    3 <= t <= 10.
Proof.
  eexists. split; [reflexivity|].
  destruct (latest_progress_spec (Some (Aware 3)) [None; Some (Aware 7); Some (Aware 90)] (Aware 10) 10)
    as [_ H]; [reflexivity|].
  split; [apply (H (Aware 3)); [left|by vm_compute]|by vm_compute].
Defined.

(** A stored signal from the future does hold work open at the verdict: the clamp
    to now moves with every check, so until the signal itself is a window old the
    work is never stalled, however long it has been silent. *)
Theorem future_signal_holds_open started window now future :
  0 < window -> to_utc now < future + window ->
  progress_verdict started (Some (Aware future)) window now [] = Verdict.PROGRESSING.
Proof.
  intros Hw Hf. unfold progress_verdict, progress_deadline, latest_progress, stall_deadline. simpl.
  case_match eqn:E; [bools; lia|done].
Qed.

Lemma future_signal_holds_open_witness :
  progress_verdict (Aware 0) (Some (Aware 1000000)) 10 (Aware 999999) [] = Verdict.PROGRESSING.
Proof. apply future_signal_holds_open; simpl; lia. Defined.
