(* ===== verification/Blockers.v ===== *)
(** * What an operation waits for

    [control/src/vonk_control/operation_blockers.py]: one blocker with its evidence,
    [make_blocker] that builds one from free text, and [bound_blockers], the bounded
    snapshot an operation stores, most severe causes first.  A reason code is its stored
    word. *)
From stdpp Require Import sorting.
From S2P Require Import Prelude Vocabulary ReasonCodes.

(** ** Blockers *)
Record IdentityConflict := {
  identity : string;
  submitted : string;
  authoritative : option string;
}.
#[global] Instance IdentityConflict_eq : EqDecision IdentityConflict.
Proof. solve_decision. Defined.

Record BlockingOperation := {
  blocking_id : string;
  blocking_kind : string;
}.
#[global] Instance BlockingOperation_eq : EqDecision BlockingOperation.
Proof. solve_decision. Defined.

Record StorageReliefEvidence := {
  required_free_bytes : Z;
  storage_available_bytes : Z;
  reclaimable_bytes : Z;
}.
#[global] Instance StorageReliefEvidence_eq : EqDecision StorageReliefEvidence.
Proof. solve_decision. Defined.

Record SwapShortfallEvidence := {
  active_bytes : Z;
  evidence_desired_bytes : option Z;
  evidence_used_bytes : Z;
  evidence_held_bytes : Z;
  usable_bytes : Z;
  rise_bytes : Z;
  needed_setting_bytes : Z;
}.
#[global] Instance SwapShortfallEvidence_eq : EqDecision SwapShortfallEvidence.
Proof. solve_decision. Defined.

Inductive severity := error | warning | info.
#[global] Instance severity_eq : EqDecision severity.
Proof. solve_decision. Defined.

Record OperationBlocker := {
  code : string;
  detail : string;
  severity_of : severity;
  node_ids : list string;
  identity_conflict : option IdentityConflict;
  blocker_operation : option BlockingOperation;
  blocker_storage : option StorageReliefEvidence;
  blocker_swap : option SwapShortfallEvidence;
  blocker_run_id : option string;
}.
#[global] Instance OperationBlocker_eq : EqDecision OperationBlocker.
Proof. solve_decision. Defined.

Definition MAX_BLOCKERS : nat := 16.

(** [(code, tuple(node_ids))] *)
Definition key : Type := string * list string.
Definition blocker_key (b : OperationBlocker) : key := (code b, node_ids b).

Definition rank (s : severity) : Z := match s with error => 0 | warning => 1 | info => 2 end.

(** Keep the first blocker of each key. *)
Fixpoint unique_blockers (seen : list key) (l : list OperationBlocker) : list OperationBlocker :=
  match l with
  | [] => []
  | b :: rest =>
      if mem (blocker_key b) seen then unique_blockers seen rest
      else b :: unique_blockers (blocker_key b :: seen) rest
  end.

(** [list.sort(key=...)]: a stable sort. *)
Fixpoint insert_by {A} (k : A -> Z) (x : A) (l : list A) : list A :=
  match l with
  | [] => [x]
  | y :: rest => if k x <=? k y then x :: l else y :: insert_by k x rest
  end.
Definition sort_by {A} (k : A -> Z) (l : list A) : list A := fold_right (insert_by k) [] l.

Definition bound_blockers (blockers : list OperationBlocker) : list OperationBlocker :=
  take MAX_BLOCKERS (sort_by (fun b => rank (severity_of b)) (unique_blockers [] blockers)).

(** ** Building a blocker *)

(** [OperationReason | ProgressAlarmCode]: the words a blocker's code may be. *)
Definition is_blocker_reason (w : string) : bool :=
  is_operation_reason w || mem w (words ProgressAlarmCode).

(** [[0-9a-f]] *)
Definition is_hex_char (c : Ascii.ascii) : bool :=
  let n := Ascii.nat_of_ascii c in
  (Nat.leb 48 n && Nat.leb n 57) || (Nat.leb 97 n && Nat.leb n 102).

(** [^spk_[0-9a-f]{32}$], matched in full. *)
Definition _NODE_PATTERN (node : string) : bool :=
  String.prefix "spk_" node && Nat.eqb (String.length node) 36
  && all_chars is_hex_char (String.substring 4 32 node).

(** The constraints of the blocker's fields. *)
Definition valid_blocker (b : OperationBlocker) : bool :=
  is_blocker_reason (code b)
  && Nat.leb 1 (String.length (detail b)) && Nat.leb (String.length (detail b)) 512
  && forallb _NODE_PATTERN (node_ids b) && Nat.leb (length (node_ids b)) 32.

(** A code outside the closed vocabularies is a [ValidationError]. *)
Definition make_blocker (code_ detail_ : string) (severity_ : severity) (nodes_in : list string)
    (swap_ : option SwapShortfallEvidence) : result OperationBlocker :=
  let nodes := sorted (remove_dups (List.filter _NODE_PATTERN nodes_in)) in
  if is_blocker_reason code_ then
    Ok {| code := code_;
          detail := str_take 512
                      (default "waiting" (str_or (Some detail_) (str_or (Some code_) None)));
          severity_of := severity_;
          node_ids := take 32 nodes;
          identity_conflict := None;
          blocker_operation := None;
          blocker_storage := None;
          blocker_swap := swap_;
          blocker_run_id := None |}
  else Raise (ValueError "code").

(** [blocker.model_copy(update={"operation": ...})] *)
Definition with_operation (o : BlockingOperation) (b : OperationBlocker) : OperationBlocker := {|
  code := code b; detail := detail b; severity_of := severity_of b; node_ids := node_ids b;
  identity_conflict := identity_conflict b; blocker_operation := Some o;
  blocker_storage := blocker_storage b; blocker_swap := blocker_swap b;
  blocker_run_id := blocker_run_id b |}.

(** ** Facts *)

Lemma empty_not_reason : is_blocker_reason EmptyString = false.
Proof. vm_compute. reflexivity. Qed.

Lemma str_take_length n s : String.length (str_take n s) = Nat.min n (String.length s).
Proof.
  unfold str_take. revert s; induction n as [|n IH]; intros [|c s]; simpl; try done.
  by rewrite IH.
Qed.

Lemma is_blocker_operation w : is_operation_reason w = true -> is_blocker_reason w = true.
Proof. unfold is_blocker_reason. by intros ->. Qed.

(** A blocker is built exactly when its code is in the vocabulary, and then keeps every
    bound of the stored contract whatever text and Spark ids it was given: the text is
    cut, unreadable ids and repeats are dropped and the rest sorted. *)
Lemma make_blocker_spec c d sev ids sw :
  (is_ok (make_blocker c d sev ids sw) <-> is_blocker_reason c = true) /\
  (is_blocker_reason c = true -> exists b,
     make_blocker c d sev ids sw = Ok b /\ valid_blocker b = true /\ code b = c /\
     StronglySorted str_le (node_ids b) /\ NoDup (node_ids b) /\
     forall n, n ∈ node_ids b -> n ∈ ids).
Proof.
  unfold make_blocker. split.
  { destruct (is_blocker_reason c); split; try done; [intros _; apply is_ok_Ok|by intros [? ?]]. }
  intros Hc. rewrite Hc. eexists. split; [reflexivity|].
  set (ns := remove_dups (List.filter _NODE_PATTERN ids)).
  assert (sorted ns ≡ₚ ns) as Hp by apply merge_sort_Permutation.
  assert (StronglySorted str_le (sorted ns)) as Hs.
  { apply Sorted_StronglySorted; [exact str_le_trans|]. apply Sorted_merge_sort. exact str_le_total. }
  rewrite <- (take_drop 32 (sorted ns)) in Hs, Hp.
  assert (forall n, n ∈ take 32 (sorted ns) -> _NODE_PATTERN n = true /\ n ∈ ids) as Hin.
  { intros n Hn. assert (n ∈ ns) as Hn' by (rewrite <- Hp; apply elem_of_app; by left).
    apply elem_of_remove_dups, list_elem_of_In, List.filter_In in Hn' as [? ?].
    by rewrite list_elem_of_In. }
  unfold valid_blocker. cbn [code detail node_ids]. split_and!; [|done| | |].
  - rewrite Hc, str_take_length, length_take. rewrite !andb_true_iff, !Nat.leb_le.
    rewrite forallb_forall. split_and!; try done; try lia.
    + assert (c <> EmptyString) as Hne by (intros ->; by rewrite empty_not_reason in Hc).
      assert (forall s, s <> EmptyString -> (1 <= Nat.min 512 (String.length s))%nat) as Hlen
        by (intros [|x s]; [done|]; change (String.length (String x s)) with (S (String.length s)); lia).
      unfold str_or. repeat case_decide; by apply Hlen.
    + intros n Hn%list_elem_of_In. by apply Hin.
  - by eapply StronglySorted_app_1_l.
  - assert (NoDup ns) as Hnd by apply NoDup_remove_dups. rewrite <- Hp in Hnd.
    by apply NoDup_app in Hnd as [? _].
  - intros n Hn. by apply Hin.
Qed.

Lemma insert_by_perm {A} (f : A -> Z) x l : insert_by f x l ≡ₚ x :: l.
Proof.
  induction l as [|y l IH]; simpl; [done|]. case_match; [done|]. rewrite IH. constructor.
Qed.

Lemma sort_by_perm {A} (f : A -> Z) l : sort_by f l ≡ₚ l.
Proof. induction l as [|x l IH]; simpl; [done|]. by rewrite insert_by_perm, IH. Qed.

(** Sorting by a key is stable: each key's elements keep their order. *)
Lemma insert_by_filter {A} (f : A -> Z) v x l :
  List.filter (fun y => f y =? v) (insert_by f x l) =
  if f x =? v then x :: List.filter (fun y => f y =? v) l else List.filter (fun y => f y =? v) l.
Proof.
  induction l as [|y l IH]; simpl; [done|].
  destruct (f x <=? f y) eqn:E; simpl; [done|]. rewrite IH.
  destruct (f x =? v) eqn:E1, (f y =? v) eqn:E2; try done. lia.
Qed.

Lemma sort_by_filter {A} (f : A -> Z) v l :
  List.filter (fun y => f y =? v) (sort_by f l) = List.filter (fun y => f y =? v) l.
Proof. induction l as [|x l IH]; simpl; [done|]. by rewrite insert_by_filter, IH. Qed.

Lemma insert_by_sorted {A} (f : A -> Z) x l :
  StronglySorted (fun a b => f a <= f b) l ->
  StronglySorted (fun a b => f a <= f b) (insert_by f x l).
Proof.
  induction 1 as [|y l Hl IH Hy]; simpl; [by repeat constructor|].
  destruct (f x <=? f y) eqn:E; bools.
  - constructor; [by constructor|]. constructor; [done|]. eapply Forall_impl; [exact Hy|].
    simpl. lia.
  - constructor; [done|]. rewrite insert_by_perm. constructor; [lia|done].
Qed.

Lemma sort_by_sorted {A} (f : A -> Z) l : StronglySorted (fun a b => f a <= f b) (sort_by f l).
Proof. induction l; simpl; [constructor|]. by apply insert_by_sorted. Qed.

Lemma unique_blockers_spec l : forall seen,
  NoDup (blocker_key <$> unique_blockers seen l) /\
  (forall b, b ∈ unique_blockers seen l -> b ∈ l /\ blocker_key b ∉ seen) /\
  (forall b, b ∈ l -> blocker_key b ∈ seen \/ blocker_key b ∈ blocker_key <$> unique_blockers seen l).
Proof.
  induction l as [|x l IH]; intros seen; simpl.
  { split_and!; [constructor|by intros b ?%elem_of_nil|by intros b ?%elem_of_nil]. }
  case_match eqn:E; bools.
  - destruct (IH seen) as (H1 & H2 & H3). split_and!; [done| |].
    + intros b Hb. destruct (H2 b Hb). split; [by right|done].
    + intros b [->|Hb]%elem_of_cons; [by left|by apply H3].
  - destruct (IH (blocker_key x :: seen)) as (H1 & H2 & H3). split_and!.
    + rewrite fmap_cons. constructor; [|done].
      intros (b & Hk & Hb)%list_elem_of_fmap. destruct (H2 b Hb) as [_ Hn]. apply Hn.
      rewrite Hk. left.
    + intros b [->|Hb]%elem_of_cons; [split; [left|done]|]. destruct (H2 b Hb) as [? Hn].
      split; [by right|]. intros ?. apply Hn. by right.
    + intros b [->|Hb]%elem_of_cons; [right; left|].
      destruct (H3 b Hb) as [[->|?]%elem_of_cons|?]; [right; left|by left|right; by right].
Qed.

(** The list an operation stores is a bounded snapshot: at most [MAX_BLOCKERS]
    blockers of the given ones, one per code and Sparks, most severe first, and
    a cause is left out only when the list is full of causes at least as severe. *)
Theorem bound_blockers_spec l :
  let stored := bound_blockers l in
  (length stored <= MAX_BLOCKERS)%nat /\
  (forall b, b ∈ stored -> b ∈ l) /\ NoDup (blocker_key <$> stored) /\
  StronglySorted (fun a b => rank (severity_of a) <= rank (severity_of b)) stored /\
  (forall b, b ∈ l -> blocker_key b ∉ blocker_key <$> stored ->
     length stored = MAX_BLOCKERS /\
     exists b', b' ∈ l /\ blocker_key b' = blocker_key b /\
       forall s, s ∈ stored -> rank (severity_of s) <= rank (severity_of b')).
Proof.
  unfold bound_blockers. set (f := fun b => rank (severity_of b)).
  destruct (unique_blockers_spec l []) as (Hnd & Hsub & Hall). set (u := unique_blockers [] l) in *.
  pose proof (sort_by_perm f u) as Hp. pose proof (sort_by_sorted f u) as Hs.
  set (v := sort_by f u) in *.
  assert (v = take MAX_BLOCKERS v ++ drop MAX_BLOCKERS v)%list as Hv by (by rewrite take_drop).
  rewrite Hv in Hp, Hs.
  assert (forall b, b ∈ take MAX_BLOCKERS v -> b ∈ u) as Hin.
  { intros b Hb. rewrite <- Hp. apply elem_of_app. by left. }
  split; [rewrite length_take; lia|]. split; [intros b Hb; by apply Hsub, Hin|].
  split; [|split].
  - rewrite <- Hp, fmap_app in Hnd. by apply NoDup_app in Hnd as [? _].
  - by eapply StronglySorted_app_1_l.
  - intros b Hb Hno. destruct (Hall b Hb) as [[]%elem_of_nil|(b' & Hk & Hb')%list_elem_of_fmap].
    assert (b' ∈ drop MAX_BLOCKERS v) as Hd.
    { rewrite <- Hp in Hb'. apply elem_of_app in Hb' as [Ht|?]; [|done].
      destruct Hno. rewrite Hk. by apply list_elem_of_fmap_2. }
    split.
    + rewrite length_take. assert (length (drop MAX_BLOCKERS v) <> 0%nat) as Hlen.
      { destruct (drop MAX_BLOCKERS v); [by apply elem_of_nil in Hd|done]. }
      rewrite length_drop in Hlen. lia.
    + exists b'. split; [by apply Hsub|]. split; [done|]. intros s Hs'.
      by apply (StronglySorted_app_1_elem_of _ _ _ s b' Hs).
Qed.

(** The stored order is stable: the causes of one severity keep the order they were
    given in. *)
Lemma bound_blockers_stable l v :
  List.filter (fun b => rank (severity_of b) =? v)
    (sort_by (fun b => rank (severity_of b)) (unique_blockers [] l)) =
  List.filter (fun b => rank (severity_of b) =? v) (unique_blockers [] l).
Proof. apply sort_by_filter. Qed.
