(* ===== verification/PersistedWaits.v ===== *)
(** * Persisted waits

    [control/src/vonk_control/persisted_waits.py] and [wait_contract.py]: the evidence of
    why a durable owner waits, stored in the same write as the SQL column that says when
    it is looked at again.  An owner is its two columns ([ScheduledWaitOwner]); a reason
    is its stored word.  The writers return the columns they leave and whether anything
    changed; what pydantic refuses is a [Raise]. *)
From S2P Require Import Prelude Vocabulary ReasonCodes Blockers.

(** Existing durable owners of Controller waits. *)
Module WaitOwnerKind.
Inductive WaitOwnerKind :=
    AGENT_OPERATION | AGENT_UPGRADE | ARTIFACT_JOB | FLEET_PROFILE | IMAGE_AVAILABILITY
  | PREBUILT_IMAGE | JOB | MODEL_CACHE | RECIPE_OPERATION | RECIPE_UPDATE_BATCH | RUN_SWITCH
  | STORAGE_RELIEF | CLEANUP | SELECTED_PROFILE | ROUTE_PUBLICATION | ROUTE_RECOVERY
  | CATALOG_SYNC | CERTIFICATE | CERTIFICATE_REVOCATION | COORDINATOR.
Definition WaitOwnerKind_value (e : WaitOwnerKind) : string :=
  match e with
  | AGENT_OPERATION => "agent-operation"
  | AGENT_UPGRADE => "agent-upgrade"
  | ARTIFACT_JOB => "artifact-job"
  | FLEET_PROFILE => "fleet-profile"
  | IMAGE_AVAILABILITY => "image-availability"
  | PREBUILT_IMAGE => "prebuilt-image"
  | JOB => "job"
  | MODEL_CACHE => "model-cache"
  | RECIPE_OPERATION => "recipe-operation"
  | RECIPE_UPDATE_BATCH => "recipe-update-batch"
  | RUN_SWITCH => "run-switch"
  | STORAGE_RELIEF => "storage-relief"
  | CLEANUP => "cleanup"
  | SELECTED_PROFILE => "selected-profile"
  | ROUTE_PUBLICATION => "route-publication"
  | ROUTE_RECOVERY => "route-recovery"
  | CATALOG_SYNC => "catalog-sync"
  | CERTIFICATE => "certificate"
  | CERTIFICATE_REVOCATION => "certificate-revocation"
  | COORDINATOR => "coordinator"
  end.
Definition WaitOwnerKind_members : list WaitOwnerKind :=
  [AGENT_OPERATION; AGENT_UPGRADE; ARTIFACT_JOB; FLEET_PROFILE; IMAGE_AVAILABILITY;
   PREBUILT_IMAGE; JOB; MODEL_CACHE; RECIPE_OPERATION; RECIPE_UPDATE_BATCH; RUN_SWITCH;
   STORAGE_RELIEF; CLEANUP; SELECTED_PROFILE; ROUTE_PUBLICATION; ROUTE_RECOVERY; CATALOG_SYNC;
   CERTIFICATE; CERTIFICATE_REVOCATION; COORDINATOR].
Lemma WaitOwnerKind_decode e :
  find (fun m => String.eqb (WaitOwnerKind_value m) (WaitOwnerKind_value e)) WaitOwnerKind_members = Some e.
Proof. destruct e; reflexivity. Qed.
#[global] Instance WaitOwnerKind_enum : WireEnum WaitOwnerKind :=
  decoded_enum WaitOwnerKind_members WaitOwnerKind_value WaitOwnerKind_decode eq_refl.
End WaitOwnerKind.
Abbreviation WaitOwnerKind := WaitOwnerKind.WaitOwnerKind.

(** ** The stored evidence *)
Record WaitEvidence := {
  ev_owner : BlockingOperation;
  ev_owner_kind : WaitOwnerKind;
  ev_reason : string;
  ev_blockers : list OperationBlocker;
  first_blocked_at : instant;
  last_progress_at : option instant;
  dependency_deadline : option instant;
  resume_condition : WaitResumeCondition;
  operator_action : option OperatorActionName;
}.
#[global] Instance WaitEvidence_eq : EqDecision WaitEvidence.
Proof. solve_decision. Defined.

(** The evidence with its one scheduling field. *)
Record QueueWait := {
  evidence_of : WaitEvidence;
  next_check : instant;
}.
#[global] Instance QueueWait_eq : EqDecision QueueWait.
Proof. solve_decision. Defined.

(** What the evidence column holds: evidence, a [Residue] of a document that cannot be
    read, or nothing. *)
Inductive evidence_column :=
| NoEvidence
| Evidence (e : WaitEvidence)
| Unreadable.
#[global] Instance evidence_column_eq : EqDecision evidence_column.
Proof. solve_decision. Defined.

Record ScheduledWaitOwner := WaitColumns {
  wait_evidence : evidence_column;
  wait_next_action_at : option datetime;
}.
#[global] Instance ScheduledWaitOwner_eq : EqDecision ScheduledWaitOwner.
Proof. solve_decision. Defined.

(** [aware(value)] *)
Definition aware (d : datetime) : datetime := Aware (to_utc d).

(** [BlockingOperation(id=..., kind=...)] with its length limits. *)
Definition valid_blocking (o : BlockingOperation) : bool :=
  Nat.leb 1 (String.length (blocking_id o)) && Nat.leb (String.length (blocking_id o)) 128
  && Nat.leb 1 (String.length (blocking_kind o)) && Nat.leb (String.length (blocking_kind o)) 80.

Definition blocking_operation (id_ kind_ : string) : result BlockingOperation :=
  let o := {| blocking_id := id_; blocking_kind := kind_ |} in
  if valid_blocking o then Ok o else Raise (ValueError "operation").

(** ** Readers and writers *)

(** A declared code is adopted; the human-readable detail is never classified. *)
Definition typed_wait_reason (v : option string) (fallback : string) : string :=
  match v with
  | Some w => if is_operation_reason w then w else fallback
  | None => fallback
  end.

Definition read_wait (owner : ScheduledWaitOwner) : option QueueWait :=
  match wait_evidence owner with
  | Evidence e =>
      match wait_next_action_at owner with
      | None => None
      | Some due =>
          if bool_decide (ev_blockers e = []) then None
          else Some {| evidence_of := e; next_check := to_utc due |}
      end
  | _ => None
  end.

Definition clear_wait (owner : ScheduledWaitOwner) : ScheduledWaitOwner * bool :=
  (WaitColumns NoEvidence None,
   negb (bool_decide (wait_evidence owner = NoEvidence))
   || negb (bool_decide (wait_next_action_at owner = None))).

(** What a blocker says of the dependency; its prose, severity and evidence do not. *)
Definition dependency_key (b : OperationBlocker)
  : string * option BlockingOperation * list string * option string * option IdentityConflict :=
  (code b, blocker_operation b, node_ids b, blocker_run_id b, identity_conflict b).

(** The progress alarm is no dependency. *)
Definition dependency (blockers : list OperationBlocker) :=
  dependency_key <$>
    List.filter (fun b => negb (bool_decide (code b = value ProgressAlarmCode.STALLED))) blockers.

Definition same_dependency (previous : option QueueWait) (reason_ : string)
    (blockers : list OperationBlocker) : bool :=
  match previous with
  | None => false
  | Some p =>
      bool_decide (ev_reason (evidence_of p) = reason_)
      && bool_decide (dependency (ev_blockers (evidence_of p)) = dependency blockers)
  end.

(** [min((bound for bound in (a, b) if bound is not None), default=None)] *)
Definition earliest (a b : option instant) : option instant :=
  match a, b with
  | Some x, Some y => Some (Z.min x y)
  | Some x, None => Some x
  | None, _ => b
  end.

(** The keyword arguments of [write_wait]. *)
Record wait_write := {
  w_identity : BlockingOperation;
  w_kind : WaitOwnerKind;
  w_reason : string;
  w_now : datetime;
  w_next_check : datetime;
  w_blockers : list OperationBlocker;
  w_resume_condition : WaitResumeCondition;
  w_dependency_deadline : option datetime;
  w_last_progress_at : option datetime;
  w_operator_action : option OperatorActionName;
}.

Definition write_wait (owner : ScheduledWaitOwner) (w : wait_write)
  : result (ScheduledWaitOwner * bool) :=
  let previous := read_wait owner in
  let same_ := same_dependency previous (w_reason w) (w_blockers w) in
  let evidence := {|
    ev_owner := w_identity w;
    ev_owner_kind := w_kind w;
    ev_reason := w_reason w;
    ev_blockers := w_blockers w;
    first_blocked_at :=
      match previous with
      | Some p => if same_ then first_blocked_at (evidence_of p) else to_utc (w_now w)
      | None => to_utc (w_now w)
      end;
    last_progress_at :=
      match w_last_progress_at w with
      | Some t => Some (to_utc t)
      | None => p ← previous; last_progress_at (evidence_of p)
      end;
    dependency_deadline :=
      earliest
        (p ← previous; if same_ then dependency_deadline (evidence_of p) else None)
        (to_utc <$> w_dependency_deadline w);
    resume_condition := w_resume_condition w;
    operator_action := w_operator_action w |} in
  if bool_decide (w_blockers w = []) then Raise (ValueError "blockers")
  else
    let due := aware (w_next_check w) in
    Ok (WaitColumns (Evidence evidence) (Some due),
        negb (bool_decide (wait_evidence owner = Evidence evidence))
        || negb (bool_decide (wait_next_action_at owner = Some due))).

(** [blockers or [make_blocker(code, detail or code.value) with the operation]] *)
Definition own_blocker (code_ : string) (detail_ : option string) (o : BlockingOperation)
  : result (list OperationBlocker) :=
  b ← make_blocker code_ (default code_ (str_or detail_ None)) warning [] None;
  Ok [with_operation o b].

(** The states a row waits in. *)
Definition lifecycle_waits (state : LifecycleState) (due lease_deadline : option datetime) : bool :=
  mem state [LifecycleState.BACKOFF; LifecycleState.OBSERVING; LifecycleState.NEEDS_OPERATOR]
  || (same state LifecycleState.QUEUED && bool_decide (due <> None))
  || (same state LifecycleState.RUNNING && bool_decide (due <> None)
      && bool_decide (lease_deadline = None)).

Definition resumes_on (state : LifecycleState) (cancelling : bool) : WaitResumeCondition :=
  if cancelling || same state LifecycleState.OBSERVING then WaitResumeCondition.EFFECT_OBSERVED
  else if same state LifecycleState.NEEDS_OPERATOR then WaitResumeCondition.OPERATOR_ACTION
  else if mem state [LifecycleState.BACKOFF; LifecycleState.QUEUED]
       then WaitResumeCondition.RETRY_DUE
  else WaitResumeCondition.DEPENDENCY_CHANGED.

(** The keyword arguments of [lifecycle_wait]; [None] blockers are the empty list. *)
Record lifecycle_write := {
  l_identity : string;
  l_kind : WaitOwnerKind;
  l_state : LifecycleState;
  l_now : datetime;
  l_due : option datetime;
  l_detail : option string;
  l_reason : option string;
  l_blockers : list OperationBlocker;
  l_deadline : option datetime;
  l_cancelling : bool;
  l_lease_deadline : option datetime;
  l_operator_action : option OperatorActionName;
}.

Definition fallback_reason (cancelling : bool) : string :=
  if cancelling then value WaitReason.STOP_UNCONFIRMED
  else value WaitReason.OBSERVATION_UNAVAILABLE.

(** The reason and blockers a lifecycle write records: the typed ones, or those of the
    wait before when the row names no new cause. *)
Definition lifecycle_cause (c : ScheduledWaitOwner) (l : lifecycle_write)
  : string * list OperationBlocker :=
  let fallback := fallback_reason (l_cancelling l) in
  let code_ :=
    match l_reason l with
    | Some w => w
    | None => typed_wait_reason
                (match l_blockers l with b :: _ => Some (code b) | [] => l_detail l end) fallback
    end in
  match read_wait c with
  | Some p =>
      if bool_decide (l_reason l = None) && bool_decide (l_blockers l = [])
         && bool_decide (code_ = fallback)
      then (ev_reason (evidence_of p), ev_blockers (evidence_of p))
      else (code_, l_blockers l)
  | None => (code_, l_blockers l)
  end.

Definition lifecycle_wait (owner : ScheduledWaitOwner) (l : lifecycle_write)
  : result (ScheduledWaitOwner * bool) :=
  if negb (lifecycle_waits (l_state l) (l_due l) (l_lease_deadline l)) then Ok (clear_wait owner)
  else
    let '(code_, blockers) := lifecycle_cause owner l in
    owner_ref ← blocking_operation (l_identity l) (value (l_kind l));
    blockers ← match blockers with
               | [] => own_blocker code_ (l_detail l) owner_ref
               | _ => Ok blockers
               end;
    write_wait owner {|
      w_identity := owner_ref; w_kind := l_kind l; w_reason := code_; w_now := l_now l;
      w_next_check := default (l_now l) (l_due l); w_blockers := blockers;
      w_resume_condition := resumes_on (l_state l) (l_cancelling l);
      w_dependency_deadline := l_deadline l; w_last_progress_at := None;
      w_operator_action := l_operator_action l |}.

(** ** The owners *)

(** The documents a job's payload column may be bound to ([binding_for]). *)
Inductive JobContract :=
| AgentUpgradeRolloutPayload | RecipeBuildCleanupParent | RecipeBuildParent
| RecipeInstallParent | RecipeStartParent | RecipeStopParent | RecipeUninstallParent
| RecipeReconcileParent | RecipeJobRunParent | RecipeJobActivateParent
| RunSwitchJobPayload | AvailabilityJobPayload | RecipeCacheRemovalOwner
| RecipeUpdateDocument.
#[global] Instance JobContract_eq : EqDecision JobContract.
Proof. solve_decision. Defined.

(** In the order they are tried. *)
Definition JOB_CONTRACT_KINDS : list (JobContract * WaitOwnerKind) :=
  [(AgentUpgradeRolloutPayload, WaitOwnerKind.AGENT_UPGRADE);
   (RecipeBuildCleanupParent, WaitOwnerKind.RECIPE_OPERATION);
   (RecipeBuildParent, WaitOwnerKind.RECIPE_OPERATION);
   (RecipeInstallParent, WaitOwnerKind.RECIPE_OPERATION);
   (RecipeStartParent, WaitOwnerKind.RECIPE_OPERATION);
   (RecipeStopParent, WaitOwnerKind.RECIPE_OPERATION);
   (RecipeUninstallParent, WaitOwnerKind.RECIPE_OPERATION);
   (RecipeReconcileParent, WaitOwnerKind.RECIPE_OPERATION);
   (RecipeJobRunParent, WaitOwnerKind.RECIPE_OPERATION);
   (RecipeJobActivateParent, WaitOwnerKind.RECIPE_OPERATION);
   (RunSwitchJobPayload, WaitOwnerKind.RUN_SWITCH);
   (AvailabilityJobPayload, WaitOwnerKind.IMAGE_AVAILABILITY);
   (RecipeCacheRemovalOwner, WaitOwnerKind.IMAGE_AVAILABILITY);
   (RecipeUpdateDocument, WaitOwnerKind.RECIPE_UPDATE_BATCH)].

(** The other durable rows. *)
Inductive OwnerModel :=
| CoordinatorFailure | AgentOperation | RecipeInstallation | ArtifactLifecycleGate
| ArtifactJob | FleetProfileApplication | FleetProfileSelection | ModelCacheOperation
| RecipeLibrarySyncRun | RecipeRun | RoutePublicationOwner | AgentCertificate
| AgentIssuedCertificateRevocation.

Definition owner_model_kind (m : OwnerModel) : WaitOwnerKind :=
  match m with
  | CoordinatorFailure => WaitOwnerKind.COORDINATOR
  | AgentOperation => WaitOwnerKind.AGENT_OPERATION
  | RecipeInstallation => WaitOwnerKind.CLEANUP
  | ArtifactLifecycleGate => WaitOwnerKind.STORAGE_RELIEF
  | ArtifactJob => WaitOwnerKind.ARTIFACT_JOB
  | FleetProfileApplication => WaitOwnerKind.FLEET_PROFILE
  | FleetProfileSelection => WaitOwnerKind.SELECTED_PROFILE
  | ModelCacheOperation => WaitOwnerKind.MODEL_CACHE
  | RecipeLibrarySyncRun => WaitOwnerKind.CATALOG_SYNC
  | RecipeRun => WaitOwnerKind.ROUTE_RECOVERY
  | RoutePublicationOwner => WaitOwnerKind.ROUTE_PUBLICATION
  | AgentCertificate => WaitOwnerKind.CERTIFICATE
  | AgentIssuedCertificateRevocation => WaitOwnerKind.CERTIFICATE_REVOCATION
  end.

(** What identifies a row: a job's id, kind and payload contracts, or the first of the
    identity columns another row has. *)
Inductive OwnerRow :=
| JobRow (id_ kind_ : string) (contracts : list JobContract)
| ModelRow (m : OwnerModel) (id_ serial artifact_sha256 : option string)
    (singleton_id : option Z)
| OtherRow (class_name : string).

Definition job_owner_kind (owner : ScheduledWaitOwner) (contracts : list JobContract)
  : WaitOwnerKind :=
  match read_wait owner with
  | Some p => ev_owner_kind (evidence_of p)
  | None =>
      match find (fun c => mem (fst c) contracts) JOB_CONTRACT_KINDS with
      | Some (_, k) => k
      | None => WaitOwnerKind.JOB
      end
  end.

Definition owner_identity (row_ : OwnerRow) (owner : ScheduledWaitOwner)
  : result (BlockingOperation * WaitOwnerKind) :=
  match row_ with
  | JobRow id_ kind_ contracts =>
      o ← blocking_operation id_ kind_; Ok (o, job_owner_kind owner contracts)
  | ModelRow m id_ serial artifact singleton =>
      let identity :=
        default (pretty (default 1 singleton)) (str_or id_ (str_or serial (str_or artifact None))) in
      o ← blocking_operation identity (value (owner_model_kind m)); Ok (o, owner_model_kind m)
  | OtherRow name => Raise (TypeError ("unregistered wait owner: " +:+ name))
  end.

(** The keyword arguments of [schedule_wait] and the owner's [updated_at]. *)
Record schedule_write := {
  s_now : option datetime;
  s_updated_at : option datetime;
  s_reason : option string;
  s_blockers : list OperationBlocker;
  s_deadline : option datetime;
  s_detail : option string;
}.

(** [schedule_wait(owner, next_check)] with every keyword left out. *)
Definition plain_schedule (updated_at : option datetime) : schedule_write := {|
  s_now := None; s_updated_at := updated_at; s_reason := None; s_blockers := [];
  s_deadline := None; s_detail := None |}.

Definition schedule_wait (row_ : OwnerRow) (owner : ScheduledWaitOwner)
    (next : option datetime) (s : schedule_write) : result (ScheduledWaitOwner * bool) :=
  match next with
  | None => Ok (clear_wait owner)
  | Some next_ =>
      let previous := read_wait owner in
      '(identity, kind_) ← owner_identity row_ owner;
      let code_ :=
        match s_reason s with
        | Some c => c
        | None => match previous with
                  | Some p => ev_reason (evidence_of p)
                  | None => value WaitReason.OBSERVATION_UNAVAILABLE
                  end
        end in
      blockers ←
        match s_blockers s with
        | [] =>
            match previous with
            | Some p =>
                if bool_decide (s_detail s = None)
                   && match s_reason s with
                      | None => true
                      | Some c => bool_decide (c = ev_reason (evidence_of p))
                      end
                then Ok (ev_blockers (evidence_of p))
                else own_blocker code_ (s_detail s) identity
            | None => own_blocker code_ (s_detail s) identity
            end
        | bs => Ok bs
        end;
      write_wait owner {|
        w_identity := identity; w_kind := kind_; w_reason := code_;
        w_now := default next_ (or_else (s_now s) (s_updated_at s));
        w_next_check := next_; w_blockers := blockers;
        w_resume_condition :=
          match previous with
          | Some p => resume_condition (evidence_of p)
          | None => WaitResumeCondition.DEPENDENCY_CHANGED
          end;
        w_dependency_deadline :=
          match s_deadline s with
          | Some d => Some d
          | None => Aware <$> (p ← previous; dependency_deadline (evidence_of p))
          end;
        w_last_progress_at := None;
        w_operator_action := p ← previous; operator_action (evidence_of p) |}
  end.

(** [initialize_wait] of an owner with an identity ([uuid4] gives a new one where the
    row has none): its stored state and creation time, before it is flushed. *)
Definition initialize_wait (owner : ScheduledWaitOwner) (identity : string) (kind_ : WaitOwnerKind)
    (stored_state : option string) (created_at updated_at : option datetime)
  : result ScheduledWaitOwner :=
  match JobStates.core stored_state, or_else created_at updated_at with
  | Some state, Some now =>
      w ← lifecycle_wait owner {|
        l_identity := identity; l_kind := kind_; l_state := state; l_now := now;
        l_due := wait_next_action_at owner; l_detail := None; l_reason := None;
        l_blockers := []; l_deadline := None; l_cancelling := false;
        l_lease_deadline := None; l_operator_action := None |};
      Ok (fst w)
  | _, _ => Ok owner
  end.

(** [_adopt_wait_instant] of a value already parsed: only an aware clock is adopted. *)
Definition _adopt_wait_instant (v : option datetime) : option datetime :=
  match v with Some (Aware t) => Some (Aware t) | _ => None end.

(** The pre-contract clocks of a row's document, parsed ([None]: absent or unreadable). *)
Inductive WaitClocks :=
| RunSwitchClocks (observation_due_at : option datetime)
| AvailabilityClocks (retry_after_at : option datetime)
| RecipeUpdateClocks (next_attempt_at : option datetime)
| CacheRemovalClocks (checkpoint_failure_retry_time : option datetime)
| ApplicationClocks (cancellation_observation_due_at admission_retry_at retry_due_at
    switch_adapter_observation_due_at : option datetime)
| NoClocks.

(** The paths in the order they are read. *)
Definition clock_paths (c : WaitClocks) : list (option datetime) :=
  match c with
  | RunSwitchClocks t | AvailabilityClocks t | RecipeUpdateClocks t | CacheRemovalClocks t => [t]
  | ApplicationClocks cancel admission retry switch => [cancel; admission; retry; switch]
  | NoClocks => []
  end.

(** Current evidence never falls back to a retired progress timestamp. *)
Definition wait_due (owner : ScheduledWaitOwner) (clocks : WaitClocks) : option datetime :=
  match wait_next_action_at owner with
  | Some t => Some (aware t)
  | None =>
      if negb (bool_decide (wait_evidence owner = NoEvidence)) then None
      else head (omap _adopt_wait_instant (clock_paths clocks))
  end.

(** ** Facts *)

(** The contract of the stored evidence: the constraints of [WaitEvidence] and of the
    models inside it. *)
Definition valid_evidence (e : WaitEvidence) : bool :=
  valid_blocking (ev_owner e) && is_operation_reason (ev_reason e)
  && negb (bool_decide (ev_blockers e = [])) && forallb valid_blocker (ev_blockers e).

(** The two columns are written together and hold valid evidence. *)
Definition valid_columns (c : ScheduledWaitOwner) : bool :=
  match wait_evidence c, wait_next_action_at c with
  | NoEvidence, None => true
  | Evidence e, Some _ => valid_evidence e
  | _, _ => false
  end.

Definition valid_reason (r : option string) : bool :=
  match r with Some c => is_operation_reason c | None => true end.

Lemma read_wait_Some c p :
  read_wait c = Some p <->
  exists d, wait_evidence c = Evidence (evidence_of p) /\ wait_next_action_at c = Some d /\
    ev_blockers (evidence_of p) <> [] /\ next_check p = to_utc d.
Proof.
  unfold read_wait. destruct c as [[|e|] [d|]]; simpl; try naive_solver.
  destruct p as [e' n]; simpl. case_bool_decide; naive_solver.
Qed.

(** In valid columns evidence is readable exactly when there is any. *)
Lemma read_wait_valid c p :
  valid_columns c = true -> read_wait c = Some p -> valid_evidence (evidence_of p) = true.
Proof.
  intros Hv (d & He & Hd & _)%read_wait_Some. unfold valid_columns in Hv. by rewrite He, Hd in Hv.
Qed.

Lemma fallback_is_reason cancelling : is_operation_reason (fallback_reason cancelling) = true.
Proof. destruct cancelling; vm_compute; reflexivity. Qed.

Lemma typed_wait_reason_valid v fallback :
  is_operation_reason fallback = true -> is_operation_reason (typed_wait_reason v fallback) = true.
Proof. intros H. unfold typed_wait_reason. destruct v; [|done]. by case_match. Qed.

Lemma blocking_operation_ok i k o : blocking_operation i k = Ok o -> valid_blocking o = true.
Proof. unfold blocking_operation. case_match; [|done]. by intros [= <-]. Qed.

Lemma own_blocker_ok c d o :
  is_operation_reason c = true ->
  exists bs, own_blocker c d o = Ok bs /\ bs <> [] /\ forallb valid_blocker bs = true.
Proof.
  intros Hc%is_blocker_operation. unfold own_blocker.
  destruct (make_blocker_spec c (default c (str_or d None)) warning [] None) as [_ Hb].
  destruct (Hb Hc) as (b & -> & Hv & _). simpl. eexists. split; [reflexivity|]. split; [done|].
  simpl. rewrite andb_true_r. exact Hv.
Qed.

(** A write with blockers always returns, and its columns read back as what it wrote. *)
Lemma write_wait_reads c w :
  w_blockers w <> [] ->
  exists c' ch p, write_wait c w = Ok (c', ch) /\ read_wait c' = Some p /\
    wait_evidence c' = Evidence (evidence_of p) /\
    wait_next_action_at c' = Some (aware (w_next_check w)) /\
    next_check p = to_utc (w_next_check w) /\
    ev_owner (evidence_of p) = w_identity w /\ ev_reason (evidence_of p) = w_reason w /\
    ev_blockers (evidence_of p) = w_blockers w /\ ev_owner_kind (evidence_of p) = w_kind w /\
    resume_condition (evidence_of p) = w_resume_condition w.
Proof.
  intros Hb. unfold write_wait. rewrite bool_decide_eq_false_2 by done.
  do 3 eexists. split; [reflexivity|]. unfold read_wait. simpl.
  rewrite bool_decide_eq_false_2 by done. split; [reflexivity|]. done.
Qed.

Lemma write_wait_valid c w :
  valid_blocking (w_identity w) = true -> is_operation_reason (w_reason w) = true ->
  w_blockers w <> [] -> forallb valid_blocker (w_blockers w) = true ->
  exists c' ch, write_wait c w = Ok (c', ch) /\ valid_columns c' = true.
Proof.
  intros Hi Hr Hn Hb. destruct (write_wait_reads c w Hn)
    as (c' & ch & p & Hw & _ & He & Hd & _ & Eo & Er & Eb & _).
  exists c', ch. split; [done|]. unfold valid_columns, valid_evidence.
  rewrite He, Hd, Eo, Er, Eb, Hi, Hr, Hb. by rewrite bool_decide_eq_false_2.
Qed.

(** ** Histories of writes *)

(** Every way the columns are written. *)
Inductive wait_step :=
| StepLifecycle (l : lifecycle_write)
| StepSchedule (row_ : OwnerRow) (next : option datetime) (s : schedule_write)
| StepClear.

Definition run_step (c : ScheduledWaitOwner) (st : wait_step) : result ScheduledWaitOwner :=
  match st with
  | StepLifecycle l => w ← lifecycle_wait c l; Ok (fst w)
  | StepSchedule row_ next s => w ← schedule_wait row_ c next s; Ok (fst w)
  | StepClear => Ok (fst (clear_wait c))
  end.

Fixpoint run_steps (c : ScheduledWaitOwner) (sts : list wait_step) : result ScheduledWaitOwner :=
  match sts with
  | [] => Ok c
  | st :: rest => c' ← run_step c st; run_steps c' rest
  end.

(** An identity fits the stored contract. *)
Definition fits_identity (i : string) : bool :=
  Nat.leb 1 (String.length i) && Nat.leb (String.length i) 128.

Definition fits_row (row_ : OwnerRow) : bool :=
  match row_ with
  | JobRow id_ kind_ _ => valid_blocking {| blocking_id := id_; blocking_kind := kind_ |}
  | ModelRow _ id_ serial artifact singleton =>
      fits_identity
        (default (pretty (default 1 singleton)) (str_or id_ (str_or serial (str_or artifact None))))
  | OtherRow _ => false
  end.

(** The typed arguments of a write. *)
Definition typed_step (st : wait_step) : bool :=
  match st with
  | StepLifecycle l =>
      fits_identity (l_identity l) && valid_reason (l_reason l) && forallb valid_blocker (l_blockers l)
  | StepSchedule row_ _ s =>
      fits_row row_ && valid_reason (s_reason s) && forallb valid_blocker (s_blockers s)
  | StepClear => true
  end.

(** Evidence that can be read is valid; a damaged document is allowed. *)
Definition sound_columns (c : ScheduledWaitOwner) : bool :=
  match read_wait c with Some p => valid_evidence (evidence_of p) | None => true end.

Lemma valid_sound c : valid_columns c = true -> sound_columns c = true.
Proof.
  intros Hv. unfold sound_columns. destruct (read_wait c) eqn:E; [|done].
  by eapply read_wait_valid.
Qed.

Lemma valid_evidence_spec e :
  valid_evidence e = true <->
  valid_blocking (ev_owner e) = true /\ is_operation_reason (ev_reason e) = true /\
  ev_blockers e <> [] /\ forallb valid_blocker (ev_blockers e) = true.
Proof.
  unfold valid_evidence. rewrite !andb_true_iff, negb_true_iff, bool_decide_eq_false. tauto.
Qed.

Lemma sound_previous c p :
  sound_columns c = true -> read_wait c = Some p ->
  is_operation_reason (ev_reason (evidence_of p)) = true /\
  ev_blockers (evidence_of p) <> [] /\ forallb valid_blocker (ev_blockers (evidence_of p)) = true.
Proof.
  unfold sound_columns. intros Hs E. rewrite E in Hs. by apply valid_evidence_spec in Hs as [_ Hs].
Qed.

Lemma blocking_kind_ok i (k : WaitOwnerKind) :
  fits_identity i = true -> exists o, blocking_operation i (value k) = Ok o /\ valid_blocking o = true.
Proof.
  intros Hi.
  assert (valid_blocking {| blocking_id := i; blocking_kind := value k |} = true) as Hv.
  { unfold valid_blocking. cbn [blocking_id blocking_kind]. unfold fits_identity in Hi.
    rewrite Hi. by destruct k. }
  exists {| blocking_id := i; blocking_kind := value k |}. unfold blocking_operation. by rewrite Hv.
Qed.

(** The blockers of a write: those given, or the owner's own. *)
Lemma blockers_ok bs c d o :
  is_operation_reason c = true -> forallb valid_blocker bs = true ->
  exists bs', match bs with [] => own_blocker c d o | _ => Ok bs end = Ok bs' /\ bs' <> [] /\
    forallb valid_blocker bs' = true /\ (bs <> [] -> bs' = bs).
Proof.
  intros Hc Hb. destruct bs as [|b bs].
  - destruct (own_blocker_ok c d o Hc) as (bs' & -> & Hn & Hv). naive_solver.
  - eexists. split; [reflexivity|]. naive_solver.
Qed.

Lemma lifecycle_cause_valid c l :
  sound_columns c = true -> valid_reason (l_reason l) = true ->
  forallb valid_blocker (l_blockers l) = true ->
  is_operation_reason (fst (lifecycle_cause c l)) = true /\
  forallb valid_blocker (snd (lifecycle_cause c l)) = true.
Proof.
  intros Hs Hr Hb. unfold lifecycle_cause.
  set (code_ := match l_reason l with Some w => w | None => _ end).
  assert (is_operation_reason code_ = true) as Hc.
  { unfold code_. destruct (l_reason l); [done|]. apply typed_wait_reason_valid, fallback_is_reason. }
  destruct (read_wait c) as [p|] eqn:E; [|done]. case_match; [|done].
  by destruct (sound_previous c p Hs E) as (? & _ & ?).
Qed.

(** A lifecycle write of typed arguments returns; a waiting row then has readable
    evidence, a row that does not wait has none. *)
Lemma lifecycle_wait_spec c l :
  sound_columns c = true -> typed_step (StepLifecycle l) = true ->
  exists c' ch, lifecycle_wait c l = Ok (c', ch) /\ valid_columns c' = true /\
    if lifecycle_waits (l_state l) (l_due l) (l_lease_deadline l) then
      exists p, read_wait c' = Some p /\
        wait_next_action_at c' = Some (aware (default (l_now l) (l_due l))) /\
        resume_condition (evidence_of p) = resumes_on (l_state l) (l_cancelling l) /\
        ev_owner_kind (evidence_of p) = l_kind l /\
        ev_reason (evidence_of p) = fst (lifecycle_cause c l)
    else c' = WaitColumns NoEvidence None.
Proof.
  intros Hs Ht. simpl in Ht. bools. unfold lifecycle_wait.
  destruct (lifecycle_waits _ _ _); cbn [negb]; [|by do 2 eexists].
  destruct (lifecycle_cause_valid c l) as [Hc Hb]; [done..|].
  destruct (lifecycle_cause c l) as [code_ bs] eqn:Ec. simpl in Hc, Hb.
  destruct (blocking_kind_ok (l_identity l) (l_kind l)) as (o & -> & Ho); [done|]. rewrite bind_Ok_l.
  destruct (blockers_ok bs code_ (l_detail l) o) as (bs' & -> & Hn & Hv & _); [done..|]. rewrite bind_Ok_l.
  match goal with |- context [write_wait c ?w] => set (wr := w) end.
  destruct (write_wait_reads c wr Hn) as (c' & ch & p & Hw & Hp & He & Hd & _ & _ & Er & _ & Ek & Ec').
  destruct (write_wait_valid c wr) as (c'' & ch' & Hw' & Hval); [done..|].
  rewrite Hw in Hw'. injection Hw' as <- <-. rewrite Hw. exists c', ch. split_and!; [done..|].
  exists p. by split_and!.
Qed.

Lemma owner_identity_ok row_ c :
  fits_row row_ = true ->
  exists o k, owner_identity row_ c = Ok (o, k) /\ valid_blocking o = true.
Proof.
  destruct row_ as [i k cs|m i se ar si|n]; cbn [fits_row owner_identity]; intros Hf; [| |done].
  - unfold blocking_operation. rewrite Hf, bind_Ok_l. do 2 eexists. split; [reflexivity|exact Hf].
  - destruct (blocking_kind_ok _ (owner_model_kind m) Hf) as (o & Ho & Hv).
    do 2 eexists. split; [|exact Hv]. by rewrite Ho.
Qed.

Lemma schedule_wait_spec row_ c next s :
  sound_columns c = true -> typed_step (StepSchedule row_ next s) = true ->
  exists c' ch, schedule_wait row_ c next s = Ok (c', ch) /\ valid_columns c' = true /\
    match next with
    | None => c' = WaitColumns NoEvidence None
    | Some t => wait_next_action_at c' = Some (aware t)
    end.
Proof.
  intros Hs Ht. cbn [typed_step] in Ht. bools. unfold schedule_wait.
  destruct next as [t|]; [|by do 2 eexists].
  destruct (owner_identity_ok row_ c) as (o & k & -> & Ho); [done|]. rewrite bind_Ok_l.
  set (code_ := match s_reason s with Some w => w | None => _ end).
  assert (is_operation_reason code_ = true) as Hc.
  { unfold code_. destruct (s_reason s); [done|]. destruct (read_wait c) as [p|] eqn:E.
    - by apply (sound_previous c p).
    - exact (fallback_is_reason false). }
  match goal with |- context [?m ≫= ?f] =>
    assert (exists bs, m = Ok bs /\ bs <> [] /\ forallb valid_blocker bs = true) as (bs & -> & Hn & Hb)
  end.
  { destruct (s_blockers s) as [|b bs] eqn:Eb; [|by eexists; split; [reflexivity|]].
    pose proof (own_blocker_ok code_ (s_detail s) o Hc) as Hown.
    destruct (read_wait c) as [p|] eqn:E; [|done]. case_match; [|done].
    destruct (sound_previous c p Hs E) as (_ & ? & ?). eauto. }
  rewrite bind_Ok_l. match goal with |- context [write_wait c ?w] => set (wr := w) end.
  destruct (write_wait_reads c wr Hn) as (c' & ch & p & Hw & _ & _ & Hd & _).
  destruct (write_wait_valid c wr) as (c'' & ch' & Hw' & Hval); [done..|].
  rewrite Hw in Hw'. injection Hw' as <- <-. exists c', ch. by split_and!.
Qed.

Lemma run_step_valid c st :
  sound_columns c = true -> typed_step st = true ->
  exists c', run_step c st = Ok c' /\ valid_columns c' = true.
Proof.
  intros Hs Ht. destruct st as [l|row_ next s|]; unfold run_step; [| |by eexists].
  - destruct (lifecycle_wait_spec c l Hs Ht) as (c' & ch & -> & Hv & _). by exists c'.
  - destruct (schedule_wait_spec row_ c next s Hs Ht) as (c' & ch & -> & Hv & _). by exists c'.
Qed.

(** C38.  Every history of the three calls that write a wait (the wait of a lifecycle row, a
    scheduled wait, a cleared wait) returns, and from its first write on the two columns are
    written together and satisfy the stored contract: evidence with a due time, an
    owner and a reason inside their vocabularies and at least one valid blocker, or
    neither.  A damaged document in the column before the first write changes
    nothing: it is replaced, never fatal. *)
Theorem wait_history_valid c st sts :
  sound_columns c = true -> forallb typed_step (st :: sts) = true ->
  exists c', run_steps c (st :: sts) = Ok c' /\ valid_columns c' = true.
Proof.
  revert c st; induction sts as [|st' sts IH]; intros c st Hs Ht;
    cbn [forallb] in Ht; apply andb_true_iff in Ht as [Ht Hts];
    destruct (run_step_valid c st Hs Ht) as (c1 & H1 & Hv1); cbn [run_steps]; rewrite H1, bind_Ok_l.
  - by exists c1.
  - apply IH; [by apply valid_sound|done].
Qed.

(** Two writes over a damaged document: an order is observed, then retried. *)
Definition example_lifecycle (st : LifecycleState) (t : Z) (why : option string) : lifecycle_write := {|
  l_identity := "op-1"; l_kind := WaitOwnerKind.AGENT_OPERATION; l_state := st;
  l_now := Aware t; l_due := Some (Aware (t + seconds 30)); l_detail := why; l_reason := None;
  l_blockers := []; l_deadline := Some (Aware (seconds 3600)); l_cancelling := false;
  l_lease_deadline := None; l_operator_action := None |}.

Lemma wait_history_valid_witness :
  exists c', run_steps (WaitColumns Unreadable None)
      [StepLifecycle (example_lifecycle LifecycleState.OBSERVING 0 (Some "lease_lapsed"));
       StepSchedule (ModelRow AgentOperation (Some "op-1") None None None) (Some (Naive 60000000))
         (plain_schedule None)] = Ok c' /\ valid_columns c' = true.
Proof. apply wait_history_valid; vm_compute; reflexivity. Defined.

(** ** Clocks *)

(** A write that waits on and names no cause of its own. *)
Definition reschedules (st : wait_step) : bool :=
  match st with
  | StepLifecycle l =>
      lifecycle_waits (l_state l) (l_due l) (l_lease_deadline l)
      && bool_decide (l_reason l = None) && bool_decide (l_blockers l = [])
      && bool_decide (typed_wait_reason (l_detail l) (fallback_reason (l_cancelling l)) =
                      fallback_reason (l_cancelling l))
  | StepSchedule _ next s =>
      bool_decide (next <> None) && bool_decide (s_reason s = None)
      && bool_decide (s_blockers s = []) && bool_decide (s_detail s = None)
  | StepClear => false
  end.

(** The deadline a write may only bring forward. *)
Definition no_later (old new : option instant) : Prop :=
  forall d, old = Some d -> exists d', new = Some d' /\ d' <= d.

(** The same wait, seen again. *)
Record same_wait (p p' : QueueWait) : Prop := {
  same_reason : ev_reason (evidence_of p') = ev_reason (evidence_of p);
  same_blockers : ev_blockers (evidence_of p') = ev_blockers (evidence_of p);
  same_first : first_blocked_at (evidence_of p') = first_blocked_at (evidence_of p);
  same_progress : last_progress_at (evidence_of p') = last_progress_at (evidence_of p);
  same_deadline : no_later (dependency_deadline (evidence_of p)) (dependency_deadline (evidence_of p'));
}.

#[global] Instance same_wait_preorder : PreOrder same_wait.
Proof.
  split.
  - intros p. constructor; try done. intros d Hd. exists d. split; [done|lia].
  - intros p q r [] []. constructor; try congruence. intros d Hd.
    destruct (same_deadline0 d Hd) as (d1 & H1 & ?). destruct (same_deadline1 d1 H1) as (d2 & -> & ?).
    exists d2. split; [done|lia].
Qed.

Lemma earliest_no_later a b : no_later a (earliest a b).
Proof. intros d ->. destruct b; eexists; (split; [reflexivity|lia]). Qed.

Lemma write_wait_same c p w :
  read_wait c = Some p -> w_reason w = ev_reason (evidence_of p) ->
  w_blockers w = ev_blockers (evidence_of p) -> w_last_progress_at w = None ->
  exists c' ch p', write_wait c w = Ok (c', ch) /\ read_wait c' = Some p' /\ same_wait p p'.
Proof.
  intros Hp Hr Hb Hl. pose proof Hp as (_ & _ & _ & Hn & _)%read_wait_Some.
  assert (same_dependency (Some p) (w_reason w) (w_blockers w) = true) as Hs.
  { unfold same_dependency. rewrite Hr, Hb. by rewrite !bool_decide_eq_true_2. }
  unfold write_wait. rewrite Hp, Hs, Hl, Hb. rewrite bool_decide_eq_false_2 by done.
  do 3 eexists. split; [reflexivity|]. unfold read_wait at 1. cbn [wait_evidence wait_next_action_at ev_blockers].
  rewrite bool_decide_eq_false_2 by done. split; [reflexivity|].
  constructor; simpl; try done. apply earliest_no_later.
Qed.

Lemma reschedule_step c p st :
  read_wait c = Some p -> typed_step st = true -> reschedules st = true ->
  exists c' p', run_step c st = Ok c' /\ read_wait c' = Some p' /\ same_wait p p'.
Proof.
  intros Hp Ht Hr. pose proof Hp as (_ & _ & _ & Hn & _)%read_wait_Some.
  destruct st as [l|row_ [t|] s|]; cbn [typed_step reschedules] in *; bools; try done.
  - unfold run_step, lifecycle_wait.
    match goal with H : lifecycle_waits _ _ _ = true |- _ => rewrite H end. cbn [negb].
    assert (lifecycle_cause c l = (ev_reason (evidence_of p), ev_blockers (evidence_of p))) as ->.
    { unfold lifecycle_cause. rewrite Hp.
      repeat match goal with H : l_reason l = None |- _ => rewrite H; clear H
        | H : l_blockers l = [] |- _ => rewrite H; clear H end.
      by rewrite !bool_decide_eq_true_2. }
    destruct (blocking_kind_ok (l_identity l) (l_kind l)) as (o & -> & _); [done|].
    rewrite bind_Ok_l. destruct (ev_blockers (evidence_of p)) as [|b bs] eqn:Eb; [done|].
    rewrite bind_Ok_l. match goal with |- context [write_wait c ?w] =>
      destruct (write_wait_same c p w Hp) as (c' & ch & p' & -> & ? & ?) end; try done.
    by exists c', p'.
  - unfold run_step, schedule_wait. rewrite Hp.
    destruct (owner_identity_ok row_ c) as (o & k & -> & _); [done|]. rewrite bind_Ok_l.
    repeat match goal with H : s_reason s = None |- _ => rewrite H; clear H
      | H : s_detail s = None |- _ => rewrite H; clear H
      | H : s_blockers s = [] |- _ => rewrite H; clear H end.
    rewrite bool_decide_eq_true_2 by done. cbn [andb]. rewrite bind_Ok_l.
    match goal with |- context [write_wait c ?w] =>
      destruct (write_wait_same c p w Hp) as (c' & ch & p' & -> & ? & ?) end; try done.
    by exists c', p'.
Qed.

(** Looking again is not progress: over every history of writes that name no new cause
    (another retry, a refreshed due time, free text that is no declared code) the wait
    stays readable with the reason, the blockers, the moment it was first blocked and
    the last real progress it had, and its deadline never moves out. *)
Theorem rescheduling_keeps_clock c p sts :
  read_wait c = Some p -> forallb typed_step sts = true -> forallb reschedules sts = true ->
  exists c' p', run_steps c sts = Ok c' /\ read_wait c' = Some p' /\ same_wait p p'.
Proof.
  revert c p; induction sts as [|st sts IH]; intros c p Hp Ht Hr.
  { exists c, p. by split_and!. }
  cbn [forallb] in *. apply andb_true_iff in Ht as [Ht Hts], Hr as [Hr Hrs].
  destruct (reschedule_step c p st Hp Ht Hr) as (c1 & p1 & H1 & Hp1 & S1).
  destruct (IH c1 p1 Hp1 Hts Hrs) as (c' & p' & H' & Hp' & S'). exists c', p'.
  cbn [run_steps]. rewrite H1, bind_Ok_l. split_and!; [done..|]. by transitivity p1.
Qed.

(** A wait that [example_lifecycle] wrote at time 0. *)
Definition example_wait : QueueWait := {|
  evidence_of := {|
    ev_owner := {| blocking_id := "op-1"; blocking_kind := "agent-operation" |};
    ev_owner_kind := WaitOwnerKind.AGENT_OPERATION;
    ev_reason := value WaitReason.RUNTIME_EFFECT_UNCONFIRMED;
    ev_blockers := [{| code := value WaitReason.RUNTIME_EFFECT_UNCONFIRMED;
      detail := value WaitReason.RUNTIME_EFFECT_UNCONFIRMED; severity_of := warning;
      node_ids := []; identity_conflict := None;
      blocker_operation := Some {| blocking_id := "op-1"; blocking_kind := "agent-operation" |};
      blocker_storage := None; blocker_swap := None; blocker_run_id := None |}];
    first_blocked_at := 0; last_progress_at := None;
    dependency_deadline := Some (seconds 3600);
    resume_condition := WaitResumeCondition.EFFECT_OBSERVED; operator_action := None |};
  next_check := seconds 30 |}.

Definition example_columns : ScheduledWaitOwner :=
  WaitColumns (Evidence (evidence_of example_wait)) (Some (Aware (seconds 30))).

Example example_columns_written :
  run_step (WaitColumns NoEvidence None)
    (StepLifecycle (example_lifecycle LifecycleState.OBSERVING 0
       (Some (value WaitReason.RUNTIME_EFFECT_UNCONFIRMED)))) = Ok example_columns.
Proof. vm_compute. reflexivity. Qed.

Lemma rescheduling_keeps_clock_witness :
  exists c' p',
    run_steps example_columns
      [StepLifecycle (example_lifecycle LifecycleState.BACKOFF (seconds 40) (Some "agent restarted"));
       StepSchedule (ModelRow AgentOperation (Some "op-1") None None None)
         (Some (Aware (seconds 90))) (plain_schedule None)] = Ok c' /\
    read_wait c' = Some p' /\ same_wait example_wait p'.
Proof. apply rescheduling_keeps_clock; vm_compute; reflexivity. Defined.
