(* ===== verification/SparkAttempts.v ===== *)
(** * Spark orders and their attempts

    [control/src/vonk_control/agent_operation_states.py] and [agent_operation_facts.py]:
    the stored words of an order and its attempts, the launch budget a start declares,
    the crash-loop count of an order that keeps being interrupted, and the recovery
    deadline of an order in doubt.  A row is a record of the columns this code reads; a
    JSON document is a record of the fields it reads, already parsed (a field that is
    absent, of another type or unreadable is [None]). *)
From S2P Require Import Prelude Vocabulary StallWindow PersistedWaits.

(** The kinds of a Spark order ([agent_protocol] [contracts.py]). *)
Module AgentOperation.
Inductive AgentOperation :=
    RUNTIME_PREFLIGHT | AGENT_UPGRADE | ARTIFACT_DISTRIBUTION | RECIPE_BUILD
  | RECIPE_BUILD_CLEANUP | RECIPE_INSTALL | RECIPE_START | RECIPE_JOB_RUN | RECIPE_STOP
  | RECIPE_UNINSTALL | RECIPE_RECONCILE.
Definition AgentOperation_value (e : AgentOperation) : string :=
  match e with
  | RUNTIME_PREFLIGHT => "runtime.preflight.v1"
  | AGENT_UPGRADE => "agent.upgrade.v1"
  | ARTIFACT_DISTRIBUTION => "artifact.distribution.v1"
  | RECIPE_BUILD => "recipe.build.v1"
  | RECIPE_BUILD_CLEANUP => "recipe.build.cleanup.v1"
  | RECIPE_INSTALL => "recipe.install"
  | RECIPE_START => "recipe.start"
  | RECIPE_JOB_RUN => "recipe.job.run.v1"
  | RECIPE_STOP => "recipe.stop"
  | RECIPE_UNINSTALL => "recipe.uninstall"
  | RECIPE_RECONCILE => "recipe.reconcile"
  end.
Definition AgentOperation_members : list AgentOperation :=
  [RUNTIME_PREFLIGHT; AGENT_UPGRADE; ARTIFACT_DISTRIBUTION; RECIPE_BUILD; RECIPE_BUILD_CLEANUP;
   RECIPE_INSTALL; RECIPE_START; RECIPE_JOB_RUN; RECIPE_STOP; RECIPE_UNINSTALL; RECIPE_RECONCILE].
Lemma AgentOperation_decode e :
  find (fun m => String.eqb (AgentOperation_value m) (AgentOperation_value e)) AgentOperation_members = Some e.
Proof. destruct e; reflexivity. Qed.
#[global] Instance AgentOperation_enum : WireEnum AgentOperation :=
  decoded_enum AgentOperation_members AgentOperation_value AgentOperation_decode eq_refl.
End AgentOperation.
Abbreviation AgentOperation := AgentOperation.AgentOperation.

Module AOS.
(** ** The stored states ([agent_operation_states.py]) *)
Definition ORDER : LifecycleSubject := LifecycleSubject.AGENT_OPERATION.
Definition ATTEMPT : LifecycleSubject := LifecycleSubject.AGENT_OPERATION_ATTEMPT.

Definition _WAIT : list LifecycleState :=
  [LifecycleState.BACKOFF; LifecycleState.OBSERVING; LifecycleState.NEEDS_OPERATOR].

Definition WIRE_UNKNOWN : string := value AgentResultState.OBSERVING.
Definition QUEUED : string := value LifecycleState.QUEUED.
Definition RUNNING : string := value LifecycleState.RUNNING.
Definition BACKOFF : string := value LifecycleState.BACKOFF.
Definition OBSERVING : string := value LifecycleState.OBSERVING.
Definition NEEDS_OPERATOR : string := value LifecycleState.NEEDS_OPERATOR.
Definition FAILED : string := value LifecycleState.FAILED.

Definition PARKED : list string := stored_words ORDER _WAIT.
Definition QUEUED_OR_PARKED : list string := stored_words ORDER (LifecycleState.QUEUED :: _WAIT).
Definition RUNNING_OR_PARKED : list string := stored_words ORDER (LifecycleState.RUNNING :: _WAIT).
Definition LIVE : list string := live_words ORDER.
Definition AGGREGATE_FINAL : list string :=
  stored_words ORDER [LifecycleState.SUCCEEDED; LifecycleState.FAILED; LifecycleState.CANCELLED;
                      LifecycleState.NEEDS_OPERATOR].
Definition ATTEMPT_OBSERVING : list string := stored_words ATTEMPT [LifecycleState.OBSERVING].

Definition order_is_parked (stored : option string) : bool := is_state ORDER stored _WAIT.
End AOS.

(** ** Rows *)

(** What is read of an attempt's progress document. *)
Record ProgressDocument := {
  doc_completed_bytes : option Z;
  doc_last_progress_at : option datetime;
}.

(** What is read of an attempt's result document: its error code, and for a
    [RecipeJobRunResult] whether its output is still to be delivered. *)
Record ResultDocument := {
  res_error_code : option string;
  res_job_run : option bool;
}.

Record AgentOperationAttempt := {
  a_attempt : Z;
  a_fence : string;
  a_lease_deadline : datetime;
  a_certificate_serial : string;
  a_state : string;
  a_observation_cause : option string;
  a_progress : option ProgressDocument;
  a_result : option ResultDocument;
}.

(** What is read of a [RecipeJobRunRequest]. *)
Record JobRunRequest := {
  output_delivery_only : bool;
  job_timeout_seconds : option Z;
  stop_timeout_seconds : Z;
}.

(** What is read of an order's payload. *)
Record OrderPayload := {
  pay_start_deadline : option datetime;
  pay_run_id : option string;
  pay_job_run : option JobRunRequest;
}.

Record StoredOperation := {
  o_id : string;
  o_parent_job_id : string;
  o_node_id : string;
  o_kind : string;
  o_payload : OrderPayload;
  o_workload_intent_ordinal : option Z;
  o_state : string;
  o_status_reason : option string;
  o_current_attempt : Z;
  o_observe_count : Z;
  o_recovery_deadline : option datetime;
  o_retry_due_at : option datetime;
  o_updated_at : option datetime;
  o_wait : ScheduledWaitOwner;
}.

(** ** Attempts ([agent_operation_states.py]) *)
Definition attempt_is_observing (a : AgentOperationAttempt) : bool :=
  is_state AOS.ATTEMPT (Some (a_state a)) [LifecycleState.OBSERVING].

(** [ObservationCause(recorded)] raises on a foreign word. *)
Definition attempt_cause (a : AgentOperationAttempt) : result (option ObservationCause) :=
  if negb (attempt_is_observing a) then Ok None
  else
    match str_or (a_observation_cause a) None with
    | None => Ok None
    | Some w =>
        match of_word w with Some c => Ok (Some c) | None => Raise (ValueError w) end
    end.

Definition attempt_lapsed (a : AgentOperationAttempt) : result bool :=
  c ← attempt_cause a; Ok (bool_decide (c = Some ObservationCause.LEASE_LAPSED)).

Definition attempt_reported_unknown (a : AgentOperationAttempt) : result bool :=
  c ← attempt_cause a; Ok (bool_decide (c = Some ObservationCause.REPORTED_UNKNOWN)).

Definition attempt_failed_or_unknown (a : AgentOperationAttempt) : result bool :=
  if bool_decide (a_state a = AOS.FAILED) then Ok true else attempt_reported_unknown a.

(** The agent-wire word of an attempt's state. *)
Definition attempt_wire_state (a : AgentOperationAttempt) : result string :=
  u ← attempt_reported_unknown a; Ok (if u : bool then AOS.WIRE_UNKNOWN else a_state a).

Definition with_attempt_state (st : string) (cause : option string) (a : AgentOperationAttempt)
  : AgentOperationAttempt := {|
  a_attempt := a_attempt a; a_fence := a_fence a; a_lease_deadline := a_lease_deadline a;
  a_certificate_serial := a_certificate_serial a; a_state := st; a_observation_cause := cause;
  a_progress := a_progress a; a_result := a_result a |}.

Definition with_lease (t : datetime) (a : AgentOperationAttempt) : AgentOperationAttempt := {|
  a_attempt := a_attempt a; a_fence := a_fence a; a_lease_deadline := t;
  a_certificate_serial := a_certificate_serial a; a_state := a_state a;
  a_observation_cause := a_observation_cause a; a_progress := a_progress a;
  a_result := a_result a |}.

(** The attempt can no longer report. *)
Definition lapse : AgentOperationAttempt -> AgentOperationAttempt :=
  with_attempt_state AOS.OBSERVING (Some (value ObservationCause.LEASE_LAPSED)).

(** [AgentResultState(wire_state)] refuses a foreign word. *)
Definition record_wire_state (wire_state : string) (a : AgentOperationAttempt)
  : result AgentOperationAttempt :=
  match agent_result_state wire_state with
  | None => Raise (ValueError wire_state)
  | Some s =>
      Ok (if bool_decide (value s = AOS.WIRE_UNKNOWN)
          then with_attempt_state AOS.OBSERVING (Some (value ObservationCause.REPORTED_UNKNOWN)) a
          else with_attempt_state (value s) None a)
  end.

(** The SQL forms of the same questions, on a row with these columns. *)
Definition sql_attempt_lapsed (a : AgentOperationAttempt) : bool :=
  bool_decide (a_state a = AOS.OBSERVING)
  && bool_decide (a_observation_cause a = Some (value ObservationCause.LEASE_LAPSED)).

Definition sql_attempt_failed_or_unknown (a : AgentOperationAttempt) : bool :=
  bool_decide (a_state a = AOS.FAILED)
  || (bool_decide (a_state a = AOS.OBSERVING)
      && bool_decide (a_observation_cause a = Some (value ObservationCause.REPORTED_UNKNOWN))).

Definition attempt_outcome_key (a : AgentOperationAttempt) : result string :=
  c ← attempt_cause a; Ok (match c with Some k => value k | None => a_state a end).

(** ** Facts of an order ([agent_operation_facts.py]) *)
Definition LIFECYCLE_RESTART_OPERATIONS : list string :=
  value <$> [AgentOperation.RECIPE_INSTALL; AgentOperation.RECIPE_START; AgentOperation.RECIPE_STOP;
             AgentOperation.RECIPE_UNINSTALL; AgentOperation.RECIPE_RECONCILE].

Definition RESTART_REISSUE_OPERATIONS : list string :=
  (LIFECYCLE_RESTART_OPERATIONS ++
   (value <$> [AgentOperation.ARTIFACT_DISTRIBUTION; AgentOperation.RUNTIME_PREFLIGHT;
               AgentOperation.RECIPE_BUILD; AgentOperation.RECIPE_BUILD_CLEANUP]))%list.

Definition STALLED_INTERRUPTION_LIMIT : Z := 3.
Definition STALLED_RETRY_BASE_SECONDS : Z := 30.
Definition STALLED_RETRY_MAX_SECONDS : Z := 600.

Definition INTERRUPTION_CODES : list string :=
  ["agent_restart_interrupted"; "operation_outcome_uncertain"].

Definition completed_bytes (a : option AgentOperationAttempt) : Z :=
  default 0 (x ← a; p ← a_progress x; doc_completed_bytes p).

(** Whether [attempt] copied more of an artifact than any earlier attempt of the order. *)
Definition advanced_bytes (operation : StoredOperation) (attempt : option AgentOperationAttempt)
    (attempts : list AgentOperationAttempt) : bool :=
  match attempt with
  | None => false
  | Some a =>
      if bool_decide (o_kind operation <> value AgentOperation.ARTIFACT_DISTRIBUTION) then false
      else
        let earlier := List.filter (fun x => a_attempt x <? a_attempt a) attempts in
        default 0 (max_list ((fun x => completed_bytes (Some x)) <$> earlier))
          <? completed_bytes (Some a)
  end.

(** [order_by(attempt.desc())]: newest first. *)
Fixpoint insert_newest (a : AgentOperationAttempt) (l : list AgentOperationAttempt)
  : list AgentOperationAttempt :=
  match l with
  | [] => [a]
  | b :: rest => if a_attempt b <=? a_attempt a then a :: l else b :: insert_newest a rest
  end.
Definition newest_first (l : list AgentOperationAttempt) : list AgentOperationAttempt :=
  fold_right insert_newest [] l.

Definition interrupted (a : AgentOperationAttempt) : bool :=
  attempt_is_observing a
  && match a_result a with
     | None => true
     | Some r => match res_error_code r with Some c => mem c INTERRUPTION_CODES | None => false end
     end.

(** The loop of [stalled_interruptions] over the attempts, newest first. *)
Fixpoint stalled_prefix (attempts : list AgentOperationAttempt) : Z :=
  match attempts with
  | [] => 0
  | a :: rest =>
      if negb (interrupted a) || (completed_bytes (head rest) <? completed_bytes (Some a)) then 0
      else 1 + stalled_prefix rest
  end.

Definition stalled_interruptions (operation : StoredOperation)
    (attempts : list AgentOperationAttempt) : Z :=
  if o_current_attempt operation <? 1 then 0
  else
    stalled_prefix
      (take (Z.to_nat (STALLED_RETRY_MAX_SECONDS / STALLED_RETRY_BASE_SECONDS + 2))
         (newest_first
            (List.filter (fun a => a_attempt a <=? o_current_attempt operation) attempts))).

Definition AGENT_ORDER_RECOVERY_BUDGET : Z := seconds 3600.
Definition AGENT_UPGRADE_RECOVERY_FENCE : Z := seconds 960.

(** The immutable start deadline a two-phase start bound; a naive text binds none. *)
Definition operation_start_deadline (operation : StoredOperation) : option instant :=
  match pay_start_deadline (o_payload operation) with
  | Some (Aware t) => Some t
  | _ => None
  end.

(** The claim's default observation budget. *)
Definition START_STALL_WINDOW : Z := seconds 3600.

Definition progressed_start_deadline (accepted : instant) (progressed : option datetime)
    (now : datetime) : instant :=
  stall_deadline (Aware (accepted - START_STALL_WINDOW))
    (Aware <$> latest_progress None [progressed] now) START_STALL_WINDOW.

(** [last_progress_at(stored_progress(attempt))]: an aware clock or none. *)
Definition attempt_progressed (a : AgentOperationAttempt) : option datetime :=
  match (p ← a_progress a; doc_last_progress_at p) with
  | Some (Aware t) => Some (Aware t)
  | _ => None
  end.

Definition start_deadline (operation : StoredOperation) (attempt : option AgentOperationAttempt)
    (now : datetime) : option instant :=
  match operation_start_deadline operation with
  | None => None
  | Some accepted =>
      let current :=
        match attempt with
        | Some a => if a_attempt a =? o_current_attempt operation then Some a else None
        | None => None
        end in
      Some (progressed_start_deadline accepted (a ← current; attempt_progressed a) now)
  end.

(** [job_start_deadline] over the current attempts of the job's start orders. *)
Definition job_start_deadline (attempts : list AgentOperationAttempt) (accepted : datetime)
    (now : datetime) : instant :=
  progressed_start_deadline (to_utc accepted)
    (Aware <$> max_list (known (attempt_progressed <$> attempts))) now.

Definition lapsed_renewal_allowed (operation : StoredOperation)
    (attempt : option AgentOperationAttempt) (now : datetime) : bool :=
  match start_deadline operation attempt now with
  | Some deadline => to_utc now <? deadline
  | None => false
  end.

Definition attempt_holds_open_launch_budget (operation : StoredOperation)
    (attempt : option AgentOperationAttempt) (now : datetime) : bool :=
  match attempt with
  | None => false
  | Some a =>
      (a_attempt a =? o_current_attempt operation)
      && bool_decide (a_state a = "running")
      && lapsed_renewal_allowed operation attempt now
  end.

Definition attempt_is_live (operation : StoredOperation) (attempt : option AgentOperationAttempt)
    (now : datetime) : bool :=
  match attempt with
  | None => false
  | Some a =>
      bool_decide (a_state a = "running")
      && ((to_utc now <? to_utc (a_lease_deadline a))
          || attempt_holds_open_launch_budget operation attempt now)
  end.

Definition attempt_holds_order (operation : StoredOperation)
    (attempt : option AgentOperationAttempt) (now : datetime) (superseded : bool) : bool :=
  if negb superseded then attempt_is_live operation attempt now
  else
    match attempt with
    | None => false
    | Some a =>
        bool_decide (a_state a = AOS.RUNNING) && (to_utc now <? to_utc (a_lease_deadline a))
    end.

Definition job_output_retention_expiry (receipt_observed_at : datetime) : instant :=
  to_utc receipt_observed_at + seconds (24 * 3600).

Definition is_job_run (operation : StoredOperation) : bool :=
  bool_decide (o_kind operation = value AgentOperation.RECIPE_JOB_RUN).

(** The end of a job run's own deadline and stop grace, from its lease. *)
Definition job_run_bound (operation : StoredOperation) (attempt : option AgentOperationAttempt)
  : option instant :=
  if negb (is_job_run operation) then None
  else
    match pay_job_run (o_payload operation), attempt with
    | Some req, Some a =>
        let anchor := to_utc (a_lease_deadline a) in
        let anchor := match attempt_progressed a with
                      | Some t => Z.max anchor (to_utc t)
                      | None => anchor
                      end in
        Some (anchor + seconds (default 0 (job_timeout_seconds req) + stop_timeout_seconds req))
    | _, _ => None
    end.

(** [spark] is what the resolver of reservation owners says of the Spark's return. *)
Definition order_recovery_deadline (operation : StoredOperation)
    (attempt : option AgentOperationAttempt) (spark : Wait) (now : datetime) : option instant :=
  match o_recovery_deadline operation with
  | None => None
  | Some d =>
      let stored := to_utc d in
      if is_job_run operation
         && match pay_job_run (o_payload operation) with
            | Some req => output_delivery_only req
            | None => false
            end
      then Some stored
      else
        let window :=
          progress_deadline (Aware (stored - AGENT_ORDER_RECOVERY_BUDGET)) None
            AGENT_ORDER_RECOVERY_BUDGET now [spark] in
        Some (Z.max (Z.max stored window) (default stored (job_run_bound operation attempt)))
  end.

(** ** Facts *)
Lemma attempt_is_observing_iff a : attempt_is_observing a = true <-> a_state a = AOS.OBSERVING.
Proof.
  unfold attempt_is_observing, is_state, adopt_state. destruct (of_word (a_state a)) as [s|] eqn:E.
  - apply of_word_Some in E. rewrite mem_true, list_elem_of_singleton. split.
    + intros ->. by rewrite <- E.
    + intros H. apply value_inj. by rewrite E.
  - split; [done|]. intros H. rewrite H in E. by vm_compute in E.
Qed.

Lemma attempt_cause_observing a c :
  a_state a = AOS.OBSERVING -> a_observation_cause a = Some (value c) ->
  attempt_cause a = Ok (Some c).
Proof.
  intros Hs Hc. unfold attempt_cause.
  rewrite (proj2 (attempt_is_observing_iff a) Hs), Hc. by destruct c.
Qed.

Lemma attempt_cause_other a : a_state a <> AOS.OBSERVING -> attempt_cause a = Ok None.
Proof.
  intros Hs. unfold attempt_cause. destruct (attempt_is_observing a) eqn:E; [|done].
  by apply attempt_is_observing_iff in E.
Qed.

(** The agent's wire words survive being stored: exactly the words of the result
    vocabulary (and the retired spelling of an operator wait) are recorded, and the attempt
    then reads back as the same wire word, is selected by the SQL form of "failed or
    unknown" exactly for those two words, and keeps its number, fence, lease, progress
    and result. *)
Theorem wire_state_roundtrip w a :
  match agent_result_state w with
  | None => record_wire_state w a = Raise (ValueError w)
  | Some s => exists a',
      record_wire_state w a = Ok a' /\ attempt_wire_state a' = Ok (value s) /\
      sql_attempt_failed_or_unknown a' = mem s [AgentResultState.FAILED; AgentResultState.OBSERVING] /\
      sql_attempt_lapsed a' = false /\
      a' = with_attempt_state (a_state a') (a_observation_cause a') a
  end.
Proof.
  unfold record_wire_state. destruct (agent_result_state w) as [s|]; [|done].
  by destruct s; eexists; (split; [reflexivity|]).
Qed.

(** The readers in Python and the SQL predicates ask the same question of every attempt
    whose recorded cause is in the vocabulary. *)
Lemma attempt_readers_agree a :
  is_ok (attempt_cause a) ->
  attempt_lapsed a = Ok (sql_attempt_lapsed a) /\
  attempt_failed_or_unknown a = Ok (sql_attempt_failed_or_unknown a).
Proof.
  intros [c Hc]. unfold attempt_failed_or_unknown, attempt_lapsed, attempt_reported_unknown,
    sql_attempt_lapsed, sql_attempt_failed_or_unknown. rewrite Hc. cbn [mbind result_bind].
  destruct (bool_decide_reflect (a_state a = AOS.OBSERVING)) as [Ho|Ho].
  - rewrite Ho. change (bool_decide (AOS.OBSERVING = AOS.FAILED)) with false. cbn [orb andb].
    unfold attempt_cause in Hc. rewrite (proj2 (attempt_is_observing_iff a) Ho) in Hc. cbn [negb] in Hc.
    destruct (a_observation_cause a) as [k|]; simpl in Hc.
    + case_decide as Hk; [subst k; by injection Hc as <-|].
      destruct (of_word k) as [c'|] eqn:Ek; [|done]. injection Hc as <-.
      apply of_word_Some in Ek. subst k. by destruct c'.
    + by injection Hc as <-.
  - rewrite (attempt_cause_other a Ho) in Hc. injection Hc as <-. simpl. rewrite orb_false_r.
    by destruct (bool_decide_reflect (a_state a = AOS.FAILED)).
Qed.

(** *** The launch budget *)
Lemma progressed_start_deadline_spec accepted progressed now :
  let d := progressed_start_deadline accepted progressed now in
  accepted <= d <= Z.max accepted (to_utc now + START_STALL_WINDOW) /\
  (forall p, progressed = Some p -> to_utc p <= to_utc now -> to_utc p + START_STALL_WINDOW <= d) /\
  (progressed = None -> d = accepted).
Proof.
  unfold progressed_start_deadline, stall_deadline, latest_progress. cbn [to_utc].
  destruct progressed as [p|]; simpl; split_and!; try done; try lia.
  intros p' [= <-]. lia.
Qed.

(** A start is held open by its own progress and by nothing else: its budget is
    never shorter than the one it was accepted with, reaches a full stall window past
    every progress its current attempt reported, never runs more than a window past
    now, and is exactly the accepted one for an attempt that is not current or has
    reported nothing.  An order that bound no budget has none. *)
Theorem launch_budget_spec o att now :
  match operation_start_deadline o with
  | None => start_deadline o att now = None
  | Some accepted => exists d,
      start_deadline o att now = Some d /\
      accepted <= d <= Z.max accepted (to_utc now + START_STALL_WINDOW) /\
      (forall a p, att = Some a -> a_attempt a = o_current_attempt o ->
         attempt_progressed a = Some p -> to_utc p <= to_utc now ->
         to_utc p + START_STALL_WINDOW <= d) /\
      ((forall a, att = Some a -> a_attempt a = o_current_attempt o ->
          attempt_progressed a = None) -> d = accepted)
  end.
Proof.
  unfold start_deadline. destruct (operation_start_deadline o) as [accepted|]; [|done].
  eexists. split; [reflexivity|].
  match goal with |- context [progressed_start_deadline accepted ?p now] =>
    destruct (progressed_start_deadline_spec accepted p now) as (Hb & Hp & Hn) end.
  split_and!; try done; try lia.
  - intros a p -> Ha Hpr Hle. apply Hp; [|done]. rewrite Ha, Z.eqb_refl. exact Hpr.
  - intros Hno. apply Hn. destruct att as [a|]; [|done].
    destruct (Z.eqb_spec (a_attempt a) (o_current_attempt o)); [|done]. simpl. by apply Hno.
Qed.

(** *** The crash loop *)
Lemma stalled_prefix_spec l :
  let n := Z.to_nat (stalled_prefix l) in
  0 <= stalled_prefix l <= Z.of_nat (length l) /\
  (forall i a, (i < n)%nat -> l !! i = Some a ->
     interrupted a = true /\ completed_bytes (Some a) <= completed_bytes (l !! S i)) /\
  (forall a, l !! n = Some a ->
     interrupted a = false \/ completed_bytes (l !! S n) < completed_bytes (Some a)).
Proof.
  induction l as [|a l IH]; simpl.
  { split_and!; try lia; intros; simplify_eq. }
  assert (head l = l !! 0%nat) as Hh by by destruct l. rewrite Hh.
  destruct (interrupted a) eqn:Ei; simpl.
  2: { split_and!; try lia. intros b [= <-]. by left. }
  destruct (completed_bytes (l !! 0%nat) <? completed_bytes (Some a)) eqn:Eb; bools.
  { split_and!; try lia. intros b [= <-]. by right. }
  destruct IH as (Hb & Hall & Hend).
  replace (Z.to_nat (1 + stalled_prefix l)) with (S (Z.to_nat (stalled_prefix l))) by lia.
  split_and!; [lia|lia| |].
  - intros [|i] b Hi Hl; simpl in Hl; [by simplify_eq|]. apply Hall; [lia|done].
  - intros b Hl. simpl in Hl. by apply Hend.
Qed.

Lemma stalled_interruptions_bounds o l :
  0 <= stalled_interruptions o l <= 22.
Proof.
  unfold stalled_interruptions. case_match; [lia|].
  match goal with |- context [stalled_prefix ?x] =>
    pose proof (stalled_prefix_spec x) as [Hb _] end.
  rewrite length_take in Hb. unfold STALLED_RETRY_MAX_SECONDS, STALLED_RETRY_BASE_SECONDS in *.
  change (Z.to_nat (600 / 30 + 2)) with 22%nat in *. lia.
Qed.

(** *** The recovery deadline *)

(** An order in doubt is never out of time while its Spark may come back: its recovery
    deadline is never before the stored one, and lies a whole budget ahead while the
    Spark is away.  Only the delivery of already exited output keeps its fixed expiry. *)
Lemma order_recovery_deadline_spec o att spark now :
  match o_recovery_deadline o with
  | None => order_recovery_deadline o att spark now = None
  | Some stored => exists d,
      order_recovery_deadline o att spark now = Some d /\ to_utc stored <= d /\
      (is_job_run o && match pay_job_run (o_payload o) with
                       | Some req => output_delivery_only req | None => false end = true ->
         d = to_utc stored) /\
      (is_job_run o && match pay_job_run (o_payload o) with
                       | Some req => output_delivery_only req | None => false end = false ->
         (live spark = true -> to_utc now + AGENT_ORDER_RECOVERY_BUDGET <= d) /\
         (forall b, job_run_bound o att = Some b -> b <= d) /\
         (live spark = false -> ended_at spark = None -> job_run_bound o att = None ->
            d = to_utc stored))
  end.
Proof.
  unfold order_recovery_deadline. destruct (o_recovery_deadline o) as [stored|]; [|done].
  destruct (is_job_run o && _) eqn:E.
  { eexists. split; [reflexivity|]. split; [lia|]. done. }
  eexists. split; [reflexivity|]. unfold progress_deadline, stall_deadline, latest_progress.
  split; [lia|]. split; [done|]. intros _. split_and!.
  - intros Hl. simpl. rewrite Hl. simpl. lia.
  - intros b ->. simpl. lia.
  - intros Hl He Hj. simpl. rewrite Hl, He, Hj. simpl. lia.
Qed.
