(* ===== verification/SparkOrder.v ===== *)
(** * The lifecycle adapter of the Spark order

    [control/src/vonk_control/lifecycle/agent_operation.py]: how a stored order is a
    lifecycle row ([lifecycle]), what the core asks of the kind, and the one projection of a
    decision back onto the stored rows ([apply]).  The rows one order is decided from (the
    order, its attempts, its parent job and whether its Spark may return) are a [Session];
    an attempt is named by its number, so a change of it is seen by every later read.
    [offline_stops.py] decides which order may outlive its parent. *)
From S2P Require Import Prelude Vocabulary ReasonCodes Disposition Recovery.
From S2P Require Import LifecycleTypes LifecycleCore Reconciler StallWindow.
From S2P Require Import Blockers PersistedWaits SparkAttempts.

(** ** The text of an instant

    [datetime.isoformat] of a UTC instant. *)
Definition pad (width : nat) (n : Z) : string :=
  let s := pretty n in
  String.concat "" (List.repeat "0"%string (width - String.length s)) +:+ s.

(** The proleptic Gregorian date of a day counted from 1970-01-01. *)
Definition civil_date (day : Z) : Z * Z * Z :=
  let z := day + 719468 in
  let era := z / 146097 in
  let doe := z mod 146097 in
  let yoe := (doe - doe / 1460 + doe / 36524 - doe / 146096) / 365 in
  let doy := doe - (365 * yoe + yoe / 4 - yoe / 100) in
  let mp := (5 * doy + 2) / 153 in
  let d := doy - (153 * mp + 2) / 5 + 1 in
  let m := if mp <? 10 then mp + 3 else mp - 9 in
  (yoe + era * 400 + b2z (m <=? 2), m, d).

Definition isoformat (t : instant) : string :=
  let '(y, m, d) := civil_date (t / seconds 86400) in
  let rest := t mod seconds 86400 in
  let s := rest / seconds 1 in
  let us := rest mod seconds 1 in
  pad 4 y +:+ "-" +:+ pad 2 m +:+ "-" +:+ pad 2 d +:+ "T" +:+ pad 2 (s / 3600) +:+ ":" +:+
  pad 2 (s / 60 mod 60) +:+ ":" +:+ pad 2 (s mod 60) +:+
  (if us =? 0 then "" else "." +:+ pad 6 us) +:+ "+00:00".

Example isoformat_epoch : isoformat 0 = "1970-01-01T00:00:00+00:00".
Proof. vm_compute. reflexivity. Qed.
Example isoformat_leap : isoformat (seconds 1709210096 + 50) = "2024-02-29T12:34:56.000050+00:00".
Proof. vm_compute. reflexivity. Qed.

(** ** The parent job *)

(** The cancel request of a job's result: the flag, its parsed instant and its id. *)
Record CancelRequest := {
  cancel_flag : bool;
  cancel_at : option datetime;
  cancel_id : option string;
}.

(** What is read of a stop job's payload, when it can be read: the run it owns, the nodes
    of its offline stop intent and its phase items (operation, node). *)
Record StopParent := {
  sp_owner_id : string;
  sp_offline_nodes : list string;
  sp_phases : list (list (string * string));
}.

Record Job := {
  j_id : string;
  j_kind : string;
  j_state : string;
  j_owner_kind : option string;
  j_stop_parent : option StopParent;
  j_result : option CancelRequest;
  j_status_reason : option string;
  j_updated_at : option datetime;
}.

(** The rows of one order, and what the resolver of owners says of its Spark's return. *)
Record Session := {
  db_operation : StoredOperation;
  db_attempts : list AgentOperationAttempt;
  db_parent : option Job;
  db_spark : Wait;
}.

Definition set_operation (o : StoredOperation) (s : Session) : Session := {|
  db_operation := o; db_attempts := db_attempts s; db_parent := db_parent s;
  db_spark := db_spark s |}.

(** Change the attempt with this number in place. *)
Definition update_attempt (n : Z) (f : AgentOperationAttempt -> AgentOperationAttempt) (s : Session)
  : Session := {|
  db_operation := db_operation s;
  db_attempts := (fun a => if a_attempt a =? n then f a else a) <$> db_attempts s;
  db_parent := db_parent s; db_spark := db_spark s |}.

Definition attempt_numbered (s : Session) (n : Z) : option AgentOperationAttempt :=
  find (fun a => a_attempt a =? n) (db_attempts s).

(** The order's current attempt. *)
Definition attempt_of (s : Session) : option AgentOperationAttempt :=
  attempt_numbered s (o_current_attempt (db_operation s)).

(** [session.get(StoredOperation, id)] *)
Definition get_operation (s : Session) (id_ : string) : option StoredOperation :=
  if bool_decide (id_ = o_id (db_operation s)) then Some (db_operation s) else None.

(** ** Offline stops *)
Definition deferred_stop_nodes (job : Job) : list string :=
  if bool_decide (j_kind job <> "recipe.stop") then []
  else match j_stop_parent job with Some p => sp_offline_nodes p | None => [] end.

Definition is_deferred_stop (job : option Job) (operation : StoredOperation) : bool :=
  match job with
  | None => false
  | Some j =>
      if bool_decide (o_parent_job_id operation <> j_id j)
         || bool_decide (o_kind operation <> "recipe.stop")
         || negb (mem (o_node_id operation) (deferred_stop_nodes j))
      then false
      else
        match j_stop_parent j with
        | None => false
        | Some p =>
            bool_decide (pay_run_id (o_payload operation) = Some (sp_owner_id p))
            && existsb (existsb (fun item =>
                 bool_decide (item = (o_id operation, o_node_id operation)))) (sp_phases p)
        end
  end.

(** ** Constants *)
Definition IRREVERSIBLE_OPERATIONS : list string := [value AgentOperation.RECIPE_JOB_RUN].
Definition WAITING : string := value LifecycleState.NEEDS_OPERATOR.
Definition JOB_RUN_OPERATION : string := value AgentOperation.RECIPE_JOB_RUN.
Definition OWNER_KIND : string := "artifact-job".
Definition STOP_ACTION : string := value ActionName.STOP.
Definition ENDED_PARENT_STATES : list string :=
  JobStates.words [LifecycleState.SUCCEEDED; LifecycleState.FAILED; LifecycleState.CANCELLED].
Definition AGGREGATE_FINAL_STATES : list string := AOS.AGGREGATE_FINAL.
Definition OPERATOR_ACTIONS : list string := [value ActionName.RESUME; value ActionName.RETIRE].
Definition _MAX_REASON : nat := 512.

Definition is_artifact_owned (parent : option Job) : bool :=
  match parent with
  | None => false
  | Some j => bool_decide (j_kind j = JOB_RUN_OPERATION) && bool_decide (j_owner_kind j = Some OWNER_KIND)
  end.

(** What an attempt's own receipt proves of its process. *)
Definition receipt_effect (a : option AgentOperationAttempt) : option LifecycleEffect :=
  match a with
  | None => None
  | Some x =>
      if bool_decide (a_state x = value State.CANCELLED)
         || bool_decide ((r ← a_result x; res_job_run r) <> None)
      then Some Effect.STOPPED else None
  end.

(** When a waiting order's automatic retry becomes claimable. *)
Definition retry_scheduled (operation : StoredOperation) : option instant :=
  if negb (AOS.order_is_parked (Some (o_state operation)))
     || bool_decide (o_state operation = AOS.NEEDS_OPERATOR)
  then None
  else
    match wait_next_action_at (o_wait operation) with
    | Some t => if o_observe_count operation =? 0 then Some (to_utc t) else None
    | None => None
    end.

(** A request that names no instant is still a request. *)
Definition cancel_requested_of (parent : option Job) (now : datetime)
  : option instant * option string :=
  match (j ← parent; j_result j) with
  | None => (None, None)
  | Some r =>
      if negb (cancel_flag r) then (None, None)
      else
        let requested := match cancel_at r with Some (Aware t) => t | _ => to_utc now end in
        (Some requested, cancel_id r)
  end.

(** ** A stored order as a lifecycle row *)

(** The lease of a running order: its attempt's, or its open launch budget. *)
Definition running_lease (operation : StoredOperation) (attempt_ : option AgentOperationAttempt)
    (now : datetime) : option instant :=
  match attempt_ with
  | None => None
  | Some a =>
      if bool_decide (a_state a = "running") then
        let lease := to_utc (a_lease_deadline a) in
        match start_deadline operation attempt_ now with
        | Some deadline =>
            if attempt_holds_open_launch_budget operation attempt_ now
            then Some (Z.max lease deadline) else Some lease
        | None => Some lease
        end
      else None
  end.

(** The core state, the lease and the next action of a stored order. *)
Definition read_state (operation : StoredOperation) (attempt_ : option AgentOperationAttempt)
    (now : datetime) : LifecycleState * option instant * option instant :=
  let stored := o_state operation in
  if bool_decide (stored = "queued") then (State.QUEUED, None, None)
  else if bool_decide (stored = "running") then
    let lease := running_lease operation attempt_ now in (State.RUNNING, lease, lease)
  else if bool_decide (stored = AOS.NEEDS_OPERATOR) then (State.NEEDS_OPERATOR, None, None)
  else if mem stored AOS.PARKED then
    match retry_scheduled operation with
    | Some t => (State.BACKOFF, None, Some t)
    | None =>
        match wait_next_action_at (o_wait operation) with
        | Some t => (State.OBSERVING, None, Some (to_utc t))
        | None => (State.NEEDS_OPERATOR, None, None)
        end
    end
  else if bool_decide (stored = "succeeded") then (State.SUCCEEDED, None, None)
  else if bool_decide (stored = "failed") then (State.FAILED, None, None)
  else if bool_decide (stored = "cancelled") then (State.CANCELLED, None, None)
  else (State.NEEDS_OPERATOR, None, None).

Definition read_effect (st : LifecycleState) (current_attempt : Z) : LifecycleEffect :=
  if same st State.SUCCEEDED then Effect.ESTABLISHED
  else if same st State.CANCELLED then Effect.STOPPED
  else if current_attempt =? 0 then Effect.NONE
  else if same st State.RUNNING then Effect.ISSUED
  else Effect.UNKNOWN.

(** The cancel request an order reads of its parent: its own, or its parent's end. *)
Definition order_cancel (s : Session) (now : datetime) : option instant * option string :=
  let '(requested_at, request_key) := cancel_requested_of (db_parent s) now in
  match requested_at, db_parent s with
  | None, Some j =>
      if mem (j_state j) ENDED_PARENT_STATES
         && negb (is_deferred_stop (Some j) (db_operation s))
      then (Some (to_utc now), request_key) else (None, request_key)
  | _, _ => (requested_at, request_key)
  end.

Definition recovery_deadline_of (s : Session) (now : datetime) : option instant :=
  order_recovery_deadline (db_operation s) (attempt_of s) (db_spark s) now.

Definition lifecycle (s : Session) (attempt_ : option AgentOperationAttempt) (now : datetime)
  : Lifecycle :=
  let operation := db_operation s in
  let '(st, lease, next_action) := read_state operation attempt_ now in
  let '(requested_at, request_key) := order_cancel s now in
  {| id := o_id operation;
     kind := o_kind operation;
     state := st;
     attempt := o_current_attempt operation;
     fence := a_fence <$> attempt_;
     lease_deadline := lease;
     next_action_at := next_action;
     recovery_deadline := recovery_deadline_of s now;
     retry_count := Z.max (o_current_attempt operation - 1) 0;
     observe_count := o_observe_count operation;
     intent_ordinal := o_workload_intent_ordinal operation;
     cancel_requested_at := requested_at;
     cancel_request_key := request_key;
     effect := read_effect st (o_current_attempt operation);
     reason := o_status_reason operation;
     owner_id := Some (o_parent_job_id operation) |}.

(** [adopt]: the row of a stored order, read with its current attempt. *)
Definition adopt (s : Session) (now : datetime) : Lifecycle := lifecycle s (attempt_of s) now.

(** ** The kind's facts *)

(** The slowdown of a crash loop. *)
Definition stalled_delay (stalled : Z) : Z :=
  Z.min (STALLED_RETRY_BASE_SECONDS * 2 ^ (stalled - STALLED_INTERRUPTION_LIMIT))
    STALLED_RETRY_MAX_SECONDS.

Definition retry_not_before_of (s : Session) (r : Lifecycle) (now : instant) : option instant :=
  if bool_decide (kind r = value AgentOperation.AGENT_UPGRADE)
  then Some (now + AGENT_UPGRADE_RECOVERY_FENCE)
  else if attempt r <? STALLED_INTERRUPTION_LIMIT then None
  else
    let stalled :=
      match get_operation s (id r) with
      | None => 0
      | Some o => stalled_interruptions o (db_attempts s)
      end in
    if STALLED_INTERRUPTION_LIMIT <=? stalled then Some (now + seconds (stalled_delay stalled))
    else None.

Section adapter.
(** The adapter's own clock, and the operator's resume candidates when it is bound to
    any (the ids of the orders a resume would take). *)
Context (clock_ : datetime) (resume_candidates : option (Session -> string -> datetime -> list string)).

Definition observe_order (r : Lifecycle) (s : Session) : LifecycleEffect :=
  let attempt_ :=
    match get_operation s (id r) with
    | None => None
    | Some o => if o_current_attempt o =? attempt r then attempt_of s else None
    end in
  let pending := match (a ← attempt_; res ← a_result a; res_job_run res) with
                 | Some b => b
                 | None => false
                 end in
  default Effect.UNKNOWN (if pending then Some Effect.NONE else receipt_effect attempt_).

Definition stop_order (r : Lifecycle) (s : Session) : StopOutcome :=
  match get_operation s (id r) with
  | None => StopResult.CONFIRMED
  | Some o =>
      let live := attempt_is_live o (attempt_of s) clock_ in
      let unobservable := mem (o_kind o) IRREVERSIBLE_OPERATIONS && (0 <? o_current_attempt o) in
      if live || unobservable then StopResult.UNCONFIRMED else StopResult.CONFIRMED
  end.

Definition actions_of (s : Session) (r : Lifecycle) : list string :=
  match owner_id r with
  | None => []
  | Some owner =>
      let parent := match db_parent s with
                    | Some j => if bool_decide (j_id j = owner) then Some j else None
                    | None => None
                    end in
      if is_artifact_owned parent then if cancel_requested r then [] else [STOP_ACTION]
      else
        match resume_candidates with
        | None => []
        | Some f => if mem (id r) (f s owner clock_) then OPERATOR_ACTIONS else []
        end
  end.

(** The adapter has no absolute deadline of its own ([recovery_deadline] is a field of the
    row), and a Spark claims its own work, so [execute] does nothing. *)
Definition AgentOperationAdapter : Executor Session := {|
  reads s := {|
    irreversible := fun r => mem (kind r) IRREVERSIBLE_OPERATIONS;
    retry_not_before := retry_not_before_of s;
    deadline_reader := None;
    actions := actions_of s |};
  Reconciler.observe r s := (s, Ok (observe_order r s, None));
  Reconciler.stop r s := (s, Ok (stop_order r s));
  Reconciler.execute r n s := (s, Ok tt) |}.
End adapter.

(** ** Writing a decision back *)

(** [operation.field = value], the columns a decision writes. *)
Definition set_recovery_deadline (d : option datetime) (o : StoredOperation) : StoredOperation := {|
  o_id := o_id o; o_parent_job_id := o_parent_job_id o; o_node_id := o_node_id o;
  o_kind := o_kind o; o_payload := o_payload o;
  o_workload_intent_ordinal := o_workload_intent_ordinal o; o_state := o_state o;
  o_status_reason := o_status_reason o; o_current_attempt := o_current_attempt o;
  o_observe_count := o_observe_count o; o_recovery_deadline := d;
  o_retry_due_at := o_retry_due_at o; o_updated_at := o_updated_at o; o_wait := o_wait o |}.

Definition set_wait (w : ScheduledWaitOwner) (o : StoredOperation) : StoredOperation := {|
  o_id := o_id o; o_parent_job_id := o_parent_job_id o; o_node_id := o_node_id o;
  o_kind := o_kind o; o_payload := o_payload o;
  o_workload_intent_ordinal := o_workload_intent_ordinal o; o_state := o_state o;
  o_status_reason := o_status_reason o; o_current_attempt := o_current_attempt o;
  o_observe_count := o_observe_count o; o_recovery_deadline := o_recovery_deadline o;
  o_retry_due_at := o_retry_due_at o; o_updated_at := o_updated_at o; o_wait := w |}.

Definition set_status_reason (why : option string) (o : StoredOperation) : StoredOperation := {|
  o_id := o_id o; o_parent_job_id := o_parent_job_id o; o_node_id := o_node_id o;
  o_kind := o_kind o; o_payload := o_payload o;
  o_workload_intent_ordinal := o_workload_intent_ordinal o; o_state := o_state o;
  o_status_reason := why; o_current_attempt := o_current_attempt o;
  o_observe_count := o_observe_count o; o_recovery_deadline := o_recovery_deadline o;
  o_retry_due_at := o_retry_due_at o; o_updated_at := o_updated_at o; o_wait := o_wait o |}.

(** The scheduling columns of a decision, written in one block; the retired
    [retry_due_at] clock is cleared with them. *)
Definition set_scheduled (st : string) (attempt_ observed : Z) (why : option string) (now : datetime)
    (w : ScheduledWaitOwner) (o : StoredOperation) : StoredOperation := {|
  o_id := o_id o; o_parent_job_id := o_parent_job_id o; o_node_id := o_node_id o;
  o_kind := o_kind o; o_payload := o_payload o;
  o_workload_intent_ordinal := o_workload_intent_ordinal o; o_state := st;
  o_status_reason := why; o_current_attempt := attempt_;
  o_observe_count := observed; o_recovery_deadline := o_recovery_deadline o;
  o_retry_due_at := None; o_updated_at := Some now; o_wait := w |}.

(** The order as the owner of its wait columns. *)
Definition order_row (o : StoredOperation) : OwnerRow :=
  ModelRow PersistedWaits.AgentOperation (Some (o_id o)) None None None.

(** [schedule_wait(operation, next_check)] *)
Definition schedule_order (o : StoredOperation) (next : option datetime)
  : result ScheduledWaitOwner :=
  w ← schedule_wait (order_row o) (o_wait o) next (plain_schedule (o_updated_at o)); Ok (fst w).

Definition _stored (o : StoredOperation) (after : Lifecycle) (now : datetime)
  : string * option datetime :=
  let at_ := Some (Aware (default (to_utc now) (next_action_at after))) in
  match state after with
  | State.QUEUED | State.BACKOFF =>
      if o_current_attempt o =? 0 then ("queued", None) else (AOS.BACKOFF, at_)
  | State.OBSERVING => (AOS.OBSERVING, at_)
  | State.NEEDS_OPERATOR => (AOS.NEEDS_OPERATOR, None)
  | State.RUNNING => ("running", None)
  | State.SUCCEEDED => ("succeeded", None)
  | State.FAILED => ("failed", None)
  | State.CANCELLED => ("cancelled", None)
  | State.SUPERSEDED => (AOS.OBSERVING, at_)
  end.

(** What an operator reads for a scheduled retry. *)
Definition _scheduled_reason (s : Session) (after : Lifecycle) (event_reason : option string)
  : string :=
  let o := db_operation s in
  match next_action_at after with
  | None => default "exact effect awaiting bounded observation" (str_or event_reason None)
  | Some due =>
      let note :=
        if bool_decide (o_kind o = value AgentOperation.AGENT_UPGRADE) then
          "agent upgrade retries automatically after " +:+ isoformat due
        else
          let stalled := stalled_interruptions o (db_attempts s) in
          if STALLED_INTERRUPTION_LIMIT <=? stalled then
            o_kind o +:+ " was interrupted " +:+ pretty stalled +:+
            " times in a row (agent restart or lapsed lease) without copying new bytes; " +:+
            "retry slowed to " +:+ isoformat due
          else
            "exact " +:+ o_kind o +:+ " interrupted; retry scheduled at " +:+ isoformat due in
      let note :=
        match o_recovery_deadline o with
        | Some d => note +:+ "; recovery deadline " +:+ isoformat (to_utc d)
        | None => note
        end in
      match str_or event_reason None with
      | Some why => why +:+ "; " +:+ note
      | None => note
      end
  end.

(** The retried upgrade's attempt keeps its lease until the fence elapses. *)
Definition _fence_upgrade_attempt (o : StoredOperation) (a : AgentOperationAttempt)
    (not_before : option datetime) : result (AgentOperationAttempt * bool) :=
  match not_before with
  | Some t =>
      if bool_decide (o_kind o <> value AgentOperation.AGENT_UPGRADE) then Ok (a, false)
      else
        '(a, changed_) ←
          if bool_decide (a_state a = "running") then Ok (lapse a, true)
          else if negb (bool_decide (a_state a = "failed") || attempt_is_observing a) then
            a' ← record_wire_state AOS.WIRE_UNKNOWN a; Ok (a', true)
          else Ok (a, false);
        Ok (if to_utc (a_lease_deadline a) <? to_utc t then (with_lease t a, true)
            else (a, changed_))
  | None => Ok (a, false)
  end.

(** The first uncertainty of an order starts its recovery budget. *)
Definition recovery_budget (now : datetime) : datetime :=
  Aware (stall_deadline now None AGENT_ORDER_RECOVERY_BUDGET).

(** The text a decision leaves on the order. *)
Definition decided_reason (s : Session) (before after : Lifecycle) : option string :=
  let why :=
    if same (state after) State.BACKOFF && (o_current_attempt (db_operation s) =? 0) then
      str_or (reason after) (Some "queued again; it never ran")
    else if same (state after) State.BACKOFF
            && (negb (same (state before) State.BACKOFF)
                || negb (bool_decide (next_action_at after = next_action_at before))) then
      Some (_scheduled_reason s after (reason after))
    else reason after in
  str_take _MAX_REASON <$> why.

(** A running order that no longer runs: its running attempt can no longer report. *)
Definition lapses_attempt (before after : Lifecycle) (a : AgentOperationAttempt) : bool :=
  same (state before) State.RUNNING
  && negb (mem (state after) [State.RUNNING; State.SUCCEEDED; State.FAILED])
  && bool_decide (a_state a = "running").

(** A terminal order retains its diagnostic receipt, never a live claim. *)
Definition ends_observed (after : Lifecycle) (a : AgentOperationAttempt) : result bool :=
  if mem (state after) [State.SUCCEEDED; State.FAILED; State.CANCELLED] && attempt_is_observing a
  then l ← attempt_lapsed a; Ok (negb l)
  else Ok false.

(** The steps of [apply] that change the attempt it was given. *)
Definition apply_attempt (s : Session) (n : Z) (after : Lifecycle) (next : option datetime)
  : result (Session * bool) :=
  match attempt_numbered s n with
  | None => Ok (s, false)
  | Some a =>
      ended ← ends_observed after a;
      let s := if ended : bool then update_attempt n lapse s else s in
      let a := if ended then lapse a else a in
      if same (state after) State.BACKOFF then
        '(a', fenced_) ← _fence_upgrade_attempt (db_operation s) a next;
        Ok (update_attempt n (fun _ => a') s, ended || fenced_)
      else Ok (s, ended)
  end.

(** [apply]: the only projection of a core decision onto the stored order.  [which] is the
    number of the attempt the caller holds.  A success also clears the order's old
    warnings ([evidence_repeats.note_success]), rows this model does not hold. *)
Definition apply (s : Session) (which : option Z) (before after : Lifecycle) (now : datetime)
  : result (Session * bool) :=
  let o := db_operation s in
  let o :=
    if bool_decide (o_recovery_deadline o = None) && (0 <? o_current_attempt o)
       && mem (state after) [State.OBSERVING; State.BACKOFF]
    then set_recovery_deadline (Some (recovery_budget now)) o else o in
  let s := set_operation o s in
  let '(st, next) := _stored o after now in
  let why := decided_reason s before after in
  let '(s, changed1) :=
    match (n ← which; attempt_numbered s n) with
    | Some a =>
        if lapses_attempt before after a then (update_attempt (a_attempt a) lapse s, true)
        else (s, false)
    | None => (s, false)
    end in
  let observed := if same (state after) State.OBSERVING then observe_count after else 0 in
  '(s, changed2) ←
    (if negb (bool_decide (o_state o = st))
        || negb (bool_decide ((to_utc <$> wait_next_action_at (o_wait o)) = (to_utc <$> next)))
        || negb (o_observe_count o =? observed)
        || (bool_decide (why <> None) && negb (bool_decide (o_status_reason o = why)))
     then
       w ← schedule_order o next;
       Ok (set_operation
             (set_scheduled st (o_current_attempt o) observed (or_else why (o_status_reason o))
                (aware now) w o) s, true)
     else Ok (s, changed1));
  '(s, changed3) ← match which with
                   | Some n => apply_attempt s n after next
                   | None => Ok (s, false)
                   end;
  let o := db_operation s in
  w ← lifecycle_wait (o_wait o) {|
    l_identity := o_id o; l_kind := WaitOwnerKind.AGENT_OPERATION; l_state := state after;
    l_now := aware now; l_due := next; l_detail := reason after; l_reason := None;
    l_blockers := []; l_deadline := Aware <$> recovery_deadline after;
    l_cancelling := cancel_requested after;
    l_lease_deadline := Aware <$> lease_deadline after; l_operator_action := None |};
  Ok (set_operation (set_wait (fst w) o) s, changed2 || changed3 || snd w).

(** ** Deciding an event *)

(** A lapse or a report that leaves the effect in doubt. *)
Definition is_uncertain (ev : Event) : bool :=
  match ev with
  | LeaseLapsed _ => true
  | Reported rep =>
      same (outcome rep) Outcome.UNKNOWN || (same (outcome rep) Outcome.FAILED && retryable rep)
  | _ => false
  end.

Definition is_lapse_or_report (ev : Event) : bool :=
  match ev with LeaseLapsed _ | Reported _ => true | _ => false end.

(** The recovery deadline [settle] stores before the core decides: stored at first
    uncertainty, restarted by byte progress, and not charged while the Spark is away. *)
Definition settled_deadline (s : Session) (attempt_ : option AgentOperationAttempt) (ev : Event)
    (now : datetime) : option datetime :=
  let o := db_operation s in
  match o_recovery_deadline o with
  | None => if is_uncertain ev then Some (recovery_budget now) else None
  | Some _ =>
      if is_lapse_or_report ev && advanced_bytes o attempt_ (db_attempts s)
      then Some (recovery_budget now)
      else Aware <$> recovery_deadline_of s now
  end.

(** The attempt [settle] decides with: the caller's, or the current one. *)
Definition settled_attempt (s : Session) (which : option Z) : option Z :=
  match which with
  | Some n => Some n
  | None => if 0 <? o_current_attempt (db_operation s) then a_attempt <$> attempt_of s else None
  end.

Section settle.
Context (clock_ : datetime) (resume_candidates : option (Session -> string -> datetime -> list string)).
Let adapter := AgentOperationAdapter clock_ resume_candidates.

Definition save_order (which : option Z) (now : datetime) (before after : Lifecycle)
  : call Session bool := fun s =>
  match apply s which before after now with
  | Ok (s', _) => (s', Ok true)
  | Raise e => (s, Raise e)
  end.

Definition residue_order (r : Lifecycle) (why : string) : call Session unit := fun s =>
  (set_operation (set_status_reason (Some (str_take _MAX_REASON why)) (db_operation s)) s, Ok tt).

(** [AgentOperationAdapter.settle] *)
Definition settle_order (s : Session) (which : option Z) (ev : Event) (now : datetime)
  : Session * result Lifecycle :=
  let which := settled_attempt s which in
  let attempt_ := n ← which; attempt_numbered s n in
  let s := set_operation
             (set_recovery_deadline (settled_deadline s attempt_ ev now) (db_operation s)) s in
  let '(s, res) :=
    settle (lifecycle s attempt_ now) ev adapter (to_utc now) (save_order which now) residue_order
      MAX_STEPS_PER_ROW s in
  (s, (settled ← res; Ok (settled_row settled))).

(** [decide]: the decision for an event, not written. *)
Definition decide_order (s : Session) (attempt_ : option AgentOperationAttempt) (ev : Event)
    (now : datetime) : result Decision :=
  transition (lifecycle s attempt_ now) ev (reads adapter s) (to_utc now).

(** ** Claims *)

(** The columns of an order that a claim or a refusal writes. *)
Definition end_schedule (st : string) (attempt_ observed : Z) (why : option string) (now : datetime)
    (o : StoredOperation) : StoredOperation :=
  set_scheduled st attempt_ observed why (aware now) (fst (clear_wait (o_wait o))) o.

Definition add_attempt (o : StoredOperation) (a : AgentOperationAttempt) (s : Session) : Session := {|
  db_operation := o; db_attempts := (db_attempts s ++ [a])%list; db_parent := db_parent s;
  db_spark := db_spark s |}.

(** [start_attempt]: the next attempt, its fence and lease, and a running order; [None]
    and nothing written when the core does not let it be claimed. *)
Definition start_attempt (s : Session) (certificate_serial fence_ : string) (deadline now : datetime)
    (progress : option ProgressDocument) : Session * result (option AgentOperationAttempt) :=
  let o := db_operation s in
  if match recovery_deadline_of s now with Some d => d <=? to_utc now | None => false end then
    match settle_order s (a_attempt <$> attempt_of s) Tick now with
    | (s', Ok _) => (s', Ok None)
    | (s', Raise e) => (s', Raise e)
    end
  else
    let r := lifecycle s (attempt_of s) now in
    match transition r (Claimed (attempt r + 1) fence_ (to_utc deadline)) (reads adapter s)
            (to_utc now) with
    | Raise e => (s, Raise e)
    | Ok d =>
        if negb (same (state (row d)) State.RUNNING) then (s, Ok None)
        else
          let a := {|
            a_attempt := o_current_attempt o + 1; a_fence := fence_; a_lease_deadline := deadline;
            a_certificate_serial := certificate_serial; a_state := "running";
            a_observation_cause := None; a_progress := progress; a_result := None |} in
          (add_attempt (end_schedule "running" (o_current_attempt o + 1) 0 None now o) a s,
           Ok (Some a))
    end.

(** [reject_attempt]: a claim refused before it ran.  The retired clock and the count are
    left alone. *)
Definition reject_attempt (s : Session) (certificate_serial fence_ : string) (now : datetime)
    (result_ : ResultDocument) : Session * AgentOperationAttempt :=
  let o := db_operation s in
  let a := {|
    a_attempt := o_current_attempt o + 1; a_fence := fence_; a_lease_deadline := aware now;
    a_certificate_serial := certificate_serial; a_state := "failed";
    a_observation_cause := None; a_progress := None; a_result := Some result_ |} in
  (add_attempt {|
     o_id := o_id o; o_parent_job_id := o_parent_job_id o; o_node_id := o_node_id o;
     o_kind := o_kind o; o_payload := o_payload o;
     o_workload_intent_ordinal := o_workload_intent_ordinal o; o_state := "failed";
     o_status_reason := o_status_reason o; o_current_attempt := o_current_attempt o + 1;
     o_observe_count := o_observe_count o; o_recovery_deadline := o_recovery_deadline o;
     o_retry_due_at := o_retry_due_at o; o_updated_at := Some (aware now);
     o_wait := fst (clear_wait (o_wait o)) |} a s, a).

(** [reopen]: withdraw an end the owner finds premature. *)
Definition reopen (o : StoredOperation) (now : datetime) : StoredOperation :=
  end_schedule AOS.OBSERVING (o_current_attempt o) 0 (o_status_reason o) now o.

(** [_owner_report]: an owner's definite end as a report. *)
Definition _owner_report (o : OutcomeKind) (why : option string) : report :=
  match o with
  | Outcome.FAILED =>
      failed (CauseVerdict Disposition.FAIL) EmptyString None None why None
  | _ =>
      {| outcome := if mem o [Outcome.CANCELLED; Outcome.UNKNOWN] then o else Outcome.DONE;
         r_fence := None; retryable := false; r_effect := None; r_reason := why;
         retry_after := None; consumes_retry := true |}
  end.

(** [record_outcome]: an owner's own decision about the order's end. *)
Definition record_outcome (s : Session) (which : option Z) (o : OutcomeKind) (now : datetime)
    (why : option string) (replaces_report : bool) : Session * result unit :=
  let settled s := match settle_order s which (Reported (_owner_report o why)) now with
                   | (s', Ok _) => (s', Ok tt)
                   | (s', Raise e) => (s', Raise e)
                   end in
  if mem (o_state (db_operation s)) ["succeeded"; "failed"; "cancelled"] then
    if negb replaces_report then (s, Ok tt)
    else settled (set_operation (reopen (db_operation s) now) s)
  else settled s.
End settle.

(** [withdraw_retry]: revoke an order's schedule; an observation keeps its clock. *)
Definition withdraw_retry (o : StoredOperation) : StoredOperation :=
  let o := {|
    o_id := o_id o; o_parent_job_id := o_parent_job_id o; o_node_id := o_node_id o;
    o_kind := o_kind o; o_payload := o_payload o;
    o_workload_intent_ordinal := o_workload_intent_ordinal o; o_state := o_state o;
    o_status_reason := o_status_reason o; o_current_attempt := o_current_attempt o;
    o_observe_count := o_observe_count o; o_recovery_deadline := o_recovery_deadline o;
    o_retry_due_at := None; o_updated_at := o_updated_at o; o_wait := o_wait o |} in
  if negb (o_observe_count o =? 0) then o else set_wait (fst (clear_wait (o_wait o))) o.

(** [end_unobserved_attempt]: fence an abandoned attempt without fabricating a receipt. *)
Definition end_unobserved_attempt (a : AgentOperationAttempt) (now : datetime)
  : AgentOperationAttempt :=
  if bool_decide (a_state a = value State.RUNNING) || attempt_is_observing a
  then with_lease (aware now) (with_attempt_state (value State.FAILED) None a) else a.

(** [expire_attempt]: an attempt that can no longer report; its fence stays. *)
Definition expire_attempt (a : AgentOperationAttempt) : result AgentOperationAttempt :=
  if bool_decide (a_state a = "running") then Ok (lapse a)
  else u ← attempt_reported_unknown a; Ok (if u : bool then lapse a else a).

(** [record_report]: the executor's own report, kept on its attempt. *)
Definition record_report (a : AgentOperationAttempt) (state_ : string) (result_ : ResultDocument)
  : result AgentOperationAttempt :=
  record_wire_state state_ {|
    a_attempt := a_attempt a; a_fence := a_fence a; a_lease_deadline := a_lease_deadline a;
    a_certificate_serial := a_certificate_serial a; a_state := a_state a;
    a_observation_cause := a_observation_cause a; a_progress := a_progress a;
    a_result := Some result_ |}.

(** [new_order]: born [queued] with no attempt; [due] is a clock the caller gave. *)
Definition new_order (id_ parent node kind_ : string) (payload : OrderPayload) (ordinal : option Z)
    (due created_at updated_at : option datetime) : result StoredOperation :=
  w ← initialize_wait (WaitColumns NoEvidence due) id_ WaitOwnerKind.AGENT_OPERATION
        (Some (value State.QUEUED)) created_at updated_at;
  Ok {| o_id := id_; o_parent_job_id := parent; o_node_id := node; o_kind := kind_;
        o_payload := payload; o_workload_intent_ordinal := ordinal;
        o_state := value State.QUEUED; o_status_reason := None; o_current_attempt := 0;
        o_observe_count := 0; o_recovery_deadline := None; o_retry_due_at := None;
        o_updated_at := updated_at; o_wait := w |}.

(** ** The parent job *)
Definition aggregate_child (c : string * bool) : string * bool :=
  let '(stored, scheduled) := c in
  (match adopt_state LifecycleSubject.AGENT_OPERATION stored with
   | Some adopted => if scheduled then value LifecycleState.BACKOFF else value adopted
   | None => stored
   end, scheduled).

Definition is_retrying (c : string * bool) : bool := mem (fst c) AOS.PARKED && snd c.

(** [aggregate_parent_state]: [None] leaves the parent alone. *)
Definition aggregate_parent_state (children : list (string * bool)) (cancel_requested_ : bool)
  : option string :=
  let children := aggregate_child <$> children in
  let final := fun c => mem (fst c) AGGREGATE_FINAL_STATES in
  let has w := existsb (fun c => bool_decide (fst c = w)) children in
  if existsb is_retrying children
     && forallb (fun c => bool_decide (fst c = "succeeded") || is_retrying c) children
     && negb cancel_requested_
  then Some "queued"
  else if has "failed" && forallb (fun c => final c || mem (fst c) AOS.PARKED) children
  then Some (value LifecycleState.FAILED)
  else if bool_decide (children = []) || existsb (fun c => negb (final c)) children then None
  else if has "failed" then Some "failed"
  else if has AOS.NEEDS_OPERATOR then Some WAITING
  else if has "cancelled" then Some "cancelled"
  else Some "succeeded".

(** Two reads of an order agree on everything a decision depends on. *)
Definition same_order (l r : Lifecycle) : bool :=
  bool_decide (state l = state r) && (attempt l =? attempt r) && bool_decide (fence l = fence r)
  && bool_decide (next_action_at l = next_action_at r)
  && bool_decide (recovery_deadline l = recovery_deadline r)
  && (observe_count l =? observe_count r)
  && Bool.eqb (cancel_requested l) (cancel_requested r)
  && bool_decide (effect l = effect r).

(** A parent that already ended keeps its recorded state and reason. *)
Definition set_parent_state (j : Job) (st : string) (why : option string) (now : datetime)
    (keep_reason : bool) : Job :=
  if match JobStates.core (Some (j_state j)) with
     | Some c => mem c TERMINAL_STATES
     | None => false
     end
  then j
  else {| j_id := j_id j; j_kind := j_kind j; j_state := st; j_owner_kind := j_owner_kind j;
          j_stop_parent := j_stop_parent j; j_result := j_result j;
          j_status_reason := if keep_reason then j_status_reason j else str_take 1024 <$> why;
          j_updated_at := Some (aware now) |}.

(** The SQL predicates, on the rows of one order. *)
Definition lapsed_running_orders (s : Session) (now : datetime) : bool :=
  bool_decide (o_state (db_operation s) = "running")
  && negb (existsb (fun a =>
       (a_attempt a =? o_current_attempt (db_operation s)) && bool_decide (a_state a = "running")
       && (to_utc now <? to_utc (a_lease_deadline a))) (db_attempts s)).

Definition parked_orders (o : StoredOperation) (now : datetime) : bool :=
  mem (o_state o) AOS.PARKED
  && match wait_next_action_at (o_wait o) with
     | None => true
     | Some t =>
         (match o_recovery_deadline o with Some d => to_utc d <=? to_utc now | None => false end
          && (o_observe_count o =? 0))
         || ((0 <? o_observe_count o) && (to_utc t <=? to_utc now))
     end.
