(* ===== verification/SparkOrderFacts.v ===== *)
(** * What storing a Spark order keeps

    The decisions of the lifecycle core survive being written to the stored order and
    read back ([SparkOrder]): every settle returns, the order reads back as the settled
    row, an observed order is never a claimable retry, and a claim is granted exactly
    when the core grants it. *)
From S2P Require Import Prelude Vocabulary ReasonCodes Disposition Recovery.
From S2P Require Import LifecycleTypes LifecycleCore LifecycleFacts LifecycleTraces Reconciler.
From S2P Require Import StallWindow Blockers PersistedWaits SparkAttempts SparkOrder.

(** ** The core's observation count *)

(** The adapter tells an observation from a retry by its count alone. *)
Definition counted (r : Lifecycle) : Prop :=
  0 <= observe_count r /\ (state r = State.OBSERVING -> 1 <= observe_count r).

(** Commands are answered on an observed row only. *)
Definition asks (d : Decision) : Prop :=
  Forall (fun c => mem c [Observe; Stop] = true -> state (row d) = State.OBSERVING) (commands d).

Lemma transition_counted r ev a now d :
  counted r -> (is_observed ev = true -> state r = State.OBSERVING) ->
  transition r ev a now = Ok d -> counted (row d) /\ asks d.
Proof.
  intros [Hn Ho] Hev H. run_core H.
  all: unfold counted, asks, b2z, OBSERVE_BUDGET, LOST_OBSERVATION_BOUND in *; simpl.
  all: split; [split|].
  all: try (repeat constructor; intros; done).
  all: try (by repeat constructor).
  all: bools; intros; try (repeat case_match; bools; (lia || (specialize (Ho ltac:(congruence)); lia))).
  all: try (specialize (Hev eq_refl); specialize (Ho Hev); lia).
  all: by unfold cancel_requested in *; simpl in *; congruence.
Qed.

Lemma transition_count r ev a now d :
  0 <= observe_count r -> transition r ev a now = Ok d -> 0 <= observe_count (row d).
Proof.
  intros Hn H. run_core H; unfold b2z, OBSERVE_BUDGET in *; try lia; repeat case_match; lia.
Qed.

(** ** What an order must be for its readers *)

(** The attempt's recorded cause is readable. *)
Definition readable_cause (a : AgentOperationAttempt) : bool :=
  match attempt_cause a with Ok _ => true | Raise _ => false end.

(** A well-formed order: an identity of the stored contract, wait columns whose readable
    evidence is valid (a damaged document is allowed), counts that are counts and attempts
    whose cause is in the vocabulary. *)
Record order_ok (s : Session) : Prop := {
  ok_identity : fits_identity (o_id (db_operation s)) = true;
  ok_wait : sound_columns (o_wait (db_operation s)) = true;
  ok_count : 0 <= o_observe_count (db_operation s);
  ok_causes : Forall (fun a => readable_cause a = true) (db_attempts s);
}.

Lemma readable_lapse a : readable_cause (lapse a) = true.
Proof. done. Qed.

Lemma attempt_numbered_elem s n a : attempt_numbered s n = Some a -> a ∈ db_attempts s /\ a_attempt a = n.
Proof.
  unfold attempt_numbered. intros [H1 H2]%List.find_some. rewrite list_elem_of_In. split; [done|lia].
Qed.

Lemma update_attempt_readable n f s :
  (forall a, a ∈ db_attempts s -> readable_cause a = true -> readable_cause (f a) = true) ->
  Forall (fun a => readable_cause a = true) (db_attempts s) ->
  Forall (fun a => readable_cause a = true) (db_attempts (update_attempt n f s)).
Proof.
  intros Hf H. simpl. rewrite Forall_fmap, Forall_forall in *. intros a Ha. simpl.
  case_match; eauto.
Qed.

(** The attempts' side of a decision. *)
Lemma ends_observed_ok after a :
  readable_cause a = true -> exists b, ends_observed after a = Ok b.
Proof.
  unfold readable_cause, ends_observed, attempt_lapsed.
  destruct (attempt_cause a); [|done]. intros _. case_match; simpl; by eexists.
Qed.

Lemma fence_upgrade_ok o a t :
  exists a' b, _fence_upgrade_attempt o a t = Ok (a', b) /\
    (readable_cause a = true -> readable_cause a' = true).
Proof.
  unfold _fence_upgrade_attempt. destruct t as [t|]; [|by do 2 eexists].
  case_match; [by do 2 eexists|].
  destruct (bool_decide (a_state a = "running")).
  { simpl. case_match; by do 2 eexists. }
  destruct (negb _).
  - change (record_wire_state AOS.WIRE_UNKNOWN a) with
      (Ok (with_attempt_state AOS.OBSERVING (Some (value ObservationCause.REPORTED_UNKNOWN)) a)).
    simpl. case_match; by do 2 eexists.
  - simpl. case_match; by do 2 eexists.
Qed.

Lemma apply_attempt_ok s n after next :
  Forall (fun a => readable_cause a = true) (db_attempts s) ->
  exists s' b, apply_attempt s n after next = Ok (s', b) /\ db_operation s' = db_operation s /\
    Forall (fun a => readable_cause a = true) (db_attempts s').
Proof.
  intros Hc. unfold apply_attempt. destruct (attempt_numbered s n) as [a|] eqn:En; [|by do 2 eexists].
  apply attempt_numbered_elem in En as [Ha _].
  assert (readable_cause a = true) as Hra by (by rewrite Forall_forall in Hc; apply Hc).
  destruct (ends_observed_ok after a Hra) as [ended ->]. rewrite bind_Ok_l.
  set (s1 := if ended then update_attempt n lapse s else s). set (a1 := if ended then lapse a else a).
  assert (Forall (fun a => readable_cause a = true) (db_attempts s1)) as Hc1.
  { unfold s1. destruct ended; [|done]. by apply update_attempt_readable. }
  assert (readable_cause a1 = true) as Hr1 by (unfold a1; by destruct ended).
  assert (db_operation s1 = db_operation s) as Ho by (unfold s1; by destruct ended).
  destruct (same (state after) State.BACKOFF); [|by do 2 eexists].
  destruct (fence_upgrade_ok (db_operation s1) a1 next) as (a' & b & -> & Hr').
  rewrite bind_Ok_l. do 2 eexists. split; [reflexivity|]. split; [done|].
  apply update_attempt_readable; [|done]. intros. by apply Hr'.
Qed.

(** ** Applying a decision *)

(** The columns an applied decision leaves. *)
Record applied (s : Session) (after : Lifecycle) (now : datetime) (s' : Session) : Prop := {
  ap_ok : order_ok s';
  ap_parent : db_parent s' = db_parent s;
  ap_id : o_id (db_operation s') = o_id (db_operation s);
  ap_parent_id : o_parent_job_id (db_operation s') = o_parent_job_id (db_operation s);
  ap_node : o_node_id (db_operation s') = o_node_id (db_operation s);
  ap_payload : o_payload (db_operation s') = o_payload (db_operation s);
  ap_kind : o_kind (db_operation s') = o_kind (db_operation s);
  ap_attempt : o_current_attempt (db_operation s') = o_current_attempt (db_operation s);
  ap_state : o_state (db_operation s') = fst (_stored (db_operation s) after now);
  ap_count : o_observe_count (db_operation s') =
               if same (state after) State.OBSERVING then observe_count after else 0;
  ap_next : wait_next_action_at (o_wait (db_operation s')) =
              let next := snd (_stored (db_operation s) after now) in
              if lifecycle_waits (state after) next (Aware <$> lease_deadline after)
              then Some (aware (default (aware now) next)) else None;
}.

Lemma schedule_order_ok o next :
  fits_identity (o_id o) = true -> sound_columns (o_wait o) = true ->
  exists w, schedule_order o next = Ok w /\ sound_columns w = true.
Proof.
  intros Hi Hs. unfold schedule_order.
  destruct (schedule_wait_spec (order_row o) (o_wait o) next (plain_schedule (o_updated_at o)) Hs)
    as (w & ch & -> & Hv & _).
  - cbn [typed_step fits_row order_row plain_schedule s_reason s_blockers valid_reason forallb].
    rewrite !andb_true_r. unfold str_or. case_decide as He; [|done]. rewrite He in Hi. done.
  - rewrite bind_Ok_l. exists w. split; [done|]. by apply valid_sound.
Qed.

(** The write of the scheduling columns, made only when one of them differs. *)
Lemma scheduled_write (o : StoredOperation) (s : Session) (st : string) (next : option datetime)
    (observed : Z) (why : option string) (now : datetime) (ch : bool) :
  fits_identity (o_id o) = true -> sound_columns (o_wait o) = true -> db_operation s = o ->
  exists s' ch',
    (if negb (bool_decide (o_state o = st))
        || negb (bool_decide ((to_utc <$> wait_next_action_at (o_wait o)) = (to_utc <$> next)))
        || negb (o_observe_count o =? observed)
        || (bool_decide (why <> None) && negb (bool_decide (o_status_reason o = why)))
     then
       w ← schedule_order o next;
       Ok (set_operation
             (set_scheduled st (o_current_attempt o) observed (or_else why (o_status_reason o))
                (aware now) w o) s, true)
     else Ok (s, ch)) = Ok (s', ch') /\
    db_attempts s' = db_attempts s /\ db_parent s' = db_parent s /\
    sound_columns (o_wait (db_operation s')) = true /\
    o_state (db_operation s') = st /\ o_observe_count (db_operation s') = observed /\
    o_id (db_operation s') = o_id o /\ o_parent_job_id (db_operation s') = o_parent_job_id o /\
    o_node_id (db_operation s') = o_node_id o /\ o_payload (db_operation s') = o_payload o /\
    o_kind (db_operation s') = o_kind o /\ o_current_attempt (db_operation s') = o_current_attempt o.
Proof.
  intros Hi Hs Ho. destruct (_ || _) eqn:E.
  - destruct (schedule_order_ok o next Hi Hs) as (w & -> & Hw). rewrite bind_Ok_l.
    do 2 eexists. split; [reflexivity|]. simpl. by split_and!.
  - bools. do 2 eexists. split; [reflexivity|]. rewrite Ho. by split_and!.
Qed.

Lemma apply_spec s which before after now :
  order_ok s -> 0 <= observe_count after ->
  exists s' ch, apply s which before after now = Ok (s', ch) /\ applied s after now s'.
Proof.
  intros [Hi Hw Hn Hc] Hn'. unfold apply.
  set (o := if _ : bool then set_recovery_deadline _ _ else _).
  assert (o_id o = o_id (db_operation s) /\ o_wait o = o_wait (db_operation s) /\
          o_current_attempt o = o_current_attempt (db_operation s) /\
          o_kind o = o_kind (db_operation s) /\ o_node_id o = o_node_id (db_operation s) /\
          o_payload o = o_payload (db_operation s) /\
          o_parent_job_id o = o_parent_job_id (db_operation s)) as (Eid & Ew & Ea & Ek & En & Ep & Epa).
  { unfold o. by case_match. }
  assert (_stored o after now = _stored (db_operation s) after now) as Est.
  { unfold _stored. by rewrite Ea. }
  rewrite Est. destruct (_stored (db_operation s) after now) as [st next] eqn:Est'.
  set (why := decided_reason _ _ _).
  match goal with |- context [let '(_, _) := ?m in _] => destruct m as [s1 changed1] eqn:E1 end.
  assert (db_operation s1 = o /\ db_parent s1 = db_parent s /\
          Forall (fun a => readable_cause a = true) (db_attempts s1)) as (Eo1 & Ep1 & Hc1).
  { destruct (n ← which; attempt_numbered _ n) as [a|]; [|by simplify_eq].
    case_match; simplify_eq; [|done]. split_and!; [done..|].
    apply (update_attempt_readable (a_attempt a) lapse (set_operation o s)); done. }
  set (observed := if same (state after) State.OBSERVING then _ else _).
  destruct (scheduled_write o s1 st next observed why now changed1)
    as (s2 & ch2 & -> & Ea2 & Ep2 & Hw2 & Es2 & Eo2 & Ei2 & Epa2 & En2 & Epl2 & Ek2 & Eat2);
    [by rewrite Eid|by rewrite Ew|done|]. rewrite bind_Ok_l.
  assert (exists s3 b,
    match which with Some n => apply_attempt s2 n after next | None => Ok (s2, false) end = Ok (s3, b) /\
    db_operation s3 = db_operation s2 /\ db_parent s3 = db_parent s2 /\
    Forall (fun a => readable_cause a = true) (db_attempts s3)) as (s3 & b3 & -> & Eo3 & Ep3 & Hc3).
  { rewrite <- Ea2 in Hc1. destruct which as [n|]; [|by do 2 eexists].
    destruct (apply_attempt_ok s2 n after next Hc1) as (s3 & b & H3 & ? & ?).
    exists s3, b. split_and!; try done. unfold apply_attempt in H3.
    repeat (case_match; unbind; simplify_eq; try done). }
  rewrite bind_Ok_l.
  match goal with |- context [lifecycle_wait _ ?l] => set (lw := l) end.
  destruct (lifecycle_wait_spec (o_wait (db_operation s3)) lw) as (w & ch & -> & Hv & Hres).
  { by rewrite Eo3. }
  { simpl. rewrite Eo3, Ei2, Eid. by rewrite Hi. }
  rewrite bind_Ok_l. do 2 eexists. split; [reflexivity|].
  constructor; simpl; rewrite ?Eo3; try congruence.
  - constructor; simpl; rewrite ?Eo3; [congruence|by apply valid_sound| |done].
    rewrite Eo2. unfold observed. destruct (same (state after) State.OBSERVING); lia.
  - rewrite Est'. simpl. congruence.
  - exact Eo2.
  - rewrite Est'. cbn [snd]. cbn [l_state l_due l_lease_deadline lw] in Hres.
    destruct (lifecycle_waits _ _ _); [by destruct Hres as (p & _ & -> & _)|by rewrite Hres].
Qed.

(** ** Reading a decision back *)

(** What a decided row is read back as, by every later reader: its state, its clock and its
    observation count.  An order that was never issued is simply queued, so a wait of it has
    no clock; any other claimable order is a scheduled retry at its clock, or now; the
    observation of an order is told from a retry by its count alone, so one whose count is
    zero is a retry; nothing else has a clock or a count of its own. *)
Definition read_back (current_attempt : Z) (now : datetime) (r : Lifecycle)
  : LifecycleState * option instant * Z :=
  let at_ := Some (default (to_utc now) (next_action_at r)) in
  match state r with
  | State.QUEUED | State.BACKOFF =>
      if current_attempt =? 0 then (State.QUEUED, None, 0) else (State.BACKOFF, at_, 0)
  | State.OBSERVING =>
      (if observe_count r =? 0 then State.BACKOFF else State.OBSERVING, at_, observe_count r)
  | st => (st, None, 0)
  end.

(** What a reader sees of a row.  The clock of a running order is its attempt's lease, which
    the rows of the attempt decide. *)
Definition seen (r : Lifecycle) : LifecycleState * option instant * Z :=
  (state r, if same (state r) State.RUNNING then None else next_action_at r, observe_count r).

(** A later read [r'] of the decided row [r]: what was written of it, or the row itself where
    the decision left the order as it was. *)
Definition reads_as (current_attempt : Z) (now : datetime) (r r' : Lifecycle) : Prop :=
  seen r' = read_back current_attempt now r \/ seen r' = seen r.


(** Every later read, whatever attempt it is handed. *)
Definition stored_as (now : datetime) (s : Session) (r : Lifecycle) : Prop :=
  forall att now', reads_as (o_current_attempt (db_operation s)) now r (lifecycle s att now').

Lemma lifecycle_reads s att now :
  state (lifecycle s att now) = fst (fst (read_state (db_operation s) att now)) /\
  next_action_at (lifecycle s att now) = snd (read_state (db_operation s) att now) /\
  lease_deadline (lifecycle s att now) = snd (fst (read_state (db_operation s) att now)) /\
  observe_count (lifecycle s att now) = o_observe_count (db_operation s).
Proof.
  unfold lifecycle. destruct (read_state _ _ _) as [[st lease] next].
  by destruct (order_cancel s now).
Qed.

(** How each stored word is read. *)
Lemma read_state_parked o att now t :
  o_state o = AOS.BACKOFF \/ o_state o = AOS.OBSERVING ->
  wait_next_action_at (o_wait o) = Some t ->
  read_state o att now =
    (if o_observe_count o =? 0 then State.BACKOFF else State.OBSERVING, None, Some (to_utc t)).
Proof.
  intros Hs Hn. unfold read_state, retry_scheduled. rewrite Hn.
  destruct Hs as [-> | ->]; simpl; by destruct (o_observe_count o =? 0).
Qed.

Lemma read_state_word o att now w st :
  o_state o = w ->
  (w, st) ∈ [("queued", State.QUEUED); ("needs-operator", State.NEEDS_OPERATOR);
             ("succeeded", State.SUCCEEDED); ("failed", State.FAILED);
             ("cancelled", State.CANCELLED)] ->
  read_state o att now = (st, None, None).
Proof.
  intros Hs Hin. unfold read_state. rewrite Hs.
  repeat (apply elem_of_cons in Hin as [Hin|Hin]; [by injection Hin as -> ->|]).
  by apply elem_of_nil in Hin.
Qed.

Lemma read_state_running o att now :
  o_state o = "running" -> fst (fst (read_state o att now)) = State.RUNNING.
Proof. intros Hs. unfold read_state. by rewrite Hs. Qed.

Lemma applied_stored_as s after now s' :
  applied s after now s' -> state after <> State.SUPERSEDED -> stored_as now s' after.
Proof.
  intros A Hns att now'. left.
  destruct (lifecycle_reads s' att now') as (Hst & Hnext & _ & Hobs).
  pose proof (ap_state _ _ _ _ A) as Es. pose proof (ap_count _ _ _ _ A) as Ec.
  pose proof (ap_next _ _ _ _ A) as En. pose proof (ap_attempt _ _ _ _ A) as Ea.
  unfold seen, read_back. unfold _stored in Es, En. rewrite Ea, Hst, Hobs, Ec.
  destruct (state after) eqn:Eafter; try done; cbn [fst snd] in *;
    try destruct (o_current_attempt (db_operation s) =? 0) eqn:Ez; cbn [fst snd] in *.
  all: simpl in Ec, En.
  all: match goal with
  | H : o_state _ = AOS.BACKOFF |- _ =>
      rewrite (read_state_parked _ _ _ _ (or_introl H) En), Ec in Hnext |- *
  | H : o_state _ = AOS.OBSERVING |- _ =>
      rewrite (read_state_parked _ _ _ _ (or_intror H) En), Ec in Hnext |- *
  | H : o_state _ = "running" |- _ => rewrite (read_state_running _ _ _ H)
  | H : o_state _ = ?w |- _ =>
      erewrite (read_state_word _ _ _ w _ H) in Hnext |- * by (apply list_elem_of_In; simpl; tauto)
  end.
  all: cbn [fst snd] in *; rewrite ?Hnext; try done.
  all: by destruct (observe_count after =? 0).
Qed.

Lemma parked_words w :
  mem w AOS.PARKED = true -> w = AOS.OBSERVING \/ w = AOS.NEEDS_OPERATOR \/ w = AOS.BACKOFF.
Proof.
  intros H%mem_true%list_elem_of_In. vm_compute in H.
  destruct H as [<-|[<-|[<-|[]]]]; vm_compute; auto.
Qed.

(** An observed order has been looked at. *)
Lemma read_state_observing o att now :
  fst (fst (read_state o att now)) = State.OBSERVING -> o_observe_count o <> 0.
Proof.
  intros H Hz. destruct (mem (o_state o) AOS.PARKED) eqn:Hp.
  - destruct (wait_next_action_at (o_wait o)) as [t|] eqn:Ht.
    + apply parked_words in Hp as [E|[E|E]].
      * by rewrite (read_state_parked o att now t (or_intror E) Ht), Hz in H.
      * rewrite (read_state_word o att now AOS.NEEDS_OPERATOR State.NEEDS_OPERATOR E) in H; [done|].
        apply list_elem_of_In; simpl; tauto.
      * by rewrite (read_state_parked o att now t (or_introl E) Ht), Hz in H.
    + revert H. unfold read_state, retry_scheduled. rewrite Ht. by repeat case_match.
  - revert H. unfold read_state. rewrite Hp. by repeat case_match.
Qed.

(** An order's own reading is a row the core may decide. *)
Lemma lifecycle_counted s att now :
  order_ok s -> counted (lifecycle s att now) /\ state (lifecycle s att now) <> State.SUPERSEDED /\
    id (lifecycle s att now) = o_id (db_operation s).
Proof.
  intros [_ _ Hn _]. destruct (lifecycle_reads s att now) as (Hst & _ & _ & Hc).
  split_and!.
  - split; [by rewrite Hc|]. rewrite Hst, Hc. intros H%read_state_observing. lia.
  - rewrite Hst. unfold read_state. by repeat case_match.
  - unfold lifecycle. destruct (read_state _ _ _) as [[? ?] ?]. by destruct (order_cancel s now).
Qed.

Lemma read_state_stable o att now att' now' :
  fst (fst (read_state o att now)) <> State.RUNNING ->
  read_state o att' now' = read_state o att now.
Proof. unfold read_state. by repeat case_match. Qed.

Lemma read_stored_as s att now : stored_as now s (lifecycle s att now).
Proof.
  intros att' now'. right. destruct (lifecycle_reads s att now) as (Hst & Hn & _ & Hc).
  destruct (lifecycle_reads s att' now') as (Hst' & Hn' & _ & Hc').
  pose proof (read_state_stable (db_operation s) att now att' now') as Hstab.
  unfold seen. rewrite Hst', Hn', Hc', Hst, Hn, Hc.
  destruct (decide (fst (fst (read_state (db_operation s) att now)) = State.RUNNING)) as [Hr|Hr].
  - rewrite Hr. assert (fst (fst (read_state (db_operation s) att' now')) = State.RUNNING) as ->; [|done].
    revert Hr. unfold read_state. by repeat case_match.
  - by rewrite Hstab.
Qed.

Lemma transition_not_superseded r ev a now d :
  transition r ev a now = Ok d -> state r <> State.SUPERSEDED -> state (row d) <> State.SUPERSEDED.
Proof. intros H Hs. run_core H; congruence. Qed.

(** ** Settling an order *)

(** The same rows up to the order's text. *)
Definition same_rows (s s' : Session) : Prop :=
  exists why, s' = set_operation (set_status_reason why (db_operation s)) s.

Lemma same_rows_refl s : same_rows s s.
Proof. exists (o_status_reason (db_operation s)). by destruct s as [[] ? ? ?]. Qed.

Lemma same_rows_ok s s' : same_rows s s' -> order_ok s -> order_ok s'.
Proof. intros [why ->] []. by constructor. Qed.

Lemma same_rows_stored s s' now r : same_rows s s' -> stored_as now s r -> stored_as now s' r.
Proof.
  intros [why ->] H att now'. destruct (lifecycle_reads s att now') as (Hs & Hn & _ & Hc).
  set (s1 := set_operation (set_status_reason why (db_operation s)) s).
  destruct (lifecycle_reads s1 att now') as (Hs' & Hn' & _ & Hc').
  assert (read_state (db_operation s1) att now' = read_state (db_operation s) att now') as Hr by done.
  unfold reads_as. assert (seen (lifecycle s1 att now') = seen (lifecycle s att now')) as ->.
  { unfold seen. rewrite Hs', Hn', Hc', Hr, Hs, Hn, Hc. done. }
  exact (H att now').
Qed.

Section settling.
Context (clock_ : datetime) (candidates : option (Session -> string -> datetime -> list string)).
Let adapter := AgentOperationAdapter clock_ candidates.

Lemma run_commands_order cs r : forall p n s,
  exists s' ans n', run_commands cs r adapter residue_order p n s = (s', ans, n') /\ same_rows s s' /\
    (ans = p \/ exists c, c ∈ cs /\ mem c [Observe; Stop] = true).
Proof.
  induction cs as [|c cs IH]; intros p n s; cbn [run_commands].
  { do 3 eexists. split; [reflexivity|]. split; [apply same_rows_refl|by left]. }
  assert (exists s1 a, _run c r adapter residue_order s = (s1, a) /\ same_rows s s1 /\
            (a = None \/ mem c [Observe; Stop] = true)) as (s1 & a & -> & Hs1 & Ha).
  { destruct c; simpl.
    1-3: do 2 eexists; (split; [reflexivity|]); split; [apply same_rows_refl|]; auto.
    do 2 eexists; (split; [reflexivity|]). split; [by eexists|by left]. }
  destruct (IH (or_else a p) (n + 1) s1) as (s' & ans & n' & -> & Hs' & Hans).
  do 3 eexists. split; [reflexivity|]. split.
  - destruct Hs1 as [w1 ->], Hs' as [w2 ->]. by exists w2.
  - destruct Hans as [->|(c' & ? & ?)]; [|right; exists c'; split; [by right|done]].
    destruct Ha as [->|Hc]; [by left|]. right. exists c. split; [left|done].
Qed.

(** What every settle keeps of the rows it does not decide. *)
Record same_order_rows (s s' : Session) : Prop := {
  so_id : o_id (db_operation s') = o_id (db_operation s);
  so_kind : o_kind (db_operation s') = o_kind (db_operation s);
  so_attempt : o_current_attempt (db_operation s') = o_current_attempt (db_operation s);
  so_parent_id : o_parent_job_id (db_operation s') = o_parent_job_id (db_operation s);
  so_parent : db_parent s' = db_parent s;
}.

(** The event is no observation of a row that is not observed. *)
Definition answered (r : Lifecycle) (p : option Event) : Prop :=
  counted r /\ (forall ev, p = Some ev -> is_observed ev = true -> state r = State.OBSERVING).

Lemma settle_loop_order which now steps : forall r p n_changed n_ran s,
  order_ok s -> 0 <= observe_count r -> state r <> State.SUPERSEDED -> id r = o_id (db_operation s) ->
  stored_as now s r ->
  exists s' st,
    settle_loop steps r p adapter (to_utc now) (save_order which now) residue_order n_changed n_ran s
      = (s', Ok st) /\
    order_ok s' /\ stored_as now s' (settled_row st) /\ same_order_rows s s' /\
    (answered r p -> counted (settled_row st)).
Proof.
  induction steps as [|steps IH]; intros r p n_changed n_ran s Hok Hc Hns Hid Hst;
    cbn [settle_loop].
  { do 2 eexists. split; [reflexivity|]. split_and!; try done; by intros []. }
  destruct p as [ev|]; [|do 2 eexists; split; [reflexivity|]; split_and!; try done; by intros []].
  assert (id r <> EmptyString) as Hne.
  { destruct Hok as [Hi _ _ _]. rewrite Hid. intros He. by rewrite He in Hi. }
  destruct (transition_ok r ev (reads adapter s) (to_utc now) Hne) as [d Hd]. rewrite Hd.
  pose proof (transition_count _ _ _ _ _ Hc Hd) as Hc'.
  assert (answered r (Some ev) -> counted (row d) /\ asks d) as Hasks.
  { intros [Hk Hp]. by eapply transition_counted; [exact Hk|apply Hp|]. }
  pose proof (transition_not_superseded _ _ _ _ _ Hd Hns) as Hns'.
  pose proof (frame_id _ _ (transition_frame _ _ _ _ _ Hd)) as Hid'.
  assert (forall s1 n, order_ok s1 -> stored_as now s1 (row d) -> same_order_rows s s1 ->
    exists s' st,
      (let '(w'', answer, n_ran') := run_commands (commands d) (row d) adapter residue_order None n_ran s1 in
       settle_loop steps (row d) answer adapter (to_utc now) (save_order which now) residue_order n n_ran' w'')
      = (s', Ok st) /\ order_ok s' /\ stored_as now s' (settled_row st) /\ same_order_rows s s' /\
      (answered r (Some ev) -> counted (settled_row st))) as Hnext.
  { intros s1 n Hok1 Hst1 [? ? ? ? ?].
    destruct (run_commands_order (commands d) (row d) None n_ran s1) as (s2 & ans & n' & -> & Hs2 & Hans).
    pose proof Hs2 as [why Hwhy].
    destruct (IH (row d) ans n n' s2) as (s' & st & He & Hok' & Hst' & [? ? ? ? ?] & Hcd).
    - by eapply same_rows_ok.
    - done.
    - done.
    - rewrite Hwhy. simpl. congruence.
    - by eapply same_rows_stored.
    - exists s', st. split; [exact He|]. split_and!; [done..| |].
      + rewrite Hwhy in *. simpl in *. constructor; congruence.
      + intros Ha. apply Hcd. destruct (Hasks Ha) as [Hk Has]. split; [done|].
        intros ev' -> _. destruct Hans as [?|(c & Hin & Hm)]; [done|].
        unfold asks in Has. rewrite Forall_forall in Has. by eapply Has. }
  case_bool_decide as Hrow.
  - rewrite Hrow in *. apply Hnext; [done..|by constructor].
  - unfold save_order at 1.
    destruct (apply_spec s which r (row d) now Hok Hc') as (s1 & ch & -> & A).
    apply Hnext; [apply A|by eapply applied_stored_as|]. destruct A. by constructor.
Qed.
End settling.

Lemma set_recovery_ok s d :
  order_ok s -> order_ok (set_operation (set_recovery_deadline d (db_operation s)) s).
Proof. intros []. by constructor. Qed.

Section theorems.
Context (clock_ : datetime) (candidates : option (Session -> string -> datetime -> list string)).

Lemma settle_order_ok s which ev now :
  order_ok s ->
  exists s' r, settle_order clock_ candidates s which ev now = (s', Ok r) /\
    order_ok s' /\ stored_as now s' r /\ same_order_rows s s' /\
    (is_observed ev = false -> counted r).
Proof.
  intros Hok. unfold settle_order.
  set (att := n ← settled_attempt s which; attempt_numbered s n).
  set (s1 := set_operation _ s). assert (order_ok s1) as Hok1 by by apply set_recovery_ok.
  destruct (lifecycle_counted s1 att now Hok1) as (Hc & Hns & Hid).
  destruct (settle_loop_order clock_ candidates (settled_attempt s which) now MAX_STEPS_PER_ROW
              (lifecycle s1 att now) (Some ev) 0 0 s1) as (s' & st & He & Hok' & Hst & Hrows & Hcd);
    [done|apply Hc|done..|apply read_stored_as|].
  unfold settle. rewrite He. cbn [mbind result_bind]. exists s', (settled_row st).
  split_and!; try done; [destruct Hrows; by constructor|].
  intros Ho. apply Hcd. split; [done|]. intros ev' [= <-] ?. congruence.
Qed.

(** C2.  Whatever event is decided for a Spark order, an observation included, deciding it
    returns, and every later read of the stored order, with whatever attempt and at
    whatever time, sees exactly the [read_back] of the row the core settled (or that row
    itself, where nothing was written): the same state, clock and observation count, except
    that a wait of a never-issued order is a queued order with no clock, that any other
    queued order is a retry that is due, and that an observation counted zero times is a
    retry.  The clock of a running order is its attempt's lease and is not part of this.
    The rows stay well formed, so the next decision can be made from them. *)
Theorem settle_order_stores s which ev now :
  order_ok s ->
  exists s' r, settle_order clock_ candidates s which ev now = (s', Ok r) /\
    order_ok s' /\ stored_as now s' r /\ same_order_rows s s'.
Proof. intros Hok. destruct (settle_order_ok s which ev now Hok) as (s' & r & ? & ? & ? & ? & _). eauto 6. Qed.

(** ** Claims *)

(** The core's own test of a claim. *)
Definition claimable (r : Lifecycle) (now : instant) : bool :=
  (same (state r) State.QUEUED
   || (same (state r) State.BACKOFF
       && match next_action_at r with None => true | Some t => t <=? now end))
  && negb (cancel_requested r).

Lemma claimed_state r a now fence_ lease_ d :
  deadline_reader a = None ->
  transition r (Claimed (attempt r + 1) fence_ lease_) a now = Ok d ->
  state (row d) = if claimable r now then State.RUNNING else state r.
Proof.
  intros Hn. unfold transition, deadline_passed, adapter_deadline. rewrite Hn. cbn [andb _stale dispatch].
  unfold terminal, claimable, _claimed.
  rewrite (proj2 (Z.leb_gt (attempt r + 1) (attempt r))) by lia. rewrite orb_false_r.
  destruct (mem (state r) TERMINAL_STATES) eqn:Et.
  { intros [= <-]. cbn [row]. revert Et. by destruct (state r). }
  set (c := same (state r) State.QUEUED || _).
  destruct c, (cancel_requested r); cbn [negb orb andb]; by intros [= <-].
Qed.

Definition past_recovery (s : Session) (now : datetime) : bool :=
  match recovery_deadline_of s now with Some d => d <=? to_utc now | None => false end.

Lemma start_attempt_cases s serial fence_ deadline now progress :
  order_ok s ->
  let r := adopt s now in
  exists s' res, start_attempt clock_ candidates s serial fence_ deadline now progress = (s', Ok res) /\
    if negb (past_recovery s now) && (same (state r) State.RUNNING || claimable r (to_utc now)) then
      exists a, res = Some a /\ s' = add_attempt (db_operation s') a s /\
        a_attempt a = o_current_attempt (db_operation s) + 1 /\ a_fence a = fence_ /\
        a_lease_deadline a = deadline /\ a_state a = "running" /\
        o_state (db_operation s') = "running" /\
        o_current_attempt (db_operation s') = o_current_attempt (db_operation s) + 1 /\
        wait_next_action_at (o_wait (db_operation s')) = None
    else res = None /\ (past_recovery s now = false -> s' = s).
Proof.
  intros Hok r. unfold start_attempt. fold (past_recovery s now).
  destruct (past_recovery s now) eqn:Hpast; cbn [negb andb].
  { destruct (settle_order_ok s (a_attempt <$> attempt_of s) Tick now Hok)
      as (s' & r' & -> & _). by do 2 eexists. }
  destruct (lifecycle_counted s (attempt_of s) now Hok) as (_ & _ & Hid).
  fold (adopt s now) in Hid |- *. fold r in Hid |- *.
  destruct (transition_ok r (Claimed (attempt r + 1) fence_ (to_utc deadline))
              (reads (AgentOperationAdapter clock_ candidates) s) (to_utc now)) as [d Hd].
  { rewrite Hid. destruct Hok as [Hi _ _ _]. intros He. by rewrite He in Hi. }
  rewrite Hd. apply claimed_state in Hd; [|done]. rewrite Hd.
  destruct (claimable r (to_utc now)); cbn [orb]; [rewrite orb_true_r|rewrite orb_false_r].
  - cbn [negb]. do 2 eexists. split; [reflexivity|]. eexists. by split_and!.
  - destruct (same (state r) State.RUNNING); cbn [negb]; do 2 eexists; (split; [reflexivity|]).
    + eexists. by split_and!.
    + done.
Qed.

(** A claim is granted exactly when the core grants it: inside its recovery deadline,
    a queued order or a retry that is due whose parent asked for no cancel gets the next
    attempt, fence and lease and becomes running; every other order is refused, and inside
    its deadline nothing is written.  A running order is the exception: the guard reads the
    decided state, not the decision, so it would be given a second attempt (the one caller
    returns before it). *)
Theorem start_attempt_grants s serial fence_ deadline now progress :
  order_ok s ->
  let r := adopt s now in
  exists s' res, start_attempt clock_ candidates s serial fence_ deadline now progress = (s', Ok res) /\
    if negb (past_recovery s now) && (same (state r) State.RUNNING || claimable r (to_utc now)) then
      exists a, res = Some a /\ s' = add_attempt (db_operation s') a s /\
        a_attempt a = o_current_attempt (db_operation s) + 1 /\ a_fence a = fence_ /\
        a_lease_deadline a = deadline /\ a_state a = "running" /\
        o_state (db_operation s') = "running" /\
        o_current_attempt (db_operation s') = o_current_attempt (db_operation s) + 1 /\
        wait_next_action_at (o_wait (db_operation s')) = None
    else res = None /\ (past_recovery s now = false -> s' = s).
Proof. apply start_attempt_cases. Qed.

End theorems.

(** *** A job run whose lease lapsed *)
Definition example_payload : OrderPayload := {|
  pay_start_deadline := None; pay_run_id := None;
  pay_job_run := Some {| output_delivery_only := false; job_timeout_seconds := Some 60;
                         stop_timeout_seconds := 10 |} |}.

Definition example_attempt : AgentOperationAttempt := {|
  a_attempt := 1; a_fence := "fence-1"; a_lease_deadline := Aware (seconds 10);
  a_certificate_serial := "serial"; a_state := "running"; a_observation_cause := None;
  a_progress := None; a_result := None |}.

Definition example_order : StoredOperation := {|
  o_id := "op-1"; o_parent_job_id := "job-1"; o_node_id := "node"; o_kind := "recipe.job.run.v1";
  o_payload := example_payload; o_workload_intent_ordinal := None; o_state := "running";
  o_status_reason := None; o_current_attempt := 1; o_observe_count := 0;
  o_recovery_deadline := None; o_retry_due_at := None; o_updated_at := None;
  o_wait := WaitColumns NoEvidence None |}.

Definition example_job : Job := {|
  j_id := "job-1"; j_kind := "recipe.job.run.v1"; j_state := "running";
  j_owner_kind := Some "artifact-job"; j_stop_parent := None; j_result := None;
  j_status_reason := None; j_updated_at := None |}.

Definition example_session : Session := {|
  db_operation := example_order; db_attempts := [example_attempt];
  db_parent := Some example_job; db_spark := {| live := false; ended_at := None |} |}.

Lemma example_session_ok : order_ok example_session.
Proof. constructor; [vm_compute; reflexivity..|simpl; lia|repeat constructor]. Qed.

Lemma settle_order_stores_witness :
  exists s' r,
    settle_order (Aware 0) None example_session None (LeaseLapsed None) (Aware (seconds 20)) = (s', Ok r) /\
    order_ok s' /\ stored_as (Aware (seconds 20)) s' r /\ same_order_rows example_session s'.
Proof. apply settle_order_stores, example_session_ok. Defined.

Lemma start_attempt_grants_witness :
  exists s' res,
    start_attempt (Aware 0) None example_session "serial" "fence-2" (Aware (seconds 99))
      (Aware (seconds 20)) None = (s', Ok res) /\
    exists a, res = Some a /\ s' = add_attempt (db_operation s') a example_session /\
      a_attempt a = 2 /\ a_fence a = "fence-2" /\ a_lease_deadline a = Aware (seconds 99) /\
      a_state a = "running" /\ o_state (db_operation s') = "running" /\
      o_current_attempt (db_operation s') = 2 /\
      wait_next_action_at (o_wait (db_operation s')) = None.
Proof.
  exact (start_attempt_grants (Aware 0) None example_session "serial" "fence-2"
           (Aware (seconds 99)) (Aware (seconds 20)) None example_session_ok).
Defined.


(** ** The retry fence *)
Lemma stalled_delay_table n :
  3 <= n -> stalled_delay n = if n <=? 7 then 30 * 2 ^ (n - 3) else 600.
Proof.
  intros Hn. unfold stalled_delay, STALLED_RETRY_BASE_SECONDS, STALLED_INTERRUPTION_LIMIT,
    STALLED_RETRY_MAX_SECONDS.
  destruct (n <=? 7) eqn:E; bools.
  - assert (n = 3 \/ n = 4 \/ n = 5 \/ n = 6 \/ n = 7) as H by lia.
    destruct H as [->|[->|[->|[->| ->]]]]; reflexivity.
  - apply Z.min_r. assert (2 ^ 5 <= 2 ^ (n - 3)) by (apply Z.pow_le_mono_r; lia). lia.
Qed.

(** What holds a retry back is bounded and earned: an agent upgrade waits out its
    package fence; any other order waits only once its three newest attempts were all
    interrupted without new bytes, for 30 seconds doubling with every further such
    attempt up to ten minutes; an order that moves bytes between interruptions, or was
    issued fewer than three times, is never slowed. *)
Theorem retry_fence_earned s r now :
  retry_not_before_of s r now =
    if bool_decide (kind r = value AgentOperation.AGENT_UPGRADE) then Some (now + seconds 960)
    else
      let n := match get_operation s (id r) with
               | Some o => stalled_interruptions o (db_attempts s)
               | None => 0
               end in
      if (3 <=? attempt r) && (3 <=? n) then
        Some (now + seconds (if n <=? 7 then 30 * 2 ^ (n - 3) else 600))
      else None.
Proof.
  unfold retry_not_before_of, STALLED_INTERRUPTION_LIMIT. case_match; [done|].
  rewrite (Z.ltb_antisym 3 (attempt r)). destruct (3 <=? attempt r); [|done]. cbn [negb andb].
  set (n := match get_operation s (id r) with Some _ => _ | None => _ end).
  destruct (3 <=? n) eqn:E; [|done]. bools. by rewrite stalled_delay_table by lia.
Qed.

(** ** The recovery window *)

(** The recovery deadline of an order in doubt is no fixed cap: while its Spark is away
    every decision moves the stored deadline a whole budget past now. *)
Theorem recovery_window_restarts s att ev now d :
  o_recovery_deadline (db_operation s) = Some d -> is_job_run (db_operation s) = false ->
  live (db_spark s) = true ->
  exists t, settled_deadline s att ev now = Some (Aware t) /\
    to_utc now + AGENT_ORDER_RECOVERY_BUDGET <= t.
Proof.
  intros Hd Hj Hl. unfold settled_deadline. rewrite Hd. case_match.
  { eexists. split; [reflexivity|]. unfold stall_deadline. lia. }
  unfold recovery_deadline_of.
  pose proof (order_recovery_deadline_spec (db_operation s) (attempt_of s) (db_spark s) now) as Hspec.
  rewrite Hd in Hspec. destruct Hspec as (t & -> & _ & _ & Ht). exists t. split; [done|].
  rewrite Hj in Ht. by destruct (Ht eq_refl) as [? _]; auto.
Qed.

Lemma recovery_window_restarts_witness :
  exists t, settled_deadline {|
      db_operation := {|
        o_id := "op-1"; o_parent_job_id := "job-1"; o_node_id := "node"; o_kind := "recipe.start";
        o_payload := example_payload; o_workload_intent_ordinal := None; o_state := "observing";
        o_status_reason := None; o_current_attempt := 1; o_observe_count := 1;
        o_recovery_deadline := Some (Aware (seconds 100)); o_retry_due_at := None;
        o_updated_at := None; o_wait := WaitColumns NoEvidence None |};
      db_attempts := []; db_parent := None; db_spark := {| live := true; ended_at := None |} |}
    None Tick (Aware (seconds 5000)) = Some (Aware t) /\ seconds 8600 <= t.
Proof. by eapply recovery_window_restarts. Defined.

(** ** The parent of a batch *)
Definition ended_or_waiting (c : string * bool) : bool :=
  mem (fst c) AGGREGATE_FINAL_STATES || mem (fst c) AOS.PARKED.

Definition is_word (w : string) (c : string * bool) : bool := bool_decide (fst c = w).

(** The state of a parent follows from its orders alone.  It is queued again exactly
    when no cancel was asked and every order succeeded or waits for its own retry; it
    fails exactly when an order failed and no order is still queued or executing; it
    succeeds exactly when every order did; with no failure and every order at rest it
    waits for a person if one of them does and is otherwise cancelled if one of them was.
    In every other case, and with no order at all, it is left alone. *)
Theorem aggregate_parent_spec orders cancel :
  let cs := aggregate_child <$> orders in
  let rest := (bool_decide (cs <> []) && forallb (fun c => mem (fst c) AGGREGATE_FINAL_STATES) cs
               && negb (existsb (is_word "failed") cs))%bool in
  aggregate_parent_state orders cancel =
    if negb cancel && existsb is_retrying cs
       && forallb (fun c => is_word "succeeded" c || is_retrying c) cs then Some "queued"
    else if existsb (is_word "failed") cs && forallb ended_or_waiting cs then Some "failed"
    else if rest && forallb (is_word "succeeded") cs then Some "succeeded"
    else if rest && existsb (is_word "needs-operator") cs then Some "needs-operator"
    else if rest && existsb (is_word "cancelled") cs then Some "cancelled"
    else None.
Proof.
  intros cs rest. unfold aggregate_parent_state. fold cs. subst rest. unfold is_word.
  set (q := negb cancel && existsb is_retrying cs && _).
  replace (existsb is_retrying cs && _ && negb cancel) with q
    by (unfold q; by destruct cancel, (existsb is_retrying cs); rewrite ?andb_true_r, ?andb_false_r).
  destruct q; [done|].
  destruct (existsb (fun c => bool_decide (fst c = "failed")) cs) eqn:Hf; cbn [andb].
  - cbn [negb]. rewrite andb_false_r. cbn [andb].
    change (forallb _ cs) with (forallb ended_or_waiting cs) at 1.
    destruct (forallb ended_or_waiting cs) eqn:Ha; [done|].
    destruct (bool_decide (cs = []) || _) eqn:Hn; [done|]. bools. exfalso.
    apply not_true_iff_false in Ha. apply Ha, forallb_elem. intros c Hc. unfold ended_or_waiting.
    destruct (mem (fst c) AGGREGATE_FINAL_STATES) eqn:Em; [done|].
    match goal with H : existsb _ cs = false |- _ => apply not_true_iff_false in H; destruct H end.
    apply existsb_elem. exists c. by rewrite Em.
  - cbn [negb]. rewrite andb_true_r.
    assert (existsb (fun c => negb (mem (fst c) AGGREGATE_FINAL_STATES)) cs =
            negb (forallb (fun c => mem (fst c) AGGREGATE_FINAL_STATES) cs)) as ->.
    { clear. induction cs as [|c cs IH]; simpl; [done|]. rewrite IH. by destruct (mem _ _). }
    destruct (forallb (fun c => mem _ _) cs) eqn:Hfin; cbn [negb orb andb];
      [|by rewrite orb_true_r, !andb_false_r].
    rewrite orb_false_r, andb_true_r. case_bool_decide as He.
    { rewrite bool_decide_eq_false_2 by naive_solver. done. }
    rewrite bool_decide_eq_true_2 by done. cbn [andb].
    rewrite forallb_elem in Hfin.
    destruct (forallb (fun c => bool_decide (fst c = "succeeded")) cs) eqn:Hs.
    + assert (forall w, w <> "succeeded" -> existsb (fun c => bool_decide (fst c = w)) cs = false) as Hw.
      { intros w Hw. apply not_true_iff_false. intros (c & Hc & Hcw)%existsb_elem. bools.
        rewrite forallb_elem in Hs. specialize (Hs c Hc). bools. congruence. }
      by rewrite !Hw.
    + change AOS.NEEDS_OPERATOR with "needs-operator"%string. repeat case_match; try done.
      exfalso. apply not_true_iff_false in Hs. apply Hs, forallb_elem.
      intros [w' b] Hc. specialize (Hfin _ Hc). cbn [fst] in *. apply mem_true, list_elem_of_In in Hfin.
      assert (forall w, existsb (fun c => bool_decide (fst c = w)) cs = false -> w' <> w) as Hw.
      { intros w Hw Heq. apply not_true_iff_false in Hw. apply Hw, existsb_elem. exists (w', b).
        by rewrite bool_decide_eq_true_2. }
      vm_compute in Hfin. apply bool_decide_eq_true_2.
      destruct Hfin as [Hx|[Hx|[Hx|[Hx|[]]]]]; symmetry in Hx; try done; exfalso;
        (eapply Hw; [|exact Hx]; assumption).
Qed.
