(* ===== verification/ProgressStall.v ===== *)
(** * The wait of one operation, and whether it moves

    The stall record of [control/src/vonk_control/operation_blockers.py] and the
    stall decision of [progress_stall.py].  Of the stored progress documents
    ([FleetProfileChildProgress], [FleetProfileApplicationProgress]) only the fields
    the decision reads are kept. *)
From S2P Require Import Prelude Vocabulary Sha256 Json StallWindow Blockers.

(** The phases a profile load's child reports ([child_phases.py]: the words of the
    two phase enums of [agent_words.py]). *)
Module FleetProfileChildPhase.
Inductive FleetProfileChildPhase :=
  MODEL_DOWNLOAD | CONTAINER_DOWNLOAD | CONTAINER_BUILD | TARGET_COPY | RUNTIME_INSTALL
  | START | FINAL_VERIFY | TRANSFER | VERIFY | PREPARE | CLEANUP | STOP | UNINSTALL
  | FINAL_VERIFY_REPORTED.
Definition FleetProfileChildPhase_value (e : FleetProfileChildPhase) : string :=
  match e with
  | MODEL_DOWNLOAD => "model-download"
  | CONTAINER_DOWNLOAD => "container-download"
  | CONTAINER_BUILD => "container-build"
  | TARGET_COPY => "target-copy"
  | RUNTIME_INSTALL => "runtime-install"
  | START => "start"
  | FINAL_VERIFY => "final-verify"
  | TRANSFER => "transfer"
  | VERIFY => "verify"
  | PREPARE => "prepare"
  | CLEANUP => "cleanup"
  | STOP => "stop"
  | UNINSTALL => "uninstall"
  | FINAL_VERIFY_REPORTED => "final_verify"
  end.
#[global] Instance FleetProfileChildPhase_eq : EqDecision FleetProfileChildPhase.
Proof. solve_decision. Defined.
#[global] Instance FleetProfileChildPhase_enum : WireEnum FleetProfileChildPhase.
Proof.
  refine {| members :=
    [MODEL_DOWNLOAD; CONTAINER_DOWNLOAD; CONTAINER_BUILD; TARGET_COPY; RUNTIME_INSTALL; START;
     FINAL_VERIFY; TRANSFER; VERIFY; PREPARE; CLEANUP; STOP; UNINSTALL;
     FINAL_VERIFY_REPORTED];
    value := FleetProfileChildPhase_value |}; solve_wire_enum.
Defined.
End FleetProfileChildPhase.
Abbreviation FleetProfileChildPhase := FleetProfileChildPhase.FleetProfileChildPhase.

(** ** Progress and the stall record *)
Record FleetProfileChildProgress := {
  operation : option OperationProgress;
  phase : FleetProfileChildPhase;
  bytes : option Z;
  retry_attempt : option Z;
}.

Record FleetProfileApplicationProgress := {
  attempt : Z;
  admission_pending : bool;
  admission_attempt : Z;
  preparation_progressed_at : option datetime;
  completed_steps : Z;
  child_progress : option FleetProfileChildProgress;
  blockers : list OperationBlocker;
}.

Record StallMark := {
  mark_phase : FleetProfileChildPhase;
  child_bytes : Z;
  checkpoint_key : option string;
  key_attempt : option Z;
  operation_bytes : Z;
  operation_items : Z;
  activity : Z;
  operation_phases : list string;
}.

Record StallWait := {
  wait_code : string;
  wait_nodes : list string;
}.
#[global] Instance StallWait_eq : EqDecision StallWait.
Proof. solve_decision. Defined.

Record ProgressStall := {
  signature : string;
  stall_detail : string;
  first_seen_at : datetime;
  last_seen_at : datetime;
  repeats : Z;
  marks : list StallMark;
  waits : list StallWait;
  stall_prepared_at : option datetime;
}.

(** [PROFILE_STALL_WINDOW_SECONDS] as a [timedelta]. *)
Definition PROGRESS_STALL_WINDOW : Z := seconds 1800.

Definition WAITING_STATES : list string :=
  [value LifecycleState.QUEUED; value LifecycleState.RUNNING; value LifecycleState.BACKOFF].

Definition _retry_attempt (p : FleetProfileApplicationProgress) : Z * Z * option Z :=
  (attempt p, admission_attempt p,
   match child_progress p with None => None | Some c => retry_attempt c end).

Definition wait_key (b : OperationBlocker) : key := (code b, sorted (node_ids b)).

Definition not_alarm (b : OperationBlocker) : bool :=
  negb (bool_decide (code b = value ProgressAlarmCode.STALLED)).

Definition _waits (p : FleetProfileApplicationProgress) (waiting : list OperationBlocker)
  : list OperationBlocker :=
  let causes := List.filter not_alarm (blockers p) in
  let seen := wait_key <$> causes in
  (causes ++ List.filter (fun b => not_alarm b && negb (mem (wait_key b) seen)) waiting)%list.

(** ** The place of a wait *)

Record place := Place {
  place_state : string;
  place_step : option Z;
  place_operation : option string;
  place_completed : Z;
  place_admission : bool;
}.

(** [json.dumps(place, sort_keys=True, default=str)] *)
Definition place_text (p : place) : string :=
  "[" +:+ json_string (place_state p) +:+ ", " +:+ json_opt json_int (place_step p) +:+ ", "
      +:+ json_opt json_string (place_operation p) +:+ ", " +:+ json_int (place_completed p)
      +:+ ", " +:+ json_bool (place_admission p) +:+ "]".

Definition progress_signature (p : FleetProfileApplicationProgress) (state : string)
    (current_step : option Z) (current_operation_id : option string) : string :=
  Sha256.hexdigest
    (place_text (Place state current_step current_operation_id (completed_steps p)
                   (admission_pending p))).

(** ** Movement *)

(** [dict] of marks by phase, in insertion order. *)
Fixpoint put (m : StallMark) (l : list StallMark) : list StallMark :=
  match l with
  | [] => [m]
  | x :: rest => if decide (mark_phase x = mark_phase m) then m :: rest else x :: put m rest
  end.
Definition marks_of (l : list StallMark) : list StallMark :=
  fold_left (fun acc m => put m acc) l [].
Definition get (ph : FleetProfileChildPhase) (l : list StallMark) : option StallMark :=
  find (fun m => bool_decide (mark_phase m = ph)) l.

Definition new_mark (ph : FleetProfileChildPhase) : StallMark := {|
  mark_phase := ph; child_bytes := 0; checkpoint_key := None; key_attempt := None;
  operation_bytes := 0; operation_items := 0; activity := 0; operation_phases := [] |}.

Definition sample_key (c : FleetProfileChildProgress) : option string :=
  match operation c with None => None | Some o => checkpoint o end.

(** The mark the sample is measured against: a new key under the attempt that
    first showed the old one starts the operation's counters over. *)
Definition rebased (base : StallMark) (c : FleetProfileChildProgress) : StallMark :=
  match sample_key c with
  | None => base
  | Some k =>
      if bool_decide (Some k = checkpoint_key base) then base
      else
        let over := bool_decide (checkpoint_key base <> None)
                    && bool_decide (key_attempt base = retry_attempt c) in
        {| mark_phase := mark_phase base; child_bytes := child_bytes base;
           checkpoint_key := Some k; key_attempt := retry_attempt c;
           operation_bytes := if over then 0 else operation_bytes base;
           operation_items := if over then 0 else operation_items base;
           activity := if over then 0 else activity base;
           operation_phases := operation_phases base |}
  end.

(** What the sample reached: child bytes, operation bytes, items and activity. *)
Definition reached (c : FleetProfileChildProgress) : Z * Z * Z * Z :=
  (default 0 (bytes c),
   match operation c with None => 0 | Some o => completed_bytes o end,
   match operation c with None => 0 | Some o => default 0 (completed_items o) end,
   match operation c with None => 0 | Some o => default 0 (activity_sequence o) end).

Definition raise_to (reached_ mark : Z) : Z := if mark <? reached_ then reached_ else mark.

Definition seen_phases (base : StallMark) (c : FleetProfileChildProgress) : list string :=
  match operation c with
  | Some o => if mem (op_phase o) (operation_phases base) then operation_phases base
              else (operation_phases base ++ [op_phase o])%list
  | None => operation_phases base
  end.

Definition _advance (previous : list StallMark) (p : FleetProfileApplicationProgress)
  : list StallMark * bool :=
  match child_progress p with
  | None => (previous, false)
  | Some c =>
      let marks_ := marks_of previous in
      let old := get (phase c) marks_ in
      let base := rebased (default (new_mark (phase c)) old) c in
      let '(rb, ro, ri, ra) := reached c in
      let raised := (child_bytes base <? rb) || (operation_bytes base <? ro)
                    || (operation_items base <? ri) || (activity base <? ra) in
      let phases := seen_phases base c in
      let m := {| mark_phase := mark_phase base; child_bytes := raise_to rb (child_bytes base);
                  checkpoint_key := checkpoint_key base; key_attempt := key_attempt base;
                  operation_bytes := raise_to ro (operation_bytes base);
                  operation_items := raise_to ri (operation_items base);
                  activity := raise_to ra (activity base); operation_phases := phases |} in
      (put m marks_,
       bool_decide (old = None) || raised
       || Nat.ltb (length (operation_phases base)) (length phases))
  end.

Definition stall_wait_key (w : StallWait) : key := (wait_code w, wait_nodes w).

Fixpoint add_waits (seen : list StallWait) (l : list OperationBlocker) : list StallWait :=
  match l with
  | [] => seen
  | b :: rest =>
      if mem (wait_key b) (stall_wait_key <$> seen) then add_waits seen rest
      else add_waits (seen ++ [{| wait_code := code b; wait_nodes := sorted (node_ids b) |}])%list
             rest
  end.

Definition _seen_waits (previous : list StallWait) (ws : list OperationBlocker)
  : list StallWait * bool :=
  let seen := add_waits previous ws in (seen, Nat.ltb (length previous) (length seen)).

Definition _latest (first second : option datetime) : option datetime :=
  Aware <$> max_list (known [first; second]).

Definition next_stall (previous : option ProgressStall) (p : FleetProfileApplicationProgress)
    (before : option FleetProfileApplicationProgress) (state : string) (current_step : option Z)
    (current_operation_id : option string) (observed_at : datetime)
    (waiting : list OperationBlocker) : option ProgressStall :=
  let ws := _waits p waiting in
  match ws with
  | [] => None
  | w0 :: _ =>
      if negb (mem state WAITING_STATES) then None
      else
        let seen_at := Aware (to_utc observed_at) in
        let sig := progress_signature p state current_step current_operation_id in
        let det := str_take 512 (code w0 +:+ ": " +:+ detail w0) in
        let fresh :=
          {| signature := sig; stall_detail := det; first_seen_at := seen_at;
             last_seen_at := seen_at; repeats := 1; marks := fst (_advance [] p);
             waits := fst (_seen_waits [] ws);
             stall_prepared_at := _latest None (preparation_progressed_at p) |} in
        match previous with
        | None => Some fresh
        | Some prev =>
            if negb (bool_decide (signature prev = sig)) then Some fresh
            else
              let '(marks_, advanced) := _advance (marks prev) p in
              let '(seen, new_wait) := _seen_waits (waits prev) ws in
              let prepared := _latest (stall_prepared_at prev) (preparation_progressed_at p) in
              if advanced || new_wait
                 || negb (bool_decide (prepared = _latest None (stall_prepared_at prev)))
              then
                Some {| signature := signature prev; stall_detail := det; first_seen_at := seen_at;
                        last_seen_at := seen_at; repeats := 1; marks := marks_; waits := seen;
                        stall_prepared_at := prepared |}
              else
                let again :=
                  match before with
                  | None => false
                  | Some b => negb (bool_decide (_retry_attempt b = _retry_attempt p))
                  end && (to_utc (last_seen_at prev) <? to_utc observed_at) in
                Some {| signature := signature prev; stall_detail := stall_detail prev;
                        first_seen_at := first_seen_at prev;
                        last_seen_at := if again then seen_at else last_seen_at prev;
                        repeats := if again then repeats prev + 1 else repeats prev;
                        marks := marks_; waits := seen;
                        stall_prepared_at := stall_prepared_at prev |}
        end
  end.

Definition is_stalled (stall : option ProgressStall) (now : datetime) : bool :=
  match stall with
  | None => false
  | Some s => same (progress_verdict (first_seen_at s) None PROGRESS_STALL_WINDOW now [])
                Verdict.STALLED
  end.
