(* ===== verification/ProgressStallFacts.v ===== *)
(** * Only forward movement restarts a stall window

    Facts about the stall decision of [ProgressStall]: its marks only rise, what
    it has seen once never counts as movement again, and what it keeps is
    bounded by the closed vocabularies. *)
From stdpp Require Import sorting.
From S2P Require Import Prelude Vocabulary Sha256 Json StallWindow Blockers ProgressStall.

(** ** Marks by phase *)
Definition phases_of (l : list StallMark) : list FleetProfileChildPhase := mark_phase <$> l.

Lemma get_Some ph l m : get ph l = Some m -> m ∈ l /\ mark_phase m = ph.
Proof.
  intros H. apply List.find_some in H as [Hin Hp]. apply list_elem_of_In in Hin. bools. done.
Qed.

Lemma get_None ph l : get ph l = None <-> ph ∉ phases_of l.
Proof.
  unfold get, phases_of. induction l as [|x l IH]; simpl; [split; [set_solver|done]|].
  case_bool_decide as E; [|].
  - split; [done|]. intros H. destruct H. rewrite <- E. left.
  - rewrite IH. rewrite not_elem_of_cons. naive_solver.
Qed.

Lemma get_put m l ph :
  get ph (put m l) = if decide (mark_phase m = ph) then Some m else get ph l.
Proof.
  unfold get. induction l as [|x l IH]; simpl.
  - case_bool_decide; by case_decide.
  - destruct (decide (mark_phase x = mark_phase m)) as [E|E]; simpl.
    + repeat case_bool_decide; case_decide; congruence.
    + rewrite IH. case_bool_decide; case_decide; congruence.
Qed.

Lemma put_phases m l ph : ph ∈ phases_of (put m l) <-> ph = mark_phase m \/ ph ∈ phases_of l.
Proof.
  destruct (get ph (put m l)) as [x|] eqn:E.
  - pose proof (proj1 (get_None ph (put m l))) as H. pose proof E as E'.
    rewrite get_put in E. case_decide as D.
    + split; [by left|]. intros _. apply dec_stable. intros Hn%get_None. congruence.
    + assert (ph ∈ phases_of l) by (apply dec_stable; intros Hn%get_None; congruence).
      split; [by right|]. intros _. apply dec_stable. intros Hn%get_None. congruence.
  - split; [intros Hin; apply get_None in E; done|].
    rewrite get_put in E. case_decide; [done|]. apply get_None in E. intros [->|?]; done.
Qed.

Lemma put_nodup m l : NoDup (phases_of l) -> NoDup (phases_of (put m l)).
Proof.
  unfold phases_of. induction l as [|x l IH]; simpl; intros H; [apply NoDup_singleton|].
  apply NoDup_cons in H as [Hx Hl]. destruct (decide (mark_phase x = mark_phase m)) as [E|E]; simpl.
  - rewrite <- E. by apply NoDup_cons.
  - apply NoDup_cons. split; [|by apply IH]. intros Hin.
    apply (put_phases m l (mark_phase x)) in Hin as [?|?]; done.
Qed.

Lemma put_app m l : mark_phase m ∉ phases_of l -> put m l = (l ++ [m])%list.
Proof.
  unfold phases_of. induction l as [|x l IH]; simpl; intros H; [done|].
  apply not_elem_of_cons in H as [H1 H2]. rewrite decide_False by done. by rewrite IH.
Qed.

Lemma marks_of_nodup l : NoDup (phases_of l) -> marks_of l = l.
Proof.
  unfold marks_of. intros H. change l with ([] ++ l)%list at 2. 
  assert (forall acc, NoDup (phases_of (acc ++ l)) ->
            fold_left (fun acc m => put m acc) l acc = (acc ++ l)%list) as Hf; [|by apply Hf].
  clear H. induction l as [|x l IH]; intros acc H; simpl; [by rewrite app_nil_r|].
  rewrite put_app.
  - rewrite IH; [by rewrite <- (assoc (++))|]. by rewrite <- (assoc (++)).
  - unfold phases_of in *. rewrite fmap_app in H. apply NoDup_app in H as (_ & H & _).
    intros Hin. apply (H _ Hin). left.
Qed.

Lemma marks_of_fold_nodup l : NoDup (phases_of (marks_of l)).
Proof.
  unfold marks_of. assert (forall acc, NoDup (phases_of acc) ->
    NoDup (phases_of (fold_left (fun acc m => put m acc) l acc))) as H; [|apply H; constructor].
  induction l as [|x l IH]; intros acc Ha; simpl; [done|]. apply IH. by apply put_nodup.
Qed.

Lemma advance_nodup l p :
  NoDup (phases_of l) -> NoDup (phases_of (fst (_advance l p))).
Proof.
  intros H. unfold _advance. destruct (child_progress p) as [c|]; [|done].
  destruct (reached c) as [[[rb ro] ri] ra]. simpl. apply put_nodup, marks_of_fold_nodup.
Qed.

(** ** Marks only rise within one checkpoint key *)
Definition within (k : string) (o : option string) : Prop := o = None \/ o = Some k.

Record mark_le (m m' : StallMark) : Prop := {
  le_phase : mark_phase m' = mark_phase m;
  le_child : child_bytes m <= child_bytes m';
  le_bytes : operation_bytes m <= operation_bytes m';
  le_items : operation_items m <= operation_items m';
  le_activity : activity m <= activity m';
  le_phases : operation_phases m ⊆ operation_phases m';
}.

#[global] Instance mark_le_preorder : PreOrder mark_le.
Proof.
  split; [by constructor|]. intros m1 m2 m3 [] []. constructor; [congruence|lia..|set_solver].
Qed.

(** The mark already covers everything the sample reached. *)
Record covers (m : StallMark) (c : FleetProfileChildProgress) : Prop := {
  cov_child : default 0 (bytes c) <= child_bytes m;
  cov_op : forall o, operation c = Some o ->
    completed_bytes o <= operation_bytes m /\
    default 0 (completed_items o) <= operation_items m /\
    default 0 (activity_sequence o) <= activity m /\ op_phase o ∈ operation_phases m;
  cov_base : 0 <= operation_bytes m /\ 0 <= operation_items m /\ 0 <= activity m;
}.

Lemma covers_mono m m' c : mark_le m m' -> covers m c -> covers m' c.
Proof.
  intros [] [Hc Ho Hb]. constructor; [lia| |lia].
  intros o H. destruct (Ho o H) as (? & ? & ? & ?). split_and!; [lia..|set_solver].
Qed.

Definition counters_nonneg (m : StallMark) : Prop :=
  0 <= operation_bytes m /\ 0 <= operation_items m /\ 0 <= activity m.

(** Within one key nothing is started over. *)
Lemma rebased_within k m c :
  within k (checkpoint_key m) -> within k (sample_key c) ->
  within k (checkpoint_key (rebased m c)) /\ mark_le m (rebased m c) /\ mark_le (rebased m c) m.
Proof.
  intros Hm Hc. unfold rebased. destruct (sample_key c) as [k'|]; [|done].
  case_bool_decide as E; [done|].
  destruct Hc as [?|[= ->]]; [done|]. destruct Hm as [Hm|Hm]; [|by rewrite Hm in E].
  rewrite Hm. simpl. split; [by right|]. split; by constructor; simpl.
Qed.

Lemma raise_to_spec v m : m <= raise_to v m /\ v <= raise_to v m.
Proof. unfold raise_to. case_match; lia. Qed.

(** One advance of the mark of the sample's own phase. *)
Definition advanced_mark (base : StallMark) (c : FleetProfileChildProgress) : StallMark :=
  let '(rb, ro, ri, ra) := reached c in
  {| mark_phase := mark_phase base; child_bytes := raise_to rb (child_bytes base);
     checkpoint_key := checkpoint_key base; key_attempt := key_attempt base;
     operation_bytes := raise_to ro (operation_bytes base);
     operation_items := raise_to ri (operation_items base);
     activity := raise_to ra (activity base); operation_phases := seen_phases base c |}.

Lemma advanced_mark_spec base c :
  counters_nonneg base ->
  mark_le base (advanced_mark base c) /\ covers (advanced_mark base c) c /\
  counters_nonneg (advanced_mark base c).
Proof.
  intros (H1 & H2 & H3). unfold advanced_mark, counters_nonneg, reached. simpl.
  set (ro := match operation c with Some _ => _ | None => _ end).
  pose proof (raise_to_spec (default 0 (bytes c)) (child_bytes base)).
  pose proof (raise_to_spec ro (operation_bytes base)).
  set (ri := match operation c with Some _ => _ | None => _ end).
  pose proof (raise_to_spec ri (operation_items base)).
  set (ra := match operation c with Some _ => _ | None => _ end).
  pose proof (raise_to_spec ra (activity base)).
  split_and!; try lia.
  - constructor; simpl; [done|lia..|]. unfold seen_phases. repeat case_match; set_solver.
  - constructor; simpl; [lia| |lia]. intros o Ho. subst ro ri ra. unfold seen_phases.
    rewrite Ho in *. split_and!; try lia. case_match eqn:E; bools; set_solver.
Qed.

Lemma seen_phases_covered base c :
  (forall o, operation c = Some o -> op_phase o ∈ operation_phases base) ->
  seen_phases base c = operation_phases base.
Proof.
  intros H. unfold seen_phases. destruct (operation c) as [o|]; [|done].
  by rewrite (proj2 (mem_true _ _) (H o eq_refl)).
Qed.

(** A covered sample moves nothing. *)
Lemma advance_covered k l p c m :
  NoDup (phases_of l) -> child_progress p = Some c -> get (phase c) l = Some m ->
  within k (checkpoint_key m) -> within k (sample_key c) -> covers m c ->
  snd (_advance l p) = false.
Proof.
  intros Hnd Hc Hg Hm Hs Hcov. unfold _advance. rewrite Hc, marks_of_nodup, Hg by done. simpl.
  destruct (rebased_within k m c Hm Hs) as (_ & Hle & _).
  destruct (covers_mono _ _ _ Hle Hcov) as [H1 H2 (H3 & H4 & H5)].
  destruct (reached c) as [[[rb ro] ri] ra] eqn:Hr. simpl. unfold reached in Hr.
  rewrite seen_phases_covered by (intros o Ho; apply H2 in Ho; tauto).
  rewrite Nat.ltb_irrefl. destruct (operation c) as [o|] eqn:Eo; simplify_eq/=.
  - destruct (H2 o eq_refl) as (? & ? & ? & _). lia.
  - lia.
Qed.

(** What one observation does to the marks, within one checkpoint key. *)
Record marks_ok (k : string) (l : list StallMark) : Prop := {
  ok_nodup : NoDup (phases_of l);
  ok_keys ph m : get ph l = Some m -> within k (checkpoint_key m) /\ counters_nonneg m;
}.

(** The sample's own mark after the observation; the others are kept. *)
Definition raised_mark (l : list StallMark) (c : FleetProfileChildProgress) : StallMark :=
  advanced_mark (rebased (default (new_mark (phase c)) (get (phase c) l)) c) c.

Lemma advance_marks l p c :
  NoDup (phases_of l) -> child_progress p = Some c ->
  fst (_advance l p) = put (raised_mark l c) l.
Proof.
  intros Hnd Hc. unfold _advance, raised_mark, advanced_mark. rewrite Hc, marks_of_nodup by done.
  by destruct (reached c) as [[[rb ro] ri] ra].
Qed.

Lemma raised_mark_spec k l c :
  marks_ok k l -> within k (sample_key c) ->
  let m' := raised_mark l c in
  mark_phase m' = phase c /\ within k (checkpoint_key m') /\ counters_nonneg m' /\ covers m' c /\
  forall m, get (phase c) l = Some m -> mark_le m m'.
Proof.
  intros [Hnd Hk] Hw. unfold raised_mark. set (old := default _ (get (phase c) l)).
  assert (mark_phase old = phase c /\ within k (checkpoint_key old) /\ counters_nonneg old)
    as (Hph & Hkey & Hnn).
  { subst old. destruct (get (phase c) l) as [m|] eqn:Hg; simpl.
    - split; [by apply get_Some in Hg as [_ ?]|by apply (Hk (phase c))].
    - split; [done|]. split; [by left|]. unfold counters_nonneg; simpl; lia. }
  destruct (rebased_within k old c Hkey Hw) as (Hkey' & Hle & _).
  assert (counters_nonneg (rebased old c)) as Hnn'.
  { destruct Hle, Hnn as (?&?&?). unfold counters_nonneg. lia. }
  destruct (advanced_mark_spec (rebased old c) c Hnn') as (Hle2 & Hcov & Hnn2).
  split; [by rewrite (le_phase _ _ Hle2), (le_phase _ _ Hle)|].
  split; [|split; [done|]; split; [done|]].
  - unfold advanced_mark. destruct (reached c) as [[[? ?] ?] ?]. exact Hkey'.
  - intros m Hg. subst old. rewrite Hg in *. simpl in *. by transitivity (rebased m c).
Qed.

Lemma advance_step k l p :
  marks_ok k l -> (forall c, child_progress p = Some c -> within k (sample_key c)) ->
  marks_ok k (fst (_advance l p)) /\
  (forall ph m, get ph l = Some m -> exists m', get ph (fst (_advance l p)) = Some m' /\ mark_le m m') /\
  (forall c, child_progress p = Some c ->
     exists m, get (phase c) (fst (_advance l p)) = Some m /\ covers m c).
Proof.
  intros Hok Hw. destruct (child_progress p) as [c|] eqn:Hc.
  - destruct (raised_mark_spec k l c Hok (Hw c eq_refl)) as (Hph & Hkey & Hnn & Hcov & Hle).
    rewrite (advance_marks l p c (ok_nodup _ _ Hok) Hc). split_and!.
    + split; [apply put_nodup, Hok|]. intros ph m. rewrite get_put.
      case_decide; [by intros [= <-]|apply Hok].
    + intros ph m Hg. rewrite get_put, Hph. case_decide; [subst ph; eauto|].
      exists m. split; [done|reflexivity].
    + intros ? [= <-]. rewrite get_put, Hph, decide_True by done. eauto.
  - unfold _advance. rewrite Hc. simpl. split_and!; [done| |done]. intros ph m Hg. exists m. split; [done|reflexivity].
Qed.

(** ** Waits seen *)
Definition wait_keys (l : list StallWait) : list key := stall_wait_key <$> l.

Lemma add_waits_spec l : forall seen,
  seen `prefix_of` add_waits seen l /\
  (NoDup (wait_keys seen) -> NoDup (wait_keys (add_waits seen l))) /\
  forall b, b ∈ l -> wait_key b ∈ wait_keys (add_waits seen l).
Proof.
  induction l as [|b l IH]; intros seen; simpl.
  - split_and!; [done|done|]. by intros b ?%elem_of_nil.
  - case_match eqn:E; bools.
    + destruct (IH seen) as (Hp & Hn & Hi). split_and!; [done|done|].
      intros b' [->|Hb]%elem_of_cons; [|by apply Hi]. destruct Hp as [t Ht].
      rewrite Ht. unfold wait_keys. rewrite fmap_app. apply elem_of_app. by left.
    + set (w := {| wait_code := _; wait_nodes := _ |}).
      destruct (IH (seen ++ [w])%list) as (Hp & Hn & Hi).
      assert (seen `prefix_of` (seen ++ [w])) by (by exists [w]).
      split_and!; [by transitivity (seen ++ [w])%list| |].
      * intros Hs. apply Hn. unfold wait_keys. rewrite fmap_app. apply NoDup_app.
        split_and!; [done| |apply NoDup_singleton].
        intros x Hx Hin%list_elem_of_singleton. by subst x.
      * intros b' [->|Hb]%elem_of_cons; [|by apply Hi]. destruct Hp as [t Ht]. rewrite Ht.
        unfold wait_keys. rewrite !fmap_app, !elem_of_app. left; right. left.
Qed.

(** A wait seen before adds nothing. *)
Lemma add_waits_seen l seen :
  (forall b, b ∈ l -> wait_key b ∈ wait_keys seen) -> add_waits seen l = seen.
Proof.
  induction l as [|b l IH]; intros H; simpl; [done|].
  assert (mem (wait_key b) (stall_wait_key <$> seen) = true) as ->.
  { apply mem_true. apply (H b). left. }
  apply IH. intros; apply H. by right.
Qed.

(** ** Observations at one place *)
Record observation := {
  o_progress : FleetProfileApplicationProgress;
  o_before : option FleetProfileApplicationProgress;
  o_at : datetime;
  o_waiting : list OperationBlocker;
}.

Section place.
Context (state : string) (step : option Z) (op : option string) (k : string).

Definition observe (s : option ProgressStall) (o : observation) : option ProgressStall :=
  next_stall s (o_progress o) (o_before o) state step op (o_at o) (o_waiting o).

Definition watch (s : option ProgressStall) (os : list observation) : option ProgressStall :=
  fold_left observe os s.

Definition o_waits (o : observation) : list OperationBlocker := _waits (o_progress o) (o_waiting o).

(** The load still waits at the place [sig], within one checkpoint key. *)
Record still_waits (sig : string) (o : observation) : Prop := {
  waits_state : mem state WAITING_STATES = true;
  waits_some : o_waits o <> [];
  waits_place : progress_signature (o_progress o) state step op = sig;
  waits_key c : child_progress (o_progress o) = Some c -> within k (sample_key c);
}.

Definition at_most (a b : option datetime) : Prop :=
  match a, b with
  | None, _ => True
  | Some t, Some u => to_utc t <= to_utc u
  | Some _, None => False
  end.

(** Everything the observation shows, the stall has reached before. *)
Record absorbed (s : ProgressStall) (o : observation) : Prop := {
  abs_child c : child_progress (o_progress o) = Some c ->
    exists m, get (phase c) (marks s) = Some m /\ covers m c;
  abs_waits b : b ∈ o_waits o -> wait_key b ∈ wait_keys (waits s);
  abs_prepared : at_most (preparation_progressed_at (o_progress o)) (stall_prepared_at s);
}.

Lemma latest_None t : _latest None t = (fun u => Aware (to_utc u)) <$> t.
Proof. by destruct t. Qed.

Lemma latest_spec a b :
  at_most a (_latest a b) /\ at_most b (_latest a b) /\
  (at_most b a -> _latest a b = _latest None a) /\
  (_latest a b = _latest None a -> at_most b a).
Proof.
  unfold _latest. destruct a as [t|], b as [u|]; simpl; split_and!; try done; try lia.
  - intros. do 2 f_equal. lia.
  - intros [= ?]. lia.
Qed.

Lemma at_most_trans a b c : at_most a b -> at_most b c -> at_most a c.
Proof. destruct a, b, c; simpl; try done; lia. Qed.

(** What one observation at the place does. *)
Record observed_step (s : ProgressStall) (o : observation) (s' : ProgressStall) : Prop := {
  step_place : signature s' = signature s;
  step_marks : marks s' = fst (_advance (marks s) (o_progress o));
  step_waits : waits s' = add_waits (waits s) (o_waits o);
  step_prepared : at_most (stall_prepared_at s) (stall_prepared_at s') /\
    at_most (preparation_progressed_at (o_progress o)) (stall_prepared_at s');
  step_window : first_seen_at s' = first_seen_at s \/
    first_seen_at s' = Aware (to_utc (o_at o)) /\ ~ absorbed s o;
}.

Lemma observe_step s o :
  marks_ok k (marks s) -> still_waits (signature s) o ->
  exists s', observe (Some s) o = Some s' /\ observed_step s o s'.
Proof.
  intros Hok [Hst Hne Hsig Hkey]. unfold observe, next_stall, o_waits in *.
  destruct (_waits (o_progress o) (o_waiting o)) as [|w0 ws] eqn:Hw; [done|].
  rewrite Hst, Hsig, bool_decide_eq_true_2 by done. cbn [negb].
  destruct (_advance (marks s) (o_progress o)) as [marks_ adv] eqn:Ha.
  destruct (_seen_waits (waits s) (w0 :: ws)) as [seen nw] eqn:Hs.
  destruct (latest_spec (stall_prepared_at s) (preparation_progressed_at (o_progress o))) as (L1 & L2 & L3 & L4).
  assert (seen = add_waits (waits s) (w0 :: ws) /\
          nw = Nat.ltb (length (waits s)) (length seen)) as [Hseen Hnw]
    by (unfold _seen_waits in Hs; by simplify_eq).
  destruct (adv || nw || _) eqn:Hmove.
  - eexists. split; [reflexivity|]. constructor; simpl; rewrite ?Ha; try done.
    + unfold o_waits. by rewrite Hw.
    + right. split; [done|]. intros [Hc Hwt Hp]. unfold o_waits in Hwt. rewrite Hw in Hwt.
      rewrite (add_waits_seen _ _ Hwt) in Hseen. rewrite Hseen, Nat.ltb_irrefl in Hnw.
      rewrite (L3 Hp), bool_decide_eq_true_2 in Hmove by done. subst nw. rewrite !orb_false_r in Hmove.
      subst adv.
      destruct (child_progress (o_progress o)) as [c|] eqn:Ec.
      * destruct (Hc c eq_refl) as (m & Hg & Hcov).
        pose proof (advance_covered k (marks s) (o_progress o) c m (ok_nodup _ _ Hok) Ec Hg
                      (proj1 (ok_keys _ _ Hok _ _ Hg)) (Hkey c eq_refl) Hcov) as Hadv.
        by rewrite Ha in Hadv.
      * unfold _advance in Ha. rewrite Ec in Ha. by simplify_eq.
  - bools. eexists. split; [reflexivity|]. constructor; simpl; rewrite ?Ha; try done.
    + unfold o_waits. by rewrite Hw.
    + split; [by destruct (stall_prepared_at s); simpl|]. by apply L4.
    + by left.
Qed.
Lemma step_keeps s o s' :
  marks_ok k (marks s) -> still_waits (signature s) o -> observed_step s o s' ->
  marks_ok k (marks s') /\ absorbed s' o /\ forall o2, absorbed s o2 -> absorbed s' o2.
Proof.
  intros Hok Hw [Hpl Hm Hwt [Hp1 Hp2] _].
  destruct (advance_step k (marks s) (o_progress o) Hok (waits_key _ _ Hw)) as (Hok' & Hup & Hcov).
  destruct (add_waits_spec (o_waits o) (waits s)) as ([t Ht] & _ & Hin).
  rewrite <- Hm in *. rewrite <- Hwt in *. split; [done|]. split.
  - by constructor.
  - intros o2 [Hc2 Hw2 Hp3]. constructor.
    + intros c Hc. destruct (Hc2 c Hc) as (m & Hg & Hcv). destruct (Hup _ _ Hg) as (m' & Hg' & Hle).
      exists m'. split; [done|]. by eapply covers_mono.
    + intros b Hb. rewrite Ht. unfold wait_keys. rewrite fmap_app. apply elem_of_app. left. by apply Hw2.
    + by eapply at_most_trans.
Qed.

Lemma watch_absorbs rest : forall s o,
  marks_ok k (marks s) -> Forall (still_waits (signature s)) rest -> absorbed s o ->
  exists s', watch (Some s) rest = Some s' /\ signature s' = signature s /\
    marks_ok k (marks s') /\ absorbed s' o.
Proof.
  induction rest as [|o1 rest IH]; intros s o Hok Hall Ha; simpl; [by exists s|].
  apply Forall_cons_1 in Hall as [H1 Hall].
  destruct (observe_step s o1 Hok H1) as (s1 & Hs1 & Hstep). rewrite Hs1.
  destruct (step_keeps s o1 s1 Hok H1 Hstep) as (Hok1 & _ & Hkeep).
  rewrite <- (step_place _ _ _ Hstep) in Hall |- *. apply IH; auto.
Qed.

(** [o'] shows nothing beyond what [o] showed: the same child phase with counters
    no higher (a copy retried from zero), waits already among [o]'s, and no later
    preparation.  Times, texts, attempts and due times are free. *)
Record no_further (o o' : observation) : Prop := {
  nf_child c' : child_progress (o_progress o') = Some c' ->
    exists c, child_progress (o_progress o) = Some c /\ phase c' = phase c /\
      default 0 (bytes c') <= default 0 (bytes c) /\
      forall q', operation c' = Some q' -> exists q, operation c = Some q /\
        completed_bytes q' <= completed_bytes q /\
        default 0 (completed_items q') <= default 0 (completed_items q) /\
        default 0 (activity_sequence q') <= default 0 (activity_sequence q) /\
        op_phase q' = op_phase q;
  nf_waits b' : b' ∈ o_waits o' -> exists b, b ∈ o_waits o /\ wait_key b = wait_key b';
  nf_prepared : at_most (preparation_progressed_at (o_progress o'))
                  (preparation_progressed_at (o_progress o));
}.

Lemma no_further_absorbed s o o' : no_further o o' -> absorbed s o -> absorbed s o'.
Proof.
  intros [Nc Nw Np] [Ac Aw Ap]. constructor.
  - intros c' Hc'. destruct (Nc c' Hc') as (c & Hc & Hph & Hb & Hq).
    destruct (Ac c Hc) as (m & Hg & [C1 C2 C3]). exists m. rewrite Hph. split; [done|].
    constructor; [lia| |done]. intros q' Hq'. destruct (Hq q' Hq') as (q & Eq & ? & ? & ? & ->).
    destruct (C2 q Eq) as (? & ? & ? & ?). split_and!; [lia..|done].
  - intros b' Hb'. destruct (Nw b' Hb') as (b & Hb & <-). by apply Aw.
  - by eapply at_most_trans.
Qed.

(** C33.  A recurring symptom is not movement.  At one place and within one checkpoint
    key, once an observation was made, any later observation that shows nothing
    beyond it (a copy retried from zero below its mark, a phase flapped back, a
    wait seen before, a fresh time) leaves the stall window where it was, whatever
    was observed in between. *)
Theorem recurring_symptom_never_moves s o rest o' :
  marks_ok k (marks s) -> Forall (still_waits (signature s)) (o :: rest) ->
  still_waits (signature s) o' -> no_further o o' ->
  exists s1 s2, watch (Some s) (o :: rest) = Some s1 /\ observe (Some s1) o' = Some s2 /\
    first_seen_at s2 = first_seen_at s1.
Proof.
  intros Hok [Ho Hrest]%Forall_cons_1 Ho' Hnf. simpl.
  destruct (observe_step s o Hok Ho) as (s0 & Hs0 & Hstep). rewrite Hs0.
  destruct (step_keeps s o s0 Hok Ho Hstep) as (Hok0 & Ha0 & _).
  rewrite <- (step_place _ _ _ Hstep) in *.
  destruct (watch_absorbs rest s0 o Hok0 Hrest Ha0) as (s1 & Hw & Hsig & Hok1 & Ha1).
  rewrite <- Hsig in Ho'. destruct (observe_step s1 o' Hok1 Ho') as (s2 & Hs2 & [_ _ _ _ Hwin]).
  exists s1, s2. split; [done|]. split; [done|].
  destruct Hwin as [?|[_ Hn]]; [done|]. destruct Hn. by eapply no_further_absorbed.
Qed.
End place.

(** ** The record is bounded *)
Inductive recorded : ProgressStall -> Prop :=
| recorded_first p before st step op at_ waiting s :
    next_stall None p before st step op at_ waiting = Some s -> recorded s
| recorded_next s0 p before st step op at_ waiting s :
    recorded s0 -> next_stall (Some s0) p before st step op at_ waiting = Some s -> recorded s.

Lemma next_stall_kept prev p before st step op at_ waiting s :
  next_stall prev p before st step op at_ waiting = Some s ->
  exists l ws, (l = [] /\ ws = [] \/ exists s0, prev = Some s0 /\ l = marks s0 /\ ws = waits s0) /\
    marks s = fst (_advance l p) /\ waits s = add_waits ws (_waits p waiting).
Proof.
  unfold next_stall, _seen_waits. destruct (_waits p waiting) as [|w0 ws0] eqn:Hw; [done|].
  case_match; [done|]. destruct prev as [s0|]; [case_match|].
  - intros [= <-]. exists [], []. split; [by left|]. done.
  - destruct (_advance (marks s0) p) as [m adv] eqn:Ha.
    case_match; intros [= <-]; exists (marks s0), (waits s0); rewrite Ha; simpl;
      (split; [right; by exists s0|done]).
  - intros [= <-]. exists [], []. split; [by left|]. done.
Qed.

(** What a stall keeps never grows with history: at every recorded stall there is at
    most one mark per word of the closed phase vocabulary, and every wait kept is a
    different one. *)
Theorem stall_record_bounded s :
  recorded s ->
  NoDup (phases_of (marks s)) /\
  (length (marks s) <= length (members (E := FleetProfileChildPhase)))%nat /\
  NoDup (wait_keys (waits s)).
Proof.
  intros H. assert (NoDup (phases_of (marks s)) /\ NoDup (wait_keys (waits s))) as [Hn Hw].
  { induction H as [p b st sp op at_ wt s H|s0 p b st sp op at_ wt s _ [IH1 IH2] H];
      apply next_stall_kept in H as (l & ws & Hl & -> & ->).
    - destruct Hl as [[-> ->]|(s0 & [=] & _)].
      split; [apply advance_nodup; constructor|apply add_waits_spec; constructor].
    - assert (NoDup (phases_of l) /\ NoDup (wait_keys ws)) as [Hl1 Hl2].
      { destruct Hl as [[-> ->]|(s1 & [= <-] & -> & ->)]; [split; constructor|done]. }
      split; [by apply advance_nodup|by apply add_waits_spec]. }
  split; [done|]. split; [|done].
  rewrite <- (length_fmap mark_phase). apply submseteq_length, NoDup_submseteq; [done|].
  intros ph _. apply members_complete.
Qed.

(** ** A stuck copy *)
Definition copying (done_ : Z) (attempt_ : Z) : FleetProfileApplicationProgress := {|
  attempt := 1; admission_pending := false; admission_attempt := 0;
  preparation_progressed_at := None; completed_steps := 2;
  child_progress := Some {| operation := None; phase := FleetProfileChildPhase.TARGET_COPY;
                            bytes := Some done_; retry_attempt := Some attempt_ |};
  blockers := [{| code := "receipt-missing"; detail := "no receipt yet"; severity_of := warning;
                  node_ids := ["spk_b"; "spk_a"]; identity_conflict := None;
                  blocker_operation := None; blocker_storage := None; blocker_swap := None;
                  blocker_run_id := None |}] |}.

Definition copy_at (t done_ attempt_ : Z) : observation := {|
  o_progress := copying done_ attempt_; o_before := None; o_at := Aware t; o_waiting := [] |}.

(** The stall an interrupted copy starts with. *)
Definition stuck : ProgressStall := {|
  signature := progress_signature (copying 0 2) "running" (Some 1) None;
  stall_detail := "receipt-missing: no receipt yet"; first_seen_at := Aware 0;
  last_seen_at := Aware 0; repeats := 1; marks := []; waits := []; stall_prepared_at := None |}.

Lemma recurring_symptom_never_moves_witness :
  exists s1 s2,
    watch "running" (Some 1) None (Some stuck) [copy_at 10 900 2; copy_at 20 100 3] = Some s1 /\
    observe "running" (Some 1) None (Some s1) (copy_at 30 500 3) = Some s2 /\
    first_seen_at s2 = first_seen_at s1.
Proof.
  assert (forall t n k, still_waits "running" (Some 1) None "key" (signature stuck) (copy_at t n k))
    as Hw.
  { intros t n k. constructor; [reflexivity|discriminate|reflexivity|].
    intros c [= <-]. left. reflexivity. }
  apply (recurring_symptom_never_moves "running" (Some 1) None "key").
  - split; [constructor|]. intros ph m H. discriminate.
  - constructor; [apply Hw|]. constructor; [apply Hw|constructor].
  - apply Hw.
  - constructor.
    + intros c [= <-]. eexists. split; [reflexivity|]. simpl.
      split; [reflexivity|]. split; [lia|]. intros q' [=].
    + intros b Hb. exists b. split; [exact Hb|reflexivity].
    + exact I.
Defined.

Lemma stall_record_bounded_witness :
  exists s, next_stall None (copying 10 2) None "running" None None (Aware 5) [] = Some s /\
    (length (marks s) <= 14)%nat.
Proof.
  eexists. split; [vm_compute; reflexivity|].
  match goal with |- (length (marks ?s) <= _)%nat =>
    apply (stall_record_bounded s) end.
  apply (recorded_first (copying 10 2) None "running" None None (Aware 5) []).
  vm_compute. reflexivity.
Defined.

(** ** The signature of a place, and the alarm

    The canonical text of a place determines the place, so two places share a
    signature only through a SHA-256 collision; the alarm follows from the stall
    window. *)

(** The canonical text of a place determines the place: two different places have
    different texts, so their signatures differ unless SHA-256 collides. *)
Theorem place_text_injective p q : place_text p = place_text q <-> p = q.
Proof.
  split; [|by intros ->].
  destruct p as [s1 st1 op1 c1 a1], q as [s2 st2 op2 c2 a2]. unfold place_text. cbn [place_state
    place_step place_operation place_completed place_admission]. intros H.
  apply (inj (String.app "[")) in H. apply json_string_delimited in H as [-> H].
  apply (inj (String.app ", ")) in H.
  apply split_comma in H as [->%json_opt_int_inj H]; [|apply json_opt_int_numeric..].
  apply json_opt_string_delimited in H as [-> H]. apply (inj (String.app ", ")) in H.
  apply split_comma in H as [H1 H]; [|apply numeric_no_comma, json_int_numeric..].
  apply (inj pretty) in H1 as ->. by destruct a1, a2.
Qed.

(** ** The alarm *)

(** A load is shown stalled exactly when its wait last moved at least a whole stall
    window (half an hour) ago. *)
Theorem is_stalled_iff s now :
  is_stalled (Some s) now = true <-> to_utc (first_seen_at s) + seconds 1800 <= to_utc now.
Proof.
  unfold is_stalled, progress_verdict, progress_deadline, stall_deadline, PROGRESS_STALL_WINDOW.
  simpl. destruct (Z.leb_spec (to_utc (first_seen_at s) + seconds 1800) (to_utc now)); simpl.
  - done.
  - split; [done|lia].
Qed.
