(* ===== verification/Swap.v ===== *)
(** * Spark swap size

    [agent_protocol/src/vonk_agent_protocol/swap.py]: the policy's constants, the
    swap a load may fill before the host memory guard acts, and the smallest
    setting that holds a load. *)
From S2P Require Import Prelude.

Definition GIB : Z := 1024 ^ 3.

Record SwapPolicy := {
  minimum_gib : Z;
  default_gib : Z;
  maximum_gib : Z;
  tolerance_mib : Z;
  release_headroom_gib : Z;
  exhausted_free_floor_gib : Z;
  exhausted_free_percent : Z;
  filling_used_percent : Z;
}.

Definition SWAP_POLICY : SwapPolicy := {|
  minimum_gib := 16; default_gib := 64; maximum_gib := 128; tolerance_mib := 512;
  release_headroom_gib := 16; exhausted_free_floor_gib := 2; exhausted_free_percent := 10;
  filling_used_percent := 90 |}.

Definition SWAP_SIZE_DETAIL : string :=
  "Swap size must be a whole number of GiB from " +:+ pretty (minimum_gib SWAP_POLICY) +:+
  " to " +:+ pretty (maximum_gib SWAP_POLICY).

(** [MAX_RUN_GENERATION] of [wire_model.py]. *)
Definition MAX_RUN_GENERATION : Z := 2 ^ 63 - 1.

Record SwapIntent := {
  generation : Z;
  size_gib : Z;
}.

(** The validated constructor: the policy's range, then the field bounds. *)
Definition make_intent (generation_ size : Z) : result SwapIntent :=
  if (size <? minimum_gib SWAP_POLICY) || (maximum_gib SWAP_POLICY <? size) then
    Raise (ValueError SWAP_SIZE_DETAIL)
  else if (generation_ <? 0) || (MAX_RUN_GENERATION <? generation_) then
    Raise (ValueError "generation")
  else Ok {| generation := generation_; size_gib := size |}.

Definition default_swap (generation_ : Z) : result SwapIntent :=
  make_intent generation_ (default_gib SWAP_POLICY).

Definition swap_reaches (total_bytes size_bytes : Z) : bool :=
  size_bytes <=? total_bytes + tolerance_mib SWAP_POLICY * 1024 ^ 2.

Definition swap_satisfied (total_bytes : Z) (desired : SwapIntent) : bool :=
  swap_reaches total_bytes (size_gib desired * GIB).

Definition usable_swap_bytes (total_bytes : Z) : Z :=
  let kept_free :=
    Z.max (exhausted_free_floor_gib SWAP_POLICY * GIB)
      (total_bytes / 100 * exhausted_free_percent SWAP_POLICY) in
  Z.max 0
    (Z.min (total_bytes - kept_free) (total_bytes / 100 * filling_used_percent SWAP_POLICY)).

(** [-(-a // b)]: the quotient rounded up. *)
Definition ceil_div (a b : Z) : Z := - (- a / b).

(** The search loop of [swap_needed_bytes]; [fuel] bounds its steps. *)
Fixpoint swap_search (fuel : nat) (load_bytes size : Z) : Z :=
  match fuel with
  | O => size
  | S fuel' =>
      if usable_swap_bytes (size * GIB) <? load_bytes
      then swap_search fuel' load_bytes (size + 1) else size
  end.

(** Steps that always suffice: twice the load plus three GiB holds it. *)
Definition search_fuel (load_bytes : Z) : nat := Z.to_nat (ceil_div load_bytes GIB + 3).

Definition swap_needed_bytes (load_bytes : Z) : Z :=
  if load_bytes <=? 0 then 0
  else swap_search (search_fuel load_bytes) load_bytes (ceil_div load_bytes GIB) * GIB.

(** ** Facts *)
Lemma ceil_div_spec a b : 0 < b -> (ceil_div a b - 1) * b < a <= ceil_div a b * b.
Proof.
  intros Hb. unfold ceil_div. pose proof (Z.mod_pos_bound (- a) b Hb).
  pose proof (Z.div_mod (- a) b). nia.
Qed.

Lemma GIB_val : GIB = 1073741824.
Proof. reflexivity. Qed.

Lemma usable_bounds t :
  0 <= t -> 0 <= usable_swap_bytes t <= t /\
  Z.min (t - 2 * GIB) (t * 9 / 10 - 100) <= usable_swap_bytes t.
Proof.
  intros Ht. unfold usable_swap_bytes. simpl. rewrite GIB_val.
  pose proof (Z.div_mod t 100). pose proof (Z.mod_pos_bound t 100).
  pose proof (Z.div_mod (t * 9) 10). pose proof (Z.mod_pos_bound (t * 9) 10). lia.
Qed.

(** A larger whole-GiB setting never holds less. *)
Lemma usable_mono s s' :
  0 <= s <= s' -> usable_swap_bytes (s * GIB) <= usable_swap_bytes (s' * GIB).
Proof.
  intros Hs. unfold usable_swap_bytes. simpl. rewrite GIB_val.
  pose proof (Z.div_mod (s * 1073741824) 100). pose proof (Z.mod_pos_bound (s * 1073741824) 100).
  pose proof (Z.div_mod (s' * 1073741824) 100). pose proof (Z.mod_pos_bound (s' * 1073741824) 100).
  destruct (Z.eq_dec s s') as [->|]; lia.
Qed.

Lemma swap_search_spec fuel load : forall s,
  (exists n, (n <= fuel)%nat /\ load <= usable_swap_bytes ((s + Z.of_nat n) * GIB)) ->
  let r := swap_search fuel load s in
  s <= r /\ load <= usable_swap_bytes (r * GIB) /\
  forall q, s <= q < r -> usable_swap_bytes (q * GIB) < load.
Proof.
  induction fuel as [|fuel IH]; intros s (n & Hn & Hload); simpl.
  { assert (n = 0%nat) as -> by lia. rewrite Z.add_0_r in Hload. split_and!; [lia|done|lia]. }
  destruct (usable_swap_bytes (s * GIB) <? load) eqn:E; bools; [|split_and!; [lia|done|lia]].
  destruct n as [|n]; [rewrite Z.add_0_r in Hload; lia|].
  destruct (IH (s + 1)) as (H1 & H2 & H3).
  { exists n. split; [lia|]. by replace (s + 1 + Z.of_nat n) with (s + Z.of_nat (S n)) by lia. }
  split_and!; [lia|done|]. intros q Hq. destruct (Z.eq_dec q s) as [->|]; [done|]. apply H3. lia.
Qed.

Lemma search_enough load c :
  0 < load -> load <= c * GIB ->
  load <= usable_swap_bytes ((c + Z.of_nat (Z.to_nat (c + 3))) * GIB).
Proof.
  rewrite GIB_val. intros Hl Hc. rewrite Z2Nat.id by lia. set (t := (c + (c + 3)) * 1073741824).
  pose proof (usable_bounds t) as Hb. rewrite GIB_val in Hb.
  pose proof (Z.div_mod (t * 9) 10). pose proof (Z.mod_pos_bound (t * 9) 10). lia.
Qed.

Lemma swap_needed_spec load :
  0 < load ->
  exists s, swap_needed_bytes load = s * GIB /\ 0 < s /\
    load <= usable_swap_bytes (s * GIB) /\
    (forall q, 0 <= q -> load <= usable_swap_bytes (q * GIB) <-> s <= q).
Proof.
  intros Hl. unfold swap_needed_bytes. rewrite (proj2 (Z.leb_gt load 0)) by lia.
  assert (0 < GIB) as Hg by (rewrite GIB_val; lia).
  pose proof (ceil_div_spec load GIB Hg) as Hc. set (c := ceil_div load GIB) in *.
  destruct (swap_search_spec (search_fuel load) load c) as (H1 & H2 & H3).
  { exists (search_fuel load). split; [done|]. apply search_enough; lia. }
  set (s := swap_search _ _ _) in *. exists s. split; [done|].
  assert (0 < s) as Hs by nia. split; [done|]. split; [done|].
  intros q Hq. split; [|intros Hsq; etransitivity; [exact H2|]; apply usable_mono; lia].
  intros Hle. destruct (Z.le_gt_cases s q) as [|Hlt]; [done|exfalso].
  destruct (Z.le_gt_cases c q) as [Hcq|Hcq]; [specialize (H3 q ltac:(lia)); lia|].
  pose proof (usable_bounds (q * GIB) ltac:(nia)) as [Hb _]. nia.
Qed.

(** The search for a swap setting ends and finds the smallest one: for a positive
    load the result is a whole number of GiB whose usable part holds the load, every
    whole-GiB setting that holds the load is at least as large, and every larger
    setting still holds it. *)
Theorem swap_needed_bytes_smallest load :
  0 < load ->
  exists s, swap_needed_bytes load = s * GIB /\ 0 < s /\
    load <= usable_swap_bytes (s * GIB) /\
    (forall q, 0 <= q -> load <= usable_swap_bytes (q * GIB) <-> s <= q).
Proof. apply swap_needed_spec. Qed.

Lemma swap_needed_bytes_smallest_witness :
  exists s, swap_needed_bytes (40 * GIB) = s * GIB /\ s = 45.
Proof.
  destruct (swap_needed_bytes_smallest (40 * GIB)) as (s & Hs & _); [reflexivity|].
  exists s. split; [exact Hs|].
  assert (swap_needed_bytes (40 * GIB) = 45 * GIB) as E by (vm_compute; reflexivity).
  rewrite E, GIB_val in Hs. lia.
Defined.
