(* ===== verification/ResourceTypes.v ===== *)
(** * Resource planning: types, reasons and memory kinds

    [control/src/vonk_control/resource_planning/types.py], [reasons.py] and
    [memory_kinds.py], with [resource_term_code] of the reason codes.  A Python [int | None] is
    [option Z]; an evidence timestamp is kept as the ISO text the details quote. *)
From S2P Require Import Prelude Vocabulary ReasonCodes Swap Blockers.

(** [ResourcePlanningCode(f"resource.{term.value}_{problem.value}")] *)
Definition resource_term_code (term : ResourceTerm) (problem : ResourceTermProblem)
  : result ResourcePlanningCode :=
  match of_word ("resource." +:+ value term +:+ "_" +:+ value problem) with
  | Some c => Ok c
  | None => Raise (ValueError "not a valid ResourcePlanningCode")
  end.

Inductive EvidenceState := declared | measured | fresh | stale | unknown.
#[global] Instance EvidenceState_eq : EqDecision EvidenceState.
Proof. solve_decision. Defined.

Definition evidence_word (e : EvidenceState) : string :=
  match e with
  | declared => "declared" | measured => "measured" | fresh => "fresh" | stale => "stale"
  | unknown => "unknown"
  end.

Inductive ReasonSeverity := blocker | warning.
#[global] Instance ReasonSeverity_eq : EqDecision ReasonSeverity.
Proof. solve_decision. Defined.

Record ResourceReason := {
  code : string;
  detail : string;
  severity : ReasonSeverity;
  reason_node : option string;
  reason_swap : option SwapShortfallEvidence;
}.
#[global] Instance ResourceReason_eq : EqDecision ResourceReason.
Proof. solve_decision. Defined.

(** Every reason's detail is persisted with a 512-character bound. *)
Definition _reason (code_ detail_ : string) (severity_ : ReasonSeverity) (node : option string)
    (swap_ : option SwapShortfallEvidence) : ResourceReason :=
  {| code := code_; detail := str_take 512 detail_; severity := severity_; reason_node := node;
     reason_swap := swap_ |}.

Definition is_blocker (r : ResourceReason) : bool := same (severity r) blocker.

Definition _same_memory_kind (left right : string) : bool :=
  let both names := mem left names && mem right names in
  both ["unified"; "unified-memory"] || both ["host"; "host-memory"]
  || both ["accelerator"; "gpu-memory"].

(** ** Installation disk *)
Record RecipeDiskResources := {
  working_bytes : Z;
  safety_margin_bytes : Z;
}.

Record InstallationDiskRequirement := {
  disk_required_bytes : Z;
  disk_floor_bytes : Z;
}.

Definition installation_disk_requirement (disk : RecipeDiskResources)
    (required_download_bytes minimum_floor_bytes : Z) : result InstallationDiskRequirement :=
  if (required_download_bytes <? 0) || (minimum_floor_bytes <? 0) then
    Raise (ValueError "installation disk envelope contains negative bytes")
  else
    Ok {| disk_required_bytes := required_download_bytes + working_bytes disk;
          disk_floor_bytes := Z.max minimum_floor_bytes (safety_margin_bytes disk) |}.

(** ** Memory kinds *)
Inductive MemoryKind := unified | host | accelerator.
#[global] Instance MemoryKind_eq : EqDecision MemoryKind.
Proof. solve_decision. Defined.

Definition kind_word (k : MemoryKind) : string :=
  match k with unified => "unified" | host => "host" | accelerator => "accelerator" end.

Inductive MemoryPool := shared | separate.
#[global] Instance MemoryPool_eq : EqDecision MemoryPool.
Proof. solve_decision. Defined.

Definition memory_reservation_kind (k : MemoryKind) : string :=
  match k with
  | unified => "unified-memory" | host => "host-memory" | accelerator => "gpu-memory"
  end.

Definition all_reservation_kinds : list string := ["host-memory"; "gpu-memory"; "unified-memory"].

Definition memory_reservation_kinds (kind : string) (pool : MemoryPool) : result (list string) :=
  if negb (mem kind all_reservation_kinds) then Raise (ValueError "reservation is not memory")
  else if same pool shared then Ok all_reservation_kinds
  else if bool_decide (kind = "unified-memory") then Ok all_reservation_kinds
  else Ok [kind; "unified-memory"].

(** ** Settings, evidence and demand *)
Record ParallelismSettings := {
  world_size : Z;
  tensor : Z;
  pipeline : Z;
  data : Z;
  backend : string;
}.
#[global] Instance ParallelismSettings_eq : EqDecision ParallelismSettings.
Proof. solve_decision. Defined.

Record ResourceEvidence := {
  weights_bytes : option Z;
  runtime_overhead_bytes : option Z;
  baseline_context_tokens : option Z;
  baseline_concurrency : option Z;
  baseline_batch_tokens : option Z;
  context_bytes_per_token : option Z;
  concurrency_bytes_per_request : option Z;
  batch_bytes_per_token : option Z;
  supported_context_tokens : option (Z * Z);
  supported_concurrency : option (Z * Z);
  supported_batch_tokens : option (Z * Z);
  ev_state : EvidenceState;
  ev_digest : option string;
  declared_total_bytes : option Z;
  observed_total_bytes : option Z;
  declared_load_rise_bytes : Z;
  ev_minimum_swap_bytes : Z;
}.

Record ResourceDemand := {
  d_weights_bytes : option Z;
  d_runtime_overhead_bytes : option Z;
  context_bytes : option Z;
  concurrency_bytes : option Z;
  batch_bytes : option Z;
  total_bytes : option Z;
  demand_state : EvidenceState;
  demand_reasons : list ResourceReason;
  load_overshoot_bytes : Z;
  minimum_swap_bytes : Z;
}.

Definition demand_allowed (d : ResourceDemand) : bool :=
  bool_decide (total_bytes d <> None) && negb (existsb is_blocker (demand_reasons d)).

(** ** Reservations and capacity *)
Record UnknownRunMemoryResidual := {
  run_id : string;
  run_generation : Z;
  residual_kind : string;
  maximum_bytes : Z;
}.
#[global] Instance UnknownRunMemoryResidual_eq : EqDecision UnknownRunMemoryResidual.
Proof. solve_decision. Defined.

Record OwnerRef := {
  owner_kind : string;
  owner_id : string;
}.

Record MemoryClaimHolder := {
  owner : OwnerRef;
  amount_bytes : Z;
}.

Record MemoryReservationTotals := {
  committed_bytes_by_kind : gmap string Z;
  unmaterialized_bytes_by_kind : gmap string Z;
  unknown_run_residuals_by_kind : gmap string (list UnknownRunMemoryResidual);
  released_unobserved_bytes_by_kind : gmap string Z;
  kept_bytes_by_kind : gmap string Z;
  unmaterialized_holders_by_kind : gmap string (list MemoryClaimHolder);
  releasing_bytes_by_kind : gmap string Z;
}.

Record SwapHolder := {
  holder_run_id : string;
  holder_held_bytes : Z;
  job_run : bool;
}.

Record SwapCapacity := {
  swap_total_bytes : Z;
  swap_used_bytes : Z;
  holders : list SwapHolder;
  desired_bytes : option Z;
}.

Definition held_bytes (s : SwapCapacity) : Z := sum_list (holder_held_bytes <$> holders s).

Definition NO_SWAP : SwapCapacity :=
  {| swap_total_bytes := 0; swap_used_bytes := 0; holders := []; desired_bytes := None |}.

Inductive CapacitySnapshot := Snapshot {
  node_id : string;
  memory_kind : string;
  available_bytes : option Z;
  occupied_bytes : option Z;
  reserved_bytes : option Z;
  evidence_state : EvidenceState;
  evidence_digest : option string;
  components : list CapacitySnapshot;
  unmaterialized_bytes : option Z;
  unknown_run_residuals : list UnknownRunMemoryResidual;
  evidence_observed_at : option string;
  kept_bytes : Z;
  unmaterialized_holders : list MemoryClaimHolder;
  releasing_bytes : Z;
  free_upside_bytes : Z;
  swap : SwapCapacity;
}.

Record PlannedStopRelease := {
  stop_run_id : string;
  stop_node_id : string;
  stop_memory_kind : string;
  release_bytes : option Z;
  planned : bool;
  stop_plan_digest : option string;
}.

Record NodeCapacityPlan := {
  plan_node_id : string;
  required_bytes : option Z;
  current_free_after_bytes : option Z;
  after_stop_free_after_bytes : option Z;
  selected_free_after_bytes : option Z;
  stop_required : bool;
  node_allowed : bool;
  node_reasons : list ResourceReason;
  insufficient_components : list string;
  plan_residuals : list UnknownRunMemoryResidual;
}.

Record CapacityPlan := {
  nodes : list NodeCapacityPlan;
  plan_allowed : bool;
  stop_before_prepare : bool;
  plan_reasons : list ResourceReason;
}.

(** Python [tuple(dict.fromkeys(l))]: the first of each equal element, in order. *)
Fixpoint dedupe_from {A} `{EqDecision A} (seen l : list A) : list A :=
  match l with
  | [] => []
  | x :: rest => if mem x seen then dedupe_from seen rest else x :: dedupe_from (x :: seen) rest
  end.
Definition dedupe {A} `{EqDecision A} (l : list A) : list A := dedupe_from [] l.

Lemma dedupe_from_elem {A} `{EqDecision A} (l : list A) : forall seen x,
  x ∈ dedupe_from seen l <-> x ∈ l /\ x ∉ seen.
Proof.
  induction l as [|y l IH]; intros seen x; simpl; [set_solver|].
  case_match eqn:E; bools; [rewrite IH; set_solver|].
  rewrite !elem_of_cons, IH. destruct (decide (x = y)) as [->|]; set_solver.
Qed.

Lemma dedupe_elem {A} `{EqDecision A} (l : list A) x : x ∈ dedupe l <-> x ∈ l.
Proof. unfold dedupe. rewrite dedupe_from_elem. set_solver. Qed.

(** ** Facts *)

(** Every problem of every effective setting has a reason code, so the planner's code
    construction never raises. *)
Theorem resource_term_code_total term problem :
  exists c, resource_term_code term problem = Ok c /\
    value c = "resource." +:+ value term +:+ "_" +:+ value problem.
Proof. destruct term, problem; eexists; (split; [vm_compute; reflexivity|reflexivity]). Qed.
