(* ===== verification/Demand.v ===== *)
(** * Resource planning: demand

    [control/src/vonk_control/resource_planning/demand.py] from typed settings on:
    the steady memory demand of one recipe rank, the cost of each changed setting,
    and the load phase's rise above it.  Resolving an untyped settings document is
    not modelled; its outcome is the [SettingsResolution] argument. *)
From S2P Require Import Prelude Vocabulary ReasonCodes Swap Blockers ResourceTypes.

(** What the demand reads of the effective settings. *)
Record SelectedSettings := {
  context_tokens : option Z;
  concurrency : option Z;
  batch_tokens : option Z;
}.

Record SettingsResolution := {
  settings : option SelectedSettings;
  resolution_reasons : list ResourceReason;
}.

Definition is_hex (c : Ascii.ascii) : bool :=
  let n := Ascii.nat_of_ascii c in
  (Nat.leb 48 n && Nat.leb n 57) || (Nat.leb 97 n && Nat.leb n 102).

Definition _is_digest (s : string) : bool := Nat.eqb (String.length s) 64 && all_chars is_hex s.

Definition term_result : Type := option Z * list ResourceReason.

(** One reason of a term; the code always exists ([resource_term_code_total]). *)
Definition term_problem (name : ResourceTerm) (p : ResourceTermProblem) (text : string)
    (node : option string) : result term_result :=
  c ← resource_term_code name p;
  Ok (None, [_reason (value c) text blocker node None]).

Definition valid_range (supported : option (Z * Z)) : bool :=
  match supported with
  | None => true
  | Some (lo, hi) => (0 <=? lo) && (0 <=? hi) && (lo <=? hi)
  end.

Definition in_range (v : Z) (supported : option (Z * Z)) : bool :=
  match supported with None => true | Some (lo, hi) => (lo <=? v) && (v <=? hi) end.

Definition _term (name : ResourceTerm) (value_ baseline coefficient : option Z)
    (supported : option (Z * Z)) (node : option string) (required : bool) : result term_result :=
  match value_ with
  | None =>
      if negb required then Ok (Some 0, [])
      else term_problem name ResourceTermProblem.UNKNOWN
             ("Effective " +:+ value name +:+
              " setting is unavailable; capacity cannot be predicted.") node
  | Some v =>
      if match baseline with Some b => b <? 0 | None => false end then
        term_problem name ResourceTermProblem.EVIDENCE_INVALID
          ("Measured baseline evidence for " +:+ value name +:+ " is invalid.") node
      else if negb (valid_range supported) then
        term_problem name ResourceTermProblem.EVIDENCE_INVALID
          ("Declared supported range for " +:+ value name +:+ " is invalid.") node
      else if negb (in_range v supported) then
        term_problem name ResourceTermProblem.UNSUPPORTED
          ("Effective " +:+ value name +:+ " setting is outside the declared supported range.") node
      else
        match baseline with
        | None =>
            term_problem name ResourceTermProblem.EVIDENCE_UNKNOWN
              ("No baseline evidence is declared for effective " +:+ value name +:+ ".") node
        | Some b =>
            if v =? b then Ok (Some 0, [])
            else
              match coefficient with
              | None =>
                  term_problem name ResourceTermProblem.EVIDENCE_UNKNOWN
                    ("No evidence supports changing effective " +:+ value name +:+
                     " from its measured baseline.") node
              | Some k =>
                  if k <? 0 then
                    term_problem name ResourceTermProblem.EVIDENCE_INVALID
                      ("Measured coefficient for " +:+ value name +:+ " is invalid.") node
                  else Ok (Some (Z.max 0 (v - b) * k), [])
              end
        end
  end.

(** [reason.code.endswith(("_unknown", "_unsupported"))] *)
Definition only_uncertain (rs : list ResourceReason) : bool :=
  match rs with
  | [] => false
  | _ => forallb (fun r => ends_with "_unknown" (code r) || ends_with "_unsupported" (code r)) rs
  end.

(** A bound that is present and not negative. *)
Definition valid_bound (b : option Z) : option Z :=
  match b with Some v => if 0 <=? v then Some v else None | None => None end.

(** The reasons and uncertainties a byte figure of the evidence adds. *)
Definition figure_reasons (name : string) (item declared_bound : option Z) (node : option string)
  : list ResourceReason :=
  match item with
  | None =>
      match declared_bound with
      | None =>
          [_reason (value ResourcePlanningCode.EVIDENCE_UNKNOWN)
             (name +:+ " is missing and no declared role bound is available.") blocker node None]
      | Some _ => []
      end
  | Some v =>
      if v <? 0 then
        [_reason (value ResourcePlanningCode.EVIDENCE_INVALID)
           (name +:+ " is invalid; resource evidence cannot be trusted.") blocker node None]
      else []
  end.

Definition figure_uncertain (name : string) (item declared_bound : option Z) : list string :=
  match item, declared_bound with None, Some _ => [name] | _, _ => [] end.

(** A term under a declared bound: an unknown or unsupported one costs nothing and
    is named uncertain. *)
Definition settle_term (name : string) (t : term_result) (declared_bound : option Z)
  : term_result * list ResourceReason * list string :=
  match fst t, declared_bound with
  | None, Some _ =>
      if only_uncertain (snd t) then ((Some 0, []), [], [name +:+ " estimate"])
      else (t, snd t, [])
  | _, _ => (t, snd t, [])
  end.

Definition no_demand (rs : list ResourceReason) : ResourceDemand := {|
  d_weights_bytes := None; d_runtime_overhead_bytes := None; context_bytes := None;
  concurrency_bytes := None; batch_bytes := None; total_bytes := None; demand_state := unknown;
  demand_reasons := rs; load_overshoot_bytes := 0; minimum_swap_bytes := 0 |}.

(** The reasons about the evidence document itself, before its figures. *)
Definition document_reasons (e : ResourceEvidence) (declared_bound : option Z)
    (node : option string) : list ResourceReason :=
  ((if bool_decide (declared_total_bytes e <> None) && bool_decide (declared_bound = None) then
      [_reason (value ResourcePlanningCode.EVIDENCE_INVALID)
         "Declared recipe-role memory envelope is invalid." blocker node None]
    else []) ++
   (if mem (ev_state e) [unknown; stale] && bool_decide (declared_bound = None) then
      [_reason (value ResourcePlanningCode.EVIDENCE_UNKNOWN)
         "Memory evidence is missing or stale and no declared role bound is available."
         blocker node None]
    else []) ++
   match ev_digest e with
   | Some d =>
       if _is_digest d then []
       else [_reason (value ResourcePlanningCode.EVIDENCE_INVALID)
               "Memory evidence digest is invalid." blocker node None]
   | None => []
   end)%list.

Definition state_uncertain (e : ResourceEvidence) (declared_bound : option Z) : list string :=
  if mem (ev_state e) [unknown; stale] && bool_decide (declared_bound <> None)
  then [evidence_word (ev_state e) +:+ " evidence"] else [].

Definition resource_demand (resolution : SettingsResolution) (e : ResourceEvidence)
    (node : option string) : result ResourceDemand :=
  match settings resolution with
  | None => Ok (no_demand (resolution_reasons resolution))
  | Some selected =>
      let declared_bound := valid_bound (declared_total_bytes e) in
      let observed_bound :=
        match declared_bound with Some _ => valid_bound (observed_total_bytes e) | None => None end in
      context ← _term ResourceTerm.CONTEXT (context_tokens selected) (baseline_context_tokens e)
                  (context_bytes_per_token e) (supported_context_tokens e) node
                  (bool_decide (context_tokens selected <> None));
      concurrency_ ← _term ResourceTerm.CONCURRENCY (concurrency selected) (baseline_concurrency e)
                  (concurrency_bytes_per_request e) (supported_concurrency e) node
                  (bool_decide (concurrency selected <> None));
      batch ← _term ResourceTerm.BATCH (batch_tokens selected) (baseline_batch_tokens e)
                  (batch_bytes_per_token e) (supported_batch_tokens e) node
                  (bool_decide (batch_tokens selected <> None));
      let '(t1, r1, u1) := settle_term "context" context declared_bound in
      let '(t2, r2, u2) := settle_term "concurrency" concurrency_ declared_bound in
      let '(t3, r3, u3) := settle_term "batch" batch declared_bound in
      let reasons :=
        (resolution_reasons resolution ++ document_reasons e declared_bound node
         ++ figure_reasons "weights_bytes" (weights_bytes e) declared_bound node
         ++ figure_reasons "runtime_overhead_bytes" (runtime_overhead_bytes e) declared_bound node
         ++ r1 ++ r2 ++ r3)%list in
      let uncertain :=
        (state_uncertain e declared_bound
         ++ figure_uncertain "weights_bytes" (weights_bytes e) declared_bound
         ++ figure_uncertain "runtime_overhead_bytes" (runtime_overhead_bytes e) declared_bound
         ++ u1 ++ u2 ++ u3)%list in
      let base :=
        or_else declared_bound
          (match weights_bytes e, runtime_overhead_bytes e with
           | Some w, Some o => Some (w + o)
           | _, _ => None
           end) in
      let total :=
        match reasons, fst t1, fst t2, fst t3, base with
        | [], Some a, Some b, Some c, Some base_ => Some (base_ + a + b + c)
        | _, _, _, _, _ => None
        end in
      let forecast :=
        match uncertain, declared_bound, total with
        | _ :: _, Some bound, Some t =>
            [_reason (value ResourcePlanningCode.ESTIMATE_UNCERTAIN)
               ("Forecast " +:+ pretty t +:+ " bytes from the declared recipe-role memory envelope ("
                +:+ pretty bound +:+ " bytes); " +:+ join ", " (dedupe uncertain) +:+
                " is unavailable, so actual demand may exceed this bound.") warning node None]
        | _, _, _ => []
        end in
      Ok {| d_weights_bytes := weights_bytes e;
            d_runtime_overhead_bytes := runtime_overhead_bytes e;
            context_bytes := fst context;
            concurrency_bytes := fst concurrency_;
            batch_bytes := fst batch;
            total_bytes := total;
            demand_state := ev_state e;
            demand_reasons := (reasons ++ forecast)%list;
            load_overshoot_bytes :=
              match total with
              | Some t =>
                  Z.max (Z.max (declared_load_rise_bytes e)
                           (match observed_bound with Some o => o - t | None => 0 end)) 0
              | None => 0
              end;
            minimum_swap_bytes := ev_minimum_swap_bytes e |}
  end.

(** ** Facts *)
Lemma term_problem_spec name p text node :
  exists c : ResourcePlanningCode, term_problem name p text node = Ok (None, [_reason (value c) text blocker node None]) /\
    value c = "resource." +:+ value name +:+ "_" +:+ value p.
Proof.
  unfold term_problem. assert (exists c : ResourcePlanningCode, resource_term_code name p = Ok c /\
    value c = "resource." +:+ value name +:+ "_" +:+ value p) as (c & -> & Hc).
  { destruct name, p; eexists; (split; [vm_compute; reflexivity|reflexivity]). }
  exists c. done.
Qed.

(** A sound term result has a cost and no reason, or no cost and a blocking one. *)
Definition term_sound (t : term_result) : Prop :=
  match fst t with
  | Some cost => snd t = [] /\ 0 <= cost
  | None => exists r, snd t = [r] /\ is_blocker r = true
  end.

(** A term costs something or says why not, never both. *)
Lemma term_total name v b k sup node req :
  exists t, _term name v b k sup node req = Ok t /\ term_sound t.
Proof.
  assert (forall p text, exists t, term_problem name p text node = Ok t /\ term_sound t) as Hp.
  { intros p text. destruct (term_problem_spec name p text node) as (c & -> & _).
    eexists; split; [done|]. simpl. by eexists. }
  unfold _term. destruct v as [v|]; [|by destruct req; [apply Hp|eexists; split; [done|]]].
  destruct b as [b|].
  2: { destruct (negb (valid_range sup)); [apply Hp|].
       destruct (negb (in_range v sup)); apply Hp. }
  destruct (b <? 0); [apply Hp|].
  destruct (negb (valid_range sup)); [apply Hp|].
  destruct (negb (in_range v sup)); [apply Hp|].
  destruct (v =? b); [by eexists; split; [done|]|].
  destruct k as [k|]; [|apply Hp]. destruct (k <? 0) eqn:E; [apply Hp|]. bools.
  eexists; split; [done|]. simpl. split; [done|nia].
Qed.

Lemma settle_term_sound name t bound :
  term_sound t ->
  let '(t', rs, _) := settle_term name t bound in
  match fst t' with
  | Some cost => rs = [] /\ 0 <= cost
  | None => exists r, rs = [r] /\ is_blocker r = true
  end.
Proof.
  unfold term_sound, settle_term. destruct t as [[cost|] l]; simpl; [done|].
  destruct bound; [|done]. by destruct (only_uncertain l).
Qed.

(** A byte figure blocks, is present and not negative, or a bound stands in for it. *)
Lemma figure_reasons_spec name item bound node :
  forallb is_blocker (figure_reasons name item bound node) = true /\
  (figure_reasons name item bound node = [] ->
   bound <> None \/ exists v, item = Some v /\ 0 <= v).
Proof.
  unfold figure_reasons. destruct item as [v|].
  - destruct (v <? 0) eqn:E; simpl; (split; [done|]); [done|]. bools. right. eexists. split; [done|lia].
  - destruct bound; simpl; split; try done. by left.
Qed.

Lemma document_reasons_block e bound node :
  forallb is_blocker (document_reasons e bound node) = true.
Proof.
  unfold document_reasons. rewrite !forallb_app, !andb_true_iff. split_and!; by repeat case_match.
Qed.

Lemma term_reasons_block (c : option Z) rs :
  match c with
  | Some cost => rs = [] /\ 0 <= cost
  | None => exists r, rs = [r] /\ is_blocker r = true
  end -> forallb is_blocker rs = true.
Proof. destruct c; [by intros [-> _]|]. intros (r & -> & Hr). simpl. by rewrite Hr. Qed.

Lemma valid_bound_nonneg b v : valid_bound b = Some v -> 0 <= v.
Proof. unfold valid_bound. repeat case_match; intros; simplify_eq; lia. Qed.

(** Without a blocking figure the demand has a base, never below its bound. *)
Lemma demand_base (bound weights overhead : option Z) :
  (bound <> None \/ exists v, weights = Some v /\ 0 <= v) ->
  (bound <> None \/ exists v, overhead = Some v /\ 0 <= v) ->
  (forall v, bound = Some v -> 0 <= v) ->
  exists b, or_else bound (match weights, overhead with
                           | Some w, Some o => Some (w + o)
                           | _, _ => None
                           end) = Some b /\ 0 <= b /\ default b bound <= b.
Proof.
  intros Hw Ho Hb. destruct bound as [b|]; simpl.
  - exists b. split; [done|]. split; [by apply Hb|done].
  - destruct Hw as [|(w & -> & ?)]; [done|]. destruct Ho as [|(o & -> & ?)]; [done|].
    exists (w + o). simpl. split; [done|]. lia.
Qed.

(** Everything the planner relies on of a demand from resolved settings. *)
Lemma resource_demand_spec resolution sel e node :
  settings resolution = Some sel ->
  exists d, resource_demand resolution e node = Ok d /\
    demand_allowed d = bool_decide (total_bytes d <> None) /\
    (resolution_reasons resolution = [] -> total_bytes d = None ->
     existsb is_blocker (demand_reasons d) = true) /\
    forall t, total_bytes d = Some t ->
      0 <= t /\ default t (valid_bound (declared_total_bytes e)) <= t /\
      load_overshoot_bytes d =
        Z.max (Z.max (declared_load_rise_bytes e)
          (match valid_bound (declared_total_bytes e), valid_bound (observed_total_bytes e) with
           | Some _, Some o => o - t
           | _, _ => 0
           end)) 0.
Proof.
  intros Hsel. unfold resource_demand. rewrite Hsel.
  destruct (term_total ResourceTerm.CONTEXT (context_tokens sel) (baseline_context_tokens e)
    (context_bytes_per_token e) (supported_context_tokens e) node
    (bool_decide (context_tokens sel <> None))) as (t1 & -> & H1).
  destruct (term_total ResourceTerm.CONCURRENCY (concurrency sel) (baseline_concurrency e)
    (concurrency_bytes_per_request e) (supported_concurrency e) node
    (bool_decide (concurrency sel <> None))) as (t2 & -> & H2).
  destruct (term_total ResourceTerm.BATCH (batch_tokens sel) (baseline_batch_tokens e)
    (batch_bytes_per_token e) (supported_batch_tokens e) node
    (bool_decide (batch_tokens sel <> None))) as (t3 & -> & H3).
  cbn [mbind result_bind]. set (bound := valid_bound (declared_total_bytes e)) in *.
  apply (settle_term_sound "context" t1 bound) in H1.
  apply (settle_term_sound "concurrency" t2 bound) in H2.
  apply (settle_term_sound "batch" t3 bound) in H3.
  destruct (settle_term "context" t1 bound) as [[[c1 l1] r1] u1].
  destruct (settle_term "concurrency" t2 bound) as [[[c2 l2] r2] u2].
  destruct (settle_term "batch" t3 bound) as [[[c3 l3] r3] u3].
  destruct (figure_reasons_spec "weights_bytes" (weights_bytes e) bound node) as [Bw Fw].
  destruct (figure_reasons_spec "runtime_overhead_bytes" (runtime_overhead_bytes e) bound node) as [Bo Fo].
  pose proof (document_reasons_block e bound node) as Bd.
  set (us := (state_uncertain e bound ++ _)%list). cbn [fst] in *.
  set (ds := document_reasons e bound node) in *. set (fw := figure_reasons "weights_bytes" _ _ _) in *.
  set (fo := figure_reasons "runtime_overhead_bytes" _ _ _) in *.
  destruct (resolution_reasons resolution ++ ds ++ fw ++ fo ++ r1 ++ r2 ++ r3)%list as [|r0 rs] eqn:Hr.
  2: { eexists. split; [reflexivity|]. unfold demand_allowed. simpl. split; [done|].
       split; [|by intros t [=]]. intros Hres _. rewrite Hres in Hr.
       apply (f_equal (forallb is_blocker)) in Hr. simpl in Hr.
       rewrite !forallb_app, Bd, Bw, Bo, (term_reasons_block c1), (term_reasons_block c2),
         (term_reasons_block c3) in Hr by done.
       symmetry in Hr. simpl in Hr. apply andb_true_iff in Hr as [-> _]. done. }
  apply app_eq_nil in Hr as [_ Hr]. apply app_eq_nil in Hr as [_ Hr].
  apply app_eq_nil in Hr as [Hw Hr]. apply app_eq_nil in Hr as [Ho Hr].
  apply app_eq_nil in Hr as [-> Hr]. apply app_eq_nil in Hr as [-> ->].
  destruct c1 as [c1|]; [|by destruct H1 as (? & ? & _)].
  destruct c2 as [c2|]; [|by destruct H2 as (? & ? & _)].
  destruct c3 as [c3|]; [|by destruct H3 as (? & ? & _)].
  destruct H1 as [_ H1], H2 as [_ H2], H3 as [_ H3].
  destruct (demand_base _ _ _ (Fw Hw) (Fo Ho) (valid_bound_nonneg _)) as (b & -> & Hb & Hbb).
  eexists. split; [reflexivity|]. unfold demand_allowed.
  cbn [total_bytes demand_reasons load_overshoot_bytes]. split_and!.
  - simpl. by destruct us, bound.
  - done.
  - intros t [= <-]. split; [lia|]. split; [destruct bound; simpl in *; lia|]. by destruct bound.
Qed.

(** The demand is total and conservative.  For resolved settings it always returns;
    it is allowed exactly when it has a total; a total is never below the recipe's
    valid declared envelope (a smaller setting is never refunded); and the total
    plus the load's overshoot is the larger of the declared load peak and the
    highest observed whole-run use. *)
Theorem resource_demand_conservative resolution sel e node :
  settings resolution = Some sel ->
  exists d, resource_demand resolution e node = Ok d /\
    demand_allowed d = bool_decide (total_bytes d <> None) /\
    (forall t, total_bytes d = Some t ->
       default t (valid_bound (declared_total_bytes e)) <= t /\
       t + load_overshoot_bytes d =
         Z.max (t + Z.max 0 (declared_load_rise_bytes e))
           (match valid_bound (declared_total_bytes e), valid_bound (observed_total_bytes e) with
            | Some _, Some o => o
            | _, _ => t
            end)).
Proof.
  intros Hsel. destruct (resource_demand_spec resolution sel e node Hsel) as (d & Hd & Ha & _ & Ht).
  exists d. split; [done|]. split; [done|]. intros t Htot. destruct (Ht t Htot) as (_ & Hle & ->).
  split; [done|]. destruct (valid_bound (declared_total_bytes e)), (valid_bound (observed_total_bytes e)); lia.
Qed.

Lemma resource_demand_conservative_witness :
  let e := {| weights_bytes := Some 10; runtime_overhead_bytes := None;
    baseline_context_tokens := Some 4; baseline_concurrency := None; baseline_batch_tokens := None;
    context_bytes_per_token := Some 3; concurrency_bytes_per_request := None;
    batch_bytes_per_token := None; supported_context_tokens := None; supported_concurrency := None;
    supported_batch_tokens := None; ev_state := declared; ev_digest := None;
    declared_total_bytes := Some 100; observed_total_bytes := Some 150;
    declared_load_rise_bytes := 20; ev_minimum_swap_bytes := 0 |} in
  let r := {| settings := Some {| context_tokens := Some 6; concurrency := None;
                                  batch_tokens := None |}; resolution_reasons := [] |} in
  exists d, resource_demand r e None = Ok d /\ total_bytes d = Some 106 /\
    load_overshoot_bytes d = 44.
Proof.
  intros e r. destruct (resource_demand_conservative r _ e None eq_refl) as (d & Hd & _ & Ht).
  exists d. split; [exact Hd|].
  assert (total_bytes d = Some 106) as Htot by (vm_compute in Hd; injection Hd as <-; reflexivity).
  split; [exact Htot|]. destruct (Ht 106 Htot) as [_ H]. simpl in H. lia.
Defined.
