(* ===== verification/MemorySnapshot.v ===== *)
(** * Resource planning: one node's memory as the planner sees it

    [memory_capacity_snapshot] of [resource_planning/memory.py]: reservations are
    charged to the physical pool they consume, a confirmed stop is credited against
    the sample, and a unified envelope on separate hardware takes its limiting pool. *)
From S2P Require Import Prelude Vocabulary ReasonCodes Swap Blockers ResourceTypes.

Section snapshot.
Context (node : string) (reservations : MemoryReservationTotals) (memory_pool : option MemoryPool)
  (state_ : EvidenceState) (digest : option string) (observed_at : option string)
  (recent_best_free_bytes : option Z) (swap_ : SwapCapacity).

(** [sum(by_kind.get(item, 0) for item in kinds)] *)
Definition sum_kinds (by_kind : gmap string Z) (kinds : list string) : Z :=
  sum_list ((fun k => default 0 (by_kind !! k)) <$> kinds).

Definition cat_kinds {A} (by_kind : gmap string (list A)) (kinds : list string) : list A :=
  concat ((fun k => default [] (by_kind !! k)) <$> kinds).

(** The reservation kinds charged to a pool; [None] without pool evidence. *)
Definition charged_kinds (kind : MemoryKind) : result (option (list string)) :=
  match memory_pool with
  | None => Ok None
  | Some pool =>
      ks ← memory_reservation_kinds (memory_reservation_kind kind) pool;
      Ok (Some ks)
  end.

Definition component (kind : MemoryKind) (values : option (Z * Z)) : result CapacitySnapshot :=
  kinds ← charged_kinds kind;
  let total := fst <$> values in
  let free := snd <$> values in
  let credit := match kinds with
                | Some ks => sum_kinds (released_unobserved_bytes_by_kind reservations) ks
                | None => 0
                end in
  Ok {| node_id := node;
        memory_kind := kind_word kind;
        available_bytes := total;
        occupied_bytes :=
          match values with
          | Some (t, f) => Some (Z.max 0 (t - f - credit))
          | None => None
          end;
        reserved_bytes := (sum_kinds (committed_bytes_by_kind reservations)) <$> kinds;
        evidence_state := match total with Some _ => state_ | None => unknown end;
        evidence_digest := digest;
        components := [];
        unmaterialized_bytes := (sum_kinds (unmaterialized_bytes_by_kind reservations)) <$> kinds;
        unknown_run_residuals :=
          match kinds with
          | Some ks => cat_kinds (unknown_run_residuals_by_kind reservations) ks
          | None => []
          end;
        evidence_observed_at := observed_at;
        kept_bytes := match kinds with
                      | Some ks => sum_kinds (kept_bytes_by_kind reservations) ks
                      | None => 0
                      end;
        unmaterialized_holders :=
          match kinds with
          | Some ks => cat_kinds (unmaterialized_holders_by_kind reservations) ks
          | None => []
          end;
        releasing_bytes := match kinds with
                           | Some ks => sum_kinds (releasing_bytes_by_kind reservations) ks
                           | None => 0
                           end;
        free_upside_bytes :=
          match memory_pool, recent_best_free_bytes, free with
          | Some shared, Some best, Some f => Z.max 0 (best - f)
          | _, _, _ => 0
          end;
        swap := swap_ |}.

(** How much a pool can still admit; a pool without evidence admits least. *)
Definition headroom (item : CapacitySnapshot) : Z :=
  match available_bytes item, occupied_bytes item, reserved_bytes item with
  | Some a, Some o, Some r =>
      Z.min (a - r)
        (a - o - default 0 (unmaterialized_bytes item)
         - sum_list (maximum_bytes <$> unknown_run_residuals item))
  | _, _, _ => -1
  end.

(** [replace(limiting, memory_kind="unified", components=..., unknown_run_residuals=...)] *)
Definition combined (limiting : CapacitySnapshot) (parts : list CapacitySnapshot)
    (residuals : list UnknownRunMemoryResidual) : CapacitySnapshot :=
  {| node_id := node_id limiting; memory_kind := "unified";
     available_bytes := available_bytes limiting; occupied_bytes := occupied_bytes limiting;
     reserved_bytes := reserved_bytes limiting; evidence_state := evidence_state limiting;
     evidence_digest := evidence_digest limiting; components := parts;
     unmaterialized_bytes := unmaterialized_bytes limiting; unknown_run_residuals := residuals;
     evidence_observed_at := evidence_observed_at limiting; kept_bytes := kept_bytes limiting;
     unmaterialized_holders := unmaterialized_holders limiting;
     releasing_bytes := releasing_bytes limiting; free_upside_bytes := free_upside_bytes limiting;
     swap := swap limiting |}.

Definition memory_capacity_snapshot (kind : MemoryKind) (host_ accelerator_ : option (Z * Z))
  : result CapacitySnapshot :=
  match memory_pool with
  | Some shared =>
      component kind
        (match host_, accelerator_ with
         | Some (ht, hf), Some (at_, af) => Some (Z.min ht at_, Z.min hf af)
         | _, _ => None
         end)
  | _ =>
      match kind with
      | host => component host host_
      | accelerator => component accelerator accelerator_
      | unified =>
          h ← component host host_;
          a ← component accelerator accelerator_;
          (* [min] keeps the first of equals *)
          let limiting := if headroom a <? headroom h then a else h in
          Ok (combined limiting [h; a]
                (dedupe (unknown_run_residuals h ++ unknown_run_residuals a)%list))
      end
  end.
End snapshot.

(** ** Facts *)
Lemma charged_kinds_ok pool kind : exists ks, charged_kinds pool kind = Ok ks.
Proof. unfold charged_kinds. destruct pool as [[]|], kind; eexists; reflexivity. Qed.

Section facts.
Context (node : string) (rs : MemoryReservationTotals) (pool : option MemoryPool)
  (st : EvidenceState) (dg at_ : option string) (best : option Z) (sw : SwapCapacity).

Abbreviation part := (component node rs pool st dg at_ best sw).
Abbreviation snapshot := (memory_capacity_snapshot node rs pool st dg at_ best sw).

Lemma component_ok kind values : exists c, part kind values = Ok c.
Proof.
  unfold component. destruct (charged_kinds_ok pool kind) as [ks ->]. eexists. reflexivity.
Qed.

(** What the sample and the ledger say of one pool. *)
Lemma component_occupied kind t f c :
  part kind (Some (t, f)) = Ok c ->
  available_bytes c = Some t /\ evidence_state c = st /\
  exists o, occupied_bytes c = Some o /\ 0 <= o /\
    (Forall (fun p => 0 <= p.2) (map_to_list (released_unobserved_bytes_by_kind rs)) ->
     o <= Z.max 0 (t - f)).
Proof.
  unfold component. intros (ks & Hks & [= <-])%bind_Ok. simpl. split; [done|]. split; [done|].
  eexists. split; [reflexivity|]. split; [lia|]. intros Hnn.
  assert (0 <= match ks with
               | Some l => sum_kinds (released_unobserved_bytes_by_kind rs) l | None => 0 end); [|lia].
  destruct ks as [l|]; [|done]. unfold sum_kinds. apply sum_list_nonneg.
  apply Forall_fmap. apply Forall_true. intros k. simpl.
  destruct (_ !! k) as [v|] eqn:Hv; simpl; [|lia].
  rewrite Forall_forall in Hnn. apply (Hnn (k, v)). by apply elem_of_map_to_list.
Qed.

Lemma snapshot_ok kind host_ acc : exists s, snapshot kind host_ acc = Ok s.
Proof.
  unfold memory_capacity_snapshot.
  destruct (component_ok host host_) as [h Hh], (component_ok accelerator acc) as [a Ha].
  pose proof component_ok as Hc.
  destruct pool as [[]|]; [apply Hc|..]; destruct kind; rewrite ?Hh, ?Ha; by eexists.
Qed.

(** A unified envelope on hardware that is not one shared pool always has a snapshot;
    it keeps both pools as components and takes the figures of the one with the least
    headroom, so no pool's limit is missed and none is added to another's. *)
Theorem snapshot_takes_limiting_pool host_ acc :
  pool <> Some shared ->
  exists s h a l, snapshot unified host_ acc = Ok s /\
    part host host_ = Ok h /\ part accelerator acc = Ok a /\ components s = [h; a] /\
    (l = h \/ l = a) /\ headroom l = Z.min (headroom h) (headroom a) /\
    available_bytes s = available_bytes l /\ occupied_bytes s = occupied_bytes l /\
    reserved_bytes s = reserved_bytes l /\ unmaterialized_bytes s = unmaterialized_bytes l.
Proof.
  intros Hpool. unfold memory_capacity_snapshot.
  destruct (component_ok host host_) as [h Hh], (component_ok accelerator acc) as [a Ha].
  exists (combined (if headroom a <? headroom h then a else h) [h; a]
            (dedupe (unknown_run_residuals h ++ unknown_run_residuals a)%list)), h, a,
    (if headroom a <? headroom h then a else h).
  split; [destruct pool as [[]|]; [done|by rewrite Hh, Ha..]|].
  do 3 (split; [done|]). destruct (headroom a <? headroom h) eqn:E; bools.
  - split; [by right|]. split; [lia|done].
  - split; [by left|]. split; [lia|done].
Qed.
End facts.

Lemma snapshot_takes_limiting_pool_witness :
  let none := {| committed_bytes_by_kind := ∅; unmaterialized_bytes_by_kind := ∅;
    unknown_run_residuals_by_kind := ∅; released_unobserved_bytes_by_kind := ∅;
    kept_bytes_by_kind := ∅; unmaterialized_holders_by_kind := ∅; releasing_bytes_by_kind := ∅ |} in
  exists s, memory_capacity_snapshot "spk" none (Some separate) fresh None None None NO_SWAP unified
      (Some (100, 80)) (Some (60, 50)) = Ok s /\ available_bytes s = Some 60.
Proof.
  intros none.
  destruct (snapshot_takes_limiting_pool "spk" none (Some separate) fresh None None None NO_SWAP
              (Some (100, 80)) (Some (60, 50)) ltac:(discriminate))
    as (s & h & a & l & Hs & Hh & Ha & _ & Hl & Hmin & Hav & _).
  exists s. split; [exact Hs|]. rewrite Hav.
  vm_compute in Hh, Ha. injection Hh as <-. injection Ha as <-.
  destruct Hl as [->| ->]; [vm_compute in Hmin; discriminate|reflexivity].
Defined.
