(* ===== verification/Capacity.v ===== *)
(** * Resource planning: capacity

    [control/src/vonk_control/resource_planning/capacity.py]: the steady demand of
    every selected rank against its Spark's memory, then the load's rise against
    swap.  [evaluate_memory_admission] is the function of the external contracts
    package; it is a parameter here, and [AdmissionContract] states what the
    planner relies on. *)
From S2P Require Import Prelude Vocabulary ReasonCodes Swap Blockers ResourceTypes Demand.

(** ** The external admission rule *)
Record AdmissionInput := {
  in_demand : Z;
  in_pool : Z;
  in_occupied : Z;
  in_reserved : Z;
  in_unmaterialized : Z;
  in_unknown : Z;
  in_release : Z;
  in_floor : Z;
}.

Record MemoryAdmission := {
  admissible : bool;
  free_after_bytes : Z;
  commitment_headroom_bytes : Z;
}.

Definition admission_rule : Type := AdmissionInput -> result MemoryAdmission.

Definition nonneg_input (i : AdmissionInput) : Prop :=
  0 <= in_demand i /\ 0 <= in_pool i /\ 0 <= in_occupied i /\ 0 <= in_reserved i /\
  0 <= in_unmaterialized i /\ 0 <= in_unknown i /\ 0 <= in_release i /\ 0 <= in_floor i.

(** What is free after the demand, and what the ledger's commitments leave. *)
Definition free_after (i : AdmissionInput) : Z :=
  in_pool i - in_occupied i - in_unmaterialized i - in_unknown i - in_demand i + in_release i.
Definition commitment_headroom (i : AdmissionInput) : Z :=
  in_pool i - in_reserved i - in_demand i - in_floor i + in_release i.

(** What the planner relies on.  The two figures are those its refusals name: "observed
    free capacity less definite claims and selected demand" and the excess of "exact
    memory commitments plus demand and reserve" over the pool.  An admissible demand
    leaves the floor free and exceeds no commitment; a demand that fits the pool beside
    the floor and does both is admissible.  Nothing is assumed of a demand that does not
    fit the pool beside the floor, nor of inputs that are not byte counts. *)
Class AdmissionContract (rule : admission_rule) : Prop := {
  rule_returns i : nonneg_input i ->
    exists a, rule i = Ok a /\ free_after_bytes a = free_after i /\
      commitment_headroom_bytes a = commitment_headroom i /\
      (admissible a = true -> in_floor i <= free_after i /\ 0 <= commitment_headroom i) /\
      (in_demand i + in_floor i <= in_pool i -> in_floor i <= free_after i ->
       0 <= commitment_headroom i -> admissible a = true);
}.

(** ** Texts *)
Definition _minimum_known (values : list (option Z)) : option Z :=
  if existsb (fun v => bool_decide (v = None)) values then None
  else match omap (fun v => v) values with
       | [] => None
       | x :: rest => Some (fold_left Z.min rest x)
       end.

Definition _resident_usage_uncertainty_detail (capacity : CapacitySnapshot)
    (residuals : list UnknownRunMemoryResidual) (admitted : bool) : string :=
  let observed_at := default "timestamp unavailable" (evidence_observed_at capacity) in
  let digest := default "digest unavailable" (str_or (evidence_digest capacity) None) in
  let maximum := sum_list (maximum_bytes <$> residuals) in
  let count := Z.of_nat (length residuals) in
  if admitted then
    "Aggregate inventory " +:+ observed_at +:+ " (" +:+ digest +:+ ") reports no per-run "
    +:+ "resident usage for " +:+ pretty count +:+ " exact active claim(s); their "
    +:+ "remaining commitment is in the range 0.." +:+ pretty maximum +:+ " bytes. Admission "
    +:+ "applies the full upper bound."
  else
    "Capacity is unverified by aggregate inventory " +:+ observed_at +:+ " (" +:+ digest +:+ "): "
    +:+ pretty count +:+ " exact active run claim(s) may retain 0.." +:+ pretty maximum +:+ " "
    +:+ "bytes, and the safe upper bound does not fit. Reconcile the exact run "
    +:+ "claims and retry against fresh inventory.".

Definition _NAMED_CLAIMS : nat := 3.

(** [sorted(holders, key=lambda holder: -holder.amount_bytes)]: stable, so a claim goes
    before the later claims of its amount. *)
Fixpoint insert_claim (h : MemoryClaimHolder) (l : list MemoryClaimHolder) : list MemoryClaimHolder :=
  match l with
  | [] => [h]
  | x :: rest => if amount_bytes x <=? amount_bytes h then h :: l else x :: insert_claim h rest
  end.
Definition largest_first (l : list MemoryClaimHolder) : list MemoryClaimHolder :=
  fold_right insert_claim [] l.

Definition _charged_claims_detail (capacity : CapacitySnapshot) (shortfall_bytes : Z) : string :=
  match unmaterialized_holders capacity with
  | [] => EmptyString
  | hs =>
      let largest := largest_first hs in
      let name h := owner_kind (owner h) +:+ " " +:+ owner_id (owner h) +:+ " ("
                      +:+ pretty (amount_bytes h) +:+ " bytes)" in
      let named :=
        join ", " (name <$> take _NAMED_CLAIMS largest) +:+
        (if Nat.ltb _NAMED_CLAIMS (length largest)
         then " and " +:+ pretty (Z.of_nat (length largest - _NAMED_CLAIMS)) +:+ " more"
         else EmptyString) in
      if shortfall_bytes <=? default 0 (unmaterialized_bytes capacity)
      then " The demand fits once these claims are released: " +:+ named +:+ "."
      else " Charged claims: " +:+ named +:+ "."
  end.

(** Python [not value] for an optional count. *)
Definition falsy (o : option Z) : bool := default 0 o =? 0.

Definition _holds_nothing (capacity : CapacitySnapshot) (stopping : bool) : bool :=
  falsy (reserved_bytes capacity) && falsy (unmaterialized_bytes capacity)
  && match unknown_run_residuals capacity with [] => true | _ => false end
  && (kept_bytes capacity =? 0) && (releasing_bytes capacity =? 0) && negb stopping.

(** ** Swap *)
Definition largest_setting : Z := maximum_gib SWAP_POLICY * GIB.

(** The load rise and minimum swap a try needs, and whether they were cut. *)
Definition _tried_swap_need (demand : ResourceDemand) : Z * Z * bool :=
  let rise := Z.min (load_overshoot_bytes demand) (usable_swap_bytes largest_setting) in
  let minimum := Z.min (minimum_swap_bytes demand) largest_setting in
  (rise, minimum,
   (rise <? load_overshoot_bytes demand) || (minimum <? minimum_swap_bytes demand)).

Definition _swap_carries (demand : ResourceDemand) (sw : SwapCapacity) (in_use : bool) : bool :=
  let '(rise, minimum, _) := _tried_swap_need demand in
  if rise <? load_overshoot_bytes demand then
    (held_bytes sw =? 0) && swap_reaches (swap_total_bytes sw) largest_setting
  else
    (rise + held_bytes sw + (if in_use then swap_used_bytes sw else 0)
       <=? usable_swap_bytes (swap_total_bytes sw))
    && swap_reaches (swap_total_bytes sw) minimum.

(** The whole-GiB setting a wait for swap names. *)
Definition needed_setting (rise minimum : Z) (sw : SwapCapacity) : Z :=
  Z.min largest_setting
    (Z.max (swap_needed_bytes (rise + swap_used_bytes sw)) (ceil_div minimum GIB * GIB)).

Definition swap_remedy (setting : Z) (sw : SwapCapacity) : string :=
  let jobs := holder_run_id <$> List.filter job_run (holders sw) in
  if match desired_bytes sw with Some d => d <? setting | None => false end then
    "Raise the Spark swap setting to at least " +:+ pretty (setting / GIB) +:+ " GiB."
  else
    match jobs with
    | _ :: _ =>
        "It starts once job run " +:+ join ", " (take _NAMED_CLAIMS jobs) +:+ " here stops" +:+
        (if Nat.ltb (length jobs) (length (holders sw))
         then " and the other loads finish loading." else ".")
    | [] =>
        if negb (held_bytes sw =? 0) then "It starts once the other loads here finish loading."
        else if match desired_bytes sw with
                | Some d => negb (swap_reaches (swap_total_bytes sw) d)
                | None => false
                end
        then "It starts once the Spark's swap reaches its setting."
        else "It starts once swap in use falls."
    end.

Definition _load_swap_reason (node : string) (demand : ResourceDemand)
    (capacity : option CapacitySnapshot) : list ResourceReason :=
  let '(rise, minimum, clamped) := _tried_swap_need demand in
  if (rise <=? 0) && (minimum <=? 0) then []
  else
    let reasons :=
      if clamped then
        [_reason (value ResourcePlanningCode.ESTIMATE_UNCERTAIN)
           ("The declared load rise (" +:+ pretty (load_overshoot_bytes demand) +:+ " bytes) or "
            +:+ "minimum swap (" +:+ pretty (minimum_swap_bytes demand) +:+ " bytes) is above the "
            +:+ "largest swap setting (" +:+ pretty (maximum_gib SWAP_POLICY) +:+ " GiB); it is "
            +:+ "tried with that and the host memory guard decides.") warning (Some node) None]
      else [] in
    match capacity with
    | None => reasons
    | Some c =>
        let sw := swap c in
        let usable := usable_swap_bytes (swap_total_bytes sw) in
        if _swap_carries demand sw true then reasons
        else
          let setting := needed_setting rise minimum sw in
          let setting_text :=
            match desired_bytes sw with
            | None => "no setting known"
            | Some d => "setting " +:+ pretty d +:+ " bytes"
            end in
          (reasons ++
           [_reason (value ResourceBlockerCode.INSUFFICIENT_SWAP)
              ("The load rises " +:+ pretty rise +:+ " bytes above its steady demand and needs at "
               +:+ "least " +:+ pretty minimum +:+ " bytes of swap. Swap: "
               +:+ pretty (swap_total_bytes sw) +:+ " bytes active (" +:+ setting_text +:+ "), "
               +:+ pretty (swap_used_bytes sw) +:+ " in use, " +:+ pretty (held_bytes sw)
               +:+ " held by loads still starting or job runs; " +:+ pretty usable
               +:+ " bytes are usable within the host memory guard's margins. "
               +:+ swap_remedy setting sw) blocker (Some node)
              (Some {| active_bytes := swap_total_bytes sw; evidence_desired_bytes := desired_bytes sw;
                       evidence_used_bytes := swap_used_bytes sw;
                       evidence_held_bytes := held_bytes sw; usable_bytes := usable;
                       rise_bytes := rise; needed_setting_bytes := setting |})])%list
    end.

Definition stop_can_clear_swap (demand : ResourceDemand) (sw : SwapCapacity) : bool :=
  _swap_carries demand sw false.

(** ** Memory *)
Section memory.
Context (evaluate_memory_admission : admission_rule) (memory_floor_bytes : Z)
  (planned_stops : list PlannedStopRelease).

(** The default arguments of the external rule are zero. *)
Definition bare_input (demand pool occupied : Z) : AdmissionInput :=
  {| in_demand := demand; in_pool := pool; in_occupied := occupied; in_reserved := 0;
     in_unmaterialized := 0; in_unknown := 0; in_release := 0; in_floor := memory_floor_bytes |}.

Definition _above_idle_maximum (capacity : CapacitySnapshot) (demand_bytes : Z) (stopping : bool)
  : result (option string) :=
  match available_bytes capacity with
  | None => Ok None
  | Some pool =>
      alone ← evaluate_memory_admission (bare_input demand_bytes pool 0);
      if negb (admissible alone) then
        Ok (Some ("The estimated demand of " +:+ pretty demand_bytes +:+ " bytes plus the "
                  +:+ pretty memory_floor_bytes +:+ "-byte platform floor exceeds this Spark's "
                  +:+ pretty pool +:+ "-byte memory pool; an idle Spark admits less"))
      else
        best ← evaluate_memory_admission
                 (bare_input demand_bytes pool
                    (Z.max 0 (default 0 (occupied_bytes capacity) - free_upside_bytes capacity)));
        if _holds_nothing capacity stopping && negb (admissible best) then
          Ok (Some ("The host itself uses "
                    +:+ match occupied_bytes capacity with Some o => pretty o | None => "None" end
                    +:+ " of this Spark's "
                    +:+ pretty pool +:+ "-byte pool, and the estimated demand of "
                    +:+ pretty demand_bytes +:+ " bytes leaves " +:+ pretty (free_after_bytes best)
                    +:+ " bytes before the required " +:+ pretty memory_floor_bytes
                    +:+ "-byte floor even at the most free memory the "
                    +:+ "Spark reported recently; an idle Spark admits less"))
        else Ok None
  end.

(** [releases]: the planned stops' bytes by node and memory kind. *)
Definition valid_release (s : PlannedStopRelease) : option Z :=
  if planned s then valid_bound (release_bytes s) else None.

Definition releases : gmap (string * string) Z :=
  fold_left (fun acc s =>
      match valid_release s with
      | Some b => let k := (stop_node_id s, stop_memory_kind s) in
                  <[k := default 0 (acc !! k) + b]> acc
      | None => acc
      end) planned_stops ∅.

Definition stop_reasons : list ResourceReason :=
  (fun s => _reason (value ResourcePlanningCode.STOP_RELEASE_UNKNOWN)
              "A planned stop has no valid capacity release evidence." blocker
              (Some (stop_node_id s)) None)
  <$> List.filter (fun s => planned s && bool_decide (valid_bound (release_bytes s) = None))
        planned_stops.

(** The release for a node's pool: its own kind, or the largest of an alias kind. *)
Definition release_for (node kind : string) : Z :=
  let own := default 0 (releases !! (node, kind)) in
  if own =? 0 then
    default 0
      (max_list
         (snd <$> List.filter (fun e => bool_decide (fst (fst e) = node)
                                        && _same_memory_kind (snd (fst e)) kind)
                    (map_to_list releases)))
  else own.

Definition stopping_at (node : string) : bool :=
  existsb (fun s => planned s && bool_decide (stop_node_id s = node)) planned_stops.

Definition unknown_plan (node : string) (demand : ResourceDemand) (rs : list ResourceReason)
  : NodeCapacityPlan :=
  {| plan_node_id := node; required_bytes := total_bytes demand; current_free_after_bytes := None;
     after_stop_free_after_bytes := None; selected_free_after_bytes := None; stop_required := false;
     node_allowed := false; node_reasons := rs; insufficient_components := [];
     plan_residuals := [] |}.

Definition missing_capacity_plan (node : string) (demand : ResourceDemand) : NodeCapacityPlan :=
  unknown_plan node demand
    (demand_reasons demand ++
     [_reason (value ResourceBlockerCode.CAPACITY_UNKNOWN)
        "Capacity evidence is unavailable for the selected rank." blocker (Some node) None])%list.

(** The evidence checks before any arithmetic. *)
Definition evidence_reasons (node : string) (c : CapacitySnapshot) : list ResourceReason :=
  let check name v :=
    match valid_bound v with
    | Some _ => []
    | None => [_reason (value ResourceBlockerCode.CAPACITY_UNKNOWN)
                 ("Current " +:+ name +:+ " capacity evidence is missing or invalid.") blocker
                 (Some node) None]
    end in
  (check "available" (available_bytes c) ++ check "occupied" (occupied_bytes c)
   ++ check "reserved" (reserved_bytes c) ++ check "unmaterialized" (unmaterialized_bytes c)
   ++ (if mem (evidence_state c) [unknown; stale] then
         [_reason (value ResourceBlockerCode.CAPACITY_UNKNOWN)
            "Current capacity evidence is missing or stale." blocker (Some node) None]
       else []))%list.

(** An estimate claims at most the Spark less the floor. *)
Definition charged_bytes (total available : Z) : Z :=
  if available <=? memory_floor_bytes then total else Z.min total (available - memory_floor_bytes).

(** The reasons of a demand that is not simply tried. *)
Definition fit_reasons (node : string) (c : CapacitySnapshot) (release : Z)
    (current after : MemoryAdmission) : list ResourceReason :=
  let residuals := unknown_run_residuals c in
  let unknown_upper := sum_list (maximum_bytes <$> residuals) in
  let now_free := free_after_bytes current in
  let without_unknown := now_free + unknown_upper in
  let budget := commitment_headroom_bytes current in
  let budget_after_stop := commitment_headroom_bytes after in
  let after_stop := free_after_bytes after in
  let released := negb (release =? 0) in
  ((if (budget <? 0) && (negb released || (budget_after_stop <? 0)) then
      [_reason (value ResourceBlockerCode.INSUFFICIENT_RESERVATION_BUDGET)
         ("Exact memory commitments plus demand and reserve exceed the physical pool by "
          +:+ pretty (- budget) +:+ " bytes." +:+ _charged_claims_detail c (- budget))
         blocker (Some node) None]
    else []) ++
   (if (memory_floor_bytes <=? without_unknown) && (now_free <? memory_floor_bytes)
       && negb released then
      [_reason (value ResourceBlockerCode.RESIDENT_USAGE_UNKNOWN)
         (_resident_usage_uncertainty_detail c residuals false) blocker (Some node) None]
    else if (without_unknown <? memory_floor_bytes) && negb released then
      [_reason (value ResourceBlockerCode.INSUFFICIENT_CAPACITY)
         ("Observed free capacity less definite claims and selected demand leaves "
          +:+ pretty without_unknown +:+ " bytes before the required "
          +:+ pretty memory_floor_bytes
          +:+ "-byte reserve, even if retained runs use zero bytes."
          +:+ _charged_claims_detail c (memory_floor_bytes - without_unknown))
         blocker (Some node) None]
    else if released && (after_stop <? memory_floor_bytes) then
      [_reason (value ResourceBlockerCode.INSUFFICIENT_CAPACITY_AFTER_STOP)
         ("Selected demand leaves " +:+ pretty after_stop +:+ " bytes after planned stops; "
          +:+ pretty memory_floor_bytes +:+ " bytes must remain reserved.")
         blocker (Some node) None]
    else if negb released && (memory_floor_bytes <=? now_free) && (0 <=? budget)
            && match residuals with [] => false | _ => true end then
      [_reason (value ResourceBlockerCode.RESIDENT_USAGE_UNKNOWN)
         (_resident_usage_uncertainty_detail c residuals true) warning (Some node) None]
    else []))%list.

(** An estimate above the idle maximum is tried as the only claim on an empty Spark. *)
Definition is_tried (node : string) (c : CapacitySnapshot) (above : option string)
    (available occupied : Z) : bool :=
  bool_decide (above <> None) && _holds_nothing c (stopping_at node)
  && (0 <? available - occupied - memory_floor_bytes).

(** The decision for one pool from the admission rule's two answers. *)
Definition decide_pool (node : string) (c : CapacitySnapshot) (rs : list ResourceReason)
    (charged release : Z) (current after : MemoryAdmission) (above : option string) (tried : bool)
  : NodeCapacityPlan :=
  let residuals := unknown_run_residuals c in
  let released := negb (release =? 0) in
  let fits := if released then admissible after else admissible current in
  let more :=
    if tried then
      [_reason (value ResourcePlanningCode.ESTIMATE_UNCERTAIN)
         (default EmptyString above +:+ "; it is tried as the only claim on this Spark (claim "
          +:+ pretty charged +:+ " bytes) and the host memory guard stops it if it runs out.")
         warning (Some node) None]
    else fit_reasons node c release current after in
  let known z := match residuals with [] => Some z | _ => None end in
  let selected := if released then free_after_bytes after else free_after_bytes current in
  {| plan_node_id := node; required_bytes := Some charged;
     current_free_after_bytes := known (free_after_bytes current);
     after_stop_free_after_bytes := known (free_after_bytes after);
     selected_free_after_bytes := known selected;
     stop_required := negb (admissible current) && admissible after && (0 <? release);
     node_allowed := (tried || fits) && negb (existsb is_blocker rs);
     node_reasons := (rs ++ more)%list;
     insufficient_components :=
       if negb (tried || admissible current) then [memory_kind c] else [];
     plan_residuals := residuals |}.

(** One pool of one rank. *)
Definition plan_pool (node : string) (demand : ResourceDemand) (c : CapacitySnapshot)
  : result NodeCapacityPlan :=
  let rs := (demand_reasons demand ++ evidence_reasons node c)%list in
  match available_bytes c, occupied_bytes c, reserved_bytes c, unmaterialized_bytes c,
        total_bytes demand with
  | Some available, Some occupied, Some reserved, Some unmaterialized, Some total =>
      if existsb is_blocker rs then Ok (unknown_plan node demand rs)
      else
        let release := release_for node (memory_kind c) in
        let charged := charged_bytes total available in
        let input rel :=
          {| in_demand := charged; in_pool := available; in_occupied := occupied;
             in_reserved := reserved; in_unmaterialized := unmaterialized;
             in_unknown := sum_list (maximum_bytes <$> unknown_run_residuals c);
             in_release := rel; in_floor := memory_floor_bytes |} in
        current ← evaluate_memory_admission (input 0);
        after ← evaluate_memory_admission (input release);
        above ← _above_idle_maximum c total (stopping_at node);
        Ok (decide_pool node c rs charged release current after above
              (is_tried node c above available occupied))
  | _, _, _, _, _ => Ok (unknown_plan node demand rs)
  end.

(** A node whose memory is several pools must fit each of them. *)
Definition merge_parts (node : string) (parts : list NodeCapacityPlan) : NodeCapacityPlan :=
  {| plan_node_id := node;
     required_bytes := _minimum_known (required_bytes <$> parts);
     current_free_after_bytes := _minimum_known (current_free_after_bytes <$> parts);
     after_stop_free_after_bytes := _minimum_known (after_stop_free_after_bytes <$> parts);
     selected_free_after_bytes := _minimum_known (selected_free_after_bytes <$> parts);
     stop_required := existsb stop_required parts;
     node_allowed := forallb node_allowed parts;
     node_reasons := dedupe (concat (node_reasons <$> parts));
     insufficient_components := dedupe (concat (insufficient_components <$> parts));
     plan_residuals := dedupe (concat (plan_residuals <$> parts)) |}.

(** One node of the plan; [components] are planned recursively, each looked up under
    the selected node. *)
Fixpoint plan_snapshot (node : string) (demand : ResourceDemand) (c : CapacitySnapshot)
  : result NodeCapacityPlan :=
  match components c with
  | [] => plan_pool node demand c
  | _ =>
      parts ← traverse (fun p =>
                  if decide (node_id p = node) then plan_snapshot node demand p
                  else Ok (missing_capacity_plan node demand)) (components c);
      Ok (merge_parts node parts)
  end.

(** [{item.node_id: item for item in capacities}.get(node)]: the last one wins. *)
Definition capacity_of (capacities : list CapacitySnapshot) (node : string)
  : option CapacitySnapshot :=
  find (fun c => bool_decide (node_id c = node)) (reverse capacities).

Definition plan_node (capacities : list CapacitySnapshot) (r : string * ResourceDemand)
  : result NodeCapacityPlan :=
  match capacity_of capacities (fst r) with
  | None => Ok (missing_capacity_plan (fst r) (snd r))
  | Some c => plan_snapshot (fst r) (snd r) c
  end.

(** [requirements] is the mapping in its iteration order. *)
Definition _plan_memory_capacity (requirements : list (string * ResourceDemand))
    (capacities : list CapacitySnapshot) : result CapacityPlan :=
  ns ← traverse (plan_node capacities) requirements;
  let reasons := (stop_reasons ++ concat (node_reasons <$> ns))%list in
  Ok {| nodes := ns;
        plan_allowed := match ns with [] => false | _ => true end && forallb node_allowed ns
                        && negb (existsb is_blocker reasons);
        stop_before_prepare := existsb stop_required ns;
        plan_reasons := reasons |}.

(** The swap check of one planned node. *)
Definition with_swap (demand : ResourceDemand) (capacity : option CapacitySnapshot)
    (n : NodeCapacityPlan) : NodeCapacityPlan :=
  let found := _load_swap_reason (plan_node_id n) demand capacity in
  match found with
  | [] => n
  | _ =>
      {| plan_node_id := plan_node_id n; required_bytes := required_bytes n;
         current_free_after_bytes := current_free_after_bytes n;
         after_stop_free_after_bytes := after_stop_free_after_bytes n;
         selected_free_after_bytes := selected_free_after_bytes n;
         stop_required := stop_required n;
         node_allowed := node_allowed n && negb (existsb is_blocker found);
         node_reasons := (node_reasons n ++ found)%list;
         insufficient_components := insufficient_components n;
         plan_residuals := plan_residuals n |}
  end.

(** [requirements[node]] *)
Definition requirement_of (requirements : list (string * ResourceDemand)) (node : string)
  : result ResourceDemand :=
  match find (fun r => bool_decide (fst r = node)) requirements with
  | Some r => Ok (snd r)
  | None => Raise (KeyError node)
  end.

Definition plan_capacity (requirements : list (string * ResourceDemand))
    (capacities : list CapacitySnapshot) : result CapacityPlan :=
  memory ← _plan_memory_capacity requirements capacities;
  checked ← traverse (fun n =>
      demand ← requirement_of requirements (plan_node_id n);
      let capacity := capacity_of capacities (plan_node_id n) in
      Ok (with_swap demand capacity n, _load_swap_reason (plan_node_id n) demand capacity))
    (nodes memory);
  let swap_reasons := concat (snd <$> checked) in
  Ok {| nodes := fst <$> checked;
        plan_allowed := plan_allowed memory && negb (existsb is_blocker swap_reasons);
        stop_before_prepare := stop_before_prepare memory;
        plan_reasons := (plan_reasons memory ++ swap_reasons)%list |}.
End memory.
