(* ===== verification/CapacityFacts.v ===== *)
(** * What a capacity plan promises

    Against [AdmissionContract], the interface of the external admission rule: an
    allowed rank leaves its floor free and exceeds no commitment (or is the tried
    single claim on an empty Spark), a refusal names a blocker, and a wait for swap
    names a setting that carries the load. *)
From S2P Require Import Prelude Vocabulary ReasonCodes Swap Blockers ResourceTypes Demand.
From S2P Require Import Capacity.

(** ** A rule that meets the contract, for concrete evaluations *)
Definition headroom_rule : admission_rule := fun i =>
  Ok {| admissible := (in_floor i <=? free_after i) && (0 <=? commitment_headroom i);
        free_after_bytes := free_after i;
        commitment_headroom_bytes := commitment_headroom i |}.

#[global] Instance headroom_rule_contract : AdmissionContract headroom_rule.
Proof.
  constructor. intros i _. eexists. split; [reflexivity|]. simpl. split; [done|]. split; [done|].
  rewrite andb_true_iff, !Z.leb_le. tauto.
Qed.

Section facts.
Context (rule : admission_rule) `{!AdmissionContract rule} (floor : Z)
  (stops : list PlannedStopRelease) (Hfloor : 0 <= floor).

Lemma rule_ok i : nonneg_input i -> is_ok (rule i).
Proof. intros H. destruct (rule_returns i H) as (a & Ha & _). by exists a. Qed.

(** ** Releases are never negative *)
Lemma releases_nonneg k : 0 <= default 0 (releases stops !! k).
Proof.
  unfold releases. assert (forall acc : gmap (string * string) Z,
    (forall k, 0 <= default 0 (acc !! k)) ->
    forall k, 0 <= default 0 (fold_left (fun acc s =>
      match valid_release s with
      | Some b => let k := (stop_node_id s, stop_memory_kind s) in
                  <[k := default 0 (acc !! k) + b]> acc
      | None => acc
      end) stops acc !! k)) as H.
  { induction stops as [|s l IH]; intros acc Hacc; simpl; [done|]. apply IH.
    destruct (valid_release s) as [b|] eqn:Hb; [|done]. intros k'. simpl.
    assert (0 <= b). { unfold valid_release, valid_bound in Hb. repeat case_match; simplify_eq; lia. }
    destruct (decide (k' = (stop_node_id s, stop_memory_kind s))) as [->|Hne].
    - rewrite lookup_insert_eq. simpl. specialize (Hacc (stop_node_id s, stop_memory_kind s)). lia.
    - rewrite lookup_insert_ne by congruence. apply Hacc. }
  apply H. intros k'. rewrite lookup_empty. simpl. lia.
Qed.

Lemma release_for_nonneg node kind : 0 <= release_for stops node kind.
Proof.
  unfold release_for. case_match; [|apply releases_nonneg].
  destruct (max_list _) as [m|] eqn:Hm; simpl; [|lia].
  apply max_list_spec in Hm as [([k v] & Hv & Hin)%list_elem_of_fmap _]. simpl in Hv. subst m.
  apply list_elem_of_In, filter_In in Hin as [Hin _].
  apply list_elem_of_In, elem_of_map_to_list in Hin.
  pose proof (releases_nonneg k) as Hk. by rewrite Hin in Hk.
Qed.

(** ** One pool *)
Record measured_demand (d : ResourceDemand) (c : CapacitySnapshot) : Prop := {
  md_total t : total_bytes d = Some t -> 0 <= t;
  md_residuals : Forall (fun r => 0 <= maximum_bytes r) (unknown_run_residuals c);
}.

Definition unknown_upper (c : CapacitySnapshot) : Z :=
  sum_list (maximum_bytes <$> unknown_run_residuals c).

Lemma unknown_upper_nonneg d c : measured_demand d c -> 0 <= unknown_upper c.
Proof.
  intros [_ H]. apply sum_list_nonneg. by apply Forall_fmap.
Qed.

(** What an allowed pool guarantees. *)
Definition pool_fits (node : string) (c : CapacitySnapshot) (claim : Z) : Prop :=
  exists a o r u, available_bytes c = Some a /\ occupied_bytes c = Some o /\
    reserved_bytes c = Some r /\ unmaterialized_bytes c = Some u /\
    let rel := release_for stops node (memory_kind c) in
    floor <= a - o - u - unknown_upper c - claim + rel /\
    r + claim + floor <= a + rel.

(** A try: the only claim on an empty Spark that has memory left. *)
Definition pool_tried (node : string) (c : CapacitySnapshot) (claim : Z) : Prop :=
  _holds_nothing c (stopping_at stops node) = true /\
  exists a o, available_bytes c = Some a /\ occupied_bytes c = Some o /\
    claim + floor <= a /\ o + floor < a.

Lemma evidence_valid node c :
  existsb is_blocker (evidence_reasons node c) = false ->
  (forall v, available_bytes c = Some v -> 0 <= v) /\
  (forall v, occupied_bytes c = Some v -> 0 <= v) /\
  (forall v, reserved_bytes c = Some v -> 0 <= v) /\
  (forall v, unmaterialized_bytes c = Some v -> 0 <= v).
Proof.
  unfold evidence_reasons. rewrite !existsb_app, !orb_false_iff.
  intros (H1 & H2 & H3 & H4 & _).
  split_and!; intros v Hv; rewrite Hv in *; unfold valid_bound in *;
    destruct (0 <=? v) eqn:E; try lia; discriminate.
Qed.

Lemma charged_bounds total a :
  0 <= total -> 0 <= charged_bytes floor total a <= total /\
  (floor < a -> charged_bytes floor total a + floor <= a).
Proof. intros. unfold charged_bytes. destruct (a <=? floor) eqn:E; bools; lia. Qed.
(** The rule's answers for a measured pool. *)
Lemma pool_answers d node c t a o r u rel :
  measured_demand d c -> total_bytes d = Some t -> 0 <= rel ->
  available_bytes c = Some a -> occupied_bytes c = Some o -> reserved_bytes c = Some r ->
  unmaterialized_bytes c = Some u -> existsb is_blocker (evidence_reasons node c) = false ->
  exists m, rule {| in_demand := charged_bytes floor t a; in_pool := a; in_occupied := o;
                    in_reserved := r; in_unmaterialized := u; in_unknown := unknown_upper c;
                    in_release := rel; in_floor := floor |} = Ok m /\
    free_after_bytes m = a - o - u - unknown_upper c - charged_bytes floor t a + rel /\
    commitment_headroom_bytes m = a - r - charged_bytes floor t a - floor + rel /\
    (admissible m = true -> floor <= free_after_bytes m /\ 0 <= commitment_headroom_bytes m) /\
    (charged_bytes floor t a + floor <= a -> floor <= free_after_bytes m ->
     0 <= commitment_headroom_bytes m -> admissible m = true).
Proof.
  intros Hm Ht Hrel Ha Ho Hr Hu Hev.
  destruct (evidence_valid node c Hev) as (Va & Vo & Vr & Vu).
  pose proof (unknown_upper_nonneg d c Hm). pose proof (md_total _ _ Hm t Ht) as Htot.
  destruct (charged_bounds t a Htot) as [Hc _].
  match goal with |- exists m, rule ?i = _ /\ _ =>
    destruct (rule_returns i) as (m & Hm1 & Hm2 & Hm3 & Hm4 & Hm5) end.
  { unfold nonneg_input. simpl. pose proof (Va a Ha). pose proof (Vo o Ho). pose proof (Vr r Hr).
    pose proof (Vu u Hu). lia. }
  exists m. split; [done|]. rewrite Hm2, Hm3. unfold free_after, commitment_headroom in *.
  simpl in *. split_and!; [done|done|exact Hm4|exact Hm5].
Qed.

Lemma above_ok d node c t stopping :
  measured_demand d c -> total_bytes d = Some t ->
  existsb is_blocker (evidence_reasons node c) = false ->
  is_ok (_above_idle_maximum rule floor c t stopping).
Proof.
  intros Hm Ht Hev. destruct (evidence_valid node c Hev) as (Va & _).
  pose proof (md_total _ _ Hm t Ht).
  unfold _above_idle_maximum. destruct (available_bytes c) as [a|] eqn:Ha; [|apply is_ok_Ok].
  pose proof (Va a eq_refl).
  apply is_ok_bind; [apply rule_ok; unfold nonneg_input; simpl; lia|]. intros m _.
  case_match; [apply is_ok_Ok|].
  apply is_ok_bind; [apply rule_ok; unfold nonneg_input; simpl; lia|]. intros b _.
  case_match; apply is_ok_Ok.
Qed.

(** The claim a rank makes on a pool is safe: it fits, or it is a single try. *)
Definition pool_safe (node : string) (d : ResourceDemand) (c : CapacitySnapshot) : Prop :=
  exists t a, total_bytes d = Some t /\ available_bytes c = Some a /\
    (pool_fits node c (charged_bytes floor t a) \/ pool_tried node c (charged_bytes floor t a)).

(** What a pool's plan is, once its evidence is sound. *)
Record pool_plan (node : string) (d : ResourceDemand) (c : CapacitySnapshot)
    (n : NodeCapacityPlan) : Prop := {
  pp_node : plan_node_id n = node;
  pp_safe : node_allowed n = true ->
    existsb is_blocker (node_reasons n) = false /\ pool_safe node d c;
  pp_explained : node_allowed n = false ->
    (total_bytes d = None -> existsb is_blocker (demand_reasons d) = true) ->
    (forall a, available_bytes c = Some a -> floor < a) ->
    existsb is_blocker (node_reasons n) = true;
}.

Lemma unknown_pool_plan node d c rs :
  existsb is_blocker rs = true \/
    (total_bytes d = None /\
     (existsb is_blocker (demand_reasons d) = true -> existsb is_blocker rs = true)) ->
  pool_plan node d c (unknown_plan node d rs).
Proof.
  intros Hrs. constructor; [done|done|]. intros _ Hd _. simpl.
  destruct Hrs as [?|[Hn Hi]]; [done|]. auto.
Qed.

(** Exactly when the fit's reasons block. *)
Lemma fit_reasons_block node c release cur aft :
  0 <= unknown_upper c ->
  existsb is_blocker (fit_reasons floor node c release cur aft) = true <->
  commitment_headroom_bytes cur < 0 /\ (release = 0 \/ commitment_headroom_bytes aft < 0) \/
  release = 0 /\ free_after_bytes cur < floor \/
  release <> 0 /\ free_after_bytes aft < floor.
Proof.
  intros Hu. unfold fit_reasons. fold (unknown_upper c). rewrite existsb_app, orb_true_iff.
  set (cur_free := free_after_bytes cur). set (aft_free := free_after_bytes aft).
  set (cb := commitment_headroom_bytes cur). set (ab := commitment_headroom_bytes aft).
  destruct (Z.eqb_spec release 0) as [E|E]; simpl.
  - destruct (Z.ltb_spec cb 0), (Z.leb_spec floor (cur_free + unknown_upper c)),
      (Z.ltb_spec cur_free floor), (Z.ltb_spec (cur_free + unknown_upper c) floor),
      (Z.leb_spec floor cur_free), (Z.leb_spec 0 cb); simpl; try lia;
      repeat case_match; simpl; intuition (done || lia).
  - rewrite !andb_false_r. simpl.
    destruct (Z.ltb_spec cb 0), (Z.ltb_spec ab 0), (Z.ltb_spec aft_free floor); simpl;
      intuition (done || lia).
Qed.

(** The decision follows the two answers. *)
Lemma decide_pool_spec node d c rs t a o r u cur aft above :
  let rel := release_for stops node (memory_kind c) in
  let claim := charged_bytes floor t a in
  let n := decide_pool floor node c rs claim rel cur aft above
             (is_tried floor stops node c above a o) in
  measured_demand d c -> total_bytes d = Some t -> existsb is_blocker rs = false ->
  available_bytes c = Some a -> occupied_bytes c = Some o -> reserved_bytes c = Some r ->
  unmaterialized_bytes c = Some u -> 0 <= o ->
  free_after_bytes cur = a - o - u - unknown_upper c - claim + 0 ->
  commitment_headroom_bytes cur = a - r - claim - floor + 0 ->
  (admissible cur = true -> floor <= free_after_bytes cur /\ 0 <= commitment_headroom_bytes cur) ->
  (claim + floor <= a -> floor <= free_after_bytes cur -> 0 <= commitment_headroom_bytes cur ->
   admissible cur = true) ->
  free_after_bytes aft = a - o - u - unknown_upper c - claim + rel ->
  commitment_headroom_bytes aft = a - r - claim - floor + rel ->
  (admissible aft = true -> floor <= free_after_bytes aft /\ 0 <= commitment_headroom_bytes aft) ->
  (claim + floor <= a -> floor <= free_after_bytes aft -> 0 <= commitment_headroom_bytes aft ->
   admissible aft = true) ->
  pool_plan node d c n.
Proof.
  intros rel claim n Hm Ht Hrs Ha Ho Hr Hu Ho0 C1 C2 C3 C4 A1 A2 A3 A4.
  pose proof (release_for_nonneg node (memory_kind c)) as Hrel. fold rel in Hrel.
  destruct (charged_bounds t a (md_total _ _ Hm t Ht)) as [Hc1 Hc2]. fold claim in Hc1, Hc2.
  pose proof (fit_reasons_block node c rel cur aft (unknown_upper_nonneg d c Hm)) as Hfit.
  set (fits := if negb (rel =? 0) then admissible aft else admissible cur).
  assert (fits = true ->
            floor <= a - o - u - unknown_upper c - claim + rel /\ r + claim + floor <= a + rel) as Hsafe.
  { subst fits. destruct (Z.eqb_spec rel 0) as [E|E]; simpl; intros H; [apply C3 in H|apply A3 in H]; lia. }
  assert (claim + floor <= a -> floor <= a - o - u - unknown_upper c - claim + rel ->
            r + claim + floor <= a + rel -> fits = true) as Hfits.
  { subst fits. destruct (Z.eqb_spec rel 0) as [E|E]; simpl; intros; [apply C4|apply A4]; lia. }
  constructor; [done| |]; subst n; unfold decide_pool; cbn [node_allowed node_reasons required_bytes];
    fold fits; rewrite Hrs, andb_true_r, existsb_app, Hrs.
  - intros Hall. destruct (is_tried floor stops node c above a o) eqn:Htr; simpl in *.
    + split; [done|]. exists t, a. split; [done|]. split; [done|]. right.
      unfold is_tried in Htr. bools. split; [done|]. exists a, o. split_and!; [done|done|apply Hc2; lia|lia].
    + split; [|exists t, a; split; [done|]; split; [done|]; left; exists a, o, r, u;
                by apply Hsafe in Hall].
      apply not_true_iff_false. rewrite Hfit. apply Hsafe in Hall. lia.
  - intros Hall _ Hfl. apply orb_false_iff in Hall as [-> Hall]. simpl. apply Hfit.
    specialize (Hfl a Ha). apply not_true_iff_false in Hall.
    destruct (Z.leb_spec floor (a - o - u - unknown_upper c - claim + rel)),
      (Z.leb_spec (r + claim + floor) (a + rel)); try lia. exfalso. apply Hall, Hfits; lia.
Qed.

Lemma plan_pool_spec node d c :
  measured_demand d c ->
  exists n, plan_pool rule floor stops node d c = Ok n /\ pool_plan node d c n.
Proof.
  intros Hm. unfold plan_pool. set (rs := (demand_reasons d ++ evidence_reasons node c)%list).
  assert (forall x : option Z, x = None -> x = available_bytes c \/ x = occupied_bytes c \/
            x = reserved_bytes c \/ x = unmaterialized_bytes c -> existsb is_blocker rs = true)
    as Hmiss.
  { intros x -> Hx. subst rs. rewrite existsb_app, orb_true_iff. right. unfold evidence_reasons.
    rewrite !existsb_app, !orb_true_iff.
    destruct Hx as [<-|[<-|[<-|<-]]]; simpl; auto 6. }
  assert (forall x : option Z, x = None -> x = available_bytes c \/ x = occupied_bytes c \/
            x = reserved_bytes c \/ x = unmaterialized_bytes c ->
            exists n, Ok (unknown_plan node d rs) = Ok n /\ pool_plan node d c n) as Hno.
  { intros x Hx Hin. eexists; split; [done|]. apply unknown_pool_plan. left. eauto. }
  destruct (available_bytes c) as [a|] eqn:Ha; [|eapply Hno; eauto].
  destruct (occupied_bytes c) as [o|] eqn:Ho; [|eapply Hno; eauto].
  destruct (reserved_bytes c) as [r|] eqn:Hr; [|eapply Hno; eauto].
  destruct (unmaterialized_bytes c) as [u|] eqn:Hu; [|eapply Hno; eauto 6].
  destruct (total_bytes d) as [t|] eqn:Ht.
  2: { eexists; split; [done|]. apply unknown_pool_plan. right. split; [done|].
       intros H. subst rs. by rewrite existsb_app, H. }
  destruct (existsb is_blocker rs) eqn:Hb;
    [eexists; split; [done|]; apply unknown_pool_plan; by left|].
  assert (existsb is_blocker (evidence_reasons node c) = false) as Hev.
  { subst rs. rewrite existsb_app in Hb. by apply orb_false_iff in Hb as [_ ?]. }
  pose proof (release_for_nonneg node (memory_kind c)) as Hrel. fold (unknown_upper c).
  destruct (pool_answers d node c t a o r u 0) as (cur & -> & C1 & C2 & C3 & C4); try done.
  destruct (pool_answers d node c t a o r u (release_for stops node (memory_kind c)))
    as (aft & -> & A1 & A2 & A3 & A4); try done.
  destruct (above_ok d node c t (stopping_at stops node) Hm Ht Hev) as [above ->].
  eexists. split; [reflexivity|].
  destruct (evidence_valid node c Hev) as (_ & Vo & _).
  eapply decide_pool_spec; eauto.
Qed.
(** ** A node of several pools *)
Fixpoint pools (c : CapacitySnapshot) : list CapacitySnapshot :=
  match components c with
  | [] => [c]
  | _ => concat (map pools (components c))
  end.

Lemma pools_eq c :
  pools c = match components c with [] => [c] | l => concat (pools <$> l) end.
Proof. by destruct c as [? ? ? ? ? ? ? [|p ps] ? ? ? ? ? ? ? ?]. Qed.

Definition plan_part (node : string) (d : ResourceDemand) (p : CapacitySnapshot)
  : result NodeCapacityPlan :=
  if decide (node_id p = node) then plan_snapshot rule floor stops node d p
  else Ok (missing_capacity_plan node d).

Lemma plan_snapshot_eq node d c :
  plan_snapshot rule floor stops node d c =
  match components c with
  | [] => plan_pool rule floor stops node d c
  | l => parts ← traverse (plan_part node d) l; Ok (merge_parts node parts)
  end.
Proof. by destruct c as [? ? ? ? ? ? ? [|p ps] ? ? ? ? ? ? ? ?]. Qed.

(** Induction over a snapshot and its pools. *)
Lemma snapshot_ind (P : CapacitySnapshot -> Prop) :
  (forall c, Forall P (components c) -> P c) -> forall c, P c.
Proof.
  intros H. fix go 1. intros c. apply H. destruct c as [? ? ? ? ? ? ? l ? ? ? ? ? ? ? ?]. simpl.
  induction l as [|p l IH]; constructor; [apply go|exact IH].
Qed.

(** What the plan of a whole node promises. *)
Record node_plan (node : string) (d : ResourceDemand) (c : CapacitySnapshot)
    (n : NodeCapacityPlan) : Prop := {
  np_node : plan_node_id n = node;
  np_safe : node_allowed n = true ->
    existsb is_blocker (node_reasons n) = false /\ Forall (pool_safe node d) (pools c);
  np_explained : node_allowed n = false ->
    (total_bytes d = None -> existsb is_blocker (demand_reasons d) = true) ->
    Forall (fun p => forall a, available_bytes p = Some a -> floor < a) (pools c) ->
    existsb is_blocker (node_reasons n) = true;
}.

Lemma missing_plan node d c : node_plan node d c (missing_capacity_plan node d).
Proof.
  constructor; [done|done|]. intros _ _ _. simpl. by rewrite existsb_app, orb_true_r.
Qed.

Lemma existsb_dedupe (l : list ResourceReason) : existsb is_blocker (dedupe l) = existsb is_blocker l.
Proof.
  apply eq_bool_prop_intro. rewrite !Is_true_true, !existsb_exists.
  split; intros (x & Hx & Hb); exists x; (split; [|done]); apply list_elem_of_In;
    apply list_elem_of_In in Hx; by apply dedupe_elem.
Qed.

Lemma existsb_concat {A} (f : A -> list ResourceReason) (l : list A) :
  existsb is_blocker (concat (f <$> l)) = existsb (fun x => existsb is_blocker (f x)) l.
Proof.
  induction l as [|x l IH]; [done|]. rewrite fmap_cons. simpl. by rewrite existsb_app, IH.
Qed.

Lemma merge_plan node d c l parts :
  pools c = concat (pools <$> l) -> Forall2 (node_plan node d) l parts ->
  node_plan node d c (merge_parts node parts).
Proof.
  intros Hp Hall.
  constructor; [done| |]; cbn [node_allowed node_reasons merge_parts];
    rewrite ?existsb_dedupe, ?existsb_concat, Hp; clear Hp.
  - induction Hall as [|p n l parts [_ Hs _] _ IH]; simpl; [done|].
    intros [Hn Hns]%andb_true_iff. destruct (Hs Hn) as [-> Hf]. destruct (IH Hns) as [-> Hfs].
    split; [done|]. by apply Forall_app.
  - intros Hno Hd. induction Hall as [|p n l parts [_ _ He] _ IH]; simpl; [done|].
    intros [Hf1 Hf2]%Forall_app. simpl in Hno. apply orb_true_iff.
    destruct (node_allowed n); [right; by apply IH|left; by apply He].
Qed.

Lemma plan_snapshot_spec node d c :
  Forall (measured_demand d) (pools c) ->
  exists n, plan_snapshot rule floor stops node d c = Ok n /\ node_plan node d c n.
Proof.
  induction c as [c IH] using snapshot_ind. rewrite plan_snapshot_eq, pools_eq.
  destruct (components c) as [|p ps] eqn:Hc.
  - intros [Hm _]%Forall_cons_1. destruct (plan_pool_spec node d c Hm) as (n & -> & [H1 H2 H3]).
    exists n. split; [done|]. constructor; [done| |]; rewrite pools_eq, Hc.
    + intros Ha. destruct (H2 Ha) as [? ?]. split; [done|]. by constructor.
    + intros Ha Hd [Hf _]%Forall_cons_1. auto.
  - intros Hall.
    destruct (traverse_build (plan_part node d) (node_plan node d) (p :: ps))
      as (parts & -> & Hparts).
    { apply List.Forall_concat in Hall. rewrite Forall_fmap in Hall. unfold compose in Hall.
      intros q Hq. rewrite Forall_forall in IH, Hall. unfold plan_part.
      case_decide; [by apply IH; [|apply Hall]|]. eexists. split; [done|apply missing_plan]. }
    eexists. split; [reflexivity|]. eapply merge_plan; [|exact Hparts]. by rewrite pools_eq, Hc.
Qed.

(** ** The whole plan *)
Record sound_request (requirements : list (string * ResourceDemand))
    (capacities : list CapacitySnapshot) : Prop := {
  req_nodup : NoDup (fst <$> requirements);
  req_measured r c : r ∈ requirements -> capacity_of capacities (fst r) = Some c ->
    Forall (measured_demand (snd r)) (pools c);
}.

Lemma plan_node_spec requirements capacities r :
  sound_request requirements capacities -> r ∈ requirements ->
  exists n, plan_node rule floor stops capacities r = Ok n /\ plan_node_id n = fst r /\
    match capacity_of capacities (fst r) with
    | Some c => node_plan (fst r) (snd r) c n
    | None => n = missing_capacity_plan (fst r) (snd r)
    end.
Proof.
  intros [_ Hm] Hr. unfold plan_node. destruct (capacity_of capacities (fst r)) as [c|] eqn:Hc.
  - destruct (plan_snapshot_spec (fst r) (snd r) c (Hm r c Hr Hc)) as (n & -> & Hn).
    exists n. split; [done|]. split; [apply Hn|done].
  - eexists. split; [done|]. done.
Qed.

Lemma requirement_of_found requirements r :
  NoDup (fst <$> requirements) -> r ∈ requirements ->
  requirement_of requirements (fst r) = Ok (snd r).
Proof.
  intros Hnd Hr. unfold requirement_of.
  induction requirements as [|q l IH]; [by apply elem_of_nil in Hr|].
  rewrite fmap_cons in Hnd. apply NoDup_cons in Hnd as [Hq Hnd]. simpl.
  apply elem_of_cons in Hr as [->|Hr]; [by rewrite bool_decide_eq_true_2|].
  rewrite bool_decide_eq_false_2; [by apply IH|]. intros E. apply Hq. rewrite E.
  by apply list_elem_of_fmap_2.
Qed.

(** The swap reasons of one selected rank. *)
Definition swap_found (capacities : list CapacitySnapshot) (r : string * ResourceDemand)
  : list ResourceReason :=
  _load_swap_reason (fst r) (snd r) (capacity_of capacities (fst r)).

(** The plan as the sum of its ranks. *)
Lemma plan_capacity_runs requirements capacities :
  sound_request requirements capacities ->
  exists p ns, plan_capacity rule floor stops requirements capacities = Ok p /\
    Forall2 (fun r n => plan_node_id n = fst r /\
      match capacity_of capacities (fst r) with
      | Some c => node_plan (fst r) (snd r) c n
      | None => n = missing_capacity_plan (fst r) (snd r)
      end) requirements ns /\
    plan_allowed p =
      match ns with [] => false | _ => true end && forallb node_allowed ns
      && negb (existsb is_blocker (stop_reasons stops)
               || existsb (fun n => existsb is_blocker (node_reasons n)) ns)
      && negb (existsb (fun r => existsb is_blocker (swap_found capacities r)) requirements) /\
    existsb is_blocker (plan_reasons p) =
      existsb is_blocker (stop_reasons stops)
      || existsb (fun n => existsb is_blocker (node_reasons n)) ns
      || existsb (fun r => existsb is_blocker (swap_found capacities r)) requirements.
Proof.
  intros Hs. unfold plan_capacity, _plan_memory_capacity.
  destruct (traverse_build _ _ requirements (fun r => plan_node_spec _ capacities r Hs))
    as (ns & -> & Hns). cbn [mbind result_bind nodes plan_allowed plan_reasons].
  assert (exists checked, traverse (fun n =>
      demand ← requirement_of requirements (plan_node_id n);
      Ok (with_swap demand (capacity_of capacities (plan_node_id n)) n,
          _load_swap_reason (plan_node_id n) demand (capacity_of capacities (plan_node_id n)))) ns
    = Ok checked /\ snd <$> checked = swap_found capacities <$> requirements)
    as (checked & -> & Hsw).
  { assert (forall r, r ∈ requirements -> requirement_of requirements (fst r) = Ok (snd r)) as Hreq
      by (intros; apply requirement_of_found; [apply Hs|done]).
    clear Hs. revert Hreq. set (req := requirement_of requirements). clearbody req.
    induction Hns as [|r n l ns (Hid & _) _ IH]; intros Hreq; [by exists []|].
    destruct IH as (checked & Hc & Hf); [intros; apply Hreq; by right|].
    cbn [traverse]. rewrite Hid, Hreq by left. cbn [mbind result_bind]. rewrite Hc.
    eexists. split; [reflexivity|]. rewrite !fmap_cons, Hf. done. }
  eexists _, ns. split; [reflexivity|]. split; [exact Hns|]. cbn [plan_allowed plan_reasons].
  by rewrite Hsw, !existsb_app, !existsb_concat.
Qed.

Lemma allowed_plan_safe requirements capacities :
  sound_request requirements capacities ->
  exists p, plan_capacity rule floor stops requirements capacities = Ok p /\
    (plan_allowed p = true ->
     existsb is_blocker (plan_reasons p) = false /\
     forall r, r ∈ requirements ->
       exists c, capacity_of capacities (fst r) = Some c /\
         Forall (pool_safe (fst r) (snd r)) (pools c) /\
         existsb is_blocker (_load_swap_reason (fst r) (snd r) (Some c)) = false).
Proof.
  intros Hs. destruct (plan_capacity_runs requirements capacities Hs)
    as (p & ns & Hp & Hns & Hallow & Hblock).
  exists p. split; [done|]. rewrite Hallow, Hblock. clear Hallow Hblock.
  intros [((_ & Hall)%andb_true_iff & Hb)%andb_true_iff Hswap]%andb_true_iff.
  apply negb_true_iff in Hb, Hswap. rewrite Hb, Hswap. split; [done|].
  intros r Hr. apply list_elem_of_lookup in Hr as [i Hi].
  destruct (Forall2_lookup_l _ _ _ _ _ Hns Hi) as (n & Hn & Hid & Hplan).
  assert (node_allowed n = true) as Hok.
  { rewrite forallb_forall in Hall. apply Hall, list_elem_of_In, list_elem_of_lookup. by exists i. }
  destruct (capacity_of capacities (fst r)) as [c|] eqn:Hc; [|by subst n].
  exists c. split; [done|]. split; [by apply (np_safe _ _ _ _ Hplan)|].
  apply not_true_iff_false. intros Hbl. apply not_true_iff_false in Hswap. apply Hswap.
  apply existsb_exists. exists r. split; [|unfold swap_found; by rewrite Hc].
  apply list_elem_of_In, list_elem_of_lookup. by exists i.
Qed.

Lemma refused_plan_explained requirements capacities :
  sound_request requirements capacities -> requirements <> [] ->
  (forall r, r ∈ requirements -> total_bytes (snd r) = None ->
     existsb is_blocker (demand_reasons (snd r)) = true) ->
  (forall c p a, c ∈ capacities -> p ∈ pools c -> available_bytes p = Some a -> floor < a) ->
  exists p, plan_capacity rule floor stops requirements capacities = Ok p /\
    (plan_allowed p = false -> existsb is_blocker (plan_reasons p) = true).
Proof.
  intros Hs Hne Hd Hfl. destruct (plan_capacity_runs requirements capacities Hs)
    as (p & ns & Hp & Hns & Hallow & Hblock).
  exists p. split; [done|]. rewrite Hallow, Hblock. clear Hallow Hblock Hp.
  destruct (existsb is_blocker (stop_reasons stops)); [done|]. simpl.
  destruct (existsb (fun r => existsb is_blocker (swap_found _ r)) _); [by rewrite orb_true_r|].
  rewrite orb_false_r, andb_true_r. destruct (existsb _ ns) eqn:Hb; [done|]. simpl.
  rewrite andb_true_r. intros Hno. exfalso.
  destruct ns as [|n0 ns0] eqn:Ens; [by apply Forall2_nil_inv_r in Hns|]. rewrite <- Ens in *.
  replace (match ns with [] => false | _ => true end) with true in Hno by (by rewrite Ens).
  simpl in Hno. apply not_true_iff_false in Hno. apply Hno. apply forallb_forall.
  intros n Hn. destruct (node_allowed n) eqn:Ha; [done|]. exfalso.
  apply not_true_iff_false in Hb. apply Hb. apply existsb_exists. exists n. split; [done|].
  apply list_elem_of_In, list_elem_of_lookup in Hn as [i Hi].
  destruct (Forall2_lookup_r _ _ _ _ _ Hns Hi) as (r & Hr & _ & Hplan).
  assert (r ∈ requirements) as Hin by (apply list_elem_of_lookup; by exists i).
  destruct (capacity_of capacities (fst r)) as [c|] eqn:Hc.
  - apply (np_explained _ _ _ _ Hplan Ha (Hd r Hin)). rewrite Forall_forall. intros q Hq a Hav.
    eapply Hfl; [|exact Hq|exact Hav]. unfold capacity_of in Hc.
    apply List.find_some in Hc as [Hc _]. by rewrite <- list_elem_of_In, elem_of_reverse in Hc.
  - subst n. simpl. by rewrite existsb_app, orb_true_r.
Qed.

(** C24.  An allowed plan is safe.  For byte-count evidence the plan always returns; when
    it allows the load, every selected rank has capacity evidence, on every memory
    pool of its Spark the rank's claim leaves the floor free and exceeds no
    commitment once the planned stops released their bytes (or the rank is tried as
    the only claim on an empty Spark with memory left), the check of the Spark's swap
    finds no blocker for the load, and neither does the plan hold one. *)
Theorem plan_capacity_safe requirements capacities :
  sound_request requirements capacities ->
  exists p, plan_capacity rule floor stops requirements capacities = Ok p /\
    (plan_allowed p = true ->
     existsb is_blocker (plan_reasons p) = false /\
     forall r, r ∈ requirements ->
       exists c, capacity_of capacities (fst r) = Some c /\
         Forall (pool_safe (fst r) (snd r)) (pools c) /\
         existsb is_blocker (_load_swap_reason (fst r) (snd r) (Some c)) = false).
Proof. apply allowed_plan_safe. Qed.

(** A refusal is explained.  When every demand without a total names a blocker and
    every known pool is larger than the floor, a plan that refuses a non-empty
    request holds at least one blocker for the operator. *)
Theorem plan_refusal_explained requirements capacities :
  sound_request requirements capacities -> requirements <> [] ->
  (forall r, r ∈ requirements -> total_bytes (snd r) = None ->
     existsb is_blocker (demand_reasons (snd r)) = true) ->
  (forall c p a, c ∈ capacities -> p ∈ pools c -> available_bytes p = Some a -> floor < a) ->
  exists p, plan_capacity rule floor stops requirements capacities = Ok p /\
    (plan_allowed p = false -> existsb is_blocker (plan_reasons p) = true).
Proof. apply refused_plan_explained. Qed.
End facts.

(** ** Concrete plans *)
Definition plain_demand (total rise minimum : Z) : ResourceDemand := {|
  d_weights_bytes := None; d_runtime_overhead_bytes := None; context_bytes := None;
  concurrency_bytes := None; batch_bytes := None; total_bytes := Some total;
  demand_state := declared; demand_reasons := []; load_overshoot_bytes := rise;
  minimum_swap_bytes := minimum |}.

Definition plain_pool (node : string) (available occupied reserved : Z) : CapacitySnapshot := {|
  node_id := node; memory_kind := "unified"; available_bytes := Some available;
  occupied_bytes := Some occupied; reserved_bytes := Some reserved; evidence_state := fresh;
  evidence_digest := None; components := []; unmaterialized_bytes := Some 0;
  unknown_run_residuals := []; evidence_observed_at := None; kept_bytes := 0;
  unmaterialized_holders := []; releasing_bytes := 0; free_upside_bytes := 0;
  swap := NO_SWAP |}.

Lemma plain_sound d total rise minimum a o r :
  0 <= total -> d = plain_demand total rise minimum ->
  sound_request [("spk", d)] [plain_pool "spk" a o r].
Proof.
  intros Ht ->. constructor; [apply NoDup_singleton|].
  intros q c ->%list_elem_of_singleton. intros [= <-]. repeat constructor. simpl. by intros t [= <-].
Qed.

Lemma plan_capacity_safe_witness :
  exists p, plan_capacity headroom_rule 10 [] [("spk", plain_demand 60 0 0)]
              [plain_pool "spk" 100 20 20] = Ok p /\
    plan_allowed p = true /\ existsb is_blocker (plan_reasons p) = false.
Proof.
  destruct (plan_capacity_safe headroom_rule 10 [] ltac:(lia) [("spk", plain_demand 60 0 0)]
              [plain_pool "spk" 100 20 20]) as (p & Hp & Hsafe).
  { apply (plain_sound _ 60 0 0); [lia|reflexivity]. }
  exists p. split; [exact Hp|].
  assert (plan_allowed p = true) as Ha by (vm_compute in Hp; injection Hp as <-; reflexivity).
  split; [exact Ha|]. apply (Hsafe Ha).
Defined.

Lemma plan_refusal_explained_witness :
  exists p, plan_capacity headroom_rule 10 [] [("spk", plain_demand 60 0 0)]
              [plain_pool "spk" 100 50 50] = Ok p /\
    plan_allowed p = false /\ existsb is_blocker (plan_reasons p) = true.
Proof.
  destruct (plan_refusal_explained headroom_rule 10 [] ltac:(lia) [("spk", plain_demand 60 0 0)]
              [plain_pool "spk" 100 50 50]) as (p & Hp & Hexp).
  - apply (plain_sound _ 60 0 0); [lia|reflexivity].
  - discriminate.
  - intros r ->%list_elem_of_singleton. discriminate.
  - intros c q a ->%list_elem_of_singleton ->%list_elem_of_singleton [= <-]. lia.
  - exists p. split; [exact Hp|].
    assert (plan_allowed p = false) as Ha by (vm_compute in Hp; injection Hp as <-; reflexivity).
    split; [exact Ha|]. exact (Hexp Ha).
Defined.

(** ** Swap *)

(** The swap setting a wait names admits the load.  A Spark whose active swap is that
    setting, with the same swap in use and no other load holding any, carries the
    rise and the minimum, as long as the setting is below the largest one. *)
Theorem named_setting_admits d sw rise minimum clamped :
  _tried_swap_need d = (rise, minimum, clamped) ->
  0 <= load_overshoot_bytes d -> 0 <= minimum_swap_bytes d -> 0 <= swap_used_bytes sw ->
  needed_setting rise minimum sw < largest_setting ->
  rise = load_overshoot_bytes d ->
  _swap_carries d {| swap_total_bytes := needed_setting rise minimum sw;
                     swap_used_bytes := swap_used_bytes sw; holders := [];
                     desired_bytes := desired_bytes sw |} true = true.
Proof.
  intros Hneed Hov Hmin Hused Hset Hrise. unfold _swap_carries. rewrite Hneed. simpl.
  assert (0 <= rise /\ 0 <= minimum) as [Hr0 Hm0].
  { unfold _tried_swap_need in Hneed. simplify_eq. split; [lia|]. unfold largest_setting. simpl.
    rewrite GIB_val. lia. }
  rewrite (proj2 (Z.ltb_ge rise (load_overshoot_bytes d))) by lia.
  unfold held_bytes. simpl. unfold needed_setting in *.
  set (load := rise + swap_used_bytes sw) in *. set (ceil := ceil_div minimum GIB) in *.
  assert (0 < GIB) as Hg by (rewrite GIB_val; lia).
  pose proof (ceil_div_spec minimum GIB Hg) as Hceil. fold ceil in Hceil.
  assert (0 <= ceil) by nia.
  assert (exists q, Z.max (swap_needed_bytes load) (ceil * GIB) = q * GIB /\ ceil <= q /\
            load <= usable_swap_bytes (q * GIB)) as (q & Hq & Hcq & Hload).
  { destruct (Z.le_gt_cases load 0) as [Hl|Hl].
    - exists ceil. unfold swap_needed_bytes. rewrite (proj2 (Z.leb_le load 0)) by lia.
      split; [nia|]. split; [lia|]. pose proof (usable_bounds (ceil * GIB) ltac:(nia)). lia.
    - destruct (swap_needed_spec load Hl) as (s & -> & Hs & _ & Hiff).
      exists (Z.max s ceil). split; [nia|]. split; [lia|]. apply Hiff; lia. }
  rewrite Hq in *. rewrite Z.min_r by lia. apply andb_true_iff. split.
  - apply Z.leb_le. unfold load in *. lia.
  - unfold swap_reaches. apply Z.leb_le. simpl. nia.
Qed.

Lemma named_setting_admits_witness :
  let d := plain_demand 1 (30 * GIB) (20 * GIB) in
  let sw := {| swap_total_bytes := 16 * GIB; swap_used_bytes := GIB; holders := [];
               desired_bytes := Some (16 * GIB) |} in
  exists setting, setting = 35 * GIB /\
    _swap_carries d {| swap_total_bytes := setting; swap_used_bytes := GIB; holders := [];
                       desired_bytes := Some (16 * GIB) |} true = true.
Proof.
  intros d sw. exists (needed_setting (30 * GIB) (20 * GIB) sw).
  split; [vm_compute; reflexivity|].
  apply (named_setting_admits d sw (30 * GIB) (20 * GIB) false);
    solve [vm_compute; reflexivity | vm_compute; discriminate].
Defined.
