(* ===== verification/Settings.v ===== *)
(** * Resource planning: settings

    [control/src/vonk_control/resource_planning/settings.py] and [identity.py] from typed
    settings on: the identity of effective settings, its digest, and what a change of
    settings requires.  The scalar of a knob is a type of the external contracts
    package; [KnobScalar] states what the code uses of it.  Reading a recipe document
    into typed settings is not modelled: its outcome is an argument. *)
From S2P Require Import Prelude Vocabulary ReasonCodes Sha256 Json Swap Blockers ResourceTypes.
From S2P Require Import Demand.

(** ** Canonical documents *)
Definition key_le (p q : string * json) : Prop := str_le (fst p) (fst q).
#[global] Instance key_le_dec p q : Decision (key_le p q) := str_le_dec (fst p) (fst q).

Fixpoint _canonical (j : json) : json :=
  match j with
  | JObject l => JObject (merge_sort key_le (map (fun p => (fst p, _canonical (snd p))) l))
  | JArray l => JArray (map _canonical l)
  | _ => j
  end.

Definition _digest (j : json) : string := Sha256.hexdigest (dumps (_canonical j)).

(** ** Effective settings *)
Inductive SettingsKind := generation | decision | embedding | job.
#[global] Instance SettingsKind_eq : EqDecision SettingsKind.
Proof. solve_decision. Defined.
Definition settings_kind_word (k : SettingsKind) : string :=
  match k with
  | generation => "generation"
  | decision => "decision"
  | embedding => "embedding"
  | job => "job"
  end.

Class KnobScalar (Scalar : Type) := {
  scalar_eqb : Scalar -> Scalar -> bool; (* Python [==] *)
  scalar_json : Scalar -> json;
  scalar_eqb_refl v : scalar_eqb v v = true;
  scalar_json_inj :: Inj (=) (=) scalar_json;
  scalar_json_atomic v : _canonical (scalar_json v) = scalar_json v;
}.

Section settings.
Context {Scalar : Type} `{!KnobScalar Scalar}.

Record EffectiveResourceSettings := {
  settings_kind : SettingsKind;
  settings_context : option Z;
  settings_concurrency : option Z;
  settings_batch : option Z;
  parallelism : ParallelismSettings;
  knobs : gmap string Scalar;
  change_effects : gmap string string;
  identity_digest : string;
}.

(** What the demand reads. *)
Definition selected (s : EffectiveResourceSettings) : SelectedSettings := {|
  context_tokens := settings_context s; concurrency := settings_concurrency s;
  batch_tokens := settings_batch s |}.

Definition json_of_opt (o : option Z) : json := match o with Some z => JInt z | None => JNull end.

Definition parallelism_json (p : ParallelismSettings) : json :=
  JObject [("world_size", JInt (world_size p)); ("tensor", JInt (tensor p));
           ("pipeline", JInt (pipeline p)); ("data", JInt (data p));
           ("backend", JString (backend p))].

Definition knobs_json (m : gmap string Scalar) : json :=
  JObject (map (fun p => (fst p, scalar_json (snd p))) (map_to_list m)).

Definition identity (s : EffectiveResourceSettings) : json :=
  JObject [("kind", JString (settings_kind_word (settings_kind s)));
           ("context_tokens", json_of_opt (settings_context s));
           ("concurrency", json_of_opt (settings_concurrency s));
           ("batch_tokens", json_of_opt (settings_batch s));
           ("parallelism", parallelism_json (parallelism s));
           ("knobs", _canonical (knobs_json (knobs s)))].

(** ** What a change of settings requires *)

(** Equality of two knob dicts: as many keys, each found with an equal value. *)
Definition knobs_eqb (m n : gmap string Scalar) : bool :=
  Nat.eqb (size m) (size n)
  && forallb (fun p => match n !! fst p with
                       | Some v => scalar_eqb (snd p) v
                       | None => false
                       end) (map_to_list m).

(** The keys of the identity and whether they differ. *)
Definition differs (p c : EffectiveResourceSettings) : list (string * bool) :=
  [("kind", negb (bool_decide (settings_kind c = settings_kind p)));
   ("context_tokens", negb (bool_decide (settings_context c = settings_context p)));
   ("concurrency", negb (bool_decide (settings_concurrency c = settings_concurrency p)));
   ("batch_tokens", negb (bool_decide (settings_batch c = settings_batch p)));
   ("parallelism", negb (bool_decide (parallelism c = parallelism p)));
   ("knobs", negb (knobs_eqb (knobs c) (knobs p)))].

Definition changed_keys (previous : option EffectiveResourceSettings)
    (c : EffectiveResourceSettings) : list string :=
  match previous with
  | None => ["kind"; "context_tokens"; "concurrency"; "batch_tokens"; "parallelism"; "knobs"]
  | Some p => fst <$> List.filter snd (differs p c)
  end.

Definition _CHANGE_EFFECTS : list string := ["none"; "restart"; "reprepare"; "rebuild"; "reinstall"].

Inductive Effect := reuse | restart | reprepare | reinstall | rebuild.
#[global] Instance Effect_eq : EqDecision Effect.
Proof. solve_decision. Defined.

Record PreparationDecision := {
  prep_effect : Effect;
  settings_changed : list string;
  compatibility_changed : bool;
  requires_restart : bool;
  requires_reprepare : bool;
  requires_reinstall : bool;
  requires_rebuild : bool;
  settings_digest : string;
}.

(** The values of a dict of effects. *)
Definition has_effect (m : gmap string string) (e : string) : bool := mem e (map_to_list m).*2.

Definition classify_preparation_effects (previous current : option EffectiveResourceSettings)
    (parameter_effects : gmap string string) : result PreparationDecision :=
  match current with
  | None => Raise (ValueError "effective settings are invalid")
  | Some c =>
      let changed := changed_keys previous c in
      let effects := parameter_effects ∪ change_effects c in
      if existsb (fun e => negb (mem e _CHANGE_EFFECTS)) (map_to_list effects).*2
      then Raise (ValueError "parameter change effects are invalid")
      else
        let active := filter (fun p => snd p <> "none"%string) effects in
        let rebuild_ := has_effect active "rebuild" in
        let reinstall_ := rebuild_ || has_effect active "reinstall" || mem "parallelism"%string changed in
        let reprepare_ :=
          reinstall_
          || existsb (fun k => mem k changed)
               ["context_tokens"; "concurrency"; "batch_tokens"; "knobs"; "kind"]
          || has_effect active "reprepare" in
        let any_changed := match changed with [] => false | _ => true end in
        let any_active := negb (bool_decide (active = ∅)) in
        let restart_ := reprepare_ || any_changed || has_effect active "restart" in
        Ok {| prep_effect := if rebuild_ then rebuild else if reinstall_ then reinstall
                             else if reprepare_ then reprepare else if restart_ then restart
                             else reuse;
              settings_changed := sorted (elements (list_to_set changed ∪ dom active : gset string));
              compatibility_changed := any_changed || any_active;
              requires_restart := restart_; requires_reprepare := reprepare_;
              requires_reinstall := reinstall_; requires_rebuild := rebuild_;
              settings_digest := if bool_decide (identity_digest c = EmptyString)
                                 then _digest (identity c) else identity_digest c |}
  end.
End settings.
Arguments EffectiveResourceSettings Scalar : clear implicits.
