(* ===== verification/SettingsFacts.v ===== *)
(** * What the preparation decision and the settings identity promise

    A change requires exactly the strongest step any of its causes requires, and the
    hashed text of settings determines the settings. *)
From S2P Require Import Prelude Vocabulary ReasonCodes Sha256 Json Swap Blockers ResourceTypes.
From S2P Require Import Demand Settings.

(** ** The strongest cause *)
Definition strength (e : Effect) : Z :=
  match e with reuse => 0 | restart => 1 | reprepare => 2 | reinstall => 3 | rebuild => 4 end.
Definition key_strength (k : string) : Z := if bool_decide (k = "parallelism"%string) then 3 else 2.
Definition word_strength (w : string) : Z :=
  if bool_decide (w = "rebuild"%string) then 4
  else if bool_decide (w = "reinstall"%string) then 3
  else if bool_decide (w = "reprepare"%string) then 2
  else if bool_decide (w = "restart"%string) then 1
  else 0.
Definition strongest (l : list Z) : Z := fold_right Z.max 0 l.

Lemma strongest_ge i l : 0 < i -> i <= strongest l <-> exists x, x ∈ l /\ i <= x.
Proof.
  intros Hi. induction l as [|y l IH]; simpl.
  - split; [lia|]. by intros (x & ?%elem_of_nil & _).
  - rewrite Z.max_le_iff, IH. split.
    + intros [?|(x & ? & ?)]; [exists y|exists x]; split; set_solver.
    + intros (x & [->|?]%elem_of_cons & ?); eauto.
Qed.

Lemma strongest_nonneg l : 0 <= strongest l.
Proof. induction l; simpl; lia. Qed.

Section facts.
Context {Scalar : Type} `{!KnobScalar Scalar}.
Implicit Types (s c : EffectiveResourceSettings Scalar).

Definition IDENTITY_KEYS : list string :=
  ["kind"; "context_tokens"; "concurrency"; "batch_tokens"; "parallelism"; "knobs"].

Lemma changed_keys_in previous c k : k ∈ changed_keys previous c -> k ∈ IDENTITY_KEYS.
Proof.
  unfold changed_keys. destruct previous as [p|]; [|done].
  intros ([k' b] & -> & Hin)%list_elem_of_fmap. apply list_elem_of_In, filter_In in Hin as [Hin _].
  apply list_elem_of_In in Hin. unfold differs in Hin. unfold IDENTITY_KEYS. set_solver.
Qed.

Lemma has_effect_active (m : gmap string string) w :
  w <> "none"%string ->
  has_effect (filter (fun p => snd p <> "none"%string) m) w = true <-> exists k, m !! k = Some w.
Proof.
  intros Hw. unfold has_effect, mem. rewrite bool_decide_eq_true. split.
  - intros ([k w'] & -> & Hin)%list_elem_of_fmap. apply elem_of_map_to_list in Hin.
    apply map_lookup_filter_Some in Hin as [? _]. by exists k.
  - intros [k Hk]. apply list_elem_of_fmap. exists (k, w). split; [done|].
    apply elem_of_map_to_list, map_lookup_filter_Some. done.
Qed.
(** The effects that apply: the parameters' own ones win. *)
Definition all_effects c (params : gmap string string) : gmap string string :=
  params ∪ change_effects c.

Definition causes previous c params : list Z :=
  ((key_strength <$> changed_keys previous c)
   ++ (word_strength <$> (map_to_list (all_effects c params)).*2))%list.

Lemma cause_ge i previous c params :
  0 < i ->
  i <= strongest (causes previous c params) <->
  (exists k, k ∈ changed_keys previous c /\ i <= key_strength k) \/
  (exists k w, all_effects c params !! k = Some w /\ i <= word_strength w).
Proof.
  intros Hi. rewrite strongest_ge by done. unfold causes. split.
  - intros (x & [(k & -> & ?)%list_elem_of_fmap|(w & -> & Hw)%list_elem_of_fmap]%elem_of_app & ?);
      [eauto|].
    apply list_elem_of_fmap in Hw as ([k w'] & -> & Hin). apply elem_of_map_to_list in Hin. eauto.
  - intros [(k & Hk & ?)|(k & w & Hk & ?)].
    + exists (key_strength k). split; [|done]. apply elem_of_app. left. by apply list_elem_of_fmap_2.
    + exists (word_strength w). split; [|done]. apply elem_of_app. right. apply list_elem_of_fmap_2.
      apply list_elem_of_fmap. exists (k, w). split; [done|]. by apply elem_of_map_to_list.
Qed.

Definition OTHER_KEYS : list string :=
  ["context_tokens"; "concurrency"; "batch_tokens"; "knobs"; "kind"].

(** What each threshold means for the changed keys and for the effect words. *)
Lemma changed_ge previous c i :
  0 < i ->
  (exists k, k ∈ changed_keys previous c /\ i <= key_strength k) <->
  i <= 3 /\ "parallelism"%string ∈ changed_keys previous c \/
  i <= 2 /\ exists k, k ∈ OTHER_KEYS /\ k ∈ changed_keys previous c.
Proof.
  intros Hi. split.
  - intros (k & Hk & Hge). unfold key_strength in Hge.
    case_bool_decide as E; [left; by subst|right]. split; [done|]. exists k. split; [|done].
    apply changed_keys_in in Hk. unfold IDENTITY_KEYS, OTHER_KEYS in *. set_solver.
  - intros [[Hle Hk]|[Hle (k & Hk & Hc)]]; [by exists "parallelism"%string|].
    exists k. split; [done|]. unfold key_strength. case_bool_decide; lia.
Qed.

Lemma words_ge c params i :
  0 < i ->
  (exists k w, all_effects c params !! k = Some w /\ i <= word_strength w) <->
  let has := has_effect (filter (fun p => snd p <> "none"%string) (all_effects c params)) in
  i <= 4 /\ has "rebuild"%string = true \/ i <= 3 /\ has "reinstall"%string = true \/
  i <= 2 /\ has "reprepare"%string = true \/ i <= 1 /\ has "restart"%string = true.
Proof.
  intros Hi. cbv zeta. rewrite !has_effect_active by done. unfold word_strength. split.
  - intros (k & w & Hk & Hw). repeat case_bool_decide; subst; eauto 8. lia.
  - intros [[Hw [k Hk]]|[[Hw [k Hk]]|[[Hw [k Hk]]|[Hw [k Hk]]]]]; exists k; eexists; (split; [exact Hk|]);
      repeat case_bool_decide; done || lia.
Qed.

(** The four flags are the four thresholds of the strongest cause. *)
Lemma flags_are_thresholds previous c params :
  let active := filter (fun p => snd p <> "none"%string) (all_effects c params) in
  let changed := changed_keys previous c in
  let n := strongest (causes previous c params) in
  let rebuild_ := has_effect active "rebuild" in
  let reinstall_ := rebuild_ || has_effect active "reinstall" || mem "parallelism"%string changed in
  let reprepare_ :=
    reinstall_
    || existsb (fun k => mem k changed)
         OTHER_KEYS
    || has_effect active "reprepare" in
  let restart_ :=
    reprepare_ || match changed with [] => false | _ => true end || has_effect active "restart" in
  rebuild_ = (4 <=? n) /\ reinstall_ = (3 <=? n) /\ reprepare_ = (2 <=? n) /\ restart_ = (1 <=? n).
Proof.
  intros active changed n rebuild_ reinstall_ reprepare_ restart_.
  assert (forall i, 0 < i -> (i <=? n) = true <->
            (i <= 3 /\ mem "parallelism"%string changed = true \/
             i <= 2 /\ existsb (fun k => mem k changed) OTHER_KEYS = true) \/
            (i <= 4 /\ has_effect active "rebuild" = true \/ i <= 3 /\ has_effect active "reinstall" = true
             \/ i <= 2 /\ has_effect active "reprepare" = true
             \/ i <= 1 /\ has_effect active "restart" = true)) as Hn.
  { intros i Hi. rewrite Z.leb_le. subst n. rewrite cause_ge, changed_ge, words_ge by done.
    rewrite mem_true, existsb_exists. fold changed active.
    assert ((exists k, k ∈ OTHER_KEYS /\ k ∈ changed) <->
            (exists k, In k OTHER_KEYS /\ mem k changed = true)) as ->; [|done].
    split; intros (k & Hk & Hm); exists k; (split; [by apply list_elem_of_In|by apply mem_true]). }
  assert (match changed with [] => false | _ => true end = true <->
            mem "parallelism"%string changed = true \/
            existsb (fun k => mem k changed) OTHER_KEYS = true) as Hc.
  { assert (forall k, k ∈ changed -> k ∈ IDENTITY_KEYS) as Hids by apply changed_keys_in.
    clear Hn n rebuild_ reinstall_ reprepare_ restart_. clearbody changed. split.
    - destruct changed as [|k l]; [done|]. intros _.
      assert (k ∈ k :: l) as Hk by left. pose proof (Hids k Hk) as Hin.
      destruct (decide (k = "parallelism"%string)) as [->|Hne]; [left; by apply mem_true|right].
      apply existsb_exists. exists k. split; [|by apply mem_true].
      apply list_elem_of_In. unfold IDENTITY_KEYS, OTHER_KEYS in *. set_solver.
    - rewrite existsb_exists. intros [H|(k & _ & H)]; apply mem_true in H;
        (destruct changed; [by apply elem_of_nil in H|done]). }
  split_and!; apply eq_true_iff_eq; rewrite Hn by lia; subst restart_ reprepare_ reinstall_ rebuild_;
    rewrite ?orb_true_iff, ?Hc.
  all: intuition lia.
Qed.
Lemma strongest_bound previous c params : strongest (causes previous c params) <= 4.
Proof.
  apply Z.nlt_ge. intros H. assert (5 <= strongest (causes previous c params)) as Hge by lia.
  apply cause_ge in Hge as [(k & _ & Hk)|(k & w & _ & Hw)]; [| |lia].
  - unfold key_strength in Hk. case_bool_decide; lia.
  - unfold word_strength in Hw. repeat case_bool_decide; lia.
Qed.

(** Something is required exactly when a setting changed or an effect is active. *)
Lemma required_iff previous c params :
  existsb (fun e => negb (mem e _CHANGE_EFFECTS)) (map_to_list (all_effects c params)).*2 = false ->
  match changed_keys previous c with [] => false | _ => true end
  || negb (bool_decide (filter (fun p => snd p <> "none"%string) (all_effects c params) = ∅)) =
  (1 <=? strongest (causes previous c params)).
Proof.
  intros Hok. apply eq_true_iff_eq. rewrite Z.leb_le, cause_ge, orb_true_iff by lia.
  rewrite negb_true_iff, bool_decide_eq_false. split; (intros [H|H]; [left|right]).
  - destruct (changed_keys previous c) as [|k l]; [done|]. exists k. split; [left|].
    unfold key_strength. case_bool_decide; lia.
  - apply map_choose in H as (k & w & Hk). apply map_lookup_filter_Some in Hk as [Hk Hw].
    exists k, w. split; [done|]. simpl in Hw.
    assert (w ∈ _CHANGE_EFFECTS) as Hin.
    { apply not_true_iff_false in Hok. apply dec_stable. intros Hno. apply Hok, existsb_exists.
      exists w. split; [|by apply negb_true_iff, bool_decide_eq_false].
      apply list_elem_of_In, list_elem_of_fmap. exists (k, w). by rewrite elem_of_map_to_list. }
    unfold _CHANGE_EFFECTS in Hin. unfold word_strength. repeat case_bool_decide; try lia. set_solver.
  - destruct H as (k & Hk & _). by destruct (changed_keys previous c); [apply elem_of_nil in Hk|].
  - destruct H as (k & w & Hk & Hw). intros Hempty.
    assert (filter (fun p => snd p <> "none"%string) (all_effects c params) !! k = Some w) as Hl.
    { apply map_lookup_filter_Some. split; [done|]. simpl. intros ->. by vm_compute in Hw. }
    by rewrite Hempty, lookup_empty in Hl.
Qed.

(** A preparation takes the strongest step any of its causes requires: a changed
    parallelism asks for a reinstall, every other changed setting for a new
    preparation, a declared effect for itself, with the parameters' own effects before
    the settings'.  The four requirements are the thresholds of that one step, the
    decision names exactly the changed settings and the active effects, and the only
    error is an effect outside the vocabulary. *)
Theorem preparation_is_strongest previous c params :
  match classify_preparation_effects previous (Some c) params with
  | Raise _ => exists k w, all_effects c params !! k = Some w /\ w ∉ _CHANGE_EFFECTS
  | Ok d =>
      let n := strength (prep_effect d) in
      n = strongest (causes previous c params) /\
      requires_restart d = (1 <=? n) /\ requires_reprepare d = (2 <=? n) /\
      requires_reinstall d = (3 <=? n) /\ requires_rebuild d = (4 <=? n) /\
      (forall k, k ∈ settings_changed d <->
         k ∈ changed_keys previous c \/
         exists w, all_effects c params !! k = Some w /\ w <> "none"%string) /\
      compatibility_changed d = (1 <=? n)
  end.
Proof.
  unfold classify_preparation_effects. fold (all_effects c params).
  destruct (existsb _ _) eqn:Hbad.
  { apply existsb_exists in Hbad as (w & Hin & Hw). apply negb_true_iff in Hw.
    apply list_elem_of_In, list_elem_of_fmap in Hin as ([k w'] & -> & Hin).
    exists k, w'. split; [by apply elem_of_map_to_list|].
    by apply bool_decide_eq_false in Hw. }
  destruct (flags_are_thresholds previous c params) as (F4 & F3 & F2 & F1).
  pose proof (required_iff previous c params Hbad) as Hreq. unfold OTHER_KEYS in *.
  pose proof (strongest_bound previous c params). pose proof (strongest_nonneg (causes previous c params)).
  cbv zeta. rewrite F1, F2, F3, F4, Hreq. clear F1 F2 F3 F4 Hreq Hbad.
  cbn [prep_effect requires_restart requires_reprepare requires_reinstall requires_rebuild
       settings_changed compatibility_changed].
  set (n := strongest (causes previous c params)) in *.
  assert (strength (if 4 <=? n then rebuild else if 3 <=? n then reinstall
            else if 2 <=? n then reprepare else if 1 <=? n then restart else reuse) = n) as ->.
  { destruct (Z.leb_spec 4 n), (Z.leb_spec 3 n), (Z.leb_spec 2 n), (Z.leb_spec 1 n); simpl; lia. }
  split_and!; try done. intros k. unfold sorted. rewrite merge_sort_Permutation, elem_of_elements.
  rewrite elem_of_union, elem_of_list_to_set, elem_of_dom. apply or_iff_compat_l. split.
  - intros [w Hw]. apply map_lookup_filter_Some in Hw as [? ?]. by exists w.
  - intros (w & Hw & Hne). exists w. by apply map_lookup_filter_Some.
Qed.
(** ** The hashed text determines the settings *)
Lemma canonical_object l l' k v :
  _canonical (JObject l) = _canonical (JObject l') -> (k, v) ∈ l ->
  exists v', (k, v') ∈ l' /\ _canonical v = _canonical v'.
Proof.
  simpl. intros [= H] Hin.
  assert ((k, _canonical v) ∈ map (fun p => (fst p, _canonical (snd p))) l') as Hin'.
  { rewrite <- (merge_sort_Permutation key_le (map _ l')), <- H, merge_sort_Permutation.
    apply list_elem_of_fmap. by exists (k, v). }
  apply list_elem_of_fmap in Hin' as ([k' v'] & [= -> ->] & ?). by exists v'.
Qed.

(** The values of one key of two objects with the same keys. *)
Lemma canonical_at l l' i k v v' :
  _canonical (JObject l) = _canonical (JObject l') -> bool_decide (NoDup l'.*1) = true ->
  l !! i = Some (k, v) -> l' !! i = Some (k, v') -> _canonical v = _canonical v'.
Proof.
  intros H Hnd%bool_decide_eq_true Hv Hv'.
  destruct (canonical_object l l' k v H) as (w & [j Hw]%list_elem_of_lookup & ->);
    [by eapply list_elem_of_lookup_2|].
  assert (i = j) as <-.
  { eapply (NoDup_lookup l'.*1); [done|by rewrite list_lookup_fmap, Hv'|by rewrite list_lookup_fmap, Hw]. }
  congruence.
Qed.

Lemma json_of_opt_inj a b : _canonical (json_of_opt a) = _canonical (json_of_opt b) -> a = b.
Proof. destruct a, b; simpl; intros; by simplify_eq. Qed.

Lemma settings_kind_word_inj a b : settings_kind_word a = settings_kind_word b -> a = b.
Proof. by destruct a, b. Qed.

Lemma parallelism_json_inj p q :
  _canonical (parallelism_json p) = _canonical (parallelism_json q) -> p = q.
Proof.
  intros H. pose proof (fun i k v v' => canonical_at _ _ i k v v' H eq_refl) as Hat.
  destruct p, q. f_equal.
  - by injection (Hat 0%nat _ _ _ eq_refl eq_refl).
  - by injection (Hat 1%nat _ _ _ eq_refl eq_refl).
  - by injection (Hat 2%nat _ _ _ eq_refl eq_refl).
  - by injection (Hat 3%nat _ _ _ eq_refl eq_refl).
  - by injection (Hat 4%nat _ _ _ eq_refl eq_refl).
Qed.

Lemma knobs_json_elem (m : gmap string Scalar) k j :
  (k, j) ∈ merge_sort key_le (map (fun p => (fst p, _canonical (snd p)))
             (map (fun p => (fst p, scalar_json (snd p))) (map_to_list m))) <->
  exists v, m !! k = Some v /\ j = scalar_json v.
Proof.
  rewrite merge_sort_Permutation, list_elem_of_fmap. split.
  - intros ([k' j'] & [= -> ->] & Hin). apply list_elem_of_fmap in Hin as ([k2 v] & [= -> ->] & Hin).
    apply elem_of_map_to_list in Hin. exists v. simpl. by rewrite scalar_json_atomic.
  - intros (v & Hv & ->). exists (k, scalar_json v). simpl. rewrite scalar_json_atomic. split; [done|].
    apply list_elem_of_fmap. exists (k, v). split; [done|]. by apply elem_of_map_to_list.
Qed.

Lemma knobs_json_sub (m n : gmap string Scalar) :
  _canonical (_canonical (knobs_json m)) = _canonical (_canonical (knobs_json n)) -> m ⊆ n.
Proof.
  unfold knobs_json. intros H. apply map_subseteq_spec. intros k v Hk.
  simpl in H. eapply (canonical_object _ _ k (scalar_json v)) in H as (j & Hj & E).
  2: { apply knobs_json_elem. eauto. }
  apply knobs_json_elem in Hj as (v' & Hv' & ->). rewrite !scalar_json_atomic in E.
  by apply scalar_json_inj in E as ->.
Qed.

(** The settings identity is an identity: two effective settings hash the same text
    exactly when they agree in kind, context, concurrency, batch, parallelism and
    knobs, whatever the order of their knobs and whatever their change effects. *)
Theorem settings_text_identity s1 s2 :
  dumps (_canonical (identity s1)) = dumps (_canonical (identity s2)) <->
  settings_kind s1 = settings_kind s2 /\ settings_context s1 = settings_context s2 /\
  settings_concurrency s1 = settings_concurrency s2 /\ settings_batch s1 = settings_batch s2 /\
  parallelism s1 = parallelism s2 /\ knobs s1 = knobs s2.
Proof.
  split; [|by unfold identity; intros (-> & -> & -> & -> & -> & ->)].
  intros H%dumps_inj. unfold identity in H.
  pose proof (fun i k v v' => canonical_at _ _ i k v v' H eq_refl) as Hat.
  split_and!.
  - pose proof (Hat 0%nat _ _ _ eq_refl eq_refl) as E. injection E as E. by apply settings_kind_word_inj.
  - exact (json_of_opt_inj _ _ (Hat 1%nat _ _ _ eq_refl eq_refl)).
  - exact (json_of_opt_inj _ _ (Hat 2%nat _ _ _ eq_refl eq_refl)).
  - exact (json_of_opt_inj _ _ (Hat 3%nat _ _ _ eq_refl eq_refl)).
  - exact (parallelism_json_inj _ _ (Hat 4%nat _ _ _ eq_refl eq_refl)).
  - pose proof (Hat 5%nat _ _ _ eq_refl eq_refl) as E.
    apply (anti_symm (⊆)); apply knobs_json_sub; [exact E|by symmetry].
Qed.
End facts.

(** ** A concrete change *)
#[global] Instance string_scalar : KnobScalar string.
Proof.
  refine {| scalar_eqb := fun a b => bool_decide (a = b); scalar_json := JString |}.
  - intros v. by apply bool_decide_eq_true.
  - by intros a b [= ->].
  - done.
Defined.

Definition two_nodes (context : Z) : EffectiveResourceSettings string := {|
  settings_kind := generation; settings_context := Some context; settings_concurrency := Some 8;
  settings_batch := None;
  parallelism := {| world_size := 2; tensor := 2; pipeline := 1; data := 1; backend := "ray" |};
  knobs := {["dtype" := "fp8"; "cache" := "auto"]}; change_effects := {["cache" := "none"]};
  identity_digest := EmptyString |}.

Lemma preparation_is_strongest_witness :
  exists d, classify_preparation_effects (Some (two_nodes 4096)) (Some (two_nodes 8192))
              {["image" := "reinstall"%string]} = Ok d /\
    prep_effect d = reinstall /\ settings_changed d = ["context_tokens"; "image"]%string /\
    strength (prep_effect d) =
      strongest (causes (Some (two_nodes 4096)) (two_nodes 8192) {["image" := "reinstall"%string]}).
Proof.
  pose proof (preparation_is_strongest (Some (two_nodes 4096)) (two_nodes 8192)
                {["image" := "reinstall"%string]}) as H.
  destruct (classify_preparation_effects _ _ _) as [d|e] eqn:E; [|by vm_compute in E].
  exists d. split; [reflexivity|]. split; [|split; [|apply H]]; vm_compute in E; by injection E as <-.
Defined.

Lemma settings_text_identity_witness :
  dumps (_canonical (identity (two_nodes 4096))) <> dumps (_canonical (identity (two_nodes 8192))).
Proof. intros H. apply settings_text_identity in H as (_ & H & _). discriminate H. Defined.
