(* ===== verification/Preflight.v ===== *)
(** * Resource planning: preflight

    [control/src/vonk_control/resource_planning/preflight.py]: the demand of every
    selected rank from its evidence, then the capacity plan over all of them.  This is
    where the pieces meet: a demand without a total always says why, and its total is
    never negative, so the capacity plan's conditions hold by construction. *)
From S2P Require Import Prelude Vocabulary ReasonCodes Sha256 Json Swap Blockers ResourceTypes.
From S2P Require Import Demand.
From S2P Require Import Settings SettingsFacts Capacity CapacityFacts.

Section preflight.
Context {Scalar : Type} `{!KnobScalar Scalar} (rule : admission_rule).

(** What resolving the effective context gave. *)
Record Resolution := {
  resolved : option (EffectiveResourceSettings Scalar);
  resolved_reasons : list ResourceReason;
}.

Record ResourcePreflightPlan := {
  preflight_settings : option (EffectiveResourceSettings Scalar);
  demands : list (string * ResourceDemand);
  capacity : option CapacityPlan;
  preflight_reasons : list ResourceReason;
}.

Definition preflight_allowed (p : ResourcePreflightPlan) : bool :=
  bool_decide (preflight_settings p <> None)
  && match capacity p with Some c => plan_allowed c | None => false end
  && negb (existsb is_blocker (preflight_reasons p)).

Definition node_demand (s : EffectiveResourceSettings Scalar) (item : string * ResourceEvidence)
  : result (string * ResourceDemand) :=
  d ← resource_demand {| settings := Some (selected s); resolution_reasons := [] |} (snd item)
        (Some (fst item));
  Ok (fst item, d).

Definition plan_resource_preflight (resolution : Resolution)
    (evidence_by_node : list (string * ResourceEvidence)) (capacities : list CapacitySnapshot)
    (planned_stops : list PlannedStopRelease) (memory_floor_bytes : Z)
  : result ResourcePreflightPlan :=
  match resolved resolution with
  | None => Ok {| preflight_settings := None; demands := []; capacity := None;
                  preflight_reasons := resolved_reasons resolution |}
  | Some s =>
      ds ← traverse (node_demand s) evidence_by_node;
      c ← plan_capacity rule memory_floor_bytes planned_stops ds capacities;
      Ok {| preflight_settings := Some s; demands := ds; capacity := Some c;
            preflight_reasons := (resolved_reasons resolution ++ plan_reasons c)%list |}
  end.
End preflight.

(** ** From evidence to a decision *)
Section facts.
Context {Scalar : Type} `{!KnobScalar Scalar} (rule : admission_rule) `{!AdmissionContract rule}
  (floor : Z) (Hfloor : 0 <= floor) (stops : list PlannedStopRelease).
Implicit Types (s : EffectiveResourceSettings Scalar).

(** The demand of one rank: a byte count, or a blocker that says why not. *)
Definition usable_demand (item : string * ResourceEvidence) (d : string * ResourceDemand) : Prop :=
  fst d = fst item /\
  (forall t, total_bytes (snd d) = Some t -> 0 <= t) /\
  (total_bytes (snd d) = None -> existsb is_blocker (demand_reasons (snd d)) = true).

Lemma demands_usable s evidence :
  exists ds, traverse (node_demand s) evidence = Ok ds /\ Forall2 usable_demand evidence ds.
Proof.
  apply traverse_build. intros [node e] _. unfold node_demand.
  destruct (resource_demand_spec {| settings := Some (selected s); resolution_reasons := [] |}
              (selected s) e (Some node) eq_refl) as (d & Hd & _ & Hwhy & Ht).
  simpl. rewrite Hd. eexists. split; [reflexivity|]. split; [done|]. split.
  - intros t Htot. by apply Ht.
  - by apply Hwhy.
Qed.

Definition measured_capacities (capacities : list CapacitySnapshot) : Prop :=
  Forall (fun c => Forall (fun p => Forall (fun r => 0 <= maximum_bytes r) (unknown_run_residuals p))
                     (pools c)) capacities.

Lemma capacity_of_elem capacities node c :
  capacity_of capacities node = Some c -> c ∈ capacities.
Proof.
  unfold capacity_of. intros [H _]%List.find_some.
  by rewrite <- list_elem_of_In, elem_of_reverse in H.
Qed.

Lemma usable_request evidence ds capacities :
  NoDup evidence.*1 -> measured_capacities capacities -> Forall2 usable_demand evidence ds ->
  sound_request ds capacities /\ ds.*1 = evidence.*1.
Proof.
  intros Hnd Hm Hds.
  assert (ds.*1 = evidence.*1) as E.
  { induction Hds as [|x y l k [Hxy _] _ IH]; [done|]. rewrite !fmap_cons, Hxy.
    rewrite fmap_cons in Hnd. apply NoDup_cons in Hnd as [_ Hnd]. by rewrite IH. }
  split; [|done]. constructor; [by rewrite E|]. intros [node d] c Hr Hc%capacity_of_elem.
  unfold measured_capacities in Hm. rewrite Forall_forall in Hm.
  eapply Forall_impl; [exact (Hm c Hc)|]. intros p Hp. constructor; [|done].
  apply list_elem_of_lookup in Hr as [i Hi].
  destruct (Forall2_lookup_r _ _ _ _ _ Hds Hi) as (it & _ & _ & Ht & _). exact Ht.
Qed.

(** Preflight decides and explains.  For resolved settings without a blocker of their
    own it always returns, whatever the evidence says.  When it allows the load, every
    rank has capacity evidence, its claim is safe on every pool of its Spark and the
    Spark's swap carries its load; when it refuses, with at least one rank and every
    known pool larger than the floor, it holds a blocker. *)
Theorem preflight_decides resolution s evidence capacities :
  resolved resolution = Some s -> existsb is_blocker (resolved_reasons resolution) = false ->
  NoDup evidence.*1 -> measured_capacities capacities ->
  exists p, plan_resource_preflight rule resolution evidence capacities stops floor = Ok p /\
    (preflight_allowed p = true -> forall node e, (node, e) ∈ evidence ->
       exists d c, (node, d) ∈ demands p /\ capacity_of capacities node = Some c /\
         Forall (pool_safe floor stops node d) (pools c) /\
         existsb is_blocker (_load_swap_reason node d (Some c)) = false) /\
    (preflight_allowed p = false -> evidence <> [] ->
     (forall c q a, c ∈ capacities -> q ∈ pools c -> available_bytes q = Some a -> floor < a) ->
     existsb is_blocker (preflight_reasons p) = true).
Proof.
  intros Hres Hown Hnd Hm. unfold plan_resource_preflight. rewrite Hres.
  destruct (demands_usable s evidence) as (ds & -> & Hds).
  destruct (usable_request _ _ _ Hnd Hm Hds) as [Hsound Hkeys].
  destruct (allowed_plan_safe rule floor stops Hfloor ds capacities Hsound) as (c & Hc & Hsafe).
  cbn [mbind result_bind]. rewrite Hc. eexists. split; [reflexivity|].
  unfold preflight_allowed. cbn [preflight_settings capacity preflight_reasons demands].
  rewrite existsb_app, Hown. simpl. split.
  - intros [Ha _]%andb_true_iff node e [i Hi]%list_elem_of_lookup.
    destruct (Hsafe Ha) as [_ Hall].
    destruct (Forall2_lookup_l _ _ _ _ _ Hds Hi) as ([node' d] & Hd & Hfst & _). simpl in Hfst. subst node'.
    destruct (Hall (node, d)) as (cap & ? & ? & ?); [by eapply list_elem_of_lookup_2|].
    exists d, cap. split; [by eapply list_elem_of_lookup_2|done].
  - intros Hno Hne Hfl. destruct (existsb is_blocker (plan_reasons c)) eqn:Hb; [done|].
    rewrite andb_true_r in Hno.
    destruct (refused_plan_explained rule floor stops Hfloor ds capacities Hsound) as (c' & Hc' & Hex).
    + intros ->. by apply Forall2_nil_inv_r in Hds.
    + intros r Hr Hnone. apply list_elem_of_lookup in Hr as [i Hi].
      destruct (Forall2_lookup_r _ _ _ _ _ Hds Hi) as (it & _ & _ & _ & Hw). by apply Hw.
    + exact Hfl.
    + rewrite Hc in Hc'. injection Hc' as <-. specialize (Hex Hno). congruence.
Qed.
End facts.

(** ** A concrete preflight *)
Definition declared_evidence (total : Z) : ResourceEvidence := {|
  weights_bytes := Some 10; runtime_overhead_bytes := None;
  baseline_context_tokens := Some 4096; baseline_concurrency := Some 8;
  baseline_batch_tokens := None; context_bytes_per_token := None;
  concurrency_bytes_per_request := None; batch_bytes_per_token := None;
  supported_context_tokens := None; supported_concurrency := None;
  supported_batch_tokens := None; ev_state := declared; ev_digest := None;
  declared_total_bytes := Some total; observed_total_bytes := None;
  declared_load_rise_bytes := 0; ev_minimum_swap_bytes := 0 |}.

Lemma preflight_decides_witness :
  let resolution := {| resolved := Some (two_nodes 4096); resolved_reasons := [] |} in
  (exists p, plan_resource_preflight headroom_rule resolution [("spk", declared_evidence 60)]
               [plain_pool "spk" 100 20 20] [] 10 = Ok p /\
     preflight_allowed p = true /\ existsb is_blocker (preflight_reasons p) = false) /\
  (exists p, plan_resource_preflight headroom_rule resolution [("spk", declared_evidence 60)]
               [plain_pool "spk" 100 50 50] [] 10 = Ok p /\
     preflight_allowed p = false /\ existsb is_blocker (preflight_reasons p) = true).
Proof.
  intros resolution. split.
  - destruct (preflight_decides headroom_rule 10 ltac:(lia) [] resolution (two_nodes 4096)
                [("spk", declared_evidence 60)] [plain_pool "spk" 100 20 20])
      as (p & Hp & Hsafe & _); [reflexivity|reflexivity|apply NoDup_singleton|repeat constructor|].
    exists p. split; [exact Hp|]. vm_compute in Hp. injection Hp as <-. split; reflexivity.
  - destruct (preflight_decides headroom_rule 10 ltac:(lia) [] resolution (two_nodes 4096)
                [("spk", declared_evidence 60)] [plain_pool "spk" 100 50 50])
      as (p & Hp & _ & Hwhy); [reflexivity|reflexivity|apply NoDup_singleton|repeat constructor|].
    exists p. split; [exact Hp|].
    assert (preflight_allowed p = false) as Ha by (vm_compute in Hp; injection Hp as <-; reflexivity).
    split; [exact Ha|]. apply (Hwhy Ha); [discriminate|].
    intros c q a ->%list_elem_of_singleton ->%list_elem_of_singleton [= <-]. lia.
Defined.
