(* ===== verification/Rows.v ===== *)
(** * Rows of the controller's database

    The tables the claim and liveness code reads, each a list of rows with the columns it
    reads ([control/src/vonk_control/models/]), and the stored documents of a profile load as
    their parsed records ([fleet_profile_contract/], [run_switch_contract/],
    [preparation_contract.py]).  A document that cannot be read is [None].  The claims
    themselves ([ResourceReservation]) are the state the operations change; they are passed
    beside the database. *)
From S2P Require Import Prelude Vocabulary StateMachines PersistedWaits ResourceTypes.
From S2P Require Import SparkAttempts.

(** ** Profile documents *)

(** What one Spark must give an assignment. *)
Record FleetProfileResourceRequirement := {
  q_node_id : string;
  ports_required : list Z;
  q_disk_required_bytes : option Z;
  q_memory_required_bytes : option Z;
  q_memory_kind : option MemoryKind;
  q_memory_pool : option MemoryPool;
  q_memory_floor_bytes : option Z;
}.

(** A run a review stops, by its exact plan. *)
Record StopImpact := {
  stop_run : string;
  stop_run_plan_digest : string;
  stop_node_ids : list string;
}.

Record FleetProfileAdmissionDecision := {
  dec_assignment_id : string;
  dec_requirements : list FleetProfileResourceRequirement;
  dec_stops : list StopImpact;
}.

Record FleetProfileAssignment := {
  asg_id : string;
  asg_recipe_revision_id : string;
  asg_desired_state : DesiredAssignmentState;
  asg_alias : option string;
  asg_node_ids : list string;
}.
#[global] Instance FleetProfileAssignment_eq : EqDecision FleetProfileAssignment.
Proof. solve_decision. Defined.

(** [profile_stop_scope] is read only for being absent. *)
Record FleetProfileRunEffect := {
  effect_run_id : string;
  effect_action : string;
  effect_partial : bool;
}.

Record FleetProfilePreview := {
  resolved_assignments : list FleetProfileAssignment;
  admission_decisions : list FleetProfileAdmissionDecision;
  run_effects : list FleetProfileRunEffect;
}.

(** What an image is, of the fields a record states ([content_identity.ImageContent]). *)
Record ImageContent := {
  image_digest : option string;
  archive_sha256 : option string;
  image_bytes : option Z;
  architecture : option string;
  runtime_interface : option string;
  runtime_interface_label : option string;
}.

Record RuntimeImageIdentity := {
  identity_content : ImageContent;
  identity_build_id : option string;
}.

(** ** Run/Switch documents *)
Record RunSwitchPhase := {
  phase_kind : string;
  phase_subphase : option string;
  phase_state : string;
}.
#[global] Instance RunSwitchPhase_eq : EqDecision RunSwitchPhase.
Proof. solve_decision. Defined.

Record RunSwitchPlan := {
  switch_recipe_revision_id : option string;
  switch_alias : option string;
  switch_phases : list RunSwitchPhase;
  switch_build_input_sha256 : option string;
  switch_builder_node_id : option string;
  switch_node_ids : list string;
}.

Record RunSwitchOperationResult := {
  switch_profile_application_id : option string;
  switch_cancelled : bool;
  switch_phase_index : Z;
  switch_intent_ordinal : option Z;
}.

(** ** Recipe execution plans *)
Record RunPlanNode := {
  rpn_node_id : string;
  rpn_memory_pool : option MemoryPool;
  rpn_memory_floor_bytes : Z;
}.

Record InstallationPlanNode := {
  ipn_node_id : string;
  ipn_required_bytes : Z;
  ipn_required_download_bytes : Z;
  ipn_rank : Z;
  ipn_role : string;
}.

Record InstallationPlan := {
  ip_plan_digest : string;
  ip_nodes : list InstallationPlanNode;
  ip_mapping_id : string;
  ip_mapping_generation : Z;
  ip_recipe_revision_id : string;
  ip_image : ImageContent;
}.

(** ** Rows *)
Record ApplicationRow := {
  app_id : string;
  app_state : string;
  app_updated_at : datetime;
  app_created_at : datetime;
  app_plan_digest : string;
  (** the intent of its progress document, when it can be read *)
  app_intent : option (option Z);
  app_plan : option FleetProfilePreview;
}.

Record NodeRow := {
  node_id : string;
  node_state : string;
  node_revoked_at : option datetime;
  node_last_seen : option datetime;
  node_intent : Z;
}.

(** A job: what its payload names, its result as text and the flags read of it. *)
Record JobRow := {
  job_id : string;
  job_kind : string;
  job_state : string;
  job_updated_at : datetime;
  job_owner_kind : option string;
  job_owner_id : option string;
  job_plan_installation : option string;
  job_intent_installation : option string;
  job_plan_digest : option string;
  job_result : option string;
  job_result_cancelled : bool;
  job_request_id : string;
  job_build_input : option string;
  job_switch_plan : option RunSwitchPlan;
  job_switch_result : option RunSwitchOperationResult;
}.

Record RunRow := {
  run_id : string;
  run_state : string;
  run_generation : Z;
  run_plan_digest : string;
  run_installation : string;
  (** the nodes of its plan, when it can be read *)
  run_plan_nodes : option (list RunPlanNode);
}.

Record InstallationRow := {
  inst_id : string;
  inst_state : string;
  inst_updated_at : option datetime;
  inst_plan_digest : string;
  inst_plan : option InstallationPlan;
  inst_mapping_id : string;
  inst_mapping_generation : Z;
  inst_recipe_revision_id : string;
  inst_model_content_sha256 : option string;
  inst_image : ImageContent;
}.

Record InstallationNodeRow := {
  member_installation : string;
  member_node : string;
  member_rank : Z;
  member_role : string;
  member_required_bytes : Z;
  member_updated_at : datetime;
  member_state : string;
  member_installed_bytes : Z;
}.

Record BuildRow := {
  build_id : string;
  build_state : string;
  build_updated_at : datetime;
  build_input_sha256 : string;
  build_source_bundle_sha256 : string;
  build_image : ImageContent;
  builder_node_id : string;
}.

(** An accepted inventory sample of a Spark. *)
Record NodeInventorySnapshot := {
  snap_node : string;
  snap_observed_at : datetime;
  snap_received_at : datetime;
  snap_evidence_digest : option string;
  snap_disk_free_bytes : option Z;
  snap_unused_model_bytes : option Z;
  snap_memory_pool : option MemoryPool;
  snap_host_total_bytes : option Z;
  snap_host_free_bytes : option Z;
  snap_gpu_total_bytes : option Z;
  snap_gpu_free_bytes : option Z;
}.

Record CacheOperationRow := {
  cache_id : string;
  cache_state : string;
  cache_updated_at : datetime;
}.

Record SyncRow := {
  sync_id : string;
  sync_state : string;
  sync_heartbeat_at : option datetime;
  sync_started_at : datetime;
}.

Record RotationRow := {
  rotation_id : string;
  rotation_state : string;
  rotation_updated_at : datetime;
}.

Record EnrollmentRow := {
  enrollment_id : string;
  enrollment_state : string;
  enrollment_created_at : datetime;
}.

Record Database := {
  applications : list ApplicationRow;
  nodes : list NodeRow;
  jobs : list JobRow;
  runs : list RunRow;
  (** the rank rows of runs: run and node *)
  run_nodes : list (string * string);
  installations : list InstallationRow;
  installation_nodes : list InstallationNodeRow;
  builds : list BuildRow;
  orders : list StoredOperation;
  order_attempts : string -> list AgentOperationAttempt;
  cache_operations : list CacheOperationRow;
  sync_runs : list SyncRow;
  rotations : list RotationRow;
  enrollments : list EnrollmentRow;
  inventory : list NodeInventorySnapshot;
}.

(** [session.get(Model, id)] *)
Definition get {R} (key : R -> string) (table : list R) (id_ : string) : option R :=
  find (fun r => String.eqb (key r) id_) table.

(** ** Claims *)
Record ResourceReservation := {
  r_id : string;
  r_node : string;
  r_kind : string;
  r_key : string;
  r_amount : Z;
  r_owner_kind : string;
  r_owner_id : string;
  r_state : ReservationState;
  r_plan_digest : string;
  r_created_at : datetime;
  r_released_at : option datetime;
}.
#[global] Instance ResourceReservation_eq : EqDecision ResourceReservation.
Proof. solve_decision. Defined.
