(* ===== verification/OwnerLiveness.v ===== *)
(** * Whether an owner can still finish

    [control/src/vonk_control/owner_liveness.py] and [reservation_owners.py]: a claim is worth
    holding, and a wait worth keeping, only while its owner can still do what it is for.
    [owner] answers for every kind of owner from the rows.  A SQL predicate is the same test
    on a row. *)
From stdpp Require Import sorting.
From S2P Require Import Prelude Vocabulary StateMachines StallWindow PersistedWaits SparkAttempts.
From S2P Require Import ResourceTypes Rows.

(** The owners a claim or a wait can be held for. *)
Module OwnerKind.
Inductive OwnerKind :=
    FLEET_PROFILE | NODE | SPARK_RETURN | JOB | RUN | INSTALLATION | RECIPE_BUILD
  | AGENT_ATTEMPT | CACHE_OPERATION | IMAGE_JOB | SYNC_RUN | RENEWAL_INTENT | ENROLLMENT.
Definition OwnerKind_value (e : OwnerKind) : string :=
  match e with
  | FLEET_PROFILE => "fleet-profile"
  | NODE => "node"
  | SPARK_RETURN => "spark-return"
  | JOB => "job"
  | RUN => "run"
  | INSTALLATION => "installation"
  | RECIPE_BUILD => "recipe-build"
  | AGENT_ATTEMPT => "agent-attempt"
  | CACHE_OPERATION => "model-cache-operation"
  | IMAGE_JOB => "recipe-image-job"
  | SYNC_RUN => "sync-run"
  | RENEWAL_INTENT => "renewal-intent"
  | ENROLLMENT => "enrollment"
  end.
Definition OwnerKind_members : list OwnerKind :=
  [FLEET_PROFILE; NODE; SPARK_RETURN; JOB; RUN; INSTALLATION; RECIPE_BUILD; AGENT_ATTEMPT;
   CACHE_OPERATION; IMAGE_JOB; SYNC_RUN; RENEWAL_INTENT; ENROLLMENT].
Lemma OwnerKind_decode e :
  find (fun m => String.eqb (OwnerKind_value m) (OwnerKind_value e)) OwnerKind_members = Some e.
Proof. destruct e; reflexivity. Qed.
#[global] Instance OwnerKind_enum : WireEnum OwnerKind :=
  decoded_enum OwnerKind_members OwnerKind_value OwnerKind_decode eq_refl.
End OwnerKind.
Abbreviation OwnerKind := OwnerKind.OwnerKind.

Record OwnerRef := {
  ref_kind : OwnerKind;
  ref_id : string;
}.

(** Whether an owner can still finish what its claim or wait is for. *)
Record Owner := {
  owner_ref : OwnerRef;
  owner_live : bool;
  owner_why : string;
  owner_ended_at : option instant;
  owner_state : string;
}.

(** ** Constants *)
Definition JOB_ENDED_STATES : list string :=
  JobStates.words [LifecycleState.SUCCEEDED; LifecycleState.FAILED; LifecycleState.CANCELLED;
                   LifecycleState.SUPERSEDED].
Definition CACHE_OPERATION_ENDED_STATES : list string :=
  stored_words LifecycleSubject.MODEL_CACHE_OPERATION
    [LifecycleState.SUCCEEDED; LifecycleState.FAILED; LifecycleState.CANCELLED].
Definition _ACTIVE_JOB_STATES : list string :=
  [value LifecycleState.QUEUED; value LifecycleState.RUNNING].
Definition BUILDING : string := "building".
Definition UNFINISHED_BUILD_STATES : list string := [value InstallationState.PLANNED; BUILDING].
Definition SPARK_PRESENCE_WINDOW : Z := seconds 150.
Definition ADOPTION_WINDOW : Z := seconds (15 * 60).
Definition OWNER_SETTLE_GRACE : Z := seconds (5 * 60).
Definition SYNC_HEARTBEAT_WINDOW : Z := seconds (10 * 60).
Definition ISSUANCE_WINDOW : Z := seconds (5 * 60).
Definition MAX_INVENTORY_FUTURE_SKEW : Z := seconds 30.
Definition FLEET_PROFILE_ENDED_STATES : list string :=
  [value LifecycleState.SUCCEEDED; value LifecycleState.FAILED; value LifecycleState.CANCELLED;
   "superseded"].
Definition ACTIVE_RUN_STATES : list string :=
  value <$> [RunState.PLANNED; RunState.STARTING; RunState.STOPPING; RunState.RUNNING].
Definition STOPPABLE_RUN_STATES : list string := (ACTIVE_RUN_STATES ++ [value RunState.LOST])%list.

(** ** Shared tests *)

(** [needle in text] *)
Fixpoint contains (needle text : string) : bool :=
  String.prefix needle text
  || match text with EmptyString => false | String _ rest => contains needle rest end.

Definition _settled (since now : option datetime) (window : Z) : bool :=
  match since, now with
  | Some s, Some n => to_utc s + window <=? to_utc n
  | _, _ => true
  end.

Definition job_ended (j : JobRow) : bool := mem (job_state j) JOB_ENDED_STATES.

Definition result_contains (j : JobRow) (id_ : string) : bool :=
  match job_result j with Some text => contains id_ text | None => false end.

(** The payload names this owner. *)
Definition names_owner (kind_ : OwnerKind) (id_ : string) (j : JobRow) : bool :=
  bool_decide (job_owner_kind j = Some (value kind_)) && bool_decide (job_owner_id j = Some id_).

(** ** Jobs that keep an owner live *)

(** The payload fields a live operation names an installation in, in sorted order. *)
Definition installation_paths (j : JobRow) : list (bool * option string) :=
  [(false, job_intent_installation j); (true, job_owner_id j); (false, job_plan_installation j)].

(** The rows the query selects, and what each of them names. *)
Definition selects_installations (wanted : list string) (j : JobRow) : bool :=
  mem (job_state j) JobStates.LIVE
  && (existsb (fun p => match snd p with Some v => mem v wanted | None => false end)
        (installation_paths j)
      || existsb (result_contains j) wanted).

Definition names_installation (j : JobRow) (p : bool * option string) : option string :=
  match snd p with
  | Some v =>
      if negb (bool_decide (v = EmptyString))
         && (negb (fst p) || bool_decide (job_owner_kind j = Some (value OwnerKind.INSTALLATION)))
      then Some v else None
  | None => None
  end.

Definition named_by (wanted : list string) (j : JobRow) : list string :=
  (omap (names_installation j) (installation_paths j) ++
   List.filter (fun i => truthy_str (job_result j) && result_contains j i) wanted)%list.

Definition installations_named_by_live_jobs (db : Database) (wanted : list string) : list string :=
  let named := concat (named_by wanted <$> List.filter (selects_installations wanted) (jobs db)) in
  List.filter (fun i => mem i named) wanted.

Definition referencing_active_job (db : Database) (kind_ : OwnerKind) (id_ : string) : bool :=
  if same kind_ OwnerKind.INSTALLATION
  then negb (bool_decide (installations_named_by_live_jobs db [id_] = []))
  else existsb (fun j => negb (job_ended j) && (names_owner kind_ id_ j || result_contains j id_))
         (jobs db).

Definition run_has_live_operation (db : Database) (id_ : string) : bool :=
  referencing_active_job db OwnerKind.RUN id_.

(** ** Builds *)

(** The states of a job's own Spark orders. *)
Definition orders_of (db : Database) (j : JobRow) : list StoredOperation :=
  List.filter (fun o => bool_decide (o_parent_job_id o = job_id j)) (orders db).

(** A job that may still issue an order for its build, or has a live one. *)
Definition job_may_run (db : Database) (j : JobRow) : bool :=
  let own := orders_of db j in
  bool_decide (own = []) || existsb (fun o => mem (o_state o) AOS.LIVE) own.

Definition build_may_run (db : Database) (b : BuildRow) : bool :=
  bool_decide (build_state b = BUILDING)
  || existsb (fun j => negb (job_ended j) && names_owner OwnerKind.RECIPE_BUILD (build_id b) j
                       && job_may_run db j) (jobs db).

(** The orders of a build with the state of their job. *)
Definition build_orders (db : Database) (b : BuildRow) : list (StoredOperation * JobRow) :=
  concat ((fun j => (fun o => (o, j)) <$> orders_of db j) <$>
            List.filter (names_owner OwnerKind.RECIPE_BUILD (build_id b)) (jobs db)).

Definition order_updated_at (o : StoredOperation) : instant :=
  match o_updated_at o with Some t => to_utc t | None => 0 end.

(** An order that may still write: live, not between attempts, and not an unclaimed order
    of an ended job. *)
Definition order_writes (p : StoredOperation * JobRow) : bool :=
  let '(o, j) := p in
  mem (o_state o) AOS.LIVE && negb (bool_decide (o_state o = value LifecycleState.BACKOFF))
  && (negb (bool_decide (o_state o = value LifecycleState.QUEUED)) || negb (job_ended j)).

Definition build_holds_disk (db : Database) (b : BuildRow) (inventory_observed_at : option datetime)
  : bool :=
  match build_orders db b with
  | [] =>
      mem (build_state b) UNFINISHED_BUILD_STATES
      && referencing_active_job db OwnerKind.RECIPE_BUILD (build_id b)
  | own =>
      if existsb order_writes own then true
      else
        match inventory_observed_at with
        | None => true
        | Some t =>
            to_utc t <=? default 0 (max_list ((fun p => order_updated_at (fst p)) <$> own))
                         + MAX_INVENTORY_FUTURE_SKEW
        end
  end.

(** ** The arms of [owner] *)
Definition resolved (ref : OwnerRef) (live_ : bool) (why : string) (ended : option instant)
    (state_ : string) : Owner :=
  {| owner_ref := ref; owner_live := live_; owner_why := why; owner_ended_at := ended;
     owner_state := state_ |}.

Definition missing (ref : OwnerRef) (why : string) : Owner := resolved ref false why None "missing".

Definition _fleet_profile (db : Database) (ref : OwnerRef) : Owner :=
  match get app_id (applications db) (ref_id ref) with
  | None => missing ref "profile application is missing"
  | Some a =>
      let ended := mem (app_state a) FLEET_PROFILE_ENDED_STATES in
      resolved ref (negb ended) ("profile application is " +:+ app_state a)
        (if ended then Some (to_utc (app_updated_at a)) else None) (app_state a)
  end.

Definition _node (db : Database) (ref : OwnerRef) : Owner :=
  match get node_id (nodes db) (ref_id ref) with
  | None => missing ref "Spark is not enrolled"
  | Some n =>
      match node_revoked_at n with
      | None => resolved ref true ("Spark agent is " +:+ node_state n) None (node_state n)
      | Some t => resolved ref false "Spark is revoked" (Some (to_utc t)) (node_state n)
      end
  end.

(** Waiting for a Spark to come back: live while it is away. *)
Definition spark_away (n : NodeRow) (now : option datetime) : bool :=
  match now, node_last_seen n with
  | Some t, Some seen => SPARK_PRESENCE_WINDOW <? to_utc t - to_utc seen
  | _, _ => true
  end.

Definition _spark_return (db : Database) (ref : OwnerRef) (now : option datetime) : Owner :=
  match get node_id (nodes db) (ref_id ref) with
  | None => missing ref "Spark is not enrolled"
  | Some n =>
      match node_revoked_at n with
      | Some t => resolved ref false "Spark is revoked" (Some (to_utc t)) (node_state n)
      | None =>
          let away := spark_away n now in
          resolved ref away (if away then "Spark is away" else "Spark is present") None (node_state n)
      end
  end.

Definition _job (db : Database) (ref : OwnerRef) : Owner :=
  match get job_id (jobs db) (ref_id ref) with
  | None => missing ref "operation is missing"
  | Some j =>
      resolved ref (negb (job_ended j)) (job_kind j +:+ " is " +:+ job_state j)
        (if job_ended j then Some (to_utc (job_updated_at j)) else None) (job_state j)
  end.

Definition _run (db : Database) (ref : OwnerRef) : Owner :=
  match get run_id (runs db) (ref_id ref) with
  | None => missing ref "run is missing"
  | Some r =>
      resolved ref (mem (run_state r) STOPPABLE_RUN_STATES) ("run is " +:+ run_state r) None
        (run_state r)
  end.

(** [order_by(updated_at.desc(), tie).limit(1)]: the newest job, ties broken by id. *)
Fixpoint last_job (tie : string -> string -> bool) (l : list JobRow) : option JobRow :=
  match l with
  | [] => None
  | j :: rest =>
      match last_job tie rest with
      | None => Some j
      | Some k =>
          Some (if (to_utc (job_updated_at k) <? to_utc (job_updated_at j))
                   || ((to_utc (job_updated_at j) =? to_utc (job_updated_at k))
                       && tie (job_id j) (job_id k))
                then j else k)
      end
  end.

Definition _effect_is_uncertain (db : Database) (id_ : string) : bool :=
  match last_job (fun a b => String.leb b a) (List.filter (names_owner OwnerKind.INSTALLATION id_) (jobs db)) with
  | None => false
  | Some j =>
      negb (bool_decide (job_kind j = value AgentOperation.RECIPE_INSTALL))
      || bool_decide (job_state j = value LifecycleState.CANCELLED) || job_result_cancelled j
  end.

Definition _a_rank_shows_an_effect (db : Database) (id_ : string) : bool :=
  existsb (fun m =>
      bool_decide (member_installation m = id_)
      && (negb (bool_decide (member_state m = value InstallationNodeState.PLANNED))
          || negb (member_installed_bytes m =? 0))) (installation_nodes db).

Definition _installation (db : Database) (ref : OwnerRef) (now : option datetime) : Owner :=
  match get inst_id (installations db) (ref_id ref) with
  | None => missing ref "installation is missing"
  | Some i =>
      let st := inst_state i in
      let planned := bool_decide (st = value InstallationState.PLANNED) in
      if bool_decide (st = value InstallationState.UNINSTALLED) then resolved ref false "uninstalled" None st
      else if bool_decide (st = value InstallationState.INSTALLED) then resolved ref true "installed" None st
      else if negb (_settled (inst_updated_at i) now
                      (if planned then ADOPTION_WINDOW else OWNER_SETTLE_GRACE))
      then resolved ref true "settling" None st
      else if referencing_active_job db OwnerKind.INSTALLATION (ref_id ref)
      then resolved ref true "an active operation refers to it" None st
      else if (if negb planned then _effect_is_uncertain db (ref_id ref)
               else _a_rank_shows_an_effect db (ref_id ref))
      then resolved ref true "awaiting exact cleanup" None st
      else resolved ref false "no active operation" None st
  end.

Definition _recipe_build (db : Database) (ref : OwnerRef) (now : option datetime) : Owner :=
  match get build_id (builds db) (ref_id ref) with
  | None => missing ref "recipe build is missing"
  | Some b =>
      let st := build_state b in
      let ended why := resolved ref false why (Some (to_utc (build_updated_at b))) st in
      if negb (_settled (Some (build_updated_at b)) now OWNER_SETTLE_GRACE)
      then resolved ref true "settling" None st
      else if bool_decide (st = BUILDING) then
        if referencing_active_job db OwnerKind.RECIPE_BUILD (ref_id ref)
        then resolved ref true "an active operation refers to it" None st
        else ended "no active operation"
      else if build_may_run db b
      then resolved ref true "one of its own orders may still run" None st
      else ended "its build and cleanup orders have ended"
  end.

(** A newer intent of its Spark supersedes an order. *)
Definition superseded_order (db : Database) (o : StoredOperation) : bool :=
  match o_workload_intent_ordinal o, get node_id (nodes db) (o_node_id o) with
  | Some n, Some node_ => n <? node_intent node_
  | _, _ => false
  end.

Definition _agent_attempt (db : Database) (ref : OwnerRef) (now : option datetime) : Owner :=
  match get o_id (orders db) (ref_id ref) with
  | None => missing ref "agent order is missing"
  | Some o =>
      let attempt_ :=
        find (fun a => a_attempt a =? o_current_attempt o) (order_attempts db (o_id o)) in
      match now with
      | None => resolved ref true "attempt is not judged" None (o_state o)
      | Some t =>
          let live_ := attempt_holds_order o attempt_ t (superseded_order db o) in
          resolved ref live_
            (if live_ then "attempt holds the fence" else "no attempt holds the fence") None (o_state o)
      end
  end.

Definition _cache_operation (db : Database) (ref : OwnerRef) : Owner :=
  match get cache_id (cache_operations db) (ref_id ref) with
  | None => missing ref "model cache operation is missing"
  | Some c =>
      let ended := mem (cache_state c) CACHE_OPERATION_ENDED_STATES in
      resolved ref (negb ended) ("model cache operation is " +:+ cache_state c)
        (if ended then Some (to_utc (cache_updated_at c)) else None) (cache_state c)
  end.

Definition _sync_run (db : Database) (ref : OwnerRef) (now : option datetime) : Owner :=
  match get sync_id (sync_runs db) (ref_id ref) with
  | None => missing ref "library sync is missing"
  | Some r =>
      let st := sync_state r in
      if negb (bool_decide (st = value LifecycleState.RUNNING))
      then resolved ref false ("library sync is " +:+ st) None st
      else
        let last := to_utc (default (sync_started_at r) (sync_heartbeat_at r)) in
        if match now with Some t => SYNC_HEARTBEAT_WINDOW <? to_utc t - last | None => false end
        then resolved ref false "library sync stopped heartbeating" (Some last) st
        else resolved ref true "library sync is heartbeating" None st
  end.

Definition _renewal_intent (db : Database) (ref : OwnerRef) (now : option datetime) : Owner :=
  match get rotation_id (rotations db) (ref_id ref) with
  | None => missing ref "certificate renewal is missing"
  | Some r =>
      let touched := to_utc (rotation_updated_at r) in
      if match now with Some t => ISSUANCE_WINDOW <=? to_utc t - touched | None => false end
      then resolved ref false "no renewal touched the intent" (Some touched) (rotation_state r)
      else resolved ref true "a renewal is touching the intent" None (rotation_state r)
  end.

Definition _enrollment (db : Database) (ref : OwnerRef) (now : option datetime) : Owner :=
  match get enrollment_id (enrollments db) (ref_id ref) with
  | None => missing ref "enrollment is missing"
  | Some e =>
      let st := enrollment_state e in
      if negb (bool_decide (st = "issuing")) then resolved ref false ("enrollment is " +:+ st) None st
      else if match now with
              | Some t => ISSUANCE_WINDOW <=? to_utc t - to_utc (enrollment_created_at e)
              | None => false
              end
      then resolved ref false "enrollment issuance was abandoned" None st
      else resolved ref true "enrollment is issuing" None st
  end.

(** Resolve an owner; anything uncertain is live. *)
Definition owner (db : Database) (ref : OwnerRef) (now : option datetime) : Owner :=
  match ref_kind ref with
  | OwnerKind.FLEET_PROFILE => _fleet_profile db ref
  | OwnerKind.NODE => _node db ref
  | OwnerKind.SPARK_RETURN => _spark_return db ref now
  | OwnerKind.JOB | OwnerKind.IMAGE_JOB => _job db ref
  | OwnerKind.RUN => _run db ref
  | OwnerKind.INSTALLATION => _installation db ref now
  | OwnerKind.RECIPE_BUILD => _recipe_build db ref now
  | OwnerKind.AGENT_ATTEMPT => _agent_attempt db ref now
  | OwnerKind.CACHE_OPERATION => _cache_operation db ref
  | OwnerKind.SYNC_RUN => _sync_run db ref now
  | OwnerKind.RENEWAL_INTENT => _renewal_intent db ref now
  | OwnerKind.ENROLLMENT => _enrollment db ref now
  end.

(** An owner as the stall window reads it. *)
Definition owner_wait (o : Owner) : Wait :=
  {| live := owner_live o; ended_at := Aware <$> owner_ended_at o |}.

(** ** Builds in flight *)
Definition live_build_job (db : Database) (b : BuildRow) : option JobRow :=
  last_job String.leb (List.filter (fun j =>
    bool_decide (job_kind j = value AgentOperation.RECIPE_BUILD)
    && mem (job_state j) _ACTIVE_JOB_STATES
    && bool_decide (job_owner_id j = Some (build_id b))
    && bool_decide (job_plan_digest j = Some (build_input_sha256 b))) (jobs db)).

Definition build_in_flight (db : Database) (b : BuildRow) (now : datetime) : bool :=
  mem (build_state b) UNFINISHED_BUILD_STATES
  && owner_live (owner db {| ref_kind := OwnerKind.RECIPE_BUILD; ref_id := build_id b |} (Some now)).

(** The same as a filter on build rows. *)
Definition builds_in_flight (db : Database) (now : datetime) (b : BuildRow) : bool :=
  let own_job := names_owner OwnerKind.RECIPE_BUILD (build_id b) in
  let may_run :=
    existsb (fun j =>
      negb (job_ended j) && own_job j
      && (negb (existsb (fun o => bool_decide (o_parent_job_id o = job_id j)) (orders db))
          || existsb (fun o => bool_decide (o_parent_job_id o = job_id j)
                               && mem (o_state o) AOS.LIVE) (orders db))) (jobs db) in
  let referenced :=
    existsb (fun j => negb (job_ended j) && (own_job j || result_contains j (build_id b))) (jobs db) in
  mem (build_state b) UNFINISHED_BUILD_STATES
  && ((to_utc now - OWNER_SETTLE_GRACE <? to_utc (build_updated_at b))
      || (bool_decide (build_state b = BUILDING) && referenced)
      || (negb (bool_decide (build_state b = BUILDING)) && may_run)).

(** A profile load's promise can still be handed to its run. *)
Definition profile_claim_consumable (db : Database) (claim_owner claim_node : string) : bool :=
  owner_live (owner db {| ref_kind := OwnerKind.FLEET_PROFILE; ref_id := claim_owner |} None)
  && match get app_id (applications db) claim_owner, get node_id (nodes db) claim_node with
     | Some a, Some n =>
         match app_intent a with
         | Some intent => bool_decide (intent = Some (node_intent n))
         | None => false
         end
     | _, _ => false
     end.

(** ** Reservations *)
Definition _NOUNS : list (OwnerKind * string) :=
  [(OwnerKind.FLEET_PROFILE, "profile application"); (OwnerKind.RUN, "run");
   (OwnerKind.INSTALLATION, "installation"); (OwnerKind.RECIPE_BUILD, "recipe build")].
Definition _DETAILED : list OwnerKind := [OwnerKind.INSTALLATION; OwnerKind.RECIPE_BUILD].

Record ReservationOwner := {
  ro_kind : string;
  ro_id : string;
  ro_state : string;
  ro_dead : bool;
  ro_noun : string;
  ro_detail : string;
}.
#[global] Instance ReservationOwner_eq : EqDecision ReservationOwner.
Proof. solve_decision. Defined.

Definition describe (o : ReservationOwner) : string :=
  let text := ro_state o +:+ " " +:+ ro_noun o +:+ " " +:+ str_take 8 (ro_id o) in
  if bool_decide (ro_detail o = EmptyString) then text
  else text +:+ " (" +:+ ro_detail o +:+ ")".

Definition reservation_owner (db : Database) (kind_ id_ : string) (now : option datetime)
  : ReservationOwner :=
  match find (fun k => String.eqb (value (fst k)) kind_) _NOUNS with
  | None => {| ro_kind := kind_; ro_id := id_; ro_state := "unrecognised"; ro_dead := false;
               ro_noun := "owner"; ro_detail := EmptyString |}
  | Some (k, noun) =>
      let found := owner db {| ref_kind := k; ref_id := id_ |} now in
      {| ro_kind := kind_; ro_id := id_; ro_state := owner_state found;
         ro_dead := negb (owner_live found); ro_noun := noun;
         ro_detail := if mem k _DETAILED && negb (bool_decide (owner_state found = "missing"))
                      then owner_why found else EmptyString |}
  end.

(** A claim that still holds something. *)
Definition holds (r : ResourceReservation) : bool :=
  mem (r_state r) [ReservationState.ACTIVE; ReservationState.PROMISED].

Definition release (now : datetime) (r : ResourceReservation) : ResourceReservation := {|
  r_id := r_id r; r_node := r_node r; r_kind := r_kind r; r_key := r_key r;
  r_amount := r_amount r; r_owner_kind := r_owner_kind r; r_owner_id := r_owner_id r;
  r_state := ReservationState.RELEASED; r_plan_digest := r_plan_digest r;
  r_created_at := r_created_at r; r_released_at := Some now |}.

(** [sorted(owners)]: pairs by kind, then id. *)
Definition pair_le (a b : string * string) : Prop :=
  (fst a <> fst b /\ str_le (fst a) (fst b)) \/ (fst a = fst b /\ str_le (snd a) (snd b)).
#[global] Instance pair_le_dec a b : Decision (pair_le a b).
Proof. unfold pair_le. apply _. Defined.

(** The owners that hold something, each once. *)
Definition holding_owners (claims : list ResourceReservation) : list (string * string) :=
  merge_sort pair_le
    (remove_dups ((fun r => (r_owner_kind r, r_owner_id r)) <$> List.filter holds claims)).

(** The rows of one owner that no other transaction holds. *)
Definition lockable (locked : string -> bool) (p : string * string) (r : ResourceReservation) : bool :=
  bool_decide ((r_owner_kind r, r_owner_id r) = p) && holds r && negb (locked (r_id r)).

(** The loop over the owners: the claims after the pass and the owners released.  Other
    transactions commit meanwhile: [seen p] is the database as the candidate [p] is
    classified, [held p] as it is classified again once its rows are locked. *)
Fixpoint release_owners (seen held : string * string -> Database) (locked : string -> bool)
    (now : datetime) (owners : list (string * string)) (claims : list ResourceReservation)
  : list ResourceReservation * list ReservationOwner :=
  match owners with
  | [] => (claims, [])
  | p :: rest =>
      if negb (ro_dead (reservation_owner (seen p) (fst p) (snd p) (Some now)))
         || negb (existsb (lockable locked p) claims)
      then release_owners seen held locked now rest claims
      else
        let ended := reservation_owner (held p) (fst p) (snd p) (Some now) in
        if negb (ro_dead ended) then release_owners seen held locked now rest claims
        else
          let claims' := (fun r => if lockable locked p r then release now r else r) <$> claims in
          let '(after, released) := release_owners seen held locked now rest claims' in
          (after, ended :: released)
  end.

Definition release_dead_owner_reservations (seen held : string * string -> Database)
    (locked : string -> bool) (now : datetime) (claims : list ResourceReservation)
  : list ResourceReservation * list ReservationOwner :=
  release_owners seen held locked now (holding_owners claims) claims.
