(* ===== verification/OwnerLivenessFacts.v ===== *)
(** * Theorems of owner liveness

    What [OwnerLiveness] promises the sweeps and the waits: an ended owner stays ended, the
    two forms of the in-flight rule agree, the bulk query answers for each id as the single
    one does, a sweep releases the claims of ended owners and no others, and an order never
    runs out of recovery time while its Spark is away. *)
From S2P Require Import Prelude Vocabulary StateMachines StallWindow PersistedWaits SparkAttempts.
From S2P Require Import ResourceTypes Rows OwnerLiveness.

Lemma get_key {R} (key : R -> string) table i r : get key table i = Some r -> key r = i.
Proof. intros [_ H]%List.find_some. by apply String.eqb_eq. Qed.

(** ** Time *)
Lemma settled_later since now now' window :
  to_utc now <= to_utc now' ->
  _settled since (Some now) window = true -> _settled since (Some now') window = true.
Proof.
  unfold _settled. destruct since; [|done]. intros ? H. apply Z.leb_le. apply Z.leb_le in H. lia.
Qed.

Lemma progressed_start_deadline_passed accepted progressed now now' :
  to_utc now <= to_utc now' ->
  progressed_start_deadline accepted progressed now <= to_utc now ->
  progressed_start_deadline accepted progressed now' <= to_utc now'.
Proof.
  unfold progressed_start_deadline, stall_deadline, latest_progress, START_STALL_WINDOW, seconds.
  destruct progressed as [p|]; simpl; lia.
Qed.

Lemma lapsed_renewal_later o a now now' :
  to_utc now <= to_utc now' ->
  lapsed_renewal_allowed o a now = false -> lapsed_renewal_allowed o a now' = false.
Proof.
  intros Hle. unfold lapsed_renewal_allowed, start_deadline.
  destruct (operation_start_deadline o) as [accepted|]; [|done]. intros H. bools.
  apply Z.ltb_ge. eauto using progressed_start_deadline_passed.
Qed.

Lemma holds_order_later o a now now' s :
  to_utc now <= to_utc now' ->
  attempt_holds_order o a now s = false -> attempt_holds_order o a now' s = false.
Proof.
  intros Hle. unfold attempt_holds_order, attempt_is_live, attempt_holds_open_launch_budget.
  destruct a as [a|]; [|by destruct s].
  pose proof (lapsed_renewal_later o (Some a) now now' Hle) as Hr.
  destruct (lapsed_renewal_allowed o (Some a) now) eqn:E; [|rewrite Hr by done];
    destruct s; simpl; repeat (case_bool_decide; simpl; try done);
    repeat match goal with |- context [Z.ltb ?x ?y] => destruct (Z.ltb_spec x y); simpl; try done end;
    try lia; destruct (Z.eqb _ _); simpl; try done; lia.
Qed.

(** The owner kinds whose evidence can only run out: all but waiting for a Spark to return,
    which ends and begins again with the Spark's presence. *)
Definition runs_out (k : OwnerKind) : bool := negb (same k OwnerKind.SPARK_RETURN).

(** Ending needs proof, and stays proven: while its rows do not change, an owner that ended
    never comes back to life by time alone (a window that passed stays passed, a lease or a
    launch budget that lapsed stays lapsed). *)
Theorem ended_stays_ended db ref now now' :
  runs_out (ref_kind ref) = true -> to_utc now <= to_utc now' ->
  owner_live (owner db ref (Some now)) = false -> owner_live (owner db ref (Some now')) = false.
Proof.
  intros Hk Hle. unfold owner. destruct (ref_kind ref); try done;
    [unfold _installation|unfold _recipe_build|unfold _agent_attempt|unfold _sync_run
    |unfold _renewal_intent|unfold _enrollment].
  - destruct (get _ _ _) as [i|]; [|done]. do 2 (case_match; [done|]).
    destruct (_settled _ (Some now) _) eqn:E; [|done]. rewrite (settled_later _ now now') by done.
    simpl. by repeat case_match.
  - destruct (get _ _ _) as [b|]; [|done].
    destruct (_settled _ (Some now) _) eqn:E; [|done]. rewrite (settled_later _ now now') by done.
    simpl. by repeat case_match.
  - destruct (get _ _ _) as [o|]; [|done]. simpl. by apply holds_order_later.
  - destruct (get _ _ _) as [r|]; [|done]. case_match; [done|]. case_match eqn:E; [|done].
    bools. intros _. case_match eqn:E'; [done|]. bools. lia.
  - destruct (get _ _ _) as [r|]; [|done]. case_match eqn:E; [|done].
    bools. intros _. case_match eqn:E'; [done|]. bools. lia.
  - destruct (get _ _ _) as [r|]; [|done]. case_match; [done|]. case_match eqn:E; [|done].
    bools. intros _. case_match eqn:E'; [done|]. bools. lia.
Qed.

(** ** Builds in flight *)
Lemma existsb_filter {A} (p q : A -> bool) l :
  existsb q (List.filter p l) = existsb (fun x => p x && q x) l.
Proof. induction l as [|x l IH]; simpl; [done|]. destruct (p x); simpl; by rewrite IH. Qed.

Lemma existsb_ext_eq {A} (p q : A -> bool) l : (forall x, p x = q x) -> existsb p l = existsb q l.
Proof. intros H. induction l as [|x l IH]; simpl; [done|]. by rewrite H, IH. Qed.

Lemma filter_nil_existsb {A} (p : A -> bool) l :
  bool_decide (List.filter p l = []) = negb (existsb p l).
Proof. induction l as [|x l IH]; simpl; [done|]. by destruct (p x). Qed.

Lemma job_may_run_exists db j :
  job_may_run db j =
  negb (existsb (fun o => bool_decide (o_parent_job_id o = job_id j)) (orders db))
  || existsb (fun o => bool_decide (o_parent_job_id o = job_id j) && mem (o_state o) AOS.LIVE)
       (orders db).
Proof. unfold job_may_run, orders_of. by rewrite filter_nil_existsb, existsb_filter. Qed.

(** The query and the function are one rule: the filter on build rows selects exactly the
    rows [build_in_flight] calls in flight, where it reads the row by its own id. *)
Theorem builds_in_flight_same db now b :
  get build_id (builds db) (build_id b) = Some b ->
  builds_in_flight db now b = build_in_flight db b now.
Proof.
  intros Hg. unfold builds_in_flight, build_in_flight, owner, _recipe_build. simpl. rewrite Hg.
  f_equal. unfold _settled.
  replace (to_utc now - OWNER_SETTLE_GRACE <? to_utc (build_updated_at b))
    with (negb (to_utc (build_updated_at b) + OWNER_SETTLE_GRACE <=? to_utc now))
    by (rewrite <- Z.ltb_antisym; apply eq_true_iff_eq; rewrite !Z.ltb_lt; lia).
  destruct (_ <=? _); [|done]. simpl. unfold build_may_run, referencing_active_job.
  destruct (bool_decide (build_state b = BUILDING)) eqn:E; simpl.
  - rewrite orb_false_r. by destruct (existsb _ _).
  - erewrite (existsb_ext_eq _ (fun j => _ && _ && job_may_run db j)).
    2: { intros j. by rewrite job_may_run_exists. }
    by destruct (existsb _ _).
Qed.

(** ** Installations named by live jobs *)

(** A live job names an installation: in its plan or intent, as its owner, or in its
    recorded progress. *)
Definition job_names_installation (j : JobRow) (i : string) : Prop :=
  mem (job_state j) JobStates.LIVE = true /\
  (i <> EmptyString /\
     (job_intent_installation j = Some i \/ job_plan_installation j = Some i \/
      (job_owner_id j = Some i /\ job_owner_kind j = Some (value OwnerKind.INSTALLATION))) \/
   truthy_str (job_result j) = true /\ result_contains j i = true).

Lemma named_by_iff wanted j i :
  i ∈ wanted ->
  selects_installations wanted j = true /\ i ∈ named_by wanted j <-> job_names_installation j i.
Proof.
  intros Hi. unfold selects_installations, named_by, job_names_installation.
  rewrite elem_of_app, list_elem_of_omap, andb_true_iff, orb_true_iff, !existsb_exists.
  rewrite (list_elem_of_In (List.filter _ _) i), List.filter_In, andb_true_iff, <- (list_elem_of_In wanted i).
  split.
  - intros [[Hl _] [(p & Hp & Hn)|(_ & Ht & Hr)]]; split; try done; [left|by right].
    unfold names_installation in Hn. destruct (snd p) as [v|] eqn:Ev; [|done].
    case_match eqn:E; [|done]. injection Hn as ->. bools.
    unfold installation_paths in Hp. set_unfold. split; [done|].
    destruct Hp as [->|[->|[->|[]]]]; simpl in *; bools; [by left|right; right|by right; left].
    done.
  - intros [Hl [[He Hn]|[Ht Hr]]].
    + assert (exists p, p ∈ installation_paths j /\ snd p = Some i /\ names_installation j p = Some i)
        as (p & Hp & Hs & Hnm).
      { unfold installation_paths, names_installation. destruct Hn as [H|[H|[H Ho]]];
          [exists (false, job_intent_installation j)|exists (false, job_plan_installation j)
          |exists (true, job_owner_id j)];
          (split; [set_solver|]); simpl; rewrite H; (split; [done|]);
          rewrite bool_decide_eq_false_2 by done; try done. by rewrite Ho. }
      split; [split; [done|left]|left; by exists p].
      exists p. rewrite <- list_elem_of_In, Hs. split; [done|]. by apply mem_true.
    + split; [split; [done|right]|by right]. exists i. by rewrite <- list_elem_of_In.
Qed.

(** A sweep asking about many installations gets for each of them what asking about it alone
    gets: the answer for an id is whether some live job names that id. *)
Theorem installations_named_pointwise db wanted i :
  i ∈ installations_named_by_live_jobs db wanted <->
  i ∈ wanted /\ exists j, j ∈ jobs db /\ job_names_installation j i.
Proof.
  unfold installations_named_by_live_jobs.
  rewrite list_elem_of_In, List.filter_In, <- list_elem_of_In, mem_true, (list_elem_of_In (concat _)), in_concat.
  split; intros [Hi H]; split; try done.
  - destruct H as (l & Hl & Hin). apply list_elem_of_In, list_elem_of_fmap in Hl as (j & -> & Hj).
    apply list_elem_of_In, List.filter_In in Hj as [Hj Hs]. exists j. rewrite list_elem_of_In.
    split; [done|]. apply (named_by_iff wanted); [done|]. by rewrite list_elem_of_In.
  - destruct H as (j & Hj & Hn). apply (named_by_iff wanted) in Hn as [Hs Hin]; [|done].
    exists (named_by wanted j). rewrite <- !list_elem_of_In. split; [|done].
    apply list_elem_of_fmap. exists j. split; [done|]. by rewrite list_elem_of_In, List.filter_In, <- list_elem_of_In.
Qed.

(** ** The sweep *)
Section sweep.
Context (seen held : string * string -> Database) (locked : string -> bool) (now : datetime).

Definition claim_owner (r : ResourceReservation) : string * string := (r_owner_kind r, r_owner_id r).

Definition dead_in (dbs : string * string -> Database) (p : string * string) : bool :=
  ro_dead (reservation_owner (dbs p) (fst p) (snd p) (Some now)).

(** What the sweep means to end: a claim that holds something, that no other transaction has
    locked, and whose owner had ended when it was found and still when its rows were held. *)
Definition ends (r : ResourceReservation) : bool :=
  holds r && negb (locked (r_id r)) && dead_in seen (claim_owner r) && dead_in held (claim_owner r).

Definition swept (r : ResourceReservation) : ResourceReservation :=
  if ends r then release now r else r.

Lemma holds_release r : holds (release now r) = false.
Proof. done. Qed.

Lemma ends_release r : ends (release now r) = false.
Proof. done. Qed.

Lemma lockable_iff p r :
  lockable locked p r = true <-> claim_owner r = p /\ holds r = true /\ locked (r_id r) = false.
Proof.
  unfold lockable, claim_owner. rewrite !andb_true_iff, bool_decide_eq_true, negb_true_iff. naive_solver.
Qed.

Lemma ends_lockable r :
  ends r = true <->
  lockable locked (claim_owner r) r = true /\ dead_in seen (claim_owner r) = true /\
  dead_in held (claim_owner r) = true.
Proof. rewrite lockable_iff. unfold ends. rewrite !andb_true_iff, negb_true_iff. naive_solver. Qed.

Definition ended (p : string * string) : ReservationOwner :=
  reservation_owner (held p) (fst p) (snd p) (Some now).

(** The claims of the given owners swept. *)
Definition swept_of (owners : list (string * string)) (r : ResourceReservation)
  : ResourceReservation :=
  if mem (claim_owner r) owners then swept r else r.

(** Some claim of this owner ends. *)
Definition owes (claims : list ResourceReservation) (p : string * string) : bool :=
  existsb (fun r => bool_decide (claim_owner r = p) && ends r) claims.

Lemma owes_iff claims p : owes claims p = true <-> exists r, r ∈ claims /\ claim_owner r = p /\ ends r = true.
Proof.
  unfold owes. rewrite existsb_exists. split; intros (r & H); exists r;
    rewrite ?andb_true_iff, ?bool_decide_eq_true, list_elem_of_In in *; naive_solver.
Qed.

Lemma swept_of_owner owners r : claim_owner (swept_of owners r) = claim_owner r.
Proof. unfold swept_of, swept. by destruct (mem _ _), (ends r). Qed.

Lemma ends_swept_of owners r :
  ends (swept_of owners r) = ends r && negb (mem (claim_owner r) owners).
Proof.
  unfold swept_of, swept. destruct (mem _ _); simpl; [|by rewrite andb_true_r].
  destruct (ends r) eqn:E; [done|by rewrite E].
Qed.

Lemma swept_of_one p r : swept_of [p] r = if bool_decide (claim_owner r = p) then swept r else r.
Proof.
  unfold swept_of, mem. by rewrite (bool_decide_ext _ _ (list_elem_of_singleton (claim_owner r) p)).
Qed.

Lemma swept_idem r : swept (swept r) = swept r.
Proof. unfold swept. destruct (ends r) eqn:E; [done|by rewrite E]. Qed.

Lemma swept_of_cons p owners r : swept_of (p :: owners) r = swept_of owners (swept_of [p] r).
Proof.
  unfold swept_of at 2. rewrite swept_of_owner, swept_of_one. unfold swept_of.
  destruct (mem (claim_owner r) (p :: owners)) eqn:E, (mem (claim_owner r) owners) eqn:E';
    case_bool_decide; bools; rewrite ?swept_idem; try done; set_solver.
Qed.

Lemma owes_swept claims p q :
  owes (swept_of [p] <$> claims) q = owes claims q && negb (bool_decide (q = p)).
Proof.
  apply eq_true_iff_eq. rewrite andb_true_iff, negb_true_iff, bool_decide_eq_false, !owes_iff.
  setoid_rewrite list_elem_of_fmap. split.
  - intros (? & (r & -> & Hr) & Ho & He). rewrite swept_of_owner in Ho. rewrite ends_swept_of in He.
    bools. split; [naive_solver|set_solver].
  - intros [(r & Hr & Ho & He) Hne]. exists (swept_of [p] r).
    rewrite swept_of_owner, ends_swept_of, He, (proj2 (mem_false _ _)) by set_solver. naive_solver.
Qed.

(** One round of the loop. *)
Lemma release_owners_cons p owners claims :
  release_owners seen held locked now (p :: owners) claims =
  let '(after, released) := release_owners seen held locked now owners (swept_of [p] <$> claims) in
  (after, if owes claims p then ended p :: released else released).
Proof.
  assert (Hid : owes claims p = false -> swept_of [p] <$> claims = claims).
  { intros Hno. rewrite <- list_fmap_id. apply list_fmap_ext. intros k r Hr%list_elem_of_lookup_2.
    unfold swept_of, swept. case_match eqn:Em; [|done]. case_match eqn:E; [|done]. bools.
    rewrite <- Bool.not_true_iff_false in Hno. destruct Hno. apply owes_iff. set_solver. }
  simpl. fold (dead_in seen p) (dead_in held p) (ended p).
  destruct (dead_in seen p && existsb (lockable locked p) claims && dead_in held p) eqn:E.
  - bools. rewrite H0, H1, H. simpl. rewrite (proj2 (owes_iff claims p)).
    + erewrite (list_fmap_ext (fun r => if lockable locked p r then _ else r)); [done|].
      intros k r _. rewrite swept_of_one. unfold swept, ends, lockable, claim_owner. case_bool_decide as Hp; [|done]. subst p. simpl.
      unfold claim_owner in *. by rewrite H, H0, !andb_true_r.
    + apply existsb_exists in H1 as (r & Hr%list_elem_of_In & Hl). exists r. split; [done|].
      pose proof Hl as [Ho _]%lockable_iff. split; [done|]. apply ends_lockable. by rewrite Ho.
  - assert (owes claims p = false) as Hno.
    { destruct (owes claims p) eqn:Ho; [|done]. apply owes_iff in Ho as (r & Hr & <- & He).
      apply ends_lockable in He as (Hl & Hs & Hh). rewrite Hs, Hh, andb_true_r in E. simpl in E.
      rewrite <- E. symmetry. apply existsb_exists. exists r. by rewrite <- list_elem_of_In. }
    rewrite Hno, (Hid Hno). destruct (dead_in seen p), (existsb _ claims), (dead_in held p); simpl; try done;
    by destruct (release_owners _ _ _ _ _ _).
Qed.

Lemma release_owners_spec owners claims :
  let '(after, released) := release_owners seen held locked now owners claims in
  after = swept_of owners <$> claims /\
  forall o, o ∈ released <-> exists p, p ∈ owners /\ owes claims p = true /\ o = ended p.
Proof.
  revert claims. induction owners as [|p owners IH]; intros claims.
  { simpl. split; [|set_solver]. symmetry. rewrite <- list_fmap_id. by apply list_fmap_ext. }
  rewrite release_owners_cons. specialize (IH (swept_of [p] <$> claims)).
  destruct (release_owners _ _ _ _ _ _) as [after released]. destruct IH as [-> Hrel]. split.
  { rewrite <- list_fmap_compose. apply list_fmap_ext. intros k r _. symmetry. apply swept_of_cons. }
  intros o. assert (Ho : o ∈ released <-> exists q, q ∈ owners /\ owes claims q = true /\ q <> p /\ o = ended q).
  { rewrite Hrel. split; intros (q & Hq & H); exists q; rewrite owes_swept, andb_true_iff, negb_true_iff,
      bool_decide_eq_false in *; naive_solver. }
  destruct (owes claims p) eqn:E; rewrite ?elem_of_cons, Ho; clear Hrel Ho; (split; [set_solver|]);
    intros (q & Hq%elem_of_cons & H & ->); destruct (decide (q = p)) as [->|Hne];
    [by left|right|congruence|]; destruct Hq; (done || by exists q).
Qed.
End sweep.

Lemma elem_of_holding_owners claims p :
  p ∈ holding_owners claims <-> exists r, r ∈ claims /\ holds r = true /\ claim_owner r = p.
Proof.
  unfold holding_owners. rewrite (merge_sort_Permutation pair_le), elem_of_remove_dups, list_elem_of_fmap.
  setoid_rewrite list_elem_of_In. setoid_rewrite List.filter_In. unfold claim_owner. naive_solver.
Qed.

Lemma sweep_swept seen held locked now claims :
  fst (release_dead_owner_reservations seen held locked now claims) = (swept seen held locked now <$> claims).
Proof.
  unfold release_dead_owner_reservations.
  pose proof (release_owners_spec seen held locked now (holding_owners claims) claims) as H.
  destruct (release_owners _ _ _ _ _ _) as [after released]. destruct H as [-> _]. simpl.
  apply list_fmap_ext. intros k r Hr%list_elem_of_lookup_2. unfold swept_of, swept.
  case_match eqn:Em; [done|]. case_match eqn:E; [|done]. bools. destruct Em.
  apply elem_of_holding_owners. exists r. split_and!; [done| |done]. unfold ends in E. by bools.
Qed.

(** The sweep is exact: it releases every claim that holds something, is not locked by
    another writer and whose owner had ended when found and again under its row locks; it
    changes no other claim, reports exactly the owners it released claims of, and every one
    of them had ended. *)
Theorem sweep_releases_exactly_the_ended seen held locked now claims :
  let '(after, released) := release_dead_owner_reservations seen held locked now claims in
  after = (swept seen held locked now <$> claims) /\
  (forall o, o ∈ released <->
     exists r, r ∈ claims /\ ends seen held locked now r = true /\ o = ended held now (claim_owner r)) /\
  (forall o, o ∈ released -> ro_dead o = true).
Proof.
  pose proof (sweep_swept seen held locked now claims) as Hswept.
  unfold release_dead_owner_reservations in *.
  pose proof (release_owners_spec seen held locked now (holding_owners claims) claims) as H.
  destruct (release_owners _ _ _ _ _ _) as [after released]. destruct H as [_ Hrel]. simpl in Hswept.
  assert (Hends : forall o, o ∈ released <->
     exists r, r ∈ claims /\ ends seen held locked now r = true /\ o = ended held now (claim_owner r)).
  { intros o. rewrite Hrel. split.
    - intros (p & _ & (r & Hr & <- & He)%owes_iff & ->). by exists r.
    - intros (r & Hr & He & ->). exists (claim_owner r). split_and!; [|apply owes_iff; eauto|done].
      apply elem_of_holding_owners. exists r. split_and!; [done| |done]. unfold ends in He. by bools. }
  split_and!; [done|done|]. intros o (r & _ & He & ->)%Hends. unfold ends in He. by bools.
Qed.

(** ** A Spark that is away *)

(** An order waiting for a Spark: while the enrolled Spark has not been heard from for the
    presence window, the order that waits for it keeps at least a full recovery budget. *)
Theorem away_spark_keeps_recovery_open db o att n now stored :
  get node_id (nodes db) (o_node_id o) = Some n -> node_revoked_at n = None ->
  (forall seen, node_last_seen n = Some seen -> SPARK_PRESENCE_WINDOW < to_utc now - to_utc seen) ->
  o_recovery_deadline o = Some stored ->
  is_job_run o && match pay_job_run (o_payload o) with
                  | Some req => output_delivery_only req | None => false end = false ->
  let spark := {| ref_kind := OwnerKind.SPARK_RETURN; ref_id := o_node_id o |} in
  exists d, order_recovery_deadline o att (owner_wait (owner db spark (Some now))) now = Some d /\
            to_utc now + AGENT_ORDER_RECOVERY_BUDGET <= d /\ to_utc stored <= d.
Proof.
  intros Hn Hr Haway Hd Hj spark.
  assert (Hl : live (owner_wait (owner db spark (Some now))) = true).
  { unfold owner, spark, owner_wait, _spark_return. simpl. rewrite Hn, Hr. simpl. unfold spark_away.
    destruct (node_last_seen n) as [seen|]; [|done]. apply Z.ltb_lt. by apply Haway. }
  pose proof (order_recovery_deadline_spec o att (owner_wait (owner db spark (Some now))) now) as H.
  rewrite Hd in H. destruct H as (d & -> & Hge & _ & H). exists d. naive_solver.
Qed.

(** ** Concrete rows *)
Definition no_image : ImageContent := {|
  image_digest := None; archive_sha256 := None; image_bytes := None; architecture := None;
  runtime_interface := None; runtime_interface_label := None |}.

Definition example_build : BuildRow := {|
  build_id := "build-1"; build_state := "planned"; build_updated_at := Naive 0;
  build_input_sha256 := "ab"; build_source_bundle_sha256 := "cd"; build_image := no_image;
  builder_node_id := "node-1" |}.

Definition build_db : Database := {|
  applications := [];
  nodes := [{| node_id := "node-1"; node_state := "active"; node_revoked_at := None;
               node_last_seen := Some (Naive 0); node_intent := 1 |}]; jobs := []; runs := []; run_nodes := []; installations := [];
  installation_nodes := []; builds := [example_build]; orders := []; order_attempts := fun _ => [];
  cache_operations := [];
  sync_runs := [{| sync_id := "sync-1"; sync_state := "running"; sync_heartbeat_at := None;
                   sync_started_at := Aware 0 |}];
  rotations := []; enrollments := []; inventory := [] |}.

Lemma builds_in_flight_same_witness :
  builds_in_flight build_db (Aware (seconds 60)) example_build =
  build_in_flight build_db example_build (Aware (seconds 60)).
Proof. exact (builds_in_flight_same build_db (Aware (seconds 60)) example_build eq_refl). Defined.

Lemma ended_stays_ended_witness :
  owner_live (owner build_db {| ref_kind := OwnerKind.SYNC_RUN; ref_id := "sync-1" |}
                (Some (Aware (seconds 900)))) = false.
Proof.
  apply (ended_stays_ended build_db _ (Aware (seconds 601))); [reflexivity|vm_compute; discriminate|].
  vm_compute. reflexivity.
Defined.

Definition waiting_order : StoredOperation := {|
  o_id := "op-1"; o_parent_job_id := "job-1"; o_node_id := "node-1"; o_kind := "recipe.install";
  o_payload := {| pay_start_deadline := None; pay_run_id := None; pay_job_run := None |};
  o_workload_intent_ordinal := None; o_state := "running"; o_status_reason := None;
  o_current_attempt := 1; o_observe_count := 0; o_recovery_deadline := Some (Aware (seconds 3600));
  o_retry_due_at := None; o_updated_at := None; o_wait := WaitColumns NoEvidence None |}.

Lemma away_spark_keeps_recovery_open_witness :
  exists d,
    order_recovery_deadline waiting_order None
      (owner_wait (owner build_db {| ref_kind := OwnerKind.SPARK_RETURN; ref_id := "node-1" |}
                     (Some (Aware (seconds 9000))))) (Aware (seconds 9000)) = Some d /\
    seconds 9000 + AGENT_ORDER_RECOVERY_BUDGET <= d /\ seconds 3600 <= d.
Proof.
  refine (away_spark_keeps_recovery_open build_db waiting_order None _ (Aware (seconds 9000))
            (Aware (seconds 3600)) eq_refl eq_refl _ eq_refl eq_refl).
  intros seen [= <-]. vm_compute. reflexivity.
Defined.
