(* ===== verification/ProfileCapacity.v ===== *)
(** * Capacity claims of a profile load

    [control/src/vonk_control/profile_capacity.py], [fleet_profile_capacity_repair.py],
    [profile_port_promises.py] and the image comparison of [content_identity.py].  An accepted
    load reserves disk, memory and ports for its assignments; the child that does the work
    takes a claim over by changing its owner, and the load releases what no child took.

    The claims are a table passed through the operations, [list ResourceReservation]; the rest
    of the database is read only.  An operation that raises leaves no trace (its transaction is
    rolled back), so it returns a [result] of the new table.  Row locks are not modelled.  The
    image a load accepted ([accepted_profile_runtime_image], which asks the profile service) is
    an argument of the build claim. *)
From stdpp Require Import sorting.
From S2P Require Import Prelude Vocabulary StateMachines ReasonCodes Uuid PersistedWaits.
From S2P Require Import SparkAttempts ResourceTypes Rows OwnerLiveness.

(** ** States, errors, documents *)
Module FleetProfileStates.
Definition LIVE : list string :=
  stored_words LifecycleSubject.FLEET_PROFILE_APPLICATION
    [LifecycleState.QUEUED; LifecycleState.RUNNING; LifecycleState.BACKOFF;
     LifecycleState.NEEDS_OPERATOR].
End FleetProfileStates.

Definition scope_changed {A} (msg : string) : result A :=
  Raise (UnknownOutcomeError msg (value WaitReason.SCOPE_CHANGED)).

(** [capacity_document]: a damaged stored document is an unknown outcome. *)
Definition capacity_document {D} (doc : option D) : result D :=
  match doc with Some d => Ok d | None => scope_changed "the stored document cannot be read" end.

(** ** The claim table *)
Definition claim_row (claims : list ResourceReservation) (id_ : string)
  : option ResourceReservation :=
  get r_id claims id_.

(** Assign to the columns of one row. *)
Definition write_claim (id_ : string) (f : ResourceReservation -> ResourceReservation)
    (claims : list ResourceReservation) : list ResourceReservation :=
  (fun r => if bool_decide (r_id r = id_) then f r else r) <$> claims.

(** Release every claim a query selects. *)
Definition release_where (p : ResourceReservation -> bool) (now : datetime)
    (claims : list ResourceReservation) : list ResourceReservation :=
  (fun r => if p r then release now r else r) <$> claims.

(** A claim of this load. *)
Definition of_load (id_ : string) (r : ResourceReservation) : bool :=
  bool_decide (r_owner_kind r = "fleet-profile") && bool_decide (r_owner_id r = id_).

Definition profile_claim (id_ node_ kind_ key : string) (amount : Z) (st : ReservationState)
    (a : ApplicationRow) (created : datetime) : ResourceReservation := {|
  r_id := id_; r_node := node_; r_kind := kind_; r_key := key; r_amount := amount;
  r_owner_kind := "fleet-profile"; r_owner_id := app_id a; r_state := st;
  r_plan_digest := app_plan_digest a; r_created_at := created; r_released_at := None |}.

Definition reservation_visible (excluded_profile_application_ids excluded_run_ids
    excluded_installation_ids : list string) (r : ResourceReservation) : bool :=
  (negb (bool_decide (r_owner_kind r = "fleet-profile"))
   || negb (mem (r_owner_id r) excluded_profile_application_ids))
  && (negb (bool_decide (r_owner_kind r = "run")) || negb (mem (r_owner_id r) excluded_run_ids))
  && (negb (bool_decide (r_owner_kind r = "installation"))
      || negb (mem (r_owner_id r) excluded_installation_ids)).

(** ** Identifiers of the claims *)
Definition claim_id (application_id name : string) : result string :=
  ns ← UUID application_id; Ok (uuid_text (uuid5 ns name)).

Definition _disk_claim_id (application_id assignment_id node_ : string) : result string :=
  claim_id application_id ("profile-capacity:disk:" +:+ assignment_id +:+ ":" +:+ node_).

Definition _port_claim_id (application_id assignment_id node_ : string) (port : Z)
  : result string :=
  claim_id application_id
    ("profile-capacity:port:" +:+ assignment_id +:+ ":" +:+ node_ +:+ ":" +:+ pretty port).

Definition memory_claim_id (application_id assignment_id node_ : string) : result string :=
  claim_id application_id ("profile-capacity:memory:" +:+ assignment_id +:+ ":" +:+ node_).

(** ** Reserving *)

(** The requirements of the named assignments, each with its assignment. *)
Definition wanted_requirements (review : FleetProfilePreview) (assignment_ids : list string)
  : list (string * FleetProfileResourceRequirement) :=
  concat ((fun d => (fun q => (dec_assignment_id d, q)) <$> dec_requirements d) <$>
            List.filter (fun d => mem (dec_assignment_id d) assignment_ids)
              (admission_decisions review)).

Definition disk_claim (a : ApplicationRow) (now : datetime)
    (w : string * FleetProfileResourceRequirement) : result ResourceReservation :=
  let '(asg, q) := w in
  match q_disk_required_bytes q with
  | None => scope_changed "profile disk requirement is unavailable"
  | Some n =>
      id_ ← _disk_claim_id (app_id a) asg (q_node_id q);
      Ok (profile_claim id_ (q_node_id q) "disk" asg n ReservationState.ACTIVE a now)
  end.

Definition reserve_profile_disk (a : ApplicationRow) (review : FleetProfilePreview)
    (assignment_ids : list string) (now : datetime) (claims : list ResourceReservation)
  : result (list ResourceReservation) :=
  rows ← traverse (disk_claim a now) (wanted_requirements review assignment_ids);
  Ok (claims ++ rows)%list.

Definition memory_promise (a : ApplicationRow) (created : datetime) (asg : string)
    (q : FleetProfileResourceRequirement) (kind_ : MemoryKind) (amount : Z)
  : result ResourceReservation :=
  id_ ← memory_claim_id (app_id a) asg (q_node_id q);
  Ok (profile_claim id_ (q_node_id q) (memory_reservation_kind kind_) asg amount
        ReservationState.PROMISED a created).

Definition reserved_memory (a : ApplicationRow) (now : datetime)
    (w : string * FleetProfileResourceRequirement) : result ResourceReservation :=
  let '(asg, q) := w in
  match q_memory_required_bytes q, q_memory_kind q, q_memory_pool q with
  | Some n, Some k, Some _ => memory_promise a now asg q k n
  | _, _, _ => scope_changed "profile memory requirement is unavailable"
  end.

Definition reserve_profile_memory (a : ApplicationRow) (review : FleetProfilePreview)
    (assignment_ids : list string) (now : datetime) (claims : list ResourceReservation)
  : result (list ResourceReservation) :=
  rows ← traverse (reserved_memory a now) (wanted_requirements review assignment_ids);
  Ok (claims ++ rows)%list.

(** ** Ports *)
Definition PORT_PROMISE_CONSTRAINT : string := "uq_promised_node_port".

Definition port_taken {A} (node_ port : string) : result A :=
  Raise (ConstraintReplan
    ("Port " +:+ port +:+ " on Spark " +:+ node_ +:+ " is promised to another workload; "
     +:+ "the load is planned again with a free port.") PORT_PROMISE_CONSTRAINT).

(** Active bindings, and promises whose owning load is still live. *)
Definition port_binds (db : Database) (r : ResourceReservation) : bool :=
  negb (same (r_state r) ReservationState.PROMISED)
  || existsb (fun a => bool_decide (app_id a = r_owner_id r)
                       && mem (app_state a) FleetProfileStates.LIVE) (applications db).

(** The first pair that repeats an earlier one. *)
Fixpoint first_repeat (seen : list (string * Z)) (pairs : list (string * Z)) : option (string * Z) :=
  match pairs with
  | [] => None
  | p :: rest => if mem p seen then Some p else first_repeat (p :: seen) rest
  end.

(** Another load's promise of a wanted port. *)
Definition holds_wanted (application_id : string) (pairs : list (string * Z))
    (r : ResourceReservation) : bool :=
  bool_decide (r_kind r = "port") && same (r_state r) ReservationState.PROMISED
  && negb (bool_decide (r_owner_id r = application_id))
  && mem (r_node r, r_key r) ((fun p => (fst p, pretty (snd p))) <$> pairs).

Definition port_order (x y : ResourceReservation) : Prop :=
  pair_le (r_node x, r_key x) (r_node y, r_key y).
#[global] Instance port_order_dec x y : Decision (port_order x y).
Proof. unfold port_order. apply _. Defined.

Definition consumable (db : Database) (r : ResourceReservation) : bool :=
  profile_claim_consumable db (r_owner_id r) (r_node r).

Definition clear_port_promises (db : Database) (application_id : string)
    (pairs : list (string * Z)) (now : datetime) (claims : list ResourceReservation)
  : result (list ResourceReservation) :=
  match first_repeat [] pairs with
  | Some (node_, port) => port_taken node_ (pretty port)
  | None =>
      let held := merge_sort port_order (List.filter (holds_wanted application_id pairs) claims) in
      match find (consumable db) held with
      | Some r => port_taken (r_node r) (r_key r)
      | None => Ok (release_where (holds_wanted application_id pairs) now claims)
      end
  end.

Definition port_promise (a : ApplicationRow) (now : datetime) (w : string * string * Z)
  : result ResourceReservation :=
  let '(asg, node_, port) := w in
  id_ ← _port_claim_id (app_id a) asg node_ port;
  Ok (profile_claim id_ node_ "port" (pretty port) 0 ReservationState.PROMISED a now).

Definition wanted_ports (review : FleetProfilePreview) (assignment_ids : list string)
  : list (string * string * Z) :=
  concat ((fun w => (fun port => (fst w, q_node_id (snd w), port)) <$> ports_required (snd w)) <$>
            wanted_requirements review assignment_ids).

Definition reserve_profile_ports (db : Database) (a : ApplicationRow) (review : FleetProfilePreview)
    (assignment_ids : list string) (now : datetime) (claims : list ResourceReservation)
  : result (list ResourceReservation) :=
  let wanted := wanted_ports review assignment_ids in
  cleared ← clear_port_promises db (app_id a) ((fun w => (snd (fst w), snd w)) <$> wanted) now claims;
  rows ← traverse (port_promise a now) wanted;
  Ok (cleared ++ rows)%list.

(** ** The assignment a child works for *)
Definition node_order (x y : NodeRow) : Prop := str_le (node_id x) (node_id y).
#[global] Instance node_order_dec x y : Decision (node_order x y).
Proof. unfold node_order. apply _. Defined.

(** The intents of the named Sparks, in the order of their ids. *)
Definition current_intents (db : Database) (wanted : list string) : list (string * Z) :=
  (fun n => (node_id n, node_intent n)) <$>
    merge_sort node_order (List.filter (fun n => mem (node_id n) wanted) (nodes db)).

Definition requirements_of (review : FleetProfilePreview) (asg : string)
  : list FleetProfileResourceRequirement :=
  concat (dec_requirements <$>
            List.filter (fun d => bool_decide (dec_assignment_id d = asg)) (admission_decisions review)).

(** Two lists with the same elements, as Python sets. *)
Definition same_set {A} `{EqDecision A} (l k : list A) : bool :=
  forallb (fun x => mem x k) l && forallb (fun x => mem x l) k.

Definition _profile_assignment (db : Database) (application_id recipe_revision_id : string)
    (node_ids : list string) (workload_intent_ordinal : option Z)
  : result (ApplicationRow * FleetProfileAssignment * list FleetProfileResourceRequirement) :=
  match get app_id (applications db) application_id with
  | None => scope_changed "profile capacity owner is no longer active"
  | Some a =>
      if negb (mem (app_state a) FleetProfileStates.LIVE)
      then scope_changed "profile capacity owner is no longer active"
      else
        progress ← capacity_document (app_intent a);
        review ← capacity_document (app_plan a);
        match workload_intent_ordinal with
        | None => scope_changed "profile capacity owner does not match workload intent"
        | Some ordinal =>
            if negb (bool_decide (progress = Some ordinal))
            then scope_changed "profile capacity owner does not match workload intent"
            else
              let ids := sorted node_ids in
              if negb (bool_decide (current_intents db ids = (fun n => (n, ordinal)) <$> ids))
              then scope_changed "profile capacity intent was superseded"
              else
                match List.filter (fun g =>
                        bool_decide (asg_recipe_revision_id g = recipe_revision_id)
                        && bool_decide (sorted (asg_node_ids g) = ids))
                        (resolved_assignments review) with
                | [g] =>
                    let required := requirements_of review (asg_id g) in
                    if same_set (q_node_id <$> required) ids then Ok (a, g, required)
                    else scope_changed "profile capacity requirement is missing or changed"
                | _ => scope_changed "installation is outside the profile capacity claim"
                end
        end
  end.

(** ** Memory claims *)

(** [memory_claim]: the row of the promise; with [repair] the exact promise is written again,
    unless another owner has taken it. *)
Definition repaired (a : ApplicationRow) (asg : string) (q : FleetProfileResourceRequirement)
    (kind_ : MemoryKind) (amount : Z) (r : ResourceReservation) : ResourceReservation := {|
  r_id := r_id r; r_node := q_node_id q; r_kind := memory_reservation_kind kind_; r_key := asg;
  r_amount := amount; r_owner_kind := r_owner_kind r; r_owner_id := r_owner_id r;
  r_state := ReservationState.PROMISED; r_plan_digest := app_plan_digest a;
  r_created_at := r_created_at r; r_released_at := None |}.

Definition memory_claim (claims : list ResourceReservation) (a : ApplicationRow) (asg : string)
    (q : FleetProfileResourceRequirement) (repair : bool)
  : result (list ResourceReservation * option ResourceReservation) :=
  id_ ← memory_claim_id (app_id a) asg (q_node_id q);
  let found := claim_row claims id_ in
  if negb repair then Ok (claims, found)
  else
    match q_memory_kind q, q_memory_pool q, q_memory_required_bytes q with
    | Some k, Some _, Some n =>
        match found with
        | None =>
            promise ← memory_promise a (app_created_at a) asg q k n;
            Ok ((claims ++ [promise])%list, Some promise)
        | Some r =>
            if of_load (app_id a) r
            then Ok (write_claim id_ (repaired a asg q k n) claims, Some (repaired a asg q k n r))
            else Ok (claims, Some r)
        end
    | _, _, _ => scope_changed "Accepted memory requirement is unavailable"
    end.

(** The claim is exactly the promise of this requirement. *)
Definition is_promise (r : ResourceReservation) (a : ApplicationRow) (asg id_ : string)
    (q : FleetProfileResourceRequirement) (kind_ : MemoryKind) (amount : Z) : bool :=
  bool_decide (r_id r = id_) && bool_decide (r_node r = q_node_id q) && bool_decide (r_key r = asg)
  && bool_decide (r_kind r = memory_reservation_kind kind_) && (r_amount r =? amount)
  && of_load (app_id a) r && same (r_state r) ReservationState.PROMISED
  && bool_decide (r_plan_digest r = app_plan_digest a).

Definition _validate_memory_claim (r : ResourceReservation) (a : ApplicationRow) (asg : string)
    (q : FleetProfileResourceRequirement) : result unit :=
  match q_memory_kind q, q_memory_pool q, q_memory_required_bytes q with
  | Some k, Some _, Some n =>
      id_ ← memory_claim_id (app_id a) asg (q_node_id q);
      if is_promise r a asg id_ q k n then Ok tt
      else scope_changed "profile memory claim is missing or changed"
  | _, _, _ => scope_changed "profile memory claim is missing or changed"
  end.

(** What a run says it needs of a Spark: kind, bytes and pool. *)
Abbreviation NodeMemory := (MemoryKind * Z * option MemoryPool)%type.

Definition same_memory (m : NodeMemory) (q : FleetProfileResourceRequirement) : bool :=
  bool_decide (Some (fst (fst m)) = q_memory_kind q)
  && bool_decide (Some (snd (fst m)) = q_memory_required_bytes q)
  && bool_decide (snd m = q_memory_pool q).

(** The loop over the requirements: each claim is taken from the table as it is then. *)
Fixpoint inherit_memory (a : ApplicationRow) (asg : string) (node_memory : gmap string NodeMemory)
    (required : list FleetProfileResourceRequirement) (claims : list ResourceReservation)
    (taken : gmap string ResourceReservation)
  : result (list ResourceReservation * gmap string ResourceReservation) :=
  match required with
  | [] => Ok (claims, taken)
  | q :: rest =>
      match node_memory !! q_node_id q with
      | None => Raise (KeyError (q_node_id q))
      | Some m =>
          if negb (same_memory m q) then scope_changed "run memory changed after profile review"
          else
            got ← memory_claim claims a asg q true;
            match snd got with
            | None => scope_changed "profile memory claim is missing or changed"
            | Some r =>
                _ ← _validate_memory_claim r a asg q;
                inherit_memory a asg node_memory rest (fst got) (<[q_node_id q := r]> taken)
            end
      end
  end.

Definition runs_under (g : FleetProfileAssignment) (alias : string) : bool :=
  same (asg_desired_state g) DesiredAssignmentState.RUNNING && bool_decide (asg_alias g = Some alias).

Definition inherited_profile_memory (db : Database) (application_id recipe_revision_id alias : string)
    (node_memory : gmap string NodeMemory) (workload_intent_ordinal : option Z)
    (claims : list ResourceReservation)
  : result (list ResourceReservation * gmap string ResourceReservation) :=
  found ← _profile_assignment db application_id recipe_revision_id
            ((map_to_list node_memory).*1) workload_intent_ordinal;
  let '(a, g, required) := found in
  if negb (runs_under g alias) then scope_changed "run is outside the profile memory claim"
  else inherit_memory a (asg_id g) node_memory required claims ∅.

(** The decision and requirement a claim's key and node name; the last of equal keys counts. *)
Definition claim_requirement (review : FleetProfilePreview) (r : ResourceReservation)
  : option (FleetProfileAdmissionDecision * FleetProfileResourceRequirement) :=
  d ← find (fun d => bool_decide (dec_assignment_id d = r_key r)) (rev (admission_decisions review));
  q ← find (fun q => bool_decide (q_node_id q = r_node r)) (dec_requirements d);
  Some (d, q).

Definition memory_replacements (db : Database) (r : ResourceReservation) : result (list StopImpact) :=
  match get app_id (applications db) (r_owner_id r) with
  | None => Ok []
  | Some a =>
      review ← capacity_document (app_plan a);
      progress ← capacity_document (app_intent a);
      match claim_requirement review r with
      | None => scope_changed "profile memory requirement is missing or changed"
      | Some (d, q) =>
          _ ← _validate_memory_claim r a (dec_assignment_id d) q;
          match get node_id (nodes db) (r_node r), progress with
          | Some n, Some ordinal =>
              if mem (app_state a) FleetProfileStates.LIVE && (node_intent n =? ordinal)
              then Ok (List.filter (fun s => mem (r_node r) (stop_node_ids s)) (dec_stops d))
              else Ok []
          | _, _ => Ok []
          end
      end
  end.

(** Only exact reviewed run generations may overlap a future claim; any doubt is none. *)
Definition profile_memory_replacements (db : Database) (r : ResourceReservation) : list StopImpact :=
  match memory_replacements db r with Ok stops => stops | Raise _ => [] end.

Definition memory_floor (db : Database) (r : ResourceReservation) : result Z :=
  match get app_id (applications db) (r_owner_id r) with
  | None => Ok (r_amount r)
  | Some a =>
      review ← capacity_document (app_plan a);
      match claim_requirement review r with
      | Some (_, q) =>
          match q_memory_floor_bytes q with
          | Some floor => _ ← _validate_memory_claim r a (r_key r) q; Ok floor
          | None => scope_changed "profile memory requirement is missing"
          end
      | None => scope_changed "profile memory requirement is missing"
      end
  end.

(** The accepted reserve of a promise; what cannot be proven reserves the whole claim. *)
Definition profile_memory_floor (db : Database) (r : ResourceReservation) : Z :=
  match memory_floor db r with Ok floor => floor | Raise _ => r_amount r end.

(** ** Images ([content_identity.py]) *)
Definition differs {A} `{EqDecision A} (x y : option A) : bool :=
  match x, y with Some a, Some b => negb (bool_decide (a = b)) | _, _ => false end.

Definition differing_image_fields (l r : ImageContent) : list string :=
  omap (fun p : string * bool => if snd p then Some (fst p) else None)
    [("image_digest", differs (image_digest l) (image_digest r));
     ("archive_sha256", differs (archive_sha256 l) (archive_sha256 r));
     ("image_bytes", differs (image_bytes l) (image_bytes r));
     ("architecture", differs (architecture l) (architecture r));
     ("runtime_interface", differs (runtime_interface l) (runtime_interface r));
     ("runtime_interface_label", differs (runtime_interface_label l) (runtime_interface_label r))].

Definition both {A B} (x : option A) (y : option B) : bool :=
  match x, y with Some _, Some _ => true | _, _ => false end.

Definition same_image (l r : ImageContent) : bool :=
  (both (image_digest l) (image_digest r) || both (archive_sha256 l) (archive_sha256 r))
  && bool_decide (differing_image_fields l r = []).

(** ** Builds that use a load's memory claim *)
Section build_claims.
Context (accepted_profile_runtime_image : string -> string -> list string -> result RuntimeImageIdentity).

Definition planned_container_build : RunSwitchPhase :=
  {| phase_kind := "prepare"; phase_subphase := Some "container-build"; phase_state := "planned" |}.

(** The image of the build is the reviewed one, or it has none yet and its inputs are those of
    the reviewed build. *)
Definition reviewed_image (db : Database) (image : RuntimeImageIdentity) (b : BuildRow) : bool :=
  same_image (identity_content image) (build_image b)
  || bool_decide (image_digest (build_image b) = None)
     && bool_decide (archive_sha256 (build_image b) = None)
     && match identity_build_id image with
        | None => false
        | Some i =>
            match get build_id (builds db) i with
            | None => false
            | Some reviewed =>
                bool_decide (build_input_sha256 reviewed = build_input_sha256 b)
                && bool_decide (build_source_bundle_sha256 reviewed = build_source_bundle_sha256 b)
            end
        end.

Definition _profile_build_memory_claim (db : Database) (claims : list ResourceReservation)
    (j : JobRow) (b : BuildRow) (memory_pool : option MemoryPool) (lock : bool)
  : result (list ResourceReservation * option ResourceReservation) :=
  if negb (mem (job_state j) (JobStates.words [LifecycleState.QUEUED; LifecycleState.RUNNING]))
  then Ok (claims, None)
  else
    plan ← capacity_document (job_switch_plan j);
    progress ← capacity_document (job_switch_result j);
    match switch_profile_application_id progress with
    | None => Ok (claims, None)
    | Some application_id =>
        if switch_cancelled progress then Ok (claims, None)
        else
          match nth_error (switch_phases plan) (Z.to_nat (switch_phase_index progress)) with
          | None => Ok (claims, None)
          | Some phase =>
              if negb (bool_decide (phase = planned_container_build)) then Ok (claims, None)
              else
                match switch_recipe_revision_id plan with
                | None => scope_changed "profile build consumer revision is unavailable"
                | Some revision =>
                    if negb (bool_decide (switch_build_input_sha256 plan = Some (build_input_sha256 b)))
                       || negb (bool_decide (switch_builder_node_id plan = Some (builder_node_id b)))
                    then scope_changed "profile build identity changed after review"
                    else if negb (mem (builder_node_id b) (switch_node_ids plan)) then Ok (claims, None)
                    else
                      found ← _profile_assignment db application_id revision (switch_node_ids plan)
                                (switch_intent_ordinal progress);
                      let '(a, g, required) := found in
                      image ← accepted_profile_runtime_image (app_id a) revision (switch_node_ids plan);
                      if negb (bool_decide (asg_alias g = switch_alias plan))
                         || negb (reviewed_image db image b)
                      then scope_changed "build is outside the reviewed profile preparation"
                      else if negb (same (asg_desired_state g) DesiredAssignmentState.RUNNING)
                      then Ok (claims, None)
                      else
                        match find (fun q => bool_decide (q_node_id q = builder_node_id b)) required with
                        | None => Raise (RuntimeError "StopIteration")
                        | Some q =>
                            if negb (bool_decide (q_memory_pool q = memory_pool))
                            then scope_changed "profile build memory pool changed after review"
                            else
                              got ← memory_claim claims a (asg_id g) q lock;
                              match snd got with
                              | None => scope_changed "profile build memory claim is missing"
                              | Some r => _ ← _validate_memory_claim r a (asg_id g) q; Ok (fst got, Some r)
                              end
                        end
                end
          end
    end.

(** The run-switch jobs that name the exact build input, in the order of their ids. *)
Definition job_order (x y : JobRow) : Prop := str_le (job_id x) (job_id y).
#[global] Instance job_order_dec x y : Decision (job_order x y).
Proof. unfold job_order. apply _. Defined.

Definition build_consumers (db : Database) (b : BuildRow) (request_id : option string) : list JobRow :=
  merge_sort job_order (List.filter (fun j =>
    bool_decide (job_kind j = "recipe.run-switch.v2")
    && bool_decide (job_build_input j = Some (build_input_sha256 b))
    && match request_id with
       | None => mem (job_state j) ["queued"; "running"]
       | Some _ => true
       end) (jobs db)).

Definition child_request (j : JobRow) : result string :=
  ns ← UUID (job_request_id j); Ok (uuid_text (uuid5 ns "container-build")).

(** [except (UnknownOutcomeError, ValueError, KeyError, TypeError)], with the classes that derive
    from them. *)
Definition consumer_doubt (e : exn) : bool :=
  match e with
  | UnknownOutcomeError _ _ | ConstraintReplan _ _ | ReferenceUnsettled _ _ | ReferenceUnverified _ _ => true
  | ValueError _ | InvalidValue _ _ => true
  | KeyError _ | MissingRecord _ _ => true
  | TypeError _ | InvalidType _ _ => true
  | RuntimeError _ | ConstraintDefect _ | StaleAttempt _ => false
  end.

(** The loop over the candidates; the claims found are keyed by their ids, in first-seen
    order.  A consumer that cannot be proven is skipped unless its request is the one asked for. *)
Section consume.
Context (db : Database) (b : BuildRow) (memory_pool : option MemoryPool) (request_id : option string)
  (lock : bool).

Fixpoint consume_builds (candidates : list JobRow) (claims found : list ResourceReservation)
  : result (list ResourceReservation * list ResourceReservation) :=
  match candidates with
  | [] => Ok (claims, found)
  | j :: rest =>
      go ← match request_id with
           | None => Ok true
           | Some wanted => child ← child_request j; Ok (bool_decide (wanted = child))
           end;
      if negb (go : bool) then consume_builds rest claims found
      else
        match _profile_build_memory_claim db claims j b memory_pool lock with
        | Ok (claims', Some r) =>
            consume_builds rest claims'
              (if existsb (fun c => bool_decide (r_id c = r_id r)) found
               then write_claim (r_id r) (fun _ => r) found else (found ++ [r])%list)
        | Ok (claims', None) => consume_builds rest claims' found
        | Raise e =>
            match request_id with
            | Some _ => Raise e
            | None => if consumer_doubt e then consume_builds rest claims found else Raise e
            end
        end
  end.
End consume.

Definition profile_build_memory_claims (db : Database) (claims : list ResourceReservation)
    (b : BuildRow) (memory_pool : option MemoryPool) (request_id : option string) (lock : bool)
  : result (list ResourceReservation * list ResourceReservation) :=
  consume_builds db b memory_pool request_id lock (build_consumers db b request_id) claims [].
End build_claims.

(** ** Inheriting ports *)
Definition required_ports (required : list FleetProfileResourceRequirement) : list (string * Z) :=
  concat ((fun q => (fun port => (q_node_id q, port)) <$> ports_required q) <$> required).

Definition given_ports (node_ports : gmap string (list Z)) : list (string * Z) :=
  concat ((fun p : string * list Z => (fun port => (fst p, port)) <$> snd p) <$>
            map_to_list (M:=gmap string (list Z)) node_ports).

(** The claim ids of the expected ports. *)
Definition port_ids (application_id asg : string) (expected : list (string * Z))
  : result (list (string * (string * Z))) :=
  traverse (fun p => id_ ← _port_claim_id application_id asg (fst p) (snd p); Ok (id_, p)) expected.

Definition lookup_id {V} (ids : list (string * V)) (id_ : string) : option V :=
  snd <$> find (fun p => String.eqb (fst p) id_) ids.

(** The promise of this port, exactly. *)
Definition is_port_promise (a : ApplicationRow) (p : string * Z) (r : ResourceReservation) : bool :=
  bool_decide (r_kind r = "port") && same (r_state r) ReservationState.PROMISED
  && bool_decide (r_node r = fst p) && bool_decide (r_key r = pretty (snd p))
  && bool_decide (r_plan_digest r = app_plan_digest a) && (r_amount r =? 0).

(** A drifted promise of the load: not the promise, and not yet consumed. *)
Definition drifted_port (a : ApplicationRow) (ids : list (string * (string * Z)))
    (r : ResourceReservation) : bool :=
  match lookup_id ids (r_id r) with
  | Some p => negb (is_port_promise a p r) && same (r_state r) ReservationState.PROMISED
  | None => false
  end.

Definition inherit_ports (a : ApplicationRow) (application_id : string)
    (ids : list (string * (string * Z))) (claims : list ResourceReservation)
  : result (list ResourceReservation * gmap (string * Z) ResourceReservation) :=
  if existsb (fun r => bool_decide (lookup_id ids (r_id r) <> None) && negb (of_load application_id r)) claims
  then scope_changed "Profile port handoff is being observed"
  else
    Ok (release_where (drifted_port a ids) (app_updated_at a) claims,
        list_to_map (omap (fun r =>
          p ← lookup_id ids (r_id r); if is_port_promise a p r then Some (p, r) else None) claims)).

Definition inherited_profile_ports (db : Database) (application_id recipe_revision_id alias : string)
    (node_ports : gmap string (list Z)) (workload_intent_ordinal : option Z)
    (claims : list ResourceReservation)
  : result (list ResourceReservation * gmap (string * Z) ResourceReservation) :=
  found ← _profile_assignment db application_id recipe_revision_id ((map_to_list node_ports).*1)
            workload_intent_ordinal;
  let '(a, g, required) := found in
  if negb (runs_under g alias) then scope_changed "run is outside the profile port claim"
  else
    let expected := required_ports required in
    if negb (same_set (given_ports node_ports) expected)
    then scope_changed "run ports changed after profile review"
    else
      ids ← port_ids application_id (asg_id g) expected;
      inherit_ports a application_id ids claims.

(** ** What a load gives its other assignments *)

(** [int(key)] of the decimal text a promise is written with. *)
Definition port_of_key (key : string) : result Z :=
  let digits := Z.of_nat ∘ Ascii.nat_of_ascii <$> String.list_ascii_of_string key in
  if bool_decide (digits = []) || negb (forallb (fun d => (48 <=? d) && (d <=? 57)) digits)
  then Raise (ValueError "invalid literal for int() with base 10")
  else Ok (fold_left (fun acc d => 10 * acc + (d - 48)) digits 0).

Definition sibling_profile_ports (db : Database) (application_id recipe_revision_id : string)
    (node_ids : list string) (claims : list ResourceReservation) : result (list (string * Z)) :=
  match get app_id (applications db) application_id with
  | None => Ok []
  | Some a0 =>
      match (progress ← capacity_document (app_intent a0);
             _profile_assignment db application_id recipe_revision_id node_ids progress) with
      | Raise _ => Ok []
      | Ok (_, g, required) =>
          own ← port_ids application_id (asg_id g) (required_ports required);
          traverse (fun r => port ← port_of_key (r_key r); Ok (r_node r, port))
            (List.filter (fun r =>
               of_load application_id r && bool_decide (r_kind r = "port")
               && same (r_state r) ReservationState.PROMISED && mem (r_node r) node_ids
               && negb (mem (r_id r) own.*1)) claims)
      end
  end.

(** Runs the load's review stops as a whole. *)
Definition profile_replaced_runs (db : Database) (application_id : string) : list string :=
  match (a ← get app_id (applications db) application_id; app_plan a) with
  | None => []
  | Some review =>
      effect_run_id <$>
        List.filter (fun e => bool_decide (effect_action e = "stop") && negb (effect_partial e))
          (run_effects review)
  end.

(** The run serving this assignment: the first run of its installation. *)
Definition serving_run (runs_ : list RunRow) (installation_id : string) : option RunRow :=
  find (fun r => bool_decide (run_installation r = installation_id)) runs_.

Definition sibling_runs (assignments : list FleetProfileAssignment) (own : option FleetProfileAssignment)
    (run_of : FleetProfileAssignment -> option RunRow) : list string :=
  omap (fun g =>
    if negb (bool_decide (Some g = own)) && same (asg_desired_state g) DesiredAssignmentState.RUNNING
    then run_id <$> run_of g else None) assignments.

Definition plan_kept_runs (effects : list FleetProfileRunEffect) : list string :=
  effect_run_id <$> List.filter (fun e => bool_decide (effect_action e = "keep")) effects.

(** The runs a fit treats as kept; a plan that cannot be read keeps none of its own. *)
Definition kept_runs (db : Database) (kept_run_ids : list string) (application_id : option string)
  : list string :=
  match (i ← application_id; a ← get app_id (applications db) i; app_plan a) with
  | None => kept_run_ids
  | Some review => (kept_run_ids ++ plan_kept_runs (run_effects review))%list
  end.

(** ** Disk claims *)

(** A Python dict of a sequence of pairs: the last of equal keys stays. *)
Definition dict_of {V} (pairs : list (string * V)) : gmap string V := list_to_map (rev pairs).

Definition _profile_disk_binding (db : Database) (application_id recipe_revision_id : string)
    (node_ids : list string) (workload_intent_ordinal : option Z) (claims : list ResourceReservation)
  : result (ApplicationRow * string * gmap string (option Z) * gmap string ResourceReservation) :=
  found ← _profile_assignment db application_id recipe_revision_id node_ids workload_intent_ordinal;
  let '(a, g, required) := found in
  ids ← traverse (_disk_claim_id application_id (asg_id g)) (sorted node_ids);
  Ok (a, asg_id g,
      dict_of ((fun q => (q_node_id q, q_disk_required_bytes q)) <$> required),
      dict_of ((fun r => (r_node r, r)) <$>
        List.filter (fun r => mem (r_id r) ids && bool_decide (r_kind r = "disk")
                              && mem (r_node r) node_ids) claims)).

(** Still the load's, not yet taken over. *)
Definition unassigned_disk (application_id : string) (r : ResourceReservation) : bool :=
  same (r_state r) ReservationState.ACTIVE && of_load application_id r.

(** Exactly the reviewed promise. *)
Definition reviewed_disk (a : ApplicationRow) (asg : string) (requirements : gmap string (option Z))
    (r : ResourceReservation) : bool :=
  bool_decide (r_key r = asg) && bool_decide (r_plan_digest r = app_plan_digest a)
  && bool_decide (requirements !! r_node r = Some (Some (r_amount r))).

Definition inherited_profile_disk (db : Database) (application_id recipe_revision_id : string)
    (node_ids : list string) (workload_intent_ordinal : option Z) (now : datetime)
    (claims : list ResourceReservation)
  : result (list ResourceReservation * gmap string ResourceReservation) :=
  bound ← _profile_disk_binding db application_id recipe_revision_id node_ids workload_intent_ordinal claims;
  let '(a, asg, requirements, found) := bound in
  let drifted r := bool_decide (found !! r_node r = Some r) && unassigned_disk application_id r
                   && negb (reviewed_disk a asg requirements r) in
  Ok (release_where drifted now claims,
      filter (fun p => unassigned_disk application_id (snd p) && reviewed_disk a asg requirements (snd p)
                       = true) found).

(** The exact handoff after a lost parent checkpoint. *)
Definition prepared_profile_installation (db : Database) (application_id recipe_revision_id : string)
    (node_ids : list string) (workload_intent_ordinal : Z) (claims : list ResourceReservation)
  : result (option (string * string)) :=
  bound ← _profile_disk_binding db application_id recipe_revision_id node_ids
            (Some workload_intent_ordinal) claims;
  let '(_, _, requirements, found_) := bound in
  let found := map_to_list found_ in
  if negb (same_set found.*1 node_ids)
     || existsb (fun p => negb (same (r_state (snd p)) ReservationState.ACTIVE)) found
  then Ok None
  else if forallb (fun p => of_load application_id (snd p)) found then Ok None
  else
    match dedupe ((fun p => (r_owner_id (snd p), r_plan_digest (snd p))) <$> found) with
    | [identity] =>
        if existsb (fun p =>
             negb (bool_decide (r_owner_kind (snd p) = "installation"))
             || match requirements !! fst p with
                | Some (Some n) => n <? r_amount (snd p)
                | _ => true
                end) found
        then scope_changed (value RunSwitchCode.INSTALLATION_HANDOFF_INCONSISTENT)
        else Ok (Some identity)
    | _ => scope_changed (value RunSwitchCode.INSTALLATION_HANDOFF_INCONSISTENT)
    end.

(** ** Releasing *)
Definition release_replaced_profile_claims (a : ApplicationRow) (node_ids : list string)
    (now : datetime) : list ResourceReservation -> list ResourceReservation :=
  release_where (fun r => of_load (app_id a) r && mem (r_node r) node_ids && holds r) now.

Definition release_unassigned_profile_claims (a : ApplicationRow) (now : datetime)
    (claims : list ResourceReservation) : list ResourceReservation :=
  if negb (mem (app_state a) FLEET_PROFILE_ENDED_STATES)
     && negb (bool_decide (app_state a = value LifecycleState.BACKOFF))
  then claims
  else release_where (fun r => of_load (app_id a) r && holds r) now claims.

(** ** Handing claims over to a run

    The claims of [run_admission.py]: an inherited promise changes its owner in place; what was
    not inherited is added.  [new_id] is the identifier the database gives a new row. *)
Record RunNodeClaims := {
  rn_node : string;
  rn_memory_kind : MemoryKind;
  rn_memory_bytes : Z;
  rn_ports : list Z;
}.

Definition handed_over (run digest key : string) (r : ResourceReservation) : ResourceReservation := {|
  r_id := r_id r; r_node := r_node r; r_kind := r_kind r; r_key := key; r_amount := r_amount r;
  r_owner_kind := "run"; r_owner_id := run; r_state := ReservationState.ACTIVE;
  r_plan_digest := digest; r_created_at := r_created_at r; r_released_at := r_released_at r |}.

Section handoff.
Context (new_id : string -> string -> string) (run digest : string) (now : datetime)
  (inherited_memory : gmap string ResourceReservation)
  (inherited_ports : gmap (string * Z) ResourceReservation).

Definition run_claim (node_ kind_ key : string) (amount : Z) : ResourceReservation := {|
  r_id := new_id node_ key; r_node := node_; r_kind := kind_; r_key := key; r_amount := amount;
  r_owner_kind := "run"; r_owner_id := run; r_state := ReservationState.ACTIVE;
  r_plan_digest := digest; r_created_at := now; r_released_at := None |}.

Definition take_memory (claims : list ResourceReservation) (n : RunNodeClaims) : list ResourceReservation :=
  match inherited_memory !! rn_node n with
  | Some r => write_claim (r_id r) (handed_over run digest digest) claims
  | None => (claims ++ [run_claim (rn_node n) (memory_reservation_kind (rn_memory_kind n)) digest
                          (rn_memory_bytes n)])%list
  end.

Definition take_port (node_ : string) (claims : list ResourceReservation) (port : Z)
  : list ResourceReservation :=
  match inherited_ports !! (node_, port) with
  | Some r => write_claim (r_id r) (fun c => handed_over run digest (r_key c) c) claims
  | None => (claims ++ [run_claim node_ "port" (pretty port) 0])%list
  end.

Definition take_node (claims : list ResourceReservation) (n : RunNodeClaims) : list ResourceReservation :=
  fold_left (take_port (rn_node n)) (rn_ports n) (take_memory claims n).

Definition take_run_claims (plan : list RunNodeClaims) (claims : list ResourceReservation)
  : list ResourceReservation :=
  fold_left take_node plan claims.
End handoff.
