(* ===== verification/MemoryLedger.v ===== *)
(** * The memory reservation ledger

    [control/src/vonk_control/memory_reservations.py]: one projection of the memory claims on a
    Spark for every consumer of its physical memory.  The result feeds [memory_capacity_snapshot]
    and so the capacity plan. *)
From stdpp Require Import sorting.
From S2P Require Import Prelude Vocabulary StateMachines ReasonCodes Uuid PersistedWaits.
From S2P Require Import SparkAttempts ResourceTypes Rows OwnerLiveness ProfileCapacity.

Definition MEMORY_RESERVATION_KINDS : list string := ["host-memory"; "gpu-memory"; "unified-memory"].

Definition claim_order (x y : ResourceReservation) : Prop := str_le (r_id x) (r_id y).
#[global] Instance claim_order_dec x y : Decision (claim_order x y).
Proof. unfold claim_order. apply _. Defined.

(** [select(ResourceReservation).where(...).order_by(id)] *)
Definition select_claims (p : ResourceReservation -> bool) (claims : list ResourceReservation)
  : list ResourceReservation :=
  merge_sort claim_order (List.filter p claims).

Definition on_node (node_ : string) (r : ResourceReservation) : bool := bool_decide (r_node r = node_).
Definition memory_claim_kind (r : ResourceReservation) : bool := mem (r_kind r) MEMORY_RESERVATION_KINDS.
Definition owned_by (kind_ : string) (r : ResourceReservation) : bool := bool_decide (r_owner_kind r = kind_).
Definition amounts (l : list ResourceReservation) : Z := sum_list (r_amount <$> l).

(** ** The reserve floor *)

(** The reserve one claim declares for this pool. *)
Definition claim_floor (db : Database) (node_ : string) (memory_pool : MemoryPool)
    (r : ResourceReservation) : result Z :=
  if owned_by "fleet-profile" r then Ok (profile_memory_floor db r)
  else if owned_by "run" r then
    match get run_id (runs db) (r_owner_id r) with
    | None => Raise (ValueError "run memory reservation owner is missing or changed")
    | Some run =>
        if negb (bool_decide (run_plan_digest run = r_plan_digest r))
        then Raise (ValueError "run memory reservation owner is missing or changed")
        else
          match run_plan_nodes run with
          | None => Raise (ValueError "stored run plan is invalid")
          | Some plan =>
              match find (fun n => bool_decide (rpn_node_id n = node_)) plan with
              | Some n =>
                  if bool_decide (rpn_memory_pool n = Some memory_pool) then Ok (rpn_memory_floor_bytes n)
                  else Raise (ValueError "run memory reservation pool is missing or changed")
              | None => Raise (ValueError "run memory reservation pool is missing or changed")
              end
          end
    end
  else Ok 0.

Definition memory_reserve_floor (db : Database) (claims : list ResourceReservation) (node_ : string)
    (memory_pool : option MemoryPool) (kind_ : string) : result Z :=
  match memory_pool with
  | None => Raise (ValueError "memory pool evidence is unavailable")
  | Some pool =>
      kinds ← memory_reservation_kinds kind_ pool;
      floors ← traverse (claim_floor db node_ pool)
                 (List.filter (fun r => on_node node_ r && mem (r_kind r) kinds && holds r) claims);
      Ok (fold_left Z.max floors 0)
  end.

(** ** Claims of a reviewed stop *)
Definition reviewed_run_memory_reservations (db : Database) (claims : list ResourceReservation)
    (node_ : string) (stop : StopImpact) : list ResourceReservation :=
  if negb (mem node_ (stop_node_ids stop)) then []
  else
    List.filter (fun r =>
      on_node node_ r && owned_by "run" r && bool_decide (r_owner_id r = stop_run stop)
      && memory_claim_kind r && same (r_state r) ReservationState.ACTIVE
      && bool_decide (r_plan_digest r = stop_run_plan_digest stop)
      && existsb (fun run => bool_decide (run_id run = r_owner_id r)
                             && bool_decide (run_plan_digest run = stop_run_plan_digest stop)) (runs db))
      claims.

(** ** Small projections *)
Definition kept_run_residual (r : ResourceReservation) (kept_run_ids : list string) : option Z :=
  if owned_by "run" r && mem (r_owner_id r) kept_run_ids then Some 0 else None.

(** Add to the total of a kind. *)
Definition add_kind (totals : gmap string Z) (p : string * Z) : gmap string Z :=
  <[fst p := default 0 (totals !! fst p) + snd p]> totals.

Definition totals_of (l : list ResourceReservation) : gmap string Z :=
  fold_left add_kind ((fun r => (r_kind r, r_amount r)) <$> l) ∅.

Definition _releasing_bytes (claims : list ResourceReservation) (node_ : string) (run_ids : list string)
  : gmap string Z :=
  totals_of (List.filter (fun r =>
    on_node node_ r && owned_by "run" r && mem (r_owner_id r) run_ids && memory_claim_kind r
    && same (r_state r) ReservationState.ACTIVE) claims).

(** A run that was stopped, or is stopping: its stop receipt proves its memory free. *)
Definition stop_proven (db : Database) (id_ : string) : bool :=
  existsb (fun run => bool_decide (run_id run = id_)
                      && mem (run_state run) [value RunState.STOPPED; value RunState.STOPPING]) (runs db).

Definition _released_since_observation (db : Database) (claims : list ResourceReservation)
    (node_ : string) (observed_at : option datetime) : gmap string Z :=
  match observed_at with
  | None => ∅
  | Some since =>
      totals_of (List.filter (fun r =>
        on_node node_ r && owned_by "run" r && memory_claim_kind r
        && same (r_state r) ReservationState.RELEASED && stop_proven db (r_owner_id r)
        && match r_released_at r with Some t => to_utc since <? to_utc t | None => false end) claims)
  end.

Definition _build_holds_memory (db : Database) (r : ResourceReservation) : bool :=
  match get build_id (builds db) (r_owner_id r) with
  | None => true
  | Some b => build_may_run db b
  end.

Record ClaimUsage := {
  unmaterialized : bool;
  unknown_residual : option UnknownRunMemoryResidual;
}.

Definition _claim_usage (db : Database) (r : ResourceReservation) : result ClaimUsage :=
  let full := {| unmaterialized := true; unknown_residual := None |} in
  if owned_by "fleet-profile" r || owned_by "recipe-build" r then Ok full
  else if negb (owned_by "run" r) then Raise (ValueError "memory reservation has an unsupported owner kind")
  else
    match get run_id (runs db) (r_owner_id r) with
    | None => Ok full
    | Some run =>
        if negb (mem (r_owner_id r, r_node r) (run_nodes db)) then Ok full
        else Ok {| unmaterialized := false;
                   unknown_residual := Some {| ResourceTypes.run_id := run_id run;
                                               ResourceTypes.run_generation := run_generation run;
                                               residual_kind := r_kind r;
                                               maximum_bytes := r_amount r |} |}
    end.

(** A claim with its usage. *)
Abbreviation Used := (ResourceReservation * ClaimUsage)%type.
Definition used_bytes (l : list Used) : Z := amounts l.*1.
Definition unmat (u : Used) : bool := unmaterialized (snd u).
Definition residuals (l : list Used) : list UnknownRunMemoryResidual :=
  omap (fun u : Used => unknown_residual (snd u)) l.

(** [{kind: value for ... if value}] *)
Definition nonzero (pairs : list (string * Z)) : gmap string Z :=
  list_to_map (List.filter (fun p => negb (snd p =? 0)) pairs).
Definition nonempty {A} (pairs : list (string * list A)) : gmap string (list A) :=
  list_to_map (List.filter (fun p => match snd p with [] => false | _ => true end) pairs).

Definition of_kind (kind_ : string) (u : Used) : bool := bool_decide (r_kind (fst u) = kind_).
Definition of_kinds (kinds : list string) (u : Used) : bool := mem (r_kind (fst u)) kinds.

Definition holder (r : ResourceReservation) : MemoryClaimHolder :=
  {| ResourceTypes.owner := {| owner_kind := r_owner_kind r; owner_id := r_owner_id r |};
     amount_bytes := r_amount r |}.

(** ** The ledger *)
Section ledger.
Context (accepted_profile_runtime_image : string -> string -> list string -> result RuntimeImageIdentity)
  (db : Database) (claims : list ResourceReservation) (node_ : string).

(** The claims that count in this fit, in the order of their ids. *)
Definition visible (excluded_applications excluded_claims excluded_runs : list string)
  : list ResourceReservation :=
  select_claims (fun r =>
    on_node node_ r && memory_claim_kind r && holds r
    && reservation_visible excluded_applications excluded_runs [] r
    && negb (mem (r_id r) excluded_claims)) claims.

Definition counted (kept_run_ids : list string) (r : ResourceReservation) : bool :=
  negb (bool_decide (kept_run_residual r kept_run_ids = Some 0))
  && (negb (owned_by "recipe-build" r) || _build_holds_memory db r).

(** The promises of each load, in first-seen order. *)
Definition future_of (used : list Used) : list (string * list Used) :=
  let promised := List.filter (fun u : Used => same (r_state (fst u)) ReservationState.PROMISED) used in
  (fun o => (o, List.filter (fun u : Used => bool_decide (r_owner_id (fst u) = o)) promised)) <$>
    dedupe ((fun u : Used => r_owner_id (fst u)) <$> promised).

(** The runs the promises of a load will stop. *)
Definition stopped_claims (promised : list Used) : list string :=
  r_id <$> concat (reviewed_run_memory_reservations db claims node_ <$>
                     concat ((fun u : Used => profile_memory_replacements db (fst u)) <$> promised)).

(** The loads whose claim an active build of theirs uses now. *)
Definition build_owners (memory_pool : MemoryPool) (r : ResourceReservation) : result (list string) :=
  if negb (owned_by "recipe-build" r) then Ok []
  else
    match get build_id (builds db) (r_owner_id r) with
    | None => Ok []
    | Some b =>
        if bool_decide (build_state b = "building") && bool_decide (build_input_sha256 b = r_plan_digest r)
           && bool_decide (builder_node_id b = node_)
        then
          match profile_build_memory_claims accepted_profile_runtime_image db claims b (Some memory_pool)
                  None false with
          | Ok (_, inherited) => Ok (r_owner_id <$> inherited)
          | Raise e => Raise e
          end
        else Ok []
    end.

(** The claims each load's promises replace. *)
Definition replacements (memory_pool : MemoryPool) (active : list Used) (future : list (string * list Used))
  : result (list (string * list Used * list string)) :=
  builders ← traverse (fun u : Used => os ← build_owners memory_pool (fst u); Ok (r_id (fst u), os)) active;
  Ok ((fun p : string * list Used =>
         (p, (stopped_claims (snd p)
              ++ (fst <$> List.filter (fun b => mem (fst p) (snd b)) builders))%list)) <$> future).

(** One pool: what is held now, and what each load's promises add beyond the claims they
    replace; a claim is credited to one load only. *)
Record PoolTotals := {
  pool_total : Z;
  pool_unmaterialized : Z;
  pool_credited : list string;
}.

Definition promise_step (overlapping : list string) (live : list Used) (acc : PoolTotals)
    (f : string * list Used * list string) : PoolTotals :=
  let '(_, promised, ids) := f in
  let demand := used_bytes (List.filter (of_kinds overlapping) promised) in
  let replaced := List.filter (fun u : Used =>
    negb (mem (r_id (fst u)) (pool_credited acc)) && mem (r_id (fst u)) ids) live in
  {| pool_total := pool_total acc + Z.max 0 (demand - used_bytes replaced);
     pool_unmaterialized :=
       pool_unmaterialized acc + Z.max 0 (demand - used_bytes (List.filter unmat replaced));
     pool_credited := (pool_credited acc ++ ((fun u : Used => r_id (fst u)) <$> replaced))%list |}.

Definition pool_totals (overlapping : list string) (active : list Used)
    (future : list (string * list Used * list string)) : PoolTotals :=
  let live := List.filter (of_kinds overlapping) active in
  fold_left (promise_step overlapping live) future
    {| pool_total := used_bytes live; pool_unmaterialized := used_bytes (List.filter unmat live);
       pool_credited := [] |}.

(** Without pool evidence each kind is its own pool and nothing overlaps. *)
Definition unknown_pool_totals (used : list Used)
  : list (string * (Z * Z * list UnknownRunMemoryResidual)) :=
  (fun k =>
     let own := List.filter (of_kind k) used in
     (k, (used_bytes own, used_bytes (List.filter unmat own), residuals own))) <$> MEMORY_RESERVATION_KINDS.

Definition active_of (used : list Used) : list Used :=
  List.filter (fun u : Used => same (r_state (fst u)) ReservationState.ACTIVE) used.

Definition known_pool_totals (memory_pool : MemoryPool) (used : list Used)
  : result (list (string * (Z * Z * list UnknownRunMemoryResidual))) :=
  let active := active_of used in
  future ← replacements memory_pool active (future_of used);
  traverse (fun k =>
      overlapping ← memory_reservation_kinds k memory_pool;
      let t := pool_totals overlapping active future in
      Ok (k, (pool_total t, pool_unmaterialized t, residuals (List.filter (of_kinds overlapping) active))))
    (if same memory_pool shared then ["unified-memory"] else ["host-memory"; "gpu-memory"]).

Definition memory_reservations (memory_pool : option MemoryPool)
    (excluded_applications excluded_claims excluded_runs kept_run_ids : list string)
    (observed_at : option datetime) : result MemoryReservationTotals :=
  let seen := visible excluded_applications excluded_claims excluded_runs in
  let kept := List.filter (fun r => bool_decide (kept_run_residual r kept_run_ids = Some 0)) seen in
  used ← traverse (fun r => u ← _claim_usage db r; Ok (r, u)) (List.filter (counted kept_run_ids) seen);
  pools ← match memory_pool with
          | None => Ok (unknown_pool_totals used)
          | Some pool => known_pool_totals pool used
          end;
  Ok {| committed_bytes_by_kind := nonzero ((fun p => (fst p, fst (fst (snd p)))) <$> pools);
        unmaterialized_bytes_by_kind := nonzero ((fun p => (fst p, snd (fst (snd p)))) <$> pools);
        unknown_run_residuals_by_kind := nonempty ((fun p => (fst p, snd (snd p))) <$> pools);
        released_unobserved_bytes_by_kind := _released_since_observation db claims node_ observed_at;
        kept_bytes_by_kind :=
          nonzero ((fun k => (k, amounts (List.filter (fun r => bool_decide (r_kind r = k)) kept)))
                     <$> MEMORY_RESERVATION_KINDS);
        unmaterialized_holders_by_kind :=
          nonempty ((fun k => (k, holder ∘ fst <$> List.filter (fun u => of_kind k u && unmat u) used))
                      <$> MEMORY_RESERVATION_KINDS);
        releasing_bytes_by_kind := _releasing_bytes claims node_ excluded_runs |}.
End ledger.
