(* ===== verification/MemoryLedgerFacts.v ===== *)
(** * Theorems of the memory ledger

    The ledger commits exactly the worst phase: a promise either still waits, with the live
    claims it replaces held, or has taken their place.  Each live claim is credited to the first
    load that replaces it, and the total is the largest use over every choice of promises already
    fulfilled.  The projection is total on supported owners. *)
From stdpp Require Import sorting.
From S2P Require Import Prelude Vocabulary StateMachines ReasonCodes Uuid PersistedWaits.
From S2P Require Import SparkAttempts ResourceTypes Rows OwnerLiveness ProfileCapacity.
From S2P Require Import MemoryLedger.

(** ** Weights *)
Definition weigh {A} (w : A -> Z) (l : list A) : Z := sum_list (w <$> l).

Definition amount_of (u : Used) : Z := r_amount (fst u).
(** Only what is not yet in the observed use counts. *)
Definition future_amount (u : Used) : Z := if unmat u then amount_of u else 0.

Lemma weigh_cons {A} (w : A -> Z) x l : weigh w (x :: l) = w x + weigh w l.
Proof. done. Qed.

Lemma weigh_split {A} (w : A -> Z) (p : A -> bool) l :
  weigh w l = weigh w (List.filter p l) + weigh w (List.filter (fun x => negb (p x)) l).
Proof.
  induction l as [|x l IH]; simpl; [done|]. destruct (p x); simpl; rewrite !weigh_cons, IH; lia.
Qed.

Lemma weigh_filter_ext {A} (w : A -> Z) (p q : A -> bool) l :
  (forall x, x ∈ l -> p x = q x) -> weigh w (List.filter p l) = weigh w (List.filter q l).
Proof.
  intros H. induction l as [|x l IH]; [done|]. simpl. rewrite (H x) by left.
  destruct (q x); rewrite ?weigh_cons, IH; try done; intros y Hy; apply H; by right.
Qed.

Lemma weigh_none {A} (w : A -> Z) l : weigh w (List.filter (fun _ => false) l) = 0.
Proof. by induction l. Qed.

Lemma used_bytes_weigh l : used_bytes l = weigh amount_of l.
Proof. unfold used_bytes, amounts, weigh. by rewrite <- list_fmap_compose. Qed.

Lemma used_unmat_weigh l : used_bytes (List.filter unmat l) = weigh future_amount l.
Proof.
  rewrite used_bytes_weigh. induction l as [|u l IH]; simpl; [done|].
  rewrite weigh_cons. unfold future_amount at 1. destruct (unmat u); rewrite ?weigh_cons; lia.
Qed.

(** ** Phases *)
Section phases.
Context (overlapping : list string) (live : list Used) (w : Used -> Z).

(** A load with its promises and the claims they replace. *)
Abbreviation Future := (string * list Used * list string)%type.

Definition load (f : Future) : string := fst (fst f).
Definition demand (f : Future) : Z := weigh amount_of (List.filter (of_kinds overlapping) (snd (fst f))).
Definition names (f : Future) (u : Used) : bool := mem (r_id (fst u)) (snd f).

(** The load that replaces a live claim: the first one that names it. *)
Definition replaced_by (fs : list Future) (u : Used) : option string :=
  load <$> find (fun f => names f u) fs.

(** The claim is gone once the load that replaces it has its promises fulfilled. *)
Definition retired (fulfilled : string -> bool) (fs : list Future) (u : Used) : bool :=
  match replaced_by fs u with Some o => fulfilled o | None => false end.

(** What is held when exactly the promises of [fulfilled] have taken their place. *)
Definition phase_bytes (fulfilled : string -> bool) (fs : list Future) : Z :=
  weigh w (List.filter (fun u => negb (retired fulfilled fs u)) live)
  + weigh demand (List.filter (fun f => fulfilled (load f)) fs).

(** The largest use over every phase. *)
Definition worst_phase (fs : list Future) (n : Z) : Prop :=
  (forall fulfilled, phase_bytes fulfilled fs <= n) /\ exists fulfilled, phase_bytes fulfilled fs = n.

(** The claims each load is credited with, after those of [credited]. *)
Definition fresh (credited : list string) (f : Future) : list Used :=
  List.filter (fun u : Used => negb (mem (r_id (fst u)) credited) && mem (r_id (fst u)) (snd f)) live.

Fixpoint gains (credited : list string) (fs : list Future) : list (Future * Z) :=
  match fs with
  | [] => []
  | f :: rest =>
      (f, weigh w (fresh credited f))
      :: gains (credited ++ ((fun u : Used => r_id (fst u)) <$> fresh credited f))%list rest
  end.

Definition surplus (g : Future * Z) : Z := Z.max 0 (demand (fst g) - snd g).

Lemma gains_fst fs : forall credited, (gains credited fs).*1 = fs.
Proof. induction fs as [|f fs IH]; intros c; simpl; [done|]. by rewrite IH. Qed.

(** A live claim is left after a step exactly when it was left and the load does not name it. *)
Lemma credited_step credited f u :
  u ∈ live ->
  mem (r_id (fst u)) (credited ++ ((fun u : Used => r_id (fst u)) <$> fresh credited f))%list
  = mem (r_id (fst u)) credited || names f u.
Proof.
  intros Hu. apply eq_true_iff_eq. rewrite orb_true_iff, !mem_true, elem_of_app, list_elem_of_fmap.
  unfold names. split.
  - intros [?|(v & Hv & Hin)]; [by left|right]. unfold fresh in Hin.
    apply list_elem_of_In, List.filter_In in Hin as [_ Hin]. bools. by rewrite Hv, mem_true.
  - intros [?|Hn]; [by left|]. destruct (decide (r_id (fst u) ∈ credited)) as [|Hc]; [by left|right].
    exists u. split; [done|]. apply list_elem_of_In, List.filter_In. rewrite <- list_elem_of_In.
    split; [done|]. by rewrite (proj2 (mem_false _ _)), Hn.
Qed.

(** What a phase retires is what its loads were credited with. *)
Lemma retired_gains fulfilled fs : forall credited,
  weigh w (List.filter (fun u => negb (mem (r_id (fst u)) credited) && retired fulfilled fs u) live)
  = weigh snd (List.filter (fun g => fulfilled (load (fst g))) (gains credited fs)).
Proof.
  induction fs as [|f fs IH]; intros credited; simpl.
  { unfold retired. simpl. rewrite (weigh_filter_ext w _ (fun _ => false)); [|intros u _; by rewrite andb_false_r].
    apply weigh_none. }
  specialize (IH (credited ++ ((fun u : Used => r_id (fst u)) <$> fresh credited f))%list).
  rewrite (weigh_split w (names f)), !filter_filter.
  rewrite (weigh_filter_ext w (fun u => (_ && retired fulfilled (f :: fs) u) && negb (names f u))
             (fun u => negb (mem (r_id (fst u)) (credited ++ ((fun u : Used => r_id (fst u)) <$> fresh credited f))%list)
                       && retired fulfilled fs u)).
  2: { intros u Hu. rewrite credited_step by done. unfold retired, replaced_by. simpl.
       destruct (mem _ credited), (names f u); simpl; rewrite ?andb_true_r, ?andb_false_r; done. }
  rewrite IH. destruct (fulfilled (load f)) eqn:E; rewrite ?weigh_cons.
  - f_equal. unfold fresh. apply weigh_filter_ext. intros u _. unfold retired, replaced_by, names. simpl.
    destruct (mem (r_id (fst u)) (snd f)); simpl; rewrite ?E, ?andb_false_r, ?andb_true_r; done.
  - rewrite (weigh_filter_ext w _ (fun _ => false)), weigh_none; [done|].
    intros u _. unfold retired, replaced_by, names. simpl.
    destruct (mem (r_id (fst u)) (snd f)); simpl; rewrite ?E, ?andb_false_r; done.
Qed.

Definition net (g : Future * Z) : Z := demand (fst g) - snd g.

Lemma demands_gains fulfilled fs credited :
  weigh demand (List.filter (fun f => fulfilled (load f)) fs)
  = weigh (fun g => demand (fst g)) (List.filter (fun g => fulfilled (load (fst g))) (gains credited fs)).
Proof.
  revert credited. induction fs as [|f fs IH]; intros c; simpl; [done|].
  destruct (fulfilled (load f)); simpl; rewrite ?weigh_cons; by rewrite <- IH.
Qed.

Lemma phase_bytes_gains fulfilled fs :
  phase_bytes fulfilled fs
  = weigh w live + weigh net (List.filter (fun g => fulfilled (load (fst g))) (gains [] fs)).
Proof.
  unfold phase_bytes. rewrite (weigh_split w (retired fulfilled fs) live), (demands_gains _ _ []).
  rewrite (weigh_filter_ext w (retired fulfilled fs)
             (fun u => negb (mem (r_id (fst u)) []) && retired fulfilled fs u)) by done.
  rewrite retired_gains. generalize (List.filter (fun g => fulfilled (load (fst g))) (gains [] fs)).
  intros l. induction l as [|g l IH]; rewrite ?weigh_cons; unfold net in *; [unfold weigh|]; simpl in *; lia.
Qed.

(** A load's own verdict, when the loads are distinct. *)
Lemma chosen_load gs g :
  NoDup (load <$> gs.*1) -> g ∈ gs ->
  existsb (fun h => bool_decide (load (fst h) = load (fst g)) && (snd h <? demand (fst h))) gs
  = (snd g <? demand (fst g)).
Proof.
  intros Hnd Hg. apply eq_true_iff_eq. rewrite existsb_exists. split.
  - intros (h & Hh%list_elem_of_In & Hb). bools. assert (h = g) as ->; [|by apply Z.ltb_lt].
    rewrite <- list_fmap_compose in Hnd.
    apply list_elem_of_lookup in Hh as [i Hi]. apply list_elem_of_lookup in Hg as [j Hj].
    assert (i = j) as ->; [|congruence].
    eapply (NoDup_lookup _ i j (load (fst h))); [exact Hnd|rewrite list_lookup_fmap, Hi; done|].
    rewrite list_lookup_fmap, Hj. simpl. by rewrite H.
  - intros H. exists g. rewrite <- list_elem_of_In. split; [done|]. by rewrite bool_decide_eq_true_2, H.
Qed.

Lemma worst_phase_gains fs :
  NoDup (load <$> fs) -> worst_phase fs (weigh w live + weigh surplus (gains [] fs)).
Proof.
  intros Hnd. split.
  - intros fulfilled. rewrite phase_bytes_gains. apply Z.add_le_mono_l.
    generalize (gains [] fs). intros l. induction l as [|g l IH]; simpl; [done|].
    destruct (fulfilled _); rewrite ?weigh_cons; unfold surplus, net in *; lia.
  - rewrite <- (gains_fst fs []) in Hnd. set (gs := gains [] fs) in *.
    exists (fun o => existsb (fun h => bool_decide (load (fst h) = o) && (snd h <? demand (fst h))) gs).
    rewrite phase_bytes_gains. f_equal. fold gs.
    rewrite (weigh_filter_ext net _ (fun g => snd g <? demand (fst g))) by (intros; by apply chosen_load).
    generalize gs. intros l. induction l as [|g l IH]; simpl; [done|].
    destruct (Z.ltb_spec (snd g) (demand (fst g))); rewrite ?weigh_cons; unfold surplus, net in *; lia.
Qed.
End phases.

Lemma pool_fold overlapping live fs : forall acc,
  let t := fold_left (promise_step overlapping live) fs acc in
  pool_total t = pool_total acc
    + weigh (surplus overlapping) (gains live amount_of (pool_credited acc) fs) /\
  pool_unmaterialized t = pool_unmaterialized acc
    + weigh (surplus overlapping) (gains live future_amount (pool_credited acc) fs).
Proof.
  induction fs as [|[[o promised] ids] fs IH]; intros acc; cbn [fold_left];
    [unfold weigh; simpl; lia|].
  destruct (IH (promise_step overlapping live acc (o, promised, ids))) as [-> ->].
  cbn [promise_step pool_total pool_unmaterialized pool_credited gains]. rewrite !weigh_cons. unfold surplus, demand, fresh. simpl.
  rewrite used_unmat_weigh, !used_bytes_weigh. lia.
Qed.

(** ** The ledger's totals are the worst phase *)
Lemma pool_totals_worst overlapping active future :
  NoDup (load <$> future) ->
  let live := List.filter (of_kinds overlapping) active in
  let t := pool_totals overlapping active future in
  worst_phase overlapping live amount_of future (pool_total t) /\
  worst_phase overlapping live future_amount future (pool_unmaterialized t).
Proof.
  intros Hnd live t. unfold t, pool_totals. fold live.
  match goal with |- context [fold_left _ _ ?acc] =>
    destruct (pool_fold overlapping live future acc) as [-> ->] end. simpl.
  rewrite used_unmat_weigh, used_bytes_weigh. split; by apply worst_phase_gains.
Qed.

Lemma dedupe_from_NoDup {A} `{EqDecision A} (l : list A) : forall seen, NoDup (dedupe_from seen l).
Proof.
  induction l as [|x l IH]; intros seen; simpl; [constructor|]. case_match; [done|].
  constructor; [|done]. rewrite dedupe_from_elem. set_solver.
Qed.

Lemma replacements_loads img db claims node_ pool active used future :
  replacements img db claims node_ pool active (future_of used) = Ok future ->
  NoDup (load <$> future).
Proof.
  unfold replacements. intros H. unbind. rewrite <- H, <- list_fmap_compose. unfold future_of.
  rewrite <- list_fmap_compose. unfold compose, load. simpl. rewrite list_fmap_id. apply dedupe_from_NoDup.
Qed.

Lemma nonzero_default pairs k v :
  NoDup pairs.*1 -> (k, v) ∈ pairs -> default 0 (nonzero pairs !! k) = v.
Proof.
  intros Hnd Hin. unfold nonzero. destruct (v =? 0) eqn:E.
  - destruct (list_to_map _ !! k) as [v'|] eqn:Hl; [|bools; by subst].
    apply elem_of_list_to_map_2, list_elem_of_In, List.filter_In in Hl as [Hl Hv].
    apply list_elem_of_In in Hl. bools. simpl in *.
    assert (v' = v); [|by subst]. clear -Hnd Hin Hl.
    apply list_elem_of_lookup in Hin as [i Hi]. apply list_elem_of_lookup in Hl as [j Hj].
    assert (i = j) as ->; [|congruence].
    eapply (NoDup_lookup _ i j k); [exact Hnd|by rewrite list_lookup_fmap, Hi|by rewrite list_lookup_fmap, Hj].
  - rewrite (elem_of_list_to_map_1 _ k v); [done| |].
    + clear -Hnd. induction pairs as [|p l IH]; simpl; [constructor|]. inversion Hnd; subst.
      destruct (negb _); simpl; [|by apply IH]. constructor; [|by apply IH].
      rewrite list_elem_of_fmap. intros (q & Hq & Hin). destruct H1. rewrite list_elem_of_fmap. exists q.
      split; [done|]. apply list_elem_of_In in Hin. apply List.filter_In in Hin as [Hin _].
      by apply list_elem_of_In.
    + apply list_elem_of_In, List.filter_In. rewrite <- list_elem_of_In. simpl. by rewrite E.
Qed.

(** The pools a Spark's memory is counted in. *)
Definition pool_kinds (pool : MemoryPool) : list string :=
  if same pool shared then ["unified-memory"] else ["host-memory"; "gpu-memory"].

Lemma known_pool_entry img db claims node_ pool used pools :
  known_pool_totals img db claims node_ pool used = Ok pools ->
  exists future,
    replacements img db claims node_ pool (active_of used) (future_of used) = Ok future /\
    NoDup pools.*1 /\
    forall k kinds, k ∈ pool_kinds pool -> memory_reservation_kinds k pool = Ok kinds ->
      let t := pool_totals kinds (active_of used) future in
      exists rs, (k, (pool_total t, pool_unmaterialized t, rs)) ∈ pools.
Proof.
  unfold known_pool_totals. intros (future & Hf & Hp)%bind_Ok. exists future. split; [done|].
  destruct pool; simpl in Hp; unbind; subst pools;
    (split; [simpl; apply (bool_decide_unpack _); vm_compute; exact I|]); intros k kinds Hk Hkinds;
    set_unfold in Hk; [destruct Hk as [->|[]]|destruct Hk as [->|[->|[]]]];
    injection Hkinds as <-; eexists; first [left|right; left].
Qed.

(** C29.  What the ledger commits to a pool, and what of it is not yet in the observed use, is
    exactly the worst phase of the counted claims: whatever promises have already been
    fulfilled, each one in place of the live claims its load replaces, no more bytes are held
    than the total, and some choice of promises holds exactly the total.  No live claim is
    credited to two loads. *)
Theorem memory_reservations_worst_phase img db claims node_ pool apps ids excluded kept observed totals :
  memory_reservations img db claims node_ (Some pool) apps ids excluded kept observed = Ok totals ->
  exists used future,
    traverse (fun r => u ← _claim_usage db r; Ok (r, u))
      (List.filter (counted db kept) (visible claims node_ apps ids excluded)) = Ok used /\
    replacements img db claims node_ pool (active_of used) (future_of used) = Ok future /\
    forall k kinds, k ∈ pool_kinds pool -> memory_reservation_kinds k pool = Ok kinds ->
      let live := List.filter (of_kinds kinds) (active_of used) in
      worst_phase kinds live amount_of future (default 0 (committed_bytes_by_kind totals !! k)) /\
      worst_phase kinds live future_amount future (default 0 (unmaterialized_bytes_by_kind totals !! k)).
Proof.
  unfold memory_reservations. intros H. unbind. subst totals. simpl. rename v into used, v0 into pools.
  apply known_pool_entry in Hv0 as (future & Hf & Hnd & Hentry). exists used, future.
  split_and!; [done|done|]. intros k kinds Hk Hkinds.
  destruct (Hentry k kinds Hk Hkinds) as [rs Hin].
  pose proof (pool_totals_worst kinds (active_of used) future (replacements_loads _ _ _ _ _ _ _ _ Hf)) as Hw.
  assert (forall sel : Z * Z * list UnknownRunMemoryResidual -> Z,
    ((fun p => (fst p, sel (snd p))) <$> pools).*1 = pools.*1) as Hfst
    by (intros sel; by rewrite <- list_fmap_compose).
  rewrite (nonzero_default _ k (pool_total (pool_totals kinds (active_of used) future))).
  - rewrite (nonzero_default _ k (pool_unmaterialized (pool_totals kinds (active_of used) future))); [done| |].
    + by rewrite (Hfst (fun x => snd (fst x))).
    + apply list_elem_of_fmap. eexists. split; [|exact Hin]. done.
  - by rewrite (Hfst (fun x => fst (fst x))).
  - apply list_elem_of_fmap. eexists. split; [|exact Hin]. done.
Qed.

(** ** The projection is total *)

(** A call that raises only what the loop over the consumers of a build catches. *)
Definition doubts {A} (m : result A) : Prop := forall e, m = Raise e -> consumer_doubt e = true.

Lemma doubts_Ok {A} (a : A) : doubts (Ok a).
Proof. by intros e. Qed.
Lemma doubts_scope {A} msg : doubts (A := A) (scope_changed msg).
Proof. by intros e [= <-]. Qed.
Lemma doubts_bind {A B} (m : result A) (f : A -> result B) :
  doubts m -> (forall a, m = Ok a -> doubts (f a)) -> doubts (m ≫= f).
Proof. intros Hm Hf e. destruct m as [a|e']; simpl; [by apply Hf|]. intros [= ->]. by apply Hm. Qed.
Lemma doubts_document {D} (doc : option D) : doubts (capacity_document doc).
Proof. destruct doc; [apply doubts_Ok|apply doubts_scope]. Qed.
Lemma doubts_memory_claim_id x y z : doubts (memory_claim_id x y z).
Proof.
  unfold memory_claim_id, claim_id. apply doubts_bind; [|intros; apply doubts_Ok].
  unfold UUID. repeat case_match; intros e [= <-]; done.
Qed.
#[local] Hint Resolve doubts_Ok doubts_scope doubts_document doubts_memory_claim_id : core.

Ltac doubting :=
  repeat first [solve [auto] | case_match | apply doubts_bind; [|intros ? ?]].

Lemma doubts_assignment db application revision node_ids ordinal :
  doubts (_profile_assignment db application revision node_ids ordinal).
Proof. unfold _profile_assignment. doubting. Qed.

Lemma doubts_validate r a asg q : doubts (_validate_memory_claim r a asg q).
Proof. unfold _validate_memory_claim. doubting. Qed.
#[local] Hint Resolve doubts_assignment doubts_validate : core.

(** Every Spark of the assignment has its requirement. *)
Lemma profile_assignment_nodes db application revision node_ids ordinal a g required n :
  _profile_assignment db application revision node_ids ordinal = Ok (a, g, required) ->
  n ∈ node_ids -> find (fun q => bool_decide (q_node_id q = n)) required <> None.
Proof.
  unfold _profile_assignment. intros H Hn Hf. repeat (case_match; try done; unbind). simplify_eq.
  assert (n ∈ q_node_id <$> requirements_of v0 (asg_id g)) as (q & -> & Hq)%list_elem_of_fmap.
  { unfold same_set in *. bools.
    match goal with H : forallb (fun x => mem x (_ <$> _)) _ = true |- _ => rewrite forallb_forall in H;
      apply mem_true, H, list_elem_of_In end. unfold sorted. by rewrite (merge_sort_Permutation str_le). }
  apply List.find_none with (x := q) in Hf; [|by apply list_elem_of_In].
  by rewrite bool_decide_eq_true_2 in Hf.
Qed.

(** What the external review of a load's image promises: it answers, or it raises a doubt. *)
Definition reviews_or_doubts (img : string -> string -> list string -> result RuntimeImageIdentity) : Prop :=
  forall application revision nodes_, doubts (img application revision nodes_).

Lemma doubts_build_claim img db claims j b pool :
  reviews_or_doubts img -> doubts (_profile_build_memory_claim img db claims j b pool false).
Proof.
  intros Himg. unfold _profile_build_memory_claim, memory_claim. doubting.
  all: bools; exfalso; eapply profile_assignment_nodes; eauto.
Qed.

Lemma consume_builds_total img db b pool candidates : reviews_or_doubts img -> forall claims found,
  is_ok (consume_builds img db b pool None false candidates claims found).
Proof.
  intros Himg. induction candidates as [|j rest IH]; intros claims found; simpl; [apply is_ok_Ok|].
  destruct (_profile_build_memory_claim _ _ _ _ _ _) as [[c [r|]]|e] eqn:E; [apply IH..|].
  apply doubts_build_claim in E as ->; [apply IH|done].
Qed.

Lemma build_owners_total img db claims node_ pool r :
  reviews_or_doubts img -> is_ok (build_owners img db claims node_ pool r).
Proof.
  intros Himg. unfold build_owners, profile_build_memory_claims. repeat (case_match; try apply is_ok_Ok).
  match goal with H : consume_builds _ _ ?b _ _ _ ?c ?cl ?f = Raise _ |- _ =>
    destruct (consume_builds_total img db b (Some pool) c Himg cl f) as [x Hx] end. congruence.
Qed.

Definition supported_owner (r : ResourceReservation) : Prop :=
  r_owner_kind r ∈ ["fleet-profile"; "recipe-build"; "run"].

Lemma claim_usage_total db r : is_ok (_claim_usage db r) <-> supported_owner r.
Proof.
  unfold _claim_usage, supported_owner, owned_by. set_unfold.
  repeat case_bool_decide; simpl; repeat case_match; simpl; split; try naive_solver apply is_ok_Ok.
  all: try (intros _; by apply is_ok_Ok). all: intros [? ?]; naive_solver.
Qed.

Lemma known_pool_totals_total img db claims node_ pool used :
  reviews_or_doubts img -> is_ok (known_pool_totals img db claims node_ pool used).
Proof.
  intros Himg. unfold known_pool_totals, replacements. apply is_ok_bind.
  - apply is_ok_bind; [|intros; apply is_ok_Ok]. apply traverse_is_ok. intros u _.
    apply is_ok_bind; [by apply build_owners_total|intros; apply is_ok_Ok].
  - intros future _. destruct pool; simpl; apply is_ok_Ok.
Qed.

(** The ledger answers for a Spark exactly when every counted claim belongs to a load, a build
    or a run; a stored document it cannot read, a build it cannot attribute or a missing owner
    row never makes it fail. *)
Theorem memory_reservations_total img db claims node_ pool apps ids excluded kept observed :
  reviews_or_doubts img ->
  is_ok (memory_reservations img db claims node_ pool apps ids excluded kept observed) <->
  (forall r, r ∈ List.filter (counted db kept) (visible claims node_ apps ids excluded) -> supported_owner r).
Proof.
  intros Himg. unfold memory_reservations. split.
  - intros [totals H] r Hr. unbind. apply traverse_Ok in Hv.
    apply list_elem_of_lookup in Hr as [i Hi].
    destruct (Forall2_lookup_l _ _ _ _ _ Hv Hi) as (y & _ & (u & Hu & _)%bind_Ok).
    apply (claim_usage_total db). by exists u.
  - intros Hall. apply is_ok_bind.
    + apply traverse_is_ok. intros r Hr. apply is_ok_bind; [|intros; apply is_ok_Ok].
      by apply claim_usage_total, Hall.
    + intros used _. apply is_ok_bind; [|intros; apply is_ok_Ok].
      destruct pool; [by apply known_pool_totals_total|apply is_ok_Ok].
Qed.
