(* ===== verification/DiskLedger.v ===== *)
(** * The disk ledger

    [control/src/vonk_control/disk_reservations.py], [covered_installation_claims.py] and
    [spark_disk.py]: what the disk claims on a Spark still add to its observed use.  A claim
    counts in full until authenticated inventory, taken after the work and past the accepted
    clock skew, already shows the bytes it stood for. *)
From stdpp Require Import sorting.
From S2P Require Import Prelude Vocabulary StateMachines PersistedWaits SparkAttempts.
From S2P Require Import ResourceTypes Rows OwnerLiveness ProfileCapacity.

(** Models some installation on the Spark holds files of. *)
Definition models_stored_on_node (db : Database) (node_ : string) : list string :=
  omap (fun i =>
    if mem (inst_state i) [value InstallationState.INSTALLED; value InstallationState.INSTALLING;
                           value InstallationState.PARTIAL]
       && existsb (fun m => bool_decide (member_installation m = inst_id i)
                            && bool_decide (member_node m = node_)) (installation_nodes db)
    then inst_model_content_sha256 i else None) (installations db).

Record DiskCharge := {
  charge_owner_kind : string;
  charge_owner_id : string;
  charge_amount : Z;
}.
#[global] Instance DiskCharge_eq : EqDecision DiskCharge.
Proof. solve_decision. Defined.

(** The installation and the member row a claim is joined with. *)
Definition claim_installation (db : Database) (r : ResourceReservation) : option InstallationRow :=
  if bool_decide (r_owner_kind r = "installation") then get inst_id (installations db) (r_owner_id r)
  else None.

Definition claim_member (db : Database) (r : ResourceReservation) (i : InstallationRow)
  : option InstallationNodeRow :=
  find (fun m => bool_decide (member_installation m = inst_id i) && bool_decide (member_node m = r_node r))
    (installation_nodes db).

(** The observation is later than this change, whatever the agent's clock. *)
Definition observed_after (inventory_observed_at : option datetime) (changed : datetime) : bool :=
  match inventory_observed_at with
  | Some t => to_utc changed + MAX_INVENTORY_FUTURE_SKEW <? to_utc t
  | None => false
  end.

(** The plan names exactly this claim, member and installation. *)
Definition plan_owns (node_ : string) (r : ResourceReservation) (i : InstallationRow)
    (m : InstallationNodeRow) : option InstallationPlanNode :=
  plan ← inst_plan i;
  if negb (bool_decide (ip_plan_digest plan = r_plan_digest r)) then None
  else
    owned ← find (fun n => bool_decide (ipn_node_id n = node_)) (ip_nodes plan);
    if (ipn_required_bytes owned =? member_required_bytes m)
       && (member_required_bytes m =? r_amount r)
       && (ipn_required_download_bytes owned <=? ipn_required_bytes owned)
       && (ipn_rank owned =? member_rank m) && bool_decide (ipn_role owned = member_role m)
       && bool_decide (ip_mapping_id plan = inst_mapping_id i)
       && (ip_mapping_generation plan =? inst_mapping_generation i)
       && bool_decide (ip_recipe_revision_id plan = inst_recipe_revision_id i)
       && same_image (ip_image plan) (inst_image i)
    then Some owned else None.

(** The download bytes a later observation of a verified install already shows. *)
Definition materialized (db : Database) (node_ : string) (inventory_observed_at : option datetime)
    (r : ResourceReservation) : Z :=
  match claim_installation db r with
  | None => 0
  | Some i =>
      match claim_member db r i with
      | None => 0
      | Some m =>
          if bool_decide (inst_state i = value InstallationState.INSTALLED)
             && bool_decide (member_state m = value InstallationNodeState.INSTALLED)
             && observed_after inventory_observed_at (member_updated_at m)
             && bool_decide (r_plan_digest r = inst_plan_digest i)
          then match plan_owns node_ r i m with
               | Some owned => ipn_required_download_bytes owned
               | None => 0
               end
          else 0
      end
  end.

(** A build that can write no more, by its own orders. *)
Definition finished_build (db : Database) (inventory_observed_at : option datetime)
    (r : ResourceReservation) : bool :=
  match get build_id (builds db) (r_owner_id r) with
  | None => false
  | Some b =>
      bool_decide (builder_node_id b = r_node r) && bool_decide (build_input_sha256 b = r_plan_digest r)
      && negb (build_holds_disk db b inventory_observed_at)
  end.

(** The claims of a build the caller leaves out, or of one that is over. *)
Definition skipped_build (db : Database) (excluded_build_ids : list string)
    (inventory_observed_at : option datetime) (r : ResourceReservation) : bool :=
  bool_decide (r_owner_kind r = value OwnerKind.RECIPE_BUILD)
  && (mem (r_owner_id r) excluded_build_ids || finished_build db inventory_observed_at r).

Definition outstanding_disk_charges (db : Database) (claims : list ResourceReservation) (node_ : string)
    (inventory_observed_at : option datetime)
    (excluded_runs excluded_applications excluded_installations excluded_builds : list string)
  : list DiskCharge :=
  (fun r => {| charge_owner_kind := r_owner_kind r; charge_owner_id := r_owner_id r;
               charge_amount := r_amount r - materialized db node_ inventory_observed_at r |}) <$>
    List.filter (fun r =>
      bool_decide (r_node r = node_) && bool_decide (r_kind r = "disk")
      && same (r_state r) ReservationState.ACTIVE
      && reservation_visible excluded_applications excluded_runs excluded_installations r
      && negb (skipped_build db excluded_builds inventory_observed_at r)) claims.

Definition outstanding_disk_reservation_bytes (db : Database) (claims : list ResourceReservation)
    (node_ : string) (inventory_observed_at : option datetime)
    (excluded_runs excluded_applications excluded_installations : list string) : Z :=
  sum_list (charge_amount <$>
    outstanding_disk_charges db claims node_ inventory_observed_at excluded_runs excluded_applications
      excluded_installations []).

(** Largest first, then by owner. *)
Definition charge_order (x y : DiskCharge) : Prop :=
  charge_amount y < charge_amount x \/
  charge_amount x = charge_amount y /\ str_le (charge_owner_id x) (charge_owner_id y).
#[global] Instance charge_order_dec x y : Decision (charge_order x y).
Proof. unfold charge_order. apply _. Defined.

Definition describe_disk_charges (db : Database) (charges : list DiskCharge) (limit : nat) : string :=
  let ordered := merge_sort charge_order (List.filter (fun c => 0 <? charge_amount c) charges) in
  let parts := (fun c =>
      describe (reservation_owner db (charge_owner_kind c) (charge_owner_id c) None)
      +:+ " " +:+ pretty (charge_amount c) +:+ " bytes") <$> take limit ordered in
  let rest := sum_list (charge_amount <$> drop limit ordered) in
  let parts := if (limit <? length ordered)%nat
               then (parts ++ [pretty (Z.of_nat (length ordered - limit)) +:+ " more "
                               +:+ pretty rest +:+ " bytes"])%list
               else parts in
  match parts with [] => EmptyString | _ => "reserved by " +:+ join "; " parts end.

(** ** Claims covered by an observation *)
Definition latest_observation (db : Database) (node_ : string) : option instant :=
  max_list ((fun s => to_utc (snap_observed_at s)) <$>
              List.filter (fun s => bool_decide (snap_node s = node_)) (inventory db)).

(** The disk claim of an installation whose files its Spark already reports. *)
Definition covered (db : Database) (r : ResourceReservation) : bool :=
  bool_decide (r_kind r = "disk") && same (r_state r) ReservationState.ACTIVE
  && match claim_installation db r with
     | None => false
     | Some i =>
         match claim_member db r i with
         | None => false
         | Some m =>
             bool_decide (inst_state i = value InstallationState.INSTALLED)
             && bool_decide (member_state m = value InstallationNodeState.INSTALLED)
             && observed_after (Aware <$> latest_observation db (r_node r)) (member_updated_at m)
             && negb (existsb (fun run => bool_decide (run_installation run = inst_id i)
                                          && mem (run_state run) STOPPABLE_RUN_STATES) (runs db))
         end
     end.

Definition covered_owner (r : ResourceReservation) : ReservationOwner := {|
  ro_kind := "installation"; ro_id := r_owner_id r; ro_state := value InstallationState.INSTALLED;
  ro_dead := false; ro_noun := "installation"; ro_detail := "files already counted in free space" |}.

Definition release_covered_installation_claims (db : Database) (locked : string -> bool)
    (now : datetime) (claims : list ResourceReservation)
  : list ResourceReservation * list ReservationOwner :=
  let p r := covered db r && negb (locked (r_id r)) in
  (release_where p now claims, covered_owner <$> List.filter p claims).

(** ** Free space ([spark_disk.py]) *)
Definition spark_free_bytes (free : Z) (unused_model_bytes : option Z) (reused_model_bytes : Z) : Z :=
  free + Z.max 0 (default 0 unused_model_bytes - reused_model_bytes).

(** ** Facts *)

(** The download bytes of a stored plan are not negative (its contract). *)
Definition plans_ok (db : Database) : Prop :=
  forall i plan n, i ∈ installations db -> inst_plan i = Some plan -> n ∈ ip_nodes plan ->
    0 <= ipn_required_download_bytes n.

(** The claims on a Spark's disk that the caller sees. *)
Definition disk_claims (node_ : string) (excluded_runs excluded_applications excluded_installations : list string)
    (r : ResourceReservation) : bool :=
  bool_decide (r_node r = node_) && bool_decide (r_kind r = "disk") && same (r_state r) ReservationState.ACTIVE
  && reservation_visible excluded_applications excluded_runs excluded_installations r.

Lemma plan_owns_download db node_ r i m owned :
  plans_ok db -> i ∈ installations db -> plan_owns node_ r i m = Some owned ->
  0 <= ipn_required_download_bytes owned <= r_amount r.
Proof.
  intros Hp Hi H. unfold plan_owns in H. destruct (inst_plan i) as [plan|] eqn:Ep; [|done]. simpl in H.
  destruct (negb _); [done|]. destruct (find _ (ip_nodes plan)) as [n|] eqn:Ef; [|done]. simpl in H.
  destruct (_ && same_image _ _) eqn:E; [|done]. injection H as ->. bools.
  apply List.find_some in Ef as [Hn%list_elem_of_In _]. specialize (Hp i plan owned Hi Ep Hn). lia.
Qed.

Lemma materialized_bounds db node_ o r :
  plans_ok db -> 0 <= r_amount r -> 0 <= materialized db node_ o r <= r_amount r.
Proof.
  intros Hp Ha. unfold materialized. destruct (claim_installation db r) as [i|] eqn:Ei; [|lia].
  destruct (claim_member db r i) as [m|]; [|lia]. case_match; [|lia].
  destruct (plan_owns node_ r i m) as [owned|] eqn:Eo; [|lia]. eapply plan_owns_download; [exact Hp| |exact Eo].
  unfold claim_installation in Ei. case_match; [|done]. by apply List.find_some in Ei as [Ei%list_elem_of_In _].
Qed.

Lemma materialized_later db node_ t t' r :
  plans_ok db -> 0 <= r_amount r -> to_utc t <= to_utc t' ->
  materialized db node_ (Some t) r <= materialized db node_ (Some t') r.
Proof.
  intros Hp Ha Hle. pose proof (materialized_bounds db node_ (Some t') r Hp Ha) as Hb.
  unfold materialized in *. destruct (claim_installation db r) as [i|]; [|done].
  destruct (claim_member db r i) as [m|]; [|done].
  destruct (observed_after (Some t) (member_updated_at m)) eqn:E.
  - assert (observed_after (Some t') (member_updated_at m) = true) as ->; [|done].
    unfold observed_after in *. bools. apply Z.ltb_lt. lia.
  - rewrite (andb_false_r (bool_decide _ && bool_decide _)). simpl. apply Hb.
Qed.

Lemma build_holds_disk_later db b t t' :
  to_utc t <= to_utc t' -> build_holds_disk db b (Some t) = false -> build_holds_disk db b (Some t') = false.
Proof.
  intros Hle. unfold build_holds_disk. destruct (build_orders db b); [done|].
  destruct (existsb order_writes _); [done|]. intros H. bools. apply Z.leb_gt. lia.
Qed.

Lemma build_holds_disk_None db b t :
  build_holds_disk db b None = false -> build_holds_disk db b (Some t) = false.
Proof. unfold build_holds_disk. destruct (build_orders db b); [done|]. by destruct (existsb order_writes _). Qed.

Lemma skipped_build_mono db excluded o o' r :
  (forall b, build_holds_disk db b o = false -> build_holds_disk db b o' = false) ->
  skipped_build db excluded o r = true -> skipped_build db excluded o' r = true.
Proof.
  intros Hm. unfold skipped_build, finished_build. rewrite !andb_true_iff, !orb_true_iff.
  intros [H [H'|H']]; split; auto. right. destruct (get build_id (builds db) (r_owner_id r)) as [b|]; [|done].
  rewrite !andb_true_iff, !negb_true_iff in *. naive_solver.
Qed.

(** What one claim adds. *)
Definition charge_of (db : Database) (node_ : string) (o : option datetime)
    (excluded_runs excluded_applications excluded_installations excluded_builds : list string)
    (r : ResourceReservation) : Z :=
  if disk_claims node_ excluded_runs excluded_applications excluded_installations r
     && negb (skipped_build db excluded_builds o r)
  then r_amount r - materialized db node_ o r else 0.

Lemma charges_sum db claims node_ o er ea ei eb :
  sum_list (charge_amount <$> outstanding_disk_charges db claims node_ o er ea ei eb)
  = sum_list (charge_of db node_ o er ea ei eb <$> claims).
Proof.
  unfold outstanding_disk_charges, charge_of, disk_claims. induction claims as [|r l IH]; [done|].
  rewrite fmap_cons. cbn [List.filter sum_list fold_right]. unfold sum_list in *. rewrite <- IH.
  destruct (_ && negb (skipped_build _ _ _ r)); [|done]. done.
Qed.

Lemma sum_list_le {A} (f g : A -> Z) l :
  (forall x, x ∈ l -> f x <= g x) -> sum_list (f <$> l) <= sum_list (g <$> l).
Proof.
  intros H. induction l as [|x l IH]; [done|]. rewrite !fmap_cons. unfold sum_list in *. cbn [fold_right].
  assert (f x <= g x) by (apply H; left). assert (fold_right Z.add 0 (f <$> l) <= fold_right Z.add 0 (g <$> l))
    by (apply IH; intros y Hy; apply H; by right). lia.
Qed.

(** A disk observation only ever lowers the charge: the committed disk of a Spark is never
    negative, never above its claims, and a later observation of the same rows never charges
    more than an earlier one. *)
Theorem later_observation_only_lowers db claims node_ t t' er ea ei eb :
  plans_ok db -> Forall (fun r => 0 <= r_amount r) claims -> to_utc t <= to_utc t' ->
  let charged o := sum_list (charge_amount <$> outstanding_disk_charges db claims node_ o er ea ei eb) in
  0 <= charged (Some t') <= charged (Some t) /\ charged (Some t) <= charged None /\
  charged None <= sum_list ((fun r => if disk_claims node_ er ea ei r then r_amount r else 0) <$> claims).
Proof.
  intros Hp Ha Hle charged. rewrite Forall_forall in Ha. unfold charged. rewrite !charges_sum.
  assert (Hnone : forall r, materialized db node_ None r = 0).
  { intros r. unfold materialized. destruct (claim_installation db r); [|done]. destruct (claim_member _ _ _); [|done].
    simpl. by rewrite andb_false_r. }
  split_and!.
  - change 0 with (sum_list []). transitivity (sum_list ((fun _ => 0) <$> claims)).
    + clear. induction claims as [|r l IH]; [done|]. rewrite fmap_cons. cbn [sum_list fold_right] in *. unfold sum_list in *. simpl in *. lia.
    + apply sum_list_le. intros r Hr. unfold charge_of. case_match; [|lia].
      pose proof (materialized_bounds db node_ (Some t') r Hp (Ha r Hr)). lia.
  - apply sum_list_le. intros r Hr. unfold charge_of.
    pose proof (materialized_bounds db node_ (Some t) r Hp (Ha r Hr)).
    pose proof (materialized_later db node_ t t' r Hp (Ha r Hr) Hle).
    destruct (disk_claims _ _ _ _ r); simpl; [|lia].
    destruct (skipped_build db eb (Some t) r) eqn:E; 
      [by rewrite (skipped_build_mono db eb (Some t) (Some t')) by eauto using build_holds_disk_later|].
    simpl. case_match; lia.
  - apply sum_list_le. intros r Hr. unfold charge_of.
    pose proof (materialized_bounds db node_ (Some t) r Hp (Ha r Hr)). rewrite Hnone.
    destruct (disk_claims _ _ _ _ r); simpl; [|lia].
    destruct (skipped_build db eb None r) eqn:E; simpl; [|case_match; lia].
    by rewrite (skipped_build_mono db eb None (Some t)) by eauto using build_holds_disk_None.
  - apply sum_list_le. intros r Hr. unfold charge_of. rewrite Hnone. destruct (disk_claims _ _ _ _ r); simpl; [|done].
    specialize (Ha r Hr). simpl in Ha. case_match; lia.
Qed.
