(* ===== verification/ProfileCapacityFacts.v ===== *)
(** * Theorems of the capacity claims

    The claim table keeps the database's own rules through every operation of a load, claims
    that a child has taken over are never touched, a load's memory claims heal to exactly the
    accepted promise, and a handoff moves capacity without copying it. *)
From stdpp Require Import sorting.
From S2P Require Import Prelude Vocabulary StateMachines ReasonCodes Uuid PersistedWaits.
From S2P Require Import SparkAttempts ResourceTypes Rows OwnerLiveness OwnerLivenessFacts.
From S2P Require Import ProfileCapacity MemoryLedger DiskLedger.

(** ** The rules of the table *)

(** The check constraints of a row. *)
Record claim_ok (r : ResourceReservation) : Prop := {
  ok_kind : r_kind r ∈ ["disk"; "unified-memory"; "host-memory"; "gpu-memory"; "port"];
  ok_amount : 0 <= r_amount r;
  ok_promised : r_state r = ReservationState.PROMISED ->
                r_kind r <> "disk" /\ r_owner_kind r = "fleet-profile";
}.

Definition promised_port (r : ResourceReservation) : bool :=
  bool_decide (r_kind r = "port") && same (r_state r) ReservationState.PROMISED.

(** The unique index: a port of a Spark is promised once. *)
Definition ports_unique (claims : list ResourceReservation) : Prop :=
  forall i j r s, claims !! i = Some r -> claims !! j = Some s ->
    promised_port r = true -> promised_port s = true ->
    r_node r = r_node s -> r_key r = r_key s -> i = j.

Definition distinct_ids (claims : list ResourceReservation) : Prop := NoDup (r_id <$> claims).

Record table_ok (claims : list ResourceReservation) : Prop := {
  ids_ok : distinct_ids claims;
  rows_ok : Forall claim_ok claims;
  index_ok : ports_unique claims;
}.

(** An assignment to the columns of some rows keeps the rules when each changed row does and no
    port is newly promised. *)
Lemma table_ok_fmap g claims :
  table_ok claims -> (forall r, r_id (g r) = r_id r) ->
  (forall r, r ∈ claims -> claim_ok r -> claim_ok (g r)) ->
  (forall r, r ∈ claims -> promised_port (g r) = true ->
     promised_port r = true /\ r_node (g r) = r_node r /\ r_key (g r) = r_key r) ->
  table_ok (g <$> claims).
Proof.
  intros [Hids Hrows Hidx] Hid Hok Hport. rewrite Forall_forall in Hrows. split.
  - unfold distinct_ids. rewrite <- list_fmap_compose. erewrite list_fmap_ext; [exact Hids|].
    intros k r _. apply Hid.
  - apply Forall_fmap, Forall_forall. intros r Hr. simpl. auto.
  - intros i j r' s' Hi Hj Hr Hs Hn Hk. rewrite list_lookup_fmap in Hi, Hj.
    apply fmap_Some in Hi as (r & Hi & ->). apply fmap_Some in Hj as (s & Hj & ->).
    destruct (Hport r (list_elem_of_lookup_2 _ _ _ Hi) Hr) as (Hr' & Hrn & Hrk).
    destruct (Hport s (list_elem_of_lookup_2 _ _ _ Hj) Hs) as (Hs' & Hsn & Hsk).
    apply (Hidx i j r s); congruence.
Qed.

(** Adding rows keeps the rules when they are ok and their promised ports are new. *)
Lemma table_ok_app claims rows :
  distinct_ids (claims ++ rows) -> table_ok claims -> Forall claim_ok rows -> ports_unique rows ->
  (forall r s, r ∈ claims -> s ∈ rows -> promised_port r = true -> promised_port s = true ->
     r_node r = r_node s -> r_key r = r_key s -> False) ->
  table_ok (claims ++ rows).
Proof.
  intros Hids [_ Hrows Hidx] Hok Hun Hdis. split; [done|by apply Forall_app|].
  intros i j r s Hi Hj Hr Hs Hn Hk.
  apply lookup_app_Some in Hi as [Hi|[Hi Hi']]; apply lookup_app_Some in Hj as [Hj|[Hj Hj']].
  - eauto.
  - exfalso. eapply (Hdis r s); eauto using list_elem_of_lookup_2.
  - exfalso. eapply (Hdis s r); eauto using list_elem_of_lookup_2.
  - assert (i - length claims = j - length claims)%nat by eauto. lia.
Qed.

Lemma no_port_unique rows : Forall (fun r => promised_port r = false) rows -> ports_unique rows.
Proof.
  intros H i j r s Hi _ Hr. rewrite Forall_forall in H.
  rewrite (H r (list_elem_of_lookup_2 _ _ _ Hi)) in Hr. done.
Qed.

Lemma table_ok_app_no_port claims rows :
  distinct_ids (claims ++ rows) -> table_ok claims -> Forall claim_ok rows ->
  Forall (fun r => promised_port r = false) rows -> table_ok (claims ++ rows).
Proof.
  intros Hids Ht Hok Hno. apply table_ok_app; [done|done|done|by apply no_port_unique|].
  intros r s _ Hs _ Hp. rewrite Forall_forall in Hno. rewrite (Hno s Hs) in Hp. done.
Qed.

Lemma release_ok now r : claim_ok r -> claim_ok (release now r).
Proof. intros []. by constructor. Qed.

Lemma table_ok_release p now claims : table_ok claims -> table_ok (release_where p now claims).
Proof.
  intros Ht. apply table_ok_fmap; [done|by intros r; destruct (p r)| |].
  - intros r _ Hr. destruct (p r); [by apply release_ok|done].
  - intros r _ Hp. destruct (p r); [|done]. unfold promised_port in Hp. simpl in Hp. by rewrite andb_false_r in Hp.
Qed.

(** ** Each operation *)

(** The byte counts of a review are not negative (its contract). *)
Definition requirement_ok (q : FleetProfileResourceRequirement) : Prop :=
  (forall n, q_disk_required_bytes q = Some n -> 0 <= n) /\
  (forall n, q_memory_required_bytes q = Some n -> 0 <= n).
Definition review_ok (review : FleetProfilePreview) : Prop :=
  forall d, d ∈ admission_decisions review -> Forall requirement_ok (dec_requirements d).

Lemma elem_of_wanted review ids w :
  w ∈ wanted_requirements review ids <->
  exists d, d ∈ admission_decisions review /\ mem (dec_assignment_id d) ids = true /\
            fst w = dec_assignment_id d /\ snd w ∈ dec_requirements d.
Proof.
  unfold wanted_requirements. rewrite list_elem_of_In, in_concat. split.
  - intros (l & Hl & Hw). apply list_elem_of_In, list_elem_of_fmap in Hl as (d & -> & Hd).
    apply list_elem_of_In, List.filter_In in Hd as [Hd Hm].
    apply list_elem_of_In, list_elem_of_fmap in Hw as (q & -> & Hq).
    exists d. by rewrite list_elem_of_In.
  - intros (d & Hd & Hm & Hf & Hs). eexists. split.
    + apply list_elem_of_In, list_elem_of_fmap. exists d. split; [done|].
      apply list_elem_of_In, List.filter_In. by rewrite <- list_elem_of_In.
    + apply list_elem_of_In, list_elem_of_fmap. exists (snd w). split; [|done]. rewrite <- Hf. by destruct w.
Qed.

Lemma wanted_ok review ids w :
  review_ok review -> w ∈ wanted_requirements review ids -> requirement_ok (snd w).
Proof.
  intros Hr (d & Hd & _ & _ & Hq)%elem_of_wanted. specialize (Hr d Hd). rewrite Forall_forall in Hr. auto.
Qed.

Lemma memory_kind_listed k : memory_reservation_kind k ∈ ["disk"; "unified-memory"; "host-memory"; "gpu-memory"; "port"].
Proof. destruct k; set_solver. Qed.

Lemma memory_kind_not_port k : memory_reservation_kind k <> "port" /\ memory_reservation_kind k <> "disk".
Proof. by destruct k. Qed.

(** Rows of a traversal all satisfy what each call's row does. *)
Lemma traverse_Forall {A B} (f : A -> result B) (P : B -> Prop) l ys :
  traverse f l = Ok ys -> (forall x y, x ∈ l -> f x = Ok y -> P y) -> Forall P ys.
Proof.
  intros H%traverse_Ok HP. apply Forall_forall. intros y Hy.
  apply list_elem_of_lookup in Hy as [i Hi]. destruct (Forall2_lookup_r _ _ _ _ _ H Hi) as (x & Hx & Hf).
  eauto using list_elem_of_lookup_2.
Qed.

Lemma disk_claim_ok a now w r :
  requirement_ok (snd w) -> disk_claim a now w = Ok r -> claim_ok r /\ promised_port r = false.
Proof.
  destruct w as [asg q]. intros [Hq _] H. simpl in *. destruct (q_disk_required_bytes q) as [n|]; [|done].
  unbind. subst r. split; [|done]. constructor; simpl; [set_solver|eauto|done].
Qed.

Lemma memory_promise_ok a created asg q k n r :
  0 <= n -> memory_promise a created asg q k n = Ok r -> claim_ok r /\ promised_port r = false.
Proof.
  intros Hn H. unfold memory_promise in H. unbind. subst r. destruct (memory_kind_not_port k) as [Hp Hd].
  split; [|unfold promised_port; simpl; by rewrite bool_decide_eq_false_2].
  constructor; simpl; [apply memory_kind_listed|done|done].
Qed.

Lemma reserved_memory_ok a now w r :
  requirement_ok (snd w) -> reserved_memory a now w = Ok r -> claim_ok r /\ promised_port r = false.
Proof.
  destruct w as [asg q]. intros [_ Hq] H. simpl in *.
  destruct (q_memory_required_bytes q) as [n|], (q_memory_kind q), (q_memory_pool q); try done.
  eapply memory_promise_ok; [|exact H]. eauto.
Qed.

Lemma reserve_disk_table a review ids now claims claims' :
  review_ok review -> table_ok claims -> reserve_profile_disk a review ids now claims = Ok claims' ->
  distinct_ids claims' -> table_ok claims'.
Proof.
  intros Hr Ht H Hids. unfold reserve_profile_disk in H. unbind. subst claims'.
  apply table_ok_app_no_port; [done|done|..]; eapply traverse_Forall; [exact Hv| |exact Hv|];
    intros w r Hw Hf; by destruct (disk_claim_ok a now w r (wanted_ok _ _ _ Hr Hw) Hf).
Qed.

Lemma reserve_memory_table a review ids now claims claims' :
  review_ok review -> table_ok claims -> reserve_profile_memory a review ids now claims = Ok claims' ->
  distinct_ids claims' -> table_ok claims'.
Proof.
  intros Hr Ht H Hids. unfold reserve_profile_memory in H. unbind. subst claims'.
  apply table_ok_app_no_port; [done|done|..]; eapply traverse_Forall; [exact Hv| |exact Hv|];
    intros w r Hw Hf; by destruct (reserved_memory_ok a now w r (wanted_ok _ _ _ Hr Hw) Hf).
Qed.

(** ** Ports *)
Lemma first_repeat_None pairs : forall seen,
  first_repeat seen pairs = None -> NoDup pairs /\ forall p, p ∈ pairs -> p ∉ seen.
Proof.
  induction pairs as [|p l IH]; intros seen; simpl; [split; [constructor|set_solver]|].
  case_match eqn:E; [done|]. bools. intros [Hnd Hs]%IH. split.
  - constructor; [|done]. intros Hp. by apply (Hs p Hp); left.
  - intros q [->|Hq]%elem_of_cons; [done|]. specialize (Hs q Hq). set_solver.
Qed.

(** After clearing, no other load promises a wanted port, and the wanted ports are distinct. *)
Lemma clear_port_promises_spec db app pairs now claims claims' :
  clear_port_promises db app pairs now claims = Ok claims' ->
  NoDup pairs /\ claims' = release_where (holds_wanted app pairs) now claims /\
  (forall r, r ∈ claims -> holds_wanted app pairs r = true -> consumable db r = false).
Proof.
  unfold clear_port_promises. destruct (first_repeat [] pairs) as [[n p]|] eqn:Er; [done|].
  destruct (find _ _) eqn:Ef; [done|]. intros [= <-].
  split; [by apply (first_repeat_None pairs [])|]. split; [done|]. intros r Hr Hw.
  apply (find_none _ _ Ef). apply list_elem_of_In. rewrite (merge_sort_Permutation port_order).
  apply list_elem_of_In, List.filter_In. by rewrite <- list_elem_of_In.
Qed.

Lemma port_promise_inv a now w r :
  port_promise a now w = Ok r ->
  r_kind r = "port" /\ r_amount r = 0 /\ r_owner_kind r = "fleet-profile" /\ r_owner_id r = app_id a /\
  r_state r = ReservationState.PROMISED /\ (r_node r, r_key r) = (snd (fst w), pretty (snd w)).
Proof. destruct w as [[asg node_] port]. simpl. intros H. unbind. by subst r. Qed.

Lemma port_rows_unique a now wanted rows :
  NoDup ((fun w : string * string * Z => (snd (fst w), snd w)) <$> wanted) ->
  traverse (port_promise a now) wanted = Ok rows -> ports_unique rows.
Proof.
  intros Hnd H%traverse_Ok i j r s Hi Hj _ _ Hn Hk.
  destruct (Forall2_lookup_r _ _ _ _ _ H Hi) as (w & Hw & (_ & _ & _ & _ & _ & Er)%port_promise_inv).
  destruct (Forall2_lookup_r _ _ _ _ _ H Hj) as (v & Hv & (_ & _ & _ & _ & _ & Es)%port_promise_inv).
  rewrite Hn, Hk, Es in Er. injection Er as E1 E2. apply (inj pretty) in E2.
  eapply (NoDup_lookup _ i j (snd (fst w), snd w)); [exact Hnd|by rewrite list_lookup_fmap, Hw|].
  rewrite list_lookup_fmap, Hv. simpl. by rewrite E1, E2.
Qed.

(** The load has not promised a port yet. *)
Definition no_own_port (app : string) (claims : list ResourceReservation) : Prop :=
  forall r, r ∈ claims -> r_owner_id r = app -> promised_port r = false.

Lemma reserve_ports_table db a review ids now claims claims' :
  no_own_port (app_id a) claims -> table_ok claims ->
  reserve_profile_ports db a review ids now claims = Ok claims' -> distinct_ids claims' ->
  table_ok claims'.
Proof.
  intros Hown Ht H Hids. unfold reserve_profile_ports in H. unbind. subst claims'.
  apply clear_port_promises_spec in Hv as (Hnd & -> & _). rename Hv0 into Hrows.
  apply table_ok_app; [done|by apply table_ok_release| |by eapply port_rows_unique|].
  - eapply traverse_Forall; [exact Hrows|]. intros w r _ (Hk & Ha & Ho & _)%port_promise_inv.
    constructor; rewrite ?Hk, ?Ha; [set_solver|done|done].
  - intros r s Hr Hs Hpr _ Hn Hk. apply list_elem_of_fmap in Hr as (r0 & -> & Hr0).
    destruct (holds_wanted _ _ r0) eqn:E; [unfold promised_port in Hpr; simpl in Hpr; by rewrite andb_false_r in Hpr|].
    apply traverse_Ok in Hrows. apply list_elem_of_lookup in Hs as [j Hj].
    destruct (Forall2_lookup_r _ _ _ _ _ Hrows Hj) as (w & Hw & (_ & _ & _ & _ & _ & Ew)%port_promise_inv).
    enough (holds_wanted (app_id a) ((fun w : string * string * Z => (snd (fst w), snd w)) <$> wanted_ports review ids) r0 = true)
      by congruence.
    unfold holds_wanted. unfold promised_port in Hpr. rewrite Hpr. simpl.
    rewrite bool_decide_eq_false_2 by (intros Ho; specialize (Hown r0 Hr0 Ho); unfold promised_port in Hown; congruence).
    simpl. apply mem_true. rewrite Hn, Hk, Ew, <- list_fmap_compose, list_elem_of_fmap. exists w. split; [done|].
    by eapply list_elem_of_lookup_2.
Qed.

(** ** Memory *)
Lemma table_ok_write id_ f claims :
  table_ok claims -> (forall r, r_id (f r) = r_id r) ->
  (forall r, r ∈ claims -> r_id r = id_ -> claim_ok r -> claim_ok (f r) /\ promised_port (f r) = false) ->
  table_ok (write_claim id_ f claims).
Proof.
  intros Ht Hid Hf. apply table_ok_fmap; [done|by intros r; case_bool_decide| |]; intros r Hr.
  - case_bool_decide; [|done]. intros Hok. by apply Hf.
  - case_bool_decide as E; [|done]. destruct Ht as [_ Hrows _]. rewrite Forall_forall in Hrows.
    destruct (Hf r Hr E (Hrows r Hr)) as [_ ->]. done.
Qed.

(** Rows are found by their id. *)
Lemma same_id_same_row claims r s :
  distinct_ids claims -> r ∈ claims -> s ∈ claims -> r_id r = r_id s -> r = s.
Proof. apply key_inj. Qed.

Lemma claim_row_Some claims id_ r : claim_row claims id_ = Some r -> r ∈ claims /\ r_id r = id_.
Proof. intros [Hr%list_elem_of_In He%String.eqb_eq]%List.find_some. done. Qed.

Lemma claim_row_None claims id_ : claim_row claims id_ = None -> id_ ∉ r_id <$> claims.
Proof.
  intros Hn (r & -> & Hr)%list_elem_of_fmap. apply list_elem_of_In in Hr.
  pose proof (List.find_none _ _ Hn r Hr) as H. simpl in H. by rewrite String.eqb_refl in H.
Qed.

Lemma distinct_ids_snoc claims r :
  distinct_ids claims -> r_id r ∉ r_id <$> claims -> distinct_ids (claims ++ [r]).
Proof.
  intros Hnd Hn. unfold distinct_ids. rewrite fmap_app. apply NoDup_app. split_and!; [done|set_solver|].
  simpl. repeat constructor. set_solver.
Qed.

Lemma memory_promise_id a created asg q k n r id_ :
  memory_claim_id (app_id a) asg (q_node_id q) = Ok id_ ->
  memory_promise a created asg q k n = Ok r -> r_id r = id_.
Proof. unfold memory_promise. intros -> [= <-]. done. Qed.

Lemma memory_claim_table claims a asg q repair claims' found :
  requirement_ok q -> table_ok claims ->
  memory_claim claims a asg q repair = Ok (claims', found) -> table_ok claims'.
Proof.
  intros [_ Hq] Ht H. unfold memory_claim in H. apply bind_Ok in H as (id_ & Hid & H).
  destruct repair; simpl in H; [|by injection H as <- <-].
  destruct (q_memory_kind q) as [k|], (q_memory_pool q), (q_memory_required_bytes q) as [n|] eqn:En; try done.
  specialize (Hq n eq_refl). destruct (memory_kind_not_port k) as [Hkp Hkd].
  destruct (claim_row claims id_) as [r|] eqn:Er.
  - destruct (of_load (app_id a) r) eqn:Eo; [|by injection H as <- <-]. injection H as <- <-.
    apply claim_row_Some in Er as [Er Hrid].
    apply table_ok_write; [done|done|]. intros s Hs Hsid Hok.
    split; [|unfold promised_port; simpl; by rewrite bool_decide_eq_false_2].
    rewrite (same_id_same_row claims s r (ids_ok _ Ht) Hs Er) by congruence.
    unfold of_load in Eo. bools. constructor; simpl; [apply memory_kind_listed|done|done].
  - apply bind_Ok in H as (promise & Hp & [= <- <-]). apply claim_row_None in Er.
    pose proof (memory_promise_id _ _ _ _ _ _ _ _ Hid Hp) as Hpid.
    apply memory_promise_ok in Hp as [Hok Hnp]; [|done].
    apply table_ok_app_no_port; [|done|by constructor|by constructor].
    apply distinct_ids_snoc; [apply ids_ok, Ht|congruence].
Qed.

Lemma inherit_memory_table a asg nm required : forall claims taken claims' taken',
  Forall requirement_ok required -> table_ok claims ->
  inherit_memory a asg nm required claims taken = Ok (claims', taken') -> table_ok claims'.
Proof.
  induction required as [|q rest IH]; intros claims taken claims' taken' Hq Ht H; simpl in H.
  { by injection H as <- <-. }
  inversion Hq; subst. destruct (nm !! q_node_id q); [|done]. destruct (negb _); [done|].
  apply bind_Ok in H as ([claims1 found] & Hm & H). simpl in H. destruct found as [r|]; [|done].
  apply bind_Ok in H as (_ & _ & H). eapply IH; [done| |exact H]. by eapply memory_claim_table.
Qed.

(** ** The handoff *)
Section handoff_table.
Context (new_id : string -> string -> string) (run digest : string) (now : datetime)
  (im : gmap string ResourceReservation) (ip : gmap (string * Z) ResourceReservation).

Lemma handed_over_ok key r :
  claim_ok r -> claim_ok (handed_over run digest key r) /\ promised_port (handed_over run digest key r) = false.
Proof.
  intros [Hk Ha _]. split; [by constructor|]. unfold promised_port. simpl. by rewrite andb_false_r.
Qed.

(** The ids of the rows after the handoff. *)
Lemma take_port_ids node_ claims port :
  exists more, r_id <$> take_port new_id run digest now ip node_ claims port = ((r_id <$> claims) ++ more)%list.
Proof.
  unfold take_port. destruct (ip !! _) as [r|].
  - exists []. rewrite app_nil_r. unfold write_claim. rewrite <- list_fmap_compose. apply list_fmap_ext.
    intros k c _. unfold compose. by case_bool_decide.
  - eexists. by rewrite fmap_app.
Qed.

Lemma take_port_table node_ claims port :
  table_ok claims -> distinct_ids (take_port new_id run digest now ip node_ claims port) ->
  table_ok (take_port new_id run digest now ip node_ claims port).
Proof.
  unfold take_port. intros Ht Hids. destruct (ip !! _) as [r|].
  - apply table_ok_write; [done|done|]. intros s _ _ Hs. by apply handed_over_ok.
  - apply table_ok_app_no_port; [done|done|apply Forall_singleton|by apply Forall_singleton].
    split; simpl; [set_solver|done|done].
Qed.

Lemma take_memory_table claims n :
  0 <= rn_memory_bytes n -> table_ok claims -> distinct_ids (take_memory new_id run digest now im claims n) ->
  table_ok (take_memory new_id run digest now im claims n).
Proof.
  unfold take_memory. intros Hn Ht Hids. destruct (im !! _) as [r|].
  - apply table_ok_write; [done|done|]. intros s _ _ Hs. by apply handed_over_ok.
  - apply table_ok_app_no_port; [done|done|apply Forall_singleton|apply Forall_singleton].
    + split; simpl; [apply memory_kind_listed|done|done].
    + unfold promised_port. simpl. by rewrite andb_false_r.
Qed.

(** A fold whose final ids are distinct had distinct ids at every step. *)
Lemma fold_table {A} (f : list ResourceReservation -> A -> list ResourceReservation) l : forall claims,
  (forall c x, exists more, r_id <$> f c x = ((r_id <$> c) ++ more)%list) ->
  (forall c x, x ∈ l -> table_ok c -> distinct_ids (f c x) -> table_ok (f c x)) ->
  table_ok claims -> distinct_ids (fold_left f l claims) -> table_ok (fold_left f l claims).
Proof.
  induction l as [|x l IH]; intros claims Hmore Hstep Ht Hids; simpl in *; [done|].
  apply IH; [done|intros c y Hy; apply Hstep; by right| |done].
  apply Hstep; [left|done|]. clear -Hmore Hids. revert Hids. generalize (f claims x). intros c.
  revert c. induction l as [|y l IH]; intros c Hids; simpl in *; [done|].
  apply IH in Hids. destruct (Hmore c y) as [more Hm]. unfold distinct_ids in Hids.
  rewrite Hm in Hids. by apply NoDup_app in Hids as [? _].
Qed.

Lemma fold_ids {A} (f : list ResourceReservation -> A -> list ResourceReservation) l : forall claims,
  (forall c x, exists more, r_id <$> f c x = ((r_id <$> c) ++ more)%list) ->
  exists more, r_id <$> fold_left f l claims = ((r_id <$> claims) ++ more)%list.
Proof.
  induction l as [|x l IH]; intros claims Hmore; simpl; [exists []; by rewrite app_nil_r|].
  destruct (IH (f claims x) Hmore) as [m1 ->]. destruct (Hmore claims x) as [m2 ->].
  exists (m2 ++ m1)%list. by rewrite app_assoc.
Qed.

Lemma take_memory_ids claims n :
  exists more, r_id <$> take_memory new_id run digest now im claims n = ((r_id <$> claims) ++ more)%list.
Proof.
  unfold take_memory. destruct (im !! _) as [r|]; [|eexists; by rewrite fmap_app].
  exists []. rewrite app_nil_r. unfold write_claim. rewrite <- list_fmap_compose. apply list_fmap_ext.
  intros k c _. unfold compose. by case_bool_decide.
Qed.

Lemma take_node_ids claims n :
  exists more, r_id <$> take_node new_id run digest now im ip claims n = ((r_id <$> claims) ++ more)%list.
Proof.
  unfold take_node. destruct (take_memory_ids claims n) as [m1 Hm1].
  destruct (fold_ids (take_port new_id run digest now ip (rn_node n)) (rn_ports n)
              (take_memory new_id run digest now im claims n) (take_port_ids (rn_node n))) as [m2 ->].
  exists (m1 ++ m2)%list. by rewrite Hm1, app_assoc.
Qed.

Lemma take_run_claims_table plan claims :
  Forall (fun n => 0 <= rn_memory_bytes n) plan -> table_ok claims ->
  distinct_ids (take_run_claims new_id run digest now im ip plan claims) ->
  table_ok (take_run_claims new_id run digest now im ip plan claims).
Proof.
  intros Hn Ht Hids. rewrite Forall_forall in Hn. apply fold_table; [apply take_node_ids| |done|done].
  intros c n Hin Hc Hd. unfold take_node in *. apply fold_table; [apply take_port_ids| | |done].
  - intros; by apply take_port_table.
  - apply take_memory_table; [by apply Hn|done|].
    destruct (fold_ids (take_port new_id run digest now ip (rn_node n)) (rn_ports n)
                (take_memory new_id run digest now im c n) (take_port_ids (rn_node n))) as [more Hm].
    unfold distinct_ids in Hd. rewrite Hm in Hd. by apply NoDup_app in Hd as [? _].
Qed.
End handoff_table.

(** ** Reading rows after a write *)
Lemma claim_row_write id_ f claims id' :
  (forall r, r_id (f r) = r_id r) ->
  claim_row (write_claim id_ f claims) id' =
  if bool_decide (id' = id_) then f <$> claim_row claims id' else claim_row claims id'.
Proof.
  intros Hf. unfold claim_row, get, write_claim. induction claims as [|r l IH]; [by case_bool_decide|].
  rewrite fmap_cons. cbn [find]. rewrite IH. destruct (decide (r_id r = id_)) as [E|E].
  - rewrite (bool_decide_eq_true_2 _ E), Hf. destruct (String.eqb_spec (r_id r) id') as [E'|E'].
    + rewrite bool_decide_eq_true_2 by congruence. done.
    + done.
  - rewrite (bool_decide_eq_false_2 _ E). destruct (String.eqb_spec (r_id r) id') as [E'|E']; [|done].
    by rewrite bool_decide_eq_false_2 by congruence.
Qed.

Lemma claim_row_snoc claims r id' :
  claim_row (claims ++ [r]) id' =
  match claim_row claims id' with
  | Some x => Some x
  | None => if String.eqb (r_id r) id' then Some r else None
  end.
Proof.
  unfold claim_row, get. induction claims as [|x l IH]; [done|]. cbn [app find].
  destruct (String.eqb (r_id x) id'); [done|exact IH].
Qed.

Lemma write_claim_ids id_ f claims :
  (forall r, r_id (f r) = r_id r) -> r_id <$> write_claim id_ f claims = r_id <$> claims.
Proof.
  intros Hf. unfold write_claim. rewrite <- list_fmap_compose. apply list_fmap_ext.
  intros k r _. unfold compose. case_bool_decide; [apply Hf|done].
Qed.

(** ** Memory claims heal *)

(** The row is exactly the accepted promise of this requirement. *)
Definition accepted_promise (a : ApplicationRow) (asg id_ : string) (q : FleetProfileResourceRequirement)
    (r : ResourceReservation) : Prop :=
  exists k n, q_memory_kind q = Some k /\ q_memory_required_bytes q = Some n /\ is_promise r a asg id_ q k n = true.

(** The review knows what the rank needs, and the run asks for the same. *)
Definition reviewed_memory (nm : gmap string NodeMemory) (q : FleetProfileResourceRequirement) : Prop :=
  q_memory_kind q <> None /\ q_memory_pool q <> None /\ q_memory_required_bytes q <> None /\
  exists m, nm !! q_node_id q = Some m /\ same_memory m q = true.

Lemma validate_accepted r a asg q id_ :
  memory_claim_id (app_id a) asg (q_node_id q) = Ok id_ -> q_memory_pool q <> None ->
  accepted_promise a asg id_ q r -> _validate_memory_claim r a asg q = Ok tt.
Proof.
  intros Hid Hp (k & n & Hk & Hn & Hr). unfold _validate_memory_claim. rewrite Hk, Hn.
  destruct (q_memory_pool q); [|done]. rewrite Hid. simpl. by rewrite Hr.
Qed.

(** Taking one claim writes exactly its promise and leaves every other row. *)
Lemma memory_claim_heals claims a asg q id_ :
  memory_claim_id (app_id a) asg (q_node_id q) = Ok id_ ->
  q_memory_kind q <> None -> q_memory_pool q <> None -> q_memory_required_bytes q <> None ->
  distinct_ids claims ->
  (forall r, claim_row claims id_ = Some r -> of_load (app_id a) r = true) ->
  exists claims' r, memory_claim claims a asg q true = Ok (claims', Some r) /\ distinct_ids claims' /\
    claim_row claims' id_ = Some r /\ accepted_promise a asg id_ q r /\
    forall id', id' <> id_ -> claim_row claims' id' = claim_row claims id'.
Proof.
  intros Hid Hk Hp Hn Hnd Hown. unfold memory_claim. rewrite Hid. simpl.
  destruct (q_memory_kind q) as [k|] eqn:Ek, (q_memory_pool q), (q_memory_required_bytes q) as [n|] eqn:En; try done.
  destruct (claim_row claims id_) as [r|] eqn:Er.
  - rewrite (Hown r eq_refl). eexists _, _. split; [reflexivity|].
    pose proof (claim_row_Some _ _ _ Er) as [_ Hrid]. split_and!.
    + unfold distinct_ids. by rewrite write_claim_ids.
    + rewrite claim_row_write, Er by done. by rewrite bool_decide_eq_true_2.
    + exists k, n. split_and!; [done|done|]. specialize (Hown r eq_refl). unfold of_load in Hown. bools.
      unfold is_promise, of_load. simpl. rewrite Hrid, H, H0, Z.eqb_refl, !bool_decide_eq_true_2; done.
    + intros id' Hne. rewrite claim_row_write by done. by rewrite bool_decide_eq_false_2.
  - unfold memory_promise. rewrite Hid. simpl. eexists _, _. split; [reflexivity|]. split_and!.
    + apply distinct_ids_snoc; [done|]. simpl. by apply claim_row_None.
    + rewrite claim_row_snoc, Er. simpl. by rewrite String.eqb_refl.
    + exists k, n. split_and!; [done|done|]. unfold is_promise, of_load. simpl.
      rewrite Z.eqb_refl, !bool_decide_eq_true_2; done.
    + intros id' Hne. rewrite claim_row_snoc. simpl. destruct (claim_row claims id'); [done|].
      by destruct (String.eqb_spec id_ id').
Qed.

Lemma inherit_memory_heals a asg nm required ids :
  Forall2 (fun q id_ => memory_claim_id (app_id a) asg (q_node_id q) = Ok id_) required ids ->
  NoDup ids -> Forall (reviewed_memory nm) required ->
  forall claims taken, distinct_ids claims ->
  (forall id_ r, id_ ∈ ids -> claim_row claims id_ = Some r -> of_load (app_id a) r = true) ->
  exists claims' taken', inherit_memory a asg nm required claims taken = Ok (claims', taken') /\
    Forall2 (fun q id_ => exists r, taken' !! q_node_id q = Some r /\ claim_row claims' id_ = Some r /\
                                    accepted_promise a asg id_ q r) required ids /\
    (forall n, n ∉ q_node_id <$> required -> taken' !! n = taken !! n) /\
    (forall id_, id_ ∉ ids -> claim_row claims' id_ = claim_row claims id_).
Proof.
  induction 1 as [|q id_ required ids Hid Hrest IH]; intros Hnd Hrev claims taken Hids Hown.
  { exists claims, taken. split; [done|]. by split_and!; [constructor|..]. }
  apply NoDup_cons in Hnd as [Hnew Hnd]. apply Forall_cons in Hrev as [(Hk & Hp & Hn & m & Hm & Hs) Hrev].
  destruct (memory_claim_heals claims a asg q id_) as (c1 & r & Hc & Hids1 & Hr & Hacc & Hother); try done.
  { intros s Hs'. apply (Hown id_ s); [left|done]. }
  destruct (IH Hnd Hrev c1 (<[q_node_id q := r]> taken)) as (c' & t' & Hi & Hall & Hkeep & Hframe); [done| |].
  { intros id' s Hin Hs'. apply (Hown id' s); [by right|]. rewrite <- Hs', Hother; [done|]. set_solver. }
  assert (Hnode : q_node_id q ∉ q_node_id <$> required).
  { intros (q' & Hq' & Hin)%list_elem_of_fmap. apply list_elem_of_lookup in Hin as [i Hi'].
    destruct (Forall2_lookup_l _ _ _ _ _ Hrest Hi') as (id' & Hid' & He). rewrite <- Hq', Hid in He.
    injection He as <-. by apply Hnew, (list_elem_of_lookup_2 _ i). }
  exists c', t'. simpl. rewrite Hm, Hs, Hc. simpl. rewrite (validate_accepted r a asg q id_) by done. simpl.
  split; [done|]. split_and!.
  - constructor; [|done]. exists r. rewrite (Hkeep _ Hnode), lookup_insert_eq, (Hframe _ Hnew). done.
  - intros n Hn'. apply not_elem_of_cons in Hn' as [Hne Hn']. by rewrite Hkeep, lookup_insert_ne by done.
  - intros id' Hn'. apply not_elem_of_cons in Hn' as [Hne Hn']. rewrite Hframe by done. by apply Hother.
Qed.

(** A run that asks for exactly what was reviewed gets the load's memory claims, whatever became
    of the load's own rows: a missing, released or drifted row is written back to exactly the
    accepted promise, and no other row of the table changes.  It needs only that no consumer has
    taken a claim over, and that the claim identifiers do not collide. *)
Theorem inherited_memory_heals db app rev alias nm ordinal claims a g required ids :
  _profile_assignment db app rev ((map_to_list nm).*1) ordinal = Ok (a, g, required) ->
  runs_under g alias = true -> Forall (reviewed_memory nm) required ->
  traverse (fun q => memory_claim_id (app_id a) (asg_id g) (q_node_id q)) required = Ok ids ->
  NoDup ids -> distinct_ids claims ->
  (forall id_ r, id_ ∈ ids -> claim_row claims id_ = Some r -> of_load (app_id a) r = true) ->
  exists claims' taken,
    inherited_profile_memory db app rev alias nm ordinal claims = Ok (claims', taken) /\
    Forall2 (fun q id_ => exists r, taken !! q_node_id q = Some r /\ claim_row claims' id_ = Some r /\
                                    accepted_promise a (asg_id g) id_ q r) required ids /\
    (forall id_, id_ ∉ ids -> claim_row claims' id_ = claim_row claims id_).
Proof.
  intros Ha Hr Hrev Hids Hnd Hd Hown. unfold inherited_profile_memory. rewrite Ha. simpl. rewrite Hr. simpl.
  apply traverse_Ok in Hids.
  destruct (inherit_memory_heals a (asg_id g) nm required ids Hids Hnd Hrev claims ∅ Hd Hown)
    as (c & t & -> & Hall & _ & Hframe). by exists c, t.
Qed.

(** ** The handoff conserves capacity *)

(** The bytes of a kind the claims hold on a Spark. *)
Definition held (node_ kind_ : string) (claims : list ResourceReservation) : Z :=
  amounts (List.filter (fun r => on_node node_ r && bool_decide (r_kind r = kind_) && holds r) claims).

Lemma held_app node_ kind_ claims rows :
  held node_ kind_ (claims ++ rows) = held node_ kind_ claims + held node_ kind_ rows.
Proof. unfold held, amounts. by rewrite List.filter_app, fmap_app, sum_list_app. Qed.

(** Rewriting a row in place keeps the bytes when its node, kind, bytes and hold stay. *)
Lemma held_write node_ kind_ id_ f claims :
  (forall r, r ∈ claims -> r_id r = id_ ->
     r_node (f r) = r_node r /\ r_kind (f r) = r_kind r /\ r_amount (f r) = r_amount r /\
     holds (f r) = holds r) ->
  held node_ kind_ (write_claim id_ f claims) = held node_ kind_ claims.
Proof.
  intros Hf. unfold held, write_claim, on_node. induction claims as [|r l IH]; [done|]. rewrite fmap_cons.
  specialize (IH (fun s Hs => Hf s (list_elem_of_further s r l Hs))). unfold amounts, sum_list in *.
  cbn [List.filter]. destruct (decide (r_id r = id_)) as [E|E].
  - rewrite (bool_decide_eq_true_2 (r_id r = id_)) by done.
    destruct (Hf r ltac:(left) E) as (-> & -> & Ha & ->).
    case_match; [|done]. rewrite !fmap_cons. cbn [sum_list fold_right]. by rewrite Ha, IH.
  - rewrite (bool_decide_eq_false_2 (r_id r = id_)) by done. case_match; [|done].
    rewrite !fmap_cons. cbn [sum_list fold_right]. by rewrite IH.
Qed.

Section conservation.
Context (new_id : string -> string -> string) (run digest : string) (now : datetime)
  (im : gmap string ResourceReservation) (ip : gmap (string * Z) ResourceReservation).

(** Every inherited row still holds what it was promised. *)
Definition inherited_hold (claims : list ResourceReservation) : Prop :=
  forall c, c ∈ claims ->
    (exists n r, im !! n = Some r /\ r_id r = r_id c) \/ (exists p r, ip !! p = Some r /\ r_id r = r_id c) ->
    holds c = true.

Lemma inherited_hold_write claims id_ key :
  inherited_hold claims -> inherited_hold (write_claim id_ (fun c => handed_over run digest (key c) c) claims).
Proof.
  intros Hh c (c0 & -> & Hc0)%list_elem_of_fmap. case_bool_decide; simpl; [done|]. by apply Hh.
Qed.

Lemma inherited_hold_app claims row :
  inherited_hold claims -> holds row = true -> inherited_hold (claims ++ [row]).
Proof.
  intros Hh Hr c [Hc|Hc]%elem_of_app; [by apply Hh|]. apply list_elem_of_singleton in Hc as ->. done.
Qed.

Lemma take_port_conserves node_ kind_ n claims port :
  kind_ <> "port" -> inherited_hold claims ->
  inherited_hold (take_port new_id run digest now ip n claims port) /\
  held node_ kind_ (take_port new_id run digest now ip n claims port) = held node_ kind_ claims.
Proof.
  intros Hk Hh. unfold take_port. destruct (ip !! (n, port)) as [r|] eqn:E; split.
  - by apply (inherited_hold_write claims (r_id r) r_key).
  - apply held_write. intros c Hc Hid. split_and!; try done. simpl. symmetry. apply Hh; [done|]. right. eauto.
  - by apply inherited_hold_app.
  - rewrite held_app. unfold held, amounts. simpl. rewrite (bool_decide_eq_false_2 ("port" = kind_)) by done.
    rewrite andb_false_r. simpl. lia.
Qed.

Lemma take_memory_conserves node_ kind_ n r claims :
  im !! rn_node n = Some r -> inherited_hold claims ->
  inherited_hold (take_memory new_id run digest now im claims n) /\
  held node_ kind_ (take_memory new_id run digest now im claims n) = held node_ kind_ claims.
Proof.
  intros E Hh. unfold take_memory. rewrite E. split; [by apply (inherited_hold_write claims (r_id r) (fun _ => digest))|].
  apply held_write. intros c Hc Hid. split_and!; try done. simpl. symmetry. apply Hh; [done|]. left. eauto.
Qed.

(** A fold of conserving steps conserves. *)
Lemma fold_conserves {A} (f : list ResourceReservation -> A -> list ResourceReservation) l node_ kind_ :
  (forall c x, x ∈ l -> inherited_hold c -> inherited_hold (f c x) /\ held node_ kind_ (f c x) = held node_ kind_ c) ->
  forall claims, inherited_hold claims ->
  inherited_hold (fold_left f l claims) /\ held node_ kind_ (fold_left f l claims) = held node_ kind_ claims.
Proof.
  induction l as [|x l IH]; intros Hf claims Hh; simpl; [done|].
  destruct (Hf claims x ltac:(left) Hh) as [Hh' <-]. apply IH; [|done]. intros c y Hy. apply Hf. by right.
Qed.

(** A handoff neither copies a claim nor opens a gap: when every rank of the run inherited its
    memory claim, what the claims hold of every memory kind on every Spark is what they held
    before, to the byte. *)
Theorem handoff_conserves_memory node_ kind_ plan claims :
  kind_ <> "port" -> inherited_hold claims -> (forall n, n ∈ plan -> is_Some (im !! rn_node n)) ->
  held node_ kind_ (take_run_claims new_id run digest now im ip plan claims) = held node_ kind_ claims.
Proof.
  intros Hk Hh Hin. unfold take_run_claims. apply (fold_conserves _ plan node_ kind_); [|done].
  intros c n Hn Hc. destruct (Hin n Hn) as [r Hr].
  destruct (take_memory_conserves node_ kind_ n r c Hr Hc) as [Hc' <-]. unfold take_node.
  apply fold_conserves; [|done]. intros c' port _ Hc''. by apply take_port_conserves.
Qed.
End conservation.
