(* ===== verification/ClaimRestore.v ===== *)
(** * Taking released claims back

    [control/src/vonk_control/profile_claim_restore.py] with [_latest_inventory] of
    [run_switch_operations/planning_helpers.py]: a load that returns to work takes back the
    claims it released while failed, by the decision every admission makes.  The admission keys
    and row locks are not modelled; a shortfall raises and the transaction leaves nothing. *)
From stdpp Require Import sorting.
From S2P Require Import Prelude Vocabulary StateMachines ReasonCodes Uuid PersistedWaits Swap.
From S2P Require Import Blockers SparkAttempts ResourceTypes Demand MemorySnapshot Capacity Rows.
From S2P Require Import OwnerLiveness ProfileCapacity MemoryLedger DiskLedger.

Definition CAPACITY_SHORT_CONSTRAINT : string := "profile_claim_capacity".

Definition claim_capacity_short {A} (node_ kind_ : string) : result A :=
  Raise (ConstraintReplan
    ("Spark " +:+ node_ +:+ " no longer has the " +:+ kind_ +:+ " this load released; "
     +:+ "the load is planned again.") CAPACITY_SHORT_CONSTRAINT).

(** ** The inventory of a plan *)
Record FreshnessEvidence := {
  fe_state : EvidenceState;
  fe_observed_at : option instant;
  (** microseconds *)
  fe_age : option Z;
  fe_maximum_age_seconds : option Z;
  fe_digest : option string;
}.

(** [order_by(observed_at.desc()).limit(1)] *)
Fixpoint latest_snapshot (l : list NodeInventorySnapshot) : option NodeInventorySnapshot :=
  match l with
  | [] => None
  | s :: rest =>
      match latest_snapshot rest with
      | Some k => Some (if to_utc (snap_observed_at k) <=? to_utc (snap_observed_at s) then s else k)
      | None => Some s
      end
  end.

Definition _latest_inventory (db : Database) (node_ : string) (now : datetime)
    (maximum_age_seconds : Z) : option NodeInventorySnapshot * FreshnessEvidence :=
  match latest_snapshot (List.filter (fun s => bool_decide (snap_node s = node_)) (inventory db)) with
  | None =>
      (None, {| fe_state := unknown; fe_observed_at := None; fe_age := None;
                fe_maximum_age_seconds := Some maximum_age_seconds; fe_digest := None |})
  | Some s =>
      let age := Z.max 0 (to_utc now - to_utc (snap_received_at s)) in
      (Some s, {| fe_state := if age <=? seconds maximum_age_seconds then fresh else stale;
                  fe_observed_at := Some (to_utc (snap_observed_at s));
                  fe_age := Some age; fe_maximum_age_seconds := Some maximum_age_seconds;
                  fe_digest := d ← snap_evidence_digest s;
                               if Nat.eqb (String.length d) 64 then Some d else None |})
  end.

Definition _fresh (e : FreshnessEvidence) : bool :=
  match fe_age e, fe_maximum_age_seconds e with
  | Some age, Some maximum => age <=? seconds maximum
  | _, _ => false
  end.

(** ** Admission of the restored claims *)
Section restore.
Context (accepted_profile_runtime_image : string -> string -> list string -> result RuntimeImageIdentity)
  (evaluate_memory_admission : admission_rule) (memory_floor_bytes : Z) (inventory_max_age_seconds : Z)
  (db : Database) (a : ApplicationRow) (now : datetime).

Definition read (node_ : string) : option NodeInventorySnapshot * FreshnessEvidence :=
  _latest_inventory db node_ now inventory_max_age_seconds.

Definition _disk_admitted (claims : list ResourceReservation) (node_ : string) : bool :=
  match read node_ with
  | (Some s, evidence) =>
      match snap_disk_free_bytes s with
      | Some free =>
          _fresh evidence
          && (0 <=? spark_free_bytes free (snap_unused_model_bytes s) 0
                    - sum_list (charge_amount <$>
                        outstanding_disk_charges db claims node_ (Some (snap_observed_at s)) [] [] [] []))
      | None => false
      end
  | (None, _) => false
  end.

(** The load's own live memory claims on the node. *)
Definition own_memory (claims : list ResourceReservation) (node_ : string) : list ResourceReservation :=
  select_claims (fun r => bool_decide (r_owner_id r = app_id a) && on_node node_ r
                          && memory_claim_kind r && holds r) claims.

Definition own_demand (own : list ResourceReservation) (state_ : EvidenceState) : ResourceDemand := {|
  d_weights_bytes := None; d_runtime_overhead_bytes := None; context_bytes := None;
  concurrency_bytes := None; batch_bytes := None; total_bytes := Some (amounts own);
  demand_state := state_; demand_reasons := []; load_overshoot_bytes := 0; minimum_swap_bytes := 0 |}.

Definition both_known (x y : option Z) : option (Z * Z) :=
  match x, y with Some t, Some f => Some (t, f) | _, _ => None end.

Definition kind_of_claim (r : ResourceReservation) : option MemoryKind :=
  find (fun k => bool_decide (memory_reservation_kind k = r_kind r)) [unified; host; accelerator].

Definition _memory_admitted (claims : list ResourceReservation) (node_ : string) : result bool :=
  let own := own_memory claims node_ in
  let '(snapshot, evidence) := read node_ in
  match own with
  | [] => Raise (RuntimeError "IndexError")
  | first :: _ =>
      match kind_of_claim first with
      | None => Raise (RuntimeError "StopIteration")
      | Some kind_ =>
          let pool := s ← snapshot; snap_memory_pool s in
          reservations ← memory_reservations accepted_profile_runtime_image db claims node_ pool
                           [app_id a] [] [] [] (snap_observed_at <$> snapshot);
          capacity ← memory_capacity_snapshot node_ reservations pool (fe_state evidence) None None None
                       NO_SWAP kind_
                       (s ← snapshot; both_known (snap_host_total_bytes s) (snap_host_free_bytes s))
                       (s ← snapshot; both_known (snap_gpu_total_bytes s) (snap_gpu_free_bytes s));
          plan ← plan_capacity evaluate_memory_admission memory_floor_bytes []
                   [(node_, own_demand own (fe_state evidence))] [capacity];
          Ok (plan_allowed plan)
      end
  end.

(** ** The restore *)

(** The released claims of the accepted plan, on the named nodes. *)
Definition restorable (node_ids : option (list string)) (r : ResourceReservation) : bool :=
  of_load (app_id a) r && same (r_state r) ReservationState.RELEASED
  && bool_decide (r_plan_digest r = app_plan_digest a)
  && match node_ids with Some ids => mem (r_node r) ids | None => true end.

Definition restored (r : ResourceReservation) : ResourceReservation := {|
  r_id := r_id r; r_node := r_node r; r_kind := r_kind r; r_key := r_key r; r_amount := r_amount r;
  r_owner_kind := r_owner_kind r; r_owner_id := r_owner_id r;
  r_state := if bool_decide (r_kind r = "disk") then ReservationState.ACTIVE else ReservationState.PROMISED;
  r_plan_digest := r_plan_digest r; r_created_at := r_created_at r; r_released_at := None |}.

(** The database refuses this row when it is flushed inside its savepoint: the unique index
    [uq_promised_node_port] of [models/execution.py] on the promised ports of a Spark. *)
Definition promise_refused (claims : list ResourceReservation) (r : ResourceReservation) : bool :=
  bool_decide (r_kind r = "port")
  && existsb (fun c => negb (bool_decide (r_id c = r_id r)) && bool_decide (r_kind c = "port")
                       && same (r_state c) ReservationState.PROMISED
                       && bool_decide (r_node c = r_node r) && bool_decide (r_key c = r_key r)) claims.

(** One row at a time, each flushed against the index. *)
Fixpoint restore_rows (rows claims : list ResourceReservation) : result (list ResourceReservation) :=
  match rows with
  | [] => Ok claims
  | r :: rest =>
      if promise_refused claims r
      then Raise (ConstraintReplan
             ("Database constraint " +:+ PORT_PROMISE_CONSTRAINT +:+ " was taken by another writer; "
              +:+ "the request is planned again.") PORT_PROMISE_CONSTRAINT)
      else restore_rows rest (write_claim (r_id r) restored claims)
  end.

Definition admitted (claims : list ResourceReservation) (p : string * string) : result bool :=
  if bool_decide (snd p = "disk") then Ok (_disk_admitted claims (fst p))
  else _memory_admitted claims (fst p).

Fixpoint check_admitted (claims : list ResourceReservation) (pairs : list (string * string)) : result unit :=
  match pairs with
  | [] => Ok tt
  | p :: rest =>
      ok ← admitted claims p;
      if ok : bool then check_admitted claims rest else claim_capacity_short (fst p) (snd p)
  end.

Definition restored_pairs (rows : list ResourceReservation) : list (string * string) :=
  merge_sort pair_le
    (remove_dups ((fun r => (r_node r, r_kind r)) <$>
       List.filter (fun r => negb (bool_decide (r_kind r = "port"))) rows)).

Definition restore_released_profile_claims (node_ids : option (list string))
    (claims : list ResourceReservation) : result (list ResourceReservation) :=
  if negb (mem (app_state a) FleetProfileStates.LIVE) then Ok claims
  else
    let rows := select_claims (restorable node_ids) claims in
    claims' ← restore_rows rows claims;
    _ ← check_admitted claims' (restored_pairs rows);
    Ok claims'.
End restore.
