(* ===== verification/ClaimRestoreFacts.v ===== *)
(** * Theorems of the restore

    Restoring is the inverse of releasing, touches only the load's own released claims of the
    accepted plan, keeps the rules of the table, and returns only when every Spark admits what
    returns; and where that admission looks at one memory kind only. *)
From stdpp Require Import sorting.
From S2P Require Import Prelude Vocabulary StateMachines ReasonCodes Uuid PersistedWaits Swap.
From S2P Require Import Blockers SparkAttempts ResourceTypes Demand MemorySnapshot Capacity.
From S2P Require Import CapacityFacts Rows OwnerLiveness OwnerLivenessFacts ProfileCapacity.
From S2P Require Import MemoryLedger DiskLedger ProfileCapacityFacts ClaimRestore.

Lemma restored_idem r : restored (restored r) = restored r.
Proof. done. Qed.

Lemma restore_rows_map rows : forall claims out,
  restore_rows rows claims = Ok out ->
  out = (fun r => if mem (r_id r) (r_id <$> rows) then restored r else r) <$> claims.
Proof.
  induction rows as [|r rows IH]; intros claims out; cbn [restore_rows].
  { intros [= <-]. symmetry. rewrite <- list_fmap_id. apply list_fmap_ext. intros k s _. done. }
  destruct (promise_refused claims r); [done|]. intros ->%IH. unfold write_claim.
  rewrite <- list_fmap_compose. apply list_fmap_ext. intros k s _. unfold compose.
  destruct (decide (r_id s = r_id r)) as [E|E].
  - rewrite (bool_decide_eq_true_2 (r_id s = r_id r)) by done.
    rewrite (proj2 (mem_true (r_id s) (r_id <$> r :: rows))) by (rewrite E, fmap_cons; left).
    by destruct (mem (r_id (restored s)) _).
  - rewrite (bool_decide_eq_false_2 (r_id s = r_id r)) by done.
    destruct (mem (r_id s) (r_id <$> rows)) eqn:Em; bools.
    + by rewrite (proj2 (mem_true _ _)) by (rewrite fmap_cons; by right).
    + rewrite (proj2 (mem_false _ _)); [done|]. rewrite fmap_cons, not_elem_of_cons. done.
Qed.

(** ** The rules of the table *)

(** The rows to restore are rows of the table, up to their state. *)
Definition restores_from (rows claims : list ResourceReservation) : Prop :=
  forall r, r ∈ rows -> exists c, c ∈ claims /\ r_id c = r_id r /\ r_kind c = r_kind r /\
    r_node c = r_node r /\ r_key c = r_key r /\ r_owner_kind c = "fleet-profile".

Lemma restores_from_write rows r claims :
  restores_from (r :: rows) claims -> restores_from rows (write_claim (r_id r) restored claims).
Proof.
  intros H s Hs. destruct (H s ltac:(by right)) as (c & Hc & Hid & Hk & Hn & Hy & Ho).
  exists (if bool_decide (r_id c = r_id r) then restored c else c). split; [|by case_bool_decide].
  apply list_elem_of_fmap. by exists c.
Qed.

Lemma refused_iff claims r :
  promise_refused claims r = true <->
  r_kind r = "port" /\ exists c, c ∈ claims /\ r_id c <> r_id r /\ promised_port c = true /\
                                 r_node c = r_node r /\ r_key c = r_key r.
Proof.
  unfold promise_refused, promised_port. rewrite andb_true_iff, bool_decide_eq_true, existsb_exists.
  split; (intros [? (c & H)]; split; [done|]; exists c);
    rewrite ?andb_true_iff, ?negb_true_iff, ?bool_decide_eq_true, ?bool_decide_eq_false, list_elem_of_In in *;
    naive_solver.
Qed.

Lemma restored_ok c : claim_ok c -> r_owner_kind c = "fleet-profile" -> claim_ok (restored c).
Proof.
  intros [Hk Ha _] Ho. constructor; simpl; [done|done|]. by case_bool_decide.
Qed.

Lemma restore_rows_table rows : forall claims out,
  table_ok claims -> restores_from rows claims -> restore_rows rows claims = Ok out -> table_ok out.
Proof.
  induction rows as [|r rows IH]; intros claims out Ht Hfrom; simpl; [by intros [= <-]|].
  destruct (promise_refused claims r) eqn:Er; [done|]. apply IH; [|by apply restores_from_write].
  destruct (Hfrom r ltac:(left)) as (c0 & Hc0 & Hid0 & Hk0 & Hn0 & Hy0 & Ho0).
  pose proof (ids_ok _ Ht) as Hids.
  assert (Hc : forall c, c ∈ claims -> r_id c = r_id r -> c = c0)
    by (intros c Hc E; apply (same_id_same_row claims); congruence).
  split.
  - unfold distinct_ids. by rewrite write_claim_ids.
  - apply Forall_fmap, Forall_forall. intros c Hin. simpl. pose proof (rows_ok _ Ht) as Hr.
    rewrite Forall_forall in Hr. case_bool_decide as E; [|by apply Hr]. apply restored_ok; [by apply Hr|].
    by rewrite (Hc c Hin E).
  - assert (Hclash : forall c d, c ∈ claims -> d ∈ claims -> r_id c = r_id r -> r_id d <> r_id r ->
        promised_port (restored c) = true -> promised_port d = true -> r_node c = r_node d ->
        r_key c = r_key d -> False).
    { intros c d Hin Hind E Hne Hp Hd Hn Hk. rewrite (Hc c Hin E) in *.
      rewrite <- Bool.not_true_iff_false in Er. apply Er, refused_iff.
      unfold promised_port in Hp. bools. simpl in *. split; [congruence|]. exists d. split_and!; congruence. }
    intros i j x y Hi Hj Hx Hy Hn Hk. unfold write_claim in Hi, Hj. rewrite list_lookup_fmap in Hi, Hj.
    apply fmap_Some in Hi as (c & Hi & ->). apply fmap_Some in Hj as (d & Hj & ->).
    pose proof (list_elem_of_lookup_2 _ _ _ Hi) as Hci. pose proof (list_elem_of_lookup_2 _ _ _ Hj) as Hdj.
    revert Hx Hy Hn Hk. case_bool_decide as E1; case_bool_decide as E2; simpl; intros Hx Hy Hn Hk.
    + eapply (NoDup_lookup (r_id <$> claims) i j (r_id r)); [exact Hids| |];
        rewrite list_lookup_fmap, ?Hi, ?Hj; simpl; congruence.
    + exfalso. eapply (Hclash c d); eauto.
    + exfalso. eapply (Hclash d c); eauto.
    + eapply (index_ok _ Ht); eauto.
Qed.

Lemma elem_of_select p claims r : r ∈ select_claims p claims <-> r ∈ claims /\ p r = true.
Proof.
  unfold select_claims. rewrite (merge_sort_Permutation claim_order), list_elem_of_In, List.filter_In.
  by rewrite <- list_elem_of_In.
Qed.

Lemma restorable_restores_from a node_ids claims :
  restores_from (select_claims (restorable a node_ids) claims) claims.
Proof.
  intros r [Hr Hp]%elem_of_select. exists r. unfold restorable, of_load in Hp. bools. done.
Qed.

(** The rows a restore selects are exactly the rows it changes. *)
Lemma restored_rows a node_ids claims r :
  distinct_ids claims -> r ∈ claims ->
  mem (r_id r) (r_id <$> select_claims (restorable a node_ids) claims) = restorable a node_ids r.
Proof.
  intros Hd Hr. apply eq_true_iff_eq. rewrite mem_true, list_elem_of_fmap. split.
  - intros (s & He & [Hs Hp]%elem_of_select). by rewrite (same_id_same_row claims r s).
  - intros Hp. exists r. by rewrite elem_of_select.
Qed.

Lemma elem_of_restored_pairs rows node_ kind_ :
  (node_, kind_) ∈ restored_pairs rows <->
  exists r, r ∈ rows /\ r_node r = node_ /\ r_kind r = kind_ /\ kind_ <> "port".
Proof.
  unfold restored_pairs. rewrite (merge_sort_Permutation pair_le), elem_of_remove_dups, list_elem_of_fmap.
  split.
  - intros (r & [= -> ->] & Hr). rewrite list_elem_of_In, List.filter_In, <- list_elem_of_In in Hr.
    destruct Hr as [Hr Hk]. bools. eauto.
  - intros (r & Hr & <- & <- & Hk). exists r. split; [done|].
    rewrite list_elem_of_In, List.filter_In, <- list_elem_of_In. by rewrite bool_decide_eq_false_2.
Qed.

Section restore_facts.
Context (img : string -> string -> list string -> result RuntimeImageIdentity) (rule : admission_rule)
  (floor max_age : Z) (db : Database).

Lemma restore_Ok a now node_ids claims out :
  restore_released_profile_claims img rule floor max_age db a now node_ids claims = Ok out ->
  mem (app_state a) FleetProfileStates.LIVE = true -> distinct_ids claims ->
  out = ((fun r => if restorable a node_ids r then restored r else r) <$> claims) /\
  check_admitted img rule floor max_age db a now out (restored_pairs (select_claims (restorable a node_ids) claims)) = Ok tt.
Proof.
  intros H Hl Hd. unfold restore_released_profile_claims in H. rewrite Hl in H. simpl in H. unbind. subst out.
  split; [|by destruct v0]. apply restore_rows_map in Hv as ->. apply list_fmap_ext.
  intros k r Hr%list_elem_of_lookup_2. by rewrite restored_rows.
Qed.

(** The load's claims are as it reserved them: disk active, the rest promised, under its plan. *)
Definition reserved_as_accepted (a : ApplicationRow) (r : ResourceReservation) : Prop :=
  r_state r = (if bool_decide (r_kind r = "disk") then ReservationState.ACTIVE else ReservationState.PROMISED) /\
  r_plan_digest r = app_plan_digest a /\ r_released_at r = None.

Lemma released_ids a now claims :
  r_id <$> release_unassigned_profile_claims a now claims = r_id <$> claims.
Proof.
  unfold release_unassigned_profile_claims. case_match; [done|]. unfold release_where.
  rewrite <- list_fmap_compose. apply list_fmap_ext. intros k r _. unfold compose. by case_match.
Qed.

(** A claim the load holds comes back from its release as it was. *)
Lemma released_and_restored a a' now r :
  app_id a' = app_id a -> app_plan_digest a' = app_plan_digest a ->
  of_load (app_id a) r = true -> reserved_as_accepted a r ->
  restorable a' None (release now r) = true /\ restored (release now r) = r.
Proof.
  intros Hid Hpd Ho (Hs & Hp & Hrel). split.
  - unfold restorable, of_load in *. simpl. bools. rewrite Hid, Hpd.
    repeat (rewrite bool_decide_eq_true_2 by done). done.
  - unfold restored, release. destruct r; simpl in *. by subst.
Qed.

Lemma held_not_restorable a r : holds r = true -> restorable a None r = false.
Proof.
  intros H. apply not_true_is_false. unfold restorable. intros E. bools. unfold holds in H.
  by destruct (r_state r).
Qed.

(** C30.  Release and restore are one pair.  A load that ends or backs off releases its unassigned
    claims, which are as they were accepted; when the same load, live again under the same plan,
    is given claims back, the table is what it was, but for the claims of that plan the load had
    released even earlier: those come back with them.  Without such claims the table is exactly
    what it was. *)
Theorem restore_undoes_release a a' later now claims out :
  app_id a' = app_id a -> app_plan_digest a' = app_plan_digest a ->
  mem (app_state a') FleetProfileStates.LIVE = true -> distinct_ids claims ->
  (forall r, r ∈ claims -> of_load (app_id a) r = true -> holds r = true -> reserved_as_accepted a r) ->
  restore_released_profile_claims img rule floor max_age db a' later None
    (release_unassigned_profile_claims a now claims) = Ok out ->
  out = ((fun r => if restorable a' None r then restored r else r) <$> claims) /\
  ((forall r, r ∈ claims -> restorable a' None r = false) -> out = claims).
Proof.
  intros Hid Hpd Hl Hd Hacc H. apply restore_Ok in H as [-> _]; [|done|].
  2:{ unfold distinct_ids. by rewrite released_ids. }
  assert (forall f : ResourceReservation -> ResourceReservation,
    (forall r, r ∈ claims -> f r = r) -> f <$> claims = claims) as Hsame.
  { intros f Hf. rewrite <- (list_fmap_id claims) at 2. apply list_fmap_ext.
    intros k r Hr%list_elem_of_lookup_2. by apply Hf. }
  match goal with |- ?l = ?l' /\ _ => assert (l = l') as Heq end.
  - unfold release_unassigned_profile_claims. case_match; [done|].
    unfold release_where. rewrite <- list_fmap_compose. apply list_fmap_ext.
    intros k r Hr%list_elem_of_lookup_2. unfold compose.
    destruct (of_load (app_id a) r && holds r) eqn:E; [|done]. bools.
    destruct (released_and_restored a a' now r) as [-> ->]; [done..|by apply Hacc|].
    by rewrite held_not_restorable.
  - split; [done|]. intros Hno. rewrite Heq. apply Hsame. intros r Hr. by rewrite Hno.
Qed.

Lemma check_admitted_all a now out pairs :
  check_admitted img rule floor max_age db a now out pairs = Ok tt ->
  forall p, p ∈ pairs -> admitted img rule floor max_age db a now out p = Ok true.
Proof.
  induction pairs as [|q pairs IH]; simpl; intros H p Hp; [by inversion Hp|].
  apply bind_Ok in H as (ok & Hq & H). destruct ok; [|done].
  apply elem_of_cons in Hp as [->|Hp]; [done|by apply IH].
Qed.

(** A restore that returns for a live load changed exactly its own released claims of the
    accepted plan, and every Spark on which memory or disk returned admitted it against the
    table with the claims restored; a shortfall or a port promised meanwhile raises instead. *)
Theorem restore_returns_only_admitted a now node_ids claims out :
  restore_released_profile_claims img rule floor max_age db a now node_ids claims = Ok out ->
  mem (app_state a) FleetProfileStates.LIVE = true -> table_ok claims ->
  table_ok out /\ out = ((fun r => if restorable a node_ids r then restored r else r) <$> claims) /\
  forall r, r ∈ claims -> restorable a node_ids r = true -> r_kind r <> "port" ->
    admitted img rule floor max_age db a now out (r_node r, r_kind r) = Ok true.
Proof.
  intros H Hl Ht. pose proof (restore_Ok _ _ _ _ _ H Hl (ids_ok _ Ht)) as [Hout Hc]. split_and!; [|done|].
  - unfold restore_released_profile_claims in H. rewrite Hl in H. simpl in H. unbind. subst out.
    eapply restore_rows_table; [exact Ht| |exact Hv]. apply restorable_restores_from.
  - intros r Hr Hp Hk. eapply check_admitted_all; [exact Hc|]. apply elem_of_restored_pairs.
    exists r. by rewrite elem_of_select.
Qed.
End restore_facts.

(** ** Mixed memory kinds on one Spark *)

(** The same sample, with other figures for GPU memory. *)
Definition gpu_figures (total free : option Z) (s : NodeInventorySnapshot) : NodeInventorySnapshot := {|
  snap_node := snap_node s; snap_observed_at := snap_observed_at s; snap_received_at := snap_received_at s;
  snap_evidence_digest := snap_evidence_digest s; snap_disk_free_bytes := snap_disk_free_bytes s;
  snap_unused_model_bytes := snap_unused_model_bytes s; snap_memory_pool := snap_memory_pool s;
  snap_host_total_bytes := snap_host_total_bytes s; snap_host_free_bytes := snap_host_free_bytes s;
  snap_gpu_total_bytes := total; snap_gpu_free_bytes := free |}.

Definition with_gpu (total free : option Z) (db : Database) : Database := {|
  applications := applications db; nodes := nodes db; jobs := jobs db; runs := runs db;
  run_nodes := run_nodes db; installations := installations db;
  installation_nodes := installation_nodes db; builds := builds db; orders := orders db;
  order_attempts := order_attempts db; cache_operations := cache_operations db;
  sync_runs := sync_runs db; rotations := rotations db; enrollments := enrollments db;
  inventory := gpu_figures total free <$> inventory db |}.

Lemma latest_snapshot_gpu total free l :
  latest_snapshot (gpu_figures total free <$> l) = gpu_figures total free <$> latest_snapshot l.
Proof.
  induction l as [|s l IH]; [done|]. rewrite fmap_cons. cbn [latest_snapshot]. rewrite IH.
  destruct (latest_snapshot l); [|done]. cbn [fmap option_fmap option_map gpu_figures snap_observed_at]. by destruct (_ <=? _).
Qed.

Lemma filter_gpu total free node_ l :
  List.filter (fun s => bool_decide (snap_node s = node_)) (gpu_figures total free <$> l)
  = gpu_figures total free <$> List.filter (fun s => bool_decide (snap_node s = node_)) l.
Proof.
  induction l as [|s l IH]; [done|]. rewrite fmap_cons. cbn [List.filter gpu_figures snap_node].
  rewrite IH. by destruct (bool_decide _).
Qed.

Lemma read_gpu max_age total free db now node_ :
  read max_age (with_gpu total free db) now node_
  = let '(s, evidence) := read max_age db now node_ in (gpu_figures total free <$> s, evidence).
Proof.
  unfold read, _latest_inventory. cbn [with_gpu inventory]. rewrite filter_gpu, latest_snapshot_gpu.
  by destruct (latest_snapshot _).
Qed.

(** The ledgers do not read the sample. *)
Lemma memory_reservations_gpu img total free db :
  memory_reservations img (with_gpu total free db) = memory_reservations img db.
Proof. reflexivity. Qed.

Lemma outstanding_disk_charges_gpu total free db :
  outstanding_disk_charges (with_gpu total free db) = outstanding_disk_charges db.
Proof. reflexivity. Qed.

Section gpu.
Context (img : string -> string -> list string -> result RuntimeImageIdentity) (rule : admission_rule)
  (floor max_age : Z) (db : Database) (a : ApplicationRow) (now : datetime) (total free : option Z).

(** The load's first memory claim on the Spark, in the order of the ids, is on host memory, and
    the Spark's sample does not report one shared pool. *)
Definition first_claim_on_host (claims : list ResourceReservation) (node_ : string) : Prop :=
  (exists first rest, own_memory a claims node_ = first :: rest /\ r_kind first = "host-memory") /\
  (fst (read max_age db now node_) ≫= snap_memory_pool) <> Some shared.

Lemma disk_admitted_gpu claims node_ :
  _disk_admitted max_age (with_gpu total free db) now claims node_ = _disk_admitted max_age db now claims node_.
Proof.
  unfold _disk_admitted. rewrite read_gpu, outstanding_disk_charges_gpu.
  by destruct (read max_age db now node_) as [[s|] e].
Qed.

Lemma memory_admitted_gpu claims node_ :
  first_claim_on_host claims node_ ->
  _memory_admitted img rule floor max_age (with_gpu total free db) a now claims node_
  = _memory_admitted img rule floor max_age db a now claims node_.
Proof.
  intros [(first & rest & Hown & Hk) Hpool]. unfold _memory_admitted.
  rewrite read_gpu, memory_reservations_gpu, Hown.
  assert (kind_of_claim first = Some host) as -> by (unfold kind_of_claim; rewrite Hk; reflexivity).
  destruct (read max_age db now node_) as [[s|] e]; [|done]. simpl in Hpool.
  cbn -[memory_reservations plan_capacity memory_capacity_snapshot].
  destruct (snap_memory_pool s) as [[]|]; done.
Qed.

Lemma check_admitted_gpu claims pairs :
  (forall node_ kind_, (node_, kind_) ∈ pairs -> kind_ <> "disk" -> first_claim_on_host claims node_) ->
  check_admitted img rule floor max_age (with_gpu total free db) a now claims pairs
  = check_admitted img rule floor max_age db a now claims pairs.
Proof.
  induction pairs as [|[node_ kind_] pairs IH]; intros H; [done|]. cbn [check_admitted].
  rewrite IH by (intros n k Hnk; apply H; by right).
  unfold admitted. simpl. case_bool_decide; [by rewrite disk_admitted_gpu|].
  rewrite memory_admitted_gpu; [done|]. by apply (H node_ kind_); [left|].
Qed.

(** What is neither disk nor a port is memory. *)
Lemma ok_memory_kind claims r :
  table_ok claims -> r ∈ claims -> r_kind r <> "port" -> r_kind r <> "disk" -> memory_claim_kind r = true.
Proof.
  intros Ht Hr Hp Hdisk. pose proof (rows_ok _ Ht) as Hok. rewrite Forall_forall in Hok.
  pose proof (ok_kind _ (Hok r Hr)) as Hk. unfold memory_claim_kind. apply mem_true.
  unfold MEMORY_RESERVATION_KINDS. set_unfold in Hk. set_unfold. naive_solver.
Qed.

(** C40.  The admission of a restore looks at the pool of the load's first memory claim on a Spark
    only.  Whatever the load takes back, GPU memory included: when on every Spark where memory
    returns the first of its claims is on host memory, and the Spark's pools are not one, the
    restore answers the same for every figure of GPU memory the Sparks report, so no claim on
    GPU memory is ever compared with it. *)
Theorem restore_checks_first_kind_only node_ids claims :
  table_ok claims ->
  (forall r, r ∈ claims -> restorable a node_ids r = true -> memory_claim_kind r = true ->
     first_claim_on_host ((fun c => if restorable a node_ids c then restored c else c) <$> claims) (r_node r)) ->
  restore_released_profile_claims img rule floor max_age (with_gpu total free db) a now node_ids claims
  = restore_released_profile_claims img rule floor max_age db a now node_ids claims.
Proof.
  intros Ht Hhost. unfold restore_released_profile_claims. case_match; [done|].
  destruct (restore_rows _ claims) as [out|] eqn:E; [|done]. apply restore_rows_map in E as ->.
  cbn -[restored_pairs]. rewrite check_admitted_gpu; [done|].
  intros node_ kind_ (r & [Hr Hp]%elem_of_select & <- & <- & Hport)%elem_of_restored_pairs Hdisk.
  rewrite (list_fmap_ext _ (fun c => if restorable a node_ids c then restored c else c) claims).
  - by apply Hhost, (ok_memory_kind claims).
  - intros k c Hc%list_elem_of_lookup_2. simpl. by rewrite restored_rows by (done || apply (ids_ok _ Ht)).
Qed.
End gpu.

Definition mixed_load : ApplicationRow := {|
  app_id := "11111111-1111-4111-8111-111111111111"; app_state := "running"; app_updated_at := Aware 0;
  app_created_at := Aware 0; app_plan_digest := "plan"; app_intent := Some (Some 1); app_plan := None |}.

(** A Spark with separate pools: 100 bytes of host memory free, 20 bytes of GPU memory, none free. *)
Definition mixed_db : Database := {|
  applications := [mixed_load]; nodes := []; jobs := []; runs := []; run_nodes := []; installations := [];
  installation_nodes := []; builds := []; orders := []; order_attempts := fun _ => [];
  cache_operations := []; sync_runs := []; rotations := []; enrollments := [];
  inventory := [{| snap_node := "node-1"; snap_observed_at := Aware 0; snap_received_at := Aware 0;
                   snap_evidence_digest := None; snap_disk_free_bytes := None;
                   snap_unused_model_bytes := None; snap_memory_pool := Some separate;
                   snap_host_total_bytes := Some 100; snap_host_free_bytes := Some 100;
                   snap_gpu_total_bytes := Some 20; snap_gpu_free_bytes := Some 0 |}] |}.

Definition released_claim (id_ kind_ : string) (amount : Z) : ResourceReservation := {|
  r_id := id_; r_node := "node-1"; r_kind := kind_; r_key := "asg"; r_amount := amount;
  r_owner_kind := "fleet-profile"; r_owner_id := app_id mixed_load; r_state := ReservationState.RELEASED;
  r_plan_digest := "plan"; r_created_at := Aware 0; r_released_at := Some (Aware 1) |}.

Definition no_images (_ _ : string) (_ : list string) : result RuntimeImageIdentity :=
  Raise (ValueError "no image").

(** A load whose claims on one Spark with separate pools are of both kinds takes back more GPU
    memory than the Spark has, because its first claim is on host memory and the sum fits there;
    the same claim alone is refused. *)
Example mixed_kinds_taken_back :
  let claims := [released_claim "a" "host-memory" 10; released_claim "b" "gpu-memory" 50] in
  restore_released_profile_claims no_images headroom_rule 1 60 mixed_db mixed_load (Aware 0) None claims
    = Ok (restored <$> claims) /\
  restore_released_profile_claims no_images headroom_rule 1 60 mixed_db mixed_load (Aware 0) None
    [released_claim "b" "gpu-memory" 50] = claim_capacity_short "node-1" "gpu-memory".
Proof. split; vm_compute; reflexivity. Qed.

(** Ten bytes of host memory and fifty of GPU memory return to a Spark with 20 bytes of GPU memory,
    none of them free, as they do to one that reports none at all. *)
Lemma restore_checks_first_kind_only_witness :
  let claims := [released_claim "a" "host-memory" 10; released_claim "b" "gpu-memory" 50] in
  restore_released_profile_claims no_images headroom_rule 1 60 mixed_db mixed_load (Aware 0) None claims
    = Ok (restored <$> claims) /\
  restore_released_profile_claims no_images headroom_rule 1 60 (with_gpu (Some 0) (Some 0) mixed_db) mixed_load
    (Aware 0) None claims = Ok (restored <$> claims).
Proof.
  intros claims. split; [vm_compute; reflexivity|].
  rewrite (restore_checks_first_kind_only no_images headroom_rule 1 60 mixed_db mixed_load (Aware 0)
             (Some 0) (Some 0) None claims).
  - vm_compute. reflexivity.
  - split; [apply (bool_decide_unpack _); vm_compute; exact I| |].
    + repeat constructor; simpl; try lia; try discriminate; apply (bool_decide_unpack _); vm_compute; exact I.
    + apply no_port_unique. repeat constructor; discriminate.
  - intros r Hr _ _. unfold claims in Hr. set_unfold in Hr.
    assert (r_node r = "node-1") as -> by (destruct Hr as [->|[->|[]]]; reflexivity).
    split; [|vm_compute; discriminate].
    exists (restored (released_claim "a" "host-memory" 10)), [restored (released_claim "b" "gpu-memory" 50)].
    split; vm_compute; reflexivity.
Defined.
