(* ===== verification/CapacityHistory.v ===== *)
(** * Histories of the claim table

    Every way the modelled code changes the claim table is a step; along every history of steps
    the table keeps the rules of the database, and the steps of a load never touch a claim that a
    run, an installation or a build owns.  The primary key is the database's: a step whose new
    rows would repeat an identifier does not commit. *)
From stdpp Require Import sorting relations.
From S2P Require Import Prelude Vocabulary StateMachines ReasonCodes Uuid PersistedWaits Swap.
From S2P Require Import Blockers SparkAttempts ResourceTypes Demand MemorySnapshot Capacity Rows.
From S2P Require Import OwnerLiveness OwnerLivenessFacts ProfileCapacity MemoryLedger DiskLedger.
From S2P Require Import ProfileCapacityFacts ClaimRestore ClaimRestoreFacts.
From S2P Require Import CapacityFacts MemoryLedgerFacts.

(** Every stored review holds byte counts. *)
Definition reviews_ok (db : Database) : Prop :=
  forall a review, a ∈ applications db -> app_plan a = Some review -> review_ok review.

Section steps.
Context (img : string -> string -> list string -> result RuntimeImageIdentity) (rule : admission_rule)
  (floor max_age : Z).

(** What a load and its children do. *)
Inductive load_step (db : Database) : list ResourceReservation -> list ResourceReservation -> Prop :=
| StepReserveDisk a review ids now claims claims' :
    review_ok review -> reserve_profile_disk a review ids now claims = Ok claims' ->
    distinct_ids claims' -> load_step db claims claims'
| StepReserveMemory a review ids now claims claims' :
    review_ok review -> reserve_profile_memory a review ids now claims = Ok claims' ->
    distinct_ids claims' -> load_step db claims claims'
| StepReservePorts a review ids now claims claims' :
    no_own_port (app_id a) claims -> reserve_profile_ports db a review ids now claims = Ok claims' ->
    distinct_ids claims' -> load_step db claims claims'
| StepInstall app rev nodes_ ordinal now claims claims' taken :
    inherited_profile_disk db app rev nodes_ ordinal now claims = Ok (claims', taken) ->
    load_step db claims claims'
| StepRun app rev alias node_ports nm ordinal new_id run digest now plan claims c1 c2 ip im :
    inherited_profile_ports db app rev alias node_ports ordinal claims = Ok (c1, ip) ->
    inherited_profile_memory db app rev alias nm ordinal c1 = Ok (c2, im) ->
    Forall (fun n => 0 <= rn_memory_bytes n) plan ->
    distinct_ids (take_run_claims new_id run digest now im ip plan c2) ->
    load_step db claims (take_run_claims new_id run digest now im ip plan c2)
| StepReleaseReplaced a nodes_ now claims :
    load_step db claims (release_replaced_profile_claims a nodes_ now claims)
| StepReleaseUnassigned a now claims :
    load_step db claims (release_unassigned_profile_claims a now claims)
| StepRestore a now nodes_ claims claims' :
    restore_released_profile_claims img rule floor max_age db a now nodes_ claims = Ok claims' ->
    load_step db claims claims'.

(** The sweeps of the reconcilers. *)
Inductive sweep_step (db : Database) : list ResourceReservation -> list ResourceReservation -> Prop :=
| StepSweep seen held_ locked now claims :
    sweep_step db claims (fst (release_dead_owner_reservations seen held_ locked now claims))
| StepCovered locked now claims :
    sweep_step db claims (fst (release_covered_installation_claims db locked now claims)).

(** ** What an inherit leaves *)

(** Every row stays, with its owner's kind, and the rows of other owners stay as they are. *)
Record load_only (claims claims' : list ResourceReservation) : Prop := {
  owners_stay : forall c, c ∈ claims ->
    exists c', c' ∈ claims' /\ r_id c' = r_id c /\ r_owner_kind c' = r_owner_kind c;
  children_stay : forall c, c ∈ claims -> r_owner_kind c <> "fleet-profile" -> c ∈ claims';
}.

Lemma load_only_refl claims : load_only claims claims.
Proof. split; eauto. Qed.

Lemma load_only_trans c1 c2 c3 : load_only c1 c2 -> load_only c2 c3 -> load_only c1 c3.
Proof.
  intros [Ho Hc] [Ho' Hc']. split; [|auto]. intros c (c' & Hc1 & Hid & Hk)%Ho.
  destruct (Ho' c' Hc1) as (c'' & ? & ? & ?). exists c''. split_and!; congruence.
Qed.

Lemma load_only_app claims rows : load_only claims (claims ++ rows).
Proof. split; [intros c Hc; exists c|]; set_solver. Qed.

Lemma load_only_fmap g claims :
  (forall c, r_id (g c) = r_id c /\ r_owner_kind (g c) = r_owner_kind c) ->
  (forall c, c ∈ claims -> r_owner_kind c <> "fleet-profile" -> g c = c) ->
  load_only claims (g <$> claims).
Proof.
  intros Hg Hc. split.
  - intros c Hin. exists (g c). split; [apply list_elem_of_fmap; eauto|apply Hg].
  - intros c Hin Hk. apply list_elem_of_fmap. exists c. by rewrite (Hc c Hin Hk).
Qed.

Lemma load_only_release p now claims :
  (forall c, c ∈ claims -> p c = true -> r_owner_kind c = "fleet-profile") ->
  load_only claims (release_where p now claims).
Proof.
  intros Hp. apply load_only_fmap; [by intros c; destruct (p c)|].
  intros c Hin Hk. destruct (p c) eqn:E; [|done]. by rewrite (Hp c Hin E) in Hk.
Qed.

Lemma of_load_kind app r : of_load app r = true -> r_owner_kind r = "fleet-profile".
Proof. unfold of_load. intros H. by bools. Qed.

Lemma memory_claim_load_only claims a asg q repair claims' found :
  distinct_ids claims -> memory_claim claims a asg q repair = Ok (claims', found) ->
  load_only claims claims' /\ distinct_ids claims'.
Proof.
  intros Hd H. unfold memory_claim in H. apply bind_Ok in H as (id_ & Hid & H).
  destruct repair; simpl in H; [|injection H as <- <-; split; [apply load_only_refl|done]].
  destruct (q_memory_kind q), (q_memory_pool q), (q_memory_required_bytes q); try done.
  destruct (claim_row claims id_) as [r|] eqn:Er.
  - destruct (of_load (app_id a) r) eqn:Eo; injection H as <- <-; [|split; [apply load_only_refl|done]].
    split; [|unfold distinct_ids; by rewrite write_claim_ids]. apply claim_row_Some in Er as [Er Hrid].
    apply load_only_fmap; [by intros c; case_bool_decide|]. intros c Hin Hk. case_bool_decide as E; [|done].
    rewrite (same_id_same_row claims c r Hd Hin Er) in Hk by congruence. by apply of_load_kind in Eo.
  - apply bind_Ok in H as (p & Hp & [= <- <-]). split; [apply load_only_app|].
    apply distinct_ids_snoc; [done|]. rewrite (memory_promise_id _ _ _ _ _ _ _ _ Hid Hp). by apply claim_row_None.
Qed.

(** A row still of the load's kind stands behind every inherited claim. *)
Definition backed {K} `{Countable K} (taken : gmap K ResourceReservation) (claims : list ResourceReservation)
  : Prop :=
  forall k x, taken !! k = Some x ->
    exists c, c ∈ claims /\ r_id c = r_id x /\ r_owner_kind c = "fleet-profile".

Lemma backed_mono {K} `{Countable K} (taken : gmap K ResourceReservation) claims claims' :
  load_only claims claims' -> backed taken claims -> backed taken claims'.
Proof.
  intros [Ho _] Hb k x Hx. destruct (Hb k x Hx) as (c & Hc & Hid & Hk).
  destruct (Ho c Hc) as (c' & ? & ? & ?). exists c'. split_and!; congruence.
Qed.

Lemma validated_is_load r a asg q : _validate_memory_claim r a asg q = Ok tt -> r_owner_kind r = "fleet-profile".
Proof.
  unfold _validate_memory_claim. destruct (q_memory_kind q), (q_memory_pool q), (q_memory_required_bytes q); try done.
  intros (id_ & _ & H)%bind_Ok. destruct (is_promise _ _ _ _ _ _ _) eqn:E; [|done].
  unfold is_promise, of_load in E. by bools.
Qed.

Lemma memory_claim_found claims a asg q claims' r :
  memory_claim claims a asg q true = Ok (claims', Some r) -> r ∈ claims'.
Proof.
  intros H. unfold memory_claim in H. apply bind_Ok in H as (id_ & Hid & H). simpl in H.
  destruct (q_memory_kind q), (q_memory_pool q), (q_memory_required_bytes q); try done.
  destruct (claim_row claims id_) as [s|] eqn:Er.
  - apply claim_row_Some in Er as [Er Hsid]. destruct (of_load _ s); injection H as <- <-; [|done].
    apply list_elem_of_fmap. exists s. split; [|done]. by rewrite bool_decide_eq_true_2.
  - apply bind_Ok in H as (p & Hp & [= <- <-]). set_solver.
Qed.

Lemma inherit_memory_load_only a asg nm required : forall claims taken claims' taken',
  distinct_ids claims -> backed taken claims ->
  inherit_memory a asg nm required claims taken = Ok (claims', taken') ->
  load_only claims claims' /\ distinct_ids claims' /\ backed taken' claims'.
Proof.
  induction required as [|q rest IH]; intros claims taken claims' taken' Hd Hb H; simpl in H.
  { injection H as <- <-. split_and!; [apply load_only_refl|done|done]. }
  destruct (nm !! q_node_id q); [|done]. destruct (negb _); [done|].
  apply bind_Ok in H as ([c1 found] & Hm & H). simpl in H. destruct found as [r|]; [|done].
  apply bind_Ok in H as ([] & Hv & H). destruct (memory_claim_load_only _ _ _ _ _ _ _ Hd Hm) as [Hl Hd1].
  apply IH in H as (Hl' & Hd' & Hb'); [|done|].
  - split_and!; [by eapply load_only_trans|done|done].
  - intros k x. rewrite lookup_insert_Some. intros [[_ <-]|[_ Hx]].
    + exists r. split_and!; [by eapply memory_claim_found|done|by eapply validated_is_load].
    + by apply (backed_mono taken claims c1 Hl Hb k).
Qed.

Lemma inherited_ports_load_only db app rev alias np ordinal claims claims' ip :
  distinct_ids claims -> inherited_profile_ports db app rev alias np ordinal claims = Ok (claims', ip) ->
  load_only claims claims' /\ distinct_ids claims' /\ backed ip claims' /\
  (exists p now, claims' = release_where p now claims).
Proof.
  intros Hd H. unfold inherited_profile_ports in H. apply bind_Ok in H as ([[a g] required] & _ & H).
  destruct (negb _); [done|]. destruct (negb _); [done|]. apply bind_Ok in H as (ids & _ & H).
  unfold inherit_ports in H. destruct (existsb _ claims) eqn:Ex; [done|]. injection H as <- <-.
  assert (Hown : forall r p, r ∈ claims -> lookup_id ids (r_id r) = Some p -> r_owner_kind r = "fleet-profile").
  { intros r p Hr Hp. destruct (of_load app r) eqn:E; [by eapply of_load_kind|]. exfalso.
    rewrite <- Bool.not_true_iff_false in Ex. apply Ex, existsb_exists. exists r.
    rewrite <- list_elem_of_In, Hp, E. by rewrite bool_decide_eq_true_2. }
  assert (Hl : load_only claims (release_where (drifted_port a ids) (app_updated_at a) claims)).
  { apply load_only_release. intros c Hc Hp. unfold drifted_port in Hp.
    destruct (lookup_id ids (r_id c)) eqn:E; [eauto|done]. }
  split_and!; [done| | |eauto].
  - unfold distinct_ids, release_where. rewrite <- list_fmap_compose. erewrite list_fmap_ext; [exact Hd|].
    intros k r _. unfold compose. by case_match.
  - intros k x Hx%elem_of_list_to_map_2. apply list_elem_of_omap in Hx as (r & Hr & Hp).
    destruct (lookup_id ids (r_id r)) as [p|] eqn:E; [|done]. simpl in Hp. destruct (is_port_promise _ _ _); [|done].
    injection Hp as _ <-. destruct (owners_stay _ _ Hl r Hr) as (c & Hc & Hid & Hk).
    exists c. split_and!; [done|done|]. rewrite Hk. eauto.
Qed.

(** ** The handoff touches inherited rows only *)
Section handoff_only.
Context (new_id : string -> string -> string) (run digest : string) (now : datetime)
  (im : gmap string ResourceReservation) (ip : gmap (string * Z) ResourceReservation).

(** The rows behind inherited claims are not the child's row [c]. *)
Definition not_inherited (c : ResourceReservation) : Prop :=
  (forall n x, im !! n = Some x -> r_id x <> r_id c) /\ (forall p x, ip !! p = Some x -> r_id x <> r_id c).

Lemma write_other id_ f claims c : c ∈ claims -> r_id c <> id_ -> c ∈ write_claim id_ f claims.
Proof. intros Hc Hne. apply list_elem_of_fmap. exists c. by rewrite bool_decide_eq_false_2. Qed.

Lemma fold_keeps {A} (f : list ResourceReservation -> A -> list ResourceReservation) l (c : ResourceReservation) :
  (forall claims x, c ∈ claims -> c ∈ f claims x) -> forall claims, c ∈ claims -> c ∈ fold_left f l claims.
Proof. intros Hf. induction l as [|x l IH]; intros claims Hc; simpl; auto. Qed.

Lemma take_run_claims_keeps plan claims c :
  not_inherited c -> c ∈ claims -> c ∈ take_run_claims new_id run digest now im ip plan claims.
Proof.
  intros [Hm Hp]. apply fold_keeps. intros claims1 n Hc. unfold take_node. apply fold_keeps.
  - intros claims2 port Hc2. unfold take_port. destruct (ip !! _) as [r|] eqn:E; [|set_solver].
    apply write_other; [done|]. intros He. by eapply Hp.
  - unfold take_memory. destruct (im !! _) as [r|] eqn:E; [|set_solver].
    apply write_other; [done|]. intros He. by eapply Hm.
Qed.
End handoff_only.

Lemma backed_not_child {K} `{Countable K} (taken : gmap K ResourceReservation) claims c :
  distinct_ids claims -> backed taken claims -> c ∈ claims -> r_owner_kind c <> "fleet-profile" ->
  forall k x, taken !! k = Some x -> r_id x <> r_id c.
Proof.
  intros Hd Hb Hc Hk k x Hx He. destruct (Hb k x Hx) as (d & Hin & Hid & Hdk).
  rewrite (same_id_same_row claims d c) in Hdk by congruence. congruence.
Qed.

Lemma run_step_children db app rev alias np nm ordinal new_id run digest now plan claims c1 c2 ip im c :
  distinct_ids claims ->
  inherited_profile_ports db app rev alias np ordinal claims = Ok (c1, ip) ->
  inherited_profile_memory db app rev alias nm ordinal c1 = Ok (c2, im) ->
  c ∈ claims -> r_owner_kind c <> "fleet-profile" ->
  c ∈ take_run_claims new_id run digest now im ip plan c2.
Proof.
  intros Hd Hp Hm Hc Hk. destruct (inherited_ports_load_only _ _ _ _ _ _ _ _ _ Hd Hp) as (Hl1 & Hd1 & Hb1 & _).
  unfold inherited_profile_memory in Hm. apply bind_Ok in Hm as ([[a g] required] & _ & Hm).
  destruct (negb _); [done|].
  destruct (inherit_memory_load_only a (asg_id g) nm required c1 ∅ c2 im Hd1) as (Hl2 & Hd2 & Hb2); [|done|].
  { intros k x Hx. by rewrite lookup_empty in Hx. }
  pose proof (children_stay _ _ Hl2 c (children_stay _ _ Hl1 c Hc Hk) Hk) as Hc2.
  apply take_run_claims_keeps; [|done]. split.
  - by eapply backed_not_child.
  - eapply backed_not_child; [exact Hd2| |exact Hc2|exact Hk]. by eapply backed_mono.
Qed.

(** ** Histories *)
Lemma assignment_requirements db app rev nodes_ ordinal a g required :
  reviews_ok db -> _profile_assignment db app rev nodes_ ordinal = Ok (a, g, required) ->
  Forall requirement_ok required.
Proof.
  intros Hr H. unfold _profile_assignment in H. destruct (get app_id (applications db) app) as [a0|] eqn:Ea; [|done].
  destruct (negb _); [done|]. apply bind_Ok in H as (progress & _ & H). apply bind_Ok in H as (review & Hrev & H).
  destruct ordinal as [o|]; [|done]. destruct (negb _); [done|]. destruct (negb _); [done|].
  destruct (List.filter _ _) as [|g0 [|]]; [done| |done]. destruct (same_set _ _); [|done]. injection H as <- <- <-.
  unfold capacity_document in Hrev. destruct (app_plan a0) as [rv|] eqn:Ep; [|done]. injection Hrev as ->.
  apply List.find_some in Ea as [Ea%list_elem_of_In _]. specialize (Hr a0 review Ea Ep).
  unfold requirements_of. apply Forall_forall. intros q Hq. apply list_elem_of_In, in_concat in Hq as (l & Hl & Hq).
  apply list_elem_of_In, list_elem_of_fmap in Hl as (d & -> & Hd). apply list_elem_of_In, List.filter_In in Hd as [Hd _].
  specialize (Hr d). rewrite Forall_forall in Hr. apply Hr; by rewrite list_elem_of_In.
Qed.

Lemma load_step_table db claims claims' :
  reviews_ok db -> load_step db claims claims' -> table_ok claims -> table_ok claims'.
Proof.
  intros Hdb H Ht. destruct H as [a rv ids now claims claims' Hr H Hd|a rv ids now claims claims' Hr H Hd
    |a rv ids now claims claims' Hn H Hd|app rev nodes_ ordinal now claims claims' taken H
    |app rev alias np nm ordinal new_id run digest now plan claims c1 c2 ip im Hp Hm Hpl Hd
    |a nodes_ now claims|a now claims|a now nodes_ claims claims' H].
  - by eapply reserve_disk_table.
  - by eapply reserve_memory_table.
  - by eapply reserve_ports_table.
  - unfold inherited_profile_disk in H. apply bind_Ok in H as ([[[a asg] rq] found] & _ & [= <- _]).
    by apply table_ok_release.
  - apply take_run_claims_table; [done| |done].
    apply inherited_ports_load_only in Hp as (_ & _ & _ & p & t & ->); [|apply ids_ok, Ht].
    unfold inherited_profile_memory in Hm. apply bind_Ok in Hm as ([[a g] required] & Ha & Hm).
    destruct (negb _); [done|]. eapply inherit_memory_table; [|by apply table_ok_release|exact Hm].
    by eapply assignment_requirements.
  - by apply table_ok_release.
  - unfold release_unassigned_profile_claims. case_match; [done|by apply table_ok_release].
  - unfold restore_released_profile_claims in H. destruct (negb _); [by injection H as <-|]. unbind. subst.
    eapply restore_rows_table; [exact Ht|apply restorable_restores_from|exact Hv].
Qed.

Lemma sweep_step_table db claims claims' : sweep_step db claims claims' -> table_ok claims -> table_ok claims'.
Proof.
  intros H Ht. destruct H as [seen held_ locked now claims|locked now claims].
  - rewrite sweep_swept. by apply (table_ok_release (ends seen held_ locked now) now).
  - by apply table_ok_release.
Qed.

(** A step some transaction committed, each against the database as it was then. *)
Definition committed (claims claims' : list ResourceReservation) : Prop :=
  exists db, reviews_ok db /\ (load_step db claims claims' \/ sweep_step db claims claims').

Definition load_committed (claims claims' : list ResourceReservation) : Prop :=
  exists db, reviews_ok db /\ load_step db claims claims'.

(** C28.  Along every history of reservations, handoffs, releases, restores and sweeps the claim table
    keeps the rules of the database without relying on its checks: byte counts are not negative,
    only a load holds a promise and never of disk, and no port of a Spark is promised twice. *)
Theorem claim_table_history claims claims' :
  table_ok claims -> rtc committed claims claims' -> table_ok claims'.
Proof.
  intros Ht Hh. induction Hh as [|x y z (db & Hdb & [H|H]) _ IH]; [done|apply IH..].
  - by eapply load_step_table.
  - by eapply sweep_step_table.
Qed.

Lemma load_step_children db claims claims' c :
  load_step db claims claims' -> table_ok claims -> c ∈ claims -> r_owner_kind c <> "fleet-profile" -> c ∈ claims'.
Proof.
  intros H Ht Hc Hk. destruct H as [a rv ids now claims claims' Hr H Hd|a rv ids now claims claims' Hr H Hd
    |a rv ids now claims claims' Hn H Hd|app rev nodes_ ordinal now claims claims' taken H
    |app rev alias np nm ordinal new_id run digest now plan claims c1 c2 ip im Hp Hm Hpl Hd
    |a nodes_ now claims|a now claims|a now nodes_ claims claims' H].
  - unfold reserve_profile_disk in H. unbind. subst. set_solver.
  - unfold reserve_profile_memory in H. unbind. subst. set_solver.
  - unfold reserve_profile_ports in H. unbind. subst. apply clear_port_promises_spec in Hv as (_ & -> & _).
    apply elem_of_app. left. eapply children_stay; [apply load_only_release|done|done].
    intros r Hr Hp. pose proof (rows_ok _ Ht) as Hok. rewrite Forall_forall in Hok.
    apply (ok_promised r (Hok r Hr)). unfold holds_wanted in Hp. by bools.
  - unfold inherited_profile_disk in H. apply bind_Ok in H as ([[[a asg] rq] found] & _ & [= <- _]).
    eapply children_stay; [apply load_only_release|done|done]. intros r Hr Hp. unfold unassigned_disk, of_load in Hp.
    by bools.
  - by eapply run_step_children; [apply ids_ok, Ht|..].
  - eapply children_stay; [apply load_only_release|done|done]. intros r _ Hp. bools. by eapply of_load_kind.
  - unfold release_unassigned_profile_claims. case_match; [done|].
    eapply children_stay; [apply load_only_release|done|done]. intros r _ Hp. bools. by eapply of_load_kind.
  - unfold restore_released_profile_claims in H. destruct (negb _); [by injection H as <-|]. unbind. subst.
    apply restore_rows_map in Hv as ->. eapply children_stay; [apply load_only_fmap|done|done].
    + intros r. by case_match.
    + intros r Hr Hrk. rewrite restored_rows by (try done; apply ids_ok, Ht). unfold restorable, of_load.
      by rewrite bool_decide_eq_false_2.
Qed.

(** A claim a run, an installation or a build owns is out of the loads' reach: no history of
    reservations, handoffs, releases and restores by any loads changes or drops it. *)
Theorem child_claims_untouched claims claims' c :
  table_ok claims -> rtc load_committed claims claims' -> c ∈ claims -> r_owner_kind c <> "fleet-profile" ->
  c ∈ claims'.
Proof.
  intros Ht Hh Hc Hk. induction Hh as [|x y z (db & Hdb & H) _ IH]; [done|]. apply IH.
  - by eapply load_step_table.
  - by eapply load_step_children.
Qed.
End steps.

(** ** A concrete load

    A concrete load: its accepted plan stops a run of 100 bytes on a shared-memory Spark and
    promises 150 bytes in its place.  The theorems on claims, ledgers and restores are applied to
    it, with real claim identifiers. *)

Definition requirement : FleetProfileResourceRequirement := {|
  q_node_id := "node-1"; ports_required := [8000]; q_disk_required_bytes := Some 10;
  q_memory_required_bytes := Some 150; q_memory_kind := Some unified; q_memory_pool := Some shared;
  q_memory_floor_bytes := Some 5 |}.

Definition assignment : FleetProfileAssignment := {|
  asg_id := "asg-1"; asg_recipe_revision_id := "rev-1"; asg_desired_state := DesiredAssignmentState.RUNNING;
  asg_alias := Some "chat"; asg_node_ids := ["node-1"] |}.

Definition review : FleetProfilePreview := {|
  resolved_assignments := [assignment];
  admission_decisions := [{| dec_assignment_id := "asg-1"; dec_requirements := [requirement];
    dec_stops := [{| stop_run := "run-1"; stop_run_plan_digest := "run-plan"; stop_node_ids := ["node-1"] |}] |}];
  run_effects := [{| effect_run_id := "run-1"; effect_action := "stop"; effect_partial := false |}] |}.

Definition load_row (state_ : string) : ApplicationRow := {|
  app_id := "11111111-1111-4111-8111-111111111111"; app_state := state_; app_updated_at := Aware 0;
  app_created_at := Aware 0; app_plan_digest := "plan"; app_intent := Some (Some 1); app_plan := Some review |}.

Definition load_db : Database := {|
  applications := [load_row "running"];
  nodes := [{| node_id := "node-1"; node_state := "active"; node_revoked_at := None;
               node_last_seen := Some (Aware 0); node_intent := 1 |}];
  jobs := [];
  runs := [{| run_id := "run-1"; run_state := "running"; run_generation := 1; run_plan_digest := "run-plan";
              run_installation := "inst-1"; run_plan_nodes := None |}];
  run_nodes := [("run-1", "node-1")]; installations := []; installation_nodes := []; builds := [];
  orders := []; order_attempts := fun _ => []; cache_operations := []; sync_runs := []; rotations := [];
  enrollments := [];
  inventory := [{| snap_node := "node-1"; snap_observed_at := Aware 0; snap_received_at := Aware 0;
                   snap_evidence_digest := None; snap_disk_free_bytes := Some 1000;
                   snap_unused_model_bytes := None; snap_memory_pool := Some shared;
                   snap_host_total_bytes := Some 1000; snap_host_free_bytes := Some 900;
                   snap_gpu_total_bytes := Some 1000; snap_gpu_free_bytes := Some 900 |}] |}.

Definition run_row : ResourceReservation := {|
  r_id := "run-claim"; r_node := "node-1"; r_kind := "unified-memory"; r_key := "run-plan"; r_amount := 100;
  r_owner_kind := "run"; r_owner_id := "run-1"; r_state := ReservationState.ACTIVE;
  r_plan_digest := "run-plan"; r_created_at := Aware 0; r_released_at := None |}.

(** The claim table after the load reserved disk, ports and memory beside the run's claim. *)
Definition reserved : list ResourceReservation := Eval vm_compute in
  match (c1 ← reserve_profile_disk (load_row "running") review ["asg-1"] (Aware 5) [run_row];
         c2 ← reserve_profile_ports load_db (load_row "running") review ["asg-1"] (Aware 5) c1;
         reserve_profile_memory (load_row "running") review ["asg-1"] (Aware 5) c2) with
  | Ok c => c
  | Raise _ => []
  end.


Definition reserved_memory_row : ResourceReservation := {|
  r_id := "9de02759-8923-5f99-bbe4-612a1fb56907"; r_node := "node-1"; r_kind := "unified-memory";
  r_key := "asg-1"; r_amount := 150; r_owner_kind := "fleet-profile";
  r_owner_id := "11111111-1111-4111-8111-111111111111"; r_state := ReservationState.PROMISED;
  r_plan_digest := "plan"; r_created_at := Aware 5; r_released_at := None |}.

Definition reserved_port_row : ResourceReservation := {|
  r_id := "14471328-7ea2-5615-bf90-a43973db19b4"; r_node := "node-1"; r_kind := "port"; r_key := "8000";
  r_amount := 0; r_owner_kind := "fleet-profile"; r_owner_id := "11111111-1111-4111-8111-111111111111";
  r_state := ReservationState.PROMISED; r_plan_digest := "plan"; r_created_at := Aware 5;
  r_released_at := None |}.

Lemma review_ok_example : review_ok review.
Proof.
  intros d Hd. apply list_elem_of_singleton in Hd as ->. apply Forall_singleton.
  split; intros n [= <-]; lia.
Qed.

Lemma reviews_ok_example : reviews_ok load_db.
Proof. intros a rv Ha. apply list_elem_of_singleton in Ha as ->. intros [= <-]. apply review_ok_example. Qed.

Lemma run_table : table_ok [run_row].
Proof.
  split; [apply (bool_decide_unpack _); vm_compute; exact I| |].
  - apply Forall_singleton. split; simpl; [set_solver|lia|done].
  - apply no_port_unique. by apply Forall_singleton.
Qed.

(** The load's reservation and the run's start: two committed steps. *)
Definition disk_reserved : list ResourceReservation := Eval vm_compute in
  match reserve_profile_disk (load_row "running") review ["asg-1"] (Aware 5) [run_row] with
  | Ok c => c | Raise _ => []
  end.

Lemma reserve_committed : load_committed no_images headroom_rule 5 60 [run_row] disk_reserved.
Proof.
  exists load_db. split; [apply reviews_ok_example|].
  apply (StepReserveDisk _ _ _ _ _ (load_row "running") review ["asg-1"] (Aware 5));
    [apply review_ok_example|vm_compute; reflexivity|apply (bool_decide_unpack _); vm_compute; exact I].
Qed.

Lemma claim_table_history_witness : table_ok disk_reserved.
Proof.
  apply (claim_table_history no_images headroom_rule 5 60 [run_row]); [apply run_table|]. apply rtc_once.
  destruct reserve_committed as (db & Hdb & H). exists db. split; [exact Hdb|left; exact H].
Defined.

Lemma child_claims_untouched_witness : run_row ∈ disk_reserved.
Proof.
  apply (child_claims_untouched no_images headroom_rule 5 60 [run_row]);
    [apply run_table|apply rtc_once, reserve_committed|apply list_elem_of_singleton; reflexivity|discriminate].
Defined.

(** ** The run takes its claims *)
Definition run_memory : gmap string NodeMemory := {["node-1" := (unified, 150, Some shared)]}.

(** The load's memory row is missing from the table: it is written back. *)
Lemma inherited_memory_heals_witness :
  exists claims' taken,
    inherited_profile_memory load_db "11111111-1111-4111-8111-111111111111" "rev-1" "chat" run_memory (Some 1)
      [run_row] = Ok (claims', taken) /\
    Forall2 (fun q id_ => exists r, taken !! q_node_id q = Some r /\ claim_row claims' id_ = Some r /\
                                    accepted_promise (load_row "running") "asg-1" id_ q r)
      [requirement] ["9de02759-8923-5f99-bbe4-612a1fb56907"] /\
    (forall id_, id_ ∉ ["9de02759-8923-5f99-bbe4-612a1fb56907"] ->
       claim_row claims' id_ = claim_row [run_row] id_).
Proof.
  apply (inherited_memory_heals load_db _ _ _ run_memory _ [run_row] (load_row "running") assignment).
  - vm_compute. reflexivity.
  - reflexivity.
  - apply Forall_singleton. split_and!; try discriminate. exists (unified, 150, Some shared). split; reflexivity.
  - vm_compute. reflexivity.
  - apply NoDup_singleton.
  - apply NoDup_singleton.
  - intros id_ r ->%list_elem_of_singleton. discriminate.
Defined.

Definition taken_memory : gmap string ResourceReservation := {["node-1" := reserved_memory_row]}.
Definition taken_ports : gmap (string * Z) ResourceReservation := {[("node-1", 8000) := reserved_port_row]}.
Definition run_plan : list RunNodeClaims :=
  [{| rn_node := "node-1"; rn_memory_kind := unified; rn_memory_bytes := 150; rn_ports := [8000] |}].

Lemma handoff_conserves_memory_witness :
  held "node-1" "unified-memory"
    (take_run_claims (fun n k => n +:+ k) "run-2" "run-plan-2" (Aware 9) taken_memory taken_ports run_plan reserved)
  = held "node-1" "unified-memory" reserved.
Proof.
  apply handoff_conserves_memory; [discriminate| |].
  - intros c Hc _. unfold reserved in Hc. set_unfold in Hc.
    repeat (destruct Hc as [->|Hc]; [reflexivity|]). destruct Hc.
  - intros n ->%list_elem_of_singleton. eexists. reflexivity.
Defined.

(** ** The ledger *)
Lemma memory_reservations_worst_phase_witness :
  (match memory_reservations no_images load_db reserved "node-1" (Some shared) [] [] [] [] None with
   | Ok t => committed_bytes_by_kind t !! "unified-memory"
   | Raise _ => None
   end) = Some 150 /\
  exists totals used future,
    memory_reservations no_images load_db reserved "node-1" (Some shared) [] [] [] [] None = Ok totals /\
    worst_phase all_reservation_kinds (List.filter (of_kinds all_reservation_kinds) (active_of used)) amount_of
      future (default 0 (committed_bytes_by_kind totals !! "unified-memory")).
Proof.
  split; [vm_compute; reflexivity|].
  destruct (memory_reservations no_images load_db reserved "node-1" (Some shared) [] [] [] [] None)
    as [totals|] eqn:E; [|vm_compute in E; discriminate E].
  destruct (memory_reservations_worst_phase no_images load_db reserved "node-1" shared [] [] [] [] None totals E)
    as (used & future & _ & _ & H).
  exists totals, used, future. split; [reflexivity|].
  apply (H "unified-memory" all_reservation_kinds); [apply list_elem_of_singleton; reflexivity|reflexivity].
Defined.

(** ** Release and restore *)
Definition returned (claims : list ResourceReservation) : result (list ResourceReservation) :=
  restore_released_profile_claims no_images headroom_rule 5 60 load_db (load_row "running") (Aware 9) None
    (release_unassigned_profile_claims (load_row "failed") (Aware 7) claims).

(** A port of the same plan the load gave back before. *)
Definition older_port_row : ResourceReservation := {|
  r_id := "ffffffff-7ea2-5615-bf90-a43973db19b4"; r_node := "node-1"; r_kind := "port"; r_key := "8001";
  r_amount := 0; r_owner_kind := "fleet-profile"; r_owner_id := "11111111-1111-4111-8111-111111111111";
  r_state := ReservationState.RELEASED; r_plan_digest := "plan"; r_created_at := Aware 5;
  r_released_at := Some (Aware 6) |}.

(** The claims as reserved come back exactly; the port given back before comes back with them. *)
Lemma restore_undoes_release_witness :
  (exists out, returned reserved = Ok out /\ out = reserved) /\
  (exists out, returned (older_port_row :: reserved) = Ok out /\ out = restored older_port_row :: reserved).
Proof.
  pose proof (fun claims out => restore_undoes_release no_images headroom_rule 5 60 load_db (load_row "failed")
    (load_row "running") (Aware 9) (Aware 7) claims out eq_refl eq_refl eq_refl) as Hundo.
  split.
  - destruct (returned reserved) as [out|] eqn:E; [|vm_compute in E; discriminate E].
    exists out. split; [reflexivity|].
    apply (Hundo reserved out); [apply (bool_decide_unpack _); vm_compute; exact I| |exact E|].
    + intros r Hr Ho _. unfold reserved in Hr. set_unfold in Hr.
      destruct Hr as [->|Hr]; [discriminate Ho|].
      repeat (destruct Hr as [->|Hr]; [split; [vm_compute; reflexivity|split; reflexivity]|]). destruct Hr.
    + intros r Hr. unfold reserved in Hr. set_unfold in Hr.
      repeat (destruct Hr as [->|Hr]; [vm_compute; reflexivity|]). destruct Hr.
  - destruct (returned (older_port_row :: reserved)) as [out|] eqn:E; [|vm_compute in E; discriminate E].
    exists out. split; [reflexivity|].
    destruct (Hundo (older_port_row :: reserved) out) as [-> _];
      [apply (bool_decide_unpack _); vm_compute; exact I| |exact E|vm_compute; reflexivity].
    intros r Hr Ho Hh. unfold reserved in Hr. set_unfold in Hr.
    destruct Hr as [->|[->|Hr]]; [discriminate Hh|discriminate Ho|].
    repeat (destruct Hr as [->|Hr]; [split; [vm_compute; reflexivity|split; reflexivity]|]). destruct Hr.
Defined.

Lemma restore_returns_only_admitted_witness :
  exists out,
    restore_released_profile_claims no_images headroom_rule 5 60 mixed_db mixed_load (Aware 0) None
      [released_claim "a" "host-memory" 10] = Ok out /\
    admitted no_images headroom_rule 5 60 mixed_db mixed_load (Aware 0) out ("node-1", "host-memory") = Ok true.
Proof.
  destruct (restore_released_profile_claims no_images headroom_rule 5 60 mixed_db mixed_load (Aware 0) None
      [released_claim "a" "host-memory" 10]) as [out|] eqn:E; [|vm_compute in E; discriminate E].
  exists out. split; [reflexivity|].
  apply (restore_returns_only_admitted no_images headroom_rule 5 60 mixed_db mixed_load (Aware 0) None
           [released_claim "a" "host-memory" 10] out E) with (r := released_claim "a" "host-memory" 10).
  - vm_compute. reflexivity.
  - split; [apply (bool_decide_unpack _); vm_compute; exact I
           |apply Forall_singleton; split; [right; right; left|vm_compute; discriminate|discriminate]|].
    apply no_port_unique. by apply Forall_singleton.
  - apply list_elem_of_singleton. reflexivity.
  - vm_compute. reflexivity.
  - discriminate.
Defined.

(** ** Disk *)
Lemma later_observation_only_lowers_witness :
  0 <= sum_list (charge_amount <$> outstanding_disk_charges load_db reserved "node-1" (Some (Aware 9)) [] [] [] []) <=
       sum_list (charge_amount <$> outstanding_disk_charges load_db reserved "node-1" (Some (Aware 7)) [] [] [] []).
Proof.
  apply (later_observation_only_lowers load_db reserved "node-1" (Aware 7) (Aware 9) [] [] [] []).
  - intros i plan n Hi. inversion Hi.
  - unfold reserved. repeat constructor; vm_compute; discriminate.
  - vm_compute. discriminate.
Defined.
