(* ===== verification/ModelCache.v ===== *)
(** * The lifecycle adapter of the NAS model cache

    [control/src/vonk_control/lifecycle/model_cache.py], with the stored words of
    [model_cache_states.py], the tolerant clocks of [model_cache_contract.py]
    ([StoredCacheClocks]) and the payload writer of [model_cache/persistence.py]: what a
    stored (possibly legacy) cache operation is to the lifecycle core, the one projection
    of a decision back onto the row, the owner's events (claim, renew, lapse, complete,
    reopen) and the store the reconciler sweeps.

    A row's payload column is a [document]: exactly what the current contract writes, an
    older document that still reads (a retired field is dropped), or one whose envelope no
    longer reads but whose clocks do.  The parts of the envelope this module only copies
    (manifest, transfer ledger, removal checkpoint) are one opaque text. *)
From S2P Require Import Prelude Vocabulary ReasonCodes Disposition Recovery.
From S2P Require Import LifecycleTypes LifecycleCore Reconciler StallWindow Blockers.
From S2P Require Import PersistedWaits SparkOrder.

(** ** The stored words *)
Module ModelCacheStates.
Definition SUBJECT : LifecycleSubject := LifecycleSubject.MODEL_CACHE_OPERATION.
Definition BACKOFF : string := value LifecycleState.BACKOFF.
Definition LIVE : list string := live_words SUBJECT.
Definition ACTIVE : list string :=
  stored_words SUBJECT [LifecycleState.QUEUED; LifecycleState.RUNNING; LifecycleState.BACKOFF].
Definition WAITING : list string :=
  stored_words SUBJECT [LifecycleState.QUEUED; LifecycleState.BACKOFF].
Definition WAITING_OR_FAILED : list string :=
  stored_words SUBJECT [LifecycleState.QUEUED; LifecycleState.BACKOFF; LifecycleState.FAILED].
Definition words (states : list LifecycleState) : list string := stored_words SUBJECT states.
Definition operation_is_live (stored : option string) : bool := is_live SUBJECT stored.
Definition operation_is_backoff (stored : option string) : bool :=
  is_state SUBJECT stored [LifecycleState.BACKOFF].
Definition adopted (stored : string) : string :=
  match adopt_state SUBJECT stored with Some st => value st | None => stored end.
End ModelCacheStates.

Definition ACTIVE_STORED_STATES : list string := ModelCacheStates.LIVE.
Definition _ENDED : list string := ["succeeded"; "failed"; "cancelled"].
Definition SWEEP_LIMIT : nat := 500.
Definition RECOVERY_BUDGET : Z := seconds (24 * 3600).

(** ** The payload *)
Record ModelCacheRetry := {
  automatic_attempts : Z;
  (** operator retries, missing source, access checks, credential fingerprint *)
  retry_rest : string;
}.

Record ModelCacheClaim := { claim_owner : string; claim_expires_at : string }.

Record ModelCacheCancellationObservation := {
  observed_effect : LifecycleEffect;
  observed_at : string;
  observed_detail : string;
}.

Record ModelCacheCancellation := {
  request_key : string;
  cancel_actor : string;
  cancel_reason : string;
  requested_at : string;
  observation : option ModelCacheCancellationObservation;
}.

(** [AvailabilityOperationFailure] *)
Record CacheFailure := {
  failure_code : string;
  failure_detail : string;
  failure_retryable : bool;
  retry_time : option string;
  retry_after_seconds : option Z;
  failure_rest : string;
}.

Record CachePayload := {
  p_retry : ModelCacheRetry;
  p_claim : option ModelCacheClaim;
  p_cancellation : option ModelCacheCancellation;
  p_failure : option CacheFailure;
  p_blockers : list OperationBlocker;
  p_rest : string;
}.

#[global] Instance ModelCacheRetry_eq : EqDecision ModelCacheRetry.
Proof. solve_decision. Defined.
#[global] Instance ModelCacheClaim_eq : EqDecision ModelCacheClaim.
Proof. solve_decision. Defined.
#[global] Instance CancellationObservation_eq : EqDecision ModelCacheCancellationObservation.
Proof. solve_decision. Defined.
#[global] Instance ModelCacheCancellation_eq : EqDecision ModelCacheCancellation.
Proof. solve_decision. Defined.
#[global] Instance CacheFailure_eq : EqDecision CacheFailure.
Proof. solve_decision. Defined.
#[global] Instance CachePayload_eq : EqDecision CachePayload.
Proof. solve_decision. Defined.

(** The tolerant reading of a document's clocks: what cannot be read is absent. *)
Record StoredCacheRetryClock := {
  rc_automatic_attempts : option Z;
  next_retry_at : option instant;
}.
Record StoredCacheClaimClock := { cc_owner : option string; cc_expires_at : option instant }.
Record StoredCacheCancelClock := {
  xc_requested_at : option instant;
  xc_request_key : option string;
}.
Record StoredCacheClocks := {
  clock_claim : option StoredCacheClaimClock;
  clock_retry : option StoredCacheRetryClock;
  clock_cancellation : option StoredCacheCancelClock;
}.
#[global] Instance StoredCacheRetryClock_eq : EqDecision StoredCacheRetryClock.
Proof. solve_decision. Defined.
#[global] Instance StoredCacheClaimClock_eq : EqDecision StoredCacheClaimClock.
Proof. solve_decision. Defined.
#[global] Instance StoredCacheCancelClock_eq : EqDecision StoredCacheCancelClock.
Proof. solve_decision. Defined.
#[global] Instance StoredCacheClocks_eq : EqDecision StoredCacheClocks.
Proof. solve_decision. Defined.

(** What the payload column holds: the dump of a payload; an older document that reads as
    one; a document whose envelope does not read. *)
Inductive document :=
| Dump (p : CachePayload)
| Legacy (p : CachePayload) (clocks : StoredCacheClocks)
| Corrupt (clocks : StoredCacheClocks).
#[global] Instance document_eq : EqDecision document.
Proof. solve_decision. Defined.

(** ** The row *)
Record ModelCacheOperation := {
  op_id : string;
  op_kind : string;
  op_state : string;
  op_attempt : Z;
  op_set : option string;
  op_payload : document;
  op_last_error : option string;
  op_observe_count : Z;
  op_fence : option string;
  op_lease_deadline : option datetime;
  op_created_at : datetime;
  op_updated_at : datetime;
  op_completed_at : option datetime;
  op_progress_advanced_at : option datetime;
  op_wait : ScheduledWaitOwner;
}.

#[global] Instance set_op_state : Setter op_state := fun v o =>
  Build_ModelCacheOperation (op_id o) (op_kind o) v (op_attempt o) (op_set o) (op_payload o)
    (op_last_error o) (op_observe_count o) (op_fence o) (op_lease_deadline o) (op_created_at
    o) (op_updated_at o) (op_completed_at o) (op_progress_advanced_at o) (op_wait o).
#[global] Instance set_op_attempt : Setter op_attempt := fun v o =>
  Build_ModelCacheOperation (op_id o) (op_kind o) (op_state o) v (op_set o) (op_payload o)
    (op_last_error o) (op_observe_count o) (op_fence o) (op_lease_deadline o) (op_created_at
    o) (op_updated_at o) (op_completed_at o) (op_progress_advanced_at o) (op_wait o).
#[global] Instance set_op_payload : Setter op_payload := fun v o =>
  Build_ModelCacheOperation (op_id o) (op_kind o) (op_state o) (op_attempt o) (op_set o) v
    (op_last_error o) (op_observe_count o) (op_fence o) (op_lease_deadline o) (op_created_at
    o) (op_updated_at o) (op_completed_at o) (op_progress_advanced_at o) (op_wait o).
#[global] Instance set_op_last_error : Setter op_last_error := fun v o =>
  Build_ModelCacheOperation (op_id o) (op_kind o) (op_state o) (op_attempt o) (op_set o)
    (op_payload o) v (op_observe_count o) (op_fence o) (op_lease_deadline o) (op_created_at o)
    (op_updated_at o) (op_completed_at o) (op_progress_advanced_at o) (op_wait o).
#[global] Instance set_op_observe_count : Setter op_observe_count := fun v o =>
  Build_ModelCacheOperation (op_id o) (op_kind o) (op_state o) (op_attempt o) (op_set o)
    (op_payload o) (op_last_error o) v (op_fence o) (op_lease_deadline o) (op_created_at o)
    (op_updated_at o) (op_completed_at o) (op_progress_advanced_at o) (op_wait o).
#[global] Instance set_op_fence : Setter op_fence := fun v o =>
  Build_ModelCacheOperation (op_id o) (op_kind o) (op_state o) (op_attempt o) (op_set o)
    (op_payload o) (op_last_error o) (op_observe_count o) v (op_lease_deadline o)
    (op_created_at o) (op_updated_at o) (op_completed_at o) (op_progress_advanced_at o)
    (op_wait o).
#[global] Instance set_op_lease_deadline : Setter op_lease_deadline := fun v o =>
  Build_ModelCacheOperation (op_id o) (op_kind o) (op_state o) (op_attempt o) (op_set o)
    (op_payload o) (op_last_error o) (op_observe_count o) (op_fence o) v (op_created_at o)
    (op_updated_at o) (op_completed_at o) (op_progress_advanced_at o) (op_wait o).
#[global] Instance set_op_updated_at : Setter op_updated_at := fun v o =>
  Build_ModelCacheOperation (op_id o) (op_kind o) (op_state o) (op_attempt o) (op_set o)
    (op_payload o) (op_last_error o) (op_observe_count o) (op_fence o) (op_lease_deadline o)
    (op_created_at o) v (op_completed_at o) (op_progress_advanced_at o) (op_wait o).
#[global] Instance set_op_completed_at : Setter op_completed_at := fun v o =>
  Build_ModelCacheOperation (op_id o) (op_kind o) (op_state o) (op_attempt o) (op_set o)
    (op_payload o) (op_last_error o) (op_observe_count o) (op_fence o) (op_lease_deadline o)
    (op_created_at o) (op_updated_at o) v (op_progress_advanced_at o) (op_wait o).
#[global] Instance set_op_wait : Setter op_wait := fun v o =>
  Build_ModelCacheOperation (op_id o) (op_kind o) (op_state o) (op_attempt o) (op_set o)
    (op_payload o) (op_last_error o) (op_observe_count o) (op_fence o) (op_lease_deadline o)
    (op_created_at o) (op_updated_at o) (op_completed_at o) (op_progress_advanced_at o) v.

(** [operation.next_action_at] *)
Definition op_next_action_at (o : ModelCacheOperation) : option datetime :=
  wait_next_action_at (op_wait o).

Definition removal (o : ModelCacheOperation) : bool := bool_decide (op_kind o = "remove").

(** [schedule_wait(operation, next_check)] *)
Definition cache_row (o : ModelCacheOperation) : OwnerRow :=
  ModelRow PersistedWaits.ModelCacheOperation (Some (op_id o)) None None None.
Definition schedule_cache (o : ModelCacheOperation) (next : option datetime)
  : result (ScheduledWaitOwner * bool) :=
  schedule_wait (cache_row o) (op_wait o) next (plain_schedule (Some (op_updated_at o))).

(** [max(anchors, default=None)] is the later of the two known instants. *)
Definition _stall_deadline (o : ModelCacheOperation) (cooldown_until : option datetime) : instant :=
  let anchors := known [op_progress_advanced_at o; cooldown_until] in
  stall_deadline (op_created_at o) (Aware <$> max_list anchors) RECOVERY_BUDGET.

(** What the cache itself knows that the core's questions need, read once per call.
    [signal_stop] only wakes the transfer threads. *)
Record CacheEffects := {
  running_here : list string;
  objects_present : CachePayload -> option bool;
  set_is_cached : option string -> bool;
  effects_settled : string -> option CachePayload -> result bool;
  cooldown_until : CachePayload -> option datetime;
}.

(** ** The payload codec of the service *)

(** What the operation waits for, taken from the failure it will retry. *)
Definition _CREDENTIAL_FAILURE_PUBLIC_CODES : list string :=
  value <$> members (E := ModelAccessReason).

Definition failure_waits (f : CacheFailure) : bool :=
  failure_retryable f || bool_decide (retry_time f <> None)
  || mem (failure_code f) _CREDENTIAL_FAILURE_PUBLIC_CODES.

Definition _wait_blockers (p : CachePayload) : result (list OperationBlocker) :=
  match p_failure p with
  | None => Ok []
  | Some f =>
      if negb (failure_waits f) then Ok []
      else
        b ← make_blocker (failure_code f) (failure_detail f)
              (if bool_decide (failure_code f = value ModelCacheCode.OBJECT_BUSY)
               then info else warning) [] None;
        Ok (bound_blockers [b])
  end.

(** [_write_operation_payload]: the blockers are taken anew, the rest of the envelope was
    valid when it was read and is copied. *)
Definition _write_operation_payload (p : CachePayload) : result CachePayload :=
  match _wait_blockers p with
  | Ok bs => Ok {| p_retry := p_retry p; p_claim := p_claim p; p_cancellation := p_cancellation p;
                   p_failure := p_failure p; p_blockers := bs; p_rest := p_rest p |}
  | Raise _ => Raise (InvalidValue "cache operation payload is invalid"
                        (value ModelCacheCode.PAYLOAD_INVALID))
  end.

(** ** The adapter

    [parse_aware] is the reading of a stored text as an aware time (pydantic's
    [AwareDatetime]); [None] is a text it refuses. *)
Section adapter.
Context (parse_aware : string -> option instant) (effects : CacheEffects).

Definition _NAME (s : string) : option string := if bool_decide (s = EmptyString) then None else Some s.
Definition _ATTEMPTS (n : Z) : option Z := if 1 <=? n then Some n else None.

(** [StoredCacheClocks.read] of a payload's own dump. *)
Definition clocks_of (p : CachePayload) : StoredCacheClocks := {|
  clock_claim := (fun c => {| cc_owner := _NAME (claim_owner c);
                              cc_expires_at := parse_aware (claim_expires_at c) |}) <$> p_claim p;
  clock_retry := Some {| rc_automatic_attempts := _ATTEMPTS (automatic_attempts (p_retry p));
                         next_retry_at := None |};
  clock_cancellation :=
    (fun c => {| xc_requested_at := parse_aware (requested_at c);
                 xc_request_key := _NAME (request_key c) |}) <$> p_cancellation p |}.

Definition read_clocks (d : document) : StoredCacheClocks :=
  match d with Dump p => clocks_of p | Legacy _ c | Corrupt c => c end.

Definition legacy_retry_due (d : document) : option instant :=
  r ← clock_retry (read_clocks d); next_retry_at r.

Definition legacy_claim (d : document) : option (string * instant) :=
  c ← clock_claim (read_clocks d);
  owner ← cc_owner c; expires ← cc_expires_at c;
  if bool_decide (owner = EmptyString) then None else Some (owner, expires).

Definition cancellation_of (d : document) (now : instant) : option instant * option string :=
  match clock_cancellation (read_clocks d) with
  | None => (None, None)
  | Some c => (Some (default now (xc_requested_at c)), xc_request_key c)
  end.

(** [self._payload(operation)] *)
Definition _payload (o : ModelCacheOperation) : option CachePayload :=
  match op_payload o with Dump p | Legacy p _ => Some p | Corrupt _ => None end.

(** [self._store_payload(operation, payload)] *)
Definition _store_payload (o : ModelCacheOperation) (p : CachePayload)
  : result ModelCacheOperation :=
  p' ← _write_operation_payload p; Ok (o <| op_payload := Dump p' |>).

(** *** Adopt *)

(** The state, lease and next action of a stored operation. *)
Definition read_operation (o : ModelCacheOperation) (now : instant)
  : LifecycleState * option instant * option instant :=
  let stored := op_state o in
  let column := to_utc <$> op_lease_deadline o in
  let claim := match column with None => legacy_claim (op_payload o) | Some _ => None end in
  let lease := match claim with Some c => Some (snd c) | None => column end in
  let next_action := match op_next_action_at o with
                     | Some t => Some (to_utc t)
                     | None => legacy_retry_due (op_payload o)
                     end in
  if bool_decide (stored = "succeeded") then (State.SUCCEEDED, lease, next_action)
  else if bool_decide (stored = "failed") then (State.FAILED, lease, next_action)
  else if bool_decide (stored = "cancelled") then (State.CANCELLED, lease, next_action)
  else if removal o then
    (if bool_decide (next_action <> None) then State.BACKOFF else State.QUEUED, None, next_action)
  else if 0 <? op_observe_count o then
    (State.OBSERVING, None, Some (default now next_action))
  else if mem (op_id o) (running_here effects) && bool_decide (stored = "running") then
    let lease := Z.max (default now lease) (now + seconds 1) in
    (State.RUNNING, Some lease, Some lease)
  else if bool_decide (lease <> None)
          && (bool_decide (stored = "running") || bool_decide (claim <> None)) then
    (State.RUNNING, lease, lease)
  else if bool_decide (stored = "running") then
    let lease := to_utc (op_updated_at o) in (State.RUNNING, Some lease, Some lease)
  else if bool_decide (next_action <> None) then (State.BACKOFF, lease, next_action)
  else if bool_decide (stored = "queued") then (State.QUEUED, lease, next_action)
  else (State.BACKOFF, lease, next_action).

Definition read_fence (o : ModelCacheOperation) : option string :=
  match op_lease_deadline o with
  | Some _ => op_fence o
  | None => match legacy_claim (op_payload o) with Some c => Some (fst c) | None => op_fence o end
  end.

(** Only the owner's persisted observation proves that a cancelled writer stopped. *)
Definition read_effect (o : ModelCacheOperation) (st : LifecycleState) : LifecycleEffect :=
  if same st State.SUCCEEDED then Effect.ESTABLISHED
  else if same st State.CANCELLED then
    default Effect.UNKNOWN
      (p ← _payload o; c ← p_cancellation p; ob ← observation c; Some (observed_effect ob))
  else if same st State.RUNNING then Effect.ISSUED
  else Effect.UNKNOWN.

(** The attempts already spent: the retry clock's, or the attempt column. *)
Definition attempts_of (o : ModelCacheOperation) : Z :=
  match (r ← clock_retry (read_clocks (op_payload o)); rc_automatic_attempts r) with
  | Some n => n
  | None => Z.max (op_attempt o) 1
  end.

Definition lifecycle (o : ModelCacheOperation) (now : instant) : Lifecycle :=
  let '(st, lease, next_action) := read_operation o now in
  let '(requested, key) := cancellation_of (op_payload o) now in
  {| id := op_id o;
     kind := op_kind o;
     state := st;
     attempt := Z.max (op_attempt o) 1;
     fence := read_fence o;
     lease_deadline := if same st State.RUNNING then lease else None;
     next_action_at := next_action;
     recovery_deadline := None;
     retry_count := attempts_of o - 1;
     observe_count := op_observe_count o;
     intent_ordinal := None;
     cancel_requested_at := requested;
     cancel_request_key := key;
     effect := read_effect o st;
     reason := op_last_error o;
     owner_id := None |}.

(** *** The kind's facts, of the row [session.get] finds *)
Definition access_wait (p : CachePayload) : bool :=
  match p_failure p with
  | Some f => mem (failure_code f) [value ModelAccessReason.ACCESS_DENIED;
                                    value ModelAccessReason.ACCESS_REQUIRED]
  | None => false
  end.

Definition recovery_deadline_of (found : option ModelCacheOperation) : option instant :=
  match found with
  | None => None
  | Some o =>
      if removal o then None
      else
        match _payload o with
        | Some p => if access_wait p then None
                    else Some (_stall_deadline o (cooldown_until effects p))
        | None => Some (_stall_deadline o None)
        end
  end.

Definition retry_not_before_of (found : option ModelCacheOperation) : option instant :=
  to_utc <$> (o ← found; p ← _payload o; cooldown_until effects p).

Definition observe_of (found : option ModelCacheOperation) : LifecycleEffect * option string :=
  match found with
  | None => (Effect.NONE, Some "the operation no longer exists")
  | Some o =>
      if removal o then (Effect.UNKNOWN, Some "a removal resumes its checkpoint")
      else
        match (p ← _payload o; objects_present effects p) with
        | None => (Effect.UNKNOWN, Some "storage receipts could not be read")
        | Some present =>
            if present && set_is_cached effects (op_set o)
            then (Effect.ESTABLISHED, Some "every object has a receipt")
            else (Effect.NONE, Some "the set is not complete in storage")
        end
  end.

Definition stop_of (found : option ModelCacheOperation) (id_ : string) : StopOutcome :=
  match found with
  | None => StopResult.CONFIRMED
  | Some o =>
      match effects_settled effects id_ (_payload o) with
      | Ok true => StopResult.CONFIRMED
      | _ => StopResult.UNCONFIRMED
      end
  end.

(** The adapter over any world its [scope] reads rows from.  Nothing is irreversible, no
    operator action is offered, and the transfer pool claims its own work. *)
Definition ModelCacheAdapter {W} (get : W -> string -> option ModelCacheOperation) : Executor W := {|
  reads w := {|
    irreversible := fun _ => false;
    retry_not_before := fun r _ => retry_not_before_of (get w (id r));
    deadline_reader := Some (fun r => recovery_deadline_of (get w (id r)));
    actions := fun _ => [] |};
  Reconciler.observe r w := (w, Ok (observe_of (get w (id r))));
  Reconciler.stop r w := (w, Ok (stop_of (get w (id r)) (id r)));
  Reconciler.execute r n w := (w, Ok tt) |}.

(** The session of one row: the row its caller holds. *)
Definition get_row (o : ModelCacheOperation) (id_ : string) : option ModelCacheOperation :=
  if bool_decide (id_ = op_id o) then Some o else None.

(** *** Apply *)

(** [put(name, value)]: the row and whether anything changed so far. *)
Definition changing : Type := ModelCacheOperation * bool.

Definition put {T} `{EqDecision T} (f : ModelCacheOperation -> T) `{!Setter f} (v : T) (s : changing)
  : changing :=
  if bool_decide (f (fst s) = v) then s else (fst s <| f := v |>, true).

Definition put_time (f : ModelCacheOperation -> option datetime) `{!Setter f} (v : option instant)
    (s : changing) : changing :=
  if bool_decide (to_utc <$> f (fst s) = v) then s else (fst s <| f := Aware <$> v |>, true).

(** A retry of work that stopped part way is stored [backoff], another one [queued]. *)
Definition label_partial (o : ModelCacheOperation) (before : Lifecycle) (interrupted : option bool)
  : bool :=
  default (ModelCacheStates.operation_is_backoff (Some (op_state o))
           || same (state before) State.RUNNING) interrupted.

(** The stored word, the next action and the lease of a decision. *)
Definition stored_form (o : ModelCacheOperation) (before after : Lifecycle) (interrupted : option bool)
  : string * option instant * option instant :=
  match state after with
  | State.QUEUED =>
      (if ModelCacheStates.operation_is_backoff (Some (op_state o))
       then ModelCacheStates.BACKOFF else "queued", None, None)
  | State.BACKOFF =>
      (if label_partial o before interrupted then ModelCacheStates.BACKOFF else "queued",
       next_action_at after, None)
  | State.OBSERVING =>
      (if mem (op_state o) ACTIVE_STORED_STATES then op_state o else ModelCacheStates.BACKOFF,
       next_action_at after, None)
  | State.RUNNING => ("running", None, lease_deadline after)
  | State.NEEDS_OPERATOR => (ModelCacheStates.BACKOFF, None, None)
  | State.SUCCEEDED => ("succeeded", None, None)
  | State.FAILED => ("failed", None, None)
  | _ => ("cancelled", None, None)
  end.

(** [payload.model_copy(update={"retry": ..., "claim": None, "failure": ...})] *)
Definition tidied (p : CachePayload) (after : Lifecycle) (spent : bool) : CachePayload := {|
  p_retry := if same (state after) State.BACKOFF && spent
             then {| automatic_attempts := retry_count after + 1; retry_rest := retry_rest (p_retry p) |}
             else p_retry p;
  p_claim := None;
  p_cancellation := p_cancellation p;
  p_failure :=
    if mem (state after) TERMINAL_STATES then
      (fun f => {| failure_code := failure_code f; failure_detail := failure_detail f;
                   failure_retryable := false; retry_time := None; retry_after_seconds := None;
                   failure_rest := failure_rest f |}) <$> p_failure p
    else p_failure p;
  p_blockers := p_blockers p;
  p_rest := p_rest p |}.

Definition _tidy_payload (o : ModelCacheOperation) (after : Lifecycle) (spent : bool)
  : result changing :=
  match _payload o with
  | None => Ok (o, false)
  | Some p =>
      let updated := tidied p after spent in
      if bool_decide (op_payload o = Dump updated) then Ok (o, false)
      else o' ← _store_payload o updated; Ok (o', true)
  end.

(** [details[after.effect]] *)
Definition cancellation_details (e : LifecycleEffect) : result string :=
  match e with
  | Effect.UNKNOWN => Ok "Cancellation ended; stopping the writer remains unconfirmed."
  | Effect.NONE => Ok "Cancellation ended; no writer effect was observed."
  | Effect.STOPPED => Ok "Cancellation ended after the writer was confirmed stopped."
  | _ => Raise (KeyError (value e))
  end.

(** The end of a cancel is recorded with what was observed of the writer. *)
Definition record_cancellation (o : ModelCacheOperation) (before after : Lifecycle) (now : instant)
  : result changing :=
  if same (state after) State.CANCELLED && negb (terminal before) then
    match _payload o with
    | Some p =>
        match p_cancellation p with
        | Some c =>
            detail_ ← cancellation_details (effect after);
            let c' := {|
              request_key := request_key c; cancel_actor := cancel_actor c;
              cancel_reason := cancel_reason c; requested_at := requested_at c;
              observation := Some {| observed_effect := effect after;
                                     observed_at := isoformat now;
                                     observed_detail := detail_ |} |} in
            o' ← _store_payload o {|
              p_retry := p_retry p; p_claim := p_claim p; p_cancellation := Some c';
              p_failure := p_failure p; p_blockers := p_blockers p; p_rest := p_rest p |};
            Ok (o', true)
        | None => Ok (o, false)
        end
    | None => Ok (o, false)
    end
  else Ok (o, false).

(** An end is dated once; a row that goes on has no end. *)
Definition put_completed (ended : bool) (now : instant) (s : changing) : changing :=
  match ended, op_completed_at (fst s) with
  | true, None => (fst s <| op_completed_at := Some (Aware now) |>, true)
  | false, Some _ => (fst s <| op_completed_at := None |>, true)
  | _, _ => s
  end.

(** The attempt number counts consumed attempts, not claims. *)
Definition put_attempt (before after : Lifecycle) (s : changing) : changing :=
  if same (state after) State.RUNNING && negb (same (state before) State.RUNNING)
  then put op_attempt (Z.max (op_attempt (fst s)) (retry_count after + 1)) s
  else s.

Definition put_fence (after : Lifecycle) (s : changing) : changing :=
  match fence after with Some f => put op_fence (Some f) s | None => s end.

(** [apply]: the one projection of a decision onto the stored row.  [on_end] projects the
    end onto the set's own row. *)
Definition apply (o : ModelCacheOperation) (before after : Lifecycle) (now : instant)
    (interrupted : option bool) (spent : bool) : result changing :=
  let '(stored, next_action, lease) := stored_form o before after interrupted in
  let ended := mem (state after) TERMINAL_STATES in
  let s := put op_last_error (reason after)
             (put op_state stored (put_attempt before after (o, false))) in
  '(w, ch) ← schedule_cache (fst s) (Aware <$> next_action);
  let s := (fst s <| op_wait := w |>, snd s || ch) in
  let s := put op_observe_count
             (if same (state after) State.OBSERVING then observe_count after else 0)
             (put_time op_lease_deadline lease s) in
  let s := put_completed ended now (put_fence after s) in
  '(o1, ch1) ← _tidy_payload (fst s) after (spent && negb ended);
  '(o2, ch2) ← record_cancellation o1 before after now;
  let ch := snd s || ch1 || ch2 in
  let o3 := if ch then o2 <| op_updated_at := Aware now |> else o2 in
  '(w, ch') ← lifecycle_wait (op_wait o3) {|
    l_identity := op_id o3; l_kind := WaitOwnerKind.MODEL_CACHE; l_state := state after;
    l_now := Aware now; l_due := Aware <$> next_action; l_detail := reason after; l_reason := None;
    l_blockers := []; l_deadline := Aware <$> recovery_deadline after;
    l_cancelling := cancel_requested after;
    l_lease_deadline := Aware <$> lease_deadline after; l_operator_action := None |};
  Ok (o3 <| op_wait := w |>, ch || ch').

(** *** Settle *)
Definition save_cache (now : instant) (interrupted : option bool) (spent : bool)
    (before after : Lifecycle) : call ModelCacheOperation bool := fun o =>
  match apply o before after now interrupted spent with
  | Ok (o', _) => (o', Ok true)
  | Raise e => (o, Raise e)
  end.

Definition residue_cache (r : Lifecycle) (why : string) : call ModelCacheOperation unit := fun o =>
  (o <| op_last_error := Some (str_take _MAX_REASON why) |>, Ok tt).

(** A wait spends no attempt. *)
Definition spends (ev : Event) : bool :=
  match ev with Reported rep => consumes_retry rep | _ => true end.

Definition row_adapter : Executor ModelCacheOperation := ModelCacheAdapter get_row.

(** [ModelCacheAdapter.settle]: the row is changed in place, so the row after the call
    comes with the result. *)
Definition settle_cache (o : ModelCacheOperation) (ev : Event) (now : instant)
    (interrupted : option bool) : ModelCacheOperation * result Lifecycle :=
  let '(o', res) :=
    settle (lifecycle o now) ev row_adapter now (save_cache now interrupted (spends ev))
      residue_cache MAX_STEPS_PER_ROW o in
  (o', (settled ← res; Ok (settled_row settled))).

(** [decide]: not written. *)
Definition decide_cache (o : ModelCacheOperation) (ev : Event) (now : instant) : result Decision :=
  transition (lifecycle o now) ev (reads row_adapter o) now.

(** *** The owner's events.  [lease_seconds] is a duration in microseconds. *)

(** The instant a claim is decided at: the maintenance path claims regardless of the
    retry clock, inside the deadline. *)
Definition claim_instant (r : Lifecycle) (deadline : option instant) (now : instant)
    (ignore_backoff : bool) : instant :=
  match next_action_at r with
  | Some t =>
      if ignore_backoff
      then Z.max now (Z.min t (match deadline with Some d => d - 1 | None => t end))
      else now
  | None => now
  end.

Definition claim (o : ModelCacheOperation) (owner : string) (lease_seconds : Z) (now : instant)
    (ignore_backoff : bool) : ModelCacheOperation * result bool :=
  let r := lifecycle o now in
  let deadline := recovery_deadline_of (get_row o (id r)) in
  if match deadline with Some d => d <=? now | None => false end && negb (terminal r) then
    let '(o', res) := settle_cache o (Observed (fst (observe_of (get_row o (id r)))) None) now None in
    (o', (_ ← res; Ok false))
  else
    let decide_at := claim_instant r deadline now ignore_backoff in
    let lease := decide_at + lease_seconds in
    let '(o', res) := settle_cache o (Claimed (attempt r + 1) owner lease) decide_at None in
    (o', (after ← res;
          Ok (same (state after) State.RUNNING && bool_decide (fence after = Some owner)))).

Definition lapse (o : ModelCacheOperation) (now : instant) : ModelCacheOperation * result Lifecycle :=
  settle_cache o (LeaseLapsed (Some "the transfer lease lapsed")) now None.

(** A removal's step only notes that it is under way. *)
Definition renew_removal (o : ModelCacheOperation) (now : instant) : ModelCacheOperation :=
  let s := put op_state "running" (o, false) in
  let s := match op_next_action_at (fst s) with
           | Some _ => (fst s <| op_wait := fst (clear_wait (op_wait (fst s))) |>, true)
           | None => s
           end in
  let s := put op_last_error None s in
  if snd s then fst s <| op_updated_at := Aware now |> else fst s.

Definition renew (o : ModelCacheOperation) (owner : string) (lease_seconds : Z) (now : instant)
    (take : bool) : ModelCacheOperation * result bool :=
  if mem (op_state o) _ENDED then (o, Ok false)
  else if removal o then (renew_removal o now, Ok true)
  else
    let r := lifecycle o now in
    if cancel_requested r then (o, Ok false)
    else if same (state r) State.RUNNING then
      if match fence r with Some f => negb (bool_decide (f = owner)) | None => false end
      then (o, Ok false)
      else
        let '(o', res) := settle_cache o (Heartbeat (Some owner) (now + lease_seconds)) now None in
        (o', (after ← res; Ok (same (state after) State.RUNNING)))
    else if negb take then (o, Ok false)
    else claim o owner lease_seconds now true.

Definition complete (o : ModelCacheOperation) (ev : Event) (now : instant) (interrupted : option bool)
  : ModelCacheOperation * result Lifecycle :=
  settle_cache o ev now interrupted.

(** Withdraw an end the owner finds premature. *)
Definition reopen (o : ModelCacheOperation) (now : instant) : ModelCacheOperation :=
  o <| op_state := ModelCacheStates.BACKOFF |>
    <| op_wait := fst (clear_wait (op_wait o)) |>
    <| op_lease_deadline := None |> <| op_observe_count := 0 |>
    <| op_completed_at := None |> <| op_updated_at := Aware now |>.

(** [new_operation] of the given fields: born queued, its wait columns initialised. *)
Definition new_operation (fields : ModelCacheOperation) : result ModelCacheOperation :=
  let o := fields <| op_state := value State.QUEUED |> in
  w ← initialize_wait (op_wait o) (op_id o) WaitOwnerKind.MODEL_CACHE (Some (op_state o))
        (Some (op_created_at o)) (Some (op_updated_at o));
  Ok (o <| op_wait := w |>).

(** End an operation whose own document cannot be read. *)
Definition fail_corrupt (o : ModelCacheOperation) (why : string) (now : instant)
  : ModelCacheOperation * result unit :=
  if terminal (lifecycle o now) then (o, Ok tt)
  else
    let '(o', res) :=
      settle_cache (o <| op_last_error := Some (str_take _MAX_REASON why) |>)
        (Reported (failed (CauseVerdict Disposition.FAIL) EmptyString None None (Some why) None))
        now None in
    (o', (_ ← res; Ok tt)).

(** *** The store *)
Definition table : Type := gmap string ModelCacheOperation.

(** [order_by(updated_at, id)] *)
Definition older (a b : ModelCacheOperation) : Prop :=
  to_utc (op_updated_at a) < to_utc (op_updated_at b) \/
  to_utc (op_updated_at a) = to_utc (op_updated_at b) /\ str_le (op_id a) (op_id b).
#[global] Instance older_dec a b : base.Decision (older a b).
Proof using. unfold older. apply _. Defined.

(** Whether the sweep hands an active operation to the core. *)
Definition wanted (o : ModelCacheOperation) (now : instant) : bool :=
  let r := lifecycle o now in
  let due_now := match next_action_at r with Some t => t <=? now | None => true end in
  if terminal r then false
  else if negb (removal o) && negb (cancel_requested r)
          && match recovery_deadline_of (Some o) with Some d => d <=? now | None => false end
  then true
  else if mem (op_id o) (running_here effects) then false
  else if removal o then false
  else if cancel_requested r then due_now
  else if same (state r) State.RUNNING
       then match lease_deadline r with Some l => l <=? now | None => false end
  else if mem (state r) [State.OBSERVING; State.NEEDS_OPERATOR] then due_now
  else false.

(** The rows of a sweep: the wanted of the [SWEEP_LIMIT] longest untouched active rows. *)
Definition swept (only : option string) (t : table) : list ModelCacheOperation :=
  take SWEEP_LIMIT
    (merge_sort older
       (List.filter (fun o => match only with Some i => bool_decide (op_id o = i) | None => true end
                              && mem (op_state o) ACTIVE_STORED_STATES)
          (snd <$> map_to_list t))).

(** The loop of [due] tests its limit after an append, so it returns at least one. *)
Definition due_cache (only : option string) (now : instant) (limit : Z) (t : table) : list Lifecycle :=
  take (Z.to_nat (Z.max limit 1))
    ((fun o => lifecycle o now) <$> List.filter (fun o => wanted o now) (swept only t)).

Definition save_operation (clock_ : instant) (before after : Lifecycle) : call table bool := fun t =>
  match t !! id before with
  | None => (t, Ok false)
  | Some o =>
      if negb (same_order before (lifecycle o clock_)) then (t, Ok false)
      else
        match apply o before after clock_ None true with
        | Ok (o', _) => (<[id before := o']> t, Ok true)
        | Raise e => (t, Raise e)
        end
  end.

Definition residue_operation (r : Lifecycle) (why : string) : call table unit := fun t =>
  (alter (fun o => o <| op_last_error := Some (str_take _MAX_REASON why) |>) (id r) t, Ok tt).

Definition ModelCacheStore (only : option string) (clock_ : instant) : LifecycleStore table := {|
  Reconciler.due now limit t := (t, due_cache only now limit t);
  Reconciler.save := save_operation clock_;
  Reconciler.record_residue := residue_operation |}.

(** *** Startup adoption *)

(** The rows whose columns are still empty. *)
Definition unadopted (o : ModelCacheOperation) : bool :=
  mem (op_state o) ACTIVE_STORED_STATES && bool_decide (op_next_action_at o = None)
  && bool_decide (op_lease_deadline o = None).

(** The columns one row is given; [None] when there is nothing to move. *)
Definition adopt_row (now : instant) (o : ModelCacheOperation) : option ModelCacheOperation :=
  let due_ := legacy_retry_due (op_payload o) in
  let set_due o := match due_ with
                   | Some t => o <| op_wait := WaitColumns (wait_evidence (op_wait o)) (Some (Aware t)) |>
                   | None => o
                   end in
  match legacy_claim (op_payload o) with
  | Some (owner, expires) =>
      let o' := o <| op_fence := Some (str_take 64 owner) |>
                  <| op_lease_deadline := Some (Aware expires) |> in
      Some (if (now <? expires) && negb (bool_decide (op_state o = "running"))
            then o' <| op_state := "running" |> else set_due o')
  | None => if bool_decide (due_ <> None) then Some (set_due o) else None
  end.

(** The rows come in no particular order. *)
Definition adopt_legacy_operations (now : instant) (t : table) : table * Z :=
  let rows := take (SWEEP_LIMIT * 10) (List.filter (fun o => unadopted o) (snd <$> map_to_list t)) in
  fold_left (fun acc o =>
               match adopt_row now o with
               | Some o' => (<[op_id o := o']> (fst acc), snd acc + 1)
               | None => acc
               end) rows (t, 0).
End adapter.
