(* ===== verification/ModelCacheFacts.v ===== *)
(** * What storing a model-cache operation keeps

    The decisions of the lifecycle core survive being written to the stored operation and
    read back ([ModelCache]): every settle of a well-formed row returns, the row reads back
    as the settled one, an accepted cancel is never lost, and what the owner's events
    (claim, renew) may grant. *)
From S2P Require Import Prelude Vocabulary ReasonCodes Disposition Recovery.
From S2P Require Import LifecycleTypes LifecycleCore LifecycleFacts LifecycleTraces Reconciler.
From S2P Require Import StallWindow Blockers PersistedWaits SparkOrder SparkOrderFacts ModelCache.

(** ** Well-formed rows *)

(** A payload whose wait can be stored: a failure it waits for has a declared code. *)
Definition storable (p : CachePayload) : Prop :=
  forall f, p_failure p = Some f -> failure_waits f = true -> is_blocker_reason (failure_code f) = true.

(** The cancel request of a document, as its clocks have it. *)
Definition cancel_clock (parse : string -> option instant) (d : document)
  : option StoredCacheCancelClock := clock_cancellation (read_clocks parse d).

(** An older document reads the same cancel request with or without its retired fields; a
    corrupt one holds no claim and no retry clock of its own. *)
Definition document_ok (parse : string -> option instant) (d : document) : Prop :=
  match d with
  | Dump p => storable p
  | Legacy p c => storable p /\ clock_cancellation c = clock_cancellation (clocks_of parse p)
  | Corrupt c => legacy_claim parse d = None /\ legacy_retry_due parse d = None
  end.

Record cache_ok (parse : string -> option instant) (o : ModelCacheOperation) : Prop := {
  mc_identity : fits_identity (op_id o) = true;
  mc_wait : sound_columns (op_wait o) = true;
  mc_count : 0 <= op_observe_count o;
  mc_clock : removal o = false -> 0 < op_observe_count o -> op_next_action_at o <> None;
  mc_document : document_ok parse (op_payload o);
  mc_ended : mem (op_state o) _ENDED = true -> op_observe_count o = 0 /\ op_next_action_at o = None;
  mc_completed : bool_decide (op_completed_at o <> None) = mem (op_state o) _ENDED;
}.

Lemma write_payload_ok p : storable p -> exists bs, _write_operation_payload p = Ok
  {| p_retry := p_retry p; p_claim := p_claim p; p_cancellation := p_cancellation p;
     p_failure := p_failure p; p_blockers := bs; p_rest := p_rest p |}.
Proof.
  intros Hs. unfold _write_operation_payload, _wait_blockers.
  destruct (p_failure p) as [f|] eqn:Ef; [|by eexists].
  destruct (failure_waits f) eqn:Ew; cbn [negb]; [|by eexists].
  match goal with |- context [make_blocker ?a ?b ?c ?d ?e] =>
    destruct (make_blocker_spec a b c d e) as [_ Hb] end.
  destruct (Hb (Hs f Ef Ew)) as (b & -> & _). by eexists.
Qed.

Lemma storable_tidied p after spent : storable p -> storable (tidied p after spent).
Proof.
  unfold storable, tidied. cbn [p_failure]. intros Hs f. case_match; [|by apply Hs].
  destruct (p_failure p) as [g|]; cbn [fmap option_fmap option_map]; [|done]. intros [= <-] Hw.
  apply (Hs g eq_refl). unfold failure_waits in *. cbn [failure_retryable retry_time failure_code] in *.
  rewrite bool_decide_eq_false_2 in Hw by (intros H'; by apply H').
  cbn [orb] in Hw. by rewrite Hw, orb_true_r.
Qed.

(** A document with no retired field and no claim. *)
Definition tidy (d : document) : Prop :=
  match d with Dump p => p_claim p = None | Legacy _ _ => False | Corrupt _ => True end.

(** ** What the core decides of such a row *)

(** The decisions the core makes of a row read here. *)
Record storable_row (r : Lifecycle) : Prop := {
  sr_state : mem (state r) [State.SUPERSEDED; State.NEEDS_OPERATOR] = false;
  sr_next : mem (state r) [State.BACKOFF; State.OBSERVING] = true -> next_action_at r <> None;
}.

Lemma transition_storable r ev a now d :
  mem (state r) [State.SUPERSEDED; State.NEEDS_OPERATOR] = false -> transition r ev a now = Ok d ->
  row d = r \/ storable_row (row d).
Proof.
  intros Hs H. run_core H; (by left) || right.
  all: constructor; simpl; try done; try congruence. bools. by intros; simplify_eq; destruct (state r).
Qed.

(** The effects a cancel may end with; a report that says otherwise is no end of a cancel. *)
Definition cancel_effect (e : LifecycleEffect) : bool := mem e [Effect.UNKNOWN; Effect.NONE; Effect.STOPPED].
Definition honest (ev : Event) : bool :=
  match ev with
  | Reported rep =>
      if same (outcome rep) Outcome.CANCELLED
      then match r_effect rep with Some e => cancel_effect e | None => true end else true
  | _ => true
  end.

Lemma transition_cancel_effect r ev a now d :
  honest ev = true -> transition r ev a now = Ok d -> terminal r = false ->
  state (row d) = State.CANCELLED -> cancel_effect (effect (row d)) = true.
Proof.
  intros Hh H Ht Hc. unfold terminal in *. run_core H; simplify_eq; try congruence; try done.
  all: try (rewrite Hc in Ht; discriminate).
  all: repeat match goal with H : same (outcome _) Outcome.CANCELLED = true |- _ => rewrite H in Hh end.
  all: repeat match goal with
    | |- context [default _ (r_effect ?x)] => destruct (r_effect x); [exact Hh|done]
    | H : mem ?e [Effect.STOPPED; Effect.NONE] = true |- _ => by destruct e
    end.
Qed.

Lemma active_not_ended w : mem w ACTIVE_STORED_STATES = true -> mem w _ENDED = false.
Proof.
  intros H%mem_true%list_elem_of_In. vm_compute in H. repeat destruct H as [<-|H]; done.
Qed.

Lemma ended_words w : mem w _ENDED = false -> w <> "succeeded" /\ w <> "failed" /\ w <> "cancelled".
Proof. intros H%mem_false. unfold _ENDED in H. rewrite !not_elem_of_cons in H. tauto. Qed.

Section facts.
Context (parse : string -> option instant) (effects : CacheEffects).
Implicit Types (o : ModelCacheOperation) (now : instant).

(** ** The payload *)

Lemma tidy_quiet d :
  tidy d -> document_ok parse d -> legacy_claim parse d = None /\ legacy_retry_due parse d = None.
Proof.
  destruct d as [p|p c|c]; simpl; [|done|done]. intros H _.
  unfold legacy_claim, legacy_retry_due. simpl. by rewrite H.
Qed.

Lemma payload_storable o p : document_ok parse (op_payload o) -> _payload o = Some p -> storable p.
Proof. unfold _payload, document_ok. destruct (op_payload o); naive_solver. Qed.

(** What a write of the payload column keeps of the row. *)
Record rewritten (o o' : ModelCacheOperation) : Prop := {
  rw_row : o' = o <| op_payload := op_payload o' |>;
  rw_ok : document_ok parse (op_payload o');
  rw_tidy : tidy (op_payload o');
  rw_cancel : cancel_clock parse (op_payload o') = cancel_clock parse (op_payload o);
}.

Lemma rewritten_refl o : document_ok parse (op_payload o) -> tidy (op_payload o) -> rewritten o o.
Proof. intros. constructor; try done. by destruct o. Qed.

Lemma tidy_spec o after spent :
  document_ok parse (op_payload o) ->
  exists o' ch, _tidy_payload o after spent = Ok (o', ch) /\ rewritten o o'.
Proof.
  intros Hd. unfold _tidy_payload. destruct (_payload o) as [p|] eqn:Ep.
  - pose proof (payload_storable o p Hd Ep) as Hs. case_bool_decide as He.
    + do 2 eexists. split; [reflexivity|]. apply rewritten_refl; [done|]. by rewrite He.
    + unfold _store_payload.
      destruct (write_payload_ok (tidied p after spent)) as [bs ->]; [by apply storable_tidied|].
      cbn [mbind result_bind]. do 2 eexists. split; [reflexivity|]. constructor; [by destruct o| |done|].
      * exact (storable_tidied p after spent Hs).
      * unfold cancel_clock, _payload in *. destruct (op_payload o) as [q|q c|c]; simplify_eq; [done|].
        simpl. by destruct Hd as [_ ->].
  - do 2 eexists. split; [reflexivity|]. unfold _payload in Ep.
    apply rewritten_refl; destruct (op_payload o); done.
Qed.

Lemma cancellation_details_ok e : cancel_effect e = true -> exists t, cancellation_details e = Ok t.
Proof. destruct e; (discriminate || by eexists). Qed.

Lemma record_cancellation_spec o before after now :
  document_ok parse (op_payload o) -> tidy (op_payload o) ->
  (state after = State.CANCELLED -> terminal before = false -> cancel_effect (effect after) = true) ->
  exists o' ch, record_cancellation o before after now = Ok (o', ch) /\ rewritten o o'.
Proof.
  intros Hd Ht He. unfold record_cancellation.
  assert (exists o' ch, Ok (o, false) = Ok (o', ch) /\ rewritten o o') as Hsame.
  { do 2 eexists. split; [reflexivity|]. by apply rewritten_refl. }
  destruct (same _ _ && negb _) eqn:Ec; [|done].
  destruct (_payload o) as [p|] eqn:Ep; [|done]. destruct (p_cancellation p) as [c|] eqn:Epc; [|done].
  bools. destruct (cancellation_details_ok (effect after)) as [t ->]; [by apply He|].
  cbn [mbind result_bind]. unfold _store_payload.
  match goal with |- context [_write_operation_payload ?q] =>
    destruct (write_payload_ok q) as [bs ->]; [exact (payload_storable o p Hd Ep)|] end.
  cbn [mbind result_bind]. do 2 eexists. split; [reflexivity|].
  unfold _payload in Ep. destruct (op_payload o) as [q|q k|k] eqn:Eo; simplify_eq; [|done].
  constructor; [by destruct o|exact Hd|exact Ht|].
  unfold cancel_clock. rewrite Eo. simpl. by rewrite Epc.
Qed.

(** ** Writing a decision *)

(** A column that already holds the value is left alone, so [put] is the assignment. *)
Lemma put_is {T} `{EqDecision T} (f : ModelCacheOperation -> T) `{!Setter f} (v : T) s :
  (forall o', o' <| f := f o' |> = o') -> fst (put f v s) = fst s <| f := v |>.
Proof. intros Hf. unfold put. case_bool_decide as E; [|done]. by rewrite <- E, Hf. Qed.

Lemma put_lease v s : exists l,
  fst (put_time op_lease_deadline v s) = fst s <| op_lease_deadline := l |> /\ to_utc <$> l = v.
Proof.
  unfold put_time. case_bool_decide as E.
  - exists (op_lease_deadline (fst s)). split; [by destruct s as [[] ?]|done].
  - exists (Aware <$> v). split; [done|]. by destruct v.
Qed.

(** The attempt column after a decision: only a claim moves it. *)
Definition attempt_after (before after : Lifecycle) (n : Z) : Z :=
  if same (state after) State.RUNNING && negb (same (state before) State.RUNNING)
  then Z.max n (retry_count after + 1) else n.

Lemma put_attempt_is before after s :
  fst (put_attempt before after s) = fst s <| op_attempt := attempt_after before after (op_attempt (fst s)) |>.
Proof.
  unfold put_attempt, attempt_after. case_match; [by rewrite (put_is op_attempt) by by intros []|].
  by destruct s as [[] ?].
Qed.

Lemma attempt_after_le before after n : n <= attempt_after before after n.
Proof. unfold attempt_after. case_match; lia. Qed.

Lemma put_fence_is after s :
  fst (put_fence after s) = fst s <| op_fence := or_else (fence after) (op_fence (fst s)) |>.
Proof.
  unfold put_fence. destruct (fence after); [by rewrite (put_is op_fence) by by intros []|].
  by destruct s as [[] ?].
Qed.

Lemma put_completed_is ended now s : exists c,
  fst (put_completed ended now s) = fst s <| op_completed_at := c |> /\
  bool_decide (c <> None) = ended.
Proof.
  exists (if ended then Some (default (Aware now) (op_completed_at (fst s))) else None).
  split; [|by destruct ended]. unfold put_completed.
  destruct ended, s as [[] ch]; simpl; by case_match; subst.
Qed.

(** What [apply] leaves in the row. *)
Record applied (o : ModelCacheOperation) (before after : Lifecycle) (now : instant)
    (interrupted : option bool) (o' : ModelCacheOperation) : Prop := {
  ad_id : op_id o' = op_id o;
  ad_kind : op_kind o' = op_kind o;
  ad_created : op_created_at o' = op_created_at o;
  ad_state : op_state o' = fst (fst (stored_form o before after interrupted));
  ad_lease : to_utc <$> op_lease_deadline o' = snd (stored_form o before after interrupted);
  ad_count : op_observe_count o' = if same (state after) State.OBSERVING then observe_count after else 0;
  ad_next : to_utc <$> op_next_action_at o' =
    let next := snd (fst (stored_form o before after interrupted)) in
    if lifecycle_waits (state after) (Aware <$> next) (Aware <$> lease_deadline after)
    then Some (default now next) else None;
  ad_fence : op_fence o' = or_else (fence after) (op_fence o);
  ad_attempt : op_attempt o' = attempt_after before after (op_attempt o);
  ad_completed : bool_decide (op_completed_at o' <> None) = mem (state after) TERMINAL_STATES;
  ad_wait : sound_columns (op_wait o') = true;
  ad_document : document_ok parse (op_payload o');
  ad_tidy : tidy (op_payload o');
  ad_cancel : cancel_clock parse (op_payload o') = cancel_clock parse (op_payload o);
}.

Lemma schedule_cache_ok o next :
  fits_identity (op_id o) = true -> sound_columns (op_wait o) = true ->
  exists w ch, schedule_cache o next = Ok (w, ch) /\ sound_columns w = true.
Proof.
  intros Hi Hs. unfold schedule_cache.
  destruct (schedule_wait_spec (cache_row o) (op_wait o) next (plain_schedule (Some (op_updated_at o))) Hs)
    as (w & ch & -> & Hv & _).
  - cbn [typed_step fits_row cache_row plain_schedule s_reason s_blockers valid_reason forallb].
    rewrite !andb_true_r. unfold str_or. case_decide as He; [|done]. rewrite He in Hi. done.
  - exists w, ch. split; [done|]. by apply valid_sound.
Qed.

Lemma cache_apply_spec o before after now interrupted spent :
  cache_ok parse o ->
  (state after = State.CANCELLED -> terminal before = false -> cancel_effect (effect after) = true) ->
  exists o' ch, apply o before after now interrupted spent = Ok (o', ch) /\
    applied o before after now interrupted o'.
Proof.
  intros [Hi Hw _ _ Hd _ _] He. unfold apply.
  destruct (stored_form o before after interrupted) as [[stored next] lease] eqn:Ef.
  set (s1 := put op_last_error _ _).
  assert (fst s1 = o <| op_attempt := attempt_after before after (op_attempt o) |> <| op_state := stored |>
            <| op_last_error := reason after |>) as E1.
  { unfold s1. rewrite (put_is op_last_error), (put_is op_state) by by intros [].
    by rewrite put_attempt_is. }
  destruct (schedule_cache_ok (fst s1) (Aware <$> next)) as (w & ch & -> & Hw1); [by rewrite E1..|].
  rewrite bind_Ok_l. set (s2 := (fst s1 <| op_wait := w |>, snd s1 || ch)).
  set (s3 := put op_observe_count _ _).
  destruct (put_lease lease s2) as (l & El & Hl).
  assert (fst s3 = fst s2 <| op_lease_deadline := l |>
     <| op_observe_count := if same (state after) State.OBSERVING then observe_count after else 0 |>) as E3.
  { unfold s3. by rewrite (put_is op_observe_count), El by by intros []. }
  set (s4 := put_completed _ _ _).
  destruct (put_completed_is (mem (state after) TERMINAL_STATES) now (put_fence after s3)) as (c & Ec & Hc).
  rewrite put_fence_is, E3 in Ec. fold s4 in Ec.
  assert (op_payload (fst s4) = op_payload o) as Ep by (rewrite Ec; unfold s2; simpl; by rewrite E1).
  destruct (tidy_spec (fst s4) after (spent && negb (mem (state after) TERMINAL_STATES)))
    as (o1 & ch1 & -> & R1); [by rewrite Ep|]. rewrite bind_Ok_l.
  destruct (record_cancellation_spec o1 before after now) as (o2 & ch2 & -> & R2);
    [apply R1|apply R1|done|].
  rewrite bind_Ok_l. set (o3 := if _ : bool then _ else _).
  assert (exists u, o3 = o2 <| op_updated_at := u |>) as [u E5].
  { unfold o3. destruct (snd s4 || ch1 || ch2); [by exists (Aware now)|].
    exists (op_updated_at o2). by destruct o2. }
  assert (o2 = fst s4 <| op_payload := op_payload o2 |>) as E4.
  { rewrite (rw_row _ _ R2) at 1. by rewrite (rw_row _ _ R1). }
  rewrite Ec in E4. unfold s2 in E4. cbn [fst] in E4. rewrite E1 in E4.
  match goal with |- context [lifecycle_wait _ ?x] => set (lw := x) end.
  destruct (lifecycle_wait_spec (op_wait o3) lw) as (w' & ch' & -> & Hv & Hres).
  { rewrite E5, E4. exact Hw1. }
  { simpl. rewrite E5, E4. simpl. by rewrite Hi. }
  rewrite bind_Ok_l. do 2 eexists. split; [reflexivity|].
  assert (op_payload o3 = op_payload o2) as Epay by by rewrite E5.
  constructor; rewrite ?Ef; cbn [fst snd]; try (rewrite E5, E4; done).
  - unfold op_next_action_at. cbn [op_wait set_field set_op_wait].
    cbn [l_state l_due l_lease_deadline lw] in Hres.
    destruct (lifecycle_waits _ _ _); [|by rewrite Hres].
    destruct Hres as (q & _ & -> & _). simpl. by destruct next.
  - by apply valid_sound.
  - change (document_ok parse (op_payload o3)). rewrite Epay. apply R2.
  - change (tidy (op_payload o3)). rewrite Epay. apply R2.
  - change (cancel_clock parse (op_payload o3) = cancel_clock parse (op_payload o)).
    rewrite Epay, (rw_cancel _ _ R2), (rw_cancel _ _ R1). by rewrite Ep.
Qed.

(** The retry record of the payload after a decision. *)
Lemma tidy_retry o after spent o' ch p :
  _tidy_payload o after spent = Ok (o', ch) -> _payload o = Some p ->
  exists p', op_payload o' = Dump p' /\ p_retry p' = p_retry (tidied p after spent).
Proof.
  unfold _tidy_payload. intros H Hp. rewrite Hp in H. case_bool_decide as E; unbind; simplify_eq.
  - by eexists.
  - unfold _store_payload in *. unbind. simplify_eq. eexists. split; [reflexivity|].
    unfold _write_operation_payload in *. case_match; by simplify_eq.
Qed.

Lemma record_retry o before after now o' ch p :
  record_cancellation o before after now = Ok (o', ch) -> op_payload o = Dump p ->
  exists p', op_payload o' = Dump p' /\ p_retry p' = p_retry p.
Proof.
  unfold record_cancellation. intros H Hp. unfold _payload in H. rewrite Hp in H.
  repeat case_match; unbind; simplify_eq; eauto.
  unfold _store_payload in *. unbind. simplify_eq. eexists. split; [reflexivity|].
  unfold _write_operation_payload in *. case_match; by simplify_eq.
Qed.

Lemma apply_retry o before after now i spent o' ch p :
  apply o before after now i spent = Ok (o', ch) -> _payload o = Some p ->
  exists p', op_payload o' = Dump p' /\
    p_retry p' = p_retry (tidied p after (spent && negb (mem (state after) TERMINAL_STATES))).
Proof.
  unfold apply. destruct (stored_form o before after i) as [[stored next] lease]. intros H Hp. unbind.
  destruct v as [w ch0]. unbind. destruct v as [o1 ch1]. unbind. destruct v as [o2 ch2]. unbind.
  destruct v as [w' ch']. unbind. simplify_eq.
  match goal with H : _tidy_payload ?s _ _ = Ok _ |- _ => assert (op_payload s = op_payload o) as E end.
  { edestruct put_completed_is as (c & -> & _). rewrite put_fence_is, (put_is op_observe_count) by by intros [].
    edestruct put_lease as (l & -> & _). cbn [fst].
    by rewrite (put_is op_last_error), (put_is op_state), put_attempt_is by by intros []. }
  match goal with H : _tidy_payload ?s _ _ = Ok _ |- _ => destruct (tidy_retry _ _ _ _ _ p H) as (p1 & E1 & R1) end.
  { unfold _payload in *. by rewrite E. }
  match goal with H : record_cancellation _ _ _ _ = Ok _ |- _ =>
    destruct (record_retry _ _ _ _ _ _ p1 H E1) as (p2 & E2 & R2) end.
  exists p2. split; [|congruence]. cbn [op_payload set_field set_op_wait].
  match goal with |- context [if ?b then _ else _] => by destruct b end.
Qed.

(** ** Reading a decision back *)

(** What the decided row [r] is read back as from the row [o] it left, by every later reader:
    its state, its clock and its observation count.  A removal has no lease and is not
    observed: between its steps it is queued, or waits for its clock.  A queued download
    whose work stopped part way keeps the word [partial] and reads as a retry with no clock;
    an observation is told by its count alone, so one whose count is zero is read by the
    word it left behind.  Nothing else has a clock or a count of its own. *)
Definition cache_read_back (o : ModelCacheOperation) (r : Lifecycle)
  : LifecycleState * option instant * Z :=
  match state r with
  | State.QUEUED =>
      (if removal o || negb (ModelCacheStates.operation_is_backoff (Some (op_state o)))
       then State.QUEUED else State.BACKOFF, None, 0)
  | State.BACKOFF => (State.BACKOFF, next_action_at r, 0)
  | State.OBSERVING =>
      if removal o then (State.BACKOFF, next_action_at r, observe_count r)
      else if 0 <? observe_count r then (State.OBSERVING, next_action_at r, observe_count r)
      else if bool_decide (op_state o = "running") then (State.RUNNING, None, observe_count r)
      else (State.BACKOFF, next_action_at r, observe_count r)
  | State.RUNNING => (if removal o then State.QUEUED else State.RUNNING, None, 0)
  | st => (st, None, 0)
  end.

(** A later read [r'] of the decided row [r]: what was written of it, or the row itself where
    the decision left the operation as it was; a running download keeps its fence, and its
    lease wherever the transfer is not this process's own. *)
Record reads_as (o : ModelCacheOperation) (r r' : Lifecycle) : Prop := {
  ra_id : id r' = id r;
  ra_seen : seen r' = cache_read_back o r \/ seen r' = seen r;
  ra_running : removal o = false -> state r = State.RUNNING ->
    (forall f, fence r = Some f -> fence r' = Some f) /\
    (forall l, lease_deadline r = Some l -> mem (op_id o) (running_here effects) = false ->
       lease_deadline r' = Some l);
}.

(** Every later read. *)
Definition stored_as (o : ModelCacheOperation) (r : Lifecycle) : Prop :=
  forall now', reads_as o r (lifecycle parse effects o now').

Lemma cache_reads o now :
  let r := lifecycle parse effects o now in
  let '(st, lease, next) := read_operation parse effects o now in
  id r = op_id o /\ kind r = op_kind o /\ state r = st /\ next_action_at r = next /\
  lease_deadline r = (if same st State.RUNNING then lease else None) /\
  observe_count r = op_observe_count o /\ fence r = read_fence parse o /\
  recovery_deadline r = None /\ attempt r = Z.max (op_attempt o) 1 /\
  cancel_requested r = bool_decide (cancel_clock parse (op_payload o) <> None).
Proof.
  unfold lifecycle. destruct (read_operation _ _ o now) as [[st lease] next].
  destruct (cancellation_of _ _ now) as [rq key] eqn:Ec. simpl. split_and!; try done.
  unfold cancel_requested, cancel_clock. unfold cancellation_of in Ec. cbn [cancel_requested_at].
  destruct (clock_cancellation _); simplify_eq; by rewrite ?bool_decide_eq_true_2, ?bool_decide_eq_false_2 by naive_solver.
Qed.

(** A row with no legacy clock is its columns. *)
Lemma read_columns o now :
  legacy_claim parse (op_payload o) = None -> legacy_retry_due parse (op_payload o) = None ->
  let lease := to_utc <$> op_lease_deadline o in
  let next := to_utc <$> op_next_action_at o in
  read_operation parse effects o now =
    if bool_decide (op_state o = "succeeded") then (State.SUCCEEDED, lease, next)
    else if bool_decide (op_state o = "failed") then (State.FAILED, lease, next)
    else if bool_decide (op_state o = "cancelled") then (State.CANCELLED, lease, next)
    else if removal o then
      (if bool_decide (next <> None) then State.BACKOFF else State.QUEUED, None, next)
    else if 0 <? op_observe_count o then (State.OBSERVING, None, Some (default now next))
    else if bool_decide (op_state o = "running") then
      let l := if mem (op_id o) (running_here effects)
               then Z.max (default now lease) (now + seconds 1)
               else default (to_utc (op_updated_at o)) lease in
      (State.RUNNING, Some l, Some l)
    else if bool_decide (next <> None) then (State.BACKOFF, lease, next)
    else if bool_decide (op_state o = "queued") then (State.QUEUED, lease, next)
    else (State.BACKOFF, lease, next).
Proof.
  intros Hc Hr lease next. unfold read_operation. rewrite Hr.
  assert (match to_utc <$> op_lease_deadline o with None => legacy_claim parse (op_payload o) | Some _ => None end
          = None) as -> by (by destruct (op_lease_deadline o)).
  assert (match op_next_action_at o with Some t => Some (to_utc t) | None => None end = next) as ->.
  { unfold next. by destruct (op_next_action_at o). }
  fold lease. rewrite (bool_decide_eq_false_2 (None <> None)) by naive_solver. rewrite orb_false_r.
  repeat (case_match; [done|]).
  destruct (bool_decide (op_state o = "running")); rewrite ?andb_false_r, ?andb_true_r; [|done].
  destruct (mem (op_id o) (running_here effects)); [done|]. by destruct lease.
Qed.

Lemma read_fence_quiet o : legacy_claim parse (op_payload o) = None -> read_fence parse o = op_fence o.
Proof. intros H. unfold read_fence. rewrite H. by destruct (op_lease_deadline o). Qed.

Lemma cache_stored_as o before after now interrupted o' :
  applied o before after now interrupted o' -> 0 <= observe_count after -> storable_row after ->
  id after = op_id o -> stored_as o' after.
Proof.
  intros A Hcount [Hs Hnext] Hid now'.
  destruct (tidy_quiet _ (ad_tidy _ _ _ _ _ _ A) (ad_document _ _ _ _ _ _ A)) as [Hc Hr].
  pose proof (cache_reads o' now') as Hl. rewrite (read_columns o' now' Hc Hr), (read_fence_quiet o' Hc) in Hl.
  pose proof (ad_state _ _ _ _ _ _ A) as Es. pose proof (ad_lease _ _ _ _ _ _ A) as El.
  pose proof (ad_count _ _ _ _ _ _ A) as Ec. pose proof (ad_next _ _ _ _ _ _ A) as En.
  rewrite El, En, Ec, Es, (ad_fence _ _ _ _ _ _ A) in Hl. unfold stored_form in Hl, Es.
  assert (exists w, mem w _ENDED = false /\
    w = if mem (op_state o) ACTIVE_STORED_STATES then op_state o else ModelCacheStates.BACKOFF) as (w & Hw & Ew).
  { eexists. split; [|reflexivity]. destruct (mem (op_state o) ACTIVE_STORED_STATES) eqn:E; [by apply active_not_ended|done]. }
  rewrite <- Ew in Hl, Es. apply ended_words in Hw as (W1 & W2 & W3).
  destruct (state after) eqn:Est; try done; cbn [fst snd] in Hl |- *.
  all: try (destruct (ModelCacheStates.operation_is_backoff (Some (op_state o))); simpl in Hl).
  all: try (destruct (label_partial _ _ _); simpl in Hl).
  all: try (specialize (Hnext eq_refl); destruct (next_action_at after) as [t|] eqn:Ent; [|done]).
  all: simpl in Hl.
  all: try (rewrite !(bool_decide_eq_false_2 (w = "succeeded")),
      !(bool_decide_eq_false_2 (w = "failed")), !(bool_decide_eq_false_2 (w = "cancelled")) in Hl by done).
  all: destruct (removal o') eqn:Er, (0 <? observe_count after) eqn:Eo, (bool_decide (w = "running")) eqn:Erun;
    simpl in Hl; destruct Hl as (Hi & _ & HS & HN & HL & HO & HF & _).
  all: constructor; unfold cache_read_back, seen;
    rewrite ?Hi, ?HS, ?HN, ?HL, ?HO, ?HF, ?Est, ?Er, ?Eo, ?Es, ?Est, ?Erun, ?Ent; simpl; try done.
  all: try (intros; split_and?; congruence).
  all: try (by left).
  all: try (intros; by rewrite (ad_id _ _ _ _ _ _ A)).
  all: try (left; by rewrite Erun).
  all: intros _ _; split_and!; [by intros f ->|by intros l -> ->].
Qed.

Lemma read_stable o now now' :
  cache_ok parse o ->
  let '(st, lease, next) := read_operation parse effects o now in
  let '(st', lease', next') := read_operation parse effects o now' in
  st' = st /\ (st <> State.RUNNING -> next' = next) /\
  (mem (op_id o) (running_here effects) = false -> lease' = lease) /\
  (removal o = false -> st = State.QUEUED -> next = None) /\
  mem st [State.SUPERSEDED; State.NEEDS_OPERATOR] = false /\
  (st = State.OBSERVING -> 0 < op_observe_count o).
Proof.
  intros K. unfold read_operation.
  destruct (op_next_action_at o) as [t|] eqn:En.
  - repeat case_match; simplify_eq; bools; split_and!; try done; intros; bools; try congruence; try lia; try done.
  - destruct (legacy_retry_due parse (op_payload o)) as [t|] eqn:Er.
    all: repeat case_match; simplify_eq; bools; split_and!; try done; intros; bools; try congruence; try lia; try done.
    all: by destruct (mc_clock _ _ K).
Qed.

Lemma cache_read_stored o now : cache_ok parse o -> stored_as o (lifecycle parse effects o now).
Proof.
  intros K now'. pose proof (cache_reads o now) as H. pose proof (cache_reads o now') as H'.
  pose proof (read_stable o now now' K) as S.
  destruct (read_operation _ _ o now) as [[st lease] next], (read_operation _ _ o now') as [[st' lease'] next'].
  destruct S as (-> & S2 & S3 & S4 & _ & _), H as (I & _ & T & N & L & C & F & _), H' as (I' & _ & T' & N' & L' & C' & F' & _).
  constructor; unfold seen; rewrite ?I, ?I', ?T, ?T', ?C, ?C', ?F, ?F', ?N, ?N', ?L, ?L'; try done.
  - right. destruct (decide (st = State.RUNNING)) as [->|Hr]; [done|]. by rewrite S2.
  - intros _ ->. split_and!; try done. simpl. intros l -> Hm. by rewrite S3.
Qed.

(** ** Settling *)

(** What a decision keeps of the row it is written to. *)
Record same_operation (o o' : ModelCacheOperation) : Prop := {
  so_id : op_id o' = op_id o;
  so_kind : op_kind o' = op_kind o;
  so_created : op_created_at o' = op_created_at o;
  so_attempt : op_attempt o <= op_attempt o';
  so_cancel : cancel_clock parse (op_payload o') = cancel_clock parse (op_payload o);
}.

#[local] Instance same_operation_preorder : PreOrder same_operation.
Proof.
  split; [intros o; by constructor|]. intros a b c [] []. constructor; try congruence. lia.
Qed.

Lemma applied_same o before after now i o' : applied o before after now i o' -> same_operation o o'.
Proof.
  intros []. constructor; try done. rewrite ad_attempt0. apply attempt_after_le.
Qed.

(** The words of a decision: an ended word exactly for an ended state. *)
Lemma stored_form_ended o before after i :
  storable_row after ->
  mem (fst (fst (stored_form o before after i))) _ENDED = mem (state after) TERMINAL_STATES.
Proof.
  intros [Hs _]. unfold stored_form.
  destruct (state after) eqn:E; try done; simpl; try (by case_match).
  case_match eqn:Ea; [by apply active_not_ended|done].
Qed.

Lemma applied_ok o before after now i o' :
  applied o before after now i o' -> storable_row after -> 0 <= observe_count after ->
  cache_ok parse o -> cache_ok parse o'.
Proof.
  intros A S Hn [Hi _ _ _ _ _ _].
  assert (mem (op_state o') _ENDED = mem (state after) TERMINAL_STATES) as Ew.
  { rewrite (ad_state _ _ _ _ _ _ A). by apply stored_form_ended. }
  pose proof (ad_next _ _ _ _ _ _ A) as En. pose proof (ad_count _ _ _ _ _ _ A) as Ec.
  constructor; [|apply A|..|apply A| |].
  - by rewrite (ad_id _ _ _ _ _ _ A).
  - rewrite Ec. case_match; lia.
  - rewrite Ec. intros _ Hlt E. rewrite E in En. cbn zeta in En. revert En.
    case_match eqn:Eo; [|lia]. apply (proj1 (same_true _ _)) in Eo. rewrite Eo. by simpl.
  - rewrite Ew, Ec. intros Ht. destruct (op_next_action_at o') eqn:E.
    + exfalso. revert En Ht. cbn zeta. destruct (state after); simpl; done.
    + revert Ht. by destruct (state after).
  - rewrite Ew. apply A.
Qed.

(** The same row up to its text. *)
Definition same_text (o o' : ModelCacheOperation) : Prop := exists why, o' = o <| op_last_error := why |>.

Lemma same_text_facts o o' :
  same_text o o' -> same_operation o o' /\ (cache_ok parse o -> cache_ok parse o') /\
  (forall r, stored_as o r -> stored_as o' r).
Proof.
  intros [why ->]. split_and!; [by constructor|intros []; by constructor|].
  intros r H now'. destruct (H now') as [].
  pose proof (cache_reads o now') as E. pose proof (cache_reads (o <| op_last_error := why |>) now') as E'.
  change (read_operation parse effects (o <| op_last_error := why |>) now')
    with (read_operation parse effects o now') in E'.
  destruct (read_operation _ _ o now') as [[st lease] next].
  destruct E as (E1 & _ & E2 & E3 & E4 & E5 & E6 & _), E' as (F1 & _ & F2 & F3 & F4 & F5 & F6 & _).
  change (read_fence parse (o <| op_last_error := why |>)) with (read_fence parse o) in F6.
  constructor; unfold seen in *; rewrite ?F1, ?F2, ?F3, ?F4, ?F5, ?F6;
    rewrite ?E1, ?E2, ?E3, ?E4, ?E5, ?E6 in *; done.
Qed.

Let x := row_adapter effects.

Lemma run_commands_cache cs r : forall p n o,
  exists o' ans n', run_commands cs r x residue_cache p n o = (o', ans, n') /\ same_text o o' /\
    (ans = p \/ exists ev c, ans = Some ev /\ is_observed ev = true /\
       c ∈ cs /\ mem c [Observe; Stop] = true).
Proof.
  induction cs as [|c cs IH]; intros p n o; cbn [run_commands].
  { do 3 eexists. split; [reflexivity|]. split; [exists (op_last_error o); by destruct o|by left]. }
  assert (exists o1 a, _run c r x residue_cache o = (o1, a) /\ same_text o o1 /\
            (a = None \/ exists ev, a = Some ev /\ is_observed ev = true /\ mem c [Observe; Stop] = true))
    as (o1 & a & -> & Hs1 & Ha).
  { assert (same_text o o) as Hr by (exists (op_last_error o); by destruct o).
    destruct c; simpl; [by do 2 eexists; split_and!; [done..|left]|..].
    - destruct (observe_of effects (get_row o (id r))). do 2 eexists. split_and!; [done..|]. right. eauto.
    - do 2 eexists. split_and!; [done..|]. right. eauto.
    - do 2 eexists. split_and!; [done| |by left]. by eexists. }
  destruct (IH (or_else a p) (n + 1) o1) as (o' & ans & n' & -> & Hs' & Hans).
  do 3 eexists. split; [reflexivity|]. split.
  - destruct Hs1 as [w1 ->], Hs' as [w2 ->]. by exists w2.
  - destruct Hans as [->|(ev & c' & ? & ? & ? & ?)]; [|right; exists ev, c'; split_and!; [done..|by right|done]].
    destruct Ha as [->|(ev & -> & ? & ?)]; [by left|]. right. exists ev, c. split_and!; try done. left.
Qed.

(** Properties of the decided row and of the stored one that every decision keeps. *)
Record kept (now : instant) (i : option bool) (P : Lifecycle -> Prop) (Q : ModelCacheOperation -> Prop)
  : Prop := {
  kept_row : forall r ev o d, P r -> transition r ev (reads x o) now = Ok d -> P (row d);
  kept_stored : forall o r r' o', P r' -> applied o r r' now i o' -> Q o -> Q o';
  kept_text : forall o o', same_text o o' -> Q o -> Q o';
}.

Lemma settle_loop_cache now i spent steps : forall r p n_changed n_ran o,
  cache_ok parse o -> id r = op_id o -> 0 <= observe_count r ->
  mem (state r) [State.SUPERSEDED; State.NEEDS_OPERATOR] = false ->
  (forall ev, p = Some ev -> honest ev = true) ->
  exists o' st,
    settle_loop steps r p x now (save_cache now i spent) residue_cache n_changed n_ran o = (o', Ok st) /\
    cache_ok parse o' /\ same_operation o o' /\ id (settled_row st) = op_id o /\
    mem (state (settled_row st)) [State.SUPERSEDED; State.NEEDS_OPERATOR] = false /\
    (stored_as o r -> stored_as o' (settled_row st)) /\
    (forall P Q, kept now i P Q -> P r -> Q o -> P (settled_row st) /\ Q o').
Proof.
  induction steps as [|steps IH]; intros r p n_changed n_ran o K Hid Hn Hs Hh; cbn [settle_loop].
  { do 2 eexists. split; [reflexivity|]. by split_and!. }
  destruct p as [ev|]; [|do 2 eexists; split; [reflexivity|]; by split_and!].
  assert (id r <> EmptyString) as Hne.
  { rewrite Hid. intros He. pose proof (mc_identity _ _ K) as Hi. by rewrite He in Hi. }
  destruct (transition_ok r ev (reads x o) now Hne) as [d Hd]. rewrite Hd.
  pose proof (frame_id _ _ (transition_frame _ _ _ _ _ Hd)) as Hid'.
  pose proof (transition_count _ _ _ _ _ Hn Hd) as Hn'.
  pose proof (transition_storable _ _ _ _ _ Hs Hd) as Hst.
  assert (mem (state (row d)) [State.SUPERSEDED; State.NEEDS_OPERATOR] = false) as Hs'.
  { destruct Hst as [->|[? _]]; done. }
  assert (forall o1 n, cache_ok parse o1 -> same_operation o o1 ->
    (stored_as o r -> stored_as o1 (row d)) ->
    (forall P Q, kept now i P Q -> P r -> Q o -> Q o1) ->
    exists o' st,
      (let '(w'', answer, n_ran') := run_commands (commands d) (row d) x residue_cache None n_ran o1 in
       settle_loop steps (row d) answer x now (save_cache now i spent) residue_cache n n_ran' w'')
      = (o', Ok st) /\ cache_ok parse o' /\ same_operation o o' /\ id (settled_row st) = op_id o /\
      mem (state (settled_row st)) [State.SUPERSEDED; State.NEEDS_OPERATOR] = false /\
      (stored_as o r -> stored_as o' (settled_row st)) /\
      (forall P Q, kept now i P Q -> P r -> Q o -> P (settled_row st) /\ Q o')) as Hnext.
  { intros o1 n K1 S1 Hst1 Hkept.
    destruct (run_commands_cache (commands d) (row d) None n_ran o1) as (o2 & ans & n' & -> & Ht & Hans).
    destruct (same_text_facts _ _ Ht) as (S2 & K2 & R2).
    destruct (IH (row d) ans n n' o2) as (o' & st & He & K' & S' & Hi' & Hm' & R' & Q').
    - auto.
    - rewrite Hid', Hid, (so_id _ _ S2), (so_id _ _ S1). done.
    - done.
    - done.
    - intros e ->. destruct Hans as [?|(ev' & c & [= <-] & Ho & _)]; [done|]. by destruct e.
    - exists o', st. split; [exact He|]. split; [exact K'|]. split; [|split; [|split; [exact Hm'|split]]].
      + by etrans; [exact S1|etrans].
      + by rewrite Hi', (so_id _ _ S2), (so_id _ _ S1).
      + intros Hr. by apply R', R2, Hst1.
      + intros P Q HK HP HQ. apply (Q' P Q HK); [by eapply (kept_row _ _ _ _ HK)|].
        eapply (kept_text _ _ _ _ HK); [exact Ht|]. by eapply Hkept. }
  case_bool_decide as Hrow.
  - rewrite Hrow in *. apply Hnext; [done|reflexivity|done|done].
  - destruct Hst as [?|Hst]; [done|]. unfold save_cache at 1.
    destruct (cache_apply_spec o r (row d) now i spent K) as (o1 & ch & -> & A).
    { intros Hc Ht. exact (transition_cancel_effect _ _ _ _ _ (Hh ev eq_refl) Hd Ht Hc). }
    apply Hnext; [by eapply applied_ok|by eapply applied_same| |].
    + intros _. eapply cache_stored_as; [done..|]. congruence.
    + intros P Q HK HP HQ. eapply (kept_stored _ _ _ _ HK); [|exact A|exact HQ].
      by eapply (kept_row _ _ _ _ HK).
Qed.

Lemma lifecycle_read o now :
  cache_ok parse o ->
  let r := lifecycle parse effects o now in
  id r = op_id o /\ observe_count r = op_observe_count o /\
  mem (state r) [State.SUPERSEDED; State.NEEDS_OPERATOR] = false /\ counted r.
Proof.
  intros K. pose proof (cache_reads o now) as H. pose proof (read_stable o now now K) as S.
  destruct (read_operation _ _ o now) as [[st lease] next].
  destruct S as (_ & _ & _ & _ & Hm & Ho), H as (I & _ & T & _ & _ & C & _).
  unfold counted. rewrite I, C, T. pose proof (mc_count _ _ K). split_and!; try done. intros Hst. specialize (Ho Hst). lia.
Qed.

Lemma settle_cache_ok o ev now i :
  cache_ok parse o -> honest ev = true ->
  exists o' r, settle_cache parse effects o ev now i = (o', Ok r) /\ cache_ok parse o' /\
    same_operation o o' /\ id r = op_id o /\
    mem (state r) [State.SUPERSEDED; State.NEEDS_OPERATOR] = false /\
    stored_as o' r /\
    (forall P Q, kept now i P Q -> P (lifecycle parse effects o now) -> Q o -> P r /\ Q o').
Proof.
  intros K Hh. destruct (lifecycle_read o now K) as (Hi & Hn & Hm & Hc). unfold settle_cache, settle.
  destruct (settle_loop_cache now i (spends ev) MAX_STEPS_PER_ROW (lifecycle parse effects o now) (Some ev) 0 0 o)
    as (o' & st & He & K' & S' & Hi' & Hm' & R & HQ).
  - done.
  - done.
  - rewrite Hn. apply K.
  - done.
  - by intros ? [= <-].
  - unfold x in He. rewrite He. cbn [mbind result_bind]. exists o', (settled_row st).
    split_and!; try done. by apply R, cache_read_stored.
Qed.
End facts.
