(* ===== verification/ModelCacheOwners.v ===== *)
(** * The owners of a model-cache operation

    What the owner's events of [ModelCache] may grant: exactly which operation a claim
    takes, that a running one belongs to its fence, that an accepted cancel outlives every
    history, that a download whose stall window ran out is ended and never run again, that
    a wait spends no attempt, and what startup adoption keeps of a legacy row. *)
From S2P Require Import Prelude Vocabulary ReasonCodes Disposition Recovery.
From S2P Require Import LifecycleTypes LifecycleCore LifecycleFacts LifecycleTraces Reconciler.
From S2P Require Import StallWindow Blockers PersistedWaits SparkOrder SparkOrderFacts ModelCache.
From S2P Require Import ModelCacheFacts.

Lemma str_take_all n s : (String.length s <= n)%nat -> str_take n s = s.
Proof.
  revert n; induction s as [|c s IH]; intros [|n] H; simpl in *; try done; [lia|].
  unfold str_take in *. simpl. rewrite IH; [done|lia].
Qed.

Section owners.
Context (parse : string -> option instant) (effects : CacheEffects).
Implicit Types (o : ModelCacheOperation) (now : instant).

Notation lifecycle := (lifecycle parse effects).
Notation settle_cache := (settle_cache parse effects).
Notation claim := (claim parse effects).
Notation renew := (renew parse effects).


(** ** Claims *)

(** Whether the stall window of a download has run out. *)
Definition expired o now : bool :=
  match recovery_deadline_of effects (Some o) with Some d => d <=? now | None => false end.

Lemma get_row_own o : get_row o (op_id o) = Some o.
Proof. unfold get_row. by rewrite bool_decide_eq_true_2. Qed.

Lemma lifecycle_id o now : id (lifecycle o now) = op_id o.
Proof.
  pose proof (cache_reads parse effects o now) as H.
  destruct (read_operation _ _ o now) as [[? ?] ?]. apply H.
Qed.

Lemma lifecycle_attempt o now : attempt (lifecycle o now) = Z.max (op_attempt o) 1.
Proof.
  pose proof (cache_reads parse effects o now) as H.
  destruct (read_operation _ _ o now) as [[? ?] ?]. apply H.
Qed.

Lemma deadline_passed_row o now :
  deadline_passed (lifecycle o now) (reads (row_adapter effects) o) now = expired o now.
Proof.
  unfold deadline_passed, expired. simpl. unfold adapter_deadline. simpl.
  by rewrite lifecycle_id, get_row_own.
Qed.

(** An event that leaves the row as it is. *)
Lemma settle_unchanged o ev now i r :
  lifecycle o now = r -> transition r ev (reads (row_adapter effects) o) now = Ok (Decided r []) ->
  settle_cache o ev now i = (o, Ok r).
Proof.
  intros <- Ht. unfold ModelCache.settle_cache, settle, MAX_STEPS_PER_ROW. cbn [settle_loop].
  rewrite Ht. cbn [row commands run_commands]. by rewrite bool_decide_eq_true_2.
Qed.

Definition is_residue (c : Command) : bool := match c with RecordResidue _ => true | _ => false end.

Lemma run_residues cs r n o : forallb is_residue cs = true ->
  exists o' n', run_commands cs r (row_adapter effects) residue_cache None n o = (o', None, n') /\ same_text o o'.
Proof.
  revert n o; induction cs as [|c cs IH]; intros n o H; cbn [run_commands].
  - exists o, n. split; [done|]. exists (op_last_error o). by destruct o.
  - cbn [forallb] in H. apply andb_true_iff in H as [Hc H]. destruct c; try done. cbn [_run residue_cache or_else].
    match goal with |- context [fst ?m] => set (o1 := fst m) end.
    destruct (IH (n + 1) o1 H) as (o' & n' & -> & [w ->]). do 2 eexists. split; [reflexivity|]. by exists w.
Qed.

Lemma applied_text o before after now i o' o'' :
  same_text o' o'' -> applied parse o before after now i o' -> applied parse o before after now i o''.
Proof. intros [w ->] []. by constructor. Qed.

(** An event decided in one step, with no question to answer. *)
Lemma settle_decided o ev now i d cs :
  cache_ok parse o -> honest ev = true ->
  transition (lifecycle o now) ev (reads (row_adapter effects) o) now = Ok (Decided d cs) ->
  forallb is_residue cs = true -> d <> lifecycle o now ->
  exists o', settle_cache o ev now i = (o', Ok d) /\ applied parse o (lifecycle o now) d now i o' /\
    exists o1 ch, apply o (lifecycle o now) d now i (spends ev) = Ok (o1, ch) /\ same_text o1 o'.
Proof.
  intros K Hh Ht Hcs Hne.
  destruct (cache_apply_spec parse o (lifecycle o now) d now i (spends ev) K) as (o1 & ch & Ha & A).
  { intros Hc Hl. exact (transition_cancel_effect _ _ _ _ _ Hh Ht Hl Hc). }
  destruct (run_residues cs d 0 o1 Hcs) as (o' & n' & Hr & T).
  exists o'. split; [|split; [by eapply applied_text|by exists o1, ch]].
  unfold ModelCache.settle_cache, settle, MAX_STEPS_PER_ROW. cbn [settle_loop].
  rewrite Ht. cbn [row commands]. rewrite bool_decide_eq_false_2 by done.
  unfold save_cache at 1. rewrite Ha, Hr. done.
Qed.

(** The row a claim decides. *)
Definition claimed_row (r : Lifecycle) (owner : string) (lease : instant) : Lifecycle :=
  r <| state := State.RUNNING |> <| attempt := attempt r + 1 |> <| fence := Some owner |>
    <| lease_deadline := Some lease |> <| next_action_at := Some lease |>
    <| effect := Effect.ISSUED |> <| observe_count := 0 |>.

Lemma claim_transition o now owner lease :
  let r := lifecycle o now in
  expired o now = false ->
  transition r (Claimed (attempt r + 1) owner lease) (reads (row_adapter effects) o) now =
    Ok (Decided (if claimable r now then claimed_row r owner lease else r) []).
Proof.
  intros r He. pose proof (deadline_passed_row o now) as Hd. fold r in Hd. unfold transition.
  rewrite Hd, He. cbn [andb _stale dispatch].
  unfold _claimed, claimable.
  rewrite (proj2 (Z.leb_gt (attempt r + 1) (attempt r))) by lia. rewrite orb_false_r.
  destruct (terminal r) eqn:Et.
  { unfold terminal in Et. revert Et. by destruct (state r). }
  set (c := same (state r) State.QUEUED || _). destruct c, (cancel_requested r); done.
Qed.

(** When a claim is decided, and what it finds then. *)
Definition claim_at o now (ignore : bool) : instant :=
  claim_instant (lifecycle o now) (recovery_deadline_of effects (Some o)) now ignore.

Lemma claim_at_inside o now ignore : expired o now = false -> expired o (claim_at o now ignore) = false.
Proof.
  unfold expired, claim_at, claim_instant.
  destruct (recovery_deadline_of effects (Some o)) as [d|]; [|done]. intros H. bools.
  apply Z.leb_gt. repeat case_match; lia.
Qed.

Lemma claim_cases o owner lease now ignore :
  cache_ok parse o -> expired o now = false ->
  let t := claim_at o now ignore in
  let r := lifecycle o t in
  if claimable r t then
    exists o', claim o owner lease now ignore = (o', Ok true) /\
      applied parse o r (claimed_row r owner (t + lease)) t None o'
  else claim o owner lease now ignore =
         (o, Ok (same (state r) State.RUNNING && bool_decide (fence r = Some owner))).
Proof.
  intros K He t r. unfold ModelCache.claim. rewrite lifecycle_id, get_row_own. fold (expired o now).
  rewrite He. cbn [andb]. fold (claim_at o now ignore). fold t.
  rewrite lifecycle_attempt, <- (lifecycle_attempt o t). fold r.
  pose proof (claim_transition o t owner (t + lease) (claim_at_inside _ _ _ He)) as Ht. fold r in Ht.
  destruct (claimable r t) eqn:Ec.
  - destruct (settle_decided o (Claimed (attempt r + 1) owner (t + lease)) t None _ _ K eq_refl Ht)
      as (o' & -> & A & _); [done| |].
    + intros E%(f_equal attempt). change (attempt r + 1 = attempt r) in E. lia.
    + exists o'. split; [|done]. cbn [mbind result_bind]. simpl.
      by rewrite bool_decide_eq_true_2.
  - rewrite (settle_unchanged o _ t None r eq_refl Ht). done.
Qed.

(** What observing a download finds once its window has run out. *)
Definition found o : bool := same (fst (observe_of effects (Some o))) Effect.ESTABLISHED.

Lemma settle_expired o e why now i :
  cache_ok parse o -> expired o now = true ->
  terminal (lifecycle o now) = false -> cancel_requested (lifecycle o now) = false ->
  exists o' r, settle_cache o (Observed e why) now i = (o', Ok r) /\ cache_ok parse o' /\
    same_operation parse o o' /\
    op_state o' = if same e Effect.ESTABLISHED then "succeeded" else "failed".
Proof.
  intros K He Ht Hc. pose proof (deadline_passed_row o now) as Hp. set (r := lifecycle o now) in *.
  set (d := r <| state := if same e Effect.ESTABLISHED then State.SUCCEEDED else State.FAILED |>
     <| effect := e |> <| next_action_at := None |> <| lease_deadline := None |>
     <| reason := str_or why (reason r) |>).
  assert (exists cs, transition r (Observed e why) (reads (row_adapter effects) o) now = Ok (Decided d cs) /\
            forallb is_residue cs = true) as (cs & Hd & Hcs).
  { unfold transition. rewrite Ht. cbn [_stale is_cancel]. rewrite Hp, He, Hc.
    cbn [andb negb past_deadline]. unfold blind_retry_is_safe. cbn [irreversible reads row_adapter ModelCacheAdapter].
    rewrite !orb_true_r, andb_false_r. eexists. split; [reflexivity|]. by destruct (same e Effect.UNKNOWN). }
  assert (storable_row d) as Sd by (constructor; simpl; destruct (same e _); done).
  destruct (settle_decided o (Observed e why) now i d cs K eq_refl Hd Hcs) as (o' & Hs & A & _).
  { intros E. unfold terminal in Ht. fold r in E. rewrite <- E in Ht. simpl in Ht.
    by destruct (same e Effect.ESTABLISHED). }
  exists o', d. split_and!; [done| |by eapply applied_same|].
  - eapply applied_ok; [done..| |done]. change (0 <= observe_count r).
    destruct (lifecycle_read parse effects o now K) as (_ & Hn & _). fold r in Hn. rewrite Hn. apply K.
  - rewrite (ad_state _ _ _ _ _ _ _ A). unfold stored_form. simpl. by destruct (same e Effect.ESTABLISHED).
Qed.

Lemma claim_expired o owner lease now ignore :
  cache_ok parse o -> expired o now = true ->
  terminal (lifecycle o now) = false -> cancel_requested (lifecycle o now) = false ->
  exists o', claim o owner lease now ignore = (o', Ok false) /\ cache_ok parse o' /\
    same_operation parse o o' /\ op_state o' = if found o then "succeeded" else "failed".
Proof.
  intros K He Ht Hc. unfold ModelCache.claim. rewrite lifecycle_id, get_row_own. fold (expired o now).
  rewrite He, Ht. cbn [andb negb].
  destruct (settle_expired o (fst (observe_of effects (Some o))) None now None K He Ht Hc)
    as (o' & r & -> & K' & S & Hs). by exists o'.
Qed.

Lemma terminal_ended o now : terminal (lifecycle o now) = mem (op_state o) _ENDED.
Proof.
  pose proof (cache_reads parse effects o now) as H. unfold terminal.
  destruct (read_operation _ _ o now) as [[st lease] next] eqn:E. destruct H as (_ & _ & -> & _).
  destruct (mem (op_state o) _ENDED) eqn:Ee.
  - bools. apply list_elem_of_In in Ee. unfold read_operation in E.
    destruct Ee as [Hs|[Hs|[Hs|[]]]]; rewrite <- Hs in E; simpl in E; by injection E as <- _ _.
  - apply ended_words in Ee as (? & ? & ?). revert E. unfold read_operation.
    rewrite (bool_decide_eq_false_2 (op_state o = "succeeded")), (bool_decide_eq_false_2 (op_state o = "failed")),
      (bool_decide_eq_false_2 (op_state o = "cancelled")) by done.
    repeat case_match; intros; by simplify_eq.
Qed.

Lemma cancel_stable o now : cancel_requested (lifecycle o now) = bool_decide (cancel_clock parse (op_payload o) <> None).
Proof.
  pose proof (cache_reads parse effects o now) as H.
  destruct (read_operation _ _ o now) as [[? ?] ?]. apply H.
Qed.

Lemma state_stable o now now' : cache_ok parse o -> state (lifecycle o now') = state (lifecycle o now).
Proof.
  intros K. pose proof (read_stable parse effects o now now' K) as S.
  pose proof (cache_reads parse effects o now) as H. pose proof (cache_reads parse effects o now') as H'.
  destruct (read_operation _ _ o now) as [[? ?] ?], (read_operation _ _ o now') as [[? ?] ?].
  destruct H as (_ & _ & -> & _), H' as (_ & _ & -> & _). apply S.
Qed.

Lemma fence_stable o now : fence (lifecycle o now) = read_fence parse o.
Proof.
  pose proof (cache_reads parse effects o now) as H.
  destruct (read_operation _ _ o now) as [[? ?] ?]. apply H.
Qed.

(** A claim takes exactly what it may take.  Inside its stall window a download that is
    queued, or whose retry is due at the instant of the claim, and that has no cancel
    request, becomes the owner's: running, under the owner's fence and lease, with the
    attempt its spent retries make it (a wait for a busy writer spends none).  Every
    other one is left exactly as it is, and only the owner that already runs it is told
    yes.  Past its window it is granted to nobody, and unless a cancel is under way the
    claim ends it. *)
Theorem claim_grants o owner lease now ignore :
  cache_ok parse o -> removal o = false ->
  let t := claim_at o now ignore in
  let r := lifecycle o t in
  exists o' granted, claim o owner lease now ignore = (o', Ok granted) /\ cache_ok parse o' /\
    same_operation parse o o' /\
    if expired o now then
      granted = false /\
      (cancel_requested (lifecycle o now) = false -> mem (op_state o') _ENDED = true)
    else if claimable r t then
      granted = true /\ op_state o' = "running" /\ op_fence o' = Some owner /\
      to_utc <$> op_lease_deadline o' = Some (t + lease) /\ op_next_action_at o' = None /\
      op_attempt o' = Z.max (op_attempt o) (attempts_of parse o)
    else o' = o /\ granted = same (state r) State.RUNNING && bool_decide (fence r = Some owner).
Proof.
  intros K Hr t r. destruct (expired o now) eqn:He.
  - destruct (terminal (lifecycle o now)) eqn:Ht; [|destruct (cancel_requested (lifecycle o now)) eqn:Hc].
    + pose proof (terminal_ended o now) as Hm. rewrite Ht in Hm.
      assert (terminal r = true) as Htr by (unfold r; by rewrite terminal_ended).
      assert (claim o owner lease now ignore = (o, Ok false)) as ->.
      { unfold ModelCache.claim. rewrite lifecycle_id, get_row_own. fold (expired o now). rewrite He, Ht. cbn [andb negb].
        fold (claim_at o now ignore). fold t.
        rewrite (settle_unchanged o _ t None r eq_refl); [|by apply transition_terminal].
        cbn [mbind result_bind]. unfold terminal in Htr. by destruct (state r). }
      by exists o, false.
    + unfold ModelCache.claim. rewrite lifecycle_id, get_row_own. fold (expired o now). rewrite He, Ht. cbn [andb negb].
      match goal with |- context [ModelCache.settle_cache _ _ o ?ev now None] =>
        destruct (settle_cache_ok parse effects o ev now None K eq_refl) as (o' & r' & -> & K' & S & _) end.
      exists o', false. by split_and!.
    + destruct (claim_expired o owner lease now ignore K He Ht Hc) as (o' & -> & K' & S & Hs).
      exists o', false. split_and!; try done. intros _. rewrite Hs. by destruct (found o).
  - pose proof (claim_cases o owner lease now ignore K He) as Hcl.
    cbv zeta in Hcl. fold t in Hcl. fold r in Hcl. destruct (claimable r t) eqn:Ec.
    + destruct Hcl as (o' & -> & A). exists o', true.
      assert (storable_row (claimed_row r owner (t + lease))) as Sr by (by constructor).
      split; [done|]. split; [exact (applied_ok _ _ _ _ _ _ _ A Sr (Z.le_refl 0) K)|]. split; [by eapply applied_same|].
      pose proof (ad_next _ _ _ _ _ _ _ A) as En. pose proof (ad_attempt _ _ _ _ _ _ _ A) as Ea.
      pose proof (ad_fence _ _ _ _ _ _ _ A) as Ef.
      split_and!; [done|apply A|exact Ef|apply A| |].
      * simpl in En. by destruct (op_next_action_at o').
      * rewrite Ea. unfold attempt_after. assert (same (state r) State.RUNNING = false) as ->.
        { unfold claimable in Ec. by destruct (state r). }
        simpl. unfold r, ModelCache.lifecycle. destruct (read_operation _ _ o t) as [[? ?] ?].
        destruct (cancellation_of _ _ t). simpl. f_equal. lia.
    + rewrite Hcl. do 2 eexists. by split_and!.
Qed.

(** ** Histories *)

(** An owner asks for an operation: to claim it, or to renew what it holds. *)
Inductive visit :=
| VisitClaim (lease : Z) (now : instant) (ignore : bool)
| VisitRenew (lease : Z) (now : instant) (take : bool).

Definition visited_at (v : visit) : instant :=
  match v with VisitClaim _ now _ | VisitRenew _ now _ => now end.

Definition run_visit o (owner : string) (v : visit) : ModelCacheOperation * result bool :=
  match v with
  | VisitClaim lease now ignore => claim o owner lease now ignore
  | VisitRenew lease now take => renew o owner lease now take
  end.

(** Visits by any owners in turn, stopping at a raise; the answers in order. *)
Fixpoint run_visits o (vs : list (string * visit)) : ModelCacheOperation * result (list bool) :=
  match vs with
  | [] => (o, Ok [])
  | (owner, v) :: rest =>
      match run_visit o owner v with
      | (o', Ok b) => let '(o'', res) := run_visits o' rest in (o'', (bs ← res; Ok (b :: bs)))
      | (o', Raise e) => (o', Raise e)
      end
  end.

Lemma foreign_visit o owner v :
  cache_ok parse o -> removal o = false -> state (lifecycle o 0) = State.RUNNING ->
  expired o (visited_at v) = false ->
  (exists f, read_fence parse o = Some f /\ f <> owner) ->
  run_visit o owner v = (o, Ok false).
Proof.
  intros K Hr Hs He (f & Hf & Hne). destruct v as [lease now ignore|lease now take]; simpl in He |- *.
  - pose proof (claim_cases o owner lease now ignore K He) as Hcl. cbv zeta in Hcl. revert Hcl.
    set (t := claim_at o now ignore). unfold claimable. rewrite (state_stable o 0 t K), Hs, fence_stable, Hf. simpl.
    rewrite bool_decide_eq_false_2; [done|congruence].
  - unfold ModelCache.renew. rewrite <- (terminal_ended o now), (state_stable o 0 now K), Hs, Hr. unfold terminal.
    rewrite (state_stable o 0 now K), Hs, fence_stable, Hf. simpl.
    destruct (cancel_requested _); [done|]. by rewrite bool_decide_eq_false_2.
Qed.

(** A running download belongs to its fence: inside its stall window, whatever other
    owners claim or renew, in any order and at any times, each of them is refused and the
    row is left exactly as its own owner wrote it. *)
Theorem running_belongs_to_fence o f vs :
  cache_ok parse o -> removal o = false -> state (lifecycle o 0) = State.RUNNING ->
  read_fence parse o = Some f ->
  Forall (fun v => fst v <> f /\ expired o (visited_at (snd v)) = false) vs ->
  run_visits o vs = (o, Ok (const false <$> vs)).
Proof.
  intros K Hr Hs Hf. induction 1 as [|[owner v] vs [Hne He] _ IH]; [done|]. cbn [run_visits].
  rewrite (foreign_visit o owner v K Hr Hs He); [|by exists f]. rewrite IH. done.
Qed.

(** Everything that happens to an operation through the adapter. *)
Inductive cache_step :=
| StepSettle (ev : Event) (now : instant) (interrupted : option bool)
| StepVisit (owner : string) (v : visit)
| StepReopen (now : instant)
| StepCorrupt (why : string) (now : instant).

Definition run_step o (s : cache_step) : ModelCacheOperation * result bool :=
  match s with
  | StepSettle ev now i => let '(o', res) := settle_cache o ev now i in (o', (_ ← res; Ok false))
  | StepVisit owner v => run_visit o owner v
  | StepReopen now => (reopen o now, Ok false)
  | StepCorrupt why now =>
      let '(o', res) := fail_corrupt parse effects o why now in (o', (_ ← res; Ok false))
  end.

Fixpoint run_history o (ss : list cache_step) : ModelCacheOperation * result (list bool) :=
  match ss with
  | [] => (o, Ok [])
  | s :: rest =>
      match run_step o s with
      | (o', Ok b) => let '(o'', res) := run_history o' rest in (o'', (bs ← res; Ok (b :: bs)))
      | (o', Raise e) => (o', Raise e)
      end
  end.

Definition honest_step (s : cache_step) : bool :=
  match s with StepSettle ev _ _ => honest ev | _ => true end.

(** A step that returns keeps the row well formed, and its identity. *)
Definition keeps o (res : ModelCacheOperation * result bool) : Prop :=
  exists o' b, res = (o', Ok b) /\ cache_ok parse o' /\ same_operation parse o o'.

Lemma settle_keeps o ev now i : cache_ok parse o -> honest ev = true -> forall f,
  keeps o (let '(o', res) := settle_cache o ev now i in (o', (r ← res; Ok (f r)))).
Proof.
  intros K Hh f. destruct (settle_cache_ok parse effects o ev now i K Hh) as (o' & r & -> & K' & S & _).
  by exists o', (f r).
Qed.

Lemma claim_keeps o owner lease now ignore : cache_ok parse o -> keeps o (claim o owner lease now ignore).
Proof.
  intros K. unfold ModelCache.claim. case_match; [by apply settle_keeps with (f := fun _ => false)|].
  by apply settle_keeps with (f := fun after => same (state after) State.RUNNING && bool_decide (fence after = Some owner)).
Qed.

Lemma renew_removal_is o now :
  exists u, renew_removal o now = o <| op_state := "running" |>
    <| op_wait := match op_next_action_at o with Some _ => WaitColumns NoEvidence None | None => op_wait o end |>
    <| op_last_error := None |> <| op_updated_at := u |>.
Proof.
  unfold renew_removal. pose proof (put_is op_state "running" (o, false) ltac:(by intros [])) as E1.
  set (s1 := put op_state "running" (o, false)) in *. cbn [fst] in E1.
  assert (op_next_action_at (fst s1) = op_next_action_at o) as En by (rewrite E1; by destruct o).
  rewrite En. set (s2 := match op_next_action_at o with Some _ => _ | None => _ end).
  assert (fst s2 = o <| op_state := "running" |>
    <| op_wait := match op_next_action_at o with Some _ => WaitColumns NoEvidence None | None => op_wait o end |>) as E2.
  { unfold s2. destruct (op_next_action_at o); simpl; rewrite E1; by destruct o. }
  pose proof (put_is op_last_error None s2 ltac:(by intros [])) as E3. rewrite E2 in E3.
  set (s3 := put op_last_error None s2) in *.
  exists (if snd s3 then Aware now else op_updated_at o). destruct (snd s3); rewrite E3; by destruct o.
Qed.

Lemma renew_keeps o owner lease now take : cache_ok parse o -> keeps o (renew o owner lease now take).
Proof.
  intros K. assert (forall b, keeps o (o, Ok b)) as Hsame by (intros b; by exists o, b).
  unfold ModelCache.renew. destruct (mem (op_state o) _ENDED) eqn:He; [apply Hsame|].
  destruct (removal o) eqn:Hr.
  - destruct (renew_removal_is o now) as [u Hu]. rewrite Hu. eexists _, true. split; [reflexivity|].
    destruct K as [K1 K2 K3 K4 K5 K6 K7]. split; [|by constructor]. constructor; try done.
    + simpl. by destruct (op_next_action_at o).
    + intros Hr'. unfold removal in *. simpl in Hr'. congruence.
    + simpl. by rewrite K7.
  - destruct (cancel_requested _); [apply Hsame|]. destruct (same _ _).
    + destruct (match fence _ with Some _ => _ | None => _ end); [apply Hsame|].
      by apply settle_keeps with (f := fun after => same (state after) State.RUNNING).
    + destruct (negb take); [apply Hsame|]. by apply claim_keeps.
Qed.

Lemma text_ok o why : cache_ok parse o -> cache_ok parse (o <| op_last_error := why |>).
Proof. intros []. by constructor. Qed.

Lemma cache_step_keeps o s : cache_ok parse o -> honest_step s = true -> keeps o (run_step o s).
Proof.
  intros K Hh. destruct s as [ev now i|owner [lease now ignore|lease now take]|now|why now]; simpl in Hh |- *.
  - by apply settle_keeps with (f := fun _ => false).
  - by apply claim_keeps.
  - by apply renew_keeps.
  - eexists _, false. split; [reflexivity|]. destruct K as [K1 K2 K3 K4 K5 K6 K7]. split; [|by constructor].
    constructor; simpl; try done.
  - unfold fail_corrupt. destruct (terminal _); [by exists o, false|].
    match goal with |- context [ModelCache.settle_cache _ _ ?o1 ?ev now None] =>
      destruct (settle_cache_ok parse effects o1 ev now None (text_ok o _ K) eq_refl)
        as (o' & r & -> & K' & [] & _) end.
    by exists o', false.
Qed.

(** Every history of the adapter returns: settled events, claims, renewals, reopenings and
    corrupt ends, by any owners and at any times.  The row it leaves is well formed (its
    wait columns together, an end dated exactly when it has ended, an observation never
    without a clock, a payload that can be stored again), is the same operation, and has
    never lost an attempt. *)
Theorem cache_history_ok o ss :
  cache_ok parse o -> forallb honest_step ss = true ->
  exists o' bs, run_history o ss = (o', Ok bs) /\ cache_ok parse o' /\ same_operation parse o o'.
Proof.
  revert o; induction ss as [|s ss IH]; intros o K Hh; [by exists o, []|].
  cbn [forallb] in Hh. apply andb_true_iff in Hh as [Hs Hss]. cbn [run_history].
  destruct (cache_step_keeps o s K Hs) as (o1 & b & -> & K1 & S1).
  destruct (IH o1 K1 Hss) as (o' & bs & -> & K' & S'). exists o', (b :: bs). split_and!; [done..|].
  destruct S1, S'. constructor; try congruence. lia.
Qed.

(** ** A cancel is never lost *)

Lemma cancelled_not_run r ev a now d :
  cancel_requested r = true -> state r <> State.RUNNING -> transition r ev a now = Ok d ->
  cancel_requested (row d) = true /\ state (row d) <> State.RUNNING.
Proof.
  intros Hc Hs H. split.
  - pose proof (frame_cancel _ _ (transition_frame _ _ _ _ _ H) Hc) as [E _].
    unfold cancel_requested in *. by rewrite E.
  - run_core H; try congruence; try done; bools; congruence.
Qed.

(** A download under a cancel that no process runs. *)
Record stopping o : Prop := {
  st_ok : cache_ok parse o;
  st_kind : removal o = false;
  st_cancel : cancel_clock parse (op_payload o) <> None;
  st_state : op_state o <> "running";
  st_claim : legacy_claim parse (op_payload o) = None;
}.

Definition unrun o : Prop := op_state o <> "running" /\ legacy_claim parse (op_payload o) = None.

Lemma unrun_reads o now : unrun o -> state (lifecycle o now) <> State.RUNNING.
Proof.
  intros [Hs Hc]. pose proof (cache_reads parse effects o now) as H.
  destruct (read_operation _ _ o now) as [[st lease] next] eqn:E. destruct H as (_ & _ & -> & _). intros ->.
  revert E. unfold read_operation. rewrite Hc, (bool_decide_eq_false_2 (op_state o = "running")) by done.
  rewrite andb_false_r. destruct (to_utc <$> op_lease_deadline o);
    rewrite (bool_decide_eq_false_2 (None <> None)) by naive_solver.
  all: rewrite ?andb_false_r; repeat case_match; intros; by simplify_eq.
Qed.

Lemma cancel_kept now i :
  kept parse effects now i (fun r => cancel_requested r = true /\ state r <> State.RUNNING) unrun.
Proof.
  constructor.
  - intros r ev o d [Hc Hs]. by apply cancelled_not_run.
  - intros o r r' o' [_ Hs] A [Hw Hc]. split.
    + rewrite (ad_state _ _ _ _ _ _ _ A). unfold stored_form. destruct (state r'); try done; simpl; by case_match.
    + apply (tidy_quiet parse); apply A.
  - intros o o' [w ->]. done.
Qed.

(** What one step leaves of a download under a cancel. *)
Definition stays_stopping (res : ModelCacheOperation * result bool) : Prop :=
  exists o', res = (o', Ok false) /\ stopping o'.

Lemma settle_stopping o ev now i : stopping o -> honest ev = true -> forall f,
  (forall r, state r <> State.RUNNING -> f r = false) ->
  stays_stopping (let '(o', res) := settle_cache o ev now i in (o', (r ← res; Ok (f r)))).
Proof.
  intros [K Hk Hc Hs Hl] Hh f Hf.
  destruct (settle_cache_ok parse effects o ev now i K Hh) as (o' & r & -> & K' & S & _ & _ & _ & HQ).
  destruct (HQ _ _ (cancel_kept now i)) as [[_ Hr] [Hs' Hl']]; [split| |].
  - rewrite cancel_stable. by apply bool_decide_eq_true_2.
  - by apply unrun_reads.
  - done.
  - exists o'. cbn [mbind result_bind]. rewrite (Hf r Hr). split; [done|]. destruct S as [_ so_kind _ _ so_cancel].
    constructor; try done; [unfold removal; by rewrite so_kind|by rewrite so_cancel].
Qed.

Lemma stopping_cancel o now : stopping o -> cancel_requested (lifecycle o now) = true.
Proof. intros []. rewrite cancel_stable. by apply bool_decide_eq_true_2. Qed.

Lemma visit_stopping o owner v : stopping o -> stays_stopping (run_visit o owner v).
Proof.
  intros H. destruct v as [lease now ignore|lease now take]; simpl.
  - unfold ModelCache.claim. case_match.
    + by apply settle_stopping with (f := fun _ => false).
    + apply settle_stopping with (f := fun after => same (state after) State.RUNNING && bool_decide (fence after = Some owner));
        [done..|]. intros r Hr. apply andb_false_iff. left. by apply same_false.
  - unfold ModelCache.renew. rewrite (st_kind _ H), (stopping_cancel o now H). case_match; by exists o.
Qed.

Lemma step_stopping o s : stopping o -> honest_step s = true -> stays_stopping (run_step o s).
Proof.
  intros H Hh. destruct s as [ev now i|owner v|now|why now]; simpl in Hh |- *.
  - by apply settle_stopping with (f := fun _ => false).
  - by apply visit_stopping.
  - eexists. split; [reflexivity|].
    destruct (cache_step_keeps o (StepReopen now) (st_ok _ H) eq_refl) as (o' & b & [= <- <-] & K & _).
    destruct H. by constructor.
  - unfold fail_corrupt. destruct (terminal _); [by exists o|].
    match goal with |- context [ModelCache.settle_cache _ _ ?o1 ?ev now None] =>
      destruct (settle_stopping o1 ev now None) with (f := fun r : Lifecycle => false) as (o' & He & H'); [|done..|] end.
    + destruct H. constructor; try done. by apply text_ok.
    + destruct (ModelCache.settle_cache _ _ _ _ _ _) as [o1 [r|e]]; [|done]. injection He as ->. by exists o'.
Qed.

(** C5.  An accepted cancel is never lost.  Once a download has a cancel request and no process
    runs it, no history of settled events, claims, renewals (of whatever owners), corrupt
    ends or reopenings ever grants it to anybody or makes it run again, and every later
    read still sees the request. *)
Theorem cancel_outlives_history o ss :
  stopping o -> forallb honest_step ss = true ->
  exists o', run_history o ss = (o', Ok (const false <$> ss)) /\ stopping o' /\
    forall now, cancel_requested (lifecycle o' now) = true.
Proof.
  revert o; induction ss as [|s ss IH]; intros o H Hh.
  { exists o. split_and!; [done..|]. intros now. by apply stopping_cancel. }
  cbn [forallb] in Hh. apply andb_true_iff in Hh as [Hs Hss]. cbn [run_history].
  destruct (step_stopping o s H Hs) as (o1 & -> & H1).
  destruct (IH o1 H1 Hss) as (o' & -> & H' & Hc). by exists o'.
Qed.

(** ** What a failure spends *)

Lemma failed_transition o rep now :
  let r := lifecycle o now in
  state r = State.RUNNING -> cancel_requested r = false -> expired o now = false ->
  (forall f, r_fence rep = Some f -> read_fence parse o = Some f) ->
  outcome rep = Outcome.FAILED -> retryable rep = true -> op_id o <> EmptyString ->
  exists d, transition r (Reported rep) (reads (row_adapter effects) o) now = Ok (Decided d []) /\
    state d = State.BACKOFF /\ retry_count d = retry_count r + b2z (consumes_retry rep) /\
    next_action_at d <> None.
Proof.
  intros r Hs Hc He Hf Ho Hr Hi. pose proof (deadline_passed_row o now) as Hp. fold r in Hp.
  assert (_stale r (Reported rep) = false) as Hst.
  { unfold _stale. destruct (r_fence rep) as [f|]; [|done]. unfold r. rewrite fence_stable, (Hf f eq_refl).
    by rewrite bool_decide_eq_true_2. }
  unfold transition. unfold terminal. rewrite Hs, Hst, Hp, He. cbn [andb dispatch mem]. unfold _reported.
  rewrite Ho, Hr, Hc. simpl. unfold _uncertain.
  assert (recovery_deadline r = None) as ->.
  { unfold r. pose proof (cache_reads parse effects o now) as H.
    destruct (read_operation _ _ o now) as [[? ?] ?]. apply H. }
  unfold blind_retry_is_safe. cbn [irreversible reads row_adapter ModelCacheAdapter negb]. rewrite orb_true_r.
  unfold _retry. match goal with |- context [_due r ?c now ?a ?t] =>
    destruct (due_total r c now a t) as [due Hdue]; [unfold r; by rewrite lifecycle_id|] end.
  rewrite Hdue, bind_Ok_l. eexists. split; [reflexivity|]. by simpl.
Qed.

(** A retryable failure of a running download puts it back to wait, its attempt column
    unmoved, and spends exactly one of its attempts, unless its disposition is a wait (a
    busy writer, a rate limit, a missing approval), which spends none. *)
Theorem failure_spends o p rep now i :
  cache_ok parse o -> op_payload o = Dump p -> 1 <= automatic_attempts (p_retry p) ->
  state (lifecycle o now) = State.RUNNING -> cancel_requested (lifecycle o now) = false ->
  expired o now = false -> (forall f, r_fence rep = Some f -> read_fence parse o = Some f) ->
  outcome rep = Outcome.FAILED -> retryable rep = true ->
  exists o' r, complete parse effects o (Reported rep) now i = (o', Ok r) /\ state r = State.BACKOFF /\
    stored_as parse effects o' r /\
    attempts_of parse o' = attempts_of parse o + b2z (consumes_retry rep) /\
    op_attempt o' = op_attempt o.
Proof.
  intros K Hp Hn Hs Hc He Hf Ho Hr.
  assert (op_id o <> EmptyString) as Hi.
  { intros E. pose proof (mc_identity _ _ K) as Hid. by rewrite E in Hid. }
  destruct (failed_transition o rep now Hs Hc He Hf Ho Hr Hi) as (d & Hd & Hst & Hrc & Hnx).
  assert (honest (Reported rep) = true) as Hh by (simpl; by rewrite Ho).
  assert (d <> lifecycle o now) as Hne by (intros ->; congruence).
  destruct (settle_decided o (Reported rep) now i d [] K Hh Hd eq_refl Hne) as (o' & Hse & A & o1 & ch & Hap & [w ->]).
  unfold complete. exists (o1 <| op_last_error := w |>), d. split; [exact Hse|]. split; [done|].
  destruct (settle_cache_ok parse effects o (Reported rep) now i K Hh) as (o2 & r2 & Hse2 & _ & _ & _ & _ & Hsa & _).
  rewrite Hse in Hse2. injection Hse2 as <- <-. split; [done|].
  assert (_payload o = Some p) as Hpay by (unfold _payload; by rewrite Hp).
  destruct (apply_retry _ _ _ _ _ _ _ _ p Hap Hpay) as (p' & Ep' & Rp').
  assert (attempts_of parse o = automatic_attempts (p_retry p)) as Ea.
  { unfold attempts_of. rewrite Hp. simpl. unfold _ATTEMPTS. by rewrite (proj2 (Z.leb_le 1 _)). }
  assert (retry_count (lifecycle o now) = attempts_of parse o - 1) as Erc.
  { unfold ModelCache.lifecycle. destruct (read_operation _ _ o now) as [[? ?] ?]. by destruct (cancellation_of _ _ now). }
  split.
  - unfold attempts_of at 1. cbn [op_payload set_field set_op_last_error]. rewrite Ep'. simpl. rewrite Rp'.
    unfold tidied. rewrite Hst. simpl. rewrite andb_true_r.
    destruct (consumes_retry rep) eqn:Ecr; simpl; unfold _ATTEMPTS.
    + rewrite Hrc, Erc. rewrite (proj2 (Z.leb_le 1 _)) by (simpl; lia). simpl. lia.
    + rewrite (proj2 (Z.leb_le 1 _)) by lia. lia.
  - rewrite (ad_attempt _ _ _ _ _ _ _ A). unfold attempt_after. by rewrite Hst.
Qed.

(** ** Startup adoption *)

(** The claim a legacy row is adopted with: its owner fits the column, and it is live or
    its row already says running. *)
Definition adoptable o now : Prop :=
  forall owner expires, legacy_claim parse (op_payload o) = Some (owner, expires) ->
  (String.length owner <= 64)%nat /\ (now < expires \/ op_state o = "running").

(** What the core reads of a row depends on these alone. *)
Lemma lifecycle_ext o o' t :
  op_id o' = op_id o -> op_kind o' = op_kind o -> op_attempt o' = op_attempt o ->
  op_payload o' = op_payload o -> op_observe_count o' = op_observe_count o ->
  op_last_error o' = op_last_error o -> read_fence parse o' = read_fence parse o ->
  read_operation parse effects o' t = read_operation parse effects o t ->
  lifecycle o' t = lifecycle o t.
Proof.
  intros E1 E2 E3 E4 E5 E6 E7 E8. unfold ModelCache.lifecycle, attempts_of, read_effect, _payload.
  by rewrite E1, E2, E3, E4, E5, E6, E7, E8.
Qed.

(** Moving the legacy clock and claim of a row onto its columns changes nothing the core
    reads: the state, the fence, the lease, the next action, the attempts and the cancel
    of the adopted row are those of the legacy one, at every later time. *)
Theorem adoption_keeps_reading o o' now t :
  unadopted o = true -> adopt_row parse now o = Some o' -> adoptable o now ->
  mem (op_id o) (running_here effects) = false ->
  lifecycle o' t = lifecycle o t.
Proof.
  intros Hu Ha Hok Hh. unfold unadopted in Hu. apply andb_true_iff in Hu as [Hu Hl%bool_decide_eq_true_1].
  apply andb_true_iff in Hu as [Hst Hn%bool_decide_eq_true_1].
  apply active_not_ended, ended_words in Hst as (E1 & E2 & E3). unfold adopt_row in Ha.
  destruct (legacy_claim parse (op_payload o)) as [[owner expires]|] eqn:Hc.
  - destruct (Hok owner expires Hc) as [Hlen Hlive]. rewrite (str_take_all 64 owner Hlen) in Ha.
    destruct ((now <? expires) && negb (bool_decide (op_state o = "running"))) eqn:Eb; simplify_eq.
    + apply lifecycle_ext; try done; [unfold read_fence; simpl; by rewrite Hl, Hc|].
      unfold read_operation. simpl. unfold op_next_action_at in *. simpl. rewrite Hl, Hn, Hc, Hh. simpl.
      rewrite !(bool_decide_eq_false_2 (op_state o = _)) by done. 
      by rewrite orb_true_r.
    + assert (op_state o = "running") as Hrun.
      { destruct Hlive as [Hlt|]; [|done]. rewrite (proj2 (Z.ltb_lt _ _) Hlt) in Eb. cbn [andb] in Eb. by bools. }
      destruct (legacy_retry_due parse (op_payload o)) as [due|] eqn:Hd; simplify_eq;
        (apply lifecycle_ext; try done; [unfold read_fence; simpl; by rewrite Hl, Hc|]);
        unfold read_operation; simpl; unfold op_next_action_at in *; simpl; by rewrite Hl, Hn, Hc, Hh, Hrun, Hd.
  - destruct (legacy_retry_due parse (op_payload o)) as [due|] eqn:Hd; [|done].
    simpl in Ha. simplify_eq. apply lifecycle_ext; try done.
    unfold read_operation. simpl. unfold op_next_action_at in *. simpl. by rewrite Hl, Hn, Hc, Hh, Hd.
Qed.

(** An expired claim of a row that does not say running is not left for the core to lapse:
    the row read as running under a lapsed lease before the adoption, and as waiting,
    free for the next claim, after it. *)
Theorem expired_claim_is_dropped o o' owner expires now t :
  unadopted o = true -> removal o = false -> op_observe_count o = 0 ->
  legacy_claim parse (op_payload o) = Some (owner, expires) -> expires <= now ->
  op_state o <> "running" -> adopt_row parse now o = Some o' ->
  state (lifecycle o t) = State.RUNNING /\ lease_deadline (lifecycle o t) = Some expires /\
  mem (state (lifecycle o' t)) [State.QUEUED; State.BACKOFF] = true.
Proof.
  intros Hu Hr Hob Hc Hx Hns Ha. unfold unadopted in Hu. apply andb_true_iff in Hu as [Hu Hl%bool_decide_eq_true_1].
  apply andb_true_iff in Hu as [Hst Hn%bool_decide_eq_true_1].
  apply active_not_ended, ended_words in Hst as (E1 & E2 & E3).
  unfold adopt_row in Ha. rewrite Hc, (proj2 (Z.ltb_ge _ _) Hx) in Ha. cbn [andb] in Ha.
  assert (read_operation parse effects o t = (State.RUNNING, Some expires, Some expires)) as Eo.
  { unfold read_operation. rewrite Hr, Hob, Hl, Hc. simpl.
    rewrite !(bool_decide_eq_false_2 (op_state o = _)) by done. by rewrite andb_false_r. }
  pose proof (cache_reads parse effects o t) as H. rewrite Eo in H.
  destruct H as (_ & _ & -> & _ & -> & _). split_and!; [done..|].
  pose proof (cache_reads parse effects o' t) as H.
  assert (exists l n, read_operation parse effects o' t = (State.BACKOFF, l, n) \/
                      read_operation parse effects o' t = (State.QUEUED, l, n)) as (l & n & [E|E]);
    [|by rewrite E in H; destruct H as (_ & _ & -> & _)..].
  destruct (legacy_retry_due parse (op_payload o)) as [due|] eqn:Hd; simplify_eq.
  all: unfold read_operation, removal in *; cbn; unfold op_next_action_at in *; cbn; rewrite ?Hd, ?Hn, Hob, Hr; cbn.
  all: rewrite !(bool_decide_eq_false_2 (op_state o = _)) by done; rewrite ?andb_false_r; cbn.
  - do 2 eexists. by left.
  - destruct (bool_decide (op_state o = "queued")); do 2 eexists; [by right|by left].
Qed.
End owners.

(** ** Concrete operations

    A download that runs, fails, is cancelled and is adopted from a legacy row: the
    theorems of [ModelCacheOwners] at concrete rows, with the service's answers and the
    reading of stored times given as functions. *)

(** A reader of two stored times. *)
Definition parse_text (s : string) : option instant :=
  if bool_decide (s = "1970-01-01T00:00:05+00:00") then Some (seconds 5)
  else if bool_decide (s = "1970-01-01T00:01:00+00:00") then Some (seconds 60)
  else None.

(** Nothing runs in this process, the set is not complete, no provider asks to wait. *)
Definition idle : CacheEffects := {|
  running_here := []; objects_present := fun _ => Some false; set_is_cached := fun _ => false;
  effects_settled := fun _ _ => Ok true; cooldown_until := fun _ => None |}.

Definition example_payload : CachePayload := {|
  p_retry := {| automatic_attempts := 1; retry_rest := "" |}; p_claim := None;
  p_cancellation := None; p_failure := None; p_blockers := []; p_rest := "manifest" |}.

Definition cancelled_payload : CachePayload := {|
  p_retry := p_retry example_payload; p_claim := None;
  p_cancellation := Some {|
    request_key := "cancel-1"; cancel_actor := "operator"; cancel_reason := "not needed";
    requested_at := "1970-01-01T00:00:05+00:00"; observation := None |};
  p_failure := None; p_blockers := []; p_rest := "manifest" |}.

(** A download with the given word, lease and document. *)
Definition download (word : string) (lease : option instant) (d : document) : ModelCacheOperation := {|
  op_id := "cache-1"; op_kind := "download"; op_state := word; op_attempt := 1;
  op_set := Some "set"; op_payload := d; op_last_error := None; op_observe_count := 0;
  op_fence := if bool_decide (lease <> None) then Some "worker-1" else None;
  op_lease_deadline := Aware <$> lease; op_created_at := Aware 0; op_updated_at := Aware 0;
  op_completed_at := None; op_progress_advanced_at := None;
  op_wait := WaitColumns NoEvidence None |}.

Lemma download_ok word lease d :
  mem word _ENDED = false -> document_ok parse_text d -> cache_ok parse_text (download word lease d).
Proof. intros Hw Hd. constructor; simpl; try done; try lia; by rewrite Hw. Qed.

Definition queued_download : ModelCacheOperation := download "queued" None (Dump example_payload).
Definition running_download : ModelCacheOperation :=
  download "running" (Some (seconds 30)) (Dump example_payload).
Definition cancelled_download : ModelCacheOperation := download "queued" None (Dump cancelled_payload).


Lemma claim_grants_witness :
  exists o', claim parse_text idle queued_download "worker-1" (seconds 60) (seconds 5) false = (o', Ok true) /\
    op_state o' = "running" /\ op_fence o' = Some "worker-1".
Proof.
  destruct (claim_grants parse_text idle queued_download "worker-1" (seconds 60) (seconds 5) false)
    as (o' & g & He & _ & _ & Hr); [by apply download_ok|reflexivity|].
  vm_compute in Hr. destruct Hr as (-> & Hs & Hf & _). exists o'. split_and!; [exact He|exact Hs|exact Hf].
Defined.

Lemma running_belongs_to_fence_witness :
  run_visits parse_text idle running_download
    [("worker-2", VisitClaim (seconds 60) (seconds 40) true);
     ("worker-3", VisitRenew (seconds 60) (seconds 50) true)] = (running_download, Ok [false; false]).
Proof.
  apply (running_belongs_to_fence parse_text idle running_download "worker-1");
    [by apply download_ok|reflexivity..|].
  repeat constructor; simpl; try discriminate; vm_compute; reflexivity.
Defined.

Definition example_history : list cache_step :=
  [StepVisit "worker-1" (VisitClaim (seconds 60) (seconds 10) false);
   StepSettle Tick (seconds 20) None;
   StepReopen (seconds 30);
   StepVisit "worker-1" (VisitRenew (seconds 60) (seconds 40) true)].

Lemma cache_history_ok_witness :
  exists o' bs, run_history parse_text idle queued_download example_history = (o', Ok bs) /\
    cache_ok parse_text o' /\ same_operation parse_text queued_download o'.
Proof. apply cache_history_ok; [by apply download_ok|reflexivity]. Defined.

Lemma cancel_outlives_history_witness :
  exists o', run_history parse_text idle cancelled_download example_history = (o', Ok [false; false; false; false]) /\
    stopping parse_text o' /\ forall now, cancel_requested (lifecycle parse_text idle o' now) = true.
Proof.
  apply (cancel_outlives_history parse_text idle cancelled_download example_history); [|reflexivity].
  constructor; [by apply download_ok|reflexivity|done..].
Defined.

(** A busy writer: a failure whose disposition is a wait. *)
Definition busy : report :=
  failed (CauseVerdict Disposition.WAIT) EmptyString (Some "worker-1") None (Some "busy") None.

Lemma failure_spends_witness :
  exists o' r, complete parse_text idle running_download (Reported busy) (seconds 20) None = (o', Ok r) /\
    state r = State.BACKOFF /\ attempts_of parse_text o' = 1 /\ op_attempt o' = 1.
Proof.
  destruct (failure_spends parse_text idle running_download example_payload busy (seconds 20) None)
    as (o' & r & He & Hs & _ & Ha & Hn).
  1: by apply download_ok.
  1-5: (reflexivity || (simpl; lia)).
  1: intros f [= <-]; reflexivity.
  1-2: reflexivity.
  exists o', r. split_and!; [exact He|exact Hs|exact Ha|exact Hn].
Defined.

(** A row written before the core: its claim and its retry clock are in the document. *)
Definition legacy_clocks : StoredCacheClocks := {|
  clock_claim := Some {| cc_owner := Some "worker-1"; cc_expires_at := Some (seconds 60) |};
  clock_retry := Some {| rc_automatic_attempts := Some 1; next_retry_at := Some (seconds 5) |};
  clock_cancellation := None |}.
Definition legacy_download : ModelCacheOperation := download "queued" None (Legacy example_payload legacy_clocks).

Lemma adoption_keeps_reading_witness :
  exists o', adopt_row parse_text (seconds 10) legacy_download = Some o' /\
    op_state o' = "running" /\
    lifecycle parse_text idle o' (seconds 20) = lifecycle parse_text idle legacy_download (seconds 20).
Proof.
  eexists. split; [reflexivity|]. split; [reflexivity|].
  apply (adoption_keeps_reading parse_text idle legacy_download _ (seconds 10)); [reflexivity..| |reflexivity].
  intros owner expires [= <- <-]. split; [simpl; lia|left; reflexivity].
Defined.

Lemma expired_claim_is_dropped_witness :
  exists o', adopt_row parse_text (seconds 90) legacy_download = Some o' /\
    state (lifecycle parse_text idle legacy_download (seconds 100)) = State.RUNNING /\
    mem (state (lifecycle parse_text idle o' (seconds 100))) [State.QUEUED; State.BACKOFF] = true.
Proof.
  eexists. split; [reflexivity|].
  destruct (expired_claim_is_dropped parse_text idle legacy_download _ "worker-1" (seconds 60) (seconds 90) (seconds 100)
    eq_refl eq_refl eq_refl eq_refl ltac:(by vm_compute) ltac:(discriminate) eq_refl) as (Hs & _ & Hm).
  split; [exact Hs|exact Hm].
Defined.
