(* ===== verification/ArtifactGates.v ===== *)
(** * Deletion gates of managed objects

    [control/src/vonk_control/artifact_lifecycle.py]: the SQL gate that coordinates the
    references to an exact model set, model object or runtime image with its cooperative
    removal.  The tables are the gates by identity and the rows that may own a removal;
    a function is one transaction, so a raise leaves the tables as they were.  What other
    open transactions hold is a [Locks] argument: PostgreSQL's advisory locks by key, and
    the rows locked for update. *)
From S2P Require Import Prelude Vocabulary ReasonCodes Sha256 Demand PersistedWaits ModelCache.

(** ** Identities *)
Module ArtifactKind.
Inductive ArtifactKind := MODEL_SET | MODEL_OBJECT | RUNTIME_IMAGE.
Definition ArtifactKind_value (k : ArtifactKind) : string :=
  match k with
  | MODEL_SET => "model-set"
  | MODEL_OBJECT => "model-object"
  | RUNTIME_IMAGE => "runtime-image"
  end.
#[global] Instance ArtifactKind_eq : EqDecision ArtifactKind.
Proof. solve_decision. Defined.
#[global] Instance ArtifactKind_enum : WireEnum ArtifactKind.
Proof. refine {| members := [MODEL_SET; MODEL_OBJECT; RUNTIME_IMAGE]; value := ArtifactKind_value |};
  solve_wire_enum. Defined.
End ArtifactKind.
Abbreviation ArtifactKind := ArtifactKind.ArtifactKind.

Module RemovalOwnerKind.
Inductive RemovalOwnerKind := MODEL_CACHE_OPERATION | RECIPE_IMAGE_JOB.
Definition RemovalOwnerKind_value (k : RemovalOwnerKind) : string :=
  match k with
  | MODEL_CACHE_OPERATION => "model-cache-operation"
  | RECIPE_IMAGE_JOB => "recipe-image-job"
  end.
#[global] Instance RemovalOwnerKind_eq : EqDecision RemovalOwnerKind.
Proof. solve_decision. Defined.
#[global] Instance RemovalOwnerKind_enum : WireEnum RemovalOwnerKind.
Proof. refine {| members := [MODEL_CACHE_OPERATION; RECIPE_IMAGE_JOB]; value := RemovalOwnerKind_value |};
  solve_wire_enum. Defined.
End RemovalOwnerKind.
Abbreviation RemovalOwnerKind := RemovalOwnerKind.RemovalOwnerKind.

Record ArtifactIdentity := Identity { artifact_kind : ArtifactKind; artifact_sha256 : string }.
#[global] Instance ArtifactIdentity_eq : EqDecision ArtifactIdentity.
Proof. solve_decision. Defined.

Definition kind_rank (k : ArtifactKind) : Z :=
  match k with
  | ArtifactKind.MODEL_SET => 0
  | ArtifactKind.MODEL_OBJECT => 1
  | ArtifactKind.RUNTIME_IMAGE => 2
  end.

#[global] Instance ArtifactIdentity_countable : Countable ArtifactIdentity.
Proof.
  refine (inj_countable' (fun i => (kind_rank (artifact_kind i), artifact_sha256 i))
    (fun p => Identity (if fst p =? 0 then ArtifactKind.MODEL_SET
                        else if fst p =? 1 then ArtifactKind.MODEL_OBJECT
                        else ArtifactKind.RUNTIME_IMAGE) (snd p)) _).
  by intros [[] ?].
Defined.

(** [ArtifactIdentity(kind, sha256)] with its validation. *)
Definition artifact_identity (kind_ sha256 : string) : result ArtifactIdentity :=
  match of_word kind_ with
  | None => Raise (InvalidValue "artifact lifecycle kind is invalid"
                     (value InvalidRequestReason.UNSUPPORTED))
  | Some k =>
      if _is_digest sha256 then Ok (Identity k sha256)
      else Raise (InvalidValue "artifact lifecycle digest is invalid"
                    (value InvalidRequestReason.MALFORMED))
  end.

(** [_identity_order]: the tuple order of kind rank and digest. *)
Definition identity_le (a b : ArtifactIdentity) : Prop :=
  kind_rank (artifact_kind a) < kind_rank (artifact_kind b) \/
  artifact_kind a = artifact_kind b /\ str_le (artifact_sha256 a) (artifact_sha256 b).
#[global] Instance identity_le_dec a b : Decision (identity_le a b).
Proof. unfold identity_le. apply _. Defined.

(** [sorted(set(identities), key=_identity_order)] *)
Definition ordered (l : list ArtifactIdentity) : list ArtifactIdentity :=
  merge_sort identity_le (remove_dups l).

(** ** The rows *)

(** Who removes an object: kind, id and fence. *)
Record RemovalOwner := Owner {
  owner_kind : RemovalOwnerKind;
  owner_row : string;
  owner_fence : string;
}.
#[global] Instance RemovalOwner_eq : EqDecision RemovalOwner.
Proof. solve_decision. Defined.

(** A gate.  Its three owner columns are all empty or all set (a table constraint). *)
Record ArtifactLifecycleGate := {
  removal_owner : option RemovalOwner;
  removal_authority_expires_at : option datetime;
  gate_updated_at : datetime;
  gate_wait : ScheduledWaitOwner;
}.

(** A model-cache operation or a job, as the owner of a removal. *)
Record OwnerRow := {
  row_state : string;
  row_created_at : datetime;
  row_updated_at : datetime;
  row_completed_at : option datetime;
}.

Notation gate_table := (gmap ArtifactIdentity ArtifactLifecycleGate).

Record Tables := {
  gates : gate_table;
  operations : gmap string OwnerRow;
  image_jobs : gmap string OwnerRow;
}.

Definition set_gates (g : gate_table) (db : Tables) : Tables := {|
  gates := g; operations := operations db; image_jobs := image_jobs db |}.

Definition owner_rows (k : RemovalOwnerKind) (db : Tables) : gmap string OwnerRow :=
  match k with
  | RemovalOwnerKind.MODEL_CACHE_OPERATION => operations db
  | RemovalOwnerKind.RECIPE_IMAGE_JOB => image_jobs db
  end.

(** ** The database's answers *)

(** What a failed statement says of itself. *)
Record DBAPIError := { sqlstate : option string; message_primary : option string }.

Definition _RETRYABLE_SQLSTATES : list string := ["55P03"; "40P01"; "40001"].

(** [needle in text.lower()] *)
Fixpoint contains (needle text : string) : bool :=
  String.prefix needle text
  || match text with EmptyString => false | String _ rest => contains needle rest end.

Definition retryable_artifact_database_error (e : DBAPIError) : option exn :=
  match sqlstate e with
  | None => None
  | Some state =>
      if mem state _RETRYABLE_SQLSTATES then
        Some (ReferenceUnsettled (value ArtifactLifecycleCode.REFERENCE_BUSY)
                ("artifact reference transaction conflicted with PostgreSQL (" +:+ state +:+ ")"))
      else if bool_decide (state = "57014") then
        match message_primary e with
        | Some m =>
            if contains "statement timeout" (lower m) then
              Some (ReferenceUnsettled (value ArtifactLifecycleCode.REFERENCE_TIMEOUT)
                      "artifact reference SQL exceeded the caller's statement time budget")
            else None
        | None => None
        end
      else None
  end.

(** [_reference_sql]: one gate statement. *)
Definition _reference_sql {A} (answer : A + DBAPIError) : result A :=
  match answer with
  | inl a => Ok a
  | inr e =>
      Raise (default (ReferenceUnverified (value ArtifactLifecycleCode.REFERENCE_UNAVAILABLE)
                        "artifact reference observation is unavailable")
               (retryable_artifact_database_error e))
  end.

(** What other open transactions hold. *)
Record Locks := {
  shared_keys : list Z;
  exclusive_keys : list Z;
  locked_gates : list ArtifactIdentity;
  locked_owners : list string;
}.

(** The signed 64-bit advisory key of an identity. *)
Definition lock_key (i : ArtifactIdentity) : Z :=
  let k := Sha256.first8 (value (artifact_kind i) +:+ ":" +:+ artifact_sha256 i) in
  if 2 ^ 63 <=? k then k - 2 ^ 64 else k.

(** [pg_try_advisory_xact_lock] and its shared form. *)
Definition try_exclusive (held : Locks) (i : ArtifactIdentity) : bool :=
  negb (mem (lock_key i) (shared_keys held)) && negb (mem (lock_key i) (exclusive_keys held)).
Definition try_shared (held : Locks) (i : ArtifactIdentity) : bool :=
  negb (mem (lock_key i) (exclusive_keys held)).

Definition lock_not_available : DBAPIError := {| sqlstate := Some "55P03"; message_primary := None |}.

(** [select(ArtifactLifecycleGate) ... with_for_update(nowait=True)] *)
Definition lock_gate (held : Locks) (db : Tables) (i : ArtifactIdentity)
  : result (option ArtifactLifecycleGate) :=
  _reference_sql
    (match gates db !! i with
     | Some g => if mem i (locked_gates held) then inr lock_not_available else inl (Some g)
     | None => inl None
     end).

(** [select(model) ... with_for_update(nowait=True)] *)
Definition lock_owner (held : Locks) (db : Tables) (k : RemovalOwnerKind) (id_ : string)
  : result (option OwnerRow) :=
  _reference_sql
    (match owner_rows k db !! id_ with
     | Some r => if mem id_ (locked_owners held) then inr lock_not_available else inl (Some r)
     | None => inl None
     end).

Definition busy {A} : result A :=
  Raise (ReferenceUnsettled (value ArtifactLifecycleCode.REFERENCE_BUSY)
           "artifact reference ownership is changing").

(** ** Locking gates *)

(** The shared form neither creates nor updates a gate. *)
Definition lock_shared (held : Locks) (db : Tables) (l : list ArtifactIdentity)
  : result (list (ArtifactIdentity * ArtifactLifecycleGate)) :=
  if forallb (try_shared held) (ordered l)
  then Ok (omap (fun i => (fun g => (i, g)) <$> gates db !! i) (ordered l))
  else busy.

Definition new_gate (now : datetime) : ArtifactLifecycleGate := {|
  removal_owner := None; removal_authority_expires_at := None; gate_updated_at := now;
  gate_wait := WaitColumns NoEvidence None |}.

(** A missing gate is created before it is locked. *)
Fixpoint lock_rows (held : Locks) (db : Tables) (now : datetime) (l : list ArtifactIdentity)
  : result (Tables * list (ArtifactIdentity * ArtifactLifecycleGate)) :=
  match l with
  | [] => Ok (db, [])
  | i :: rest =>
      let db := match gates db !! i with
                | Some _ => db
                | None => set_gates (<[i := new_gate now]> (gates db)) db
                end in
      row ← lock_gate held db i;
      match row with
      | None => Raise (ReferenceUnsettled (value ArtifactLifecycleCode.REFERENCE_UNAVAILABLE)
                         "artifact reference ownership could not be read safely")
      | Some g => '(db, rows) ← lock_rows held db now rest; Ok (db, (i, g) :: rows)
      end
  end.

(** [lock_reference_gates(shared=False)]: every key in common order, then every row. *)
Definition lock_reference_gates (held : Locks) (db : Tables) (l : list ArtifactIdentity) (now : datetime)
  : result (Tables * list (ArtifactIdentity * ArtifactLifecycleGate)) :=
  if forallb (try_exclusive held) (ordered l) then lock_rows held db now (ordered l) else busy.

(** ** Readers *)
Definition has_pending_removal (db : Tables) (l : list ArtifactIdentity) : bool :=
  existsb (fun i => match gates db !! i with
                    | Some g => bool_decide (removal_owner g <> None)
                    | None => false
                    end) l.

Definition describe (i : ArtifactIdentity) : string :=
  value (artifact_kind i) +:+ " " +:+ artifact_sha256 i.

Definition require_reference_open (held : Locks) (db : Tables) (l : list ArtifactIdentity) : result unit :=
  rows ← lock_shared held db l;
  match find (fun r => bool_decide (removal_owner (snd r) <> None)) rows with
  | Some (i, _) => Raise (ReferenceUnsettled (value ArtifactLifecycleCode.DELETION_IN_PROGRESS)
                            (describe i +:+ " is reserved for removal"))
  | None => Ok tt
  end.

Definition owned_by (o : RemovalOwner) (g : ArtifactLifecycleGate) : bool :=
  bool_decide (removal_owner g = Some o).

Definition lock_removal_fences (held : Locks) (db : Tables) (l : list ArtifactIdentity)
    (o : RemovalOwner) (now : datetime) : result (Tables * bool) :=
  '(db, rows) ← lock_reference_gates held db l now;
  Ok (db, negb (bool_decide (rows = [])) && forallb (fun r => owned_by o (snd r)) rows).

(** The assignments as the dict they build: the last one of an identity wins. *)
Definition last_assignments (l : list (ArtifactIdentity * RemovalOwner))
  : gmap ArtifactIdentity RemovalOwner :=
  fold_left (fun m a => <[fst a := snd a]> m) l ∅.

Definition removal_fences_match (held : Locks) (db : Tables)
    (l : list (ArtifactIdentity * RemovalOwner)) (now : datetime) : result (Tables * bool) :=
  let expected := last_assignments l in
  if bool_decide (expected = ∅) then Ok (db, false)
  else
    '(db, rows) ← lock_reference_gates held db (fst <$> l) now;
    Ok (db, forallb (fun r => bool_decide (removal_owner (snd r) = expected !! fst r)) rows).

(** ** Reserving *)

(** The identities of the assignments, each with its one owner. *)
Fixpoint collect_assignments (seen : gmap ArtifactIdentity RemovalOwner)
    (l : list (ArtifactIdentity * RemovalOwner)) : result (gmap ArtifactIdentity RemovalOwner) :=
  match l with
  | [] => Ok seen
  | (i, o) :: rest =>
      if bool_decide (owner_row o = EmptyString) || bool_decide (owner_fence o = EmptyString) then
        Raise (InvalidValue "artifact removal owner identity is incomplete"
                 (value InvalidRequestReason.INCOMPLETE))
      else
        match seen !! i with
        | Some p =>
            if bool_decide (p = o) then collect_assignments seen rest
            else Raise (InvalidValue "one artifact identity has multiple removal owners"
                          (value InvalidRequestReason.CONFLICT))
        | None => collect_assignments (<[i := o]> seen) rest
        end
  end.

(** [reserve_removal_owners(assignments)]: an owner kind is one of its two words here. *)
Definition reserved_gate (now : datetime) (o : RemovalOwner) (g : ArtifactLifecycleGate)
  : ArtifactLifecycleGate := {|
  removal_owner := Some o;
  removal_authority_expires_at :=
    if owned_by o g then removal_authority_expires_at g else None;
  gate_updated_at := now;
  gate_wait := gate_wait g |}.

Fixpoint assign_rows (by_identity : gmap ArtifactIdentity RemovalOwner) (now : datetime)
    (rows : list (ArtifactIdentity * ArtifactLifecycleGate)) (g : gate_table) : result gate_table :=
  match rows with
  | [] => Ok g
  | (i, row) :: rest =>
      match by_identity !! i with
      | None => Raise (KeyError (describe i))
      | Some o =>
          if bool_decide (removal_owner row <> None) && negb (owned_by o row) then
            Raise (ReferenceUnsettled (value ArtifactLifecycleCode.DELETION_BUSY)
                     (describe i +:+ " has another removal owner"))
          else assign_rows by_identity now rest (<[i := reserved_gate now o row]> g)
      end
  end.

Definition reserve_removal_owners (held : Locks) (db : Tables)
    (l : list (ArtifactIdentity * RemovalOwner)) (now : datetime) : result Tables :=
  by_identity ← collect_assignments ∅ l;
  '(db, rows) ← lock_reference_gates held db (fst <$> map_to_list by_identity) now;
  g ← assign_rows by_identity now rows (gates db);
  Ok (set_gates g db).

Definition reserve_removal (held : Locks) (db : Tables) (l : list ArtifactIdentity)
    (o : RemovalOwner) (now : datetime) : result Tables :=
  reserve_removal_owners held db ((fun i => (i, o)) <$> l) now.

(** ** Checks under a storage lock *)
Definition check_removal_fence_nowait (held : Locks) (db : Tables) (i : ArtifactIdentity)
    (o : RemovalOwner) : result bool :=
  row ← lock_gate held db i;
  Ok (match row with Some g => owned_by o g | None => false end).

Definition reference_gate_is_open_nowait (held : Locks) (db : Tables) (i : ArtifactIdentity)
  : result bool :=
  row ← lock_gate held db i;
  Ok (match row with Some g => bool_decide (removal_owner g = None) | None => true end).

(** ** Releasing *)

(** [open_gate]: an open gate with no wait is deleted. *)
Definition open_gate (now : datetime) (i : ArtifactIdentity) (row : ArtifactLifecycleGate)
    (g : gate_table) : gate_table :=
  if bool_decide (gate_wait row = WaitColumns NoEvidence None) then delete i g
  else <[i := {| removal_owner := None; removal_authority_expires_at := None;
                 gate_updated_at := now; gate_wait := gate_wait row |}]> g.

Definition STORE_RETENTION_MAX_AGE : Z := seconds 600.

Definition ended_words (k : RemovalOwnerKind) : list string :=
  match k with
  | RemovalOwnerKind.MODEL_CACHE_OPERATION =>
      ModelCacheStates.words [LifecycleState.SUCCEEDED; LifecycleState.FAILED; LifecycleState.CANCELLED]
  | RemovalOwnerKind.RECIPE_IMAGE_JOB =>
      JobStates.words [LifecycleState.SUCCEEDED; LifecycleState.FAILED; LifecycleState.CANCELLED;
                       LifecycleState.SUPERSEDED]
  end.

Definition live_owner_words (k : RemovalOwnerKind) : list string :=
  match k with
  | RemovalOwnerKind.MODEL_CACHE_OPERATION => ModelCacheStates.LIVE
  | RemovalOwnerKind.RECIPE_IMAGE_JOB =>
      JobStates.words [LifecycleState.QUEUED; LifecycleState.RUNNING; LifecycleState.BACKOFF]
  end.

(** Until when remote authority given with the gate may still be used. *)
Definition authority_bound (k : RemovalOwnerKind) (owner : option OwnerRow) (expires : datetime)
  : instant :=
  match k, owner with
  | RemovalOwnerKind.MODEL_CACHE_OPERATION, Some r =>
      Z.min (to_utc expires)
        (to_utc (default (row_updated_at r) (row_completed_at r)) + STORE_RETENTION_MAX_AGE)
  | _, _ => to_utc expires
  end.

Definition release_dead_removal_nowait (held : Locks) (db : Tables) (i : ArtifactIdentity)
    (k : RemovalOwnerKind) (now : datetime) : result (Tables * bool) :=
  row ← lock_gate held db i;
  match row with
  | None => Ok (db, false)
  | Some g =>
      match removal_owner g with
      | None => Ok (db, false)
      | Some o =>
          if negb (bool_decide (owner_kind o = k)) then Ok (db, false)
          else
            owner ← lock_owner held db k (owner_row o);
            if match owner with Some r => negb (mem (row_state r) (ended_words k)) | None => false end
            then Ok (db, false)
            else if match removal_authority_expires_at g with
                    | Some t => to_utc now <? authority_bound k owner t
                    | None => false
                    end
            then Ok (db, false)
            else Ok (set_gates (open_gate now i g (gates db)) db, true)
      end
  end.

(** [order_by(kind, digest)] on the stored words. *)
Definition identity_word_le (a b : ArtifactIdentity) : Prop :=
  value (artifact_kind a) <> value (artifact_kind b) /\
    str_le (value (artifact_kind a)) (value (artifact_kind b)) \/
  artifact_kind a = artifact_kind b /\ str_le (artifact_sha256 a) (artifact_sha256 b).
#[global] Instance identity_word_le_dec a b : Decision (identity_word_le a b).
Proof. unfold identity_word_le. apply _. Defined.

(** A gate whose owner is gone or has ended. *)
Definition dead_gate (db : Tables) (k : RemovalOwnerKind) (g : ArtifactLifecycleGate) : bool :=
  match removal_owner g with
  | None => false
  | Some o =>
      bool_decide (owner_kind o = k)
      && match owner_rows k db !! owner_row o with
         | None => true
         | Some r => mem (row_state r) (ended_words k)
         end
  end.

Definition dead_removal_identities (db : Tables) (k : RemovalOwnerKind) (limit : nat)
    (after : option ArtifactIdentity) : list ArtifactIdentity :=
  take limit
    (merge_sort identity_word_le
       (fst <$> List.filter (fun r => dead_gate db k (snd r)
          && match after with
             | Some a => bool_decide (identity_word_le a (fst r)) && negb (bool_decide (fst r = a))
             | None => true
             end) (map_to_list (gates db)))).

Section supersede.
(** The service's own review of the newer request, and its cancel of the older removal (a
    write to the removal's row). *)
Context (validate : string -> string -> string -> bool) (cancel : string -> string -> Tables -> Tables).

(** The two rows are locked in the order of their ids; a missing one ends the search. *)
Definition lock_pair (held : Locks) (db : Tables) (k : RemovalOwnerKind) (a b : string)
  : result (option (OwnerRow * OwnerRow)) :=
  let first := if String.leb a b then a else b in
  let second := if String.leb a b then b else a in
  r1 ← lock_owner held db k first;
  match r1 with
  | None => Ok None
  | Some x =>
      r2 ← lock_owner held db k second;
      match r2 with
      | None => Ok None
      | Some y => Ok (Some (if String.leb a b then (x, y) else (y, x)))
      end
  end.

Definition supersede_removal_nowait (held : Locks) (db : Tables) (i : ArtifactIdentity)
    (k : RemovalOwnerKind) (request_id : string) (now : datetime) : result (Tables * bool) :=
  gate ← lock_gate held db i;
  match (g ← gate; removal_owner g) with
  | None => Ok (db, false)
  | Some o =>
      if negb (bool_decide (owner_kind o = k)) || bool_decide (owner_fence o = EmptyString)
         || bool_decide (owner_row o = request_id)
      then Ok (db, false)
      else
        pair_ ← lock_pair held db k request_id (owner_row o);
        match pair_ with
        | None => Ok (db, false)
        | Some (requester, remover) =>
            if negb (mem (row_state requester) (live_owner_words k))
               || negb (mem (row_state remover) (live_owner_words k))
            then Ok (db, false)
            else if (to_utc (row_created_at requester) <? to_utc (row_created_at remover))
                    || negb (validate request_id (owner_row o) (owner_fence o))
            then Ok (db, false)
            else release_dead_removal_nowait held (cancel (owner_row o) request_id db) i k now
        end
  end.
End supersede.

(** The loop of [clear_removal]: a newer owner's gate is left alone. *)
Fixpoint clear_rows (o : RemovalOwner) (now : datetime)
    (rows : list (ArtifactIdentity * ArtifactLifecycleGate)) (g : gate_table) : gate_table :=
  match rows with
  | [] => g
  | (i, row) :: rest =>
      clear_rows o now rest (if owned_by o row then open_gate now i row g else g)
  end.

Definition clear_removal (held : Locks) (db : Tables) (l : list ArtifactIdentity)
    (o : RemovalOwner) (now : datetime) : result Tables :=
  '(db, rows) ← lock_reference_gates held db l now;
  Ok (set_gates (clear_rows o now rows (gates db)) db).
