(* ===== verification/ArtifactGatesFacts.v ===== *)
(** * What the deletion gates promise

    The contract of [ArtifactGates] is a map from identities to removal owners: a
    reservation succeeds exactly when every identity is free or already the owner's and
    then gives it all of them, a clear takes back exactly the owner's own, and while the
    owner of a reservation lives nobody else gets past it.  A missing gate and an open one
    are the same to every reader. *)
From stdpp Require Import sorting fin_maps.
From S2P Require Import Prelude Vocabulary ReasonCodes Sha256 Demand PersistedWaits ModelCache.
From S2P Require Import ArtifactGates.

(** ** The common order *)
#[global] Instance identity_le_total : Total identity_le.
Proof.
  intros [[] a] [[] b]; unfold identity_le; simpl; try (left; left; lia); try (right; left; lia).
  all: destruct (str_le_total a b); [left|right]; right; done.
Qed.
#[global] Instance identity_le_trans : Transitive identity_le.
Proof.
  intros [ka a] [kb b] [kc c]; unfold identity_le; simpl.
  intros [H1|[-> H1]] [H2|[-> H2]]; [left; lia|by left|by left|]. right. split; [done|].
  by eapply str_le_trans.
Qed.

Lemma ordered_perm l : ordered l ≡ₚ remove_dups l.
Proof. apply merge_sort_Permutation. Qed.
Lemma ordered_elem i l : i ∈ ordered l <-> i ∈ l.
Proof. rewrite ordered_perm. apply elem_of_remove_dups. Qed.
Lemma ordered_nodup l : NoDup (ordered l).
Proof. rewrite ordered_perm. apply NoDup_remove_dups. Qed.
Lemma ordered_sorted l : StronglySorted identity_le (ordered l).
Proof. apply StronglySorted_merge_sort; apply _. Qed.

(** ** Owners *)

(** The abstract state: who removes each object. *)
Definition owner_of (db : Tables) (i : ArtifactIdentity) : option RemovalOwner :=
  g ← gates db !! i; removal_owner g.

Definition no_locks : Locks := {|
  shared_keys := []; exclusive_keys := []; locked_gates := []; locked_owners := [] |}.

(** Tables that differ in open gates alone. *)
#[global] Instance Tables_equiv : Equiv Tables := fun db db' =>
  (forall i, owner_of db i = owner_of db' i) /\
  (forall i, (g ← gates db !! i; o ← removal_owner g; Some (o, removal_authority_expires_at g)) =
             (g ← gates db' !! i; o ← removal_owner g; Some (o, removal_authority_expires_at g))) /\
  operations db = operations db' /\ image_jobs db = image_jobs db'.
#[global] Instance Tables_equivalence : Equivalence (≡@{Tables}).
Proof.
  split.
  - intros db. done.
  - intros db db' (H1 & H2 & H3 & H4). by split_and!.
  - intros a b c (H1 & H2 & H3 & H4) (K1 & K2 & K3 & K4). split_and!; congruence.
Qed.

(** What locking the rows of a scope does. *)
Record locked_rows (db : Tables) (l : list ArtifactIdentity) (db' : Tables)
    (rows : list (ArtifactIdentity * ArtifactLifecycleGate)) : Prop := {
  lr_names : fst <$> rows = l;
  lr_rows : forall i g, (i, g) ∈ rows -> gates db' !! i = Some g;
  lr_owner : forall i, owner_of db' i = owner_of db i;
  lr_old : forall i g, gates db !! i = Some g -> gates db' !! i = Some g;
  lr_new : forall i g, gates db !! i = None -> gates db' !! i = Some g ->
    i ∈ l /\ removal_owner g = None /\ removal_authority_expires_at g = None /\
    gate_wait g = WaitColumns NoEvidence None;
  lr_rest : operations db' = operations db /\ image_jobs db' = image_jobs db;
}.

Lemma lock_rows_spec held now l : forall db db' rows,
  lock_rows held db now l = Ok (db', rows) -> locked_rows db l db' rows.
Proof.
  induction l as [|i l IH]; intros db db' rows H; cbn [lock_rows] in H.
  { unbind. simplify_eq. constructor; try done; intros; try congruence; by inversion H. }
  set (db1 := match gates db !! i with Some _ => db | None => _ end) in *.
  assert (exists g, gates db1 !! i = Some g /\ (forall j, j <> i -> gates db1 !! j = gates db !! j) /\
    (gates db !! i = None -> g = new_gate now) /\ (forall g', gates db !! i = Some g' -> g = g') /\
    operations db1 = operations db /\ image_jobs db1 = image_jobs db) as (g & Hg & Hother & Hnew & Hold & Hrest).
  { unfold db1. destruct (gates db !! i) as [g|] eqn:E; [exists g; naive_solver|].
    exists (new_gate now). cbn [gates set_gates]. rewrite lookup_insert_eq. split_and!; try done.
    intros j Hj. by rewrite lookup_insert_ne. }
  unbind. destruct v as [g'|]; [|done]. unbind. destruct v as [db2 rows2]. unbind. simplify_eq.
  apply IH in Hv0 as [I1 I2 I3 I4 I5 I6].
  assert (g' = g) as ->.
  { unfold lock_gate in Hv. rewrite Hg in Hv. case_match; simpl in Hv; congruence. }
  constructor.
  - simpl. by f_equal.
  - intros j h [[= -> ->]|Hin]%elem_of_cons; [by apply I4|by apply I2].
  - intros j. rewrite I3. unfold owner_of. destruct (decide (j = i)) as [->|Hj]; [|by rewrite Hother].
    rewrite Hg. destruct (gates db !! i) eqn:E; simpl; [by erewrite Hold|]. by rewrite Hnew.
  - intros j h Hj. apply I4. destruct (decide (j = i)) as [->|Hne]; [by rewrite Hg, (Hold _ Hj)|by rewrite Hother].
  - intros j h Hj Hh. destruct (decide (j = i)) as [->|Hne].
    + rewrite (I4 _ _ Hg) in Hh. simplify_eq. rewrite Hnew by done. split; [left|done].
    + destruct (I5 j h) as (? & ? & ? & ?); [by rewrite Hother|done|]. split; [by right|done].
  - destruct I6, Hrest. split; congruence.
Qed.

Lemma lock_rows_ok held now l : locked_gates held = [] -> forall db, exists db' rows,
  lock_rows held db now l = Ok (db', rows).
Proof.
  intros Hl. induction l as [|i l IH]; intros db; cbn [lock_rows]; [by do 2 eexists|].
  set (db1 := match gates db !! i with Some _ => db | None => _ end).
  assert (exists g, lock_gate held db1 i = Ok (Some g)) as [g ->].
  { unfold lock_gate, db1. destruct (gates db !! i) as [g|] eqn:E.
    - rewrite E, Hl. by exists g.
    - cbn [gates set_gates]. rewrite lookup_insert_eq, Hl. by eexists. }
  rewrite bind_Ok_l. destruct (IH db1) as (db' & rows & ->). rewrite bind_Ok_l. by do 2 eexists.
Qed.

Lemma lock_reference_gates_spec held db l now db' rows :
  lock_reference_gates held db l now = Ok (db', rows) -> locked_rows db (ordered l) db' rows.
Proof. unfold lock_reference_gates. case_match; [|done]. apply lock_rows_spec. Qed.

Lemma locked_equiv db l db' rows : locked_rows db l db' rows -> db' ≡ db.
Proof.
  intros [_ _ H1 H2 H3 [H4 H5]]. split_and!; try done. intros i.
  destruct (gates db !! i) as [g|] eqn:E; [by rewrite (H2 _ _ E)|].
  destruct (gates db' !! i) as [g|] eqn:E'; [|done]. simpl.
  by destruct (H3 i g E E') as (_ & -> & _).
Qed.

(** ** Reserving *)

(** An owner with an identity and a fence. *)
Definition complete (o : RemovalOwner) : Prop := owner_row o <> EmptyString /\ owner_fence o <> EmptyString.

(** Every identity is named with one owner, and is free or that owner's. *)
Record grantable (db : Tables) (l : list (ArtifactIdentity * RemovalOwner)) : Prop := {
  ga_complete : forall i o, (i, o) ∈ l -> complete o;
  ga_one : forall i o o', (i, o) ∈ l -> (i, o') ∈ l -> o = o';
  ga_free : forall i o, (i, o) ∈ l -> owner_of db i = None \/ owner_of db i = Some o;
}.

Lemma collect_spec l : forall seen m,
  collect_assignments seen l = Ok m ->
  (forall i o, seen !! i = Some o -> m !! i = Some o) /\
  (forall i o, (i, o) ∈ l -> m !! i = Some o /\ complete o) /\
  (forall i o, m !! i = Some o -> seen !! i = Some o \/ (i, o) ∈ l).
Proof.
  induction l as [|[i o] l IH]; intros seen m H; cbn [collect_assignments] in H.
  { unbind. simplify_eq. split_and!; [done|by intros ? ? ?%elem_of_nil|by left]. }
  destruct (bool_decide _ || bool_decide _) eqn:Ec; [done|]. bools.
  destruct (seen !! i) as [p|] eqn:Es.
  - case_bool_decide as Ep; [subst p|done]. destruct (IH _ _ H) as (I1 & I2 & I3). split_and!.
    + done.
    + intros j q [[= -> ->]|Hin]%elem_of_cons; [split; [by apply I1|done]|by apply I2].
    + intros j q Hj. destruct (I3 j q Hj); [by left|right; by right].
  - destruct (IH _ _ H) as (I1 & I2 & I3). split_and!.
    + intros j q Hj. apply I1. rewrite lookup_insert_ne; [done|]. intros ->. congruence.
    + intros j q [[= -> ->]|Hin]%elem_of_cons; [split; [apply I1; by rewrite lookup_insert_eq|done]|by apply I2].
    + intros j q Hj. destruct (I3 j q Hj) as [Hs|Hl]; [|right; by right].
      destruct (decide (j = i)) as [->|Hne].
      * rewrite lookup_insert_eq in Hs. simplify_eq. right. left.
      * rewrite lookup_insert_ne in Hs by done. by left.
Qed.

Lemma collect_ok l : forall seen,
  (forall i o, (i, o) ∈ l -> complete o) ->
  (forall i o o', seen !! i = Some o -> (i, o') ∈ l -> o = o') ->
  (forall i o o', (i, o) ∈ l -> (i, o') ∈ l -> o = o') ->
  exists m, collect_assignments seen l = Ok m.
Proof.
  induction l as [|[i o] l IH]; intros seen Hc Hs Ho; cbn [collect_assignments]; [by eexists|].
  destruct (Hc i o) as [C1 C2]; [left|].
  rewrite (bool_decide_eq_false_2 (owner_row o = _)), (bool_decide_eq_false_2 (owner_fence o = _)) by done. cbn [orb].
  destruct (seen !! i) as [p|] eqn:Es.
  - rewrite bool_decide_eq_true_2 by (eapply Hs; [done|left]).
    apply IH; intros; [eapply Hc|eapply Hs|eapply Ho]; try done; by right.
  - apply IH.
    + intros j q Hj. eapply Hc. by right.
    + intros j q q' Hj Hin. destruct (decide (j = i)) as [->|Hne].
      * rewrite lookup_insert_eq in Hj. simplify_eq. eapply Ho; [left|by right].
      * rewrite lookup_insert_ne in Hj by done. eapply Hs; [done|by right].
    + intros j q q' H1 H2. eapply Ho; by right.
Qed.

Lemma assign_spec m now rows : forall g g',
  assign_rows m now rows g = Ok g' -> NoDup (fst <$> rows) ->
  (forall i row, (i, row) ∈ rows -> exists o, m !! i = Some o /\ g' !! i = Some (reserved_gate now o row) /\
     (removal_owner row = None \/ removal_owner row = Some o)) /\
  (forall i, i ∉ fst <$> rows -> g' !! i = g !! i).
Proof.
  induction rows as [|[i row] rows IH]; intros g g' H Hn; cbn [assign_rows] in H.
  { unbind. simplify_eq. split; [by intros ? ? ?%elem_of_nil|done]. }
  rewrite fmap_cons in Hn. apply NoDup_cons in Hn as [Hi Hn]. cbn [fst] in Hi.
  destruct (m !! i) as [o|] eqn:Em; [|done].
  destruct (bool_decide _ && negb _) eqn:Eb; [done|]. destruct (IH _ _ H Hn) as [H1 H2]. split.
  - intros j r [[= -> ->]|Hin]%elem_of_cons; [|by apply H1]. exists o. split; [done|]. split.
    + rewrite H2 by done. by rewrite lookup_insert_eq.
    + unfold owned_by in Eb. destruct (removal_owner row) as [p|] eqn:Er; [|by left].
      rewrite bool_decide_eq_true_2 in Eb by done. cbn [andb] in Eb. bools. by right.
  - intros j Hj. rewrite fmap_cons, not_elem_of_cons in Hj. destruct Hj as [Hj1 Hj2]. rewrite H2 by done.
    by rewrite lookup_insert_ne.
Qed.

Lemma assign_ok m now rows : forall g,
  (forall i row, (i, row) ∈ rows -> exists o, m !! i = Some o /\
     (removal_owner row = None \/ removal_owner row = Some o)) ->
  exists g', assign_rows m now rows g = Ok g'.
Proof.
  induction rows as [|[i row] rows IH]; intros g H; cbn [assign_rows]; [by eexists|].
  destruct (H i row) as (o & -> & Ho); [left|].
  assert (bool_decide (removal_owner row <> None) && negb (owned_by o row) = false) as ->.
  { unfold owned_by. destruct Ho as [-> | ->]; [done|]. rewrite (bool_decide_eq_true_2 (Some o = Some o)) by done.
    apply andb_false_r. }
  apply IH. intros j r Hin. apply H. by right.
Qed.

(** Where a reservation leaves the gates. *)
Lemma reserve_spec held db l now db' :
  reserve_removal_owners held db l now = Ok db' ->
  grantable db l /\
  (forall i o, (i, o) ∈ l -> exists g, gates db' !! i = Some (reserved_gate now o g) /\
     (gates db !! i = Some g \/ gates db !! i = None /\ gate_wait g = WaitColumns NoEvidence None /\
        removal_owner g = None /\ removal_authority_expires_at g = None)) /\
  (forall i, i ∉ l.*1 -> gates db' !! i = gates db !! i) /\
  operations db' = operations db /\ image_jobs db' = image_jobs db.
Proof.
  unfold reserve_removal_owners. intros H. unbind. rename v into m. destruct v0 as [db1 rows]. unbind.
  rename v into g. simplify_eq. apply collect_spec in Hv as (_ & H2 & H3).
  apply lock_reference_gates_spec in Hv0 as L. destruct L as [L1 L2 L3 L4 L5 [L6 L7]].
  assert (forall i, i ∈ rows.*1 <-> i ∈ l.*1) as Hnames.
  { intros i. rewrite L1, ordered_elem. rewrite !list_elem_of_fmap. split.
    - intros ([j o] & -> & Hin%elem_of_map_to_list). destruct (H3 j o Hin) as [?|Hl]; [done|]. by exists (j, o).
    - intros ([j o] & -> & Hin). exists (j, o). split; [done|]. apply elem_of_map_to_list. by apply H2. }
  apply assign_spec in Hv1 as [A1 A2]; [|rewrite L1; apply ordered_nodup].
  assert (forall i o, (i, o) ∈ l -> exists row, (i, row) ∈ rows /\ gates db1 !! i = Some row /\
            gates (set_gates g db1) !! i = Some (reserved_gate now o row) /\
            (removal_owner row = None \/ removal_owner row = Some o)) as Hrow.
  { intros i o Hin. assert (i ∈ rows.*1) as Hi by (apply Hnames, list_elem_of_fmap; by exists (i, o)).
    apply list_elem_of_fmap in Hi as ([j row] & -> & Hr). simpl in *.
    destruct (A1 j row Hr) as (o' & Hm & Hg & Hf). destruct (H2 j o Hin) as [Hm' _].
    rewrite Hm' in Hm. simplify_eq. exists row. split_and!; try done. by apply L2. }
  split_and!; [constructor| | | |]; try done.
  - intros i o Hin. by apply (H2 i o).
  - intros i o o' Hi Hi'. apply H2 in Hi as [Hi _], Hi' as [Hi' _]. congruence.
  - intros i o Hin. destruct (Hrow i o Hin) as (row & _ & Hr & _ & Hf). rewrite <- (L3 i).
    unfold owner_of. by rewrite Hr.
  - intros i o Hin. destruct (Hrow i o Hin) as (row & _ & Hr & Hg & _). exists row. split; [done|].
    destruct (gates db !! i) as [g0|] eqn:E; [left; rewrite (L4 _ _ E) in Hr; congruence|].
    right. destruct (L5 i row E Hr) as (_ & ? & ? & ?). done.
  - intros i Hi. rewrite <- Hnames in Hi. cbn [gates set_gates]. rewrite A2 by done.
    destruct (gates db !! i) as [g0|] eqn:E; [by apply L4|].
    destruct (gates db1 !! i) as [g1|] eqn:E1; [|done]. destruct (L5 i g1 E E1) as (Hin & _).
    rewrite <- L1 in Hin. done.
Qed.

(** The removal owner of each identity after a reservation. *)
Definition reserved db (l : list (ArtifactIdentity * RemovalOwner)) db' : Prop :=
  (forall i o, (i, o) ∈ l -> owner_of db' i = Some o) /\
  (forall i, i ∉ l.*1 -> owner_of db' i = owner_of db i).

Lemma reserve_iff db l now :
  (forall held db', reserve_removal_owners held db l now = Ok db' -> grantable db l /\ reserved db l db') /\
  (grantable db l -> exists db', reserve_removal_owners no_locks db l now = Ok db').
Proof.
  split.
  - intros held db' H. apply reserve_spec in H as (G & H1 & H2 & _). split; [done|]. split.
    + intros i o Hin. destruct (H1 i o Hin) as (g & E & _). unfold owner_of. by rewrite E.
    + intros i Hi. unfold owner_of. by rewrite H2.
  - intros [G1 G2 G3]. unfold reserve_removal_owners.
    destruct (collect_ok l ∅) as [m Hm]; [done|by intros ? ? ? ?|done|]. rewrite Hm, bind_Ok_l.
    apply collect_spec in Hm as (_ & M2 & M3).
    unfold lock_reference_gates. rewrite (proj2 (forallb_forall _ _)) by (intros i _; vm_compute; reflexivity).
    destruct (lock_rows_ok no_locks now (ordered (map_to_list m).*1) eq_refl db) as (db1 & rows & Hr).
    rewrite Hr, bind_Ok_l. apply lock_rows_spec in Hr as [L1 L2 L3 _ _ _].
    destruct (assign_ok m now rows (gates db1)) as [g ->]; [|by eexists].
    intros i row Hin. assert (i ∈ (map_to_list m).*1) as Hi.
    { apply ordered_elem. rewrite <- L1. apply list_elem_of_fmap. by exists (i, row). }
    apply list_elem_of_fmap in Hi as ([j o] & -> & Hj%elem_of_map_to_list). exists o. split; [done|].
    destruct (M3 _ _ Hj) as [?|Hl]; [done|]. specialize (G3 _ _ Hl). rewrite <- L3 in G3. unfold owner_of in G3.
    apply L2 in Hin. cbn [fst] in Hin. by rewrite Hin in G3.
Qed.

(** A reservation is all or nothing, and exclusive: it succeeds only when every identity
    of every assignment is named with one complete owner and is free or already that
    owner's, then gives each identity to its owner and leaves every other identity with
    the owner it had; and where no other transaction is in the way it does succeed. *)
Theorem reserve_exact db l now :
  (forall held db', reserve_removal_owners held db l now = Ok db' -> grantable db l /\ reserved db l db') /\
  (grantable db l -> exists db', reserve_removal_owners no_locks db l now = Ok db').
Proof. apply reserve_iff. Qed.

(** ** Releasing *)

Lemma open_gate_lookup now i row g j :
  open_gate now i row g !! j = if decide (j = i) then
      (if bool_decide (gate_wait row = WaitColumns NoEvidence None) then None
       else Some {| removal_owner := None; removal_authority_expires_at := None;
                    gate_updated_at := now; gate_wait := gate_wait row |})
    else g !! j.
Proof.
  unfold open_gate. destruct (decide (j = i)) as [->|Hne]; case_bool_decide.
  - by rewrite lookup_delete_eq.
  - by rewrite lookup_insert_eq.
  - by rewrite lookup_delete_ne.
  - by rewrite lookup_insert_ne.
Qed.

(** An opened gate has no owner, whether its row stays or goes. *)
Lemma open_gate_owner now i row g j :
  (x ← open_gate now i row g !! j; removal_owner x) =
  if decide (j = i) then None else x ← g !! j; removal_owner x.
Proof. rewrite open_gate_lookup. destruct (decide (j = i)); [by case_bool_decide|done]. Qed.

Lemma clear_rows_lookup o now rows : forall g j,
  NoDup rows.*1 ->
  clear_rows o now rows g !! j =
  match list_find (fun r => fst r = j) rows with
  | Some (_, (_, row)) => if owned_by o row then open_gate now j row g !! j else g !! j
  | None => g !! j
  end.
Proof.
  induction rows as [|[i row] rows IH]; intros g j Hn; [done|].
  rewrite fmap_cons in Hn. apply NoDup_cons in Hn as [Hi Hn]. cbn [clear_rows list_find fst].
  rewrite IH by done. destruct (decide (i = j)) as [->|Hne].
  - assert (list_find (fun r : ArtifactIdentity * ArtifactLifecycleGate => fst r = j) rows = None) as ->; [|by case_match].
    apply list_find_None, Forall_forall. intros [k r] Hin E. apply Hi. apply list_elem_of_fmap. by exists (k, r).
  - assert (forall (b : bool), (if b then open_gate now i row g else g) !! j = g !! j) as Hb.
    { intros []; [|done]. rewrite open_gate_lookup. by rewrite decide_False by congruence. }
    rewrite Hb. destruct (list_find _ rows) as [[n [k r]]|]; simpl; [|done]. case_match; [|done].
    rewrite !open_gate_lookup. by rewrite !decide_True.
Qed.

Lemma clear_spec held db l o now db' :
  clear_removal held db l o now = Ok db' ->
  (forall i, i ∈ l -> owner_of db i = Some o -> owner_of db' i = None) /\
  (forall i, i ∉ l \/ owner_of db i <> Some o -> owner_of db' i = owner_of db i /\
     (owner_of db i <> None -> gates db' !! i = gates db !! i)) /\
  operations db' = operations db /\ image_jobs db' = image_jobs db.
Proof.
  unfold clear_removal. intros H. unbind. destruct v as [db1 rows]. unbind. simplify_eq.
  apply lock_reference_gates_spec in Hv as [L1 L2 L3 L4 L5 [L6 L7]].
  assert (NoDup rows.*1) as Hn by (rewrite L1; apply ordered_nodup).
  assert (forall i, owner_of (set_gates (clear_rows o now rows (gates db1)) db1) i =
            (if decide (i ∈ l /\ owner_of db i = Some o) then None else owner_of db i) /\
            (~ (i ∈ l /\ owner_of db i = Some o) ->
             gates (set_gates (clear_rows o now rows (gates db1)) db1) !! i = gates db1 !! i)) as Hall.
  { intros i. rewrite <- (L3 i). unfold owner_of at 1. cbn [gates set_gates]. rewrite clear_rows_lookup by done.
    destruct (list_find _ rows) as [[n [k row]]|] eqn:E.
    - apply list_find_Some in E as (E & Hk & _). cbn [fst] in Hk. subst k. apply list_elem_of_lookup_2 in E as Hin. pose proof (L2 _ _ Hin) as Hg.
      assert (i ∈ l) as Hl by (apply ordered_elem; rewrite <- L1; apply list_elem_of_fmap; by exists (i, row)).
      unfold owner_of. rewrite Hg. cbn [fst]. unfold owned_by. case_bool_decide as Ho.
      + rewrite open_gate_owner, decide_True by done. split; [by rewrite decide_True|]. intros Hne. by destruct Hne.
      + rewrite decide_False by naive_solver. done.
    - rewrite decide_False; [done|]. intros [Hl%ordered_elem _]. rewrite <- L1 in Hl.
      apply list_elem_of_fmap in Hl as ([k row] & -> & Hin). apply list_find_None in E. rewrite Forall_forall in E.
      by apply (E _ Hin). }
  split_and!; try done.
  - intros i Hi Ho. destruct (Hall i) as [-> _]. by rewrite decide_True.
  - intros i Hor. destruct (Hall i) as [-> Hg]. rewrite decide_False by naive_solver. split; [done|].
    intros Hne. rewrite Hg by naive_solver. unfold owner_of in Hne.
    destruct (gates db !! i) as [g|] eqn:E; [by apply L4|done].
Qed.

(** Completing a removal gives back exactly what its reservation took: after reserving
    free identities and clearing them again, under whatever locks both got through, the
    tables are the ones before, up to open gates. *)
Theorem clear_undoes_reserve held held' db l o now now' db1 db2 :
  (forall i, i ∈ l -> owner_of db i = None) ->
  reserve_removal held db l o now = Ok db1 -> clear_removal held' db1 l o now' = Ok db2 ->
  db2 ≡ db.
Proof.
  intros Hfree Hr Hc. apply reserve_spec in Hr as (_ & R1 & R2 & R3 & R4).
  apply clear_spec in Hc as (C1 & C2 & C3 & C4).
  assert (forall i, i ∈ ((fun i => (i, o)) <$> l).*1 <-> i ∈ l) as Hnames.
  { intros i. rewrite <- list_fmap_compose. simpl. by rewrite list_fmap_id. }
  assert (forall i, i ∈ l -> owner_of db2 i = None) as Hin.
  { intros i Hi. apply C1; [done|]. destruct (R1 i o) as (g & E & _); [apply list_elem_of_fmap; by exists i|].
    unfold owner_of. by rewrite E. }
  assert (forall i, i ∉ l -> gates db1 !! i = gates db !! i) as Hout.
  { intros i Hi. apply R2. by rewrite Hnames. }
  split_and!; try congruence; intros i; destruct (decide (i ∈ l)) as [Hi|Hi].
  - by rewrite Hin, Hfree.
  - destruct (C2 i (or_introl Hi)) as [-> _]. unfold owner_of. by rewrite Hout.
  - pose proof (Hin i Hi) as E. pose proof (Hfree i Hi) as E'. unfold owner_of in E, E'.
    destruct (gates db2 !! i) as [g2|], (gates db !! i) as [g|]; simpl in *; by rewrite ?E, ?E'.
  - destruct (C2 i (or_introl Hi)) as [Ho Hg]. unfold owner_of in Ho, Hg. rewrite Hout in Ho, Hg by done.
    destruct (gates db !! i) as [g|]; simpl in *.
    + destruct (removal_owner g) as [q|] eqn:Eq; [by rewrite Hg by done; simpl; rewrite Eq|].
      destruct (gates db2 !! i) as [g2|]; simpl in *; by rewrite ?Ho.
    + destruct (gates db2 !! i) as [g2|]; simpl in *; by rewrite ?Ho.
Qed.

(** Whether the release of a dead removal opens the gate: its owner is of the kind and is
    gone or has ended, and no remote authority given with it is still valid. *)
Definition releasable (db : Tables) (i : ArtifactIdentity) (k : RemovalOwnerKind) (now : datetime) : bool :=
  match gates db !! i with
  | None => false
  | Some g =>
      dead_gate db k g
      && match removal_authority_expires_at g, removal_owner g with
         | Some t, Some o => authority_bound k (owner_rows k db !! owner_row o) t <=? to_utc now
         | _, _ => true
         end
  end.

Lemma release_spec held db i k now db' b :
  release_dead_removal_nowait held db i k now = Ok (db', b) ->
  b = releasable db i k now /\
  (b = false -> db' = db) /\
  (b = true -> owner_of db' i = None /\ forall j, j <> i -> gates db' !! j = gates db !! j) /\
  operations db' = operations db /\ image_jobs db' = image_jobs db.
Proof.
  unfold release_dead_removal_nowait, releasable. intros H. unbind. unfold lock_gate in Hv.
  destruct (gates db !! i) as [g|] eqn:Eg; [|simpl in Hv; simplify_eq; unbind; simplify_eq; by split_and!].
  destruct (mem i (locked_gates held)); simpl in Hv; [done|]. injection Hv as <-. unfold dead_gate.
  destruct (removal_owner g) as [o|] eqn:Eo; [|unbind; simplify_eq; by split_and!].
  case_bool_decide as Ek; cbn [negb] in H; [|unbind; simplify_eq; by split_and!].
  unbind. rename v into owner. assert (owner_rows k db !! owner_row o = owner) as Er.
  { unfold lock_owner in Hv. destruct (owner_rows k db !! owner_row o); [destruct (mem (owner_row o) (locked_owners held))|]; simpl in Hv; try done; by injection Hv as <-. }
  rewrite Er.
  assert (match owner with Some r => negb (mem (row_state r) (ended_words k)) | None => false end =
          negb match owner with Some r => mem (row_state r) (ended_words k) | None => true end) as Ed by (by destruct owner).
  rewrite Ed in H. destruct (match owner with Some r => mem _ _ | None => true end);
    cbn [negb andb] in H |- *; [|unbind; simplify_eq; by split_and!].
  assert (match removal_authority_expires_at g with
          | Some t => to_utc now <? authority_bound k owner t | None => false end =
          negb match removal_authority_expires_at g with
               | Some t => authority_bound k owner t <=? to_utc now | None => true end) as Ea.
  { destruct (removal_authority_expires_at g); [|done]. by rewrite Z.ltb_antisym. }
  rewrite Ea in H. destruct (match removal_authority_expires_at g with Some _ => _ | None => true end);
    cbn [negb] in H; unbind; simplify_eq; split_and!; try done.
  intros _. unfold owner_of. cbn [gates set_gates]. rewrite open_gate_owner, decide_True by done. split; [done|].
  intros j Hj. by rewrite open_gate_lookup, decide_False.
Qed.

(** A newer request outranks the removal [p]: both are of one kind, different and live, the
    request is not the older one, the removal has its fence, and the service's review of the
    two accepts it. *)
Record outranks (validate : string -> string -> string -> bool) (db : Tables) (k : RemovalOwnerKind)
    (request : string) (p : RemovalOwner) : Prop := {
  or_kind : owner_kind p = k;
  or_fence : owner_fence p <> EmptyString;
  or_other : owner_row p <> request;
  or_rows : exists requester remover,
    owner_rows k db !! request = Some requester /\ owner_rows k db !! owner_row p = Some remover /\
    row_state requester ∈ live_owner_words k /\ row_state remover ∈ live_owner_words k /\
    to_utc (row_created_at remover) <= to_utc (row_created_at requester);
  or_review : validate request (owner_row p) (owner_fence p) = true;
}.

Lemma lock_owner_row held db k x r : lock_owner held db k x = Ok r -> owner_rows k db !! x = r.
Proof.
  unfold lock_owner. destruct (owner_rows k db !! x); [destruct (mem x (locked_owners held))|]; simpl; try done;
    by intros [= <-].
Qed.

Lemma lock_pair_rows held db k a b x y :
  lock_pair held db k a b = Ok (Some (x, y)) ->
  owner_rows k db !! a = Some x /\ owner_rows k db !! b = Some y.
Proof.
  unfold lock_pair. intros H. unbind. apply lock_owner_row in Hv. destruct v as [r1|]; [|done].
  unbind. apply lock_owner_row in Hv0. destruct v as [r2|]; [|done]. simplify_eq.
  destruct (String.leb a b); by simplify_eq.
Qed.

(** A supersession is the release of a removal the request outranks, once it is cancelled;
    every other one changes nothing. *)
Lemma supersede_spec validate cancel held db i k request now db' b :
  supersede_removal_nowait validate cancel held db i k request now = Ok (db', b) ->
  (db' = db /\ b = false) \/
  exists p, owner_of db i = Some p /\ outranks validate db k request p /\
    release_dead_removal_nowait held (cancel (owner_row p) request db) i k now = Ok (db', b).
Proof.
  unfold supersede_removal_nowait. intros H. unbind.
  assert (v = gates db !! i) as ->.
  { unfold lock_gate in Hv. destruct (gates db !! i); [destruct (mem i (locked_gates held))|]; simpl in Hv; try done;
      by injection Hv as <-. }
  fold (owner_of db i) in H. destruct (owner_of db i) as [p|]; [|simplify_eq; by left].
  destruct (negb _ || _ || _) eqn:E1; [simplify_eq; by left|]. unbind.
  destruct v as [[requester remover]|]; [|simplify_eq; by left].
  destruct (negb _ || negb _) eqn:E2; [simplify_eq; by left|].
  destruct ((_ <? _) || negb _) eqn:E3; [simplify_eq; by left|]. right. exists p. split; [done|]. split; [|done].
  apply lock_pair_rows in Hv0 as [R1 R2]. bools. constructor; try done.
  exists requester, remover. split_and!; try done.
Qed.

(** ** Histories *)

(** The transactions of any processes, each under the locks the others hold then, and
    changes of the owners' own rows. *)
Inductive gate_op :=
| OpReserve (held : Locks) (l : list (ArtifactIdentity * RemovalOwner)) (now : datetime)
| OpClear (held : Locks) (l : list ArtifactIdentity) (o : RemovalOwner) (now : datetime)
| OpRelease (held : Locks) (i : ArtifactIdentity) (k : RemovalOwnerKind) (now : datetime)
| OpSupersede (validate : string -> string -> string -> bool) (cancel : string -> string -> Tables -> Tables)
    (held : Locks) (i : ArtifactIdentity) (k : RemovalOwnerKind) (request : string) (now : datetime)
| OpReference (held : Locks) (l : list ArtifactIdentity)
| OpOwners (ops jobs : gmap string OwnerRow).

(** The tables after a transaction (those before, when it raised) and whether it got what
    it asked for. *)
Definition run_op (db : Tables) (op : gate_op) : Tables * bool :=
  match op with
  | OpReserve held l now =>
      match reserve_removal_owners held db l now with Ok db' => (db', true) | Raise _ => (db, false) end
  | OpClear held l o now =>
      match clear_removal held db l o now with Ok db' => (db', true) | Raise _ => (db, false) end
  | OpRelease held i k now =>
      match release_dead_removal_nowait held db i k now with Ok res => res | Raise _ => (db, false) end
  | OpSupersede validate cancel held i k request now =>
      match supersede_removal_nowait validate cancel held db i k request now with
      | Ok res => res
      | Raise _ => (db, false)
      end
  | OpReference held l =>
      match require_reference_open held db l with Ok _ => (db, true) | Raise _ => (db, false) end
  | OpOwners ops jobs => ({| gates := gates db; operations := ops; image_jobs := jobs |}, true)
  end.

Fixpoint run_ops (db : Tables) (ops : list gate_op) : Tables * list bool :=
  match ops with
  | [] => (db, [])
  | op :: rest =>
      let '(db', b) := run_op db op in
      let '(db'', bs) := run_ops db' rest in (db'', b :: bs)
  end.

(** The service's cancel of a removal writes the row of that removal and nothing else. *)
Definition cancels_row (k : RemovalOwnerKind) (cancel : string -> string -> Tables -> Tables) : Prop :=
  forall row request db, gates (cancel row request db) = gates db /\
    forall k' x, k' <> k \/ x <> row ->
      owner_rows k' (cancel row request db) !! x = owner_rows k' db !! x.

(** The owner's row says it is not over. *)
Definition live_row (rows : gmap string OwnerRow) (o : RemovalOwner) : Prop :=
  exists r, rows !! owner_row o = Some r /\ mem (row_state r) (ended_words (owner_kind o)) = false.

(** What leaves the reservation of [o] alone: not its own clear, not the end of its row, and no
    supersession by a request that outranks a removal of its row. *)
Definition respects (o : RemovalOwner) (i : ArtifactIdentity) (db : Tables) (op : gate_op) : Prop :=
  match op with
  | OpClear _ l o' _ => ~ (o' = o /\ i ∈ l)
  | OpSupersede validate cancel _ j k request _ =>
      cancels_row k cancel /\
      forall p, owner_of db j = Some p -> owner_kind p = owner_kind o -> owner_row p = owner_row o ->
        ~ outranks validate db k request p
  | OpOwners ops jobs =>
      live_row (match owner_kind o with
                | RemovalOwnerKind.MODEL_CACHE_OPERATION => ops
                | RemovalOwnerKind.RECIPE_IMAGE_JOB => jobs
                end) o
  | _ => True
  end.

(** Every transaction of a history, on the tables it finds. *)
Fixpoint all_respect (o : RemovalOwner) (i : ArtifactIdentity) (db : Tables) (ops : list gate_op) : Prop :=
  match ops with
  | [] => True
  | op :: rest => respects o i db op /\ all_respect o i (fst (run_op db op)) rest
  end.

(** What would get past it. *)
Definition intrudes (o : RemovalOwner) (i : ArtifactIdentity) (op : gate_op) : Prop :=
  match op with
  | OpReserve _ l _ => exists o', (i, o') ∈ l /\ o' <> o
  | OpReference _ l => i ∈ l
  | OpRelease _ j _ _ => j = i
  | OpSupersede _ _ _ j _ _ _ => j = i
  | _ => False
  end.

Lemma reference_refused held db l i o :
  owner_of db i = Some o -> i ∈ l -> exists e, require_reference_open held db l = Raise e.
Proof.
  intros Ho Hi. unfold require_reference_open, lock_shared. case_match; [|by eexists]. rewrite bind_Ok_l.
  destruct (find _ _) as [[j g]|] eqn:Ef; [by eexists|]. exfalso. unfold owner_of in Ho.
  destruct (gates db !! i) as [g|] eqn:Eg; [|done]. simpl in Ho.
  pose proof (List.find_none _ _ Ef (i, g)) as Hn. cbn [snd] in Hn. rewrite Ho in Hn.
  rewrite bool_decide_eq_true_2 in Hn by done. discriminate Hn. apply list_elem_of_In, list_elem_of_omap.
  exists i. split; [by apply ordered_elem|]. by rewrite Eg.
Qed.

(** A sweep opens no gate of a live owner. *)
Lemma release_step held db j k now db' b o i :
  owner_of db i = Some o -> live_row (owner_rows (owner_kind o) db) o ->
  release_dead_removal_nowait held db j k now = Ok (db', b) ->
  owner_of db' i = Some o /\ live_row (owner_rows (owner_kind o) db') o /\ (j = i -> b = false).
Proof.
  intros Ho Hl E. apply release_spec in E as (Eb & E1 & E2 & E3 & E4).
  assert (live_row (owner_rows (owner_kind o) db') o) as Hl' by (unfold owner_rows in *; by rewrite E3, E4).
  destruct (decide (j = i)) as [->|Hne].
  - assert (releasable db i k now = false) as Hrel.
    { unfold releasable, owner_of in *. destruct (gates db !! i) as [g|]; [|done]. simpl in Ho. unfold dead_gate.
      rewrite Ho. case_bool_decide as Ek; [|done]. subst k. destruct Hl as (r & -> & Hm). by rewrite Hm. }
    rewrite Hrel in Eb. subst b. rewrite E1 by done. by split_and!.
  - split_and!; [|done|by intros ->]. destruct b; [|by rewrite E1].
    destruct E2 as [_ E2]; [done|]. unfold owner_of. by rewrite E2 by congruence.
Qed.

(** A supersession that does not outrank the owner leaves it its gate and its row. *)
Lemma supersede_step validate cancel held db j k request now db' b o i :
  owner_of db i = Some o -> live_row (owner_rows (owner_kind o) db) o ->
  respects o i db (OpSupersede validate cancel held j k request now) ->
  supersede_removal_nowait validate cancel held db j k request now = Ok (db', b) ->
  owner_of db' i = Some o /\ live_row (owner_rows (owner_kind o) db') o /\ (j = i -> b = false).
Proof.
  intros Ho Hl [Hc Hno] H. apply supersede_spec in H as [[-> ->]|(p & Hp & Hout & Hrel)]; [by split_and!|].
  destruct (Hc (owner_row p) request db) as [Hg Hrows].
  assert (~ (owner_kind p = owner_kind o /\ owner_row p = owner_row o)) as Hne.
  { intros [H1 H2]. by apply (Hno p Hp H1 H2). }
  eapply release_step; [|..|exact Hrel].
  - unfold owner_of. by rewrite Hg.
  - destruct Hl as (r & Hr & Hm). exists r. split; [|done]. rewrite Hrows; [done|].
    rewrite <- (or_kind _ _ _ _ _ Hout). destruct (decide (owner_kind o = owner_kind p)); [right|by left]. naive_solver.
Qed.

Lemma respected_step db op o i :
  owner_of db i = Some o -> live_row (owner_rows (owner_kind o) db) o -> respects o i db op ->
  let '(db', b) := run_op db op in
  owner_of db' i = Some o /\ live_row (owner_rows (owner_kind o) db') o /\ (intrudes o i op -> b = false).
Proof.
  intros Ho Hl Hr. destruct op as [held l now|held l o' now|held j k now|validate cancel held j k request now|held l|ops jobs]; simpl in Hr |- *.
  - destruct (reserve_removal_owners held db l now) as [db'|e] eqn:E; [|by split_and!].
    apply reserve_spec in E as (G & R1 & R2 & R3 & R4). split_and!.
    + destruct (decide (i ∈ l.*1)) as [Hi|Hi]; [|unfold owner_of; by rewrite R2].
      apply list_elem_of_fmap in Hi as ([j q] & -> & Hin). simpl in *.
      destruct (R1 _ _ Hin) as (g & Eg & _). unfold owner_of. rewrite Eg. simpl.
      destruct (ga_free _ _ G _ _ Hin); congruence.
    + unfold owner_rows in *. by rewrite R3, R4.
    + intros (q & Hin & Hne). destruct (ga_free _ _ G _ _ Hin); congruence.
  - destruct (clear_removal held db l o' now) as [db'|e] eqn:E; [|by split_and!].
    apply clear_spec in E as (_ & C2 & C3 & C4). split_and!; [|unfold owner_rows in *; by rewrite C3, C4|done].
    destruct (C2 i) as [-> _]; [|done]. destruct (decide (i ∈ l)); [right|by left]. rewrite Ho. naive_solver.
  - destruct (release_dead_removal_nowait held db j k now) as [[db' b]|e] eqn:E; [|by split_and!].
    by eapply release_step.
  - destruct (supersede_removal_nowait validate cancel held db j k request now) as [[db' b]|e] eqn:E; [|by split_and!].
    by eapply supersede_step.
  - destruct (require_reference_open held db l) as [u|e] eqn:E; [|by split_and!].
    split_and!; try done. intros Hi. destruct (reference_refused held db l i o Ho Hi) as [e He]. congruence.
  - split_and!; try done; by destruct o as [[] ? ?].
Qed.

(** C16.  A reservation holds.  While its owner's row lives, no history of other processes'
    transactions gets past it: no other owner reserves the object, no sweep opens its gate,
    no reference to it is admitted, no request supersedes it, and at the end it is still the
    owner's.  What may end it is left out, and is only this: the owner's own clear, the end
    of its row, and a supersession by a live request of the same kind that is not older than
    the live removal and that the service's review accepts. *)
Theorem reservation_holds db ops o i :
  owner_of db i = Some o -> live_row (owner_rows (owner_kind o) db) o -> all_respect o i db ops ->
  let '(db', bs) := run_ops db ops in
  owner_of db' i = Some o /\ Forall2 (fun op b => intrudes o i op -> b = false) ops bs.
Proof.
  revert db. induction ops as [|op ops IH]; intros db Ho Hl Hops; cbn [run_ops].
  { by split. }
  destruct Hops as [Hop Hops].
  pose proof (respected_step db op o i Ho Hl Hop) as Hs. destruct (run_op db op) as [db1 b].
  destruct Hs as (Ho1 & Hl1 & Hb). specialize (IH db1 Ho1 Hl1 Hops). destruct (run_ops db1 ops) as [db' bs].
  destruct IH as [Ho' Hbs]. split; [done|]. by constructor.
Qed.

(** The executor's check under the storage lock passes for the owner alone. *)
Lemma fence_check held db i o b :
  check_removal_fence_nowait held db i o = Ok b -> b = bool_decide (owner_of db i = Some o).
Proof.
  unfold check_removal_fence_nowait, lock_gate, owner_of. intros H. unbind.
  destruct (gates db !! i) as [g|]; [destruct (mem i (locked_gates held))|]; simpl in Hv; try done;
    injection Hv as <-; done.
Qed.

Lemma release_iff db i k now :
  exists db', release_dead_removal_nowait no_locks db i k now = Ok (db', releasable db i k now) /\
    (releasable db i k now = false -> db' = db) /\
    (releasable db i k now = true -> owner_of db' i = None) /\
    forall j, j <> i -> gates db' !! j = gates db !! j.
Proof.
  assert (exists db' b, release_dead_removal_nowait no_locks db i k now = Ok (db', b)) as (db' & b & H).
  { unfold release_dead_removal_nowait, lock_gate, lock_owner. destruct (gates db !! i) as [g|]; simpl; [|eauto].
    destruct (removal_owner g) as [o|]; [|eauto]. case_match; [eauto|].
    destruct (owner_rows k db !! owner_row o); simpl; repeat case_match; eauto. }
  pose proof (release_spec _ _ _ _ _ _ _ H) as (-> & H1 & H2 & _). exists db'. split_and!; try done.
  - intros Hr. by apply H2.
  - intros j Hj. destruct (releasable db i k now); [by apply H2|by rewrite H1].
Qed.

(** A dead removal is released exactly when it is dead: where no other transaction is in
    the way the release answers whether the owner is gone or ended and every remote
    authority given with the gate has run out, opens the gate then, and otherwise changes
    nothing; it never touches another object's gate. *)
Theorem release_dead_exact db i k now :
  exists db', release_dead_removal_nowait no_locks db i k now = Ok (db', releasable db i k now) /\
    (releasable db i k now = false -> db' = db) /\
    (releasable db i k now = true -> owner_of db' i = None) /\
    forall j, j <> i -> gates db' !! j = gates db !! j.
Proof. apply release_iff. Qed.

(** ** A missing gate is an open one *)

Definition owned (db : Tables) (i : ArtifactIdentity) : bool := bool_decide (owner_of db i <> None).

Lemma pending_owned db l : has_pending_removal db l = existsb (owned db) l.
Proof.
  unfold has_pending_removal. induction l as [|i l IH]; [done|]. simpl. rewrite IH. f_equal.
  unfold owned, owner_of. by destruct (gates db !! i).
Qed.

Lemma reference_owned db l :
  require_reference_open no_locks db l =
  match find (owned db) (ordered l) with
  | Some i => Raise (ReferenceUnsettled (value ArtifactLifecycleCode.DELETION_IN_PROGRESS)
                       (describe i +:+ " is reserved for removal"))
  | None => Ok tt
  end.
Proof.
  unfold require_reference_open, lock_shared. rewrite (proj2 (forallb_forall _ _)) by (intros i _; vm_compute; reflexivity).
  rewrite bind_Ok_l. generalize (ordered l). intros k. induction k as [|i k IH]; [done|]. cbn [omap list_omap find].
  unfold owned at 1, owner_of. destruct (gates db !! i) as [g|]; cbn; [|exact IH].
  destruct (bool_decide (removal_owner g <> None)); [done|exact IH].
Qed.

#[global] Instance owned_proper : Proper ((≡) ==> (=) ==> (=)) owned.
Proof. intros db db' [H _] i ? <-. unfold owned. by rewrite H. Qed.

#[global] Instance owner_rows_proper : Proper ((=) ==> (≡) ==> (=)) owner_rows.
Proof. intros k ? <- db db' (_ & _ & H1 & H2). by destruct k. Qed.

Lemma grantable_proper db db' l : db ≡ db' -> grantable db l -> grantable db' l.
Proof. intros [H _] [H1 H2 H3]. constructor; try done. intros i o Hin. rewrite <- H. by apply H3. Qed.

Lemma releasable_proper db db' i k now : db ≡ db' -> releasable db i k now = releasable db' i k now.
Proof.
  intros E. pose proof E as (_ & Ha & _). specialize (Ha i). unfold releasable, dead_gate.
  assert (owner_rows k db = owner_rows k db') as -> by (by rewrite E).
  destruct (gates db !! i) as [g|], (gates db' !! i) as [g'|]; simpl in Ha; try done.
  all: repeat match goal with |- context [removal_owner ?x] => destruct (removal_owner x) end; simpl in Ha; try done.
  injection Ha as -> ->. done.
Qed.

(** A missing gate reads exactly like an open one: on tables that differ in open gates
    alone every reader gives the same answer, the same references are admitted, the same
    reservations succeed and the same dead removals are released. *)
Theorem open_gates_invisible db db' :
  db ≡ db' ->
  (forall l, has_pending_removal db l = has_pending_removal db' l) /\
  (forall l, require_reference_open no_locks db l = require_reference_open no_locks db' l) /\
  (forall i, reference_gate_is_open_nowait no_locks db i = reference_gate_is_open_nowait no_locks db' i) /\
  (forall i o, check_removal_fence_nowait no_locks db i o = check_removal_fence_nowait no_locks db' i o) /\
  (forall l now, is_ok (reserve_removal_owners no_locks db l now) <->
                 is_ok (reserve_removal_owners no_locks db' l now)) /\
  (forall i k now, snd <$> (match release_dead_removal_nowait no_locks db i k now with Ok r => Some r | _ => None end) =
                   snd <$> (match release_dead_removal_nowait no_locks db' i k now with Ok r => Some r | _ => None end)).
Proof.
  intros E. pose proof E as (Ho & _). split_and!.
  - intros l. rewrite !pending_owned. induction l as [|i l IH]; [done|]. simpl. by rewrite IH, E.
  - intros l. rewrite !reference_owned. assert (find (owned db) (ordered l) = find (owned db') (ordered l)) as ->; [|done].
    induction (ordered l) as [|i k IH]; [done|]. simpl. by rewrite IH, E.
  - intros i. specialize (Ho i). unfold reference_gate_is_open_nowait, lock_gate, owner_of in *.
    destruct (gates db !! i), (gates db' !! i); simpl in *;
      first [done|by rewrite Ho|by rewrite <- Ho].
  - intros i o. specialize (Ho i). unfold check_removal_fence_nowait, lock_gate, owner_of, owned_by in *.
    destruct (gates db !! i), (gates db' !! i); simpl in *;
      first [done|by rewrite Ho|by rewrite <- Ho].
  - intros l now. destruct (reserve_iff db l now) as [A B], (reserve_iff db' l now) as [A' B']. split.
    + intros [x Hx]. destruct (A _ _ Hx) as [G _]. destruct B' as [y Hy]; [by eapply grantable_proper|by exists y].
    + intros [x Hx]. destruct (A' _ _ Hx) as [G _]. destruct B as [y Hy]; [by eapply grantable_proper|by exists y].
  - intros i k now. destruct (release_iff db i k now) as (x & -> & _), (release_iff db' i k now) as (y & -> & _).
    simpl. by rewrite (releasable_proper db db' i k now E).
Qed.

(** ** A removal, concretely *)
Definition example_digest : string :=
  "0123456789abcdef0123456789abcdef0123456789abcdef0123456789abcdef".
Definition example_object : ArtifactIdentity := Identity ArtifactKind.MODEL_OBJECT example_digest.
Definition example_set : ArtifactIdentity := Identity ArtifactKind.MODEL_SET example_digest.
Definition example_owner : RemovalOwner := Owner RemovalOwnerKind.MODEL_CACHE_OPERATION "removal-1" "fence-1".
Definition other_owner : RemovalOwner := Owner RemovalOwnerKind.RECIPE_IMAGE_JOB "removal-2" "fence-2".

Definition owner_in (word : string) : OwnerRow := {|
  row_state := word; row_created_at := Aware 0; row_updated_at := Aware (seconds 10); row_completed_at := None |}.

Definition empty_tables : Tables := {|
  gates := ∅; operations := {[ "removal-1" := owner_in "running" ]}; image_jobs := ∅ |}.

Definition open_tables : Tables := {|
  gates := {[ example_object := new_gate (Aware 0) ]};
  operations := {[ "removal-1" := owner_in "running" ]}; image_jobs := ∅ |}.

Definition held_tables : Tables := {|
  gates := {[ example_object := reserved_gate (Aware 0) example_owner (new_gate (Aware 0)) ]};
  operations := {[ "removal-1" := owner_in "running" ]}; image_jobs := ∅ |}.

Example example_identity : artifact_identity "model-object" example_digest = Ok example_object.
Proof. vm_compute. reflexivity. Qed.

Lemma reserve_exact_witness :
  exists db', reserve_removal_owners no_locks empty_tables
      [(example_object, example_owner); (example_set, example_owner)] (Aware 0) = Ok db'.
Proof.
  apply (reserve_exact empty_tables _ (Aware 0)). constructor.
  - intros i o [[= -> ->]|[[= -> ->]|Hn%elem_of_nil]%elem_of_cons]%elem_of_cons; done.
  - intros i o o' Ho Ho'.
    assert (forall q, (i, q) ∈ [(example_object, example_owner); (example_set, example_owner)] -> q = example_owner) as Hq.
    { intros q [[= -> ->]|[[= -> ->]|Hn%elem_of_nil]%elem_of_cons]%elem_of_cons; done. }
    by rewrite (Hq o Ho), (Hq o' Ho').
  - intros i o _. by left.
Defined.

Lemma clear_undoes_reserve_witness :
  exists db1 db2, reserve_removal no_locks empty_tables [example_object] example_owner (Aware 0) = Ok db1 /\
    clear_removal no_locks db1 [example_object] example_owner (Aware 9) = Ok db2 /\ db2 ≡ empty_tables.
Proof.
  destruct (reserve_removal no_locks empty_tables [example_object] example_owner (Aware 0)) as [db1|e] eqn:E1;
    [|vm_compute in E1; discriminate].
  destruct (clear_removal no_locks db1 [example_object] example_owner (Aware 9)) as [db2|e] eqn:E2;
    [|vm_compute in E1; injection E1 as <-; vm_compute in E2; discriminate].
  exists db1, db2. split; [reflexivity|]. split; [exact E2|].
  apply (clear_undoes_reserve no_locks no_locks _ [example_object] example_owner (Aware 0) (Aware 9) db1 db2);
    [intros i _; reflexivity|exact E1|exact E2].
Defined.

(** A cancel of a model-cache operation's row, and a request that is older than the removal. *)
Definition cancel_operation (row request : string) (db : Tables) : Tables := {|
  gates := gates db; operations := <[row := owner_in "cancelled"]> (operations db); image_jobs := image_jobs db |}.

Definition aged_owner (created : instant) : OwnerRow := {|
  row_state := "running"; row_created_at := Aware created; row_updated_at := Aware created; row_completed_at := None |}.

Definition contested_tables : Tables := {|
  gates := gates held_tables;
  operations := {[ "removal-1" := aged_owner (seconds 100); "older" := aged_owner (seconds 50) ]};
  image_jobs := ∅ |}.

Definition contested_history (request : string) : list gate_op :=
  [OpReserve no_locks [(example_object, other_owner)] (Aware 5); OpReference no_locks [example_object];
   OpSupersede (fun _ _ _ => true) cancel_operation no_locks example_object
     RemovalOwnerKind.MODEL_CACHE_OPERATION request (Aware (seconds 200));
   OpRelease no_locks example_object RemovalOwnerKind.MODEL_CACHE_OPERATION (Aware (seconds 9000))].

Lemma reservation_holds_witness :
  exists db' bs, run_ops contested_tables (contested_history "older") = (db', bs) /\
    owner_of db' example_object = Some example_owner /\
    Forall2 (fun op b => intrudes example_owner example_object op -> b = false) (contested_history "older") bs.
Proof.
  destruct (run_ops contested_tables (contested_history "older")) as [db' bs] eqn:E. exists db', bs. split; [reflexivity|].
  pose proof (reservation_holds contested_tables (contested_history "older") example_owner example_object) as H.
  rewrite E in H. apply H; [vm_compute; reflexivity|exists (aged_owner (seconds 100)); split; vm_compute; reflexivity|].
  refine (conj I (conj I (conj (conj _ _) (conj I I)))).
  - intros row request db. split; [reflexivity|]. intros k' x Hne. destruct k'; [|reflexivity].
    destruct Hne as [Hne|Hne]; [by destruct Hne|]. cbn [owner_rows operations cancel_operation]. by rewrite lookup_insert_ne.
  - intros p Hp _ _ [_ _ _ (x & y & Hx & Hy & _ & _ & Hle) _].
    assert (p = example_owner) as -> by (vm_compute in Hp; injection Hp as <-; reflexivity).
    vm_compute in Hx, Hy. injection Hx as <-. injection Hy as <-. vm_compute in Hle. by apply Hle.
Defined.

(** A newer request of the same history does supersede it. *)
Example newer_request_supersedes :
  let db := {| gates := gates held_tables;
               operations := {[ "removal-1" := aged_owner (seconds 100); "newer" := aged_owner (seconds 150) ]};
               image_jobs := ∅ |} in
  snd (run_ops db (contested_history "newer")) = [false; false; true; false].
Proof. vm_compute. reflexivity. Qed.

Lemma open_gates_invisible_witness :
  require_reference_open no_locks open_tables [example_object] =
  require_reference_open no_locks empty_tables [example_object].
Proof.
  apply (open_gates_invisible open_tables empty_tables). split_and!; try reflexivity; intros i.
  - unfold owner_of. cbn [gates open_tables empty_tables]. destruct (decide (i = example_object)) as [->|Hne].
    + by rewrite lookup_singleton_eq, lookup_empty.
    + by rewrite lookup_singleton_ne, lookup_empty.
  - cbn [gates open_tables empty_tables]. destruct (decide (i = example_object)) as [->|Hne].
    + by rewrite lookup_singleton_eq, lookup_empty.
    + by rewrite lookup_singleton_ne, lookup_empty.
Defined.

Lemma release_dead_exact_witness :
  exists db', release_dead_removal_nowait no_locks held_tables example_object
      RemovalOwnerKind.MODEL_CACHE_OPERATION (Aware (seconds 9000)) = Ok (db', false) /\ db' = held_tables.
Proof.
  destruct (release_dead_exact held_tables example_object RemovalOwnerKind.MODEL_CACHE_OPERATION (Aware (seconds 9000)))
    as (db' & H & Hf & _).
  exists db'. split; [exact H|]. apply Hf. vm_compute. reflexivity.
Defined.
