(* ===== verification/RangeTransfer.v ===== *)
(** * Resumable ranges of one cached object

    [control/src/vonk_control/model_cache_ranges.py]: an object is fetched as bounded HTTP
    ranges, each kept in its own file until all are assembled; what was received survives
    an interruption.  The files are a [Disk]; a byte is any type.  The range threads touch
    only their own segment's file and count; what they do to each other (a stop, a peer's
    failure, the probe) is that a transfer may find itself interrupted at any of its
    checks, so the schedule is an oracle: what each attempt of each segment meets. *)
From S2P Require Import Prelude Vocabulary ReasonCodes.

(** ** Segments *)

(** [range(0, expected_bytes, width)], each with its inclusive end. *)
Fixpoint segments_from (fuel : nat) (start expected width : Z) : list (Z * Z) :=
  match fuel with
  | O => []
  | S fuel' =>
      if start <? expected
      then (start, Z.min (start + width) expected - 1) :: segments_from fuel' (start + width) expected width
      else []
  end.

(** [_segments]: the width is at least one, so the count is at most the object's bytes. *)
Definition _segments (expected workers : Z) : result (list (Z * Z)) :=
  if (expected <=? 0) || (workers <=? 0)
  then Raise (ValueError "expected_bytes and workers must be positive")
  else Ok (segments_from (Z.to_nat expected) 0 expected ((expected + workers - 1) / workers)).

Section ranges.
Context {A : Type}.

(** ** Files *)
Inductive entry :=
| Absent
| Link
| File (bytes : list A).

Definition size_of (e : entry) : Z :=
  match e with File b => Z.of_nat (length b) | _ => 0 end.

(** [_reset_symlink] removes the managed link, never what it points to. *)
Definition _reset_symlink (e : entry) : entry := match e with Link => Absent | _ => e end.

Record Disk := {
  d_target : entry;
  d_ranges : Z * Z -> entry;
  d_assembly : entry;
}.

Definition set_range (seg : Z * Z) (e : entry) (d : Disk) : Disk := {|
  d_target := d_target d;
  d_ranges := fun s => if bool_decide (s = seg) then e else d_ranges d s;
  d_assembly := d_assembly d |}.

Definition seg_bytes (seg : Z * Z) : Z := snd seg - fst seg + 1.

(** The reusable bytes of one segment. *)
Definition partial_of (d : Disk) (expected : Z) (seg : Z * Z) : Z :=
  let prefix := Z.min (size_of (d_target d)) expected in
  Z.max (Z.min (size_of (d_ranges d seg)) (seg_bytes seg))
        (Z.max 0 (Z.min prefix (snd seg + 1) - fst seg)).

Definition range_partial_bytes (d : Disk) (expected workers : Z) : result Z :=
  segs ← _segments expected workers; Ok (sum_list (partial_of d expected <$> segs)).

Definition cleanup_ranges (d : Disk) (segs : list (Z * Z)) : Disk := {|
  d_target := d_target d;
  d_ranges := fun s => if mem s segs then Absent else d_ranges d s;
  d_assembly := Absent |}.

(** ** Seeding *)

(** [source[start:start + n]] *)
Definition slice (b : list A) (start n : Z) : list A := take (Z.to_nat n) (drop (Z.to_nat start) b).

(** Reuse the sequential prefix without changing its file: the segment's file and the
    bytes it counts. *)
Definition seed (target : entry) (seg : Z * Z) (e : entry) : entry * Z :=
  let e := if seg_bytes seg <? size_of e then Absent else e in
  let size := size_of e in
  match target with
  | File b =>
      let available := Z.max 0 (Z.min (Z.of_nat (length b)) (snd seg + 1) - fst seg) in
      if size <? available
      then (File ((match e with File x => x | _ => [] end)
                  ++ slice b (fst seg + size) (available - size))%list, available)
      else (e, size)
  | _ => (e, size)
  end.

Definition prepare (d : Disk) (expected : Z) (segs : list (Z * Z)) : Disk * list Z :=
  let target := _reset_symlink (d_target d) in
  let target := if expected <? size_of target then Absent else target in
  let seeded seg := seed target seg (_reset_symlink (d_ranges d seg)) in
  ({| d_target := target;
      d_ranges := fun s => if mem s segs then fst (seeded s) else d_ranges d s;
      d_assembly := _reset_symlink (d_assembly d) |},
   (fun seg => snd (seeded seg)) <$> segs).

(** ** One transfer *)

(** What the provider answers to one range request: nothing usable (the request raised), or
    a status, the parsed [Content-Range], the encoding header and the body's chunks, each
    with whether the transfer was interrupted when it arrived. *)
Inductive answer :=
| Refused (e : exn)
| Answered (status : Z) (content_range : option (Z * Z * Z)) (encoding : option string)
    (chunks : list (bool * list A)).

(** One of a transfer's three attempts. *)
Record attempt := {
  stopped_before : bool;
  stopped_at_open : bool;
  got : answer;
}.

Inductive failure :=
| Ignored
| Interrupted
| Truncated
| Failed (e : exn).

Definition range_mismatch : failure :=
  Failed (ValueError "response Content-Range does not match requested bytes").

(** [_open] and [_open_checked]: the accepted body's chunks. *)
Definition open_checked (a : attempt) (offset end_ expected : Z) : list (bool * list A) + failure :=
  if stopped_at_open a then inr Interrupted
  else
    match got a with
    | Refused e => inr (Failed e)
    | Answered status content_range encoding chunks =>
        if status =? 200 then inr Ignored
        else if (status <? 200) || (300 <=? status) then inr (Failed (RuntimeError "http status"))
        else if negb (status =? 206)
                || negb (bool_decide (content_range = Some (offset, end_, expected)))
        then inr range_mismatch
        else if negb (bool_decide (lower (default "identity" encoding) = "identity"))
        then inr (Failed (ValueError "range response must use identity content encoding"))
        else inl chunks
    end.

(** The body loop: what the file gains, what is counted, and how it ends.  A chunk larger
    than what was asked for invalidates the whole file. *)
Fixpoint read_body (chunks : list (bool * list A)) (remaining : Z)
  : list A * option failure * bool :=
  match chunks with
  | [] => ([], if 0 <? remaining then Some Truncated else None, false)
  | (interrupted, chunk) :: rest =>
      if interrupted then ([], Some Interrupted, false)
      else if remaining <? Z.of_nat (length chunk) then
        ([], Some (Failed (ValueError "range response exceeds requested bytes")), true)
      else
        let '(gained, ended, invalid) := read_body rest (remaining - Z.of_nat (length chunk)) in
        ((chunk ++ gained)%list, ended, invalid)
  end.

(** The segment's file and count, as the transfer changes them. *)
Record Segment := { s_file : entry; s_count : Z }.

Definition contents (e : entry) : list A := match e with File b => b | _ => [] end.

Definition _transfer_body (seg : Z * Z) (expected : Z) (a : attempt) (s : Segment)
  : Segment * option failure :=
  let offset := fst seg + s_count s in
  match open_checked a offset (snd seg) expected with
  | inr f => (s, Some f)
  | inl chunks =>
      let '(gained, ended, invalid) := read_body chunks (snd seg - offset + 1) in
      ({| s_file := if invalid : bool then Absent else File (contents (s_file s) ++ gained)%list;
          s_count := s_count s + Z.of_nat (length gained) |}, ended)
  end.

(** Three observations bound a short-body retry; then the sequential downloader takes over
    ([None] is a transfer that returned, with the fallback flag it set). *)
Fixpoint attempts (tries : nat) (seg : Z * Z) (expected : Z) (oracle : list attempt) (s : Segment)
  : Segment * option failure * bool :=
  match tries with
  | O => (s, None, true)
  | S tries' =>
      match oracle with
      | [] => (s, Some Interrupted, false)
      | a :: rest =>
          if stopped_before a then (s, Some Interrupted, false)
          else if snd seg <? fst seg + s_count s then (s, None, false)
          else
            match _transfer_body seg expected a s with
            | (s', None) => (s', None, false)
            | (s', Some Truncated) => attempts tries' seg expected rest s'
            | (s', Some f) => (s', Some f, false)
            end
      end
  end.

Definition transfer (seg : Z * Z) (expected : Z) (oracle : list attempt) (s : Segment)
  : Segment * option failure * bool := attempts 3 seg expected oracle s.

(** ** The download *)

(** [True], [False] (the caller downloads sequentially), or one of these failures. *)
Inductive outcome :=
| Complete
| Sequential
| Raised (causes : list failure).

Definition is_ignored (f : failure) : bool := match f with Ignored => true | _ => false end.

(** [assembly.open("wb")] and the copy of every segment: the bytes; or the first segment
    whose file is not exactly its length; or a stop, after so many segments were copied. *)
Fixpoint assemble (segs : list (Z * Z)) (files : Z * Z -> entry) (stop : option nat)
  : list A + option (Z * Z) :=
  match segs with
  | [] => inl []
  | seg :: rest =>
      match files seg with
      | File b =>
          if negb (Z.of_nat (length b) =? seg_bytes seg) then inr (Some seg)
          else
            match stop with
            | Some O => inr None
            | _ =>
                match assemble rest files (Nat.pred <$> stop) with
                | inl bs => inl (b ++ bs)%list
                | inr s => inr s
                end
            end
      | _ => inr (Some seg)
      end
  end.

(** The schedule of one call: what the attempts of each segment meet (a missing one finds
    itself interrupted), whether the stop event is set once all threads are done, and when
    it is set during the assembly. *)
Record Schedule := {
  oracle_of : Z * Z -> list attempt;
  stopped_after : bool;
  stopped_assembling : option nat;
}.

Definition run_transfers (d : Disk) (expected : Z) (segs : list (Z * Z)) (counts : list Z) (sc : Schedule)
  : list (Segment * option failure * bool) :=
  zip_with (fun seg count =>
              transfer seg expected (oracle_of sc seg) {| s_file := d_ranges d seg; s_count := count |})
    segs counts.

Definition set_ranges (segs : list (Z * Z)) (done : list (Segment * option failure * bool)) (d : Disk) : Disk :=
  fold_left (fun d p => set_range (fst p) (s_file (fst (fst (snd p)))) d) (zip segs done) d.

(** The assembly file never outlives the call. *)
Definition without_assembly (d : Disk) : Disk := {|
  d_target := d_target d; d_ranges := d_ranges d; d_assembly := Absent |}.

Definition finish (d : Disk) (segs : list (Z * Z)) (sc : Schedule) : Disk * outcome :=
  match assemble segs (d_ranges d) (stopped_assembling sc) with
  | inr (Some seg) => (without_assembly (set_range seg Absent d), Sequential)
  | inr None => (without_assembly d, Raised [Interrupted])
  | inl bytes =>
      (cleanup_ranges {| d_target := File bytes; d_ranges := d_ranges d; d_assembly := Absent |} segs,
       Complete)
  end.

Definition download_ranges (d : Disk) (expected workers : Z) (sc : Schedule) : result (Disk * outcome) :=
  segs ← _segments expected workers;
  let '(d, counts) := prepare d expected segs in
  let results := run_transfers d expected segs counts sc in
  let d := set_ranges segs results d in
  let failures := omap (fun r => snd (fst r)) results in
  if existsb is_ignored failures then Ok (cleanup_ranges d segs, Sequential)
  else match failures with
       | _ :: _ => Ok (d, Raised failures)
       | [] =>
           if stopped_after sc then Ok (d, Raised [Interrupted])
           else if existsb snd results then Ok (d, Sequential)
           else Ok (finish d segs sc)
       end.
End ranges.
Arguments entry : clear implicits.
Arguments Disk : clear implicits.
Arguments Schedule : clear implicits.
Arguments attempt : clear implicits.
Arguments answer : clear implicits.
Arguments Segment : clear implicits.
