(* ===== verification/RangeTransferFacts.v ===== *)
(** * What a range download leaves

    The segments of [RangeTransfer] cut an object into consecutive pieces, so that files
    which hold what an honest provider sent keep doing so through every interruption, and
    a download that completes has written exactly the object. *)
From S2P Require Import Prelude Vocabulary ReasonCodes RangeTransfer.

(** ** Segments *)
Lemma segments_inside fuel : forall start expected width s,
  0 < width -> s ∈ segments_from fuel start expected width ->
  start <= fst s /\ fst s <= snd s /\ snd s < expected /\ seg_bytes s <= width.
Proof.
  induction fuel as [|fuel IH]; intros start expected width s Hw H; cbn [segments_from] in H; [by apply elem_of_nil in H|].
  destruct (start <? expected) eqn:E; [|by apply elem_of_nil in H]. bools. unfold seg_bytes in *.
  apply elem_of_cons in H as [->|H]; [simpl; lia|]. apply IH in H; [|done]. lia.
Qed.

Lemma segments_nodup fuel : forall start expected width, 0 < width -> NoDup (segments_from fuel start expected width).
Proof.
  induction fuel as [|fuel IH]; intros start expected width Hw; cbn [segments_from]; [constructor|].
  destruct (start <? expected); [|constructor]. constructor; [|by apply IH].
  intros Hin%segments_inside; [|done]. simpl in Hin. lia.
Qed.

Lemma segments_count fuel : forall start expected width n,
  0 < width -> expected - start <= Z.of_nat n * width ->
  (length (segments_from fuel start expected width) <= n)%nat.
Proof.
  induction fuel as [|fuel IH]; intros start expected width n Hw H; cbn [segments_from]; [simpl; lia|].
  destruct (start <? expected) eqn:E; bools; [|simpl; lia]. destruct n as [|n]; [lia|].
  cbn [length]. apply le_n_S, IH; [done|]. lia.
Qed.

Section facts.
Context {A : Type}.
Implicit Types (b content : list A).

(** ** Slices *)
Lemma slice_app b s n m :
  0 <= s -> 0 <= n -> 0 <= m -> (slice b s n ++ slice b (s + n) m)%list = slice b s (n + m).
Proof.
  intros. unfold slice. rewrite Z2Nat.inj_add by lia. rewrite <- drop_drop.
  rewrite take_take_drop. f_equal. lia.
Qed.

Lemma slice_length b s n :
  0 <= s -> 0 <= n -> s + n <= Z.of_nat (length b) -> Z.of_nat (length (slice b s n)) = n.
Proof. intros. unfold slice. rewrite length_take, length_drop. lia. Qed.

Lemma slice_all b : slice b 0 (Z.of_nat (length b)) = b.
Proof. unfold slice. rewrite drop_0. apply take_ge. lia. Qed.

Lemma slice_slice b s n i m :
  0 <= s -> 0 <= i -> 0 <= m -> i + m <= n -> slice (slice b s n) i m = slice b (s + i) m.
Proof.
  intros. unfold slice. rewrite Z2Nat.inj_add by lia. rewrite skipn_firstn_comm, take_take, drop_drop.
  replace (Z.to_nat m `min` (Z.to_nat n - Z.to_nat i))%nat with (Z.to_nat m) by lia.
  done.
Qed.

Lemma slice_take b s n k : 0 <= s -> 0 <= k <= n -> take (Z.to_nat k) (slice b s n) = slice b s k.
Proof. intros. unfold slice. rewrite take_take. f_equal. lia. Qed.

(** The bytes of one segment of an object. *)
Definition piece content (seg : Z * Z) : list A := slice content (fst seg) (seg_bytes seg).

Lemma segments_concat fuel : forall start expected width content,
  0 < width -> 0 <= start -> Z.of_nat (length content) = expected -> expected - start <= Z.of_nat fuel ->
  concat (piece content <$> segments_from fuel start expected width) = drop (Z.to_nat start) content.
Proof.
  induction fuel as [|fuel IH]; intros start expected width content Hw Hs Hl Hf; cbn [segments_from].
  { rewrite drop_ge; [done|lia]. }
  destruct (start <? expected) eqn:E; bools.
  - rewrite fmap_cons. cbn [concat]. unfold piece at 1, seg_bytes, slice. cbn [fst snd].
    destruct (Z.le_gt_cases (start + width) expected) as [Hle|Hgt].
    + rewrite IH by lia. replace (Z.min (start + width) expected - 1 - start + 1) with width by lia.
      rewrite Z2Nat.inj_add by lia. rewrite <- drop_drop. apply take_drop.
    + rewrite (take_ge (drop (Z.to_nat start) content)) by (rewrite length_drop; lia).
      assert (segments_from fuel (start + width) expected width = []) as ->.
      { destruct fuel; cbn [segments_from]; [done|]. case_match eqn:E'; bools; [lia|done]. }
      apply app_nil_r.
  - rewrite drop_ge; [done|lia].
Qed.

(** The segments of an object are consecutive, non-empty, distinct, at most one per worker,
    and their pieces are the object: nothing is fetched twice and nothing is left out. *)
Theorem segments_partition content workers :
  content <> [] -> 0 < workers ->
  exists segs, _segments (Z.of_nat (length content)) workers = Ok segs /\
    (length segs <= Z.to_nat workers)%nat /\ NoDup segs /\
    (forall s, s ∈ segs -> 0 <= fst s <= snd s /\ snd s < Z.of_nat (length content)) /\
    concat (piece content <$> segs) = content.
Proof.
  intros Hne Hw. set (expected := Z.of_nat (length content)).
  assert (0 < expected) as He by (destruct content; [done|unfold expected; simpl; lia]).
  unfold _segments. rewrite (proj2 (Z.leb_gt expected 0)), (proj2 (Z.leb_gt workers 0)) by lia. cbn [orb].
  set (width := (expected + workers - 1) / workers).
  assert (0 < width) as Hwidth by (apply Z.div_str_pos; lia).
  assert (expected <= workers * width) as Hcover.
  { pose proof (Z.mul_succ_div_gt (expected + workers - 1) workers Hw). unfold width. lia. }
  eexists. split; [reflexivity|]. split_and!.
  - apply segments_count; [done|]. rewrite Z2Nat.id by lia. lia.
  - by apply segments_nodup.
  - intros s (H1 & H2 & H3 & _)%segments_inside; [|done]. lia.
  - rewrite segments_concat by lia. apply drop_0.
Qed.

(** ** A segment's file *)

(** The file holds a prefix of its segment's piece. *)
Definition holds content (seg : Z * Z) (e : entry A) : Prop :=
  match e with
  | File b => Z.of_nat (length b) <= seg_bytes seg /\ b = slice content (fst seg) (Z.of_nat (length b))
  | _ => True
  end.

(** The bytes a provider labels with an offset are the object's bytes from that offset on:
    it may refuse, answer for something else, stop early or send too much. *)
Definition honest content (a : attempt A) : Prop :=
  forall status o e x encoding chunks,
    got a = Answered status (Some (o, e, x)) encoding chunks ->
    concat (snd <$> chunks) `prefix_of` drop (Z.to_nat o) content.

Lemma prefix_slice content (s : Z) b :
  b `prefix_of` drop (Z.to_nat s) content -> b = slice content s (Z.of_nat (length b)).
Proof. intros [k Hk]. unfold slice. rewrite Hk, Nat2Z.id. symmetry. apply take_app_length. Qed.

Lemma read_body_gains (chunks : list (bool * list A)) : forall remaining gained ended invalid,
  0 <= remaining -> read_body chunks remaining = (gained, ended, invalid) ->
  gained `prefix_of` concat (snd <$> chunks) /\ Z.of_nat (length gained) <= remaining /\
  (ended = None -> Z.of_nat (length gained) = remaining) /\
  (invalid = true <-> exists e, ended = Some (Failed e)).
Proof.
  induction chunks as [|[i chunk] rest IH]; intros remaining gained ended invalid Hr H; cbn [read_body] in H.
  { destruct (0 <? remaining) eqn:E; bools; simplify_eq; (split_and!; [apply prefix_nil|simpl; lia|simpl; try done; lia|naive_solver]). }
  destruct i; [simplify_eq; split_and!; [apply prefix_nil|simpl; lia|done|naive_solver]|].
  destruct (remaining <? Z.of_nat (length chunk)) eqn:E; bools.
  { simplify_eq. split_and!; [apply prefix_nil|simpl; lia|done|naive_solver]. }
  destruct (read_body rest _) as [[g e] v] eqn:R. apply IH in R as (P & Hl & Hn & Hv); [|lia]. simplify_eq.
  rewrite fmap_cons, length_app, Nat2Z.inj_add. cbn [concat snd].
  split_and!; [by apply prefix_app|lia|intros; apply Hn in H; lia|done].
Qed.

Lemma open_checked_asks (a : attempt A) offset end_ expected chunks :
  open_checked a offset end_ expected = inl chunks ->
  exists encoding, got a = Answered 206 (Some (offset, end_, expected)) encoding chunks.
Proof.
  unfold open_checked. destruct (stopped_at_open a); [done|]. destruct (got a) as [|status range enc cs]; [done|].
  destruct (status =? 200); [done|]. destruct (_ || _); [done|].
  destruct (negb (status =? 206) || _) eqn:E; [done|]. apply orb_false_iff in E as [E1 E2].
  apply negb_false_iff in E1, E2. apply Z.eqb_eq in E1. apply bool_decide_eq_true in E2.
  destruct (negb _); [done|]. intros [= ->]. subst. by eexists.
Qed.

(** What a transfer keeps: the count is the file's size, and the file is sound. *)
Definition sound content (seg : Z * Z) (s : Segment A) : Prop :=
  holds content seg (s_file s) /\ s_count s = size_of (s_file s) /\ s_file s <> Link.

Lemma sound_contents content seg s :
  sound content seg s -> 0 <= s_count s /\ contents (s_file s) = slice content (fst seg) (s_count s)
    /\ s_count s = Z.of_nat (length (contents (s_file s))).
Proof.
  intros (H & Hc & Hl). destruct (s_file s) as [| |b]; simpl in *; [|done|].
  - rewrite Hc. split_and!; try done.
  - rewrite Hc. split_and!; [lia|apply H|done].
Qed.

Lemma transfer_body_sound content seg expected a s s' f :
  0 <= fst seg -> sound content seg s -> fst seg + s_count s <= snd seg -> honest content a ->
  _transfer_body seg expected a s = (s', f) ->
  holds content seg (s_file s') /\
  ((forall e, f <> Some (Failed e)) -> (s' = s /\ f <> Some Truncated /\ f <> None \/ sound content seg s') /\
     contents (s_file s) `prefix_of` contents (s_file s')) /\
  (f = None -> size_of (s_file s') = seg_bytes seg).
Proof.
  intros H0 Hs Hle Hh. pose proof (sound_contents _ _ _ Hs) as (Hc0 & Hc & Hl). unfold _transfer_body.
  destruct (open_checked _ _ _ _) as [chunks|f0] eqn:O; cycle 1.
  { intros [= <- <-]. split; [apply Hs|]. split; [|done]. intros. split; [|done].
    left. split_and!; try done. intros [= ->]. unfold open_checked in O. repeat case_match; simplify_eq. }
  apply open_checked_asks in O as [enc O]. apply Hh in O.
  destruct (read_body _ _) as [[g e] v] eqn:R. apply read_body_gains in R as (P & Hg & Hn & Hv); [|lia].
  intros [= <- <-]. cbn [s_file s_count].
  assert (g = slice content (fst seg + s_count s) (Z.of_nat (length g))) as Eg.
  { apply prefix_slice. by etrans. }
  assert ((contents (s_file s) ++ g)%list = slice content (fst seg) (s_count s + Z.of_nat (length g))) as Ef.
  { rewrite Hc, Eg at 1. apply slice_app; lia. }
  assert (holds content seg (File (contents (s_file s) ++ g)%list)) as Hh'.
  { cbn [holds]. rewrite length_app, Nat2Z.inj_add, <- Hl. split; [unfold seg_bytes; lia|done]. }
  split; [by destruct v|]. split.
  - intros Hnf. destruct v.
    { destruct (proj1 Hv eq_refl) as [x ->]. by destruct (Hnf x). }
    split; [right|cbn [contents]; by apply prefix_app_r].
    split; [done|]. split; [|done]. cbn [s_count s_file size_of]. rewrite length_app. lia.
  - intros ->. destruct v; [by destruct (proj1 Hv eq_refl)|]. cbn [size_of]. rewrite length_app, Nat2Z.inj_add, <- Hl.
    rewrite Hn by done. unfold seg_bytes. lia.
Qed.

Lemma attempts_sound content seg expected tries : forall oracle s s' f fallback,
  0 <= fst seg <= snd seg -> sound content seg s -> Forall (honest content) oracle ->
  attempts tries seg expected oracle s = (s', f, fallback) ->
  holds content seg (s_file s') /\
  ((forall e, f <> Some (Failed e)) -> contents (s_file s) `prefix_of` contents (s_file s')) /\
  (f = None -> fallback = false -> size_of (s_file s') = seg_bytes seg).
Proof.
  induction tries as [|tries IH]; intros oracle s s' f fallback H0 Hs Ho; cbn [attempts].
  { intros [= <- <- <-]. split; [apply Hs|done]. }
  destruct oracle as [|a rest]; [intros [= <- <- <-]; split; [apply Hs|done]|].
  destruct (stopped_before a); [intros [= <- <- <-]; split; [apply Hs|done]|].
  inversion Ho as [|? ? Ha Hrest]; subst.
  destruct (snd seg <? fst seg + s_count s) eqn:E; bools.
  { intros [= <- <- <-]. split; [apply Hs|]. split; [done|]. intros _ _.
    destruct Hs as (Hh & Hc & Hl). rewrite Hc in *. unfold seg_bytes in *.
    destruct (s_file s); simpl in *; [lia|done|]. unfold seg_bytes in *. lia. }
  destruct (_transfer_body _ _ _ _) as [s1 f1] eqn:B.
  eapply transfer_body_sound in B as (B1 & B2 & B3); [|done || lia..].
  destruct f1 as [f1|]; [|intros [= <- <- <-]; split; [done|]; split; [|auto]; intros; by apply B2].
  destruct f1; try (intros [= <- <- <-]; split; [done|]; split; [|done]; intros; apply B2; naive_solver).
  destruct B2 as [[(_ & B2 & _)|B2] B4]; [done..|].
  intros R. apply IH in R as (R1 & R2 & R3); [|done..]. split; [done|]. split; [|done].
  intros Hf. etrans; [apply B4|by apply R2].
Qed.

(** ** Files between calls *)

(** Every segment's file holds a prefix of its piece, and the sequential file a prefix of
    the object. *)
Definition consistent content (segs : list (Z * Z)) (d : Disk A) : Prop :=
  (forall seg, seg ∈ segs -> holds content seg (d_ranges d seg)) /\
  match d_target d with File b => b `prefix_of` content | _ => True end.

Definition inside content (seg : Z * Z) : Prop :=
  0 <= fst seg <= snd seg /\ snd seg < Z.of_nat (length content).

Lemma slice_prefix content b s n :
  b `prefix_of` content -> 0 <= s -> 0 <= n -> s + n <= Z.of_nat (length b) -> slice b s n = slice content s n.
Proof.
  intros [k ->] ? ? ?. unfold slice. rewrite drop_app_le by lia. rewrite take_app_le; [done|].
  rewrite length_drop. lia.
Qed.

Lemma seed_sound content seg (target e : entry A) :
  inside content seg -> holds content seg e -> e <> Link ->
  (match target with File b => b `prefix_of` content | _ => True end) ->
  sound content seg {| s_file := fst (seed target seg e); s_count := snd (seed target seg e) |} /\
  contents e `prefix_of` contents (fst (seed target seg e)) /\
  snd (seed target seg e) =
    Z.max (size_of e) (Z.max 0 (Z.min (size_of target) (snd seg + 1) - fst seg)).
Proof.
  intros [Hin Hend] He Hnl Ht.
  assert (seg_bytes seg <? size_of e = false) as Hsize.
  { apply Z.ltb_ge. unfold seg_bytes in *. destruct e; simpl in *; [lia|done|apply He]. }
  assert (contents e = slice content (fst seg) (size_of e) /\ 0 <= size_of e /\
          size_of e = Z.of_nat (length (contents e))) as (Hc & Hpos & Hlen).
  { destruct e; simpl in *; [done|done|]. split_and!; [apply He|lia|done]. }
  unfold seed. rewrite Hsize.
  destruct target as [| |b]; cbn [size_of];
    [split; [by split|]; split; [done|cbn [snd]; lia].. |].
  set (available := Z.max 0 _). destruct (size_of e <? available) eqn:E; bools; cbn [fst snd];
    [|split; [by split|]; split; [done|lia]].
  change (match e with File x => x | _ => [] end) with (contents e).
  assert (available = Z.min (Z.of_nat (length b)) (snd seg + 1) - fst seg) as Ea by lia.
  rewrite (slice_prefix content) by (done || lia).
  assert ((contents e ++ slice content (fst seg + size_of e) (available - size_of e))%list
          = slice content (fst seg) available) as Ef.
  { rewrite Hc, slice_app by lia. f_equal. lia. }
  split; [|split; [by apply prefix_app_r|lia]].
  rewrite Ef. unfold sound. cbn [s_file s_count holds size_of].
  rewrite slice_length by (apply prefix_length in Ht; lia). split_and!; try done. unfold seg_bytes. lia.
Qed.

Lemma prepare_spec content segs d d' counts :
  consistent content segs d -> (forall seg, seg ∈ segs -> inside content seg) ->
  prepare d (Z.of_nat (length content)) segs = (d', counts) ->
  d_target d' = _reset_symlink (d_target d) /\
  counts = (partial_of d (Z.of_nat (length content)) <$> segs) /\
  (forall seg, seg ∈ segs ->
     sound content seg {| s_file := d_ranges d' seg; s_count := partial_of d (Z.of_nat (length content)) seg |} /\
     contents (d_ranges d seg) `prefix_of` contents (d_ranges d' seg)).
Proof.
  intros [Hr Ht] Hin. unfold prepare.
  assert (Z.of_nat (length content) <? size_of (_reset_symlink (d_target d)) = false) as ->.
  { apply Z.ltb_ge. destruct (d_target d); simpl in *; try lia. apply prefix_length in Ht. lia. }
  intros [= <- <-]. cbn [d_target d_ranges]. split; [done|].
  assert (forall seg, seg ∈ segs ->
    let e := _reset_symlink (d_ranges d seg) in let t := _reset_symlink (d_target d) in
    sound content seg {| s_file := fst (seed t seg e); s_count := snd (seed t seg e) |} /\
    contents (d_ranges d seg) `prefix_of` contents (fst (seed t seg e)) /\
    snd (seed t seg e) = partial_of d (Z.of_nat (length content)) seg) as Hseed.
  { intros seg Hseg e t. pose proof (Hin seg Hseg) as Hi. pose proof (Hr seg Hseg) as He.
    destruct (seed_sound content seg t e) as (S1 & S2 & S3); subst t e;
      [done|by destruct (d_ranges d seg)|by destruct (d_ranges d seg)|by destruct (d_target d)|].
    split; [done|]. split; [by destruct (d_ranges d seg)|]. rewrite S3. unfold partial_of.
    destruct Hi as [Hi1 Hi2]. assert (size_of (d_target d) <= Z.of_nat (length content)).
    { destruct (d_target d); simpl; try lia. apply prefix_length in Ht. lia. }
    rewrite (Z.min_l (size_of (d_target d))) by done.
    assert (size_of (d_ranges d seg) <= seg_bytes seg) by (unfold seg_bytes; destruct (d_ranges d seg); simpl in *; unfold seg_bytes in *; lia).
    rewrite (Z.min_l (size_of (d_ranges d seg))) by done.
    destruct (d_ranges d seg), (d_target d); simpl; lia. }
  split.
  - apply list_fmap_ext. intros i seg Hi. by apply Hseed, list_elem_of_lookup_2 with i.
  - intros seg Hseg. pose proof Hseg as Hm. apply mem_true in Hm. rewrite Hm.
    destruct (Hseed seg Hseg) as (S1 & S2 & <-). done.
Qed.

(** ** The whole call *)
Lemma set_ranges_lookup segs (h : Z * Z -> Segment A * option failure * bool) : forall d s,
  d_ranges (set_ranges segs (h <$> segs) d) s = (if mem s segs then s_file (fst (fst (h s))) else d_ranges d s) /\
  d_target (set_ranges segs (h <$> segs) d) = d_target d.
Proof.
  induction segs as [|seg segs IH]; intros d s; [done|].
  change (set_ranges (seg :: segs) (h <$> seg :: segs) d)
    with (set_ranges segs (h <$> segs) (set_range seg (s_file (fst (fst (h seg)))) d)). destruct (IH (set_range seg (s_file (fst (fst (h seg)))) d) s) as [-> ->].
  split; [|done]. cbn [set_range d_ranges]. destruct (mem s segs) eqn:E.
  - apply mem_true in E. rewrite (proj2 (mem_true s (seg :: segs))); [done|by right].
  - apply mem_false in E. case_bool_decide as Hs; [subst; by rewrite (proj2 (mem_true _ _)) by left|].
    rewrite (proj2 (mem_false s (seg :: segs))); [done|]. rewrite elem_of_cons. naive_solver.
Qed.

Lemma run_transfers_fmap d expected segs g (sc : Schedule A) :
  run_transfers d expected segs (g <$> segs) sc =
  (fun seg => transfer seg expected (oracle_of sc seg) {| s_file := d_ranges d seg; s_count := g seg |}) <$> segs.
Proof. unfold run_transfers. induction segs as [|seg segs IH]; [done|]. rewrite !fmap_cons. cbn [zip_with]. by rewrite IH. Qed.

Lemma assemble_all segs (files : Z * Z -> entry A) : forall stop bytes,
  assemble segs files stop = inl bytes ->
  (forall seg, seg ∈ segs -> files seg = File (contents (files seg)) /\
     Z.of_nat (length (contents (files seg))) = seg_bytes seg) /\
  bytes = concat ((fun seg => contents (files seg)) <$> segs).
Proof.
  induction segs as [|seg segs IH]; intros stop bytes H; cbn [assemble] in H.
  { simplify_eq. split; [|done]. by intros seg ?%elem_of_nil. }
  destruct (files seg) as [| |b] eqn:F; [done..|].
  destruct (negb _) eqn:E; [done|]. apply negb_false_iff, Z.eqb_eq in E.
  assert (exists stop', exists bs, assemble segs files stop' = inl bs /\ bytes = (b ++ bs)%list) as (stop' & bs & Hr & ->).
  { destruct stop as [[|n]|]; [done|..]; destruct (assemble segs files _) eqn:R; simplify_eq; by eexists _, _. }
  destruct (IH _ _ Hr) as [H1 ->]. split.
  - intros seg' [->|Hin]%elem_of_cons; [by rewrite F|auto].
  - rewrite fmap_cons. cbn [concat]. by rewrite F.
Qed.

Lemma assemble_full segs (files : Z * Z -> entry A) :
  (forall seg, seg ∈ segs -> files seg <> Link /\ size_of (files seg) = seg_bytes seg /\ 0 < seg_bytes seg) ->
  assemble segs files None = inl (concat ((fun seg => contents (files seg)) <$> segs)).
Proof.
  induction segs as [|seg segs IH]; intros H; [done|]. cbn [assemble].
  destruct (H seg) as (H1 & H2 & H3); [by left|]. destruct (files seg) as [| |b] eqn:F; simpl in *; [lia|done|].
  rewrite (proj2 (Z.eqb_eq _ _) H2). cbn [negb option_map fmap option_fmap]. rewrite IH.
    by rewrite F.
  - intros s Hs. apply H. by right.
Qed.

Lemma full_file content seg e :
  holds content seg e -> size_of e = seg_bytes seg -> inside content seg -> contents e = piece content seg.
Proof.
  intros H Hs [Hi _]. unfold seg_bytes in *. destruct e as [| |b]; simpl in *; [lia|lia|].
  unfold piece, seg_bytes. destruct H as [_ H]. by rewrite H, Hs at 1.
Qed.

(** A disk after a call, as far as a provider's bytes are concerned. *)
Definition schedule_honest content (segs : list (Z * Z)) (sc : Schedule A) : Prop :=
  forall seg, seg ∈ segs -> Forall (honest content) (oracle_of sc seg).

Section call.
Context (content : list A) (workers : Z) (segs : list (Z * Z)) (d : Disk A) (sc : Schedule A).
Hypothesis Hsegs : _segments (Z.of_nat (length content)) workers = Ok segs.
Hypothesis Hinside : forall seg, seg ∈ segs -> inside content seg.
Hypothesis Hpieces : concat (piece content <$> segs) = content.
Hypothesis Hd : consistent content segs d.

Let expected := Z.of_nat (length content).
Let d0 := fst (prepare d expected segs).
Let ran seg := transfer seg expected (oracle_of sc seg)
                 {| s_file := d_ranges d0 seg; s_count := partial_of d expected seg |}.
Let d1 := set_ranges segs (ran <$> segs) d0.

Lemma download_unfold :
  download_ranges d expected workers sc =
  let failures := omap (fun r => snd (fst r)) (ran <$> segs) in
  if existsb is_ignored failures then Ok (cleanup_ranges d1 segs, Sequential)
  else match failures with
       | _ :: _ => Ok (d1, Raised failures)
       | [] => if stopped_after sc then Ok (d1, Raised [Interrupted])
               else if existsb snd (ran <$> segs) then Ok (d1, Sequential) else Ok (finish d1 segs sc)
       end.
Proof.
  unfold download_ranges. subst expected. rewrite Hsegs. cbn [mbind result_bind].
  destruct (prepare _ _ _) as [e counts] eqn:P. pose proof P as P'. apply prepare_spec in P' as (_ & -> & _); [|done..].
  by rewrite run_transfers_fmap.
Qed.

Lemma prepared seg :
  seg ∈ segs ->
  sound content seg {| s_file := d_ranges d0 seg; s_count := partial_of d expected seg |} /\
  contents (d_ranges d seg) `prefix_of` contents (d_ranges d0 seg).
Proof.
  intros Hin. subst d0. destruct (prepare d expected segs) as [e counts] eqn:P.
  apply prepare_spec in P as (_ & _ & H); [|done..]. by apply H.
Qed.

Lemma prepared_target : match d_target d1 with File b => b `prefix_of` content | _ => True end.
Proof.
  subst d1. rewrite (proj2 (set_ranges_lookup _ _ _ (0, 0))). subst d0.
  destruct (prepare d expected segs) as [e counts] eqn:P. cbn [fst]. apply prepare_spec in P as (-> & _); [|done..].
  destruct Hd as [_ Ht]. by destruct (d_target d).
Qed.

Hypothesis Hhonest : schedule_honest content segs sc.

Lemma ran_sound seg :
  seg ∈ segs ->
  holds content seg (d_ranges d1 seg) /\
  ((forall e, snd (fst (ran seg)) <> Some (Failed e)) -> contents (d_ranges d seg) `prefix_of` contents (d_ranges d1 seg)) /\
  (snd (fst (ran seg)) = None -> snd (ran seg) = false -> size_of (d_ranges d1 seg) = seg_bytes seg).
Proof.
  intros Hin. subst d1. rewrite (proj1 (set_ranges_lookup _ _ _ seg)), (proj2 (mem_true _ _) Hin).
  destruct (prepared seg Hin) as [Hs Hp]. destruct (Hinside seg Hin) as [Hi _].
  destruct (ran seg) as [[s' f] fallback] eqn:R. cbn [fst snd].
  apply attempts_sound with (content := content) in R as (R1 & R2 & R3); [|done|done|by apply Hhonest].
  split; [done|]. split; [|done]. intros Hf. etrans; [apply Hp|by apply R2].
Qed.

Lemma after_consistent : consistent content segs d1.
Proof. split; [intros; by apply ran_sound|apply prepared_target]. Qed.

Lemma cleanup_consistent (e : Disk A) :
  match d_target e with File b => b `prefix_of` content | _ => True end ->
  consistent content segs (cleanup_ranges e segs).
Proof. intros H. split; [|done]. intros seg Hin. cbn [cleanup_ranges d_ranges]. by rewrite (proj2 (mem_true _ _) Hin). Qed.

Lemma finish_keeps d' o :
  finish d1 segs sc = (d', o) ->
  consistent content segs d' /\ d_assembly d' = Absent /\
  (o = Complete -> d_target d' = File content /\ forall seg, seg ∈ segs -> d_ranges d' seg = Absent).
Proof.
  pose proof after_consistent as [Hr Ht]. unfold finish. destruct (assemble _ _ _) as [bytes|[seg|]] eqn:E.
  - apply assemble_all in E as [Hfull ->]. intros [= <- <-].
    assert (concat ((fun seg => contents (d_ranges d1 seg)) <$> segs) = content) as ->.
    { etrans; [|exact Hpieces]. f_equal. apply list_fmap_ext. intros i seg Hi.
      apply list_elem_of_lookup_2 in Hi. apply full_file; [by apply Hr| |by apply Hinside].
      destruct (Hfull seg Hi) as [Hf Hl]. by rewrite Hf. }
    split; [apply cleanup_consistent; cbn [d_target]; reflexivity|]. split; [done|]. intros _. split; [done|].
    intros seg Hin. cbn [cleanup_ranges d_ranges]. by rewrite (proj2 (mem_true _ _) Hin).
  - intros [= <- <-]. split; [|done]. split; [|done]. intros s Hin.
    cbn [without_assembly set_range d_ranges]. case_bool_decide; [done|by apply Hr].
  - by intros [= <- <-].
Qed.
End call.

(** C17.  Whatever interrupts it, a call leaves every file a prefix of what it stands for; it
    reports completion only when the target is the object, byte for byte, and then no
    range or assembly file is left. *)
Theorem download_keeps_files content workers d sc segs :
  content <> [] -> 0 < workers ->
  _segments (Z.of_nat (length content)) workers = Ok segs ->
  consistent content segs d -> schedule_honest content segs sc ->
  exists d' o, download_ranges d (Z.of_nat (length content)) workers sc = Ok (d', o) /\
    consistent content segs d' /\
    (o = Complete -> d_target d' = File content /\ d_assembly d' = Absent /\
       forall seg, seg ∈ segs -> d_ranges d' seg = Absent).
Proof.
  intros Hne Hw Hsegs Hd Hh. destruct (segments_partition content workers Hne Hw) as (segs' & E & _ & _ & Hin & Hp).
  assert (segs' = segs) as -> by congruence. clear E.
  pose proof (after_consistent content segs d sc Hin Hd Hh) as Hafter.
  rewrite (download_unfold content workers segs d sc Hsegs Hin Hd). cbv zeta.
  destruct (existsb is_ignored _).
  { eexists _, _. split; [done|]. split; [|done]. by apply cleanup_consistent, prepared_target. }
  destruct (omap _ _); [|by eexists _, _]. destruct (stopped_after sc); [by eexists _, _|].
  destruct (existsb snd _); [by eexists _, _|]. destruct (finish _ _ _) as [d' o] eqn:F.
  apply finish_keeps with (content := content) in F as (F1 & F2 & F3); [|done..].
  eexists _, _. split; [done|]. split; [done|]. intros Ho. destruct (F3 Ho). done.
Qed.

(** An interruption, a lost connection or a short answer costs no byte received before or
    during the call: unless an answer itself was wrong, every range file only grows. *)
Theorem interruption_keeps_bytes content workers d sc segs d' causes :
  content <> [] -> 0 < workers ->
  _segments (Z.of_nat (length content)) workers = Ok segs ->
  consistent content segs d -> schedule_honest content segs sc ->
  download_ranges d (Z.of_nat (length content)) workers sc = Ok (d', Raised causes) ->
  (forall e, Failed e ∉ causes) ->
  forall seg, seg ∈ segs -> contents (d_ranges d seg) `prefix_of` contents (d_ranges d' seg).
Proof.
  intros Hne Hw Hsegs Hd Hh. destruct (segments_partition content workers Hne Hw) as (segs' & E & _ & _ & Hin & _).
  assert (segs' = segs) as -> by congruence. clear E.
  rewrite (download_unfold content workers segs d sc Hsegs Hin Hd). cbv zeta. intros H Hc seg Hseg.
  destruct (ran_sound content segs d sc Hin Hd Hh seg Hseg) as (_ & Hkeep & _).
  set (ran := fun seg => transfer _ _ _ _) in *. set (d1 := set_ranges segs (ran <$> segs) _) in *.
  assert (forall f, snd (fst (ran seg)) = Some f -> f ∈ omap (fun r => snd (fst r)) (ran <$> segs)) as Hcause.
  { intros f Hf. apply list_elem_of_omap. exists (ran seg). split; [|done]. apply list_elem_of_fmap. by exists seg. }
  change (snd (fst (transfer seg _ _ _))) with (snd (fst (ran seg))) in Hkeep.
  destruct (existsb is_ignored _); [done|]. destruct (omap _ _) as [|f fs].
  - assert (d_ranges d' seg = d_ranges d1 seg) as ->.
    { destruct (stopped_after sc); [congruence|]. destruct (existsb snd _); [done|].
      unfold finish in H. destruct (assemble _ _ _) as [?|[?|]]; simplify_eq; done. }
    apply Hkeep. intros e He. apply Hcause in He. by apply elem_of_nil in He.
  - injection H as <- <-. apply Hkeep. intros e He. by apply (Hc e), Hcause.
Qed.

(** ** Resuming *)
Lemma read_body_whole (chunks : list (bool * list A)) :
  Forall (fun c => fst c = false) chunks ->
  read_body chunks (Z.of_nat (length (concat (snd <$> chunks)))) = (concat (snd <$> chunks), None, false).
Proof.
  induction chunks as [|[i chunk] rest IH]; intros H; [done|]. inversion H as [|? ? Hi Hrest]; subst. simpl in Hi. subst i.
  rewrite fmap_cons. cbn [concat snd read_body]. rewrite length_app, Nat2Z.inj_add.
  rewrite (proj2 (Z.ltb_ge _ _)) by lia. rewrite Z.add_simpl_l. by rewrite IH.
Qed.

(** The provider serves exactly the bytes that are missing: the first attempt of every
    segment is not stopped, and, where bytes are missing, answered with them. *)
Definition served content (d : Disk A) (seg : Z * Z) (oracle : list (attempt A)) : Prop :=
  let expected := Z.of_nat (length content) in
  let have := partial_of d expected seg in
  exists a rest, oracle = a :: rest /\ stopped_before a = false /\
    (have < seg_bytes seg ->
     stopped_at_open a = false /\
     exists chunks, got a = Answered 206 (Some (fst seg + have, snd seg, expected)) None chunks /\
       Forall (fun c => fst c = false) chunks /\
       concat (snd <$> chunks) = slice content (fst seg + have) (seg_bytes seg - have)).

Lemma transfer_served content (d : Disk A) seg oracle e :
  inside content seg -> served content d seg oracle ->
  sound content seg {| s_file := e; s_count := partial_of d (Z.of_nat (length content)) seg |} ->
  exists s', transfer seg (Z.of_nat (length content)) oracle
    {| s_file := e; s_count := partial_of d (Z.of_nat (length content)) seg |} = (s', None, false) /\
    s_file s' = File (piece content seg).
Proof.
  intros [Hi Hend] (a & rest & -> & Hb & Hserve) Hs. pose proof (sound_contents _ _ _ Hs) as (H0 & Hc & Hl).
  set (have := partial_of _ _ _) in *. cbn [s_file s_count] in *.
  unfold transfer. cbn [attempts s_count]. rewrite Hb.
  assert (have <= seg_bytes seg) as Hle.
  { destruct Hs as (Hh & Hsz & _). cbn [s_file s_count] in *. unfold seg_bytes in *.
    destruct e; simpl in *; [lia|lia|]. unfold seg_bytes in *. lia. }
  destruct (snd seg <? fst seg + have) eqn:E; bools.
  - eexists. split; [done|]. cbn [s_file]. unfold seg_bytes in *.
    assert (have = snd seg - fst seg + 1) as Eh by lia. unfold piece, seg_bytes. rewrite <- Eh, <- Hc.
    destruct Hs as (_ & Hsz & Hlink). cbn [s_file s_count] in *. destruct e; simpl in *; [lia|done|done].
  - destruct Hserve as (Ho & chunks & Hg & Hci & Hcc); [unfold seg_bytes; lia|].
    unfold _transfer_body, open_checked. cbn [s_count s_file]. rewrite Ho, Hg.
    change (206 =? 200) with false. change ((206 <? 200) || (300 <=? 206)) with false.
    change (negb (206 =? 206)) with false. rewrite bool_decide_eq_true_2 by done. cbn [negb orb].
    change (lower (default "identity" None)) with "identity". rewrite bool_decide_eq_true_2 by done. cbn [negb].
    replace (snd seg - (fst seg + have) + 1) with (Z.of_nat (length (concat (snd <$> chunks)))).
    2: { rewrite Hcc, slice_length; unfold seg_bytes in *; lia. }
    rewrite read_body_whole by done. eexists. split; [done|]. cbn [s_file]. f_equal.
    rewrite Hc, Hcc, slice_app by (unfold seg_bytes in *; lia). unfold piece. f_equal. lia.
Qed.

(** C18.  A call that is not stopped and is served completes the object by asking only for what
    [range_partial_bytes] does not count. *)
Theorem resume_completes content workers d sc segs :
  content <> [] -> 0 < workers ->
  _segments (Z.of_nat (length content)) workers = Ok segs ->
  consistent content segs d ->
  (forall seg, seg ∈ segs -> served content d seg (oracle_of sc seg)) ->
  stopped_after sc = false -> stopped_assembling sc = None ->
  exists d', download_ranges d (Z.of_nat (length content)) workers sc = Ok (d', Complete) /\
    d_target d' = File content /\ d_assembly d' = Absent.
Proof.
  intros Hne Hw Hsegs Hd Hserve Hstop Hassemble.
  destruct (segments_partition content workers Hne Hw) as (segs' & E & _ & _ & Hin & Hp).
  assert (segs' = segs) as -> by congruence. clear E.
  rewrite (download_unfold content workers segs d sc Hsegs Hin Hd). cbv zeta.
  set (d0 := fst (prepare _ _ _)). set (ran := fun seg => transfer _ _ _ _).
  assert (forall seg, seg ∈ segs -> exists s', ran seg = (s', None, false) /\ s_file s' = File (piece content seg)) as Hran.
  { intros seg Hseg. apply transfer_served; [by apply Hin|by apply Hserve|].
    by apply (prepared content segs d sc Hin Hd). }
  assert (omap (fun r => snd (fst r)) (ran <$> segs) = []) as ->.
  { destruct (omap _ _) as [|f fs] eqn:F; [done|]. exfalso.
    assert (f ∈ omap (fun r => snd (fst r)) (ran <$> segs)) as (r & (seg & -> & Hseg)%list_elem_of_fmap & Hr)%list_elem_of_omap
      by (rewrite F; by left).
    destruct (Hran seg Hseg) as (s' & Hs' & _). by rewrite Hs' in Hr. }
  assert (existsb snd (ran <$> segs) = false) as ->.
  { apply not_true_iff_false. intros (r & Hr & Hs)%existsb_exists. apply list_elem_of_In, list_elem_of_fmap in Hr as (seg & -> & Hseg).
    destruct (Hran seg Hseg) as (s' & Hr & _). by rewrite Hr in Hs. }
  cbn [existsb]. rewrite Hstop. unfold finish. rewrite Hassemble.
  assert (forall seg, seg ∈ segs -> d_ranges (set_ranges segs (ran <$> segs) d0) seg = File (piece content seg)) as Hfile.
  { intros seg Hseg. rewrite (proj1 (set_ranges_lookup _ _ _ _)), (proj2 (mem_true _ _) Hseg).
    destruct (Hran seg Hseg) as (s' & -> & Hf). exact Hf. }
  rewrite assemble_full.
  - eexists. split; [done|]. split; [|done]. cbn [cleanup_ranges d_target]. f_equal. etrans; [|exact Hp].
    f_equal. apply list_fmap_ext. intros i seg Hi. apply list_elem_of_lookup_2 in Hi. by rewrite Hfile.
  - intros seg Hseg. rewrite Hfile by done. split; [done|]. destruct (Hin seg Hseg) as [Hi He].
    cbn [size_of]. unfold piece. rewrite slice_length by (unfold seg_bytes; lia). unfold seg_bytes. lia.
Qed.

End facts.

(** Whatever the provider sent and whatever the disk held, completion means the target has
    the object's size; the arguments are refused exactly when one is not positive. *)
Theorem complete_has_size {A} expected workers (d : Disk A) sc :
  (forall d', download_ranges d expected workers sc = Ok (d', Complete) ->
     exists b, d_target d' = File b /\ Z.of_nat (length b) = expected) /\
  ((exists e, download_ranges d expected workers sc = Raise e) <-> expected <= 0 \/ workers <= 0).
Proof.
  unfold download_ranges, _segments. destruct ((expected <=? 0) || (workers <=? 0)) eqn:G.
  { apply orb_true_iff in G. bools. split; [done|]. split; [lia|]. intros _. by eexists. }
  apply orb_false_iff in G as [He%Z.leb_gt Hw%Z.leb_gt]. cbn [mbind result_bind].
  set (width := (expected + workers - 1) / workers). assert (0 < width) as Hwidth by (apply Z.div_str_pos; lia).
  set (segs := segments_from _ _ _ _). destruct (prepare _ _ _) as [d0 counts].
  split; [|split; [|lia]].
  - intros d' H. destruct (existsb is_ignored _); [done|]. destruct (omap _ _); [|done].
    destruct (stopped_after sc); [done|]. destruct (existsb snd _); [done|].
    unfold finish in H. destruct (assemble _ _ _) as [bytes|[?|]] eqn:E; simplify_eq. eexists. split; [done|].
    apply assemble_all in E as [Hfull ->]. set (ref := replicate (Z.to_nat expected) ()).
    assert (Z.of_nat (length ref) = expected) as Href by (unfold ref; rewrite length_replicate; lia).
    transitivity (Z.of_nat (length (concat ((fun seg => take (Z.to_nat (seg_bytes seg)) (drop (Z.to_nat (fst seg)) ref)) <$> segs)))).
    + f_equal. rewrite !length_concat. f_equal. rewrite <- !list_fmap_compose. apply list_fmap_ext. intros i seg Hi.
      apply list_elem_of_lookup_2 in Hi. destruct (Hfull seg Hi) as [_ Hl].
      apply segments_inside in Hi as (? & ? & ? & _); [|done]. unfold compose. rewrite length_take, length_drop.
      unfold seg_bytes in *. lia.
    + etrans; [|exact Href]. f_equal. f_equal. unfold segs.
      transitivity (drop (Z.to_nat 0) ref); [|apply drop_0].
      apply (@segments_concat unit (Z.to_nat expected) 0 expected width ref); lia.
  - intros [e H]. repeat case_match; simplify_eq.
Qed.

(** ** A three-byte object over two workers *)
Definition example_content : list Z := [7; 8; 9].
Definition example_disk : Disk Z := {|
  d_target := File [7];
  d_ranges := fun seg => if bool_decide (seg = (2, 2)) then Absent else Link;
  d_assembly := Link |}.
(** The first segment has one byte from the sequential file, and is asked for the other. *)
Definition example_answer (offset end_ : Z) (body : list Z) : attempt Z := {|
  stopped_before := false; stopped_at_open := false;
  got := Answered 206 (Some (offset, end_, 3)) None [(false, body)] |}.
Definition example_oracle (last : bool) (seg : Z * Z) : list (attempt Z) :=
  if bool_decide (seg = (0, 1)) then [example_answer 1 1 [8]]
  else if last then [example_answer 2 2 [9]] else [].
Definition example_schedule (last : bool) : Schedule Z := {|
  oracle_of := example_oracle last; stopped_after := false; stopped_assembling := None |}.

Lemma example_consistent : consistent example_content [(0, 1); (2, 2)] example_disk.
Proof.
  split; [|by exists [8; 9]]. intros seg Hin. simpl. by destruct (bool_decide (seg = (2, 2))).
Qed.

Lemma example_honest last : schedule_honest example_content [(0, 1); (2, 2)] (example_schedule last).
Proof.
  intros seg _. simpl. unfold example_oracle. case_bool_decide; [|destruct last; [|constructor]];
    (constructor; [|constructor]; intros status o e x encoding chunks [= <- <- <- <- <- <-]; simpl).
  - by exists [9].
  - by exists [].
Qed.

Lemma segments_partition_witness :
  exists segs, _segments (Z.of_nat (length example_content)) 2 = Ok segs /\
    (length segs <= Z.to_nat 2)%nat /\ NoDup segs /\
    (forall s, s ∈ segs -> 0 <= fst s <= snd s /\ snd s < Z.of_nat (length example_content)) /\
    concat (piece example_content <$> segs) = example_content.
Proof. apply (segments_partition example_content 2); [done|lia]. Defined.

Lemma download_keeps_files_witness :
  exists d' o, download_ranges example_disk (Z.of_nat (length example_content)) 2 (example_schedule false) = Ok (d', o) /\
    consistent example_content [(0, 1); (2, 2)] d' /\
    (o = Complete -> d_target d' = File example_content /\ d_assembly d' = Absent /\
       forall seg, seg ∈ [(0, 1); (2, 2)] -> d_ranges d' seg = Absent).
Proof.
  apply (download_keeps_files example_content 2); [done|lia|vm_compute; reflexivity|apply example_consistent|apply example_honest].
Defined.

Lemma interruption_keeps_bytes_witness :
  exists d' causes,
    download_ranges example_disk (Z.of_nat (length example_content)) 2 (example_schedule false) = Ok (d', Raised causes) /\
    forall seg, seg ∈ [(0, 1); (2, 2)] -> contents (d_ranges example_disk seg) `prefix_of` contents (d_ranges d' seg).
Proof.
  eexists _, [Interrupted]. split; [reflexivity|].
  apply (interruption_keeps_bytes example_content 2 example_disk (example_schedule false) _ _ [Interrupted]);
    [done|lia|vm_compute; reflexivity|apply example_consistent|apply example_honest|reflexivity|].
  intros e He. apply list_elem_of_singleton in He. discriminate.
Defined.

Lemma resume_completes_witness :
  exists d', download_ranges example_disk (Z.of_nat (length example_content)) 2 (example_schedule true) = Ok (d', Complete) /\
    d_target d' = File example_content /\ d_assembly d' = Absent.
Proof.
  apply (resume_completes example_content 2 example_disk (example_schedule true) [(0, 1); (2, 2)]);
    [done|lia|vm_compute; reflexivity|apply example_consistent| |done|done].
  intros seg [->|[->|?%elem_of_nil]%elem_of_cons]%elem_of_cons; [..|done];
    (eexists _, _; split; [reflexivity|]; split; [done|]; intros _; split; [done|];
     eexists; split; [reflexivity|]; split; [by constructor|reflexivity]).
Defined.

(** [range_partial_bytes] counts an oversized range file as a whole reusable segment, which
    the download removes before it counts anything. *)
Lemma oversized_counted :
  let d := {| d_target := Absent; d_ranges := fun _ => File [7; 8; 9]; d_assembly := Absent |} in
  range_partial_bytes d 2 1 = Ok 2 /\ snd (prepare d 2 [(0, 1)]) = [0].
Proof. by vm_compute. Qed.
