(* ===== verification/LoginLimiter.v ===== *)
(** * The login rate limiter

    [LoginRateLimiter] of [control/src/vonk_control/browser_auth.py], with the HMAC-SHA256
    of Python's [hmac] over [Sha256].  The attempt objects are shared between the global
    queue, the queue of their subject and the table of open attempts, and one of them is
    marked failed through any of these: they are a heap by id, and the queues hold ids.
    Two attempts are equal exactly when their ids are, so [deque.remove] removes an id.
    A call that raises leaves what it changed before, so every operation returns the
    limiter beside its result.  The clock is a number of microseconds; it is read before
    the lock is taken, so nothing is assumed of the order of the readings. *)
From S2P Require Import Prelude Sha256.

(** ** HMAC-SHA256 *)
Definition hmac_block (key : list Z) : list Z :=
  let k := if (64 <? length key)%nat then Sha256.digest key else key in
  (k ++ replicate (64 - length k) 0)%list.

Definition hmac (key msg : list Z) : list Z :=
  let block := hmac_block key in
  Sha256.digest ((Z.lxor 92 <$> block) ++ Sha256.digest ((Z.lxor 54 <$> block) ++ msg))%list.

Example hmac_fox :
  Sha256.hex (hmac (Sha256.encode "key") (Sha256.encode "The quick brown fox jumps over the lazy dog")) =
    "f7bc83f430538424b13298e6aa6fb143ef4d59a14946175997479dbc2d1a3cd8"%string.
Proof. vm_compute. reflexivity. Qed.

(** ** The state *)
Record AttemptState := {
  identifier : string;
  attempted_at : instant;
  failed : bool;
}.

(** The opaque reservation a caller holds. *)
Record LoginAttempt := { attempt_owner : Z; attempt_id : nat }.

Record LoginRateLimiter := {
  token_signing_key : list Z;
  maximum_tracked_subjects : nat;
  maximum_subject_failures : nat;
  maximum_global_failures : nat;
  window : Z;
  limiter_owner : Z;
  states : gmap nat AttemptState;
  subjects : gmap string (list nat);
  global : list nat;
  attempts : gset nat;
  next_id : nat;
}.

Definition _LOGIN_WINDOW_SECONDS : Z := seconds 300.
Definition _MAX_SUBJECT_FAILURES : nat := 5.
Definition _MAX_GLOBAL_FAILURES : nat := 20.
Definition _MAX_TRACKED_SUBJECTS : nat := 1024.

(** [LoginRateLimiter(...)] *)
Definition make_limiter (owner : Z) (key : list Z) (tracked subject global_ window_ : Z)
  : result LoginRateLimiter :=
  if bool_decide (key = []) then Raise (ValueError "token signing key is invalid")
  else if (tracked <? 1) || (subject <? 1) || (global_ <? 1) || (window_ <=? 0)
  then Raise (ValueError "login rate limit is invalid")
  else Ok {|
    token_signing_key := key; maximum_tracked_subjects := Z.to_nat tracked;
    maximum_subject_failures := Z.to_nat subject; maximum_global_failures := Z.to_nat global_;
    window := window_; limiter_owner := owner;
    states := ∅; subjects := ∅; global := []; attempts := ∅; next_id := 0 |}.

Definition set_tables (states_ : gmap nat AttemptState) (subjects_ : gmap string (list nat))
    (global_ : list nat) (attempts_ : gset nat) (next_ : nat) (l : LoginRateLimiter) : LoginRateLimiter := {|
  token_signing_key := token_signing_key l; maximum_tracked_subjects := maximum_tracked_subjects l;
  maximum_subject_failures := maximum_subject_failures l;
  maximum_global_failures := maximum_global_failures l; window := window l;
  limiter_owner := limiter_owner l;
  states := states_; subjects := subjects_; global := global_; attempts := attempts_; next_id := next_ |}.

(** [self._identifier(subject)]: no subject is kept in plain text. *)
Definition _identifier (l : LoginRateLimiter) (subject : string) : string :=
  Sha256.hex (hmac (token_signing_key l) (Sha256.encode subject)).

(** ** Operations *)

(** [deque.remove(x)] *)
Fixpoint deque_remove (x : nat) (q : list nat) : option (list nat) :=
  match q with
  | [] => None
  | y :: r => if bool_decide (x = y) then Some r else (cons y) <$> deque_remove x r
  end.

Definition not_in_deque : exn := ValueError "deque.remove(x): x not in deque".

(** A subject whose queue is empty is no longer tracked. *)
Definition put_queue (ident : string) (q : list nat) (subjects_ : gmap string (list nat))
  : gmap string (list nat) :=
  match q with [] => delete ident subjects_ | _ => <[ident := q]> subjects_ end.

(** The attempts at the head of the global queue that left the window. *)
Fixpoint evict_from (cutoff : instant) (queue : list nat) (l : LoginRateLimiter)
  : LoginRateLimiter * result unit :=
  match queue with
  | [] => (l, Ok tt)
  | i :: rest =>
      match states l !! i with
      | None => (l, Ok tt)
      | Some state =>
          if attempted_at state <=? cutoff then
            let l := set_tables (states l) (subjects l) rest (attempts l ∖ {[i]}) (next_id l) l in
            match subjects l !! identifier state with
            | None => evict_from cutoff rest l
            | Some q =>
                match deque_remove i q with
                | None => (l, Raise not_in_deque)
                | Some q' =>
                    evict_from cutoff rest
                      (set_tables (states l) (put_queue (identifier state) q' (subjects l))
                         (global l) (attempts l) (next_id l) l)
                end
            end
          else (l, Ok tt)
      end
  end.

Definition _evict (now : instant) (l : LoginRateLimiter) : LoginRateLimiter * result unit :=
  evict_from (now - window l) (global l) l.

(** Whether an admission is refused: too many recent attempts, of all or of this subject,
    or no room to track another subject. *)
Definition refused (ident : string) (l : LoginRateLimiter) : bool :=
  (maximum_global_failures l <=? length (global l))%nat
  || match subjects l !! ident with
     | Some q => (maximum_subject_failures l <=? length q)%nat
     | None => (maximum_tracked_subjects l <=? size (subjects l))%nat
     end.

Definition add_attempt_state (ident : string) (now : instant) (l : LoginRateLimiter) : LoginRateLimiter :=
  let i := next_id l in
  set_tables (<[i := {| identifier := ident; attempted_at := now; failed := false |}]> (states l))
    (<[ident := (default [] (subjects l !! ident) ++ [i])%list]> (subjects l))
    (global l ++ [i])%list (attempts l ∪ {[i]}) (S i) l.

Definition reserve (subject : string) (now : instant) (l : LoginRateLimiter)
  : LoginRateLimiter * result (option LoginAttempt) :=
  let ident := _identifier l subject in
  match _evict now l with
  | (l, Raise e) => (l, Raise e)
  | (l, Ok _) =>
      if refused ident l then (l, Ok None)
      else (add_attempt_state ident now l,
            Ok (Some {| attempt_owner := limiter_owner l; attempt_id := next_id l |}))
  end.

Definition invalid_attempt : exn := ValueError "login attempt is invalid".

Definition mark_failed (i : nat) (l : LoginRateLimiter) : LoginRateLimiter :=
  set_tables
    (alter (fun s => {| identifier := identifier s; attempted_at := attempted_at s; failed := true |}) i (states l))
    (subjects l) (global l) (attempts l ∖ {[i]}) (next_id l) l.

Definition fail (attempt : LoginAttempt) (now : instant) (l : LoginRateLimiter)
  : LoginRateLimiter * result unit :=
  if negb (attempt_owner attempt =? limiter_owner l) then (l, Raise invalid_attempt)
  else
    match _evict now l with
    | (l, Raise e) => (l, Raise e)
    | (l, Ok _) =>
        if bool_decide (attempt_id attempt ∈ attempts l) then (mark_failed (attempt_id attempt) l, Ok tt)
        else (l, Ok tt)
    end.

Definition has_failed (l : LoginRateLimiter) (i : nat) : bool :=
  match states l !! i with Some s => failed s | None => false end.

(** What a success keeps of its subject's queue: the other attempts still open. *)
Definition retained (l : LoginRateLimiter) (i : nat) (q : list nat) : list nat :=
  List.filter (fun c => negb (bool_decide (c = i)) && negb (has_failed l c)) q.

Definition succeed (attempt : LoginAttempt) (now : instant) (l : LoginRateLimiter)
  : LoginRateLimiter * result unit :=
  if negb (attempt_owner attempt =? limiter_owner l) then (l, Raise invalid_attempt)
  else
    match _evict now l with
    | (l, Raise e) => (l, Raise e)
    | (l, Ok _) =>
        let i := attempt_id attempt in
        if negb (bool_decide (i ∈ attempts l)) then (l, Ok tt)
        else
          let l := set_tables (states l) (subjects l) (global l) (attempts l ∖ {[i]}) (next_id l) l in
          match states l !! i, deque_remove i (global l) with
          | Some state, Some global' =>
              let l := set_tables (states l) (subjects l) global' (attempts l) (next_id l) l in
              match subjects l !! identifier state with
              | None => (l, Ok tt)
              | Some q =>
                  (set_tables (states l) (put_queue (identifier state) (retained l i q) (subjects l))
                     (global l) (attempts l) (next_id l) l, Ok tt)
              end
          | _, _ => (l, Raise not_in_deque)
          end
    end.
