(* ===== verification/LoginLimiterFacts.v ===== *)
(** * What the login rate limiter guarantees

    Histories of [LoginLimiter] calls by any number of threads: the tables stay bounded
    and together, the recent failed and open attempts are bounded in number, a lockout
    ends with its window, and the one way a call can fail by itself. *)
From S2P Require Import Prelude Sha256 LoginLimiter.

(** ** Queues *)
Lemma deque_remove_Some x q q' :
  deque_remove x q = Some q' -> exists a b, q = (a ++ x :: b)%list /\ q' = (a ++ b)%list.
Proof.
  revert q'. induction q as [|y q IH]; intros q' H; simpl in H; [done|].
  case_bool_decide; [simplify_eq; by exists [], q'|].
  destruct (deque_remove x q) as [r|]; simplify_eq/=. destruct (IH r eq_refl) as (a & b & -> & ->).
  by exists (y :: a), b.
Qed.

Lemma deque_remove_None x q : deque_remove x q = None -> x ∉ q.
Proof.
  induction q as [|y q IH]; simpl; intros H; [apply not_elem_of_nil|].
  case_bool_decide; [done|]. destruct (deque_remove x q); [done|].
  intros [->|?]%elem_of_cons; [done|]. by apply IH.
Qed.

(** Removing an element of a duplicate-free queue removes just it. *)
Lemma deque_remove_rest x q q' :
  NoDup q -> deque_remove x q = Some q' ->
  NoDup q' /\ (forall y, y ∈ q' <-> y ∈ q /\ y <> x) /\ (length q = S (length q')) /\ x ∈ q.
Proof.
  intros Hn (a & b & -> & ->)%deque_remove_Some. rewrite NoDup_app in Hn.
  destruct Hn as (Ha & Hab & (Hx & Hb)%NoDup_cons).
  split_and!.
  - apply NoDup_app. split_and!; [done| |done]. intros y Hy Hb'. apply (Hab y Hy). by right.
  - intros y. rewrite !elem_of_app, elem_of_cons. split; [|naive_solver].
    intros [Hy|Hy]; (split; [naive_solver|]); intros ->; [|done]. apply (Hab x Hy). by left.
  - rewrite !length_app. simpl. lia.
  - rewrite elem_of_app, elem_of_cons. naive_solver.
Qed.

(** ** The invariant *)

(** [T] is the latest reading of the clock. *)
Record limiter_ok (T : instant) (l : LoginRateLimiter) : Prop := {
  lo_nodup : NoDup (global l);
  lo_known : forall i, i ∈ global l -> is_Some (states l !! i);
  lo_fresh : forall i, is_Some (states l !! i) -> (i < next_id l)%nat;
  lo_open : forall i, i ∈ attempts l -> i ∈ global l /\
    exists s q, states l !! i = Some s /\ failed s = false /\ subjects l !! identifier s = Some q /\ i ∈ q;
  lo_queue : forall ident q, subjects l !! ident = Some q ->
    q <> [] /\ NoDup q /\ (length q <= maximum_subject_failures l)%nat /\
    forall i, i ∈ q -> i ∈ global l /\ exists s, states l !! i = Some s /\ identifier s = ident;
  lo_recent : forall i s, states l !! i = Some s -> failed s = true ->
    T - window l < attempted_at s -> i ∈ global l;
  lo_global : (length (global l) <= maximum_global_failures l)%nat;
  lo_tracked : (size (subjects l) <= maximum_tracked_subjects l)%nat;
}.

(** The limits never change. *)
Definition same_limits (l l' : LoginRateLimiter) : Prop :=
  token_signing_key l' = token_signing_key l /\
  maximum_tracked_subjects l' = maximum_tracked_subjects l /\
  maximum_subject_failures l' = maximum_subject_failures l /\
  maximum_global_failures l' = maximum_global_failures l /\
  window l' = window l /\ limiter_owner l' = limiter_owner l.

#[global] Instance same_limits_refl : Reflexive same_limits.
Proof. by intros l. Qed.
#[global] Instance same_limits_trans : Transitive same_limits.
Proof. intros l1 l2 l3 (?&?&?&?&?&?) (?&?&?&?&?&?). unfold same_limits. split_and!; congruence. Qed.

Lemma limiter_ok_later T T' l : limiter_ok T l -> T <= T' -> limiter_ok T' l.
Proof. intros [] HT. constructor; try done. intros i s Hi Hf Hr. eapply lo_recent0; [done..|lia]. Qed.

Lemma put_queue_lookup ident q m k r :
  put_queue ident q m !! k = Some r -> (k = ident /\ r = q /\ q <> []) \/ (k <> ident /\ m !! k = Some r).
Proof.
  unfold put_queue. destruct q as [|x q]; intros H.
  - apply lookup_delete_Some in H as [? ?]. by right.
  - apply lookup_insert_Some in H as [[<- <-]|[? ?]]; [by left|by right].
Qed.

Lemma put_queue_size ident q m : is_Some (m !! ident) -> (size (put_queue ident q m) <= size m)%nat.
Proof.
  intros [r Hr]. unfold put_queue. destruct q as [|x q].
  - rewrite map_size_delete, Hr. lia.
  - by rewrite map_size_insert, Hr.
Qed.

(** One eviction step: the head left the window. *)
Lemma pop_ok T l i rest s :
  limiter_ok T l -> global l = i :: rest -> states l !! i = Some s -> attempted_at s <= T - window l ->
  let l1 := set_tables (states l) (subjects l) rest (attempts l ∖ {[i]}) (next_id l) l in
  (subjects l !! identifier s = None -> limiter_ok T l1) /\
  (forall q, subjects l !! identifier s = Some q ->
    (deque_remove i q = None -> limiter_ok T l1) /\
    (forall q', deque_remove i q = Some q' ->
       limiter_ok T (set_tables (states l) (put_queue (identifier s) q' (subjects l))
                       rest (attempts l ∖ {[i]}) (next_id l) l))).
Proof.
  intros [Hn Hk Hf Ho Hq Hr Hg Ht] E Hs Hold. rewrite E in *. apply NoDup_cons in Hn as [Hi Hn].
  assert (forall ident q, subjects l !! ident = Some q -> i ∉ q ->
    q <> [] /\ NoDup q /\ (length q <= maximum_subject_failures l)%nat /\
    forall j, j ∈ q -> j ∈ rest /\ exists s, states l !! j = Some s /\ identifier s = ident) as Hkeep.
  { intros ident q Eq Hiq. destruct (Hq _ _ Eq) as (H1 & H2 & H3 & H4). split_and!; try done.
    intros j Hj. destruct (H4 j Hj) as [[->|?]%elem_of_cons ?]; [done|done]. }
  assert (forall ident q, subjects l !! ident = Some q -> ident <> identifier s -> i ∉ q) as Hother.
  { intros ident q Eq Hne Hin. destruct (Hq _ _ Eq) as (_ & _ & _ & H4).
    destruct (H4 i Hin) as (_ & s' & E' & <-). congruence. }
  assert (forall j s', states l !! j = Some s' -> failed s' = true -> T - window l < attempted_at s' -> j ∈ rest) as Hrec.
  { intros j s' Hj Hfa Hat. pose proof (Hr j s' Hj Hfa Hat) as Hin. apply elem_of_cons in Hin as [->|?]; [|done].
    assert (s' = s) by congruence. subst. lia. }
  assert (forall m, (forall ident q, m !! ident = Some q -> exists q0, subjects l !! ident = Some q0 /\
      (i ∉ q0 /\ q = q0 \/ deque_remove i q0 = Some q /\ q <> [])) ->
      (forall ident q0 j, subjects l !! ident = Some q0 -> j ∈ q0 -> j <> i -> exists q, m !! ident = Some q /\ j ∈ q) ->
      (size m <= size (subjects l))%nat ->
      limiter_ok T (set_tables (states l) m rest (attempts l ∖ {[i]}) (next_id l) l)) as Hmake.
  { intros m Hm Hback Hsz. constructor; simpl; try done.
    - intros j Hj. apply Hk. by right.
    - intros j [Hj Hji]%elem_of_difference. rewrite elem_of_singleton in Hji.
      destruct (Ho j Hj) as (Hjg & s' & q & Hs' & Hf' & Hq' & Hjq).
      split; [by apply elem_of_cons in Hjg as [->|?]|].
      destruct (Hback _ _ j Hq' Hjq Hji) as (q1 & ? & ?). by exists s', q1.
    - intros ident q Hmq. destruct (Hm _ _ Hmq) as (q0 & Eq0 & [[Hni ->]|[Hrem Hne]]); [by apply Hkeep|].
      destruct (Hq _ _ Eq0) as (_ & H2 & H3 & H4).
      destruct (deque_remove_rest _ _ _ H2 Hrem) as (R1 & R2 & R3 & _). split_and!; try done; [lia|].
      intros j Hj. apply R2 in Hj as [Hj Hji]. destruct (H4 j Hj) as [[->|?]%elem_of_cons ?]; [done|done].
    - simpl in Hg. lia.
    - lia. }
  intros l1. split; [intros Hnone|intros q Eq; split].
  - apply Hmake; [|naive_solver|done]. intros ident q Eq. exists q. split; [done|]. left. split; [|done].
    destruct (decide (ident = identifier s)) as [->|?]; [congruence|by eapply Hother].
  - intros Hni%deque_remove_None. apply Hmake; [|naive_solver|done]. intros ident q' Eq'. exists q'. split; [done|]. left.
    split; [|done]. destruct (decide (ident = identifier s)) as [->|?]; [congruence|by eapply Hother].
  - intros q' Hrem. destruct (Hq _ _ Eq) as (_ & H2 & _ & _).
    destruct (deque_remove_rest _ _ _ H2 Hrem) as (_ & R2 & _). apply Hmake.
    + intros ident r [(-> & -> & ?)|[? Er]]%put_queue_lookup; [exists q; naive_solver|].
      exists r. split; [done|]. left. split; [|done]. by eapply Hother.
    + intros ident q0 j Eq0 Hj Hji. unfold put_queue. destruct (decide (ident = identifier s)) as [->|?].
      * assert (q0 = q) by congruence. subst q0. assert (j ∈ q') as Hj' by (by apply R2).
        destruct q' as [|x q']; [by apply elem_of_nil in Hj'|]. exists (x :: q'). by rewrite lookup_insert_eq.
      * exists q0. split; [|done]. destruct q'; [by rewrite lookup_delete_ne|by rewrite lookup_insert_ne].
    + apply put_queue_size. by eexists.
Qed.

Lemma evict_from_ok T cutoff queue : forall l,
  limiter_ok T l -> global l = queue -> cutoff <= T - window l ->
  forall l' r, evict_from cutoff queue l = (l', r) ->
  limiter_ok T l' /\ same_limits l l' /\ next_id l' = next_id l /\ states l' = states l /\
  (forall i, i ∈ attempts l' -> i ∈ attempts l) /\
  (r = Ok tt -> forall i s, head (global l') = Some i -> states l !! i = Some s -> cutoff < attempted_at s).
Proof.
  induction queue as [|i rest IH]; intros l K E Hc l' r H; cbn [evict_from] in H.
  { simplify_eq. split_and!; try done. by rewrite E. }
  destruct (lo_known _ _ K i) as [s Hs]; [rewrite E; by left|]. rewrite Hs in H.
  destruct (attempted_at s <=? cutoff) eqn:Ea; bools.
  2: { simplify_eq. split_and!; try done. intros _ j s' Hj Hs'. rewrite E in Hj. simplify_eq/=. done. }
  destruct (pop_ok T l i rest s K E Hs) as [Hnone Hsome]; [lia|]. cbn [set_tables subjects identifier] in H.
  destruct (subjects l !! identifier s) as [q|] eqn:Eq.
  2: { apply IH in H as (H1 & H2 & H3 & H4 & H5 & H6); [|by apply Hnone|done|done].
       split_and!; try done. intros j Hj. apply H5 in Hj. simpl in Hj. set_solver. }
  destruct (Hsome q eq_refl) as [Hn Hq]. destruct (deque_remove i q) as [q'|] eqn:Er.
  2: { simplify_eq. split_and!; try done; [by apply Hn|]. simpl. set_solver. }
  apply IH in H as (H1 & H2 & H3 & H4 & H5 & H6); [|by apply Hq|done|done].
  split_and!; try done. intros j Hj. apply H5 in Hj. simpl in Hj. set_solver.
Qed.

Lemma evict_ok T now l l' r :
  limiter_ok T l -> now <= T -> _evict now l = (l', r) ->
  limiter_ok T l' /\ same_limits l l' /\ next_id l' = next_id l /\ states l' = states l /\
  (forall i, i ∈ attempts l' -> i ∈ attempts l) /\
  (r = Ok tt -> forall i s, head (global l') = Some i -> states l !! i = Some s -> now - window l < attempted_at s).
Proof. intros K Hn H. by eapply evict_from_ok in H; [|done|done|lia]. Qed.

Lemma admit_ok T ident now l :
  limiter_ok T l -> now <= T -> refused ident l = false -> (1 <= maximum_subject_failures l)%nat ->
  limiter_ok T (add_attempt_state ident now l).
Proof.
  intros [Hn Hk Hf Ho Hq Hr Hg Ht] Hnow Href Hone. unfold refused in Href. apply orb_false_iff in Href as [Hg' Hs'].
  apply Nat.leb_gt in Hg'. unfold add_attempt_state. set (i := next_id l).
  assert (states l !! i = None) as Hnew.
  { destruct (states l !! i) eqn:E; [|done]. assert (i < next_id l)%nat by (apply Hf; by eexists). unfold i in *. lia. }
  assert (i ∉ global l) as Hig by (intros [x Hx]%Hk; congruence).
  set (q0 := default [] (subjects l !! ident)).
  assert (i ∉ q0 /\ NoDup q0 /\ (length q0 < maximum_subject_failures l)%nat /\
    forall j, j ∈ q0 -> j ∈ global l /\ exists s, states l !! j = Some s /\ identifier s = ident) as (Q1 & Q2 & Q3 & Q4).
  { unfold q0. destruct (subjects l !! ident) as [q|] eqn:E; simpl.
    - apply Nat.leb_gt in Hs'. destruct (Hq _ _ E) as (_ & ? & ? & H4). split_and!; try done. intros Hin. by apply Hig, H4.
    - split_and!; [apply not_elem_of_nil|constructor|done|]. by intros j ?%elem_of_nil. }
  constructor; cbn [set_tables states subjects global attempts next_id window maximum_subject_failures maximum_global_failures maximum_tracked_subjects].
  - apply NoDup_app. split_and!; [done| |apply NoDup_singleton]. intros x Hx ->%list_elem_of_singleton. done.
  - intros j [Hj| ->%list_elem_of_singleton]%elem_of_app; [|by rewrite lookup_insert_eq].
    destruct (decide (j = i)) as [->|]; [by rewrite lookup_insert_eq|]. rewrite lookup_insert_ne by done. by apply Hk.
  - intros j Hj. destruct (decide (j = i)) as [->|]; [lia|]. rewrite lookup_insert_ne in Hj by done. apply Hf in Hj. lia.
  - intros j [Hj|Hj]%elem_of_union.
    + destruct (Ho j Hj) as (Hjg & s & q & Hs & Hfa & Hqs & Hjq). split; [apply elem_of_app; by left|].
      assert (j <> i) by (intros ->; done). exists s. rewrite lookup_insert_ne by done.
      destruct (decide (identifier s = ident)) as [<-|].
      * exists (q0 ++ [i])%list. rewrite lookup_insert_eq. split_and!; try done. apply elem_of_app. left. unfold q0. by rewrite Hqs.
      * exists q. by rewrite lookup_insert_ne.
    + apply elem_of_singleton in Hj as ->. split; [apply elem_of_app; right; by left|].
      eexists _, (q0 ++ [i])%list. rewrite lookup_insert_eq. split_and!; [done|done|by rewrite lookup_insert_eq|].
      apply elem_of_app. right. by left.
  - intros ident' q [[<- <-]|[Hne Eq]]%lookup_insert_Some.
    + split_and!; [by destruct q0| | |].
      * apply NoDup_app. split_and!; [done| |apply NoDup_singleton]. intros x Hx ->%list_elem_of_singleton. done.
      * rewrite length_app. simpl. lia.
      * intros j [Hj| ->%list_elem_of_singleton]%elem_of_app.
        -- destruct (Q4 j Hj) as (? & s & ? & ?). split; [apply elem_of_app; by left|]. exists s.
           rewrite lookup_insert_ne; [done|]. by intros <-.
        -- split; [apply elem_of_app; right; by left|]. eexists. by rewrite lookup_insert_eq.
    + destruct (Hq _ _ Eq) as (H1 & H2 & H3 & H4). split_and!; try done. intros j Hj.
      destruct (H4 j Hj) as (Hjg & s & ? & ?). split; [apply elem_of_app; by left|]. exists s.
      rewrite lookup_insert_ne; [done|]. by intros <-.
  - intros j s [[<- <-]|[Hne Hj]]%lookup_insert_Some Hfa Hat; [done|]. apply elem_of_app. left. by eapply Hr.
  - rewrite length_app. simpl. lia.
  - rewrite map_size_insert. destruct (subjects l !! ident) as [q|] eqn:E; [done|]. apply Nat.leb_gt in Hs'. lia.
Qed.

Lemma mark_failed_ok T i l : limiter_ok T l -> i ∈ attempts l -> limiter_ok T (mark_failed i l).
Proof.
  intros [Hn Hk Hf Ho Hq Hr Hg Ht] Hi. destruct (Ho i Hi) as (Hig & s0 & q0 & Hs0 & Hf0 & Hq0 & Hiq0).
  unfold mark_failed. set (mark := fun s => _).
  assert (forall j, is_Some (alter mark i (states l) !! j) <-> is_Some (states l !! j)) as Hdom.
  { intros j. by rewrite lookup_alter_is_Some. }
  assert (forall j s, states l !! j = Some s -> exists s', alter mark i (states l) !! j = Some s' /\ identifier s' = identifier s
     /\ attempted_at s' = attempted_at s /\ (j <> i -> s' = s)) as Hget.
  { intros j s Hj. destruct (decide (j = i)) as [->|Hne].
    - exists (mark s). by rewrite lookup_alter_eq, Hj.
    - exists s. by rewrite lookup_alter_ne. }
  constructor; cbn [set_tables states subjects global attempts next_id window maximum_subject_failures maximum_global_failures maximum_tracked_subjects]; try done.
  - intros j Hj. apply Hdom, Hk, Hj.
  - intros j Hj. apply Hf, Hdom, Hj.
  - intros j [Hj Hne]%elem_of_difference. rewrite elem_of_singleton in Hne.
    destruct (Ho j Hj) as (Hjg & s & q & Hs & Hfa & Hqs & Hjq). split; [done|].
    destruct (Hget _ _ Hs) as (s' & Hs' & E1 & E2 & E3). rewrite (E3 Hne) in *. by exists s, q.
  - intros ident q Eq. destruct (Hq _ _ Eq) as (H1 & H2 & H3 & H4). split_and!; try done. intros j Hj.
    destruct (H4 j Hj) as (Hjg & s & Hs & <-). destruct (Hget _ _ Hs) as (s' & Hs' & E1 & _). split; [done|]. by exists s'.
  - intros j s Hs Hfa Hat. destruct (decide (j = i)) as [->|Hne]; [done|].
    rewrite lookup_alter_ne in Hs by done. by eapply Hr.
Qed.

Lemma retained_spec l i q j : j ∈ retained l i q <-> j ∈ q /\ j <> i /\ has_failed l j = false.
Proof.
  unfold retained. rewrite !list_elem_of_In, List.filter_In, <- !list_elem_of_In. split.
  - intros [Hj Hb]. apply andb_true_iff in Hb as [Hb1 Hb2]. apply negb_true_iff in Hb1, Hb2.
    apply bool_decide_eq_false in Hb1. done.
  - intros (Hj & Hne & Hfa). split; [done|]. rewrite Hfa. by rewrite bool_decide_eq_false_2.
Qed.

Lemma retained_nodup l i q : NoDup q -> NoDup (retained l i q).
Proof. unfold retained. rewrite !NoDup_ListNoDup. apply List.NoDup_filter. Qed.

Lemma retained_length l i q : (length (retained l i q) <= length q)%nat.
Proof. unfold retained. apply List.filter_length_le. Qed.

(** What a success leaves. *)
Definition after_success (i : nat) (state : AttemptState) (global' : list nat) (l : LoginRateLimiter)
  : LoginRateLimiter :=
  set_tables (states l)
    (match subjects l !! identifier state with
     | Some q => put_queue (identifier state) (retained l i q) (subjects l)
     | None => subjects l
     end) global' (attempts l ∖ {[i]}) (next_id l) l.

Lemma after_success_ok T i s global' l :
  limiter_ok T l -> i ∈ attempts l -> states l !! i = Some s -> deque_remove i (global l) = Some global' ->
  limiter_ok T (after_success i s global' l).
Proof.
  intros [Hn Hk Hf Ho Hq Hr Hg Ht] Hi Hs Hrem.
  destruct (Ho i Hi) as (Hig & s0 & q & Hs0 & Hf0 & Hq0 & Hiq). assert (s0 = s) as -> by congruence.
  destruct (deque_remove_rest _ _ _ Hn Hrem) as (R1 & R2 & R3 & _). destruct (Hq _ _ Hq0) as (Q1 & Q2 & Q3 & Q4).
  unfold after_success. rewrite Hq0.
  constructor; cbn [set_tables states subjects global attempts next_id window maximum_subject_failures maximum_global_failures maximum_tracked_subjects]; try done.
  - intros j [Hj _]%R2. by apply Hk.
  - intros j [Hj Hne]%elem_of_difference. rewrite elem_of_singleton in Hne.
    destruct (Ho j Hj) as (Hjg & s' & q' & Hs' & Hfa & Hqs & Hjq). split; [by apply R2|]. exists s'.
    destruct (decide (identifier s' = identifier s)) as [E|E].
    + rewrite E in Hqs. assert (q' = q) as -> by congruence.
      assert (j ∈ retained l i q) as Hin by (apply retained_spec; unfold has_failed; by rewrite Hs').
      exists (retained l i q). rewrite E. unfold put_queue. destruct (retained l i q) as [|x r]; [by apply elem_of_nil in Hin|].
      by rewrite lookup_insert_eq.
    + exists q'. split_and!; try done. unfold put_queue. destruct (retained l i q); [by rewrite lookup_delete_ne|by rewrite lookup_insert_ne].
  - intros ident r [(-> & -> & Hne)|[Hne Er]]%put_queue_lookup.
    + split_and!; [done|by apply retained_nodup|pose proof (retained_length l i q); lia|].
      intros j (Hj & Hji & _)%retained_spec. destruct (Q4 j Hj). split; [by apply R2|done].
    + destruct (Hq _ _ Er) as (H1 & H2 & H3 & H4). split_and!; try done. intros j Hj.
      destruct (H4 j Hj) as (Hjg & s' & Hs' & E). split; [apply R2; split; [done|]|by exists s'].
      intros ->. congruence.
  - intros j s' Hj Hfa Hat. apply R2. split; [by eapply Hr|]. intros ->. congruence.
  - lia.
  - etrans; [apply put_queue_size; by eexists|done].
Qed.

(** ** Histories *)
Inductive call :=
| Reserve (subject : string) (now : instant)
| Fail_ (attempt : LoginAttempt) (now : instant)
| Succeed_ (attempt : LoginAttempt) (now : instant).

Definition call_time (c : call) : instant :=
  match c with Reserve _ t | Fail_ _ t | Succeed_ _ t => t end.

Definition run_call (c : call) (l : LoginRateLimiter) : LoginRateLimiter * result (option LoginAttempt) :=
  match c with
  | Reserve subject now => reserve subject now l
  | Fail_ attempt now => let '(l, r) := fail attempt now l in (l, _ ← r; Ok None)
  | Succeed_ attempt now => let '(l, r) := succeed attempt now l in (l, _ ← r; Ok None)
  end.

Definition run_calls (cs : list call) (l : LoginRateLimiter) : LoginRateLimiter :=
  fold_left (fun l c => fst (run_call c l)) cs l.

(** The latest reading of the clock in a history. *)
Definition latest (cs : list call) : instant := fold_left Z.max (call_time <$> cs) 0.

Lemma fold_max_ge (ts : list Z) : forall t, t <= fold_left Z.max ts t /\ forall x, x ∈ ts -> x <= fold_left Z.max ts t.
Proof.
  induction ts as [|y ts IH]; intros t; simpl; [split; [lia|by intros x ?%elem_of_nil]|].
  destruct (IH (Z.max t y)) as [H1 H2]. split; [lia|]. intros x [->|Hx]%elem_of_cons; [lia|auto].
Qed.

Lemma call_ok T c l l' r :
  limiter_ok T l -> call_time c <= T -> (1 <= maximum_subject_failures l)%nat -> run_call c l = (l', r) ->
  limiter_ok T l' /\ same_limits l l'.
Proof.
  intros K Hc Hone. destruct c as [subject now|att now|att now]; cbn [run_call call_time] in *.
  - unfold reserve. destruct (_evict now l) as [l1 [[]|e]] eqn:E; apply (evict_ok T) in E as (K1 & S1 & _); try done.
    2: by intros [= <- <-].
    destruct (refused _ l1) eqn:Er; intros [= <- <-]; [done|]. split; [|done].
    apply admit_ok; try done. destruct S1 as (_ & _ & -> & _). done.
  - unfold fail. destruct (negb _); [by intros [= <- <-]|].
    destruct (_evict now l) as [l1 [[]|e]] eqn:E; apply (evict_ok T) in E as (K1 & S1 & _); try done.
    2: by intros [= <- <-].
    case_bool_decide; intros [= <- <-]; [|done]. split; [by apply mark_failed_ok|done].
  - unfold succeed. destruct (negb (_ =? _)); [by intros [= <- <-]|].
    destruct (_evict now l) as [l1 [[]|e]] eqn:E; apply (evict_ok T) in E as (K1 & S1 & _); try done.
    2: by intros [= <- <-].
    case_bool_decide as Ho; cbn [negb]; [|by intros [= <- <-]].
    destruct (lo_open _ _ K1 _ Ho) as (Hig & s & q & Hs & Hfa & Hq & Hiq). cbn [set_tables states global subjects identifier attempts next_id].
    rewrite Hs. destruct (deque_remove _ (global l1)) as [g|] eqn:Eg; [|by apply deque_remove_None in Eg].
    rewrite Hq. pose proof (after_success_ok T _ s g l1 K1 Ho Hs Eg) as K2. unfold after_success in K2. rewrite Hq in K2.
    intros [= <- <-]. by split.
Qed.

Lemma calls_ok T cs : forall l,
  limiter_ok T l -> (forall c, c ∈ cs -> call_time c <= T) -> (1 <= maximum_subject_failures l)%nat ->
  limiter_ok T (run_calls cs l) /\ same_limits l (run_calls cs l).
Proof.
  induction cs as [|c cs IH]; intros l K Ht Hone; [done|]. cbn [run_calls fold_left].
  destruct (run_call c l) as [l1 r] eqn:E. pose proof E as E'. apply (call_ok T) in E' as [K1 S1]; [|done|apply Ht; by left|done].
  destruct (IH l1 K1) as [K2 S2].
  - intros c' Hc'. apply Ht. by right.
  - destruct S1 as (_ & _ & -> & _). done.
  - cbn [fst]. split; [done|by etrans].
Qed.

Lemma make_limiter_ok T owner key tracked subject global_ window_ l :
  make_limiter owner key tracked subject global_ window_ = Ok l ->
  limiter_ok T l /\ (1 <= maximum_subject_failures l)%nat /\ (1 <= maximum_global_failures l)%nat /\
  (1 <= maximum_tracked_subjects l)%nat /\ 0 < window l /\ limiter_owner l = owner.
Proof.
  unfold make_limiter. case_bool_decide; [done|]. destruct (_ || _) eqn:G; [done|].
  apply orb_false_iff in G as [G ?%Z.leb_gt]. apply orb_false_iff in G as [G ?%Z.ltb_ge].
  apply orb_false_iff in G as [?%Z.ltb_ge ?%Z.ltb_ge]. intros [= <-].
  split_and!; simpl; try lia. constructor; simpl; try done; try lia.
  - constructor.
  - by intros i ?%elem_of_nil.
  - intros i [x Hx]. by rewrite lookup_empty in Hx.
  - rewrite map_size_empty. lia.
Qed.

(** An attempt that counts: failed or still open, and inside the window. *)
Definition counts_at (T : instant) (l : LoginRateLimiter) (i : nat) : bool :=
  match states l !! i with
  | Some s => (failed s || bool_decide (i ∈ attempts l)) && (T - window l <? attempted_at s)
  | None => false
  end.

(** C21.  However many threads log in, fail and succeed, and even where a call raised, the
    attempts of the last window that did not succeed never outnumber the global limit,
    no queue outgrows the subject limit, and no more subjects are tracked than allowed. *)
Theorem failures_bounded owner key tracked subject global_ window_ l cs :
  make_limiter owner key tracked subject global_ window_ = Ok l ->
  let l' := run_calls cs l in
  Z.of_nat (length (List.filter (counts_at (latest cs) l') (seq 0 (next_id l')))) <= global_ /\
  (forall ident q, subjects l' !! ident = Some q -> Z.of_nat (length q) <= subject) /\
  Z.of_nat (size (subjects l')) <= tracked.
Proof.
  intros H l'. destruct (make_limiter_ok (latest cs) _ _ _ _ _ _ _ H) as (K & H1 & H2 & H3 & _).
  destruct (calls_ok (latest cs) cs l K) as [K' (_ & S2 & S3 & S4 & S5 & _)]; [|done|].
  { intros c Hc. unfold latest. apply fold_max_ge. apply list_elem_of_fmap. by exists c. }
  fold l' in K', S2, S3, S4, S5.
  assert (maximum_tracked_subjects l = Z.to_nat tracked /\ maximum_subject_failures l = Z.to_nat subject /\
          maximum_global_failures l = Z.to_nat global_) as (E1 & E2 & E3).
  { unfold make_limiter in H. repeat case_match; by simplify_eq. }
  pose proof (lo_global _ _ K') as Hg. pose proof (lo_tracked _ _ K') as Htr.
  split_and!.
  - assert (length (List.filter (counts_at (latest cs) l') (seq 0 (next_id l'))) <= length (global l'))%nat; [|lia].
    apply submseteq_length, NoDup_submseteq.
    { rewrite NoDup_ListNoDup. apply List.NoDup_filter. apply NoDup_ListNoDup, NoDup_seq. }
    intros i Hi. apply list_elem_of_In, List.filter_In in Hi as [_ Hi]. unfold counts_at in Hi.
    destruct (states l' !! i) as [s|] eqn:Hs; [|done]. apply andb_true_iff in Hi as [Hi Hw%Z.ltb_lt].
    apply orb_true_iff in Hi as [Hi|Hi]; [by eapply (lo_recent _ _ K')|].
    apply bool_decide_eq_true in Hi. by apply (lo_open _ _ K').
  - intros ident q Eq. destruct (lo_queue _ _ K' _ _ Eq) as (_ & _ & Hl & _). lia.
  - lia.
Qed.

(** ** Histories without a success *)

(** Every attempt of the global queue is in the queue of its subject. *)
Definition synced (l : LoginRateLimiter) : Prop := forall i, i ∈ global l ->
  exists s q, states l !! i = Some s /\ subjects l !! identifier s = Some q /\ i ∈ q.

Definition times (T : instant) (l : LoginRateLimiter) : Prop :=
  forall i s, states l !! i = Some s -> attempted_at s <= T.

Lemma evict_from_synced T cutoff queue : forall l,
  limiter_ok T l -> synced l -> global l = queue -> cutoff <= T - window l ->
  forall l' r, evict_from cutoff queue l = (l', r) -> r = Ok tt /\ synced l'.
Proof.
  induction queue as [|i rest IH]; intros l K Y E Hc l' r H; cbn [evict_from] in H; [by simplify_eq|].
  destruct (Y i) as (s & q & Hs & Hq & Hiq); [rewrite E; by left|]. rewrite Hs in H.
  destruct (attempted_at s <=? cutoff) eqn:Ea; bools; [|by simplify_eq].
  destruct (pop_ok T l i rest s K E Hs) as [_ Hsome]; [lia|]. cbn [set_tables subjects identifier] in H. rewrite Hq in H.
  destruct (Hsome q Hq) as [_ Hpop]. destruct (deque_remove i q) as [q'|] eqn:Er; [|by apply deque_remove_None in Er].
  pose proof (lo_nodup _ _ K) as Hn. rewrite E in Hn. apply NoDup_cons in Hn as [Hi _].
  destruct (lo_queue _ _ K _ _ Hq) as (_ & Hqn & _).
  destruct (deque_remove_rest _ _ _ Hqn Er) as (_ & R2 & _).
  eapply IH in H; [done|by apply Hpop| |done|done].
  intros j Hj. simpl in Hj. assert (j <> i) as Hji by (by intros ->).
  destruct (Y j) as (s' & r' & Hs' & Hr' & Hjr); [rewrite E; by right|].
  exists s'. cbn [set_tables states subjects].
  destruct (decide (identifier s' = identifier s)) as [Ei|Ei].
  - rewrite Ei in *. assert (r' = q) as -> by congruence. assert (j ∈ q') as Hj' by (by apply R2). exists q'. unfold put_queue.
    destruct q' as [|x q']; [by apply elem_of_nil in Hj'|]. by rewrite lookup_insert_eq.
  - exists r'. unfold put_queue. destruct q'; [by rewrite lookup_delete_ne|by rewrite lookup_insert_ne].
Qed.

Lemma evict_synced T now l l' r :
  limiter_ok T l -> synced l -> now <= T -> _evict now l = (l', r) -> r = Ok tt /\ synced l'.
Proof. intros K Y Hn H. eapply evict_from_synced in H; [done..|lia]. Qed.

Definition is_success (c : call) : bool := match c with Succeed_ _ _ => true | _ => false end.

Lemma call_synced T c l l' r :
  limiter_ok T l -> synced l -> call_time c <= T -> run_call c l = (l', r) ->
  r <> Raise not_in_deque /\ (is_success c = false -> synced l').
Proof.
  intros K Y Hc. destruct c as [subject now|att now|att now]; cbn [run_call call_time is_success] in *.
  - unfold reserve. destruct (_evict now l) as [l1 r1] eqn:E. pose proof E as E'.
    eapply evict_synced in E as [-> Y1]; [|done..]. eapply evict_ok in E' as (K1 & _); [|done..].
    destruct (refused _ l1); intros [= <- <-]; [done|]. split; [done|]. intros _ i [Hi| ->%list_elem_of_singleton]%elem_of_app.
    + destruct (Y1 i Hi) as (s & q & Hs & Hq & Hiq). cbn [add_attempt_state set_tables states subjects].
      assert (i <> next_id l1) as Hne.
      { intros ->. assert (next_id l1 < next_id l1)%nat; [|lia]. apply (lo_fresh _ _ K1). by eexists. }
      exists s. rewrite lookup_insert_ne by done. destruct (decide (identifier s = _identifier l subject)) as [Ei|Ei].
      * rewrite Ei in *. eexists. rewrite lookup_insert_eq, Hq. split_and!; [done..|]. apply elem_of_app. by left.
      * exists q. by rewrite lookup_insert_ne.
    + cbn [add_attempt_state set_tables states subjects]. eexists _, _. rewrite lookup_insert_eq. split_and!; [done|by rewrite lookup_insert_eq|].
      apply elem_of_app. right. by left.
  - unfold fail. destruct (negb _); [by intros [= <- <-]|]. destruct (_evict now l) as [l1 r1] eqn:E. pose proof E as E'.
    eapply evict_synced in E as [-> Y1]; [|done..].
    case_bool_decide; intros [= <- <-]; [|done]. split; [done|]. intros _ i Hi.
    destruct (Y1 i Hi) as (s & q & Hs & Hq & Hiq). cbn [mark_failed set_tables states subjects].
    destruct (decide (i = attempt_id att)) as [->|Hne].
    + eexists _, q. rewrite lookup_alter_eq, Hs. by split_and!.
    + exists s, q. by rewrite lookup_alter_ne.
  - unfold succeed. destruct (negb (_ =? _)); [by intros [= <- <-]|]. destruct (_evict now l) as [l1 r1] eqn:E.
    pose proof E as E'. eapply evict_synced in E as [-> Y1]; [|done..]. eapply evict_ok in E' as (K1 & _); [|done..].
    case_bool_decide as Ho; cbn [negb]; [|by intros [= <- <-]].
    destruct (lo_open _ _ K1 _ Ho) as (Hig & s & q & Hs & _). cbn [set_tables states global subjects attempts next_id].
    rewrite Hs. destruct (deque_remove _ (global l1)) as [g|] eqn:Eg; [|by apply deque_remove_None in Eg].
    destruct (subjects l1 !! _); by intros [= <- <-].
Qed.

Lemma call_times T c l l' r :
  limiter_ok T l -> times T l -> call_time c <= T -> run_call c l = (l', r) -> times T l'.
Proof.
  intros K Ht Hc. destruct c as [subject now|att now|att now]; cbn [run_call call_time] in *.
  - unfold reserve. destruct (_evict now l) as [l1 [[]|e]] eqn:E; eapply evict_ok in E as (_ & _ & _ & Es & _); try done.
    2: { intros [= <- <-]. unfold times. by rewrite Es. }
    destruct (refused _ l1); intros [= <- <-]; unfold times; [by rewrite Es|]. cbn [add_attempt_state set_tables states].
    intros i s [[<- <-]|[_ Hi]]%lookup_insert_Some; [done|]. rewrite Es in Hi. by eapply Ht.
  - unfold fail. destruct (negb _); [by intros [= <- <-]|].
    destruct (_evict now l) as [l1 [[]|e]] eqn:E; eapply evict_ok in E as (_ & _ & _ & Es & _); try done.
    2: { intros [= <- <-]. unfold times. by rewrite Es. }
    case_bool_decide; intros [= <- <-]; unfold times; [|by rewrite Es]. cbn [mark_failed set_tables states].
    intros i s Hi. apply lookup_alter_Some in Hi as [(<- & s' & Hi & ->)|[_ Hi]]; rewrite Es in Hi; simpl; by eapply Ht.
  - unfold succeed. destruct (negb (_ =? _)); [by intros [= <- <-]|].
    destruct (_evict now l) as [l1 [[]|e]] eqn:E; eapply evict_ok in E as (_ & _ & _ & Es & _); try done.
    2: { intros [= <- <-]. unfold times. by rewrite Es. }
    unfold times in *. rewrite <- Es in Ht. destruct (negb _); [by intros [= <- <-]|].
    cbn [set_tables states global subjects attempts next_id].
    destruct (states l1 !! _) as [st|]; [destruct (deque_remove _ _); [destruct (subjects l1 !! _)|]|];
      intros [= <- <-]; exact Ht.
Qed.

Lemma calls_synced T cs : forall l,
  limiter_ok T l -> synced l -> times T l -> (forall c, c ∈ cs -> call_time c <= T /\ is_success c = false) ->
  (1 <= maximum_subject_failures l)%nat ->
  limiter_ok T (run_calls cs l) /\ synced (run_calls cs l) /\ times T (run_calls cs l) /\ same_limits l (run_calls cs l).
Proof.
  induction cs as [|c cs IH]; intros l K Y Tm Ht Hone; [done|]. cbn [run_calls fold_left].
  destruct (run_call c l) as [l1 r] eqn:E. destruct (Ht c) as [Hc Hs]; [by left|].
  pose proof (call_ok T _ _ _ _ K Hc Hone E) as [K1 S1]. pose proof (call_times T _ _ _ _ K Tm Hc E) as T1.
  destruct (call_synced T _ _ _ _ K Y Hc E) as [_ Y1]. destruct (IH l1 K1 (Y1 Hs) T1) as (K2 & Y2 & T2 & S2).
  - intros c' Hc'. apply Ht. by right.
  - destruct S1 as (_ & _ & -> & _). done.
  - cbn [fst]. split_and!; try done. by etrans.
Qed.

(** Against a caller who never succeeds the limiter is exact: no call fails by itself, and
    the failed and open attempts of one subject in the last window never outnumber the
    subject limit. *)
Theorem unbroken_lockout owner key tracked subject global_ window_ l cs :
  make_limiter owner key tracked subject global_ window_ = Ok l ->
  Forall (fun c => is_success c = false) cs ->
  let l' := run_calls cs l in
  (forall c, snd (run_call c l') <> Raise not_in_deque) /\
  (forall ident, Z.of_nat (length (List.filter
     (fun i => counts_at (latest cs) l' i && bool_decide (identifier <$> states l' !! i = Some ident))
     (seq 0 (next_id l')))) <= subject).
Proof.
  intros H Hns l'. set (T := latest cs).
  assert (forall T', T <= T' -> limiter_ok T' l' /\ synced l' /\ times T' l' /\ same_limits l l') as Hall.
  { intros T' HT. destruct (make_limiter_ok T' _ _ _ _ _ _ _ H) as (K & H1 & _).
    assert (global l = [] /\ states l = ∅) as [Eg Es] by (unfold make_limiter in H; repeat case_match; by simplify_eq).
    apply calls_synced; try done.
    - intros i Hi. rewrite Eg in Hi. by apply elem_of_nil in Hi.
    - intros i s Hi. rewrite Es in Hi. by rewrite lookup_empty in Hi.
    - intros c Hc. split; [|rewrite Forall_forall in Hns; by apply Hns].
      assert (call_time c <= T); [|lia]. apply fold_max_ge, list_elem_of_fmap. by exists c. }
  split.
  - intros c. destruct (run_call c l') as [l2 r] eqn:E.
    destruct (Hall (Z.max T (call_time c))) as (K & Y & _); [lia|].
    eapply call_synced in E as [Hr _]; [exact Hr|done|done|lia].
  - intros ident. destruct (Hall T) as (K & Y & _ & (_ & _ & S3 & _)); [lia|].
    assert (maximum_subject_failures l = Z.to_nat subject /\ 1 <= subject) as [E2 Hs1].
    { pose proof (make_limiter_ok 0 _ _ _ _ _ _ _ H) as (_ & H1 & _). unfold make_limiter in H.
      repeat case_match; simplify_eq; simpl in *; lia. }
    set (mine := List.filter _ _).
    assert (forall i, i ∈ mine -> exists q, subjects l' !! ident = Some q /\ i ∈ q) as Hmine.
    { intros i Hi. apply list_elem_of_In, List.filter_In in Hi as [_ Hi]. apply andb_true_iff in Hi as [Hi He].
      apply bool_decide_eq_true in He. unfold counts_at in Hi. destruct (states l' !! i) as [s|] eqn:Hs; [|done].
      apply andb_true_iff in Hi as [Hi Hw%Z.ltb_lt]. injection He as <-.
      assert (i ∈ global l') as Hg.
      { apply orb_true_iff in Hi as [Hi|Hi]; [by eapply (lo_recent _ _ K)|]. apply bool_decide_eq_true in Hi. by apply (lo_open _ _ K). }
      destruct (Y i Hg) as (s' & q & Hs' & Hq & Hiq). assert (s' = s) as -> by congruence. by exists q. }
    destruct mine as [|i0 rest] eqn:Em; [simpl; lia|].
    destruct (Hmine i0) as (q & Hq & _); [by left|]. destruct (lo_queue _ _ K _ _ Hq) as (_ & _ & Hl & _).
    assert (length (i0 :: rest) <= length q)%nat; [|lia]. apply submseteq_length, NoDup_submseteq.
    { rewrite <- Em. unfold mine. rewrite NoDup_ListNoDup. apply List.NoDup_filter. apply NoDup_ListNoDup, NoDup_seq. }
    intros i Hi. destruct (Hmine i Hi) as (q' & Hq' & Hiq'). congruence.
Qed.

(** A lockout ends: whoever was refused, and however often, a window after the last call
    any subject is admitted again. *)
Theorem lockout_ends owner key tracked subject global_ window_ l cs who now :
  make_limiter owner key tracked subject global_ window_ = Ok l ->
  Forall (fun c => is_success c = false) cs -> latest cs + window_ <= now ->
  exists l' att, reserve who now (run_calls cs l) = (l', Ok (Some att)).
Proof.
  intros H Hns Hnow. destruct (make_limiter_ok now _ _ _ _ _ _ _ H) as (K & H1 & H2 & H3 & H4 & _).
  assert (global l = [] /\ states l = ∅ /\ window l = window_) as (Eg & Es & Ew)
    by (unfold make_limiter in H; repeat case_match; by simplify_eq).
  set (T := latest cs). assert (forall c, c ∈ cs -> call_time c <= T /\ is_success c = false) as Hcs.
  { intros c Hc. split; [|rewrite Forall_forall in Hns; by apply Hns]. apply fold_max_ge, list_elem_of_fmap. by exists c. }
  destruct (calls_synced T cs l) as (K1 & Y1 & T1 & (_ & S2 & S3 & S4 & S5 & _)); try done.
  { by apply (make_limiter_ok T _ _ _ _ _ _ _ H). }
  { intros i Hi. rewrite Eg in Hi. by apply elem_of_nil in Hi. }
  { intros i s Hi. rewrite Es in Hi. by rewrite lookup_empty in Hi. }
  set (l1 := run_calls cs l) in *. pose proof (limiter_ok_later _ now _ K1) as K2. specialize (K2 ltac:(lia)).
  unfold reserve. destruct (_evict now l1) as [l2 r] eqn:E. pose proof E as E'.
  eapply evict_synced in E as [-> _]; [|done|done|lia].
  eapply evict_ok in E' as (K3 & (_ & R2 & R3 & R4 & _) & _ & Est & _ & Hhead); [|done|lia].
  assert (global l2 = []) as Hg.
  { destruct (global l2) as [|i rest] eqn:Eg2; [done|]. destruct (lo_known _ _ K3 i) as [s Hs]; [rewrite Eg2; by left|].
    exfalso. assert (states l1 !! i = Some s) as Hs1 by congruence.
    pose proof (Hhead eq_refl i s eq_refl Hs1). specialize (T1 i s Hs1). lia. }
  assert (subjects l2 = ∅) as Hsub.
  { apply map_empty. intros ident. destruct (subjects l2 !! ident) as [q|] eqn:Eq; [|done].
    destruct (lo_queue _ _ K3 _ _ Eq) as (Hne & _ & _ & Hin). destruct q as [|j q]; [done|].
    destruct (Hin j) as [Hj _]; [by left|]. rewrite Hg in Hj. by apply elem_of_nil in Hj. }
  assert (refused (_identifier l1 who) l2 = false) as ->; [|by eexists _, _].
  unfold refused. rewrite Hg, Hsub, lookup_empty, map_size_empty. cbn [length]. apply orb_false_iff.
  split; apply Nat.leb_gt; lia.
Qed.

(** ** A success strands the failures before it *)




Definition example_key : list Z := Sha256.encode "0123456789abcdef0123456789abcdef".
Definition default_limiter : result LoginRateLimiter :=
  make_limiter 7 example_key 1024 5 20 _LOGIN_WINDOW_SECONDS.
Definition example_attempt (i : nat) : LoginAttempt := {| attempt_owner := 7; attempt_id := i |}.
(** A mistyped password, a login, and another mistyped password. *)
Definition example_calls : list call := [
  Reserve "admin" 0; Fail_ (example_attempt 0) 0;
  Reserve "admin" (seconds 10); Succeed_ (example_attempt 1) (seconds 10);
  Reserve "admin" (seconds 20); Fail_ (example_attempt 2) (seconds 20)].




Definition guessing : list call := [
  Reserve "admin" 0; Fail_ (example_attempt 0) 0; Reserve "admin" 5; Fail_ (example_attempt 1) 6; Reserve "other" 7].

Lemma failures_bounded_witness :
  exists l, default_limiter = Ok l /\
  let l' := run_calls example_calls l in
  Z.of_nat (length (List.filter (counts_at (latest example_calls) l') (seq 0 (next_id l')))) <= 20 /\
  (forall ident q, subjects l' !! ident = Some q -> Z.of_nat (length q) <= 5) /\
  Z.of_nat (size (subjects l')) <= 1024.
Proof. eexists. split; [reflexivity|]. apply (failures_bounded 7 example_key 1024 5 20 _LOGIN_WINDOW_SECONDS). reflexivity. Defined.

Lemma unbroken_lockout_witness :
  exists l, default_limiter = Ok l /\
  let l' := run_calls guessing l in
  (forall c, snd (run_call c l') <> Raise not_in_deque) /\
  (forall ident, Z.of_nat (length (List.filter
     (fun i => counts_at (latest guessing) l' i && bool_decide (identifier <$> states l' !! i = Some ident))
     (seq 0 (next_id l')))) <= 5).
Proof.
  eexists. split; [reflexivity|]. apply (unbroken_lockout 7 example_key 1024 5 20 _LOGIN_WINDOW_SECONDS);
    [reflexivity|by repeat constructor].
Defined.

Lemma lockout_ends_witness :
  exists l, default_limiter = Ok l /\
  exists l' att, reserve "admin" (seconds 301) (run_calls guessing l) = (l', Ok (Some att)).
Proof.
  eexists. split; [reflexivity|]. apply (lockout_ends 7 example_key 1024 5 20 _LOGIN_WINDOW_SECONDS);
    [reflexivity|by repeat constructor|vm_compute; discriminate].
Defined.
