(* ===== verification/BrowserAuth.v ===== *)
(** * Browser sessions

    [control/src/vonk_control/browser_auth.py] (the rate limiter is [LoginLimiter]),
    [passwords.py] and the actor of [auth.py].  The database is the two tables; a
    transaction that raises leaves them as they were.  The password hasher is the external
    argon2 package: [hasher_verify] is whether a verifier accepts a password (a malformed
    verifier accepts none), [hasher_hash] makes a verifier.  The tokens of the random
    source and the ids of new rows are arguments. *)
From S2P Require Import Prelude Sha256 LoginLimiter.

(** ** Actors ([auth.py]) *)
Definition ADMIN_ROLE : string := "administrator".
Definition _ROLES : list string := ["viewer"; "operator"; "administrator"].
Definition _ADMIN_SUBJECT : string := "admin".

Record Actor := { actor_subject : string; actor_role : string }.

(** [Actor(subject, role)] with its validation. *)
Definition make_actor (subject role : string) : result Actor :=
  if bool_decide (strip subject = EmptyString) || negb (mem role _ROLES)
  then Raise (ValueError "invalid authenticated actor")
  else Ok {| actor_subject := subject; actor_role := role |}.

Definition _CAPABILITY_ROLES : list (string * list string) := [
  ("fleet:enroll", ["administrator"]);
  ("fleet:review", ["administrator"]);
  ("fleet:revoke", ["administrator"])].

Definition has_capability (role capability : string) : bool :=
  match find (fun p => bool_decide (fst p = capability)) _CAPABILITY_ROLES with
  | Some (_, roles) => mem role roles
  | None => false
  end.

Definition require_capability (role capability : string) : result unit :=
  if has_capability role capability then Ok tt
  else Raise (ValueError ("missing capability: " +:+ capability)).

(** ** Rows *)
Record User := {
  user_id : string;
  user_subject : string;
  user_role : string;
  disabled_at : option datetime;
  password_verifier : option string;
}.

Record LoginSession := {
  session_id : string;
  session_user : string;
  session_digest : string;
  expires_at : datetime;
  revoked_at : option datetime;
}.

Record AuthDb := { users : list User; sessions : list LoginSession }.
Definition set_sessions (rows : list LoginSession) (db : AuthDb) : AuthDb := {|
  users := users db; sessions := rows |}.

Record BrowserIdentity := {
  identity_actor : Actor;
  identity_expires_at : instant;
  identity_session : string;
}.

Record IssuedBrowserSession := {
  issued_identity : BrowserIdentity;
  issued_token : string;
  issued_csrf : string;
}.

Definition authentication_error : exn := ValueError "authentication failed".
Definition throttled_error : exn := ValueError "authentication temporarily unavailable".

Definition _SESSION_LIFETIME : Z := seconds (12 * 3600).
Definition _EXPIRED_CLEANUP_LIMIT : nat := 100.

(** ** Tokens *)

(** [\[A-Za-z0-9_-\]] *)
Definition token_char (c : Ascii.ascii) : bool :=
  let n := Ascii.nat_of_ascii c in
  ((65 <=? n) && (n <=? 90) || (97 <=? n) && (n <=? 122) || (48 <=? n) && (n <=? 57)
   || (n =? 95) || (n =? 45))%nat.

Fixpoint all_token_chars (s : string) : bool :=
  match s with EmptyString => true | String c r => token_char c && all_token_chars r end.

(** [_OPAQUE_TOKEN.fullmatch(token)] *)
Definition opaque (token : string) : bool :=
  (String.length token =? 43)%nat && all_token_chars token.

Definition _digest (token : string) : string := Sha256.hexdigest token.

Definition _opaque_token (token : string) : result string :=
  if opaque token then Ok token else Raise (RuntimeError "token source returned an invalid token").

Definition _submitted_digest (token : string) : result string :=
  if opaque token then Ok (_digest token) else Raise authentication_error.

Section browser.
Context (hasher_verify : string -> string -> bool) (hasher_hash : string -> string).

(** ** Passwords ([passwords.py]) *)
Definition bounded (password : string) : bool :=
  (1 <=? String.length password)%nat && (String.length password <=? 256)%nat.

Definition hash_password (password : string) : result string :=
  if bounded password then Ok (hasher_hash password) else Raise (ValueError "password is invalid").

(** [verify_password(verifier, password).valid] *)
Definition verify_password (verifier password : string) : bool :=
  bounded password && hasher_verify verifier password.

(** ** Sessions *)
Definition expires_le (a b : LoginSession) : Prop := to_utc (expires_at a) <= to_utc (expires_at b).
#[global] Instance expires_le_dec a b : Decision (expires_le a b).
Proof. unfold expires_le. apply _. Defined.

(** The oldest expired rows, at most a hundred of them. *)
Definition expired_ids (rows : list LoginSession) (now : instant) : list string :=
  session_id <$> take _EXPIRED_CLEANUP_LIMIT
    (merge_sort expires_le (List.filter (fun r => to_utc (expires_at r) <? now) rows)).

Definition _cleanup_expired (now : instant) (db : AuthDb) : AuthDb :=
  let gone := expired_ids (sessions db) now in
  set_sessions (List.filter (fun r => negb (mem (session_id r) gone)) (sessions db)) db.

Definition user_named (subject : string) (db : AuthDb) : option User :=
  find (fun u => bool_decide (user_subject u = subject)) (users db).

Definition authenticated (subject password : string) (user : User) : bool :=
  bool_decide (subject = _ADMIN_SUBJECT) && bool_decide (user_role user = ADMIN_ROLE)
  && bool_decide (disabled_at user = None)
  && match password_verifier user with
     | Some verifier => verify_password verifier password
     | None => false
     end.

(** [db.add(row); db.flush()]: the digest and the id are unique. *)
Definition add_session (row : LoginSession) (db : AuthDb) : result AuthDb :=
  if mem (session_digest row) (session_digest <$> sessions db) then Raise (ConstraintDefect "sessions_digest_key")
  else if mem (session_id row) (session_id <$> sessions db) then Raise (ConstraintDefect "sessions_pkey")
  else Ok (set_sessions (sessions db ++ [row])%list db).

(** What the random sources give one login. *)
Record Drawn := { drawn_token : string; drawn_csrf : string; drawn_id : string }.

(** The transaction of one login: [None] is a refused one. *)
Definition login_transaction (subject password : string) (now : instant) (drawn : Drawn) (db : AuthDb)
  : result (AuthDb * option IssuedBrowserSession) :=
  let db := _cleanup_expired now db in
  match user_named subject db with
  | Some user =>
      if authenticated subject password user then
        token ← _opaque_token (drawn_token drawn);
        csrf ← _opaque_token (drawn_csrf drawn);
        let expires := now + _SESSION_LIFETIME in
        db ← add_session {| session_id := drawn_id drawn; session_user := user_id user;
                            session_digest := _digest token; expires_at := Aware expires;
                            revoked_at := None |} db;
        actor ← make_actor (user_subject user) (user_role user);
        Ok (db, Some {|
          issued_identity := {| identity_actor := actor; identity_expires_at := expires;
                                identity_session := drawn_id drawn |};
          issued_token := token; issued_csrf := csrf |})
      else Ok (db, None)
  | None => Ok (db, None)
  end.

(** [login]: the two readings of the limiter's clock are before and after the transaction. *)
Definition login (subject password : string) (before after : instant) (now : instant) (drawn : Drawn)
    (l : LoginRateLimiter) (db : AuthDb) : LoginRateLimiter * AuthDb * result IssuedBrowserSession :=
  match reserve subject before l with
  | (l, Raise e) => (l, db, Raise e)
  | (l, Ok None) => (l, db, Raise throttled_error)
  | (l, Ok (Some attempt)) =>
      match login_transaction subject password now drawn db with
      | Raise e => let '(l, r) := fail attempt after l in (l, db, _ ← r; Raise e)
      | Ok (db, None) => let '(l, r) := fail attempt after l in (l, db, _ ← r; Raise authentication_error)
      | Ok (db, Some issued) => let '(l, r) := succeed attempt after l in (l, db, _ ← r; Ok issued)
      end
  end.

(** [select(LoginSession, User).join(...).where(digest == ...)] *)
Definition joined (digest : string) (db : AuthDb) : list (LoginSession * User) :=
  flat_map (fun r => (fun u => (r, u)) <$> List.filter (fun u => bool_decide (user_id u = session_user r)) (users db))
    (List.filter (fun r => bool_decide (session_digest r = digest)) (sessions db)).

Definition session_usable (now : instant) (r : LoginSession) (u : User) : bool :=
  bool_decide (revoked_at r = None) && (now <? to_utc (expires_at r))
  && bool_decide (disabled_at u = None) && bool_decide (user_subject u = _ADMIN_SUBJECT)
  && bool_decide (user_role u = ADMIN_ROLE).

Definition _active_session (digest : string) (now : instant) (db : AuthDb) : result (LoginSession * User) :=
  match joined digest db with
  | [] => Raise authentication_error
  | [(r, u)] => if session_usable now r u then Ok (r, u) else Raise authentication_error
  | _ => Raise (RuntimeError "Multiple rows were found when one or none was required")
  end.

Definition resolve (token : string) (now : instant) (db : AuthDb) : result BrowserIdentity :=
  digest ← _submitted_digest token;
  '(r, u) ← _active_session digest now db;
  actor ← make_actor (user_subject u) (user_role u);
  Ok {| identity_actor := actor; identity_expires_at := to_utc (expires_at r); identity_session := session_id r |}.

Definition revoke (now : instant) (r : LoginSession) : LoginSession := {|
  session_id := session_id r; session_user := session_user r; session_digest := session_digest r;
  expires_at := expires_at r; revoked_at := Some (Aware now) |}.

Definition logout (token : string) (now : instant) (db : AuthDb) : result AuthDb :=
  digest ← _submitted_digest token;
  '(r, _) ← _active_session digest now db;
  Ok (set_sessions ((fun s => if bool_decide (session_id s = session_id r) then revoke now s else s) <$> sessions db) db).

(** ** The administrator *)
Definition administrators (db : AuthDb) : list User :=
  List.filter (fun u => bool_decide (user_subject u = _ADMIN_SUBJECT) || bool_decide (user_role u = ADMIN_ROLE)) (users db).

(** [bootstrap_administrator]: whether the administrator was created. *)
Definition bootstrap_administrator (password new_id : string) (db : AuthDb) : result (AuthDb * bool) :=
  match administrators db with
  | [] =>
      verifier ← hash_password password;
      Ok ({| users := (users db ++ [{| user_id := new_id; user_subject := _ADMIN_SUBJECT; user_role := ADMIN_ROLE;
                                       disabled_at := None; password_verifier := Some verifier |}])%list;
             sessions := sessions db |}, true)
  | [user] =>
      if bool_decide (user_subject user = _ADMIN_SUBJECT) && bool_decide (user_role user = ADMIN_ROLE)
         && match password_verifier user with Some v => verify_password v password | None => false end
      then Ok (db, false)
      else Raise authentication_error
  | _ => Raise authentication_error
  end.
End browser.
