(* ===== verification/BrowserAuthFacts.v ===== *)
(** * What a browser session is good for

    A login issues a session exactly to the enabled administrator with the right password;
    the session resolves until it expires or is logged out, whatever other logins, logouts
    and restarts happen, and never again after that. *)
From S2P Require Import Prelude Sha256 LoginLimiter LoginLimiterFacts BrowserAuth.

(** ** Tables *)
Record db_ok (db : AuthDb) : Prop := {
  dk_ids : NoDup (session_id <$> sessions db);
  dk_digests : NoDup (session_digest <$> sessions db);
  dk_users : NoDup (user_id <$> users db);
}.

Lemma filter_fmap_nodup {A B} (f : A -> B) (p : A -> bool) (l : list A) :
  NoDup (f <$> l) -> NoDup (f <$> List.filter p l).
Proof.
  induction l as [|x l IH]; intros H; [done|]. rewrite fmap_cons in H. apply NoDup_cons in H as [H1 H2]. simpl.
  destruct (p x); [|by apply IH]. rewrite fmap_cons. apply NoDup_cons. split; [|by apply IH].
  intros (y & E & Hy)%list_elem_of_fmap. apply list_elem_of_In, List.filter_In in Hy as [Hy _].
  apply H1, list_elem_of_fmap. exists y. split; [done|]. by apply list_elem_of_In.
Qed.

(** A key picks out one row. *)
Lemma filter_key {A B} `{EqDecision B} (f : A -> B) (l : list A) x k :
  NoDup (f <$> l) -> x ∈ l -> f x = k -> List.filter (fun y => bool_decide (f y = k)) l = [x].
Proof.
  intros Hn Hx <-. induction l as [|y l IH]; [by apply elem_of_nil in Hx|].
  rewrite fmap_cons in Hn. apply NoDup_cons in Hn as [H1 H2]. simpl.
  apply elem_of_cons in Hx as [->|Hx].
  - rewrite bool_decide_eq_true_2 by done. f_equal. destruct (List.filter _ l) as [|z r] eqn:E; [done|]. exfalso.
    assert (In z (List.filter (fun y0 => bool_decide (f y0 = f y)) l)) as Hz by (rewrite E; by left).
    apply List.filter_In in Hz as [Hz Hb]. apply bool_decide_eq_true in Hb.
    apply H1, list_elem_of_fmap. exists z. split; [done|]. by apply list_elem_of_In.
  - rewrite bool_decide_eq_false_2; [by apply IH|]. intros E. apply H1, list_elem_of_fmap. by exists x.
Qed.

Lemma cleanup_ok now db : db_ok db -> db_ok (_cleanup_expired now db).
Proof. intros [H1 H2 H3]. constructor; simpl; try done; by apply filter_fmap_nodup. Qed.

Lemma cleanup_sub now db r : r ∈ sessions (_cleanup_expired now db) -> r ∈ sessions db.
Proof. cbn [_cleanup_expired set_sessions sessions]. rewrite !list_elem_of_In, List.filter_In. tauto. Qed.

(** The cleanup removes no row that has not expired. *)
Lemma cleanup_keeps now db r :
  db_ok db -> r ∈ sessions db -> now <= to_utc (expires_at r) -> r ∈ sessions (_cleanup_expired now db).
Proof.
  intros K Hr Hn. cbn [_cleanup_expired set_sessions sessions]. rewrite list_elem_of_In, List.filter_In, <- list_elem_of_In.
  split; [done|]. apply negb_true_iff, mem_false. unfold expired_ids. intros (r' & E & Hr')%list_elem_of_fmap.
  apply elem_of_take in Hr' as (i & Hi & _). apply list_elem_of_lookup_2 in Hi.
  rewrite merge_sort_Permutation, list_elem_of_In, List.filter_In, <- list_elem_of_In in Hi. destruct Hi as [Hr' Hlt%Z.ltb_lt].
  assert (r = r') as -> by (eapply (key_inj session_id); [apply K|done..]). lia.
Qed.

Lemma add_session_ok row db db' :
  db_ok db -> add_session row db = Ok db' ->
  db_ok db' /\ sessions db' = (sessions db ++ [row])%list /\ users db' = users db.
Proof.
  intros [H1 H2 H3]. unfold add_session. destruct (mem _ _) eqn:E1; [done|]. destruct (mem (session_id row) _) eqn:E2; [done|].
  bools. intros [= <-]. split; [|done]. constructor; simpl; [..|done]; rewrite fmap_app; apply NoDup_app;
    (split_and!; [done| |apply NoDup_singleton]); intros x Hx ->%list_elem_of_singleton; done.
Qed.

Section facts.
Context (hasher_verify : string -> string -> bool) (hasher_hash : string -> string).
Notation login := (login hasher_verify).
Notation login_transaction := (login_transaction hasher_verify).

(** What a login leaves of the database. *)
Lemma login_db subject password before after now drawn l db l' db' r :
  login subject password before after now drawn l db = (l', db', r) ->
  (db' = db /\ forall i, r <> Ok i) \/
  exists o, login_transaction subject password now drawn db = Ok (db', o) /\ forall i, r = Ok i -> o = Some i.
Proof.
  unfold BrowserAuth.login. destruct (reserve _ _ _) as [l1 [[att|]|e]]; [|by intros [= <- <- <-]; left..].
  destruct (login_transaction _ _ _ _ _) as [[db1 [i|]]|e] eqn:E.
  - destruct (succeed att after l1) as [l2 [[]|e]]; intros [= <- <- <-]; right; eexists; (split; [done|]); [|done]. by intros j [= <-].
  - destruct (fail att after l1) as [l2 [[]|e]]; intros [= <- <- <-]; right; by eexists.
  - destruct (fail att after l1) as [l2 [[]|e']]; intros [= <- <- <-]; by left.
Qed.

Lemma transaction_shape subject password now drawn db db' o :
  login_transaction subject password now drawn db = Ok (db', o) ->
  (o = None /\ db' = _cleanup_expired now db) \/
  exists u, user_named subject db = Some u /\ authenticated hasher_verify subject password u = true /\
    opaque (drawn_token drawn) = true /\
    add_session {| session_id := drawn_id drawn; session_user := user_id u;
                   session_digest := _digest (drawn_token drawn);
                   expires_at := Aware (now + _SESSION_LIFETIME); revoked_at := None |}
      (_cleanup_expired now db) = Ok db' /\
    o = Some {| issued_identity := {| identity_actor := {| actor_subject := _ADMIN_SUBJECT; actor_role := ADMIN_ROLE |};
                                      identity_expires_at := now + _SESSION_LIFETIME;
                                      identity_session := drawn_id drawn |};
                issued_token := drawn_token drawn; issued_csrf := drawn_csrf drawn |}.
Proof.
  unfold BrowserAuth.login_transaction. change (user_named subject (_cleanup_expired now db)) with (user_named subject db).
  destruct (user_named subject db) as [u|] eqn:Eu; [|intros [= <- <-]; by left].
  destruct (authenticated _ _ _ u) eqn:Ea; [|intros [= <- <-]; by left]. unfold _opaque_token.
  destruct (opaque (drawn_token drawn)) eqn:Et; [|done]. destruct (opaque (drawn_csrf drawn)); [|done]. cbn [mbind result_bind].
  destruct (add_session _ _) as [db1|] eqn:Es; [|done]. cbn [mbind result_bind].
  assert (user_subject u = _ADMIN_SUBJECT /\ user_role u = ADMIN_ROLE) as [-> ->].
  { unfold authenticated in Ea. apply andb_true_iff in Ea as [Ea _]. apply andb_true_iff in Ea as [Ea _].
    apply andb_true_iff in Ea as [Ea1 Ea2]. apply bool_decide_eq_true in Ea1, Ea2. split; [|done].
    unfold user_named in Eu. apply find_some in Eu as [_ Eu]. apply bool_decide_eq_true in Eu. congruence. }
  intros [= <- <-]. right. by exists u.
Qed.

(** A session is issued only to the enabled administrator whose stored verifier accepts the
    password, after the limiter admitted the attempt, and it lasts twelve hours. *)
Theorem login_needs_administrator subject password before after now drawn l db l' db' issued :
  login subject password before after now drawn l db = (l', db', Ok issued) ->
  (exists att, snd (reserve subject before l) = Ok (Some att)) /\
  (exists u v, u ∈ users db /\ user_subject u = _ADMIN_SUBJECT /\ user_role u = ADMIN_ROLE /\
     disabled_at u = None /\ password_verifier u = Some v /\ hasher_verify v password = true) /\
  actor_role (identity_actor (issued_identity issued)) = ADMIN_ROLE /\
  identity_expires_at (issued_identity issued) = now + _SESSION_LIFETIME.
Proof.
  intros H. split.
  { unfold BrowserAuth.login in H. destruct (reserve _ _ _) as [l1 [[att|]|e]]; [by exists att|done..]. }
  apply login_db in H as [[_ H]|(o & H & Ho)]; [by destruct (H issued)|]. specialize (Ho issued eq_refl). subst o.
  apply transaction_shape in H as [[? _]|(u & Eu & Ea & _ & _ & [= ->])]; [done|]. split; [|done].
  unfold user_named in Eu. apply find_some in Eu as [Hu Eu]. apply bool_decide_eq_true in Eu.
  unfold authenticated in Ea. apply andb_true_iff in Ea as [Ea Ev]. apply andb_true_iff in Ea as [Ea Ed].
  apply andb_true_iff in Ea as [Ea1 Ea2]. apply bool_decide_eq_true in Ea1, Ea2, Ed.
  destruct (password_verifier u) as [v|] eqn:Evv; [|done]. apply andb_true_iff in Ev as [_ Ev].
  exists u, v. rewrite list_elem_of_In. split_and!; try done. congruence.
Qed.

(** ** Histories *)
Inductive auth_step :=
| Login_ (subject password : string) (before after now : instant) (drawn : Drawn)
| Logout_ (token : string) (now : instant)
| Bootstrap_ (password new_id : string).

Definition run_auth (s : auth_step) (w : LoginRateLimiter * AuthDb) : LoginRateLimiter * AuthDb :=
  let '(l, db) := w in
  match s with
  | Login_ subject password before after now drawn =>
      fst (login subject password before after now drawn l db)
  | Logout_ token now => (l, match logout token now db with Ok db' => db' | Raise _ => db end)
  | Bootstrap_ password new_id =>
      (l, match bootstrap_administrator hasher_verify hasher_hash password new_id db with
          | Ok (db', _) => db' | Raise _ => db end)
  end.

Definition run_steps (ss : list auth_step) (w : LoginRateLimiter * AuthDb) : LoginRateLimiter * AuthDb :=
  fold_left (fun w s => run_auth s w) ss w.

(** A session of an administrator that is in the tables. *)
Record alive (r : LoginSession) (u : User) (db : AuthDb) : Prop := {
  al_ok : db_ok db;
  al_row : r ∈ sessions db;
  al_user : u ∈ users db;
  al_owner : session_user r = user_id u;
}.

Lemma joined_alive r u db : alive r u db -> joined (session_digest r) db = [(r, u)].
Proof.
  intros [[H1 H2 H3] Hr Hu Ho]. unfold joined.
  rewrite (filter_key session_digest _ r) by done. cbn [flat_map]. rewrite app_nil_r.
  by rewrite (filter_key user_id _ u) by done.
Qed.

Lemma active_shape digest now db r u :
  _active_session digest now db = Ok (r, u) -> joined digest db = [(r, u)] /\ session_usable now r u = true /\
  session_digest r = digest /\ r ∈ sessions db /\ u ∈ users db /\ user_id u = session_user r.
Proof.
  unfold _active_session. destruct (joined digest db) as [|[r' u'] [|]] eqn:E; try done.
  destruct (session_usable now r' u') eqn:Eu; [|done]. intros [= <- <-]. split; [done|]. split; [done|].
  assert (In (r', u') (joined digest db)) as Hin by (rewrite E; by left).
  apply in_flat_map in Hin as (r0 & Hr0 & Hp). apply List.filter_In in Hr0 as [Hr0 Hb]. apply bool_decide_eq_true in Hb.
  apply list_elem_of_In, list_elem_of_fmap in Hp as (u0 & [= <- <-] & Hu0).
  apply list_elem_of_In, List.filter_In in Hu0 as [Hu0 Hid]. apply bool_decide_eq_true in Hid.
  rewrite !list_elem_of_In. done.
Qed.

Definition revoked_rows (id_ : string) (now : instant) (rows : list LoginSession) : list LoginSession :=
  (fun s => if bool_decide (session_id s = id_) then revoke now s else s) <$> rows.

Lemma revoked_keys id_ now rows :
  session_id <$> revoked_rows id_ now rows = session_id <$> rows /\
  session_digest <$> revoked_rows id_ now rows = session_digest <$> rows.
Proof.
  unfold revoked_rows. rewrite <- !list_fmap_compose.
  split; apply list_fmap_ext; intros i s _; unfold compose; by case_bool_decide.
Qed.

Lemma logout_shape token now db db' :
  logout token now db = Ok db' ->
  exists r u, _active_session (_digest token) now db = Ok (r, u) /\ db' = set_sessions (revoked_rows (session_id r) now (sessions db)) db.
Proof.
  unfold logout, _submitted_digest. destruct (opaque token); [|done]. cbn [mbind result_bind].
  destruct (_active_session _ _ _) as [[r u]|]; [|done]. intros [= <-]. by exists r, u.
Qed.

(** Whether a step leaves a session alone: its clock is not past it, and it is not its
    logout. *)
Definition spares (r : LoginSession) (t : instant) (s : auth_step) : Prop :=
  match s with
  | Login_ _ _ _ _ now _ => now <= t
  | Logout_ token _ => _digest token <> session_digest r
  | Bootstrap_ _ _ => True
  end.

Lemma step_alive r u t s l db :
  alive r u db -> user_subject u = _ADMIN_SUBJECT -> t < to_utc (expires_at r) -> spares r t s ->
  alive r u (snd (run_auth s (l, db))).
Proof.
  intros [K Hr Hu Ho] Hadm Ht Hs. destruct s as [subject password before after now drawn|token now|password new_id]; simpl in *.
  - destruct (login _ _ _ _ _ _ _ _) as [[l' db'] res] eqn:E. cbn [fst snd].
    apply login_db in E as [[-> _]|(o & E & _)]; [done|].
    pose proof (cleanup_keeps now db r K Hr ltac:(lia)) as Hr'.
    apply transaction_shape in E as [[_ ->]|(u' & _ & _ & _ & Es & _)].
    + constructor; [by apply cleanup_ok|done..].
    + apply add_session_ok in Es as (K' & E1 & E2); [|by apply cleanup_ok]. constructor; try done.
      * rewrite E1. apply elem_of_app. by left.
      * by rewrite E2.
  - destruct (logout token now db) as [db'|] eqn:E; [|done].
    apply logout_shape in E as (r' & u' & (_ & _ & Hd & Hin' & _)%active_shape & ->).
    destruct (revoked_keys (session_id r') now (sessions db)) as [E1 E2].
    constructor; simpl; try done; [destruct K; constructor; simpl; by rewrite ?E1, ?E2|].
    apply list_elem_of_fmap. exists r. split; [|done]. rewrite bool_decide_eq_false_2; [done|]. intros E.
    assert (r = r') as -> by (eapply (key_inj session_id); [apply K|done..]). congruence.
  - destruct (bootstrap_administrator _ _ _ _ _) as [[db' b]|] eqn:E; [|done].
    unfold bootstrap_administrator in E. destruct (administrators db) as [|a [|]] eqn:Ea.
    + exfalso. assert (In u (administrators db)) as Hin; [|by rewrite Ea in Hin].
      apply List.filter_In. split; [by apply list_elem_of_In|]. by rewrite bool_decide_eq_true_2.
    + destruct (_ && _); by simplify_eq.
    + done.
Qed.

Lemma steps_alive r u t ss : forall w,
  alive r u (snd w) -> user_subject u = _ADMIN_SUBJECT -> t < to_utc (expires_at r) -> Forall (spares r t) ss ->
  alive r u (snd (run_steps ss w)).
Proof.
  induction ss as [|s ss IH]; intros [l db] Ha Hadm Ht Hs; [done|]. inversion Hs; subst. cbn [run_steps fold_left].
  apply IH; [|done..]. by apply step_alive with t.
Qed.

(** C22.  A session resolves to the identity it was issued with at every moment before its
    expiry, after any other logins, logouts of other sessions and restarts. *)
Theorem session_resolves subject password before after now drawn l db l' db' issued ss t :
  db_ok db -> login subject password before after now drawn l db = (l', db', Ok issued) ->
  Forall (spares {| session_id := drawn_id drawn; session_user := EmptyString;
                    session_digest := _digest (issued_token issued);
                    expires_at := Aware (now + _SESSION_LIFETIME); revoked_at := None |} t) ss ->
  t < now + _SESSION_LIFETIME ->
  resolve (issued_token issued) t (snd (run_steps ss (l', db'))) = Ok (issued_identity issued).
Proof.
  intros K H Hs Ht. apply login_db in H as [[_ H]|(o & H & Ho)]; [by destruct (H issued)|].
  specialize (Ho issued eq_refl). subst o.
  apply transaction_shape in H as [[? _]|(u & Eu & Ea & Hop & Hadd & [= ->])]; [done|]. cbn [issued_token issued_identity] in *.
  apply add_session_ok in Hadd as (K' & Es & Eus); [|by apply cleanup_ok]. set (r := Build_LoginSession _ _ _ _ _) in Es.
  unfold authenticated in Ea. apply andb_true_iff in Ea as [Ea _]. apply andb_true_iff in Ea as [Ea Ed].
  apply andb_true_iff in Ea as [Ea1 Ea2]. apply bool_decide_eq_true in Ea1, Ea2, Ed.
  unfold user_named in Eu. apply find_some in Eu as [Hu Eu]. apply bool_decide_eq_true in Eu.
  assert (alive r u (snd (run_steps ss (l', db')))) as Ha.
  { apply steps_alive with t; [|congruence|done|done]. constructor; [done| | |done].
    - simpl. rewrite Es. apply elem_of_app. right. by left.
    - simpl. rewrite Eus. by apply list_elem_of_In. }
  unfold resolve, _submitted_digest. rewrite Hop. cbn [mbind result_bind]. unfold _active_session.
  change (_digest (drawn_token drawn)) with (session_digest r). rewrite (joined_alive r u) by done.
  assert (session_usable t r u = true) as ->.
  { unfold session_usable. subst r. simpl. rewrite Ed, Ea2, Eu, Ea1. rewrite (proj2 (Z.ltb_lt _ _) Ht). done. }
  cbn [mbind result_bind]. rewrite Ea2, Eu, Ea1. done.
Qed.

(** ** Ended sessions *)
Definition ended (digest : string) (db : AuthDb) : Prop :=
  forall r, r ∈ sessions db -> session_digest r = digest -> revoked_at r <> None.

(** A later login draws another token. *)
Definition draws_other (digest : string) (s : auth_step) : Prop :=
  match s with Login_ _ _ _ _ _ drawn => _digest (drawn_token drawn) <> digest | _ => True end.

Lemma step_ended digest s l db : ended digest db -> draws_other digest s -> ended digest (snd (run_auth s (l, db))).
Proof.
  intros He Hd. destruct s as [subject password before after now drawn|token now|password new_id]; simpl in *.
  - destruct (login _ _ _ _ _ _ _ _) as [[l' db'] res] eqn:E. cbn [fst snd].
    apply login_db in E as [[-> _]|(o & E & _)]; [done|].
    apply transaction_shape in E as [[_ ->]|(u' & _ & _ & _ & Es & _)].
    + intros r Hr. by apply He, cleanup_sub with now.
    + unfold add_session in Es. destruct (mem _ _); [done|]. destruct (mem _ _); [done|]. injection Es as <-.
      intros r [Hr|Hr%list_elem_of_singleton]%elem_of_app; [by apply He, cleanup_sub with now|]. by subst r.
  - destruct (logout token now db) as [db'|] eqn:E; [|done]. apply logout_shape in E as (r' & u' & _ & ->).
    intros r (s & -> & Hs)%list_elem_of_fmap. case_bool_decide; [done|by apply He].
  - destruct (bootstrap_administrator _ _ _ _ _) as [[db' b]|] eqn:E; [|done]. unfold bootstrap_administrator in E.
    destruct (administrators db) as [|a [|]].
    + destruct (hash_password _ _); [|done]. by injection E as <- <-.
    + destruct (_ && _); by simplify_eq.
    + done.
Qed.

Lemma resolve_shape token now db i :
  resolve token now db = Ok i ->
  exists r u, r ∈ sessions db /\ u ∈ users db /\ user_id u = session_user r /\ session_digest r = _digest token /\
    session_usable now r u = true /\
    i = {| identity_actor := {| actor_subject := _ADMIN_SUBJECT; actor_role := ADMIN_ROLE |};
           identity_expires_at := to_utc (expires_at r); identity_session := session_id r |}.
Proof.
  unfold resolve, _submitted_digest. destruct (opaque token); [|done]. cbn [mbind result_bind].
  destruct (_active_session _ _ _) as [[r u]|] eqn:E; [|done]. apply active_shape in E as (_ & Hu & Hd & Hr & Hin & Hid).
  cbn [mbind result_bind]. pose proof Hu as Hu'. unfold session_usable in Hu'.
  apply andb_true_iff in Hu' as [Hu' E2]. apply andb_true_iff in Hu' as [_ E1]. apply bool_decide_eq_true in E1, E2.
  rewrite E1, E2. intros [= <-]. by exists r, u.
Qed.

(** A session that was logged out never resolves again, at any time and after any history
    in which no login draws its token a second time. *)
Theorem logged_out_for_good token now db db' l ss t i :
  db_ok db -> logout token now db = Ok db' -> Forall (draws_other (_digest token)) ss ->
  resolve token t (snd (run_steps ss (l, db'))) <> Ok i.
Proof.
  intros K H Hss.
  assert (ended (_digest token) db') as He.
  { apply logout_shape in H as (r & u & Ha & ->). pose proof Ha as Ha'. apply active_shape in Ha as (Hj & Hu & Hd & Hr & _ & Hid).
    intros s (s0 & -> & Hs0)%list_elem_of_fmap. case_bool_decide as E; [done|]. intros Hds. exfalso.
    assert (s0 = r) as -> by (eapply (key_inj session_digest); [apply K|done|done|congruence]). done. }
  clear H K. revert l db' He. induction Hss as [|s ss Hs Hss IH]; intros l0 db0 He; cbn [run_steps fold_left].
  - intros (r & u & Hr & _ & _ & Hd & Hu & _)%resolve_shape. apply (He r Hr Hd).
    unfold session_usable in Hu. repeat (apply andb_true_iff in Hu as [Hu _]). by apply bool_decide_eq_true in Hu.
  - destruct (run_auth s (l0, db0)) as [l1 db1] eqn:E. apply IH.
    pose proof (step_ended _ s l0 db0 He Hs) as H1. by rewrite E in H1.
Qed.

(** ** The first start *)
Lemma find_none_app {A} (p : A -> bool) l x : (forall y, In y l -> p y = false) -> p x = true -> find p (l ++ [x]) = Some x.
Proof.
  intros H Hx. induction l as [|y l IH]; simpl; [by rewrite Hx|]. rewrite (H y) by (by left). apply IH. intros z Hz. apply H. by right.
Qed.

(** On a database without administrator the bootstrap creates one, every later start finds
    it unchanged, and a login with its password succeeds whenever the limiter admits it. *)
Theorem bootstrap_then_login password new_id db before after now drawn l l1 att l2 :
  (forall p, hasher_verify (hasher_hash p) p = true) ->
  administrators db = [] -> bounded password = true ->
  opaque (drawn_token drawn) = true -> opaque (drawn_csrf drawn) = true ->
  (forall r, r ∈ sessions db -> session_digest r <> _digest (drawn_token drawn) /\ session_id r <> drawn_id drawn) ->
  reserve _ADMIN_SUBJECT before l = (l1, Ok (Some att)) -> succeed att after l1 = (l2, Ok tt) ->
  exists db1 db2 issued,
    bootstrap_administrator hasher_verify hasher_hash password new_id db = Ok (db1, true) /\
    bootstrap_administrator hasher_verify hasher_hash password new_id db1 = Ok (db1, false) /\
    login _ADMIN_SUBJECT password before after now drawn l db1 = (l2, db2, Ok issued).
Proof.
  intros Hlaw Hnone Hb Ht Hc Hfresh Hres Hsuc.
  set (admin := {| user_id := new_id; user_subject := _ADMIN_SUBJECT; user_role := ADMIN_ROLE; disabled_at := None;
                   password_verifier := Some (hasher_hash password) |}).
  set (db1 := {| users := (users db ++ [admin])%list; sessions := sessions db |}).
  assert (forall u, In u (users db) -> bool_decide (user_subject u = _ADMIN_SUBJECT) = false) as Hu.
  { intros u Hin. apply bool_decide_eq_false. intros E. assert (In u (administrators db)) as Ha; [|by rewrite Hnone in Ha].
    apply List.filter_In. split; [done|]. by rewrite bool_decide_eq_true_2. }
  assert (administrators db1 = [admin]) as Hadm.
  { unfold administrators, db1. simpl. rewrite List.filter_app. unfold administrators in Hnone. by rewrite Hnone. }
  assert (verify_password hasher_verify (hasher_hash password) password = true) as Hv
    by (unfold verify_password; by rewrite Hb, Hlaw).
  exists db1. unfold bootstrap_administrator. rewrite Hnone, Hadm. unfold hash_password. rewrite Hb. cbn [mbind result_bind].
  rewrite bool_decide_eq_true_2, bool_decide_eq_true_2 by done. cbn [andb password_verifier admin]. rewrite Hv.
  unfold BrowserAuth.login. rewrite Hres. unfold BrowserAuth.login_transaction.
  assert (user_named _ADMIN_SUBJECT (_cleanup_expired now db1) = Some admin) as ->.
  { apply find_none_app; [done|]. by rewrite bool_decide_eq_true_2. }
  assert (authenticated hasher_verify _ADMIN_SUBJECT password admin = true) as ->.
  { unfold authenticated. cbn [admin user_role disabled_at password_verifier]. by rewrite Hv. }
  unfold _opaque_token. rewrite Ht, Hc. cbn [mbind result_bind]. unfold add_session. cbn [session_digest session_id].
  rewrite (proj2 (mem_false (_digest _) _)), (proj2 (mem_false (drawn_id _) _)).
  - rewrite Hsuc. by eexists _, _.
  - intros (r & E & Hr)%list_elem_of_fmap. apply cleanup_sub in Hr. by destruct (Hfresh r Hr).
  - intros (r & E & Hr)%list_elem_of_fmap. apply cleanup_sub in Hr. by destruct (Hfresh r Hr).
Qed.
End facts.

(** ** A controller that starts, logs in and out *)
Definition example_hash (password : string) : string := "h:" +:+ password.
Definition example_verify (verifier password : string) : bool := bool_decide (verifier = example_hash password).
Definition empty_db : AuthDb := {| users := []; sessions := [] |}.
Definition admin_db : AuthDb := {|
  users := [{| user_id := "u1"; user_subject := "admin"; user_role := "administrator"; disabled_at := None;
               password_verifier := Some "h:secret" |}];
  sessions := [] |}.
Definition drawn_first : Drawn := {|
  drawn_token := "AAAAAAAAAAAAAAAAAAAAAAAAAAAAAAAAAAAAAAAAAAA";
  drawn_csrf := "BBBBBBBBBBBBBBBBBBBBBBBBBBBBBBBBBBBBBBBBBBB"; drawn_id := "s1" |}.
Definition drawn_second : Drawn := {|
  drawn_token := "CCCCCCCCCCCCCCCCCCCCCCCCCCCCCCCCCCCCCCCCCCC";
  drawn_csrf := "DDDDDDDDDDDDDDDDDDDDDDDDDDDDDDDDDDDDDDDDDDD"; drawn_id := "s2" |}.
Definition example_limiter : LoginRateLimiter :=
  match default_limiter with
  | Ok l => l
  | Raise _ => Build_LoginRateLimiter [] 0 0 0 0 0 ∅ ∅ [] ∅ 0
  end.
(** Another login and a restart. *)
Definition example_steps : list auth_step := [
  Login_ "admin" "secret" 1 2 (seconds 60) drawn_second; Bootstrap_ "secret" "u2";
  Logout_ (drawn_token drawn_second) (seconds 90)].

Lemma admin_db_ok : db_ok admin_db.
Proof. by constructor; apply (bool_decide_unpack _). Qed.

Definition first_login := login example_verify "admin" "secret" 0 0 0 drawn_first example_limiter admin_db.

Lemma login_needs_administrator_witness :
  exists l' db' issued, first_login = (l', db', Ok issued) /\
  (exists att, snd (reserve "admin" 0 example_limiter) = Ok (Some att)) /\
  (exists u v, u ∈ users admin_db /\ user_subject u = _ADMIN_SUBJECT /\ user_role u = ADMIN_ROLE /\
     disabled_at u = None /\ password_verifier u = Some v /\ example_verify v "secret" = true) /\
  actor_role (identity_actor (issued_identity issued)) = ADMIN_ROLE /\
  identity_expires_at (issued_identity issued) = 0 + _SESSION_LIFETIME.
Proof.
  eexists _, _, _. split; [vm_compute; reflexivity|].
  eapply (login_needs_administrator example_verify "admin" "secret" 0 0 0 drawn_first example_limiter admin_db).
  vm_compute. reflexivity.
Defined.

Lemma session_resolves_witness :
  exists l' db' issued, first_login = (l', db', Ok issued) /\
  resolve (issued_token issued) (seconds 3600)
    (snd (run_steps example_verify example_hash example_steps (l', db'))) = Ok (issued_identity issued).
Proof.
  eexists _, _, _. split; [vm_compute; reflexivity|].
  eapply (session_resolves example_verify example_hash "admin" "secret" 0 0 0 drawn_first example_limiter admin_db).
  - apply admin_db_ok.
  - vm_compute. reflexivity.
  - repeat constructor; simpl; [unfold seconds; lia|by vm_compute].
  - unfold seconds, _SESSION_LIFETIME, seconds. lia.
Defined.

Definition first_db : AuthDb := snd (fst first_login).
Definition first_identity : BrowserIdentity := {|
  identity_actor := {| actor_subject := "admin"; actor_role := "administrator" |};
  identity_expires_at := _SESSION_LIFETIME; identity_session := "s1" |}.

Lemma logged_out_for_good_witness :
  resolve (drawn_token drawn_first) 4 first_db = Ok first_identity /\
  exists db'', logout (drawn_token drawn_first) 5 first_db = Ok db'' /\
  resolve (drawn_token drawn_first) 6 (snd (run_steps example_verify example_hash example_steps (example_limiter, db''))) <>
    Ok first_identity.
Proof.
  split; [vm_compute; reflexivity|]. eexists. split; [vm_compute; reflexivity|].
  apply (logged_out_for_good example_verify example_hash (drawn_token drawn_first) 5 first_db).
  - by constructor; apply (bool_decide_unpack _); vm_compute.
  - vm_compute. reflexivity.
  - repeat constructor; simpl. by vm_compute.
Defined.

Lemma bootstrap_then_login_witness :
  exists l1 att l2 db1 db2 issued,
    reserve _ADMIN_SUBJECT 0 example_limiter = (l1, Ok (Some att)) /\ succeed att 0 l1 = (l2, Ok tt) /\
    bootstrap_administrator example_verify example_hash "secret" "u1" empty_db = Ok (db1, true) /\
    bootstrap_administrator example_verify example_hash "secret" "u1" db1 = Ok (db1, false) /\
    login example_verify _ADMIN_SUBJECT "secret" 0 0 0 drawn_first example_limiter db1 = (l2, db2, Ok issued).
Proof.
  destruct (reserve _ADMIN_SUBJECT 0 example_limiter) as [l1 [[att|]|e]] eqn:E; [|vm_compute in E; discriminate E..].
  destruct (succeed att 0 l1) as [l2 [[]|e]] eqn:E2.
  - exists l1, att, l2.
    destruct (bootstrap_then_login example_verify example_hash "secret" "u1" empty_db 0 0 0 drawn_first example_limiter l1 att l2)
      as (db1 & db2 & issued & H1 & H2 & H3); try done.
    + intros p. unfold example_verify. by apply bool_decide_eq_true.
    + intros r Hr. by apply elem_of_nil in Hr.
    + exists db1, db2, issued. done.
  - vm_compute in E. injection E as <- <-. vm_compute in E2. discriminate E2.
Defined.
