(* ===== verification/DueWaits.v ===== *)
(** * The backstop over persisted waits

    [control/src/vonk_control/due_waits.py]: one bounded pass over the owners of persisted
    waits, in turn, one due row each.  The tables are read through [WaitTables]: the rows of
    a table with the columns the statement selects, or the error of a failed read; a wait
    document is its text, the [owner_kind] its JSON path yields, and the owner it validates
    to.  An advancement function is an argument: it may change the world in any way and may
    fail with any exception.  The hash of a row's last three columns, compared only with
    itself, is those columns.  Which of the monotonic clock's readings are past the budget
    is an argument by iteration; log calls are left out. *)
From S2P Require Import Prelude Vocabulary Disposition Recovery PersistedWaits.

(** A stored wait document as the pass reads it. *)
Record Evidence := {
  ev_text : string;
  ev_json_kind : option string;
  ev_owner : (string * WaitOwnerKind) + exception;
}.

Record DueRow (K : Type) := {
  d_key : K;
  d_evidence : option Evidence;
  d_due : option instant;
  d_state : option string;
}.
Arguments d_key {K}. Arguments d_evidence {K}. Arguments d_due {K}. Arguments d_state {K}.
Arguments Build_DueRow {K}.

Record WaitSource := { source_table : string; source_kinds : list WaitOwnerKind }.

(** What a read of the database gives. *)
Record WaitTables (K W : Type) := {
  rows_of : W -> string -> list (DueRow K) + exception;
  owner_kind_of : W -> string -> K -> option WaitOwnerKind + exception;
  clock : W -> instant;
}.
Arguments rows_of {K W}. Arguments owner_kind_of {K W}. Arguments clock {K W}.

(** [ValueError] and [StopIteration], as the classifier reads them. *)
Definition plain_error : exception := Exception_ OtherError None None None None.

Definition fingerprint := (option string * option instant * option string)%type.

Section due.
Context {K : Type} `{Countable K} (key_lt : K -> K -> bool) (key_name : K -> string).
Context {W : Type} (db : WaitTables K W) (sources : list WaitSource).
Context (advance : nat -> K -> WaitOwnerKind -> W -> W * option exception).

Record DueWaitBackstop := {
  limit : nat;
  owner_cursor : nat;
  row_cursors : gmap nat K;
  failures : gmap (string * K) fingerprint;
  retry_at : gmap (string * K) instant;
}.

(** ** Construction *)
Definition table_kinds (name : string) : list WaitOwnerKind :=
  flat_map source_kinds (List.filter (fun s => bool_decide (source_table s = name)) sources).

Fixpoint first_index (name : string) (l : list WaitSource) (i : nat) : nat :=
  match l with
  | [] => i
  | s :: r => if bool_decide (source_table s = name) then i else first_index name r (S i)
  end.
Definition first_source (name : string) : nat := first_index name sources 0.

(** A wait kind has one advancement binding. *)
Fixpoint bindings_clash (seen : list (string * WaitOwnerKind)) (l : list WaitSource) : bool :=
  match l with
  | [] => false
  | s :: r =>
      let mine := (fun k => (source_table s, k)) <$> source_kinds s in
      existsb (fun p => mem p seen) mine || bindings_clash (seen ++ mine)%list r
  end.

Definition make_backstop (batch_limit budget : Z) : result DueWaitBackstop :=
  if batch_limit <? 1 then Raise (ValueError "due wait batch must be positive")
  else if bindings_clash [] sources then Raise (ValueError "a wait kind must have one advancement binding")
  else if budget <=? 0 then Raise (ValueError "due wait observation budget must be positive")
  else Ok {| limit := Z.to_nat batch_limit; owner_cursor := 0; row_cursors := ∅; failures := ∅; retry_at := ∅ |}.

(** ** The statement *)
Definition is_due (now : instant) (r : DueRow K) : bool :=
  match d_due r with
  | Some due => due <=? now
  | None => bool_decide (is_Some (d_evidence r))
  end.

(** Whether a row belongs to this source: its kinds, and for the first source of a table
    also documents that name none of the table's kinds. *)
Definition belongs (index : nat) (s : WaitSource) (r : DueRow K) : bool :=
  if forallb (fun k => mem k (source_kinds s)) (table_kinds (source_table s)) then true
  else
    let kind := e ← d_evidence r; ev_json_kind e in
    let named l := match kind with Some k => mem k (value <$> l) | None => false end in
    named (source_kinds s)
    || (Nat.eqb index (first_source (source_table s)) && negb (named (table_kinds (source_table s)))).

(** [order_by(key > cursor first, key).limit(1)] *)
Fixpoint least (l : list (DueRow K)) : option (DueRow K) :=
  match l with
  | [] => None
  | r :: rest =>
      match least rest with
      | Some m => if key_lt (d_key m) (d_key r) then Some m else Some r
      | None => Some r
      end
  end.

Definition candidate (now : instant) (index : nat) (s : WaitSource) (cursor : option K) (rows : list (DueRow K))
  : option (DueRow K) :=
  let due := List.filter (fun r => is_due now r && belongs index s r) rows in
  match cursor with
  | None => least due
  | Some c =>
      match least (List.filter (fun r => key_lt c (d_key r)) due) with
      | Some r => Some r
      | None => least due
      end
  end.

(** ** One turn *)

(** What a pass carries besides the backstop: the rows of the sources it visited, and the
    sources it is done with. *)
Record Pass := {
  visited : list (nat * K);
  exhausted : gset nat;
  advanced : list (nat * K * WaitOwnerKind);
}.

Definition exhaust (index : nat) (p : Pass) : Pass := {|
  visited := visited p; exhausted := exhausted p ∪ {[index]}; advanced := advanced p |}.

Definition set_maps (failures_ : gmap (string * K) fingerprint) (retry_ : gmap (string * K) instant)
    (b : DueWaitBackstop) : DueWaitBackstop := {|
  limit := limit b; owner_cursor := owner_cursor b; row_cursors := row_cursors b;
  failures := failures_; retry_at := retry_ |}.

Definition set_cursor (index : nat) (key : K) (b : DueWaitBackstop) : DueWaitBackstop := {|
  limit := limit b; owner_cursor := owner_cursor b; row_cursors := <[index := key]> (row_cursors b);
  failures := failures b; retry_at := retry_at b |}.

Definition rotate_owner (b : DueWaitBackstop) : DueWaitBackstop := {|
  limit := limit b; owner_cursor := ((owner_cursor b + 1) mod length sources)%nat;
  row_cursors := row_cursors b; failures := failures b; retry_at := retry_at b |}.

Definition waits (e : exception) : bool :=
  mem (disposition (CauseError e)) [Disposition.WAIT; Disposition.OBSERVE].

(** The kind a row is advanced as. *)
Definition row_kind (s : WaitSource) (r : DueRow K) (w : W) : option WaitOwnerKind + exception :=
  match d_evidence r with
  | None =>
      if (1 <? length (table_kinds (source_table s)))%nat
      then owner_kind_of db w (source_table s) (d_key r)
      else match source_kinds s with k :: _ => inl (Some k) | [] => inr plain_error end
  | Some e =>
      match ev_owner e with
      | inr x => inr x
      | inl (owner_id, kind) =>
          if negb (bool_decide (is_Some (d_due r))) then inr plain_error
          else if negb (bool_decide (owner_id = key_name (d_key r))) then inr plain_error
          else if negb (mem kind (source_kinds s)) then inr plain_error
          else inl (Some kind)
      end
  end.

(** The first binding of the table that takes the kind. *)
Fixpoint binding (name : string) (kind : WaitOwnerKind) (l : list WaitSource) (i : nat) : option nat :=
  match l with
  | [] => None
  | s :: r =>
      if bool_decide (source_table s = name) && mem kind (source_kinds s) then Some i
      else binding name kind r (S i)
  end.

(** The handler of a selected row: what it did to the world, the call it made, its error. *)
Definition handle (s : WaitSource) (r : DueRow K) (w : W)
  : W * option (nat * K * WaitOwnerKind) * option exception :=
  match row_kind s r w with
  | inr e => (w, None, Some e)
  | inl None => (w, None, None)
  | inl (Some kind) =>
      match binding (source_table s) kind sources 0 with
      | None => (w, None, Some plain_error)
      | Some i => let '(w, e) := advance i (d_key r) kind w in (w, Some (i, d_key r, kind), e)
      end
  end.

Definition columns (r : DueRow K) : fingerprint := (ev_text <$> d_evidence r, d_due r, d_state r).

(** A failure waits a step, or is remembered by the columns it was seen with. *)
Definition record_outcome (s : WaitSource) (r : DueRow K) (called : bool) (e : option exception) (now : instant)
    (b : DueWaitBackstop) : DueWaitBackstop :=
  let key := (source_table s, d_key r) in
  match e with
  | None => if called then set_maps (delete key (failures b)) (retry_at b) b else b
  | Some e =>
      if waits e then set_maps (failures b) (<[key := now + seconds WAIT_STEP]> (retry_at b)) b
      else if bool_decide (failures b !! key = Some (columns r)) then b
      else set_maps (<[key := columns r]> (failures b)) (retry_at b) b
  end.

(** The turn of source [index]; it is not exhausted. *)
Definition take_turn (now : instant) (index : nat) (s : WaitSource) (b : DueWaitBackstop) (p : Pass) (w : W)
  : DueWaitBackstop * Pass * W :=
  match rows_of db w (source_table s) with
  | inr _ => (b, exhaust index p, w)
  | inl rows =>
      match candidate now index s (row_cursors b !! index) rows with
      | None => (b, exhaust index p, w)
      | Some r =>
          if mem (index, d_key r) (visited p) then (b, exhaust index p, w)
          else
            let p := {| visited := (visited p ++ [(index, d_key r)])%list; exhausted := exhausted p;
                        advanced := advanced p |} in
            let b := set_cursor index (d_key r) b in
            let key := (source_table s, d_key r) in
            if match retry_at b !! key with Some t => now <? t | None => false end then (b, p, w)
            else
              let b := set_maps (failures b) (delete key (retry_at b)) b in
              let '(w, called, e) := handle s r w in
              (record_outcome s r (bool_decide (is_Some called)) e (clock db w) b,
               {| visited := visited p; exhausted := exhausted p;
                  advanced := (advanced p ++ option_list called)%list |}, w)
      end
  end.

(** ** The pass *)

(** [while self._sources and examined < self._limit and self._monotonic() < deadline] *)
Fixpoint pass_loop (fuel : nat) (late : nat -> bool) (iteration : nat) (now : instant)
    (b : DueWaitBackstop) (p : Pass) (w : W) : option (DueWaitBackstop * Pass * W) :=
  if bool_decide (sources = []) || (limit b <=? length (visited p))%nat || late iteration then Some (b, p, w)
  else
    match fuel with
    | O => None
    | S fuel' =>
        let index := owner_cursor b in
        match sources !! index with
        | None => None
        | Some s =>
            let b := rotate_owner b in
            if bool_decide (index ∈ exhausted p) then
              if Nat.eqb (size (exhausted p)) (length sources) then Some (b, p, w)
              else pass_loop fuel' late (S iteration) now b p w
            else
              let '(b, p, w) := take_turn now index s b p w in
              pass_loop fuel' late (S iteration) now b p w
        end
    end.

Definition live_retries (now : instant) (m : gmap (string * K) instant) : gmap (string * K) instant :=
  filter (fun p => now < snd p) m.

(** [tick]: the rows examined are those the pass visited. *)
Definition tick (fuel : nat) (late : nat -> bool) (b : DueWaitBackstop) (w : W)
  : option (DueWaitBackstop * Pass * W) :=
  let now := clock db w in
  pass_loop fuel late 0 now (set_maps (failures b) (live_retries now (retry_at b)) b)
    {| visited := []; exhausted := ∅; advanced := [] |} w.
End due.
Arguments DueWaitBackstop K {_ _}.
Arguments Pass K : clear implicits.
