(* ===== verification/DueWaitsFacts.v ===== *)
(** * The backstop is bounded and fair

    A pass of [DueWaits] ends whatever the handlers do, visits no row twice and no more
    rows than its limit, and hands a row only to the binding of its table and kind.  A row
    that stays due is examined after a bounded number of passes: the order of turns is a
    rotation, and every turn brings the row closer. *)
From S2P Require Import Prelude Vocabulary Disposition Recovery PersistedWaits DueWaits.

Section facts.
Context {K : Type} `{Countable K} (key_lt : K -> K -> bool) (key_name : K -> string).
Context {W : Type} (db : WaitTables K W) (sources : list WaitSource).
Context (advance : nat -> K -> WaitOwnerKind -> W -> W * option exception).
Notation take_turn := (take_turn key_lt key_name db sources advance).
Notation pass_loop := (pass_loop key_lt key_name db sources advance).
Notation tick := (tick key_lt key_name db sources advance).
Notation n := (length sources).

(** ** Bindings *)
Lemma binding_from name kind (l : list WaitSource) : forall k i,
  binding name kind l k = Some i ->
  exists s, (k <= i)%nat /\ l !! (i - k)%nat = Some s /\ source_table s = name /\ kind ∈ source_kinds s.
Proof.
  induction l as [|s l IH]; intros k i Hb; simpl in Hb; [done|].
  destruct (_ && _) eqn:E.
  - simplify_eq. apply andb_true_iff in E as [E1 E2]. bools. exists s. rewrite Nat.sub_diag. done.
  - apply IH in Hb as (s' & Hle & Hl & Hr). exists s'. split; [lia|]. replace (i - k)%nat with (S (i - S k)) by lia. done.
Qed.

Lemma binding_spec name kind i :
  binding name kind sources 0 = Some i ->
  exists s, sources !! i = Some s /\ source_table s = name /\ kind ∈ source_kinds s.
Proof. intros (s & _ & Hs & Hr)%binding_from. rewrite Nat.sub_0_r in Hs. by exists s. Qed.

(** ** One turn *)

(** What the turn of a source does to the pass and the cursors. *)
Lemma turn_cases now index s b p w b' p' w' :
  take_turn now index s b p w = (b', p', w') ->
  limit b' = limit b /\ owner_cursor b' = owner_cursor b /\
  (p' = exhaust index p /\ row_cursors b' = row_cursors b \/
   exists r rows, rows_of db w (source_table s) = inl rows /\
     candidate key_lt sources now index s (row_cursors b !! index) rows = Some r /\
     (index, d_key r) ∉ visited p /\
     visited p' = (visited p ++ [(index, d_key r)])%list /\ exhausted p' = exhausted p /\
     row_cursors b' = <[index := d_key r]> (row_cursors b) /\
     (advanced p' = advanced p \/ exists i kind, advanced p' = (advanced p ++ [(i, d_key r, kind)])%list /\
        binding (source_table s) kind sources 0 = Some i)).
Proof.
  unfold DueWaits.take_turn. destruct (rows_of db w (source_table s)) as [rows|e]; [|intros [= <- <- <-]; by auto].
  destruct (candidate _ _ _ _ _ _ _) as [r|] eqn:Ec; [|intros [= <- <- <-]; by auto].
  destruct (mem _ _) eqn:Em; [intros [= <- <- <-]; by auto|]. bools.
  destruct (match _ with Some t => _ | None => _ end).
  { intros [= <- <- <-]. do 2 (split; [done|]). right. exists r, rows. split_and!; try done. by left. }
  destruct (handle _ _ _ _ _ _ _) as [[w1 called] e] eqn:Eh. intros [= <- <- <-].
  assert (forall b0 called0 e0 t, limit (record_outcome s r called0 e0 t b0) = limit b0 /\
    owner_cursor (record_outcome s r called0 e0 t b0) = owner_cursor b0 /\
    row_cursors (record_outcome s r called0 e0 t b0) = row_cursors b0) as Ho.
  { intros. unfold record_outcome. repeat case_match; done. }
  rewrite (proj1 (Ho _ _ _ _)), (proj1 (proj2 (Ho _ _ _ _))). do 2 (split; [done|]). right. exists r, rows.
  rewrite (proj2 (proj2 (Ho _ _ _ _))). split_and!; try done.
  unfold handle in Eh. destruct (row_kind _ _ _ _ _ _) as [[kind|]|]; simplify_eq/=; try (left; by rewrite app_nil_r).
  destruct (binding _ _ _ _) as [i|] eqn:Eb; simplify_eq/=; [|left; by rewrite app_nil_r].
  destruct (advance i _ _ _) as [w2 e2]. simplify_eq/=. right. by exists i, kind.
Qed.

(** ** A pass ends *)
Definition turn_ok (b : DueWaitBackstop K) (p : Pass K) : Prop :=
  (owner_cursor b < n)%nat /\ (forall i, i ∈ exhausted p -> (i < n)%nat) /\ (length (visited p) <= limit b)%nat.

Definition room (b : DueWaitBackstop K) (p : Pass K) : nat :=
  limit b - length (visited p) + (n - size (exhausted p)).

Lemma indices_size (m : nat) : size (set_seq (C:=gset nat) 0 m) = m.
Proof. apply size_set_seq. Qed.

Lemma exhausted_size (p : Pass K) : (forall i, i ∈ exhausted p -> (i < n)%nat) -> (size (exhausted p) <= n)%nat.
Proof.
  intros Hx. rewrite <- (indices_size n). apply subseteq_size. intros i Hi. apply elem_of_set_seq. specialize (Hx i Hi). lia.
Qed.

(** Some source is left, at a distance from the cursor. *)
Lemma next_source (p : Pass K) c :
  (c < n)%nat -> (forall i, i ∈ exhausted p -> (i < n)%nat) -> (size (exhausted p) < n)%nat ->
  exists g, (g < n)%nat /\ ((c + g) mod n ∉ exhausted p)%nat.
Proof.
  intros Hc Hx Hs.
  destruct (decide (set_seq (C:=gset nat) 0 n ⊆ exhausted p)) as [Hsub|Hsub].
  { apply subseteq_size in Hsub. rewrite indices_size in Hsub. lia. }
  assert (exists i, i ∈ set_seq (C:=gset nat) 0 n ∖ exhausted p) as [i Hi].
  { destruct (set_choose_or_empty (set_seq (C:=gset nat) 0 n ∖ exhausted p)) as [?|Hem]; [done|]. exfalso. apply Hsub. set_solver. }
  apply elem_of_difference in Hi as [Hi%elem_of_set_seq Hni]. exists ((i + n - c) mod n)%nat.
  split; [apply Nat.mod_upper_bound; lia|]. rewrite Nat.Div0.add_mod_idemp_r.
  replace (c + (i + n - c))%nat with (i + 1 * n)%nat by lia. rewrite Nat.Div0.mod_add, Nat.mod_small by lia. done.
Qed.

Lemma turn_progress now index s b p w b' p' w' :
  turn_ok b p -> (index < n)%nat -> index ∉ exhausted p -> (length (visited p) < limit b)%nat ->
  take_turn now index s b p w = (b', p', w') -> turn_ok b' p' /\ (room b' p' < room b p)%nat.
Proof.
  intros (Hc & Hx & Hl) Hi Hni Hlim (El & Eo & Hcase)%turn_cases. unfold turn_ok, room. rewrite El, Eo.
  destruct Hcase as [[-> _]|(r & rows & _ & _ & _ & Ev & Ee & _)].
  - cbn [exhaust visited exhausted].
    assert (forall j, j ∈ exhausted p ∪ {[index]} -> (j < n)%nat) as Hx'.
    { intros j [Hj| ->%elem_of_singleton]%elem_of_union; auto. }
    pose proof (exhausted_size (exhaust index p) Hx') as Hs. cbn [exhaust exhausted] in Hs.
    rewrite size_union in * by set_solver. rewrite size_singleton in *. split_and!; try done. lia.
  - rewrite Ev, Ee, length_app. simpl. split_and!; try done; lia.
Qed.

Lemma rotate_ok b p : turn_ok b p -> turn_ok (rotate_owner sources b) p.
Proof. intros (Hc & Hx & Hl). split_and!; try done. simpl. apply Nat.mod_upper_bound. lia. Qed.

Lemma pass_loop_ends room_ : forall g fuel late it now b p w,
  turn_ok b p -> (room b p <= room_)%nat -> (g < n)%nat ->
  ((owner_cursor b + g) mod n ∉ exhausted p)%nat \/ size (exhausted p) = n ->
  (room_ * n + g < fuel)%nat ->
  is_Some (pass_loop fuel late it now b p w).
Proof.
  induction room_ as [room_ IHr] using lt_wf_ind.
  assert (forall fuel late it now b p w s,
    turn_ok b p -> (room b p <= room_)%nat -> owner_cursor b ∉ exhausted p -> (length (visited p) < limit b)%nat ->
    (room_ * n <= fuel)%nat ->
    is_Some (let '(b, p, w) := take_turn now (owner_cursor b) s (rotate_owner sources b) p w in
             pass_loop fuel late it now b p w)) as Hturn.
  { intros fuel late it now b p w s Hok Hroom Hex Hlim Hf.
    destruct (take_turn _ _ _ _ _ _) as [[b1 p1] w1] eqn:Et.
    apply turn_progress in Et as [Hok1 Hroom1]; [|by apply rotate_ok|exact (proj1 Hok)|done|done].
    change (room (rotate_owner sources b) p) with (room b p) in Hroom1. pose proof Hok1 as (Hc1 & Hx1 & Hl1).
    destruct (decide (size (exhausted p1) = n)) as [Hfull|Hnf].
    - apply (IHr (room b1 p1)) with 0%nat; [lia|done|done|lia|by right|]. nia.
    - pose proof (exhausted_size p1 Hx1). destruct (next_source p1 (owner_cursor b1)) as (g1 & Hg1 & Hn1); [done|done|lia|].
      apply (IHr (room b1 p1)) with g1; [lia|done|done|done|by left|]. nia. }
  induction g as [|g IHg]; intros fuel late it now b p w Hok Hroom Hg Hgap Hf;
    (destruct fuel as [|fuel]; [lia|]); cbn [DueWaits.pass_loop]; (destruct (_ || late it) eqn:G; [by eexists|]);
    apply orb_false_iff in G as [G _]; apply orb_false_iff in G as [_ Hlim%Nat.leb_gt]; pose proof Hok as (Hc & Hx & Hl);
    (destruct (lookup_lt_is_Some_2 sources (owner_cursor b)) as [s Hs]; [done|]); rewrite Hs;
    (case_bool_decide as Hex; [|apply Hturn; [done..|lia]]).
  - destruct Hgap as [Hgap|Hfull]; [rewrite Nat.add_0_r, Nat.mod_small in Hgap by lia; done|].
    rewrite Hfull, Nat.eqb_refl. by eexists.
  - destruct (Nat.eqb_spec (size (exhausted p)) n) as [|Hnf]; [by eexists|].
    apply IHg; [by apply rotate_ok|done|lia| |lia]. left. destruct Hgap as [Hgap|?]; [|done].
    simpl. rewrite Nat.Div0.add_mod_idemp_l. by replace (owner_cursor b + 1 + g)%nat with (owner_cursor b + S g)%nat by lia.
Qed.

(** What holds between the turns of a pass holds at its end. *)
Lemma pass_loop_inv (I : DueWaitBackstop K -> Pass K -> W -> Prop) now :
  (forall b p w, I b p w -> I (rotate_owner sources b) p w) ->
  (forall b p w index s b' p' w', I b p w -> sources !! index = Some s -> index ∉ exhausted p ->
     (length (visited p) < limit b)%nat -> take_turn now index s b p w = (b', p', w') -> I b' p' w') ->
  forall fuel late it b p w b' p' w', I b p w -> pass_loop fuel late it now b p w = Some (b', p', w') -> I b' p' w'.
Proof.
  intros Hrot Hturn. induction fuel as [|fuel IH]; intros late it b p w b' p' w' HI; cbn [DueWaits.pass_loop];
    (destruct (_ || late it) eqn:G; [by intros [= <- <- <-]|]); [done|].
  apply orb_false_iff in G as [G _]. apply orb_false_iff in G as [_ Hlim%Nat.leb_gt].
  destruct (sources !! owner_cursor b) as [s|] eqn:Hs; [|done]. case_bool_decide as Hex.
  - destruct (Nat.eqb _ _); [intros [= <- <- <-]; by apply Hrot|]. apply IH. by apply Hrot.
  - destruct (take_turn _ _ _ _ _ _) as [[b1 p1] w1] eqn:Et. apply IH. by eapply Hturn in Et; [|apply Hrot|..].
Qed.

(** Fuel enough for every pass of a backstop. *)
Definition enough_fuel (b : DueWaitBackstop K) : nat := S ((limit b + n) * n + n).

Lemma pass_terminates late b w :
  (owner_cursor b < n)%nat ->
  exists b' p w', tick (enough_fuel b) late b w = Some (b', p, w') /\ (owner_cursor b' < n)%nat /\ limit b' = limit b.
Proof.
  intros Hc. unfold DueWaits.tick. set (b0 := set_maps _ _ b). set (p0 := {| visited := []; exhausted := ∅; advanced := [] |}).
  assert (turn_ok b0 p0) as Hok.
  { split_and!; [done| |simpl; lia]. intros j Hj. simpl in Hj. by apply elem_of_empty in Hj. }
  destruct (pass_loop_ends (limit b + n) 0 (enough_fuel b) late 0 (clock db w) b0 p0 w) as [[[b' p] w'] E].
  { done. } { unfold room. simpl. lia. } { lia. }
  { left. simpl. apply not_elem_of_empty. } { unfold enough_fuel. lia. }
  exists b', p, w'. split; [done|].
  apply (pass_loop_inv (fun b1 _ _ => (owner_cursor b1 < n)%nat /\ limit b1 = limit b) (clock db w)) in E; [done|..|done].
  - intros b1 p1 w1 [H1 H2]. split; [|done]. simpl. apply Nat.mod_upper_bound. lia.
  - intros b1 p1 w1 index s b2 p2 w2 [H1 H2] _ _ _ (-> & -> & _)%turn_cases. done.
Qed.

(** C20.  A pass always ends, whatever its handlers do to the world and however they fail; it
    examines at most its limit of rows, no row twice, and hands every row it advances to
    a binding of the row's table, with a kind that binding serves. *)
Theorem pass_bounded late b w :
  (owner_cursor b < n)%nat ->
  exists b' p w', tick (enough_fuel b) late b w = Some (b', p, w') /\ (owner_cursor b' < n)%nat /\ limit b' = limit b /\
    (length (visited p) <= limit b)%nat /\ NoDup (visited p) /\
    (forall i key kind, (i, key, kind) ∈ advanced p ->
       exists j s s', (j, key) ∈ visited p /\ sources !! j = Some s /\ sources !! i = Some s' /\
         source_table s' = source_table s /\ kind ∈ source_kinds s').
Proof.
  intros Hc. destruct (pass_terminates late b w Hc) as (b' & p & w' & E & Hc' & Hl'). exists b', p, w'. split; [done|].
  unfold DueWaits.tick in E.
  pose (I := fun (b1 : DueWaitBackstop K) (p1 : Pass K) (_ : W) =>
    turn_ok b1 p1 /\ limit b1 = limit b /\ NoDup (visited p1) /\
    (forall i key kind, (i, key, kind) ∈ advanced p1 ->
       exists j s s', (j, key) ∈ visited p1 /\ sources !! j = Some s /\ sources !! i = Some s' /\
         source_table s' = source_table s /\ kind ∈ source_kinds s')).
  assert (I b' p w') as ((H1 & _ & H2) & H3 & H4 & H5).
  { eapply (pass_loop_inv I); [| | |exact E].
    3: { split_and!; [split_and!; [done| |simpl; lia]|done|constructor|by intros ? ? ? ?%elem_of_nil].
      intros j Hj. simpl in Hj. by apply elem_of_empty in Hj. }
    - intros b1 p1 w1 (H1 & H2 & H3). split; [by apply rotate_ok|done].
    - intros b1 p1 w1 index s b2 p2 w2 (H1 & H2 & H3 & H4) Hs Hni Hlim Et. pose proof Et as Et'.
      apply turn_progress in Et' as [Hok2 _]; [|done|by eapply lookup_lt_Some|done|done].
      apply turn_cases in Et as (El & _ & Hcase). split; [done|]. split; [congruence|].
      destruct Hcase as [[-> _]|(r & rows & _ & _ & Hnv & Ev & _ & _ & Ha)]; [done|]. rewrite Ev. split.
      { apply NoDup_app. split_and!; [done| |apply NoDup_singleton]. intros x Hx ->%list_elem_of_singleton. done. }
      intros i key kind Hin. destruct Ha as [Ha|(i0 & k0 & Ha & Hb)]; rewrite Ha in Hin.
      + destruct (H4 _ _ _ Hin) as (j & sj & si & Hj & Hrest). exists j, sj, si. split; [|done]. apply elem_of_app. by left.
      + apply elem_of_app in Hin as [Hin|Hin].
        * destruct (H4 _ _ _ Hin) as (j & sj & si & Hj & Hrest). exists j, sj, si. split; [|done]. apply elem_of_app. by left.
        * apply list_elem_of_singleton in Hin as [= -> -> ->]. destruct (binding_spec _ _ _ Hb) as (s' & Hs' & Ht & Hk).
          exists index, s, s'. split_and!; try done. apply elem_of_app. right. by left. }
  rewrite <- H3. split_and!; try done.
Qed.

(** ** The order of turns is a rotation *)
Definition key_ltP (a b : K) : Prop := key_lt a b = true.

Section order.
Context (Hirr : forall k, key_lt k k = false) (Htrans : forall a b c, key_ltP a b -> key_ltP b c -> key_ltP a c).
Context (Htotal : forall a b, a = b \/ key_ltP a b \/ key_ltP b a).
Context (ks : list K) (Hsorted : StronglySorted key_ltP ks).

(** The due keys in the order of their next turns. *)
Definition rot (cursor : option K) : list K :=
  match cursor with
  | None => ks
  | Some c => (List.filter (key_lt c) ks ++ List.filter (fun k => negb (key_lt c k)) ks)%list
  end.

Lemma lt_asym a b : key_ltP a b -> key_lt b a = false.
Proof. intros Hab. destruct (key_lt b a) eqn:E; [|done]. pose proof (Htrans _ _ _ Hab E) as Hx. unfold key_ltP in Hx. by rewrite Hirr in Hx. Qed.

Lemma filter_all {A} (f : A -> bool) l : Forall (fun x => f x = true) l -> List.filter f l = l.
Proof. induction 1 as [|x l Hx _ IH]; simpl; [done|]. by rewrite Hx, IH. Qed.
Lemma filter_none {A} (f : A -> bool) l : Forall (fun x => f x = false) l -> List.filter f l = [].
Proof. induction 1 as [|x l Hx _ IH]; simpl; [done|]. by rewrite Hx, IH. Qed.

(** A sorted list splits at a bound. *)
Lemma sorted_split c l :
  StronglySorted key_ltP l -> l = (List.filter (fun k => negb (key_lt c k)) l ++ List.filter (key_lt c) l)%list.
Proof.
  induction l as [|x l IH]; intros Hs; [done|]. apply StronglySorted_cons in Hs as [Hx Hs]. simpl.
  destruct (key_lt c x) eqn:E; simpl; [|by rewrite <- IH].
  rewrite filter_none, filter_all; [done|..]; (eapply Forall_impl; [exact Hx|]); intros y Hy; simpl in Hy;
    rewrite (Htrans c x y E Hy); done.
Qed.

(** After the turn of a key the keys after it come first. *)
Lemma split_at_key pre k post :
  StronglySorted key_ltP (pre ++ k :: post) ->
  List.filter (key_lt k) (pre ++ k :: post) = post /\
  List.filter (fun x => negb (key_lt k x)) (pre ++ k :: post) = (pre ++ [k])%list.
Proof.
  intros Hs. apply StronglySorted_app in Hs as (Hpk & Hpre & Hkp). apply StronglySorted_cons in Hkp as [Hk Hpost].
  assert (Forall (fun x => key_lt k x = false) pre) as Hlow.
  { apply Forall_forall. intros x Hx. apply lt_asym. apply Hpk; [done|by left]. }
  rewrite !List.filter_app. simpl. rewrite Hirr. simpl.
  rewrite (filter_none (key_lt k) pre), (filter_all (key_lt k) post) by done.
  rewrite (filter_all (fun x => negb (key_lt k x)) pre), (filter_none (fun x => negb (key_lt k x)) post); [done|..].
  - eapply Forall_impl; [exact Hk|]. intros x Hx. by rewrite Hx.
  - eapply Forall_impl; [exact Hlow|]. intros x Hx. simpl in Hx. by rewrite Hx.
Qed.

Lemma rot_next cursor k rest : rot cursor = k :: rest -> rot (Some k) = (rest ++ [k])%list.
Proof.
  intros E. assert (exists pre post, ks = (pre ++ k :: post)%list /\ rest = (post ++ pre)%list) as (pre & post & Eks & ->).
  { destruct cursor as [c|]; simpl in E; [|by exists [], rest; rewrite app_nil_r].
    pose proof (sorted_split c ks Hsorted) as Es.
    destruct (List.filter (key_lt c) ks) as [|x A] eqn:EA.
    - simpl in E. rewrite app_nil_r in Es. exists [], rest. rewrite app_nil_r. by rewrite Es, E.
    - simpl in E. injection E as -> <-. by eexists _, A. }
  unfold rot. pose proof Hsorted as Hs. rewrite Eks in Hs |- *. apply split_at_key in Hs as [-> ->]. by rewrite app_assoc.
Qed.

(** The keys passed over come back last. *)
Lemma rot_after A : forall cursor x B,
  rot cursor = (A ++ x :: B)%list -> rot (Some x) = (B ++ A ++ [x])%list.
Proof.
  induction A as [|a A IH]; intros cursor x B E; [by eapply rot_next|].
  apply rot_next in E. rewrite <- app_assoc in E. apply IH in E. by rewrite E, <- app_assoc.
Qed.

Lemma rot_elem cursor k : k ∈ rot cursor <-> k ∈ ks.
Proof.
  destruct cursor as [c|]; simpl; [|done]. rewrite elem_of_app, !list_elem_of_In, !List.filter_In.
  destruct (key_lt c k) eqn:E; simpl; split; intuition congruence.
Qed.

Lemma sorted_nodup l : StronglySorted key_ltP l -> NoDup l.
Proof.
  induction 1 as [|x l _ IH Hx]; constructor; [|done]. intros Hin. rewrite Forall_forall in Hx.
  specialize (Hx x Hin). unfold key_ltP in Hx. by rewrite Hirr in Hx.
Qed.

Lemma rot_nodup cursor : NoDup (rot cursor).
Proof.
  pose proof (sorted_nodup ks Hsorted) as Hn. destruct cursor as [c|]; simpl; [|done].
  rewrite (sorted_split c ks Hsorted) in Hn. by rewrite Permutation_app_comm in Hn.
Qed.

Lemma rot_length cursor : length (rot cursor) = length ks.
Proof.
  destruct cursor as [c|]; simpl; [|done]. rewrite (sorted_split c ks Hsorted) at 3. rewrite !length_app. lia.
Qed.

(** The statement selects the head of the rotation. *)
Lemma least_least (l : list (DueRow K)) m :
  least key_lt l = Some m -> m ∈ l /\ forall x, x ∈ l -> key_lt (d_key x) (d_key m) = false.
Proof.
  revert m. induction l as [|r l IH]; intros m Hm; simpl in Hm; [done|]. destruct (least key_lt l) as [m'|] eqn:E.
  - destruct (IH m' eq_refl) as [Hin Hmin]. destruct (key_lt (d_key m') (d_key r)) eqn:Elt; simplify_eq.
    + split; [by right|]. intros x [->|Hx]%elem_of_cons; [by apply lt_asym|auto].
    + split; [by left|]. intros x [->|Hx]%elem_of_cons; [apply Hirr|]. specialize (Hmin x Hx).
      destruct (key_lt (d_key x) (d_key m)) eqn:E2; [|done].
      destruct (Htotal (d_key m) (d_key m')) as [E3|[E3|E3]].
      * by rewrite <- E3, E2 in Hmin.
      * pose proof (Htrans _ _ _ E2 E3) as Hc. unfold key_ltP in Hc. congruence.
      * unfold key_ltP in E3. congruence.
  - simplify_eq. destruct l as [|y l]; [|simpl in E; repeat case_match; done].
    split; [by left|]. intros x [->|Hx%elem_of_nil]%elem_of_cons; [apply Hirr|done].
Qed.

Lemma least_none (l : list (DueRow K)) : least key_lt l = None -> l = [].
Proof. destruct l as [|r l]; [done|]. simpl. destruct (least key_lt l); [case_match|]; done. Qed.

Lemma least_head (l : list (DueRow K)) l' :
  StronglySorted key_ltP l' -> (forall k, k ∈ d_key <$> l <-> k ∈ l') -> d_key <$> least key_lt l = head l'.
Proof.
  intros Hs Hk. destruct (least key_lt l) as [m|] eqn:E.
  - apply least_least in E as [Hin Hmin]. destruct l' as [|k l'].
    { exfalso. apply (not_elem_of_nil (d_key m)), Hk, list_elem_of_fmap. by exists m. }
    simpl. f_equal. apply StronglySorted_cons in Hs as [Hhead _].
    assert (k ∈ d_key <$> l) as (x & -> & Hx)%list_elem_of_fmap by (apply Hk; by left).
    assert (d_key m ∈ d_key x :: l') as [Em|Hm]%elem_of_cons by (apply Hk, list_elem_of_fmap; by exists m); [done|].
    rewrite Forall_forall in Hhead. specialize (Hhead _ Hm). specialize (Hmin x Hx). unfold key_ltP in Hhead. congruence.
  - apply least_none in E as ->. destruct l' as [|k l']; [done|]. exfalso. apply (not_elem_of_nil k). apply (Hk k). by left.
Qed.

Lemma candidate_rot now index s cursor rows :
  (forall k, k ∈ d_key <$> List.filter (fun r => is_due now r && belongs sources index s r) rows <-> k ∈ ks) ->
  d_key <$> candidate key_lt sources now index s cursor rows = head (rot cursor).
Proof.
  intros Hk. unfold candidate. set (due := List.filter _ rows) in *.
  destruct cursor as [c|]; simpl; [|by apply least_head].
  assert (forall k, k ∈ d_key <$> List.filter (fun r => key_lt c (d_key r)) due <-> k ∈ List.filter (key_lt c) ks) as Hf.
  { intros k. rewrite list_elem_of_fmap. rewrite list_elem_of_In, List.filter_In, <- list_elem_of_In, <- Hk, list_elem_of_fmap.
    split.
    - intros (r & -> & Hr). apply list_elem_of_In, List.filter_In in Hr as [Hr Hlt]. split; [|done]. exists r.
      by rewrite list_elem_of_In.
    - intros [(r & -> & Hr) Hlt]. exists r. split; [done|]. apply list_elem_of_In, List.filter_In. by rewrite <- list_elem_of_In. }
  assert (StronglySorted key_ltP (List.filter (key_lt c) ks)) as Hsf.
  { pose proof Hsorted as Hs. rewrite (sorted_split c ks Hsorted) in Hs. by apply StronglySorted_app_1_r in Hs. }
  pose proof (least_head _ _ Hsf Hf) as Hl.
  destruct (least key_lt (List.filter _ due)) as [r|]; simpl in *.
  - destruct (List.filter (key_lt c) ks); [done|]. by simplify_eq/=.
  - destruct (List.filter (key_lt c) ks) as [|x A] eqn:EA; [|done]. simpl.
    pose proof (sorted_split c ks Hsorted) as Es. rewrite EA, app_nil_r in Es. rewrite <- Es. by apply least_head.
Qed.
End order.

(** ** No row starves *)
Section fair.
Context (Hirr : forall k, key_lt k k = false) (Htrans : forall a b c, key_ltP a b -> key_ltP b c -> key_ltP a c).
Context (Htotal : forall a b, a = b \/ key_ltP a b \/ key_ltP b a).
Context (i : nat) (s : WaitSource) (Hi : sources !! i = Some s).
Context (ks : list K) (Hsorted : StronglySorted key_ltP ks) (r : K) (Hr : r ∈ ks).

Lemma sorted_filter f l : StronglySorted key_ltP l -> StronglySorted key_ltP (List.filter f l).
Proof.
  induction 1 as [|x l Hl IH Hx]; simpl; [constructor|]. destruct (f x); [|done]. constructor; [done|].
  rewrite Forall_forall in *. intros y [Hy _]%list_elem_of_In%List.filter_In. apply Hx. by apply list_elem_of_In.
Qed.

(** The rotation of the keys that are due is what is due of the rotation. *)
Lemma rot_filter f l c : rot (List.filter f l) c = List.filter f (rot l c).
Proof. destruct c as [c|]; simpl; [|done]. by rewrite List.filter_app, !(filter_comm f). Qed.

Lemma head_filter {A} (f : A -> bool) l : forall d x,
  l !! d = Some x -> f x = true -> exists y j, head (List.filter f l) = Some y /\ (j <= d)%nat /\ l !! j = Some y.
Proof.
  induction l as [|a l IH]; intros d x Hd Hx; [done|]. simpl. destruct (f a) eqn:Ea.
  - exists a, 0%nat. split_and!; [done|lia|done].
  - destruct d as [|d]; simpl in Hd; [congruence|]. destruct (IH d x Hd Hx) as (y & j & H1 & H2 & H3).
    exists y, (S j). split_and!; [done|lia|done].
Qed.

Definition due_keys (now : instant) (rows : list (DueRow K)) : list K :=
  d_key <$> List.filter (fun x => is_due now x && belongs sources i s x) rows.

(** The statement selects a due key that is no later in the rotation than the row. *)
Lemma candidate_before now cursor rows d :
  (forall k, k ∈ due_keys now rows -> k ∈ ks) -> r ∈ due_keys now rows -> rot ks cursor !! d = Some r ->
  exists x j, candidate key_lt sources now i s cursor rows = Some x /\ (j <= d)%nat /\
    rot ks cursor !! j = Some (d_key x).
Proof.
  intros Hsub Hdue Hd. set (f := fun k => bool_decide (k ∈ due_keys now rows)).
  pose proof (candidate_rot Hirr Htrans Htotal (List.filter f ks) (sorted_filter f ks Hsorted) now i s cursor rows) as Hc.
  assert (forall k, k ∈ due_keys now rows <-> k ∈ List.filter f ks) as Hiff.
  { intros k. rewrite (list_elem_of_In (List.filter f ks) k), List.filter_In, <- list_elem_of_In. unfold f.
    rewrite bool_decide_eq_true. naive_solver. }
  specialize (Hc Hiff). rewrite rot_filter in Hc.
  destruct (head_filter f (rot ks cursor) d r Hd) as (y & j & Hy & Hj & Hl); [by apply bool_decide_eq_true|].
  rewrite Hy in Hc. destruct (candidate _ _ _ _ _ _ _) as [x|]; [|done]. injection Hc as <-. by exists x, j.
Qed.

(** The worlds the passes go through: whatever the handlers do, in each of them the table of the
    source can be read, the row is due there, and whatever else is due has one of the keys
    [ks].  Other rows may come, go and change as they like. *)
Context (Inv : W -> Prop) (Hadvance : forall j k kind w, Inv w -> Inv (fst (advance j k kind w))).
Definition stays_due : Prop := forall w w0, Inv w -> Inv w0 -> exists rows,
  rows_of db w (source_table s) = inl rows /\ r ∈ due_keys (clock db w0) rows /\
  forall k, k ∈ due_keys (clock db w0) rows -> k ∈ ks.
Context (Hdue : stays_due).

Lemma turn_world now index s' b p w b' p' w' :
  Inv w -> take_turn now index s' b p w = (b', p', w') -> Inv w'.
Proof.
  intros Hw. unfold DueWaits.take_turn.
  destruct (rows_of _ _ _); [|by intros [= _ _ <-]]. destruct (candidate _ _ _ _ _ _ _) as [x|]; [|by intros [= _ _ <-]].
  destruct (mem _ _); [by intros [= _ _ <-]|]. destruct (match _ with Some t => _ | None => _ end); [by intros [= _ _ <-]|].
  assert (Inv (fst (fst (handle key_name db sources advance s' x w)))) as Hh.
  { unfold handle. destruct (row_kind _ _ _ _ _ _) as [[kind|]|]; [|done..]. destruct (binding _ _ _ _) as [j|]; [|done].
    pose proof (Hadvance j (d_key x) kind w Hw) as Ha. by destruct (advance j (d_key x) kind w). }
  destruct (handle _ _ _ _ _ _ _) as [[w1 called] e]. by intros [= _ _ <-].
Qed.

(** The row is [d] turns of its source away, and the keys visited are further away. *)
Record near (b : DueWaitBackstop K) (p : Pass K) (d : nat) : Prop := {
  ne_unseen : (i, r) ∉ visited p;
  ne_open : i ∉ exhausted p;
  ne_place : rot ks (row_cursors b !! i) !! d = Some r;
  ne_after : forall k, (i, k) ∈ visited p -> exists j, (d < j)%nat /\ rot ks (row_cursors b !! i) !! j = Some k;
}.

Definition dist (b : DueWaitBackstop K) : nat := if (owner_cursor b <=? i)%nat then i - owner_cursor b else i + n - owner_cursor b.
Definition turns_away (b : DueWaitBackstop K) (d : nat) : nat := n * d + dist b.

Lemma turn_other now w0 index s' b p w b' p' w' d :
  now = clock db w0 -> near b p d -> index <> i -> take_turn now index s' b p w = (b', p', w') -> near b' p' d.
Proof.
  intros _ [H1 H2 H3 H4] Hne (_ & _ & Hcase)%turn_cases.
  destruct Hcase as [[-> Ec]|(x & rows & _ & _ & _ & Ev & Ee & Ec & _)].
  - constructor; rewrite ?Ec; simpl; try done. set_solver.
  - assert (row_cursors b' !! i = row_cursors b !! i) as E by (rewrite Ec; by rewrite lookup_insert_ne).
    constructor; rewrite ?E, ?Ev, ?Ee; try done.
    + rewrite elem_of_app, list_elem_of_singleton. intros [?|[= ? ?]]; [done|congruence].
    + intros k [Hk|Hk%list_elem_of_singleton]%elem_of_app; [auto|congruence].
Qed.

Lemma turn_mine now w0 b p w b' p' w' d :
  now = clock db w0 -> Inv w -> Inv w0 -> near b p d -> take_turn now i s b p w = (b', p', w') ->
  (i, r) ∈ visited p' \/ exists d', (d' < d)%nat /\ near b' p' d'.
Proof.
  intros -> Hw Hw0 [H1 H2 H3 H4] Ht. destruct (Hdue w w0 Hw Hw0) as (rows & Hrows & Hrd & Hks).
  destruct (candidate_before _ _ _ _ Hks Hrd H3) as (x & j & Ex & Hj & Hx).
  set (R := rot ks (row_cursors b !! i)) in *. assert (NoDup R) as Hn by (by apply rot_nodup).
  assert ((i, d_key x) ∉ visited p) as Hnew.
  { intros (j' & Hj' & Hl)%H4. pose proof (NoDup_lookup _ _ _ _ Hn Hx Hl). lia. }
  assert (p' <> exhaust i p) as Hnex.
  { unfold DueWaits.take_turn in Ht. rewrite Hrows, Ex in Ht. rewrite (proj2 (mem_false _ _) Hnew) in Ht.
    intros ->. destruct (match _ with Some t0 => _ | None => _ end).
    - injection Ht as _ Hp _. by apply (f_equal (fun l => length l)) in Hp; rewrite length_app in Hp; simpl in Hp; lia.
    - destruct (handle _ _ _ _ _ _ _) as [[w1 called] e]. injection Ht as _ Hp _ _.
      apply (f_equal (fun l => length l)) in Hp. rewrite length_app in Hp. simpl in Hp. lia. }
  apply turn_cases in Ht as (_ & _ & [[? _]|(x' & rows' & Hrows' & Ex' & _ & Ev & Ee & Ec & _)]); [done|].
  assert (rows' = rows) as -> by congruence. assert (x' = x) as -> by congruence.
  destruct (decide (j = d)) as [->|Hjd].
  { left. rewrite Ev. apply elem_of_app. right. assert (d_key x = r) as -> by congruence. by left. }
  right. exists (d - S j)%nat. split; [lia|]. apply take_drop_middle in Hx as ER.
  assert (rot ks (row_cursors b' !! i) = (drop (S j) R ++ take j R ++ [d_key x])%list) as ER'.
  { rewrite Ec, lookup_insert_eq. by eapply rot_after. }
  assert (forall k m, (j < m)%nat -> R !! m = Some k -> rot ks (row_cursors b' !! i) !! (m - S j)%nat = Some k) as Hmove.
  { intros k m Hm Hk. rewrite ER'. pose proof (lookup_lt_Some _ _ _ Hk). rewrite lookup_app_l by (rewrite length_drop; lia).
    rewrite lookup_drop. by replace (S j + (m - S j))%nat with m by lia. }
  pose proof (lookup_lt_Some _ _ _ H3) as Hdl. pose proof (lookup_lt_Some _ _ _ Hx) as Hjl.
  constructor; rewrite ?Ev, ?Ee; try done.
  - rewrite elem_of_app, list_elem_of_singleton. intros [?|[= Ek]]; [done|]. apply Hjd.
    rewrite <- Ek in Hx. exact (NoDup_lookup _ _ _ _ Hn Hx H3).
  - apply Hmove; [lia|done].
  - intros k [Hk|Hk%list_elem_of_singleton]%elem_of_app.
    + destruct (H4 k Hk) as (m & Hm & Hl). exists (m - S j)%nat. split; [lia|]. apply Hmove; [lia|done].
    + injection Hk as ->. exists (length R - 1)%nat. split; [lia|]. rewrite ER', app_assoc, lookup_app_r;
        rewrite length_app, length_drop, length_take; [|lia].
      replace (length R - 1 - (length R - S j + j `min` length R))%nat with 0%nat by lia. done.
Qed.

Lemma dist_rotate b : (owner_cursor b < n)%nat ->
  (owner_cursor (rotate_owner sources b) < n)%nat /\
  (owner_cursor b <> i -> S (dist (rotate_owner sources b)) = dist b) /\
  (owner_cursor b = i -> S (dist (rotate_owner sources b)) <= n)%nat.
Proof.
  intros Hc. pose proof (lookup_lt_Some _ _ _ Hi) as Hin. unfold dist. simpl.
  assert ((owner_cursor b + 1) mod n = if S (owner_cursor b) =? n then 0 else S (owner_cursor b))%nat as ->.
  { destruct (Nat.eqb_spec (S (owner_cursor b)) n) as [E|E].
    - replace (owner_cursor b + 1)%nat with n by lia. apply Nat.Div0.mod_same.
    - rewrite Nat.mod_small; lia. }
  destruct (Nat.eqb_spec (S (owner_cursor b)) n);
    repeat match goal with |- context [(?a <=? ?b)%nat] => destruct (Nat.leb_spec a b) end; split_and!; lia.
Qed.

Lemma visited_stays now fuel late it b p w b' p' w' x :
  x ∈ visited p -> pass_loop fuel late it now b p w = Some (b', p', w') -> x ∈ visited p'.
Proof.
  intros Hx. apply (pass_loop_inv (fun _ p _ => x ∈ visited p)); [done| |done].
  intros b1 p1 w1 index s1 b2 p2 w2 H1 _ _ _ (_ & _ & Hcase)%turn_cases.
  destruct Hcase as [[-> _]|(y & rows & _ & _ & _ & -> & _)]; [done|]. apply elem_of_app. by left.
Qed.

Lemma loop_nearer now w0 fuel : forall late it b p w b' p' w' d,
  now = clock db w0 -> Inv w -> Inv w0 -> near b p d -> (owner_cursor b < n)%nat ->
  pass_loop fuel late it now b p w = Some (b', p', w') ->
  (i, r) ∈ visited p' \/
  exists d', near b' p' d' /\ (turns_away b' d' <= turns_away b d)%nat /\ (owner_cursor b' < n)%nat /\
    (late it = false -> (length (visited p) < limit b)%nat -> (turns_away b' d' < turns_away b d)%nat).
Proof.
  induction fuel as [|fuel IH]; intros late it b p w b' p' w' d Hnow Hw Hw0 Hnear Hc; cbn [DueWaits.pass_loop];
    (destruct (_ || late it) eqn:G;
      [intros [= <- <- <-]; right; exists d; split_and!; try done; intros Hl Hlim; exfalso;
       rewrite Hl, orb_false_r in G; apply orb_true_iff in G as [G|G%Nat.leb_le]; [|lia];
       apply bool_decide_eq_true in G; rewrite G in Hi; by rewrite lookup_nil in Hi|]); [done|].
  clear G. destruct (sources !! owner_cursor b) as [s0|] eqn:Hs0; [|done].
  destruct (dist_rotate b Hc) as (Hc' & Hother & Hmine).
  assert (near (rotate_owner sources b) p d) as Hnear' by (destruct Hnear; by constructor).
  case_bool_decide as Hex.
  - assert (owner_cursor b <> i) as Hne by (intros E; apply (ne_open _ _ _ Hnear); by rewrite <- E).
    specialize (Hother Hne). destruct (Nat.eqb _ _).
    + intros [= <- <- <-]. right. exists d. unfold turns_away. split_and!; try done; lia.
    + intros E. destruct (IH _ _ _ _ _ _ _ _ d Hnow Hw Hw0 Hnear' Hc' E) as [?|(d' & H1 & H2 & H3 & _)]; [by left|].
      right. exists d'. unfold turns_away in *. split_and!; try done; lia.
  - destruct (take_turn _ _ _ _ _ _) as [[b1 p1] w1] eqn:Et. intros E.
    assert (owner_cursor b1 = owner_cursor (rotate_owner sources b)) as Ec by (by apply turn_cases in Et as (_ & -> & _)).
    assert ((i, r) ∈ visited p1 \/ exists d1, near b1 p1 d1 /\ (turns_away b1 d1 < turns_away b d)%nat) as [Hv|(d1 & Hn1 & Hlt)].
    { unfold turns_away, dist in *. rewrite Ec. destruct (decide (owner_cursor b = i)) as [Ei|Hne].
      - assert (s0 = s) as -> by congruence. rewrite Ei in Et.
        destruct (turn_mine now w0 _ _ _ _ _ _ _ Hnow Hw Hw0 Hnear' Et) as [?|(d1 & Hd1 & Hn1)]; [by left|]. right. exists d1. split; [done|].
        specialize (Hmine Ei). nia.
      - right. exists d. split; [by eapply turn_other|]. specialize (Hother Hne). lia. }
    + left. by eapply visited_stays.
    + destruct (IH _ _ _ _ _ _ _ _ d1 Hnow (turn_world _ _ _ _ _ _ _ _ _ Hw Et) Hw0 Hn1 ltac:(rewrite Ec; exact Hc') E) as [?|(d' & H1 & H2 & H3 & _)]; [by left|].
      right. exists d'. split_and!; try done; lia.
Qed.

Lemma tick_nearer late b w b' p' w' d :
  rot ks (row_cursors b !! i) !! d = Some r -> (owner_cursor b < n)%nat -> late 0%nat = false -> (1 <= limit b)%nat ->
  Inv w -> tick (enough_fuel b) late b w = Some (b', p', w') ->
  (i, r) ∈ visited p' \/
  exists d', rot ks (row_cursors b' !! i) !! d' = Some r /\ (turns_away b' d' < turns_away b d)%nat.
Proof.
  intros Hd Hc Hl Hlim Hw E. unfold DueWaits.tick in E.
  eapply (loop_nearer (clock db w) w) with (d := d) in E as [?|(d' & H1 & _ & _ & H2)]; [by left| |done|done|done| |done].
  - right. exists d'. split; [apply H1|]. apply H2; [done|simpl; lia].
  - constructor; simpl; [apply not_elem_of_nil|apply not_elem_of_empty|done|by intros k ?%elem_of_nil].
Qed.

Lemma tick_world late b w b' p' w' : Inv w -> tick (enough_fuel b) late b w = Some (b', p', w') -> Inv w'.
Proof.
  intros Hw. apply (pass_loop_inv (fun _ _ w => Inv w)); [done| |done].
  intros b1 p1 w1 index s1 b2 p2 w2 H1 _ _ _ Et. by eapply turn_world.
Qed.

(** Consecutive passes, each with its own budget and after whatever the rest of the Controller did
    to the world since the last one. *)
Fixpoint run_ticks (passes : list ((W -> W) * (nat -> bool))) (b : DueWaitBackstop K) (w : W)
  : option (list (list (nat * K))) :=
  match passes with
  | [] => Some []
  | (others, late) :: rest =>
      match tick (enough_fuel b) late b (others w) with
      | Some (b, p, w) => cons (visited p) <$> run_ticks rest b w
      | None => None
      end
  end.

(** C19.  A row that stays due is examined within as many passes as there are keys its source's due
    rows may have times the sources there are, however small the batch, whatever the handlers
    do to the other rows and whatever happens between the passes: other rows may become due,
    end and change.  The table of the source is assumed to be readable, and each pass to have
    time for its first turn. *)
Theorem no_starvation passes b w :
  (owner_cursor b < n)%nat -> (1 <= limit b)%nat -> Inv w ->
  Forall (fun t => (forall w, Inv w -> Inv (fst t w)) /\ snd t 0%nat = false) passes ->
  (n * length ks <= length passes)%nat ->
  exists seen, run_ticks passes b w = Some seen /\ exists v, v ∈ seen /\ (i, r) ∈ v.
Proof.
  intros Hc Hlim Hw Hl Hlen.
  assert (exists d, rot ks (row_cursors b !! i) !! d = Some r /\ (turns_away b d < length passes)%nat) as (d & Hd & Hlt).
  { destruct (list_elem_of_lookup_1 (rot ks (row_cursors b !! i)) r) as [d Hd]; [by apply rot_elem|].
    exists d. split; [done|]. pose proof (lookup_lt_Some _ _ _ Hd) as Hdl. rewrite rot_length in Hdl by done.
    pose proof (lookup_lt_Some _ _ _ Hi). unfold turns_away, dist. destruct (Nat.leb_spec (owner_cursor b) i); nia. }
  clear Hlen. revert b w d Hc Hlim Hw Hd Hlt.
  induction Hl as [|[others late] passes [Hothers Hlate] Hl IH]; intros b w d Hc Hlim Hw Hd Hlt; [simpl in Hlt; lia|].
  cbn [run_ticks]. simpl in Hothers, Hlate. specialize (Hothers w Hw).
  destruct (pass_terminates late b (others w) Hc) as (b' & p & w' & E & Hc' & Elim). rewrite E.
  assert (is_Some (run_ticks passes b' w')) as [rest Erest].
  { clear - Hc' Hirr. revert b' w' Hc'. induction passes as [|[o l] passes IH]; intros b' w' Hc'; [by eexists|]. cbn [run_ticks].
    destruct (pass_terminates l b' (o w') Hc') as (b2 & p2 & w2 & -> & Hc2 & _). destruct (IH b2 w2 Hc2) as [x ->]. by eexists. }
  destruct (tick_nearer late b (others w) b' p w' d Hd Hc Hlate Hlim Hothers E) as [Hv|(d' & Hd' & Hlt')].
  - rewrite Erest. eexists. split; [done|]. exists (visited p). split; [by left|done].
  - simpl in Hlt. destruct (IH b' w' d' Hc') as (seen & Es & v & Hv & Hin); [lia|exact (tick_world late b (others w) b' p w' Hothers E)|done|lia|].
    rewrite Es. eexists. split; [done|]. exists v. split; [by right|done].
Qed.
End fair.
End facts.

(** ** Two owners whose handlers always fail *)
Definition stuck_row (k : Z) : DueRow Z := {| d_key := k; d_evidence := None; d_due := Some 0; d_state := None |}.
Definition stuck_tables : WaitTables Z unit := {|
  rows_of := fun _ name => inl (if bool_decide (name = "jobs") then stuck_row <$> [2; 1; 3] else [stuck_row 9]);
  owner_kind_of := fun _ _ _ => inl None;
  clock := fun _ => 5 |}.
Definition job_source : WaitSource := {| source_table := "jobs"; source_kinds := [WaitOwnerKind.MODEL_CACHE] |}.
Definition two_sources : list WaitSource := [
  {| source_table := "other"; source_kinds := [WaitOwnerKind.MODEL_CACHE] |}; job_source].
Definition always_fails (_ : nat) (_ : Z) (_ : WaitOwnerKind) (w : unit) : unit * option exception := (w, Some plain_error).
Definition one_at_a_time : DueWaitBackstop Z := {|
  limit := 1; owner_cursor := 0; row_cursors := ∅; failures := ∅; retry_at := ∅ |}.
Definition in_time (_ : nat) : bool := false.

Lemma pass_bounded_witness :
  exists b' p w', tick Z.ltb pretty stuck_tables two_sources always_fails (enough_fuel two_sources one_at_a_time)
      in_time one_at_a_time tt = Some (b', p, w') /\
    (owner_cursor b' < 2)%nat /\ limit b' = 1%nat /\ (length (visited p) <= 1)%nat /\ NoDup (visited p) /\
    (forall i key kind, (i, key, kind) ∈ advanced p ->
       exists j s s', (j, key) ∈ visited p /\ two_sources !! j = Some s /\ two_sources !! i = Some s' /\
         source_table s' = source_table s /\ kind ∈ source_kinds s').
Proof. apply (pass_bounded Z.ltb pretty stuck_tables two_sources always_fails in_time one_at_a_time tt). simpl. lia. Defined.

(** A world whose job 1 comes and goes at every pass and every call, while job 3 stays due. *)
Definition changing_tables : WaitTables Z bool := {|
  rows_of := fun w name => inl (if bool_decide (name = "jobs") then stuck_row <$> (if w : bool then [2; 3; 1] else [3]) else [stuck_row 9]);
  owner_kind_of := fun _ _ _ => inl None;
  clock := fun _ => 5 |}.
Definition changing (_ : nat) (_ : Z) (_ : WaitOwnerKind) (w : bool) : bool * option exception := (negb w, Some plain_error).

Lemma no_starvation_witness :
  exists seen, run_ticks Z.ltb pretty changing_tables two_sources changing (replicate 6 (negb, in_time)) one_at_a_time true = Some seen /\
    exists v, v ∈ seen /\ (1%nat, 3) ∈ v.
Proof.
  apply (no_starvation Z.ltb pretty changing_tables two_sources changing) with (s := job_source) (ks := [1; 2; 3]) (Inv := fun _ : bool => True).
  - apply Z.ltb_irrefl.
  - unfold key_ltP. intros a b c Hab Hbc. apply Z.ltb_lt in Hab, Hbc. apply Z.ltb_lt. lia.
  - unfold key_ltP. intros a b. rewrite !Z.ltb_lt. lia.
  - reflexivity.
  - repeat constructor.
  - by right; right; left.
  - done.
  - intros w w0 _ _. eexists. split; [reflexivity|]. unfold due_keys. destruct w; cbn; set_solver.
  - simpl. lia.
  - done.
  - done.
  - by repeat constructor.
  - simpl. lia.
Defined.
