(* ===== verification/RunPorts.v ===== *)
(** * Run ports and the admission verdict

    [control/src/vonk_control/platform_ports.py] with the site's ports, and of
    [control/src/vonk_control/run_admission.py] the port demand of one rank, the choice of
    its endpoint port, the port blockers, and what an admission makes of a run plan.  The
    claim table is the one of [ProfileCapacity]; a recipe document is [Json.json]. *)
From stdpp Require Import sorting.
From S2P Require Import Prelude Vocabulary StateMachines ReasonCodes Json Blockers ResourceTypes Rows.
From S2P Require Import OwnerLiveness ProfileCapacity.

(** ** Platform ports ([resources/site-ports.json]) *)
Definition ENDPOINT_HOST_PORTS : list Z := [8000; 8101].
Definition HOST_ENDPOINT_PORT : Z := 8888.
Definition RENDEZVOUS_PORT : Z := 29500.

Definition serving_port (declared node_count : Z) : Z :=
  if 1 <? node_count then HOST_ENDPOINT_PORT else declared.

Definition service_host_port_candidates (declared node_count : Z) : list Z :=
  if 1 <? node_count then [serving_port declared node_count] else ENDPOINT_HOST_PORTS.

(** An explicit [--port declared] of an engine command, pointed at [port]. *)
Fixpoint rebind_from (previous : option string) (declared port : Z) (command : list string) : list string :=
  match command with
  | [] => []
  | v :: rest =>
      (if bool_decide (v = pretty declared) && bool_decide (previous = Some "--port") then pretty port else v)
      :: rebind_from (Some v) declared port rest
  end.
Definition rebind_port_argument (command : list string) (declared port : Z) : list string :=
  rebind_from None declared port command.

(** ** The demand of one rank *)
Record RunPortDemand := {
  service_candidates : list Z;
  rendezvous_port : option Z;
  service_port : option Z;
}.

(** [RunPortDemand(candidates, rendezvous)] *)
Definition make_demand (candidates : list Z) (rendezvous : option Z) : RunPortDemand := {|
  service_candidates := candidates; rendezvous_port := rendezvous; service_port := head candidates |}.

Definition logical_job (d : RunPortDemand) : bool := bool_decide (service_candidates d = []).
Definition plan_port (d : RunPortDemand) : Z := default 1024 (service_port d).

Definition demand_ports (d : RunPortDemand) : list Z :=
  merge_sort Z.le (remove_dups (option_list (service_port d) ++ option_list (rendezvous_port d))%list).

Definition with_service_port (port : Z) (d : RunPortDemand) : RunPortDemand := {|
  service_candidates := service_candidates d; rendezvous_port := rendezvous_port d;
  service_port := Some port |}.

(** [mapping.get(name)] *)
Definition json_get (name : string) (j : json) : option json :=
  match j with
  | JObject l => snd <$> find (fun p => bool_decide (fst p = name)) (rev l)
  | _ => None
  end.

Definition artifact_adapters : list string :=
  ["audio-job"; "video-job"; "image-job"; "mesh-job"; "artifact-job"].

Definition adapter_in (names : list string) (j : json) : bool :=
  match json_get "adapter" j with Some (JString a) => mem a names | _ => false end.

(** Membership in a set of words hashes the adapter. *)
Definition unhashable_adapter (j : json) : bool :=
  match json_get "adapter" j with Some (JArray _) | Some (JObject _) => true | _ => false end.

Definition invalid_recipe {A} (msg : string) : result A := Raise (InvalidType msg "").

Definition run_port_demand (document : json) (node_count : Z) (endpoint_owner : bool) : result RunPortDemand :=
  match json_get "interfaces" document with
  | Some (JArray interfaces) =>
      let interface := find (adapter_in ["openai"]) interfaces in
      let artifact := List.filter (adapter_in artifact_adapters) interfaces in
      if existsb unhashable_adapter interfaces then Raise (TypeError "unhashable type")
      else if bool_decide (interface = None) && (length artifact =? 1)%nat then
        if negb (node_count =? 1) then invalid_recipe "artifact job recipes currently require one node"
        else Ok (make_demand [] None)
      else
        match interface ≫= json_get "port" with
        | Some (JInt port) =>
            if (1 <=? port) && (port <=? 65535) then
              Ok (make_demand (service_host_port_candidates port node_count)
                    (if (1 <? node_count) && endpoint_owner then Some RENDEZVOUS_PORT else None))
            else invalid_recipe "recipe interface port is invalid"
        | _ => invalid_recipe "recipe interface port is invalid"
        end
  | _ => invalid_recipe "recipe interfaces are invalid"
  end.

(** ** Taken ports *)

(** What a caller discounts and adds. *)
Record PortScope := {
  excluded_run_ids : list string;
  excluded_profile_application_ids : list string;
  planned_ports : list Z;
}.

Definition binds_port (db : Database) (node_ : string) (scope : PortScope) (r : ResourceReservation) : bool :=
  bool_decide (r_node r = node_) && bool_decide (r_kind r = "port")
  && mem (r_state r) [ReservationState.ACTIVE; ReservationState.PROMISED]
  && port_binds db r
  && reservation_visible (excluded_profile_application_ids scope) (excluded_run_ids scope) [] r.

(** [_taken_ports]: whether the port is among those taken. *)
Definition _taken_ports (db : Database) (claims : list ResourceReservation) (node_ : string) (scope : PortScope)
    (port : Z) : bool :=
  mem port (planned_ports scope)
  || existsb (fun r => binds_port db node_ scope r && bool_decide (r_key r = pretty port)) claims.

(** This load's own promise of the port. *)
Definition promised_port (claims : list ResourceReservation) (node_ : string) (scope : PortScope) (port : Z) : bool :=
  existsb (fun r => bool_decide (r_node r = node_) && bool_decide (r_kind r = "port")
                    && same (r_state r) ReservationState.PROMISED
                    && bool_decide (r_owner_kind r = "fleet-profile")
                    && mem (r_owner_id r) (excluded_profile_application_ids scope)
                    && bool_decide (r_key r = pretty port)) claims.

(** The candidates in order, the promised ones first (the sort is stable). *)
Definition by_promise (claims : list ResourceReservation) (node_ : string) (scope : PortScope) (ports : list Z)
  : list Z :=
  (List.filter (promised_port claims node_ scope) ports
   ++ List.filter (fun p => negb (promised_port claims node_ scope p)) ports)%list.

Definition allocate_service_port (db : Database) (claims : list ResourceReservation) (node_ : string)
    (scope : PortScope) (d : RunPortDemand) : RunPortDemand :=
  if (length (service_candidates d) <? 2)%nat then d
  else
    match find (fun p => negb (_taken_ports db claims node_ scope p))
            (by_promise claims node_ scope (service_candidates d)) with
    | Some free => with_service_port free d
    | None => d
    end.

(** ** Blockers *)
Record AdmissionReason := {
  reason_code : string;
  reason_detail : string;
  admission_swap : option SwapShortfallEvidence;
}.


Definition service_blockers (taken : Z -> bool) (d : RunPortDemand) : list AdmissionReason :=
  match service_port d with
  | None => []
  | Some port =>
      if (1 <? length (service_candidates d))%nat && forallb taken (service_candidates d) then
        [{| reason_code := value RunAdmissionCode.PORT_OCCUPIED;
            reason_detail := "Every endpoint port (" +:+ join " and " (pretty <$> service_candidates d)
                             +:+ ") is already reserved on this GPU node.";
            admission_swap := None |}]
      else if (length (service_candidates d) <=? 1)%nat && taken port then
        [{| reason_code := value RunAdmissionCode.PORT_OCCUPIED;
            reason_detail := "Port " +:+ pretty port +:+ " is already reserved on this GPU node.";
            admission_swap := None |}]
      else []
  end.

Definition rendezvous_blockers (taken : Z -> bool) (d : RunPortDemand) : list AdmissionReason :=
  match rendezvous_port d with
  | None => []
  | Some port =>
      if bool_decide (service_port d = Some port) then
        [{| reason_code := value RunAdmissionCode.RENDEZVOUS_PORT_OCCUPIED;
            reason_detail := "Port " +:+ pretty port +:+ " is required by both serving and rendezvous.";
            admission_swap := None |}]
      else if taken port then
        [{| reason_code := value RunAdmissionCode.RENDEZVOUS_PORT_OCCUPIED;
            reason_detail := "Multi-node rendezvous port " +:+ pretty port +:+ " is already reserved.";
            admission_swap := None |}]
      else []
  end.

Definition run_port_blockers (db : Database) (claims : list ResourceReservation) (node_ : string)
    (scope : PortScope) (d : RunPortDemand) : list AdmissionReason :=
  let taken := _taken_ports db claims node_ scope in
  (service_blockers taken d ++ rendezvous_blockers taken d)%list.

(** ** Plans *)
Record RunNodePlan := {
  np_node_id : string;
  np_rank : Z;
  np_role : string;
  np_endpoint_owner : bool;
  np_port : Z;
  np_allowed : bool;
  np_inventory_observed_at : option datetime;
  np_memory_kind : MemoryKind;
  np_required_memory_bytes : Z;
  np_available_memory_bytes : option Z;
  np_active_reserved_bytes : Z;
  np_free_after_bytes : option Z;
  np_memory_floor_bytes : Z;
  np_fabric_address : option string;
  np_fabric_bandwidth_mbps : option Z;
  np_rendezvous_port : option Z;
  np_blockers : list AdmissionReason;
  np_warnings : list AdmissionReason;
  np_memory_pool : option MemoryPool;
  np_load_memory_bytes : option Z;
}.

Record RunPlan := {
  rp_installation_id : string;
  rp_alias : string;
  rp_mapping_id : string;
  rp_mapping_generation : Z;
  rp_recipe_revision_id : string;
  rp_allowed : bool;
  rp_nodes : list RunNodePlan;
  rp_plan_digest : string;
}.

(** What an admission raises: an invalid plan is asked again, a busy one waits under its
    own code. *)
Inductive AdmissionError :=
| RunPlanInvalid (msg reason : string)
| RunAdmissionBusy (msg code : string) (blockers : list AdmissionReason).

Definition _blocker_text (blockers : list AdmissionReason) : string :=
  join "; " ((fun b => reason_code b +:+ ": " +:+ reason_detail b) <$> blockers).

Definition RETRYABLE_PLAN_BLOCKERS : list string := [
  value ProjectionCode.NODE_GPU_REQUIRES_RESET; value ProjectionCode.NODE_GPU_UNAVAILABLE;
  value RunAdmissionCode.INVENTORY_MISSING; value RunAdmissionCode.STALE_INVENTORY;
  value RunAdmissionCode.INSUFFICIENT_MEMORY; value RunAdmissionCode.INSUFFICIENT_SWAP;
  value RunAdmissionCode.PORT_OCCUPIED; value RunAdmissionCode.RENDEZVOUS_PORT_OCCUPIED;
  value ResourceBlockerCode.INSUFFICIENT].

Definition _admission_code (code : string) : string :=
  if bool_decide (code = value ResourceBlockerCode.INSUFFICIENT_SWAP)
  then value RunAdmissionCode.INSUFFICIENT_SWAP
  else if String.prefix (value ResourceBlockerCode.INSUFFICIENT) code
  then value RunAdmissionCode.INSUFFICIENT_MEMORY
  else code.

(** [min(blockers, key=lambda reason: reason.code)] *)
Fixpoint least_reason (first : AdmissionReason) (l : list AdmissionReason) : AdmissionReason :=
  match l with
  | [] => first
  | b :: r => least_reason (if bool_decide (str_le (reason_code first) (reason_code b)) then first else b) r
  end.

Definition require_admissible (plan : RunPlan) : option AdmissionError :=
  if rp_allowed plan then None
  else
    let blockers := flat_map np_blockers (rp_nodes plan) in
    match blockers with
    | b :: rest =>
        if forallb (fun r => mem (reason_code r) RETRYABLE_PLAN_BLOCKERS) blockers then
          Some (RunAdmissionBusy
                  ("run is waiting for current inventory or capacity: " +:+ _blocker_text blockers)
                  (reason_code (least_reason b rest)) blockers)
        else
          Some (RunPlanInvalid ("run.plan_invalid: run plan is blocked by current admission evidence ("
                                +:+ _blocker_text blockers +:+ ")") (value InvalidRequestReason.CONFLICT))
    | [] => Some (RunPlanInvalid "run.plan_invalid: run plan is blocked by current admission evidence"
                    (value InvalidRequestReason.CONFLICT))
    end.

(** The effects a review accepted. *)
Definition node_identity (n : RunNodePlan) :=
  (np_node_id n, np_rank n, np_role n, np_endpoint_owner n, np_port n, np_memory_kind n,
   np_required_memory_bytes n, np_memory_floor_bytes n, np_fabric_address n, np_rendezvous_port n,
   np_memory_pool n).

Definition execution_identity (p : RunPlan) :=
  (rp_installation_id p, rp_mapping_id p, rp_mapping_generation p, rp_recipe_revision_id p,
   node_identity <$> rp_nodes p).

Definition require_same_execution (reviewed current : RunPlan) : option AdmissionError :=
  if bool_decide (execution_identity reviewed = execution_identity current) then None
  else Some (RunPlanInvalid (value RunAdmissionCode.PLAN_STALE) (value InvalidRequestReason.SUPERSEDED)).
