(* ===== verification/RunPortsFacts.v ===== *)
(** * Ports and verdicts agree

    The port a run is given, the blockers its plan names and the reservation it will make
    follow one rule; a refused plan waits exactly when every reason it names can pass. *)
From S2P Require Import Prelude Vocabulary StateMachines ReasonCodes Json ResourceTypes Rows.
From S2P Require Import OwnerLiveness ProfileCapacity RunPorts.

Section ports.
Context (db : Database) (claims : list ResourceReservation) (node_ : string) (scope : PortScope).
Notation taken := (_taken_ports db claims node_ scope).
Notation promised := (promised_port claims node_ scope).
Notation allocate := (allocate_service_port db claims node_ scope).
Notation blockers := (run_port_blockers db claims node_ scope).

Lemma by_promise_elem ports p : p ∈ by_promise claims node_ scope ports <-> p ∈ ports.
Proof.
  unfold by_promise. rewrite elem_of_app, !list_elem_of_In, !List.filter_In. destruct (promised p); simpl; intuition congruence.
Qed.

(** Where a free port is found, it is the first of the promised ones, else the first. *)
Lemma find_app {A} (f : A -> bool) l l' : find f (l ++ l') = match find f l with Some x => Some x | None => find f l' end.
Proof. induction l as [|x l IH]; simpl; [done|]. by destruct (f x). Qed.

Lemma allocate_cases d :
  (2 <= length (service_candidates d))%nat ->
  (exists p, allocate d = with_service_port p d /\ p ∈ service_candidates d /\ taken p = false /\
     (forall q, q ∈ service_candidates d -> promised q = true -> taken q = false -> promised p = true)) \/
  (allocate d = d /\ forallb taken (service_candidates d) = true).
Proof.
  intros Hlen. unfold allocate_service_port. rewrite (proj2 (Nat.ltb_ge _ _) Hlen).
  destruct (find _ _) as [p|] eqn:F.
  - left. exists p. split; [done|]. pose proof F as F'. apply find_some in F' as [Hin Hfree].
    apply list_elem_of_In, (proj1 (by_promise_elem _ _)) in Hin. apply negb_true_iff in Hfree. split_and!; try done.
    intros q Hq Hpq Hfq. unfold by_promise in F. rewrite find_app in F.
    destruct (find _ (List.filter _ _)) as [x|] eqn:Fx.
    + simplify_eq. apply find_some in Fx as [Hx _]. apply List.filter_In in Hx. tauto.
    + exfalso. pose proof (find_none _ _ Fx q) as Hn. cbn beta in Hn. rewrite Hfq in Hn.
      assert (true = false); [|done]. apply Hn, List.filter_In. by rewrite <- list_elem_of_In.
  - right. split; [done|]. apply forallb_forall. intros p Hp. pose proof (find_none _ _ F p) as Hn.
    apply negb_false_iff, Hn, list_elem_of_In, (proj2 (by_promise_elem _ _)). by apply list_elem_of_In.
Qed.

Lemma allocation_agrees_with_blockers_port candidates rendezvous :
  (2 <= length candidates)%nat -> forall p,
  service_port (allocate (make_demand candidates rendezvous)) = Some p ->
  service_blockers taken (allocate (make_demand candidates rendezvous)) = [] ->
  taken p = false /\ p ∉ planned_ports scope.
Proof.
  intros Hlen p Hp Hb.
  destruct (allocate_cases (make_demand candidates rendezvous) Hlen) as [(q & E & Hin & Hfree & _)|[E Hall]];
    rewrite E in *; cbn [service_candidates make_demand service_port with_service_port] in *.
  - simplify_eq. split; [done|]. intros Hpl. unfold _taken_ports in Hfree.
    apply orb_false_iff in Hfree as [Hfree _]. by apply mem_false in Hfree.
  - exfalso. unfold service_blockers in Hb. cbn [service_candidates make_demand service_port] in Hb.
    rewrite Hp, Hall, (proj2 (Nat.ltb_lt 1 _)) in Hb by lia. done.
Qed.

(** The allocated endpoint port is one of the run's candidates and free of every active
    binding, live promise and sibling port of the load; the load's own promise comes first.
    The plan's service blocker is named exactly when no candidate is free, so what is
    reviewed, admitted and reserved is the same port. *)
Theorem allocation_agrees_with_blockers candidates rendezvous :
  (2 <= length candidates)%nat ->
  let d := allocate (make_demand candidates rendezvous) in
  (exists p, service_port d = Some p /\ p ∈ candidates) /\
  (service_blockers taken d = [] <-> exists p, p ∈ candidates /\ taken p = false) /\
  (forall p, service_port d = Some p -> service_blockers taken d = [] ->
     taken p = false /\ p ∉ planned_ports scope /\
     (forall q, q ∈ candidates -> promised q = true -> taken q = false -> promised p = true)).
Proof.
  intros Hlen. cbv zeta.
  assert (exists c, head candidates = Some c /\ c ∈ candidates) as (c & Hh & Hc)
    by (destruct candidates as [|c cs]; [simpl in Hlen; lia|exists c; split; [done|by left]]).
  assert (1 <? length candidates = true)%nat as Hmany by (apply Nat.ltb_lt; lia).
  assert (length candidates <=? 1 = false)%nat as Hone by (apply Nat.leb_gt; lia).
  destruct (allocate_cases (make_demand candidates rendezvous) Hlen) as [(p & E & Hin & Hfree & Hprom)|[E Hall]];
    cbn [service_candidates make_demand] in *; rewrite E; clear E.
  - cbn [service_port with_service_port]. unfold service_blockers. cbn [service_port with_service_port service_candidates make_demand].
    rewrite Hmany, Hone. cbn [andb].
    assert (forallb taken candidates = false) as Hnot.
    { apply not_true_iff_false. intros H. rewrite forallb_forall in H. rewrite (H p) in Hfree; [done|by apply list_elem_of_In]. }
    rewrite Hnot. split; [by exists p|]. split; [split; [by exists p|done]|].
    intros q [= <-] _. split_and!; try done. intros Hpl. unfold _taken_ports in Hfree.
    apply orb_false_iff in Hfree as [Hfree _]. by apply mem_false in Hfree.
  - unfold service_blockers. cbn [service_port make_demand service_candidates].
    rewrite Hh, Hmany, Hall. cbn [andb]. split; [by exists c|].
    split; [|done]. split; [done|]. intros (p & Hp & Hf). rewrite forallb_forall in Hall.
    rewrite (Hall p) in Hf; [done|by apply list_elem_of_In].
Qed.

(** Assignments of one load that share a Spark are planned one after the other, each with
    the ports of the others as taken. *)
Definition add_planned (p : option Z) (s : PortScope) : PortScope := {|
  excluded_run_ids := excluded_run_ids s;
  excluded_profile_application_ids := excluded_profile_application_ids s;
  planned_ports := (option_list p ++ planned_ports s)%list |}.
End ports.

Fixpoint plan_assignments (db : Database) (claims : list ResourceReservation) (node_ : string) (scope : PortScope)
    (demands : list RunPortDemand) : list RunPortDemand :=
  match demands with
  | [] => []
  | d :: rest =>
      let d := allocate_service_port db claims node_ scope d in
      d :: plan_assignments db claims node_ (add_planned (service_port d) scope) rest
  end.

(** No service blocker: the port of every such assignment is its own. *)
Fixpoint unblocked (db : Database) (claims : list ResourceReservation) (node_ : string) (scope : PortScope)
    (demands : list RunPortDemand) : Prop :=
  match demands with
  | [] => True
  | d :: rest =>
      service_blockers (_taken_ports db claims node_ scope) d = [] /\
      unblocked db claims node_ (add_planned (service_port d) scope) rest
  end.

Lemma plan_avoids db claims node_ demands : forall scope p,
  p ∈ planned_ports scope -> Forall (fun d => exists cs rv, d = make_demand cs rv /\ (2 <= length cs)%nat) demands ->
  unblocked db claims node_ scope (plan_assignments db claims node_ scope demands) ->
  Some p ∉ service_port <$> plan_assignments db claims node_ scope demands.
Proof.
  induction demands as [|d demands IH]; intros scope p Hp Hd Hun; [apply not_elem_of_nil|].
  apply Forall_cons in Hd as [(cs & rv & -> & Hcs) Hd]. cbn [plan_assignments unblocked] in *. destruct Hun as [Hb Hun].
  rewrite fmap_cons, elem_of_cons. intros [E|Hin].
  - destruct (allocation_agrees_with_blockers_port db claims node_ scope cs rv Hcs p (eq_sym E) Hb) as [_ Hn]. done.
  - revert Hin. apply IH; [|done|done]. cbn [add_planned planned_ports]. apply elem_of_app. by right.
Qed.

(** Assignments of one load on one Spark, planned one after the other and not blocked, have
    distinct endpoint ports. *)
Theorem siblings_get_distinct_ports db claims node_ demands : forall scope,
  Forall (fun d => exists cs rv, d = make_demand cs rv /\ (2 <= length cs)%nat) demands ->
  unblocked db claims node_ scope (plan_assignments db claims node_ scope demands) ->
  NoDup (service_port <$> plan_assignments db claims node_ scope demands).
Proof.
  induction demands as [|d demands IH]; intros scope Hd Hun; [constructor|].
  pose proof Hd as Hall. apply Forall_cons in Hd as [(cs & rv & -> & Hcs) Hd]. cbn [plan_assignments unblocked] in *.
  destruct Hun as [Hb Hun]. rewrite fmap_cons. apply NoDup_cons. split; [|by apply IH].
  destruct (service_port (allocate_service_port _ _ _ _ _)) as [p|] eqn:E.
  - apply plan_avoids; [|done|done]. cbn [add_planned planned_ports option_list]. by left.
  - exfalso. unfold allocate_service_port in E. cbn [make_demand service_candidates] in E.
    destruct cs as [|c cs]; [simpl in Hcs; lia|]. destruct (_ <? 2)%nat; [done|]. by destruct (find _ _).
Qed.

(** ** Verdicts *)
Lemma least_reason_spec l : forall first,
  (least_reason first l ∈ first :: l) /\
  forall b, b ∈ first :: l -> str_le (reason_code (least_reason first l)) (reason_code b).
Proof.
  induction l as [|b l IH]; intros first; cbn [least_reason].
  { split; [by left|]. intros x [->|Hx%elem_of_nil]%elem_of_cons; [|done]. by destruct (str_le_total (reason_code first) (reason_code first)). }
  case_bool_decide as Hle; destruct (IH (if bool_decide (str_le (reason_code first) (reason_code b)) then first else b)) as [H1 H2].
  - rewrite bool_decide_eq_true_2 in H1, H2 by done. split; [rewrite !elem_of_cons in *; tauto|].
    intros x [->|[->|Hx]%elem_of_cons]%elem_of_cons.
    + apply H2. by left.
    + eapply str_le_trans; [|exact Hle]. apply H2. by left.
    + apply H2. by right.
  - rewrite bool_decide_eq_false_2 in H1, H2 by done. split; [rewrite !elem_of_cons in *; tauto|].
    intros x [->|[->|Hx]%elem_of_cons]%elem_of_cons.
    + eapply str_le_trans; [apply H2; by left|]. by destruct (str_le_total (reason_code first) (reason_code b)).
    + apply H2. by left.
    + apply H2. by right.
Qed.

(** A plan is accepted exactly when it is allowed.  A refused plan waits exactly when it
    names blockers and each of them can pass by itself; the wait carries every blocker and
    the code of one of them. *)
Theorem admission_verdict plan :
  let blockers := flat_map np_blockers (rp_nodes plan) in
  (require_admissible plan = None <-> rp_allowed plan = true) /\
  ((exists msg code bs, require_admissible plan = Some (RunAdmissionBusy msg code bs)) <->
     rp_allowed plan = false /\ blockers <> [] /\
     forall b, b ∈ blockers -> reason_code b ∈ RETRYABLE_PLAN_BLOCKERS) /\
  (forall msg code bs, require_admissible plan = Some (RunAdmissionBusy msg code bs) ->
     bs = blockers /\ code ∈ reason_code <$> blockers /\ forall b, b ∈ blockers -> str_le code (reason_code b)).
Proof.
  intros blockers. unfold require_admissible. fold blockers. destruct (rp_allowed plan); [split_and!; try done; split; naive_solver|].
  destruct blockers as [|b rest] eqn:Eb; [split_and!; try done; split; naive_solver|].
  destruct (forallb _ _) eqn:F.
  - assert (forall x, x ∈ b :: rest -> reason_code x ∈ RETRYABLE_PLAN_BLOCKERS) as Hall.
    { intros x Hx. rewrite forallb_forall in F. specialize (F x (proj1 (list_elem_of_In _ _) Hx)). by apply mem_true in F. }
    split; [done|]. split.
    + split; [done|]. intros _. by eexists _, _, _.
    + intros msg code bs [= <- <- <-]. destruct (least_reason_spec rest b) as [H1 H2]. split; [done|]. split; [|done].
      apply list_elem_of_fmap. by eexists.
  - split; [done|]. split; [|done]. split; [naive_solver|]. intros (_ & _ & Hall). exfalso.
    apply not_true_iff_false in F. apply F, forallb_forall. intros x Hx. apply mem_true, Hall. by apply list_elem_of_In.
Qed.

(** ** A Spark whose first endpoint port is bound *)
Definition bound_port : ResourceReservation := {|
  r_id := "c1"; r_node := "spark-1"; r_kind := "port"; r_key := "8000"; r_amount := 0;
  r_owner_kind := "run"; r_owner_id := "run-1"; r_state := ReservationState.ACTIVE; r_plan_digest := "d";
  r_created_at := Aware 0; r_released_at := None |}.
Definition no_scope : PortScope := {|
  excluded_run_ids := []; excluded_profile_application_ids := []; planned_ports := [] |}.

Definition idle_db : Database := {|
  applications := []; nodes := []; jobs := []; runs := []; run_nodes := []; installations := []; installation_nodes := [];
  builds := []; orders := []; order_attempts := fun _ => []; cache_operations := []; sync_runs := []; rotations := [];
  enrollments := []; inventory := [] |}.

Example second_port_chosen :
  service_port (allocate_service_port idle_db [bound_port] "spark-1" no_scope (make_demand ENDPOINT_HOST_PORTS None)) = Some 8101.
Proof. reflexivity. Qed.

Lemma allocation_agrees_with_blockers_witness :
  let d := allocate_service_port idle_db [bound_port] "spark-1" no_scope (make_demand ENDPOINT_HOST_PORTS None) in
  let taken := _taken_ports idle_db [bound_port] "spark-1" no_scope in
  (exists p, service_port d = Some p /\ p ∈ ENDPOINT_HOST_PORTS) /\
  (service_blockers taken d = [] <-> exists p, p ∈ ENDPOINT_HOST_PORTS /\ taken p = false) /\
  (forall p, service_port d = Some p -> service_blockers taken d = [] ->
     taken p = false /\ p ∉ planned_ports no_scope /\
     (forall q, q ∈ ENDPOINT_HOST_PORTS -> promised_port [bound_port] "spark-1" no_scope q = true ->
        taken q = false -> promised_port [bound_port] "spark-1" no_scope p = true)).
Proof. apply (allocation_agrees_with_blockers idle_db [bound_port] "spark-1" no_scope ENDPOINT_HOST_PORTS None). simpl. lia. Defined.

Lemma siblings_get_distinct_ports_witness :
  NoDup (service_port <$> plan_assignments idle_db [] "spark-1" no_scope
           [make_demand ENDPOINT_HOST_PORTS None; make_demand ENDPOINT_HOST_PORTS None]).
Proof.
  apply (siblings_get_distinct_ports idle_db [] "spark-1"
           [make_demand ENDPOINT_HOST_PORTS None; make_demand ENDPOINT_HOST_PORTS None] no_scope).
  - repeat constructor; eexists ENDPOINT_HOST_PORTS, None; (split; [reflexivity|simpl; lia]).
  - vm_compute. done.
Defined.
