(* ===== verification/EvidenceRepeats.v ===== *)
(** * Repeated evidence

    [control/src/vonk_control/evidence_repeats.py] with
    [repeated_evidence_contract.py] and the evidence writers of [agent_contacts.py]: failures
    that repeat are kept on the row they are about (the contact of a Spark, an order to it,
    or a load), a success clears them, and a summary shows the ones that repeat too often.
    Orders keep an event log under one database sequence, so that the newest clear of a
    (Spark, command) decides which failures still count. *)
From stdpp Require Import sorting.
From S2P Require Import Prelude Vocabulary Recovery SparkAttempts SparkOrder.

(** ** The contract *)
Definition ContainerRuntimeAction : list string :=
  ["runtime-preflight"; "image-pull"; "image-inspect"; "run-inspect"; "start"; "stop"; "installation-cleanup"].

Definition AGENT_RESULT : string := "agent result".
Definition PACKAGE_ACTIVATION_GRANT : string := "package activation grant".
Definition AGENT_UPGRADE_GRANT : string := "agent upgrade grant".

Definition host_grant_subject (action : string) : result string :=
  if mem action ContainerRuntimeAction then Ok ("host runtime " +:+ action +:+ " grant")
  else Raise (ValueError (action +:+ " is not a valid ContainerRuntimeAction")).

Definition is_contact_subject (subject : string) : bool :=
  mem subject ([AGENT_RESULT; PACKAGE_ACTIVATION_GRANT; AGENT_UPGRADE_GRANT]
               ++ map (fun a => "host runtime " +:+ a +:+ " grant") ContainerRuntimeAction)%list.

Record RepeatedEvidence := {
  ev_node : string;
  ev_subject : string;
  ev_code : option string;
  ev_repeats : Z;
  ev_first_at : datetime;
  ev_last_at : datetime;
  ev_detail : option string;
  ev_sequence : Z;
}.
#[global] Instance RepeatedEvidence_eq : EqDecision RepeatedEvidence.
Proof. solve_decision. Defined.

Definition length_within (low high : nat) (s : string) : bool :=
  (low <=? String.length s)%nat && (String.length s <=? high)%nat.

Definition MAX_SEQUENCE : Z := 2 ^ 63 - 1.

(** The constructor's validation. *)
Definition make_evidence (e : RepeatedEvidence) : result RepeatedEvidence :=
  if length_within 1 64 (ev_node e) && length_within 1 128 (ev_subject e)
     && match ev_code e with Some c => length_within 1 128 c | None => ev_repeats e =? 0 end
     && (0 <=? ev_repeats e)
     && match ev_detail e with Some d => length_within 0 256 d | None => true end
     && (0 <=? ev_sequence e) && (ev_sequence e <=? MAX_SEQUENCE)
  then Ok e
  else Raise (ValueError "RepeatedEvidence").

(** ** Rows *)

(** What the evidence column of a row holds: nothing, readable evidence, or a document the
    contract refuses. *)
Inductive evidence_column :=
| EmptyColumn
| EvidenceList (l : list RepeatedEvidence)
| UnreadableColumn.

Record AgentNodeContact := { contact_node : string; contact_repeated_evidence : evidence_column }.

(** The current attempt of an order: its lease and, when its result is a failure or an
    unknown outcome, the wait it names. *)
Record CurrentAttempt := { ca_lease_deadline : datetime; ca_wait_reason : option string }.

(** Of an order the columns that are read; [order_target] is the build and the binary digest
    of an upgrade payload. *)
Record EvidenceOrder := {
  order_id : string;
  order_node : string;
  order_kind : string;
  order_state : string;
  order_created_at : datetime;
  order_updated_at : datetime;
  order_deadline : option datetime;
  order_attempt : option CurrentAttempt;
  order_target : option (string * string);
  order_evidence : evidence_column;
}.

Record EvidenceLoad := { load_id : string; load_evidence : evidence_column }.

(** [sequence_last] is the last value the database sequence gave. *)
Record EvidenceDb := {
  postgresql : bool;
  nodes : list string;
  contacts : list AgentNodeContact;
  orders : list EvidenceOrder;
  loads : list EvidenceLoad;
  sequence_last : Z;
}.
Definition set_contacts (l : list AgentNodeContact) (db : EvidenceDb) : EvidenceDb := {|
  postgresql := postgresql db; nodes := nodes db; contacts := l; orders := orders db;
  loads := loads db; sequence_last := sequence_last db |}.
Definition set_orders (l : list EvidenceOrder) (db : EvidenceDb) : EvidenceDb := {|
  postgresql := postgresql db; nodes := nodes db; contacts := contacts db; orders := l;
  loads := loads db; sequence_last := sequence_last db |}.
Definition set_loads (l : list EvidenceLoad) (db : EvidenceDb) : EvidenceDb := {|
  postgresql := postgresql db; nodes := nodes db; contacts := contacts db; orders := orders db;
  loads := l; sequence_last := sequence_last db |}.
Definition set_last (z : Z) (db : EvidenceDb) : EvidenceDb := {|
  postgresql := postgresql db; nodes := nodes db; contacts := contacts db; orders := orders db;
  loads := loads db; sequence_last := z |}.

Inductive EvidenceOwner :=
| ContactOwner (c : AgentNodeContact)
| OrderOwner (o : EvidenceOrder)
| LoadOwner (l : EvidenceLoad).

Definition _LOAD : string := "profile load ".
Definition load_subject (application_id : string) : string := _LOAD +:+ application_id.

(** ** Reading an owner *)
Definition column_of (row : EvidenceOwner) : evidence_column :=
  match row with
  | ContactOwner c => contact_repeated_evidence c
  | OrderOwner o => order_evidence o
  | LoadOwner l => load_evidence l
  end.

(** Whether evidence belongs to the row that holds it. *)
Definition bound (row : EvidenceOwner) (e : RepeatedEvidence) : bool :=
  match row with
  | ContactOwner c =>
      bool_decide (ev_node e = contact_node c) && is_contact_subject (ev_subject e)
      && bool_decide (ev_code e <> None) && (ev_sequence e =? 0)
  | OrderOwner o =>
      bool_decide (ev_node e = order_node o) && bool_decide (ev_subject e = order_kind o)
      && (0 <? ev_sequence e)
  | LoadOwner l =>
      bool_decide (ev_subject e = load_subject (load_id l)) && bool_decide (ev_code e <> None)
      && (ev_sequence e =? 0)
  end.

Definition owner_evidence (row : EvidenceOwner) : option (list RepeatedEvidence) :=
  match column_of row with
  | EmptyColumn => Some []
  | UnreadableColumn => None
  | EvidenceList l => if forallb (bound row) l then Some l else None
  end.

(** ** Writing an owner *)
Definition stored (l : list RepeatedEvidence) : evidence_column :=
  match l with [] => EmptyColumn | _ => EvidenceList l end.

Definition store_contact_evidence (l : list RepeatedEvidence) (c : AgentNodeContact) : AgentNodeContact :=
  {| contact_node := contact_node c; contact_repeated_evidence := stored l |}.
Definition store_order_evidence (l : list RepeatedEvidence) (o : EvidenceOrder) : EvidenceOrder := {|
  order_id := order_id o; order_node := order_node o; order_kind := order_kind o;
  order_state := order_state o; order_created_at := order_created_at o;
  order_updated_at := order_updated_at o; order_deadline := order_deadline o;
  order_attempt := order_attempt o; order_target := order_target o; order_evidence := stored l |}.
Definition store_load_evidence (l : list RepeatedEvidence) (a : EvidenceLoad) : EvidenceLoad :=
  {| load_id := load_id a; load_evidence := stored l |}.

(** [_write] *)
Definition _write (row : EvidenceOwner) (l : list RepeatedEvidence) (db : EvidenceDb) : EvidenceDb :=
  match row with
  | ContactOwner c =>
      set_contacts (map (fun x => if bool_decide (contact_node x = contact_node c)
                                  then store_contact_evidence l x else x) (contacts db)) db
  | OrderOwner o =>
      set_orders (map (fun x => if bool_decide (order_id x = order_id o)
                                then store_order_evidence l x else x) (orders db)) db
  | LoadOwner a =>
      set_loads (map (fun x => if bool_decide (load_id x = load_id a)
                               then store_load_evidence l x else x) (loads db)) db
  end.

Definition find_contact (node_ : string) (db : EvidenceDb) : option AgentNodeContact :=
  find (fun c => bool_decide (contact_node c = node_)) (contacts db).
Definition find_order (id_ : string) (db : EvidenceDb) : option EvidenceOrder :=
  find (fun o => bool_decide (order_id o = id_)) (orders db).
Definition find_load (id_ : string) (db : EvidenceDb) : option EvidenceLoad :=
  find (fun a => bool_decide (load_id a = id_)) (loads db).

Definition ensure_contact (node_ : string) (db : EvidenceDb) : EvidenceDb :=
  match find_contact node_ db with
  | Some _ => db
  | None => set_contacts (contacts db ++ [{| contact_node := node_; contact_repeated_evidence := EmptyColumn |}])%list db
  end.

Definition lock_contact (node_ : string) (db : EvidenceDb) : EvidenceDb * option AgentNodeContact :=
  if mem node_ (nodes db) then
    let db := ensure_contact node_ db in (db, find_contact node_ db)
  else (db, None).

(** The row that keeps the evidence of a subject. *)
Definition _owner (db : EvidenceDb) (subject node_ : string) (operation : option EvidenceOrder)
  : result (EvidenceDb * option EvidenceOwner) :=
  if is_contact_subject subject then
    let '(db, c) := lock_contact node_ db in Ok (db, ContactOwner <$> c)
  else if String.prefix _LOAD subject then
    Ok (db, LoadOwner <$> find_load
              (String.substring (String.length _LOAD) (String.length subject - String.length _LOAD) subject) db)
  else
    match operation with
    | Some o =>
        if bool_decide (order_kind o = subject) && bool_decide (order_node o = node_)
        then Ok (db, OrderOwner <$> find_order (order_id o) db)
        else Raise (ValueError "command repetition requires its exact operation owner")
    | None => Raise (ValueError "command repetition requires its exact operation owner")
    end.

(** The sequences of every readable order column, whether it binds its row or not. *)
Definition listed (o : EvidenceOrder) : list RepeatedEvidence :=
  match order_evidence o with EvidenceList l => l | _ => [] end.

(** [next_sequence]: the value and the database after it; [None] when the database refuses
    another one. *)
Definition next_sequence (db : EvidenceDb) : option (Z * EvidenceDb) :=
  if postgresql db then
    if sequence_last db <? MAX_SEQUENCE
    then Some (sequence_last db + 1, set_last (sequence_last db + 1) db)
    else None
  else Some (default 0 (max_list (ev_sequence <$> flat_map listed (orders db))) + 1, db).

(** ** Noting a failure *)
Definition same_key (node_ subject : string) (code : option string) (e : RepeatedEvidence) : bool :=
  bool_decide (ev_node e = node_) && bool_decide (ev_subject e = subject) && bool_decide (ev_code e = code).

Definition with_sequence (z : Z) (e : RepeatedEvidence) : RepeatedEvidence := {|
  ev_node := ev_node e; ev_subject := ev_subject e; ev_code := ev_code e; ev_repeats := ev_repeats e;
  ev_first_at := ev_first_at e; ev_last_at := ev_last_at e; ev_detail := ev_detail e; ev_sequence := z |}.

(** A repetition of [previous]. *)
Definition repeated (previous e : RepeatedEvidence) : RepeatedEvidence := {|
  ev_node := ev_node e; ev_subject := ev_subject e; ev_code := ev_code e;
  ev_repeats := ev_repeats previous + 1; ev_first_at := ev_first_at previous;
  ev_last_at := ev_last_at e; ev_detail := ev_detail e; ev_sequence := ev_sequence e |}.

Definition merge_repeat (e : RepeatedEvidence) (l : list RepeatedEvidence) : list RepeatedEvidence :=
  let mine := same_key (ev_node e) (ev_subject e) (ev_code e) in
  let e := match find mine l with Some previous => repeated previous e | None => e end in
  (List.filter (fun x => negb (mine x)) l ++ [e])%list.

(** [note_repeat].  [refused] says that the store refuses the statement: the savepoint is
    rolled back, a sequence value stays spent.  An exception leaves the rows as they were. *)
Definition note_repeat (subject node_ code : string) (now : datetime) (detail : option string)
    (operation : option EvidenceOrder) (refused : bool) (db0 : EvidenceDb) : result EvidenceDb :=
  '(db, row) ← _owner db0 subject node_ operation;
  match row with
  | None => Ok db
  | Some row =>
      match owner_evidence row with
      | None => Ok db
      | Some evidence =>
          let at_ := Aware (to_utc now) in
          event ← make_evidence {|
            ev_node := node_; ev_subject := subject; ev_code := Some code; ev_repeats := 1;
            ev_first_at := at_; ev_last_at := at_; ev_detail := String.substring 0 256 <$> detail;
            ev_sequence := 0 |};
          match row with
          | OrderOwner _ =>
              match next_sequence db with
              | None => Ok db0
              | Some (z, db) =>
                  if refused then Ok (set_last (sequence_last db) db0)
                  else Ok (_write row (evidence ++ [with_sequence z event])%list db)
              end
          | _ =>
              if refused then Ok db0 else Ok (_write row (merge_repeat event evidence) db)
          end
      end
  end.

(** ** The command log *)
Definition has_column (o : EvidenceOrder) : bool :=
  match order_evidence o with EmptyColumn => false | _ => true end.

Definition selected (node_ids : list string) (subject : option string) (o : EvidenceOrder) : bool :=
  mem (order_node o) node_ids && has_column o
  && match subject with Some s => bool_decide (order_kind o = s) | None => true end.

Definition order_pair (o : EvidenceOrder) : string * string := (order_node o, order_kind o).
Definition event_pair (e : RepeatedEvidence) : string * string := (ev_node e, ev_subject e).

Definition is_unreadable (o : EvidenceOrder) : bool := bool_decide (owner_evidence (OrderOwner o) = None).

Definition order_events (o : EvidenceOrder) : list (string * RepeatedEvidence) :=
  map (pair (order_id o)) (default [] (owner_evidence (OrderOwner o))).

Definition command_events (db : EvidenceDb) (node_ids : list string) (subject : option string)
  : list (string * RepeatedEvidence) * list (string * string) :=
  let rows := List.filter (selected node_ids subject) (orders db) in
  let unreadable := map order_pair (List.filter is_unreadable rows) in
  (List.filter (fun x => negb (mem (event_pair (snd x)) unreadable)) (flat_map order_events rows), unreadable).

Definition is_clear (e : RepeatedEvidence) : bool := bool_decide (ev_code e = None).

(** The newest clear among the events; -1 when there is none. *)
Definition last_clear (events : list (string * RepeatedEvidence)) : Z :=
  default (-1) (max_list (ev_sequence <$> List.filter is_clear (snd <$> events))).

Definition _uncleared_failures (db : EvidenceDb) (node_ subject : string) : bool :=
  let '(events, unreadable) := command_events db [node_] (Some subject) in
  mem (node_, subject) unreadable
  || existsb (fun x => negb (is_clear (snd x)) && (last_clear events <? ev_sequence (snd x))) events.

(** ** Noting a success *)
Definition ends_clear (l : list RepeatedEvidence) : bool :=
  match last l with Some e => is_clear e | None => false end.

Definition note_success (subject node_ : string) (operation : option EvidenceOrder) (now : option datetime)
    (refused : bool) (db0 : EvidenceDb) : result EvidenceDb :=
  '(db, row) ← _owner db0 subject node_ operation;
  match row with
  | None => Ok db
  | Some row =>
      match owner_evidence row with
      | None => Ok db
      | Some evidence =>
          match row with
          | OrderOwner o =>
              if ends_clear evidence then Ok db
              else if negb (_uncleared_failures db node_ subject) then Ok db
              else
                let at_ := Aware (to_utc (default (order_updated_at o) now)) in
                match next_sequence db with
                | None => Ok db0
                | Some (z, db) =>
                    clear ← make_evidence {|
                      ev_node := node_; ev_subject := subject; ev_code := None; ev_repeats := 0;
                      ev_first_at := at_; ev_last_at := at_; ev_detail := None; ev_sequence := z |};
                    if refused then Ok (set_last (sequence_last db) db0)
                    else Ok (_write row (evidence ++ [clear])%list db)
                end
          | _ =>
              if refused then Ok db0
              else Ok (_write row (List.filter (fun e => negb (bool_decide (event_pair e = (node_, subject))))
                                     evidence) db)
          end
      end
  end.

(** ** Retention *)
Definition command_evidence_needed (db : EvidenceDb) (operation : EvidenceOrder) : bool :=
  match owner_evidence (OrderOwner operation) with
  | None => true
  | Some [] => false
  | Some own =>
      let '(events, unreadable) := command_events db [order_node operation] (Some (order_kind operation)) in
      let cleared := last_clear events in
      mem (order_pair operation) unreadable
      || existsb (fun e => negb (is_clear e) && (cleared <? ev_sequence e)) own
      || existsb (fun e => is_clear e && (ev_sequence e =? cleared)) own
         && existsb (fun x => bool_decide (fst x <> order_id operation) && negb (is_clear (snd x))
                              && (ev_sequence (snd x) <? cleared)) events
  end.

(** ** The summary *)
Definition _SHOWN_FOR : Z := seconds 1800.

Definition group_key (e : RepeatedEvidence) : string * string * option string :=
  (ev_node e, ev_subject e, ev_code e).

(** What one more event makes of the summary of its key. *)
Definition absorb (previous e : RepeatedEvidence) : RepeatedEvidence := {|
  ev_node := ev_node previous; ev_subject := ev_subject previous; ev_code := ev_code previous;
  ev_repeats := ev_repeats previous + ev_repeats e;
  ev_first_at := Aware (Z.min (to_utc (ev_first_at previous)) (to_utc (ev_first_at e)));
  ev_last_at := Aware (Z.max (to_utc (ev_last_at previous)) (to_utc (ev_last_at e)));
  ev_detail := if ev_sequence previous <? ev_sequence e then ev_detail e else ev_detail previous;
  ev_sequence := if ev_sequence previous <? ev_sequence e then ev_sequence e else ev_sequence previous |}.

Fixpoint group_into (e : RepeatedEvidence) (l : list RepeatedEvidence) : list RepeatedEvidence :=
  match l with
  | [] => [e]
  | x :: r => if bool_decide (group_key x = group_key e) then absorb x e :: r else x :: group_into e r
  end.

Definition cleared_at (events : list (string * RepeatedEvidence)) (pair_ : string * string) : Z :=
  last_clear (List.filter (fun x => bool_decide (event_pair (snd x) = pair_)) events).

Definition open_events (events : list (string * RepeatedEvidence)) : list RepeatedEvidence :=
  List.filter (fun e => negb (is_clear e) && (cleared_at events (event_pair e) <? ev_sequence e)) (snd <$> events).

Definition grouped (events : list (string * RepeatedEvidence)) : list RepeatedEvidence :=
  fold_left (fun l e => group_into e l) (open_events events) [].

(** Contact and load evidence of the nodes; a load's evidence is shown for a while. *)
Definition contact_summaries (db : EvidenceDb) (node_ids : list string) : list RepeatedEvidence :=
  flat_map (fun c => default [] (owner_evidence (ContactOwner c)))
    (List.filter (fun c => mem (contact_node c) node_ids) (contacts db)).

Definition load_summaries (db : EvidenceDb) (node_ids : list string) (now : datetime) : list RepeatedEvidence :=
  List.filter (fun e => mem (ev_node e) node_ids && (to_utc now - _SHOWN_FOR <=? to_utc (ev_last_at e)))
    (flat_map (fun a => default [] (owner_evidence (LoadOwner a))) (loads db)).

Definition AGENT_UPGRADE : string := value AgentOperation.AGENT_UPGRADE.
Definition awaiting_identity : string := value WaitReason.UPGRADE_AWAITING_IDENTITY.

(** [value.isoformat().replace("+00:00", "Z")] *)
Definition zulu (t : instant) : string :=
  let s := isoformat t in String.substring 0 (String.length s - 6) s +:+ "Z".

(** [%Y-%m-%dT%H:%MZ] *)
Definition minute_text (t : instant) : string :=
  let '(y, m, d) := civil_date (t / seconds 86400) in
  let s := t mod seconds 86400 / seconds 1 in
  pad 4 y +:+ "-" +:+ pad 2 m +:+ "-" +:+ pad 2 d +:+ "T" +:+ pad 2 (s / 3600) +:+ ":" +:+
  pad 2 (s / 60 mod 60) +:+ "Z".

Definition by_creation (a b : EvidenceOrder) : Prop :=
  to_utc (order_created_at a) < to_utc (order_created_at b) \/
  to_utc (order_created_at a) = to_utc (order_created_at b) /\ str_le (order_id a) (order_id b).
#[global] Instance by_creation_dec a b : Decision (by_creation a b).
Proof. unfold by_creation. apply _. Defined.

Definition is_live_upgrade (o : EvidenceOrder) : bool :=
  bool_decide (order_kind o = AGENT_UPGRADE) && mem (order_state o) AOS.LIVE.

(** The handoff an upgrade waits for, if it does. *)
Definition upgrade_wait (o : EvidenceOrder) : option string :=
  match order_attempt o, order_target o with
  | Some a, Some (build, binary) =>
      if bool_decide (ca_wait_reason a = Some awaiting_identity) then
        Some (awaiting_identity +:+ " op=" +:+ order_id o +:+ " target=" +:+ build +:+ "/" +:+ binary
              +:+ " deadline=" +:+ zulu (to_utc (default (ca_lease_deadline a) (order_deadline o))))
      else None
  | _, _ => None
  end.

Definition shown_lines := list (string * list string).
Fixpoint show (node_ line : string) (l : shown_lines) : shown_lines :=
  match l with
  | [] => [(node_, [line])]
  | (n, lines) :: r => if bool_decide (n = node_) then (n, lines ++ [line])%list :: r else (n, lines) :: show node_ line r
  end.

Definition _upgrade_identity_waits (db : EvidenceDb) (node_ids : list string) : shown_lines :=
  fold_left (fun l o => match upgrade_wait o with Some line => show (order_node o) line l | None => l end)
    (merge_sort by_creation
       (List.filter (fun o => mem (order_node o) node_ids && is_live_upgrade o) (orders db))) [].

Definition pair_le (a b : string * string) : Prop :=
  fst a <> fst b /\ str_le (fst a) (fst b) \/ fst a = fst b /\ str_le (snd a) (snd b).
#[global] Instance pair_le_dec a b : Decision (pair_le a b).
Proof. unfold pair_le. apply _. Defined.

Definition summary_le (a b : RepeatedEvidence) : Prop :=
  event_pair a <> event_pair b /\ pair_le (event_pair a) (event_pair b) \/
  event_pair a = event_pair b /\ str_le (default "" (ev_code a)) (default "" (ev_code b)).
#[global] Instance summary_le_dec a b : Decision (summary_le a b).
Proof. unfold summary_le. apply _. Defined.

(** The line of a summary that repeats often enough. *)
Definition summary_line (e : RepeatedEvidence) : option string :=
  match ev_code e with
  | None => None
  | Some code =>
      if negb (exhausted RECOVERY (ev_repeats e)) then None
      else if bool_decide (ev_subject e = AGENT_UPGRADE) && bool_decide (code = awaiting_identity) then None
      else Some (String.substring 0 256
                   (code +:+ " x" +:+ pretty (ev_repeats e) +:+ " on " +:+ ev_subject e +:+ " since " +:+
                    minute_text (to_utc (ev_first_at e)) +:+ ", last " +:+ minute_text (to_utc (ev_last_at e)) +:+
                    match ev_detail e with None => "" | Some d => ": " +:+ d end))
  end.

Definition unreadable_line (subject : string) : string :=
  "Repeated evidence for " +:+ subject +:+ " is unreadable; its current repetition is unknown.".

Definition repeating_evidence (db : EvidenceDb) (node_ids : list string) (now : datetime) : shown_lines :=
  let '(events, unreadable) := command_events db node_ids None in
  let summaries := (contact_summaries db node_ids ++ load_summaries db node_ids now ++ grouped events)%list in
  let shown := _upgrade_identity_waits db node_ids in
  let shown := fold_left (fun l p => show (fst p) (unreadable_line (snd p)) l)
                 (merge_sort pair_le (remove_dups unreadable)) shown in
  fold_left (fun l e => match summary_line e with Some line => show (ev_node e) line l | None => l end)
    (merge_sort summary_le summaries) shown.

(** ** Deleting history *)
Definition delete_orders (ids : list string) (db : EvidenceDb) : EvidenceDb :=
  set_orders (List.filter (fun o => negb (mem (order_id o) ids)) (orders db)) db.
