(* ===== verification/EvidenceRepeatsFacts.v ===== *)
(** * Repeated evidence: theorems

    The events of a (Spark, command), the invariant of the log, what noting a failure or a
    success counts, and that deleting the history the retention rule gives up changes
    nothing anybody is shown. *)
From stdpp Require Import sorting.
From S2P Require Import Prelude Vocabulary Recovery SparkAttempts SparkOrder EvidenceRepeats.

(** ** The events of one (Spark, command) *)
Definition of_pair (p : string * string) (o : EvidenceOrder) : bool := bool_decide (order_pair o = p).
Definition pair_events (db : EvidenceDb) (p : string * string) : list (string * RepeatedEvidence) :=
  flat_map order_events (List.filter (of_pair p) (orders db)).
Definition unreadable_pair (db : EvidenceDb) (p : string * string) : bool :=
  existsb (fun o => of_pair p o && is_unreadable o) (orders db).
Definition is_open (cleared : Z) (e : RepeatedEvidence) : bool := negb (is_clear e) && (cleared <? ev_sequence e).

Lemma order_events_bound o x :
  x ∈ order_events o -> fst x = order_id o /\ event_pair (snd x) = order_pair o /\ 0 < ev_sequence (snd x).
Proof.
  unfold order_events, owner_evidence. simpl. destruct (order_evidence o) as [|l|]; simpl;
    [by intros ?%elem_of_nil| |by intros ?%elem_of_nil].
  destruct (forallb _ l) eqn:Hall; simpl; [|by intros ?%elem_of_nil].
  intros (e & -> & He)%list_elem_of_fmap. rewrite forallb_forall in Hall.
  apply list_elem_of_In in He. specialize (Hall _ He). simpl in Hall. unfold event_pair, order_pair. simpl. bools.
  split_and!; [done|congruence|lia].
Qed.

Lemma order_events_listed o x : x ∈ order_events o -> snd x ∈ listed o.
Proof.
  unfold order_events, owner_evidence, listed. simpl. destruct (order_evidence o) as [|l|]; simpl;
    [by intros ?%elem_of_nil| |by intros ?%elem_of_nil].
  destruct (forallb _ l); simpl; [|by intros ?%elem_of_nil]. by intros (e & -> & He)%list_elem_of_fmap.
Qed.

Lemma unreadable_column o : is_unreadable o = true -> has_column o = true.
Proof.
  unfold is_unreadable, owner_evidence, has_column. simpl. by destruct (order_evidence o); case_bool_decide.
Qed.

Lemma no_column_events o : has_column o = false -> order_events o = [].
Proof. unfold order_events, owner_evidence, has_column. simpl. by destruct (order_evidence o). Qed.

Lemma unreadable_events o : is_unreadable o = true -> order_events o = [].
Proof. unfold is_unreadable, order_events. case_bool_decide as H; [|done]. by rewrite H. Qed.

Lemma pair_events_elem db p x :
  x ∈ pair_events db p <-> exists o, o ∈ orders db /\ order_pair o = p /\ x ∈ order_events o.
Proof.
  unfold pair_events. rewrite elem_of_flat_map. unfold of_pair. split.
  - intros (o & (Ho & Hp)%elem_of_filter_bool & Hx). exists o. bools. eauto.
  - intros (o & Ho & Hp & Hx). exists o. rewrite elem_of_filter_bool. split_and!; try done. by apply bool_decide_eq_true_2.
Qed.

Lemma pair_events_bound db p x : x ∈ pair_events db p -> event_pair (snd x) = p /\ 0 < ev_sequence (snd x).
Proof. intros (o & Ho & <- & (? & ? & ?)%order_events_bound)%pair_events_elem. done. Qed.

(** What a statement over several rows selects of one pair. *)
Lemma selected_pair_events db node_ids subject p :
  mem (fst p) node_ids = true -> match subject with Some s => s = snd p | None => True end ->
  List.filter (fun x => bool_decide (event_pair (snd x) = p))
    (flat_map order_events (List.filter (selected node_ids subject) (orders db))) = pair_events db p.
Proof.
  intros Hn Hs. unfold pair_events. rewrite filter_flat_map, !flat_map_filter. apply flat_map_ext_elem. intros o _.
  unfold of_pair. case_bool_decide as Hp.
  - assert (selected node_ids subject o = has_column o) as ->.
    { unfold selected, order_pair in *. subst p. cbn [fst snd] in *. rewrite Hn. cbn [andb].
      destruct subject as [s|]; [subst s; rewrite bool_decide_true by done|]; by rewrite andb_true_r. }
    destruct (has_column o) eqn:Hc; [|by rewrite no_column_events].
    apply filter_true. intros x (_ & Hx & _)%order_events_bound. apply bool_decide_eq_true_2. congruence.
  - destruct (selected node_ids subject o); [|done].
    apply filter_false. intros x (_ & Hx & _)%order_events_bound. apply bool_decide_eq_false_2. congruence.
Qed.

Lemma unreadable_mem db node_ids subject p :
  mem (fst p) node_ids = true -> match subject with Some s => s = snd p | None => True end ->
  mem p (snd (command_events db node_ids subject)) = unreadable_pair db p.
Proof.
  intros Hn Hs. simpl. apply eq_true_iff_eq. rewrite mem_true. unfold unreadable_pair. rewrite existsb_elem. split.
  - intros (o & -> & [[Ho Hsel]%elem_of_filter_bool Hu]%elem_of_filter_bool)%list_elem_of_fmap.
    exists o. split; [done|]. unfold of_pair. by rewrite bool_decide_true, Hu by done.
  - intros (o & Ho & [Hp%bool_decide_eq_true Hu]%andb_true_iff). subst p. apply list_elem_of_fmap.
    exists o. split; [done|]. rewrite !elem_of_filter_bool. split_and!; try done.
    unfold selected. rewrite (unreadable_column o) by done. unfold order_pair in *. cbn [fst snd] in *. rewrite Hn. cbn [andb].
    destruct subject; [|done]. subst. by rewrite bool_decide_true by done.
Qed.

Lemma command_events_pair db node_ids subject p :
  mem (fst p) node_ids = true -> match subject with Some s => s = snd p | None => True end ->
  List.filter (fun x => bool_decide (event_pair (snd x) = p)) (fst (command_events db node_ids subject)) =
  if unreadable_pair db p then [] else pair_events db p.
Proof.
  intros Hn Hs. rewrite <- (unreadable_mem db node_ids subject) by done.
  unfold command_events. cbn [fst snd]. set (U := map order_pair _).
  rewrite filter_filter. rewrite (filter_ext_elem _ (fun x => bool_decide (event_pair (snd x) = p) && negb (mem p U))).
  2:{ intros x _. case_bool_decide as E; [|by rewrite andb_false_r]. by rewrite andb_true_r, E. }
  rewrite <- filter_filter, selected_pair_events by done.
  destruct (mem p U); simpl; [apply filter_false|apply filter_true]; done.
Qed.

(** The statement on one pair. *)
Lemma command_events_one db n s :
  fst (command_events db [n] (Some s)) = if unreadable_pair db (n, s) then [] else pair_events db (n, s).
Proof.
  rewrite <- (command_events_pair db [n] (Some s)); [|by apply mem_true; left|done].
  symmetry. apply filter_true. intros x Hx. apply bool_decide_eq_true_2. revert Hx. unfold command_events. cbn [fst].
  intros [Hx _]%elem_of_filter_bool. apply elem_of_flat_map in Hx as (o & [_ Ho]%elem_of_filter_bool & Hx).
  apply order_events_bound in Hx as (_ & -> & _). unfold selected in Ho. bools. apply list_elem_of_singleton in H.
  unfold order_pair. congruence.
Qed.

(** ** Summaries of two tables *)

(** Nobody can tell the second table from the first: it lacks the orders [dead], whose events
    are all closed in the first, and every failure it still has is open exactly when it was. *)
Record indistinct (dead : list string) (db db' : EvidenceDb) : Prop := {
  in_dialect : postgresql db' = postgresql db;
  in_nodes : nodes db' = nodes db;
  in_contacts : contacts db' = contacts db;
  in_loads : loads db' = loads db;
  in_last : sequence_last db' = sequence_last db;
  in_orders : orders db' = List.filter (fun o => negb (mem (order_id o) dead)) (orders db);
  in_readable : forall o, o ∈ orders db -> order_id o ∈ dead -> is_unreadable o = false /\ is_live_upgrade o = false;
  in_open : forall p x, x ∈ pair_events db p -> is_clear (snd x) = false ->
    is_open (last_clear (pair_events db p)) (snd x) =
    negb (mem (fst x) dead) && is_open (last_clear (pair_events db' p)) (snd x);
}.

Lemma is_open_failure c e : is_open c e = true -> is_clear e = false.
Proof. unfold is_open. by destruct (is_clear e). Qed.

Lemma is_open_clear c e : is_clear e = true -> is_open c e = false.
Proof. unfold is_open. by intros ->. Qed.

Lemma indistinct_unreadable dead db db' p : indistinct dead db db' -> unreadable_pair db' p = unreadable_pair db p.
Proof.
  intros H. unfold unreadable_pair. rewrite (in_orders _ _ _ H). apply eq_true_iff_eq. rewrite !existsb_elem. split.
  - intros (o & [Ho _]%elem_of_filter_bool & Hu). eauto.
  - intros (o & Ho & Hu). exists o. split; [|done]. apply elem_of_filter_bool. split; [done|]. apply negb_true_iff, mem_false.
    intros Hd. destruct (in_readable _ _ _ H o Ho Hd) as [Hr _]. rewrite Hr, andb_false_r in Hu. done.
Qed.

(** The events of the second table are those of the first without the dead orders. *)
Lemma live_events dead l :
  flat_map order_events (List.filter (fun o => negb (mem (order_id o) dead)) l) =
  List.filter (fun x => negb (mem (fst x) dead)) (flat_map order_events l).
Proof.
  rewrite filter_flat_map, flat_map_filter. apply flat_map_ext_elem. intros o _.
  destruct (negb (mem (order_id o) dead)) eqn:E; symmetry; [apply filter_true|apply filter_false];
    intros x (-> & _)%order_events_bound; done.
Qed.

Lemma indistinct_pair_events dead db db' p :
  indistinct dead db db' ->
  pair_events db' p = List.filter (fun x => negb (mem (fst x) dead)) (pair_events db p).
Proof. intros H. unfold pair_events. by rewrite (in_orders _ _ _ H), filter_comm, live_events. Qed.

Lemma indistinct_command_events dead db db' node_ids :
  indistinct dead db db' ->
  let '(e, u) := command_events db node_ids None in
  command_events db' node_ids None = (List.filter (fun x => negb (mem (fst x) dead)) e, u).
Proof.
  intros H. unfold command_events. rewrite (in_orders _ _ _ H).
  rewrite (filter_comm (selected node_ids None)). set (rows := List.filter (selected node_ids None) (orders db)).
  assert (List.filter is_unreadable (List.filter (fun o => negb (mem (order_id o) dead)) rows) = List.filter is_unreadable rows) as ->.
  { rewrite filter_filter. apply filter_ext_elem. intros o [Ho _]%elem_of_filter_bool.
    destruct (mem (order_id o) dead) eqn:Hd; [|done]. apply mem_true in Hd.
    by destruct (in_readable _ _ _ H o Ho Hd) as [-> _]. }
  f_equal. rewrite live_events. apply filter_comm.
Qed.

(** The clear a summary compares an event with is the newest one of its pair. *)
Lemma cleared_at_pair db node_ids x :
  x ∈ fst (command_events db node_ids None) ->
  unreadable_pair db (event_pair (snd x)) = false /\ x ∈ pair_events db (event_pair (snd x)) /\
  cleared_at (fst (command_events db node_ids None)) (event_pair (snd x)) =
  last_clear (pair_events db (event_pair (snd x))).
Proof.
  intros Hx. assert (mem (fst (event_pair (snd x))) node_ids = true) as Hn.
  { revert Hx. unfold command_events. cbn [fst]. intros [Hx _]%elem_of_filter_bool.
    apply elem_of_flat_map in Hx as (o & [_ Ho]%elem_of_filter_bool & (_ & -> & _)%order_events_bound).
    unfold selected in Ho. by apply andb_true_iff in Ho as [[Ho _]%andb_true_iff _]. }
  pose proof (command_events_pair db node_ids None _ Hn I) as E.
  assert (x ∈ List.filter (fun y => bool_decide (event_pair (snd y) = event_pair (snd x))) (fst (command_events db node_ids None))) as Hin.
  { apply elem_of_filter_bool. split; [done|]. by apply bool_decide_eq_true_2. }
  unfold cleared_at. rewrite E in *. destruct (unreadable_pair db _); [by apply elem_of_nil in Hin|]. done.
Qed.

Lemma open_events_is_open events :
  open_events events = List.filter (fun e => is_open (cleared_at events (event_pair e)) e) (snd <$> events).
Proof. done. Qed.

Lemma filter_fmap {A B} (f : A -> B) (g : B -> bool) l : List.filter g (f <$> l) = f <$> List.filter (fun a => g (f a)) l.
Proof. induction l as [|a l IH]; [done|]. rewrite fmap_cons. cbn [List.filter]. rewrite IH. by destruct (g (f a)). Qed.

Lemma indistinct_open_events dead db db' node_ids :
  indistinct dead db db' ->
  open_events (fst (command_events db' node_ids None)) = open_events (fst (command_events db node_ids None)).
Proof.
  intros H. pose proof (indistinct_command_events dead db db' node_ids H) as E.
  pose proof (cleared_at_pair db node_ids) as C. pose proof (cleared_at_pair db' node_ids) as C'.
  destruct (command_events db node_ids None) as [e u]. rewrite E in *. cbn [fst] in *.
  rewrite !open_events_is_open, !filter_fmap, filter_filter. f_equal. apply filter_ext_elem. intros x Hx.
  destruct (C x Hx) as (_ & Hp & ->). destruct (is_clear (snd x)) eqn:Hc.
  { rewrite !is_open_clear, andb_false_r by done. done. }
  rewrite (in_open _ _ _ H) by done. destruct (mem (fst x) dead) eqn:Hd; [done|]. cbn [negb andb].
  destruct (C' x) as (_ & _ & ->); [|done]. apply elem_of_filter_bool. by rewrite Hd.
Qed.

Theorem indistinct_shown dead db db' node_ids now :
  indistinct dead db db' -> repeating_evidence db' node_ids now = repeating_evidence db node_ids now.
Proof.
  intros H. unfold repeating_evidence. pose proof (indistinct_command_events dead db db' node_ids H) as E.
  pose proof (indistinct_open_events dead db db' node_ids H) as O.
  destruct (command_events db node_ids None) as [e u]. rewrite E in *. cbn [fst] in O.
  unfold grouped, contact_summaries, load_summaries, _upgrade_identity_waits.
  rewrite O, (in_contacts _ _ _ H), (in_loads _ _ _ H), (in_orders _ _ _ H), filter_comm.
  rewrite (filter_true (fun o => negb (mem (order_id o) dead))); [done|].
  intros o [Ho Hl]%elem_of_filter_bool. apply negb_true_iff, mem_false. intros Hd.
  destruct (in_readable _ _ _ H o Ho Hd) as [_ Hu]. rewrite Hu, andb_false_r in Hl. done.
Qed.

Lemma indistinct_refl db : indistinct [] db db.
Proof.
  constructor; try done.
  - symmetry. by apply filter_true.
  - by intros o _ ?%elem_of_nil.
Qed.

Lemma indistinct_trans dead dead' db db' db'' :
  indistinct dead db db' -> indistinct dead' db' db'' -> indistinct (dead' ++ dead) db db''.
Proof.
  intros H H'. assert (forall i, mem i (dead' ++ dead) = mem i dead || mem i dead') as Hm.
  { intros i. apply eq_true_iff_eq. rewrite orb_true_iff, !mem_true, elem_of_app. naive_solver. }
  constructor.
  1-5: destruct H, H'; congruence.
  - rewrite (in_orders _ _ _ H'), (in_orders _ _ _ H), filter_filter. apply filter_ext_elem. intros o _.
    by rewrite Hm, negb_orb.
  - intros o Ho Hd. destruct (mem (order_id o) dead) eqn:E; [apply mem_true in E; by apply (in_readable _ _ _ H)|].
    apply (in_readable _ _ _ H').
    + rewrite (in_orders _ _ _ H). apply elem_of_filter_bool. by rewrite E.
    + apply mem_true. apply mem_true in Hd. by rewrite Hm, E in Hd.
  - intros p x Hx Hc. rewrite (in_open _ _ _ H) by done. rewrite Hm. destruct (mem (fst x) dead) eqn:E; [done|].
    cbn [negb andb orb]. apply (in_open _ _ _ H'); [|done].
    rewrite (indistinct_pair_events _ _ _ _ H). apply elem_of_filter_bool. by rewrite E.
Qed.

(** ** The invariant of the log *)

(** Orders have distinct ids, and no two events a sequence value in common. *)
Definition sequences (db : EvidenceDb) : list Z := ev_sequence <$> flat_map listed (orders db).
Record log_ok (db : EvidenceDb) : Prop := {
  log_ids : NoDup (order_id <$> orders db);
  log_sequences : NoDup (sequences db);
  log_nonneg : 0 <= sequence_last db /\ forall z, z ∈ sequences db -> 0 <= z;
  log_last : postgresql db = true -> forall z, z ∈ sequences db -> z <= sequence_last db;
}.

Lemma pair_events_listed db p x : x ∈ pair_events db p -> snd x ∈ flat_map listed (orders db).
Proof.
  intros (o & Ho & _ & Hx)%pair_events_elem. apply elem_of_flat_map. exists o. split; [done|]. by apply order_events_listed.
Qed.

Lemma sequence_inj db p q x y :
  log_ok db -> x ∈ pair_events db p -> y ∈ pair_events db q -> ev_sequence (snd x) = ev_sequence (snd y) -> snd x = snd y.
Proof.
  intros H Hx%pair_events_listed Hy%pair_events_listed. by apply (key_inj ev_sequence _ _ _ (log_sequences _ H)).
Qed.

Lemma last_clear_spec l :
  (last_clear l = -1 /\ forall x, x ∈ l -> is_clear (snd x) = false) \/
  (exists x, x ∈ l /\ is_clear (snd x) = true /\ ev_sequence (snd x) = last_clear l /\
     forall y, y ∈ l -> is_clear (snd y) = true -> ev_sequence (snd y) <= last_clear l).
Proof.
  unfold last_clear. destruct (max_list _) as [m|] eqn:E; simpl.
  - right. apply max_list_spec in E as [Hin Hmax]. apply list_elem_of_fmap in Hin as (e & -> & He).
    apply elem_of_filter_bool in He as [(x & -> & Hx)%list_elem_of_fmap Hc]. exists x. split_and!; try done.
    intros y Hy Hyc. apply Hmax. apply list_elem_of_fmap. exists (snd y). split; [done|].
    apply elem_of_filter_bool. split; [|done]. apply list_elem_of_fmap. eauto.
  - left. split; [done|]. intros x Hx. apply max_list_None in E. apply not_true_iff_false. intros Hc.
    assert (snd x ∈ List.filter is_clear (snd <$> l)) as Hin.
    { apply elem_of_filter_bool. split; [|done]. apply list_elem_of_fmap. eauto. }
    apply fmap_nil_inv in E. rewrite E in Hin. by apply elem_of_nil in Hin.
Qed.

Lemma last_clear_ge l x : x ∈ l -> is_clear (snd x) = true -> ev_sequence (snd x) <= last_clear l.
Proof. intros Hx Hc. destruct (last_clear_spec l) as [[_ H]|(y & _ & _ & _ & H)]; [by rewrite H in Hc|auto]. Qed.

Lemma last_clear_sub l k : (forall x, x ∈ k -> x ∈ l) -> (forall x, x ∈ l -> 0 < ev_sequence (snd x)) -> last_clear k <= last_clear l.
Proof.
  intros Hsub Hpos. destruct (last_clear_spec k) as [[-> _]|(x & Hx & Hc & <- & _)].
  - destruct (last_clear_spec l) as [[-> _]|(y & Hy & _ & <- & _)]; [done|]. specialize (Hpos _ Hy). lia.
  - apply last_clear_ge; auto.
Qed.

(** ** Deleting what is not needed *)
Definition disposable (db : EvidenceDb) (ids : list string) : Prop :=
  forall o, o ∈ orders db -> order_id o ∈ ids -> command_evidence_needed db o = false /\ is_live_upgrade o = false.

Lemma needed_false db o :
  command_evidence_needed db o = false ->
  is_unreadable o = false /\
  (order_events o <> [] -> unreadable_pair db (order_pair o) = false) /\
  let cleared := last_clear (pair_events db (order_pair o)) in
  (forall x, x ∈ order_events o -> unreadable_pair db (order_pair o) = false /\
     is_open cleared (snd x) = false) /\
  (forall x y, x ∈ order_events o -> is_clear (snd x) = true -> ev_sequence (snd x) = cleared ->
     y ∈ pair_events db (order_pair o) -> is_clear (snd y) = false -> ev_sequence (snd y) < cleared ->
     fst y = order_id o).
Proof.
  unfold command_evidence_needed, is_unreadable, order_events. destruct (owner_evidence (OrderOwner o)) as [own|]; [|done].
  intros H. split; [done|]. destruct own as [|e0 own]; [by split_and!; intros; set_solver|].
  simpl default. set (l := e0 :: own) in *. clearbody l.
  pose proof (command_events_one db (order_node o) (order_kind o)) as E.
  pose proof (unreadable_mem db [order_node o] (Some (order_kind o)) (order_pair o)) as U.
  destruct (command_events db [order_node o] (Some (order_kind o))) as [events un]. cbn [fst snd] in *.
  rewrite U in H; [|by apply mem_true; left|done]. apply orb_false_iff in H as [[Hu Hfail]%orb_false_iff Hclear].
  change (order_node o, order_kind o) with (order_pair o) in E. rewrite Hu in E. subst events.
  rewrite existsb_none in Hfail. split_and!; [done| |].
  - intros x (e & -> & He)%list_elem_of_fmap. split; [done|]. by apply Hfail.
  - intros x y (e & -> & He)%list_elem_of_fmap Hc Hs Hy Hyc Hlt. cbn [snd] in *.
    apply andb_false_iff in Hclear as [Hclear|Hclear]; rewrite existsb_none in Hclear.
    + specialize (Hclear _ He). rewrite Hc, Hs, Z.eqb_refl in Hclear. done.
    + specialize (Hclear _ Hy). rewrite Hyc, (proj2 (Z.ltb_lt _ _) Hlt), !andb_true_r in Hclear. bools.
      by destruct (decide (fst y = order_id o)).
Qed.

Lemma delete_indistinct db ids : log_ok db -> disposable db ids -> indistinct ids db (delete_orders ids db).
Proof.
  intros Hok Hd. constructor; try done.
  - intros o Ho Hi. destruct (Hd o Ho Hi) as [(? & _)%needed_false ?]. done.
  - intros p x Hx Hc. set (db' := delete_orders ids db).
    assert (forall y, y ∈ pair_events db' p <-> y ∈ pair_events db p /\ mem (fst y) ids = false) as Hsub.
    { intros y. unfold pair_events, db', delete_orders, set_orders. cbn [orders]. rewrite filter_comm, live_events, elem_of_filter_bool.
      by rewrite negb_true_iff. }
    assert (forall y, y ∈ pair_events db p -> mem (fst y) ids = true ->
      exists o, o ∈ orders db /\ order_pair o = p /\ y ∈ order_events o /\ command_evidence_needed db o = false) as Hgone.
    { intros y (o & Ho & <- & Hy)%pair_events_elem Hm. exists o. split_and!; try done.
      apply Hd; [done|]. apply mem_true in Hm. by destruct (order_events_bound o y Hy) as (<- & _). }
    destruct (mem (fst x) ids) eqn:Hm; cbn [negb andb].
    { destruct (Hgone x Hx Hm) as (o & Ho & <- & Hxo & (_ & _ & Hn & _)%needed_false). by destruct (Hn x Hxo). }
    unfold is_open. rewrite Hc. cbn [negb andb].
    assert (last_clear (pair_events db' p) <= last_clear (pair_events db p)) as Hle.
    { apply last_clear_sub; [intros y ?%Hsub; tauto|]. by intros y (_ & ?)%pair_events_bound. }
    destruct (last_clear (pair_events db p) <? _) eqn:E1; bools; [symmetry; apply Z.ltb_lt; lia|].
    symmetry. apply Z.ltb_ge. destruct (last_clear_spec (pair_events db p)) as [[E _]|(y & Hy & Hyc & Hys & _)].
    { pose proof (pair_events_bound _ _ _ Hx). lia. }
    destruct (mem (fst y) ids) eqn:Hym.
    + destruct (Hgone y Hy Hym) as (o & Ho & <- & Hyo & (_ & _ & _ & Hn)%needed_false). exfalso.
      destruct (decide (ev_sequence (snd x) = last_clear (pair_events db (order_pair o)))) as [Heq|Hne].
      { assert (snd x = snd y) as Hxy by (eapply sequence_inj; [done..|congruence]). congruence. }
      apply Hm. rewrite (Hn y x) by (done || lia). apply mem_true in Hym.
      by destruct (order_events_bound o y Hyo) as (<- & _).
    + transitivity (ev_sequence (snd y)); [lia|]. apply last_clear_ge; [|done]. by apply Hsub.
Qed.

(** ** Histories *)

(** What may happen to the tables: notes, a new order, the other columns of an order, and
    the deletion of ended orders whose evidence is not needed. *)
Inductive evidence_step :=
| NoteRepeat (subject node_ code : string) (now : datetime) (detail : option string)
    (operation : option EvidenceOrder) (refused : bool)
| NoteSuccess (subject node_ : string) (operation : option EvidenceOrder) (now : option datetime) (refused : bool)
| NewOrder (o : EvidenceOrder)
| Progress (id_ state_ : string) (updated : datetime) (deadline : option datetime) (attempt : option CurrentAttempt)
| Forget (ids : list string).

Definition droppable (db : EvidenceDb) (o : EvidenceOrder) : bool :=
  negb (mem (order_state o) AOS.LIVE) && negb (command_evidence_needed db o).
Definition forgotten (db : EvidenceDb) (ids : list string) : list string :=
  order_id <$> List.filter (fun o => mem (order_id o) ids && droppable db o) (orders db).

Definition advance (id_ state_ : string) (updated : datetime) (deadline : option datetime)
    (attempt : option CurrentAttempt) (o : EvidenceOrder) : EvidenceOrder :=
  if bool_decide (order_id o = id_) then {|
    order_id := order_id o; order_node := order_node o; order_kind := order_kind o; order_state := state_;
    order_created_at := order_created_at o; order_updated_at := updated; order_deadline := deadline;
    order_attempt := attempt; order_target := order_target o; order_evidence := order_evidence o |}
  else o.

Definition kept {A} (r : result A) (a : A) : A := match r with Ok x => x | Raise _ => a end.

Definition step (db : EvidenceDb) (s : evidence_step) : EvidenceDb :=
  match s with
  | NoteRepeat subject n code now detail op refused => kept (note_repeat subject n code now detail op refused db) db
  | NoteSuccess subject n op now refused => kept (note_success subject n op now refused db) db
  | NewOrder o =>
      if mem (order_id o) (order_id <$> orders db) then db
      else set_orders (orders db ++ [store_order_evidence [] o])%list db
  | Progress i st up dl att => set_orders (map (advance i st up dl att) (orders db)) db
  | Forget ids => delete_orders (forgotten db ids) db
  end.
Definition run_steps (db : EvidenceDb) (ss : list evidence_step) : EvidenceDb := fold_left step ss db.

(** ** Writing an order *)
Lemma owner_listed o ev : owner_evidence (OrderOwner o) = Some ev -> listed o = ev /\ forallb (bound (OrderOwner o)) ev = true.
Proof.
  unfold owner_evidence, listed. simpl. destruct (order_evidence o) as [|l|]; [by intros [= <-]| |done].
  destruct (forallb _ l) eqn:E; [by intros [= <-]|done].
Qed.

Lemma stored_owner o l : forallb (bound (OrderOwner o)) l = true -> owner_evidence (OrderOwner (store_order_evidence l o)) = Some l.
Proof.
  intros H. unfold owner_evidence. destruct l as [|e l]; [done|]. cbn [column_of order_evidence store_order_evidence stored].
  by assert (forallb (bound (OrderOwner (store_order_evidence (e :: l) o))) (e :: l) = true) as -> by exact H.
Qed.

Lemma stored_listed o l : listed (store_order_evidence l o) = l.
Proof. unfold listed. simpl. by destruct l. Qed.

Lemma find_order_spec i db o : find_order i db = Some o -> o ∈ orders db /\ order_id o = i.
Proof. intros [H E]%find_some. bools. split; [by apply list_elem_of_In|done]. Qed.

Lemma write_split db o l :
  NoDup (order_id <$> orders db) -> o ∈ orders db ->
  exists l1 l2, orders db = (l1 ++ o :: l2)%list /\
    orders (_write (OrderOwner o) l db) = (l1 ++ store_order_evidence l o :: l2)%list.
Proof.
  intros Hn Ho. apply list_elem_of_split in Ho as (l1 & l2 & E). exists l1, l2. split; [done|]. simpl. rewrite E in *.
  rewrite fmap_app, fmap_cons in Hn. apply NoDup_app in Hn as (_ & H1 & [H2 _]%NoDup_cons).
  rewrite map_app. simpl. rewrite bool_decide_true by done. f_equal; [|f_equal].
  - rewrite <- (map_id l1) at 2. apply map_ext_in. intros x Hx. rewrite bool_decide_false; [done|]. intros Heq.
    apply (H1 (order_id x)); [apply list_elem_of_fmap; exists x; split; [done|by apply list_elem_of_In]|]. rewrite Heq. by left.
  - rewrite <- (map_id l2) at 2. apply map_ext_in. intros x Hx. rewrite bool_decide_false; [done|]. intros Heq.
    apply H2. rewrite <- Heq. apply list_elem_of_fmap. exists x. split; [done|]. by apply list_elem_of_In.
Qed.

(** An order's row gets one event more. *)
Lemma write_event db o ev e :
  NoDup (order_id <$> orders db) -> o ∈ orders db -> owner_evidence (OrderOwner o) = Some ev ->
  bound (OrderOwner o) e = true ->
  let db' := _write (OrderOwner o) (ev ++ [e])%list db in
  (order_id <$> orders db' = order_id <$> orders db) /\
  sequences db' ≡ₚ ev_sequence e :: sequences db /\
  forall p x, x ∈ pair_events db' p <-> x ∈ pair_events db p \/ p = order_pair o /\ x = (order_id o, e).
Proof.
  intros Hn Ho Hev Hb db'. destruct (write_split db o (ev ++ [e])%list Hn Ho) as (l1 & l2 & E & E').
  destruct (owner_listed o ev Hev) as [Hl Hall]. fold db' in E'.
  assert (forallb (bound (OrderOwner o)) (ev ++ [e]) = true) as Hall' by (by rewrite forallb_app, Hall; cbn [forallb andb]; rewrite Hb).
  split_and!.
  - by rewrite E, E', !fmap_app, !fmap_cons.
  - unfold sequences. rewrite E, E', !flat_map_app. simpl. rewrite stored_listed, Hl, !fmap_app. simpl.
    rewrite <- !app_assoc. simpl. rewrite !(Permutation_app_comm (ev_sequence <$> flat_map listed l1)). simpl.
    rewrite <- !app_assoc. apply Permutation_sym, Permutation_middle.
  - intros p x. rewrite !pair_events_elem. setoid_rewrite E. setoid_rewrite E'. setoid_rewrite elem_of_app. setoid_rewrite elem_of_cons.
    assert (forall y, y ∈ order_events (store_order_evidence (ev ++ [e]) o) <-> y ∈ order_events o \/ y = (order_id o, e)) as Hy.
    { intros y. unfold order_events. rewrite stored_owner, Hev by done. simpl default. rewrite map_app, elem_of_app. simpl.
      by rewrite list_elem_of_singleton. }
    split.
    + intros (o0 & [?|[->|?]] & Hp & Hx); [naive_solver| |naive_solver]. apply Hy in Hx as [Hx| ->]; [|by right].
      left. exists o. naive_solver.
    + intros [(o0 & [?|[->|?]] & Hp & Hx)|[-> ->]]; [naive_solver| |naive_solver|].
      * exists (store_order_evidence (ev ++ [e]) o). split_and!; [by right; left|done|]. apply Hy. by left.
      * exists (store_order_evidence (ev ++ [e]) o). split_and!; [by right; left|done|]. apply Hy. by right.
Qed.

Lemma next_sequence_spec db z db1 :
  log_ok db -> next_sequence db = Some (z, db1) ->
  0 < z /\ (forall y, y ∈ sequences db -> y < z) /\ db1 = set_last (sequence_last db1) db /\
  sequence_last db <= sequence_last db1 /\ (postgresql db = true -> z = sequence_last db1).
Proof.
  intros H. unfold next_sequence. destruct (log_nonneg _ H) as [H0 H0']. destruct (postgresql db) eqn:Hp.
  - destruct (_ <? _); [|done]. intros [= <- <-]. simpl. split_and!; try done; try lia.
    intros y Hy%(log_last _ H Hp). lia.
  - intros [= <- <-]. split_and!; try done; [..|by destruct db].
    + destruct (max_list _) as [m|] eqn:E; simpl; [|lia]. apply max_list_spec in E as [Hm%H0' _]. lia.
    + intros y Hy. fold (sequences db). destruct (max_list (sequences db)) as [m|] eqn:E; simpl.
      * apply max_list_spec in E as [_ E]. specialize (E y Hy). lia.
      * apply max_list_None in E. rewrite E in Hy. by apply elem_of_nil in Hy.
Qed.

Lemma log_set_last db z : log_ok db -> sequence_last db <= z -> log_ok (set_last z db).
Proof.
  intros [H1 H2 [H3 H3'] H4] Hz. constructor; try done; simpl.
  - split; [lia|done].
  - intros Hp y Hy. specialize (H4 Hp y Hy). lia.
Qed.

Lemma log_write db o ev e :
  log_ok db -> o ∈ orders db -> owner_evidence (OrderOwner o) = Some ev -> bound (OrderOwner o) e = true ->
  (forall y, y ∈ sequences db -> y < ev_sequence e) -> 0 < ev_sequence e ->
  (postgresql db = true -> ev_sequence e <= sequence_last db) ->
  log_ok (_write (OrderOwner o) (ev ++ [e])%list db).
Proof.
  intros H Ho Hev Hb Hnew Hpos Hlast. destruct (write_event db o ev e (log_ids _ H) Ho Hev Hb) as (E1 & E2 & _).
  constructor.
  - rewrite E1. apply H.
  - rewrite E2. apply NoDup_cons. split; [|apply H]. intros Hin%Hnew. lia.
  - destruct (log_nonneg _ H) as [H0 H1]. split; [exact H0|]. intros z. rewrite E2, elem_of_cons. intros [->|Hz]; [lia|]. by apply H1.
  - intros Hp z. rewrite E2, elem_of_cons. intros [->|Hz]; [by apply Hlast|]. by apply (log_last _ H).
Qed.

Lemma last_clear_ext l k : (forall x, x ∈ l <-> x ∈ k) -> last_clear l = last_clear k.
Proof.
  intros H. destruct (last_clear_spec l) as [[-> H1]|(x & Hx & Hc & Hs & _)], (last_clear_spec k) as [[-> H2]|(y & Hy & Hc' & Hs' & _)].
  - done.
  - rewrite <- H in Hy. by rewrite (H1 y) in Hc'.
  - rewrite H in Hx. by rewrite (H2 x) in Hc.
  - apply Z.le_antisymm; [rewrite <- Hs|rewrite <- Hs']; apply last_clear_ge; try done; by apply H.
Qed.

(** The events of the other orders stay; a new clear is the newest. *)
Lemma last_clear_write db o ev e p :
  log_ok db -> o ∈ orders db -> owner_evidence (OrderOwner o) = Some ev -> bound (OrderOwner o) e = true ->
  (forall y, y ∈ sequences db -> y < ev_sequence e) ->
  last_clear (pair_events (_write (OrderOwner o) (ev ++ [e])%list db) p) =
  if bool_decide (p = order_pair o) && is_clear e then ev_sequence e else last_clear (pair_events db p).
Proof.
  intros H Ho Hev Hb Hnew. destruct (write_event db o ev e (log_ids _ H) Ho Hev Hb) as (_ & _ & E).
  set (db' := _write _ _ _) in *. destruct (bool_decide (p = order_pair o) && is_clear e) eqn:Ec.
  - apply andb_true_iff in Ec as [Hp%bool_decide_eq_true Hc]. apply Z.le_antisymm.
    + destruct (last_clear_spec (pair_events db' p)) as [[-> _]|(x & Hx & _ & <- & _)].
      { simpl in Hb. bools. lia. }
      apply E in Hx as [Hx|[_ ->]]; [|done]. apply Z.lt_le_incl, Hnew.
      apply list_elem_of_fmap. exists (snd x). split; [done|]. by eapply pair_events_listed.
    + apply (last_clear_ge _ (order_id o, e)); [|done]. apply E. by right.
  - destruct (last_clear_spec (pair_events db' p)) as [[-> H1]|(x & Hx & Hc & Hs & Hmax)].
    + destruct (last_clear_spec (pair_events db p)) as [[-> _]|(y & Hy & Hyc & _)]; [done|].
      rewrite (H1 y) in Hyc; [done|]. apply E. by left.
    + apply Z.le_antisymm.
      * rewrite <- Hs. apply last_clear_ge; [|done]. apply E in Hx as [Hx|[-> ->]]; [done|].
        rewrite bool_decide_true in Ec by done. simpl in Ec, Hc. congruence.
      * apply last_clear_sub; [intros y Hy; apply E; by left|]. intros y Hy. by destruct (pair_events_bound _ _ _ Hy).
Qed.

Lemma indistinct_sequences dead db db' z : indistinct dead db db' -> z ∈ sequences db' -> z ∈ sequences db.
Proof.
  intros H. unfold sequences. rewrite (in_orders _ _ _ H). intros (e & -> & (o & [Ho _]%elem_of_filter_bool & He)%elem_of_flat_map)%list_elem_of_fmap.
  apply list_elem_of_fmap. exists e. split; [done|]. apply elem_of_flat_map. eauto.
Qed.

Lemma indistinct_write dead db db' o ev e :
  indistinct dead db db' -> log_ok db -> log_ok db' -> o ∈ orders db -> order_id o ∉ dead ->
  owner_evidence (OrderOwner o) = Some ev -> bound (OrderOwner o) e = true ->
  (forall y, y ∈ sequences db -> y < ev_sequence e) ->
  indistinct dead (_write (OrderOwner o) (ev ++ [e])%list db) (_write (OrderOwner o) (ev ++ [e])%list db').
Proof.
  intros H Hok Hok' Ho Hd Hev Hb Hnew.
  assert (o ∈ orders db') as Ho'.
  { rewrite (in_orders _ _ _ H). apply elem_of_filter_bool. split; [done|]. by apply negb_true_iff, mem_false. }
  assert (forall y, y ∈ sequences db' -> y < ev_sequence e) as Hnew' by (intros y Hy; by eapply Hnew, indistinct_sequences).
  pose proof (write_event db o ev e (log_ids _ Hok) Ho Hev Hb) as (_ & _ & E).
  constructor; try apply H.
  - simpl. rewrite (in_orders _ _ _ H). clear. induction (orders db) as [|x l IH]; [done|]. simpl.
    case_bool_decide as Hx; simpl; destruct (negb (mem (order_id x) dead)) eqn:Hm; simpl; rewrite ?IH; try done;
      [by rewrite bool_decide_true by done|by rewrite bool_decide_false by done].
  - intros x (y & -> & Hy)%list_elem_of_fmap. case_bool_decide as Hx; [|by apply (in_readable _ _ _ H)].
    simpl. intros Hxd. exfalso. apply Hd. by rewrite <- Hx.
  - intros p x Hx Hc. rewrite !last_clear_write by done. apply E in Hx as [Hx|[-> ->]].
    + case_bool_decide as Hp; cbn [andb]; [|by apply (in_open _ _ _ H)].
      destruct (is_clear e) eqn:Hce; [|by apply (in_open _ _ _ H)].
      assert (ev_sequence (snd x) < ev_sequence e).
      { apply Hnew. apply list_elem_of_fmap. exists (snd x). split; [done|]. by eapply pair_events_listed. }
      unfold is_open. rewrite (proj2 (Z.ltb_ge _ _)), !andb_false_r by lia. done.
    + cbn [snd] in *. rewrite Hc, andb_false_r. cbn [fst]. rewrite (proj2 (mem_false _ _) Hd). cbn [negb andb].
      assert (forall d, log_ok d -> (forall y, y ∈ sequences d -> y < ev_sequence e) ->
                is_open (last_clear (pair_events d (order_pair o))) e = true) as Hop.
      { intros d Hd1 Hd2. unfold is_open. rewrite Hc. apply Z.ltb_lt.
        destruct (last_clear_spec (pair_events d (order_pair o))) as [[-> _]|(y & Hy & _ & <- & _)].
        - simpl in Hb. bools. lia.
        - apply Hd2. apply list_elem_of_fmap. exists (snd y). split; [done|]. by eapply pair_events_listed. }
      by rewrite !Hop.
Qed.

(** ** Notes on contacts and loads leave the log alone *)
Definition on_order (subject : string) : bool := negb (is_contact_subject subject) && negb (String.prefix _LOAD subject).

(** The result on a table with other orders is the same change beside those orders. *)
Definition beside (r r' : result EvidenceDb) (l : list EvidenceOrder) : Prop :=
  match r, r' with
  | Ok d, Ok d' => d' = set_orders l d
  | Raise e, Raise e' => e = e'
  | _, _ => False
  end.
Definition leaves_orders (r : result EvidenceDb) (db : EvidenceDb) : Prop :=
  match r with
  | Ok d => orders d = orders db /\ postgresql d = postgresql db /\ sequence_last d = sequence_last db
  | Raise _ => True
  end.

Lemma owner_beside subject n op l db :
  on_order subject = false ->
  exists d row, _owner db subject n op = Ok (d, row) /\
    _owner (set_orders l db) subject n op = Ok (set_orders l d, row) /\
    leaves_orders (Ok d) db /\ match row with Some (OrderOwner _) => False | _ => True end.
Proof.
  unfold on_order, _owner. intros Hs. destruct (is_contact_subject subject).
  - unfold lock_contact, ensure_contact, find_contact. cbn [nodes contacts set_orders]. destruct (mem n (nodes db)).
    + destruct (find _ (contacts db)) as [c|] eqn:E.
      * cbn [contacts set_orders]. rewrite E. by eexists _, _.
      * cbn [contacts set_orders set_contacts]. eexists (set_contacts _ db), _. split_and!; [reflexivity|reflexivity|done..|].
        by destruct (find _ (contacts db ++ _)).
    + by eexists _, _.
  - simpl in Hs. destruct (String.prefix _LOAD subject); [|done]. unfold find_load. cbn [loads set_orders].
    eexists _, _. split_and!; try done. by destruct (find _ _).
Qed.

Lemma note_repeat_beside subject n code now detail op refused l db :
  on_order subject = false ->
  beside (note_repeat subject n code now detail op refused db)
         (note_repeat subject n code now detail op refused (set_orders l db)) l /\
  leaves_orders (note_repeat subject n code now detail op refused db) db.
Proof.
  intros Hs. destruct (owner_beside subject n op l db Hs) as (d & row & E & E' & Hl & Hr).
  unfold note_repeat. rewrite E, E'. cbn [mbind result_bind]. destruct row as [row|]; [|done].
  destruct (owner_evidence row) as [ev|]; [|done]. destruct (make_evidence _); [|done]. cbn [mbind result_bind].
  destruct row; [|done|]; destruct refused; done.
Qed.

Lemma note_success_beside subject n op now refused l db :
  on_order subject = false ->
  beside (note_success subject n op now refused db) (note_success subject n op now refused (set_orders l db)) l /\
  leaves_orders (note_success subject n op now refused db) db.
Proof.
  intros Hs. destruct (owner_beside subject n op l db Hs) as (d & row & E & E' & Hl & Hr).
  unfold note_success. rewrite E, E'. cbn [mbind result_bind]. destruct row as [row|]; [|done].
  destruct (owner_evidence row) as [ev|]; [|done]. destruct row; [|done|]; destruct refused; done.
Qed.

(** ** Notes on orders *)
Section log.
Context (home : string -> string * string).

(** Every order has the Spark and the kind its id was given. *)
Definition homed (db : EvidenceDb) : Prop := forall o, o ∈ orders db -> order_pair o = home (order_id o).
Definition genuine_order (o : EvidenceOrder) : Prop := order_pair o = home (order_id o).
Definition genuine (s : evidence_step) : Prop :=
  match s with
  | NoteRepeat _ _ _ _ _ (Some o) _ | NoteSuccess _ _ (Some o) _ _ | NewOrder o => genuine_order o
  | _ => True
  end.

(** A note on an order changes nothing, spends a sequence value, or adds one event. *)
Inductive noted (db : EvidenceDb) : EvidenceDb -> Prop :=
| NotedNothing : noted db db
| NotedSpent z d : next_sequence db = Some (z, d) -> noted db (set_last (sequence_last d) db)
| NotedEvent z d o ev e :
    next_sequence db = Some (z, d) -> o ∈ orders db -> owner_evidence (OrderOwner o) = Some ev ->
    bound (OrderOwner o) e = true -> ev_sequence e = z -> noted db (_write (OrderOwner o) (ev ++ [e])%list d).

Lemma make_evidence_Ok e e' : make_evidence e = Ok e' -> e' = e.
Proof. unfold make_evidence. by destruct (_ && _); intros [= <-]. Qed.

Lemma bound_order o n s e :
  order_pair o = (n, s) -> ev_node e = n -> ev_subject e = s -> 0 < ev_sequence e -> bound (OrderOwner o) e = true.
Proof. intros [= <- <-] H1 H2 H. simpl. rewrite !bool_decide_true by done. by apply Z.ltb_lt. Qed.

Lemma owner_order db s n op :
  on_order s = true ->
  _owner db s n op =
    match op with
    | Some o => if bool_decide (order_kind o = s) && bool_decide (order_node o = n)
                then Ok (db, OrderOwner <$> find_order (order_id o) db)
                else Raise (ValueError "command repetition requires its exact operation owner")
    | None => Raise (ValueError "command repetition requires its exact operation owner")
    end.
Proof. unfold on_order, _owner. destruct (is_contact_subject s); [done|]. by destruct (String.prefix _LOAD s). Qed.

Lemma owner_order_pair db s n o0 o :
  homed db -> genuine_order o0 -> bool_decide (order_kind o0 = s) && bool_decide (order_node o0 = n) = true ->
  find_order (order_id o0) db = Some o -> o ∈ orders db /\ order_id o = order_id o0 /\ order_pair o = (n, s).
Proof.
  intros Hh Hg Hm [Ho Hi]%find_order_spec. split_and!; try done. rewrite (Hh o Ho), Hi, <- Hg.
  unfold order_pair. bools. congruence.
Qed.

Lemma note_repeat_noted subject n code now detail op refused db d :
  on_order subject = true -> log_ok db -> homed db -> genuine (NoteRepeat subject n code now detail op refused) ->
  note_repeat subject n code now detail op refused db = Ok d -> noted db d.
Proof.
  intros Hs Hok Hh Hg. unfold note_repeat. rewrite owner_order by done. destruct op as [o0|]; [|done].
  destruct (_ && _) eqn:Hm; [|done]. cbn [mbind result_bind].
  destruct (find_order _ db) as [o|] eqn:Ef; [|by intros [= <-]; constructor]. cbn [fmap option_fmap option_map].
  destruct (owner_order_pair db subject n o0 o Hh Hg Hm Ef) as (Ho & _ & Hp).
  destruct (owner_evidence (OrderOwner o)) as [ev|] eqn:Hev; [|by intros [= <-]; constructor].
  destruct (make_evidence _) as [e|] eqn:He; [|done]. apply make_evidence_Ok in He. cbn [mbind result_bind].
  destruct (next_sequence db) as [[z d']|] eqn:Hz; [|by intros [= <-]; constructor].
  destruct refused; intros [= <-]; [by econstructor|]. econstructor; try done.
  apply (bound_order o n subject); [done|by subst e..|]. by destruct (next_sequence_spec db z d' Hok Hz).
Qed.

Lemma note_success_noted subject n op now refused db d :
  on_order subject = true -> log_ok db -> homed db -> genuine (NoteSuccess subject n op now refused) ->
  note_success subject n op now refused db = Ok d -> noted db d.
Proof.
  intros Hs Hok Hh Hg. unfold note_success. rewrite owner_order by done. destruct op as [o0|]; [|done].
  destruct (_ && _) eqn:Hm; [|done]. cbn [mbind result_bind].
  destruct (find_order _ db) as [o|] eqn:Ef; [|by intros [= <-]; constructor]. cbn [fmap option_fmap option_map].
  destruct (owner_order_pair db subject n o0 o Hh Hg Hm Ef) as (Ho & _ & Hp).
  destruct (owner_evidence (OrderOwner o)) as [ev|] eqn:Hev; [|by intros [= <-]; constructor].
  destruct (ends_clear ev); [by intros [= <-]; constructor|].
  destruct (_uncleared_failures _ _ _); cbn [negb]; [|by intros [= <-]; constructor].
  destruct (next_sequence db) as [[z d']|] eqn:Hz; [|by intros [= <-]; constructor].
  destruct (make_evidence _) as [e|] eqn:He; [|done]. apply make_evidence_Ok in He. cbn [mbind result_bind].
  destruct refused; intros [= <-]; [by econstructor|]. econstructor; try done; [|by subst e].
  apply (bound_order o n subject); [done|by subst e..|]. subst e. by destruct (next_sequence_spec db z d' Hok Hz).
Qed.

Lemma noted_log db d : log_ok db -> noted db d -> log_ok d.
Proof.
  intros Hok Hn. destruct Hn as [|z d Hz|z d o ev e Hz Ho Hev Hb Hs]; [done| |];
    destruct (next_sequence_spec db z d Hok Hz) as (Hpos & Hnew & Hd & Hle & Hp).
  - by apply log_set_last.
  - rewrite Hd. apply log_write; try done; simpl; rewrite ?Hs; try done.
    + by apply log_set_last.
    + intros Hpg. rewrite (Hp Hpg). lia.
Qed.

Lemma homed_ids db d :
  homed db -> (forall o, o ∈ orders d -> exists o', o' ∈ orders db /\ order_id o' = order_id o /\ order_pair o' = order_pair o) -> homed d.
Proof. intros Hh H o Ho. destruct (H o Ho) as (o' & Ho' & <- & <-). by apply Hh. Qed.

Lemma noted_homed db d : log_ok db -> homed db -> noted db d -> homed d.
Proof.
  intros Hok Hh Hn. destruct Hn as [|z d Hz|z d o ev e Hz Ho Hev Hb Hs]; [done|done|].
  destruct (next_sequence_spec db z d Hok Hz) as (_ & _ & -> & _).
  apply (homed_ids db); [done|]. simpl. intros x (y & -> & Hy)%list_elem_of_fmap. exists y. by case_bool_decide.
Qed.

(** ** The invariant along histories *)
Lemma log_same db d :
  log_ok db -> orders d = orders db -> postgresql d = postgresql db -> sequence_last d = sequence_last db -> log_ok d.
Proof. intros [H1 H2 H3 H4] E1 E2 E3. constructor; unfold sequences in *; rewrite ?E1, ?E2, ?E3; done. Qed.

Lemma leaves_log db r : log_ok db /\ homed db -> leaves_orders r db -> log_ok (kept r db) /\ homed (kept r db).
Proof.
  intros [Hok Hh]. destruct r as [d|]; [|done]. simpl. intros (E1 & E2 & E3). split; [by eapply log_same|].
  intros o Ho. rewrite E1 in Ho. by apply Hh.
Qed.

Lemma advance_keeps i st up dl att o :
  order_id (advance i st up dl att o) = order_id o /\ order_pair (advance i st up dl att o) = order_pair o /\
  order_events (advance i st up dl att o) = order_events o /\ listed (advance i st up dl att o) = listed o /\
  is_unreadable (advance i st up dl att o) = is_unreadable o.
Proof. unfold advance. by case_bool_decide. Qed.

Lemma sublist_sequences (f : EvidenceOrder -> bool) l :
  NoDup (ev_sequence <$> flat_map listed l) -> NoDup (ev_sequence <$> flat_map listed (List.filter f l)).
Proof.
  induction l as [|o l IH]; [done|]. simpl. rewrite fmap_app, NoDup_app. intros (H1 & H2 & H3).
  destruct (f o); [|by apply IH]. simpl. rewrite fmap_app, NoDup_app. split_and!; [done| |by apply IH].
  intros z Hz (e & -> & (o' & [Ho' _]%elem_of_filter_bool & He)%elem_of_flat_map)%list_elem_of_fmap.
  apply (H2 (ev_sequence e) Hz). apply list_elem_of_fmap. exists e. split; [done|]. apply elem_of_flat_map. eauto.
Qed.

Lemma delete_log ids db : log_ok db -> log_ok (delete_orders ids db).
Proof.
  intros H. assert (forall z, z ∈ sequences (delete_orders ids db) -> z ∈ sequences db) as Hsub.
  { intros z (e & -> & (o & [Ho _]%elem_of_filter_bool & He)%elem_of_flat_map)%list_elem_of_fmap.
    apply list_elem_of_fmap. exists e. split; [done|]. apply elem_of_flat_map. eauto. }
  destruct (log_nonneg _ H) as [H0 H0']. constructor; simpl.
  - pose proof (log_ids _ H) as Hn. revert Hn. induction (orders db) as [|o l IH]; [done|]. rewrite fmap_cons, NoDup_cons.
    intros [Hn Hl]. simpl. destruct (negb _); [|by apply IH]. rewrite fmap_cons, NoDup_cons. split; [|by apply IH].
    intros (o' & E & [Ho' _]%elem_of_filter_bool)%list_elem_of_fmap. apply Hn. rewrite E. apply list_elem_of_fmap. eauto.
  - apply sublist_sequences, H.
  - split; [done|auto].
  - intros Hp z Hz. apply (log_last _ H Hp). auto.
Qed.

Lemma advance_map i st up dl att l :
  order_id <$> map (advance i st up dl att) l = order_id <$> l /\
  flat_map listed (map (advance i st up dl att) l) = flat_map listed l /\
  forall p, flat_map order_events (List.filter (of_pair p) (map (advance i st up dl att) l)) =
            flat_map order_events (List.filter (of_pair p) l).
Proof.
  induction l as [|o l (IH1 & IH2 & IH3)]; [done|]. destruct (advance_keeps i st up dl att o) as (E1 & E2 & E3 & E4 & _).
  split_and!; simpl map.
  - by rewrite !fmap_cons, E1, IH1.
  - simpl. by rewrite E4, IH2.
  - intros p. assert (of_pair p (advance i st up dl att o) = of_pair p o) as Eo by (unfold of_pair; by rewrite E2).
    cbn [List.filter]. rewrite Eo. destruct (of_pair p o); cbn [flat_map]; by rewrite ?E3, IH3.
Qed.

Lemma log_rows db l :
  log_ok db -> order_id <$> l = order_id <$> orders db -> flat_map listed l = flat_map listed (orders db) ->
  log_ok (set_orders l db).
Proof. intros [H1 H2 H3 H4] E1 E2. constructor; unfold sequences in *; simpl; rewrite ?E1, ?E2; done. Qed.

Lemma step_log db s : log_ok db -> homed db -> genuine s -> log_ok (step db s) /\ homed (step db s).
Proof.
  intros Hok Hh Hg. destruct s as [subject n code now detail op refused|subject n op now refused|o|i st up dl att|ids]; cbn [step].
  - destruct (on_order subject) eqn:Hs.
    + destruct (note_repeat _ _ _ _ _ _ _ db) as [d|] eqn:E; [|done]. apply note_repeat_noted in E; try done.
      split; [by eapply noted_log|by eapply noted_homed].
    + apply leaves_log; [done|]. by apply (note_repeat_beside subject n code now detail op refused []).
  - destruct (on_order subject) eqn:Hs.
    + destruct (note_success _ _ _ _ _ db) as [d|] eqn:E; [|done]. apply note_success_noted in E; try done.
      split; [by eapply noted_log|by eapply noted_homed].
    + apply leaves_log; [done|]. by apply (note_success_beside subject n op now refused []).
  - destruct (mem _ _) eqn:Hm; [done|]. apply mem_false in Hm. split.
    + destruct Hok as [H1 H2 H3 H4]. unfold sequences in *. constructor; unfold sequences; simpl; rewrite ?flat_map_app, ?app_nil_r; try done.
      rewrite fmap_app. apply NoDup_app. split_and!; [done| |by apply NoDup_singleton].
      intros x Hx ->%list_elem_of_singleton. by apply Hm.
    + intros x [Hx|Hx%list_elem_of_singleton]%elem_of_app; [by apply Hh|]. by subst x.
  - destruct (advance_map i st up dl att (orders db)) as (E1 & E2 & _). split.
    + apply (log_rows db); done.
    + apply (homed_ids db); [done|]. intros x (y & -> & Hy)%list_elem_of_fmap. exists y.
      destruct (advance_keeps i st up dl att y) as (-> & -> & _). done.
  - split; [by apply delete_log|]. intros o [Ho _]%elem_of_filter_bool. by apply Hh.
Qed.

(** No order is noted twice under one sequence value, whatever happens. *)
Theorem evidence_log_history db ss :
  log_ok db -> homed db -> Forall genuine ss -> log_ok (run_steps db ss) /\ homed (run_steps db ss).
Proof.
  intros Hok Hh Hg. revert db Hok Hh. induction Hg as [|s ss Hs _ IH]; intros db Hok Hh; [done|].
  simpl. destruct (step_log db s Hok Hh Hs). by apply IH.
Qed.

(** ** Retention *)
Definition names (s : evidence_step) : list string :=
  match s with
  | NoteRepeat _ _ _ _ _ (Some o) _ | NoteSuccess _ _ (Some o) _ _ | NewOrder o => [order_id o]
  | Progress i _ _ _ _ => [i]
  | _ => []
  end.
Definition forgets (s : evidence_step) : bool := match s with Forget _ => true | _ => false end.

Lemma indistinct_beside dead db db' d :
  indistinct dead db db' -> orders d = orders db -> indistinct dead d (set_orders (orders db') d).
Proof.
  intros H E. constructor; try done; simpl; rewrite ?E; try apply H.
  intros p x. unfold pair_events. simpl. rewrite E. apply (in_open _ _ _ H).
Qed.

Lemma indistinct_eq dead db db' : indistinct dead db db' -> db' = set_orders (orders db') db.
Proof. intros []. destruct db, db'. simpl in *. by subst. Qed.

Lemma sim_beside dead db db' r r' :
  indistinct dead db db' -> beside r r' (orders db') -> leaves_orders r db ->
  indistinct dead (kept r db) (kept r' db').
Proof.
  intros H Hb Hl. destruct r as [d|], r' as [d'|]; try done. simpl in *. subst d'.
  apply (indistinct_beside dead db); [done|]. by destruct Hl.
Qed.

Lemma indistinct_last dead db db' z : indistinct dead db db' -> indistinct dead (set_last z db) (set_last z db').
Proof. by intros []; constructor. Qed.

Lemma find_order_sim dead db db' i : indistinct dead db db' -> i ∉ dead -> find_order i db' = find_order i db.
Proof.
  intros H Hi. unfold find_order. rewrite (in_orders _ _ _ H). induction (orders db) as [|o l IH]; [done|].
  simpl. case_bool_decide as E.
  - subst i. rewrite (proj2 (mem_false _ _) Hi). simpl. by rewrite bool_decide_true by done.
  - destruct (negb _); simpl; [|done]. by rewrite bool_decide_false by done.
Qed.

Lemma uncleared_sim dead db db' n s : indistinct dead db db' -> _uncleared_failures db' n s = _uncleared_failures db n s.
Proof.
  intros H. assert (forall d, _uncleared_failures d n s =
    unreadable_pair d (n, s) || existsb (fun x => is_open (last_clear (pair_events d (n, s))) (snd x)) (pair_events d (n, s))) as E.
  { intros d. unfold _uncleared_failures. pose proof (command_events_one d n s) as E.
    pose proof (unreadable_mem d [n] (Some s) (n, s)) as U. destruct (command_events d [n] (Some s)) as [e u].
    cbn [fst snd] in *. rewrite U; [|by apply mem_true; left|done]. rewrite E. by destruct (unreadable_pair d (n, s)). }
  rewrite !E, (indistinct_unreadable _ _ _ _ H). f_equal. apply eq_true_iff_eq. rewrite !existsb_elem. split.
  - intros (x & Hx & Ho). rewrite (indistinct_pair_events _ _ _ _ H) in Hx. apply elem_of_filter_bool in Hx as [Hx Hm].
    exists x. split; [done|]. rewrite (in_open _ _ _ H), Hm by (done || by eapply is_open_failure). done.
  - intros (x & Hx & Ho). rewrite (in_open _ _ _ H) in Ho by (done || by eapply is_open_failure).
    apply andb_true_iff in Ho as [Hm Ho]. exists x. split; [|done].
    rewrite (indistinct_pair_events _ _ _ _ H). by apply elem_of_filter_bool.
Qed.

Lemma next_sequence_sim dead db db' :
  indistinct dead db db' -> postgresql db = true ->
  next_sequence db' = prod_map id (fun d => set_orders (orders db') d) <$> next_sequence db.
Proof.
  intros H Hp. rewrite (indistinct_eq _ _ _ H) at 1. unfold next_sequence. simpl. rewrite Hp. by destruct (_ <? _).
Qed.

(** What one note does to both tables. *)
Lemma event_sim dead db db' z d o ev e :
  indistinct dead db db' -> log_ok db -> log_ok db' -> postgresql db = true -> next_sequence db = Some (z, d) ->
  o ∈ orders db -> order_id o ∉ dead -> owner_evidence (OrderOwner o) = Some ev -> bound (OrderOwner o) e = true ->
  ev_sequence e = z ->
  indistinct dead (_write (OrderOwner o) (ev ++ [e])%list d)
    (_write (OrderOwner o) (ev ++ [e])%list (set_orders (orders db') d)).
Proof.
  intros H Hok Hok' Hp Hz Ho Hd Hev Hb Hs. destruct (next_sequence_spec db z d Hok Hz) as (Hpos & Hnew & E & Hle & Hlast).
  assert (set_orders (orders db') d = set_last (sequence_last d) db') as ->.
  { rewrite (indistinct_eq _ _ _ H) at 2. by rewrite E at 1. }
  rewrite E. apply indistinct_write; try done.
  - by apply indistinct_last.
  - by apply log_set_last.
  - apply log_set_last; [done|]. by rewrite (in_last _ _ _ H).
  - intros y Hy. rewrite Hs. by apply Hnew.
Qed.

Lemma note_repeat_sim dead db db' subject n code now detail op refused :
  indistinct dead db db' -> log_ok db -> log_ok db' -> homed db -> postgresql db = true -> on_order subject = true ->
  genuine (NoteRepeat subject n code now detail op refused) ->
  (forall i, i ∈ names (NoteRepeat subject n code now detail op refused) -> i ∉ dead) ->
  indistinct dead (kept (note_repeat subject n code now detail op refused db) db)
                  (kept (note_repeat subject n code now detail op refused db') db').
Proof.
  intros H Hok Hok' Hh Hp Hs Hg Hd. unfold note_repeat. rewrite !owner_order by done. destruct op as [o0|]; [|done].
  destruct (_ && _) eqn:Hm; [|done]. cbn [mbind result_bind].
  assert (order_id o0 ∉ dead) as Hd0 by (apply Hd; left). rewrite (find_order_sim _ _ _ _ H Hd0).
  destruct (find_order _ db) as [o|] eqn:Ef; [|done]. cbn [fmap option_fmap option_map].
  destruct (owner_order_pair db subject n o0 o Hh Hg Hm Ef) as (Ho & Hi & Hpair).
  destruct (owner_evidence (OrderOwner o)) as [ev|] eqn:Hev; [|done].
  destruct (make_evidence _) as [e|] eqn:He; [|done]. apply make_evidence_Ok in He. cbn [mbind result_bind].
  rewrite (next_sequence_sim _ _ _ H Hp). destruct (next_sequence db) as [[z d]|] eqn:Hz; [|done].
  cbn [fmap option_fmap option_map prod_map fst snd id]. destruct refused; cbn [kept].
  { by apply indistinct_last. }
  eapply event_sim; try done; [by rewrite Hi|]. apply (bound_order o n subject); [done|by subst e..|].
  by destruct (next_sequence_spec db z d Hok Hz).
Qed.

Lemma note_success_sim dead db db' subject n op now refused :
  indistinct dead db db' -> log_ok db -> log_ok db' -> homed db -> postgresql db = true -> on_order subject = true ->
  genuine (NoteSuccess subject n op now refused) ->
  (forall i, i ∈ names (NoteSuccess subject n op now refused) -> i ∉ dead) ->
  indistinct dead (kept (note_success subject n op now refused db) db)
                  (kept (note_success subject n op now refused db') db').
Proof.
  intros H Hok Hok' Hh Hp Hs Hg Hd. unfold note_success. rewrite !owner_order by done. destruct op as [o0|]; [|done].
  destruct (_ && _) eqn:Hm; [|done]. cbn [mbind result_bind].
  assert (order_id o0 ∉ dead) as Hd0 by (apply Hd; left). rewrite (find_order_sim _ _ _ _ H Hd0).
  destruct (find_order _ db) as [o|] eqn:Ef; [|done]. cbn [fmap option_fmap option_map].
  destruct (owner_order_pair db subject n o0 o Hh Hg Hm Ef) as (Ho & Hi & Hpair).
  destruct (owner_evidence (OrderOwner o)) as [ev|] eqn:Hev; [|done].
  destruct (ends_clear ev); [done|]. rewrite (uncleared_sim _ _ _ _ _ H).
  destruct (_uncleared_failures _ _ _); [|done]. cbn [negb].
  rewrite (next_sequence_sim _ _ _ H Hp). destruct (next_sequence db) as [[z d]|] eqn:Hz; [|done].
  cbn [fmap option_fmap option_map prod_map fst snd id].
  destruct (make_evidence _) as [e|] eqn:He; [|done]. apply make_evidence_Ok in He. cbn [mbind result_bind].
  destruct refused; cbn [kept]. { by apply indistinct_last. }
  eapply event_sim; try done; [by rewrite Hi| |by subst e]. apply (bound_order o n subject); [done|by subst e..|].
  subst e. by destruct (next_sequence_spec db z d Hok Hz).
Qed.

Lemma new_order_sim dead db db' o :
  indistinct dead db db' -> order_id o ∉ dead -> indistinct dead (step db (NewOrder o)) (step db' (NewOrder o)).
Proof.
  intros H Hd. cbn [step].
  assert (mem (order_id o) (order_id <$> orders db') = mem (order_id o) (order_id <$> orders db)) as ->.
  { apply eq_true_iff_eq. rewrite !mem_true, (in_orders _ _ _ H), !list_elem_of_fmap. setoid_rewrite elem_of_filter_bool. split.
    - intros (x & E & Hx & _). eauto.
    - intros (x & E & Hx). exists x. split_and!; try done. rewrite <- E. by apply negb_true_iff, mem_false. }
  destruct (mem _ _) eqn:Hm; [done|].
  assert (forall d p, pair_events (set_orders (orders d ++ [store_order_evidence [] o]) d) p = pair_events d p) as Hev.
  { intros d p. unfold pair_events. simpl. rewrite List.filter_app, flat_map_app. simpl. destruct (of_pair _ _); by rewrite app_nil_r. }
  constructor; try apply H; simpl.
  - rewrite (in_orders _ _ _ H), List.filter_app. simpl. by rewrite (proj2 (mem_false _ _) Hd).
  - intros x [Hx|Hx%list_elem_of_singleton]%elem_of_app; [by apply (in_readable _ _ _ H)|]. subst x. done.
  - intros p x. rewrite !Hev. apply (in_open _ _ _ H).
Qed.

Lemma progress_sim dead db db' i st up dl att :
  indistinct dead db db' -> i ∉ dead -> indistinct dead (step db (Progress i st up dl att)) (step db' (Progress i st up dl att)).
Proof.
  intros H Hd. assert (forall d p, pair_events (step d (Progress i st up dl att)) p = pair_events d p) as Hev.
  { intros d p. destruct (advance_map i st up dl att (orders d)) as (_ & _ & E). apply E. }
  constructor; try apply H.
  - cbn [step orders set_orders]. rewrite (in_orders _ _ _ H). clear H. induction (orders db) as [|o l IH]; [done|]. cbn [List.filter map].
    destruct (advance_keeps i st up dl att o) as (-> & _). destruct (negb _); cbn [map]; by rewrite IH.
  - intros x (y & -> & Hy)%list_elem_of_fmap. destruct (advance_keeps i st up dl att y) as (-> & _ & _ & _ & ->).
    intros Hyd. destruct (in_readable _ _ _ H y Hy Hyd) as [? ?]. split; [done|]. unfold advance.
    rewrite bool_decide_false; [done|]. by intros <-.
  - intros p x. rewrite !Hev. apply (in_open _ _ _ H).
Qed.

Lemma step_sim dead db db' s :
  indistinct dead db db' -> log_ok db -> log_ok db' -> homed db -> postgresql db = true -> genuine s ->
  (forall i, i ∈ names s -> i ∉ dead) -> forgets s = false -> indistinct dead (step db s) (step db' s).
Proof.
  intros H Hok Hok' Hh Hp Hg Hd Hf.
  destruct s as [subject n code now detail op refused|subject n op now refused|o|i st up dl att|ids]; [..|done].
  - cbn [step]. destruct (on_order subject) eqn:Hs; [by apply note_repeat_sim|].
    destruct (note_repeat_beside subject n code now detail op refused (orders db') db Hs) as [Hb Hl].
    rewrite <- (indistinct_eq _ _ _ H) in Hb. by apply sim_beside.
  - cbn [step]. destruct (on_order subject) eqn:Hs; [by apply note_success_sim|].
    destruct (note_success_beside subject n op now refused (orders db') db Hs) as [Hb Hl].
    rewrite <- (indistinct_eq _ _ _ H) in Hb. by apply sim_beside.
  - apply new_order_sim; [done|]. apply Hd. by left.
  - apply progress_sim; [done|]. apply Hd. by left.
Qed.

Lemma forget_sim db ids : log_ok db -> indistinct (forgotten db ids) db (step db (Forget ids)).
Proof.
  intros H. apply delete_indistinct; [done|]. intros o Ho (x & E & [Hx Hm]%elem_of_filter_bool)%list_elem_of_fmap.
  assert (x = o) as -> by (eapply (key_inj order_id); [apply H|done..]). unfold droppable in Hm. bools. split; [done|].
  unfold is_live_upgrade. rewrite (proj2 (mem_false _ _)) by done. apply andb_false_r.
Qed.

(** Once deleted, an order is not named again. *)
Fixpoint never_late (ss : list evidence_step) : Prop :=
  match ss with
  | [] => True
  | Forget ids :: r => (forall s i, s ∈ r -> i ∈ names s -> i ∉ ids) /\ never_late r
  | _ :: r => never_late r
  end.

Lemma forgotten_sub db ids i : i ∈ forgotten db ids -> i ∈ ids.
Proof. intros (o & -> & [_ Ho]%elem_of_filter_bool)%list_elem_of_fmap. by bools. Qed.

Lemma noted_dialect db d : log_ok db -> noted db d -> postgresql d = postgresql db.
Proof.
  intros Hok Hn. destruct Hn as [|z d Hz|z d o ev e Hz]; [done|done|].
  by destruct (next_sequence_spec db z d Hok Hz) as (_ & _ & -> & _).
Qed.

Lemma step_dialect db s : log_ok db -> homed db -> genuine s -> postgresql (step db s) = postgresql db.
Proof.
  intros Hok Hh Hg. destruct s as [subject n code now detail op refused|subject n op now refused|o|i st up dl att|ids]; cbn [step]; try done.
  - destruct (on_order subject) eqn:Hs.
    + destruct (note_repeat _ _ _ _ _ _ _ db) as [d|] eqn:E; [|done]. apply note_repeat_noted in E; try done. by apply noted_dialect.
    + destruct (note_repeat_beside subject n code now detail op refused [] db Hs) as [_ Hl].
      destruct (note_repeat _ _ _ _ _ _ _ db); [|done]. cbn [kept]. by destruct Hl as (_ & -> & _).
  - destruct (on_order subject) eqn:Hs.
    + destruct (note_success _ _ _ _ _ db) as [d|] eqn:E; [|done]. apply note_success_noted in E; try done. by apply noted_dialect.
    + destruct (note_success_beside subject n op now refused [] db Hs) as [_ Hl].
      destruct (note_success _ _ _ _ _ db); [|done]. cbn [kept]. by destruct Hl as (_ & -> & _).
  - by destruct (mem _ _).
Qed.

Lemma run_sim dead db db' ss :
  indistinct dead db db' -> log_ok db -> log_ok db' -> homed db -> homed db' -> postgresql db = true ->
  Forall genuine ss -> never_late ss -> (forall s i, s ∈ ss -> i ∈ names s -> i ∉ dead) ->
  exists dead', indistinct dead' (run_steps db (List.filter (fun s => negb (forgets s)) ss)) (run_steps db' ss).
Proof.
  revert dead db db'. induction ss as [|s ss IH]; intros dead db db' H Hok Hok' Hh Hh' Hp Hall Hl Hd; [by eexists|].
  apply Forall_cons in Hall as [Hg Hgs].
  destruct (step_log db' s Hok' Hh' Hg) as [Hok2 Hh2]. destruct (forgets s) eqn:Hf.
  - destruct s as [| | | |ids]; try done. cbn [List.filter forgets negb]. destruct Hl as [Hl1 Hl2].
    apply (IH (forgotten db' ids ++ dead)%list db (step db' (Forget ids))); try done.
    + eapply indistinct_trans; [done|]. by apply forget_sim.
    + intros s i Hs Hi [Hx%forgotten_sub|Hx]%elem_of_app; [by eapply Hl1|]. eapply Hd; [by right|done..].
  - cbn [List.filter]. rewrite Hf. cbn [negb]. destruct (step_log db s Hok Hh Hg) as [Hok1 Hh1].
    apply (IH dead (step db s) (step db' s)); try done.
    + apply step_sim; try done. intros i Hi. eapply Hd; [by left|done].
    + by rewrite step_dialect.
    + by destruct s.
    + intros s' i Hs' Hi. eapply Hd; [by right|done].
Qed.

(** C10.  Retention is invisible.  Along every history of notes, new orders and their progress, it
    makes no difference to any summary anybody is shown, at any time, whether the orders
    whose evidence is not needed are deleted on the way or kept for ever. *)
Theorem retention_invisible db ss node_ids now :
  log_ok db -> homed db -> postgresql db = true -> Forall genuine ss -> never_late ss ->
  repeating_evidence (run_steps db ss) node_ids now =
  repeating_evidence (run_steps db (List.filter (fun s => negb (forgets s)) ss)) node_ids now.
Proof.
  intros Hok Hh Hp Hg Hl. destruct (run_sim [] db db ss) as [dead H]; try done; [apply indistinct_refl|by intros ? ? ? ? ?%elem_of_nil|].
  by eapply indistinct_shown.
Qed.
End log.

(** ** Repeated evidence as counters

    What the three kinds of rows keep is one counter per (Spark, subject, code): a note of a
    failure adds one to it, a success sets every counter of its Spark and subject to zero,
    and the summary shows exactly the counters. *)

(** ** Tallies *)
Definition evidence_key := (string * string * option string)%type.
Definition tally (k : evidence_key) (l : list RepeatedEvidence) : Z :=
  sum_list (ev_repeats <$> List.filter (fun e => bool_decide (group_key e = k)) l).

Lemma tally_app k l l' : tally k (l ++ l') = tally k l + tally k l'.
Proof. unfold tally. by rewrite List.filter_app, fmap_app, sum_list_app. Qed.

Lemma tally_cons k e l : tally k (e :: l) = (if bool_decide (group_key e = k) then ev_repeats e else 0) + tally k l.
Proof. unfold tally. cbn [List.filter]. by destruct (bool_decide _). Qed.

Lemma tally_none k l : (forall e, e ∈ l -> group_key e <> k) -> tally k l = 0.
Proof.
  intros H. unfold tally. rewrite filter_false; [done|]. intros e He. apply bool_decide_eq_false_2. by apply H.
Qed.

Lemma tally_unique k l e :
  NoDup (group_key <$> l) -> e ∈ l -> group_key e = k -> tally k l = ev_repeats e.
Proof.
  intros Hn He Hk. induction l as [|x l IH]; [by apply elem_of_nil in He|]. rewrite fmap_cons, NoDup_cons in Hn.
  destruct Hn as [Hx Hn]. rewrite tally_cons. apply elem_of_cons in He as [<-|He].
  - rewrite bool_decide_true by done. rewrite tally_none; [lia|]. intros y Hy Hyk. apply Hx. rewrite Hk, <- Hyk.
    apply list_elem_of_fmap. eauto.
  - rewrite bool_decide_false, IH; try done. intros Hxk. apply Hx. rewrite Hxk, <- Hk. apply list_elem_of_fmap. eauto.
Qed.

Lemma same_key_group n s c e : same_key n s c e = bool_decide (group_key e = (n, s, c)).
Proof.
  unfold same_key, group_key. apply eq_true_iff_eq. rewrite !andb_true_iff, !bool_decide_eq_true. naive_solver.
Qed.

(** A repeated failure counts one more, under one entry. *)
Lemma merge_repeat_tally k e l :
  NoDup (group_key <$> l) -> ev_repeats e = 1 ->
  tally k (merge_repeat e l) = tally k l + (if bool_decide (group_key e = k) then 1 else 0).
Proof.
  intros Hn He. unfold merge_repeat. set (mine := same_key _ _ _).
  assert (forall x, mine x = bool_decide (group_key x = group_key e)) as Hmine by (intros x; apply same_key_group).
  rewrite tally_app. assert (forall x, tally k [x] = if bool_decide (group_key x = k) then ev_repeats x else 0) as H1.
  { intros x. rewrite tally_cons. unfold tally. simpl. lia. }
  rewrite H1. assert (group_key (match find mine l with Some p => repeated p e | None => e end) = group_key e) as ->.
  { by destruct (find mine l). }
  case_bool_decide as Hk.
  - rewrite tally_none.
    2:{ intros x [_ Hx]%elem_of_filter_bool Hxk. rewrite Hmine in Hx. bools. congruence. }
    destruct (find mine l) as [p|] eqn:Ef.
    + apply find_some in Ef as [Hp Hm]. rewrite Hmine in Hm. bools. apply list_elem_of_In in Hp.
      rewrite (tally_unique k l p) by congruence. simpl. lia.
    + rewrite (tally_none k l); [lia|]. intros x Hx Hxk. pose proof (find_none _ _ Ef x) as Hx'.
      rewrite <- list_elem_of_In, Hmine in Hx'. specialize (Hx' Hx). bools. congruence.
  - assert (tally k (List.filter (fun x => negb (mine x)) l) = tally k l) as ->; [|lia].
    unfold tally. rewrite filter_filter. do 2 f_equal. apply filter_ext_elem. intros x _. rewrite Hmine.
    repeat case_bool_decide; try done. congruence.
Qed.

Lemma merge_repeat_keys e l :
  NoDup (group_key <$> l) -> NoDup (group_key <$> merge_repeat e l) /\
  forall x, x ∈ merge_repeat e l -> x ∈ l \/ group_key x = group_key e /\ ev_sequence x = ev_sequence e.
Proof.
  intros Hn. unfold merge_repeat. set (mine := same_key _ _ _).
  assert (forall x, mine x = bool_decide (group_key x = group_key e)) as Hmine by (intros x; apply same_key_group).
  set (e' := match find mine l with Some p => repeated p e | None => e end).
  assert (group_key e' = group_key e /\ ev_sequence e' = ev_sequence e) as [Hk Hs] by (unfold e'; by destruct (find mine l)).
  split.
  - rewrite fmap_app, NoDup_app. split_and!; [| |apply NoDup_singleton].
    + clear -Hn. induction l as [|x l IH]; [done|]. rewrite fmap_cons, NoDup_cons in Hn. destruct Hn as [Hx Hn]. cbn [List.filter].
      destruct (negb _); [|by apply IH]. rewrite fmap_cons, NoDup_cons. split; [|by apply IH].
      intros (y & E & [Hy _]%elem_of_filter_bool)%list_elem_of_fmap. apply Hx. rewrite E. apply list_elem_of_fmap. eauto.
    + intros z (x & -> & [_ Hx]%elem_of_filter_bool)%list_elem_of_fmap Hz%list_elem_of_singleton. rewrite Hmine in Hx. bools. congruence.
  - intros x [[Hx _]%elem_of_filter_bool|Hx%list_elem_of_singleton]%elem_of_app; [by left|right]. by subst x.
Qed.

(** One row of a table with distinct keys is rewritten. *)
Lemma tally_update {A} (key : A -> string) (f : A -> list RepeatedEvidence) (g : A -> A) l a k :
  NoDup (key <$> l) -> a ∈ l ->
  tally k (flat_map f (map (fun x => if bool_decide (key x = key a) then g x else x) l)) =
  tally k (flat_map f l) + (tally k (f (g a)) - tally k (f a)).
Proof.
  intros Hn Ha. induction l as [|x l IH]; [by apply elem_of_nil in Ha|]. rewrite fmap_cons, NoDup_cons in Hn.
  destruct Hn as [Hx Hn]. cbn [map flat_map]. rewrite !tally_app. apply elem_of_cons in Ha as [->|Ha].
  - rewrite bool_decide_true by done.
    assert (map (fun y => if bool_decide (key y = key x) then g y else y) l = l) as ->; [|lia].
    rewrite <- (map_id l) at 2. apply map_ext_in. intros y Hy. rewrite bool_decide_false; [done|]. intros E. apply Hx.
    rewrite <- E. apply list_elem_of_fmap. exists y. split; [done|]. by apply list_elem_of_In.
  - rewrite bool_decide_false, IH; try done; [lia|]. intros E. apply Hx. rewrite E. apply list_elem_of_fmap. eauto.
Qed.

(** Only one row knows the key. *)
Lemma tally_row {A} (key : A -> string) (f : A -> list RepeatedEvidence) l a k :
  NoDup (key <$> l) -> a ∈ l -> (forall x, x ∈ l -> key x <> key a -> forall e, e ∈ f x -> group_key e <> k) ->
  tally k (flat_map f l) = tally k (f a).
Proof.
  intros Hn Ha Hf. induction l as [|x l IH]; [by apply elem_of_nil in Ha|]. rewrite fmap_cons, NoDup_cons in Hn.
  destruct Hn as [Hx Hn]. cbn [flat_map]. rewrite tally_app. apply elem_of_cons in Ha as [<-|Ha].
  - rewrite (tally_none k (flat_map f l)); [lia|]. intros e (y & Hy & He)%elem_of_flat_map. apply (Hf y); [by right| |done].
    intros E. apply Hx. rewrite <- E. apply list_elem_of_fmap. eauto.
  - rewrite IH; [|done..|intros y Hy; apply Hf; by right]. rewrite (tally_none k (f x)); [lia|]. intros e He. apply (Hf x); [by left| |done].
    intros E. apply Hx. rewrite E. apply list_elem_of_fmap. eauto.
Qed.

(** Grouping the open events keeps every tally. *)
Lemma group_into_tally k e l :
  tally k (group_into e l) = tally k l + (if bool_decide (group_key e = k) then ev_repeats e else 0).
Proof.
  induction l as [|x l IH]; [cbn [group_into]; rewrite tally_cons; unfold tally; simpl; lia|]. cbn [group_into].
  destruct (bool_decide (group_key x = group_key e)) eqn:Hx; [apply bool_decide_eq_true in Hx|]; rewrite !tally_cons, ?IH; [|lia].
  change (group_key (absorb x e)) with (group_key x). rewrite Hx. case_bool_decide; cbn [absorb ev_repeats]; lia.
Qed.

Lemma grouped_tally k events : tally k (grouped events) = tally k (open_events events).
Proof.
  unfold grouped. assert (forall l acc, tally k (fold_left (fun l e => group_into e l) l acc) = tally k acc + tally k l) as H.
  { induction l as [|e l IH]; intros acc; [unfold tally; simpl; lia|]. cbn [fold_left]. rewrite IH, group_into_tally, tally_cons. lia. }
  rewrite H. unfold tally. simpl. lia.
Qed.

(** ** The counters of the tables *)
Definition contact_evidence (c : AgentNodeContact) : list RepeatedEvidence := default [] (owner_evidence (ContactOwner c)).
Definition load_evidence_of (a : EvidenceLoad) : list RepeatedEvidence := default [] (owner_evidence (LoadOwner a)).

(** What the summary of a Spark sees, a load's evidence however old. *)
Definition counter (db : EvidenceDb) (n s c : string) : Z :=
  tally (n, s, Some c) (contact_summaries db [n]) +
  tally (n, s, Some c) (flat_map load_evidence_of (loads db)) +
  tally (n, s, Some c) (grouped (fst (command_events db [n] None))).

(** Every row readable, distinct keys, and at most one entry per key on a contact or load. *)
Record evidence_ok (db : EvidenceDb) : Prop := {
  ok_log : log_ok db;
  ok_orders : forall o, o ∈ orders db -> is_unreadable o = false /\ on_order (order_kind o) = true;
  ok_contact_ids : NoDup (contact_node <$> contacts db);
  ok_contacts : forall c, c ∈ contacts db -> owner_evidence (ContactOwner c) <> None /\ NoDup (group_key <$> contact_evidence c);
  ok_load_ids : NoDup (load_id <$> loads db);
  ok_loads : forall a, a ∈ loads db -> owner_evidence (LoadOwner a) <> None /\ NoDup (group_key <$> load_evidence_of a);
}.

Lemma owner_bound row l e : owner_evidence row = Some l -> e ∈ l -> bound row e = true.
Proof.
  unfold owner_evidence. destruct (column_of row) as [|l'|]; [by intros [= <-] ?%elem_of_nil| |done].
  destruct (forallb _ l') eqn:E; [|done]. intros [= <-] He. rewrite forallb_forall in E. apply E. by apply list_elem_of_In.
Qed.

Lemma contact_evidence_node c e : e ∈ contact_evidence c -> ev_node e = contact_node c /\ is_contact_subject (ev_subject e) = true.
Proof.
  unfold contact_evidence. destruct (owner_evidence _) as [l|] eqn:E; [|by intros ?%elem_of_nil]. intros He.
  pose proof (owner_bound _ _ _ E He) as Hb. simpl in Hb. by bools.
Qed.

Lemma tally_contacts db n s c :
  tally (n, s, c) (contact_summaries db [n]) = tally (n, s, c) (flat_map contact_evidence (contacts db)).
Proof.
  unfold contact_summaries. induction (contacts db) as [|x l IH]; [done|]. cbn [List.filter flat_map].
  rewrite tally_app, <- IH. destruct (mem (contact_node x) [n]) eqn:E; [cbn [flat_map]; by rewrite tally_app|].
  rewrite (tally_none _ (contact_evidence x)); [done|]. intros e [He _]%contact_evidence_node [= Hn _ _]. apply mem_false in E. apply E.
  rewrite <- He, Hn. by left.
Qed.

(** The open failures of a pair, row by row. *)
Definition open_of (cleared : Z) (p : string * string) (o : EvidenceOrder) : list RepeatedEvidence :=
  if of_pair p o then List.filter (is_open cleared) (snd <$> order_events o) else [].

Lemma no_unreadable db p : evidence_ok db -> unreadable_pair db p = false.
Proof.
  intros H. apply existsb_none. intros o Ho. destruct (ok_orders _ H o Ho) as [-> _]. apply andb_false_r.
Qed.

Lemma tally_orders db n s c :
  evidence_ok db ->
  tally (n, s, c) (grouped (fst (command_events db [n] None))) =
  tally (n, s, c) (flat_map (open_of (last_clear (pair_events db (n, s))) (n, s)) (orders db)).
Proof.
  intros H. rewrite grouped_tally, open_events_is_open.
  assert (mem (fst (n, s)) [n] = true) as Hn by (by apply mem_true; left).
  pose proof (command_events_pair db [n] None (n, s) Hn I) as E. rewrite no_unreadable in E by done.
  pose proof (cleared_at_pair db [n]) as C. set (ev := fst (command_events db [n] None)) in *.
  transitivity (tally (n, s, c) (List.filter (is_open (last_clear (pair_events db (n, s)))) (snd <$> pair_events db (n, s)))).
  - rewrite <- E at 2. rewrite !filter_fmap, filter_filter. unfold tally. rewrite !filter_fmap, !filter_filter. do 2 f_equal. f_equal.
    apply filter_ext_elem. intros x Hx. destruct (C x Hx) as (_ & _ & ->).
    destruct (bool_decide (group_key (snd x) = (n, s, c))) eqn:Hk; [|by rewrite !andb_false_r].
    bools. assert (event_pair (snd x) = (n, s)) as -> by (unfold group_key, event_pair in *; congruence).
    by rewrite bool_decide_true, !andb_true_r.
  - f_equal. generalize (last_clear (pair_events db (n, s))). unfold pair_events. rewrite flat_map_filter. clear.
    intros z. induction (orders db) as [|o l IH]; [done|]. cbn [flat_map]. rewrite fmap_app, List.filter_app, IH. f_equal.
    unfold open_of. by destruct (of_pair _ o).
Qed.

Lemma counter_sum db n s c :
  evidence_ok db ->
  counter db n s c =
  tally (n, s, Some c) (flat_map contact_evidence (contacts db)) +
  tally (n, s, Some c) (flat_map load_evidence_of (loads db)) +
  tally (n, s, Some c) (flat_map (open_of (last_clear (pair_events db (n, s))) (n, s)) (orders db)).
Proof. intros H. unfold counter. by rewrite tally_contacts, tally_orders. Qed.

(** ** Whose counter it is *)
Lemma contact_not_load s : is_contact_subject s = true -> String.prefix _LOAD s = false.
Proof.
  unfold is_contact_subject. rewrite mem_true. generalize s. apply Forall_forall. repeat constructor.
Qed.

Lemma prefix_app a b : String.prefix a (a +:+ b) = true.
Proof. induction a as [|x a IH]; [by destruct b|]. simpl. destruct (Ascii.ascii_dec x x); [done|congruence]. Qed.

Lemma app_inj a b c : a +:+ b = a +:+ c -> b = c.
Proof. induction a as [|x a IH]; [done|]. intros H. apply IH. by injection H. Qed.

Lemma load_evidence_subject a e :
  e ∈ load_evidence_of a -> ev_subject e = load_subject (load_id a) /\ String.prefix _LOAD (ev_subject e) = true.
Proof.
  unfold load_evidence_of. destruct (owner_evidence _) as [l|] eqn:E; [|by intros ?%elem_of_nil]. intros He.
  pose proof (owner_bound _ _ _ E He) as Hb. simpl in Hb. bools. split; [done|]. rewrite H. apply prefix_app.
Qed.

Lemma open_of_pair z p o e : e ∈ open_of z p o -> event_pair e = p /\ order_pair o = p.
Proof.
  unfold open_of, of_pair. case_bool_decide as Hp; [|by intros ?%elem_of_nil]. intros [Hx _]%elem_of_filter_bool.
  apply list_elem_of_fmap in Hx as (x & -> & (_ & -> & _)%order_events_bound). done.
Qed.

Lemma key_subject e n s c : group_key e = (n, s, c) -> ev_subject e = s /\ event_pair e = (n, s).
Proof. unfold group_key, event_pair. intros [= -> -> _]. done. Qed.

Lemma contacts_zero db n s c : is_contact_subject s = false -> tally (n, s, c) (flat_map contact_evidence (contacts db)) = 0.
Proof.
  intros Hs. apply tally_none. intros e (x & _ & [_ He]%contact_evidence_node)%elem_of_flat_map [Hk _]%key_subject. congruence.
Qed.

Lemma loads_zero db n s c : String.prefix _LOAD s = false -> tally (n, s, c) (flat_map load_evidence_of (loads db)) = 0.
Proof.
  intros Hs. apply tally_none. intros e (x & _ & [_ He]%load_evidence_subject)%elem_of_flat_map [Hk _]%key_subject. congruence.
Qed.

Lemma orders_zero db n s c z : evidence_ok db -> on_order s = false -> tally (n, s, c) (flat_map (open_of z (n, s)) (orders db)) = 0.
Proof.
  intros H Hs. apply tally_none. intros e (o & Ho & [_ He]%open_of_pair)%elem_of_flat_map _.
  destruct (ok_orders _ H o Ho) as [_ Hk]. unfold order_pair in He. congruence.
Qed.

(** ** Writing a contact or a load *)
Lemma write_contact db c l :
  evidence_ok db -> c ∈ contacts db -> forallb (bound (ContactOwner c)) l = true -> NoDup (group_key <$> l) ->
  let db' := _write (ContactOwner c) l db in
  evidence_ok db' /\ forall n s k, counter db' n s k =
    counter db n s k + (tally (n, s, Some k) l - tally (n, s, Some k) (contact_evidence c)).
Proof.
  intros H Hc Hb Hn db'.
  assert (forall x, x ∈ contacts db -> contact_node x = contact_node c -> owner_evidence (ContactOwner (store_contact_evidence l x)) = Some l) as Hst.
  { intros x Hx Hxc. assert (x = c) as -> by (eapply (key_inj contact_node); [apply H|done..]).
    unfold owner_evidence. destruct l as [|e l]; [done|]. cbn [column_of store_contact_evidence contact_repeated_evidence stored].
    by assert (forallb (bound (ContactOwner (store_contact_evidence (e :: l) c))) (e :: l) = true) as -> by exact Hb. }
  assert (evidence_ok db') as Hok.
  { constructor; try apply H; [by eapply log_same; [apply H|..]| |].
    - simpl. rewrite <- list_fmap_compose. erewrite list_fmap_ext; [apply H|]. intros i x _. simpl. by case_bool_decide.
    - intros x (y & -> & Hy)%list_elem_of_fmap. case_bool_decide as E; [|by apply (ok_contacts _ H)].
      unfold contact_evidence. rewrite (Hst y Hy E). done. }
  split; [done|]. intros n s k. rewrite !counter_sum by done.
  change (loads db') with (loads db). change (orders db') with (orders db). change (pair_events db' (n, s)) with (pair_events db (n, s)).
  unfold db'. simpl contacts. rewrite (tally_update contact_node contact_evidence (store_contact_evidence l)); [|apply H|done].
  unfold contact_evidence at 2. rewrite (Hst c Hc eq_refl). simpl default. lia.
Qed.

Lemma write_load db a l :
  evidence_ok db -> a ∈ loads db -> forallb (bound (LoadOwner a)) l = true -> NoDup (group_key <$> l) ->
  let db' := _write (LoadOwner a) l db in
  evidence_ok db' /\ forall n s k, counter db' n s k =
    counter db n s k + (tally (n, s, Some k) l - tally (n, s, Some k) (load_evidence_of a)).
Proof.
  intros H Ha Hb Hn db'.
  assert (forall x, x ∈ loads db -> load_id x = load_id a -> owner_evidence (LoadOwner (store_load_evidence l x)) = Some l) as Hst.
  { intros x Hx Hxc. assert (x = a) as -> by (eapply (key_inj load_id); [apply H|done..]).
    unfold owner_evidence. destruct l as [|e l]; [done|]. cbn [column_of store_load_evidence load_evidence stored].
    by assert (forallb (bound (LoadOwner (store_load_evidence (e :: l) a))) (e :: l) = true) as -> by exact Hb. }
  assert (evidence_ok db') as Hok.
  { constructor; try apply H; [by eapply log_same; [apply H|..]| |].
    - simpl. rewrite <- list_fmap_compose. erewrite list_fmap_ext; [apply H|]. intros i x _. simpl. by case_bool_decide.
    - intros x (y & -> & Hy)%list_elem_of_fmap. case_bool_decide as E; [|by apply (ok_loads _ H)].
      unfold load_evidence_of. rewrite (Hst y Hy E). done. }
  split; [done|]. intros n s k. rewrite !counter_sum by done.
  change (contacts db') with (contacts db). change (orders db') with (orders db). change (pair_events db' (n, s)) with (pair_events db (n, s)).
  unfold db'. simpl loads. rewrite (tally_update load_id load_evidence_of (store_load_evidence l)); [|apply H|done].
  unfold load_evidence_of at 2. rewrite (Hst a Ha eq_refl). simpl default. lia.
Qed.

(** ** Adding an event to an order *)
Lemma open_of_stored z p o ev e :
  owner_evidence (OrderOwner o) = Some ev -> bound (OrderOwner o) e = true ->
  open_of z p (store_order_evidence (ev ++ [e]) o) =
  (open_of z p o ++ if of_pair p o && is_open z e then [e] else [])%list.
Proof.
  intros Hev Hb. destruct (owner_listed o ev Hev) as [_ Hall]. unfold open_of.
  change (of_pair p (store_order_evidence (ev ++ [e]) o)) with (of_pair p o). destruct (of_pair p o); [|done]. cbn [andb].
  unfold order_events. rewrite stored_owner, Hev.
  2:{ rewrite forallb_app, Hall. cbn [forallb andb]. by rewrite Hb. }
  simpl default. rewrite map_app, fmap_app, List.filter_app. done.
Qed.

Lemma closed_all db p z : (forall x, x ∈ pair_events db p -> ev_sequence (snd x) <= z) -> flat_map (open_of z p) (orders db) = [].
Proof.
  intros H. assert (forall l, (forall o, o ∈ l -> o ∈ orders db) -> flat_map (open_of z p) l = []) as Hl; [|by apply Hl].
  induction l as [|o l IH]; intros Hsub; [done|]. cbn [flat_map]. rewrite IH by (intros; apply Hsub; by right). rewrite app_nil_r.
  unfold open_of, of_pair. case_bool_decide as Hp; [|done]. apply filter_false. intros e (x & -> & Hx)%list_elem_of_fmap.
  unfold is_open. rewrite (proj2 (Z.ltb_ge _ _)); [apply andb_false_r|]. apply H. apply pair_events_elem. exists o.
  split_and!; [apply Hsub; by left|done..].
Qed.

Lemma event_of_pair o e : bound (OrderOwner o) e = true -> event_pair e = order_pair o.
Proof. simpl. intros H. bools. unfold event_pair, order_pair. congruence. Qed.

Lemma write_order db o ev e :
  evidence_ok db -> o ∈ orders db -> owner_evidence (OrderOwner o) = Some ev -> bound (OrderOwner o) e = true ->
  (forall y, y ∈ sequences db -> y < ev_sequence e) -> (postgresql db = true -> ev_sequence e <= sequence_last db) ->
  let db' := _write (OrderOwner o) (ev ++ [e])%list db in
  evidence_ok db' /\ forall n s k, counter db' n s k =
    if is_clear e then if bool_decide ((n, s) = order_pair o) then 0 else counter db n s k
    else counter db n s k + (if bool_decide (group_key e = (n, s, Some k)) then ev_repeats e else 0).
Proof.
  intros H Ho Hev Hb Hnew Hlast db'. pose proof (ok_log _ H) as Hlog.
  assert (0 < ev_sequence e) as Hpos by (simpl in Hb; bools; done).
  assert (evidence_ok db') as Hok.
  { constructor; try apply H; [by apply log_write|]. intros x (y & -> & Hy)%list_elem_of_fmap.
    destruct (ok_orders _ H y Hy) as [Hr Hk]. case_bool_decide as E; [|done]. split; [|done].
    assert (y = o) as -> by (eapply (key_inj order_id); [apply Hlog|done..]).
    unfold is_unreadable. rewrite stored_owner; [done|]. destruct (owner_listed o ev Hev) as [_ Hall].
    rewrite forallb_app, Hall. cbn [forallb andb]. by rewrite Hb. }
  split; [done|]. intros n s k. pose proof (last_clear_write db o ev e (n, s) Hlog Ho Hev Hb Hnew) as Hc. fold db' in Hc.
  rewrite !counter_sum by done. change (contacts db') with (contacts db). change (loads db') with (loads db).
  destruct (write_event db o ev e (log_ids _ Hlog) Ho Hev Hb) as (_ & _ & Hpe). fold db' in Hpe.
  destruct (ok_orders _ H o Ho) as [_ Hkind]. rewrite Hc.
  assert (forall z, tally (n, s, Some k) (flat_map (open_of z (n, s)) (orders db')) =
    tally (n, s, Some k) (flat_map (open_of z (n, s)) (orders db)) +
    (if bool_decide ((n, s) = order_pair o) && is_open z e then tally (n, s, Some k) [e] else 0)) as Hupd.
  { intros z. unfold db'. simpl orders.
    rewrite (tally_update order_id (open_of z (n, s)) (store_order_evidence (ev ++ [e]))); [|apply Hlog|done].
    rewrite open_of_stored, tally_app by done. unfold of_pair. rewrite (bool_decide_ext (order_pair o = (n, s)) ((n, s) = order_pair o)) by naive_solver.
    destruct (bool_decide ((n, s) = order_pair o) && is_open z e); [lia|]. change (tally (n, s, Some k) []) with 0. lia. }
  destruct (is_clear e) eqn:Hce.
  - case_bool_decide as Hp; cbn [andb].
    + rewrite closed_all; [|].
      2:{ intros x [Hx|[_ ->]]%Hpe; [|done]. apply Z.lt_le_incl, Hnew. apply list_elem_of_fmap. exists (snd x).
          split; [done|]. by eapply pair_events_listed. }
      assert (on_order s = true) as Hs by (unfold order_pair in Hp; congruence). unfold on_order in Hs. bools.
      rewrite contacts_zero, loads_zero by done. done.
    + rewrite Hupd. rewrite ?bool_decide_false by done. cbn [andb]. lia.
  - rewrite andb_false_r, Hupd. case_bool_decide as Hp.
    + assert (is_open (last_clear (pair_events db (n, s))) e = true) as ->.
      { unfold is_open. rewrite Hce. apply Z.ltb_lt. destruct (last_clear_spec (pair_events db (n, s))) as [[-> _]|(y & Hy & _ & <- & _)]; [lia|].
        apply Hnew. apply list_elem_of_fmap. exists (snd y). split; [done|]. by eapply pair_events_listed. }
      cbn [andb]. rewrite tally_cons. change (tally (n, s, Some k) []) with 0. case_bool_decide; lia.
    + cbn [andb]. rewrite bool_decide_false; [lia|]. intros [_ Hk]%key_subject. apply Hp. rewrite <- Hk. by apply event_of_pair.
Qed.

(** ** The owner of a subject *)
Lemma prefix_split p : forall s, String.prefix p s = true ->
  p +:+ String.substring (String.length p) (String.length s - String.length p) s = s.
Proof.
  induction p as [|x p IH]; intros s.
  - intros _. simpl. rewrite Nat.sub_0_r. apply substring_all.
  - destruct s as [|y s]; [done|]. simpl. destruct (Ascii.ascii_dec x y) as [<-|]; [|done]. intros H. exact (f_equal (String x) (IH s H)).
Qed.

Lemma substring_bound k : forall s, (String.length (String.substring 0 k s) <= k)%nat.
Proof. induction k as [|k IH]; intros [|c s]; simpl; try lia. specialize (IH s). lia. Qed.

Lemma ensure_contact_ok db n :
  evidence_ok db -> evidence_ok (ensure_contact n db) /\ forall n' s k, counter (ensure_contact n db) n' s k = counter db n' s k.
Proof.
  intros H. unfold ensure_contact. destruct (find_contact n db) eqn:E; [done|].
  set (db' := set_contacts _ db). assert (evidence_ok db') as Hok.
  { constructor; try apply H; [by eapply log_same; [apply H|..]| |].
    - simpl. rewrite fmap_app, NoDup_app. split_and!; [apply H| |apply NoDup_singleton].
      intros x (c & -> & Hc)%list_elem_of_fmap Hx%list_elem_of_singleton. simpl in Hx.
      pose proof (find_none _ _ E c) as Hn. rewrite <- list_elem_of_In in Hn. specialize (Hn Hc). bools. done.
    - intros c [Hc|Hc%list_elem_of_singleton]%elem_of_app; [by apply (ok_contacts _ H)|]. subst c. split; [done|by apply NoDup_nil]. }
  split; [done|]. intros n' s k. rewrite !counter_sum by done. simpl contacts. rewrite flat_map_app, tally_app.
  change (tally (n', s, Some k) (flat_map contact_evidence [_])) with 0.
  change (loads db') with (loads db). change (orders db') with (orders db). change (pair_events db' (n', s)) with (pair_events db (n', s)). lia.
Qed.

Section notes.
Context (home : string -> string * string).

(** The row is the one that keeps the subject's evidence. *)
Definition keeps_subject (d : EvidenceDb) (n s : string) (row : EvidenceOwner) : Prop :=
  match row with
  | ContactOwner c => c ∈ contacts d /\ contact_node c = n /\ is_contact_subject s = true
  | LoadOwner a => a ∈ loads d /\ load_subject (load_id a) = s /\ is_contact_subject s = false
  | OrderOwner o => o ∈ orders d /\ order_pair o = (n, s) /\ on_order s = true
  end.

Lemma owner_ok db s n op d row :
  evidence_ok db -> homed home db -> (forall o, op = Some o -> genuine_order home o) ->
  _owner db s n op = Ok (d, Some row) ->
  evidence_ok d /\ (forall n' s' k, counter d n' s' k = counter db n' s' k) /\ keeps_subject d n s row /\
  match row with OrderOwner _ => d = db | _ => True end.
Proof.
  intros H Hh Hg. unfold _owner. destruct (is_contact_subject s) eqn:Hc.
  - unfold lock_contact. destruct (mem n (nodes db)); [|done]. destruct (ensure_contact_ok db n H) as [Hok Hcount].
    destruct (find_contact n _) as [c|] eqn:E; [|done]. intros [= <- <-]. split_and!; try done.
    apply find_some in E as [E1 E2]. bools. split_and!; try done. by apply list_elem_of_In.
  - destruct (String.prefix _LOAD s) eqn:Hl.
    + destruct (find_load _ db) as [a|] eqn:E; [|done]. intros [= <- <-]. split_and!; try done.
      apply find_some in E as [E1 E2]. bools. split_and!; try done; [by apply list_elem_of_In|].
      unfold load_subject. rewrite E2. by apply prefix_split.
    + destruct op as [o0|]; [|done]. destruct (_ && _) eqn:Hm; [|done]. destruct (find_order _ db) as [o|] eqn:E; [|done].
      intros [= <- <-]. destruct (owner_order_pair home db s n o0 o Hh (Hg _ eq_refl) Hm E) as (Ho & _ & Hp).
      split_and!; try done. split_and!; try done. unfold on_order. by rewrite Hc, Hl.
Qed.

Lemma evidence_accepted n s c r detail z :
  length_within 1 64 n = true -> length_within 1 128 s = true ->
  match c with Some c => length_within 1 128 c = true | None => r = 0 end -> 0 <= r -> 0 <= z <= MAX_SEQUENCE ->
  forall at_, make_evidence {| ev_node := n; ev_subject := s; ev_code := c; ev_repeats := r; ev_first_at := at_; ev_last_at := at_;
    ev_detail := String.substring 0 256 <$> detail; ev_sequence := z |} =
  Ok {| ev_node := n; ev_subject := s; ev_code := c; ev_repeats := r; ev_first_at := at_; ev_last_at := at_;
    ev_detail := String.substring 0 256 <$> detail; ev_sequence := z |}.
Proof.
  intros H1 H2 H3 H4 [H5 H6] at_. unfold make_evidence. simpl. rewrite H1, H2.
  assert (match c with Some c0 => length_within 1 128 c0 | None => r =? 0 end = true) as ->.
  { destruct c; [done|]. by apply Z.eqb_eq. }
  assert (match String.substring 0 256 <$> detail with Some d => length_within 0 256 d | None => true end = true) as ->.
  { destruct detail as [d|]; [|done]. simpl. unfold length_within. apply andb_true_iff. split; [done|].
    apply Nat.leb_le. apply substring_bound. }
  rewrite (proj2 (Z.leb_le _ _) H4), (proj2 (Z.leb_le _ _) H5), (proj2 (Z.leb_le _ _) H6). done.
Qed.

Lemma evidence_readable db row n s :
  evidence_ok db -> keeps_subject db n s row ->
  exists ev, owner_evidence row = Some ev /\ forallb (bound row) ev = true /\
    match row with
    | ContactOwner c => ev = contact_evidence c /\ NoDup (group_key <$> ev)
    | LoadOwner a => ev = load_evidence_of a /\ NoDup (group_key <$> ev)
    | OrderOwner _ => True
    end.
Proof.
  intros H Hk. assert (forall ev, owner_evidence row = Some ev -> forallb (bound row) ev = true) as Hb.
  { intros ev E. apply forallb_forall. intros e He. eapply owner_bound; [done|]. by apply list_elem_of_In. }
  destruct row as [c|o|a]; simpl in Hk.
  - destruct (ok_contacts _ H c) as [Hr Hn]; [tauto|]. unfold contact_evidence in *.
    destruct (owner_evidence (ContactOwner c)) as [ev|]; [|done]. exists ev. auto.
  - destruct (ok_orders _ H o) as [Hr _]; [tauto|]. unfold is_unreadable in Hr.
    destruct (owner_evidence (OrderOwner o)) as [ev|]; [|done]. exists ev. auto.
  - destruct (ok_loads _ H a) as [Hr Hn]; [tauto|]. unfold load_evidence_of in *.
    destruct (owner_evidence (LoadOwner a)) as [ev|]; [|done]. exists ev. auto.
Qed.

(** What a note needs: an owner, texts the contract takes, a sequence value. *)
Record can_note (db : EvidenceDb) (s n : string) (op : option EvidenceOrder) (row : EvidenceOwner) : Prop := {
  cn_genuine : forall o, op = Some o -> genuine_order home o;
  cn_owner : exists d, _owner db s n op = Ok (d, Some row);
  cn_node : length_within 1 64 n = true;
  cn_subject : length_within 1 128 s = true;
  cn_sequence : exists z d, next_sequence db = Some (z, d) /\ z <= MAX_SEQUENCE;
}.

(** A failure that is noted counts one more under its Spark, subject and code, and changes
    no other counter, whichever row keeps it. *)
Theorem note_repeat_counts db s n code now detail op row :
  evidence_ok db -> homed home db -> can_note db s n op row -> length_within 1 128 code = true ->
  exists db', note_repeat s n code now detail op false db = Ok db' /\ evidence_ok db' /\
    forall n' s' k, counter db' n' s' k = counter db n' s' k + (if bool_decide ((n', s', k) = (n, s, code)) then 1 else 0).
Proof.
  intros H Hh [Hg [d Hd] Hn Hs (z & d1 & Hz & Hzm)] Hcode.
  destruct (owner_ok db s n op d row H Hh Hg Hd) as (Hok & Hcount & Hk & Hrow).
  destruct (evidence_readable d row n s Hok Hk) as (ev & Hev & Hb & Hnd).
  unfold note_repeat. rewrite Hd. cbn [mbind result_bind]. rewrite Hev.
  rewrite (evidence_accepted n s (Some code) 1 detail 0) by (done || lia). cbn [mbind result_bind].
  set (e := {| ev_node := n |}). setoid_rewrite <- Hcount.
  assert (forall n' s' k, bool_decide (group_key e = (n', s', Some k)) = bool_decide ((n', s', k) = (n, s, code))) as Hkey.
  { intros n' s' k. apply bool_decide_ext. unfold group_key. simpl. naive_solver. }
  destruct row as [c|o|a]; cbn [keeps_subject] in Hk.
  - destruct Hk as (Hc & Hcn & Hsub). destruct Hnd as [-> Hnd]. eexists. split; [done|].
    destruct (merge_repeat_keys e _ Hnd) as [Hnd' Hel].
    destruct (write_contact d c (merge_repeat e (contact_evidence c)) Hok Hc) as [Hok' Hcount']; [|done|].
    { apply forallb_forall. intros x Hx. apply list_elem_of_In, Hel in Hx as [Hx|[Hx1 Hx2]]; [by eapply owner_bound|].
      unfold group_key in Hx1. simpl in Hx1, Hx2. simpl. injection Hx1 as E1 E2 E3.
      rewrite E1, E2, E3, Hcn, Hsub, Hx2. rewrite bool_decide_true by done. done. }
    split; [done|]. intros n' s' k. rewrite Hcount', merge_repeat_tally, Hkey by done. lia.
  - subst d. rewrite Hz. destruct Hk as (Ho & Hp & Hsub). eexists. split; [done|].
    destruct (next_sequence_spec db z d1 (ok_log _ H) Hz) as (Hpos & Hnew & E & Hle & Hlast).
    assert (evidence_ok d1) as Hok1.
    { rewrite E. constructor; try apply H. by apply log_set_last; [apply H|]. }
    assert (bound (OrderOwner o) (with_sequence z e) = true) as Hbe by (by apply (bound_order o n s)).
    destruct (write_order d1 o ev (with_sequence z e) Hok1) as [Hok' Hcount']; try done.
    { by rewrite E. } { intros y Hy. apply Hnew. by rewrite E in Hy. }
    { rewrite E at 1. intros Hpg. simpl. rewrite (Hlast Hpg). done. }
    split; [done|]. intros n' s' k. rewrite Hcount'. assert (is_clear (with_sequence z e) = false) as -> by done.
    change (group_key (with_sequence z e)) with (group_key e). rewrite Hkey.
    assert (counter d1 n' s' k = counter db n' s' k) as -> by (rewrite E; done). done.
  - destruct Hk as (Ha & Has & Hsub). destruct Hnd as [-> Hnd]. eexists. split; [done|].
    destruct (merge_repeat_keys e _ Hnd) as [Hnd' Hel].
    destruct (write_load d a (merge_repeat e (load_evidence_of a)) Hok Ha) as [Hok' Hcount']; [|done|].
    { apply forallb_forall. intros x Hx. apply list_elem_of_In, Hel in Hx as [Hx|[Hx1 Hx2]]; [by eapply owner_bound|].
      unfold group_key in Hx1. simpl in Hx1, Hx2. simpl. injection Hx1 as E1 E2 E3.
      rewrite E2, E3, Has, Hx2. rewrite bool_decide_true by done. done. }
    split; [done|]. intros n' s' k. rewrite Hcount', merge_repeat_tally, Hkey by done. lia.
Qed.

Lemma filter_pair_tally n s l n' s' k :
  tally (n', s', k) (List.filter (fun e => negb (bool_decide (event_pair e = (n, s)))) l) =
  if bool_decide ((n', s') = (n, s)) then 0 else tally (n', s', k) l.
Proof.
  case_bool_decide as E.
  - apply tally_none. intros e [_ He]%elem_of_filter_bool [_ Hk]%key_subject. bools. congruence.
  - unfold tally. rewrite filter_filter. do 2 f_equal. apply filter_ext_elem. intros e _.
    destruct (bool_decide (group_key e = _)) eqn:Hk; [|by rewrite andb_false_r]. bools. apply key_subject in Hk as [_ Hk].
    rewrite bool_decide_false; [done|]. congruence.
Qed.

Lemma filter_sub_keys f l : NoDup (group_key <$> l) -> NoDup (group_key <$> List.filter f l).
Proof.
  induction l as [|x l IH]; [done|]. rewrite fmap_cons, NoDup_cons. intros [Hx Hn]. cbn [List.filter].
  destruct (f x); [|by apply IH]. rewrite fmap_cons, NoDup_cons. split; [|by apply IH].
  intros (y & E & [Hy _]%elem_of_filter_bool)%list_elem_of_fmap. apply Hx. rewrite E. apply list_elem_of_fmap. eauto.
Qed.

Lemma uncleared_counter db n s k :
  evidence_ok db -> on_order s = true -> _uncleared_failures db n s = false -> counter db n s k = 0.
Proof.
  intros H Hs Hu. rewrite counter_sum by done. unfold on_order in Hs. bools. rewrite contacts_zero, loads_zero by done.
  unfold _uncleared_failures in Hu. pose proof (command_events_one db n s) as E. rewrite no_unreadable in E by done.
  destruct (command_events db [n] (Some s)) as [events un]. cbn [fst] in E. subst events. apply orb_false_iff in Hu as [_ Hu].
  rewrite existsb_none in Hu. rewrite tally_none; [done|].
  intros e (o & Ho & He)%elem_of_flat_map _. unfold open_of in He. destruct (of_pair (n, s) o) eqn:Hp; [|by apply elem_of_nil in He].
  apply elem_of_filter_bool in He as [(x & -> & Hx)%list_elem_of_fmap He]. unfold of_pair in Hp. bools.
  unfold is_open in He. rewrite (Hu x) in He; [done|]. apply pair_events_elem. eauto.
Qed.

(** A success sets every counter of its Spark and subject to zero and changes no other; an
    order whose last event already is its success changes nothing. *)
Theorem note_success_clears db s n op now row :
  evidence_ok db -> homed home db -> can_note db s n op row ->
  exists db', note_success s n op now false db = Ok db' /\ evidence_ok db' /\
    forall n' s' k, counter db' n' s' k =
      if bool_decide ((n', s') = (n, s)) && negb (match row with OrderOwner o => ends_clear (listed o) | _ => false end) then 0
      else counter db n' s' k.
Proof.
  intros H Hh [Hg [d Hd] Hn Hs (z & d1 & Hz & Hzm)].
  destruct (owner_ok db s n op d row H Hh Hg Hd) as (Hok & Hcount & Hk & Hrow).
  destruct (evidence_readable d row n s Hok Hk) as (ev & Hev & Hb & Hnd).
  unfold note_success. rewrite Hd. cbn [mbind result_bind]. rewrite Hev. setoid_rewrite <- Hcount.
  assert (forall x, x ∈ List.filter (fun e => negb (bool_decide (event_pair e = (n, s)))) ev -> bound row x = true) as Hfb.
  { intros x [Hx _]%elem_of_filter_bool. by eapply owner_bound. }
  destruct row as [c|o|a]; cbn [keeps_subject] in Hk.
  - destruct Hk as (Hc & Hcn & Hsub). destruct Hnd as [-> Hnd]. eexists. split; [done|].
    destruct (write_contact d c (List.filter (fun e => negb (bool_decide (event_pair e = (n, s)))) (contact_evidence c)) Hok Hc)
      as [Hok' Hcount']; [by apply forallb_forall; intros x Hx; apply Hfb, list_elem_of_In|by apply filter_sub_keys|].
    split; [done|]. intros n' s' k. rewrite Hcount', filter_pair_tally, andb_true_r. case_bool_decide as E; [|lia].
    injection E as -> ->. rewrite counter_sum by done. rewrite loads_zero by (by apply contact_not_load).
    rewrite orders_zero; [|done|by unfold on_order; rewrite Hsub].
    enough (tally (n, s, Some k) (flat_map contact_evidence (contacts d)) = tally (n, s, Some k) (contact_evidence c)) by lia.
    apply (tally_row contact_node); [apply Hok|done|]. intros x Hx Hne e [He _]%contact_evidence_node [= Hen _ _]. congruence.
  - subst d. destruct Hk as (Ho & Hp & Hsub). destruct (owner_listed o ev Hev) as [-> _].
    destruct (ends_clear ev) eqn:Hec.
    { eexists. split; [done|]. split; [done|]. intros n' s' k. by rewrite andb_false_r. }
    destruct (_uncleared_failures db n s) eqn:Hu; cbn [negb].
    2:{ eexists. split; [done|]. split; [done|]. intros n' s' k. rewrite andb_true_r. case_bool_decide as E; [|done].
        injection E as -> ->. by apply uncleared_counter. }
    rewrite Hz. destruct (next_sequence_spec db z d1 (ok_log _ H) Hz) as (Hpos & Hnew & E & Hle & Hlast).
    rewrite (evidence_accepted n s None 0 None z) by (done || lia). cbn [mbind result_bind]. eexists. split; [done|].
    assert (evidence_ok d1) as Hok1. { rewrite E. constructor; try apply H. by apply log_set_last; [apply H|]. }
    match goal with |- context [_write (OrderOwner o) (ev ++ [?x]) d1] => set (e := x) end.
    assert (bound (OrderOwner o) e = true) as Hbe by (by apply (bound_order o n s)).
    destruct (write_order d1 o ev e Hok1) as [Hok' Hcount']; try done.
    { by rewrite E. } { intros y Hy. apply Hnew. by rewrite E in Hy. } { rewrite E at 1. intros Hpg. simpl. rewrite (Hlast Hpg). done. }
    split; [done|]. intros n' s' k. rewrite Hcount', Hp. assert (is_clear e = true) as -> by done.
    rewrite andb_true_r. case_bool_decide; [done|]. by rewrite E.
  - destruct Hk as (Ha & Has & Hsub). destruct Hnd as [-> Hnd]. eexists. split; [done|].
    destruct (write_load d a (List.filter (fun e => negb (bool_decide (event_pair e = (n, s)))) (load_evidence_of a)) Hok Ha)
      as [Hok' Hcount']; [by apply forallb_forall; intros x Hx; apply Hfb, list_elem_of_In|by apply filter_sub_keys|].
    split; [done|]. intros n' s' k. rewrite Hcount', filter_pair_tally, andb_true_r. case_bool_decide as E; [|lia].
    injection E as -> ->. rewrite counter_sum by done. rewrite contacts_zero by done.
    assert (String.prefix _LOAD s = true) as Hl by (rewrite <- Has; apply prefix_app).
    rewrite orders_zero; [|done|by unfold on_order; rewrite Hl, andb_false_r].
    enough (tally (n, s, Some k) (flat_map load_evidence_of (loads d)) = tally (n, s, Some k) (load_evidence_of a)) by lia.
    apply (tally_row load_id); [apply Hok|done|]. intros x Hx Hne e [He _]%load_evidence_subject [Hk _]%key_subject.
    apply Hne. apply (app_inj _LOAD). unfold load_subject in *. congruence.
Qed.
End notes.

(** ** What is shown *)
Lemma group_into_elem e l x : x ∈ group_into e l -> group_key x = group_key e \/ exists y, y ∈ l /\ group_key x = group_key y.
Proof.
  induction l as [|y l IH]; cbn [group_into]; [intros ->%list_elem_of_singleton; by left|].
  destruct (bool_decide (group_key y = group_key e)) eqn:E.
  - intros [->|Hx]%elem_of_cons; right; [exists y; split; [by left|done]|exists x; split; [by right|done]].
  - intros [->|[?|(z & ? & ?)]%IH]%elem_of_cons; [right; exists y; split; [by left|done]|by left|right; exists z; split; [by right|done]].
Qed.

Lemma group_into_keys e l : NoDup (group_key <$> l) -> NoDup (group_key <$> group_into e l).
Proof.
  induction l as [|x l IH]; [intros _; apply NoDup_singleton|]. rewrite fmap_cons, NoDup_cons. intros [Hx Hn]. cbn [group_into].
  destruct (bool_decide (group_key x = group_key e)) eqn:E; rewrite fmap_cons, NoDup_cons; [done|].
  split; [|by apply IH]. intros (y & Hy & [Hk|(z & Hz & Hk)]%group_into_elem)%list_elem_of_fmap; bools; [congruence|].
  apply Hx. rewrite Hy, Hk. apply list_elem_of_fmap. eauto.
Qed.

Lemma grouped_keys events : NoDup (group_key <$> grouped events).
Proof.
  unfold grouped. assert (forall l acc, NoDup (group_key <$> acc) -> NoDup (group_key <$> fold_left (fun l e => group_into e l) l acc)) as H.
  { induction l as [|e l IH]; intros acc Ha; [done|]. simpl. by apply IH, group_into_keys. }
  apply H, NoDup_nil. done.
Qed.

(** Every line of the summary of an order's command counts what its counter counts. *)
Theorem summary_is_counter db n s c e :
  evidence_ok db -> on_order s = true -> e ∈ grouped (fst (command_events db [n] None)) -> group_key e = (n, s, Some c) ->
  ev_repeats e = counter db n s c.
Proof.
  intros H Hs He Hk. unfold counter. rewrite tally_contacts. unfold on_order in Hs. bools. rewrite contacts_zero, loads_zero by done.
  symmetry. apply (tally_unique _ _ e); [apply grouped_keys|done..].
Qed.

(** ** An example *)
Definition example_home (id_ : string) : string * string := ("spk-1", "recipe.install").
Definition example_install (id_ : string) : EvidenceOrder := {|
  order_id := id_; order_node := "spk-1"; order_kind := "recipe.install"; order_state := "running";
  order_created_at := Aware 0; order_updated_at := Aware 0; order_deadline := None; order_attempt := None;
  order_target := None; order_evidence := EmptyColumn |}.
Definition example_tables : EvidenceDb := {|
  postgresql := true; nodes := ["spk-1"]; contacts := []; orders := [example_install "o-1"; example_install "o-2"];
  loads := []; sequence_last := 0 |}.
Definition example_failure (id_ : string) (t : Z) : evidence_step :=
  NoteRepeat "recipe.install" "spk-1" "install.disk_full" (Aware (seconds t)) None (Some (example_install id_)) false.
Definition example_history : list evidence_step :=
  [example_failure "o-1" 10; example_failure "o-1" 20;
   NoteSuccess "recipe.install" "spk-1" (Some (example_install "o-2")) (Some (Aware (seconds 30))) false;
   Progress "o-1" "failed" (Aware (seconds 31)) None None; Forget ["o-1"];
   example_failure "o-2" 40; example_failure "o-2" 45; example_failure "o-2" 50; example_failure "o-2" 55;
   example_failure "o-2" 60].

Lemma example_ok : evidence_ok example_tables /\ homed example_home example_tables.
Proof.
  split.
  - constructor; try (intros ? H; inversion H; fail); try apply NoDup_nil; try done.
    + constructor.
      * apply (bool_decide_unpack (NoDup _)). vm_compute. exact I.
      * by apply NoDup_nil.
      * split; [done|]. intros z Hz. by apply elem_of_nil in Hz.
      * intros _ z Hz. by apply elem_of_nil in Hz.
    + intros o [->|[->|Ho%elem_of_nil]%elem_of_cons]%elem_of_cons; [..|done]; by vm_compute.
  - by intros o [->|[->|Ho%elem_of_nil]%elem_of_cons]%elem_of_cons.
Qed.

Example example_shown :
  repeating_evidence (run_steps example_tables example_history) ["spk-1"] (Aware (seconds 70)) =
    [("spk-1", ["install.disk_full x5 on recipe.install since 1970-01-01T00:00Z, last 1970-01-01T00:01Z"])] /\
  length (orders (run_steps example_tables example_history)) = 1%nat.
Proof. vm_compute. done. Qed.

Lemma retention_invisible_witness :
  repeating_evidence (run_steps example_tables example_history) ["spk-1"] (Aware (seconds 70)) =
  repeating_evidence (run_steps example_tables (List.filter (fun s => negb (forgets s)) example_history)) ["spk-1"] (Aware (seconds 70)).
Proof.
  apply (retention_invisible example_home).
  - apply example_ok.
  - apply example_ok.
  - reflexivity.
  - repeat constructor.
  - simpl. split; [|done]. intros s i Hs Hi ->%list_elem_of_singleton.
    repeat (apply elem_of_cons in Hs as [->|Hs]; [by apply list_elem_of_singleton in Hi|]). by apply elem_of_nil in Hs.
Defined.

Lemma evidence_log_history_witness :
  log_ok (run_steps example_tables example_history) /\ homed example_home (run_steps example_tables example_history).
Proof. apply (evidence_log_history example_home); [apply example_ok..|]. repeat constructor. Defined.

Lemma note_repeat_counts_witness :
  exists db', note_repeat "recipe.install" "spk-1" "install.disk_full" (Aware 0) None (Some (example_install "o-1")) false example_tables = Ok db' /\
    evidence_ok db' /\ forall n' s' k, counter db' n' s' k =
      counter example_tables n' s' k + (if bool_decide ((n', s', k) = ("spk-1", "recipe.install", "install.disk_full")) then 1 else 0).
Proof.
  apply (note_repeat_counts example_home _ _ _ _ _ _ _ (OrderOwner (example_install "o-1"))); [apply example_ok..| |reflexivity].
  constructor; [by intros o [= <-]|by eexists|reflexivity..|]. eexists _, _. split; [reflexivity|]. vm_compute. discriminate.
Defined.

Lemma note_success_clears_witness :
  exists db', note_success "agent result" "spk-1" None None false example_tables = Ok db' /\ evidence_ok db' /\
    forall n' s' k, counter db' n' s' k =
      if bool_decide ((n', s') = ("spk-1", "agent result")) && negb false then 0 else counter example_tables n' s' k.
Proof.
  apply (note_success_clears example_home example_tables "agent result" "spk-1" None None
           (ContactOwner {| contact_node := "spk-1"; contact_repeated_evidence := EmptyColumn |})); [apply example_ok..|].
  constructor; [done|by eexists|reflexivity..|]. eexists _, _. split; [reflexivity|]. vm_compute. discriminate.
Defined.
