(* ===== verification/LiteLlm.v ===== *)
(** * The LiteLLM configuration of a route bundle

    [control/src/vonk_control/litellm.py]: the configuration file the gateway runs with, made
    from the published routes and the accepted policy of each model.  The API facts of a model
    ([LiteLlmModelInfo]) are given as the document they are dumped to. *)
From S2P Require Import Prelude Json JsonRead Demand.

Definition PROMETHEUS_EXCLUDE_LABELS : list string :=
  ["api_base";
   "client_ip";
   "end_user";
   "model_id";
   "org_alias";
   "org_id";
   "tag";
   "user";
   "user_agent";
   "user_alias";
   "user_email"].

Definition PROMETHEUS_EXCLUDE_METRICS : list string :=
  ["litellm_api_key_budget_remaining_hours_metric";
   "litellm_api_key_max_budget_metric";
   "litellm_api_key_rate_limit_allowed_metric";
   "litellm_api_key_rate_limit_used_metric";
   "litellm_cache_hits_metric";
   "litellm_cache_misses_metric";
   "litellm_cached_tokens_metric";
   "litellm_check_batch_cost_errors_total";
   "litellm_check_batch_cost_jobs_polled";
   "litellm_check_batch_cost_jobs_processed_total";
   "litellm_check_batch_cost_last_run_timestamp";
   "litellm_customer_budget_remaining_hours_metric";
   "litellm_customer_max_budget_metric";
   "litellm_deployment_cooled_down";
   "litellm_deployment_latency_per_output_token";
   "litellm_deployment_rpm_limit";
   "litellm_deployment_tpm_limit";
   "litellm_guardrail_errors_total";
   "litellm_guardrail_latency_seconds";
   "litellm_guardrail_requests_total";
   "litellm_images_generated_metric";
   "litellm_in_memory_daily_spend_update_queue_size";
   "litellm_in_memory_spend_update_queue_size";
   "litellm_input_audio_tokens_metric";
   "litellm_input_cache_creation_tokens_metric";
   "litellm_input_cached_tokens_metric";
   "litellm_managed_batch_created_total";
   "litellm_managed_batch_duration_seconds";
   "litellm_managed_file_created_total";
   "litellm_managed_file_deleted_total";
   "litellm_managed_file_size_bytes";
   "litellm_mcp_tool_call_spend_metric";
   "litellm_mcp_tool_calls_total";
   "litellm_org_budget_remaining_hours_metric";
   "litellm_org_max_budget_metric";
   "litellm_output_audio_tokens_metric";
   "litellm_output_reasoning_tokens_metric";
   "litellm_overhead_latency_metric";
   "litellm_overhead_with_guardrails_latency_metric";
   "litellm_pod_lock_manager_size";
   "litellm_provider_cache_creation_input_tokens_metric";
   "litellm_provider_cache_read_input_tokens_metric";
   "litellm_redis_daily_spend_update_queue_size";
   "litellm_redis_spend_update_queue_size";
   "litellm_remaining_api_key_budget_metric";
   "litellm_remaining_api_key_requests_for_model";
   "litellm_remaining_api_key_tokens_for_model";
   "litellm_remaining_customer_budget_metric";
   "litellm_remaining_org_budget_metric";
   "litellm_remaining_requests_metric";
   "litellm_remaining_team_budget_metric";
   "litellm_remaining_tokens_metric";
   "litellm_remaining_user_budget_metric";
   "litellm_request_queue_time_seconds";
   "litellm_spend_metric";
   "litellm_team_budget_remaining_hours_metric";
   "litellm_team_max_budget_metric";
   "litellm_team_members_metric";
   "litellm_team_rate_limit_allowed_metric";
   "litellm_team_rate_limit_used_metric";
   "litellm_user_budget_remaining_hours_metric";
   "litellm_user_max_budget_metric";
   "litellm_video_duration_seconds_metric"].

(** ** The document, keys sorted and absent values left out *)
Definition LiteLlmGeneralSettings : json := JObject
  [("database_url", JString "os.environ/LITELLM_DATABASE_URL");
   ("disable_admin_ui", JBool false);
   ("master_key", JString "os.environ/LITELLM_MASTER_KEY");
   ("store_model_in_db", JBool false)].

Definition LiteLlmSettings : json := JObject
  [("drop_params", JBool true);
   ("failure_callback", JArray [JString "prometheus"]);
   ("prometheus_exclude_labels", JArray (JString <$> PROMETHEUS_EXCLUDE_LABELS));
   ("prometheus_exclude_metrics", JArray (JString <$> PROMETHEUS_EXCLUDE_METRICS));
   ("require_auth_for_metrics_endpoint", JBool false);
   ("set_verbose", JBool false);
   ("success_callback", JArray [JString "prometheus"])].

Definition LiteLlmRouterSettings : json := JObject
  [("enable_pre_call_checks", JBool false); ("routing_strategy", JString "simple-shuffle")].

Record LiteLlmModelEntry := {
  model_name : string;
  upstream : string;      (* litellm_params.model *)
  api_base : string;      (* litellm_params.api_base *)
  model_info : option json;
}.

Definition LITELLM_UPSTREAM_KEY : string := "os.environ/LITELLM_UPSTREAM_KEY".

Definition entry_json (e : LiteLlmModelEntry) : json := JObject
  ([("litellm_params", JObject
       [("api_base", JString (api_base e)); ("api_key", JString LITELLM_UPSTREAM_KEY);
        ("model", JString (upstream e))])]
   ++ match model_info e with Some info => [("model_info", info)] | None => [] end
   ++ [("model_name", JString (model_name e))])%list.

Definition config_json (model_list : list LiteLlmModelEntry) : json := JObject
  [("general_settings", LiteLlmGeneralSettings);
   ("litellm_settings", LiteLlmSettings);
   ("model_list", JArray (entry_json <$> model_list));
   ("router_settings", LiteLlmRouterSettings)].

Definition _document (model_list : list LiteLlmModelEntry) : string :=
  dumps (config_json model_list) +:+ ch 10.

(** ** Rendering *)
Record AcceptedPolicy := {
  upstream_model : string;
  upstream_provider : string;
  accepted_info : option json;
}.

Inductive render_error :=
| LiteLlmPolicyError (msg : string)
| EntryInvalid (alias : string).   (* the alias is no [EndpointAlias] *)

Definition model_start (c : Ascii.ascii) : bool :=
  let n := Ascii.nat_of_ascii c in
  (Nat.leb 48 n && Nat.leb n 57) || (Nat.leb 65 n && Nat.leb n 90) || (Nat.leb 97 n && Nat.leb n 122).
(** [A-Za-z0-9._:/+-] *)
Definition model_char (c : Ascii.ascii) : bool :=
  model_start c || mem (Ascii.nat_of_ascii c) [46; 95; 58; 47; 43; 45]%nat.
Definition _UPSTREAM_MODEL (s : string) : bool :=
  match s with
  | EmptyString => false
  | String c rest => model_start c && all_chars model_char rest && Nat.leb (String.length rest) 119
  end.

(** [value.rstrip("/")] *)
Fixpoint rstrip_slash (s : string) : string :=
  match s with
  | EmptyString => EmptyString
  | String c rest =>
      match rstrip_slash rest with
      | EmptyString => if Nat.eqb (Ascii.nat_of_ascii c) 47 then EmptyString else String c EmptyString
      | kept => String c kept
      end
  end.

Section Rendering.
(** the pattern of [vonk_forge_contracts.EndpointAlias] *)
Variable alias_ok : string -> bool.

Definition render_entry (aliases : gmap string string) (models : gmap string AcceptedPolicy)
    (alias : string) : (option LiteLlmModelEntry + render_error) :=
  match models !! alias, aliases !! alias with
  | Some accepted, Some base_ =>
      if negb (_UPSTREAM_MODEL (upstream_model accepted))
      then inr (LiteLlmPolicyError "LiteLLM upstream model is invalid")
      else if negb (alias_ok alias) then inr (EntryInvalid alias)
      else inl (Some {| model_name := alias;
                        upstream := upstream_provider accepted +:+ "/" +:+ upstream_model accepted;
                        api_base := rstrip_slash base_;
                        model_info := accepted_info accepted |})
  | _, _ => inl None
  end.

Fixpoint render_entries (aliases : gmap string string) (models : gmap string AcceptedPolicy)
    (names : list string) : (list LiteLlmModelEntry + render_error) :=
  match names with
  | [] => inl []
  | alias :: rest =>
      match render_entry aliases models alias with
      | inr e => inr e
      | inl e =>
          match render_entries aliases models rest with
          | inr e' => inr e'
          | inl l => inl (match e with Some x => x :: l | None => l end)
          end
      end
  end.

Definition render_config (aliases : gmap string string) (models : gmap string AcceptedPolicy)
    : (string + render_error) :=
  if bool_decide (aliases = ∅)
  then inr (LiteLlmPolicyError "LiteLLM models require a published route snapshot")
  else if existsb (fun p => bool_decide (snd p = EmptyString)) (map_to_list aliases)
  then inr (LiteLlmPolicyError "LiteLLM routes must be already-rendered strings")
  else if existsb (fun p => bool_decide (aliases !! fst p = None)) (map_to_list models)
  then inr (LiteLlmPolicyError "LiteLLM policy contains models outside published aliases")
  else if bool_decide (models = ∅)
  then inr (LiteLlmPolicyError "LiteLLM policy must publish at least one model")
  else match render_entries aliases models (sorted (fst <$> map_to_list models)) with
       | inr e => inr e
       | inl l => inl (_document l)
       end.
End Rendering.

Definition render_empty_config : string := _document [].

(** ** What a rendered file says *)

(** The facts of every model are given with distinct keys, as a dumped document has them. *)
Definition info_plain (e : LiteLlmModelEntry) : Prop :=
  match model_info e with Some info => distinct_keys info | None => True end.

Lemma entry_distinct e : info_plain e -> distinct_keys (entry_json e).
Proof.
  unfold info_plain, entry_json. destruct (model_info e) as [info|]; intros H; simpl; split_and!; try done;
    apply (bool_decide_unpack _); vm_compute; exact I.
Qed.

Lemma config_distinct l : Forall info_plain l -> distinct_keys (config_json l).
Proof.
  intros H. cbn [distinct_keys config_json map fold_right snd fst]. split_and!; try done.
  - apply (bool_decide_unpack _). vm_compute. exact I.
  - split_and!; try done. apply (bool_decide_unpack _). vm_compute. exact I.
  - split_and!; try done; try (apply (bool_decide_unpack _); vm_compute; exact I).
    all: by vm_compute.
  - induction H as [|e l He _ IH]; simpl; [done|]. split; [by apply entry_distinct|exact IH].
  - split_and!; try done. apply (bool_decide_unpack _). vm_compute. exact I.
Qed.

(** A rendered file parses to the document that was rendered. *)
Lemma document_reads_back l : Forall info_plain l -> loads (_document l) = Some (config_json l).
Proof. intros H. apply loads_dumps_newline. by apply config_distinct. Qed.

Lemma render_entry_name alias_ok aliases models alias e :
  render_entry alias_ok aliases models alias = inl (Some e) -> model_name e = alias.
Proof. unfold render_entry. intros H. repeat case_match; simplify_eq; done. Qed.

Lemma render_entries_names alias_ok aliases models names : forall l,
  (forall a, a ∈ names -> is_Some (models !! a) /\ is_Some (aliases !! a)) ->
  render_entries alias_ok aliases models names = inl l -> model_name <$> l = names.
Proof.
  induction names as [|a names IH]; intros l Hn H; simpl in H; [by simplify_eq|].
  destruct (render_entry alias_ok aliases models a) as [e|] eqn:E; [|done].
  destruct (render_entries alias_ok aliases models names) as [l'|] eqn:E'; [|done].
  destruct e as [e|]; simplify_eq; simpl.
  - rewrite (render_entry_name _ _ _ _ _ E). f_equal. apply IH; [|done]. intros b Hb. apply Hn. by right.
  - destruct (Hn a) as [[p Hp] [b Hb]]; [left|]. unfold render_entry in E. rewrite Hp, Hb in E.
    repeat case_match; done.
Qed.

(** The rendered file serves exactly the models of the policy, each once, by name. *)
Lemma render_config_models alias_ok aliases models text :
  render_config alias_ok aliases models = inl text ->
  exists l, text = _document l /\ model_name <$> l = sorted (fst <$> map_to_list models).
Proof.
  unfold render_config. intros H. destruct (bool_decide _) eqn:E1; [done|].
  destruct (existsb _ (map_to_list aliases)) eqn:E2; [done|].
  destruct (existsb _ (map_to_list models)) eqn:E3; [done|].
  destruct (bool_decide (models = ∅)); [done|].
  destruct (render_entries _ _ _ _) as [l|] eqn:E; [|done]. simplify_eq. exists l. split; [done|].
  eapply render_entries_names; [|exact E].
  intros a Ha. unfold sorted in Ha. rewrite merge_sort_Permutation in Ha. apply list_elem_of_fmap in Ha as ([a' p] & -> & Hin). simpl.
  split; [exists p; by apply elem_of_map_to_list|].
  destruct (aliases !! a') as [b|] eqn:Hb; [eauto|exfalso].
  assert (existsb (fun p => bool_decide (aliases !! fst p = None)) (map_to_list models) = true); [|congruence].
  apply existsb_exists. exists (a', p). split; [by apply list_elem_of_In|]. simpl. by apply bool_decide_eq_true.
Qed.
