(* ===== verification/RouteBundle.v ===== *)
(** * The route bundle on disk

    [control/src/vonk_control/route_runtime.py] with the documents of
    [agent_protocol/src/vonk_agent_protocol/route_activation.py]: the Controller stages the
    files of a bundle in a directory of their own and replaces one activation marker last, so
    that a reader sees one whole bundle or the other.  The file system is a value; every call
    that may fail takes its fate from a list, so a crash after any call is a fate too. *)
From S2P Require Import Prelude Vocabulary StateMachines Sha256 Uuid Json JsonRead Demand.
From S2P Require Import LifecycleTypes SparkOrder.

(** ** The documents of [route_activation.py] *)
Record ActivationManifest := {
  am_generation : Z;
  am_state : string;
  am_authority_id : string;
  am_plan_digest : string;
  am_evidence_set_digest : string;
  am_routes_sha256 : string;
  am_litellm_sha256 : string;
}.
#[global] Instance ActivationManifest_eq : EqDecision ActivationManifest.
Proof. solve_decision. Defined.

(** [class ActivationMarker(ActivationManifest)] *)
Record ActivationMarker := {
  manifest_document : ActivationManifest;
  am_directory : string;
  am_manifest_sha256 : string;
}.
#[global] Instance ActivationMarker_eq : EqDecision ActivationMarker.
Proof. solve_decision. Defined.

Definition ActivationState : list string := ["maintenance"; "published"].
Definition MAX_GENERATION : Z := 2 ^ 63 - 1.
Definition _sha256 (content : string) : string := Sha256.hexdigest content.

Definition canonical_authority (value_ : string) : bool :=
  match Uuid.UUID value_ with
  | Ok bytes => bool_decide (Uuid.uuid_text bytes = value_)
  | Raise _ => false
  end.

Definition manifest_valid (m : ActivationManifest) : bool :=
  (0 <? am_generation m) && (am_generation m <=? MAX_GENERATION)
  && mem (am_state m) ActivationState && canonical_authority (am_authority_id m)
  && _is_digest (am_plan_digest m) && _is_digest (am_evidence_set_digest m)
  && _is_digest (am_routes_sha256 m) && _is_digest (am_litellm_sha256 m).

(** [^[0-9]{8}-[0-9a-f]{64}$] *)
Definition directory_pattern (s : string) : bool :=
  all_chars is_digit (String.substring 0 8 s) && bool_decide (String.substring 8 1 s = "-")
  && _is_digest (String.substring 9 (String.length s - 9) s).

Definition marker_valid (m : ActivationMarker) : bool :=
  manifest_valid (manifest_document m) && directory_pattern (am_directory m)
  && _is_digest (am_manifest_sha256 m).

(** [model_dump] with its keys sorted. *)
Definition manifest_json (m : ActivationManifest) : json := JObject
  [("authority_id", JString (am_authority_id m));
   ("evidence_set_digest", JString (am_evidence_set_digest m));
   ("generation", JInt (am_generation m));
   ("litellm_sha256", JString (am_litellm_sha256 m));
   ("plan_digest", JString (am_plan_digest m));
   ("routes_sha256", JString (am_routes_sha256 m));
   ("schema_version", JInt 2);
   ("state", JString (am_state m))].

Definition marker_json (marker : ActivationMarker) : json :=
  let m := manifest_document marker in JObject
  [("authority_id", JString (am_authority_id m));
   ("directory", JString (am_directory marker));
   ("evidence_set_digest", JString (am_evidence_set_digest m));
   ("generation", JInt (am_generation m));
   ("litellm_sha256", JString (am_litellm_sha256 m));
   ("manifest_sha256", JString (am_manifest_sha256 marker));
   ("plan_digest", JString (am_plan_digest m));
   ("routes_sha256", JString (am_routes_sha256 m));
   ("schema_version", JInt 2);
   ("state", JString (am_state m))].

Definition canonical_bytes (document : json) : string := dumps document +:+ ch 10.
Definition marker_digest (m : ActivationMarker) : string := _sha256 (canonical_bytes (marker_json m)).

(** The acknowledgement of the LiteLLM supervisor. *)
Record SupervisorAcknowledgement := {
  ack_acknowledged_at : string;
  ack_activation_sha256 : string;
  ack_child_pid : Z;
  ack_generation : Z;
  ack_litellm_sha256 : string;
  ack_state : string;
}.

Definition acknowledgement_valid (a : SupervisorAcknowledgement) : bool :=
  _is_digest (ack_activation_sha256 a) && (0 <? ack_child_pid a) && (ack_child_pid a <=? 2 ^ 31 - 1)
  && (0 <? ack_generation a) && (ack_generation a <=? MAX_GENERATION)
  && _is_digest (ack_litellm_sha256 a) && mem (ack_state a) ActivationState.

Definition acknowledgement_json (a : SupervisorAcknowledgement) : json := JObject
  [("acknowledged_at", JString (ack_acknowledged_at a));
   ("activation_sha256", JString (ack_activation_sha256 a));
   ("child_pid", JInt (ack_child_pid a));
   ("generation", JInt (ack_generation a));
   ("litellm_sha256", JString (ack_litellm_sha256 a));
   ("schema_version", JInt 1);
   ("state", JString (ack_state a))].

(** ** Reading the documents

    The validation of a strict model that forbids extra fields: a value, a document whose
    only defects are extra fields, or a document with another defect. *)
Inductive validation (A : Type) := Valid (a : A) | ExtraOnly | Invalid.
Arguments Valid {A} a.
Arguments ExtraOnly {A}.
Arguments Invalid {A}.

Definition member (k : string) (l : list (string * json)) : option json :=
  snd <$> List.find (fun p => bool_decide (fst p = k)) l.
Definition text_member (k : string) (l : list (string * json)) : option string :=
  match member k l with Some (JString s) => Some s | _ => None end.
Definition int_member (k : string) (l : list (string * json)) : option Z :=
  match member k l with Some (JInt z) => Some z | _ => None end.

Definition model_validate {A} (fields : list string) (read : list (string * json) -> option A)
    (valid : A -> bool) (raw : json) : validation A :=
  match raw with
  | JObject l =>
      match read l with
      | Some a =>
          if valid a
          then if forallb (fun p => mem (fst p) fields) l then Valid a else ExtraOnly
          else Invalid
      | None => Invalid
      end
  | _ => Invalid
  end.

Definition MARKER_FIELDS : list string :=
  ["authority_id"; "directory"; "evidence_set_digest"; "generation"; "litellm_sha256";
   "manifest_sha256"; "plan_digest"; "routes_sha256"; "schema_version"; "state"].

Definition marker_members (l : list (string * json)) : option ActivationMarker :=
  schema ← int_member "schema_version" l;
  generation ← int_member "generation" l;
  state_ ← text_member "state" l;
  authority_id ← text_member "authority_id" l;
  plan_digest ← text_member "plan_digest" l;
  evidence ← text_member "evidence_set_digest" l;
  routes ← text_member "routes_sha256" l;
  litellm ← text_member "litellm_sha256" l;
  directory ← text_member "directory" l;
  manifest ← text_member "manifest_sha256" l;
  if schema =? 2 then Some {|
    manifest_document := {|
      am_generation := generation; am_state := state_; am_authority_id := authority_id;
      am_plan_digest := plan_digest; am_evidence_set_digest := evidence;
      am_routes_sha256 := routes; am_litellm_sha256 := litellm |};
    am_directory := directory; am_manifest_sha256 := manifest |} else None.

Definition validate_marker : json -> validation ActivationMarker :=
  model_validate MARKER_FIELDS marker_members marker_valid.

(** [read_stored_model]: fields a newer contract retired are dropped, other defects are not. *)
Definition read_stored_marker (raw : json) : option ActivationMarker :=
  match validate_marker raw, raw with
  | Valid m, _ => Some m
  | ExtraOnly, JObject l =>
      match validate_marker (JObject (List.filter (fun p => mem (fst p) MARKER_FIELDS) l)) with
      | Valid m => Some m
      | _ => None
      end
  | _, _ => None
  end.

Definition ACKNOWLEDGEMENT_FIELDS : list string :=
  ["acknowledged_at"; "activation_sha256"; "child_pid"; "generation"; "litellm_sha256";
   "schema_version"; "state"].

Definition acknowledgement_members (l : list (string * json)) : option SupervisorAcknowledgement :=
  schema ← int_member "schema_version" l;
  acknowledged_at ← text_member "acknowledged_at" l;
  activation ← text_member "activation_sha256" l;
  pid ← int_member "child_pid" l;
  generation ← int_member "generation" l;
  litellm ← text_member "litellm_sha256" l;
  state_ ← text_member "state" l;
  if schema =? 1 then Some {|
    ack_acknowledged_at := acknowledged_at; ack_activation_sha256 := activation;
    ack_child_pid := pid; ack_generation := generation; ack_litellm_sha256 := litellm;
    ack_state := state_ |} else None.

Definition validate_acknowledgement : json -> validation SupervisorAcknowledgement :=
  model_validate ACKNOWLEDGEMENT_FIELDS acknowledgement_members acknowledgement_valid.

(** ** The directory tree *)
Inductive entry :=
| Missing
| Link (resolves : bool)   (* a symbolic link, and whether its target exists *)
| Directory
| Special                  (* a device, a socket or a pipe *)
| File (content : string).
#[global] Instance entry_eq : EqDecision entry.
Proof. solve_decision. Defined.

Inductive generation_entry :=
| GLink (resolves : bool)
| GOther
| GDirectory (files : gmap string entry).

Record Routes := {
  root_link : bool;          (* the root is a symbolic link *)
  generations_link : bool;   (* so is root/generations *)
  activation : entry;        (* root/activation.json *)
  generations : gmap string generation_entry;
}.

Definition set_activation (e : entry) (r : Routes) : Routes := {|
  root_link := root_link r; generations_link := generations_link r; activation := e;
  generations := generations r |}.
Definition set_generations (g : gmap string generation_entry) (r : Routes) : Routes := {|
  root_link := root_link r; generations_link := generations_link r; activation := activation r;
  generations := g |}.

Definition exists_ (e : entry) : bool :=
  match e with Missing => false | Link resolves => resolves | _ => true end.
Definition is_symlink (e : entry) : bool := match e with Link _ => true | _ => false end.
Definition is_file (e : entry) : bool := match e with File _ => true | _ => false end.

Definition file_in (files : gmap string entry) (name : string) : entry := default Missing (files !! name).
Definition staged_file (r : Routes) (directory name : string) : entry :=
  match generations r !! directory with
  | Some (GDirectory files) => file_in files name
  | _ => Missing
  end.
Definition put_file (directory name content : string) (r : Routes) : Routes :=
  match generations r !! directory with
  | Some (GDirectory files) =>
      set_generations (<[directory := GDirectory (<[name := File content]> files)]> (generations r)) r
  | _ => r
  end.

(** ** Calls that may fail

    [Before]: the call raises and did nothing; [After]: it raises although its effect was made. *)
Inductive fate := Fine | Before | After.
Inductive io_error :=
| RouteRuntimeError (msg : string)
| OSError
| ValidationError
| UnicodeDecodeError
| IntegerError.   (* [int()] of text that is no number *)

Record Io := { disk : Routes; fates : list fate }.
Definition io (A : Type) : Type := Io -> (A + io_error) * Io.
#[global] Instance io_ret : MRet io := fun A a w => (inl a, w).
#[global] Instance io_bind : MBind io := fun A B f m w =>
  match m w with
  | (inl a, w') => f a w'
  | (inr e, w') => (inr e, w')
  end.
Definition raise_io {A} (e : io_error) : io A := fun w => (inr e, w).
Definition gets {A} (f : Routes -> A) : io A := fun w => (inl (f (disk w)), w).

(** A system call with its effect; [None] is an effect the system refuses. *)
Definition system_call (effect : Routes -> option Routes) : io unit := fun w =>
  let fate_ := default Fine (head (fates w)) in
  let rest := tail (fates w) in
  match fate_, effect (disk w) with
  | Before, _ | _, None => (inr OSError, {| disk := disk w; fates := rest |})
  | Fine, Some r => (inl tt, {| disk := r; fates := rest |})
  | After, Some r => (inr OSError, {| disk := r; fates := rest |})
  end.

(** The files the publisher writes. *)
Inductive target := ActivationFile | StagedFile (directory name : string).
Definition target_entry (t : target) (r : Routes) : entry :=
  match t with
  | ActivationFile => activation r
  | StagedFile directory name => staged_file r directory name
  end.
Definition parent_is_symlink (t : target) (r : Routes) : bool :=
  match t with
  | ActivationFile => root_link r
  | StagedFile directory _ => match generations r !! directory with Some (GLink _) => true | _ => false end
  end.
(** [os.replace] of the temporary file: refused when the target is a directory. *)
Definition replace_target (t : target) (content : string) (r : Routes) : option Routes :=
  match target_entry t r with
  | Directory => None
  | _ => Some match t with
              | ActivationFile => set_activation (File content) r
              | StagedFile directory name => put_file directory name content r
              end
  end.

Definition _atomic_write (t : target) (content : string) : io unit :=
  unsafe ← gets (fun r => is_symlink (target_entry t r) || parent_is_symlink t r);
  if unsafe : bool then raise_io (RouteRuntimeError "route runtime target must not be a symlink")
  else system_call (replace_target t content).

(** [directory.mkdir()]: refused when the name is taken, by a dangling link too. *)
Definition mkdir (directory : string) : io unit :=
  system_call (fun r =>
    match generations r !! directory with
    | None => Some (set_generations (<[directory := GDirectory ∅]> (generations r)) r)
    | Some _ => None
    end).

(** [if directory.exists(): ... else: directory.mkdir()] *)
Definition ensure_directory (directory : string) : io unit :=
  found ← gets (fun r => generations r !! directory);
  match found with
  | Some (GLink true) | Some GOther => raise_io (RouteRuntimeError "staged route generation is unsafe")
  | Some (GDirectory _) => mret tt
  | Some (GLink false) | None => mkdir directory
  end.

Definition _stage (directory name content : string) : io unit :=
  _ ← ensure_directory directory;
  _ ← system_call Some; (* chmod *)
  found ← gets (fun r => staged_file r directory name);
  if exists_ found
  then if is_symlink found || negb (is_file found)
       then raise_io (RouteRuntimeError "staged route generation conflicts with existing bytes")
       else _ ← system_call Some; (* read_bytes *)
            if decide (found = File content) then mret tt
            else _atomic_write (StagedFile directory name) content
  else _atomic_write (StagedFile directory name) content.

(** ** Activation *)

(** The validators the publisher is made with; its defaults parse the two documents. *)
Record Validators := {
  validate_routes : string -> bool;
  validate_litellm : string -> bool;
}.

(** [try: ... except OSError: return _unknown(RUNTIME_EFFECT_UNCONFIRMED)] *)
Definition or_unconfirmed {A B} (m : io A) (k : A -> io (B + WaitReason)) : io (B + WaitReason) := fun w =>
  match m w with
  | (inl a, w') => k a w'
  | (inr OSError, w') => (inl (inr WaitReason.RUNTIME_EFFECT_UNCONFIRMED), w')
  | (inr e, w') => (inr e, w')
  end.

Record Request := {
  rq_generation : Z;
  rq_state : string;
  rq_authority_id : string;
  rq_plan_digest : string;
  rq_evidence_set_digest : string;
  rq_routes : string;
  rq_litellm : string;
}.

Definition requested_manifest (q : Request) : ActivationManifest := {|
  am_generation := rq_generation q; am_state := rq_state q; am_authority_id := rq_authority_id q;
  am_plan_digest := rq_plan_digest q; am_evidence_set_digest := rq_evidence_set_digest q;
  am_routes_sha256 := _sha256 (rq_routes q); am_litellm_sha256 := _sha256 (rq_litellm q) |}.

(** [f"{generation:08d}-{manifest_digest}"] *)
Definition directory_name (generation : Z) (manifest_digest : string) : string :=
  pad 8 generation +:+ "-" +:+ manifest_digest.

Definition requested_marker (q : Request) : ActivationMarker :=
  let manifest_digest := _sha256 (canonical_bytes (manifest_json (requested_manifest q))) in {|
    manifest_document := requested_manifest q;
    am_directory := directory_name (rq_generation q) manifest_digest;
    am_manifest_sha256 := manifest_digest |}.

Definition _activate (documents : Validators) (q : Request) : io (ActivationMarker + WaitReason) :=
  if negb (validate_routes documents (rq_routes q))
  then raise_io (RouteRuntimeError "route validation rejected the staged bundle")
  else if negb (validate_litellm documents (rq_litellm q))
  then raise_io (RouteRuntimeError "LiteLLM validation rejected the staged bundle")
  else if negb (manifest_valid (requested_manifest q)) then raise_io ValidationError
  else
    let marker := requested_marker q in
    let directory := am_directory marker in
    or_unconfirmed
      (_ ← _stage directory "routes.json" (rq_routes q);
       _ ← _stage directory "litellm.json" (rq_litellm q);
       _stage directory "manifest.json" (canonical_bytes (manifest_json (requested_manifest q))))
      (fun _ =>
         if negb (marker_valid marker) then raise_io ValidationError
         else or_unconfirmed
                (_atomic_write ActivationFile (canonical_bytes (marker_json marker)))
                (fun _ => mret (inl marker))).

(** [AtomicRouteBundlePublisher.__init__] over an existing tree. *)
Definition make_publisher (r : Routes) : (unit + io_error) :=
  if root_link r then inr (RouteRuntimeError "route runtime root must not be a symlink")
  else if generations_link r then inr (RouteRuntimeError "route generation root must not be a symlink")
  else inl tt.

Definition _identity (authority_id plan_digest evidence_digest : string) : (unit + io_error) :=
  match Uuid.UUID authority_id with
  | Raise _ => inr (RouteRuntimeError "reconciliation ID is invalid")
  | Ok parsed_ =>
      if bool_decide (Uuid.uuid_text parsed_ <> authority_id)
      then inr (RouteRuntimeError "reconciliation ID is not canonical")
      else if negb (_is_digest plan_digest && _is_digest evidence_digest)
      then inr (RouteRuntimeError "publication digest identity is invalid")
      else inl tt
  end.

(** ** Reading the active bundle

    [broken] names the files whose bytes cannot be read.  The parsed documents a verified
    bundle carries are left out: only whether they parse decides anything here. *)
Inductive bundle_read :=
| NoBundle
| UnknownBundle (reason : WaitReason)
| Bundle (marker : ActivationMarker).
#[global] Instance bundle_read_eq : EqDecision bundle_read.
Proof. solve_decision. Defined.

Definition read_bytes (broken : list string) (name : string) (e : entry) : option string :=
  if mem name broken then None else match e with File content => Some content | _ => None end.

Definition expected_files (m : ActivationMarker) : list (string * (string * option string)) :=
  [("manifest.json", (am_manifest_sha256 m, Some (canonical_bytes (manifest_json (manifest_document m)))));
   ("routes.json", (am_routes_sha256 (manifest_document m), None));
   ("litellm.json", (am_litellm_sha256 (manifest_document m), None))].

Definition document_ok (validate_documents : option Validators) (name content : string) : bool :=
  match validate_documents with
  | None => true
  | Some v =>
      if decide (name = "routes.json") then validate_routes v content
      else if decide (name = "litellm.json") then validate_litellm v content
      else true
  end.

Definition file_ok (broken : list string) (validate_documents : option Validators)
    (files : gmap string entry) (expected : string * (string * option string)) : bool :=
  let '(name, (digest, exact)) := expected in
  match read_bytes broken name (file_in files name) with
  | None => false
  | Some content =>
      bool_decide (_sha256 content = digest)
      && match exact with Some bytes => bool_decide (content = bytes) | None => true end
      && document_ok validate_documents name content
  end.

Definition files_ok (broken : list string) (validate_documents : option Validators) (r : Routes)
    (m : ActivationMarker) : bool :=
  match generations r !! am_directory m with
  | Some (GDirectory files) => forallb (file_ok broken validate_documents files) (expected_files m)
  | _ => false
  end.

Definition read_activation (other : string -> parsed) (content : string) : option ActivationMarker :=
  match json_loads other content with
  | NotJson | Undecodable => None
  | Value raw =>
      match read_stored_marker raw with
      | None => None
      | Some m =>
          if bool_decide (am_directory m <> directory_name (am_generation (manifest_document m)) (am_manifest_sha256 m))
             || bool_decide (content <> canonical_bytes (marker_json m))
          then None else Some m
      end
  end.

Definition _read_active_route_bundle (other : string -> parsed) (broken : list string)
    (optional verify_files : bool) (validate_documents : option Validators) (r : Routes) : bundle_read :=
  if negb (exists_ (activation r))
  then if optional then NoBundle else UnknownBundle WaitReason.RECEIPT_MISSING
  else match read_bytes broken "activation.json" (activation r) with
       | None => UnknownBundle WaitReason.OBSERVATION_UNAVAILABLE
       | Some content =>
           match read_activation other content with
           | None => UnknownBundle WaitReason.OBSERVATION_UNAVAILABLE
           | Some m =>
               if verify_files && negb (files_ok broken validate_documents r m)
               then UnknownBundle WaitReason.OBSERVATION_UNAVAILABLE
               else Bundle m
           end
       end.

Definition _read_marker (other : string -> parsed) (broken : list string) (optional verify_files : bool)
    (r : Routes) : bundle_read :=
  _read_active_route_bundle other broken optional verify_files None r.

(** [inspect] and [verify_active_route_bundle] *)
Definition inspect_bundle (other : string -> parsed) (broken : list string) (r : Routes) : bundle_read :=
  _read_marker other broken false true r.

Definition verify_active_route_bundle (other : string -> parsed) (broken : list string)
    (documents : Validators) (r : Routes) : bundle_read :=
  if root_link r || generations_link r then UnknownBundle WaitReason.OBSERVATION_UNAVAILABLE
  else _read_active_route_bundle other broken false true (Some documents) r.

(** ** The publication lock

    [flock i] and [monotonic i] are what the i-th claim and the i-th reading of the monotonic
    clock give.  Between two claims the publisher sleeps for a twentieth of a second. *)
Definition _PUBLICATION_LOCK_BUDGET_SECONDS : Z := seconds 30.
Definition _PUBLICATION_LOCK_RETRY_SECONDS : Z := 50000.

Inductive flock_answer := Locked | Blocked | FlockError.
Record LockFile := {
  lock_is_symlink : bool;
  lock_opens : bool;
  lock_is_regular : bool;
  flock : nat -> flock_answer;
  lock_monotonic : nat -> Z;
}.

(** The claim loop; [None] is out of fuel, which a clock that advances with the sleeps excludes. *)
Fixpoint claim_loop (l : LockFile) (fuel i : nat) : option (option WaitReason + io_error) :=
  match fuel with
  | O => None
  | S fuel' =>
      match flock l i with
      | Locked => Some (inl None)
      | FlockError => Some (inr OSError)
      | Blocked =>
          if lock_monotonic l 0 + _PUBLICATION_LOCK_BUDGET_SECONDS <=? lock_monotonic l (S i)
          then Some (inl (Some WaitReason.LEASE_LAPSED))
          else claim_loop l fuel' (S i)
      end
  end.
Definition lock_fuel : nat := 601.
Definition _claim_publication_lock (l : LockFile) : option (option WaitReason + io_error) :=
  claim_loop l lock_fuel 0.

(** What [_locked] yields. *)
Definition _locked (l : LockFile) : option (option WaitReason + io_error) :=
  if lock_is_symlink l
  then Some (inr (RouteRuntimeError "route publication lock must not be a symlink"))
  else if negb (lock_opens l) then Some (inl (Some WaitReason.OBSERVATION_UNAVAILABLE))
  else if negb (lock_is_regular l) then Some (inr (RouteRuntimeError "route publication lock is unsafe"))
  else match _claim_publication_lock l with
       | Some (inr OSError) => Some (inl (Some WaitReason.OBSERVATION_UNAVAILABLE))
       | answer => answer
       end.

(** ** Waiting for the acknowledgement *)
Definition ROUTE_ACK_TIMEOUT_SECONDS : Z := seconds (30 + 120 + 15).

Record Acknowledger := {
  timeout : Z;
  maximum_age : Z;
  poll : Z;
}.
Definition make_acknowledger (timeout_ age poll_ : Z) : (Acknowledger + io_error) :=
  if (timeout_ <=? 0) || (age <=? 0) || (poll_ <=? 0) || (timeout_ <? poll_)
  then inr (RouteRuntimeError "supervisor acknowledgement bounds are invalid")
  else inl {| timeout := timeout_; maximum_age := age; poll := poll_ |}.

(** What one look finds: the clock, the acknowledgement file, whether it can be read and
    whether its directory is a link. *)
Record AckSight := {
  sight_now : datetime;
  sight_file : entry;
  sight_readable : bool;
  sight_parent_link : bool;
}.

(** [_parse_time]: an aware time, or nothing.  [fromisoformat] is the reader of the library. *)
Definition _parse_time (fromisoformat : string -> option datetime) (text : string) : option instant :=
  match fromisoformat text with
  | Some (Aware t) => Some t
  | _ => None
  end.

Definition acknowledges (a : SupervisorAcknowledgement) (marker : ActivationMarker) : bool :=
  let m := manifest_document marker in
  bool_decide (ack_state a = am_state m) && (ack_generation a =? am_generation m)
  && bool_decide (ack_activation_sha256 a = marker_digest marker)
  && bool_decide (ack_litellm_sha256 a = am_litellm_sha256 m).

Definition _matches (other : string -> parsed) (fromisoformat : string -> option datetime)
    (acknowledger : Acknowledger) (marker : ActivationMarker) (now : instant) (s : AckSight)
    : (bool + io_error) :=
  if is_symlink (sight_file s) || negb (is_file (sight_file s)) || sight_parent_link s then inl false
  else match sight_file s with
       | File content =>
           if negb (sight_readable s) then inl false
           else match json_loads other content with
                | NotJson => inl false
                | Undecodable => inr UnicodeDecodeError
                | Value raw =>
                    if Nat.ltb 4096 (String.length content) then inl false
                    else match validate_acknowledgement raw with
                         | Valid a =>
                             if bool_decide (content = canonical_bytes (acknowledgement_json a))
                                && acknowledges a marker
                             then inl match _parse_time fromisoformat (ack_acknowledged_at a) with
                                      | Some t => (t <=? now) && (now - t <=? maximum_age acknowledger)
                                      | None => false
                                      end
                             else inl false
                         | _ => inl false
                         end
                end
       | _ => inl false
       end.

(** [FileSupervisorAcknowledger.__call__]: look, compare the clock with the deadline, sleep. *)
Fixpoint acknowledge_loop (other : string -> parsed) (fromisoformat : string -> option datetime)
    (acknowledger : Acknowledger) (marker : ActivationMarker) (sights : nat -> AckSight)
    (monotonic : nat -> Z) (fuel i : nat) : option (option WaitReason + io_error) :=
  match fuel with
  | O => None
  | S fuel' =>
      match sight_now (sights i) with
      | Naive _ => Some (inr (RouteRuntimeError "supervisor acknowledgement clock must include a timezone"))
      | Aware now =>
          match _matches other fromisoformat acknowledger marker now (sights i) with
          | inr e => Some (inr e)
          | inl true => Some (inl None)
          | inl false =>
              if monotonic O + timeout acknowledger <=? monotonic (S i)
              then Some (inl (Some WaitReason.RUNTIME_EFFECT_UNCONFIRMED))
              else acknowledge_loop other fromisoformat acknowledger marker sights monotonic fuel' (S i)
          end
      end
  end.
Definition acknowledge_fuel (acknowledger : Acknowledger) : nat :=
  Z.to_nat (timeout acknowledger / poll acknowledger + 2).
Definition await_acknowledgement (other : string -> parsed) (fromisoformat : string -> option datetime)
    (acknowledger : Acknowledger) (marker : ActivationMarker) (sights : nat -> AckSight)
    (monotonic : nat -> Z) : option (option WaitReason + io_error) :=
  acknowledge_loop other fromisoformat acknowledger marker sights monotonic (acknowledge_fuel acknowledger) 0.

(** [recipe_route_run_id]: the run of [recipe:<uuid>:rank:<n>]. *)
Definition uuid_shape (s : string) : bool :=
  let at_ n := String.substring n 1 s in
  Nat.eqb (String.length s) 36
  && forallb (fun n => if mem n [8; 13; 18; 23]%nat then bool_decide (at_ n = "-")
                       else all_chars is_hex (at_ n)) (seq 0 36)
  && mem (at_ 14%nat) ["1"; "2"; "3"; "4"; "5"]
  && mem (at_ 19%nat) ["8"; "9"; "a"; "b"].
Definition rank_shape (s : string) : bool :=
  bool_decide (s = "0")
  || (all_chars is_digit s && negb (mem (String.substring 0 1 s) [""; "0"])).
Definition recipe_route_run_id (operation_id : option string) : option string :=
  match operation_id with
  | None => None
  | Some s =>
      let run := String.substring 7 36 s in
      if bool_decide (String.substring 0 7 s = "recipe:") && uuid_shape run
         && bool_decide (String.substring 43 6 s = ":rank:")
         && rank_shape (String.substring 49 (String.length s - 49) s)
      then Some run else None
  end.

Example run_of_route :
  recipe_route_run_id (Some "recipe:886313e1-3b8a-5372-9b90-0c9aee199e5d:rank:12")
  = Some "886313e1-3b8a-5372-9b90-0c9aee199e5d"%string /\
  recipe_route_run_id (Some "recipe:886313e1-3b8a-5372-9b90-0c9aee199e5d:rank:01") = None /\
  recipe_route_run_id (Some "recipe:886313e1-3b8a-6372-9b90-0c9aee199e5d:rank:1") = None.
Proof. by vm_compute. Qed.
