(* ===== verification/RoutePublisher.v ===== *)
(** * Publishing recipe routes

    [control/src/vonk_control/recipe_routes/publisher.py] over the bundle of [RouteBundle]: a
    publication adopts the active bundle when it already is the wanted one, else it activates
    a new generation, and then waits for the acknowledgement of the supervisor.  A retry after a
    lost acknowledgement looks for its own activation and gives way to a newer one. *)
From S2P Require Import Prelude Vocabulary StateMachines Sha256 Uuid Json JsonRead Demand.
From S2P Require Import LifecycleTypes SparkOrder RouteBundle LiteLlm.

(** [uuid5(NAMESPACE_URL, "https://vonkforge.ai/local-recipes")] *)
Definition RECIPE_ROUTE_AUTHORITY_ID : string := Eval vm_compute in
  match Uuid.UUID "6ba7b811-9dad-11d1-80b4-00c04fd430c8" with
  | Ok ns => Uuid.uuid_text (Uuid.uuid5 ns "https://vonkforge.ai/local-recipes")
  | Raise _ => ""
  end.

(** ** The routes document *)
Record RecipeEndpoint := {
  ep_node_id : string;
  ep_address : string;
  ep_port : Z;
  ep_observed_at : instant;   (* in UTC *)
  ep_operation_id : string;
}.

Definition within (low high : nat) (s : string) : bool :=
  Nat.leb low (String.length s) && Nat.leb (String.length s) high.

(** [route_document]: the fields of a valid [RouteEndpointDocument]. *)
Definition route_document (e : RecipeEndpoint) : (json + io_error) :=
  if within 1 253 (ep_address e) && within 1 128 (ep_node_id e) && within 1 256 (ep_operation_id e)
     && (1 <=? ep_port e) && (ep_port e <=? 65535)
  then inl (JObject
    [("address", JString (ep_address e)); ("node_id", JString (ep_node_id e));
     ("observed_at", JString (isoformat (ep_observed_at e)));
     ("operation_id", JString (ep_operation_id e)); ("path", JString "/v1");
     ("port", JInt (ep_port e)); ("scheme", JString "http")])
  else inr ValidationError.

Section Publishing.
(** the pattern of [vonk_forge_contracts.EndpointAlias] *)
Variable alias_ok : string -> bool.
(** [json.loads] beyond the reader of [JsonRead] *)
Variable other : string -> parsed.

Fixpoint route_documents (endpoints : gmap string RecipeEndpoint) (aliases : list string)
    : (list (string * json) + io_error) :=
  match aliases with
  | [] => inl []
  | alias :: rest =>
      match endpoints !! alias with
      | None => route_documents endpoints rest
      | Some e =>
          match route_document e with
          | inr err => inr err
          | inl document =>
              match route_documents endpoints rest with
              | inr err => inr err
              | inl l => if alias_ok alias then inl ((alias, document) :: l) else inr ValidationError
              end
          end
      end
  end.

(** [route_bytes]: [routes.json] at one generation. *)
Definition route_bytes (endpoints : gmap string RecipeEndpoint) (state_ : GatewayRouteState)
    (generation : Z) : (string + io_error) :=
  match route_documents endpoints (sorted (fst <$> map_to_list endpoints)) with
  | inr e => inr e
  | inl routes =>
      if generation <? 1 then inr ValidationError
      else inl (canonical_bytes (JObject
        ([("generation", JInt generation)]
         ++ (if same state_ GatewayRouteState.MAINTENANCE
             then [("reason", JString "recipe routes withdrawn")] else [])
         ++ [("routes", JObject routes); ("schema_version", JInt 2); ("state", JString (value state_))])))%list
  end.

(** ** The next generation *)

(** [directory.name.partition("-")[0]] *)
Fixpoint before_dash (s : string) : string :=
  match s with
  | EmptyString => EmptyString
  | String c rest => if Nat.eqb (code c) 45 then EmptyString else String c (before_dash rest)
  end.
(** [str.isdigit] below 256: the decimal digits and three superscripts, which [int] refuses. *)
Definition isdigit (c : Ascii.ascii) : bool := is_digit c || mem (code c) [178; 179; 185]%nat.
(** The number a name stands for: none for another name, an error for a superscript. *)
Definition staged_number (name : string) : (option Z + io_error) :=
  let prefix := before_dash name in
  if Nat.eqb (String.length prefix) 8 && all_chars isdigit prefix
  then if all_chars is_digit prefix then inl (Some (fst (read_digits 0 prefix))) else inr IntegerError
  else inl None.
Fixpoint highest_of (names : list string) : (Z + io_error) :=
  match names with
  | [] => inl 0
  | name :: rest =>
      match staged_number name, highest_of rest with
      | inr e, _ => inr e
      | _, inr e => inr e
      | inl None, inl h => inl h
      | inl (Some n), inl h => inl (Z.max n h)
      end
  end.
Definition highest (r : Routes) : (Z + io_error) := highest_of (fst <$> map_to_list (generations r)).
Definition _next_generation (r : Routes) : (Z + io_error) :=
  match highest r with inl h => inl (h + 1) | inr e => inr e end.

(** ** One publication *)
Inductive not_ready_why :=
| BecauseUnknown (reason : WaitReason)   (* the reason of an uncertain step *)
| BecauseRaised (e : io_error)           (* [str(error)] of an exception *)
| BecauseAck (message : string).

Record RecipeGeneration := {
  rg_generation : Z;
  rg_route_digest : string;
  rg_config_sha256 : string;
  rg_path : string;
  rg_marker : ActivationMarker;
}.

Inductive publish_error :=
| NotReady (why : not_ready_why)
| Superseded
| ActivatedError (why : not_ready_why) (generation : RecipeGeneration)
| SecurityRefusal (msg : string)
| Raised (e : io_error).

(** What the acknowledgement callback answers. *)
Inductive ack_answer :=
| AckReturned (uncertainty : option WaitReason)
| AckRuntimeError (e : io_error)
| AckRefused (msg : string)
| AckException.

Record Publisher := {
  root : string;
  documents : Validators;
}.

(** What one attempt meets: the lock, the ownership check, the files that cannot be read, the
    fates of its calls and the acknowledgement callback. *)
Record Attempt := {
  at_lock : LockFile;
  at_owned : option bool;
  at_broken : list string;
  at_fates : list fate;
  at_ack : option (ActivationMarker -> ack_answer);
}.

(** [_require_supervisor_ack] as [_activate_once] reads it: nothing, a reason, or a refusal. *)
Definition _require_supervisor_ack (ack : option (ActivationMarker -> ack_answer)) (marker : ActivationMarker)
    : (option not_ready_why + string) :=
  match ack with
  | None => inl None
  | Some callback =>
      match callback marker with
      | AckReturned None => inl None
      | AckReturned (Some reason) => inl (Some (BecauseUnknown reason))
      | AckRuntimeError e => inl (Some (BecauseRaised e))
      | AckRefused msg => inr msg
      | AckException => inl (Some (BecauseUnknown WaitReason.RUNTIME_EFFECT_UNCONFIRMED))
      end
  end.

(** What is to be published. *)
Record Wanted := {
  route_digest : string;
  litellm : string;
  endpoints : gmap string RecipeEndpoint;
  wanted_state : GatewayRouteState;
}.

Definition wanted_request (w : Wanted) (generation : Z) (routes : string) : Request := {|
  rq_generation := generation; rq_state := value (wanted_state w);
  rq_authority_id := RECIPE_ROUTE_AUTHORITY_ID; rq_plan_digest := route_digest w;
  rq_evidence_set_digest := route_digest w; rq_routes := routes; rq_litellm := litellm w |}.

(** [current = self._publisher._read_marker(optional=True, verify_files=True)], an unknown one
    being none. *)
Definition current_marker (broken : list string) (r : Routes) : option ActivationMarker :=
  match _read_marker other broken true true r with Bundle m => Some m | _ => None end.

(** [reuse_current]: the active bundle is the wanted one, byte for byte. *)
Definition reuse_current (w : Wanted) (current : ActivationMarker) : (bool + io_error) :=
  let m := manifest_document current in
  if bool_decide (am_state m = value (wanted_state w))
     && bool_decide (am_authority_id m = RECIPE_ROUTE_AUTHORITY_ID)
     && bool_decide (am_plan_digest m = route_digest w)
     && bool_decide (am_evidence_set_digest m = route_digest w)
  then match route_bytes (endpoints w) (wanted_state w) (am_generation m) with
       | inr e => inr e
       | inl routes => inl (bool_decide (am_routes_sha256 m = _sha256 routes)
                            && bool_decide (am_litellm_sha256 m = _sha256 (litellm w)))
       end
  else inl false.

(** The marker the locked part of [_activate_once] settles on. *)
Definition choose_marker (p : Publisher) (w : Wanted) (current : option ActivationMarker) (fates_ : list fate)
    (r : Routes) : ((ActivationMarker + WaitReason) + io_error) * Routes :=
  match (match current with Some m => reuse_current w m | None => inl false end), current with
  | inr e, _ => (inr e, r)
  | inl true, Some m => (inl (inl m), r)
  | inl _, _ =>
      match _next_generation r with
      | inr e => (inr e, r)
      | inl generation =>
          match route_bytes (endpoints w) (wanted_state w) generation with
          | inr e => (inr e, r)
          | inl routes =>
              let '(answer, after) :=
                _activate (documents p) (wanted_request w generation routes) {| disk := r; fates := fates_ |} in
              (answer, disk after)
          end
      end
  end.

Definition generation_of (p : Publisher) (w : Wanted) (marker : ActivationMarker) : RecipeGeneration := {|
  rg_generation := am_generation (manifest_document marker);
  rg_route_digest := route_digest w;
  rg_config_sha256 := _sha256 (litellm w);
  rg_path := root p +:+ "/generations/" +:+ am_directory marker +:+ "/litellm.json";
  rg_marker := marker |}.

(** The acknowledgement, asked for after the lock is released. *)
Definition acknowledged (p : Publisher) (w : Wanted) (a : Attempt) (marker : ActivationMarker)
    : (option RecipeGeneration + publish_error) :=
  match _require_supervisor_ack (at_ack a) marker with
  | inr msg => inr (SecurityRefusal msg)
  | inl (Some why) => inr (ActivatedError why (generation_of p w marker))
  | inl None => inl (Some (generation_of p w marker))
  end.

Definition _activate_once (p : Publisher) (w : Wanted) (expected_marker_digest : option string)
    (a : Attempt) (r : Routes) : (option RecipeGeneration + publish_error) * Routes :=
  match _identity RECIPE_ROUTE_AUTHORITY_ID (route_digest w) (route_digest w) with
  | inr e => (inr (Raised e), r)
  | inl _ =>
      match _locked (at_lock a) with
      | None => (inr (NotReady (BecauseUnknown WaitReason.LEASE_LAPSED)), r)
      | Some (inr e) => (inr (Raised e), r)
      | Some (inl (Some reason)) => (inr (NotReady (BecauseUnknown reason)), r)
      | Some (inl None) =>
          if bool_decide (at_owned a = Some false) then (inr Superseded, r)
          else
            let current := current_marker (at_broken a) r in
            if match expected_marker_digest with
               | None => false
               | Some digest => bool_decide (marker_digest <$> current <> Some digest)
               end
            then (inl None, r)
            else match choose_marker p w current (at_fates a) r with
                 | (inr e, r') => (inr (Raised e), r')
                 | (inl (inr reason), r') => (inr (NotReady (BecauseUnknown reason)), r')
                 | (inl (inl marker), r') => (acknowledged p w a marker, r')
                 end
      end
  end.

(** ** The bounded retries of [_activate] *)

(** The exceptions of the attempts so far that will be raised in the end. *)
Record Pending := {
  last_activated : option (not_ready_why * RecipeGeneration);
  last_not_ready : option publish_error;
}.

Definition note_error (e : publish_error) (p : Pending) : Pending :=
  match e with
  | ActivatedError why g => {| last_activated := Some (why, g); last_not_ready := last_not_ready p |}
  | Raised err => {| last_activated := last_activated p; last_not_ready := Some (NotReady (BecauseRaised err)) |}
  | _ => {| last_activated := last_activated p; last_not_ready := Some e |}
  end.

Definition raise_pending (p : Pending) : publish_error :=
  match last_activated p with
  | Some (why, g) => ActivatedError why g
  | None => default (NotReady (BecauseAck "")) (last_not_ready p)
  end.

(** Each attempt comes with what other publishers did to the tree before it. *)
Fixpoint attempts_loop (p : Publisher) (w : Wanted) (attempts : list ((Routes -> Routes) * Attempt))
    (pending : Pending) (r : Routes) : (RecipeGeneration + publish_error) * Routes :=
  match attempts with
  | [] => (inr (raise_pending pending), r)
  | (others, a) :: rest =>
      let expected := marker_digest ∘ rg_marker ∘ snd <$> last_activated pending in
      match _activate_once p w expected a (others r) with
      | (inl (Some g), r') => (inl g, r')
      | (inl None, r') => (inr (raise_pending pending), r')
      | (inr (SecurityRefusal msg), r') => (inr (SecurityRefusal msg), r')
      | (inr e, r') => attempts_loop p w rest (note_error e pending) r'
      end
  end.

(** [len(pauses) + 1] attempts: one under an ownership fence, else three. *)
Definition attempt_limit (fenced_ : bool) : nat := if fenced_ then 1 else 3.
Definition activate_recipe (p : Publisher) (w : Wanted) (fenced_ : bool)
    (attempts : list ((Routes -> Routes) * Attempt)) (r : Routes)
    : (RecipeGeneration + publish_error) * Routes :=
  attempts_loop p w (take (attempt_limit fenced_) attempts)
    {| last_activated := None; last_not_ready := None |} r.

(** A policy the renderer refuses is raised before anything is attempted. *)
Definition publish_recipe (p : Publisher) (digest : string) (aliases : gmap string string)
    (models : gmap string AcceptedPolicy) (endpoints_ : gmap string RecipeEndpoint) (fenced_ : bool)
    (attempts : list ((Routes -> Routes) * Attempt)) (r : Routes)
    : ((RecipeGeneration + publish_error) + render_error) * Routes :=
  match render_config alias_ok aliases models with
  | inr e => (inr e, r)
  | inl config =>
      let '(answer, r') :=
        activate_recipe p {| route_digest := digest; litellm := config; endpoints := endpoints_;
                             wanted_state := GatewayRouteState.PUBLISHED |} fenced_ attempts r in
      (inl answer, r')
  end.

Definition publish_empty (p : Publisher) (digest : string) (fenced_ : bool)
    (attempts : list ((Routes -> Routes) * Attempt)) (r : Routes) :=
  activate_recipe p {| route_digest := digest; litellm := render_empty_config; endpoints := ∅;
                       wanted_state := GatewayRouteState.MAINTENANCE |} fenced_ attempts r.

Definition active_marker_digest (broken : list string) (r : Routes) : option string :=
  marker_digest <$> current_marker broken r.
End Publishing.
