(* ===== verification/RouteBundleFacts.v ===== *)
(** * The route bundle: what a reader sees

    The active bundle is read exactly when its marker is canonical and its files match, and a
    publication that stops anywhere leaves a reader with the bundle before or the new one. *)
From S2P Require Import Prelude Vocabulary StateMachines Sha256 Uuid Json JsonRead Demand.
From S2P Require Import LifecycleTypes SparkOrder RouteBundle LiteLlm RoutePublisher.

#[export] Instance File_inj : Inj (=) (=) File.
Proof. intros a b H. congruence. Qed.

(** ** Canonical documents *)
Lemma json_loads_canonical other j : distinct_keys j -> json_loads other (canonical_bytes j) = Value j.
Proof.
  intros H. unfold json_loads, canonical_bytes. rewrite all_chars_app, dumps_ascii. simpl.
  by rewrite loads_dumps_newline.
Qed.

Lemma canonical_inj i j :
  distinct_keys i -> distinct_keys j -> canonical_bytes i = canonical_bytes j -> i = j.
Proof.
  intros Hi Hj H. apply (loads_dumps_newline) in Hi. apply (loads_dumps_newline) in Hj.
  unfold canonical_bytes in H. rewrite H, Hj in Hi. congruence.
Qed.

Ltac distinct_literal :=
  cbn [distinct_keys map fold_right snd fst]; split_and!; try exact I; apply (bool_decide_unpack _); vm_compute; exact I.

Lemma marker_distinct m : distinct_keys (marker_json m).
Proof. unfold marker_json. distinct_literal. Qed.
Lemma manifest_distinct m : distinct_keys (manifest_json m).
Proof. unfold manifest_json. distinct_literal. Qed.
Lemma acknowledgement_distinct a : distinct_keys (acknowledgement_json a).
Proof. unfold acknowledgement_json. distinct_literal. Qed.

Lemma manifest_json_inj m n : manifest_json m = manifest_json n -> m = n.
Proof. destruct m, n. unfold manifest_json; simpl. intros H. by simplify_eq. Qed.
Lemma marker_json_inj m n : marker_json m = marker_json n -> m = n.
Proof. destruct m as [[] ? ?], n as [[] ? ?]. unfold marker_json; simpl. intros H. by simplify_eq. Qed.

Lemma canonical_marker_inj m n :
  canonical_bytes (marker_json m) = canonical_bytes (marker_json n) -> m = n.
Proof. intros H. apply marker_json_inj, canonical_inj; [apply marker_distinct..|exact H]. Qed.
Lemma canonical_manifest_inj m n :
  canonical_bytes (manifest_json m) = canonical_bytes (manifest_json n) -> m = n.
Proof. intros H. apply manifest_json_inj, canonical_inj; [apply manifest_distinct..|exact H]. Qed.

Lemma validate_marker_json m : marker_valid m = true -> validate_marker (marker_json m) = Valid m.
Proof.
  intros H. assert (exists l, marker_json m = JObject l /\ marker_members l = Some m
    /\ forallb (fun p => mem (fst p) MARKER_FIELDS) l = true) as (l & -> & E1 & E2).
  { eexists. split; [reflexivity|]. destruct m as [[] ? ?]. by split. }
  unfold validate_marker, model_validate. by rewrite E1, H, E2.
Qed.

Lemma validate_acknowledgement_json a :
  acknowledgement_valid a = true -> validate_acknowledgement (acknowledgement_json a) = Valid a.
Proof.
  intros H. assert (exists l, acknowledgement_json a = JObject l /\ acknowledgement_members l = Some a
    /\ forallb (fun p => mem (fst p) ACKNOWLEDGEMENT_FIELDS) l = true) as (l & -> & E1 & E2).
  { eexists. split; [reflexivity|]. destruct a. by split. }
  unfold validate_acknowledgement, model_validate. by rewrite E1, H, E2.
Qed.

Lemma validate_marker_valid raw m : validate_marker raw = Valid m -> marker_valid m = true.
Proof. unfold validate_marker, model_validate. intros H. repeat case_match; by simplify_eq. Qed.

Lemma stored_marker_valid raw m : read_stored_marker raw = Some m -> marker_valid m = true.
Proof.
  unfold read_stored_marker. intros H. repeat case_match; simplify_eq; eauto using validate_marker_valid.
Qed.

(** ** What the reader accepts *)

(** The marker is valid and names its own directory. *)
Definition well_named (m : ActivationMarker) : Prop :=
  marker_valid m = true /\
  am_directory m = directory_name (am_generation (manifest_document m)) (am_manifest_sha256 m).

Lemma read_activation_iff other content m :
  read_activation other content = Some m <-> content = canonical_bytes (marker_json m) /\ well_named m.
Proof.
  unfold read_activation, well_named. split.
  - intros H. destruct (json_loads other content) as [raw| |]; try done.
    destruct (read_stored_marker raw) as [m'|] eqn:E; [|done].
    destruct (bool_decide (am_directory m' <> _)) eqn:E1; [done|].
    destruct (bool_decide (content <> _)) eqn:E2; simplify_eq. simpl in *. simplify_eq.
    apply bool_decide_eq_false in E1, E2. apply dec_stable in E1, E2.
    eauto using stored_marker_valid.
  - intros (-> & Hv & Hd). rewrite json_loads_canonical by apply marker_distinct.
    unfold read_stored_marker. rewrite validate_marker_json by done.
    rewrite !bool_decide_false by (intros X; by apply X). done.
Qed.

(** The files of a directory are those the marker names. *)
Definition files_match (files : gmap string entry) (m : ActivationMarker) : Prop :=
  exists routes litellm_,
    file_in files "manifest.json" = File (canonical_bytes (manifest_json (manifest_document m)))
    /\ _sha256 (canonical_bytes (manifest_json (manifest_document m))) = am_manifest_sha256 m
    /\ file_in files "routes.json" = File routes /\ _sha256 routes = am_routes_sha256 (manifest_document m)
    /\ file_in files "litellm.json" = File litellm_ /\ _sha256 litellm_ = am_litellm_sha256 (manifest_document m).

(** The bundle [m] is active and whole. *)
Definition active_bundle (r : Routes) (m : ActivationMarker) : Prop :=
  activation r = File (canonical_bytes (marker_json m)) /\ well_named m /\
  exists files, generations r !! am_directory m = Some (GDirectory files) /\ files_match files m.

Lemma file_ok_iff files name digest exact :
  file_ok [] None files (name, (digest, exact)) = true <->
  exists content, file_in files name = File content /\ _sha256 content = digest /\
    match exact with Some bytes => content = bytes | None => True end.
Proof.
  unfold file_ok, read_bytes, document_ok, mem. rewrite bool_decide_false by apply not_elem_of_nil.
  destruct (file_in files name) as [| | | |content]; try (split; [done|intros (? & ? & _); done]).
  rewrite andb_true_r, andb_true_iff, bool_decide_eq_true. split.
  - intros [Hd He]. exists content. split_and!; [done|done|]. destruct exact; [|done]. by apply bool_decide_eq_true in He.
  - intros (c & [= <-] & Hd & He). split; [done|]. destruct exact; [|done]. by apply bool_decide_eq_true.
Qed.

Lemma files_ok_iff r m :
  files_ok [] None r m = true <->
  exists files, generations r !! am_directory m = Some (GDirectory files) /\ files_match files m.
Proof.
  unfold files_ok, files_match. destruct (generations r !! am_directory m) as [[?| |files]|];
    try (split; [done|by intros (? & ? & _)]).
  unfold expected_files. cbn [forallb]. rewrite !andb_true_iff, !file_ok_iff. split.
  - intros ((c & Hc & Hd & ->) & (c' & Hc' & Hd' & _) & (c'' & Hc'' & Hd'' & _) & _). eauto 12.
  - intros (files' & [= <-] & routes & litellm_ & ? & ? & ? & ? & ? & ?). split_and!; eauto 8.
Qed.

(** The reader answers a bundle exactly when that bundle is active and whole. *)
Lemma read_bundle_iff other optional r m :
  _read_active_route_bundle other [] optional true None r = Bundle m <-> active_bundle r m.
Proof.
  unfold _read_active_route_bundle, active_bundle, read_bytes, mem.
  rewrite bool_decide_false by apply not_elem_of_nil. split.
  - intros H. destruct (negb _); [by destruct optional|]. destruct (activation r) as [| | | |content] eqn:Ea; try done.
    destruct (read_activation other content) as [m'|] eqn:E; [|done].
    destruct (files_ok [] None r m') eqn:Ef; [|done]. simpl in H. simplify_eq.
    apply read_activation_iff in E as [-> Hw]. apply files_ok_iff in Ef. done.
  - intros (-> & Hw & Hf). simpl. rewrite (proj2 (read_activation_iff other _ m)) by done.
    by rewrite (proj2 (files_ok_iff r m)).
Qed.

(** ** What a computation may change

    [keeps R m]: whatever the fates, the tree after [m] is related to the tree before by [R]. *)
Definition keeps {A} (R : Routes -> Routes -> Prop) (m : io A) : Prop :=
  forall w a w', m w = (a, w') -> R (disk w) (disk w').

Section keeps.
Context (R : Routes -> Routes -> Prop) `{!PreOrder R}.

Lemma keeps_ret {A} (a : A) : keeps R (mret a : io A).
Proof. intros w b w' [= _ <-]. reflexivity. Qed.
Lemma keeps_raise {A} e : keeps R (raise_io e : io A).
Proof. intros w b w' [= _ <-]. reflexivity. Qed.
Lemma keeps_gets {A} (f : Routes -> A) : keeps R (gets f).
Proof. intros w b w' [= _ <-]. reflexivity. Qed.
Lemma keeps_bind {A B} (m : io A) (f : A -> io B) :
  keeps R m -> (forall a, keeps R (f a)) -> keeps R (m ≫= f).
Proof.
  intros Hm Hf w b w'. unfold mbind, io_bind. destruct (m w) as [[a|e] w1] eqn:E; intros H.
  - etrans; [by eapply Hm|by eapply Hf].
  - simplify_eq. by eapply Hm.
Qed.
Lemma keeps_or_unconfirmed {A B} (m : io A) (f : A -> io (B + WaitReason)) :
  keeps R m -> (forall a, keeps R (f a)) -> keeps R (or_unconfirmed m f).
Proof.
  intros Hm Hf w b w'. unfold or_unconfirmed. destruct (m w) as [[a|e] w1] eqn:E; intros H.
  - etrans; [by eapply Hm|by eapply Hf].
  - apply Hm in E. by destruct e; simplify_eq.
Qed.
Lemma keeps_call effect :
  (forall r r', effect r = Some r' -> R r r') -> keeps R (system_call effect).
Proof.
  intros He w b w'. unfold system_call. destruct (default _ _), (effect (disk w)) as [r|] eqn:E; intros H;
    simplify_eq; simpl; try reflexivity; eauto.
Qed.
End keeps.

(** Staging [name] in [directory]: nothing else moves, and the file is as before or the content. *)
Record staging (directory name content : string) (r r' : Routes) : Prop := {
  staging_activation : activation r' = activation r;
  staging_root : root_link r' = root_link r;
  staging_generations : generations_link r' = generations_link r;
  staging_elsewhere d : d <> directory -> generations r' !! d = generations r !! d;
  staging_others n : n <> name -> staged_file r' directory n = staged_file r directory n;
  staging_file : staged_file r' directory name = staged_file r directory name \/
                 staged_file r' directory name = File content;
}.
#[export] Instance staging_preorder directory name content : PreOrder (staging directory name content).
Proof.
  split; [by split; eauto|]. intros r1 r2 r3 [] []. split; try congruence.
  - intros d Hd. rewrite staging_elsewhere1, staging_elsewhere0; done.
  - intros n Hn. rewrite staging_others1, staging_others0; done.
  - destruct staging_file1 as [->|]; [|by right]. destruct staging_file0; [by left|by right].
Qed.

Lemma stage_keeps directory name content : keeps (staging directory name content) (_stage directory name content).
Proof.
  assert (keeps (staging directory name content) (system_call Some)) as Hnop.
  { apply keeps_call; [apply _|]. intros r r' [= <-]. reflexivity. }
  assert (keeps (staging directory name content) (_atomic_write (StagedFile directory name) content)) as Hwrite.
  { apply keeps_bind; [apply _|apply keeps_gets, _|intros []; [apply keeps_raise, _|]].
    apply keeps_call; [apply _|]. intros r r'. unfold replace_target, target_entry, put_file.
    destruct (staged_file r directory name) eqn:E; intros H; simplify_eq;
      (destruct (generations r !! directory) as [[?| |files]|] eqn:Ed; [reflexivity|reflexivity| |reflexivity]);
      (split; simpl; [done|done|done|intros d Hd; by rewrite lookup_insert_ne| |right]);
      unfold staged_file; simpl; rewrite ?lookup_insert_eq, ?Ed; unfold file_in;
      intros; rewrite ?lookup_insert_eq, ?lookup_insert_ne by done; done. }
  assert (keeps (staging directory name content) (mkdir directory)) as Hmkdir.
  { apply keeps_call; [apply _|]. intros r r'. destruct (generations r !! directory) eqn:Ed; [done|]. intros [= <-].
    assert (forall n, staged_file (set_generations (<[directory := GDirectory ∅]> (generations r)) r) directory n
                      = staged_file r directory n) as Hsame.
    { intros n. unfold staged_file, file_in. simpl. by rewrite lookup_insert_eq, Ed, lookup_empty. }
    split; simpl; eauto. intros d Hd. by rewrite lookup_insert_ne. }
  apply keeps_bind; [apply _| |intros _].
  - apply keeps_bind; [apply _|apply keeps_gets, _|]. intros [[[] | |files]|];
      try (apply keeps_raise || apply keeps_ret); try apply _; exact Hmkdir.
  - apply keeps_bind; [apply _|exact Hnop|intros _]. apply keeps_bind; [apply _|apply keeps_gets, _|intros found].
    destruct (exists_ found); [|exact Hwrite].
    destruct (is_symlink found || negb (is_file found)); [apply keeps_raise, _|].
    apply keeps_bind; [apply _|exact Hnop|intros _]. case_decide; [apply keeps_ret, _|exact Hwrite].
Qed.

Lemma bind_inl {A B} (m : io A) (f : A -> io B) w b w' :
  (m ≫= f) w = (inl b, w') -> exists a w1, m w = (inl a, w1) /\ f a w1 = (inl b, w').
Proof. unfold mbind, io_bind. destruct (m w) as [[a|e] w1]; [eauto|done]. Qed.

Lemma call_inl effect w u w' : system_call effect w = (inl u, w') -> effect (disk w) = Some (disk w').
Proof. unfold system_call. destruct (default _ _), (effect (disk w)); intros H; by simplify_eq. Qed.

Lemma gets_inl {A} (f : Routes -> A) w a w' : gets f w = (inl a, w') -> a = f (disk w) /\ w' = w.
Proof. by intros [= <- <-]. Qed.

Lemma write_inl t content w u w' :
  _atomic_write t content w = (inl u, w') -> replace_target t content (disk w) = Some (disk w').
Proof.
  intros (unsafe & w1 & [-> ->]%gets_inl & H)%bind_inl. destruct (_ || _); [done|]. by apply call_inl in H.
Qed.

(** A directory that is in place. *)
Definition has_directory (r : Routes) (d : string) : Prop :=
  exists files, generations r !! d = Some (GDirectory files).

Lemma ensure_inl d w u w' : ensure_directory d w = (inl u, w') -> has_directory (disk w') d.
Proof.
  intros (found & w1 & [-> ->]%gets_inl & H)%bind_inl. unfold has_directory.
  destruct (generations (disk w) !! d) as [[[]| |files]|] eqn:E; try done.
  - apply call_inl in H. by rewrite E in H.
  - injection H as _ <-. eauto.
  - apply call_inl in H. rewrite E in H. injection H as <-. simpl.
    rewrite lookup_insert_eq. eauto.
Qed.

Lemma write_staged d name content w u w' :
  has_directory (disk w) d -> _atomic_write (StagedFile d name) content w = (inl u, w') ->
  staged_file (disk w') d name = File content.
Proof.
  intros [files Hf] H%write_inl. unfold replace_target in H.
  assert (put_file d name content (disk w) = disk w') as <- by (by destruct (target_entry _ _); simplify_eq).
  unfold staged_file, put_file, file_in. rewrite Hf. simpl. by rewrite !lookup_insert_eq.
Qed.

(** A staging that returns has put the content in place. *)
Lemma stage_inl d name content w u w' :
  _stage d name content w = (inl u, w') -> staged_file (disk w') d name = File content.
Proof.
  intros ([] & w1 & H1%ensure_inl & H)%bind_inl. apply bind_inl in H as ([] & w2 & H2%call_inl & H).
  simplify_eq. apply bind_inl in H as (found & w3 & [-> ->]%gets_inl & H). rewrite H2 in H1.
  destruct (exists_ _); [|by eapply write_staged]. destruct (_ || _); [done|].
  apply bind_inl in H as ([] & w4 & H4%call_inl & H). simplify_eq. rewrite H4 in *.
  case_decide as Hs; [by injection H as _ <-|by eapply write_staged].
Qed.

(** ** Activation *)

(** What a publication of [m] may leave behind without replacing the marker: files of its own
    directory, whose manifest is then the wanted one. *)
Record staged_for (m : ActivationMarker) (r r' : Routes) : Prop := {
  staged_root : root_link r' = root_link r;
  staged_generations : generations_link r' = generations_link r;
  staged_elsewhere d : d <> am_directory m -> generations r' !! d = generations r !! d;
  staged_manifest : staged_file r' (am_directory m) "manifest.json" = staged_file r (am_directory m) "manifest.json" \/
    staged_file r' (am_directory m) "manifest.json" = File (canonical_bytes (manifest_json (manifest_document m)));
}.
#[export] Instance staged_for_preorder m : PreOrder (staged_for m).
Proof.
  split; [by split; eauto|]. intros r1 r2 r3 [] []. split; try congruence.
  - intros d Hd. rewrite staged_elsewhere1, staged_elsewhere0; done.
  - destruct staged_manifest1 as [->|]; [|by right]. destruct staged_manifest0; [by left|by right].
Qed.

Lemma staging_staged_for m name content r r' :
  (name = "manifest.json" -> content = canonical_bytes (manifest_json (manifest_document m))) ->
  staging (am_directory m) name content r r' -> staged_for m r r' /\ activation r' = activation r.
Proof.
  intros Hc []. split; [split|]; try done. destruct (decide (name = "manifest.json")) as [->|Hn].
  - destruct staging_file0 as [|Hf]; [by left|]. right. by rewrite <- Hc.
  - left. by apply staging_others0.
Qed.

(** The whole bundle is staged. *)
Definition bundle_staged (q : Request) (r : Routes) : Prop :=
  let d := am_directory (requested_marker q) in
  staged_file r d "routes.json" = File (rq_routes q) /\ staged_file r d "litellm.json" = File (rq_litellm q)
  /\ staged_file r d "manifest.json" = File (canonical_bytes (manifest_json (requested_manifest q))).

(** The end of a publication: the marker was left alone, or it was replaced over a whole bundle. *)
Definition kept_marker (q : Request) (r r' : Routes) : Prop :=
  staged_for (requested_marker q) r r' /\ activation r' = activation r.
Definition replaced_marker (q : Request) (r r' : Routes) : Prop :=
  staged_for (requested_marker q) r r' /\ bundle_staged q r' /\ marker_valid (requested_marker q) = true
  /\ activation r' = File (canonical_bytes (marker_json (requested_marker q))).

#[export] Instance kept_marker_preorder q : PreOrder (kept_marker q).
Proof. split; [by split|]. intros r1 r2 r3 [H1 E1] [H2 E2]. split; [by etrans|congruence]. Qed.

Lemma staging_keeps_marker q name content :
  (name = "manifest.json" -> content = canonical_bytes (manifest_json (requested_manifest q))) ->
  keeps (kept_marker q) (_stage (am_directory (requested_marker q)) name content).
Proof. intros Hc w a w' H%stage_keeps. by apply (staging_staged_for (requested_marker q)) in H. Qed.

(** The three stagings of [_activate]. *)
Definition stage_bundle (q : Request) : io unit :=
  _ ← _stage (am_directory (requested_marker q)) "routes.json" (rq_routes q);
  _ ← _stage (am_directory (requested_marker q)) "litellm.json" (rq_litellm q);
  _stage (am_directory (requested_marker q)) "manifest.json" (canonical_bytes (manifest_json (requested_manifest q))).

Lemma stage_bundle_keeps q : keeps (kept_marker q) (stage_bundle q).
Proof.
  do 2 (apply keeps_bind; [apply _|by apply staging_keeps_marker|intros _]). by apply staging_keeps_marker.
Qed.

Lemma stage_bundle_inl q w u w' : stage_bundle q w = (inl u, w') -> bundle_staged q (disk w').
Proof.
  intros ([] & w1 & H1 & H)%bind_inl. apply bind_inl in H as ([] & w2 & H2 & H3). unfold bundle_staged.
  pose proof (stage_inl _ _ _ _ _ _ H1). pose proof (stage_inl _ _ _ _ _ _ H2). pose proof (stage_inl _ _ _ _ _ _ H3).
  apply stage_keeps in H2 as [_ _ _ _ O2 _], H3 as [_ _ _ _ O3 _].
  split_and!; [rewrite O3, O2 by done; done|rewrite O3 by done; done|done].
Qed.

Lemma write_marker_cases q w a w' :
  bundle_staged q (disk w) -> marker_valid (requested_marker q) = true ->
  _atomic_write ActivationFile (canonical_bytes (marker_json (requested_marker q))) w = (a, w') ->
  disk w' = disk w \/ replaced_marker q (disk w) (disk w').
Proof.
  intros Hb Hv. unfold _atomic_write, mbind, io_bind. simpl. destruct (_ || _); [intros [= _ <-]; by left|].
  unfold system_call, replace_target. simpl.
  assert (replaced_marker q (disk w) (set_activation (File (canonical_bytes (marker_json (requested_marker q)))) (disk w)))
    as Hr by (split_and!; [split; eauto|exact Hb|done|done]).
  destruct (default _ _), (activation (disk w)); intros [= _ <-]; simpl; eauto.
Qed.

(** Whatever the fates: the marker is left alone, or replaced over a whole bundle; and an answer
    that is a marker is the wanted one and was put in place. *)
Lemma activate_cases documents_ q w a w' :
  _activate documents_ q w = (a, w') ->
  (kept_marker q (disk w) (disk w') /\ (forall m, a <> inl (inl m)))
  \/ (replaced_marker q (disk w) (disk w') /\ forall m, a = inl (inl m) -> m = requested_marker q).
Proof.
  unfold _activate. intros H. do 3 (destruct (negb _) in H; [left; injection H as <- <-; split; [reflexivity|done]|]).
  change (or_unconfirmed (stage_bundle q) (fun _ =>
    if negb (marker_valid (requested_marker q)) then raise_io ValidationError
    else or_unconfirmed (_atomic_write ActivationFile (canonical_bytes (marker_json (requested_marker q))))
           (fun _ => mret (inl (requested_marker q)))) w = (a, w')) in H.
  unfold or_unconfirmed in H. destruct (stage_bundle q w) as [[[]|e] w1] eqn:E1.
  - pose proof (stage_bundle_keeps _ _ _ _ E1) as Hk. apply stage_bundle_inl in E1.
    destruct (marker_valid (requested_marker q)) eqn:Hv; [|left; injection H as <- <-; by split].
    cbn [negb] in H. destruct (_atomic_write _ _ w1) as [[[]|e] w2] eqn:E2.
    + injection H as <- <-. pose proof E2 as Hw%write_inl. apply write_marker_cases in E2 as [Hd|Hr]; [| |done|done].
      * right. split; [|naive_solver]. split; [by rewrite Hd; apply Hk|]. split_and!; [by rewrite Hd|done|].
        unfold replace_target in Hw. simpl in Hw. by destruct (activation (disk w1)); simplify_eq; rewrite <- Hw.
      * right. split; [|naive_solver]. destruct Hr as (Hs & Hb & _ & Ha). split; [etrans; [apply Hk|done]|done].
    + apply write_marker_cases in E2 as [Hd|Hr]; [| |done|done].
      * left. destruct e; injection H as <- <-; rewrite Hd; done.
      * right. destruct Hr as (Hs & Hb & _ & Ha).
        destruct e; injection H as <- <-; (split; [split; [etrans; [apply Hk|done]|done]|naive_solver]).
  - apply stage_bundle_keeps in E1. left. destruct e; injection H as <- <-; done.
Qed.
