(* ===== verification/RouteHistory.v ===== *)
(** * Publishing routes: what histories of publications show

    A reader of the route bundle sees the bundle before or the wanted one whatever stops a
    publication, generations only grow, a lost acknowledgement is met by the same bundle, and a
    retry never replaces a bundle it did not make. *)
From S2P Require Import Prelude Vocabulary StateMachines Sha256 Uuid Json JsonRead Demand.
From S2P Require Import LifecycleTypes SparkOrder RouteBundle LiteLlm RoutePublisher RouteBundleFacts.

#[local] Opaque RouteBundle._sha256.

(** ** The names of generations *)
Lemma all_digits_go x : forall s, all_chars is_digit s = true -> all_chars is_digit (pretty_N_go x s) = true.
Proof.
  induction (N.lt_wf_0 x) as [x _ IH]. intros s Hs. destruct (decide (0 < x)%N) as [Hx|Hx].
  - rewrite pretty_N_go_step by done. apply IH; [by apply N.div_lt|]. cbn [all_chars].
    by rewrite Hs, (proj1 (pretty_N_char_spec (x mod 10) ltac:(by apply N.mod_lt))).
  - assert (x = 0%N) as -> by lia. by rewrite pretty_N_go_0.
Qed.

Lemma go_length k : forall x s, (x < 10 ^ N.of_nat k)%N ->
  (String.length (pretty_N_go x s) <= k + String.length s)%nat.
Proof.
  induction k as [|k IH]; intros x s Hx; [assert (x = 0%N) as -> by (simpl in Hx; lia); by rewrite pretty_N_go_0|].
  destruct (decide (0 < x)%N) as [Hp|Hp]; [|assert (x = 0%N) as -> by lia; rewrite pretty_N_go_0; lia].
  rewrite pretty_N_go_step by done. specialize (IH (x / 10)%N (String (pretty_N_char (x mod 10)) s)).
  cbn [String.length] in IH. etrans; [apply IH|lia].
  apply N.Div0.div_lt_upper_bound. rewrite Nat2N.inj_succ, N.pow_succ_r' in Hx. done.
Qed.

Definition zeros (n : nat) : string := String.concat "" (List.repeat "0"%string n).
Lemma zeros_S n : zeros (S n) = String (Ascii.ascii_of_nat 48) (zeros n).
Proof. by destruct n. Qed.
Lemma zeros_length n : String.length (zeros n) = n.
Proof. induction n as [|n IH]; [done|]. rewrite zeros_S. simpl. by rewrite IH. Qed.
Lemma zeros_digits n : all_chars is_digit (zeros n) = true.
Proof. induction n as [|n IH]; [done|]. by rewrite zeros_S. Qed.
Lemma read_zeros n s : read_digits 0 (zeros n +:+ s) = read_digits 0 s.
Proof. induction n as [|n IH]; [done|]. rewrite zeros_S. exact IH. Qed.

Lemma digits_bound s : forall acc, all_chars is_digit s = true -> 0 <= acc ->
  fst (read_digits acc s) < (acc + 1) * 10 ^ Z.of_nat (String.length s) /\ 0 <= fst (read_digits acc s).
Proof.
  induction s as [|c s IH]; intros acc Hs Ha; [simpl; lia|].
  cbn [all_chars] in Hs. apply andb_prop in Hs as [Hc Hs]. cbn [read_digits String.length]. rewrite Hc.
  assert (0 <= digit_value c <= 9) as Hd.
  { unfold is_digit in Hc. apply andb_prop in Hc as [H1%Nat.leb_le H2%Nat.leb_le]. unfold digit_value. lia. }
  specialize (IH (acc * 10 + digit_value c) Hs ltac:(lia)) as [IH1 IH2].
  rewrite Nat2Z.inj_succ, Z.pow_succ_r by lia. split; [|done]. eapply Z.lt_le_trans; [exact IH1|].
  rewrite Z.mul_assoc. apply Z.mul_le_mono_nonneg_r; lia.
Qed.

(** [f"{generation:08d}"] for a positive generation: digits that read as the number. *)
Lemma pad8_spec g : 0 < g ->
  all_chars is_digit (pad 8 g) = true /\ read_digits 0 (pad 8 g) = (g, EmptyString) /\
  (String.length (pad 8 g) = 8%nat <-> g < 10 ^ 8).
Proof.
  intros Hg. destruct g as [|p|p]; [lia| |lia]. unfold pad.
  assert (pretty (Z.pos p) = pretty_N_go (N.pos p) EmptyString) as -> by done.
  set (s := pretty_N_go (N.pos p) EmptyString). fold (zeros (8 - String.length s)).
  assert (all_chars is_digit s = true) as Hs by (by apply all_digits_go).
  assert (read_digits 0 s = (Z.pos p, EmptyString)) as Hr by (unfold s; by rewrite read_digits_go).
  assert (length_app' : String.length (zeros (8 - String.length s) +:+ s) = (8 - String.length s + String.length s)%nat)
    by (by rewrite length_app, zeros_length).
  split_and!.
  - by rewrite all_chars_app, zeros_digits, Hs.
  - by rewrite read_zeros.
  - rewrite length_app'. split.
    + intros Hl. destruct (digits_bound s 0 Hs ltac:(lia)) as [Hb _]. rewrite Hr in Hb. cbn [fst] in Hb.
      eapply Z.lt_le_trans; [exact Hb|]. rewrite Z.mul_1_l. apply Z.pow_le_mono_r; lia.
    + intros Hl. pose proof (go_length 8 (N.pos p) EmptyString ltac:(change (10 ^ N.of_nat 8)%N with 100000000%N; lia)) as Hle.
      fold s in Hle. cbn [String.length] in Hle. lia.
Qed.

Lemma before_dash_digits a b : all_chars is_digit a = true -> before_dash (a +:+ "-" +:+ b) = a.
Proof.
  induction a as [|c a IH]; [done|]. cbn [all_chars]. intros [Hc Ha]%andb_prop.
  change (before_dash (String c (a +:+ "-" +:+ b)) = String c a). cbn [before_dash].
  destruct (Nat.eqb (code c) 45) eqn:E; [|by rewrite IH]. apply Nat.eqb_eq in E. unfold is_digit in Hc. by rewrite E in Hc.
Qed.

Lemma pattern_before_dash s : directory_pattern s = true ->
  String.length (before_dash s) = 8%nat /\ all_chars is_digit (before_dash s) = true.
Proof.
  unfold directory_pattern. intros [[Hd Hdash]%andb_prop _]%andb_prop. apply bool_decide_eq_true in Hdash.
  assert (exists t, s = String.substring 0 8 s +:+ "-" +:+ t /\ String.length (String.substring 0 8 s) = 8%nat) as (t & Hs & Hl).
  { do 9 (destruct s as [|? s]; [done|]). simpl in Hdash. exists s. split; [|done].
    simpl. by destruct s; injection Hdash as ->. }
  rewrite Hs, before_dash_digits by done. done.
Qed.

(** The directory of a publishable generation counts with its number. *)
Lemma staged_number_directory g digest :
  0 < g -> directory_pattern (directory_name g digest) = true ->
  staged_number (directory_name g digest) = inl (Some g).
Proof.
  intros Hg Hp. apply pattern_before_dash in Hp as [Hl Hd]. destruct (pad8_spec g Hg) as (H1 & H2 & _).
  unfold directory_name in *. rewrite before_dash_digits in Hl, Hd by done. unfold staged_number.
  rewrite before_dash_digits by done. rewrite Hl. cbn [Nat.eqb andb].
  rewrite (all_chars_impl is_digit) by (try done; intros c Hc; unfold isdigit; by rewrite Hc). by rewrite Hd, H2.
Qed.

(** A generation of nine digits has no marker: its directory is not one a marker may name. *)
Lemma nine_digits_refused q : 10 ^ 8 <= rq_generation q -> marker_valid (requested_marker q) = false.
Proof.
  intros Hg. destruct (marker_valid (requested_marker q)) eqn:Hv; [exfalso|done].
  unfold marker_valid in Hv. rewrite !andb_true_iff in Hv. destruct Hv as [[_ Hp] _].
  apply pattern_before_dash in Hp as [Hl _]. destruct (pad8_spec (rq_generation q)) as (Hd & _ & [H8 _]); [lia|].
  unfold requested_marker, directory_name in Hl. cbn [am_directory] in Hl. rewrite before_dash_digits in Hl by done.
  specialize (H8 Hl). lia.
Qed.

Lemma highest_of_le names : forall h, highest_of names = inl h ->
  0 <= h /\ forall name n, name ∈ names -> staged_number name = inl (Some n) -> n <= h.
Proof.
  induction names as [|name names IH]; simpl; intros h H.
  - simplify_eq. split; [done|]. intros name n Hin. by apply not_elem_of_nil in Hin.
  - destruct (staged_number name) as [[k|]|] eqn:E, (highest_of names) as [h'|] eqn:Eh; simplify_eq;
      destruct (IH _ eq_refl) as [H1 H2]; (split; [lia|]); intros name' n [->|Hin]%elem_of_cons Hn;
      try (rewrite E in Hn; simplify_eq; lia); specialize (H2 _ _ Hin Hn); lia.
Qed.

Lemma next_generation_fresh r g : _next_generation r = inl g ->
  0 < g /\ forall d e n, generations r !! d = Some e -> staged_number d = inl (Some n) -> n < g.
Proof.
  unfold _next_generation. destruct (highest r) as [h|] eqn:E; [|done]. intros [= <-].
  apply highest_of_le in E as [H0 Hle]. split; [lia|]. intros d e n Hd Hn.
  assert (n <= h); [|lia]. apply (Hle d); [|done]. apply list_elem_of_fmap. exists (d, e). split; [done|].
  by apply elem_of_map_to_list.
Qed.

(** ** One publication *)

(** The directories a marker can name stay as they are, and none goes away. *)
Record extends (r r' : Routes) : Prop := {
  extends_root : root_link r' = root_link r;
  extends_generations : generations_link r' = generations_link r;
  extends_directories d e : directory_pattern d = true -> generations r !! d = Some e -> generations r' !! d = Some e;
}.
#[export] Instance extends_preorder : PreOrder extends.
Proof. split; [by split|]. intros r1 r2 r3 [] []. split; try congruence. eauto. Qed.

Lemma well_named_number m : well_named m ->
  staged_number (am_directory m) = inl (Some (am_generation (manifest_document m))).
Proof.
  intros [Hv Hd]. unfold marker_valid, manifest_valid in Hv. rewrite !andb_true_iff in Hv.
  destruct_and! Hv. rewrite Hd in *. apply staged_number_directory; [by apply Z.ltb_lt|done].
Qed.

Lemma well_named_pattern m : well_named m -> directory_pattern (am_directory m) = true.
Proof. intros [Hv _]. unfold marker_valid in Hv. rewrite !andb_true_iff in Hv. by destruct_and! Hv. Qed.

(** The directory of a request for the next generation is not there yet, if a marker can name it. *)
Lemma request_fresh q r :
  _next_generation r = inl (rq_generation q) -> directory_pattern (am_directory (requested_marker q)) = true ->
  generations r !! am_directory (requested_marker q) = None.
Proof.
  intros [Hg Hf]%next_generation_fresh Hp. destruct (generations r !! _) as [e|] eqn:E; [exfalso|done].
  specialize (Hf _ _ _ E (staged_number_directory _ _ Hg Hp)). lia.
Qed.

Section reader.
Context (other : string -> parsed).

(** What a reader of the tree is told. *)
Definition view (r : Routes) : bundle_read := _read_marker other [] true true r.

Lemma view_bundle r m : view r = Bundle m <-> active_bundle r m.
Proof. apply read_bundle_iff. Qed.

Lemma view_activation r r' :
  activation r' = activation r -> (forall m, activation r = File (canonical_bytes (marker_json m)) -> well_named m ->
    files_ok [] None r' m = files_ok [] None r m) -> view r' = view r.
Proof.
  intros Ha Hf. unfold view, _read_marker, _read_active_route_bundle. rewrite Ha. destruct (negb _); [done|].
  destruct (read_bytes _ _ _) as [content|] eqn:Ec; [|done].
  destruct (read_activation other content) as [m|] eqn:E; [|done].
  apply read_activation_iff in E as [-> Hw]. rewrite Hf; [done| |done].
  unfold read_bytes in Ec. destruct (mem _ _); [done|]. by destruct (activation r); simplify_eq.
Qed.

Lemma kept_view q r r' :
  _next_generation r = inl (rq_generation q) -> kept_marker q r r' ->
  view r' = view r \/ view r' = Bundle (requested_marker q).
Proof.
  intros Hg [Hs Ha]. destruct (decide (view r' = Bundle (requested_marker q))) as [|Hne]; [by right|left].
  apply view_activation; [done|]. intros m Hm Hw.
  destruct (decide (am_directory m = am_directory (requested_marker q))) as [Hd|Hd];
    [|unfold files_ok; by rewrite (staged_elsewhere _ _ _ Hs)].
  pose proof (well_named_pattern m Hw) as Hp. rewrite Hd in Hp.
  pose proof (request_fresh q r Hg Hp) as Hnone.
  assert (files_ok [] None r m = false) as ->. { unfold files_ok. by rewrite Hd, Hnone. }
  destruct (files_ok [] None r' m) eqn:Hf; [exfalso|done]. apply files_ok_iff in Hf as (files & Hfs & routes & conf & Hman & Hsha & Hrest).
  assert (manifest_document m = requested_manifest q) as Hmq.
  { destruct (staged_manifest _ _ _ Hs) as [H|H]; unfold staged_file in H; rewrite <- Hd, Hfs, Hman in H.
    - by rewrite Hd, Hnone in H.
    - apply (inj File) in H. by apply canonical_manifest_inj in H. }
  assert (m = requested_marker q) as ->.
  { destruct m as [md dir sha]; simpl in *; subst. by unfold requested_marker. }
  apply Hne, view_bundle. split; [by rewrite Ha|]. split; [exact Hw|]. exists files. split; [exact Hfs|].
  exists routes, conf. exact (conj Hman (conj Hsha Hrest)).
Qed.

Lemma replaced_view q r r' : replaced_marker q r r' -> view r' = Bundle (requested_marker q).
Proof.
  intros (_ & (Hr & Hl & Hm) & Hv & Ha). apply view_bundle. split_and!; [done|by split|].
  unfold staged_file in *. destruct (generations r' !! _) as [[?| |files]|]; try done.
  exists files. split; [done|]. exists (rq_routes q), (rq_litellm q). by split_and!.
Qed.

Lemma request_extends q r r' :
  _next_generation r = inl (rq_generation q) -> staged_for (requested_marker q) r r' -> extends r r'.
Proof.
  intros Hg Hs. split; [apply Hs|apply Hs|]. intros d e Hp Hd. rewrite (staged_elsewhere _ _ _ Hs); [done|].
  intros ->. by rewrite request_fresh in Hd.
Qed.

(** What a reader may be told that fewer files cannot be read. *)
Lemma read_broken broken optional r m :
  _read_active_route_bundle other broken optional true None r = Bundle m -> view r = Bundle m.
Proof.
  unfold view, _read_marker, _read_active_route_bundle. destruct (negb (exists_ _)); [by destruct optional|].
  assert (forall name e c, read_bytes broken name e = Some c -> read_bytes [] name e = Some c) as Hread.
  { intros name e c. unfold read_bytes. destruct (mem name broken); [done|]. by rewrite (proj2 (mem_false name []) (not_elem_of_nil name)). }
  destruct (read_bytes broken _ _) as [content|] eqn:E; [|done]. rewrite (Hread _ _ _ E).
  destruct (read_activation other content) as [m'|]; [|done].
  destruct (files_ok broken None r m') eqn:Ef; [|done].
  assert (files_ok [] None r m' = true) as ->; [|done].
  unfold files_ok in *. destruct (generations r !! _) as [[?| |files]|]; try done.
  rewrite forallb_forall in *. intros [name [digest exact]] Hin. specialize (Ef _ Hin). simpl in *.
  destruct (read_bytes broken name _) as [c|] eqn:Ec; [|done]. by rewrite (Hread _ _ _ Ec).
Qed.
End reader.

Section publications.
Context (alias_ok : string -> bool) (other : string -> parsed).
Abbreviation view := (view other).

(** The marker a publication of [w] at the next generation of [r] is for. *)
Definition next_marker (w : Wanted) (r : Routes) (m : ActivationMarker) : Prop :=
  exists g routes, _next_generation r = inl g /\ route_bytes alias_ok (endpoints w) (wanted_state w) g = inl routes
    /\ m = requested_marker (wanted_request w g routes).

Lemma reuse_next w m r : next_marker w r m -> reuse_current alias_ok w m = inl true.
Proof.
  intros (g & routes & _ & Hr & ->). unfold reuse_current. simpl. rewrite !bool_decide_true by done. rewrite Hr.
  by rewrite !bool_decide_true.
Qed.

(** A publication extends the tree, shows a reader the bundle before or the wanted one, and a
    marker it answers is the active one and the wanted one. *)
Record outcome (w : Wanted) (r r' : Routes) (answers : ActivationMarker -> Prop) : Prop := {
  outcome_extends : extends r r';
  outcome_view : view r' = view r \/ exists m, next_marker w r m /\ view r' = Bundle m;
  outcome_answer m : answers m -> view r' = Bundle m /\ reuse_current alias_ok w m = inl true;
}.

Lemma outcome_same w r answers :
  (forall m, answers m -> view r = Bundle m /\ reuse_current alias_ok w m = inl true) -> outcome w r r answers.
Proof. intros H. split; [reflexivity|by left|exact H]. Qed.

Lemma outcome_impl w r r' (P Q : ActivationMarker -> Prop) :
  (forall m, Q m -> P m) -> outcome w r r' P -> outcome w r r' Q.
Proof. intros H []. split; eauto. Qed.

Lemma choose_spec p w current fates_ r a r' :
  choose_marker alias_ok p w current fates_ r = (a, r') -> (forall m, current = Some m -> view r = Bundle m) ->
  outcome w r r' (fun m => a = inl (inl m)).
Proof.
  unfold choose_marker. intros H Hc.
  assert (forall e, (inr e, r) = (a, r') -> outcome w r r' (fun m => a = inl (inl m))) as Hsame
    by (intros e [= <- <-]; by apply outcome_same).
  destruct (match current with Some m => reuse_current alias_ok w m | None => inl false end) as [[]|e] eqn:Er;
    [| |by eapply Hsame].
  { destruct current as [m|]; [|done]. injection H as <- <-. apply outcome_same. intros m' [= <-]. eauto. }
  destruct (_next_generation r) as [g|] eqn:Eg; [|by destruct current; eapply Hsame].
  destruct (route_bytes alias_ok (endpoints w) (wanted_state w) g) as [routes|] eqn:Eb; [|by destruct current; eapply Hsame].
  destruct (_activate _ _ _) as [answer after] eqn:Ea.
  assert (a = answer /\ r' = disk after) as [-> ->] by (by destruct current; injection H as <- <-).
  set (q := wanted_request w g routes) in *.
  assert (next_marker w r (requested_marker q)) as Hn by (by exists g, routes).
  apply activate_cases in Ea as [[Hk Hno]|[Hr Hm]]; cbn [disk] in *.
  - split; [exact (request_extends q _ _ Eg (proj1 Hk))| |intros m' ->; by destruct (Hno m')].
    destruct (kept_view other q _ _ Eg Hk); eauto.
  - pose proof (replaced_view other _ _ _ Hr) as Hv. split; [exact (request_extends q _ _ Eg (proj1 Hr))|eauto|].
    intros m' ->. rewrite (Hm _ eq_refl). eauto using reuse_next.
Qed.

Lemma current_marker_view broken r m : current_marker other broken r = Some m -> view r = Bundle m.
Proof.
  unfold current_marker. destruct (_read_marker other broken true true r) eqn:E; intros; simplify_eq.
  by eapply read_broken.
Qed.

(** What an attempt answers: the generation it returns, or the one it activated without being
    acknowledged. *)
Definition activated (res : option RecipeGeneration + publish_error) (m : ActivationMarker) : Prop :=
  exists g, rg_marker g = m /\ (res = inl (Some g) \/ exists why, res = inr (ActivatedError why g)).

Lemma acknowledged_marker p w a m m' : activated (acknowledged p w a m) m' -> m' = m.
Proof.
  unfold acknowledged. intros (g & <- & H).
  destruct (_require_supervisor_ack _ _) as [[why|]|]; destruct H as [H|[why' H]]; by simplify_eq.
Qed.

Lemma once_spec p w expected a r res r' :
  _activate_once alias_ok other p w expected a r = (res, r') -> outcome w r r' (activated res).
Proof.
  unfold _activate_once. intros H.
  assert (forall e, (forall why g, e <> ActivatedError why g) -> (inr e, r) = (res, r') -> outcome w r r' (activated res)) as Hsame.
  { intros e He [= <- <-]. apply outcome_same. intros m (g & _ & [?|[why ?]]); simplify_eq. by destruct (He why g). }
  destruct (_identity _ _ _); [|eapply Hsame; [|exact H]; done]. destruct (_locked (at_lock a)) as [[[reason|]|e]|]; try (eapply Hsame; [|exact H]; done).
  destruct (bool_decide (at_owned a = Some false)); [eapply Hsame; [|exact H]; done|].
  destruct (match expected with Some _ => _ | None => _ end).
  { injection H as <- <-. apply outcome_same. intros m (g & _ & [?|[why ?]]); simplify_eq. }
  destruct (choose_marker _ _ _ _ _ _) as [ans r1] eqn:Ec.
  apply choose_spec in Ec; [|intros m; apply current_marker_view].
  destruct ans as [[m|reason]|e]; injection H as <- <-; eapply outcome_impl, Ec; clear Ec.
  - intros m' ->%acknowledged_marker. done.
  - intros m (g & _ & [?|[why ?]]); simplify_eq.
  - intros m (g & _ & [?|[why ?]]); simplify_eq.
Qed.

(** *** Atomic publication *)

(** C6.  A publication attempt, whatever fails in it and wherever it stops, leaves a reader
    of the tree with the bundle it was shown before or with the whole wanted bundle at the next
    generation; and when the attempt answers a generation, acknowledged or not, that is the
    bundle a reader is shown. *)
Theorem publication_atomic p w expected a r :
  let '(res, r') := _activate_once alias_ok other p w expected a r in
  (view r' = view r \/ exists m, next_marker w r m /\ view r' = Bundle m) /\
  forall g, res = inl (Some g) \/ (exists why, res = inr (ActivatedError why g)) -> view r' = Bundle (rg_marker g).
Proof.
  destruct (_activate_once alias_ok other p w expected a r) as [res r'] eqn:E. apply once_spec in E as [_ Hv Ha].
  split; [done|]. intros g Hg. apply Ha. by exists g.
Qed.

(** *** Histories *)
Record Publication := { pub_by : Publisher; pub_wanted : Wanted; pub_expected : option string; pub_attempt : Attempt }.
Definition publish (r : Routes) (x : Publication) : Routes :=
  snd (_activate_once alias_ok other (pub_by x) (pub_wanted x) (pub_expected x) (pub_attempt x) r).

Lemma publish_outcome r x : exists answers, outcome (pub_wanted x) r (publish r x) answers.
Proof. unfold publish. destruct (_activate_once _ _ _ _ _ _ _) as [res r'] eqn:E. eauto using once_spec. Qed.

Lemma history_extends xs : forall r, extends r (foldl publish r xs).
Proof.
  induction xs as [|x xs IH]; intros r; [reflexivity|]. destruct (publish_outcome r x) as [P []]. etrans; [done|apply IH].
Qed.

(** The generation of a bundle made later is above that of every bundle a reader was shown. *)
Lemma next_above w r r0 m0 m : extends r0 r -> view r0 = Bundle m0 -> next_marker w r m ->
  am_generation (manifest_document m0) < am_generation (manifest_document m).
Proof.
  intros He (_ & Hw & files & Hf & _)%view_bundle (g & routes & [_ Hg]%next_generation_fresh & _ & ->). simpl.
  eapply Hg; [|by apply well_named_number]. eapply He; [by apply well_named_pattern|done].
Qed.

Lemma generations_grow_from xs : forall r0 r m0 m,
  extends r0 r -> view r0 = Bundle m0 ->
  (view r = Bundle m0 \/ forall m1, view r = Bundle m1 -> am_generation (manifest_document m0) < am_generation (manifest_document m1)) ->
  view (foldl publish r xs) = Bundle m ->
  m = m0 \/ am_generation (manifest_document m0) < am_generation (manifest_document m).
Proof.
  induction xs as [|x xs IH]; intros r0 r m0 m He H0 Hr Hm; simpl in Hm.
  { destruct Hr as [Hr|Hr]; [left; congruence|right; eauto]. }
  destruct (publish_outcome r x) as [P [Hx Hv _]]. eapply (IH r0); [|done| |exact Hm]; [by etrans|].
  destruct Hv as [->|(m1 & Hn & Hv)]; [done|]. right. intros m2. rewrite Hv. intros [= <-]. exact (next_above _ _ _ _ _ He H0 Hn).
Qed.

(** C8.  Along every history of publications, with any failures, a bundle a reader is shown
    later is the one shown before or has a higher generation. *)
Theorem generations_grow xs r m0 m :
  view r = Bundle m0 -> view (foldl publish r xs) = Bundle m ->
  m = m0 \/ am_generation (manifest_document m0) < am_generation (manifest_document m).
Proof. intros H0. apply (generations_grow_from xs r); [reflexivity|done|by left]. Qed.
End publications.

(** ** Retries and waits

    A publication that finds a free lock, a sound tree and acceptable documents activates its
    bundle; made again it finds the same bundle and changes nothing; and the retries of one
    request after a lost acknowledgement write nothing at all.  The waits for the lock and for
    the acknowledgement end. *)

#[local] Opaque RouteBundle._sha256 RouteBundle.marker_digest RouteBundle.canonical_bytes.

Section retries.
Context (alias_ok : string -> bool) (other : string -> parsed).
Abbreviation view := (view other).

(** ** Again *)

(** An attempt that gets the lock, is not superseded and can read the tree. *)
Definition free (a : Attempt) : Prop :=
  _locked (at_lock a) = Some (inl None) /\ at_owned a <> Some false /\ at_broken a = [].

Lemma reuse_once p w expected a r m :
  free a -> _identity RECIPE_ROUTE_AUTHORITY_ID (route_digest w) (route_digest w) = inl tt ->
  view r = Bundle m -> reuse_current alias_ok w m = inl true -> expected = None \/ expected = Some (marker_digest m) ->
  _activate_once alias_ok other p w expected a r = (acknowledged p w a m, r).
Proof.
  intros (Hl & Ho & Hb) Hi Hv Hr He. change (_read_marker other [] true true r = Bundle m) in Hv. unfold _activate_once. rewrite Hi, Hl, bool_decide_false by done.
  assert (current_marker other (at_broken a) r = Some m) as -> by (unfold current_marker; by rewrite Hb, Hv).
  assert (match expected with Some digest => bool_decide (marker_digest <$> Some m <> Some digest) | None => false end = false)
    as -> by (destruct He as [->| ->]; [done|]; apply bool_decide_eq_false; simpl; tauto).
  unfold choose_marker. by rewrite Hr.
Qed.

Lemma activated_identity p w expected a r m :
  activated (fst (_activate_once alias_ok other p w expected a r)) m ->
  _identity RECIPE_ROUTE_AUTHORITY_ID (route_digest w) (route_digest w) = inl tt.
Proof.
  unfold _activate_once. destruct (_identity _ _ _) as [[]|e]; [done|].
  intros (g & _ & [?|[why ?]]); simplify_eq.
Qed.

(** Publishing again what an attempt already activated answers the same marker and
    leaves the tree as it is. *)
Theorem republication_changes_nothing p w expected a r m a' :
  activated (fst (_activate_once alias_ok other p w expected a r)) m -> free a' ->
  let r' := snd (_activate_once alias_ok other p w expected a r) in
  _activate_once alias_ok other p w None a' r' = (acknowledged p w a' m, r').
Proof.
  intros Hm Hf. pose proof (activated_identity _ _ _ _ _ _ Hm) as Hi.
  destruct (_activate_once alias_ok other p w expected a r) as [res r'] eqn:E.
  destruct (once_spec _ _ _ _ _ _ _ _ _ E) as [_ _ Ha]. destruct (Ha m Hm).
  apply reuse_once; [done|done|done|done|by left].
Qed.

(** ** Retries *)

(** Two markers with one digest. *)
Definition collision (m : ActivationMarker) : Prop := exists m', m' <> m /\ marker_digest m' = marker_digest m.

Lemma retry_once p w a r m :
  reuse_current alias_ok w m = inl true ->
  (snd (_activate_once alias_ok other p w (Some (marker_digest m)) a r) = r /\
   forall m', activated (fst (_activate_once alias_ok other p w (Some (marker_digest m)) a r)) m' -> m' = m)
  \/ collision m.
Proof.
  intros Hr. unfold _activate_once.
  assert (forall e, (forall why g, e <> ActivatedError why g) -> (snd (@inr (option RecipeGeneration) _ e, r) = r /\
    forall m', activated (fst (@inr (option RecipeGeneration) _ e, r)) m' -> m' = m) \/ collision m) as Hsame.
  { intros e He. left. split; [done|]. intros m' (g & _ & [?|[why ?]]); simplify_eq/=. by destruct (He why g). }
  destruct (_identity _ _ _); [|by apply Hsame]. destruct (_locked (at_lock a)) as [[[reason|]|e]|];
    [by apply Hsame| |by apply Hsame|by apply Hsame].
  destruct (bool_decide (at_owned a = Some false)); [by apply Hsame|].
  destruct (bool_decide (marker_digest <$> current_marker other (at_broken a) r <> Some (marker_digest m))) eqn:Ed.
  { left. split; [done|]. intros m' (g & _ & [?|[why ?]]); simplify_eq/=. }
  apply bool_decide_eq_false, dec_stable in Ed.
  destruct (current_marker other (at_broken a) r) as [m1|]; [|done]. apply (inj Some) in Ed.
  destruct (decide (m1 = m)) as [->|Hne]; [|right; exists m1; exact (conj Hne Ed)].
  left. unfold choose_marker. rewrite Hr. split; [done|]. intros m'. apply acknowledged_marker.
Qed.

(** Once an attempt of a request activated its bundle without being acknowledged, its
    retries write nothing: the tree they leave is what the other publishers made of it, unless
    two markers have one SHA-256 digest. *)
Theorem retries_write_nothing p w attempts : forall why g not_ready r,
  reuse_current alias_ok w (rg_marker g) = inl true ->
  (exists k, snd (attempts_loop alias_ok other p w attempts {| last_activated := Some (why, g); last_not_ready := not_ready |} r)
             = foldl (fun t x => fst x t) r (take k attempts))
  \/ collision (rg_marker g).
Proof.
  induction attempts as [|[others a] attempts IH]; intros why g not_ready r Hr; simpl; [left; by exists O|].
  destruct (retry_once p w a (others r) (rg_marker g) Hr) as [[Hd Hm]|]; [|by right].
  destruct (_activate_once _ _ _ _ _ _ _) as [res r'] eqn:E. simpl in Hd, Hm. subst r'.
  assert (forall why' g', reuse_current alias_ok w (rg_marker g') = inl true -> rg_marker g' = rg_marker g -> forall nr,
    (exists k, snd (attempts_loop alias_ok other p w attempts {| last_activated := Some (why', g'); last_not_ready := nr |} (others r))
      = foldl (fun t x => fst x t) r (take k ((others, a) :: attempts))) \/ collision (rg_marker g)) as Hnext.
  { intros why' g' Hg' Hm' nr. rewrite <- Hm'. destruct (IH why' g' nr (others r) Hg') as [[k Hk]|]; [|by right].
    left. exists (S k). exact Hk. }
  destruct res as [[g'|]|e]; [left; by exists 1%nat..|].
  destruct e as [w'| |why' g'|msg|err]; try (by apply Hnext); [|left; by exists 1%nat].
  assert (rg_marker g' = rg_marker g) as Hg' by (apply Hm; exists g'; eauto). apply Hnext; [by rewrite Hg'|done].
Qed.
End retries.

(** ** Names and digests of a new bundle *)
Lemma hex_digit_is_hex n : 0 <= n < 16 -> is_hex (Sha256.hex_digit n) = true.
Proof.
  intros H. assert (n ∈ Z.of_nat <$> seq 0 16) as Hn.
  { apply list_elem_of_fmap. exists (Z.to_nat n). split; [lia|]. apply elem_of_seq. lia. }
  clear H. revert n Hn. apply Forall_forall. by repeat constructor.
Qed.

Lemma hex_is_hex l : Forall (fun b => 0 <= b < 256) l -> all_chars is_hex (Sha256.hex l) = true.
Proof.
  induction 1 as [|b l Hb _ IH]; [done|]. cbn [Sha256.hex all_chars]. rewrite IH, !hex_digit_is_hex; [done| |].
  - change 15 with (Z.ones 4). rewrite Z.land_ones by done. by apply Z.mod_pos_bound.
  - rewrite Z.shiftr_div_pow2 by done. split; [apply Z.div_pos; lia|]. apply Z.div_lt_upper_bound; lia.
Qed.

Lemma hex_length l : String.length (Sha256.hex l) = (2 * length l)%nat.
Proof. induction l as [|b l IH]; [done|]. cbn [Sha256.hex String.length length]. rewrite IH. lia. Qed.

Lemma sha256_is_digest s : _is_digest (_sha256 s) = true.
Proof.
  Transparent RouteBundle._sha256. unfold _is_digest, _sha256, Sha256.hexdigest. rewrite hex_length, Sha256.digest_length.
  by rewrite hex_is_hex by apply Sha256.digest_bytes.
Qed.
#[local] Opaque RouteBundle._sha256.

Lemma substring_drop a s n : String.substring (String.length a) n (a +:+ s) = String.substring 0 n s.
Proof. induction a as [|c a IH]; [done|]. exact IH. Qed.
Lemma substring_take a s : String.substring 0 (String.length a) (a +:+ s) = a.
Proof. induction a as [|c a IH]; [by destruct s|]. exact (f_equal (String c) IH). Qed.

Lemma directory_name_pattern g digest :
  0 < g < 10 ^ 8 -> _is_digest digest = true -> directory_pattern (directory_name g digest) = true.
Proof.
  intros [Hg Hl] Hd. destruct (pad8_spec g Hg) as (Hs & _ & [_ H8]). specialize (H8 Hl). unfold directory_name.
  generalize dependent (pad 8 g). intros s Hs H8. unfold directory_pattern.
  pose proof (substring_take s ("-" +:+ digest)) as E1. pose proof (substring_drop s ("-" +:+ digest) 1) as E2.
  pose proof (substring_drop (s +:+ "-") digest (String.length digest)) as E3.
  rewrite H8 in E1, E2. rewrite length_app, H8, substring_all in E3. simpl Nat.add in E3.
  rewrite str_app_assoc in E3.
  assert (String.length (s +:+ "-" +:+ digest) - 9 = String.length digest)%nat as -> by (rewrite !length_app, H8; simpl; lia).
  rewrite E1, E2, E3, Hs, Hd. by destruct digest.
Qed.

(** ** A publication that nothing stops *)
Section success.
Context (alias_ok : string -> bool) (other : string -> parsed).
Abbreviation view := (view other).

Lemma call_fine effect w r : fates w = [] -> effect (disk w) = Some r ->
  system_call effect w = (inl tt, {| disk := r; fates := [] |}).
Proof. intros Hf He. unfold system_call. by rewrite Hf, He. Qed.

Lemma bind_run {A B} (m : io A) (f : A -> io B) w a w1 : m w = (inl a, w1) -> (m ≫= f) w = f a w1.
Proof. unfold mbind, io_bind. by intros ->. Qed.

Lemma bind_gets {A B} (g : Routes -> A) (f : A -> io B) w : (gets g ≫= f) w = f (g (disk w)) w.
Proof. done. Qed.

Lemma ensure_runs d w : fates w = [] -> generations (disk w) !! d = None \/ has_directory (disk w) d ->
  exists w', ensure_directory d w = (inl tt, w') /\ fates w' = [].
Proof.
  intros Hf Hd. unfold ensure_directory. rewrite bind_gets.
  destruct Hd as [E|[files E]]; rewrite E; [|by eexists].
  eexists. split; [apply call_fine; [done|by rewrite E]|done].
Qed.

Lemma write_staged_runs d name content w : fates w = [] -> has_directory (disk w) d ->
  staged_file (disk w) d name = Missing ->
  exists w', _atomic_write (StagedFile d name) content w = (inl tt, w') /\ fates w' = [].
Proof.
  intros Hf [files Hd] Hm. unfold _atomic_write. rewrite bind_gets. simpl. rewrite Hm, Hd. simpl.
  eexists. split; [apply call_fine; [done|]|done]. unfold replace_target. simpl. by rewrite Hm.
Qed.

Lemma stage_runs d name content w :
  fates w = [] -> staged_file (disk w) d name = Missing ->
  generations (disk w) !! d = None \/ has_directory (disk w) d ->
  exists w', _stage d name content w = (inl tt, w') /\ fates w' = [] /\ has_directory (disk w') d.
Proof.
  intros Hf Hm Hd. destruct (ensure_runs d w Hf Hd) as (w1 & E1 & Hf1). pose proof (ensure_inl _ _ _ _ E1) as Hd1.
  assert (staged_file (disk w1) d name = Missing) as Hm1.
  { unfold ensure_directory in E1. rewrite bind_gets in E1.
    destruct Hd as [E|[files E]]; rewrite E in E1; [|by injection E1 as <-].
    apply call_inl in E1. rewrite E in E1. injection E1 as <-. unfold staged_file, file_in. simpl. by rewrite lookup_insert_eq. }
  destruct (write_staged_runs d name content {| disk := disk w1; fates := [] |}) as (w2 & E2 & Hf2); [done..|].
  exists w2. assert (_stage d name content w = (inl tt, w2)) as Hs.
  { unfold _stage. rewrite (bind_run _ _ _ _ _ E1), (bind_run _ _ _ _ _ (call_fine Some w1 _ Hf1 eq_refl)).
    rewrite bind_gets. simpl. rewrite Hm1. exact E2. }
  split; [done|]. split; [done|]. apply stage_inl in Hs. unfold staged_file, has_directory in *.
  destruct (generations (disk w2) !! d) as [[?| |files]|]; eauto; done.
Qed.

Lemma stage_bundle_runs q w : fates w = [] -> generations (disk w) !! am_directory (requested_marker q) = None ->
  exists w', stage_bundle q w = (inl tt, w') /\ fates w' = [].
Proof.
  intros Hf Hn. assert (forall n, staged_file (disk w) (am_directory (requested_marker q)) n = Missing) as Hm
    by (intros n; unfold staged_file; by rewrite Hn).
  unfold stage_bundle. destruct (stage_runs _ "routes.json" (rq_routes q) w Hf (Hm _) (or_introl Hn)) as (w1 & E1 & Hf1 & Hd1).
  rewrite (bind_run _ _ _ _ _ E1). apply stage_keeps in E1 as [_ _ _ _ O1 _].
  destruct (stage_runs _ "litellm.json" (rq_litellm q) w1 Hf1 ltac:(by rewrite O1) (or_intror Hd1)) as (w2 & E2 & Hf2 & Hd2).
  rewrite (bind_run _ _ _ _ _ E2). apply stage_keeps in E2 as [_ _ _ _ O2 _].
  destruct (stage_runs _ "manifest.json" (canonical_bytes (manifest_json (requested_manifest q))) w2 Hf2
    ltac:(by rewrite O2, O1) (or_intror Hd2)) as (w3 & E3 & Hf3 & _). eauto.
Qed.

(** The marker file can be replaced. *)
Definition replaceable (r : Routes) : Prop :=
  root_link r = false /\ is_symlink (activation r) = false /\ activation r <> Directory.

Lemma activate_runs documents_ q w :
  fates w = [] -> replaceable (disk w) -> generations (disk w) !! am_directory (requested_marker q) = None ->
  validate_routes documents_ (rq_routes q) = true -> validate_litellm documents_ (rq_litellm q) = true ->
  marker_valid (requested_marker q) = true ->
  exists w', _activate documents_ q w = (inl (inl (requested_marker q)), w').
Proof.
  intros Hf (Hr & Hl & Hd) Hn Hvr Hvl Hv. unfold _activate. rewrite Hvr, Hvl.
  assert (manifest_valid (requested_manifest q) = true) as Hm.
  { unfold marker_valid in Hv. rewrite !andb_true_iff in Hv. apply Hv. }
  rewrite Hm. cbn [negb]. destruct (stage_bundle_runs q w Hf Hn) as (w1 & E1 & Hf1).
  pose proof (stage_bundle_keeps _ _ _ _ E1) as [Hs Ha].
  assert (exists w2, _atomic_write ActivationFile (canonical_bytes (marker_json (requested_marker q))) w1 = (inl tt, w2)) as [w2 E2].
  { unfold _atomic_write. rewrite bind_gets. simpl. rewrite Ha, Hl, (staged_root _ _ _ Hs), Hr. simpl.
    eexists. apply call_fine; [done|]. unfold replace_target. simpl. by destruct (activation (disk w1)) eqn:E; try done; congruence. }
  exists w2. unfold or_unconfirmed. unfold stage_bundle in E1. rewrite E1, Hv. simpl. by rewrite E2.
Qed.
Lemma authority_identity d : _is_digest d = true -> _identity RECIPE_ROUTE_AUTHORITY_ID d d = inl tt.
Proof.
  intros H. unfold _identity. assert (exists b, Uuid.UUID RECIPE_ROUTE_AUTHORITY_ID = Ok b /\ Uuid.uuid_text b = RECIPE_ROUTE_AUTHORITY_ID)
    as (b & -> & Hb) by (eexists; split; vm_compute; reflexivity).
  rewrite bool_decide_false by tauto. by rewrite H.
Qed.

Lemma wanted_marker_valid w g routes :
  0 < g < 10 ^ 8 -> _is_digest (route_digest w) = true -> wanted_state w <> GatewayRouteState.UNAVAILABLE ->
  marker_valid (requested_marker (wanted_request w g routes)) = true.
Proof.
  intros Hg Hd Hs. unfold marker_valid, manifest_valid. unfold requested_marker, requested_manifest, wanted_request.
  cbn [manifest_document am_generation am_state am_authority_id am_plan_digest am_evidence_set_digest am_routes_sha256
    am_litellm_sha256 am_directory am_manifest_sha256 rq_generation rq_state rq_authority_id rq_plan_digest
    rq_evidence_set_digest rq_routes rq_litellm].
  rewrite !sha256_is_digest, Hd, directory_name_pattern by (done || apply sha256_is_digest).
  assert (mem (value (wanted_state w)) ActivationState = true) as -> by (by destruct (wanted_state w)).
  assert (canonical_authority RECIPE_ROUTE_AUTHORITY_ID = true) as -> by (by vm_compute).
  rewrite !andb_true_r, andb_true_iff. unfold MAX_GENERATION. split; [apply Z.ltb_lt|apply Z.leb_le]; lia.
Qed.

(** The endpoints make a routes document at every generation. *)
Definition renders (w : Wanted) : Prop :=
  forall g, 1 <= g -> exists routes, route_bytes alias_ok (endpoints w) (wanted_state w) g = inl routes.

(** What must hold for a publication of [w] over [r] to go through. *)
Record publishable (p : Publisher) (w : Wanted) (r : Routes) (g : Z) : Prop := {
  pb_replaceable : replaceable r;
  pb_generation : _next_generation r = inl g;
  pb_eight_digits : g < 10 ^ 8;
  pb_digest : _is_digest (route_digest w) = true;
  pb_state : wanted_state w <> GatewayRouteState.UNAVAILABLE;
  pb_renders : renders w;
  pb_routes routes : route_bytes alias_ok (endpoints w) (wanted_state w) g = inl routes ->
    validate_routes (documents p) routes = true;
  pb_litellm : validate_litellm (documents p) (litellm w) = true;
}.

Lemma reuse_returns w broken r : renders w ->
  exists b, match current_marker other broken r with Some m => reuse_current alias_ok w m | None => inl false end = inl b.
Proof.
  intros Hren. destruct (current_marker other broken r) as [m|] eqn:Em; [|eauto].
  apply current_marker_view, view_bundle in Em as (_ & [Hv _] & _). unfold reuse_current. destruct (_ && _); [|eauto].
  unfold marker_valid, manifest_valid in Hv. rewrite !andb_true_iff in Hv. destruct_and! Hv.
  destruct (Hren (am_generation (manifest_document m))) as [routes ->]; [|eauto].
  match goal with H : (0 <? _) = true |- _ => apply Z.ltb_lt in H; lia end.
Qed.

Lemma choose_runs p w broken r g : publishable p w r g ->
  exists m r', choose_marker alias_ok p w (current_marker other broken r) [] r = (inl (inl m), r').
Proof.
  intros [Hr Hg H8 Hd Hs Hren Hvr Hvl]. pose proof Hg as [Hpos _]%next_generation_fresh. unfold choose_marker.
  destruct (reuse_returns w broken r Hren) as [b ->]. rewrite Hg.
  destruct (Hren g) as [routes Hroutes]; [lia|]. rewrite Hroutes.
  pose proof (wanted_marker_valid w g routes (conj Hpos H8) Hd Hs) as Hmv.
  destruct (activate_runs (documents p) (wanted_request w g routes) {| disk := r; fates := [] |}) as [w' E];
    [done|done| |by apply Hvr|done|done|rewrite E; destruct b, (current_marker other broken r); eauto].
  apply request_fresh; [done|]. unfold marker_valid in Hmv. rewrite !andb_true_iff in Hmv. apply Hmv.
Qed.

Lemma reuse_fields w m : reuse_current alias_ok w m = inl true ->
  am_state (manifest_document m) = value (wanted_state w) /\ am_plan_digest (manifest_document m) = route_digest w /\
  am_litellm_sha256 (manifest_document m) = _sha256 (litellm w).
Proof.
  unfold reuse_current. destruct (_ && _) eqn:E; [|done]. rewrite !andb_true_iff, !bool_decide_eq_true in E. destruct_and! E.
  destruct (route_bytes _ _ _ _); [|done]. intros Hu. injection Hu as Hu. rewrite andb_true_iff, !bool_decide_eq_true in Hu.
  by destruct Hu.
Qed.

Lemma once_runs p w a r g :
  free a -> at_fates a = [] -> publishable p w r g ->
  exists m r', _activate_once alias_ok other p w None a r = (acknowledged p w a m, r') /\ view r' = Bundle m /\
    reuse_current alias_ok w m = inl true.
Proof.
  intros (Hl & Ho & Hb) Hf Hp. destruct (choose_runs p w (at_broken a) r g Hp) as (m & r' & Ec).
  exists m, r'. unfold _activate_once. rewrite authority_identity, Hl, bool_decide_false, Hf, Ec by (done || apply Hp).
  split; [done|]. apply (choose_spec alias_ok other) in Ec as [_ _ Ha]; [|intros m0; apply current_marker_view].
  by apply Ha.
Qed.

(** A publication that gets the lock, fails in no call and meets a sound tree and
    acceptable documents activates a bundle with the wanted state, digest and configuration, and
    a reader is shown it. *)
Theorem publication_succeeds p w a r g :
  free a -> at_fates a = [] -> publishable p w r g ->
  exists m r', _activate_once alias_ok other p w None a r = (acknowledged p w a m, r') /\ view r' = Bundle m /\
    am_state (manifest_document m) = value (wanted_state w) /\ am_plan_digest (manifest_document m) = route_digest w /\
    am_litellm_sha256 (manifest_document m) = _sha256 (litellm w).
Proof.
  intros Ha Hf Hp. destruct (once_runs p w a r g Ha Hf Hp) as (m & r' & H1 & H2 & H3).
  exists m, r'. split; [done|]. split; [done|]. by apply reuse_fields.
Qed.
End success.

(** ** The waits end *)

(** A clock that the sleeps between its readings move by [step] at least. *)
Definition paced (monotonic : nat -> Z) (step : Z) : Prop :=
  monotonic O <= monotonic 1%nat /\ forall i, monotonic (S i) + step <= monotonic (S (S i)).

Lemma paced_reading monotonic step i : paced monotonic step -> monotonic O + Z.of_nat i * step <= monotonic (S i).
Proof. intros [H0 H]. induction i as [|i IH]; [lia|]. specialize (H i). lia. Qed.

Lemma claim_loop_ends l fuel : forall i, (601 <= i + fuel)%nat -> (i < 601)%nat ->
  paced (lock_monotonic l) _PUBLICATION_LOCK_RETRY_SECONDS -> claim_loop l fuel i <> None.
Proof.
  induction fuel as [|fuel IH]; intros i Hi Hlt Hp; [lia|]. cbn [claim_loop]. destruct (flock l i); try done.
  pose proof (paced_reading _ _ i Hp) as Hr. unfold _PUBLICATION_LOCK_RETRY_SECONDS in Hr.
  destruct (Z.leb_spec (lock_monotonic l 0 + _PUBLICATION_LOCK_BUDGET_SECONDS) (lock_monotonic l (S i))) as [|Hb]; [done|].
  unfold _PUBLICATION_LOCK_BUDGET_SECONDS, seconds in Hb. apply IH; [lia|lia|done].
Qed.

Lemma locked_ends l : paced (lock_monotonic l) _PUBLICATION_LOCK_RETRY_SECONDS -> _locked l <> None.
Proof.
  intros Hp. unfold _locked, _claim_publication_lock. repeat (destruct (_ : bool); [done|]).
  pose proof (claim_loop_ends l lock_fuel 0 ltac:(done) ltac:(lia) Hp). by destruct (claim_loop _ _ _) as [[?|[]]|].
Qed.

Section acknowledgement.
Context (other : string -> parsed) (fromisoformat : string -> option datetime).

(** The file at one look is a canonical acknowledgement of [m], no older than allowed. *)
Definition seen (k : Acknowledger) (m : ActivationMarker) (s : AckSight) : Prop :=
  exists a now t, sight_file s = File (canonical_bytes (acknowledgement_json a)) /\ sight_now s = Aware now /\
    acknowledges a m = true /\ fromisoformat (ack_acknowledged_at a) = Some (Aware t) /\ t <= now <= t + maximum_age k.

Lemma matches_seen k m now s : sight_now s = Aware now -> _matches other fromisoformat k m now s = inl true -> seen k m s.
Proof.
  intros Hn. unfold _matches. destruct (_ || _); [done|]. destruct (sight_file s) as [| | | |content] eqn:Ef; try done.
  destruct (negb _); [done|]. destruct (json_loads other content) as [raw| |]; try done. destruct (Nat.ltb _ _); [done|].
  destruct (validate_acknowledgement raw) as [a| |]; try done.
  destruct (bool_decide (content = _)) eqn:Ec; [|done]. destruct (acknowledges a m) eqn:Ea; [|done]. cbn [andb].
  unfold _parse_time. destruct (fromisoformat _) as [[t|]|] eqn:Et; [|done..]. intros H.
  assert ((t <=? now) && (now - t <=? maximum_age k) = true) as Hw by congruence.
  rewrite andb_true_iff, !Z.leb_le in Hw. apply bool_decide_eq_true in Ec. subst content.
  exists a, now, t. split_and!; try done; lia.
Qed.

Lemma acknowledge_loop_ends k m sights monotonic fuel : forall i,
  0 < poll k -> (acknowledge_fuel k <= i + fuel)%nat -> (i < acknowledge_fuel k)%nat -> paced monotonic (poll k) ->
  exists answer, acknowledge_loop other fromisoformat k m sights monotonic fuel i = Some answer /\
    (answer = inl None -> exists j, seen k m (sights j)).
Proof.
  induction fuel as [|fuel IH]; intros i Hpoll Hi Hlt Hp; [lia|]. cbn [acknowledge_loop].
  destruct (sight_now (sights i)) as [now|] eqn:En; [|by eexists].
  destruct (_matches _ _ _ _ _ _) as [[]|] eqn:Em; [exists (inl None); split; [done|]; eauto using matches_seen| |by eexists].
  destruct (Z.leb_spec (monotonic O + timeout k) (monotonic (S i))) as [|Hb]; [by eexists|].
  pose proof (paced_reading _ _ i Hp) as Hr. apply IH; [done|lia| |done].
  unfold acknowledge_fuel in *. assert (Z.of_nat i <= timeout k / poll k); [|lia].
  apply Z.div_le_lower_bound; [done|]. lia.
Qed.

(** C37.  The wait for the publication lock and the wait for the acknowledgement end, when the
    clock moves with their sleeps; and the second ends well only when a canonical, fresh
    acknowledgement of exactly this marker was seen. *)
Theorem waits_end l k m sights monotonic timeout_ age poll_ :
  paced (lock_monotonic l) _PUBLICATION_LOCK_RETRY_SECONDS ->
  make_acknowledger timeout_ age poll_ = inl k -> paced monotonic poll_ ->
  _locked l <> None /\
  exists answer, await_acknowledgement other fromisoformat k m sights monotonic = Some answer /\
    (answer = inl None -> exists j, seen k m (sights j)).
Proof.
  intros Hl Hk Hp. split; [by apply locked_ends|]. unfold make_acknowledger in Hk.
  destruct (_ || _) eqn:E in Hk; [done|]. rewrite !orb_false_iff, !Z.leb_gt, Z.ltb_ge in E. injection Hk as <-.
  apply acknowledge_loop_ends; simpl; [lia|lia| |done]. unfold acknowledge_fuel. simpl.
  assert (0 <= timeout_ / poll_) by (apply Z.div_pos; lia). lia.
Qed.
End acknowledgement.
