(* ===== verification/RouteSupervisor.v ===== *)
(** * The LiteLLM supervisor

    [deploy/compose/litellm/config_supervisor.py]: the process beside the gateway.  It runs
    LiteLLM with the configuration of the active bundle, restarts it when another configuration
    is activated, and acknowledges the activation its child serves.  The program is cut at the
    points where it waits or reads the tree, so that publications of the Controller may come
    between any two of its steps. *)
From S2P Require Import Prelude Vocabulary StateMachines Sha256 Uuid Json JsonRead Demand.
From S2P Require Import LifecycleTypes SparkOrder RouteBundle.

Definition POLL_SECONDS : Z := seconds 2.
Definition STARTUP_SECONDS : Z := seconds 120.
Definition STARTUP_ATTEMPTS : Z := 10.

Record ActiveRequest := {
  config : string;          (* the directory of its litellm.json *)
  request_marker : ActivationMarker;
  activation_sha256 : string;
}.

(** What ends the process by an exception. *)
Inductive crash := SupervisorError (msg : string) | CrashIo (e : io_error).

(** The file a child is started with. *)
Inductive selected_config := BootstrapConfig | GenerationConfig (directory : string).

Record World := {
  routes : Routes;
  bootstrap : entry;
  ack : entry;          (* ack.json; its directory is a directory *)
}.
Definition set_ack (e : entry) (w : World) : World := {| routes := routes w; bootstrap := bootstrap w; ack := e |}.
Definition set_routes (r : Routes) (w : World) : World := {| routes := r; bootstrap := bootstrap w; ack := ack w |}.

Section Supervisor.
(** [json.loads] beyond the reader of [JsonRead] *)
Variable other : string -> parsed.

(** [isinstance(document.get("model_list"), list)] *)
Definition model_list (document : json) : option (list json) :=
  match document with
  | JObject l => match member "model_list" l with Some (JArray models) => Some models | _ => None end
  | _ => None
  end.

(** The checks on the configuration document. *)
Definition config_served (m : ActivationMarker) (document : json) : bool :=
  match model_list document with
  | None => false
  | Some models =>
      negb (bool_decide (am_state (manifest_document m) = "maintenance")
            && negb (Nat.eqb (length models) 0))
  end.

(** The files of the directory, in the order they are looked at. *)
Definition request_files (broken : list string) (files : gmap string entry) (m : ActivationMarker)
    : (bool + crash) :=
  match file_in files "manifest.json", file_in files "routes.json", file_in files "litellm.json" with
  | File manifest, File routes_, File config_ =>
      if mem "litellm.json" broken then inl false
      else match json_loads other config_ with
           | NotJson => inl false
           | Undecodable => inr (CrashIo UnicodeDecodeError)
           | Value document =>
               if mem "manifest.json" broken then inr (CrashIo OSError)
               else if bool_decide (manifest <> canonical_bytes (manifest_json (manifest_document m)))
                       || bool_decide (_sha256 manifest <> am_manifest_sha256 m) then inl false
               else if mem "routes.json" broken then inr (CrashIo OSError)
               else inl (bool_decide (_sha256 routes_ = am_routes_sha256 (manifest_document m))
                         && bool_decide (_sha256 config_ = am_litellm_sha256 (manifest_document m))
                         && config_served m document)
           end
  | _, _, _ => inl false
  end.

Definition _active_request (broken : list string) (r : Routes) : (option ActiveRequest + crash) :=
  match activation r with
  | File content =>
      if generations_link r || mem "activation.json" broken then inl None
      else match json_loads other content with
           | NotJson => inl None
           | Undecodable => inr (CrashIo UnicodeDecodeError)
           | Value raw =>
               match validate_marker raw with
               | Valid m =>
                   if bool_decide (content <> canonical_bytes (marker_json m))
                      || bool_decide (am_directory m <> directory_name (am_generation (manifest_document m)) (am_manifest_sha256 m))
                   then inl None
                   else match generations r !! am_directory m with
                        | Some (GDirectory files) =>
                            match request_files broken files m with
                            | inr e => inr e
                            | inl false => inl None
                            | inl true => inl (Some {| config := am_directory m; request_marker := m;
                                                       activation_sha256 := _sha256 content |})
                            end
                        | _ => inl None
                        end
               | _ => inl None
               end
           end
  | _ => inl None
  end.

(** [_selected] when no bundle is active: the empty configuration the gateway starts with. *)
Definition bootstrap_config (broken : list string) (e : entry) : (unit + crash) :=
  match e with
  | File content =>
      if mem "bootstrap-config.json" broken then inr (SupervisorError "LiteLLM bootstrap config is invalid")
      else match json_loads other content with
           | NotJson => inr (SupervisorError "LiteLLM bootstrap config is invalid")
           | Undecodable => inr (CrashIo UnicodeDecodeError)
           | Value document =>
               match model_list document with
               | Some [] => inl tt
               | _ => inr (SupervisorError "LiteLLM bootstrap config must be empty")
               end
           end
  | _ => inr (SupervisorError "LiteLLM bootstrap config is unavailable")
  end.
Definition select_config (broken : list string) (w : World) (request : option ActiveRequest)
    : (selected_config + crash) :=
  match request with
  | Some q => inl (GenerationConfig (config q))
  | None => match bootstrap_config broken (bootstrap w) with
            | inl _ => inl BootstrapConfig
            | inr e => inr e
            end
  end.

(** The bytes of a configuration file, when they can be read. *)
Definition config_bytes (broken : list string) (w : World) (s : selected_config) : option string :=
  match s with
  | BootstrapConfig => read_bytes broken "bootstrap-config.json" (bootstrap w)
  | GenerationConfig directory => read_bytes broken "litellm.json" (staged_file (routes w) directory "litellm.json")
  end.

(** ** The acknowledgement file *)

(** [_atomic_write] of the supervisor and the unlink of [_clear_ack], with their fates. *)
Definition write_ack_file (f : fate) (content : string) (w : World) : (unit + crash) * World :=
  match ack w, f with
  | Link _, _ => (inr (SupervisorError "LiteLLM acknowledgement path is unsafe"), w)
  | Directory, _ | _, Before => (inr (CrashIo OSError), w)
  | _, Fine => (inl tt, set_ack (File content) w)
  | _, After => (inr (CrashIo OSError), set_ack (File content) w)
  end.
Definition _clear_ack (f : fate) (w : World) : (unit + crash) * World :=
  match ack w, f with
  | Link _, _ => (inr (SupervisorError "LiteLLM acknowledgement path is unsafe"), w)
  | Missing, _ => (inl tt, w)
  | Directory, _ | _, Before => (inr (CrashIo OSError), w)
  | _, Fine => (inl tt, set_ack Missing w)
  | _, After => (inr (CrashIo OSError), set_ack Missing w)
  end.

Record Child := { pid : Z; child_config : string }.

Definition acknowledgement_of (request : ActiveRequest) (child : Child) (now : instant) : SupervisorAcknowledgement := {|
  ack_acknowledged_at := isoformat now;
  ack_activation_sha256 := activation_sha256 request;
  ack_child_pid := pid child;
  ack_generation := am_generation (manifest_document (request_marker request));
  ack_litellm_sha256 := am_litellm_sha256 (manifest_document (request_marker request));
  ack_state := am_state (manifest_document (request_marker request)) |}.

Definition _write_ack (f : fate) (alive : bool) (request : ActiveRequest) (child : Child) (now : instant) (w : World)
    : (unit + crash) * World :=
  if negb alive || (pid child <=? 0) then (inr (SupervisorError "LiteLLM process is not live"), w)
  else let a := acknowledgement_of request child now in
       if acknowledgement_valid a then write_ack_file f (canonical_bytes (acknowledgement_json a)) w
       else (inr (CrashIo ValidationError), w).

(** ** The process *)
Inductive phase :=
| Launching                (* at the top of the loop *)
| Awaiting                 (* inside [_await_healthy] *)
| FailedStart | Started    (* it answered false, true *)
| Serving                  (* the inner loop *)
| Exited (code_ : Z)
| Crashed (c : crash).

Record Supervisor := {
  sup_phase : phase;
  stopping : bool;
  request : option ActiveRequest;
  selected : selected_config;
  startup_attempts : Z;
  startup_deadline : Z;
  active_digest : string;
  child : option Child;
}.

Definition set_phase (p : phase) (s : Supervisor) : Supervisor := {|
  sup_phase := p; stopping := stopping s; request := request s; selected := selected s;
  startup_attempts := startup_attempts s; startup_deadline := startup_deadline s;
  active_digest := active_digest s; child := child s |}.
Definition no_child (s : Supervisor) : Supervisor := {|
  sup_phase := sup_phase s; stopping := stopping s; request := request s; selected := selected s;
  startup_attempts := startup_attempts s; startup_deadline := startup_deadline s;
  active_digest := active_digest s; child := None |}.
Definition set_request (q : option ActiveRequest) (s : Supervisor) : Supervisor := {|
  sup_phase := sup_phase s; stopping := stopping s; request := q; selected := selected s;
  startup_attempts := startup_attempts s; startup_deadline := startup_deadline s;
  active_digest := active_digest s; child := child s |}.
Definition set_attempts (n : Z) (s : Supervisor) : Supervisor := {|
  sup_phase := sup_phase s; stopping := stopping s; request := request s; selected := selected s;
  startup_attempts := n; startup_deadline := startup_deadline s;
  active_digest := active_digest s; child := child s |}.
(** A new transition: another configuration, with a startup budget of its own. *)
Definition transition_to (q : option ActiveRequest) (sel : selected_config) (t : Z) (s : Supervisor) : Supervisor := {|
  sup_phase := Launching; stopping := stopping s; request := q; selected := sel;
  startup_attempts := startup_attempts s; startup_deadline := t + STARTUP_SECONDS;
  active_digest := active_digest s; child := None |}.

Definition crashed (c : crash) (s : Supervisor) : Supervisor := set_phase (Crashed c) s.

(** What one step meets: the clocks, the state of the child, the files that cannot be read, the
    fate of its write, and whether stopping the child was confirmed. *)
Record Look := {
  t1 : Z;              (* time.monotonic() *)
  t2 : Z;              (* and again later in the step *)
  now : instant;       (* datetime.now(UTC) *)
  alive : bool;        (* child.poll() is None *)
  healthy : bool;
  stop_confirmed : bool;
  new_pid : Z;
  returncode : Z;
  look_broken : list string;
  look_fate : fate;
}.

(** [_supervise] up to its loop. *)
Definition start (broken : list string) (deadline : Z) (w : World) : Supervisor :=
  let initial_ p q sel := {|
    sup_phase := p; stopping := false; request := q; selected := sel; startup_attempts := 0;
    startup_deadline := deadline; active_digest := ""; child := None |} in
  match _active_request broken (routes w) with
  | inr e => initial_ (Crashed e) None BootstrapConfig
  | inl q =>
      match select_config broken w q with
      | inr e => initial_ (Crashed e) q BootstrapConfig
      | inl sel => initial_ Launching q sel
      end
  end.

Definition launch (l : Look) (s : Supervisor) (w : World) : Supervisor * World :=
  if stopping s then (set_phase (Exited 0) s, w)
  else if startup_deadline s <=? t1 l
  then match _clear_ack (look_fate l) w with
       | (inr e, w') => (crashed e s, w')
       | (inl _, w') => (set_phase (Exited 1) s, w')
       end
  else match config_bytes (look_broken l) w (selected s) with
       | None => (crashed (CrashIo OSError) s, w)
       | Some bytes => ({|
           sup_phase := Awaiting; stopping := stopping s; request := request s; selected := selected s;
           startup_attempts := startup_attempts s + 1; startup_deadline := startup_deadline s;
           active_digest := _sha256 bytes; child := Some {| pid := new_pid l; child_config := bytes |} |}, w)
       end.

Definition _newer_activation (current candidate : option ActiveRequest) : bool :=
  match candidate with
  | None => false
  | Some c =>
      match current with
      | None => true
      | Some q => am_generation (manifest_document (request_marker q))
                    <? am_generation (manifest_document (request_marker c))
      end
  end.

(** One turn of the loop of [_await_healthy]. *)
Definition await_turn (l : Look) (s : Supervisor) (w : World) : Supervisor * World :=
  if negb (alive l && (t1 l <? startup_deadline s)) then (set_phase FailedStart s, w)
  else match _active_request (look_broken l) (routes w) with
       | inr e => (crashed e s, w)
       | inl candidate =>
           if _newer_activation (request s) candidate then (set_phase FailedStart s, w)
           else if healthy l && (t2 l <? startup_deadline s) then (set_phase Started s, w)
           else (s, w)
       end.

(** After a start that failed. *)
Definition failed_start (l : Look) (s : Supervisor) (w : World) : Supervisor * World :=
  match _clear_ack (look_fate l) w with
  | (inr e, w') => (crashed e s, w')
  | (inl _, w') =>
      match _active_request (look_broken l) (routes w') with
      | inr e => (crashed e s, w')
      | inl next_request =>
          if negb (stop_confirmed l)
          then (crashed (SupervisorError "LiteLLM child exit was not confirmed within shutdown budget") s, w')
          else match next_request with
               | Some q =>
                   if _newer_activation (request s) next_request
                   then (set_attempts 0 (transition_to next_request (GenerationConfig (config q)) (t1 l) s), w')
                   else if negb (alive l) && (startup_attempts s <? STARTUP_ATTEMPTS) && (t1 l <? startup_deadline s)
                   then (set_phase Launching (no_child s), w')
                   else (set_phase (Exited 1) (no_child s), w')
               | None =>
                   if negb (alive l) && (startup_attempts s <? STARTUP_ATTEMPTS) && (t1 l <? startup_deadline s)
                   then (set_phase Launching (no_child s), w')
                   else (set_phase (Exited 1) (no_child s), w')
               end
      end
  end.

(** The acknowledgement of a start that went well. *)
Definition started (l : Look) (s : Supervisor) (w : World) : Supervisor * World :=
  match request s, child s with
  | Some q, Some c =>
      match _write_ack (look_fate l) (alive l) q c (now l) w with
      | (inr e, w') => (crashed e (set_attempts 0 s), w')
      | (inl _, w') => (set_phase Serving (set_attempts 0 s), w')
      end
  | _, _ =>
      match _clear_ack (look_fate l) w with
      | (inr e, w') => (crashed e (set_attempts 0 s), w')
      | (inl _, w') => (set_phase Serving (set_attempts 0 s), w')
      end
  end.

(** The end of the inner loop: the child is gone, or a signal asked to stop. *)
Definition leave_serving (l : Look) (s : Supervisor) (w : World) : Supervisor * World :=
  match _clear_ack (look_fate l) w with
  | (inr e, w') => (crashed e s, w')
  | (inl _, w') =>
      if stopping s
      then if stop_confirmed l then (set_phase (Exited 0) (no_child s), w')
           else (crashed (SupervisorError "LiteLLM child exit was not confirmed within shutdown budget") s, w')
      else (set_phase (Exited (if returncode l =? 0 then 1 else returncode l)) (no_child s), w')
  end.

(** One turn of the inner loop. *)
Definition serve_turn (l : Look) (s : Supervisor) (w : World) : Supervisor * World :=
  if stopping s || negb (alive l) then leave_serving l s w
  else match _active_request (look_broken l) (routes w) with
       | inr e => (crashed e s, w)
       | inl candidate_request =>
           match select_config (look_broken l) w candidate_request with
           | inr e => (crashed e s, w)
           | inl candidate =>
               match config_bytes (look_broken l) w candidate with
               | None => (crashed (CrashIo OSError) s, w)
               | Some bytes =>
                   if bool_decide (_sha256 bytes <> active_digest s)
                   then match _clear_ack (look_fate l) w with
                        | (inr e, w') => (crashed e s, w')
                        | (inl _, w') =>
                            if stop_confirmed l then (transition_to candidate_request candidate (t1 l) s, w')
                            else (crashed (SupervisorError "LiteLLM child exit was not confirmed within shutdown budget") s, w')
                        end
                   else match (match candidate_request, child s with
                               | Some q, Some c =>
                                   if healthy l then _write_ack (look_fate l) (alive l) q c (now l) w
                                   else _clear_ack (look_fate l) w
                               | _, _ => _clear_ack (look_fate l) w
                               end) with
                        | (inr e, w') => (crashed e s, w')
                        | (inl _, w') => (set_request candidate_request s, w')
                        end
               end
           end
       end.

Definition supervisor_step (l : Look) (s : Supervisor) (w : World) : Supervisor * World :=
  match sup_phase s with
  | Launching => launch l s w
  | Awaiting => await_turn l s w
  | FailedStart => failed_start l s w
  | Started => started l s w
  | Serving => serve_turn l s w
  | Exited _ | Crashed _ => (s, w)
  end.

(** The signal handler. *)
Definition request_stop (s : Supervisor) : Supervisor := {|
  sup_phase := sup_phase s; stopping := true; request := request s; selected := selected s;
  startup_attempts := startup_attempts s; startup_deadline := startup_deadline s;
  active_digest := active_digest s; child := child s |}.
End Supervisor.
