(* ===== verification/RouteSupervisorFacts.v ===== *)
(** * Publisher and supervisor together

    The supervisor accepts exactly the bundles the Controller verifies, what it acknowledges is
    what its child serves, whatever is published between its steps, and a published bundle is
    acknowledged after at most one restart. *)
From S2P Require Import Prelude Vocabulary StateMachines Sha256 Uuid Json JsonRead Demand.
From S2P Require Import LifecycleTypes SparkOrder RouteBundle LiteLlm RoutePublisher RouteBundleFacts.
From S2P Require Import RouteHistory RouteSupervisor.

#[local] Opaque RouteBundle._sha256 RouteBundle.canonical_bytes.

(** ** What the supervisor accepts *)
Definition request_of (m : ActivationMarker) : ActiveRequest := {|
  config := am_directory m; request_marker := m; activation_sha256 := marker_digest m |}.

(** The configuration of the bundle is one the supervisor runs. *)
Definition served_config (other : string -> parsed) (r : Routes) (m : ActivationMarker) : Prop :=
  exists content document, staged_file r (am_directory m) "litellm.json" = File content /\
    json_loads other content = Value document /\ config_served m document = true.

Lemma mem_nil (x : string) : mem x [] = false.
Proof. apply mem_false, not_elem_of_nil. Qed.

Lemma request_files_true other files m :
  request_files other [] files m = inl true <->
  files_match files m /\ exists content document, file_in files "litellm.json" = File content /\
    json_loads other content = Value document /\ config_served m document = true.
Proof.
  unfold request_files, files_match. rewrite !mem_nil. split.
  - destruct (file_in files "manifest.json") as [| | | |manifest]; try done.
    destruct (file_in files "routes.json") as [| | | |routes_]; try done.
    destruct (file_in files "litellm.json") as [| | | |config_]; try done.
    destruct (json_loads other config_) as [document| |] eqn:Ed; try done.
    destruct (bool_decide (manifest <> _)) eqn:E1; [done|]. destruct (bool_decide (_sha256 manifest <> _)) eqn:E2; [done|].
    cbn [orb]. intros H. assert (forall b, @inl bool crash b = inl true -> b = true) as Hinl by congruence.
    apply Hinl in H. rewrite !andb_true_iff, !bool_decide_eq_true in H. destruct H as [[H1 H2] H3].
    apply bool_decide_eq_false, dec_stable in E1, E2. subst manifest. split; [eauto 12|eauto].
  - intros ((routes_ & config_ & -> & Hsha & -> & Hr & -> & Hl) & content & document & [= <-] & -> & Hs).
    rewrite Hsha, Hr, Hl, Hs. rewrite !bool_decide_false, !bool_decide_true by (by try (intros X; apply X)). done.
Qed.

Lemma request_iff other r q :
  _active_request other [] r = inl (Some q) <->
  generations_link r = false /\ active_bundle r (request_marker q) /\ q = request_of (request_marker q)
  /\ served_config other r (request_marker q).
Proof.
  unfold _active_request, active_bundle, served_config, staged_file. rewrite mem_nil. split.
  - destruct (activation r) as [| | | |content]; try done. destruct (generations_link r); [done|]. cbn [orb].
    destruct (json_loads other content) as [raw| |]; try done. destruct (validate_marker raw) as [m| |] eqn:Ev; try done.
    destruct (bool_decide (content <> _)) eqn:E1; [done|]. destruct (bool_decide (am_directory m <> _)) eqn:E2; [done|]. cbn [orb].
    destruct (generations r !! am_directory m) as [[?| |files]|] eqn:Eg; try done.
    destruct (request_files other [] files m) as [[]|] eqn:Ef; try done. intros H.
    assert (q = {| config := am_directory m; request_marker := m; activation_sha256 := _sha256 content |}) as -> by congruence.
    clear H. cbn [request_marker].
    apply request_files_true in Ef as [Hf Hs]. apply bool_decide_eq_false, dec_stable in E1, E2. subst content.
    rewrite Eg. split; [done|]. split; [|split; [done|exact Hs]]. split; [done|]. split; [|exists files; split; [done|exact Hf]].
    split; [by eapply validate_marker_valid|done].
  - intros (-> & (-> & [Hv Hd] & files & Hfs & Hf) & Hq & Hs). cbn [orb].
    rewrite json_loads_canonical by apply marker_distinct. rewrite validate_marker_json by done.
    rewrite !bool_decide_false by (by intros X; apply X). cbn [orb]. rewrite Hfs in Hs |- *.
    rewrite (proj2 (request_files_true other files (request_marker q))) by done. do 2 f_equal. symmetry. exact Hq.
Qed.

(** A request read while some files could not be read is one a full reading gives too. *)
Lemma request_broken other broken r q :
  _active_request other broken r = inl (Some q) -> _active_request other [] r = inl (Some q).
Proof.
  unfold _active_request. rewrite mem_nil. destruct (activation r) as [| | | |content]; try done.
  destruct (generations_link r); [done|]. destruct (mem "activation.json" broken); [done|]. cbn [orb].
  destruct (json_loads other content) as [raw| |]; try done. destruct (validate_marker raw) as [m| |]; try done.
  destruct (_ || _); [done|]. destruct (generations r !! am_directory m) as [[?| |files]|]; try done.
  assert (request_files other broken files m = inl true -> request_files other [] files m = inl true) as Hf.
  { unfold request_files. rewrite !mem_nil. destruct (file_in files "manifest.json"); try done.
    destruct (file_in files "routes.json"); try done. destruct (file_in files "litellm.json"); try done.
    destruct (mem "litellm.json" broken); [done|]. destruct (json_loads _ _); try done.
    destruct (mem "manifest.json" broken); [done|]. destruct (_ || _); [done|]. by destruct (mem "routes.json" broken). }
  destruct (request_files other broken files m) as [[]|] eqn:E; try done. by rewrite Hf.
Qed.

(** C36.  With files it can read, the supervisor accepts a bundle exactly when the generations
    directory is no link, the Controller verifies the same bundle as active and its configuration is a LiteLLM document, empty in maintenance. *)
Theorem supervisor_accepts_verified other r q :
  _active_request other [] r = inl (Some q) <->
  generations_link r = false /\ view other r = Bundle (request_marker q) /\ q = request_of (request_marker q)
  /\ served_config other r (request_marker q).
Proof. rewrite request_iff. by rewrite view_bundle. Qed.

(** Bytes that do not decode end the supervisor, where the Controller reports an unknown bundle. *)
Lemma undecodable_activation other broken r content :
  activation r = File content -> generations_link r = false -> json_loads other content = Undecodable ->
  mem "activation.json" broken = false ->
  _active_request other broken r = inr (CrashIo UnicodeDecodeError) /\
  _read_marker other broken true true r = UnknownBundle WaitReason.OBSERVATION_UNAVAILABLE.
Proof.
  intros Ha Hg Hj Hb. unfold _active_request, _read_marker, _read_active_route_bundle, read_bytes, read_activation.
  by rewrite Ha, Hg, Hb, Hj.
Qed.

(** ** The system *)
Section system.
Context (alias_ok : string -> bool) (other : string -> parsed).
Abbreviation supervisor_step := (supervisor_step other).
Abbreviation publish := (publish alias_ok other).

Inductive event :=
| Publish (x : Publication)     (* an attempt of the Controller, whatever becomes of it *)
| Signal                        (* SIGTERM or SIGINT *)
| Turn (l : Look).              (* the supervisor goes on *)

Definition state : Type := Supervisor * World.
Definition system_step (e : event) (sw : state) : state :=
  let '(s, w) := sw in
  match e with
  | Publish x => (s, set_routes (publish (routes w) x) w)
  | Signal => (request_stop s, w)
  | Turn l => supervisor_step l s w
  end.
Definition run_system (es : list event) (sw : state) : state := foldl (fun t e => system_step e t) sw es.

(** The configuration of a request, as it lies in its directory. *)
Definition request_bytes (r : Routes) (q : ActiveRequest) (content : string) : Prop :=
  directory_pattern (config q) = true /\ has_directory r (config q) /\
  staged_file r (config q) "litellm.json" = File content /\
  _sha256 content = am_litellm_sha256 (manifest_document (request_marker q)).

Lemma active_request_bytes broken r q :
  _active_request other broken r = inl (Some q) -> exists content, request_bytes r q content.
Proof.
  intros (_ & (_ & Hw & files & Hfs & Hf) & -> & _)%request_broken%request_iff. cbn [request_marker].
  destruct Hf as (routes_ & content & _ & _ & _ & _ & Hl & Hs). exists content. split; [by apply well_named_pattern|].
  split; [by exists files|]. unfold staged_file, config, request_of. by rewrite Hfs.
Qed.

Lemma request_bytes_extends r r' q content : extends r r' -> request_bytes r q content -> request_bytes r' q content.
Proof.
  intros He (Hp & [files Hd] & Hf & Hs). pose proof (extends_directories _ _ He _ _ Hp Hd) as Hd'.
  split; [done|]. split; [by exists files|]. unfold staged_file in *. rewrite Hd in Hf. by rewrite Hd'.
Qed.

Lemma request_bytes_agree r q c c' : request_bytes r q c -> request_bytes r q c' -> c = c'.
Proof. intros (_ & _ & H & _) (_ & _ & H' & _). congruence. Qed.

(** What ties the phases together.  While a child is being started, the request is the one of
    the selected configuration; a child runs the bytes whose digest the supervisor compares;
    and an acknowledgement stands only while its child serves. *)
Definition starting (p : phase) : Prop := match p with Launching | Awaiting | FailedStart | Started => True | _ => False end.
Definition with_child (p : phase) : Prop := match p with Awaiting | FailedStart | Started | Serving => True | _ => False end.

Definition honest_ack (c : Child) (e : entry) : Prop :=
  exists a, e = File (canonical_bytes (acknowledgement_json a)) /\ ack_litellm_sha256 a = _sha256 (child_config c).

Record sound (first : entry) (s : Supervisor) (w : World) : Prop := {
  sound_request q : starting (sup_phase s) -> request s = Some q ->
    selected s = GenerationConfig (config q) /\ exists content, request_bytes (routes w) q content;
  sound_child : with_child (sup_phase s) -> exists c, child s = Some c /\ active_digest s = _sha256 (child_config c);
  sound_served q c : sup_phase s = Awaiting \/ sup_phase s = FailedStart \/ sup_phase s = Started ->
    request s = Some q -> child s = Some c ->
    _sha256 (child_config c) = am_litellm_sha256 (manifest_document (request_marker q));
  sound_ack : (forall c, sup_phase s <> Crashed c) ->
    ack w = first \/ ack w = Missing \/ (sup_phase s = Serving /\ exists c, child s = Some c /\ honest_ack c (ack w));
}.

Lemma crashed_sound first s w : (exists c, sup_phase s = Crashed c) -> sound first s w.
Proof.
  intros [c Hc]. split; rewrite Hc; try done.
  - intros q c' [H|[H|H]]; done.
  - intros H. by destruct (H c).
Qed.

Lemma exited_sound first s w : (exists n, sup_phase s = Exited n) -> ack w = first \/ ack w = Missing -> sound first s w.
Proof. intros [n Hn] Ha. split; rewrite Hn; try done; [by intros q c' [H|[H|H]]|]. destruct Ha; eauto. Qed.

Lemma start_sound broken deadline w : sound (ack w) (start other broken deadline w) w.
Proof.
  unfold start. destruct (_active_request other broken (routes w)) as [q|e] eqn:Eq; [|apply crashed_sound; eauto].
  destruct (select_config other broken w q) as [sel|e] eqn:Es; [|apply crashed_sound; eauto].
  split; simpl; [|done|by intros q' c [H|[H|H]]|by left].
  intros q' _ ->. simpl in Es. simplify_eq. split; [done|]. by eapply active_request_bytes.
Qed.

Lemma clear_ack_cases f w res w' : _clear_ack f w = (res, w') ->
  routes w' = routes w /\ bootstrap w' = bootstrap w /\ (res = inl tt -> ack w' = Missing).
Proof.
  unfold _clear_ack. destruct (ack w) eqn:E, f; intros H; injection H as <- <-; split_and!; try done.
Qed.

Lemma write_ack_cases f alive_ q c now_ w res w' : _write_ack f alive_ q c now_ w = (res, w') ->
  routes w' = routes w /\
  (res = inl tt -> ack w' = File (canonical_bytes (acknowledgement_json (acknowledgement_of q c now_)))).
Proof.
  unfold _write_ack. destruct (_ || _); [intros H; injection H as <- <-; by split|].
  destruct (acknowledgement_valid _); [|intros H; injection H as <- <-; by split].
  unfold write_ack_file. destruct (ack w), f; intros H; injection H as <- <-; split_and!; try done.
Qed.
Lemma starting_ack first s w : sound first s w -> starting (sup_phase s) -> ack w = first \/ ack w = Missing.
Proof.
  intros [_ _ _ Ha] Hs. destruct Ha as [?|[?|[Hp _]]]; [by destruct (sup_phase s)|eauto..|]. by rewrite Hp in Hs.
Qed.

Lemma publish_sound first s w x : sound first s w -> sound first s (set_routes (publish (routes w) x) w).
Proof.
  intros [Hr Hc Hs Ha]. split; [|exact Hc|exact Hs|exact Ha]. intros q Hp Hq. destruct (Hr q Hp Hq) as [Hsel [c Hb]].
  split; [done|]. exists c. eapply request_bytes_extends; [|exact Hb]. apply (history_extends _ _ [x]).
Qed.

Lemma signal_sound first s w : sound first s w -> sound first (request_stop s) w.
Proof. intros []. by split. Qed.

Lemma launch_sound first l s w : sup_phase s = Launching -> sound first s w ->
  sound first (fst (launch l s w)) (snd (launch l s w)).
Proof.
  intros Hp Hs. pose proof (starting_ack _ _ _ Hs ltac:(by rewrite Hp)) as Ha. unfold launch.
  destruct (stopping s); [apply exited_sound; eauto|]. destruct (_ <=? _).
  { destruct (_clear_ack _ w) as [[[]|e] w'] eqn:Ec; [|apply crashed_sound; eauto].
    apply clear_ack_cases in Ec as (_ & _ & Hm). apply exited_sound; eauto. }
  destruct (config_bytes _ w (selected s)) as [bytes|] eqn:Eb; [|apply crashed_sound; eauto].
  destruct Hs as [Hr _ _ _]. rewrite Hp in Hr. split; simpl.
  - exact (fun q _ Hq => Hr q I Hq).
  - eauto.
  - intros q c _ Hq [= <-]. destruct (Hr q I Hq) as [Hsel [content (_ & _ & Hf & Hsha)]].
    rewrite Hsel in Eb. unfold config_bytes, read_bytes in Eb. rewrite Hf in Eb. destruct (mem _ _); [done|].
    assert (bytes = content) as -> by congruence. exact Hsha.
  - intros _. destruct Ha; eauto.
Qed.

(** A step to another starting phase that keeps the child and the request. *)
Lemma set_phase_sound first s w p :
  with_child (sup_phase s) -> starting (sup_phase s) -> with_child p -> starting p -> sound first s w ->
  sound first (set_phase p s) w.
Proof.
  intros H1 H2 H3 H4 Hs. pose proof (starting_ack _ _ _ Hs H2) as Ha. destruct Hs as [Hr Hc Hd _]. split; simpl; eauto.
  - intros q c _. apply Hd. by destruct (sup_phase s); eauto.
  - intros _. destruct Ha; eauto.
Qed.

Lemma await_sound first l s w : sup_phase s = Awaiting -> sound first s w ->
  sound first (fst (await_turn other l s w)) (snd (await_turn other l s w)).
Proof.
  intros Hp Hs. unfold await_turn.
  destruct (negb _); [apply set_phase_sound; by rewrite ?Hp|].
  destruct (_active_request _ _ _) as [q|e]; [|apply crashed_sound; eauto].
  destruct (_newer_activation _ _); [apply set_phase_sound; by rewrite ?Hp|].
  destruct (_ && _); [apply set_phase_sound; by rewrite ?Hp|done].
Qed.

(** A new transition starts from the request just read, with the acknowledgement cleared. *)
Lemma transition_sound first broken s w w0 q sel t :
  _active_request other broken (routes w) = inl q -> select_config other broken w0 q = inl sel -> ack w = Missing ->
  sound first (transition_to q sel t s) w.
Proof.
  intros Hq Hsel Ha. split; simpl; [|done|by intros q' c [H|[H|H]]|eauto].
  intros q' _ ->. simpl in Hsel. simplify_eq. split; [done|]. by eapply active_request_bytes.
Qed.

Lemma relaunch_sound first s w : starting (sup_phase s) -> sound first s w -> ack w = Missing ->
  sound first (set_phase Launching (no_child s)) w.
Proof.
  intros Hp [Hr _ _ _] Ha. split; simpl; [|done|by intros q' c [H|[H|H]]|eauto]. intros q _ Hq. by apply Hr.
Qed.

Lemma set_attempts_sound first s w n : sound first s w -> sound first (set_attempts n s) w.
Proof. intros []. by split. Qed.

Lemma same_routes_sound first s w w' : starting (sup_phase s) -> sound first s w -> routes w' = routes w -> ack w' = Missing ->
  sound first s w'.
Proof. intros Hp [Hr Hc Hd _] Hw Ha. split; [|exact Hc|exact Hd|eauto]. by rewrite Hw. Qed.

Lemma failed_sound first l s w : sup_phase s = FailedStart -> sound first s w ->
  sound first (fst (failed_start other l s w)) (snd (failed_start other l s w)).
Proof.
  intros Hp Hs. unfold failed_start.
  destruct (_clear_ack _ w) as [[[]|e] w'] eqn:Ec; [|apply crashed_sound; eauto].
  apply clear_ack_cases in Ec as (Hr & _ & Hm). specialize (Hm eq_refl).
  assert (sound first s w') as Hs' by (eapply same_routes_sound; [by rewrite Hp|exact Hs|done|done]).
  destruct (_active_request _ _ _) as [q|e] eqn:Eq; [|apply crashed_sound; eauto].
  destruct (negb _); [apply crashed_sound; eauto|].
  assert (sound first (set_phase Launching (no_child s)) w') as Hl by (apply relaunch_sound; [by rewrite Hp|done|done]).
  assert (sound first (set_phase (Exited 1) (no_child s)) w') as He by (apply exited_sound; eauto).
  destruct q as [q|]; [destruct (_newer_activation _ _)|]; try (by destruct (_ && _)).
  apply set_attempts_sound. eapply (transition_sound _ _ _ _ w'); [exact Eq|done|done].
Qed.

Lemma serving_sound first s w q c :
  sup_phase s = Serving -> child s = Some c -> active_digest s = _sha256 (child_config c) ->
  ack w = Missing \/ honest_ack c (ack w) -> sound first (set_request q s) w.
Proof.
  intros Hp Hc Hd Ha. split; simpl; rewrite Hp.
  - done.
  - eauto.
  - by intros q' c' [H|[H|H]].
  - intros _. destruct Ha; eauto 8.
Qed.

Lemma set_request_same s : set_request (request s) s = s.
Proof. by destruct s. Qed.

Lemma started_sound first l s w : sup_phase s = Started -> sound first s w ->
  sound first (fst (started l s w)) (snd (started l s w)).
Proof.
  intros Hp Hs. unfold started. destruct Hs as [_ Hc Hd _]. rewrite Hp in Hc. destruct (Hc I) as (c & Hch & Hdig).
  assert (forall w', ack w' = Missing \/ honest_ack c (ack w') -> sound first (set_phase Serving (set_attempts 0 s)) w') as Hserve.
  { intros w' Ha. rewrite <- (set_request_same (set_phase _ _)). by apply (serving_sound _ _ _ _ c). }
  rewrite Hch. destruct (request s) as [q|] eqn:Eq.
  - destruct (_write_ack _ _ _ _ _ w) as [[[]|e] w'] eqn:Ew; [|apply crashed_sound; eauto].
    apply write_ack_cases in Ew as [_ Hw]. apply Hserve. right. exists (acknowledgement_of q c (now l)). split; [by apply Hw|].
    simpl. symmetry. apply Hd; [by eauto|done|done].
  - destruct (_clear_ack _ w) as [[[]|e] w'] eqn:Ec; [|apply crashed_sound; eauto].
    apply clear_ack_cases in Ec as (_ & _ & Hm). apply Hserve. left. by apply Hm.
Qed.

Lemma serve_sound first l s w : sup_phase s = Serving -> sound first s w ->
  sound first (fst (serve_turn other l s w)) (snd (serve_turn other l s w)).
Proof.
  intros Hp Hs. destruct Hs as [_ Hc _ _]. rewrite Hp in Hc. destruct (Hc I) as (c & Hch & Hdig). unfold serve_turn.
  destruct (_ || _).
  { unfold leave_serving. destruct (_clear_ack _ w) as [[[]|e] w'] eqn:Ec; [|apply crashed_sound; eauto].
    apply clear_ack_cases in Ec as (_ & _ & Hm). specialize (Hm eq_refl).
    destruct (stopping s); [destruct (stop_confirmed l)|]; [apply exited_sound|apply crashed_sound|apply exited_sound]; eauto. }
  destruct (_active_request _ _ _) as [q|e] eqn:Eq; [|apply crashed_sound; eauto].
  destruct (select_config _ _ _ _) as [sel|e] eqn:Es; [|apply crashed_sound; eauto].
  destruct (config_bytes _ _ _) as [bytes|] eqn:Eb; [|apply crashed_sound; eauto].
  destruct (bool_decide (_sha256 bytes <> _)) eqn:Ed.
  { destruct (_clear_ack _ w) as [[[]|e] w'] eqn:Ec; [|apply crashed_sound; eauto].
    apply clear_ack_cases in Ec as (Hr & _ & Hm). destruct (stop_confirmed l); [|apply crashed_sound; eauto].
    rewrite <- Hr in Eq. eapply transition_sound; [exact Eq|exact Es|by apply Hm]. }
  apply bool_decide_eq_false, dec_stable in Ed.
  assert (forall w', ack w' = Missing \/ honest_ack c (ack w') -> sound first (set_request q s) w') as Hserve
    by (intros w'; by apply serving_sound).
  assert (forall res w', _clear_ack (look_fate l) w = (res, w') -> sound first
    (fst (match res with inr e => (crashed e s, w') | inl _ => (set_request q s, w') end))
    (snd (match res with inr e => (crashed e s, w') | inl _ => (set_request q s, w') end))) as Hclear.
  { intros [[]|e] w' (_ & _ & Hm)%clear_ack_cases; [|apply crashed_sound; eauto]. apply Hserve. left. by apply Hm. }
  rewrite Hch. destruct q as [q|]; [destruct (healthy l)|].
  2,3: destruct (_clear_ack (look_fate l) w) as [res w'] eqn:Ec; exact (Hclear res w' eq_refl).
  destruct (_write_ack _ _ _ _ _ w) as [[[]|e] w'] eqn:Ew; [|apply crashed_sound; eauto].
  apply write_ack_cases in Ew as [_ Hw]. apply Hserve. right. exists (acknowledgement_of q c (now l)). split; [by apply Hw|].
  simpl. rewrite <- Hdig, <- Ed. symmetry. simpl in Es. injection Es as <-.
  destruct (active_request_bytes _ _ _ Eq) as (content & _ & _ & Hf & Hsha). rewrite <- Hsha.
  unfold config_bytes, read_bytes in Eb. rewrite Hf in Eb. destruct (mem _ _); [done|]. congruence.
Qed.

Lemma step_sound first e s w : sound first s w -> sound first (fst (system_step e (s, w))) (snd (system_step e (s, w))).
Proof.
  intros Hs. destruct e as [x| |l]; simpl; [by apply publish_sound|by apply signal_sound|].
  unfold RouteSupervisor.supervisor_step. destruct (sup_phase s) eqn:Hp;
    [by apply launch_sound|by apply await_sound|by apply failed_sound|by apply started_sound|by apply serve_sound|done|done].
Qed.

Lemma run_sound first es : forall s w, sound first s w -> sound first (fst (run_system es (s, w))) (snd (run_system es (s, w))).
Proof.
  induction es as [|e es IH]; intros s w Hs; [done|]. unfold run_system. cbn [foldl].
  pose proof (step_sound first e s w Hs) as H1. destruct (system_step e (s, w)) as [s' w']. by apply IH.
Qed.
Lemma canonical_acknowledgement_inj a b :
  canonical_bytes (acknowledgement_json a) = canonical_bytes (acknowledgement_json b) -> a = b.
Proof.
  intros H%canonical_inj; [|apply acknowledgement_distinct..]. destruct a, b. unfold acknowledgement_json in H. simpl in H. by simplify_eq.
Qed.

(** C7.  Whatever is published, signalled or fails between the steps of a supervisor that has not
    crashed: an acknowledgement it wrote itself, not the one it found when it started, that the Controller takes for a marker means that its child was
    started with a configuration of exactly the digest the marker names, and serves. *)
Theorem acknowledged_is_served broken deadline w0 es fromisoformat k m look now_ :
  let '(s, w) := run_system es (start other broken deadline w0, w0) in
  (forall c, sup_phase s <> Crashed c) -> ack w <> ack w0 ->
  sight_file look = ack w -> sight_now look = Aware now_ ->
  _matches other fromisoformat k m now_ look = inl true ->
  sup_phase s = Serving /\ exists c, child s = Some c /\ _sha256 (child_config c) = am_litellm_sha256 (manifest_document m).
Proof.
  pose proof (run_sound (ack w0) es _ _ (start_sound broken deadline w0)) as Hs.
  destruct (run_system es _) as [s w]. simpl in Hs. intros Hc Hne Hf Hn Hm.
  apply matches_seen in Hm as (a & t & t' & Ha & _ & Hack & _); [|done]. rewrite Hf in Ha.
  destruct (sound_ack _ _ _ Hs Hc) as [?|[He|(Hp & c & Hch & b & Hb & Hsha)]]; [done|by rewrite He in Ha|].
  split; [done|]. exists c. split; [done|]. rewrite Ha in Hb. apply (inj File), canonical_acknowledgement_inj in Hb as ->.
  rewrite <- Hsha. unfold acknowledges in Hack. rewrite !andb_true_iff, !bool_decide_eq_true in Hack. apply Hack.
Qed.

(** ** A published bundle is acknowledged *)

(** A turn in which nothing fails. *)
Record good (l : Look) : Prop := {
  good_alive : alive l = true;
  good_healthy : healthy l = true;
  good_stop : stop_confirmed l = true;
  good_pid : 0 < new_pid l <= 2 ^ 31 - 1;
  good_read : look_broken l = [];
  good_fate : look_fate l = Fine;
}.

Definition writable (e : entry) : Prop := is_symlink e = false /\ e <> Directory.

Lemma clear_fine w : writable (ack w) -> exists w', _clear_ack Fine w = (inl tt, w') /\ routes w' = routes w /\ ack w' = Missing.
Proof. intros [Hl Hd]. unfold _clear_ack. destruct (ack w) eqn:E; try done; eauto. Qed.

Lemma write_fine q c now_ w : writable (ack w) -> 0 < pid c <= 2 ^ 31 - 1 -> well_named (request_marker q) ->
  activation_sha256 q = marker_digest (request_marker q) ->
  _write_ack Fine true q c now_ w
  = (inl tt, set_ack (File (canonical_bytes (acknowledgement_json (acknowledgement_of q c now_)))) w).
Proof.
  intros [Hl Hd] Hp [Hv _] Hq. unfold _write_ack. rewrite (proj2 (Z.leb_gt _ _)) by lia. cbn [negb orb].
  assert (acknowledgement_valid (acknowledgement_of q c now_) = true) as ->.
  { unfold marker_valid, manifest_valid in Hv. rewrite !andb_true_iff in Hv. destruct_and! Hv.
    unfold acknowledgement_valid. cbn [ack_activation_sha256 ack_child_pid ack_generation ack_litellm_sha256 ack_state acknowledgement_of].
    rewrite Hq. unfold marker_digest. rewrite sha256_is_digest, !andb_true_iff, Z.ltb_lt, Z.leb_le. by split_and!; lia || done. }
  unfold write_ack_file. by destruct (ack w).
Qed.

(** The bundle [m] is active and the supervisor can run it. *)
Definition runnable (r : Routes) (m : ActivationMarker) : Prop :=
  generations_link r = false /\ active_bundle r m /\ served_config other r m.

Lemma runnable_request r m : runnable r m -> _active_request other [] r = inl (Some (request_of m)).
Proof. intros (H1 & H2 & H3). by apply request_iff. Qed.

Lemma runnable_config r m w : runnable r m -> routes w = r -> exists content,
  config_bytes [] w (GenerationConfig (am_directory m)) = Some content /\ _sha256 content = am_litellm_sha256 (manifest_document m).
Proof.
  intros Hr <-. destruct (active_request_bytes _ _ _ (runnable_request _ _ Hr)) as (content & _ & _ & Hf & Hs).
  exists content. split; [|done]. unfold config_bytes, read_bytes. simpl in Hf. by rewrite mem_nil, Hf.
Qed.

(** The supervisor serves [m] and said so at [now_]. *)
Definition serves (m : ActivationMarker) (now_ : instant) (s : Supervisor) (w : World) : Prop :=
  sup_phase s = Serving /\ stopping s = false /\ runnable (routes w) m /\
  active_digest s = am_litellm_sha256 (manifest_document m) /\
  exists c, child s = Some c /\ 0 < pid c <= 2 ^ 31 - 1 /\
    ack w = File (canonical_bytes (acknowledgement_json (acknowledgement_of (request_of m) c now_))).

(** The supervisor serves some configuration. *)
Definition idle (s : Supervisor) (w : World) : Prop :=
  sup_phase s = Serving /\ stopping s = false /\ writable (ack w) /\ exists c, child s = Some c /\ 0 < pid c <= 2 ^ 31 - 1.

Lemma serves_idle m t s w : serves m t s w -> idle s w.
Proof. intros (H1 & H2 & _ & _ & c & Hc & Hp & Ha). split; [done|]. split; [done|]. split; [by rewrite Ha|eauto]. Qed.

Lemma turn_serves l m s w : good l -> idle s w -> runnable (routes w) m ->
  active_digest s = am_litellm_sha256 (manifest_document m) ->
  serves m (now l) (fst (supervisor_step l s w)) (snd (supervisor_step l s w)).
Proof.
  intros [Ha Hh _ _ Hb Hf] (Hp & Hst & Hw & c & Hc & Hpid) Hr Hd. unfold RouteSupervisor.supervisor_step. rewrite Hp.
  unfold serve_turn. rewrite Hst, Ha, Hb, (runnable_request _ _ Hr). cbn [orb negb select_config].
  destruct (runnable_config _ _ _ Hr eq_refl) as (content & Hcb & Hsha). cbn [config request_of]. rewrite Hcb.
  rewrite bool_decide_false by (intros X; apply X; congruence). rewrite Hc, Hh, Hf.
  rewrite write_fine; [|done|done|apply Hr|done]. simpl. split; [done|]. split; [done|]. split; [exact Hr|].
  split; [done|]. eauto.
Qed.

Lemma turn_reloads l m s w : good l -> idle s w -> runnable (routes w) m ->
  active_digest s <> am_litellm_sha256 (manifest_document m) ->
  exists w', supervisor_step l s w = (transition_to (Some (request_of m)) (GenerationConfig (am_directory m)) (t1 l) s, w')
    /\ routes w' = routes w /\ ack w' = Missing.
Proof.
  intros [Ha Hh Hs _ Hb Hf] (Hp & Hst & Hw & c & Hc & Hpid) Hr Hd. unfold RouteSupervisor.supervisor_step. rewrite Hp.
  unfold serve_turn. rewrite Hst, Ha, Hb, (runnable_request _ _ Hr). cbn [orb negb select_config].
  destruct (runnable_config _ _ _ Hr eq_refl) as (content & Hcb & Hsha). cbn [config request_of]. rewrite Hcb.
  rewrite bool_decide_true by congruence. rewrite Hf. destruct (clear_fine w Hw) as (w' & -> & Hw' & Hm). rewrite Hs. eauto.
Qed.

(** The three turns of a restart. *)
Lemma restart_serves l2 l3 l4 m s w t :
  good l2 -> good l3 -> good l4 -> stopping s = false -> runnable (routes w) m -> ack w = Missing ->
  t1 l2 < t + STARTUP_SECONDS -> t1 l3 < t + STARTUP_SECONDS -> t2 l3 < t + STARTUP_SECONDS ->
  let sw := run_system [Turn l2; Turn l3; Turn l4]
    (transition_to (Some (request_of m)) (GenerationConfig (am_directory m)) t s, w) in
  serves m (now l4) (fst sw) (snd sw).
Proof.
  intros [_ _ _ Hp2 Hb2 _] [Ha3 Hh3 _ _ Hb3 _] [Ha4 _ _ _ _ Hf4] Hst Hr Ha T2 T3 T3'.
  destruct (runnable_config _ _ _ Hr eq_refl) as (content & Hcb & Hsha).
  set (s0 := transition_to _ _ t s).
  set (s1 := {| sup_phase := Awaiting; stopping := false; request := Some (request_of m);
    selected := GenerationConfig (am_directory m); startup_attempts := startup_attempts s + 1;
    startup_deadline := t + STARTUP_SECONDS; active_digest := _sha256 content;
    child := Some {| pid := new_pid l2; child_config := content |} |}).
  assert (supervisor_step l2 s0 w = (s1, w)) as E2.
  { unfold RouteSupervisor.supervisor_step, s0, s1. cbn [sup_phase transition_to]. unfold launch.
    cbn [stopping startup_deadline selected request startup_attempts transition_to].
    by rewrite Hst, (proj2 (Z.leb_gt _ _)), Hb2, Hcb by done. }
  assert (supervisor_step l3 s1 w = (set_phase Started s1, w)) as E3.
  { unfold RouteSupervisor.supervisor_step, s1. cbn [sup_phase]. unfold await_turn. cbn [startup_deadline request].
    rewrite Ha3, (proj2 (Z.ltb_lt _ _)), Hb3, (runnable_request _ _ Hr) by done. cbn [andb negb _newer_activation].
    by rewrite Z.ltb_irrefl, Hh3, (proj2 (Z.ltb_lt _ _)) by done. }
  unfold run_system. cbn [foldl system_step]. rewrite E2. cbn [system_step]. rewrite E3. cbn [system_step].
  unfold RouteSupervisor.supervisor_step. cbn [sup_phase set_phase]. unfold started. cbn [request child set_phase s1].
  rewrite Hf4, Ha4, write_fine; [|by rewrite Ha|done|apply Hr|done].
  split; [done|]. split; [done|]. split; [exact Hr|]. split; [exact Hsha|]. simpl. eauto.
Qed.

Lemma again_serves l m t s w : good l -> serves m t s w ->
  serves m (now l) (fst (supervisor_step l s w)) (snd (supervisor_step l s w)).
Proof. intros Hg Hs. apply turn_serves; [done|by eapply serves_idle|apply Hs|apply Hs]. Qed.

Lemma four_turns_serve l1 l2 l3 l4 m s w :
  good l1 -> good l2 -> good l3 -> good l4 -> idle s w -> runnable (routes w) m ->
  t1 l2 < t1 l1 + STARTUP_SECONDS -> t1 l3 < t1 l1 + STARTUP_SECONDS -> t2 l3 < t1 l1 + STARTUP_SECONDS ->
  let sw := run_system [Turn l1; Turn l2; Turn l3; Turn l4] (s, w) in serves m (now l4) (fst sw) (snd sw).
Proof.
  intros G1 G2 G3 G4 Hi Hr T2 T3 T3'. unfold run_system. cbn [foldl system_step].
  destruct (decide (active_digest s = am_litellm_sha256 (manifest_document m))) as [Hd|Hd].
  - pose proof (turn_serves l1 m s w G1 Hi Hr Hd) as H1. destruct (supervisor_step l1 s w) as [s1 w1].
    apply (again_serves l2) in H1; [|done]. cbn [system_step fst snd] in *. destruct (supervisor_step l2 s1 w1) as [s2 w2].
    apply (again_serves l3) in H1; [|done]. cbn [system_step fst snd] in *. destruct (supervisor_step l3 s2 w2) as [s3 w3].
    exact (again_serves l4 _ _ _ _ G4 H1).
  - destruct (turn_reloads l1 m s w G1 Hi Hr Hd) as (w1 & -> & Hw1 & Ha1). rewrite <- Hw1 in Hr.
    exact (restart_serves l2 l3 l4 m s w1 (t1 l1) G2 G3 G4 (proj1 (proj2 Hi)) Hr Ha1 T2 T3 T3').
Qed.

(** An acknowledgement is short: digests of 64 characters and bounded numbers. *)
Lemma hex_json_length s : all_chars is_hex s = true -> String.length (json_string s) = (2 + String.length s)%nat.
Proof.
  intros H. assert (json_chars s = s) as E.
  { induction s as [|c s IH]; [done|]. cbn [all_chars] in H. apply andb_prop in H as [Hc Hs]. cbn [json_chars]. rewrite IH by done.
    assert (json_char c = String c EmptyString) as ->; [|done]. revert Hc. by destruct c as [[] [] [] [] [] [] [] []]. }
  unfold json_string. rewrite E, !length_app. simpl. lia.
Qed.

Lemma json_int_length z k : 0 < z < 10 ^ Z.of_nat k -> (String.length (json_int z) <= k)%nat.
Proof.
  intros Hz. destruct z as [|p|p]; [lia| |lia]. assert (json_int (Z.pos p) = pretty_N_go (N.pos p) EmptyString) as -> by done.
  etrans; [apply (go_length k)|simpl; lia]. apply N2Z.inj_lt. rewrite N2Z.inj_pow, nat_N_Z. lia.
Qed.

Lemma acknowledgement_length a : acknowledgement_valid a = true ->
  (String.length (json_chars (ack_acknowledged_at a)) <= 1000)%nat ->
  (String.length (canonical_bytes (acknowledgement_json a)) <= 4096)%nat.
Proof.
  unfold acknowledgement_valid. rewrite !andb_true_iff, !Z.ltb_lt, !Z.leb_le, mem_true. unfold MAX_GENERATION, _is_digest.
  rewrite !andb_true_iff, !Nat.eqb_eq. intros ((((((Ha & Hp1) & Hp2) & Hg1) & Hg2) & Hl) & Hs) Ht.
  Transparent RouteBundle.canonical_bytes. unfold canonical_bytes, acknowledgement_json.
  pose proof (json_int_length (ack_child_pid a) 10 ltac:(lia)). pose proof (json_int_length (ack_generation a) 19 ltac:(lia)).
  assert (String.length (json_string (ack_state a)) <= 20)%nat as Hst
    by (revert Hs; generalize (ack_state a); apply Forall_forall; repeat constructor; apply Nat.leb_le; reflexivity).
  cbn [dumps map join fst snd]. rewrite !length_app, (hex_json_length _ (proj2 Ha)), (hex_json_length _ (proj2 Hl)), (proj1 Ha), (proj1 Hl).
  assert (String.length (json_string (ack_acknowledged_at a)) <= 1002)%nat by (unfold json_string; rewrite !length_app; simpl; lia).
  assert (json_int 1 = "1"%string) as -> by reflexivity.
  repeat match goal with |- context [String.length (json_string ?s)] =>
    lazymatch s with ack_state a => fail | ack_acknowledged_at a => fail | _ =>
      let n := eval vm_compute in (String.length (json_string s)) in change (String.length (json_string s)) with n end end.
  change (String.length (ch 10)) with 1%nat. cbn [String.length]. lia.
Qed.
#[local] Opaque RouteBundle.canonical_bytes.

(** What the supervisor wrote is what the Controller waits for. *)
Lemma serves_matches m t s w fromisoformat k look now_ :
  serves m t s w -> fromisoformat (isoformat t) = Some (Aware t) -> t <= now_ <= t + maximum_age k ->
  sight_file look = ack w -> sight_readable look = true -> sight_parent_link look = false ->
  (String.length (json_chars (isoformat t)) <= 1000)%nat ->
  _matches other fromisoformat k m now_ look = inl true.
Proof.
  intros (Hp & _ & Hr & _ & c & _ & Hpid & Ha) Hiso Hn Hf Hrd Hpl Hlen.
  unfold _matches. rewrite Hf, Ha, Hrd, Hpl. cbn [is_symlink is_file negb orb].
  rewrite json_loads_canonical by apply acknowledgement_distinct.
  assert (acknowledgement_valid (acknowledgement_of (request_of m) c t) = true) as Hv.
  { pose proof (write_fine (request_of m) c t w ltac:(by rewrite Ha) Hpid (proj1 (proj2 (proj1 (proj2 Hr)))) eq_refl) as Hw.
    unfold _write_ack in Hw. destruct (_ || _); [done|]. by destruct (acknowledgement_valid _). }
  rewrite (proj2 (Nat.ltb_ge _ _)) by (by apply acknowledgement_length).
  rewrite validate_acknowledgement_json by done. rewrite bool_decide_true by done.
  assert (acknowledges (acknowledgement_of (request_of m) c t) m = true) as ->.
  { unfold acknowledges, acknowledgement_of, request_of. simpl. by rewrite !bool_decide_true, Z.eqb_refl. }
  cbn [andb]. unfold _parse_time. cbn [ack_acknowledged_at acknowledgement_of]. rewrite Hiso.
  rewrite (proj2 (Z.leb_le _ _)), (proj2 (Z.leb_le _ _)) by lia. done.
Qed.

(** C9.  When a bundle the supervisor can run is active and nothing fails, four turns of a
    serving supervisor, a restart included, end in an acknowledgement the Controller takes for
    that bundle. *)
Theorem publication_acknowledged l1 l2 l3 l4 m s w fromisoformat k look now_ :
  good l1 -> good l2 -> good l3 -> good l4 -> idle s w -> runnable (routes w) m ->
  t1 l2 < t1 l1 + STARTUP_SECONDS -> t1 l3 < t1 l1 + STARTUP_SECONDS -> t2 l3 < t1 l1 + STARTUP_SECONDS ->
  let '(s', w') := run_system [Turn l1; Turn l2; Turn l3; Turn l4] (s, w) in
  fromisoformat (isoformat (now l4)) = Some (Aware (now l4)) -> now l4 <= now_ <= now l4 + maximum_age k ->
  sight_file look = ack w' -> sight_readable look = true -> sight_parent_link look = false ->
  (String.length (json_chars (isoformat (now l4))) <= 1000)%nat ->
  sup_phase s' = Serving /\ _matches other fromisoformat k m now_ look = inl true.
Proof.
  intros G1 G2 G3 G4 Hi Hr T2 T3 T3'. pose proof (four_turns_serve l1 l2 l3 l4 m s w G1 G2 G3 G4 Hi Hr T2 T3 T3') as Hs.
  destruct (run_system _ _) as [s' w']. simpl in Hs. intros Hiso Hn Hf Hrd Hpl Hlen. split; [apply Hs|].
  by eapply serves_matches.
Qed.
End system.
