(* ===== verification/RouteExamples.v ===== *)
(** * Routes: runs

    The theorems of the route bundle, its publisher and the supervisor at concrete trees: the
    first publication over an empty tree, a tree that holds one bundle, and a supervisor that
    serves it.  The digests stay symbolic: the facts below follow from the lemmas, not from
    computing SHA-256. *)
From S2P Require Import Prelude Vocabulary StateMachines Sha256 Uuid Json JsonRead Demand.
From S2P Require Import LifecycleTypes SparkOrder RouteBundle LiteLlm RoutePublisher RouteBundleFacts.
From S2P Require Import RouteHistory RouteSupervisor RouteSupervisorFacts.

#[local] Opaque RouteBundle._sha256 RouteBundle.canonical_bytes RouteBundle.directory_name.

Definition any_alias (s : string) : bool := true.
Definition not_json (s : string) : parsed := NotJson.

Definition empty_tree : Routes := {|
  root_link := false; generations_link := false; activation := Missing; generations := ∅ |}.
Definition free_lock : LockFile := {|
  lock_is_symlink := false; lock_opens := true; lock_is_regular := true; flock := fun _ => Locked;
  lock_monotonic := fun i => Z.of_nat i * 50000 |}.
Definition plain_attempt : Attempt := {|
  at_lock := free_lock; at_owned := None; at_broken := []; at_fates := []; at_ack := None |}.
Definition plain_publisher : Publisher := {|
  root := "/routes"; documents := {| validate_routes := fun _ => true; validate_litellm := fun _ => true |} |}.

Definition some_digest : string := "e3b0c44298fc1c149afbf4c8996fb92427ae41e4649b934ca495991b7852b855".
(** Routes withdrawn, and one model published. *)
Definition withdrawn : Wanted := {|
  route_digest := some_digest; litellm := render_empty_config; endpoints := ∅;
  wanted_state := GatewayRouteState.MAINTENANCE |}.
Definition chat_entry : LiteLlmModelEntry := {|
  model_name := "chat"; upstream := "openai/m"; api_base := "http://10.0.0.2:8000/v1"; model_info := None |}.
Definition chat : Wanted := {|
  route_digest := some_digest; litellm := LiteLlm._document [chat_entry]; endpoints := ∅;
  wanted_state := GatewayRouteState.PUBLISHED |}.

Lemma plain_free : free plain_attempt.
Proof. split; [reflexivity|split; [discriminate|reflexivity]]. Qed.

Lemma renders_empty w : endpoints w = ∅ -> renders any_alias w.
Proof.
  intros He g Hg. unfold route_bytes. rewrite He, map_to_list_empty.
  change (sorted (fst <$> [])) with (@nil string). cbn [route_documents].
  rewrite (proj2 (Z.ltb_ge g 1)) by lia. eauto.
Qed.

(** A tree that holds one whole bundle. *)
Definition bundle_tree (q : Request) : Routes :=
  let m := requested_marker q in {|
  root_link := false; generations_link := false; activation := File (canonical_bytes (marker_json m));
  generations := {[ am_directory m := GDirectory
    (<["routes.json" := File (rq_routes q)]> (<["litellm.json" := File (rq_litellm q)]>
       {["manifest.json" := File (canonical_bytes (manifest_json (requested_manifest q)))]})) ]} |}.

Lemma bundle_tree_files q : bundle_staged q (bundle_tree q).
Proof. unfold bundle_staged, staged_file, bundle_tree, file_in. cbn [generations]. by rewrite lookup_singleton_eq. Qed.

Lemma bundle_tree_active q : marker_valid (requested_marker q) = true -> active_bundle (bundle_tree q) (requested_marker q).
Proof.
  intros Hv. apply (view_bundle not_json), (replaced_view _ q (bundle_tree q)).
  split; [reflexivity|]. split; [apply bundle_tree_files|]. by split.
Qed.

Lemma bundle_tree_next q : rq_generation q = 1 -> marker_valid (requested_marker q) = true -> _next_generation (bundle_tree q) = inl 2.
Proof.
  intros Hg Hv. assert (staged_number (am_directory (requested_marker q)) = inl (Some 1)) as Hn.
  { pose proof (well_named_number (requested_marker q) ltac:(by split)) as H.
    change (am_generation (manifest_document (requested_marker q))) with (rq_generation q) in H. by rewrite Hg in H. }
  unfold _next_generation, highest, bundle_tree. cbn [generations]. rewrite map_to_list_singleton.
  cbn [fmap list_fmap fst highest_of]. by rewrite Hn.
Qed.

Definition first_request : Request := wanted_request withdrawn 1 "".
Definition first_tree : Routes := bundle_tree first_request.
Definition first_marker : ActivationMarker := requested_marker first_request.
Definition chat_request : Request := wanted_request chat 2 "".
Definition chat_marker : ActivationMarker := requested_marker chat_request.

Lemma first_valid : marker_valid first_marker = true.
Proof. by apply wanted_marker_valid. Qed.
Lemma chat_valid : marker_valid chat_marker = true.
Proof. by apply wanted_marker_valid. Qed.

Lemma sound_publishable w r g :
  replaceable r -> _next_generation r = inl g -> g < 10 ^ 8 -> route_digest w = some_digest ->
  wanted_state w <> GatewayRouteState.UNAVAILABLE -> endpoints w = ∅ -> publishable any_alias plain_publisher w r g.
Proof.
  intros Hr Hg H8 Hd Hs He.
  split; [exact Hr|exact Hg|exact H8|rewrite Hd; reflexivity|exact Hs|by apply renders_empty|reflexivity|reflexivity].
Qed.

Lemma withdrawn_publishable : publishable any_alias plain_publisher withdrawn empty_tree 1.
Proof. by apply sound_publishable. Qed.

Lemma chat_publishable : publishable any_alias plain_publisher chat first_tree 2.
Proof.
  apply sound_publishable; [by split_and!|apply bundle_tree_next; [done|apply first_valid]|lia|done|done|done].
Qed.

(** ** The publisher *)
Definition first_run := _activate_once any_alias not_json plain_publisher withdrawn None plain_attempt empty_tree.

Lemma first_published : exists m, fst first_run = acknowledged plain_publisher withdrawn plain_attempt m
  /\ reuse_current any_alias withdrawn m = inl true.
Proof.
  destruct (once_runs any_alias not_json plain_publisher withdrawn plain_attempt empty_tree 1 plain_free eq_refl withdrawn_publishable)
    as (m & r' & E & _ & Hu). exists m. unfold first_run. rewrite E. split; [reflexivity|exact Hu].
Qed.

Lemma publication_atomic_witness :
  exists m, fst first_run = inl (Some (generation_of plain_publisher withdrawn m)) /\ view not_json (snd first_run) = Bundle m.
Proof.
  destruct first_published as (m & Hm & _). exists m. split; [exact Hm|].
  pose proof (publication_atomic any_alias not_json plain_publisher withdrawn None plain_attempt empty_tree) as H.
  fold first_run in H. destruct first_run as [res r'].
  apply (proj2 H (generation_of plain_publisher withdrawn m)). left. exact Hm.
Defined.

Definition publish_chat : Publication := {|
  pub_by := plain_publisher; pub_wanted := chat; pub_expected := None; pub_attempt := plain_attempt |}.

Lemma generations_grow_witness :
  exists m, view not_json first_tree = Bundle first_marker /\
    view not_json (foldl (publish any_alias not_json) first_tree [publish_chat]) = Bundle m /\
    (m = first_marker \/ am_generation (manifest_document first_marker) < am_generation (manifest_document m)).
Proof.
  assert (view not_json first_tree = Bundle first_marker) as H0 by (apply view_bundle, bundle_tree_active, first_valid).
  destruct (once_runs any_alias not_json plain_publisher chat plain_attempt first_tree 2 plain_free eq_refl chat_publishable)
    as (m & r' & E & Hv & _).
  assert (view not_json (foldl (publish any_alias not_json) first_tree [publish_chat]) = Bundle m) as Hm.
  { cbn [foldl]. unfold publish. cbn [pub_by pub_wanted pub_expected pub_attempt publish_chat]. rewrite E. exact Hv. }
  exists m. split; [exact H0|]. split; [exact Hm|].
  exact (generations_grow any_alias not_json [publish_chat] first_tree first_marker m H0 Hm).
Defined.

Lemma republication_changes_nothing_witness :
  exists m, _activate_once any_alias not_json plain_publisher withdrawn None plain_attempt (snd first_run)
            = (acknowledged plain_publisher withdrawn plain_attempt m, snd first_run).
Proof.
  destruct first_published as (m & Hm & _). exists m.
  apply (republication_changes_nothing any_alias not_json plain_publisher withdrawn None plain_attempt empty_tree).
  - exists (generation_of plain_publisher withdrawn m). split; [reflexivity|]. left. exact Hm.
  - exact plain_free.
Defined.

(** Another publisher replaces the bundle before the retry. *)
Lemma retries_write_nothing_witness :
  exists g, (exists k, snd (attempts_loop any_alias not_json plain_publisher withdrawn
      [(fun r => publish any_alias not_json r publish_chat, plain_attempt)]
      {| last_activated := Some (BecauseUnknown WaitReason.RUNTIME_EFFECT_UNCONFIRMED, g); last_not_ready := None |} (snd first_run))
    = foldl (fun t x => fst x t) (snd first_run)
        (take k [(fun r => publish any_alias not_json r publish_chat, plain_attempt)])) \/ collision (rg_marker g).
Proof.
  destruct first_published as (m & _ & Hu). exists (generation_of plain_publisher withdrawn m).
  apply retries_write_nothing. exact Hu.
Defined.

Lemma publication_succeeds_witness :
  exists m r', _activate_once any_alias not_json plain_publisher chat None plain_attempt first_tree
    = (acknowledged plain_publisher chat plain_attempt m, r') /\ view not_json r' = Bundle m /\
    am_state (manifest_document m) = "published"%string.
Proof.
  destruct (publication_succeeds any_alias not_json plain_publisher chat plain_attempt first_tree 2
    plain_free eq_refl chat_publishable) as (m & r' & H1 & H2 & H3 & _). exists m, r'. eauto.
Defined.

(** ** The waits *)
Definition busy_lock : LockFile := {|
  lock_is_symlink := false; lock_opens := true; lock_is_regular := true; flock := fun _ => Blocked;
  lock_monotonic := fun i => Z.of_nat i * 50000 |}.
Definition no_sight (i : nat) : AckSight := {|
  sight_now := Aware 0; sight_file := Missing; sight_readable := true; sight_parent_link := false |}.
Definition tenth_seconds (i : nat) : Z := Z.of_nat i * 100000.
Definition five_seconds : Acknowledger := {| timeout := ROUTE_ACK_TIMEOUT_SECONDS; maximum_age := seconds 5; poll := 100000 |}.

Lemma waits_end_witness : _locked busy_lock <> None /\
  exists answer, await_acknowledgement not_json (fun _ => None) five_seconds first_marker no_sight tenth_seconds = Some answer.
Proof.
  destruct (waits_end not_json (fun _ => None) busy_lock five_seconds first_marker no_sight tenth_seconds
    ROUTE_ACK_TIMEOUT_SECONDS (seconds 5) 100000) as [Hl (answer & Ha & _)].
  - split; [discriminate|]. intros i. unfold busy_lock, lock_monotonic, _PUBLICATION_LOCK_RETRY_SECONDS. lia.
  - reflexivity.
  - split; [discriminate|]. intros i. unfold tenth_seconds. lia.
  - split; [exact Hl|]. exists answer. exact Ha.
Defined.

(** ** The supervisor *)
Lemma document_loads l : Forall info_plain l -> json_loads not_json (LiteLlm._document l) = Value (config_json l).
Proof. intros H. apply (json_loads_canonical not_json (config_json l)), config_distinct, H. Qed.

(** A bundle with a rendered configuration can be run. *)
Lemma bundle_tree_runnable q l :
  marker_valid (requested_marker q) = true -> rq_litellm q = LiteLlm._document l -> Forall info_plain l ->
  (rq_state q = "maintenance"%string -> l = []) -> runnable not_json (bundle_tree q) (requested_marker q).
Proof.
  intros Hv Hl Hp Hs. split; [done|]. split; [by apply bundle_tree_active|].
  destruct (bundle_tree_files q) as (_ & Hf & _). exists (rq_litellm q), (config_json l). split; [exact Hf|].
  split; [by rewrite Hl, document_loads|].
  change (negb (bool_decide (rq_state q = "maintenance"%string) && negb (Nat.eqb (length (entry_json <$> l)) 0)) = true).
  destruct (bool_decide (rq_state q = _)) eqn:E; [|done]. apply bool_decide_eq_true in E. by rewrite (Hs E).
Qed.

Lemma first_runnable : runnable not_json first_tree first_marker.
Proof. exact (bundle_tree_runnable first_request [] first_valid eq_refl (Forall_nil_2 _) (fun _ => eq_refl)). Qed.
Lemma chat_runnable : runnable not_json (bundle_tree chat_request) chat_marker.
Proof.
  refine (bundle_tree_runnable chat_request [chat_entry] chat_valid eq_refl _ _); [by repeat constructor|discriminate].
Qed.

Definition calm : Look := {|
  t1 := 0; t2 := 0; now := 0; alive := true; healthy := true; stop_confirmed := true; new_pid := 7; returncode := 0;
  look_broken := []; look_fate := Fine |}.
Lemma calm_good : good calm.
Proof. by split. Qed.

Definition first_world : World := {| routes := first_tree; bootstrap := Missing; ack := Missing |}.
Definition first_start : Supervisor := start not_json [] STARTUP_SECONDS first_world.
Definition serving_run := run_system any_alias not_json [Turn calm; Turn calm; Turn calm] (first_start, first_world).

(** The supervisor starts, launches its child, finds it healthy and acknowledges. *)
Lemma serving_run_serves : serves not_json first_marker 0 (fst serving_run) (snd serving_run).
Proof.
  set (none := {| sup_phase := Launching; stopping := false; request := None; selected := BootstrapConfig; startup_attempts := 0;
    startup_deadline := 0; active_digest := ""; child := None |}).
  assert (first_start = transition_to (Some (request_of first_marker)) (GenerationConfig (am_directory first_marker)) 0 none) as E.
  { unfold first_start, start, first_world. cbn [routes]. rewrite (runnable_request _ _ _ first_runnable). reflexivity. }
  unfold serving_run. rewrite E.
  exact (restart_serves any_alias not_json calm calm calm first_marker none first_world 0 calm_good calm_good calm_good
    eq_refl first_runnable eq_refl eq_refl eq_refl eq_refl).
Qed.

Definition read_start (text : string) : option datetime :=
  if decide (text = isoformat 0) then Some (Aware 0) else None.
Definition look_at (w : World) : AckSight := {|
  sight_now := Aware 0; sight_file := ack w; sight_readable := true; sight_parent_link := false |}.

Lemma supervisor_accepts_verified_witness :
  _active_request not_json [] first_tree = inl (Some (request_of first_marker)) /\
  view not_json first_tree = Bundle first_marker.
Proof.
  pose proof (runnable_request _ _ _ first_runnable) as H. split; [exact H|].
  exact (proj1 (proj2 (proj1 (supervisor_accepts_verified not_json first_tree (request_of first_marker)) H))).
Defined.

Lemma acknowledged_is_served_witness :
  sup_phase (fst serving_run) = Serving /\ exists c, child (fst serving_run) = Some c /\
    _sha256 (child_config c) = am_litellm_sha256 (manifest_document first_marker).
Proof.
  pose proof (acknowledged_is_served any_alias not_json [] STARTUP_SECONDS first_world
    [Turn calm; Turn calm; Turn calm] read_start five_seconds first_marker (look_at (snd serving_run)) 0) as H.
  fold first_start serving_run in H. pose proof serving_run_serves as Hs.
  assert (_matches not_json read_start five_seconds first_marker 0 (look_at (snd serving_run)) = inl true) as Hm.
  { apply (serves_matches _ _ 0 _ _ _ _ _ _ Hs); try reflexivity; [split; discriminate|]. apply Nat.leb_le. vm_compute. reflexivity. }
  destruct Hs as (Hp & _ & _ & _ & c & _ & _ & Ha). destruct serving_run as [s w]. cbn [fst snd] in *.
  apply H; [intros c'; rewrite Hp; discriminate| |reflexivity|reflexivity|exact Hm]. rewrite Ha. discriminate.
Defined.

(** The gateway is restarted with the second bundle. *)
Definition second_world : World := set_routes (bundle_tree chat_request) (snd serving_run).

Lemma idle_set_routes r s w : idle s w -> idle s (set_routes r w).
Proof. done. Qed.

Lemma publication_acknowledged_witness :
  exists s' w', run_system any_alias not_json [Turn calm; Turn calm; Turn calm; Turn calm] (fst serving_run, second_world) = (s', w') /\
  sup_phase s' = Serving /\ _matches not_json read_start five_seconds chat_marker 0 (look_at w') = inl true.
Proof.
  pose proof (idle_set_routes (bundle_tree chat_request) _ _ (serves_idle _ _ _ _ _ serving_run_serves)) as Hi.
  fold second_world in Hi.
  pose proof (fun look => publication_acknowledged any_alias not_json calm calm calm calm chat_marker (fst serving_run) second_world
    read_start five_seconds look 0 calm_good calm_good calm_good calm_good Hi chat_runnable eq_refl eq_refl eq_refl) as H.
  destruct (run_system any_alias not_json [Turn calm; Turn calm; Turn calm; Turn calm] (fst serving_run, second_world)) as [s' w'].
  exists s', w'. split; [reflexivity|].
  apply (H (look_at w')); [reflexivity|split; discriminate|reflexivity|reflexivity|reflexivity|]. apply Nat.leb_le. vm_compute. reflexivity.
Defined.
