(* ===== verification/JobPayload.v ===== *)
(** * The documents of a queued job

    [control/src/vonk_control/jobs.py], the checks a job's payload and targets pass before
    they are stored.  A document is a [json] value without floats; a mapping is the list of
    its items, with each key once.  Two refusals of the source cannot be asked here: a
    mapping key that is not a string, and a number that is not finite.  A Python tuple, which
    the walk for secrets does not enter although [json.dumps] writes it as an array, is not a
    [json] value either: the documents here are those a JSON text can give. *)
From S2P Require Import Prelude ReasonCodes Sha256 Json JsonRead Demand Settings.

Definition _MAX_PAYLOAD : Z := 65536.
Definition MAX_COMPILED_EXECUTION_PLAN_BYTES : Z := 16 * 1024 * 1024.

(** ** Sensitive names

    [(?i)(password|secret|token|private.?key|authorization)] *)
Definition at_private_key (s : string) : bool :=
  String.prefix "private" s
  && (let rest := String.substring 7 (String.length s) s in
      String.prefix "key" rest
      || match rest with
         | String c r => negb (Ascii.eqb c (Ascii.ascii_of_nat 10)) && String.prefix "key" r
         | EmptyString => false
         end).

Definition at_sensitive (s : string) : bool :=
  String.prefix "password" s || String.prefix "secret" s || String.prefix "token" s
  || at_private_key s || String.prefix "authorization" s.

(** [pattern.search]: the pattern holds at some position. *)
Fixpoint search (p : string -> bool) (s : string) : bool :=
  p s || match s with String _ r => search p r | EmptyString => false end.

Definition _SENSITIVE (key : string) : bool := search at_sensitive (lower key).

Example sensitive_names :
  _SENSITIVE <$> ["api_Token"; "private-KEY"; "PrivateKey"; "private--key"; "tokens_per_minute"; "node"]
  = [true; true; true; false; true; false].
Proof. vm_compute. reflexivity. Qed.

(** ** Mappings *)

(** [mapping.get(key)] *)
Definition get_key (m : list (string * json)) (k : string) : option json :=
  snd <$> find (fun p => String.eqb (fst p) k) m.

(** [set(mapping) == fields] *)
Definition has_fields (m : list (string * json)) (fields : list string) : bool :=
  forallb (fun p => mem (fst p) fields) m && forallb (fun k => mem k (fst <$> m)) fields.

Definition ROUTE_FIELDS : list string :=
  ["workload_id"; "nodes"; "entrypoint_node_id"; "scheme"; "port"; "path"; "quota";
   "quota_digest"].
Definition QUOTA_FIELDS : list string := ["requests_per_minute"; "tokens_per_minute"].

Definition as_string (v : option json) : option string :=
  match v with Some (JString s) => Some s | _ => None end.
(** an [int] that is not a [bool] *)
Definition as_int (v : option json) : option Z :=
  match v with Some (JInt z) => Some z | _ => None end.

(** A list or a dict cannot be put in a set or looked up in one. *)
Definition hashable (v : json) : bool :=
  match v with JArray _ | JObject _ => false | _ => true end.
Definition all_strings (l : list json) : option (list string) :=
  mapM (fun v => as_string (Some v)) l.

(** The rate limits of a route, when they are the ones its digest names. *)
Definition quota_accepted (quota : list (string * json)) (quota_digest : option json) : bool :=
  match as_int (get_key quota "requests_per_minute"), as_int (get_key quota "tokens_per_minute") with
  | Some rpm, Some tpm =>
      (1 <=? rpm) && (rpm <=? 100000) && (1 <=? tpm) && (tpm <=? 100000000)
      && bool_decide (as_string quota_digest
                      = Some (Sha256.hexdigest (dumps (_canonical (JObject quota)))))
  | _, _ => false
  end.

(** One route of a reconcile payload: whether its quota fields are accepted.  Building the
    set of nodes and looking the scheme up raise on a value that cannot be hashed. *)
Definition route_accepted (route : list (string * json)) : result bool :=
  if negb (has_fields route ROUTE_FIELDS) then Ok false
  else
    match as_string (get_key route "workload_id"), get_key route "nodes" with
    | Some _, Some (JArray nodes) =>
        if bool_decide (nodes = []) then Ok false
        else if negb (forallb hashable nodes) then Raise (TypeError "unhashable type")
        else
          match all_strings nodes with
          | None => Ok false
          | Some names =>
              if negb (bool_decide (NoDup names)) then Ok false
              else if negb (match as_string (get_key route "entrypoint_node_id") with
                            | Some n => mem n names
                            | None => false
                            end) then Ok false
              else
                match get_key route "scheme" with
                | Some v =>
                    if negb (hashable v) then Raise (TypeError "unhashable type")
                    else if negb (match as_string (Some v) with
                                  | Some w => mem w ["http"; "https"]
                                  | None => false
                                  end) then Ok false
                    else
                      match as_int (get_key route "port"), as_string (get_key route "path"),
                            get_key route "quota" with
                      | Some port, Some path, Some (JObject quota) =>
                          Ok ((1 <=? port) && (port <=? 65535) && String.prefix "/" path
                              && has_fields quota QUOTA_FIELDS
                              && quota_accepted quota (get_key route "quota_digest"))
                      | _, _, _ => Ok false
                      end
                | None => Ok false
                end
          end
    | _, _ => Ok false
    end.

(** The paths of the validated quota fields of a reconcile payload. *)
Fixpoint accepted_routes (routes : list (string * json)) : result (list (list string)) :=
  match routes with
  | [] => Ok []
  | (alias, JObject route) :: rest =>
      ok ← route_accepted route;
      others ← accepted_routes rest;
      Ok (if ok : bool then ["routes"; alias; "quota"; "tokens_per_minute"] :: others else others)
  | _ :: rest => accepted_routes rest
  end.

Definition _validated_quota_fields (kind : option string) (payload : list (string * json))
  : result (list (list string)) :=
  if negb (bool_decide (kind = Some "reconcile")) then Ok []
  else match get_key payload "routes" with
       | Some (JObject routes) => accepted_routes routes
       | _ => Ok []
       end.

(** ** The payload *)
Definition invalid {A} (msg : string) (why : InvalidRequestReason.InvalidRequestReason) : result A :=
  Raise (InvalidValue msg (value why)).

(** The walk over a document; the items of a list keep the path of the list. *)
Fixpoint inspect (safe : list (list string)) (path : list string) (v : json) {struct v}
  : result unit :=
  match v with
  | JObject l =>
      (fix items (l : list (string * json)) : result unit :=
         match l with
         | [] => Ok tt
         | (key, child) :: rest =>
             let child_path := (path ++ [key])%list in
             if _SENSITIVE key && negb (mem child_path safe)
             then invalid "job payload contains a sensitive field" InvalidRequestReason.MALFORMED
             else _ ← inspect safe child_path child; items rest
         end) l
  | JArray l =>
      (fix elements (l : list json) : result unit :=
         match l with
         | [] => Ok tt
         | child :: rest => _ ← inspect safe path child; elements rest
         end) l
  | _ => Ok tt
  end.

Definition maximum_payload (kind : option string) : Z :=
  if mem kind [Some "recipe.install"; Some "recipe.start"] then MAX_COMPILED_EXECUTION_PLAN_BYTES
  else _MAX_PAYLOAD.

(** The stored document (its keys sorted at every depth) and its encoding. *)
Definition _canonical_payload (payload : list (string * json)) (kind : option string)
  : result (json * string) :=
  safe ← _validated_quota_fields kind payload;
  _ ← inspect safe [] (JObject payload);
  let copied := _canonical (JObject payload) in
  let encoded := dumps copied in
  if maximum_payload kind <? Z.of_nat (String.length encoded)
  then invalid "job payload is too large" InvalidRequestReason.LIMIT_EXCEEDED
  else Ok (copied, encoded).

(** ** The targets *)
Definition _canonical_targets (v : json) : result (list string) :=
  match v with
  | JArray l =>
      match all_strings l with
      | Some names => Ok names
      | None => invalid "job targets must be a JSON array of strings" InvalidRequestReason.MALFORMED
      end
  | _ => invalid "job targets must be a JSON array of strings" InvalidRequestReason.MALFORMED
  end.
Definition targets_json (names : list string) : json := JArray (JString <$> names).

(** ** No secret is stored *)

(** The keys of a document by their paths, as [inspect] walks them, and the values they name. *)
Inductive key_at : json -> list string -> json -> Prop :=
| key_here k c l : (k, c) ∈ l -> key_at (JObject l) [k] c
| key_below k c l p v : (k, c) ∈ l -> key_at c p v -> key_at (JObject l) (k :: p) v
| key_element c l p v : c ∈ l -> key_at c p v -> key_at (JArray l) p v.

Lemma inspect_item safe path l k c :
  inspect safe path (JObject l) = Ok tt -> (k, c) ∈ l ->
  (_SENSITIVE k = true -> (path ++ [k])%list ∈ safe) /\ inspect safe (path ++ [k]) c = Ok tt.
Proof.
  induction l as [|[k' c'] l IH]; intros H Hin; [set_solver|]. cbn [inspect] in H.
  destruct (_SENSITIVE k' && negb (mem (path ++ [k'])%list safe)) eqn:Hs; [done|].
  apply bind_Ok in H as ([] & Hc & Hl).
  apply elem_of_cons in Hin as [[= -> ->]|Hin]; [|by apply IH].
  split; [|done]. intros Hk. rewrite Hk in Hs. apply mem_true. by destruct (mem _ _).
Qed.

Lemma inspect_element safe path l c :
  inspect safe path (JArray l) = Ok tt -> c ∈ l -> inspect safe path c = Ok tt.
Proof.
  induction l as [|c' l IH]; intros H Hin; [set_solver|]. cbn [inspect] in H.
  apply bind_Ok in H as ([] & Hc & Hl).
  apply elem_of_cons in Hin as [->|Hin]; [done|by apply IH].
Qed.

Lemma key_at_last v p x : key_at v p x -> exists k, last p = Some k.
Proof.
  induction 1 as [k c l Hin|k c l p x Hin Hp [y Hy]|]; [by exists k| |done]. exists y.
  by rewrite last_cons, Hy.
Qed.

Lemma inspect_safe safe v p x : key_at v p x -> forall path k,
  inspect safe path v = Ok tt -> last p = Some k -> _SENSITIVE k = true -> (path ++ p)%list ∈ safe.
Proof.
  induction 1 as [k c l Hin|k c l p x Hin Hp IH|c l p x Hin Hp IH]; intros path key H Hl Hs.
  - simplify_eq/=. by eapply inspect_item.
  - destruct (inspect_item _ _ _ _ _ H Hin) as [_ Hc].
    replace (path ++ k :: p)%list with ((path ++ [k]) ++ p)%list by by rewrite <- app_assoc.
    eapply IH; [exact Hc| |exact Hs].
    destruct (key_at_last _ _ _ Hp) as [y Hy]. rewrite last_cons, Hy in Hl. congruence.
  - eapply IH; [by eapply inspect_element|done|done].
Qed.

Lemma canonical_key_at v p x : key_at (_canonical v) p x -> exists y, key_at v p y /\ x = _canonical y.
Proof.
  intros H. remember (_canonical v) as w eqn:E. revert v E.
  induction H as [k c l Hin|k c l p x Hin Hp IH|c l p x Hin Hp IH]; intros v E;
    destruct v as [| | | |vs|vs]; simplify_eq/=.
  - rewrite merge_sort_Permutation in Hin. apply list_elem_of_In, in_map_iff in Hin as ([k' c'] & Heq & Hin).
    simplify_eq/=. exists c'. split; [|done]. apply key_here. by apply list_elem_of_In.
  - rewrite merge_sort_Permutation in Hin. apply list_elem_of_In, in_map_iff in Hin as ([k' c'] & Heq & Hin).
    simplify_eq/=. destruct (IH c' eq_refl) as (y & Hy & ->). exists y. split; [|done].
    eapply key_below; [by apply list_elem_of_In|done].
  - apply list_elem_of_In, in_map_iff in Hin as (c' & <- & Hin).
    destruct (IH c' eq_refl) as (y & Hy & ->). exists y. split; [|done].
    eapply key_element; [by apply list_elem_of_In|done].
Qed.

(** A validated route: every field of it, and the token rate limit it allows. *)
Record valid_route (route : list (string * json)) (tpm : Z) : Prop := {
  vr_fields : has_fields route ROUTE_FIELDS = true;
  vr_workload : exists w, get_key route "workload_id" = Some (JString w);
  vr_nodes : exists names n, get_key route "nodes" = Some (JArray (JString <$> names)) /\
    NoDup names /\ get_key route "entrypoint_node_id" = Some (JString n) /\ n ∈ names;
  vr_scheme : exists s, get_key route "scheme" = Some (JString s) /\ (s = "http" \/ s = "https");
  vr_port : exists port, get_key route "port" = Some (JInt port) /\ 1 <= port <= 65535;
  vr_path : exists path, get_key route "path" = Some (JString path) /\ String.prefix "/" path = true;
  vr_quota : exists quota rpm, get_key route "quota" = Some (JObject quota) /\
    has_fields quota QUOTA_FIELDS = true /\
    get_key quota "requests_per_minute" = Some (JInt rpm) /\ 1 <= rpm <= 100000 /\
    get_key quota "tokens_per_minute" = Some (JInt tpm) /\ 1 <= tpm <= 100000000 /\
    get_key route "quota_digest" = Some (JString (Sha256.hexdigest (dumps (_canonical (JObject quota)))));
}.

Lemma as_string_Some v s : as_string v = Some s -> v = Some (JString s).
Proof. destruct v as [[]|]; naive_solver. Qed.
Lemma as_int_Some v z : as_int v = Some z -> v = Some (JInt z).
Proof. destruct v as [[]|]; naive_solver. Qed.
Lemma all_strings_Some l names : all_strings l = Some names -> l = JString <$> names.
Proof.
  unfold all_strings. intros H%mapM_Some. induction H as [|v s l names Hv _ IH]; [done|].
  destruct v; try done. injection Hv as ->. by rewrite IH.
Qed.

Lemma quota_accepted_true quota digest :
  quota_accepted quota digest = true -> exists rpm tpm,
  get_key quota "requests_per_minute" = Some (JInt rpm) /\ 1 <= rpm <= 100000 /\
  get_key quota "tokens_per_minute" = Some (JInt tpm) /\ 1 <= tpm <= 100000000 /\
  digest = Some (JString (Sha256.hexdigest (dumps (_canonical (JObject quota))))).
Proof.
  unfold quota_accepted. generalize (Sha256.hexdigest (dumps (_canonical (JObject quota)))) as h. intros h.
  destruct (as_int (get_key quota "requests_per_minute")) as [rpm|] eqn:E1; [|done].
  destruct (as_int (get_key quota "tokens_per_minute")) as [tpm|] eqn:E2; [|done].
  intros H. bools. exists rpm, tpm.
  apply as_int_Some in E1, E2. split_and!; try done; try lia. by apply as_string_Some.
Qed.

Lemma route_accepted_true route : route_accepted route = Ok true -> exists tpm, valid_route route tpm.
Proof.
  unfold route_accepted. destruct (has_fields route ROUTE_FIELDS) eqn:Hf; [|done]. cbn [negb].
  destruct (as_string (get_key route "workload_id")) as [w|] eqn:Hw; [|done].
  destruct (get_key route "nodes") as [[| | | |nodes|]|] eqn:Hn; try done.
  case_bool_decide as Hnil; [done|]. destruct (forallb hashable nodes); [|done]. cbn [negb].
  destruct (all_strings nodes) as [names|] eqn:Ha; [|done]. case_bool_decide as Hnd; [|done]. cbn [negb].
  destruct (as_string (get_key route "entrypoint_node_id")) as [n|] eqn:He; [|done].
  destruct (mem n names) eqn:Hm; [|done]. cbn [negb].
  destruct (get_key route "scheme") as [v|] eqn:Hs; [|done]. destruct (hashable v); [|done]. cbn [negb].
  destruct (as_string (Some v)) as [s|] eqn:Hv; [|done]. destruct (mem s _) eqn:Hms; [|done]. cbn [negb].
  destruct (as_int (get_key route "port")) as [port|] eqn:Hp; [|done].
  destruct (as_string (get_key route "path")) as [path|] eqn:Hpa; [|done].
  destruct (get_key route "quota") as [[| | | | |quota]|] eqn:Hq; try done.
  intros [= H]. apply andb_true_iff in H as [H Hquota]. bools.
  apply quota_accepted_true in Hquota as (rpm & tpm & Hq1 & Hq2 & Hq3 & Hq4 & Hq5). exists tpm.
  apply as_string_Some in Hw, He, Hv, Hpa. apply as_int_Some in Hp. apply all_strings_Some in Ha. simplify_eq.
  constructor; eauto 10.
  - exists s. split; [done|]. set_solver.
Qed.

Lemma accepted_routes_paths routes safe p :
  accepted_routes routes = Ok safe -> p ∈ safe ->
  exists alias route tpm, p = ["routes"; alias; "quota"; "tokens_per_minute"]%string /\
    (alias, JObject route) ∈ routes /\ valid_route route tpm.
Proof.
  revert safe. induction routes as [|[alias v] routes IH]; intros safe H Hp; simpl in H;
    [simplify_eq; set_solver|].
  assert (forall others, accepted_routes routes = Ok others -> p ∈ others ->
    exists alias0 route tpm, p = ["routes"; alias0; "quota"; "tokens_per_minute"]%string /\
      (alias0, JObject route) ∈ (alias, v) :: routes /\ valid_route route tpm) as Hrest.
  { intros others Ho Hin. destruct (IH others Ho Hin) as (x & route & tpm & ? & ? & ?).
    exists x, route, tpm. split_and!; [done|by right|done]. }
  destruct v as [| | | | |route]; try by eapply Hrest.
  apply bind_Ok in H as (ok & Hok & H). apply bind_Ok in H as (others & Ho & H). destruct ok; simplify_eq.
  - apply elem_of_cons in Hp as [->|Hp]; [|by eapply Hrest].
    destruct (route_accepted_true route Hok) as [tpm Hv]. exists alias, route, tpm. split_and!; [done|by left|done].
  - by eapply Hrest.
Qed.

(** A mapping has each key once, so a path through mappings names one value. *)
Lemma get_key_elem l k c : NoDup (fst <$> l) -> (k, c) ∈ l -> get_key l k = Some c.
Proof.
  unfold get_key. induction l as [|[k' c'] l IH]; intros Hn Hin; [set_solver|].
  rewrite fmap_cons in Hn. apply NoDup_cons in Hn as [Hk Hn]. simpl. simpl in Hk.
  apply elem_of_cons in Hin as [[= <- <-]|Hin]; [by rewrite String.eqb_refl|].
  destruct (String.eqb_spec k' k) as [->|]; [|by apply IH].
  exfalso. apply Hk. apply list_elem_of_fmap. by exists (k, c).
Qed.

Lemma distinct_items l : distinct_keys (JObject l) ->
  NoDup (fst <$> l) /\ forall k c, (k, c) ∈ l -> distinct_keys c.
Proof.
  intros [Hn Hall]. split; [done|]. apply (forall_distinct snd) in Hall. rewrite Forall_forall in Hall.
  intros k c Hin. exact (Hall (k, c) Hin).
Qed.

Lemma key_at_below l k p x c :
  distinct_keys (JObject l) -> get_key l k = Some c -> p <> [] -> key_at (JObject l) (k :: p) x ->
  distinct_keys c /\ key_at c p x.
Proof.
  intros [Hn Hd]%distinct_items Hg Hp H. inversion H as [|? c' ? ? ? Hin Hc|]; subst; [done|].
  rewrite (get_key_elem _ _ _ Hn Hin) in Hg. injection Hg as ->. eauto.
Qed.

(** C32.  No accepted document, at any depth, stores a value under a name that looks like a
    secret.  The one exception is the token rate limit of a reconcile payload's route, and only
    of a route whose every field is valid: its node list, scheme, port, path and both limits
    are in range and the digest is that of the quota; what is stored there is then the rate
    limit itself, an integer between 1 and 100,000,000. *)
Theorem payload_keeps_no_secret payload kind copied encoded p k v :
  distinct_keys (JObject payload) ->
  _canonical_payload payload kind = Ok (copied, encoded) -> key_at copied p v ->
  last p = Some k -> _SENSITIVE k = true ->
  kind = Some "reconcile"%string /\
  exists alias routes route tpm,
    p = ["routes"; alias; "quota"; "tokens_per_minute"]%string /\
    get_key payload "routes" = Some (JObject routes) /\ get_key routes alias = Some (JObject route) /\
    valid_route route tpm /\ v = JInt tpm.
Proof.
  unfold _canonical_payload. intros Hd H Hp Hl Hs.
  apply bind_Ok in H as (safe & Hq & H). apply bind_Ok in H as ([] & Hi & H).
  destruct (_ <? _); [done|]. injection H as <- <-. apply (canonical_key_at (JObject payload)) in Hp as (y & Hp & ->).
  pose proof (inspect_safe safe _ _ _ Hp [] k Hi Hl Hs) as Hin. simpl in Hin.
  unfold _validated_quota_fields in Hq. case_bool_decide as Hk; simpl in Hq; [|simplify_eq; set_solver].
  split; [done|]. destruct (get_key payload "routes") as [[| | | | |routes]|] eqn:Hr; simplify_eq; try set_solver.
  destruct (accepted_routes_paths _ _ _ Hq Hin) as (alias & route & tpm & -> & Hroute & Hv).
  apply (key_at_below _ _ _ _ _ Hd Hr) in Hp as [Hd1 Hp1]; [|done].
  pose proof (get_key_elem _ _ _ (proj1 (distinct_items _ Hd1)) Hroute) as Hg.
  apply (key_at_below _ _ _ _ _ Hd1 Hg) in Hp1 as [Hd2 Hp2]; [|done].
  destruct (vr_quota _ _ Hv) as (quota & rpm & Hquota & _ & _ & _ & Htpm & _).
  apply (key_at_below _ _ _ _ _ Hd2 Hquota) in Hp2 as [Hd3 Hp3]; [|done].
  exists alias, routes, route, tpm. split_and!; try done.
  inversion Hp3 as [? ? ? Hin3|? ? ? ? ? ? Hc|];
    subst; [|by destruct (key_at_last _ _ _ Hc)].
  rewrite (get_key_elem _ _ _ (proj1 (distinct_items _ Hd3)) Hin3) in Htpm. by injection Htpm as ->.
Qed.

(** A reconcile payload with one valid route. *)
Definition example_quota : list (string * json) :=
  [("requests_per_minute", JInt 60); ("tokens_per_minute", JInt 5000)].
Definition example_routes : list (string * json) :=
  [("routes", JObject [("chat", JObject
     [("workload_id", JString "w"); ("nodes", JArray [JString "spark-1"]); ("entrypoint_node_id", JString "spark-1");
      ("scheme", JString "http"); ("port", JInt 8000); ("path", JString "/v1"); ("quota", JObject example_quota);
      ("quota_digest", JString (Sha256.hexdigest (dumps (_canonical (JObject example_quota)))))])])].

Lemma payload_keeps_no_secret_witness :
  exists copied encoded tpm,
    _canonical_payload example_routes (Some "reconcile") = Ok (copied, encoded) /\
    key_at copied ["routes"; "chat"; "quota"; "tokens_per_minute"]%string (JInt tpm) /\
    _SENSITIVE "tokens_per_minute" = true /\ exists route, valid_route route tpm.
Proof.
  assert (_canonical_payload example_routes (Some "reconcile") =
    Ok (_canonical (JObject example_routes), dumps (_canonical (JObject example_routes)))) as E by (vm_compute; reflexivity).
  assert (key_at (_canonical (JObject example_routes)) ["routes"; "chat"; "quota"; "tokens_per_minute"]%string (JInt 5000)) as Hk.
  { vm_compute. eapply key_below; [left|]. eapply key_below; [left|]. eapply key_below; [do 4 right; left|]. eapply key_here. right; left. }
  eexists _, _, 5000. split; [exact E|]. split; [exact Hk|]. split; [vm_compute; reflexivity|].
  destruct (payload_keeps_no_secret example_routes (Some "reconcile"%string)
    (_canonical (JObject example_routes)) (dumps (_canonical (JObject example_routes)))
    ["routes"; "chat"; "quota"; "tokens_per_minute"]%string "tokens_per_minute" (JInt 5000)) as [_ H].
  - vm_compute. repeat split; apply (bool_decide_unpack _); vm_compute; exact I.
  - exact E.
  - exact Hk.
  - reflexivity.
  - vm_compute. reflexivity.
  - destruct H as (alias & routes & route & tpm & _ & _ & _ & Hv & [= ->]). exists route. exact Hv.
Defined.
