(* ===== verification/JobAdapter.v ===== *)
(** * The lifecycle adapter of a generic job

    [control/src/vonk_control/lifecycle/job.py]: the stored job and its attempts as rows of
    the lifecycle core, and the only writer of their states.  [redact_text]
    ([logging.py], display text) is an argument.  The database compares the version column
    of a job when it is written; see [JobQueue] for what a lost comparison does. *)
From S2P Require Import Prelude Vocabulary ReasonCodes Disposition Recovery.
From S2P Require Import LifecycleTypes LifecycleCore Reconciler.
From S2P Require Import Json Blockers PersistedWaits JobPayload.

(** ** Rows ([models/jobs.py]) *)
Record Job := {
  j_id : string;
  j_request_id : string;
  j_kind : string;
  j_state : string;
  j_actor : string;
  j_authority_revision : string;
  j_targets : json;
  j_payload_digest : string;
  j_payload : json;
  j_result : option json;
  j_status_reason : option string;
  j_current_attempt : Z;
  j_created_at : datetime;
  j_updated_at : datetime;
  j_wait : ScheduledWaitOwner;
  (** the clocks of the document it is bound to *)
  j_clocks : WaitClocks;
}.

Record JobAttempt := {
  at_job_id : string;
  at_attempt : Z;
  at_fence : string;
  at_worker_id : string;
  at_lease_deadline : datetime;
  at_state : string;
  at_observation_cause : option string;
}.

(** The tables, and the jobs that an agent operation names as its parent. *)
Record JobDb := {
  job_rows : list Job;
  attempt_rows : list JobAttempt;
  operated : list string;
}.

(** The columns a decision writes. *)
Definition write_job (st : string) (result_ : option json) (why : option string) (n : Z)
    (now : datetime) (w : ScheduledWaitOwner) (j : Job) : Job := {|
  j_id := j_id j; j_request_id := j_request_id j; j_kind := j_kind j; j_state := st;
  j_actor := j_actor j; j_authority_revision := j_authority_revision j; j_targets := j_targets j;
  j_payload_digest := j_payload_digest j; j_payload := j_payload j; j_result := result_;
  j_status_reason := why; j_current_attempt := n; j_created_at := j_created_at j;
  j_updated_at := now; j_wait := w; j_clocks := j_clocks j |}.

Definition write_attempt (st : string) (cause : option string) (lease : datetime) (a : JobAttempt)
  : JobAttempt := {|
  at_job_id := at_job_id a; at_attempt := at_attempt a; at_fence := at_fence a;
  at_worker_id := at_worker_id a; at_lease_deadline := lease; at_state := st;
  at_observation_cause := cause |}.

Definition set_attempt_state (st : string) (a : JobAttempt) : JobAttempt :=
  write_attempt st (at_observation_cause a) (at_lease_deadline a) a.

(** [job_states.lapse(attempt)] *)
Definition lapse_attempt (a : JobAttempt) : JobAttempt :=
  let lapsed := JobStates.lapse {| JobStates.attempt_state := Some (at_state a);
                                   JobStates.observation_cause := at_observation_cause a |} in
  write_attempt (default (at_state a) (JobStates.attempt_state lapsed))
    (JobStates.observation_cause lapsed) (at_lease_deadline a) a.

(** Rows changed in place. *)
Definition put_job (j : Job) (db : JobDb) : JobDb := {|
  job_rows := (fun r => if bool_decide (j_id r = j_id j) then j else r) <$> job_rows db;
  attempt_rows := attempt_rows db; operated := operated db |}.
Definition put_attempt (a : JobAttempt) (db : JobDb) : JobDb := {|
  job_rows := job_rows db;
  attempt_rows :=
    (fun r => if bool_decide (at_fence r = at_fence a) then a else r) <$> attempt_rows db;
  operated := operated db |}.
Definition add_attempt (a : JobAttempt) (db : JobDb) : JobDb := {|
  job_rows := job_rows db; attempt_rows := (attempt_rows db ++ [a])%list; operated := operated db |}.

(** ** The stored words *)
Definition KIND : string := "job".
Definition WAITING : string := value State.NEEDS_OPERATOR.
Definition _MAX_REASON : nat := 1024.

(** The core never hands a generic job the one state the table leaves out. *)
Definition _STORED (st : LifecycleState) : result string :=
  match st with
  | State.QUEUED | State.BACKOFF => Ok "queued"
  | State.RUNNING | State.OBSERVING => Ok "running"
  | State.NEEDS_OPERATOR => Ok WAITING
  | State.SUCCEEDED => Ok "succeeded"
  | State.FAILED => Ok "failed"
  | State.CANCELLED => Ok "cancelled"
  | State.SUPERSEDED => Raise (KeyError (value st))
  end.

(** ** A stored job as a lifecycle row *)
Definition intent_of (payload : json) : option Z :=
  match payload with
  | JObject m => as_int (get_key m "workload_intent_ordinal")
  | _ => None
  end.

Definition lifecycle (j : Job) (attempt_ : option JobAttempt) : Lifecycle :=
  let st := default State.NEEDS_OPERATOR (JobStates.core (Some (j_state j))) in
  let live := if same st State.RUNNING then attempt_ else None in
  {| id := j_id j;
     kind := KIND;
     state := st;
     attempt := j_current_attempt j;
     fence := at_fence <$> live;
     lease_deadline := (fun a => to_utc (at_lease_deadline a)) <$> live;
     next_action_at := to_utc <$> wait_due (j_wait j) (j_clocks j);
     recovery_deadline := None;
     retry_count := 0;
     observe_count := 0;
     intent_ordinal := intent_of (j_payload j);
     cancel_requested_at := None;
     cancel_request_key := None;
     effect := if same st State.SUCCEEDED then Effect.ESTABLISHED
               else if same st State.CANCELLED then Effect.STOPPED
               else if j_current_attempt j =? 0 then Effect.NONE else Effect.ISSUED;
     reason := j_status_reason j;
     owner_id := None |}.

Definition adopt (j : Job) : Lifecycle := lifecycle j None.

(** ** The kind's facts *)
Definition actions_of (r : Lifecycle) : list string :=
  if same (state r) State.NEEDS_OPERATOR then [value ActionName.RESUME] else [].

Definition job_kind : KindAdapter := {|
  irreversible := fun _ => false;
  retry_not_before := fun _ _ => None;
  deadline_reader := None;
  actions := actions_of |}.

(** The executor claims its own work, so [execute] does nothing. *)
Definition job_executor (W : Type) : Executor W := {|
  reads _ := job_kind;
  Reconciler.observe r w :=
    (w, Ok (Effect.UNKNOWN, Some "a generic job has no effect to inspect"%string));
  Reconciler.stop r w := (w, Ok StopResult.UNCONFIRMED);
  Reconciler.execute r n w := (w, Ok tt) |}.

(** The job's current attempt. *)
Definition _attempt (db : JobDb) (j : Job) : option JobAttempt :=
  if j_current_attempt j =? 0 then None
  else find (fun a => bool_decide (at_job_id a = j_id j) && (at_attempt a =? j_current_attempt j))
         (attempt_rows db).

(** [JobAdapter.new_job] of a job given an identity, with the wait of its first state. *)
Definition new_job (j : Job) : result Job :=
  w ← initialize_wait (j_wait j) (j_id j) WaitOwnerKind.JOB (Some (j_state j))
        (Some (j_created_at j)) (Some (j_updated_at j));
  Ok (write_job (j_state j) (j_result j) (j_status_reason j) (j_current_attempt j)
        (j_updated_at j) w j).

Section writes.
Context (redact_text : string -> string).

Definition stored_reason (why : string) : option string :=
  if bool_decide (why = EmptyString) then None else Some (str_take _MAX_REASON (redact_text why)).

(** [apply]: the only writer of a decision.  [result_] and [why] are the optional result and
    reason; [None] leaves the column alone. *)
Definition apply (j : Job) (after : Lifecycle) (now : instant) (attempt_ : option JobAttempt)
    (result_ : option json) (why : option string) : result (Job * option JobAttempt) :=
  stored ← _STORED (state after);
  w ← lifecycle_wait (j_wait j) {|
    l_identity := j_id j; l_kind := WaitOwnerKind.JOB; l_state := state after;
    l_now := Aware now; l_due := Aware <$> next_action_at after; l_detail := reason after;
    l_reason := None; l_blockers := []; l_deadline := Aware <$> recovery_deadline after;
    l_cancelling := cancel_requested after; l_lease_deadline := Aware <$> lease_deadline after;
    l_operator_action :=
      if bool_decide (actions_of after = []) then None else Some ActionName.RESUME |};
  let why' :=
    match why with
    | Some s => stored_reason s
    | None =>
        if mem (state after) [State.QUEUED; State.BACKOFF] && negb (truthy_str (reason after))
        then None else j_status_reason j
    end in
  Ok (write_job stored (or_else result_ (j_result j)) why' (j_current_attempt j) (Aware now)
        (fst w) j,
      if terminal after then set_attempt_state stored <$> attempt_ else attempt_).

(** [settle]: the job and the attempt the caller passes are the world the core decides
    over; [current] is the attempt the row is read with. *)
Definition settle (current : option JobAttempt) (event : Event) (now : instant)
    (result_ : option json) (why guard : option string) (w : Job * option JobAttempt)
  : (Job * option JobAttempt) * result Settled :=
  let save_ (before after : Lifecycle) (w : Job * option JobAttempt) :=
    if match guard with Some g => negb (bool_decide (j_state (fst w) = g)) | None => false end
    then (w, Ok false)
    else match apply (fst w) after now (snd w) result_ why with
         | Ok w' => (w', Ok true)
         | Raise e => (w, Raise e)
         end in
  Reconciler.settle (lifecycle (fst w) (or_else (snd w) current)) event (job_executor _) now save_
    (fun _ _ w => (w, Ok tt)) MAX_STEPS_PER_ROW w.

(** ** Claim and lease *)

(** Take the job; [None] when it is not claimable. *)
Definition claim (db : JobDb) (j : Job) (worker_id fence_ : string) (lease now : instant)
  : result (JobDb * option JobAttempt) :=
  let previous := _attempt db j in
  let r := lifecycle j previous in
  r ← (if same (state r) State.RUNNING then
         d ← transition r (LeaseLapsed (Some "the attempt lease lapsed")) job_kind now;
         Ok (row d <| next_action_at := None |>)
       else Ok r);
  d ← transition r (Claimed (attempt r + 1) fence_ lease) job_kind now;
  let claimed := row d in
  if negb (same (state claimed) State.RUNNING) || negb (attempt claimed =? attempt r + 1)
  then Ok (db, None)
  else
    let db := match previous with Some p => put_attempt (lapse_attempt p) db | None => db end in
    let counted := write_job (j_state j) (j_result j) (j_status_reason j) (attempt claimed)
                     (j_updated_at j) (j_wait j) j in
    applied ← apply counted claimed now None None None;
    let fresh := {| at_job_id := j_id j; at_attempt := attempt claimed; at_fence := fence_;
                    at_worker_id := worker_id; at_lease_deadline := Aware lease;
                    at_state := "running"; at_observation_cause := None |} in
    Ok (add_attempt fresh (put_job (fst applied) db), Some fresh).

(** Extend the lease of the current attempt; a stale fence is dropped. *)
Definition heartbeat (j : Job) (a : JobAttempt) (lease now : instant)
  : result (Job * JobAttempt * bool) :=
  d ← transition (lifecycle j (Some a)) (Heartbeat (Some (at_fence a)) lease) job_kind now;
  if negb (bool_decide (lease_deadline (row d) = Some lease)) then Ok (j, a, false)
  else Ok (write_job (j_state j) (j_result j) (j_status_reason j) (j_current_attempt j) (Aware now)
             (j_wait j) j,
           write_attempt (at_state a) (at_observation_cause a) (Aware lease) a, true).

(** The report of the attempt's executor. *)
Definition finish_report (fence_ : string) (succeeded : bool) (why : option string) : report :=
  if succeeded
  then {| outcome := Outcome.DONE; r_fence := Some fence_; retryable := false; r_effect := None;
          r_reason := why; retry_after := None; consumes_retry := true |}
  else failed (CauseVerdict Disposition.FAIL) EmptyString (Some fence_) None why None.

(** A definite report ends job and attempt. *)
Definition finish (j : Job) (a : JobAttempt) (succeeded : bool) (result_ : option json)
    (why : option string) (now : instant) : result (Job * JobAttempt * bool) :=
  let r := lifecycle j (Some a) in
  if terminal r then stored ← _STORED (state r); Ok (j, set_attempt_state stored a, false)
  else
    d ← transition r (Reported (finish_report (at_fence a) succeeded why)) job_kind now;
    let after := row d in
    if negb (terminal after) then Ok (j, a, false)
    else
      applied ← apply j after now (Some a) result_ None;
      let ended := fst applied in
      Ok (write_job (j_state ended) result_ (w ← why; stored_reason w) (j_current_attempt ended)
            (j_updated_at ended) (j_wait ended) ended,
          default a (snd applied), true).

(** The operator's resume of a waiting job, by compare-and-set on the waiting word. *)
Definition resume (db : JobDb) (j : Job) (now : instant) : (JobDb * result bool) :=
  let '(w, s) := settle (_attempt db j) (OperatorAction (value ActionName.RESUME) None) now None
                   (Some EmptyString) (Some WAITING) (j, None) in
  (put_job (fst w) db,
   s ← s; Ok (negb (stale s) && (0 <? changed s) && bool_decide (j_state (fst w) = "queued"))).
End writes.
