(* ===== verification/JobQueue.v ===== *)
(** * The durable job queue

    [control/src/vonk_control/jobs.py] with its transaction boundary [optimistic.py] and the
    worker's turn ([worker.py], [_run_generic]).  A new identity or fence ([uuid4]) is an
    argument.  What other transactions commit between two reads of one operation is seen by
    giving the operation both databases; a commit the database refuses (a lost version
    comparison or a lock timeout) is [None] in place of the database it would have
    changed. *)
From S2P Require Import Prelude Vocabulary ReasonCodes LifecycleTypes LifecycleCore.
From S2P Require Import Sha256 Json PersistedWaits JobPayload JobAdapter.

(** What a worker holds while it runs a job. *)
Record AttemptFence := {
  af_job_id : string;
  af_attempt : Z;
  af_fence : string;
  af_worker_id : string;
  af_lease_deadline : instant;
  af_kind : string;
  af_payload : json;
  af_authority_revision : string;
  af_targets : list string;
}.

(** ** One optimistic transaction ([optimistic.transition]) *)
Inductive Outcome (A : Type) :=
| Applied (a : A)
| Stale.
Arguments Applied {A} a.
Arguments Stale {A}.

(** The decision is made on the first database, once more on a fresh one when the first
    commit is refused, and yields to the next tick when both are. *)
Definition optimistic {A} (decide : JobDb -> result A) (first second : option JobDb)
  : result (Outcome A) :=
  match first, second with
  | Some db, _ | None, Some db => a ← decide db; Ok (Applied a)
  | None, None => Ok Stale
  end.

(** ** Enqueue *)
Record request := {
  req_id : option string;
  req_kind : string;
  req_actor : string;
  req_authority_revision : string;
  req_targets : json;
  req_payload : list (string * json);
}.

(** The job a request asks for, its documents checked. *)
Definition requested_job (new_id new_request_id : string) (q : request) (now : instant)
  : result Job :=
  if negb (forallb (fun v => negb (bool_decide (strip v = EmptyString)))
             [req_kind q; req_actor q; req_authority_revision q])
  then invalid "job kind, actor, and authority revision are required" InvalidRequestReason.INCOMPLETE
  else
    targets ← _canonical_targets (req_targets q);
    '(clean, encoded) ← _canonical_payload (req_payload q) (Some (req_kind q));
    new_job {|
      j_id := new_id; j_request_id := default new_request_id (str_or (req_id q) None);
      j_kind := req_kind q; j_state := "queued"; j_actor := req_actor q;
      j_authority_revision := req_authority_revision q; j_targets := targets_json targets;
      j_payload_digest := Sha256.hexdigest encoded; j_payload := clean; j_result := None;
      j_status_reason := None; j_current_attempt := 0; j_created_at := Aware now;
      j_updated_at := Aware now; j_wait := WaitColumns NoEvidence None; j_clocks := NoClocks |}.

Definition _same_request (existing requested : Job) : bool :=
  bool_decide (j_kind existing = j_kind requested)
  && bool_decide (j_actor existing = j_actor requested)
  && bool_decide (j_authority_revision existing = j_authority_revision requested)
  && bool_decide (dumps (j_targets existing) = dumps (j_targets requested))
  && bool_decide (j_payload_digest existing = j_payload_digest requested).

Definition with_request (db : JobDb) (request_id : string) : option Job :=
  find (fun j => bool_decide (j_request_id j = request_id)) (job_rows db).

Definition already_used {A} : result A :=
  invalid "request key was already used differently" InvalidRequestReason.CONFLICT.

(** The committed job holding this request key, if it is the same request. *)
Definition _replayed (later : JobDb) (j : Job) : result (option Job) :=
  match with_request later (j_request_id j) with
  | None => Ok None
  | Some e => if _same_request e j then Ok (Some e) else already_used
  end.

Definition add_job (j : Job) (db : JobDb) : JobDb := {|
  job_rows := (job_rows db ++ [j])%list; attempt_rows := attempt_rows db;
  operated := operated db |}.

(** The transaction of a request: it looks for its key in [seen] and commits into [held],
    where the unique request key may have been taken meanwhile; that job is then read in
    [later].  [authority] is what the caller's authority check answers before the insert and
    after it. *)
Definition admit_job (j : Job) (authority : bool * bool) (seen held later : JobDb)
  : result (JobDb * Job) :=
  match with_request seen (j_request_id j) with
  | Some e =>
      _ ← _canonical_targets (j_targets e);
      if _same_request e j then Ok (held, e) else already_used
  | None =>
      let stale_evidence := invalid "fleet acceptance evidence is stale" InvalidRequestReason.SUPERSEDED in
      if negb (fst authority) then stale_evidence
      else
        match with_request held (j_request_id j) with
        | Some _ =>
            found ← _replayed later j;
            match found with
            | Some e => Ok (later, e)
            | None => Raise (ConstraintDefect "jobs_request_id_key")
            end
        | None => if snd authority then Ok (add_job j held, j) else stale_evidence
        end
  end.

Definition enqueue (new_id new_request_id : string) (q : request) (now : instant)
    (seen held later : JobDb) : result (JobDb * Job) :=
  j ← requested_job new_id new_request_id q now;
  admit_job j (true, true) seen held later.

(** [enqueue_guarded]: only while the acceptance evidence stays current. *)
Definition enqueue_guarded (new_id new_request_id : string) (q : request) (now : instant)
    (authority : bool * bool) (seen held later : JobDb) : result (JobDb * Job) :=
  j ← requested_job new_id new_request_id q now;
  admit_job j authority seen held later.

Definition get_job (db : JobDb) (job_id : string) : option Job :=
  find (fun j => bool_decide (j_id j = job_id)) (job_rows db).

(** [JobService.get] *)
Definition get (db : JobDb) (job_id : string) : result Job :=
  match get_job db job_id with
  | None => Raise (MissingRecord job_id (value InvalidRequestReason.NOT_FOUND))
  | Some j => _ ← _canonical_targets (j_targets j); Ok j
  end.

(** ** Claim *)
Definition without_agent_operation (db : JobDb) (j : Job) : bool := negb (mem (j_id j) (operated db)).

(** Some attempt of the job runs under a lease that lapsed. *)
Definition lapsed_lease (db : JobDb) (now : instant) (j : Job) : bool :=
  existsb (fun a => bool_decide (at_job_id a = j_id j) && bool_decide (at_state a = "running")
                    && (to_utc (at_lease_deadline a) <? now)) (attempt_rows db).

Definition claimable (db : JobDb) (kinds : list string) (job_id : option string) (now : instant)
    (j : Job) : bool :=
  mem (j_kind j) kinds
  && match job_id with Some i => bool_decide (j_id j = i) | None => true end
  && match wait_next_action_at (j_wait j) with Some t => to_utc t <=? now | None => true end
  && without_agent_operation db j
  && (bool_decide (j_state j = "queued") || lapsed_lease db now j).

(** [order_by(Job.created_at, Job.id)] *)
Definition job_order (x y : Job) : Prop :=
  to_utc (j_created_at x) < to_utc (j_created_at y)
  \/ to_utc (j_created_at x) = to_utc (j_created_at y) /\ str_le (j_id x) (j_id y).
#[global] Instance job_order_dec x y : base.Decision (job_order x y).
Proof. unfold job_order. apply _. Defined.

(** The job a claim takes: the oldest claimable one no other transaction has locked. *)
Definition next_job (db : JobDb) (kinds : list string) (job_id : option string)
    (locked : string -> bool) (now : instant) : option Job :=
  head (merge_sort job_order
          (List.filter (fun j => claimable db kinds job_id now j && negb (locked (j_id j)))
             (job_rows db))).

Section service.
Context (redact_text : string -> string).

Definition claim (worker_id : string) (lease_seconds : Z) (kinds : list string)
    (job_id : option string) (locked : string -> bool) (new_fence : string) (now : instant)
    (db : JobDb) : result (JobDb * option AttemptFence) :=
  if bool_decide (strip worker_id = EmptyString) || (lease_seconds <=? 0)
  then invalid "worker and positive lease are required" InvalidRequestReason.INCOMPLETE
  else
    match next_job db kinds job_id locked now with
    | None => Ok (db, None)
    | Some j =>
        targets ← _canonical_targets (j_targets j);
        let deadline := now + seconds lease_seconds in
        '(db', claimed) ← JobAdapter.claim redact_text db j worker_id new_fence deadline now;
        match claimed with
        | None => Ok (db', None)
        | Some a => Ok (db', Some {|
            af_job_id := j_id j; af_attempt := at_attempt a; af_fence := new_fence;
            af_worker_id := worker_id; af_lease_deadline := deadline; af_kind := j_kind j;
            af_payload := j_payload j; af_authority_revision := j_authority_revision j;
            af_targets := targets |})
        end
    end.

(** ** Writes under a fence *)
Definition with_fence (db : JobDb) (fence_ : string) : option JobAttempt :=
  find (fun a => bool_decide (at_fence a = fence_)) (attempt_rows db).

(** The job and the attempt of a fence that may still write. *)
Definition _active (db : JobDb) (f : AttemptFence) (now : instant) : result (Job * JobAttempt) :=
  match get_job db (af_job_id f), with_fence db (af_fence f) with
  | Some j, Some a =>
      if negb (j_current_attempt j =? af_attempt f) || negb (bool_decide (at_state a = "running"))
         || negb (bool_decide (at_worker_id a = af_worker_id f))
         || (to_utc (at_lease_deadline a) <=? now)
      then Raise (StaleAttempt "job attempt lease or fence is stale")
      else _ ← _canonical_targets (j_targets j); Ok (j, a)
  | _, _ => Raise (StaleAttempt "job attempt lease or fence is stale")
  end.

Definition contended {A} (msg : string) : result A :=
  Raise (UnknownOutcomeError msg (value WaitReason.SCOPE_CHANGED)).

Definition extend_lease (f : AttemptFence) (deadline now : instant) (db : JobDb)
  : result (JobDb * AttemptFence) :=
  '(j, a) ← _active db f now;
  '(j', a', _) ← JobAdapter.heartbeat j a deadline now;
  Ok (put_attempt a' (put_job j' db), {|
    af_job_id := af_job_id f; af_attempt := af_attempt f; af_fence := af_fence f;
    af_worker_id := af_worker_id f; af_lease_deadline := deadline; af_kind := af_kind f;
    af_payload := af_payload f; af_authority_revision := af_authority_revision f;
    af_targets := af_targets f |}).

Definition heartbeat (f : AttemptFence) (lease_seconds : Z) (now : instant)
    (first second : option JobDb) : result (JobDb * AttemptFence) :=
  if lease_seconds <=? 0 then invalid "lease must be positive" InvalidRequestReason.OUT_OF_RANGE
  else
    o ← optimistic (extend_lease f (now + seconds lease_seconds) now) first second;
    match o with
    | Applied v => Ok v
    | Stale => contended "Job heartbeat is contended; observe again on the next tick"
    end.

Definition end_attempt (f : AttemptFence) (succeeded : bool) (result_ : option json)
    (why : option string) (now : instant) (db : JobDb) : result JobDb :=
  '(j, a) ← _active db f now;
  '(j', a', _) ← JobAdapter.finish redact_text j a succeeded result_ why now;
  Ok (put_attempt a' (put_job j' db)).

Definition _finish (f : AttemptFence) (succeeded : bool) (result_ : option json)
    (why : option string) (now : instant) (first second : option JobDb) : result JobDb :=
  o ← optimistic (end_attempt f succeeded result_ why now) first second;
  match o with
  | Applied db => Ok db
  | Stale => contended "Job completion is contended; observe again on the next tick"
  end.

Definition succeed (f : AttemptFence) (result_ : list (string * json)) (now : instant)
    (first second : option JobDb) : result JobDb :=
  '(clean, _) ← _canonical_payload result_ None;
  _finish f true (Some clean) None now first second.

Definition fail (f : AttemptFence) (why : string) (now : instant) (first second : option JobDb)
  : result JobDb :=
  _finish f false None (Some why) now first second.

(** ** A worker's turn *)

(** What a handler returned, or the text of the exception it raised. *)
Definition handled : Type := list (string * json) + string.

(** [_run_generic]: claim one job of the handled kinds, run its handler, and report.
    [meanwhile] is what other transactions commit while the handler runs, and the report
    is made at [later]. *)
Definition _run_generic (handlers : list (string * (AttemptFence -> handled))) (worker_id : string)
    (job_id : option string) (locked : string -> bool) (new_fence : string) (now later : instant)
    (meanwhile : JobDb -> option JobDb * option JobDb) (db : JobDb) : result (JobDb * bool) :=
  '(db', claimed) ← claim worker_id 30 (fst <$> handlers) job_id locked new_fence now db;
  match claimed with
  | None => Ok (db', false)
  | Some f =>
      match snd <$> find (fun h => String.eqb (fst h) (af_kind f)) handlers with
      | None => Raise (KeyError (af_kind f))
      | Some handler =>
          let '(first, second) := meanwhile db' in
          db'' ← match handler f with
                 | inl result_ => succeed f result_ later first second
                 | inr why => fail f why later first second
                 end;
          Ok (db'', true)
      end
  end.
End service.
