(* ===== verification/JobQueueFacts.v ===== *)
(** * Facts of the job queue

    Every operation of the queue changes the rows of at most one job, in one of four ways
    ([change]); the rules of the tables and the fencing of workers follow along every
    history of operations ([queue_step]). *)
From S2P Require Import Prelude Vocabulary ReasonCodes Disposition Recovery.
From S2P Require Import LifecycleTypes LifecycleCore LifecycleFacts Reconciler.
From S2P Require Import Json PersistedWaits JobPayload JobAdapter JobQueue.

(** ** What the adapter decides *)
Definition cleared : ScheduledWaitOwner := WaitColumns NoEvidence None.

Definition taken_job (now : instant) (j : Job) : Job :=
  write_job "running" (j_result j) (j_status_reason j) (j_current_attempt j + 1) (Aware now)
    cleared j.

Definition fresh_attempt (j : Job) (worker fence_ : string) (lease : instant) : JobAttempt := {|
  at_job_id := j_id j; at_attempt := j_current_attempt j + 1; at_fence := fence_;
  at_worker_id := worker; at_lease_deadline := Aware lease; at_state := "running";
  at_observation_cause := None |}.

Lemma claimed_runs r f lease now :
  state r = State.QUEUED \/ (state r = State.BACKOFF /\ next_action_at r = None) ->
  cancel_requested_at r = None ->
  exists d, transition r (Claimed (attempt r + 1) f lease) job_kind now = Ok d /\
    state (row d) = State.RUNNING /\ attempt (row d) = attempt r + 1 /\
    next_action_at (row d) = Some lease /\ lease_deadline (row d) = Some lease.
Proof.
  intros Hst Hc. unfold transition, terminal, deadline_passed, adapter_deadline, cancel_requested.
  simpl. unfold _claimed, cancel_requested.
  destruct Hst as [Hs|[Hs Hn]]; rewrite Hs, Hc; try rewrite Hn; simpl;
    (destruct (Z.leb_spec (attempt r + 1) (attempt r)); [lia|]); simpl; eexists; done.
Qed.

(** A lapsed lease of a running job is a retry of the core. *)
Lemma lapse_retries r why now :
  id r <> EmptyString -> state r = State.RUNNING -> cancel_requested_at r = None ->
  recovery_deadline r = None ->
  exists d, transition r (LeaseLapsed why) job_kind now = Ok d /\
    state (row d) = State.BACKOFF /\ attempt (row d) = attempt r /\
    cancel_requested_at (row d) = None.
Proof.
  intros Hid Hs Hc Hr. unfold transition, terminal, deadline_passed, adapter_deadline.
  rewrite Hs. simpl. unfold _lapsed, cancel_requested. rewrite Hs, Hc. simpl.
  unfold _uncertain. rewrite Hr. unfold blind_retry_is_safe. simpl. rewrite orb_true_r.
  destruct (retry_total r now job_kind (effect r) (str_or why (Some (value WaitReason.LEASE_LAPSED)))
              None true Hid) as [d Hd].
  exists d. split; [exact Hd|]. revert Hd. unfold _retry. destruct (_due _ _ _ _ _); [|done].
  simpl. intros. by simplify_eq.
Qed.

Lemma core_queued j : j_state j = "queued" -> JobStates.core (Some (j_state j)) = Some State.QUEUED.
Proof. intros ->. reflexivity. Qed.
Lemma core_running j : j_state j = "running" -> JobStates.core (Some (j_state j)) = Some State.RUNNING.
Proof. intros ->. reflexivity. Qed.

(** A running row writes no wait, and keeps the columns a claim does not name. *)
Lemma apply_running redact j after now l :
  state after = State.RUNNING -> lease_deadline after = Some l ->
  apply redact j after now None None None =
  Ok (write_job "running" (j_result j) (j_status_reason j) (j_current_attempt j) (Aware now)
        cleared j, None).
Proof.
  intros Hs Hl. unfold apply. rewrite Hs, Hl. simpl. unfold lifecycle_wait, lifecycle_waits. simpl.
  rewrite !andb_false_r. simpl. unfold terminal. by rewrite Hs.
Qed.

(** The rows before a claim adds its own: the previous attempt can no longer report. *)
Definition lapse_previous (j : Job) (db : JobDb) : JobDb :=
  match _attempt db j with Some p => put_attempt (lapse_attempt p) db | None => db end.

Lemma claim_takes redact db j worker fence_ lease now :
  j_id j <> EmptyString -> j_state j = "queued" \/ j_state j = "running" ->
  JobAdapter.claim redact db j worker fence_ lease now =
  Ok (add_attempt (fresh_attempt j worker fence_ lease) (put_job (taken_job now j) (lapse_previous j db)),
      Some (fresh_attempt j worker fence_ lease)).
Proof.
  intros Hid Hst. unfold JobAdapter.claim. set (r := lifecycle j (_attempt db j)).
  set (first_ := if same (state r) State.RUNNING then _ else _).
  assert (exists r', first_ = Ok r' /\ attempt r' = j_current_attempt j /\
            cancel_requested_at r' = None /\
            (state r' = State.QUEUED \/ state r' = State.BACKOFF /\ next_action_at r' = None))
    as (r' & -> & Ha & Hc & Hs).
  { subst first_. destruct Hst as [Hq|Hr].
    - replace (same (state r) State.RUNNING) with false by (unfold r; simpl; by rewrite Hq).
      exists r. split_and!; [done..|]. left. unfold r. simpl. by rewrite Hq.
    - replace (same (state r) State.RUNNING) with true by (unfold r; simpl; by rewrite Hr).
      destruct (lapse_retries r (Some "the attempt lease lapsed") now) as (d & -> & Hb & Hn & Hcc);
        [done|unfold r; simpl; by rewrite Hr|done|done|].
      simpl. eexists. split_and!; [done|exact Hn|exact Hcc|]. right. split; [exact Hb|done]. }
  destruct (claimed_runs r' fence_ lease now Hs Hc) as (d & Hd & Hrun & Hat & Hnx & Hle).
  cbn [mbind result_bind]. rewrite Hd. cbn [mbind result_bind]. rewrite Hrun, Hat, Z.eqb_refl, Ha. simpl.
  rewrite (apply_running redact _ (row d) now lease Hrun Hle). done.
Qed.

(** A heartbeat moves only the job's update time and the attempt's lease, and the lease only
    out. *)
Lemma heartbeat_extends j a lease now :
  j_state j = "running" ->
  exists u l b, JobAdapter.heartbeat j a lease now =
    Ok (write_job (j_state j) (j_result j) (j_status_reason j) (j_current_attempt j) u (j_wait j) j,
        write_attempt (at_state a) (at_observation_cause a) l a, b) /\
    to_utc (at_lease_deadline a) <= to_utc l.
Proof.
  intros Hr. unfold JobAdapter.heartbeat.
  set (r := lifecycle j (Some a)).
  assert (state r = State.RUNNING) as Hs by (unfold r; simpl; by rewrite Hr).
  assert (lease_deadline r = Some (to_utc (at_lease_deadline a))) as Hl
    by (unfold r; simpl; by rewrite Hr).
  assert (transition r (Heartbeat (Some (at_fence a)) lease) job_kind now = Ok (_heartbeat r lease))
    as ->.
  { unfold transition, terminal, deadline_passed. rewrite Hs. simpl. rewrite Hr. simpl.
    by rewrite bool_decide_eq_true_2. }
  cbn [mbind result_bind]. unfold _heartbeat. rewrite Hs, Hl. simpl.
  assert (j = write_job (j_state j) (j_result j) (j_status_reason j) (j_current_attempt j)
                (j_updated_at j) (j_wait j) j) as Hj by by destruct j.
  assert (a = write_attempt (at_state a) (at_observation_cause a) (at_lease_deadline a) a) as Ha
    by by destruct a.
  destruct (Z.leb_spec lease (to_utc (at_lease_deadline a))); cbn [row]; rewrite ?Hl;
    case_bool_decide as Hd; simpl in *; simplify_eq.
  - eexists _, _, _. split; [done|]. simpl; lia.
  - exists (j_updated_at j), (at_lease_deadline a), false. rewrite <- Hj, <- Ha. split; [done|lia].
  - eexists _, _, _. split; [done|]. simpl; lia.
Qed.

Definition ended_word (succeeded : bool) : string := if succeeded then "succeeded" else "failed".

Definition ended_job (redact : string -> string) (succeeded : bool) (result_ : option json)
    (why : option string) (now : instant) (j : Job) : Job :=
  write_job (ended_word succeeded) result_ (w ← why; stored_reason redact w) (j_current_attempt j)
    (Aware now) cleared j.

Lemma finish_ends redact j a succeeded result_ why now :
  j_state j = "running" ->
  JobAdapter.finish redact j a succeeded result_ why now =
  Ok (ended_job redact succeeded result_ why now j, set_attempt_state (ended_word succeeded) a, true).
Proof.
  intros Hr. unfold JobAdapter.finish.
  set (r := lifecycle j (Some a)).
  assert (state r = State.RUNNING) as Hs by (unfold r; simpl; by rewrite Hr).
  assert (fence r = Some (at_fence a)) as Hf by (unfold r; simpl; by rewrite Hr).
  replace (terminal r) with false by (unfold terminal; by rewrite Hs).
  assert (exists d, transition r (Reported (finish_report (at_fence a) succeeded why)) job_kind now = Ok d
            /\ state (row d) = if succeeded then State.SUCCEEDED else State.FAILED) as (d & -> & Hd).
  { unfold transition, terminal, deadline_passed, _stale. rewrite Hs, Hf. simpl.
    destruct succeeded; simpl; rewrite bool_decide_eq_true_2 by done; eexists; split; done. }
  cbn [mbind result_bind]. unfold terminal. unfold apply.
  destruct succeeded; rewrite Hd; simpl; unfold lifecycle_wait, lifecycle_waits, terminal; simpl;
    rewrite ?Hd; simpl; done.
Qed.

(** Only a job that waits for an operator is resumed, to the queue. *)
Definition resumed_job (now : instant) (j : Job) : Job :=
  write_job "queued" (j_result j) None (j_current_attempt j) (Aware now) cleared j.

Lemma resume_queues redact db j now db' b :
  resume redact db j now = (db', Ok b) ->
  db' = put_job j db \/ (j_state j = WAITING /\ db' = put_job (resumed_job now j) db).
Proof.
  unfold resume. intros H. unfold settle, Reconciler.settle in H. cbn [fst snd] in H.
  unfold MAX_STEPS_PER_ROW in H. cbn [settle_loop] in H.
  remember (lifecycle j (or_else None (_attempt db j))) as r eqn:Hrow. clear Hrow.
  cbn [reads job_executor] in H.
  destruct (transition r (OperatorAction (value ActionName.RESUME) None) job_kind now) as [d|e] eqn:Hd;
    [|simpl in H; simplify_eq].
  assert (d = Decided r [] \/
          (state r = State.NEEDS_OPERATOR /\ commands d = [] /\ state (row d) = State.QUEUED /\
           next_action_at (row d) = None)) as Hcases.
  { unfold transition in Hd. destruct (terminal r); [simpl in Hd; simplify_eq; by left|].
    unfold _stale, deadline_passed, adapter_deadline in Hd. simpl in Hd. unfold _operator in Hd.
    simpl in Hd. unfold actions_of in Hd.
    destruct (same (state r) State.NEEDS_OPERATOR) eqn:Hn; simpl in Hd; [|simplify_eq; by left].
    apply (proj1 (same_true _ _)) in Hn. rewrite Hn in Hd. simpl in Hd. simplify_eq. right. by simpl. }
  destruct Hcases as [->|(Hn & Hcs & Hq & Hnx)].
  - rewrite bool_decide_eq_true_2 in H by done. simpl in H. simplify_eq. by left.
  - rewrite bool_decide_eq_false_2 in H
      by (intros E; rewrite E, Hn in Hq; done).
    case_bool_decide as Hw; simpl in H; [|simplify_eq; by left].
    right. split; [exact Hw|].
    unfold apply in H. rewrite Hq, Hnx in H. simpl in H. unfold lifecycle_wait, lifecycle_waits in H.
    simpl in H. unfold terminal in H. rewrite Hq in H. simpl in H. rewrite Hcs in H. simpl in H.
    by simplify_eq.
Qed.

(** ** The rules of the tables *)
Definition attempts_of (db : JobDb) (i : string) : list JobAttempt :=
  List.filter (fun a => bool_decide (at_job_id a = i)) (attempt_rows db).

(** A job and its attempts: they are numbered from 1, the only one that may run is the
    current one, and a job runs exactly while one does. *)
Record job_ok (j : Job) (l : list JobAttempt) : Prop := {
  ok_id : j_id j <> EmptyString;
  ok_count : 0 <= j_current_attempt j;
  ok_targets : is_ok (_canonical_targets (j_targets j));
  ok_numbers : Forall (fun a => 1 <= at_attempt a <= j_current_attempt j) l;
  ok_distinct : NoDup (at_attempt <$> l);
  ok_running : forall a, a ∈ l -> at_state a = "running" ->
    at_attempt a = j_current_attempt j /\ j_state j = "running";
  ok_held : j_state j = "running" -> exists a, a ∈ l /\ at_state a = "running";
}.

(** The tables of the jobs this service runs.  The coordinator rows of [lifecycle/job.py] and
    [distributed_recovery/authority.py], which are created running and never have an attempt, are
    driven by their own owners and lie outside it. *)
Record queue_ok (db : JobDb) : Prop := {
  ids_distinct : NoDup (j_id <$> job_rows db);
  requests_distinct : NoDup (j_request_id <$> job_rows db);
  fences_distinct : NoDup (at_fence <$> attempt_rows db);
  jobs_ok : forall j, j ∈ job_rows db -> job_ok j (attempts_of db (j_id j));
  attempts_owned : forall a, a ∈ attempt_rows db -> exists j, j ∈ job_rows db /\ at_job_id a = j_id j;
}.

Lemma elem_of_attempts db i a : a ∈ attempts_of db i <-> a ∈ attempt_rows db /\ at_job_id a = i.
Proof. unfold attempts_of. rewrite !list_elem_of_In, filter_In. by rewrite bool_decide_eq_true. Qed.

(** ** What an operation does to one job *)
Definition replace_attempt (a : JobAttempt) (l : list JobAttempt) : list JobAttempt :=
  (fun r => if bool_decide (at_fence r = at_fence a) then a else r) <$> l.

Definition current (j : Job) (l : list JobAttempt) : option JobAttempt :=
  if j_current_attempt j =? 0 then None else find (fun a => at_attempt a =? j_current_attempt j) l.

Definition lapse_current (j : Job) (l : list JobAttempt) : list JobAttempt :=
  match current j l with Some p => replace_attempt (lapse_attempt p) l | None => l end.

(** The label of a change is the fence it is made under. *)
Inductive change (redact : string -> string) (now : instant)
  : option string -> Job -> list JobAttempt -> Job -> list JobAttempt -> Prop :=
| taken j l worker fence_ lease :
    j_state j = "queued" \/ j_state j = "running" ->
    Forall (fun a => at_state a = "running" -> to_utc (at_lease_deadline a) < now) l ->
    change redact now None j l (taken_job now j)
      (lapse_current j l ++ [fresh_attempt j worker fence_ lease])
| extended j l a u lease' :
    a ∈ l -> at_state a = "running" -> to_utc (at_lease_deadline a) <= to_utc lease' ->
    change redact now (Some (at_fence a)) j l
      (write_job (j_state j) (j_result j) (j_status_reason j) (j_current_attempt j) u (j_wait j) j)
      (replace_attempt (write_attempt (at_state a) (at_observation_cause a) lease' a) l)
| ended j l a succeeded result_ why :
    a ∈ l -> at_state a = "running" -> now < to_utc (at_lease_deadline a) ->
    change redact now (Some (at_fence a)) j l (ended_job redact succeeded result_ why now j)
      (replace_attempt (set_attempt_state (ended_word succeeded) a) l)
| resumed j l :
    j_state j = WAITING -> change redact now None j l (resumed_job now j) l.

(** The columns no operation writes. *)
Record same_job (j j' : Job) : Prop := {
  same_id : j_id j' = j_id j;
  same_request_id : j_request_id j' = j_request_id j;
  same_kind : j_kind j' = j_kind j;
  same_actor : j_actor j' = j_actor j;
  same_revision : j_authority_revision j' = j_authority_revision j;
  same_targets : j_targets j' = j_targets j;
  same_digest : j_payload_digest j' = j_payload_digest j;
  same_payload : j_payload j' = j_payload j;
  same_created : j_created_at j' = j_created_at j;
  same_counted : j_current_attempt j <= j_current_attempt j';
}.

#[global] Instance same_job_preorder : PreOrder same_job.
Proof. split; [intros j; by constructor|]. intros x y z [] []. constructor; try congruence. lia. Qed.

Lemma change_same redact now lbl j l j' l' : change redact now lbl j l j' l' -> same_job j j'.
Proof. intros []; constructor; simpl; try done; lia. Qed.

Lemma replace_elem a l x : x ∈ replace_attempt a l -> x = a \/ (x ∈ l /\ at_fence x <> at_fence a).
Proof.
  unfold replace_attempt. intros (r & -> & Hr)%list_elem_of_fmap. case_bool_decide; [by left|by right].
Qed.

Lemma replace_forall (P : JobAttempt -> Prop) a l : Forall P l -> P a -> Forall P (replace_attempt a l).
Proof.
  rewrite !Forall_forall. intros Hl Ha x [->|[Hx _]]%replace_elem; [done|by apply Hl].
Qed.

Lemma replace_map {B} (g : JobAttempt -> B) a l :
  (forall x, x ∈ l -> at_fence x = at_fence a -> g x = g a) -> g <$> replace_attempt a l = g <$> l.
Proof.
  intros Hg. unfold replace_attempt. rewrite <- list_fmap_compose. apply list_fmap_ext.
  intros i x Hx. simpl. case_bool_decide; [|done]. symmetry. apply Hg; [by eapply list_elem_of_lookup_2|done].
Qed.

Lemma replace_present a b l : b ∈ l -> at_fence b = at_fence a -> a ∈ replace_attempt a l.
Proof.
  intros Hb Hf. apply list_elem_of_fmap. exists b. split; [|done]. by rewrite bool_decide_eq_true_2.
Qed.

Lemma current_Some j l p : current j l = Some p -> p ∈ l /\ at_attempt p = j_current_attempt j.
Proof.
  unfold current. destruct (_ =? 0); [done|]. intros [Hin He]%find_some.
  split; [by apply list_elem_of_In|]. by apply Z.eqb_eq.
Qed.

(** The current attempt is the only one that may run. *)
Lemma running_is_current j l a :
  job_ok j l -> a ∈ l -> at_state a = "running" -> current j l = Some a.
Proof.
  intros Hok Ha Hr. destruct (ok_running j l Hok a Ha Hr) as [Hn _].
  pose proof (ok_numbers j l Hok) as Hnum. rewrite Forall_forall in Hnum.
  pose proof (Hnum a Ha). unfold current. destruct (Z.eqb_spec (j_current_attempt j) 0); [lia|].
  destruct (find _ l) as [p|] eqn:Hf.
  - apply find_some in Hf as [Hp Hq]. f_equal.
    eapply (key_inj at_attempt); [apply Hok|by apply list_elem_of_In|done|]. apply Z.eqb_eq in Hq. lia.
  - exfalso. apply list_elem_of_In in Ha. pose proof (find_none _ _ Hf a Ha) as Hno. simpl in Hno.
    rewrite Hn in Hno. by rewrite Z.eqb_refl in Hno.
Qed.

Lemma lapse_current_stopped j l x : job_ok j l -> x ∈ lapse_current j l -> at_state x <> "running".
Proof.
  unfold lapse_current. intros Hok. destruct (current j l) as [p|] eqn:Hc.
  - intros [->|[Hx Hf]]%replace_elem; [done|]. intros Hr.
    rewrite (running_is_current j l x Hok Hx Hr) in Hc. by simplify_eq.
  - intros Hx Hr. by rewrite (running_is_current j l x Hok Hx Hr) in Hc.
Qed.

(** Lapsing or ending an attempt keeps what names it. *)
Lemma replace_names {B} (g : JobAttempt -> B) a b l :
  NoDup (at_fence <$> l) -> a ∈ l -> at_fence b = at_fence a -> g b = g a ->
  g <$> replace_attempt b l = g <$> l.
Proof.
  intros Hn Ha Hf Hg. apply replace_map. intros x Hx E. rewrite Hg. f_equal.
  eapply (key_inj at_fence); eauto. congruence.
Qed.

Lemma lapse_current_names {B} (g : JobAttempt -> B) j l :
  NoDup (at_fence <$> l) -> (forall a, g (lapse_attempt a) = g a) ->
  g <$> lapse_current j l = g <$> l.
Proof.
  intros Hn Hg. unfold lapse_current. destruct (current j l) as [p|] eqn:Hc; [|done].
  apply current_Some in Hc as [Hp _]. by eapply replace_names.
Qed.

Lemma job_ok_running j l j' l' :
  job_ok j l -> same_job j j' -> j_current_attempt j' = j_current_attempt j ->
  at_attempt <$> l' = at_attempt <$> l ->
  (forall a, a ∈ l' -> at_state a = "running" ->
     at_attempt a = j_current_attempt j' /\ j_state j' = "running") ->
  (j_state j' = "running" -> exists a, a ∈ l' /\ at_state a = "running") ->
  job_ok j' l'.
Proof.
  intros [] Hs Hc Hn Hr Hh. destruct Hs. constructor; try congruence; rewrite ?Hn; try done.
  assert (Forall (fun n => 1 <= n <= j_current_attempt j') (at_attempt <$> l')) as Hall
    by (rewrite Hn, Hc; by apply Forall_fmap).
  by apply Forall_fmap in Hall.
Qed.

Lemma change_job_ok redact now lbl j l j' l' :
  job_ok j l -> NoDup (at_fence <$> l) -> change redact now lbl j l j' l' -> job_ok j' l'.
Proof.
  intros Hok Hf Hc. pose proof (change_same _ _ _ _ _ _ _ Hc) as Hsame.
  destruct Hc as [j l w f lease Hst Hl|j l a u lease' Ha Hr Hle|j l a s res why Ha Hr Hle|j l Hw].
  - assert (at_attempt <$> lapse_current j l = at_attempt <$> l) as Hn
      by by apply lapse_current_names.
    pose proof (ok_numbers j l Hok) as Hnum. pose proof (ok_count j l Hok).
    assert (Forall (fun n => 1 <= n <= j_current_attempt j) (at_attempt <$> l)) as Hnum'
      by by apply Forall_fmap.
    constructor; simpl; try apply Hok; try lia.
    + apply Forall_app; split; [|constructor; [simpl; lia|constructor]].
      rewrite <- Hn, Forall_fmap in Hnum'. eapply Forall_impl; [exact Hnum'|]. simpl. lia.
    + rewrite fmap_app, Hn. apply NoDup_app. split_and!; [apply Hok| |apply NoDup_singleton].
      intros n Hin Hs. apply list_elem_of_singleton in Hs as ->.
      rewrite Forall_forall in Hnum'. apply Hnum' in Hin. simpl in Hin. lia.
    + intros a [Ha|Ha]%elem_of_app Hr; [by apply lapse_current_stopped in Ha|].
      apply list_elem_of_singleton in Ha as ->. done.
    + intros _. eexists. split; [apply elem_of_app; right; by apply list_elem_of_singleton|done].
  - eapply job_ok_running; [exact Hok|done|done|by eapply replace_names| |].
    + intros x [->|[Hx _]]%replace_elem Hx'; simpl in *; by eapply ok_running.
    + simpl. intros _. eexists. split; [eapply replace_present; [exact Ha|done]|done].
  - eapply job_ok_running; [exact Hok|done|done|by eapply replace_names| |].
    + intros x [->|[Hx Hne]]%replace_elem Hx'; [by destruct s|]. simpl in *.
      pose proof (running_is_current _ _ _ Hok Hx Hx'). pose proof (running_is_current _ _ _ Hok Ha Hr).
      congruence.
    + by destruct s.
  - eapply job_ok_running; [exact Hok|done|done|done| |done].
    intros a Ha Hr. destruct (ok_running j l Hok a Ha Hr) as [? Hb]. by rewrite Hw in Hb.
Qed.

(** ** What an operation does to the tables *)
Inductive evolves (redact : string -> string) (now : instant)
  : option string -> JobDb -> JobDb -> Prop :=
| kept lbl db : evolves redact now lbl db db
| added db j :
    j_id j ∉ j_id <$> job_rows db -> j_request_id j ∉ j_request_id <$> job_rows db ->
    j_state j = "queued" -> job_ok j [] -> evolves redact now None db (add_job j db)
| moved lbl db db' j j' l' :
    j ∈ job_rows db -> change redact now lbl j (attempts_of db (j_id j)) j' l' ->
    job_rows db' = job_rows (put_job j' db) -> attempts_of db' (j_id j) = l' ->
    (forall i, i <> j_id j -> attempts_of db' i = attempts_of db i) ->
    NoDup (at_fence <$> attempt_rows db') -> evolves redact now lbl db db'.

Lemma put_job_ids j db : j_id <$> job_rows (put_job j db) = j_id <$> job_rows db.
Proof.
  simpl. rewrite <- list_fmap_compose. apply list_fmap_ext. intros i x _. simpl. by case_bool_decide.
Qed.

Lemma put_job_elem j db x :
  x ∈ job_rows (put_job j db) -> x = j \/ (x ∈ job_rows db /\ j_id x <> j_id j).
Proof. simpl. intros (r & -> & Hr)%list_elem_of_fmap. case_bool_decide; [by left|by right]. Qed.

Lemma put_job_here j j' db : j ∈ job_rows db -> j_id j' = j_id j -> j' ∈ job_rows (put_job j' db).
Proof.
  intros Hj E. apply list_elem_of_fmap. exists j. split; [|done]. by rewrite bool_decide_eq_true_2.
Qed.

Lemma put_job_there j' x db : x ∈ job_rows db -> j_id x <> j_id j' -> x ∈ job_rows (put_job j' db).
Proof.
  intros Hj E. apply list_elem_of_fmap. exists x. split; [|done]. by rewrite bool_decide_eq_false_2.
Qed.

Lemma put_job_names {B} (g : Job -> B) j j' db :
  NoDup (j_id <$> job_rows db) -> j ∈ job_rows db -> same_job j j' -> g j' = g j ->
  g <$> job_rows (put_job j' db) = g <$> job_rows db.
Proof.
  intros Hn Hj Hs Hg. simpl. rewrite <- list_fmap_compose. apply list_fmap_ext. intros i x Hx. simpl.
  case_bool_decide as E; [|done]. rewrite Hg. f_equal. symmetry.
  eapply (key_inj j_id); eauto using list_elem_of_lookup_2. rewrite E. by apply Hs.
Qed.

Lemma attempts_fences db i : NoDup (at_fence <$> attempt_rows db) -> NoDup (at_fence <$> attempts_of db i).
Proof.
  unfold attempts_of. generalize (attempt_rows db). induction l as [|a l IH]; [done|].
  rewrite fmap_cons, NoDup_cons. intros [Ha Hl]. simpl. case_bool_decide; [|by apply IH].
  rewrite fmap_cons, NoDup_cons. split; [|by apply IH]. contradict Ha.
  apply list_elem_of_fmap in Ha as (b & Hb & Hin). apply list_elem_of_fmap. exists b. split; [done|].
  apply list_elem_of_In, filter_In in Hin as [? _]. by apply list_elem_of_In.
Qed.

Lemma evolves_ok redact now lbl db db' : queue_ok db -> evolves redact now lbl db db' -> queue_ok db'.
Proof.
  intros Hok He.
  destruct He as [lbl db0|db0 j Hi Hr Hq Hj|lbl db0 db0' j j' l' Hj Hc Hrows Hl Hother Hf]; [done| |].
  - destruct Hok as [Hid Hreq Hfen Hjobs Hown]. constructor; simpl; rewrite ?fmap_app.
    + apply NoDup_app. split_and!; [done| |apply NoDup_singleton].
      intros x Hx Hs. apply list_elem_of_singleton in Hs as ->. done.
    + apply NoDup_app. split_and!; [done| |apply NoDup_singleton].
      intros x Hx Hs. apply list_elem_of_singleton in Hs as ->. done.
    + done.
    + intros x [Hx|Hs]%elem_of_app; [by apply Hjobs|]. apply list_elem_of_singleton in Hs as ->.
      replace (attempts_of _ (j_id j)) with (@nil JobAttempt); [done|]. symmetry.
      destruct (attempts_of _ (j_id j)) as [|a l] eqn:E; [done|].
      assert (a ∈ attempts_of (add_job j db0) (j_id j)) as Ha by (rewrite E; left).
      apply elem_of_attempts in Ha as [Ha He]. simpl in Ha. destruct (Hown a Ha) as (x & Hx & Hxe).
      exfalso. apply Hi. rewrite <- He, Hxe. by apply list_elem_of_fmap_2.
    + intros a Ha. destruct (Hown a Ha) as (x & Hx & Hxe). exists x. split; [|done].
      apply elem_of_app. by left.
  - pose proof (change_same _ _ _ _ _ _ _ Hc) as Hs. pose proof (same_id _ _ Hs) as Hid.
    constructor; rewrite ?Hrows.
    + rewrite put_job_ids. apply Hok.
    + rewrite (put_job_names _ j); [apply Hok|apply Hok|done|done|apply Hs].
    + done.
    + intros x [->|[Hx Hne]]%put_job_elem.
      * rewrite Hid, Hl. eapply change_job_ok; [by apply jobs_ok| |exact Hc].
        apply attempts_fences, Hok.
      * rewrite Hother by congruence. by apply jobs_ok.
    + intros a Ha. destruct (decide (at_job_id a = j_id j)) as [E|E].
      * exists j'. split; [by eapply put_job_here|congruence].
      * assert (a ∈ attempts_of db0' (at_job_id a)) as Hin by by apply elem_of_attempts.
        rewrite Hother in Hin by done. apply elem_of_attempts in Hin as [Hin _].
        destruct (attempts_owned _ Hok a Hin) as (x & Hx & Hxe). exists x. split; [|done].
        apply put_job_there; congruence.
Qed.

(** ** Rows of one job among all rows *)
Lemma filter_replace (p : JobAttempt -> bool) a l :
  (forall x, x ∈ l -> at_fence x = at_fence a -> p x = p a) ->
  List.filter p (replace_attempt a l) = replace_attempt a (List.filter p l).
Proof.
  unfold replace_attempt. induction l as [|x l IH]; intros Hp; [done|]. rewrite fmap_cons. simpl.
  rewrite IH by (intros; apply Hp; [by right|done]).
  pose proof (Hp x (list_elem_of_here _ _)) as Hx. case_bool_decide as E.
  - rewrite <- Hx by done. destruct (p x); [|done]. by rewrite fmap_cons, bool_decide_eq_true_2.
  - destruct (p x); [|done]. by rewrite fmap_cons, bool_decide_eq_false_2.
Qed.

Lemma replace_absent a l : (forall x, x ∈ l -> at_fence x <> at_fence a) -> replace_attempt a l = l.
Proof.
  induction l as [|x l IH]; intros Hp; [done|]. unfold replace_attempt. rewrite fmap_cons.
  rewrite bool_decide_eq_false_2 by (apply Hp; left). f_equal. apply IH. intros. apply Hp. by right.
Qed.

(** Replacing an attempt by one with its names changes the rows of its own job only. *)
Lemma attempts_put a b db i :
  NoDup (at_fence <$> attempt_rows db) -> a ∈ attempt_rows db -> at_fence b = at_fence a ->
  at_job_id b = at_job_id a ->
  attempts_of (put_attempt b db) i =
  if bool_decide (at_job_id a = i) then replace_attempt b (attempts_of db i) else attempts_of db i.
Proof.
  intros Hn Ha Hf Hj. unfold attempts_of. simpl. fold (replace_attempt b (attempt_rows db)).
  assert (forall x, x ∈ attempt_rows db -> at_fence x = at_fence b -> x = a) as Hx
    by (intros; eapply (key_inj at_fence); eauto; congruence).
  rewrite filter_replace.
  - case_bool_decide as E; [done|]. apply replace_absent. intros x [Hin Hp]%list_elem_of_In%filter_In.
    apply list_elem_of_In in Hin. intros Hfx. rewrite (Hx x Hin Hfx) in Hp.
    rewrite bool_decide_eq_false_2 in Hp by done. done.
  - intros x Hin Hfx. rewrite (Hx x Hin Hfx), Hj. done.
Qed.

Lemma fences_put a b db :
  NoDup (at_fence <$> attempt_rows db) -> a ∈ attempt_rows db -> at_fence b = at_fence a ->
  at_fence <$> attempt_rows (put_attempt b db) = at_fence <$> attempt_rows db.
Proof. intros. by eapply replace_names. Qed.

Lemma attempts_put_job j db i : attempts_of (put_job j db) i = attempts_of db i.
Proof. done. Qed.

Lemma attempts_add a db i :
  attempts_of (add_attempt a db) i =
  (attempts_of db i ++ if bool_decide (at_job_id a = i) then [a] else [])%list.
Proof. unfold attempts_of. simpl. rewrite List.filter_app. simpl. by case_bool_decide. Qed.

Lemma find_of_filter {A} (p q : A -> bool) l :
  find (fun x => p x && q x) l = find q (List.filter p l).
Proof.
  induction l as [|x l IH]; [done|]. simpl. destruct (p x); simpl; [|done]. by destruct (q x).
Qed.

(** The attempt the adapter reads is the current one of the job's own rows. *)
Lemma attempt_current db j : _attempt db j = current j (attempts_of db (j_id j)).
Proof. unfold _attempt, current, attempts_of. destruct (_ =? 0); [done|]. apply find_of_filter. Qed.

Lemma lapse_previous_spec j db :
  NoDup (at_fence <$> attempt_rows db) ->
  attempts_of (lapse_previous j db) (j_id j) = lapse_current j (attempts_of db (j_id j)) /\
  (forall i, i <> j_id j -> attempts_of (lapse_previous j db) i = attempts_of db i) /\
  at_fence <$> attempt_rows (lapse_previous j db) = at_fence <$> attempt_rows db /\
  job_rows (lapse_previous j db) = job_rows db.
Proof.
  intros Hn. unfold lapse_previous, lapse_current. rewrite attempt_current.
  destruct (current j (attempts_of db (j_id j))) as [p|] eqn:Hc; [|done].
  apply current_Some in Hc as [[Hp He]%elem_of_attempts _].
  split_and!.
  - rewrite (attempts_put p) by done. by rewrite bool_decide_eq_true_2.
  - intros i Hi. rewrite (attempts_put p) by done. by rewrite bool_decide_eq_false_2 by congruence.
  - by eapply fences_put.
  - done.
Qed.

(** ** Claims *)
Lemma job_order_total : Total job_order.
Proof.
  intros x y. unfold job_order.
  destruct (Z.lt_trichotomy (to_utc (j_created_at x)) (to_utc (j_created_at y))) as [|[E|]]; [tauto| |tauto].
  destruct (str_le_total (j_id x) (j_id y)); [left|right]; right; auto.
Qed.

Lemma next_job_Some db kinds jid locked now j :
  next_job db kinds jid locked now = Some j ->
  j ∈ job_rows db /\ claimable db kinds jid now j = true /\ locked (j_id j) = false.
Proof.
  unfold next_job. intros H%head_Some_elem_of.
  rewrite merge_sort_Permutation in H. apply list_elem_of_In, filter_In in H as [Hin Hc].
  apply andb_true_iff in Hc as [Hc Hl]. split_and!; [by apply list_elem_of_In|done|].
  by apply negb_true_iff.
Qed.

Lemma lapsed_lease_iff db now j :
  lapsed_lease db now j = true <->
  exists a, a ∈ attempts_of db (j_id j) /\ at_state a = "running" /\ to_utc (at_lease_deadline a) < now.
Proof.
  unfold lapsed_lease. rewrite existsb_exists. split.
  - intros (a & Hin & [[Hj Hr]%andb_true_iff Hl]%andb_true_iff). exists a.
    rewrite bool_decide_eq_true in Hj, Hr. rewrite elem_of_attempts, list_elem_of_In. split_and!; [done..|lia].
  - intros (a & [Hin Hj]%elem_of_attempts & Hr & Hl). exists a. split; [by apply list_elem_of_In|].
    rewrite !bool_decide_eq_true_2 by done. simpl. lia.
Qed.

(** A claimable job is queued, or runs under a lease that lapsed. *)
Lemma claimable_takes db kinds jid now j :
  queue_ok db -> j ∈ job_rows db -> claimable db kinds jid now j = true ->
  (j_state j = "queued" \/ j_state j = "running") /\
  Forall (fun a => at_state a = "running" -> to_utc (at_lease_deadline a) < now)
    (attempts_of db (j_id j)).
Proof.
  intros Hok Hj Hc. pose proof (jobs_ok _ Hok j Hj) as Hjo. unfold claimable in Hc.
  apply andb_true_iff in Hc as [_ Hc]. rewrite Forall_forall.
  apply orb_true_iff in Hc as [Hq|Hl].
  - rewrite bool_decide_eq_true in Hq. split; [by left|]. intros a Ha Hr.
    destruct (ok_running _ _ Hjo a Ha Hr) as [_ Hs]. by rewrite Hq in Hs.
  - apply lapsed_lease_iff in Hl as (b & Hb & Hr & Hlt). split.
    + right. by eapply ok_running.
    + intros a Ha Hra. pose proof (running_is_current _ _ _ Hjo Ha Hra).
      pose proof (running_is_current _ _ _ Hjo Hb Hr). congruence.
Qed.

Lemma taken_evolves redact db j worker fence_ lease now :
  queue_ok db -> j ∈ job_rows db -> fence_ ∉ at_fence <$> attempt_rows db ->
  j_state j = "queued" \/ j_state j = "running" ->
  Forall (fun a => at_state a = "running" -> to_utc (at_lease_deadline a) < now)
    (attempts_of db (j_id j)) ->
  evolves redact now None db
    (add_attempt (fresh_attempt j worker fence_ lease) (put_job (taken_job now j) (lapse_previous j db))).
Proof.
  intros Hok Hj Hf Hst Hl.
  destruct (lapse_previous_spec j db (fences_distinct _ Hok)) as (Hown & Hoth & Hfen & Hrows).
  eapply (moved _ _ _ _ _ j (taken_job now j)); [done|by apply (taken _ _ _ _ worker fence_ lease)| | | |].
  - simpl. by rewrite Hrows.
  - rewrite attempts_add, attempts_put_job, Hown. by rewrite bool_decide_eq_true_2.
  - intros i Hi. rewrite attempts_add, attempts_put_job, Hoth by done.
    rewrite bool_decide_eq_false_2 by (simpl; congruence). by rewrite app_nil_r.
  - simpl. rewrite fmap_app, Hfen. apply NoDup_app. split_and!; [apply Hok| |apply NoDup_singleton].
    intros x Hx Hs. apply list_elem_of_singleton in Hs as ->. done.
Qed.

(** The fence a claim gives. *)
Definition given_fence (j : Job) (worker fence_ : string) (lease : instant) (targets : list string)
  : AttemptFence := {|
  af_job_id := j_id j; af_attempt := j_current_attempt j + 1; af_fence := fence_;
  af_worker_id := worker; af_lease_deadline := lease; af_kind := j_kind j;
  af_payload := j_payload j; af_authority_revision := j_authority_revision j;
  af_targets := targets |}.

(** A claim returns, and takes the next claimable job when there is one. *)
Lemma claim_result redact worker secs kinds jid locked fence_ now db :
  queue_ok db -> strip worker <> EmptyString -> 0 < secs ->
  JobQueue.claim redact worker secs kinds jid locked fence_ now db =
  match next_job db kinds jid locked now with
  | None => Ok (db, None)
  | Some j =>
      let lease := now + seconds secs in
      targets ← _canonical_targets (j_targets j);
      Ok (add_attempt (fresh_attempt j worker fence_ lease)
            (put_job (taken_job now j) (lapse_previous j db)),
          Some (given_fence j worker fence_ lease targets))
  end.
Proof.
  intros Hok Hw Hs. unfold JobQueue.claim. rewrite bool_decide_eq_false_2 by done.
  destruct (Z.leb_spec secs 0); [lia|]. simpl.
  destruct (next_job db kinds jid locked now) as [j|] eqn:Hn; [|done].
  apply next_job_Some in Hn as (Hj & Hc & _). destruct (_canonical_targets (j_targets j)); [|done].
  cbn [mbind result_bind].
  destruct (claimable_takes _ _ _ _ _ Hok Hj Hc) as [Hst _].
  rewrite claim_takes by (done || by eapply ok_id, jobs_ok). done.
Qed.

Lemma claim_Ok redact worker secs kinds jid locked fence_ now db db' r :
  JobQueue.claim redact worker secs kinds jid locked fence_ now db = Ok (db', r) ->
  strip worker <> EmptyString /\ 0 < secs.
Proof.
  unfold JobQueue.claim. case_bool_decide; [done|]. destruct (Z.leb_spec secs 0); [done|]. done.
Qed.

Lemma claim_evolves redact worker secs kinds jid locked fence_ now db db' r :
  queue_ok db -> fence_ ∉ at_fence <$> attempt_rows db ->
  JobQueue.claim redact worker secs kinds jid locked fence_ now db = Ok (db', r) ->
  evolves redact now None db db'.
Proof.
  intros Hok Hf H. destruct (claim_Ok _ _ _ _ _ _ _ _ _ _ _ H) as [Hw Hs].
  rewrite claim_result in H by done.
  destruct (next_job db kinds jid locked now) as [j|] eqn:Hn; [|simplify_eq; constructor].
  apply next_job_Some in Hn as (Hj & Hc & _).
  destruct (_canonical_targets (j_targets j)); simpl in H; simplify_eq.
  destruct (claimable_takes _ _ _ _ _ Hok Hj Hc). by apply taken_evolves.
Qed.

(** ** Writes under a fence *)

(** A fence that some claim gave. *)
Definition issued (db : JobDb) (f : AttemptFence) : Prop :=
  exists a, a ∈ attempt_rows db /\ at_fence a = af_fence f /\ at_job_id a = af_job_id f /\
    at_attempt a = af_attempt f /\ at_worker_id a = af_worker_id f.

Lemma get_job_Some db i j : get_job db i = Some j -> j ∈ job_rows db /\ j_id j = i.
Proof.
  intros [Hin He]%find_some. split; [by apply list_elem_of_In|]. by apply bool_decide_eq_true in He.
Qed.

Lemma get_job_elem db j : NoDup (j_id <$> job_rows db) -> j ∈ job_rows db -> get_job db (j_id j) = Some j.
Proof.
  intros Hn Hj. destruct (get_job db (j_id j)) as [x|] eqn:Hg.
  - apply get_job_Some in Hg as [Hx E]. f_equal. by eapply (key_inj j_id).
  - apply list_elem_of_In in Hj. pose proof (find_none _ _ Hg j Hj) as Hno. simpl in Hno.
    by rewrite bool_decide_eq_true_2 in Hno.
Qed.

Lemma with_fence_Some db f a : with_fence db f = Some a -> a ∈ attempt_rows db /\ at_fence a = f.
Proof.
  intros [Hin He]%find_some. split; [by apply list_elem_of_In|]. by apply bool_decide_eq_true in He.
Qed.

Lemma with_fence_elem db a :
  NoDup (at_fence <$> attempt_rows db) -> a ∈ attempt_rows db -> with_fence db (at_fence a) = Some a.
Proof.
  intros Hn Ha. destruct (with_fence db (at_fence a)) as [x|] eqn:Hg.
  - apply with_fence_Some in Hg as [Hx E]. f_equal. by eapply (key_inj at_fence).
  - apply list_elem_of_In in Ha. pose proof (find_none _ _ Hg a Ha) as Hno. simpl in Hno.
    by rewrite bool_decide_eq_true_2 in Hno.
Qed.

(** The rows an active fence writes: its job, and the one attempt of it that runs. *)
Lemma active_spec db f now j a :
  queue_ok db -> issued db f ->
  _active db f now = Ok (j, a) <->
  j ∈ job_rows db /\ j_id j = af_job_id f /\ a ∈ attempts_of db (j_id j) /\
  at_fence a = af_fence f /\ at_state a = "running" /\ now < to_utc (at_lease_deadline a).
Proof.
  intros Hok (b & Hb & Hbf & Hbj & Hbn & Hbw). unfold _active. split.
  - destruct (get_job db (af_job_id f)) as [j'|] eqn:Hg; [|done].
    destruct (with_fence db (af_fence f)) as [a'|] eqn:Hw; [|done].
    apply get_job_Some in Hg as [Hj Hi]. apply with_fence_Some in Hw as [Ha Hf].
    assert (a' = b) as -> by (eapply (key_inj at_fence); eauto using fences_distinct; congruence).
    destruct (_ || _) eqn:Hcond; [done|].
    destruct (_canonical_targets (j_targets j')); simpl; [|done]. intros [= <- <-].
    rewrite !orb_false_iff, !negb_false_iff, !bool_decide_eq_true in Hcond.
    destruct Hcond as [[[Hc Hr] _] Hl]. split_and!; try done; [|lia].
    apply elem_of_attempts. split; [done|congruence].
  - intros (Hj & Hi & [Ha Haj]%elem_of_attempts & Hf & Hr & Hl). rewrite <- Hi, <- Hf.
    rewrite get_job_elem, with_fence_elem by (done || apply Hok).
    pose proof (jobs_ok _ Hok j Hj) as Hjo.
    assert (a = b) as -> by (eapply (key_inj at_fence); eauto using fences_distinct; congruence).
    assert (b ∈ attempts_of db (j_id j)) as Hin by by apply elem_of_attempts.
    destruct (ok_running _ _ Hjo b Hin Hr) as [Hn _]. rewrite <- Hn, Hbn, Z.eqb_refl.
    rewrite !bool_decide_eq_true_2 by done. destruct (Z.leb_spec (to_utc (at_lease_deadline b)) now); [lia|].
    simpl. destruct (ok_targets _ _ Hjo) as [t ->]. done.
Qed.

(** A change of one job and one of its attempts, written in place. *)
Lemma put_evolves redact now lbl db j a j' a' :
  queue_ok db -> j ∈ job_rows db -> a ∈ attempts_of db (j_id j) -> at_fence a' = at_fence a ->
  at_job_id a' = at_job_id a ->
  change redact now lbl j (attempts_of db (j_id j)) j'
    (replace_attempt a' (attempts_of db (j_id j))) ->
  evolves redact now lbl db (put_attempt a' (put_job j' db)).
Proof.
  intros Hok Hj [Ha Hi]%elem_of_attempts Hf Hid Hc.
  pose proof (fences_distinct _ Hok) as Hn.
  eapply moved; [exact Hj|exact Hc|done| | |].
  - rewrite (attempts_put a) by done. by rewrite bool_decide_eq_true_2.
  - intros i Hne. rewrite (attempts_put a) by done. by rewrite bool_decide_eq_false_2 by congruence.
  - by rewrite (fences_put a).
Qed.

Definition committed (first second : option JobDb) (db : JobDb) : Prop :=
  first = Some db \/ (first = None /\ second = Some db).

Lemma optimistic_committed {A} (decide_ : JobDb -> result A) first second db :
  committed first second db -> optimistic decide_ first second = a ← decide_ db; Ok (Applied a).
Proof. by intros [->|[-> ->]]. Qed.

Lemma active_running db f now j a :
  queue_ok db -> issued db f -> _active db f now = Ok (j, a) ->
  j ∈ job_rows db /\ a ∈ attempts_of db (j_id j) /\ at_fence a = af_fence f /\
  at_state a = "running" /\ now < to_utc (at_lease_deadline a) /\ j_state j = "running".
Proof.
  intros Hok Hi H. apply active_spec in H as (Hj & _ & Ha & Hf & Hr & Hl); [|done..].
  split_and!; try done. by eapply ok_running; [apply jobs_ok| |].
Qed.

Lemma heartbeat_evolves redact f secs now first second db db' f' :
  queue_ok db -> issued db f -> committed first second db ->
  JobQueue.heartbeat f secs now first second = Ok (db', f') ->
  evolves redact now (Some (af_fence f)) db db'.
Proof.
  intros Hok Hi Hc H. unfold JobQueue.heartbeat in H. destruct (_ <=? _); [done|].
  rewrite (optimistic_committed _ _ _ db Hc) in H. unfold extend_lease in H.
  destruct (_active db f now) as [[j a]|] eqn:Ha; [|done].
  apply active_running in Ha as (Hj & Ha & Hf & Hr & Hl & Hrun); [|done..].
  destruct (heartbeat_extends j a (now + seconds secs) now Hrun) as (u & l & b & Hh & Hle).
  cbn [mbind result_bind] in H. rewrite Hh in H. simpl in H. simplify_eq.
  eapply put_evolves; [done|exact Hj|exact Ha|done|done|]. rewrite <- Hf. by apply extended.
Qed.

Lemma finish_evolves redact f succeeded result_ why now first second db db' :
  queue_ok db -> issued db f -> committed first second db ->
  _finish redact f succeeded result_ why now first second = Ok db' ->
  evolves redact now (Some (af_fence f)) db db'.
Proof.
  intros Hok Hi Hc H. unfold _finish in H.
  rewrite (optimistic_committed _ _ _ db Hc) in H. unfold end_attempt in H.
  destruct (_active db f now) as [[j a]|] eqn:Ha; [|done].
  apply active_running in Ha as (Hj & Ha & Hf & Hr & Hl & Hrun); [|done..].
  cbn [mbind result_bind] in H. rewrite finish_ends in H by done. simpl in H. simplify_eq.
  eapply put_evolves; [done|exact Hj|exact Ha|done|done|]. rewrite <- Hf. by apply ended.
Qed.

(** ** Requests *)
Lemma targets_read names : _canonical_targets (targets_json names) = Ok names.
Proof.
  simpl. replace (all_strings (JString <$> names)) with (Some names); [done|].
  symmetry. by apply mapM_fmap_Some.
Qed.

Lemma requested_spec new_id new_request q now j :
  requested_job new_id new_request q now = Ok j ->
  j_id j = new_id /\ j_state j = "queued" /\ j_current_attempt j = 0 /\ j_wait j = cleared /\
  is_ok (_canonical_targets (j_targets j)).
Proof.
  unfold requested_job. destruct (negb _); [done|].
  destruct (_canonical_targets (req_targets q)) as [t|]; [|done]. cbn [mbind result_bind].
  destruct (_canonical_payload _ _) as [[clean encoded]|]; [|done]. cbn [mbind result_bind].
  unfold new_job. simpl. intros [= <-]. simpl. split_and!; try done.
  eexists. apply targets_read.
Qed.

Lemma with_request_None db r : with_request db r = None -> r ∉ j_request_id <$> job_rows db.
Proof.
  intros Hf (j & -> & Hj)%list_elem_of_fmap. apply list_elem_of_In in Hj.
  pose proof (find_none _ _ Hf j Hj) as Hno. simpl in Hno. by rewrite bool_decide_eq_true_2 in Hno.
Qed.

Lemma with_request_Some db r j : with_request db r = Some j -> j ∈ job_rows db /\ j_request_id j = r.
Proof.
  intros [Hin He]%find_some. split; [by apply list_elem_of_In|]. by apply bool_decide_eq_true in He.
Qed.

Lemma enqueue_evolves redact new_id new_request q now authority seen db db' j :
  new_id <> EmptyString -> new_id ∉ j_id <$> job_rows db ->
  enqueue_guarded new_id new_request q now authority seen db db = Ok (db', j) ->
  evolves redact now None db db'.
Proof.
  intros Hne Hid H. unfold enqueue_guarded in H.
  destruct (requested_job _ _ _ _) as [r|] eqn:Hr; [|done]. cbn [mbind result_bind] in H.
  apply requested_spec in Hr as (Hi & Hs & Hc & Hw & Ht).
  unfold admit_job in H.
  destruct (with_request seen (j_request_id r)) as [e|].
  { destruct (_canonical_targets (j_targets e)); [|done]. cbn [mbind result_bind] in H.
    destruct (_same_request e r); simplify_eq. constructor. }
  destruct authority as [[] before]; [|done]. cbn [fst snd negb] in H.
  destruct (with_request db (j_request_id r)) as [e|] eqn:He.
  { destruct (_replayed db r) as [[x|]|]; simpl in H; simplify_eq. constructor. }
  destruct before; [|done]. simplify_eq. apply added; [congruence|by apply with_request_None|done|].
  constructor; try congruence; try done; [lia|constructor|intros; set_solver].
Qed.

Lemma resume_evolves redact db j now db' b :
  queue_ok db -> j ∈ job_rows db -> resume redact db j now = (db', Ok b) ->
  evolves redact now None db db'.
Proof.
  intros Hok Hj H. pose proof (fences_distinct _ Hok). apply resume_queues in H as [->|[Hw ->]].
  - replace (put_job j db) with db; [constructor|]. destruct db as [rows atts ops]. unfold put_job.
    simpl. f_equal. rewrite <- (list_fmap_id rows) at 1. apply list_fmap_ext. intros i x Hx. simpl.
    case_bool_decide; [|done]. eapply (key_inj j_id); [apply Hok|by eapply list_elem_of_lookup_2|done|done].
  - eapply moved; [exact Hj|by apply resumed|done|done|done|done].
Qed.

(** ** Histories

    A step is an operation that returned; one that raised was rolled back.  Identities and
    fences are new, and a worker reports under a fence a claim gave it.  The label is the
    fence a report is made under. *)
Inductive queue_step (redact : string -> string)
  : instant -> option string -> JobDb -> JobDb -> Prop :=
| step_enqueue new_id new_request q now authority seen db db' j :
    new_id <> EmptyString -> new_id ∉ j_id <$> job_rows db ->
    enqueue_guarded new_id new_request q now authority seen db db = Ok (db', j) ->
    queue_step redact now None db db'
| step_claim worker secs kinds jid locked fence_ now db db' r :
    fence_ ∉ at_fence <$> attempt_rows db ->
    JobQueue.claim redact worker secs kinds jid locked fence_ now db = Ok (db', r) ->
    queue_step redact now None db db'
| step_heartbeat f secs now first second db db' f' :
    issued db f -> committed first second db ->
    JobQueue.heartbeat f secs now first second = Ok (db', f') ->
    queue_step redact now (Some (af_fence f)) db db'
| step_finish f succeeded result_ why now first second db db' :
    issued db f -> committed first second db ->
    _finish redact f succeeded result_ why now first second = Ok db' ->
    queue_step redact now (Some (af_fence f)) db db'
| step_resume j now db db' b :
    j ∈ job_rows db -> resume redact db j now = (db', Ok b) -> queue_step redact now None db db'.

Lemma step_evolves redact now lbl db db' :
  queue_ok db -> queue_step redact now lbl db db' -> evolves redact now lbl db db'.
Proof.
  intros Hok Hs. destruct Hs; eauto using enqueue_evolves, claim_evolves, heartbeat_evolves,
    finish_evolves, resume_evolves.
Qed.

(** Any number of operations, at any times and in any order. *)
Definition queue_any (redact : string -> string) (db db' : JobDb) : Prop :=
  exists now lbl, queue_step redact now lbl db db'.
Notation queue_run redact := (rtc (queue_any redact)).

Lemma run_ok redact db db' : queue_ok db -> queue_run redact db db' -> queue_ok db'.
Proof.
  intros Hok Hr. induction Hr as [|db db1 db' (now & lbl & Hs) _ IH]; [done|].
  apply IH. eapply evolves_ok; [done|]. by eapply step_evolves.
Qed.

(** What every operation keeps is kept by every history. *)
Lemma queue_keeps redact (P : JobDb -> Prop) db db' :
  (forall now lbl db db', queue_ok db -> P db -> evolves redact now lbl db db' -> P db') ->
  queue_ok db -> P db -> queue_run redact db db' -> P db'.
Proof.
  intros Hstep Hok HP Hr. induction Hr as [|db db1 db' (now & lbl & Hs) _ IH]; [done|].
  pose proof (step_evolves _ _ _ _ _ Hok Hs) as He. apply IH; [by eapply evolves_ok|eauto].
Qed.
