(* ===== verification/JobHistory.v ===== *)
(** * Histories of the job queue

    What the queue promises its workers and its clients along every history of requests,
    claims, heartbeats, reports and resumes by any number of workers. *)
From S2P Require Import Prelude Vocabulary ReasonCodes Disposition LifecycleTypes LifecycleCore.
From S2P Require Import Json Settings PersistedWaits JobPayload JobAdapter JobQueue JobQueueFacts.

(** ** The tables *)

(** C31.  The rules of the tables, of the jobs that are claimed and not of the coordinator rows
    created running, hold along every history: ids, request keys and fences are
    distinct, the attempts of a job are numbered from 1 to its count, and a job runs exactly
    while one attempt of it runs, its current one. *)
Theorem queue_history redact db db' : queue_ok db -> queue_run redact db db' -> queue_ok db'.
Proof. apply run_ok. Qed.

(** Where a row of a job may go in one operation. *)
Lemma evolves_row redact now lbl db db' j :
  queue_ok db -> evolves redact now lbl db db' -> j ∈ job_rows db ->
  (j ∈ job_rows db' /\ attempts_of db' (j_id j) = attempts_of db (j_id j)) \/
  (exists j', j' ∈ job_rows db' /\
     change redact now lbl j (attempts_of db (j_id j)) j' (attempts_of db' (j_id j))).
Proof.
  intros Hok He Hj.
  destruct He as [lbl db|db x Hi Hr Hq Hx|lbl db db' x x' l' Hx Hc Hrows Hl Hother Hf].
  - by left.
  - left. split; [apply elem_of_app; by left|done].
  - destruct (decide (j_id j = j_id x)) as [E|E].
    + assert (j = x) as -> by (eapply (key_inj j_id); eauto using ids_distinct).
      right. exists x'. rewrite Hrows, Hl. split; [|done].
      eapply put_job_here; [done|]. by eapply change_same.
    + left. rewrite Hrows, Hother by done. split; [|done]. apply put_job_there; [done|].
      pose proof (same_id _ _ (change_same _ _ _ _ _ _ _ Hc)). congruence.
Qed.

(** No history changes what a job is, or takes it away. *)
Lemma row_stays redact db db' j :
  queue_ok db -> queue_run redact db db' -> j ∈ job_rows db ->
  exists j', j' ∈ job_rows db' /\ same_job j j'.
Proof.
  intros Hok Hr Hj. apply (queue_keeps redact (fun d => exists j', j' ∈ job_rows d /\ same_job j j') db);
    [|done|by exists j|done].
  intros now lbl d d' Hd (x & Hx & Hs) He.
  destruct (evolves_row _ _ _ _ _ x Hd He Hx) as [[Hin _]|(x' & Hin & Hc)]; [by exists x|].
  exists x'. split; [done|]. etrans; [exact Hs|]. by eapply change_same.
Qed.

Definition ENDED : list string := ["succeeded"; "failed"; "cancelled"].

Lemma change_live redact now lbl j l j' l' :
  job_ok j l -> change redact now lbl j l j' l' -> j_state j ∉ ENDED.
Proof.
  intros Hok Hc He.
  destruct Hc as [j l w f lease Hst Hl|j l a u lease' Ha Hr Hle|j l a s res why Ha Hr Hle|j l Hw].
  - destruct Hst as [Hs|Hs]; rewrite Hs in He; unfold ENDED in He; set_solver.
  - destruct (ok_running _ _ Hok a Ha Hr) as [_ Hs]. rewrite Hs in He. unfold ENDED in He. set_solver.
  - destruct (ok_running _ _ Hok a Ha Hr) as [_ Hs]. rewrite Hs in He. unfold ENDED in He. set_solver.
  - rewrite Hw in He. unfold ENDED, WAITING in He. set_solver.
Qed.

(** A job that ended keeps its state, its result and its attempts for ever: no later claim,
    heartbeat, report or resume changes them. *)
Theorem ended_job_final redact db db' j :
  queue_ok db -> j ∈ job_rows db -> j_state j ∈ ENDED -> queue_run redact db db' ->
  j ∈ job_rows db' /\ attempts_of db' (j_id j) = attempts_of db (j_id j).
Proof.
  intros Hok Hj He Hr.
  apply (queue_keeps redact (fun d => j ∈ job_rows d /\ attempts_of d (j_id j) = attempts_of db (j_id j)) db);
    [|done|done|done].
  intros now lbl d d' Hd [Hin Ha] Hev.
  destruct (evolves_row _ _ _ _ _ j Hd Hev Hin) as [[Hin' Ha']|(j' & _ & Hc)]; [by rewrite Ha'|].
  by destruct (change_live _ _ _ _ _ _ _ (jobs_ok _ Hd j Hin) Hc).
Qed.

(** ** Fences *)

(** Attempt rows keep their names. *)
Record same_attempt (a b : JobAttempt) : Prop := {
  names_fence : at_fence b = at_fence a;
  names_job : at_job_id b = at_job_id a;
  names_number : at_attempt b = at_attempt a;
  names_worker : at_worker_id b = at_worker_id a;
}.

Lemma replace_same a b l x :
  a ∈ l -> NoDup (at_fence <$> l) -> same_attempt a b -> x ∈ l ->
  exists y, y ∈ replace_attempt b l /\ same_attempt x y.
Proof.
  intros Ha Hn Hs Hx. destruct (decide (at_fence x = at_fence b)) as [E|E].
  - exists b. split; [by eapply replace_present|].
    assert (x = a) as -> by (eapply (key_inj at_fence); eauto; rewrite E; apply Hs). done.
  - exists x. split; [|by constructor]. apply list_elem_of_fmap. exists x.
    split; [|done]. by rewrite bool_decide_eq_false_2.
Qed.

Lemma change_attempts redact now lbl j l j' l' x :
  NoDup (at_fence <$> l) -> change redact now lbl j l j' l' -> x ∈ l ->
  exists y, y ∈ l' /\ same_attempt x y.
Proof.
  intros Hn Hc Hx.
  destruct Hc as [j l w f lease Hst Hl|j l a u lease' Ha Hr Hle|j l a s res why Ha Hr Hle|j l Hw].
  - assert (exists y, y ∈ lapse_current j l /\ same_attempt x y) as (y & Hy & Hs).
    { unfold lapse_current. destruct (current j l) as [p|] eqn:Hp; [|exists x; split; [done|by constructor]].
      apply current_Some in Hp as [Hp _]. by apply (replace_same p); [| |constructor|]. }
    exists y. split; [apply elem_of_app; by left|done].
  - by apply (replace_same a); [| |constructor|].
  - by apply (replace_same a); [| |constructor|].
  - exists x. split; [done|by constructor].
Qed.

Lemma issued_stays redact db db' f :
  queue_ok db -> queue_run redact db db' -> issued db f -> issued db' f.
Proof.
  intros Hok Hr Hi. apply (queue_keeps redact (fun d => issued d f) db); try done.
  intros now lbl d d' Hd (a & Ha & Hf & Hj & Hn & Hw) He.
  destruct (attempts_owned _ Hd a Ha) as (j & Hjin & Hjid).
  assert (a ∈ attempts_of d (j_id j)) as Hin by by apply elem_of_attempts.
  assert (exists b, b ∈ attempts_of d' (j_id j) /\ same_attempt a b) as (b & Hb & []).
  { destruct (evolves_row _ _ _ _ _ j Hd He Hjin) as [[_ E]|(j' & _ & Hc)].
    - exists a. rewrite E. split; [done|by constructor].
    - eapply change_attempts; [apply attempts_fences, Hd|exact Hc|done]. }
  apply elem_of_attempts in Hb as [Hb _]. exists b. split_and!; congruence.
Qed.

(** A fence whose job counted a later attempt has no authority. *)
Lemma overtaken_stale db f now j :
  queue_ok db -> issued db f -> j ∈ job_rows db -> j_id j = af_job_id f ->
  af_attempt f < j_current_attempt j ->
  _active db f now = Raise (StaleAttempt "job attempt lease or fence is stale").
Proof.
  intros Hok Hi Hj Hid Hlt. unfold _active. rewrite <- Hid, get_job_elem by (done || apply Hok).
  destruct (with_fence db (af_fence f)); [|done].
  destruct (Z.eqb_spec (j_current_attempt j) (af_attempt f)); [lia|done].
Qed.

Definition STALE {A} : result A := Raise (StaleAttempt "job attempt lease or fence is stale").

(** Every write under the fence is refused. *)
Definition refused (redact : string -> string) (db : JobDb) (f : AttemptFence) (now : instant) : Prop :=
  (forall secs second, 0 < secs -> JobQueue.heartbeat f secs now (Some db) second = STALE) /\
  (forall succeeded result_ why second,
     _finish redact f succeeded result_ why now (Some db) second = STALE).

Lemma stale_refused redact db f now : _active db f now = STALE -> refused redact db f now.
Proof.
  intros H. split.
  - intros secs second Hs. unfold JobQueue.heartbeat. destruct (Z.leb_spec secs 0); [lia|].
    simpl. unfold extend_lease. by rewrite H.
  - intros. unfold _finish. simpl. unfold end_attempt. by rewrite H.
Qed.

(** What a granted claim leaves: the job it took, as the fence names it. *)
Lemma granted redact worker secs kinds jid locked fence_ now db db' f :
  queue_ok db -> JobQueue.claim redact worker secs kinds jid locked fence_ now db = Ok (db', Some f) ->
  exists j targets, next_job db kinds jid locked now = Some j /\ j ∈ job_rows db /\
    claimable db kinds jid now j = true /\
    _canonical_targets (j_targets j) = Ok targets /\
    f = given_fence j worker fence_ (now + seconds secs) targets /\
    db' = add_attempt (fresh_attempt j worker fence_ (now + seconds secs))
            (put_job (taken_job now j) (lapse_previous j db)).
Proof.
  intros Hok H. destruct (claim_Ok _ _ _ _ _ _ _ _ _ _ _ H) as [Hw Hs].
  rewrite claim_result in H by done.
  destruct (next_job db kinds jid locked now) as [j|] eqn:Hn; [|done].
  destruct (next_job_Some _ _ _ _ _ _ Hn) as (Hj & Hc & _).
  destruct (_canonical_targets (j_targets j)) as [t|] eqn:Ht; simpl in H; [|done].
  exists j, t. by simplify_eq.
Qed.

Lemma lapse_previous_jobs j db : job_rows (lapse_previous j db) = job_rows db.
Proof. unfold lapse_previous. by destruct (_attempt db j). Qed.

(** C25.  A claim takes a job from no live holder, and for good: every fence of the job given
    before is refused at the moment of the claim, and at any later time along every history
    after it. *)
Theorem claim_fences_out redact worker secs kinds jid locked fence_ now db db' f g :
  queue_ok db -> fence_ ∉ at_fence <$> attempt_rows db ->
  JobQueue.claim redact worker secs kinds jid locked fence_ now db = Ok (db', Some f) ->
  issued db g -> af_job_id g = af_job_id f ->
  refused redact db g now /\
  (forall db'' later, queue_run redact db' db'' -> refused redact db'' g later).
Proof.
  intros Hok Hfresh Hc Hg Hsame.
  pose proof (claim_evolves _ _ _ _ _ _ _ _ _ _ _ Hok Hfresh Hc) as Hev.
  assert (queue_run redact db db') as Hrun.
  { apply rtc_once. exists now, None. by eapply step_claim. }
  destruct (granted _ _ _ _ _ _ _ _ _ _ _ Hok Hc) as (j & t & _ & Hj & Hcl & Ht & -> & Hdb).
  destruct (claimable_takes _ _ _ _ _ Hok Hj Hcl) as [_ Hl]. simpl in Hsame. split.
  - apply stale_refused. destruct (_active db g now) as [[j' a]|e] eqn:Ha.
    + exfalso. apply active_spec in Ha as (Hj' & Hid & Hin & _ & Hr & Hlt); [|done..].
      rewrite Hsame in Hid. rewrite Hid in Hin. rewrite Forall_forall in Hl.
      specialize (Hl a Hin Hr). lia.
    + revert Ha. unfold _active. rewrite Hsame, get_job_elem by (done || apply Hok).
      destruct (with_fence db (af_fence g)); [|by intros [= <-]].
      destruct (_ || _); [by intros [= <-]|]. rewrite Ht. by simpl.
  - intros db'' later Hr. apply stale_refused.
    pose proof (evolves_ok _ _ _ _ _ Hok Hev) as Hok'.
    assert (taken_job now j ∈ job_rows db') as Htk.
    { subst db'. simpl. eapply (put_job_here j); [by rewrite lapse_previous_jobs|done]. }
    destruct (row_stays _ _ _ _ Hok' Hr Htk) as (j'' & Hj'' & Hs'').
    assert (af_attempt g <= j_current_attempt j) as Hle.
    { destruct Hg as (a & Ha & _ & Haj & Han & _).
      pose proof (ok_numbers _ _ (jobs_ok _ Hok j Hj)) as Hnum. rewrite Forall_forall in Hnum.
      rewrite <- Han. apply Hnum. apply elem_of_attempts. split; [done|congruence]. }
    eapply overtaken_stale; [by eapply run_ok|by eapply issued_stays; [exact Hok|etrans|]|exact Hj''| |].
    + rewrite (same_id _ _ Hs''). simpl. congruence.
    + pose proof (same_counted _ _ Hs''). simpl in *. lia.
Qed.

(** ** The order of claims *)
Lemma job_order_trans : Transitive job_order.
Proof.
  intros x y z. unfold job_order. intros [H1|[E1 H1]] [H2|[E2 H2]]; [left; lia..|].
  right. split; [congruence|]. by eapply str_le_trans.
Qed.

Lemma next_job_oldest db kinds jid locked now j :
  next_job db kinds jid locked now = Some j ->
  forall k, k ∈ job_rows db -> claimable db kinds jid now k = true -> locked (j_id k) = false ->
  job_order j k \/ k = j.
Proof.
  unfold next_job. intros H k Hk Hc Hl.
  set (ok := fun j => claimable db kinds jid now j && negb (locked (j_id j))) in *.
  assert (k ∈ merge_sort job_order (List.filter ok (job_rows db))) as Hin.
  { rewrite merge_sort_Permutation. apply list_elem_of_In, filter_In.
    split; [by apply list_elem_of_In|]. unfold ok. by rewrite Hc, Hl. }
  pose proof (@StronglySorted_merge_sort _ job_order _ job_order_trans job_order_total
                (List.filter ok (job_rows db))) as Hs.
  apply head_Some in H as [l Hm]. rewrite Hm in Hs, Hin. apply StronglySorted_inv in Hs as [_ Hs].
  apply elem_of_cons in Hin as [->|Hin]; [by right|]. left. rewrite Forall_forall in Hs. by apply Hs.
Qed.

Lemma next_job_None db kinds jid locked now k :
  next_job db kinds jid locked now = None -> k ∈ job_rows db ->
  claimable db kinds jid now k = true -> locked (j_id k) = true.
Proof.
  unfold next_job. intros H Hk Hc. destruct (locked (j_id k)) eqn:Hl; [done|]. exfalso.
  set (ok := fun j => claimable db kinds jid now j && negb (locked (j_id j))) in *.
  assert (k ∈ merge_sort job_order (List.filter ok (job_rows db))) as Hin.
  { rewrite merge_sort_Permutation. apply list_elem_of_In, filter_In.
    split; [by apply list_elem_of_In|]. unfold ok. by rewrite Hc, Hl. }
  apply head_None in H. rewrite H in Hin. by apply not_elem_of_nil in Hin.
Qed.

(** A claim always returns.  It takes nothing exactly when every claimable job is locked by
    another transaction, and otherwise the oldest claimable job that is not, under a fence
    that may write from then on; no other job changes. *)
Theorem claim_takes_oldest redact worker secs kinds jid locked fence_ now db :
  queue_ok db -> fence_ ∉ at_fence <$> attempt_rows db -> strip worker <> EmptyString -> 0 < secs ->
  exists db' r,
    JobQueue.claim redact worker secs kinds jid locked fence_ now db = Ok (db', r) /\
    match r with
    | None => db' = db /\ forall k, k ∈ job_rows db -> claimable db kinds jid now k = true ->
                locked (j_id k) = true
    | Some f => exists j a,
        j ∈ job_rows db /\ claimable db kinds jid now j = true /\ locked (j_id j) = false /\
        (forall k, k ∈ job_rows db -> claimable db kinds jid now k = true ->
           locked (j_id k) = false -> job_order j k \/ k = j) /\
        af_job_id f = j_id j /\ af_attempt f = j_current_attempt j + 1 /\
        af_lease_deadline f = now + seconds secs /\ issued db' f /\
        (forall t, t < now + seconds secs -> _active db' f t = Ok (taken_job now j, a)) /\
        (forall k, k ∈ job_rows db -> j_id k <> j_id j ->
           k ∈ job_rows db' /\ attempts_of db' (j_id k) = attempts_of db (j_id k))
    end.
Proof.
  intros Hok Hf Hw Hs.
  destruct (next_job db kinds jid locked now) as [j|] eqn:Hn.
  2:{ exists db, None. rewrite claim_result, Hn by done. split_and!; [done..|].
      intros k. by apply next_job_None. }
  destruct (next_job_Some _ _ _ _ _ _ Hn) as (Hj & Hc & Hl).
  destruct (ok_targets _ _ (jobs_ok _ Hok j Hj)) as [t Ht].
  set (lease := now + seconds secs). set (a := fresh_attempt j worker fence_ lease).
  set (db' := add_attempt a (put_job (taken_job now j) (lapse_previous j db))).
  assert (JobQueue.claim redact worker secs kinds jid locked fence_ now db =
          Ok (db', Some (given_fence j worker fence_ lease t))) as Hcl.
  { rewrite claim_result, Hn by done. simpl. by rewrite Ht. }
  pose proof (claim_evolves _ _ _ _ _ _ _ _ _ _ _ Hok Hf Hcl) as Hev.
  assert (a ∈ attempt_rows db') as Ha by (simpl; apply elem_of_app; right; by apply list_elem_of_singleton).
  assert (taken_job now j ∈ job_rows db') as Htk
    by (simpl; eapply (put_job_here j); [by rewrite lapse_previous_jobs|done]).
  assert (issued db' (given_fence j worker fence_ lease t)) as Hi by (exists a; done).
  exists db', (Some (given_fence j worker fence_ lease t)). split; [done|]. exists j, a.
  split_and!; try done; [by apply (next_job_oldest _ _ _ _ _ _ Hn)| |].
  - intros u Hu. apply active_spec; [by eapply evolves_ok|done|]. split_and!; try done.
    by apply elem_of_attempts.
  - intros k Hk Hne. unfold db'. rewrite attempts_add, attempts_put_job.
    rewrite bool_decide_eq_false_2 by (simpl; congruence). rewrite app_nil_r. split.
    + simpl. apply (put_job_there (taken_job now j) k (lapse_previous j db)); [|done].
      by rewrite lapse_previous_jobs.
    + by apply lapse_previous_spec; [apply Hok|].
Qed.

(** ** Requests are answered once *)

(** What two requests have in common when they ask for the same: the kind, the actor, the
    authority revision, the targets in their order, and the payload up to the order of its
    keys. *)
Record same_content (q q' : request) : Prop := {
  content_kind : req_kind q' = req_kind q;
  content_actor : req_actor q' = req_actor q;
  content_revision : req_authority_revision q' = req_authority_revision q;
  content_targets : _canonical_targets (req_targets q') = _canonical_targets (req_targets q);
  content_payload : _canonical (JObject (req_payload q')) = _canonical (JObject (req_payload q));
}.

(** Two different documents of the two requests have different digests. *)
Definition no_collision (q q' : request) : Prop :=
  _canonical (JObject (req_payload q')) <> _canonical (JObject (req_payload q)) ->
  Sha256.Sha256.hexdigest (dumps (_canonical (JObject (req_payload q')))) <>
  Sha256.Sha256.hexdigest (dumps (_canonical (JObject (req_payload q)))).

(** The job of a request holds its documents. *)
Lemma requested_fields i r q key now j :
  req_id q = Some key -> key <> EmptyString -> requested_job i r q now = Ok j ->
  j_request_id j = key /\ j_kind j = req_kind q /\ j_actor j = req_actor q /\
  j_authority_revision j = req_authority_revision q /\
  j_payload_digest j = Sha256.Sha256.hexdigest (dumps (_canonical (JObject (req_payload q)))) /\
  exists targets, _canonical_targets (req_targets q) = Ok targets /\ j_targets j = targets_json targets.
Proof.
  intros Hk Hne. unfold requested_job. destruct (negb _); [done|].
  destruct (_canonical_targets (req_targets q)) as [t|]; [|done]. cbn [mbind result_bind].
  unfold _canonical_payload. destruct (_validated_quota_fields _ _); [|done]. cbn [mbind result_bind].
  destruct (inspect _ _ _) as [[]|]; [|done]. cbn [mbind result_bind]. destruct (_ <? _); [done|].
  cbn [mbind result_bind]. generalize (dumps (_canonical (JObject (req_payload q)))) as encoded. intros encoded.
  generalize (Sha256.Sha256.hexdigest encoded) as digest. intros digest.
  rewrite Hk. destruct key as [|c key]; [done|]. unfold new_job. simpl. intros [= <-].
  split_and!; try done. by exists t.
Qed.

Lemma targets_json_inj t t' : targets_json t = targets_json t' -> t = t'.
Proof.
  unfold targets_json. intros [= H]. revert t' H. induction t as [|x t IH]; intros [|y t'] H; simplify_eq/=; [done|].
  f_equal. by apply IH.
Qed.

(** The comparison of two requested jobs is the comparison of the requests. *)
Lemma same_request_content i r i' r' q q' key now later x y :
  req_id q = Some key -> req_id q' = Some key -> key <> EmptyString ->
  requested_job i r q now = Ok x -> requested_job i' r' q' later = Ok y ->
  (same_content q q' -> _same_request x y = true) /\
  (~ same_content q q' -> no_collision q q' -> _same_request x y = false).
Proof.
  intros Hq Hq' Hne Hx Hy.
  destruct (requested_fields _ _ _ _ _ _ Hq Hne Hx) as (_ & Hk & Ha & Hr & Hd & t & Ht & Hjt).
  destruct (requested_fields _ _ _ _ _ _ Hq' Hne Hy) as (_ & Hk' & Ha' & Hr' & Hd' & t' & Ht' & Hjt').
  unfold _same_request. rewrite Hk, Hk', Ha, Ha', Hr, Hr', Hd, Hd', Hjt, Hjt'. split.
  - intros [-> -> -> Et Ep]. rewrite Ht, Ht' in Et. injection Et as ->. rewrite Ep.
    by rewrite !bool_decide_eq_true_2.
  - intros Hdiff Hno. apply not_true_is_false. rewrite !andb_true_iff, !bool_decide_eq_true.
    intros ((((E1 & E2) & E3) & E4) & E5). apply Hdiff. constructor; try congruence.
    + apply dumps_inj, targets_json_inj in E4. by rewrite Ht, Ht', E4.
    + destruct (decide (dumps (_canonical (JObject (req_payload q'))) = dumps (_canonical (JObject (req_payload q))))) as [E|E];
        [by apply dumps_inj|]. exfalso. apply Hno; [|done]. intros E'. apply E. by rewrite E'.
Qed.

Lemma same_request_stays j j' q : same_job j j' -> _same_request j' q = _same_request j q.
Proof.
  intros [_ _ Hk Ha Hr Ht Hd _ _ _]. unfold _same_request. by rewrite Hk, Ha, Hr, Ht, Hd.
Qed.

Lemma with_request_elem db j :
  NoDup (j_request_id <$> job_rows db) -> j ∈ job_rows db ->
  with_request db (j_request_id j) = Some j.
Proof.
  intros Hn Hj. destruct (with_request db (j_request_id j)) as [x|] eqn:Hg.
  - apply with_request_Some in Hg as [Hx E]. f_equal. by eapply (key_inj j_request_id).
  - exfalso. apply with_request_None in Hg. apply Hg. by apply list_elem_of_fmap_2.
Qed.

(** The answer of an admitted request is a stored job with its key and its content. *)
Lemma admitted j db db' e :
  queue_ok db -> admit_job j (true, true) db db db = Ok (db', e) ->
  (db' = db \/ (e = j /\ db' = add_job j db)) /\ e ∈ job_rows db' /\
  j_request_id e = j_request_id j /\ _same_request e j = true.
Proof.
  intros Hok. unfold admit_job. destruct (with_request db (j_request_id j)) as [x|] eqn:Hw.
  - apply with_request_Some in Hw as [Hx Hr]. destruct (_canonical_targets (j_targets x)); [|done].
    simpl. destruct (_same_request x j) eqn:Hs; [|done]. intros [= <- <-]. auto.
  - simpl. intros [= <- <-]. split_and!; [by right| |done|].
    + apply elem_of_app. right. by apply list_elem_of_singleton.
    + unfold _same_request. by rewrite !bool_decide_eq_true_2.
Qed.

(** A request whose key is stored is answered from the stored job. *)
Lemma admit_stored j other db :
  queue_ok db -> j ∈ job_rows db -> j_request_id other = j_request_id j ->
  admit_job other (true, true) db db db =
  if _same_request j other then Ok (db, j) else already_used.
Proof.
  intros Hok Hj E. unfold admit_job. rewrite E, with_request_elem by (done || apply Hok).
  by destruct (ok_targets _ _ (jobs_ok _ Hok j Hj)) as [t ->].
Qed.

(** C27.  A request key names one job.  At any later time along any history, asking again under the
    key for the same (the kind, the actor, the authority revision, the targets and the payload,
    its keys in any order) returns that job and changes nothing; asking for anything else, a
    different payload with another digest included, is refused as a conflict. *)
Theorem enqueue_is_idempotent redact i r q key now db db' j :
  req_id q = Some key -> key <> EmptyString -> i <> EmptyString -> i ∉ j_id <$> job_rows db ->
  queue_ok db -> enqueue i r q now db db db = Ok (db', j) ->
  j ∈ job_rows db' /\ j_request_id j = key /\
  forall db'' i' r' q' later other, queue_run redact db' db'' ->
    req_id q' = Some key -> requested_job i' r' q' later = Ok other ->
    (same_content q q' ->
       exists j', j' ∈ job_rows db'' /\ same_job j j' /\
         enqueue i' r' q' later db'' db'' db'' = Ok (db'', j')) /\
    (~ same_content q q' -> no_collision q q' ->
       enqueue i' r' q' later db'' db'' db'' =
         Raise (InvalidValue "request key was already used differently" "conflict")).
Proof.
  intros Hq Hk Hi Hid Hok H.
  assert (queue_ok db') as Hok'.
  { eapply evolves_ok; [exact Hok|]. by eapply (enqueue_evolves redact _ _ _ _ (true, true)). }
  unfold enqueue in H. destruct (requested_job i r q now) as [x|] eqn:Hx; [|done].
  cbn [mbind result_bind] in H.
  destruct (requested_fields _ _ _ _ _ _ Hq Hk Hx) as [Hkey _].
  apply admitted in H as (_ & Hin & Hreq & Hsame); [|done]. split_and!; [done|congruence|].
  intros db'' i' r' q' later other Hr Hq' Ho.
  destruct (row_stays _ _ _ _ Hok' Hr Hin) as (j' & Hj' & Hs).
  destruct (requested_fields _ _ _ _ _ _ Hq' Hk Ho) as [Hkey' _].
  assert (enqueue i' r' q' later db'' db'' db'' = if _same_request x other then Ok (db'', j') else already_used) as ->.
  { unfold enqueue. rewrite Ho. cbn [mbind result_bind].
    rewrite (admit_stored j'); [|by eapply run_ok|done|rewrite (same_request_id _ _ Hs); congruence].
    rewrite (same_request_stays j) by done. replace (_same_request j other) with (_same_request x other); [done|].
    revert Hsame. unfold _same_request. rewrite !andb_true_iff, !bool_decide_eq_true.
    intros ((((-> & ->) & ->) & ->) & ->). done. }
  destruct (same_request_content _ _ _ _ _ _ _ _ _ _ _ Hq Hq' Hk Hx Ho) as [Hs1 Hs2]. split.
  - intros Hc. exists j'. rewrite Hs1 by done. done.
  - intros Hc Hno. by rewrite Hs2.
Qed.

(** ** A worker's turn *)

(** The fence runs its job under a lease that ends at [lease]. *)
Definition held_by (db : JobDb) (f : AttemptFence) (lease : instant) (j : Job) : Prop :=
  j ∈ job_rows db /\ j_id j = af_job_id f /\
  exists a, a ∈ attempts_of db (j_id j) /\ at_fence a = af_fence f /\ at_state a = "running" /\
    to_utc (at_lease_deadline a) = lease.

(** Operations up to an instant, none of them under this fence. *)
Definition elsewhere (redact : string -> string) (f : AttemptFence) (until : instant)
    (db db' : JobDb) : Prop :=
  exists now lbl, now <= until /\ lbl <> Some (af_fence f) /\ queue_step redact now lbl db db'.

Lemma held_step redact f lease j now lbl db db' :
  queue_ok db -> held_by db f lease j -> now <= lease -> lbl <> Some (af_fence f) ->
  evolves redact now lbl db db' -> held_by db' f lease j.
Proof.
  intros Hok (Hj & Hi & a & Ha & Hf & Hr & Hl) Hnow Hlbl He.
  destruct (evolves_row _ _ _ _ _ j Hok He Hj) as [[Hin E]|(j' & _ & Hc)].
  { split_and!; [done|done|]. exists a. by rewrite E. }
  exfalso. pose proof (jobs_ok _ Hok j Hj) as Hjo.
  pose proof (running_is_current _ _ _ Hjo Ha Hr) as Hcur.
  inversion Hc as [? ? ? ? ? Hst Hall|? ? b ? ? Hb Hrb|? ? b ? ? ? Hb Hrb|? ? Hw]; subst.
  - rewrite Forall_forall in Hall. specialize (Hall a Ha Hr). lia.
  - pose proof (running_is_current _ _ _ Hjo Hb Hrb). congruence.
  - pose proof (running_is_current _ _ _ Hjo Hb Hrb). congruence.
  - destruct (ok_running _ _ Hjo a Ha Hr) as [_ Hs]. by rewrite Hw in Hs.
Qed.

Lemma held_run redact f lease j db db' :
  queue_ok db -> held_by db f lease j -> rtc (elsewhere redact f lease) db db' ->
  queue_ok db' /\ held_by db' f lease j.
Proof.
  intros Hok Hh Hr. induction Hr as [|db db1 db' (now & lbl & Hn & Hl & Hs) _ IH]; [done|].
  pose proof (step_evolves _ _ _ _ _ Hok Hs) as He.
  apply IH; [by eapply evolves_ok|by eapply held_step].
Qed.

Lemma elsewhere_run redact f lease db db' :
  rtc (elsewhere redact f lease) db db' -> queue_run redact db db'.
Proof. apply rtc_subrel. intros x y (now & lbl & _ & _ & Hs). by exists now, lbl. Qed.

(** A report inside the lease ends the job it was claimed for, whatever other workers do
    meanwhile. *)
Lemma report_ends redact f lease j db db' succeeded result_ why later first second :
  queue_ok db -> issued db f -> held_by db f lease j -> rtc (elsewhere redact f lease) db db' ->
  later < lease -> committed first second db' ->
  exists db'', _finish redact f succeeded result_ why later first second = Ok db'' /\
    ended_job redact succeeded result_ why later j ∈ job_rows db''.
Proof.
  intros Hok Hi Hh Hr Hlt Hcm. destruct (held_run _ _ _ _ _ _ Hok Hh Hr) as [Hok' Hh'].
  assert (issued db' f) as Hi'
    by (eapply issued_stays; [exact Hok|by eapply elsewhere_run|done]).
  destruct Hh' as (Hj & Hid & a & Ha & Hf & Hrun & Hl).
  assert (_active db' f later = Ok (j, a)) as Hact by (apply active_spec; [done..|]; split_and!; done || lia).
  unfold _finish. rewrite (optimistic_committed _ _ _ db') by done. unfold end_attempt. rewrite Hact.
  cbn [mbind result_bind].
  destruct (ok_running _ _ (jobs_ok _ Hok' j Hj) a Ha Hrun) as [_ Hs]. rewrite finish_ends by done. simpl.
  eexists. split; [done|]. simpl. by eapply (put_job_here j).
Qed.

(** A granted fence holds its job. *)
Lemma granted_held redact worker secs kinds jid locked fence_ now db j :
  queue_ok db -> fence_ ∉ at_fence <$> attempt_rows db -> strip worker <> EmptyString -> 0 < secs ->
  next_job db kinds jid locked now = Some j ->
  exists db1 f,
    JobQueue.claim redact worker secs kinds jid locked fence_ now db = Ok (db1, Some f) /\
    queue_ok db1 /\ issued db1 f /\ held_by db1 f (now + seconds secs) (taken_job now j) /\
    af_job_id f = j_id j /\ af_kind f = j_kind j /\ af_fence f = fence_.
Proof.
  intros Hok Hfr Hw Hs Hn. destruct (next_job_Some _ _ _ _ _ _ Hn) as (Hj & Hc & _).
  destruct (ok_targets _ _ (jobs_ok _ Hok j Hj)) as [t Ht].
  set (lease := now + seconds secs). set (a := fresh_attempt j worker fence_ lease).
  set (db1 := add_attempt a (put_job (taken_job now j) (lapse_previous j db))).
  set (f := given_fence j worker fence_ lease t).
  assert (JobQueue.claim redact worker secs kinds jid locked fence_ now db = Ok (db1, Some f)) as Hcl.
  { rewrite claim_result, Hn by done. simpl. by rewrite Ht. }
  pose proof (claim_evolves _ _ _ _ _ _ _ _ _ _ _ Hok Hfr Hcl) as Hev.
  assert (a ∈ attempt_rows db1) as Ha
    by (simpl; apply elem_of_app; right; by apply list_elem_of_singleton).
  exists db1, f. split_and!; try done; [by eapply evolves_ok|by exists a|].
  split_and!; [simpl; eapply (put_job_here j); [by rewrite lapse_previous_jobs|done]|done|].
  exists a. split_and!; try done. by apply elem_of_attempts.
Qed.

(** The kinds a worker claims are those it handles. *)
Lemma handler_found {H} (handlers : list (string * H)) kind_ :
  kind_ ∈ fst <$> handlers ->
  exists h, (kind_, h) ∈ handlers /\
    snd <$> find (fun p => String.eqb (fst p) kind_) handlers = Some h.
Proof.
  intros ([k h] & Hk & Hin)%list_elem_of_fmap. simpl in Hk. subst kind_.
  destruct (find _ handlers) as [[k' h']|] eqn:E.
  - apply find_some in E as [E1 E2]. simpl in E2. apply String.eqb_eq in E2 as ->.
    exists h'. split; [by apply list_elem_of_In|done].
  - apply list_elem_of_In in Hin. pose proof (find_none _ _ E _ Hin) as Hno. simpl in Hno.
    by rewrite String.eqb_refl in Hno.
Qed.

(** C26.  A worker's turn that finds a claimable job ends it.  Whatever other workers do while the
    handler runs, a report made inside the lease, with its first or its second optimistic
    commit, stores the handler's result, or the reason of its failure, on the oldest claimable
    job.  The one result that does not end it is one the queue refuses to store (a
    secret-looking name, or too large): the turn raises that refusal, and the job is left
    running until its lease lapses. *)
Theorem worker_turn_ends_job redact handlers worker jid locked fence_ now later meanwhile db j :
  queue_ok db -> fence_ ∉ at_fence <$> attempt_rows db -> strip worker <> EmptyString ->
  next_job db (fst <$> handlers) jid locked now = Some j -> later < now + seconds 30 ->
  (forall f db1, af_fence f = fence_ ->
     exists db2, committed (fst (meanwhile db1)) (snd (meanwhile db1)) db2 /\
       rtc (elsewhere redact f (now + seconds 30)) db1 db2) ->
  exists handler f, (j_kind j, handler) ∈ handlers /\ af_job_id f = j_id j /\
  let turn := _run_generic redact handlers worker jid locked fence_ now later meanwhile db in
  match handler f with
  | inl result_ =>
      match _canonical_payload result_ None with
      | Ok (clean, _) => exists db', turn = Ok (db', true) /\
          ended_job redact true (Some clean) None later (taken_job now j) ∈ job_rows db'
      | Raise e => turn = Raise e
      end
  | inr why => exists db', turn = Ok (db', true) /\
        ended_job redact false None (Some why) later (taken_job now j) ∈ job_rows db'
  end.
Proof.
  intros Hok Hfr Hw Hn Hlt Hmean. destruct (next_job_Some _ _ _ _ _ _ Hn) as (Hj & Hc & _).
  destruct (granted_held redact worker 30 (fst <$> handlers) jid locked fence_ now db j)
    as (db1 & f & Hcl & Hok1 & Hi & Hh & Hid & Hkind & Hff); [done..|].
  destruct (handler_found handlers (j_kind j)) as (handler & Hin & Hfind).
  { unfold claimable in Hc. do 4 apply andb_true_iff in Hc as [Hc _]. by apply mem_true in Hc. }
  exists handler, f. split_and!; [done|done|]. destruct (Hmean f db1 Hff) as (db2 & Hm & Hr).
  destruct (meanwhile db1) as [first second] eqn:Emw. cbn [fst snd] in Hm.
  assert (forall succeeded result_ why, exists db'',
    _finish redact f succeeded result_ why later first second = Ok db'' /\
    ended_job redact succeeded result_ why later (taken_job now j) ∈ job_rows db'') as Hend
    by (intros; by eapply report_ends).
  unfold _run_generic. rewrite Hcl. cbn [mbind result_bind].
  rewrite Hkind, Hfind, Emw.
  destruct (handler f) as [res|why].
  - unfold succeed. destruct (_canonical_payload res None) as [[clean encoded]|e]; [|done].
    destruct (Hend true (Some clean) None) as (db'' & Hf & Hrow).
    exists db''. split; [|done]. cbn [mbind result_bind]. by rewrite Hf.
  - destruct (Hend false None (Some why)) as (db'' & Hf & Hrow).
    exists db''. split; [|done]. unfold fail. by rewrite Hf.
Qed.

(** ** A queue with one job

    One request, its claim by a worker that falls silent, the claim of a second worker after
    the lease lapsed, and its report: concrete inputs of the theorems of [JobHistory]. *)

Definition plain (s : string) : string := s.
Definition unlocked (_ : string) : bool := false.

Definition empty_queue : JobDb := {| job_rows := []; attempt_rows := []; operated := [] |}.

Definition example_request : request := {|
  req_id := Some "key-1"; req_kind := "reconcile"; req_actor := "ops";
  req_authority_revision := "r1"; req_targets := targets_json ["spark-1"];
  req_payload := [("b", JInt 1); ("a", JString "x")] |}.

Definition the_db (r : result (JobDb * Job)) : JobDb :=
  match r with Ok (db, _) => db | Raise _ => empty_queue end.
Definition the_job (r : result (JobDb * Job)) (d : Job) : Job :=
  match r with Ok (_, j) => j | Raise _ => d end.
Definition the_fence (r : result (JobDb * option AttemptFence)) : option AttemptFence :=
  match r with Ok (_, f) => f | Raise _ => None end.
Definition the_queue (r : result (JobDb * option AttemptFence)) : JobDb :=
  match r with Ok (db, _) => db | Raise _ => empty_queue end.

Definition enqueued := Eval vm_compute in
  enqueue "job-1" "new-key" example_request 0 empty_queue empty_queue empty_queue.
Definition queue1 : JobDb := Eval vm_compute in the_db enqueued.

Definition claimed1 := Eval vm_compute in
  JobQueue.claim plain "worker-1" 30 ["reconcile"] None unlocked "fence-1" (seconds 1) queue1.
Definition queue2 : JobDb := Eval vm_compute in the_queue claimed1.

Definition claimed2 := Eval vm_compute in
  JobQueue.claim plain "worker-2" 30 ["reconcile"] None unlocked "fence-2" (seconds 60) queue2.
Definition queue3 : JobDb := Eval vm_compute in the_queue claimed2.

Definition fence1 : AttemptFence := Eval vm_compute in
  {| af_job_id := "job-1"; af_attempt := 1; af_fence := "fence-1"; af_worker_id := "worker-1";
     af_lease_deadline := seconds 31; af_kind := "reconcile"; af_payload := JObject [];
     af_authority_revision := "r1"; af_targets := [] |}.
Definition fence2 : AttemptFence := Eval vm_compute in
  default fence1 (the_fence claimed2).

Definition queue4 : JobDb := Eval vm_compute in
  match succeed plain fence2 [("ok", JBool true)] (seconds 61) (Some queue3) None with
  | Ok db => db | Raise _ => empty_queue end.

(** Keys are sorted, the first holder's attempt is observed, and the second one's report is
    stored. *)
Example example_rows :
  (j_payload <$> job_rows queue4, j_state <$> job_rows queue4, j_result <$> job_rows queue4,
   at_state <$> attempt_rows queue4) =
  ([JObject [("a", JString "x"); ("b", JInt 1)]], ["succeeded"],
   [Some (JObject [("ok", JBool true)])], ["observing"; "succeeded"]).
Proof. vm_compute. reflexivity. Qed.

Lemma empty_ok : queue_ok empty_queue.
Proof. constructor; simpl; try apply NoDup_nil_2; intros; set_solver. Qed.

Lemma step1 : queue_step plain 0 None empty_queue queue1.
Proof.
  apply (step_enqueue plain "job-1" "new-key" example_request 0 (true, true) empty_queue empty_queue queue1
           (the_job enqueued {| j_id := ""; j_request_id := ""; j_kind := ""; j_state := ""; j_actor := "";
              j_authority_revision := ""; j_targets := JNull; j_payload_digest := ""; j_payload := JNull;
              j_result := None; j_status_reason := None; j_current_attempt := 0; j_created_at := Aware 0;
              j_updated_at := Aware 0; j_wait := cleared; j_clocks := NoClocks |})).
  - done.
  - set_solver.
  - vm_compute. reflexivity.
Qed.

Lemma claim1 :
  JobQueue.claim plain "worker-1" 30 ["reconcile"] None unlocked "fence-1" (seconds 1) queue1
  = Ok (queue2, the_fence claimed1).
Proof. vm_compute. reflexivity. Qed.
Lemma claim2 :
  JobQueue.claim plain "worker-2" 30 ["reconcile"] None unlocked "fence-2" (seconds 60) queue2
  = Ok (queue3, Some fence2).
Proof. vm_compute. reflexivity. Qed.

Lemma run1 : queue_run plain empty_queue queue1.
Proof. apply rtc_once. exists 0, None. apply step1. Qed.
Lemma run2 : queue_run plain empty_queue queue2.
Proof.
  eapply rtc_r; [apply run1|]. exists (seconds 1), None. eapply step_claim; [|apply claim1]. set_solver.
Qed.

Lemma queue1_ok : queue_ok queue1.
Proof. exact (run_ok _ _ _ empty_ok run1). Qed.
Lemma queue2_ok : queue_ok queue2.
Proof. exact (run_ok _ _ _ empty_ok run2). Qed.
Lemma fence_new2 : "fence-2" ∉ at_fence <$> attempt_rows queue2.
Proof. apply (bool_decide_unpack _). vm_compute. exact I. Qed.
Lemma issued1 : issued queue2 fence1.
Proof. eexists. split; [left|]. split_and!; reflexivity. Qed.

Lemma queue3_ok : queue_ok queue3.
Proof.
  eapply evolves_ok; [apply queue2_ok|]. exact (claim_evolves _ _ _ _ _ _ _ _ _ _ _ queue2_ok fence_new2 claim2).
Qed.
Lemma queue4_ok : queue_ok queue4.
Proof.
  eapply evolves_ok; [apply queue3_ok|].
  apply (finish_evolves plain fence2 true (Some (JObject [("ok", JBool true)])) None (seconds 61)
           (Some queue3) None queue3).
  - apply queue3_ok.
  - eexists. split; [right; left|]. split_and!; reflexivity.
  - by left.
  - vm_compute. reflexivity.
Qed.

(** ** Witnesses *)
Lemma queue_history_witness : queue_ok empty_queue /\ queue_ok queue2.
Proof. split; [apply empty_ok|]. exact (queue_history plain _ _ empty_ok run2). Defined.

Lemma ended_job_final_witness :
  exists j, j ∈ job_rows queue4 /\ j_state j = "succeeded" /\
    forall db', queue_run plain queue4 db' -> j ∈ job_rows db'.
Proof.
  eexists. split; [left|]. split; [reflexivity|]. intros db' Hr.
  eapply (ended_job_final plain queue4 db'); [apply queue4_ok|left|left|exact Hr].
Defined.

Lemma claim_fences_out_witness :
  refused plain queue2 fence1 (seconds 60) /\ refused plain queue3 fence1 (seconds 60).
Proof.
  destruct (claim_fences_out plain "worker-2" 30 ["reconcile"] None unlocked "fence-2" (seconds 60)
              queue2 queue3 fence2 fence1 queue2_ok fence_new2 claim2 issued1 eq_refl) as [Hn Hl].
  split; [exact Hn|]. apply Hl. apply rtc_refl.
Defined.

Lemma claim_takes_oldest_witness :
  exists db' r, JobQueue.claim plain "worker-2" 30 ["reconcile"] None unlocked "fence-2" (seconds 60) queue2
    = Ok (db', r).
Proof.
  destruct (claim_takes_oldest plain "worker-2" 30 ["reconcile"] None unlocked "fence-2" (seconds 60)
              queue2 queue2_ok fence_new2) as (db' & r & H & _).
  - discriminate.
  - lia.
  - exists db', r. exact H.
Defined.

(** The same request with its payload's keys in another order, and one with another payload. *)
Definition reordered_request : request := {|
  req_id := Some "key-1"; req_kind := "reconcile"; req_actor := "ops";
  req_authority_revision := "r1"; req_targets := targets_json ["spark-1"];
  req_payload := [("a", JString "x"); ("b", JInt 1)] |}.
Definition changed_request : request := {|
  req_id := Some "key-1"; req_kind := "reconcile"; req_actor := "ops";
  req_authority_revision := "r1"; req_targets := targets_json ["spark-1"];
  req_payload := [("a", JString "x"); ("b", JInt 2)] |}.

Lemma enqueue_is_idempotent_witness :
  (exists j', j' ∈ job_rows queue1 /\
     enqueue "job-2" "other" reordered_request (seconds 9) queue1 queue1 queue1 = Ok (queue1, j')) /\
  enqueue "job-2" "other" changed_request (seconds 9) queue1 queue1 queue1 =
    Raise (InvalidValue "request key was already used differently" "conflict").
Proof.
  destruct (enqueue_is_idempotent plain "job-1" "new-key" example_request "key-1" 0 empty_queue queue1
              (the_job enqueued {| j_id := ""; j_request_id := ""; j_kind := ""; j_state := ""; j_actor := "";
                 j_authority_revision := ""; j_targets := JNull; j_payload_digest := "";
                 j_payload := JNull; j_result := None; j_status_reason := None; j_current_attempt := 0;
                 j_created_at := Aware 0; j_updated_at := Aware 0; j_wait := cleared;
                 j_clocks := NoClocks |})) as (_ & _ & Hagain).
  - reflexivity.
  - discriminate.
  - discriminate.
  - set_solver.
  - apply empty_ok.
  - vm_compute. reflexivity.
  - split.
    + destruct (Hagain queue1 "job-2" "other" reordered_request (seconds 9) _ (rtc_refl _ _) eq_refl
        ltac:(vm_compute; reflexivity)) as [Hsame _].
      destruct Hsame as (j' & Hin & _ & He); [by constructor|]. exists j'. split; [exact Hin|exact He].
    + destruct (Hagain queue1 "job-2" "other" changed_request (seconds 9) _ (rtc_refl _ _) eq_refl
        ltac:(vm_compute; reflexivity)) as [_ Hdiff].
      apply Hdiff; [intros [_ _ _ _ E]; vm_compute in E; discriminate|intros _ E; vm_compute in E; discriminate].
Defined.

Definition example_handlers : list (string * (AttemptFence -> handled)) :=
  [("reconcile", fun _ => inl [("ok", JBool true)])].

Lemma worker_turn_ends_job_witness :
  exists handler f, ("reconcile"%string, handler) ∈ example_handlers /\ af_job_id f = "job-1" /\
    is_ok (_run_generic plain example_handlers "worker-2" None unlocked "fence-2" (seconds 60)
             (seconds 61) (fun db => (Some db, None)) queue2).
Proof.
  destruct (job_rows queue2) as [|j l] eqn:Hj; [discriminate|].
  destruct (worker_turn_ends_job plain example_handlers "worker-2" None unlocked "fence-2" (seconds 60)
              (seconds 61) (fun db => (Some db, None)) queue2 j queue2_ok fence_new2)
    as (handler & f & Hin & Hid & Hres).
  - discriminate.
  - unfold next_job. rewrite Hj. injection Hj as <- <-. vm_compute. reflexivity.
  - vm_compute. reflexivity.
  - intros f db1 _. exists db1. split; [by left|apply rtc_refl].
  - injection Hj as <- <-. exists handler, f. split; [exact Hin|]. split; [exact Hid|].
    apply list_elem_of_singleton in Hin as [= ->]. cbv beta iota zeta in Hres.
    assert (_canonical_payload [("ok", JBool true)] None =
      Ok (JObject [("ok", JBool true)], dumps (JObject [("ok", JBool true)]))) as E by (vm_compute; reflexivity).
    rewrite E in Hres. destruct Hres as (db' & H & _). exists (db', true). exact H.
Defined.
