(* ===== verification/Tokens.v ===== *)
(** * Bearer tokens and cursors

    [TokenCodec] and [CursorCodec] of [control/src/vonk_control/auth.py]: signed tokens that
    name an actor until an expiry, and signed cursors that are bound to one resource, order
    and query context.  A text is a list of code points below 256; a key, a digest and a
    payload are lists of bytes.  Base64 is Python's: the decoder skips characters outside the
    alphabet and stops at complete padding.  What [json.loads] answers for bytes outside the
    reader of [JsonRead] is the argument [other]. *)
From S2P Require Import Prelude Sha256 Json Settings LoginLimiter BrowserAuth JsonRead.

(** ** Text and bytes *)

(** [text.encode()]: UTF-8 of code points below 256. *)
Fixpoint utf8 (s : string) : list Z :=
  match s with
  | EmptyString => []
  | String c r =>
      let n := Z.of_nat (code c) in
      if n <? 128 then n :: utf8 r else Z.lor 192 (Z.shiftr n 6) :: Z.lor 128 (Z.land n 63) :: utf8 r
  end.

(** The text whose characters are the bytes. *)
Fixpoint latin (bytes : list Z) : string :=
  match bytes with
  | [] => EmptyString
  | b :: r => String (Ascii.ascii_of_nat (Z.to_nat b)) (latin r)
  end.

(** [text.split(sep)] and [text.split(sep, 1)] *)
Fixpoint split_on (sep : Ascii.ascii) (s : string) : list string :=
  match s with
  | EmptyString => [EmptyString]
  | String c r =>
      if Ascii.eqb c sep then EmptyString :: split_on sep r
      else match split_on sep r with p :: ps => String c p :: ps | [] => [] end
  end.

Fixpoint split_once (sep : Ascii.ascii) (s : string) : option (string * string) :=
  match s with
  | EmptyString => None
  | String c r =>
      if Ascii.eqb c sep then Some (EmptyString, r)
      else match split_once sep r with Some (a, b) => Some (String c a, b) | None => None end
  end.

Definition dot : Ascii.ascii := Ascii.ascii_of_nat 46.
Definition pad_char : Ascii.ascii := Ascii.ascii_of_nat 61.

(** [text.rstrip(chars)] of one character. *)
Fixpoint rstrip_char (c : Ascii.ascii) (s : string) : string :=
  match s with
  | EmptyString => EmptyString
  | String d r =>
      match rstrip_char c r with
      | EmptyString => if Ascii.eqb d c then EmptyString else String d EmptyString
      | t => String d t
      end
  end.

(** ** Base64 *)

(** The URL-safe alphabet. *)
Definition b64_char (n : Z) : Ascii.ascii :=
  Ascii.ascii_of_nat (Z.to_nat
    (if n <? 26 then n + 65 else if n <? 52 then n + 71 else if n <? 62 then n - 4
     else if n =? 62 then 45 else 95)).

(** The value of a character after [-] and [_] became [+] and [/]. *)
Definition b64_value (c : Ascii.ascii) : option Z :=
  let n := Z.of_nat (code c) in
  if (65 <=? n) && (n <=? 90) then Some (n - 65)
  else if (97 <=? n) && (n <=? 122) then Some (n - 71)
  else if (48 <=? n) && (n <=? 57) then Some (n + 4)
  else if (n =? 45) || (n =? 43) then Some 62
  else if (n =? 95) || (n =? 47) then Some 63
  else None.

Definition sextets (a b c : Z) : Z * Z * Z * Z :=
  (Z.shiftr a 2, Z.lor (Z.shiftl (Z.land a 3) 4) (Z.shiftr b 4),
   Z.lor (Z.shiftl (Z.land b 15) 2) (Z.shiftr c 6), Z.land c 63).

(** [base64.urlsafe_b64encode] *)
Fixpoint urlsafe_b64encode (bytes : list Z) : string :=
  match bytes with
  | a :: b :: c :: r =>
      let '(p, q, s, t) := sextets a b c in
      String (b64_char p) (String (b64_char q) (String (b64_char s) (String (b64_char t) (urlsafe_b64encode r))))
  | [a; b] =>
      let '(p, q, s, _) := sextets a b 0 in
      String (b64_char p) (String (b64_char q) (String (b64_char s) (String pad_char EmptyString)))
  | [a] =>
      let '(p, q, _, _) := sextets a 0 0 in
      String (b64_char p) (String (b64_char q) (String pad_char (String pad_char EmptyString)))
  | [] => EmptyString
  end.

(** [binascii.a2b_base64], not strict: [quad] is the position in the group of four, [left] the
    bits kept of the last character, [pads] the padding seen since. *)
Fixpoint a2b_base64 (s : string) (quad left pads : Z) : option (list Z) :=
  match s with
  | EmptyString => if quad =? 0 then Some [] else None
  | String c r =>
      if Ascii.eqb c pad_char then
        if 2 <=? quad then if 4 <=? quad + (pads + 1) then Some [] else a2b_base64 r quad left (pads + 1)
        else a2b_base64 r quad left pads
      else
        match b64_value c with
        | None => a2b_base64 r quad left pads
        | Some v =>
            if quad =? 0 then a2b_base64 r 1 v 0
            else if quad =? 1 then
              (cons (Z.lor (Z.shiftl left 2) (Z.shiftr v 4))) <$> a2b_base64 r 2 (Z.land v 15) 0
            else if quad =? 2 then
              (cons (Z.lor (Z.shiftl left 4) (Z.shiftr v 2))) <$> a2b_base64 r 3 (Z.land v 3) 0
            else (cons (Z.lor (Z.shiftl left 6) v)) <$> a2b_base64 r 0 0 0
        end
  end.

Fixpoint pads (n : nat) : string :=
  match n with O => EmptyString | S n => String pad_char (pads n) end.

(** [_encode] *)
Definition _encode (value : list Z) : string := rstrip_char pad_char (urlsafe_b64encode value).

(** [_decode]: a text that is not ASCII, or has no whole groups, is refused. *)
Definition is_ascii (c : Ascii.ascii) : bool := Nat.ltb (code c) 128.
Definition _decode (value : string) : option (list Z) :=
  let padded := value +:+ pads (Z.to_nat (- Z.of_nat (String.length value) mod 4)) in
  if all_chars is_ascii padded then a2b_base64 padded 0 0 0 else None.

(** ** Python values of a JSON document *)

(** [value[key]] and [value.get(key)] *)
Definition lookup_key (k : string) (l : list (string * json)) : option json :=
  snd <$> find (fun p => bool_decide (fst p = k)) l.

(** [isinstance(value, int)]: [True] and [False] are integers. *)
Definition as_integer (v : json) : option Z :=
  match v with JInt z => Some z | JBool b => Some (b2z b) | _ => None end.

(** [a == b] *)
Fixpoint py_eq (a b : json) {struct a} : bool :=
  match a, b with
  | JNull, JNull => true
  | JString x, JString y => bool_decide (x = y)
  | JArray l, JArray m =>
      (fix go l m := match l, m with
        | [], [] => true
        | x :: l, y :: m => py_eq x y && go l m
        | _, _ => false
        end) l m
  | JObject l, JObject m =>
      Nat.eqb (length l) (length m)
      && (fix go l := match l with
            | [] => true
            | (k, x) :: l => match lookup_key k m with Some y => py_eq x y | None => false end && go l
            end) l
  | _, _ =>
      match as_integer a, as_integer b with Some x, Some y => x =? y | _, _ => false end
  end.

(** [repr] of a text: the quote it does not contain, escapes for what is not printable. *)
Definition apostrophe : Ascii.ascii := Ascii.ascii_of_nat 39.
Definition repr_char (quote c : Ascii.ascii) : string :=
  let n := code c in
  if Ascii.eqb c quote || Nat.eqb n 92 then backslash +:+ String c EmptyString
  else if Nat.eqb n 9 then backslash +:+ "t"
  else if Nat.eqb n 10 then backslash +:+ "n"
  else if Nat.eqb n 13 then backslash +:+ "r"
  else if Nat.ltb n 32 || (Nat.leb 127 n && Nat.leb n 160) || Nat.eqb n 173
  then backslash +:+ "x" +:+ String (Sha256.hex_digit (Z.of_nat (n / 16)))
                               (String (Sha256.hex_digit (Z.of_nat (n mod 16))) EmptyString)
  else String c EmptyString.
Fixpoint repr_chars (quote : Ascii.ascii) (s : string) : string :=
  match s with EmptyString => EmptyString | String c r => repr_char quote c +:+ repr_chars quote r end.
Definition repr_text (s : string) : string :=
  let has c := negb (all_chars (fun d => negb (Ascii.eqb c d)) s) in
  let quote := if has apostrophe && negb (has (Ascii.ascii_of_nat 34)) then Ascii.ascii_of_nat 34 else apostrophe in
  String quote EmptyString +:+ repr_chars quote s +:+ String quote EmptyString.

Fixpoint py_repr (v : json) : string :=
  match v with
  | JNull => "None"
  | JBool b => if b then "True" else "False"
  | JInt z => json_int z
  | JString s => repr_text s
  | JArray l => "[" +:+ join ", " (map py_repr l) +:+ "]"
  | JObject l => "{" +:+ join ", " (map (fun p => repr_text (fst p) +:+ ": " +:+ py_repr (snd p)) l) +:+ "}"
  end.

(** [str(value)] *)
Definition py_str (v : json) : string := match v with JString s => s | _ => py_repr v end.

(** ** Bearer tokens *)
Definition auth_error {A} (msg : string) : result A := Raise (ValueError msg).

Section token_codec.
Context (other : string -> parsed).

(** [TokenCodec(signing_key)] *)
Definition make_token_codec (signing_key : list Z) : result (list Z) :=
  if Nat.ltb (length signing_key) 32 then Raise (ValueError "token signing key must be at least 32 bytes")
  else Ok signing_key.

Definition token_payload (actor : Actor) (expires : Z) : json := JObject [
  ("exp", JInt expires); ("role", JString (actor_role actor)); ("sub", JString (actor_subject actor))].

Definition signed_body (key : list Z) (body : string) : string :=
  body +:+ String dot (_encode (hmac key (utf8 body))).

Definition issue (key : list Z) (actor : Actor) (ttl_seconds now : Z) : result string :=
  if ttl_seconds <=? 0 then Raise (ValueError "token lifetime must be positive")
  else Ok (signed_body key (_encode (utf8 (dumps (token_payload actor (now + ttl_seconds)))))).

(** The checks on a payload whose signature is right. *)
Definition token_actor (payload : list Z) (now : Z) : result Actor :=
  match json_loads other (latin payload) with
  | Value (JObject l) =>
      match lookup_key "exp" l ≫= as_integer with
      | None => auth_error "token is expired"
      | Some expires =>
          if expires <? now then auth_error "token is expired"
          else
            match lookup_key "sub" l, lookup_key "role" l with
            | Some subject, Some role => make_actor (py_str subject) (py_str role)
            | _, _ => auth_error "token is malformed"
            end
      end
  | Value _ => auth_error "token payload is invalid"
  | _ => auth_error "token is malformed"
  end.

Definition verify (key : list Z) (token : string) (now : Z) : result Actor :=
  match split_once dot token with
  | None => auth_error "token is malformed"
  | Some (body, signature) =>
      match _decode signature with
      | None => auth_error "token is malformed"
      | Some supplied =>
          if negb (bool_decide (supplied = hmac key (utf8 body))) then auth_error "token signature is invalid"
          else
            match _decode body with
            | None => auth_error "token is malformed"
            | Some payload => token_actor payload now
            end
      end
  end.
End token_codec.

(** ** Cursors *)
Definition MAX_CURSOR_LENGTH : Z := 1024.
Definition _CURSOR_DOMAIN : list Z := (Sha256.encode "vonk-forge/control-cursor/v1" ++ [0])%list.
Definition _CURSOR_SIGNATURE_LENGTH : Z := 43.
Definition _MAX_CURSOR_BODY_LENGTH : Z := MAX_CURSOR_LENGTH - 4 - _CURSOR_SIGNATURE_LENGTH.
Definition _MAX_CURSOR_PAYLOAD_LENGTH : Z := _MAX_CURSOR_BODY_LENGTH * 3 / 4.

Definition text_length (s : string) : Z := Z.of_nat (String.length s).

(** [_CURSOR_TOKEN.fullmatch] on the parts between the dots. *)
Definition _CURSOR_TOKEN (parts : list string) : option (string * string) :=
  match parts with
  | [version; body; signature] =>
      if bool_decide (version = "v1"%string)
         && (1 <=? text_length body) && (text_length body <=? _MAX_CURSOR_BODY_LENGTH) && all_token_chars body
         && (text_length signature =? _CURSOR_SIGNATURE_LENGTH) && all_token_chars signature
      then Some (body, signature) else None
  | _ => None
  end.

(** [TokenCodec.cursor_codec] and [CursorCodec(derived_key)] *)
Definition make_cursor_codec (derived_key : list Z) : result (list Z) :=
  if negb (Nat.eqb (length derived_key) 32) then Raise (ValueError "cursor signing key is invalid")
  else Ok derived_key.
Definition cursor_codec (key : list Z) : result (list Z) :=
  make_cursor_codec (hmac key (_CURSOR_DOMAIN ++ Sha256.encode "key")).

Definition cursor_document (resource order : string) (context : list (string * json)) (boundary : json) : json :=
  JObject [("boundary", boundary); ("context", JObject context); ("order", JString order);
           ("resource", JString resource); ("version", JInt 1)].

Definition cursor_signature (key : list Z) (body : string) : list Z := hmac key (_CURSOR_DOMAIN ++ utf8 body).

Definition encode_cursor (key : list Z) (resource order : string) (context : list (string * json))
    (boundary : json) : result string :=
  let payload := utf8 (dumps (_canonical (cursor_document resource order context boundary))) in
  if _MAX_CURSOR_PAYLOAD_LENGTH <? Z.of_nat (length payload) then Raise (ValueError "cursor document is too large")
  else
    let body := _encode payload in
    let token := "v1." +:+ body +:+ String dot (_encode (cursor_signature key body)) in
    if MAX_CURSOR_LENGTH <? text_length token then Raise (ValueError "cursor document is too large")
    else Ok token.

Definition CURSOR_FIELDS : list string := ["boundary"; "context"; "order"; "resource"; "version"].

(** [value == expected] of a field that may be absent. *)
Definition field_is (l : list (string * json)) (k : string) (expected : json) : bool :=
  match lookup_key k l with Some v => py_eq v expected | None => false end.

Definition cursor_boundary (l : list (string * json)) (resource order : string) (context : list (string * json))
    : option json :=
  if forallb (fun k => mem k CURSOR_FIELDS) (map fst l) && forallb (fun k => mem k (map fst l)) CURSOR_FIELDS
     && field_is l "version" (JInt 1) && field_is l "resource" (JString resource)
     && field_is l "order" (JString order) && field_is l "context" (JObject context)
  then lookup_key "boundary" l else None.

Definition decode_cursor (other : string -> parsed) (key : list Z) (token resource order : string)
    (context : list (string * json)) : result json :=
  let invalid := Raise (ValueError "cursor is invalid") in
  if MAX_CURSOR_LENGTH <? text_length token then invalid
  else
    match _CURSOR_TOKEN (split_on dot token) with
    | None => invalid
    | Some (body, signature) =>
        match _decode signature, _decode body with
        | Some supplied, Some payload =>
            if negb (bool_decide (_encode supplied = signature)) || negb (bool_decide (_encode payload = body))
            then invalid
            else if negb (bool_decide (supplied = cursor_signature key body)) then invalid
            else
              match json_loads other (latin payload) with
              | Value (JObject l) =>
                  match cursor_boundary l resource order context with Some b => Ok b | None => invalid end
              | _ => invalid
              end
        | _, _ => invalid
        end
    end.

Example base64_examples :
  _encode (Sha256.encode "light w") = "bGlnaHQgdw"%string /\ _decode "bGlnaHQgdw" = Some (Sha256.encode "light w") /\
  _decode "bG.ln!aHQgdw==" = Some (Sha256.encode "light w") /\ _decode "b" = None /\ _encode [251; 255] = "-_8"%string.
Proof. done. Qed.
