(* ===== verification/TokenFacts.v ===== *)
(** * Bearer tokens and cursors: theorems

    Base64 gives back what it encoded; an issued token is its actor until it expires; a cursor
    gives back its boundary in its own context only; neither is ever taken for the other. *)
From S2P Require Import Prelude Sha256 Json Settings LoginLimiter BrowserAuth JsonRead Tokens.

Definition is_byte (b : Z) : Prop := 0 <= b < 256.

(** ** Bits *)
Lemma lor_shift_add x y n : 0 <= n -> 0 <= y < 2 ^ n -> Z.lor (Z.shiftl x n) y = x * 2 ^ n + y.
Proof.
  intros Hn Hy. assert (Z.land (Z.shiftl x n) y = 0) as H0.
  { destruct (Z.eq_dec y 0) as [->|Hy0]; [apply Z.land_0_r|].
    apply Z.bits_inj'. intros i Hi. rewrite Z.land_spec, Z.bits_0. destruct (Z.lt_ge_cases i n).
    - by rewrite Z.shiftl_spec_low.
    - rewrite (Z.bits_above_log2 y i); [by rewrite andb_false_r|lia|].
      apply Z.log2_lt_pow2; [lia|]. apply Z.lt_le_trans with (2 ^ n); [lia|]. apply Z.pow_le_mono_r; lia. }
  rewrite <- Z.lxor_lor, <- Z.add_nocarry_lxor, Z.shiftl_mul_pow2 by done. done.
Qed.

Lemma land3 a : Z.land a 3 = a mod 4.
Proof. exact (Z.land_ones a 2 ltac:(lia)). Qed.
Lemma land15 a : Z.land a 15 = a mod 16.
Proof. exact (Z.land_ones a 4 ltac:(lia)). Qed.
Lemma land63 a : Z.land a 63 = a mod 64.
Proof. exact (Z.land_ones a 6 ltac:(lia)). Qed.

Ltac euclid := Z.to_euclidean_division_equations; lia.
Ltac powers := change (2 ^ 2) with 4; change (2 ^ 4) with 16; change (2 ^ 6) with 64.

Lemma sextets_bytes a b c p q s t :
  is_byte a -> is_byte b -> is_byte c -> sextets a b c = (p, q, s, t) ->
  (0 <= p < 64 /\ 0 <= q < 64 /\ 0 <= s < 64 /\ 0 <= t < 64) /\
  Z.lor (Z.shiftl p 2) (Z.shiftr q 4) = a /\ Z.lor (Z.shiftl (Z.land q 15) 4) (Z.shiftr s 2) = b /\
  Z.lor (Z.shiftl (Z.land s 3) 6) t = c.
Proof.
  unfold is_byte, sextets. intros Ha Hb Hc [= <- <- <- <-].
  rewrite land3, land15, land63, !Z.shiftr_div_pow2 by lia. powers.
  rewrite (lor_shift_add (a mod 4) (b / 16)) by (powers; euclid).
  rewrite (lor_shift_add (b mod 16) (c / 64)) by (powers; euclid). powers.
  rewrite land15, land3. split_and!; try euclid; rewrite lor_shift_add; powers; euclid.
Qed.

(** ** Base64 *)

(** What a character of the alphabet is. *)
Definition b64_char_ok (n : Z) : bool :=
  bool_decide (b64_value (b64_char n) = Some n) && negb (Ascii.eqb (b64_char n) pad_char)
  && token_char (b64_char n).

Lemma b64_char_spec n : 0 <= n < 64 -> b64_char_ok n = true.
Proof.
  intros H. assert (forallb (fun k => b64_char_ok (Z.of_nat k)) (seq 0 64) = true) as Hall by (vm_compute; reflexivity).
  rewrite forallb_forall in Hall. specialize (Hall (Z.to_nat n)). rewrite Z2Nat.id in Hall by lia.
  apply Hall, in_seq. lia.
Qed.

Lemma b64_char_value n : 0 <= n < 64 -> b64_value (b64_char n) = Some n.
Proof. intros H%b64_char_spec. unfold b64_char_ok in H. by bools. Qed.
Lemma b64_char_pad n : 0 <= n < 64 -> Ascii.eqb (b64_char n) pad_char = false.
Proof. intros H%b64_char_spec. unfold b64_char_ok in H. by bools. Qed.
Lemma b64_char_token n : 0 <= n < 64 -> token_char (b64_char n) = true.
Proof. intros H%b64_char_spec. unfold b64_char_ok in H. by bools. Qed.

(** One group of four characters gives its three bytes. *)
Lemma a2b_group a b c p q s t r :
  is_byte a -> is_byte b -> is_byte c -> sextets a b c = (p, q, s, t) ->
  a2b_base64 (String (b64_char p) (String (b64_char q) (String (b64_char s) (String (b64_char t) r)))) 0 0 0 =
  (fun l => a :: b :: c :: l) <$> a2b_base64 r 0 0 0.
Proof.
  intros Ha Hb Hc E. destruct (sextets_bytes a b c p q s t Ha Hb Hc E) as ((Hp & Hq & Hs & Ht) & E1 & E2 & E3).
  cbn [a2b_base64]. rewrite !b64_char_pad, !b64_char_value by done. simpl.
  rewrite E1, E2, E3. by destruct (a2b_base64 r 0 0 0).
Qed.

Lemma a2b_b64encode bytes : Forall is_byte bytes -> a2b_base64 (urlsafe_b64encode bytes) 0 0 0 = Some bytes.
Proof.
  revert bytes. fix IH 1. intros [|a [|b [|c r]]] H.
  - done.
  - apply Forall_cons in H as [Ha _]. cbn [urlsafe_b64encode]. destruct (sextets a 0 0) as [[[p q] s] t] eqn:E.
    destruct (sextets_bytes a 0 0 p q s t Ha ltac:(unfold is_byte; lia) ltac:(unfold is_byte; lia) E)
      as ((Hp & Hq & Hs & Ht) & E1 & _ & _).
    cbn [a2b_base64]. rewrite !b64_char_pad, !b64_char_value by done. simpl. by rewrite E1.
  - apply Forall_cons in H as [Ha [Hb _]%Forall_cons]. cbn [urlsafe_b64encode].
    destruct (sextets a b 0) as [[[p q] s] t] eqn:E.
    destruct (sextets_bytes a b 0 p q s t Ha Hb ltac:(unfold is_byte; lia) E) as ((Hp & Hq & Hs & Ht) & E1 & E2 & _).
    cbn [a2b_base64]. rewrite !b64_char_pad, !b64_char_value by done. simpl. by rewrite E1, E2.
  - apply Forall_cons in H as [Ha [Hb [Hc Hr]%Forall_cons]%Forall_cons]. cbn [urlsafe_b64encode].
    destruct (sextets a b c) as [[[p q] s] t] eqn:E. rewrite (a2b_group a b c p q s t) by done. by rewrite IH.
Qed.

(** The encoded text without its padding. *)
Lemma rstrip_app s : all_chars (fun c => negb (Ascii.eqb c pad_char)) s = true -> forall n, rstrip_char pad_char (s +:+ pads n) = s.
Proof.
  intros Hs n. induction s as [|c s IH]; simpl in Hs.
  - change (rstrip_char pad_char (pads n) = EmptyString). induction n as [|n IHn]; [done|].
    cbn [pads rstrip_char]. by rewrite IHn.
  - apply andb_prop in Hs as [Hc Hs]. change (String c s +:+ pads n) with (String c (s +:+ pads n)).
    cbn [rstrip_char]. rewrite IH by done. destruct s; [|done]. by rewrite (proj1 (negb_true_iff _) Hc).
Qed.

Lemma token_char_no_pad c : token_char c = true -> negb (Ascii.eqb c pad_char) = true.
Proof. by destruct c as [[] [] [] [] [] [] [] []]. Qed.
Lemma token_char_ascii c : token_char c = true -> is_ascii c = true.
Proof. by destruct c as [[] [] [] [] [] [] [] []]. Qed.
Lemma token_char_no_dot c : token_char c = true -> Ascii.eqb c dot = false.
Proof. by destruct c as [[] [] [] [] [] [] [] []]. Qed.

Lemma all_token_chars_spec s : all_token_chars s = all_chars token_char s.
Proof. induction s as [|c s IH]; [done|]. simpl. by rewrite IH. Qed.

Lemma encode_parts bytes : Forall is_byte bytes -> exists core k,
  urlsafe_b64encode bytes = core +:+ pads k /\ all_chars token_char core = true /\
  Z.of_nat k = (- Z.of_nat (String.length core)) mod 4 /\ (3 * String.length core <= 4 * length bytes + 2)%nat /\
  (4 * length bytes <= 3 * String.length core)%nat.
Proof.
  revert bytes. fix IH 1. intros [|a [|b [|c r]]] H.
  - exists EmptyString, 0%nat. simpl. split_and!; (done || lia).
  - apply Forall_cons in H as [Ha _]. cbn [urlsafe_b64encode]. destruct (sextets a 0 0) as [[[p q] s] t] eqn:E.
    destruct (sextets_bytes a 0 0 p q s t Ha ltac:(unfold is_byte; lia) ltac:(unfold is_byte; lia) E) as ((Hp & Hq & _) & _).
    exists (String (b64_char p) (String (b64_char q) EmptyString)), 2%nat. simpl.
    rewrite !b64_char_token by done. split_and!; (done || lia).
  - apply Forall_cons in H as [Ha [Hb _]%Forall_cons]. cbn [urlsafe_b64encode].
    destruct (sextets a b 0) as [[[p q] s] t] eqn:E.
    destruct (sextets_bytes a b 0 p q s t Ha Hb ltac:(unfold is_byte; lia) E) as ((Hp & Hq & Hs & _) & _).
    exists (String (b64_char p) (String (b64_char q) (String (b64_char s) EmptyString))), 1%nat. simpl.
    rewrite !b64_char_token by done. split_and!; (done || lia).
  - apply Forall_cons in H as [Ha [Hb [Hc Hr]%Forall_cons]%Forall_cons]. cbn [urlsafe_b64encode].
    destruct (sextets a b c) as [[[p q] s] t] eqn:E.
    destruct (sextets_bytes a b c p q s t Ha Hb Hc E) as ((Hp & Hq & Hs & Ht) & _).
    destruct (IH r Hr) as (core & k & -> & Hcore & Hk & Hl & Hg).
    exists (String (b64_char p) (String (b64_char q) (String (b64_char s) (String (b64_char t) core)))), k.
    split; [done|]. cbn [all_chars String.length length]. rewrite !b64_char_token by done. split; [done|]. split; [|lia].
    rewrite Hk. euclid.
Qed.

Lemma encode_spec bytes : Forall is_byte bytes ->
  all_chars token_char (_encode bytes) = true /\ _decode (_encode bytes) = Some bytes /\
  (3 * String.length (_encode bytes) <= 4 * length bytes + 2)%nat /\ (4 * length bytes <= 3 * String.length (_encode bytes))%nat.
Proof.
  intros H. destruct (encode_parts bytes H) as (core & k & E & Hc & Hk & Hl & Hg). unfold _encode. rewrite E.
  rewrite rstrip_app by (eapply all_chars_impl; [exact token_char_no_pad|done]).
  split; [done|]. split; [|done]. unfold _decode. rewrite <- Hk, Nat2Z.id, <- E, a2b_b64encode by done. rewrite E, all_chars_app.
  rewrite (all_chars_impl token_char) by (done || exact token_char_ascii). simpl.
  by replace (all_chars is_ascii (pads k)) with true by (symmetry; clear; induction k; simpl; auto).
Qed.

(** ** Texts *)
Lemma utf8_ascii s : all_chars ascii_char s = true ->
  latin (utf8 s) = s /\ Forall is_byte (utf8 s) /\ length (utf8 s) = String.length s.
Proof.
  induction s as [|c s IH]; [by repeat constructor|]. cbn [all_chars]. intros [Hc Hs]%andb_prop.
  destruct (IH Hs) as (El & Hb & Hn). cbn [utf8]. unfold ascii_char in Hc. fold (code c) in Hc. bools.
  rewrite (proj2 (Z.ltb_lt _ _)) by (match goal with H : Nat.leb _ 127 = true |- _ => apply Nat.leb_le in H end; lia).
  cbn [latin length String.length]. rewrite El, Nat2Z.id, Hn. split_and!; [|constructor|done].
  - unfold code. by rewrite Ascii.ascii_nat_embedding.
  - unfold is_byte. match goal with H : Nat.leb _ 127 = true |- _ => apply Nat.leb_le in H end. lia.
  - done.
Qed.

Lemma split_once_dot a b : all_chars token_char a = true -> split_once dot (a +:+ String dot b) = Some (a, b).
Proof.
  induction a as [|c a IH]; intros H; [done|]. cbn [all_chars] in H. apply andb_prop in H as [Hc Ha].
  change (String c a +:+ String dot b) with (String c (a +:+ String dot b)). cbn [split_once].
  by rewrite token_char_no_dot, IH.
Qed.

(** The first part has no dot, so it is the first part whatever follows it. *)
Lemma split_once_again s a b x : split_once dot s = Some (a, b) -> split_once dot (a +:+ String dot x) = Some (a, x).
Proof.
  revert a. induction s as [|c s IH]; intros a; [done|]. cbn [split_once]. destruct (Ascii.eqb c dot) eqn:Ec.
  - by intros [= <- <-].
  - destruct (split_once dot s) as [[a' b']|] eqn:E; [|done]. intros [= <- <-].
    change (String c a' +:+ String dot x) with (String c (a' +:+ String dot x)). cbn [split_once].
    rewrite Ec. by rewrite (IH a').
Qed.

Lemma split_on_plain a : all_chars token_char a = true -> split_on dot a = [a].
Proof.
  induction a as [|c a IH]; intros H; [done|]. cbn [all_chars] in H. apply andb_prop in H as [Hc Ha].
  cbn [split_on]. by rewrite token_char_no_dot, IH.
Qed.

Lemma split_on_dot a b : all_chars token_char a = true -> split_on dot (a +:+ String dot b) = a :: split_on dot b.
Proof.
  induction a as [|c a IH]; intros H; [done|]. cbn [all_chars] in H. apply andb_prop in H as [Hc Ha].
  change (String c a +:+ String dot b) with (String c (a +:+ String dot b)). cbn [split_on].
  by rewrite token_char_no_dot, IH.
Qed.

Lemma hmac_bytes key msg : Forall is_byte (hmac key msg).
Proof. apply Sha256.digest_bytes. Qed.
Lemma hmac_length key msg : length (hmac key msg) = 32%nat.
Proof. apply Sha256.digest_length. Qed.

(** What is signed and read back of a document. *)
Lemma payload_spec j : Forall is_byte (utf8 (dumps j)) /\ latin (utf8 (dumps j)) = dumps j
  /\ length (utf8 (dumps j)) = String.length (dumps j).
Proof. destruct (utf8_ascii (dumps j) (dumps_ascii j)) as (? & ? & ?). done. Qed.

(** ** Bearer tokens *)
Definition actor_ok (a : Actor) : Prop := make_actor (actor_subject a) (actor_role a) = Ok a.

Section tokens.
Context (other : string -> parsed) (key : list Z).

Lemma token_actor_issued actor expires now :
  actor_ok actor ->
  token_actor other (utf8 (dumps (token_payload actor expires))) now =
  if expires <? now then auth_error "token is expired" else Ok actor.
Proof.
  intros Ha. unfold token_actor. destruct (payload_spec (token_payload actor expires)) as (_ & -> & _).
  rewrite json_loads_dumps.
  - simpl. by destruct (expires <? now).
  - cbn. split_and!; try exact I. apply (bool_decide_unpack _). vm_compute. exact I.
Qed.

(** C13.  An issued bearer token is its actor at every moment up to its expiry and refused as
    expired after it, and any other token that is accepted either carries the key's signature
    of a body the codec did not issue here or names the same actor within the same time. *)
Theorem issued_token_is_its_actor actor ttl now :
  actor_ok actor -> 0 < ttl ->
  exists token, issue key actor ttl now = Ok token /\
    (forall moment, verify other key token moment =
       if now + ttl <? moment then auth_error "token is expired" else Ok actor) /\
    (forall forged moment found, verify other key forged moment = Ok found ->
       exists body signature, split_once dot forged = Some (body, signature) /\
         _decode signature = Some (hmac key (utf8 body)) /\
         (token = signed_body key body -> found = actor /\ moment <= now + ttl)).
Proof.
  intros Ha Ht. unfold issue. rewrite (proj2 (Z.leb_gt ttl 0)) by lia. eexists. split; [done|].
  set (doc := utf8 (dumps (token_payload actor (now + ttl)))).
  destruct (encode_spec doc ltac:(apply payload_spec)) as (Hc & Hd & _). split.
  - intros moment. unfold verify, signed_body. rewrite split_once_dot by done.
    destruct (encode_spec (hmac key (utf8 (_encode doc))) (hmac_bytes _ _)) as (_ & -> & _).
    rewrite bool_decide_true by done. simpl. rewrite Hd. by apply token_actor_issued.
  - intros forged moment found. unfold verify. destruct (split_once dot forged) as [[body signature]|] eqn:Ef; [|done].
    destruct (_decode signature) as [supplied|] eqn:Es; [|done].
    destruct (bool_decide _) eqn:Eb; [|done]. apply bool_decide_eq_true in Eb. subst supplied. simpl.
    destruct (_decode body) as [payload|] eqn:Ep; [|done]. intros Hv. exists body, signature. split_and!; [done..|].
    intros E. assert (body = _encode doc) as ->.
    { apply (f_equal (split_once dot)) in E. unfold signed_body in E. rewrite split_once_dot in E by done.
      rewrite (split_once_again _ _ _ _ Ef) in E. congruence. }
    rewrite Hd in Ep. injection Ep as <-. unfold doc in Hv. rewrite token_actor_issued in Hv by done.
    destruct (Z.ltb_spec (now + ttl) moment); [done|]. split; [congruence|done].
Qed.
End tokens.

(** ** Canonical documents *)
#[export] Instance key_le_total : Total key_le.
Proof. intros p q. apply str_le_total. Qed.

Lemma canonical_perm l :
  merge_sort key_le (map (fun p => (fst p, _canonical (snd p))) l) ≡ₚ map (fun p => (fst p, _canonical (snd p))) l.
Proof. apply merge_sort_Permutation. Qed.

Lemma all_distinct {A} (f : A -> json) (l : list A) :
  fold_right and True (map (fun a => distinct_keys (f a)) l) <-> Forall (fun a => distinct_keys (f a)) l.
Proof. split; [apply forall_distinct|]. induction 1; simpl; auto. Qed.

Lemma canonical_distinct j : distinct_keys j -> distinct_keys (_canonical j).
Proof.
  induction j as [| | | |l IH|l IH] using json_ind_nested; try done.
  - cbn [distinct_keys _canonical]. rewrite (all_distinct (fun j => j)), (all_distinct (fun j => j)), Forall_map.
    intros H. rewrite Forall_forall in *. auto.
  - cbn [distinct_keys _canonical]. rewrite (all_distinct snd), (all_distinct snd), (canonical_perm l).
    rewrite Forall_map. intros [Hn Hd]. split.
    + change (map (fun p => (fst p, _canonical (snd p))) l) with ((fun p => (fst p, _canonical (snd p))) <$> l).
      by rewrite <- list_fmap_compose.
    + rewrite Forall_forall in *. intros p Hp. apply IH; auto.
Qed.

(** Equality of objects looks every member up. *)
Definition member_eq (m : list (string * json)) (p : string * json) : bool :=
  match lookup_key (fst p) m with Some y => py_eq (snd p) y | None => false end.
Lemma py_eq_object l m : py_eq (JObject l) (JObject m) = Nat.eqb (length l) (length m) && forallb (member_eq m) l.
Proof.
  cbn [py_eq]. f_equal. induction l as [|[k x] l IH]; [done|]. cbn [forallb]. by rewrite IH.
Qed.

Lemma forallb_perm {A} (f : A -> bool) l l' : l ≡ₚ l' -> forallb f l = forallb f l'.
Proof. induction 1; simpl; [done|congruence| |congruence]. by rewrite !andb_assoc, (andb_comm (f y)). Qed.

(** Sorting the keys of a document changes nothing that Python compares. *)
Lemma py_eq_canonical a : forall c, py_eq (_canonical a) c = py_eq a c.
Proof.
  induction a as [| | | |l IH|l IH] using json_ind_nested; intros c; try done.
  - destruct c as [| | | |m|]; try done. cbn [_canonical py_eq]. revert m.
    induction IH as [|x l Hx _ IHl]; intros [|y m]; try done. cbn [map]. by rewrite Hx, IHl.
  - destruct c as [| | | | |m]; try done. cbn [_canonical]. rewrite !py_eq_object.
    rewrite (Permutation_length (canonical_perm l)), length_map, (forallb_perm _ _ _ (canonical_perm l)). f_equal.
    induction IH as [|[k x] l Hx _ IHl]; [done|]. cbn [map forallb]. rewrite IHl. f_equal. unfold member_eq. cbn [fst snd].
    destruct (lookup_key k m); [apply Hx|done].
Qed.

Lemma lookup_key_elem k v l : NoDup (fst <$> l) -> (k, v) ∈ l -> lookup_key k l = Some v.
Proof.
  induction l as [|[k' v'] l IH]; [by intros _ ?%elem_of_nil|]. rewrite fmap_cons, NoDup_cons. intros [Hk Hn].
  unfold lookup_key. cbn [find fst]. intros [[= -> ->]|H]%elem_of_cons.
  - by rewrite bool_decide_true.
  - case_bool_decide as E; [|by apply IH]. subst k'. destruct Hk. apply list_elem_of_fmap. by exists (k, v).
Qed.

Lemma py_eq_refl a : distinct_keys a -> py_eq a a = true.
Proof.
  induction a as [|b|z|s|l IH|l IH] using json_ind_nested; intros Hd.
  - done.
  - cbn. apply Z.eqb_refl.
  - cbn. apply Z.eqb_refl.
  - by apply bool_decide_eq_true.
  - cbn [distinct_keys] in Hd. apply (all_distinct (fun j => j)) in Hd. cbn [py_eq].
    induction Hd as [|x l Hx Hl IHl]; [done|]. apply Forall_cons in IH as [H1 H2]. by rewrite H1, IHl.
  - destruct Hd as [Hn Hd]. apply (all_distinct snd) in Hd. rewrite py_eq_object, Nat.eqb_refl. simpl.
    apply forallb_elem. intros [k v] Hin. unfold member_eq. cbn [fst snd]. rewrite (lookup_key_elem k v) by done.
    rewrite Forall_forall in *. by apply (IH (k, v)), (Hd (k, v)).
Qed.

(** ** Cursors *)
Lemma canonical_document resource order context boundary :
  _canonical (cursor_document resource order context boundary) =
  JObject [("boundary", _canonical boundary); ("context", _canonical (JObject context)); ("order", JString order);
           ("resource", JString resource); ("version", JInt 1)].
Proof. reflexivity. Qed.

Lemma cursor_length key body : text_length (_encode (cursor_signature key body)) = _CURSOR_SIGNATURE_LENGTH.
Proof.
  destruct (encode_spec (cursor_signature key body) (hmac_bytes _ _)) as (_ & _ & H1 & H2).
  unfold cursor_signature in *. rewrite hmac_length in *. unfold text_length, _CURSOR_SIGNATURE_LENGTH. lia.
Qed.

(** The parts of a token the codec writes. *)
Lemma cursor_parts key payload :
  Forall is_byte payload -> (1 <= length payload)%nat -> Z.of_nat (length payload) <= _MAX_CURSOR_PAYLOAD_LENGTH ->
  let body := _encode payload in
  let token := "v1." +:+ body +:+ String dot (_encode (cursor_signature key body)) in
  text_length token <= MAX_CURSOR_LENGTH /\
  _CURSOR_TOKEN (split_on dot token) = Some (body, _encode (cursor_signature key body)).
Proof.
  intros Hb H1 Hm body token. destruct (encode_spec payload Hb) as (Hc & _ & Hl & Hg). fold body in Hc, Hl, Hg.
  pose proof (cursor_length key body) as Hs. change _MAX_CURSOR_PAYLOAD_LENGTH with 732 in Hm.
  unfold text_length, _CURSOR_SIGNATURE_LENGTH, MAX_CURSOR_LENGTH in *. split.
  - subst token. rewrite !length_app. simpl String.length. lia.
  - subst token. change ("v1." +:+ body +:+ String dot (_encode (cursor_signature key body)))
      with ("v1" +:+ String dot (body +:+ String dot (_encode (cursor_signature key body)))).
    destruct (encode_spec (cursor_signature key body) (hmac_bytes _ _)) as (Hsc & _).
    rewrite !split_on_dot, split_on_plain by done. unfold _CURSOR_TOKEN. rewrite !all_token_chars_spec, Hc, Hsc.
    unfold text_length. rewrite Hs. rewrite bool_decide_true by done.
    change _MAX_CURSOR_BODY_LENGTH with 977. rewrite (proj2 (Z.leb_le 1 _)), (proj2 (Z.leb_le _ 977)) by lia. done.
Qed.

Lemma cursor_boundary_document context boundary resource order resource' order' context' :
  cursor_boundary [("boundary", boundary); ("context", _canonical (JObject context)); ("order", JString order);
           ("resource", JString resource); ("version", JInt 1)] resource' order' context' =
  if bool_decide (resource = resource') && bool_decide (order = order') && py_eq (JObject context) (JObject context')
  then Some boundary else None.
Proof.
  unfold cursor_boundary, field_is. cbn [map fst forallb].
  change (lookup_key "version" _) with (Some (JInt 1)). change (lookup_key "resource" _) with (Some (JString resource)).
  change (lookup_key "order" _) with (Some (JString order)). change (lookup_key "context" _) with (Some (_canonical (JObject context))).
  cbv beta iota. rewrite py_eq_canonical. cbn [py_eq as_integer]. by repeat case_bool_decide.
Qed.

(** C14.  A cursor gives its boundary back, with the keys of objects in order, to exactly the
    query it was made for: the same resource, the same order and a context Python calls equal.
    Every other query refuses it. *)
Theorem cursor_is_bound other key resource order context boundary :
  distinct_keys boundary -> distinct_keys (JObject context) ->
  Z.of_nat (String.length (dumps (_canonical (cursor_document resource order context boundary)))) <= _MAX_CURSOR_PAYLOAD_LENGTH ->
  exists token, encode_cursor key resource order context boundary = Ok token /\
    forall resource' order' context' found,
      decode_cursor other key token resource' order' context' = Ok found <->
      resource' = resource /\ order' = order /\ py_eq (JObject context) (JObject context') = true
      /\ found = _canonical boundary.
Proof.
  intros Hb Hc Hm. set (j := _canonical (cursor_document resource order context boundary)) in *.
  destruct (payload_spec j) as (Hbytes & Hlatin & Hlen).
  destruct (cursor_parts key (utf8 (dumps j)) Hbytes) as [Hsize Hparts]; [pose proof (dumps_length j); lia|lia|].
  unfold encode_cursor. fold j. rewrite (proj2 (Z.ltb_ge _ _)), (proj2 (Z.ltb_ge _ _)) by (done || lia).
  eexists. split; [done|]. intros r' o' c' found. unfold decode_cursor. rewrite (proj2 (Z.ltb_ge _ _)) by done.
  rewrite Hparts. destruct (encode_spec (utf8 (dumps j)) Hbytes) as (_ & -> & _).
  destruct (encode_spec (cursor_signature key (_encode (utf8 (dumps j)))) (hmac_bytes _ _)) as (_ & -> & _).
  rewrite !bool_decide_true by done. cbn [negb orb]. rewrite Hlatin, json_loads_dumps.
  - unfold j. rewrite canonical_document, cursor_boundary_document. generalize (_canonical boundary). intros b.
    destruct (py_eq (JObject context) (JObject c')); [|rewrite andb_false_r; naive_solver]. rewrite andb_true_r.
    destruct (decide (resource = r')) as [<-|]; [rewrite bool_decide_true by done|rewrite bool_decide_false by done; naive_solver].
    destruct (decide (order = o')) as [<-|]; [rewrite bool_decide_true by done|rewrite bool_decide_false by done; naive_solver].
    simpl. naive_solver.
  - unfold j. apply canonical_distinct. cbn [distinct_keys cursor_document map fold_right snd].
    split_and!; try done; try apply Hc. apply (bool_decide_unpack _). vm_compute. exact I.
Qed.

(** ** Neither is the other *)

(** The characters that carry six bits, and the bits a group of four still keeps. *)
Fixpoint data_chars (s : string) : Z :=
  match s with
  | EmptyString => 0
  | String c r => match b64_value c with Some _ => 1 | None => 0 end + data_chars r
  end.
Definition kept_bits (quad : Z) : Z := if quad =? 0 then 0 else 8 - 2 * quad.

Lemma data_chars_app a b : data_chars (a +:+ b) = data_chars a + data_chars b.
Proof.
  induction a as [|c a IH]; [done|]. change (String c a +:+ b) with (String c (a +:+ b)). cbn [data_chars]. rewrite IH. lia.
Qed.

Lemma token_data s : all_chars token_char s = true -> data_chars s = text_length s.
Proof.
  unfold text_length. induction s as [|c s IH]; [done|]. cbn [all_chars data_chars String.length]. intros [Hc Hs]%andb_prop.
  rewrite IH by done. assert (exists v, b64_value c = Some v) as [v ->]; [|lia].
  revert Hc. destruct c as [[] [] [] [] [] [] [] []]; try done; intros _; by eexists.
Qed.

Lemma a2b_pads k : forall quad left p out, 0 <= quad <= 3 -> a2b_base64 (pads k) quad left p = Some out ->
  out = [] /\ kept_bits quad <= 4.
Proof.
  unfold kept_bits. induction k as [|k IH]; intros quad left p out Hq; cbn [pads a2b_base64].
  - destruct (Z.eqb_spec quad 0); [|done]. intros [= <-]. split; [done|lia].
  - rewrite Ascii.eqb_refl. destruct (Z.leb_spec 2 quad); [destruct (4 <=? quad + (p + 1))|]; [|by apply IH..].
    intros [= <-]. split; [done|]. destruct (Z.eqb_spec quad 0); lia.
Qed.

(** Every data character adds its six bits to the output. *)
Lemma a2b_counts s k : all_chars (fun c => negb (Ascii.eqb c pad_char)) s = true -> forall quad left p out, 0 <= quad <= 3 ->
  a2b_base64 (s +:+ pads k) quad left p = Some out -> 6 * data_chars s + kept_bits quad <= 8 * Z.of_nat (length out) + 4.
Proof.
  induction s as [|c s IH]; intros Hs quad left p out Hq H.
  - apply a2b_pads in H as [-> H]; [simpl; lia|done].
  - cbn [all_chars] in Hs. apply andb_prop in Hs as [Hc%negb_true_iff Hs]. specialize (IH Hs).
    change (String c s +:+ pads k) with (String c (s +:+ pads k)) in H. cbn [a2b_base64] in H. rewrite Hc in H.
    cbn [data_chars]. destruct (b64_value c) as [v|]; [|apply IH in H; lia].
    assert (quad = 0 \/ quad = 1 \/ quad = 2 \/ quad = 3) as [->|[->|[->| ->]]] by lia; simpl in H.
    1: apply IH in H; [unfold kept_bits in *; simpl in *; lia|lia].
    all: apply fmap_Some in H as (out' & H & ->); apply IH in H; [|lia]; cbn [length]; unfold kept_bits in *; simpl in *; lia.
Qed.

Lemma decode_counts s out : all_chars (fun c => negb (Ascii.eqb c pad_char)) s = true -> _decode s = Some out ->
  6 * data_chars s <= 8 * Z.of_nat (length out) + 4.
Proof.
  intros Hs. unfold _decode. destruct (all_chars is_ascii _); [|done]. intros H.
  apply a2b_counts in H; [unfold kept_bits in H; simpl in H; lia|done|lia].
Qed.

(** Cursors and bearer tokens are apart under any keys: no cursor is accepted as a bearer
    token at any time, and no bearer token is accepted as a cursor of any query. *)
Theorem cursors_are_no_tokens other key key' :
  (forall resource order context boundary cursor now,
     encode_cursor key resource order context boundary = Ok cursor ->
     forall actor, verify other key' cursor now <> Ok actor) /\
  (forall actor ttl now token resource order context,
     issue key' actor ttl now = Ok token ->
     decode_cursor other key token resource order context = Raise (ValueError "cursor is invalid")).
Proof.
  split.
  - intros r o c b cursor now. unfold encode_cursor.
    set (j := _canonical (cursor_document r o c b)). destruct (payload_spec j) as (Hbytes & _ & _).
    destruct (Z.ltb_spec _MAX_CURSOR_PAYLOAD_LENGTH (Z.of_nat (length (utf8 (dumps j))))) as [|Hle]; [done|].
    set (body := _encode (utf8 (dumps j))). destruct (_ <? _); [done|]. intros [= <-] actor.
    unfold verify. change ("v1." +:+ body +:+ String dot (_encode (cursor_signature key body)))
      with ("v1" +:+ String dot (body +:+ String dot (_encode (cursor_signature key body)))).
    rewrite split_once_dot by done. destruct (_decode _) as [out|] eqn:E; [|done].
    case_bool_decide as Eh; [|done]. exfalso. pose proof (f_equal length Eh) as Hl. rewrite hmac_length in Hl.
    destruct (encode_spec _ Hbytes) as (Hc & _ & _ & Hg). fold body in Hc, Hg.
    destruct (encode_spec (cursor_signature key body) (hmac_bytes _ _)) as (Hsc & _).
    apply decode_counts in E.
    + rewrite data_chars_app, token_data in E by done. cbn [data_chars] in E.
      rewrite token_data, cursor_length in E by done. change (b64_value dot) with (@None Z) in E.
      unfold text_length, _CURSOR_SIGNATURE_LENGTH in E. pose proof (dumps_length j).
      destruct (payload_spec j) as (_ & _ & Hn). lia.
    + rewrite all_chars_app. cbn [all_chars].
      by rewrite !(all_chars_impl token_char) by (done || exact token_char_no_pad).
  - intros actor ttl now token r o c. unfold issue. destruct (ttl <=? 0); [done|].
    set (doc := utf8 (dumps (token_payload actor (now + ttl)))). intros [= <-].
    unfold decode_cursor. destruct (_ <? _); [done|]. unfold signed_body. destruct (encode_spec doc ltac:(apply payload_spec)) as (Hc & _).
    destruct (encode_spec (hmac key' (utf8 (_encode doc))) (hmac_bytes _ _)) as (Hsc & _).
    by rewrite split_on_dot, split_on_plain by done.
Qed.

(** ** Concrete tokens *)
Definition not_json (_ : string) : parsed := NotJson.
Definition ops : Actor := {| actor_subject := "ada"; actor_role := "operator" |}.
Definition signing_key : list Z := Sha256.encode "0123456789abcdef0123456789abcdef".

Lemma issued_token_is_its_actor_witness : exists token,
  issue signing_key ops 3600 1000 = Ok token /\ verify not_json signing_key token 4600 = Ok ops /\
  verify not_json signing_key token 4601 = auth_error "token is expired".
Proof.
  destruct (issued_token_is_its_actor not_json signing_key ops 3600 1000 eq_refl ltac:(lia)) as (token & H1 & H2 & _).
  exists token. split; [exact H1|]. split; [exact (H2 4600)|exact (H2 4601)].
Defined.

Definition page_context : list (string * json) := [("limit", JInt 50); ("after", JNull)].
Lemma cursor_is_bound_witness : exists token,
  encode_cursor signing_key "jobs" "newest" page_context (JArray [JInt 7; JString "j-7"]) = Ok token /\
  decode_cursor not_json signing_key token "jobs" "newest" [("after", JNull); ("limit", JInt 50)]
    = Ok (JArray [JInt 7; JString "j-7"]) /\
  decode_cursor not_json signing_key token "runs" "newest" page_context <> Ok (JArray [JInt 7; JString "j-7"]).
Proof.
  destruct (cursor_is_bound not_json signing_key "jobs" "newest" page_context (JArray [JInt 7; JString "j-7"])) as (token & H1 & H2).
  - cbn. done.
  - cbn. split; [apply (bool_decide_unpack _); vm_compute; exact I|done].
  - vm_compute. discriminate.
  - exists token. split; [exact H1|]. split.
    + exact (proj2 (H2 "jobs"%string "newest"%string [("after"%string, JNull); ("limit"%string, JInt 50)]
        (JArray [JInt 7; JString "j-7"])) (conj eq_refl (conj eq_refl (conj eq_refl eq_refl)))).
    + intros H. destruct (proj1 (H2 "runs"%string "newest"%string page_context (JArray [JInt 7; JString "j-7"])) H) as [H' _]. discriminate H'.
Defined.
