(* ===== verification/GatewayKeys.v ===== *)
(** * Gateway client keys

    [GatewayKeyService] of [control/src/vonk_control/gateway_keys.py]: creating, rolling,
    revoking and listing the virtual keys that clients present to the inference gateway.  The
    keys live in LiteLLM, a foreign service reached over HTTP; the Controller keeps a receipt
    file of every mutation, so that a repeated or interrupted request finds the secret it
    already chose.  The world [W] holds the files and the service: [Env] is the record of what
    the code asks of it (an HTTP call, a file, a lock, a drawn secret), and a call that raises
    leaves the world as it left it.  A payload is the parsed object of a reply. *)
From S2P Require Import Prelude Vocabulary ReasonCodes Json JsonRead Tokens.

(** ** Faults *)
Inductive fault :=
| KeyFault (msg : string)                      (* GatewayKeyError *)
| HttpFault (status_code : Z) (detail : string)  (* HTTPException *)
| OsFault
| ValueFault
| CapabilityFault                              (* CapabilityUnavailableError *)
| OtherFault.                                  (* whatever nothing here catches *)

Inductive outcome (A : Type) := Ret (a : A) | Raised (f : fault).
Arguments Ret {A} a.
Arguments Raised {A} f.

(** [UnknownError(category=UNKNOWN, reason=...)] beside a value. *)
Inductive observed (A : Type) := Known (a : A) | UnknownError (reason : WaitReason).
Arguments Known {A} a.
Arguments UnknownError {A} reason.

(** ** Documents *)
Inductive GatewayMutationAction := CREATE | ROLL | REVOKE.
#[global] Instance GatewayMutationAction_eq : EqDecision GatewayMutationAction.
Proof. solve_decision. Defined.

(** [_KeyGenerateRequest] with the [managed_by] of its metadata. *)
Record _KeyGenerateRequest := {
  key_alias : string;
  models : list string;
  allowed_routes : list string;
  managed_by : string;
  duration : option string;
  key : option string;
}.
#[global] Instance KeyGenerateRequest_eq : EqDecision _KeyGenerateRequest.
Proof. solve_decision. Defined.

Record GatewayMutationReceipt := {
  receipt_actor : option string;
  receipt_action : GatewayMutationAction;
  receipt_request_id : string;
  receipt_body : _KeyGenerateRequest;
  completed : bool;
  superseded : bool;
}.
#[global] Instance GatewayMutationReceipt_eq : EqDecision GatewayMutationReceipt.
Proof. solve_decision. Defined.

Record GatewayKeyView := {
  view_name : string;
  view_models : list string;
  view_created_at : option string;
  view_expires_at : option string;
  view_last_used_at : option string;
}.

Record GatewayKeyCreated := {
  created_view : GatewayKeyView;
  created_key : string;
  created_request_id : option string;
}.

Record GatewayKeyRevoked := { revoked_name : string; revoked_request_id : option string }.

Record GatewayMutationStatus := {
  status_name : string;
  status_request_id : string;
  status_actor : option string;
  status_action : GatewayMutationAction;
  status_completed : bool;
  status_superseded : bool;
  status_models : list string;
  status_expires : option string;
}.

(** [_LiteLlmKey]: what is read of a key the gateway describes. *)
Record _LiteLlmKey := {
  item_alias : option string;
  item_name : option string;
  item_models : list string;
  item_routes : option (list string);
  item_managed_by : option string;
  item_token : option string;
  item_created_at : option string;
  item_expires : option string;
  item_expires_set : bool;
  item_last_active : option string;
}.

(** ** Names and patterns *)
Definition DEFAULT_KEY_NAME : string := "default".
Definition MANAGED_BY : string := "vonk-forge".
Definition OPENAI : string := "openai_routes".
Definition MODEL_INFO : string := "model_info_routes".
Definition SYSTEMONE : string := "/vllm/systemone".
Definition GatewayInferenceRoute : list string := [OPENAI; MODEL_INFO; SYSTEMONE].
Definition BASE_KEY_ROUTES : list string := [OPENAI; MODEL_INFO].
Definition _PAGE_SIZE : Z := 100.

Definition _safe_routes (routes : list string) : bool :=
  mem OPENAI routes && bool_decide (NoDup routes) && forallb (fun r => mem r GatewayInferenceRoute) routes.

(** [_KEY_PATTERN] *)
Definition _KEY_PATTERN (s : string) : bool :=
  bool_decide (String.substring 0 3 s = "sk-"%string)
  && let rest := String.substring 3 (String.length s - 3) s in
     all_chars BrowserAuth.token_char rest && Nat.leb 16 (String.length rest) && Nat.leb (String.length rest) 256.

(** [_NAME_PATTERN] with its [max_length]. *)
Definition alnum (c : Ascii.ascii) : bool :=
  let n := code c in
  (Nat.leb 65 n && Nat.leb n 90) || (Nat.leb 97 n && Nat.leb n 122) || (Nat.leb 48 n && Nat.leb n 57).
Definition _NAME_PATTERN (s : string) : bool :=
  match s with
  | EmptyString => false
  | String c r => alnum c && all_chars (fun d => alnum d || mem (code d) [46; 95; 45]%nat) r && Nat.leb (String.length r) 62
  end.

Definition _rolling_alias (name : string) : string := name +:+ ".rolling".

(** [alias.removesuffix(".rolling")] *)
Definition without_rolling (alias : string) : string :=
  if ends_with ".rolling" alias then str_take (String.length alias - 8) alias else alias.

(** ** Reading a reply *)
Definition loose_text (k : string) (l : list (string * json)) : option string :=
  match lookup_key k l with Some (JString s) => if bool_decide (s = EmptyString) then None else Some s | _ => None end.
Definition loose_count (k : string) (l : list (string * json)) : option Z :=
  match lookup_key k l with Some (JInt z) => Some z | _ => None end.

Definition text_of (v : json) : option string := match v with JString s => Some s | _ => None end.
Definition texts_of (v : json) : option (list string) := match v with JArray l => mapM text_of l | _ => None end.

(** A field with a default: absent and null are [None], anything else must be readable. *)
Definition optional_field {A} (read : json -> option A) (k : string) (l : list (string * json)) : option (option A) :=
  match lookup_key k l with
  | None | Some JNull => Some None
  | Some v => Some <$> read v
  end.

Definition metadata_of (v : json) : option string :=
  match v with JObject l => lookup_key "managed_by" l ≫= text_of | _ => None end.

(** [_LiteLlmKey.model_validate(raw)] *)
Definition parse_key (l : list (string * json)) : option _LiteLlmKey :=
  models ← lookup_key "models" l ≫= texts_of;
  routes ← optional_field texts_of "allowed_routes" l;
  managed ← optional_field metadata_of "metadata" l;
  expires ← optional_field text_of "expires" l;
  Some {| item_alias := loose_text "key_alias" l; item_name := loose_text "key_name" l; item_models := models;
          item_routes := routes; item_managed_by := managed; item_token := loose_text "token" l;
          item_created_at := loose_text "created_at" l; item_expires := expires;
          item_expires_set := match lookup_key "expires" l with Some _ => true | None => false end;
          item_last_active := loose_text "last_active" l |}.

(** Python's truth of a JSON value. *)
Definition truthy (v : json) : bool :=
  match v with
  | JNull => false
  | JBool b => b
  | JInt z => negb (z =? 0)
  | JString s => bool_decide (s <> EmptyString)
  | JArray l => negb (Nat.eqb (length l) 0)
  | JObject l => negb (Nat.eqb (length l) 0)
  end.

Definition _view (item : _LiteLlmKey) : option GatewayKeyView :=
  match str_or (item_alias item) (item_name item) with
  | None => None
  | Some name => Some {|
      view_name := str_take 256 name; view_models := item_models item; view_created_at := item_created_at item;
      view_expires_at := item_expires item; view_last_used_at := item_last_active item |}
  end.

(** ** The world *)
Inductive GatewayRequest :=
| KeyList (page size : Z)
| KeyInfo (secret : string)
| KeyGenerate (body : _KeyGenerateRequest)
| KeyDelete (key_aliases : list string) (keys : option (list string))
| KeyUpdate (secret alias : string)
| KeyRouteUpdate (secret : string) (routes : list string).

Inductive answer :=
| NoMasterKey                                       (* the key file could not be read *)
| NoCapability                                      (* the capability of the key is down *)
| Unreachable                                       (* httpx.HTTPError *)
| Replied (status : Z) (payload : option (list (string * json))).  (* None: not an object *)

(** The receipt files: the active intent of an alias, and the receipt of a request on it.  The
    real file names are SHA-256 of these texts. *)
Inductive path := IntentPath (name : string) | ReceiptPath (text : string).
#[global] Instance path_eq : EqDecision path.
Proof. solve_decision. Defined.

Inductive file :=
| Absent
| Damaged (exists_ : bool)     (* a link or a text that is no receipt *)
| Stored (r : GatewayMutationReceipt).

(** The file of the default key. *)
Inductive key_file := NoKeyFile | UnreadableKeyFile | KeyText (text : string).

Record Env (W : Type) := {
  serve : GatewayRequest -> W -> W * answer;
  file_at : W -> path -> file;
  put : path -> GatewayMutationReceipt -> W -> W * bool;      (* false: OSError *)
  claim : string -> W -> W * bool;                            (* the lock of a name *)
  draw_secret : W -> W * string;                              (* secrets.token_urlsafe(32) *)
  draw_uuid : W -> W * string;
  route_grants : list string -> list string -> W -> W * outcome (list string);
  key_file_at : W -> key_file;
  put_key_file : string -> W -> W * bool;
  clock : W -> instant;
}.
Arguments serve {W} _ _ _.
Arguments file_at {W} _ _ _.
Arguments put {W} _ _ _ _.
Arguments claim {W} _ _ _.
Arguments draw_secret {W} _ _.
Arguments draw_uuid {W} _ _.
Arguments route_grants {W} _ _ _ _.
Arguments key_file_at {W} _ _.
Arguments put_key_file {W} _ _ _.
Arguments clock {W} _ _.

(** ** Effects *)
Definition act (W A : Type) : Type := W -> W * outcome A.
#[global] Instance act_ret W : MRet (act W) := fun A a w => (w, Ret a).
#[global] Instance act_bind W : MBind (act W) := fun A B f m w =>
  match m w with
  | (w', Ret a) => f a w'
  | (w', Raised e) => (w', Raised e)
  end.
Definition raise {W A} (e : fault) : act W A := fun w => (w, Raised e).
(** [try: m except: h], where [h] gives up on what it does not catch. *)
Definition catch {W A} (m : act W A) (h : fault -> act W A) : act W A := fun w =>
  match m w with
  | (w', Ret a) => (w', Ret a)
  | (w', Raised e) => h e w'
  end.
Definition reads {W A} (f : W -> A) : act W A := fun w => (w, Ret (f w)).
Definition effect {W A} (f : W -> W * A) : act W A := fun w => let '(w', a) := f w in (w', Ret a).

Definition unavailable {A} : observed A := UnknownError WaitReason.OBSERVATION_UNAVAILABLE.
Definition scope_moved {A} : observed A := UnknownError WaitReason.SCOPE_CHANGED.

(** What a request of a mutation carries: [_request], [_actor] and [_action]. *)
Record context := { c_request : option string; c_actor : option string; c_action : GatewayMutationAction }.
Definition no_context : context := {| c_request := None; c_actor := None; c_action := CREATE |}.
Definition for_request (id : string) (c : context) : context :=
  {| c_request := Some id; c_actor := c_actor c; c_action := c_action c |}.

Section gateway.
Context {W : Type} (E : Env W) (fromisoformat : string -> option datetime).

(** ** Retries *)

(** The refusals that no retry hides. *)
Definition reraised (e : fault) : bool :=
  match e with
  | HttpFault c detail =>
      mem c [401; 403] || bool_decide (detail = value SecurityRefusalReason.AGENT_IDENTITY_MISMATCH) || mem c [409; 422]
  | OtherFault => true
  | _ => false
  end.

Fixpoint observe_attempts {A} (attempts : nat) (action : act W (observed A)) (last_unknown : option WaitReason)
    : act W (observed A) := fun w =>
  match attempts with
  | O => (w, Ret (match last_unknown with Some u => UnknownError u | None => unavailable end))
  | S n =>
      match action w with
      | (w', Ret (Known a)) => (w', Ret (Known a))
      | (w', Ret (UnknownError u)) => observe_attempts n action (Some u) w'
      | (w', Raised e) => if reraised e then (w', Raised e) else observe_attempts n action last_unknown w'
      end
  end.

(** [_observe_gateway] *)
Definition _observe_gateway {A} (attempts : nat) (action : act W (observed A)) : act W (observed A) :=
  observe_attempts attempts action None.
Definition known {A} (m : act W A) : act W (observed A) := a ← m; mret (Known a).

(** ** Receipt files *)
Definition _intent_path (name : string) : path := IntentPath name.
Definition _receipt_path (name request_id : string) : path := ReceiptPath (name +:+ ":" +:+ request_id).

(** [_read_receipt] *)
Definition receipt_ok (r : GatewayMutationReceipt) : bool :=
  let body := receipt_body r in
  (bool_decide (receipt_action r = REVOKE)
   || match key body with Some k => _KEY_PATTERN k | None => false end)
  && _safe_routes (allowed_routes body) && bool_decide (managed_by body = MANAGED_BY).
Definition _read_receipt (p : path) (w : W) : option GatewayMutationReceipt :=
  match file_at E w p with
  | Stored r => if receipt_ok r then Some r else None
  | _ => None
  end.
Definition path_exists (p : path) (w : W) : bool :=
  match file_at E w p with Absent => false | Damaged b => b | Stored _ => true end.

Definition _write_private (p : path) (r : GatewayMutationReceipt) : act W unit :=
  ok ← effect (put E p r); if (ok : bool) then mret tt else raise OsFault.

Definition _pending_receipt (alias : string) (w : W) : option GatewayMutationReceipt :=
  match _read_receipt (_intent_path alias) w with
  | None => None
  | Some receipt =>
      if completed receipt || superseded receipt then None
      else
        match _read_receipt (_receipt_path alias (receipt_request_id receipt)) w with
        | Some archived => if completed archived || superseded archived then None else Some receipt
        | None => Some receipt
        end
  end.

Definition _restore_request_intent (c : context) (name : string) : act W unit :=
  match c_request c with
  | None => mret tt
  | Some identity =>
      retained ← reads (_read_receipt (_receipt_path name identity));
      match retained with
      | Some r => if negb (completed r) && negb (superseded r) then _write_private (_intent_path name) r else mret tt
      | None => mret tt
      end
  end.

Definition retired (s : bool) (r : GatewayMutationReceipt) : GatewayMutationReceipt := {|
  receipt_actor := receipt_actor r; receipt_action := receipt_action r; receipt_request_id := receipt_request_id r;
  receipt_body := receipt_body r; completed := true; superseded := s |}.

Definition _forget_intent (name : string) (superseded_ : bool) : act W unit :=
  receipt ← reads (_read_receipt (_intent_path name));
  match receipt with
  | None => mret tt
  | Some receipt =>
      archived ← reads (_read_receipt (_receipt_path name (receipt_request_id receipt)));
      _ ← (match archived with
           | Some a => if completed a then mret tt
                       else _write_private (_receipt_path name (receipt_request_id receipt)) (retired superseded_ receipt)
           | None => _write_private (_receipt_path name (receipt_request_id receipt)) (retired superseded_ receipt)
           end : act W unit);
      _write_private (_intent_path name) (retired superseded_ receipt)
  end.

Definition _read_intent (c : context) (name : string) (w : W) : option _KeyGenerateRequest :=
  match _read_receipt (_intent_path name) w with
  | None => None
  | Some receipt =>
      let body := receipt_body receipt in
      if completed receipt then None
      else if match c_request c with Some i => negb (bool_decide (receipt_request_id receipt = i)) | None => false end then None
      else if negb (bool_decide (key_alias body = name))
              || match key body with Some k => negb (_KEY_PATTERN k) | None => true end
              || negb (_safe_routes (allowed_routes body)) || negb (bool_decide (managed_by body = MANAGED_BY))
      then None else Some body
  end.

(** ** The foreign service *)

(** [_gateway_request] *)
Definition _gateway_request (q : GatewayRequest) : act W (Z * list (string * json)) :=
  a ← effect (serve E q);
  match a with
  | NoMasterKey => raise (KeyFault "LiteLLM master key is unavailable")
  | NoCapability => raise CapabilityFault
  | Unreachable => raise (KeyFault "LiteLLM gateway is unavailable")
  | Replied status payload =>
      if mem status [401; 403]
      then raise (HttpFault status (if status =? 401 then value SecurityRefusalReason.HTTP_401
                                    else value SecurityRefusalReason.HTTP_403))
      else
        match payload with
        | Some p => mret (status, p)
        | None => if status =? 404 then mret (status, []) else raise (KeyFault "gateway reply is unreadable")
        end
  end.

(** [_stamp]: a time without a zone is in UTC. *)
Definition _stamp (text : option string) : outcome (option instant) :=
  match text with
  | None => Ret None
  | Some s =>
      if bool_decide (s = EmptyString) then Ret None
      else match fromisoformat s with Some d => Ret (Some (to_utc d)) | None => Raised ValueFault end
  end.

Definition whole_seconds (d : Z) : Z := Z.quot d 1000000.

Definition _remaining (expires created : option string) (now : instant) : outcome (option string) :=
  match _stamp expires with
  | Raised _ => Raised (KeyFault "gateway key expiry observation is unavailable")
  | Ret None => Ret None
  | Ret (Some moment) =>
      let left := whole_seconds (moment - now) in
      if 0 <? left then Ret (Some (pretty left +:+ "s"))
      else
        let span := match _stamp created with Ret (Some began) => whole_seconds (moment - began) | _ => 0 end in
        Ret (if 0 <? span then Some (pretty span +:+ "s") else None)
  end.

(** [raw.get("key_alias") == target] *)
Definition is_target (target : option string) (l : list (string * json)) : bool :=
  match target, lookup_key "key_alias" l with
  | Some t, Some (JString a) => bool_decide (a = t)
  | _, _ => false
  end.

(** The readable keys of one page; a damaged entry of the target is an error. *)
Fixpoint page_keys (target : option string) (now : instant) (raws : list json) : outcome (list _LiteLlmKey) :=
  match raws with
  | [] => Ret []
  | JObject l :: rest =>
      if negb (match lookup_key "key_alias" l with Some v => truthy v | None => false end)
      then page_keys target now rest
      else
        match parse_key l with
        | Some item =>
            match _remaining (item_expires item) None now with
            | Ret _ => match page_keys target now rest with Ret items => Ret (item :: items) | e => e end
            | Raised _ =>
                if is_target target l
                then Raised (KeyFault "gateway target alias observation is unavailable")
                else page_keys target now rest
            end
        | None =>
            if is_target target l
            then Raised (KeyFault "gateway target alias observation is unavailable")
            else page_keys target now rest
        end
  | _ :: rest => page_keys target now rest
  end.

(** [reply.total_pages or 1] *)
Definition stated_pages (payload : list (string * json)) : Z :=
  match loose_count "total_pages" payload with
  | Some n => if n =? 0 then 1 else n
  | None => 1
  end.

(** [read(page)]: the keys of the page and the total it states. *)
Definition read_page (target : option string) (page : Z) : act W (list _LiteLlmKey * Z) :=
  '(status, payload) ← _gateway_request (KeyList page _PAGE_SIZE);
  if negb (status =? 200) then raise (KeyFault ("LiteLLM refused to list keys (HTTP " +:+ pretty status +:+ ")"))
  else
    match lookup_key "keys" payload with
    | None | Some JNull => raise (KeyFault "LiteLLM returned a malformed key list")
    | Some (JArray raws) =>
        now ← reads (clock E);
        match page_keys target now raws with
        | Raised e => raise e
        | Ret items =>
            mret (items, stated_pages payload)
        end
    | Some _ => raise ValueFault
    end.

Fixpoint more_pages (target : option string) (total page : Z) (left : nat) : act W (list _LiteLlmKey) :=
  match left with
  | O => mret []
  | S n =>
      '(items, stated) ← read_page target page;
      if negb (stated =? total) then raise (KeyFault "gateway key list changed while paging")
      else rest ← more_pages target total (page + 1) n; mret (items ++ rest)%list
  end.

(** [_gateway_raw_keys] *)
Definition _gateway_raw_keys (target : option string) : act W (list _LiteLlmKey) :=
  '(items, total) ← read_page target 1;
  rest ← more_pages target total 2 (Z.to_nat (total - 1));
  mret (items ++ rest)%list.

Definition view_le (a b : GatewayKeyView) : Prop := str_le (view_name a) (view_name b).
#[global] Instance view_le_dec a b : Decision (view_le a b) := str_le_dec (view_name a) (view_name b).
Definition _gateway_list_keys : act W (list GatewayKeyView) :=
  items ← _gateway_raw_keys None; mret (merge_sort view_le (omap _view items)).

Definition _gateway_check_health : act W bool :=
  '(status, _) ← _gateway_request (KeyList 1 1); mret (status =? 200).

(** [_gateway_key_info] *)
Definition info_of (payload : list (string * json)) : act W (option _LiteLlmKey) :=
  match lookup_key "info" payload with
  | Some (JObject l) => match parse_key l with Some item => mret (Some item) | None => raise ValueFault end
  | _ => mret None
  end.
Definition _gateway_key_info (secret : string) : act W (option _LiteLlmKey) :=
  '(status, payload) ← _gateway_request (KeyInfo secret);
  if status =? 404 then mret None
  else
    info ← info_of payload;
    match info with
    | Some item =>
        if (status =? 200) && bool_decide (item_alias item <> None) then mret (Some item)
        else raise (KeyFault "gateway exact key observation is unavailable")
    | None => raise (KeyFault "gateway exact key observation is unavailable")
    end.

Definition has_alias (name : string) (item : _LiteLlmKey) : bool := bool_decide (item_alias item = Some name).

(** [_gateway_alias_info] *)
Definition with_token (secret : string) (i : _LiteLlmKey) : _LiteLlmKey := {|
  item_alias := item_alias i; item_name := item_name i; item_models := item_models i; item_routes := item_routes i;
  item_managed_by := item_managed_by i; item_token := Some secret; item_created_at := item_created_at i;
  item_expires := item_expires i; item_expires_set := item_expires_set i; item_last_active := item_last_active i |}.
Definition _gateway_alias_info (name : string) : act W (option _LiteLlmKey) :=
  items ← _gateway_raw_keys (Some name);
  match List.find (has_alias name) items with
  | None => mret None
  | Some item =>
      receipt ← reads (_read_receipt (_intent_path name));
      match or_else (item_token item) (receipt ≫= fun r => key (receipt_body r)) with
      | None => raise (KeyFault "gateway exact alias identity is unavailable")
      | Some secret =>
          info ← _gateway_key_info secret;
          match info with
          | None => raise (KeyFault "gateway alias observation changed")
          | Some i =>
              if negb (has_alias name i) then raise (KeyFault "gateway alias observation changed")
              else if negb (item_expires_set i) then raise (KeyFault "gateway key expiry observation is unavailable")
              else mret (Some (with_token secret i))
          end
      end
  end.

Definition _gateway_exists (name : string) : act W bool :=
  items ← _gateway_raw_keys (Some name); mret (existsb (has_alias name) items).

(** [_gateway_delete_alias] *)
Definition _gateway_delete_alias (name : string) : act W unit :=
  reply ← catch (r ← _gateway_request (KeyDelete [name] None); mret (Some (fst r)))
    (fun e => match e with
              | KeyFault _ => still ← _gateway_exists name; if (still : bool) then raise e else mret None
              | _ => raise e
              end);
  match reply with
  | None => mret tt
  | Some status =>
      still ← _gateway_exists name;
      if (still : bool) then raise (KeyFault ("LiteLLM refused to revoke the key (HTTP " +:+ pretty status +:+ ")"))
      else mret tt
  end.

Definition _gateway_revoke (name : string) : act W GatewayKeyRevoked :=
  present ← _gateway_exists name;
  _ ← (if (present : bool) then _gateway_delete_alias name else mret tt);
  mret {| revoked_name := name; revoked_request_id := None |}.

(** [_gateway_observe_created] *)
Definition _gateway_observe_created (body : _KeyGenerateRequest) : act W (option GatewayKeyCreated) :=
  match key body with
  | None => raise (KeyFault "gateway retained secret observation is unavailable")
  | Some secret =>
      info ← _gateway_key_info secret;
      match info with
      | None => mret None
      | Some i =>
          if negb (has_alias (key_alias body) i) then mret None
          else if negb (bool_decide (item_models i = models body)) then raise (KeyFault "gateway key scope observation differs")
          else
            match _view i with
            | None => raise (KeyFault "gateway key description observation is unavailable")
            | Some view => mret (Some {| created_view := view; created_key := secret; created_request_id := None |})
            end
      end
  end.

(** ** Creating a key *)

(** [_routes_for] *)
Definition _routes_for (models_ run_ids : list string) : act W (list string) :=
  r ← effect (route_grants E models_ run_ids);
  match r with
  | Raised e => raise e
  | Ret routes => if _safe_routes routes then mret routes else raise (KeyFault "gateway inference route authority is invalid")
  end.

(** The body is not what this request asks for. *)
Definition replacement (body : _KeyGenerateRequest) (models_ : list string) (expires secret : option string) : bool :=
  negb (bool_decide (models body = models_)) || negb (bool_decide (duration body = expires))
  || match secret with Some k => negb (bool_decide (key body = Some k)) | None => false end.

Definition or_uuid (id : option string) : act W string :=
  match id with
  | Some i => if bool_decide (i = EmptyString) then effect (draw_uuid E) else mret i
  | None => effect (draw_uuid E)
  end.

(** The receipt of a new body is written before anything is asked of the gateway. *)
Definition record_intent (c : context) (name : string) (body : _KeyGenerateRequest) (identity : string) : act W unit :=
  prior ← reads (_read_receipt (_intent_path name));
  _ ← (match prior with
       | Some p => if negb (bool_decide (receipt_request_id p = identity)) && negb (completed p)
                   then _forget_intent name true else mret tt
       | None => mret tt
       end : act W unit);
  let receipt := {| receipt_actor := c_actor c; receipt_action := c_action c; receipt_request_id := identity;
                    receipt_body := body; completed := false; superseded := false |} in
  _ ← _write_private (_receipt_path name identity) receipt;
  _write_private (_intent_path name) receipt.

Definition persist_intent (c : context) (name : string) (body : _KeyGenerateRequest) : act W unit :=
  catch (identity ← or_uuid (c_request c); record_intent c name body identity)
    (fun e => match e with OsFault => raise (KeyFault "gateway mutation persistence is unavailable") | _ => raise e end).

(** The generate call and what its answer shows. *)
Definition adopt_or (body : _KeyGenerateRequest) (e : fault) : act W GatewayKeyCreated :=
  found ← _gateway_observe_created body;
  match found with Some v => mret v | None => raise e end.

Definition described (name : string) (body : _KeyGenerateRequest) (reply : _LiteLlmKey) (secret : string) : GatewayKeyCreated :=
  let item := {| item_alias := str_or (item_alias reply) (Some (key_alias body)); item_name := item_name reply;
                 item_models := item_models reply; item_routes := None; item_managed_by := None; item_token := None;
                 item_created_at := item_created_at reply; item_expires := item_expires reply;
                 item_expires_set := true; item_last_active := item_last_active reply |} in
  {| created_view := match _view item with
                     | Some v => v
                     | None => {| view_name := name; view_models := []; view_created_at := None; view_expires_at := None;
                                  view_last_used_at := None |}
                     end;
     created_key := secret; created_request_id := None |}.

Definition generate (name : string) (body : _KeyGenerateRequest) : act W GatewayKeyCreated :=
  present ← _gateway_exists name;
  _ ← (if (present : bool) then _gateway_delete_alias name else mret tt);
  reply ← catch (r ← _gateway_request (KeyGenerate body); mret (inl r))
    (fun e => match e with
              | KeyFault _ => v ← adopt_or body (KeyFault "gateway key creation effect is unconfirmed"); mret (inr v)
              | _ => raise e
              end);
  match reply with
  | inr v => mret v
  | inl (status, payload) =>
      match parse_key payload with
      | None => raise ValueFault
      | Some item =>
          let secret := loose_text "key" payload in
          if match secret with Some s => negb (bool_decide (key body = Some s)) | None => false end
          then raise (HttpFault 502 (value SecurityRefusalReason.AGENT_IDENTITY_MISMATCH))
          else
            match secret with
            | Some s =>
                if mem status [200; 201] && bool_decide (item_models item = models body)
                then mret (described name body item s)
                else adopt_or body (KeyFault ("LiteLLM refused to create the key (HTTP " +:+ pretty status +:+ ")"))
            | None => adopt_or body (KeyFault ("LiteLLM refused to create the key (HTTP " +:+ pretty status +:+ ")"))
            end
      end
  end.

(** [_gateway_create_under] *)
Definition _gateway_create_under (c : context) (name : string) (models_ : option (list string))
    (expires secret : option string) : act W GatewayKeyCreated :=
  intent ← reads (_read_intent c name);
  match (match intent with
         | Some body => if replacement body (default [] models_) expires secret then None else Some body
         | None => None
         end) with
  | Some body =>
      found ← _gateway_observe_created body;
      match found with Some v => mret v | None => generate name body end
  | None =>
      routes ← _routes_for (default [] models_) [];
      chosen ← (match secret with Some k => mret k | None => t ← effect (draw_secret E); mret ("sk-" +:+ t) end : act W string);
      let body := {| key_alias := name; models := default [] models_; allowed_routes := routes; managed_by := MANAGED_BY;
                     duration := expires; key := Some chosen |} in
      _ ← persist_intent c name body;
      generate name body
  end.

(** [_gateway_create] *)
Definition _gateway_create (c : context) (name : string) (models_ : option (list string)) (expires secret : option string)
    : act W GatewayKeyCreated :=
  created ← _gateway_create_under c name models_ expires secret;
  let rolling := _rolling_alias name in
  unfinished ← reads (path_exists (_intent_path rolling));
  _ ← (if (unfinished : bool) then
         present ← _gateway_exists rolling;
         _ ← (if (present : bool) then _gateway_delete_alias rolling else mret tt);
         _forget_intent rolling true
       else mret tt : act W unit);
  _ ← _forget_intent name false;
  mret created.

(** ** Rolling a key *)

(** [_gateway_roll] *)
Definition renamed_body (name secret : string) (models_ : list string) : _KeyGenerateRequest := {|
  key_alias := name; models := models_; allowed_routes := BASE_KEY_ROUTES; managed_by := MANAGED_BY;
  duration := None; key := Some secret |}.
Definition with_alias (name : string) (b : _KeyGenerateRequest) : _KeyGenerateRequest := {|
  key_alias := name; models := models b; allowed_routes := allowed_routes b; managed_by := managed_by b;
  duration := duration b; key := key b |}.
Definition with_name (name : string) (v : GatewayKeyCreated) : GatewayKeyCreated :=
  let d := created_view v in
  {| created_view := {| view_name := name; view_models := view_models d; view_created_at := view_created_at d;
                        view_expires_at := view_expires_at d; view_last_used_at := view_last_used_at d |};
     created_key := created_key v; created_request_id := created_request_id v |}.

Definition replace_key (c : context) (name : string) (models_ : option (list string)) (expires : option string)
    : act W (observed GatewayKeyCreated) :=
  let temporary := _rolling_alias name in
  created ← _gateway_create_under c temporary models_ expires None;
  _ ← _forget_intent name true;
  present ← _gateway_exists name;
  _ ← (if (present : bool) then _gateway_delete_alias name else mret tt);
  _ ← _gateway_request (KeyUpdate (created_key created) name);
  found ← _gateway_observe_created (renamed_body name (created_key created) (view_models (created_view created)));
  match found with
  | None => raise (KeyFault "gateway rename effect is unconfirmed")
  | Some _ => _ ← _forget_intent temporary false; mret (Known (with_name name created))
  end.

Definition roll_current (c : context) (name : string) (current : option _LiteLlmKey) : act W (observed GatewayKeyCreated) :=
  match current with
  | None => mret scope_moved
  | Some item =>
      now ← reads (clock E);
      match _remaining (item_expires item) (item_created_at item) now with
      | Raised e => raise e
      | Ret expires => replace_key c name (Some (item_models item)) expires
      end
  end.

Definition _gateway_roll (c : context) (name : string) : act W (observed GatewayKeyCreated) :=
  let temporary := _rolling_alias name in
  pending ← reads (_read_intent c temporary);
  match pending with
  | Some body =>
      renamed ← _gateway_observe_created (with_alias name body);
      match renamed with
      | Some v => _ ← _forget_intent temporary false; mret (Known v)
      | None =>
          _ ← _gateway_alias_info name;
          replace_key c name (Some (models body)) (duration body)
      end
  | None =>
      current ← _gateway_alias_info name;
      match current with
      | Some _ => roll_current c name current
      | None => surviving ← _gateway_alias_info temporary; roll_current c name surviving
      end
  end.

(** ** Mutations *)
Definition replayed (alias : string) (body : _KeyGenerateRequest) (secret : string) (id : option string) : GatewayKeyCreated := {|
  created_view := {| view_name := without_rolling alias; view_models := models body; view_created_at := None;
                     view_expires_at := None; view_last_used_at := None |};
  created_key := secret; created_request_id := id |}.

Definition with_request (id : string) (v : observed GatewayKeyCreated) : observed GatewayKeyCreated :=
  match v with
  | Known v => Known {| created_view := created_view v; created_key := created_key v; created_request_id := Some id |}
  | u => u
  end.

(** [reconcile] of [_mutation_request] *)
Definition reconcile_mutation (alias identity : string) (action : act W (observed GatewayKeyCreated))
    : act W (observed GatewayKeyCreated) :=
  receipt ← reads (_read_receipt (_receipt_path alias identity));
  match receipt with
  | Some r =>
      if superseded r then mret scope_moved
      else
        match completed r, key (receipt_body r) with
        | true, Some secret => mret (Known (replayed alias (receipt_body r) secret None))
        | _, _ => action
        end
  | None => action
  end.

(** [_mutation_request] *)
Definition conflicts (r : GatewayMutationReceipt) (actor : option string) (kind : GatewayMutationAction) : bool :=
  negb (bool_decide (receipt_actor r = actor)) || negb (bool_decide (receipt_action r = kind)).

Definition _mutation_request (alias : string) (request_id : option string)
    (action : context -> act W (observed GatewayKeyCreated)) (actor : option string) (kind : GatewayMutationAction)
    : act W (observed GatewayKeyCreated) :=
  retained ← reads (_pending_receipt alias);
  identity ← (if truthy_str request_id then mret (default EmptyString request_id)
              else match retained with Some r => mret (receipt_request_id r) | None => effect (draw_uuid E) end : act W string);
  let c := {| c_request := Some identity; c_actor := actor; c_action := kind |} in
  found ← reads (_read_receipt (_receipt_path alias identity));
  let run := r ← _observe_gateway 3 (reconcile_mutation alias identity (action c)); mret (with_request identity r) in
  match found with
  | Some r =>
      if conflicts r actor kind then raise (HttpFault 409 (value InvalidRequestReason.CONFLICT))
      else if superseded r then mret scope_moved
      else
        match completed r, key (receipt_body r) with
        | true, Some secret => mret (Known (replayed alias (receipt_body r) secret (Some identity)))
        | _, _ => run
        end
  | None => run
  end.

(** [create] *)
Definition create_once (name : string) (models_ : option (list string)) (expires secret : option string) (c : context)
    : act W (observed GatewayKeyCreated) :=
  acquired ← effect (claim E name);
  if negb acquired then mret unavailable
  else
    _ ← _restore_request_intent c name;
    known (_gateway_create c name models_ expires secret).

Definition create (name : string) (models_ : option (list string)) (expires secret request_id actor : option string)
    : act W (observed GatewayKeyCreated) :=
  receipt ← reads (fun w => match request_id with Some i => _read_receipt (_receipt_path name i) w | None => None end);
  if match receipt with Some r => replacement (receipt_body r) (default [] models_) expires secret | None => false end
  then raise (HttpFault 422 (value InvalidRequestReason.MALFORMED))
  else
    retained ← reads (_pending_receipt name);
    id ← (match request_id, retained with
          | None, Some r =>
              if replacement (receipt_body r) (default [] models_) expires secret
              then u ← effect (draw_uuid E); mret (Some u)
              else mret (Some (receipt_request_id r))
          | _, _ => mret request_id
          end : act W (option string));
    _mutation_request name id (create_once name models_ expires secret) actor CREATE.

(** [roll] *)
Definition settle_pending (name : string) (c : context) : act W (option (observed GatewayKeyCreated)) :=
  let temporary := _rolling_alias name in
  pending ← reads (_pending_receipt temporary);
  match pending with
  | Some p =>
      if bool_decide (Some (receipt_request_id p) = c_request c) then mret None
      else
        let older := for_request (receipt_request_id p) c in
        _ ← _restore_request_intent older temporary;
        settled ← _gateway_roll older name;
        match settled with UnknownError u => mret (Some (UnknownError u)) | Known _ => mret None end
  | None => mret None
  end.

Definition roll_once (name : string) (c : context) : act W (observed GatewayKeyCreated) :=
  acquired ← effect (claim E name);
  if negb acquired then mret unavailable
  else
    settled ← settle_pending name c;
    match settled with
    | Some u => mret u
    | None => _ ← _restore_request_intent c (_rolling_alias name); _gateway_roll c name
    end.

Definition roll (name : string) (request_id actor : option string) : act W (observed GatewayKeyCreated) :=
  _mutation_request (_rolling_alias name) request_id (roll_once name) actor ROLL.

(** ** Revoking a key *)
Definition revoke_receipt (name identity : string) (actor : option string) (done : bool) : GatewayMutationReceipt := {|
  receipt_actor := actor; receipt_action := REVOKE; receipt_request_id := identity;
  receipt_body := {| key_alias := name; models := []; allowed_routes := BASE_KEY_ROUTES; managed_by := MANAGED_BY;
                     duration := None; key := None |};
  completed := done; superseded := false |}.

Definition done_receipt (r : GatewayMutationReceipt) : GatewayMutationReceipt := {|
  receipt_actor := receipt_actor r; receipt_action := receipt_action r; receipt_request_id := receipt_request_id r;
  receipt_body := receipt_body r; completed := true; superseded := superseded r |}.

(** The retained secret of an alias is deleted too. *)
Definition delete_secret (alias : string) : act W unit :=
  receipt ← reads (_read_receipt (_intent_path alias));
  match receipt ≫= (fun r => key (receipt_body r)) with
  | None => mret tt
  | Some secret =>
      '(status, _) ← _gateway_request (KeyDelete [] (Some [secret]));
      if status =? 200 then mret tt
      else
        info ← _gateway_key_info secret;
        match info with
        | Some _ => raise (KeyFault "gateway revocation effect is unconfirmed")
        | None => mret tt
        end
  end.

Definition live_owner (alias : string) (w : W) : bool :=
  match _read_receipt (_intent_path alias) w with Some r => negb (superseded r) | None => false end.

Definition revoke_effects (name identity : string) (retained : GatewayMutationReceipt) : act W (observed GatewayKeyRevoked) :=
  let rolling := _rolling_alias name in
  _ ← _gateway_delete_alias name;
  _ ← _gateway_delete_alias rolling;
  _ ← delete_secret name;
  _ ← delete_secret rolling;
  _ ← _forget_intent name true;
  _ ← _forget_intent rolling true;
  _ ← _write_private (_receipt_path name identity) (done_receipt retained);
  mret (Known {| revoked_name := name; revoked_request_id := Some identity |}).

Definition revoke_once (name identity : string) (actor : option string) : act W (observed GatewayKeyRevoked) :=
  let rolling := _rolling_alias name in
  acquired ← effect (claim E name);
  if negb acquired then raise (KeyFault "gateway mutation claim is busy")
  else
    found ← reads (_read_receipt (_receipt_path name identity));
    match found with
    | Some retained =>
        if conflicts retained actor REVOKE then raise (HttpFault 409 (value InvalidRequestReason.CONFLICT))
        else if completed retained then mret (Known {| revoked_name := name; revoked_request_id := Some identity |})
        else revoke_effects name identity retained
    | None =>
        owned ← reads (fun w => live_owner name w || live_owner rolling w);
        present ← (if (owned : bool) then mret true
                   else first ← _gateway_exists name;
                        if (first : bool) then mret true else _gateway_exists rolling : act W bool);
        if negb present then raise (HttpFault 409 (value InvalidRequestReason.NOT_READY))
        else
          let retained := revoke_receipt name identity actor false in
          _ ← _write_private (_receipt_path name identity) retained;
          revoke_effects name identity retained
    end.

Definition revoke (name : string) (request_id actor : option string) : act W (observed GatewayKeyRevoked) :=
  identity ← or_uuid request_id;
  _observe_gateway 3 (revoke_once name identity actor).

(** [receipt] *)
Definition status_of (name : string) (request_id actor : string) (alias : string) (w : W) : option GatewayMutationStatus :=
  match _read_receipt (_receipt_path alias request_id) w with
  | Some r =>
      if bool_decide (receipt_actor r = Some actor) then Some {|
        status_name := name; status_request_id := request_id; status_actor := receipt_actor r;
        status_action := receipt_action r; status_completed := completed r; status_superseded := superseded r;
        status_models := models (receipt_body r); status_expires := duration (receipt_body r) |}
      else None
  | None => None
  end.
Definition receipt (name request_id actor : string) : act W GatewayMutationStatus :=
  found ← reads (fun w => or_else (status_of name request_id actor name w)
                                  (status_of name request_id actor (_rolling_alias name) w));
  match found with
  | Some s => mret s
  | None => raise (HttpFault 404 (value InvalidRequestReason.NOT_FOUND))
  end.

(** ** The default key *)

(** [_read_key] *)
Definition _read_key : act W (option string) :=
  f ← reads (key_file_at E);
  match f with
  | NoKeyFile => mret None
  | UnreadableKeyFile => raise (KeyFault "default secret observation is unavailable")
  | KeyText text => mret (let s := strip text in if _KEY_PATTERN s then Some s else None)
  end.

Definition _gateway_ensure_default : act W bool :=
  found ← _read_key;
  secret ← (match found with
            | Some k => mret k
            | None =>
                t ← effect (draw_secret E);
                ok ← effect (put_key_file E ("sk-" +:+ t +:+ ch 10));
                if (ok : bool) then mret ("sk-" +:+ t) else raise OsFault
            end : act W string);
  '(status, payload) ← _gateway_request (KeyInfo secret);
  info ← info_of payload;
  if (status =? 200) && match info with Some i => has_alias DEFAULT_KEY_NAME i | None => false end then mret false
  else if negb (status =? 404) then raise (KeyFault "default gateway key observation is unavailable")
  else
    present ← _gateway_exists DEFAULT_KEY_NAME;
    _ ← (if (present : bool) then _ ← _gateway_revoke DEFAULT_KEY_NAME; mret tt else mret tt : act W unit);
    _ ← _gateway_create no_context DEFAULT_KEY_NAME None None (Some secret);
    mret true.

Definition ensure_default : act W (observed bool) :=
  _observe_gateway 3
    (acquired ← effect (claim E DEFAULT_KEY_NAME);
     if negb acquired then raise (KeyFault "gateway mutation claim is busy") else known _gateway_ensure_default).

(** ** Route grants *)
Definition managed (i : _LiteLlmKey) : bool := bool_decide (item_managed_by i = Some MANAGED_BY).

Definition grant_key (run_ids : list string) (name : string) : act W bool :=
  acquired ← effect (claim E name);
  if negb acquired then raise (KeyFault "gateway mutation claim is busy")
  else
    current ← _gateway_alias_info name;
    match current with
    | None => mret false
    | Some cur =>
        match item_token cur with
        | None => mret false
        | Some secret =>
            if negb (managed cur) then mret false
            else
              routes ← _routes_for (item_models cur) run_ids;
              if bool_decide (item_routes cur = Some routes) then mret false
              else
                '(status, _) ← _gateway_request (KeyRouteUpdate secret routes);
                seen ← _gateway_key_info secret;
                match seen with
                | Some s =>
                    if (status =? 200) && bool_decide (item_routes s = Some routes)
                       && bool_decide (item_models s = item_models cur)
                    then mret true else raise (KeyFault "gateway route grant effect is unconfirmed")
                | None => raise (KeyFault "gateway route grant effect is unconfirmed")
                end
        end
    end.

Fixpoint grant_keys (run_ids : list string) (items : list _LiteLlmKey) (changed : bool) : act W bool :=
  match items with
  | [] => mret changed
  | i :: rest =>
      match (if managed i then item_alias i else None) with
      | None => grant_keys run_ids rest changed
      | Some name => c ← grant_key run_ids name; grant_keys run_ids rest (changed || c)
      end
  end.

Definition _reconcile_route_grants (run_ids : list string) : act W bool :=
  items ← _gateway_raw_keys None; grant_keys run_ids items false.
Definition reconcile_route_grants : act W (observed bool) := _observe_gateway 1 (known (_reconcile_route_grants [])).
Definition prepare_recipe_routes (run_ids : list string) : act W unit :=
  r ← _observe_gateway 1 (known (_reconcile_route_grants run_ids));
  match r with
  | Known _ => mret tt
  | UnknownError _ => raise (KeyFault "gateway recipe route grants are unconfirmed")
  end.

Definition list_keys : act W (observed (list GatewayKeyView)) := _observe_gateway 3 (known _gateway_list_keys).
Definition check_health : act W bool :=
  r ← _observe_gateway 3 (known _gateway_check_health);
  mret (match r with Known b => b | UnknownError _ => false end).
End gateway.
