(* ===== verification/GatewayKeysFacts.v ===== *)
(** * Gateway client keys: theorems

    A completed receipt is final along every history of requests, so a repeated request gets
    the secret it already got; a revocation that returns left no key of the name.  What is
    assumed of the files and of the foreign service is stated by [FileLaws] and
    [GatewayLaws]. *)
From S2P Require Import Prelude Vocabulary ReasonCodes Json JsonRead Tokens GatewayKeys.

(** ** Effects and what they keep *)

(** Whatever a call answers, it keeps a condition of the world. *)
Definition preserves {W A} (K : W -> Prop) (m : act W A) : Prop := forall w, K w -> K (fst (m w)).

Section effects.
Context {W : Type} (K : W -> Prop).

Lemma preserves_ret {A} (a : A) : preserves K (mret a : act W A).
Proof. by intros w. Qed.
Lemma preserves_raise {A} e : preserves K (raise e : act W A).
Proof. by intros w. Qed.
Lemma preserves_reads {A} (f : W -> A) : preserves K (reads f).
Proof. by intros w. Qed.
Lemma preserves_effect {A} (f : W -> W * A) : (forall w, K w -> K (fst (f w))) -> preserves K (effect f).
Proof. intros H w Hw. unfold effect. specialize (H w Hw). by destruct (f w). Qed.
Lemma preserves_bind {A B} (m : act W A) (f : A -> act W B) :
  preserves K m -> (forall a, preserves K (f a)) -> preserves K (m ≫= f).
Proof.
  intros Hm Hf w Hw. specialize (Hm w Hw). unfold mbind, act_bind. destruct (m w) as [w' [a|e]]; [by apply Hf|done].
Qed.
(** A condition of the value read is known to what follows. *)
Lemma preserves_reads_bind {A B} (f : W -> A) (k : A -> act W B) :
  (forall w, K w -> K (fst (k (f w) w))) -> preserves K (reads f ≫= k).
Proof. intros H w Hw. by apply H. Qed.
Lemma preserves_catch {A} (m : act W A) h : preserves K m -> (forall e, preserves K (h e)) -> preserves K (catch m h).
Proof.
  intros Hm Hh w Hw. specialize (Hm w Hw). unfold catch. destruct (m w) as [w' [a|e]]; [done|by apply Hh].
Qed.
Lemma preserves_observe {A} n (m : act W (observed A)) last : preserves K m -> preserves K (observe_attempts n m last).
Proof.
  intros Hm. revert last. induction n as [|n IH]; intros last w Hw; [done|]. cbn [observe_attempts].
  specialize (Hm w Hw). destruct (m w) as [w' [[a|u]|e]]; simpl in *; [done|by apply IH|].
  destruct (reraised e); [done|by apply IH].
Qed.
End effects.

Create HintDb gateway.
#[export] Hint Resolve preserves_ret preserves_raise preserves_reads : gateway.

(** Walk over a program that keeps a condition everywhere. *)
Ltac keep :=
  repeat first
    [ progress intros
    | apply preserves_ret | apply preserves_raise | apply preserves_reads
    | solve [eauto with gateway]
    | apply preserves_bind | apply preserves_catch | apply preserves_observe
    | match goal with
      | |- preserves _ (if ?b then _ else _) => destruct b
      | |- preserves _ (match ?x with _ => _ end) => destruct x
      | |- preserves _ (let '(_, _) := ?x in _) => destruct x
      end ].

(** What holds after a call that returned, and after one that raised. *)
Definition hoare {W A} (P : W -> Prop) (m : act W A) (Q : A -> W -> Prop) (X : W -> Prop) : Prop :=
  forall w, P w -> match m w with (w', Ret a) => Q a w' | (w', Raised _) => X w' end.

Lemma hoare_bind {W A B} P (m : act W A) (f : A -> act W B) Q R (X : W -> Prop) :
  hoare P m Q X -> (forall a, hoare (Q a) (f a) R X) -> hoare P (m ≫= f) R X.
Proof.
  intros Hm Hf w Hw. specialize (Hm w Hw). unfold mbind, act_bind. destruct (m w) as [w' [a|e]]; [by apply Hf|done].
Qed.
Lemma hoare_weaken {W A} (P P' : W -> Prop) (m : act W A) (Q Q' : A -> W -> Prop) (X X' : W -> Prop) :
  (forall w, P' w -> P w) -> (forall a w, Q a w -> Q' a w) -> (forall w, X w -> X' w) ->
  hoare P m Q X -> hoare P' m Q' X'.
Proof.
  intros Hp Hq Hx H w Hw. specialize (H w (Hp w Hw)). destruct (m w) as [w' [a|e]]; auto.
Qed.
Lemma hoare_preserves {W A} (P X : W -> Prop) (m : act W A) :
  (forall w, P w -> X w) -> preserves P m -> hoare P m (fun _ => P) X.
Proof. intros Hx Hm w Hw. specialize (Hm w Hw). destruct (m w) as [w' [a|e]]; auto. Qed.
Lemma hoare_ret {W A} (P X : W -> Prop) (a : A) (Q : A -> W -> Prop) :
  (forall w, P w -> Q a w) -> hoare P (mret a : act W A) Q X.
Proof. intros H w Hw. by apply H. Qed.
Lemma hoare_raise {W A} (P X : W -> Prop) e (Q : A -> W -> Prop) : (forall w, P w -> X w) -> hoare P (raise e : act W A) Q X.
Proof. intros H w Hw. by apply H. Qed.
Lemma hoare_reads {W A B} (P X : W -> Prop) (f : W -> A) (k : A -> act W B) Q :
  (forall a, hoare (fun w => P w /\ f w = a) (k a) Q X) -> hoare P (reads f ≫= k) Q X.
Proof. intros H w Hw. by apply (H (f w)). Qed.
Lemma hoare_catch {W A} P (m : act W A) h (Q : A -> W -> Prop) (Y X : W -> Prop) :
  hoare P m Q Y -> (forall e, hoare Y (h e) Q X) -> hoare P (catch m h) Q X.
Proof.
  intros Hm Hh w Hw. specialize (Hm w Hw). unfold catch. destruct (m w) as [w' [a|e]]; [done|by apply Hh].
Qed.
(** The loop of attempts under an invariant. *)
Lemma hoare_observe {W A} (P : W -> Prop) (m : act W (observed A)) (Q : A -> W -> Prop) :
  hoare P m (fun a w => match a with Known v => Q v w | UnknownError _ => P w end) P ->
  forall n last, hoare P (observe_attempts n m last) (fun a w => match a with Known v => Q v w | UnknownError _ => P w end) P.
Proof.
  intros Hm n. induction n as [|n IH]; intros last w Hw; cbn [observe_attempts]; [by destruct last|].
  specialize (Hm w Hw). destruct (m w) as [w' [[a|u]|e]]; [done|by apply IH|].
  destruct (reraised e); [done|by apply IH].
Qed.

(** ** Calls of the service

    What keeps a condition under the requests it makes. *)
Section service.
Context {W : Type} (E : Env W) (fromisoformat : string -> option datetime) (K : W -> Prop).
Context (Hread : forall page size secret, preserves K (effect (serve E (KeyList page size)))
                                      /\ preserves K (effect (serve E (KeyInfo secret)))).

Lemma keep_request q : preserves K (effect (serve E q)) -> preserves K (_gateway_request E q).
Proof. intros H. unfold _gateway_request. apply preserves_bind; [done|]. keep. Qed.

Lemma keep_list page size : preserves K (_gateway_request E (KeyList page size)).
Proof. apply keep_request, (Hread page size EmptyString). Qed.
Lemma keep_ask secret : preserves K (_gateway_request E (KeyInfo secret)).
Proof. apply keep_request, (Hread 0 0 secret). Qed.

Lemma keep_page target page : preserves K (read_page E fromisoformat target page).
Proof. unfold read_page. apply preserves_bind; [apply keep_list|]. keep. Qed.

Lemma keep_pages target total n : forall page, preserves K (more_pages E fromisoformat target total page n).
Proof.
  induction n as [|n IH]; intros page; [keep|]. cbn [more_pages]. apply preserves_bind; [apply keep_page|].
  intros [items stated]. destruct (negb _); [keep|]. apply preserves_bind; [apply IH|keep].
Qed.

Lemma keep_raw_keys target : preserves K (_gateway_raw_keys E fromisoformat target).
Proof.
  unfold _gateway_raw_keys. apply preserves_bind; [apply keep_page|]. intros [items total].
  apply preserves_bind; [apply keep_pages|keep].
Qed.

Lemma keep_exists name : preserves K (_gateway_exists E fromisoformat name).
Proof. unfold _gateway_exists. apply preserves_bind; [apply keep_raw_keys|keep]. Qed.

Lemma keep_info_of payload : preserves K (info_of payload).
Proof. unfold info_of. keep. Qed.

Lemma keep_key_info secret : preserves K (_gateway_key_info E secret).
Proof.
  unfold _gateway_key_info. apply preserves_bind; [apply keep_ask|]. intros [status payload]. destruct (_ =? _); [keep|].
  apply preserves_bind; [apply keep_info_of|keep].
Qed.

Lemma keep_alias_info name : preserves K (_gateway_alias_info E fromisoformat name).
Proof.
  unfold _gateway_alias_info. apply preserves_bind; [apply keep_raw_keys|]. intros items. destruct (List.find _ items); [|keep].
  apply preserves_bind; [keep|]. intros receipt. destruct (or_else _ _); [|keep].
  apply preserves_bind; [apply keep_key_info|keep].
Qed.

Lemma keep_observe_created body : preserves K (_gateway_observe_created E body).
Proof.
  unfold _gateway_observe_created. destruct (key body); [|keep]. apply preserves_bind; [apply keep_key_info|keep].
Qed.

Lemma keep_adopt body e : preserves K (adopt_or E body e).
Proof. unfold adopt_or. apply preserves_bind; [apply keep_observe_created|keep]. Qed.

Lemma keep_delete name :
  preserves K (effect (serve E (KeyDelete [name] None))) -> preserves K (_gateway_delete_alias E fromisoformat name).
Proof.
  intros H. unfold _gateway_delete_alias. apply preserves_bind.
  - apply preserves_catch; [apply preserves_bind; [by apply keep_request|keep]|].
    intros []; try (by apply preserves_raise). apply preserves_bind; [apply keep_exists|keep].
  - intros [status|]; [|keep]. apply preserves_bind; [apply keep_exists|keep].
Qed.

Lemma keep_delete_present name (present : bool) :
  preserves K (effect (serve E (KeyDelete [name] None))) ->
  preserves K (if present then _gateway_delete_alias E fromisoformat name else mret tt).
Proof. intros H. destruct present; [by apply keep_delete|keep]. Qed.

Lemma keep_generate name body :
  preserves K (effect (serve E (KeyDelete [name] None))) -> preserves K (effect (serve E (KeyGenerate body))) ->
  preserves K (generate E fromisoformat name body).
Proof.
  intros Hd Hg. unfold generate. apply preserves_bind; [apply keep_exists|]. intros present.
  apply preserves_bind; [by apply keep_delete_present|]. intros _. apply preserves_bind.
  - apply preserves_catch; [apply preserves_bind; [by apply keep_request|keep]|].
    intros []; try (by apply preserves_raise). apply preserves_bind; [apply keep_adopt|keep].
  - intros [[status payload]|v]; [|keep]. destruct (parse_key payload); [|keep].
    set (secret := loose_text "key" payload). destruct (match secret with Some _ => _ | None => _ end); [keep|].
    destruct secret; [|apply keep_adopt]. destruct (_ && _); [keep|apply keep_adopt].
Qed.
End service.

(** ** The files *)
Class FileLaws {W} (E : Env W) := {
  put_other : forall p q r w, p <> q -> file_at E (fst (put E p r w)) q = file_at E w q;
  put_self : forall p r w, file_at E (fst (put E p r w)) p = Stored r \/ file_at E (fst (put E p r w)) p = file_at E w p;
  put_done : forall p r w, snd (put E p r w) = true -> file_at E (fst (put E p r w)) p = Stored r;
  serve_files : forall q w p, file_at E (fst (serve E q w)) p = file_at E w p;
  claim_files : forall n w p, file_at E (fst (claim E n w)) p = file_at E w p;
  secret_files : forall w p, file_at E (fst (draw_secret E w)) p = file_at E w p;
  uuid_files : forall w p, file_at E (fst (draw_uuid E w)) p = file_at E w p;
  grants_files : forall m r w p, file_at E (fst (route_grants E m r w)) p = file_at E w p;
  key_file_files : forall s w p, file_at E (fst (put_key_file E s w)) p = file_at E w p;
  (** an identity that was just drawn names no receipt yet *)
  uuid_fresh : forall w n, file_at E w (ReceiptPath (n +:+ ":" +:+ snd (draw_uuid E w))) = Absent;
}.

Section files.
Context {W : Type} (E : Env W) `{!FileLaws E} (fromisoformat : string -> option datetime).

(** ** A completed receipt is final *)
Section final.
Context (t : string) (r : GatewayMutationReceipt) (Hdone : completed r = true) (Hok : receipt_ok r = true).
Definition kept (w : W) : Prop := file_at E w (ReceiptPath t) = Stored r.

Lemma kept_serve q : preserves kept (effect (serve E q)).
Proof. apply preserves_effect. intros w Hw. unfold kept. by rewrite serve_files. Qed.
Lemma kept_claim n : preserves kept (effect (claim E n)).
Proof. apply preserves_effect. intros w Hw. unfold kept. by rewrite claim_files. Qed.
Lemma kept_secret : preserves kept (effect (draw_secret E)).
Proof. apply preserves_effect. intros w Hw. unfold kept. by rewrite secret_files. Qed.
Lemma kept_uuid : preserves kept (effect (draw_uuid E)).
Proof. apply preserves_effect. intros w Hw. unfold kept. by rewrite uuid_files. Qed.
Lemma kept_grants m i : preserves kept (effect (route_grants E m i)).
Proof. apply preserves_effect. intros w Hw. unfold kept. by rewrite grants_files. Qed.
Lemma kept_key_file s : preserves kept (effect (put_key_file E s)).
Proof. apply preserves_effect. intros w Hw. unfold kept. by rewrite key_file_files. Qed.
Lemma kept_write p x : p <> ReceiptPath t -> preserves kept (_write_private E p x).
Proof.
  intros Hp. unfold _write_private. apply preserves_bind; [|intros []; keep].
  apply preserves_effect. intros w Hw. unfold kept. by rewrite put_other.
Qed.
Lemma kept_intent n x : preserves kept (_write_private E (_intent_path n) x).
Proof. by apply kept_write. Qed.

Lemma kept_read w : kept w -> _read_receipt E (ReceiptPath t) w = Some r.
Proof. unfold kept, _read_receipt. intros ->. by rewrite Hok. Qed.
Lemma kept_service : forall page size secret,
  preserves kept (effect (serve E (KeyList page size))) /\ preserves kept (effect (serve E (KeyInfo secret))).
Proof. intros. split; apply kept_serve. Qed.

Lemma kept_forget name s : preserves kept (_forget_intent E name s).
Proof.
  unfold _forget_intent. apply preserves_bind; [keep|]. intros [x|]; [|keep].
  apply preserves_reads_bind. intros w Hw. destruct (decide (name +:+ ":" +:+ receipt_request_id x = t)) as [Heq|Hne].
  - unfold _receipt_path. rewrite Heq, (kept_read w Hw), Hdone. by apply kept_intent.
  - apply preserves_bind; [|intros; apply kept_intent|done].
    assert (preserves kept (_write_private E (_receipt_path name (receipt_request_id x)) (retired s x))) as Hwrite.
    { apply kept_write. unfold _receipt_path. congruence. }
    destruct (_read_receipt _ _ _) as [a|]; [|done]. destruct (completed a); [keep|done].
Qed.

Lemma kept_restore c name : preserves kept (_restore_request_intent E c name).
Proof.
  unfold _restore_request_intent. destruct (c_request c); [|keep]. apply preserves_bind; [keep|].
  intros [x|]; [|keep]. destruct (_ && _); [apply kept_intent|keep].
Qed.

(** The requests whose receipts are others. *)
Definition apart (c : context) (name : string) : Prop :=
  forall i, c_request c = Some i -> name +:+ ":" +:+ i <> t.

Lemma kept_record c name body identity : name +:+ ":" +:+ identity <> t -> preserves kept (record_intent E c name body identity).
Proof.
  intros Hne. unfold record_intent. apply preserves_bind; [keep|]. intros prior. apply preserves_bind.
  - destruct prior; [|keep]. destruct (_ && _); [apply kept_forget|keep].
  - intros _. apply preserves_bind; [apply kept_write; unfold _receipt_path; congruence|intros; apply kept_intent].
Qed.

(** A drawn identity is not that of the receipt. *)
Lemma kept_drawn {B} name (f : string -> act W B) :
  (forall i, name +:+ ":" +:+ i <> t -> preserves kept (f i)) -> preserves kept (effect (draw_uuid E) ≫= f).
Proof.
  intros Hf w Hw. pose proof (kept_uuid w Hw) as Hw'. pose proof (uuid_fresh w name) as Hnew. unfold kept in Hw.
  unfold effect, mbind, act_bind in *. destruct (draw_uuid E w) as [w' u]. cbn [fst snd] in *.
  apply Hf; [|done]. intros E'. by rewrite E', Hw in Hnew.
Qed.

Lemma kept_persist c name body : apart c name -> preserves kept (persist_intent E c name body).
Proof.
  intros Hc. unfold persist_intent. apply preserves_catch; [|intros []; keep]. unfold or_uuid.
  destruct (c_request c) as [i|] eqn:Ei; [destruct (bool_decide (i = EmptyString))|]; try (by apply (kept_drawn name), kept_record).
  exact (kept_record c name body i (Hc i Ei)).
Qed.
Lemma kept_create_under c name models_ expires secret :
  apart c name -> preserves kept (_gateway_create_under E fromisoformat c name models_ expires secret).
Proof.
  intros Hc. unfold _gateway_create_under. apply preserves_bind; [keep|]. intros intent.
  destruct (match intent with Some _ => _ | None => _ end) as [body|].
  - apply preserves_bind; [apply keep_observe_created, kept_service|].
    intros [v|]; [keep|]. apply keep_generate; [apply kept_service|apply kept_serve..].
  - apply preserves_bind; [unfold _routes_for; apply preserves_bind; [apply kept_grants|keep]|]. intros routes.
    apply preserves_bind; [destruct secret; [keep|apply preserves_bind; [apply kept_secret|keep]]|]. intros chosen.
    apply preserves_bind; [by apply kept_persist|]. intros _. apply keep_generate; [apply kept_service|apply kept_serve..].
Qed.

Lemma kept_delete name : preserves kept (_gateway_delete_alias E fromisoformat name).
Proof. apply keep_delete; [apply kept_service|apply kept_serve]. Qed.
Lemma kept_exists name : preserves kept (_gateway_exists E fromisoformat name).
Proof. apply keep_exists, kept_service. Qed.
Lemma kept_delete_present name (b : bool) : preserves kept (if b then _gateway_delete_alias E fromisoformat name else mret tt).
Proof. destruct b; [apply kept_delete|keep]. Qed.

Lemma kept_create c name models_ expires secret :
  apart c name -> preserves kept (_gateway_create E fromisoformat c name models_ expires secret).
Proof.
  intros Hc. unfold _gateway_create. apply preserves_bind; [by apply kept_create_under|]. intros created.
  apply preserves_bind; [keep|]. intros [|]; (apply preserves_bind; [|intros _; apply preserves_bind; [apply kept_forget|keep]]); [|keep].
  apply preserves_bind; [apply kept_exists|]. intros present.
  apply preserves_bind; [apply kept_delete_present|intros; apply kept_forget].
Qed.

Lemma kept_replace c name models_ expires :
  apart c (_rolling_alias name) -> preserves kept (replace_key E fromisoformat c name models_ expires).
Proof.
  intros Hc. unfold replace_key. apply preserves_bind; [by apply kept_create_under|]. intros created.
  apply preserves_bind; [apply kept_forget|]. intros _. apply preserves_bind; [apply kept_exists|]. intros present.
  apply preserves_bind; [apply kept_delete_present|]. intros _.
  apply preserves_bind; [apply keep_request, kept_serve|]. intros _.
  apply preserves_bind; [apply keep_observe_created, kept_service|]. intros [v|]; [|keep].
  apply preserves_bind; [apply kept_forget|keep].
Qed.

Lemma kept_roll c name : apart c (_rolling_alias name) -> preserves kept (_gateway_roll E fromisoformat c name).
Proof.
  intros Hc. assert (forall current, preserves kept (roll_current E fromisoformat c name current)) as Hcurrent.
  { intros [item|]; [|unfold roll_current; keep]. unfold roll_current. apply preserves_bind; [keep|]. intros now.
    destruct (_remaining _ _ _ _); [by apply kept_replace|keep]. }
  unfold _gateway_roll. apply preserves_bind; [keep|]. intros [body|].
  - apply preserves_bind; [apply keep_observe_created, kept_service|]. intros [v|].
    + apply preserves_bind; [apply kept_forget|keep].
    + apply preserves_bind; [apply keep_alias_info, kept_service|]. intros _. by apply kept_replace.
  - apply preserves_bind; [apply keep_alias_info, kept_service|]. intros [item|]; [apply Hcurrent|].
    apply preserves_bind; [apply keep_alias_info, kept_service|]. intros. apply Hcurrent.
Qed.

(** The receipt a mutation is about was seen not to be the completed one. *)
Lemma kept_mutation alias request_id action actor kind :
  kind <> REVOKE -> (forall c, apart c alias -> preserves kept (action c)) ->
  preserves kept (_mutation_request E alias request_id action actor kind).
Proof.
  intros Hkind Haction. unfold _mutation_request. apply preserves_bind; [keep|]. intros retained.
  apply preserves_bind; [destruct (truthy_str _), retained; keep; apply kept_uuid|]. intros identity.
  apply preserves_reads_bind. intros w Hw. destruct (decide (alias +:+ ":" +:+ identity = t)) as [Heq|Hne].
  - unfold _receipt_path. rewrite Heq, (kept_read w Hw), Hdone. destruct (conflicts r actor kind) eqn:Ec; [done|].
    destruct (superseded r); [done|]. destruct (key (receipt_body r)) eqn:Ek; [done|]. exfalso.
    unfold conflicts in Ec. unfold receipt_ok in Hok. rewrite Ek in Hok. bools.
    destruct (bool_decide (receipt_action r = REVOKE)) eqn:Er; [|done]. apply bool_decide_eq_true in Er. congruence.
  - assert (preserves kept (r0 ← _observe_gateway 3 (reconcile_mutation E alias identity
        (action {| c_request := Some identity; c_actor := actor; c_action := kind |})); mret (with_request identity r0))) as Hrun.
    { apply preserves_bind; [|keep]. apply preserves_observe. unfold reconcile_mutation. apply preserves_bind; [keep|].
      assert (preserves kept (action {| c_request := Some identity; c_actor := actor; c_action := kind |})).
      { apply Haction. intros i [= <-]. done. }
      intros [x|]; [|done]. destruct (superseded x); [keep|]. destruct (completed x); [|done].
      destruct (key (receipt_body x)); [keep|done]. }
    destruct (_read_receipt _ _ _) as [x|]; [|by apply Hrun]. destruct (conflicts x actor kind); [done|].
    destruct (superseded x); [done|]. destruct (completed x); [|by apply Hrun]. destruct (key (receipt_body x)); [done|by apply Hrun].
Qed.

Lemma kept_create_call name models_ expires secret request_id actor :
  preserves kept (create E fromisoformat name models_ expires secret request_id actor).
Proof.
  unfold create. apply preserves_bind; [keep|]. intros x. destruct (match x with Some _ => _ | None => _ end); [keep|].
  apply preserves_bind; [keep|]. intros retained. apply preserves_bind.
  - destruct request_id, retained; keep; apply kept_uuid.
  - intros id. apply kept_mutation; [done|]. intros c Hc. unfold create_once.
    apply preserves_bind; [apply kept_claim|]. intros [|]; [|keep]. cbn [negb].
    apply preserves_bind; [apply kept_restore|]. intros _. unfold known. apply preserves_bind; [by apply kept_create|keep].
Qed.

Lemma kept_roll_call name request_id actor : preserves kept (roll E fromisoformat name request_id actor).
Proof.
  unfold roll. apply kept_mutation; [done|]. intros c Hc. unfold roll_once.
  apply preserves_bind; [apply kept_claim|]. intros [|]; [|keep]. cbn [negb]. apply preserves_bind.
  - unfold settle_pending. apply preserves_reads_bind. intros w Hw.
    destruct (_pending_receipt E (_rolling_alias name) w) as [x|] eqn:Ep; [|done]. destruct (bool_decide _); [done|].
    assert (_rolling_alias name +:+ ":" +:+ receipt_request_id x <> t) as Hne.
    { intros Heq. revert Ep. unfold _pending_receipt, _receipt_path. destruct (_read_receipt E (_intent_path _) w) as [y|]; [|done].
      destruct (completed y || superseded y); [done|].
      destruct (decide (receipt_request_id y = receipt_request_id x)) as [Hyx|Hyx].
      - rewrite Hyx, Heq, (kept_read w Hw), Hdone. done.
      - destruct (_read_receipt _ _ _) as [z|]; [destruct (_ || _)|]; intros [= ->]; done. }
    apply (preserves_bind kept (_restore_request_intent E (for_request (receipt_request_id x) c) (_rolling_alias name))); [apply kept_restore| |done].
    intros _. apply preserves_bind; [apply kept_roll|keep]. intros i [= <-]. exact Hne.
  - intros [u|]; [keep|]. apply preserves_bind; [apply kept_restore|]. intros _. by apply kept_roll.
Qed.

Lemma kept_delete_secret alias : preserves kept (delete_secret E alias).
Proof.
  unfold delete_secret. apply preserves_bind; [keep|]. intros x. destruct (x ≫= _); [|keep].
  apply preserves_bind; [apply keep_request, kept_serve|]. intros [status ?]. destruct (_ =? _); [keep|].
  apply preserves_bind; [apply keep_key_info, kept_service|keep].
Qed.

Lemma kept_revoke_call name request_id actor : preserves kept (revoke E fromisoformat name request_id actor).
Proof.
  unfold revoke. apply preserves_bind; [unfold or_uuid; destruct request_id; [destruct (bool_decide _)|]; keep; apply kept_uuid|].
  intros identity. apply preserves_observe. unfold revoke_once. apply preserves_bind; [apply kept_claim|]. intros [|]; [|keep].
  cbn [negb]. apply preserves_reads_bind. intros w Hw.
  destruct (decide (name +:+ ":" +:+ identity = t)) as [Heq|Hne].
  - unfold _receipt_path. rewrite Heq, (kept_read w Hw), Hdone. by destruct (conflicts r actor REVOKE).
  - assert (forall x, preserves kept (revoke_effects E fromisoformat name identity x)) as Heffects.
    { intros x. unfold revoke_effects.
      do 2 (apply preserves_bind; [apply kept_delete|]; intros _). do 2 (apply preserves_bind; [apply kept_delete_secret|]; intros _).
      do 2 (apply preserves_bind; [apply kept_forget|]; intros _).
      apply preserves_bind; [apply kept_write; unfold _receipt_path; congruence|keep]. }
    destruct (_read_receipt _ _ _) as [x|].
    + destruct (conflicts x actor REVOKE); [done|]. destruct (completed x); [done|]. by apply Heffects.
    + revert w Hw. change (preserves kept (owned ← reads (fun w => live_owner E name w || live_owner E (_rolling_alias name) w);
        present ← (if (owned : bool) then mret true
                   else first ← _gateway_exists E fromisoformat name;
                        if (first : bool) then mret true else _gateway_exists E fromisoformat (_rolling_alias name) : act W bool);
        if negb present then raise (HttpFault 409 (value InvalidRequestReason.NOT_READY))
        else
          let retained := revoke_receipt name identity actor false in
          _ ← _write_private E (_receipt_path name identity) retained;
          revoke_effects E fromisoformat name identity retained)).
      apply preserves_bind; [keep|]. intros owned. apply preserves_bind.
      * destruct owned; [keep|]. apply preserves_bind; [apply kept_exists|]. intros [|]; [keep|apply kept_exists].
      * intros [|]; [|keep]. cbn [negb]. apply preserves_bind; [apply kept_write; unfold _receipt_path; congruence|intros; apply Heffects].
Qed.
Lemma kept_ensure_default : preserves kept (ensure_default E fromisoformat).
Proof.
  unfold ensure_default. apply preserves_observe. apply preserves_bind; [apply kept_claim|]. intros [|]; [|keep]. cbn [negb].
  unfold known. apply preserves_bind; [|keep]. unfold _gateway_ensure_default. apply preserves_bind; [unfold _read_key; keep|].
  intros found. apply preserves_bind.
  - destruct found; [keep|]. apply preserves_bind; [apply kept_secret|]. intros x.
    apply preserves_bind; [apply kept_key_file|]. intros []; keep.
  - intros secret. apply preserves_bind; [apply keep_ask, kept_service|]. intros [status payload].
    apply preserves_bind; [apply keep_info_of|]. intros info. destruct (_ && _); [keep|]. destruct (negb _); [keep|].
    apply preserves_bind; [apply kept_exists|]. intros present. apply preserves_bind.
    + destruct present; [|keep]. apply preserves_bind; [|keep]. unfold _gateway_revoke.
      apply preserves_bind; [apply kept_exists|]. intros b. apply preserves_bind; [apply kept_delete_present|keep].
    + intros _. apply preserves_bind; [|keep]. apply kept_create. by intros i.
Qed.

Lemma kept_grant run_ids : preserves kept (_reconcile_route_grants E fromisoformat run_ids).
Proof.
  unfold _reconcile_route_grants. apply preserves_bind; [apply keep_raw_keys, kept_service|]. intros items.
  generalize false. induction items as [|i items IH]; intros changed; cbn [grant_keys]; [keep|].
  destruct (if managed i then item_alias i else None) as [name|]; [|apply IH]. apply preserves_bind; [|intros; apply IH].
  unfold grant_key. apply preserves_bind; [apply kept_claim|]. intros [|]; [|keep]. cbn [negb].
  apply preserves_bind; [apply keep_alias_info, kept_service|]. intros [cur|]; [|keep].
  destruct (item_token cur); [|keep]. destruct (negb _); [keep|].
  apply preserves_bind; [unfold _routes_for; apply preserves_bind; [apply kept_grants|keep]|]. intros routes.
  destruct (bool_decide _); [keep|]. apply preserves_bind; [apply keep_request, kept_serve|]. intros [status ?].
  apply preserves_bind; [apply keep_key_info, kept_service|keep].
Qed.
End final.

(** ** Histories of requests *)
Inductive gateway_call :=
| CallCreate (name : string) (models_ : option (list string)) (expires secret request_id actor : option string)
| CallRoll (name : string) (request_id actor : option string)
| CallRevoke (name : string) (request_id actor : option string)
| CallEnsureDefault
| CallReconcileGrants
| CallPrepareRoutes (run_ids : list string)
| CallList
| CallHealth
| CallReceipt (name request_id actor : string).

(** The world after a call, whatever it answered. *)
Definition after_call (c : gateway_call) (w : W) : W :=
  match c with
  | CallCreate name models_ expires secret request_id actor =>
      fst (create E fromisoformat name models_ expires secret request_id actor w)
  | CallRoll name request_id actor => fst (roll E fromisoformat name request_id actor w)
  | CallRevoke name request_id actor => fst (revoke E fromisoformat name request_id actor w)
  | CallEnsureDefault => fst (ensure_default E fromisoformat w)
  | CallReconcileGrants => fst (reconcile_route_grants E fromisoformat w)
  | CallPrepareRoutes run_ids => fst (prepare_recipe_routes E fromisoformat run_ids w)
  | CallList => fst (list_keys E fromisoformat w)
  | CallHealth => fst (check_health E w)
  | CallReceipt name request_id actor => fst (receipt E name request_id actor w)
  end.
Definition after_calls (l : list gateway_call) (w : W) : W := fold_left (fun w c => after_call c w) l w.

(** A completed receipt is final along every history. *)
Lemma completed_receipt_final t r calls : forall w,
  completed r = true -> receipt_ok r = true ->
  file_at E w (ReceiptPath t) = Stored r -> file_at E (after_calls calls w) (ReceiptPath t) = Stored r.
Proof.
  intros w Hd Hok. revert w. induction calls as [|c calls IH]; intros w Hw; [done|]. cbn [after_calls fold_left]. apply IH.
  assert (forall A (m : act W A), preserves (kept t r) m -> file_at E (fst (m w)) (ReceiptPath t) = Stored r) as Hgo.
  { intros A m Hm. by apply Hm. }
  destruct c; cbn [after_call]; apply Hgo.
  - by apply kept_create_call.
  - by apply kept_roll_call.
  - by apply kept_revoke_call.
  - by apply kept_ensure_default.
  - unfold reconcile_route_grants. apply preserves_observe. unfold known. apply preserves_bind; [apply kept_grant|keep].
  - unfold prepare_recipe_routes. apply preserves_bind; [|keep]. apply preserves_observe. unfold known.
    apply preserves_bind; [apply kept_grant|keep].
  - unfold list_keys. apply preserves_observe. unfold known. apply preserves_bind; [|keep]. unfold _gateway_list_keys.
    apply preserves_bind; [apply keep_raw_keys, kept_service|keep].
  - unfold check_health. apply preserves_bind; [|keep]. apply preserves_observe. unfold known. apply preserves_bind; [|keep].
    unfold _gateway_check_health. apply preserves_bind; [apply keep_list, kept_service|keep].
  - unfold receipt. keep.
Qed.
End files.

(** ** A repeated request *)
Lemma rolling_apart name a b : _rolling_alias name +:+ ":" +:+ a <> name +:+ ":" +:+ b.
Proof.
  unfold _rolling_alias. rewrite str_app_assoc. intros H. apply (inj (String.app name)) in H. discriminate H.
Qed.
Lemma rolling_differs name : _rolling_alias name <> name.
Proof.
  unfold _rolling_alias. intros H. apply (f_equal String.length) in H. rewrite length_app in H. simpl in H. lia.
Qed.

Section replay.
Context {W : Type} (E : Env W) `{!FileLaws E} (fromisoformat : string -> option datetime).
Context (name id : string) (models_ : option (list string)) (expires actor : option string) (Hid : id <> EmptyString).
Context (Hsecret : forall w, _KEY_PATTERN ("sk-" +:+ snd (draw_secret E w)) = true).

(** What this request writes. *)
Definition our_context : context := {| c_request := Some id; c_actor := actor; c_action := CREATE |}.
Definition our_body (body : _KeyGenerateRequest) : Prop :=
  key_alias body = name /\ models body = default [] models_ /\ duration body = expires /\ managed_by body = MANAGED_BY /\
  _safe_routes (allowed_routes body) = true /\ exists k, key body = Some k /\ _KEY_PATTERN k = true.
Definition our_receipt (body : _KeyGenerateRequest) : GatewayMutationReceipt := {|
  receipt_actor := actor; receipt_action := CREATE; receipt_request_id := id; receipt_body := body;
  completed := false; superseded := false |}.

Lemma our_receipt_ok body : our_body body ->
  receipt_ok (our_receipt body) = true /\ receipt_ok (retired false (our_receipt body)) = true.
Proof.
  intros (_ & _ & _ & Hm & Hr & k & Hk & Hp). unfold receipt_ok. cbn. rewrite Hk, Hp, Hr, Hm. done.
Qed.

(** Before the request: nothing of it is stored. *)
Definition unseen (w : W) : Prop :=
  _read_receipt E (_receipt_path name id) w = None /\
  forall x, _read_receipt E (_intent_path name) w = Some x -> receipt_request_id x <> id.
(** Under way: its receipt is stored, and its intent if any is the same. *)
Definition begun (body : _KeyGenerateRequest) (w : W) : Prop :=
  our_body body /\ file_at E w (_receipt_path name id) = Stored (our_receipt body) /\
  forall x, _read_receipt E (_intent_path name) w = Some x -> receipt_request_id x = id -> x = our_receipt body.
Definition active (body : _KeyGenerateRequest) (w : W) : Prop :=
  our_body body /\ file_at E w (_receipt_path name id) = Stored (our_receipt body) /\
  file_at E w (_intent_path name) = Stored (our_receipt body).
(** Done. *)
Definition settled (body : _KeyGenerateRequest) (w : W) : Prop :=
  our_body body /\ file_at E w (_receipt_path name id) = Stored (retired false (our_receipt body)).
Definition somewhere (w : W) : Prop := unseen w \/ exists body, begun body w \/ settled body w.

(** All of these read two files only. *)
Definition same_files (w w' : W) : Prop :=
  file_at E w' (_receipt_path name id) = file_at E w (_receipt_path name id) /\
  file_at E w' (_intent_path name) = file_at E w (_intent_path name).
Definition on_files (P : W -> Prop) : Prop := forall w w', same_files w w' -> P w -> P w'.

Lemma read_same w w' p : file_at E w' p = file_at E w p -> _read_receipt E p w' = _read_receipt E p w.
Proof. unfold _read_receipt. by intros ->. Qed.
Lemma unseen_files : on_files unseen.
Proof. intros w w' [H1 H2] [Hr Hi]. split; [by rewrite (read_same w w')|]. intros x. rewrite (read_same w w') by done. apply Hi. Qed.
Lemma begun_files body : on_files (begun body).
Proof.
  intros w w' [H1 H2] (Hb & Hr & Hi). split_and!; [done|by rewrite H1|]. intros x. rewrite (read_same w w') by done. apply Hi.
Qed.
Lemma active_files body : on_files (active body).
Proof. intros w w' [H1 H2] (Hb & Hr & Hi). unfold active. by rewrite H1, H2. Qed.
Lemma settled_files body : on_files (settled body).
Proof. intros w w' [H1 H2] (Hb & Hr). unfold settled. by rewrite H1. Qed.

Lemma active_begun body w : active body w -> begun body w.
Proof.
  intros (Hb & Hr & Hi). split_and!; [done..|]. intros x. unfold _read_receipt. rewrite Hi.
  destruct (receipt_ok _); [|done]. by intros [= <-].
Qed.

(** Calls that touch neither file. *)
Lemma files_effect {A} P (f : W -> W * A) : on_files P -> (forall w p, file_at E (fst (f w)) p = file_at E w p) -> preserves P (effect f).
Proof. intros HP Hf. apply preserves_effect. intros w. apply HP. split; apply Hf. Qed.
Lemma files_serve P q : on_files P -> preserves P (effect (serve E q)).
Proof. intros HP. apply files_effect; [done|]. intros. apply serve_files. Qed.
Lemma files_service P : on_files P -> forall page size secret,
  preserves P (effect (serve E (KeyList page size))) /\ preserves P (effect (serve E (KeyInfo secret))).
Proof. intros HP *. split; by apply files_serve. Qed.
Lemma files_write P p x : on_files P -> p <> _receipt_path name id -> p <> _intent_path name -> preserves P (_write_private E p x).
Proof.
  intros HP H1 H2. unfold _write_private. apply preserves_bind; [|intros []; keep]. apply preserves_effect.
  intros w. apply HP. split; by apply put_other.
Qed.
Lemma files_forget_rolling P s : on_files P -> preserves P (_forget_intent E (_rolling_alias name) s).
Proof.
  intros HP. unfold _forget_intent. apply preserves_bind; [keep|]. intros [x|]; [|keep].
  assert (preserves P (_write_private E (_receipt_path (_rolling_alias name) (receipt_request_id x)) (retired s x))) as Hw.
  { apply files_write; [done| |done]. unfold _receipt_path. intros [= H]. by apply rolling_apart in H. }
  apply preserves_bind; [keep|]. intros archived. apply preserves_bind.
  - destruct archived as [a|]; [destruct (completed a); [keep|done]|done].
  - intros _. apply files_write; [done|done|]. unfold _intent_path. intros [= H]. by apply rolling_differs in H.
Qed.
Lemma files_delete P n : on_files P -> preserves P (_gateway_delete_alias E fromisoformat n).
Proof. intros HP. apply keep_delete; [by apply files_service|by apply files_serve]. Qed.
Lemma files_exists P n : on_files P -> preserves P (_gateway_exists E fromisoformat n).
Proof. intros HP. by apply keep_exists, files_service. Qed.
Lemma files_generate P n body : on_files P -> preserves P (generate E fromisoformat n body).
Proof. intros HP. apply keep_generate; [by apply files_service|by apply files_serve..]. Qed.

Lemma write_spec p x w :
  match _write_private E p x w with
  | (w', Ret _) => file_at E w' p = Stored x /\ forall q, q <> p -> file_at E w' q = file_at E w q
  | (w', Raised _) => (file_at E w' p = Stored x \/ file_at E w' p = file_at E w p) /\ forall q, q <> p -> file_at E w' q = file_at E w q
  end.
Proof.
  unfold _write_private, effect, mbind, act_bind. pose proof (put_self p x w) as Hs. pose proof (put_done p x w) as Hd.
  assert (forall q, q <> p -> file_at E (fst (put E p x w)) q = file_at E w q) as Ho by (intros q Hq; by apply put_other).
  destruct (put E p x w) as [w' [|]]; cbn [fst snd] in *; [|done]. split; [by apply Hd|done].
Qed.

(** The key a call returns is that of the body. *)
Definition keyed (body : _KeyGenerateRequest) (v : GatewayKeyCreated) : Prop := key body = Some (created_key v).

(** What a call that returns returns. *)
Definition yields {A} (m : act W A) (R : A -> Prop) : Prop :=
  forall w, match m w with (_, Ret a) => R a | _ => True end.
Lemma yields_bind {A B} (m : act W A) (f : A -> act W B) S R :
  yields m S -> (forall a, S a -> yields (f a) R) -> yields (m ≫= f) R.
Proof.
  intros Hm Hf w. specialize (Hm w). unfold mbind, act_bind. destruct (m w) as [w' [a|e]]; [by apply Hf|done].
Qed.
Lemma yields_any {A} (m : act W A) : yields m (fun _ => True).
Proof. intros w. by destruct (m w) as [w' [a|e]]. Qed.
Lemma yields_catch {A} (m : act W A) h R : yields m R -> (forall e, yields (h e) R) -> yields (catch m h) R.
Proof. intros Hm Hh w. specialize (Hm w). unfold catch. destruct (m w) as [w' [a|e]]; [done|apply Hh]. Qed.

Lemma observe_created_keyed body : yields (_gateway_observe_created E body) (fun o => match o with Some v => keyed body v | None => True end).
Proof.
  unfold _gateway_observe_created. destruct (key body) as [k|] eqn:Ek; [|done].
  apply (yields_bind _ _ _ _ (yields_any _)). intros [i|] _; [|done]. destruct (negb _); [done|]. destruct (negb _); [done|].
  destruct (_view i); [|done]. by intros w.
Qed.

Lemma adopt_keyed body e : yields (adopt_or E body e) (keyed body).
Proof. unfold adopt_or. apply (yields_bind _ _ _ _ (observe_created_keyed body)). intros [v|] Hv; by intros w. Qed.

Lemma generate_keyed n body : yields (generate E fromisoformat n body) (keyed body).
Proof.
  unfold generate. apply (yields_bind _ _ _ _ (yields_any _)). intros present _.
  apply (yields_bind _ _ _ _ (yields_any _)). intros _ _.
  apply (yields_bind _ _ (fun r => match r with inr v => keyed body v | inl _ => True end)).
  - apply yields_catch; [apply (yields_bind _ _ _ _ (yields_any _)); done|]. intros []; try done.
    apply (yields_bind _ _ _ _ (adopt_keyed body _)). intros v Hv. by intros w.
  - intros [[status payload]|v] Hv; [|by intros w]. destruct (parse_key payload) as [item|]; [|done].
    destruct (loose_text "key" payload) as [k|]; [|apply adopt_keyed].
    destruct (bool_decide (key body = Some k)) eqn:Ek; [|done]. cbn [negb]. destruct (_ && _); [|apply adopt_keyed].
    intros w. cbn. by apply bool_decide_eq_true in Ek.
Qed.

Lemma hoare_keyed P (X : W -> Prop) (m : act W GatewayKeyCreated) body :
  (forall w, P w -> X w) -> preserves P m -> yields m (keyed body) ->
  hoare P m (fun v w => P w /\ keyed body v) X.
Proof.
  intros Hx Hp Hk w Hw. specialize (Hp w Hw). specialize (Hk w). destruct (m w) as [w' [v|e]]; auto.
Qed.

(** ** The steps of one attempt *)
Lemma active_somewhere body w : active body w -> somewhere w.
Proof. intros H. right. exists body. left. by apply active_begun. Qed.

Lemma restore_ours : hoare (fun w => unseen w \/ exists body, begun body w) (_restore_request_intent E our_context name)
  (fun _ w => unseen w \/ exists body, active body w) somewhere.
Proof.
  unfold _restore_request_intent. cbn [c_request our_context]. apply hoare_reads. intros x w [[Hu|(body & Hb)] Hx].
  - destruct Hu as [Hr Hi]. rewrite Hr in Hx. subst x. left. by split.
  - destruct Hb as (Hour & Hr & Hi). unfold _read_receipt in Hx. rewrite Hr in Hx.
    rewrite (proj1 (our_receipt_ok body Hour)) in Hx. subst x. cbn [completed superseded our_receipt negb andb].
    pose proof (write_spec (_intent_path name) (our_receipt body) w) as H.
    destruct (_write_private E _ _ w) as [w' [a|e]]; destruct H as [Hf Ho].
    + right. exists body. split_and!; [done| |done]. by rewrite Ho.
    + right. exists body. left. split_and!; [done|by rewrite Ho|]. intros y. destruct Hf as [Hf|Hf].
      * unfold _read_receipt. rewrite Hf, (proj1 (our_receipt_ok body Hour)). by intros [= <-].
      * rewrite (read_same w w') by done. apply Hi.
Qed.

Lemma forget_others prior : hoare (fun w => unseen w /\ _read_receipt E (_intent_path name) w = prior)
  (match prior with
   | Some p => if negb (bool_decide (receipt_request_id p = id)) && negb (completed p)
               then _forget_intent E name true else mret tt
   | None => mret tt
   end) (fun _ => unseen) unseen.
Proof.
  destruct prior as [p|]; intros w [Hu Hp]; [|done]. destruct (_ && _) eqn:Eb; [|done]. destruct Hu as [Hr Hi].
  unfold _forget_intent, reads. unfold mbind at 1, act_bind at 1. rewrite Hp. cbn.
  pose proof (Hi p Hp) as Hne.
  assert (forall y, receipt_request_id y = receipt_request_id p -> hoare unseen (_write_private E (_intent_path name) y) (fun _ => unseen) unseen) as Hintent.
  { intros y Hy w0 [H1 H2]. pose proof (write_spec (_intent_path name) y w0) as H.
    assert (forall w1, (file_at E w1 (_intent_path name) = Stored y \/ file_at E w1 (_intent_path name) = file_at E w0 (_intent_path name)) ->
      (forall q, q <> _intent_path name -> file_at E w1 q = file_at E w0 q) -> unseen w1) as Hgo.
    { intros w1 Hf Ho. split; [rewrite (read_same w0 w1); [done|by apply Ho]|]. intros z. destruct Hf as [Hf|Hf].
      - unfold _read_receipt. rewrite Hf. destruct (receipt_ok y); [|done]. intros [= <-]. congruence.
      - rewrite (read_same w0 w1) by done. apply H2. }
    destruct (_write_private E _ y w0) as [w1 [a|e]]; destruct H as [Hf Ho]; apply Hgo; auto. }
  assert (preserves unseen (_write_private E (_receipt_path name (receipt_request_id p)) (retired true p))) as Hreceipt.
  { intros w0 [H1 H2]. pose proof (write_spec (_receipt_path name (receipt_request_id p)) (retired true p) w0) as H.
    assert (_receipt_path name id <> _receipt_path name (receipt_request_id p)) as Hpath.
    { unfold _receipt_path. intros [= E1]. apply (inj (String.app name)) in E1. injection E1. done. }
    destruct (_write_private E _ _ w0) as [w1 [a|e]]; destruct H as [_ Ho];
      (split; [rewrite (read_same w0 w1); [done|by apply Ho]|intros z; rewrite (read_same w0 w1); [apply H2|by apply Ho]]). }
  revert Hr Hi Hp. intros Hr Hi _. assert (unseen w) as Hw by done. revert Hw. clear Hr Hi. revert w.
  change (hoare unseen (archived ← reads (_read_receipt E (_receipt_path name (receipt_request_id p)));
      _ ← (match archived with
           | Some a => if completed a then mret tt
                       else _write_private E (_receipt_path name (receipt_request_id p)) (retired true p)
           | None => _write_private E (_receipt_path name (receipt_request_id p)) (retired true p)
           end : act W unit);
      _write_private E (_intent_path name) (retired true p)) (fun _ => unseen) unseen).
  apply (hoare_bind _ _ _ (fun _ => unseen)); [apply hoare_preserves; [done|keep]|]. intros archived.
  apply (hoare_bind _ _ _ (fun _ => unseen)); [|intros _; by apply Hintent].
  apply hoare_preserves; [done|]. destruct archived as [a|]; [destruct (completed a); [keep|done]|done].
Qed.

Lemma record_ours body : our_body body ->
  hoare unseen (record_intent E our_context name body id) (fun _ => active body) somewhere.
Proof.
  intros Hb. unfold record_intent. apply hoare_reads. intros prior.
  apply (hoare_bind _ _ _ (fun _ => unseen)).
  { eapply hoare_weaken; [by intros w H; exact H|by intros a w H; exact H| |apply forget_others]. intros w H. by left. }
  intros _. cbn zeta. change {| receipt_actor := c_actor our_context; receipt_action := c_action our_context; receipt_request_id := id;
    receipt_body := body; completed := false; superseded := false |} with (our_receipt body).
  apply (hoare_bind _ _ _ (fun _ => begun body)).
  - intros w [Hr Hi]. pose proof (write_spec (_receipt_path name id) (our_receipt body) w) as H.
    assert (forall w', file_at E w' (_receipt_path name id) = Stored (our_receipt body) ->
      (forall q, q <> _receipt_path name id -> file_at E w' q = file_at E w q) -> begun body w') as Hgo.
    { intros w' Hf Ho. split_and!; [done..|]. intros x. rewrite (read_same w w') by (by apply Ho). intros Hx ?. by destruct (Hi x Hx). }
    destruct (_write_private E _ _ w) as [w' [a|e]]; destruct H as [Hf Ho]; [by apply Hgo|]. destruct Hf as [Hf|Hf].
    + right. exists body. left. by apply Hgo.
    + left. split; [by rewrite (read_same w w')|]. intros x. rewrite (read_same w w') by (by apply Ho). apply Hi.
  - intros _ w (_ & Hr & Hi). pose proof (write_spec (_intent_path name) (our_receipt body) w) as H.
    destruct (_write_private E _ _ w) as [w' [a|e]]; destruct H as [Hf Ho].
    + split_and!; [done| |done]. by rewrite Ho.
    + right. exists body. left. split_and!; [done|by rewrite Ho|]. intros x. destruct Hf as [Hf|Hf].
      * unfold _read_receipt. rewrite Hf, (proj1 (our_receipt_ok body Hb)). by intros [= <-].
      * rewrite (read_same w w') by done. apply Hi.
Qed.

Lemma create_under_ours :
  hoare (fun w => unseen w \/ exists body, active body w)
    (_gateway_create_under E fromisoformat our_context name models_ expires None)
    (fun v w => exists body, active body w /\ keyed body v) somewhere.
Proof.
  unfold _gateway_create_under. apply hoare_reads. intros intent w [Hw Hintent].
  destruct Hw as [Hu|(body & Ha)].
  - assert (intent = None) as ->.
    { subst intent. unfold _read_intent. destruct (_read_receipt E (_intent_path name) w) as [x|] eqn:Ex; [|done].
      destruct (completed x); [done|]. cbn [c_request our_context]. rewrite bool_decide_false by (by apply (proj2 Hu)). done. }
    cbn [default]. revert w Hu Hintent. intros w Hu _. revert w Hu.
    eapply hoare_weaken with (P := unseen) (X := somewhere); [done|by intros a w H; exact H|done|].
    apply (hoare_bind _ _ _ (fun routes w => unseen w /\ _safe_routes routes = true)).
    { unfold _routes_for. apply (hoare_bind _ _ _ (fun _ => unseen)).
      - apply hoare_preserves; [by left|]. apply files_effect; [apply unseen_files|]. intros. apply grants_files.
      - intros [routes|e]; [|apply hoare_raise; by left]. destruct (_safe_routes routes) eqn:Er; [|apply hoare_raise; by left].
        by apply hoare_ret. }
    intros routes. apply (hoare_bind _ _ _ (fun k w => unseen w /\ _safe_routes routes = true /\ _KEY_PATTERN k = true)).
    { intros w [Hu Hr]. unfold effect, mbind, act_bind. pose proof (Hsecret w) as Hs.
      assert (unseen (fst (draw_secret E w))) as Hu'. { revert Hu. apply unseen_files. split; apply secret_files. }
      by destruct (draw_secret E w) as [w' tok]. }
    intros chosen w (Hu & Hr & Hk). set (body := {| key_alias := name; models := default [] models_ |}).
    assert (our_body body) as Hb by (unfold our_body; split_and!; try done; by exists chosen).
    revert w Hu. apply (hoare_bind _ _ _ (fun _ => active body)).
    + unfold persist_intent. apply (hoare_catch _ _ _ _ somewhere).
      * unfold or_uuid. cbn [c_request our_context]. rewrite bool_decide_false by done. exact (record_ours body Hb).
      * intros []; by apply hoare_raise.
    + intros _. eapply hoare_weaken with (P := active body) (X := somewhere); [done| |done|].
      2:{ apply (hoare_keyed (active body) somewhere _ body); [apply active_somewhere|apply files_generate, active_files|apply generate_keyed]. }
      intros v w [Ha Hv]. by exists body.
  - destruct Ha as (Hb & Hr & Hi). pose proof Hb as (Hn & Hm & Hd & Hman & Hroutes & k & Hk & Hp).
    assert (intent = Some body) as ->.
    { subst intent. unfold _read_intent, _read_receipt. rewrite Hi, (proj1 (our_receipt_ok body Hb)). cbn.
      rewrite bool_decide_true by done. rewrite Hk, Hp, Hroutes, Hman, Hn. by rewrite !bool_decide_true. }
    assert (replacement body (default [] models_) expires None = false) as ->.
    { unfold replacement. rewrite Hm, Hd. by rewrite !bool_decide_true. }
    assert (active body w) as Ha by done. revert Ha. clear Hintent Hr Hi. revert w.
    apply (hoare_bind _ _ _ (fun o w => active body w /\ match o with Some v => keyed body v | None => True end)).
    + intros w Ha. pose proof (keep_observe_created E (active body) (files_service _ (active_files body)) body w Ha) as H1.
      pose proof (observe_created_keyed body w) as H2. destruct (_gateway_observe_created E body w) as [w' [o|e]]; [done|].
      by apply (active_somewhere body).
    + intros [v|] w [Ha Hv]; [by exists body|]. revert w Ha Hv. intros w Ha _. revert w Ha.
      eapply hoare_weaken with (P := active body) (X := somewhere); [done| |done|].
      2:{ apply (hoare_keyed (active body) somewhere _ body); [apply active_somewhere|apply files_generate, active_files|apply generate_keyed]. }
      intros v w [Ha Hv]. by exists body.
Qed.

(** Evaluation of the first step. *)
Lemma run_reads {A B} (f : W -> A) (k : A -> act W B) w : (reads f ≫= k) w = k (f w) w.
Proof. done. Qed.
Lemma run_ret {A B} (a : A) (k : A -> act W B) w : ((mret a : act W A) ≫= k) w = k a w.
Proof. done. Qed.

Lemma forget_ours body : hoare (active body) (_forget_intent E name false) (fun _ => settled body) somewhere.
Proof.
  intros w (Hb & Hr & Hi). unfold _forget_intent, reads. unfold mbind at 1, act_bind at 1.
  assert (_read_receipt E (_intent_path name) w = Some (our_receipt body)) as ->.
  { unfold _read_receipt. by rewrite Hi, (proj1 (our_receipt_ok body Hb)). }
  unfold mbind at 1, act_bind at 1. change (receipt_request_id (our_receipt body)) with id.
  assert (_read_receipt E (_receipt_path name id) w = Some (our_receipt body)) as ->.
  { unfold _read_receipt. by rewrite Hr, (proj1 (our_receipt_ok body Hb)). }
  cbn [completed our_receipt]. unfold mbind, act_bind.
  pose proof (write_spec (_receipt_path name id) (retired false (our_receipt body)) w) as H1.
  destruct (_write_private E (_receipt_path name id) _ w) as [w1 [[]|e]]; destruct H1 as [Hf Ho].
  - pose proof (write_spec (_intent_path name) (retired false (our_receipt body)) w1) as H2.
    assert (forall w2, (forall q, q <> _intent_path name -> file_at E w2 q = file_at E w1 q) -> settled body w2) as Hgo.
    { intros w2 H. split; [done|]. by rewrite H. }
    destruct (_write_private E (_intent_path name) _ w1) as [w2 [[]|e]]; destruct H2 as [_ H2]; [by apply Hgo|].
    right. exists body. right. by apply Hgo.
  - right. exists body. destruct Hf as [Hf|Hf]; [by right|]. left. apply active_begun. split_and!; [done|by rewrite Hf|by rewrite Ho].
Qed.

Lemma create_once_ours :
  hoare (fun w => unseen w \/ exists body, begun body w) (create_once E fromisoformat name models_ expires None our_context)
    (fun o w => match o with Known v => exists body, settled body w /\ keyed body v | UnknownError _ => somewhere w end) somewhere.
Proof.
  unfold create_once. apply (hoare_bind _ _ _ (fun _ w => unseen w \/ exists body, begun body w)).
  - apply hoare_preserves; [intros w [?|[body ?]]; [by left|right; exists body; by left]|].
    apply preserves_effect. intros w Hw. assert (same_files w (fst (claim E name w))) as Hs by (split; apply claim_files).
    destruct Hw as [Hu|(body & Hb)]; [left; by apply (unseen_files w)|right; exists body; by apply (begun_files body w)].
  - intros [|]; cbn [negb]; [|apply hoare_ret; intros w [?|[body ?]]; [by left|right; exists body; by left]].
    apply (hoare_bind _ _ _ (fun _ w => unseen w \/ exists body, active body w)); [apply restore_ours|]. intros _.
    unfold known. apply (hoare_bind _ _ _ (fun v w => exists body, settled body w /\ keyed body v)).
    + unfold _gateway_create. apply (hoare_bind _ _ _ (fun v w => exists body, active body w /\ keyed body v)); [apply create_under_ours|].
      intros v w (body & Ha & Hv). revert w Ha. apply hoare_reads. intros unfinished.
      eapply hoare_weaken with (P := active body) (X := somewhere); [by intros w [H _]|by intros a w H; exact H|done|].
      apply (hoare_bind _ _ _ (fun _ => active body)).
      * apply hoare_preserves; [apply active_somewhere|]. destruct unfinished; [|keep].
        apply preserves_bind; [apply files_exists, active_files|]. intros present.
        apply preserves_bind; [destruct present; [apply files_delete, active_files|keep]|intros; apply files_forget_rolling, active_files].
      * intros _. apply (hoare_bind _ _ _ (fun _ => settled body)); [apply forget_ours|]. intros _. apply hoare_ret. eauto.
    + intros v. by apply hoare_ret.
Qed.

Lemma reconcile_ours :
  hoare somewhere (reconcile_mutation E name id (create_once E fromisoformat name models_ expires None our_context))
    (fun o w => match o with Known v => exists body, settled body w /\ keyed body v | UnknownError _ => somewhere w end) somewhere.
Proof.
  unfold reconcile_mutation. apply hoare_reads. intros x w [Hw Hx]. destruct Hw as [Hu|(body & [Hb|Hb])].
  - rewrite (proj1 Hu) in Hx. subst x. apply create_once_ours. by left.
  - pose proof Hb as (Hour & Hr & _). unfold _read_receipt in Hx. rewrite Hr, (proj1 (our_receipt_ok body Hour)) in Hx. subst x.
    cbn [superseded completed our_receipt]. apply create_once_ours. right. by exists body.
  - pose proof Hb as (Hour & Hr). unfold _read_receipt in Hx. rewrite Hr, (proj2 (our_receipt_ok body Hour)) in Hx. subst x.
    cbn [superseded completed our_receipt retired receipt_body]. destruct Hour as (? & ? & ? & ? & ? & k & Hk & ?). rewrite Hk.
    exists body. split; [done|]. exact Hk.
Qed.

(** What a created key leaves: its receipt, completed, with its secret. *)
Lemma create_settles w w' v :
  unseen w -> create E fromisoformat name models_ expires None (Some id) actor w = (w', Ret (Known v)) ->
  exists body, settled body w' /\ keyed body v.
Proof.
  intros Hu. unfold create. rewrite run_reads, (proj1 Hu), run_reads. cbv iota beta. rewrite run_ret.
  unfold _mutation_request. rewrite run_reads.
  replace (truthy_str (Some id)) with true by (symmetry; by apply bool_decide_eq_true). cbv iota. rewrite run_ret, run_reads.
  change (default EmptyString (Some id)) with id. rewrite (proj1 Hu). cbv iota zeta. unfold mbind, act_bind, _observe_gateway.
  pose proof (hoare_observe _ _ _ reconcile_ours 3 None w (or_introl Hu)) as H. unfold our_context in H.
  destruct (observe_attempts 3 _ None w) as [w1 [[v1|u]|e]]; cbn; [|done..].
  intros [= <- <-]. destruct H as (body & Hs & Hk). by exists body.
Qed.

(** C11.  A request key names one secret for good: once a create returned a key, then after any
    further calls, whatever they did, the same request gets exactly that key again, and neither
    a file nor the gateway changes; the same request id with another scope is refused as
    malformed and by another actor as a conflict. *)
Theorem repeated_create_returns_its_key calls w w' v models' expires' actor' :
  unseen w -> create E fromisoformat name models_ expires None (Some id) actor w = (w', Ret (Known v)) ->
  let w2 := after_calls E fromisoformat calls w' in
  create E fromisoformat name models' expires' None (Some id) actor' w2 =
    (w2, if bool_decide (default [] models' = default [] models_) && bool_decide (expires' = expires)
         then if bool_decide (actor' = actor)
              then Ret (Known {|
                created_view := {| view_name := without_rolling name; view_models := default [] models_;
                                   view_created_at := None; view_expires_at := None; view_last_used_at := None |};
                created_key := created_key v; created_request_id := Some id |})
              else Raised (HttpFault 409 (value InvalidRequestReason.CONFLICT))
         else Raised (HttpFault 422 (value InvalidRequestReason.MALFORMED))).
Proof.
  intros Hu Hc w2. destruct (create_settles w w' v Hu Hc) as (body & (Hour & Hr) & Hk).
  destruct (our_receipt_ok body Hour) as [_ Hok].
  apply (completed_receipt_final E fromisoformat _ _ calls) in Hr; [|done|done]. fold w2 in Hr.
  assert (_read_receipt E (_receipt_path name id) w2 = Some (retired false (our_receipt body))) as Hread.
  { unfold _read_receipt. change (file_at E w2 (_receipt_path name id)) with (file_at E w2 (ReceiptPath (name +:+ ":" +:+ id))). by rewrite Hr, Hok. }
  destruct Hour as (_ & Hm & Hd & _). unfold create. rewrite run_reads, Hread.
  change (receipt_body (retired false (our_receipt body))) with body.
  unfold replacement. rewrite Hm, Hd, orb_false_r.
  destruct (decide (default [] models' = default [] models_)) as [Em|Em];
    [rewrite (bool_decide_true (default [] models_ = _)), (bool_decide_true (default [] models' = _)) by done
    |rewrite (bool_decide_false (default [] models_ = _)), (bool_decide_false (default [] models' = _)) by congruence; done].
  destruct (decide (expires' = expires)) as [Ee|Ee];
    [rewrite (bool_decide_true (expires = expires')), (bool_decide_true (expires' = expires)) by done
    |rewrite (bool_decide_false (expires = expires')), (bool_decide_false (expires' = expires)) by congruence; done].
  cbn [negb orb andb]. rewrite run_reads. cbv iota beta. rewrite run_ret. unfold _mutation_request. rewrite run_reads.
  replace (truthy_str (Some id)) with true by (symmetry; by apply bool_decide_eq_true). cbv iota. rewrite run_ret, run_reads.
  change (default EmptyString (Some id)) with id. rewrite Hread. cbv iota zeta. unfold conflicts.
  cbn [receipt_actor receipt_action retired our_receipt superseded completed receipt_body]. rewrite (bool_decide_true (CREATE = CREATE)) by done.
  rewrite orb_false_r. destruct (decide (actor' = actor)) as [->|Ea].
  - rewrite !bool_decide_true by done. cbn [negb]. unfold keyed in Hk. rewrite Hk. unfold replayed. by rewrite Hm.
  - rewrite !bool_decide_false by congruence. done.
Qed.
End replay.
