(* ===== verification/GatewayRevoke.v ===== *)
(** * Gateway client keys: revocation, and a gateway

    What the code relies on of the foreign service ([GatewayLaws]): reading changes nothing, a
    deletion adds nothing, and the pages of a listing that states its total show every alias.
    Then a revocation that returns left no key of the name.  [Shelf] is a gateway with its
    files in which all of this holds, with the concrete requests. *)
From S2P Require Import Prelude Vocabulary ReasonCodes Json JsonRead Tokens GatewayKeys GatewayKeysFacts.

Record held_key := { held_secret : string; held_alias : string; held_models : list string }.

Class GatewayLaws {W} (E : Env W) (held : W -> list held_key) := {
  pages : list held_key -> Z;
  page_of : list held_key -> string -> Z;
  page_range : forall l k, k ∈ l -> 1 <= page_of l (held_alias k) <= Z.max 1 (pages l);
  list_reads : forall page size w, held (fst (serve E (KeyList page size) w)) = held w;
  info_reads : forall secret w, held (fst (serve E (KeyInfo secret) w)) = held w;
  delete_adds_nothing : forall aliases keys w k, k ∈ held (fst (serve E (KeyDelete aliases keys) w)) -> k ∈ held w;
  list_total : forall page w payload raws, snd (serve E (KeyList page _PAGE_SIZE) w) = Replied 200 (Some payload) ->
    lookup_key "keys" payload = Some (JArray raws) -> stated_pages payload = pages (held w);
  list_shows : forall page w payload raws k, snd (serve E (KeyList page _PAGE_SIZE) w) = Replied 200 (Some payload) ->
    lookup_key "keys" payload = Some (JArray raws) -> k ∈ held w -> page_of (held w) (held_alias k) = page ->
    exists l, JObject l ∈ raws /\ lookup_key "key_alias" l = Some (JString (held_alias k));
  put_held : forall p r w, held (fst (put E p r w)) = held w;
  claim_held : forall n w, held (fst (claim E n w)) = held w;
  uuid_held : forall w, held (fst (draw_uuid E w)) = held w;
}.

Section revocation.
Context {W : Type} (E : Env W) (held : W -> list held_key) `{!FileLaws E, !GatewayLaws E held}.
Context (fromisoformat : string -> option datetime).

(** No key has the alias. *)
Definition gone (a : string) (w : W) : Prop := forall k, k ∈ held w -> held_alias k <> a.

(** ** Listings are complete *)
Lemma page_keys_shows a now raws : forall items l,
  a <> EmptyString -> page_keys fromisoformat (Some a) now raws = Ret items ->
  JObject l ∈ raws -> lookup_key "key_alias" l = Some (JString a) -> exists i, i ∈ items /\ has_alias a i = true.
Proof.
  intros items l Ha. revert items. induction raws as [|x raws IH]; intros items H Hl Hk; [by apply elem_of_nil in Hl|].
  apply elem_of_cons in Hl as [<-|Hl].
  - cbn [page_keys] in H. rewrite Hk in H. cbn [truthy] in H. rewrite bool_decide_true in H by done. cbn [negb] in H.
    assert (is_target (Some a) l = true) as Ht by (unfold is_target; rewrite Hk; by apply bool_decide_eq_true).
    rewrite Ht in H.
    destruct (parse_key l) as [item|] eqn:Ep; [|discriminate H]. destruct (_remaining _ _ _ _); [|discriminate H].
    destruct (page_keys _ _ _ raws) as [rest|]; [|done]. injection H as <-. exists item. split; [left|].
    unfold parse_key in Ep. repeat (apply bind_Some in Ep as (? & ? & Ep)). injection Ep as <-. unfold has_alias. cbn.
    unfold loose_text. rewrite Hk, (bool_decide_false (a = EmptyString)) by done. by apply bool_decide_eq_true.
  - assert (forall rest, page_keys fromisoformat (Some a) now raws = Ret rest -> exists i, i ∈ rest /\ has_alias a i = true) as Hrest by auto.
    destruct x as [| | | | |m]; cbn [page_keys] in H; try by apply Hrest. destruct (negb _); [by apply Hrest|].
    destruct (parse_key m) as [item|]; [|destruct (is_target _ _); [done|by apply Hrest]].
    destruct (_remaining _ _ _ _); [|destruct (is_target _ _); [done|by apply Hrest]].
    destruct (page_keys _ _ _ raws) as [rest|] eqn:Er; [|done]. injection H as <-.
    destruct (Hrest rest eq_refl) as (i & Hi & ?). exists i. split; [by right|done].
Qed.

(** A page that is read: the world, the total, and the keys of the page. *)
Lemma read_page_spec a page w w' items total :
  a <> EmptyString -> read_page E fromisoformat (Some a) page w = (w', Ret (items, total)) ->
  held w' = held w /\ total = pages (held w) /\
  (forall k, k ∈ held w -> held_alias k = a -> page_of (held w) a = page -> existsb (has_alias a) items = true).
Proof.
  intros Ha. unfold read_page, _gateway_request, effect. unfold mbind, act_bind.
  pose proof (list_reads page _PAGE_SIZE w) as Hh. pose proof (list_total page w) as Ht. pose proof (list_shows page w) as Hs.
  destruct (serve E (KeyList page _PAGE_SIZE) w) as [w1 [| | |status payload]]; cbn [fst snd] in *; try done.
  destruct (mem status [401; 403]); [done|]. destruct payload as [payload|]; [|by destruct (Z.eqb_spec status 404) as [->|]]. cbn.
  destruct (Z.eqb_spec status 200) as [->|]; [|done]. cbn [negb].
  destruct (lookup_key "keys" payload) as [[| | | |raws|]|] eqn:Ek; try done. unfold reads.
  destruct (page_keys fromisoformat (Some a) (clock E w1) raws) as [items'|e] eqn:Ep; [|done].
  intros [= <- <- <-]. split; [done|]. split; [by eapply Ht|]. intros k Hk Hka Hp. subst a.
  destruct (Hs payload raws k eq_refl Ek Hk Hp) as (l & Hl & Hkl).
  destruct (page_keys_shows _ _ _ _ _ Ha Ep Hl Hkl) as (i & Hi & ?). apply existsb_elem. eauto.
Qed.

Lemma more_pages_spec a total n : forall page w w' items,
  a <> EmptyString -> more_pages E fromisoformat (Some a) total page n w = (w', Ret items) ->
  held w' = held w /\
  (forall k, k ∈ held w -> held_alias k = a -> page <= page_of (held w) a < page + Z.of_nat n -> existsb (has_alias a) items = true).
Proof.
  induction n as [|n IH]; intros page w w' items Ha; cbn [more_pages].
  - intros [= <- <-]. split; [done|]. intros. lia.
  - unfold mbind, act_bind. destruct (read_page E fromisoformat (Some a) page w) as [w1 [[first stated]|e]] eqn:Er; [|done].
    destruct (read_page_spec _ _ _ _ _ _ Ha Er) as (Hh & _ & Hs). destruct (negb _); [done|].
    destruct (more_pages E fromisoformat (Some a) total (page + 1) n w1) as [w2 [rest|e]] eqn:Em; [|done].
    destruct (IH _ _ _ _ Ha Em) as (Hh2 & Hs2). rewrite Hh in Hh2, Hs2. intros [= <- <-]. split; [done|].
    intros k Hk Hka Hp. rewrite existsb_app. apply orb_true_iff.
    destruct (Z.eq_dec (page_of (held w) a) page); [left; by eapply Hs|right]. eapply Hs2; [done|done|lia].
Qed.

(** An alias that is observed absent is absent. *)
Lemma exists_truth a w : a <> EmptyString ->
  match _gateway_exists E fromisoformat a w with
  | (w', Ret b) => held w' = held w /\ (b = false -> gone a w')
  | _ => True
  end.
Proof.
  intros Ha. unfold _gateway_exists, _gateway_raw_keys. unfold mbind, act_bind.
  destruct (read_page E fromisoformat (Some a) 1 w) as [w1 [[items total]|e]] eqn:Er; [|done].
  destruct (read_page_spec _ _ _ _ _ _ Ha Er) as (Hh & -> & Hs).
  destruct (more_pages _ _ _ _ 2 _ w1) as [w2 [rest|e]] eqn:Em; [|done].
  destruct (more_pages_spec _ _ _ _ _ _ _ Ha Em) as (Hh2 & Hs2). cbn. split; [congruence|]. intros Hf k Hk Hka.
  rewrite Hh2, Hh in Hk. rewrite existsb_app in Hf. apply orb_false_iff in Hf as [Hf1 Hf2].
  pose proof (page_range (held w) k Hk) as Hr. rewrite Hka in Hr.
  destruct (Z.eq_dec (page_of (held w) a) 1) as [E1|E1]; [by rewrite (Hs k Hk Hka E1) in Hf1|].
  rewrite Hh in Hs2. rewrite (Hs2 k Hk Hka) in Hf2 by lia. done.
Qed.

(** ** Deleting an alias *)

(** The conditions of a world that the listing, the lookup and a deletion keep. *)
Definition served (P : W -> Prop) : Prop :=
  forall q, match q with KeyList _ _ | KeyInfo _ | KeyDelete _ _ => True | _ => False end -> preserves P (effect (serve E q)).

Lemma served_reads P : served P -> forall page size secret,
  preserves P (effect (serve E (KeyList page size))) /\ preserves P (effect (serve E (KeyInfo secret))).
Proof. intros HP *. split; by apply HP. Qed.

Lemma gone_served a : served (gone a).
Proof.
  intros q Hq. apply preserves_effect. intros w Hw k Hk. apply Hw. destruct q as [| | |aliases keys| |]; try done.
  - by rewrite list_reads in Hk.
  - by rewrite info_reads in Hk.
  - by apply delete_adds_nothing in Hk.
Qed.
Lemma files_served P : (forall w w', (forall p, file_at E w' p = file_at E w p) -> P w -> P w') -> served P.
Proof. intros HP q _. apply preserves_effect. intros w. apply HP. intros p. apply serve_files. Qed.

Lemma exists_spec P a : served P -> a <> EmptyString ->
  hoare P (_gateway_exists E fromisoformat a) (fun b w => P w /\ (b = false -> gone a w)) P.
Proof.
  intros HP Ha w Hw. pose proof (keep_exists E fromisoformat P (served_reads P HP) a w Hw) as H1. pose proof (exists_truth a w Ha) as H2.
  destruct (_gateway_exists E fromisoformat a w) as [w' [b|e]]; [|done]. split; [done|]. apply H2.
Qed.

Lemma delete_spec P a : served P -> a <> EmptyString ->
  hoare P (_gateway_delete_alias E fromisoformat a) (fun _ w => P w /\ gone a w) P.
Proof.
  intros HP Ha. unfold _gateway_delete_alias.
  apply (hoare_bind _ _ _ (fun r w => P w /\ (r = None -> gone a w))).
  - apply (hoare_catch _ _ _ _ P).
    + apply (hoare_bind _ _ _ (fun _ => P)); [apply hoare_preserves; [done|by apply keep_request, HP]|].
      intros r. by apply hoare_ret.
    + intros []; try by apply hoare_raise. eapply hoare_bind; [by apply exists_spec|]. intros [|].
      * by apply hoare_raise; intros w [? _].
      * apply hoare_ret. intros w [? Hg]. auto.
  - intros [status|].
    + eapply hoare_bind; [eapply hoare_weaken; [| | |by apply (exists_spec P)]; [by intros w [? _]|by intros b w H; exact H|done]|].
      intros [|]; [by apply hoare_raise; intros w [? _]|]. apply hoare_ret. intros w [? Hg]. auto.
    + apply hoare_ret. intros w [? Hg]. auto.
Qed.

(** ** Revoking *)
Section revoke.
Context (name id : string) (actor : option string) (Hname : name <> EmptyString) (Hid : id <> EmptyString).

Definition all_gone (w : W) : Prop := gone name w /\ gone (_rolling_alias name) w.
(** The receipt of the request is not completed, or everything is gone. *)
Definition open_request (w : W) : Prop :=
  forall x, _read_receipt E (_receipt_path name id) w = Some x -> completed x = false.
Definition honest (w : W) : Prop := open_request w \/ all_gone w.

Lemma open_served : served open_request.
Proof.
  apply files_served. intros w w' Hf Hw x. unfold _read_receipt. rewrite Hf. apply Hw.
Qed.
Lemma gone_put p x : preserves all_gone (_write_private E p x).
Proof.
  unfold _write_private. apply preserves_bind; [|intros []; keep]. apply preserves_effect. intros w [H1 H2].
  split; intros k; rewrite put_held; [apply H1|apply H2].
Qed.
Lemma all_gone_served : served all_gone.
Proof.
  intros q Hq. pose proof (gone_served name q Hq) as H1. pose proof (gone_served (_rolling_alias name) q Hq) as H2.
  intros w [G1 G2]. split; [by apply H1|by apply H2].
Qed.
Lemma gone_forget n s : preserves all_gone (_forget_intent E n s).
Proof.
  unfold _forget_intent. apply preserves_bind; [keep|]. intros [x|]; [|keep]. apply preserves_bind; [keep|]. intros archived.
  apply preserves_bind; [|intros; apply gone_put]. destruct archived as [a|]; [destruct (completed a); [keep|]|]; apply gone_put.
Qed.
Lemma gone_delete_secret n : preserves all_gone (delete_secret E n).
Proof.
  unfold delete_secret. apply preserves_bind; [keep|]. intros x. destruct (x ≫= _); [|keep].
  apply preserves_bind; [by apply keep_request, all_gone_served|]. intros [status ?]. destruct (_ =? _); [keep|].
  apply preserves_bind; [apply keep_key_info, served_reads, all_gone_served|keep].
Qed.

Lemma rolling_nonempty : _rolling_alias name <> EmptyString.
Proof. unfold _rolling_alias. by destruct name. Qed.

Lemma effects_spec retained :
  hoare open_request (revoke_effects E fromisoformat name id retained) (fun _ => all_gone) honest.
Proof.
  unfold revoke_effects.
  apply (hoare_bind _ _ _ (fun _ w => open_request w /\ gone name w)).
  { eapply hoare_weaken; [| | |apply (delete_spec open_request name open_served Hname)]; [done|done|by left]. }
  intros _. apply (hoare_bind _ _ _ (fun _ => all_gone)).
  { assert (served (fun w => open_request w /\ gone name w)) as Hs.
    { intros q Hq w [H1 H2]. split; [by apply open_served|by apply gone_served]. }
    eapply hoare_weaken; [| | |apply (delete_spec _ _ Hs rolling_nonempty)]; [done| |by left; apply H].
    by intros _ w [[_ ?] ?]. }
  intros _.
  assert (forall A (m : act W A), preserves all_gone m -> hoare all_gone m (fun _ => all_gone) honest) as Hgo.
  { intros A m Hm. apply hoare_preserves; [by right|done]. }
  apply Hgo. do 2 (apply preserves_bind; [apply gone_delete_secret|]; intros _).
  do 2 (apply preserves_bind; [apply gone_forget|]; intros _). apply preserves_bind; [apply gone_put|keep].
Qed.

Lemma revoke_once_spec :
  hoare honest (revoke_once E fromisoformat name id actor)
    (fun o w => match o with Known _ => all_gone w | UnknownError _ => honest w end) honest.
Proof.
  assert (forall A (m : act W A), hoare open_request m (fun _ => open_request) honest ->
    forall B (f : A -> act W B) Q, (forall a, hoare open_request (f a) Q honest) -> hoare open_request (m ≫= f) Q honest) as Hstep.
  { intros A m Hm B f Q Hf. by eapply hoare_bind. }
  assert (forall x, hoare open_request (revoke_effects E fromisoformat name id x)
    (fun o w => match o with Known _ => all_gone w | UnknownError _ => honest w end) honest) as Heffects.
  { intros x. eapply hoare_weaken; [| | |apply (effects_spec x)]; [done| |done]. intros [?|?] w H; [done|by right]. }
  unfold revoke_once. apply (hoare_bind _ _ _ (fun _ => honest)).
  { apply hoare_preserves; [done|]. apply preserves_effect. intros w [Ho|[G1 G2]].
    - left. intros x. unfold _read_receipt. rewrite claim_files. apply Ho.
    - right. split; intros k; rewrite claim_held; [apply G1|apply G2]. }
  intros [|]; cbn [negb]; [|by apply hoare_raise]. apply hoare_reads. intros found w [Hw Hf].
  destruct found as [retained|].
  - destruct (conflicts retained actor REVOKE); [done|]. destruct (completed retained) eqn:Ec.
    + destruct Hw as [Ho|Hg]; [|done]. by rewrite (Ho retained Hf) in Ec.
    + apply Heffects. intros x. rewrite Hf. by intros [= <-].
  - assert (open_request w) as Ho by (intros x; by rewrite Hf). clear Hw Hf. revert w Ho.
    apply Hstep; [apply hoare_preserves; [by left|keep]|]. intros owned. apply Hstep.
    + assert (forall n, preserves open_request (_gateway_exists E fromisoformat n)) as Hex by (intros n; apply keep_exists, served_reads, open_served).
      apply hoare_preserves; [by left|]. destruct owned; [keep|]. apply preserves_bind; [apply Hex|]. intros [|]; [keep|apply Hex].
    + intros [|]; cbn [negb]; [|apply hoare_raise; by left]. apply Hstep; [|intros; apply Heffects].
      intros w Ho. pose proof (write_spec E (_receipt_path name id) (revoke_receipt name id actor false) w) as H.
      assert (forall w', (file_at E w' (_receipt_path name id) = Stored (revoke_receipt name id actor false)
          \/ file_at E w' (_receipt_path name id) = file_at E w (_receipt_path name id)) -> open_request w') as Hgo.
      { intros w' [E'|E'] x; unfold _read_receipt; rewrite E'; [|apply Ho]. destruct (receipt_ok _); [|done]. by intros [= <-]. }
      destruct (_write_private E _ _ w) as [w' [a|e]]; destruct H as [H _]; [apply Hgo; by left|left; by apply Hgo].
Qed.

(** A request whose receipt is completed is answered from it: nothing is asked of the gateway and
    nothing is written. *)
Definition unchanged (w w' : W) : Prop := held w' = held w /\ forall p, file_at E w' p = file_at E w p.

Lemma replay_spec w0 x :
  _read_receipt E (_receipt_path name id) w0 = Some x -> completed x = true ->
  hoare (unchanged w0) (revoke_once E fromisoformat name id actor)
    (fun o w => match o with Known _ => unchanged w0 w /\ conflicts x actor REVOKE = false | UnknownError _ => unchanged w0 w end)
    (unchanged w0).
Proof.
  intros Hx Hc. unfold revoke_once. apply (hoare_bind _ _ _ (fun _ => unchanged w0)).
  { apply hoare_preserves; [done|]. apply preserves_effect. intros w [H1 H2]. split; [by rewrite claim_held|].
    intros p. by rewrite claim_files. }
  intros [|]; cbn [negb]; [|by apply hoare_raise]. apply hoare_reads. intros found w [[H1 H2] <-].
  assert (_read_receipt E (_receipt_path name id) w = Some x) as -> by (rewrite <- Hx; unfold _read_receipt; by rewrite H2).
  destruct (conflicts x actor REVOKE); [done|]. by rewrite Hc.
Qed.

(** C12.  A revocation that answers revoked, after any failures and retries of its own, left no
    key of the name in the gateway, nor of the temporary name of a rotation, unless the same
    request had completed before: then the answer is the replay of that completed revocation by
    the same actor, and neither the gateway nor a file is changed. *)
Theorem revoked_name_is_gone w w' r :
  revoke E fromisoformat name (Some id) actor w = (w', Ret (Known r)) ->
  (open_request w /\ forall k, k ∈ held w' -> held_alias k <> name /\ held_alias k <> _rolling_alias name) \/
  (exists x, _read_receipt E (_receipt_path name id) w = Some x /\ completed x = true /\
     receipt_action x = REVOKE /\ receipt_actor x = actor /\ unchanged w w').
Proof.
  unfold revoke, or_uuid. rewrite bool_decide_false by done. rewrite run_ret. unfold _observe_gateway.
  assert (open_request w \/ exists x, _read_receipt E (_receipt_path name id) w = Some x /\ completed x = true)
    as [Ho|(x & Hx & Hc)].
  { unfold open_request. destruct (_read_receipt E (_receipt_path name id) w) as [x|]; [|by left].
    destruct (completed x) eqn:Hc; [right; eauto|]. left. by intros ? [= <-]. }
  - pose proof (hoare_observe _ _ _ revoke_once_spec 3 None w (or_introl Ho)) as H.
    destruct (observe_attempts 3 _ None w) as [w1 [[v|u]|e]]; intros [= <- <-]. destruct H as [G1 G2]. left.
    split; [done|]. intros k Hk. split; [by apply G1|by apply G2].
  - pose proof (hoare_observe _ _ (fun _ w1 => unchanged w w1 /\ conflicts x actor REVOKE = false)
      (replay_spec w x Hx Hc) 3 None w ltac:(by split)) as H.
    destruct (observe_attempts 3 _ None w) as [w1 [[v|u]|e]]; intros [= <- <-]. destruct H as [Hu Hn]. right.
    unfold conflicts in Hn. bools. by exists x.
Qed.
End revoke.

(** ** A key whose name ends in [.rolling]

    The temporary alias of a rotation is a name a client may choose.  A key of that name has an
    intent file, which a create of the plain name takes for an unfinished rotation. *)
Section namesake.
Context (name : string).
Definition intent_left (w : W) : Prop := path_exists E (_intent_path (_rolling_alias name)) w = true.

Lemma left_files {A} (f : W -> W * A) : (forall w p, file_at E (fst (f w)) p = file_at E w p) -> preserves intent_left (effect f).
Proof. intros Hf. apply preserves_effect. intros w Hw. unfold intent_left, path_exists. by rewrite Hf. Qed.
Lemma left_write p x : preserves intent_left (_write_private E p x).
Proof.
  unfold _write_private. apply preserves_bind; [|intros []; keep]. apply preserves_effect. intros w Hw.
  unfold intent_left, path_exists. destruct (decide (p = _intent_path (_rolling_alias name))) as [->|Hne].
  - destruct (put_self (_intent_path (_rolling_alias name)) x w) as [->| ->]; [done|exact Hw].
  - by rewrite put_other.
Qed.
Lemma left_forget n s : preserves intent_left (_forget_intent E n s).
Proof.
  unfold _forget_intent. apply preserves_bind; [keep|]. intros [x|]; [|keep]. apply preserves_bind; [keep|]. intros archived.
  apply preserves_bind; [|intros; apply left_write]. destruct archived as [a|]; [destruct (completed a); [keep|]|]; apply left_write.
Qed.
Lemma left_service : forall page size secret,
  preserves intent_left (effect (serve E (KeyList page size))) /\ preserves intent_left (effect (serve E (KeyInfo secret))).
Proof. intros. split; apply left_files; intros; apply serve_files. Qed.

Lemma left_create_under c n models_ expires secret :
  preserves intent_left (_gateway_create_under E fromisoformat c n models_ expires secret).
Proof.
  assert (forall body, preserves intent_left (generate E fromisoformat n body)) as Hgen.
  { intros body. apply keep_generate; [apply left_service|apply left_files; intros; apply serve_files..]. }
  unfold _gateway_create_under. apply preserves_bind; [keep|]. intros intent.
  destruct (match intent with Some _ => _ | None => _ end) as [body|].
  - apply preserves_bind; [apply keep_observe_created, left_service|]. intros [v|]; [keep|apply Hgen].
  - apply preserves_bind; [unfold _routes_for; apply preserves_bind; [apply left_files; intros; apply grants_files|keep]|]. intros routes.
    apply preserves_bind; [destruct secret; [keep|apply preserves_bind; [apply left_files; intros; apply secret_files|keep]]|]. intros chosen.
    apply preserves_bind; [|intros; apply Hgen]. unfold persist_intent. apply preserves_catch; [|intros []; keep].
    apply preserves_bind.
    + assert (preserves intent_left (effect (draw_uuid E))) by (apply left_files; intros; apply uuid_files).
      unfold or_uuid. destruct (c_request c); [destruct (bool_decide _)|]; keep.
    + intros i. unfold record_intent. apply preserves_bind; [keep|]. intros prior. apply preserves_bind.
      * destruct prior; [destruct (_ && _); [apply left_forget|keep]|keep].
      * intros _. apply preserves_bind; [apply left_write|intros; apply left_write].
Qed.

(** C15.  Creating a key also removes the key whose name is this name with [.rolling] behind it,
    whenever that name was ever mutated: the code takes its intent for an unfinished rotation. *)
Theorem create_takes_its_namesake c models_ expires secret w w' v :
  path_exists E (_intent_path (_rolling_alias name)) w = true ->
  _gateway_create E fromisoformat c name models_ expires secret w = (w', Ret v) ->
  forall k, k ∈ held w' -> held_alias k <> _rolling_alias name.
Proof.
  intros Hleft. assert (_rolling_alias name <> EmptyString) as Hne by (unfold _rolling_alias; by destruct name).
  assert (hoare intent_left (_gateway_create E fromisoformat c name models_ expires secret) (fun _ => gone (_rolling_alias name)) (fun _ => True)) as H.
  2:{ specialize (H w Hleft). intros Hc. rewrite Hc in H. exact H. }
  assert (forall n s, preserves (gone (_rolling_alias name)) (_forget_intent E n s)) as Hforget.
  { assert (forall p x, preserves (gone (_rolling_alias name)) (_write_private E p x)) as Hput.
    { intros p x. unfold _write_private. apply preserves_bind; [|intros []; keep]. apply preserves_effect. intros w0 Hw k.
      rewrite put_held. apply Hw. }
    intros n s. unfold _forget_intent. apply preserves_bind; [keep|]. intros [x|]; [|keep]. apply preserves_bind; [keep|]. intros archived.
    apply preserves_bind; [|intros; apply Hput]. destruct archived as [a|]; [destruct (completed a); [keep|]|]; apply Hput. }
  unfold _gateway_create. apply (hoare_bind _ _ _ (fun _ => intent_left)); [apply hoare_preserves; [done|apply left_create_under]|].
  intros created. apply hoare_reads. intros [|] w0 [Hw Hu]; [|unfold intent_left in Hw; congruence]. clear Hu. revert w0 Hw.
  apply (hoare_bind _ _ _ (fun _ => gone (_rolling_alias name))).
  - apply (hoare_bind _ _ _ (fun b w => b = false -> gone (_rolling_alias name) w)).
    + eapply hoare_weaken; [| | |apply (exists_spec (fun _ => True) (_rolling_alias name))]; [done|by intros b w0 [_ ?]|done|by intros q|done].
    + intros present. apply (hoare_bind _ _ _ (fun _ => gone (_rolling_alias name))).
      * destruct present; [|apply hoare_ret; auto]. eapply hoare_weaken; [| | |apply (delete_spec (fun _ => True) (_rolling_alias name))]; [done|by intros a w0 [_ ?]|done|by intros q|done].
      * intros _. apply hoare_preserves; [done|apply Hforget].
  - intros _. apply (hoare_bind _ _ _ (fun _ => gone (_rolling_alias name))); [apply hoare_preserves; [done|apply Hforget]|].
    intros _. by apply hoare_ret.
Qed.
End namesake.
End revocation.

(** ** A gateway and its files *)
Record Shelf := { shelf_files : list (path * GatewayMutationReceipt); shelf_keys : list held_key; shelf_draws : nat }.
Definition set_keys (l : list held_key) (w : Shelf) : Shelf :=
  {| shelf_files := shelf_files w; shelf_keys := l; shelf_draws := shelf_draws w |}.

Definition key_members (k : held_key) : list (string * json) := [
  ("key_alias", JString (held_alias k)); ("models", JArray (JString <$> held_models k)); ("token", JString (held_secret k));
  ("expires", JNull)].

Definition shelf_serve (q : GatewayRequest) (w : Shelf) : Shelf * answer :=
  match q with
  | KeyList _ _ =>
      (w, Replied 200 (Some [("keys", JArray (map (fun k => JObject (key_members k)) (shelf_keys w))); ("total_pages", JInt 1)]))
  | KeyInfo secret =>
      (w, match List.find (fun k => bool_decide (held_secret k = secret)) (shelf_keys w) with
          | Some k => Replied 200 (Some [("info", JObject (key_members k))])
          | None => Replied 404 None
          end)
  | KeyGenerate b =>
      let k := {| held_secret := default EmptyString (key b); held_alias := key_alias b; held_models := models b |} in
      (set_keys (k :: shelf_keys w) w, Replied 200 (Some (("key", JString (held_secret k)) :: key_members k)))
  | KeyDelete aliases keys =>
      (set_keys (List.filter (fun k => negb (mem (held_alias k) aliases) && negb (mem (held_secret k) (default [] keys)))
                   (shelf_keys w)) w, Replied 200 (Some []))
  | KeyUpdate secret alias =>
      (set_keys (map (fun k => if bool_decide (held_secret k = secret)
                               then {| held_secret := secret; held_alias := alias; held_models := held_models k |} else k)
                   (shelf_keys w)) w, Replied 200 (Some []))
  | KeyRouteUpdate _ _ => (w, Replied 200 (Some []))
  end.

Definition shelf_file (w : Shelf) (p : path) : file :=
  match List.find (fun f => bool_decide (fst f = p)) (shelf_files w) with Some f => Stored (snd f) | None => Absent end.
Definition text_size (p : path) : nat := match p with ReceiptPath t => String.length t | IntentPath _ => 0 end.
Fixpoint repeated (n : nat) : string := match n with O => EmptyString | S n => String (Ascii.ascii_of_nat 117) (repeated n) end.
Definition longest (l : list (path * GatewayMutationReceipt)) : nat := fold_right (fun f n => Nat.max (text_size (fst f)) n) 0%nat l.

Definition shelf_env : Env Shelf := {|
  serve := shelf_serve;
  file_at := shelf_file;
  put p r w := ({| shelf_files := (p, r) :: shelf_files w; shelf_keys := shelf_keys w; shelf_draws := shelf_draws w |}, true);
  claim _ w := (w, true);
  draw_secret w := ({| shelf_files := shelf_files w; shelf_keys := shelf_keys w; shelf_draws := S (shelf_draws w) |},
                    ("secretsecretsecret" +:+ if Nat.even (shelf_draws w) then "b" else "c")%string);
  draw_uuid w := (w, repeated (longest (shelf_files w)));
  route_grants _ _ w := (w, Ret BASE_KEY_ROUTES);
  key_file_at _ := NoKeyFile;
  put_key_file _ w := (w, true);
  clock _ := 0 |}.

Lemma longest_elem l f : f ∈ l -> (text_size (fst f) <= longest l)%nat.
Proof. induction l as [|x l IH]; [by intros ?%elem_of_nil|]. intros [->|H]%elem_of_cons; simpl; [lia|]. apply IH in H. lia. Qed.
Lemma repeated_length n : String.length (repeated n) = n.
Proof. induction n as [|n IH]; [done|]. simpl. by rewrite IH. Qed.

#[export] Instance shelf_file_laws : FileLaws shelf_env.
Proof.
  split; try done.
  - intros p q r w Hpq. cbn. unfold shelf_file. cbn. by rewrite bool_decide_false.
  - intros p r w. left. cbn. unfold shelf_file. cbn. by rewrite bool_decide_true.
  - intros p r w _. cbn. unfold shelf_file. cbn. by rewrite bool_decide_true.
  - intros [] w p; done.
  - intros w n. cbn. unfold shelf_file. destruct (List.find _ (shelf_files w)) as [f|] eqn:Ef; [|done]. exfalso.
    apply List.find_some in Ef as [Hin Hp]. apply list_elem_of_In, longest_elem in Hin. bools.
    match goal with H : fst f = _ |- _ => rewrite H in Hin end. cbn [text_size] in Hin.
    rewrite !length_app, repeated_length in Hin. simpl in Hin. lia.
Qed.

#[export] Instance shelf_laws : GatewayLaws shelf_env shelf_keys.
Proof.
  refine {| pages _ := 1; page_of _ _ := 1 |}; try done.
  - intros aliases keys w k Hk. cbn in Hk. by apply elem_of_filter_bool in Hk as [? _].
  - intros page w payload raws [= <-] _. done.
  - intros page w payload raws k [= <-] [= <-] Hk _. exists (key_members k). split; [|done].
    apply list_elem_of_fmap. by exists k.
Qed.

Definition no_time (_ : string) : option datetime := None.
Definition empty_shelf : Shelf := {| shelf_files := []; shelf_keys := []; shelf_draws := 0 |}.
Definition shelf_create (name : string) (id : option string) : act Shelf (observed GatewayKeyCreated) :=
  create shelf_env no_time name (Some ["chat"]) None None id (Some "ada").

(** One key is made. *)
Definition team_shelf : Shelf := fst (shelf_create "team" (Some "req-1") empty_shelf).

Lemma repeated_create_returns_its_key_witness : exists v,
  shelf_create "team" (Some "req-1") empty_shelf = (team_shelf, Ret (Known v)) /\
  forall calls, shelf_create "team" (Some "req-1") (after_calls shelf_env no_time calls team_shelf) =
    (after_calls shelf_env no_time calls team_shelf,
     Ret (Known {| created_view := {| view_name := "team"; view_models := ["chat"%string]; view_created_at := None;
                                      view_expires_at := None; view_last_used_at := None |};
                   created_key := created_key v; created_request_id := Some "req-1"%string |})).
Proof.
  eexists. split; [vm_compute; reflexivity|]. intros calls.
  apply (repeated_create_returns_its_key shelf_env no_time "team" "req-1" (Some ["chat"%string]) None (Some "ada"%string)
    ltac:(done) ltac:(intros w; cbn; by destruct (Nat.even _)) calls empty_shelf team_shelf _ (Some ["chat"%string]) None (Some "ada"%string)).
  - split; [reflexivity|]. intros x. vm_compute. discriminate.
  - vm_compute. reflexivity.
Defined.

Definition revoked_shelf : Shelf := fst (revoke shelf_env no_time "team" (Some "req-2") (Some "ada"%string) team_shelf).

Lemma revoked_name_is_gone_witness :
  shelf_keys team_shelf <> [] /\ (forall k, k ∈ shelf_keys revoked_shelf -> held_alias k <> "team"%string) /\
  let again := fst (shelf_create "team" (Some "req-3") revoked_shelf) in
  shelf_keys (fst (revoke shelf_env no_time "team" (Some "req-2") (Some "ada"%string) again)) = shelf_keys again.
Proof.
  assert (forall w, snd (revoke shelf_env no_time "team" (Some "req-2") (Some "ada"%string) w) =
      Ret (Known {| revoked_name := "team"; revoked_request_id := Some "req-2"%string |}) ->
    revoke shelf_env no_time "team" (Some "req-2") (Some "ada"%string) w =
      (fst (revoke shelf_env no_time "team" (Some "req-2") (Some "ada"%string) w),
       Ret (Known {| revoked_name := "team"; revoked_request_id := Some "req-2"%string |}))) as Hpair.
  { intros w <-. by destruct (revoke _ _ _ _ _ w). }
  split; [vm_compute; discriminate|]. split.
  - intros k Hk.
    destruct (revoked_name_is_gone shelf_env shelf_keys no_time "team" "req-2" (Some "ada"%string)
      ltac:(done) ltac:(done) team_shelf _ _ (Hpair team_shelf ltac:(vm_compute; reflexivity))) as [[_ H]|(x & H & _)].
    + exact (proj1 (H k Hk)).
    + exfalso. vm_compute in H. discriminate.
  - intros again.
    destruct (revoked_name_is_gone shelf_env shelf_keys no_time "team" "req-2" (Some "ada"%string)
      ltac:(done) ltac:(done) again _ _ (Hpair again ltac:(vm_compute; reflexivity))) as [[Ho _]|(x & _ & _ & _ & _ & H & _)].
    + exfalso. specialize (Ho (revoke_receipt "team" "req-2" (Some "ada"%string) true) ltac:(vm_compute; reflexivity)).
      vm_compute in Ho. discriminate.
    + exact H.
Defined.

Definition aliases (w : Shelf) : list string := held_alias <$> shelf_keys w.

(** A client's own key [a.rolling], and what a create of [a] does to it. *)
Definition named_shelf : Shelf := fst (shelf_create "a.rolling" (Some "req-1") empty_shelf).

Example rolling_is_a_name : _NAME_PATTERN "a.rolling" = true /\ aliases named_shelf = ["a.rolling"%string] /\
  aliases (fst (shelf_create "a" (Some "req-2") named_shelf)) = ["a"%string].
Proof. vm_compute. done. Qed.

Lemma create_takes_its_namesake_witness : exists w v,
  _gateway_create shelf_env no_time no_context "a" None None None named_shelf = (w, Ret v) /\
  aliases named_shelf = ["a.rolling"%string] /\ forall k, k ∈ shelf_keys w -> held_alias k <> "a.rolling"%string.
Proof.
  eexists _, _. split; [vm_compute; reflexivity|]. split; [vm_compute; reflexivity|]. intros k Hk.
  refine (create_takes_its_namesake shelf_env shelf_keys no_time "a" no_context None None None named_shelf _ _ _ _ k Hk); vm_compute; reflexivity.
Defined.

(** A retry that read the receipt before the first request completed, and takes the claim after
    it: the key the first request returned is replaced. *)
Definition first_context : context := {| c_request := Some "req-1"%string; c_actor := Some "ada"%string; c_action := CREATE |}.
Example late_retry_replaces_the_key :
  let first := shelf_create "team" (Some "req-1") empty_shelf in
  let late := create_once shelf_env no_time "team" (Some ["chat"%string]) None None first_context (fst first) in
  match snd first, snd late with
  | Ret (Known v), Ret (Known v') => created_key v <> created_key v' /\ created_key v ∉ held_secret <$> shelf_keys (fst late)
  | _, _ => False
  end.
Proof. vm_compute. split; [discriminate|]. set_solver. Qed.
